(* ===== verification/_CoqProject ===== *)
-Q . S2P
Prelude.v
Zephyr.v
Err.v
Power.v
Storage.v
LorawanSettings.v
SettingsFlows.v
LorawanBackend.v
LorawanSim.v
LorawanCore.v
LorawanCredentials.v
LorawanChannel.v
LorawanApi.v
Lorawan.v
LorawanService.v
LorawanFlows.v
LorawanClient.v
BackendView.v
Fuota.v
FuotaSteps.v
Lora.v
CString.v
At.v
AtParser.v
AtArgs.v
AtSystem.v
AtLorawan.v
AtLorawanNet.v
AtLora.v
AtDevice.v
AtLorawanFlows.v
AtDeviceSim.v
AtLoraFlows.v
AtDeviceFlows.v
ZephyrBackend.v
ZephyrWorker.v
ZephyrFlows.v
ZephyrLora.v
LoraLoopback.v
Usp.v
UspBackend.v
UspFeatures.v
UspSteps.v
UspFlows.v
UspSim.v
UspLora.v
UspLoraSteps.v
UspLoraFlows.v
UspLoraSim.v
SampleKernel.v
PeriodicalUplink.v
UplinkFlows.v
SampleThread.v
SpectralScan.v
RfCertification.v
RfCertFlows.v
PingPong.v
LorawanSamples.v
FuotaSample.v
LcttSample.v
AtSample.v
