(* ===== verification/Prelude.v ===== *)
(** * RZI: a verification library for the RZI C SDK

    RZI is the RAKwireless SDK layer over Zephyr (C, under src/src and
    src/include/rzi): an error catalog, a power service, a storage service, and
    on top of them the backend-independent LoRaWAN service with its settings,
    credentials, channel plan, optional network functions, and the FUOTA
    firmware-update service; a raw LoRa / FSK service; the backends of both;
    an AT command port over all of them; and the sample applications.  This library is a shallow embedding of that code:
    each C function is a Rocq function of the same name in a state monad
    [M S A = S -> A * S] over the file-scope variables it can reach; results
    are the C [int]s (0 or a negative catalog code), pointers that may be NULL
    are [option]s, and buffers are lists of byte values.

    ** The parts and how they interact

    - Prelude.v (this file): the monad and its notations, loops with early
      exit, fixed-width wrap-around ([u8], [u16], [u32]), byte-list slices, the
      reasoning rules ([wp], [preserves], [keeps], [respects]), the [frame]
      automation, generic list and integer lemmas.
    - Zephyr.v: everything the SDK calls that is not in its repository, as
      classes of operations ([Zephyr], [Errno], [Kconfig], [ExecCtx]) with
      classes of laws for the documented behaviour relied on ([PmOk],
      [SettingsOk], [BytesOk], [MsgqOk], [ErrnoOk], [KconfigOk]); the module
      [Instances] has concrete platforms, on which the witnesses run.
    - Err.v: include/rzi/err.h and src/common/common_err.c.
    - Power.v: src/power/power.c; state [power_state].
    - Storage.v: src/storage/storage_settings.c and src/common/common_init.c;
      state [storage_state], which contains the settings subsystem and the
      power service whose flash lock every write takes.
    - LorawanSettings.v: src/lorawan/lorawan_settings.c; state [schema_state],
      the table [settings] over the storage service.  SettingsFlows.v: the
      schema over the runs of a boot.
    - LorawanBackend.v: the backend contract (src/lorawan/backend/*.h) as a
      record of operations over an abstract backend state, each of which may
      publish events; and [world], the whole state of the LoRaWAN service: the
      settings below, the credentials, the variables of lorawan.c, subscriber
      slots, attached services, the event queue, the backend, and the state of
      the code behind callbacks ([w_ext]).
    - LorawanSim.v: a concrete backend and application for the witnesses.
    - LorawanCore.v: context checks, class C power lock, api/lorawan_config.c.
    - LorawanCredentials.v: api/lorawan_credentials.c.
    - LorawanChannel.v: api/lorawan_channel.c.
    - LorawanApi.v: api/lorawan_network.c, _session.c, _class_b.c,
      _multicast.c, _certification.c, _mac_commands.c.
    - Lorawan.v: lorawan.c, the definitions.  LorawanService.v: the service as
      a transition system and its invariant.  LorawanFlows.v: the functional
      theorems of lorawan.c.
    - Fuota.v: services/fuota/lorawan_fuota.c, attached to the core through
      [rzi_lorawan_register_service].  FuotaSteps.v: its critical sections as a
      step relation, with the abstract machine they follow.
    - ZephyrBackend.v: lorawan/backend/zephyr/*.c, an implementation of the
      operation tables over Zephyr's LoRaWAN stack and work queue (parameters);
      state [zephyr_state].  ZephyrWorker.v: callers, worker thread and stack
      callbacks as a step relation, with its invariant and progress.
      ZephyrFlows.v: the service over this backend, an executable scheduler and
      the concrete runs.
    - BackendView.v: the service seen from its backend, shared by the theorems
      about the service over a concrete backend.
    - Usp.v: usp/usp_platform.c, the engine lock and the consumer of modem
      events, over LoRa Basics Modem (the class [Lbm]); state [usp_platform].
    - UspBackend.v, UspFeatures.v: lorawan/backend/usp/*.c, an implementation of
      the operation tables over the modem; state [usp_state].  UspSteps.v:
      operations, starts and modem events as a step relation, a specification
      automaton and the simulation.  UspFlows.v: the functional theorems and
      the service over this backend.  UspSim.v: a simulated modem.
    - Lora.v: src/lora/lora.c over the operations of its radio backend; state
      [lora_state].  ZephyrLora.v: lora/backend/lora_backend_zephyr.c as such a
      backend, over Zephyr's blocking radio driver.  LoraLoopback.v:
      lora/backend/lora_backend_test.c, the backend of host builds.
    - UspLora.v: lora/backend/lora_backend_usp.c, over the radio access
      controller (the class [Rac]); state [p2p_vars].  UspLoraSteps.v: its calls
      and radio callbacks as a step relation, with a specification automaton.
      UspLoraFlows.v: the functional theorems and the service over this
      backend.  UspLoraSim.v: a simulated controller.
    - CString.v: the C string and number conversions the AT port uses.
    - At.v: src/at/at.c, at_parser.c, at_registry.c, the definitions; state
      [at_state].  AtParser.v: its theorems.
    - AtArgs.v: the argument conversions of the command packages.
    - AtSystem.v: commands/at_command_system.c, at_network_mode.c and
      adapters/at_adapter_uart.c; state [system_state].
    - AtLorawan.v, AtLorawanNet.v: commands/lorawan/*.c; state
      [rzi_at_lorawan_context].  AtLora.v: commands/lora/*.c.
    - AtDevice.v: the composition; it implements the interfaces of At.v,
      AtSystem.v and Lorawan.v with the packages: handlers by name, extensions,
      mode listener, event callback.
    - AtLorawanFlows.v, AtLoraFlows.v, AtDeviceFlows.v: the theorems of the
      packages and of the composition.  AtDeviceSim.v: a simulated device.
    - LorawanClient.v: the LoRaWAN service seen from an application: what every
      public call may do to a state, the interface [ServiceEffects].
    - SampleKernel.v, SampleThread.v: what the samples (src/samples) use of the
      kernel, as classes: log lines, delayed work, clock, semaphores, random
      source; polling loops ([until]); and the code the radio samples share.
    - PeriodicalUplink.v: samples/lorawan/periodical_uplink, the application and
      the step relation of dispatcher, work items and backend.  UplinkFlows.v:
      its handlers over a free and over the Zephyr backend, and runs.
    - SpectralScan.v: samples/lora/spectral_scan and tx_cw.  RfCertification.v,
      RfCertFlows.v: samples/lora/rf_certification and its theorems.
      PingPong.v: samples/lora/ping_pong.  LorawanSamples.v, FuotaSample.v,
      LcttSample.v: samples/lorawan/fuota and lctt_certif.  AtSample.v: samples/at.

    Calls go down this list; upwards there are only events.  A backend
    operation publishes into the event queue ([publish]); [dispatcher_step]
    takes one event, runs the join state machine on it, and calls subscribers
    and attached services ([LorawanHooks]), which may call any public function
    again.  Callbacks are therefore arbitrary state transformers; what the
    theorems ask of them is the interface [hooks_are_clients]: they act on the
    service only through [client_step], that is through public functions, the
    backend, and state of their own.  [fuota_attaches] proves that the FUOTA
    service meets that interface, so everything proved of the core for
    arbitrary clients holds with FUOTA attached.

    The AT port is a client of everything below it.  Bytes arrive through
    [rzi_at_receive] into the ring; a round of the AT thread ([thread_round])
    drains it into the line editor, which executes a line at its end; a command
    line is parsed, looked up in the registry and handed to its handler; and
    events of the services come back as +EVT lines.  Its function pointers are
    names, resolved by the interfaces [AtHandlers], [AtExtensions] and
    [ModeListeners], so that the port is proved once for any command packages
    and the packages that are built in are an instance (AtDevice.v).  The
    variables of the port and its packages are in the part of the state that
    belongs to the application ([w_ext]), reached through lenses with laws
    ([AtEnvOk], [SystemOk], [LorawanAtOk]).  A reset of the MCU does not
    return: [resets] counts it, the state of the model after the call is the
    last one of the boot that ends, and the next boot starts from [at_boot].

    ** What the theorems show

    - Err: every result of [rzi_err_from_errno] is in the closed catalog,
      catalog codes are fixed points, and each documented number maps to its
      code.
    - Power: the native PM lock carries exactly the counted references and the
      8-bit counters never wrap.
    - Storage: records and raw values read back as written, also with their
      version; a failing read delivers nothing; distinct keys do not interfere;
      the flash lock is given back on every path; names are injective.
    - Settings: values handed out are valid; over the runs of a boot in which
      nothing failed destructively, a written value survives a restart and a
      read returns what the flash holds; a successful clear erases everything; a
      failing one can hide a loss.
    - Credentials: the store is a view of the cached settings, loaded all or
      nothing, locked while joining; set/get round trips; policy merge; the
      join configuration built from it.
    - Channels: sub-band, fixed-channel and mask round trips.
    - Optional functions: nothing reaches the backend before the start, with
      arguments out of range, or through an absent table; link-check modes.
    - Service: [service_invariant] over every reachable state; a join sequence
      from its start to success, stop or the last retry; each dispatched event
      is delivered once to each subscriber; lost events are reported; start-up,
      uplinks, registration, class C power lock, leave.
    - FUOTA: the state machine and its account with the flash power lock, over
      every interleaving of its critical sections with events, calls, callbacks
      and installations; the image measurement; the copy loop (the slot, not the
      buffer of the image writer, holds exactly the received image); every way
      out of apply, and what becomes of an installation that a join overtakes.
    - LoRa: the invariant of the service under any calls and radio activity;
      payloads survive the cipher end to end; every way out of start and stop.
    - Zephyr backends: the tables keep the contract the service asserts; in every
      interleaving of callers, worker and callbacks an accepted uplink is sent
      unchanged and reported exactly once, and six worker steps complete it; an
      attempt of a join sequence reports within five; the steps that lose a
      sequence, and what the service's last retry does to later joins; device
      nonces; an uplink accepted by the service is the one the worker owns; the
      radio backend meets the interface of Lora.v.
    - USP LoRaWAN backend: every execution, over any modem, refines an automaton
      of readiness, pending uplink and Class B state, so uplinks and their
      completions correspond one to one and Class B events name each change;
      the lock is given back on every path; nothing reaches the modem before
      its reset, and what a reset restores; events and downlinks are handed on
      once and in order; the multicast groups are a map; the join backoff is
      exact across the wrap of the clock; the tables keep the contract of the
      service, and an uplink the service accepts is the one the modem took.
    - USP radio backend: every interleaving of calls, callbacks, poll and stop
      refines an automaton with a one-place mailbox of completions; test mode
      and reception exclude each other and the buffer of an uplink in flight is
      not touched; the windows of a reception end at its deadline; poll delivers
      everything once; the radio's configuration is the service's.
    - AT port: the parser refines a pure line editor; lines are bounded,
      printable and executed as typed after any garbage; the input loop ends
      having parsed each byte once; command lines print and parse back and
      reach their handler; the registry stays well formed; only the password
      or a restart opens a locked port; the ways out of start.
    - AT commands: what the built-in registration installs, and that every
      command has a handler; keys, texts, join parameters, P2P settings,
      channel groups and bands read back as written; the texts that are uplinks,
      and that they become exactly the uplink they say; the deferred join starts
      the service and runs once; the mode switch is all or
      nothing and durable; no radio command runs in the LoRaWAN mode.
    - Samples: the periodical uplink never stalls of its own accord and numbers
      its uplinks, down to the bytes the backend takes, is stalled by one lost
      answer, and over the Zephyr backend never sends; certification plans are
      admissible, a sweep puts every channel on the air once per pass, packets
      carry header and number; ping-pong frames
      are recognised through service and cipher, the account of the manager is
      right; a scan line shows its samples; waiting and sensing always end.

    ** Sequencing, bounds and fuel

    One operation runs at a time: the mutexes of the code make its critical
    sections atomic, and a step of the model is a whole function.  Where the
    code releases a lock, the model lets other code act: callbacks run between
    the parts of the function that calls them, [rzi_fuota_apply] is split
    where it drops its lock (its critical sections, and the copy between them,
    are steps of [fuota_step]), and the worker handlers of the Zephyr
    backend are split around the blocking call and before the publication.  The
    USP backends run each operation and each event of the engine under one
    lock, so these are the steps; poll and stop of the radio backend act on
    atomic variables outside it, access by access ([poll_within_completion]:
    poll between the two stores of a completion is poll beside it).  A callback of the radio
    controller comes after the submission it belongs to has returned; an abort
    may call back before it returns.

    Integers are [Z] with the wrap-around of their width written at the
    operations that can leave it.  Loops over tables are structural.  The other
    loops take fuel:
    [copy_loop] takes the byte count, and [copy_fuel] shows that more makes no
    difference; [drain] ends once the ring is empty, and [input_drained] shows
    that as many rounds as there are bytes are enough and more change nothing;
    [uart_drain] ends when the driver's FIFO is empty, which only the driver
    knows.  [event_loop] and [downlink_loop] take 256 rounds: the modem counts
    what waits behind an item in eight bits, and [modem_event_callback_delivers]
    and [usp_downlinks_delivered] show them to be enough; [poll_loop] takes 256
    for a queue of two packets, and [usp_poll_delivers] shows that one round
    more than there are packets is enough.  The argument parsers take the number of fields as fuel, as the
    loops of the code do.

    A sample's thread waits and sleeps; meanwhile everything else runs, so its
    kernel calls are arbitrary transformers of the whole state, and what is
    needed of them is in [ThreadEffects], [ClockOk], [CertOk], [RadioLog] and [PingOk].
    [wait_fuel] and [measure_fuel] are the rounds that fit into the timeout and
    one more; [wait_ends] and [sensing_ends] show that they are enough by the
    clock.  The endless loops of the samples ([sweep_loop], [transmit],
    [manager_loop], [subordinate_round], the joining loop of the FUOTA sample)
    take the rounds to look at: their theorems hold for every number.

    ** What is not modelled

    Log output below the samples, the dispatcher thread's creation, and mutex operations as such;
    preemption inside a critical section (in particular bytes that arrive
    while the AT thread parses).  LoRa Basics Modem, its radio access controller,
    Zephyr's LoRaWAN stack and its radio driver are not in the repository: they
    are parameters, with classes of the documented laws relied on.  The thread
    creation and the naming of the Zephyr worker are left out, and elapsing
    time: a delayed item may run at any step.  The BLE adapter of the AT port is
    an empty file.  In the samples the devicetree and the options of Kconfig are
    parameters, and an error is logged as its code, not its text.  The tests are
    used as documentation only. *)

From stdpp Require Export base gmap list strings.
From Stdlib Require Export ZArith Lia Ascii.
#[global] Open Scope Z_scope.

(** ** The state monad of a C function over the file-scope variables it
    reaches.  A C function of result type [A] is a value of [M S A]. *)
Definition M (S A : Type) : Type := S -> A * S.

Section monad.
Context {S : Type}.

Definition ret {A} (a : A) : M S A := fun s => (a, s).
Definition bind {A B} (m : M S A) (k : A -> M S B) : M S B :=
  fun s => match m s with (a, s') => k a s' end.
Definition gets {A} (f : S -> A) : M S A := fun s => (f s, s).
Definition modify (f : S -> S) : M S unit := fun s => (tt, f s).

(** [zoom get set m] runs [m] on the sub-state selected by [get] and [set]. *)
Definition zoom {T A} (get : S -> T) (set : T -> S -> S) (m : M T A) : M S A :=
  fun s => match m (get s) with (a, t) => (a, set t s) end.

(** A [for] loop whose body cannot leave the loop. *)
Fixpoint for_each {A} (l : list A) (body : A -> M S unit) : M S unit :=
  match l with
  | [] => ret tt
  | a :: l' => bind (body a) (fun _ => for_each l' body)
  end.

(** A [for] loop that runs a fallible body and returns at the first
    nonzero code: [rc = body(a); if (rc != 0) return rc;]. *)
Fixpoint for_rc {A} (l : list A) (body : A -> M S Z) : M S Z :=
  match l with
  | [] => ret 0
  | a :: l' => bind (body a) (fun rc => if rc =? 0 then for_rc l' body else ret rc)
  end.

(** A [for] loop that runs a fallible body on every element and keeps the
    first nonzero code: [if (one != 0 && rc == 0) rc = one;]. *)
Fixpoint for_first_error {A} (l : list A) (body : A -> M S Z) (rc : Z) : M S Z :=
  match l with
  | [] => ret rc
  | a :: l' =>
      bind (body a) (fun one =>
        for_first_error l' body
          (if negb (one =? 0) && (rc =? 0) then one else rc))
  end.
End monad.

Declare Scope c_scope.
Delimit Scope c_scope with c.
Notation "'let*' x := m 'in' k" := (bind m (fun x => k))
  (at level 10, x name, m at level 100, k at level 200) : c_scope.
Notation "'let*' ' p := m 'in' k" := (bind m (fun x => match x with p => k end))
  (at level 10, p pattern, m at level 100, k at level 200) : c_scope.
Notation "m ;;; k" := (bind m (fun _ => k))
  (at level 199, right associativity) : c_scope.
(** [rc = m; if (rc != 0) return r; k] *)
Notation "'rc*' rc := m 'else' r 'in' k" :=
  (bind m (fun rc => if rc =? 0 then k else ret r))
  (at level 10, rc name, m at level 100, r at level 100, k at level 200) : c_scope.
#[global] Open Scope c_scope.

(** ** Machine integers and C helpers *)
Definition UINT8_MAX : Z := 255.
Definition INT32_MAX : Z := 2147483647.
Definition u8 (z : Z) : Z := z mod 256.
Definition u16 (z : Z) : Z := z mod 65536.
Definition u32 (z : Z) : Z := z mod 4294967296.
Definition BIT (n : Z) : Z := Z.shiftl 1 n.
Definition b2z (b : bool) : Z := if b then 1 else 0.
Definition zlen {A} (l : list A) : Z := Z.of_nat (length l).
Definition zstrlen (s : string) : Z := Z.of_nat (String.length s).
(** Valid values of a C [uint8_t]. *)
Definition byte_range (b : Z) : Prop := 0 <= b < 256.

(** [l\[i\]] inside the array bounds; the library never reads outside. *)
Definition at_ (l : list Z) (i : Z) : Z := nth (Z.to_nat i) l 0.

(** [memcpy(dst + off, src, len(src))] into a buffer. *)
Definition overlay (dst : list Z) (off : nat) (src : list Z) : list Z :=
  take off dst ++ src ++ drop (off + length src) dst.
(** [memcpy] of [n] bytes read from [src + off]. *)
Definition slice (src : list Z) (off n : nat) : list Z := take n (drop off src).

Lemma zlen_nil {A} : zlen (@nil A) = 0. Proof. done. Qed.
Lemma zlen_app {A} (l l' : list A) : zlen (l ++ l') = zlen l + zlen l'.
Proof. unfold zlen. rewrite length_app. lia. Qed.
Lemma zlen_nonneg {A} (l : list A) : 0 <= zlen l.
Proof. unfold zlen. lia. Qed.
Lemma overlay_all (dst src : list Z) : (length dst <= length src)%nat -> overlay dst 0 src = src.
Proof. intros. unfold overlay. cbn. by rewrite drop_ge, app_nil_r by lia. Qed.
Lemma length_overlay dst off src : (off + length src <= length dst)%nat ->
  length (overlay dst off src) = length dst.
Proof. intros. unfold overlay. rewrite !length_app, length_take, length_drop. lia. Qed.

(** ** Hoare reasoning: what a call returns and how it leaves the state *)
Section hoare.
Context {S : Type}.

(** Weakest precondition of a total C call. *)
Definition wp {A} (m : M S A) (Q : A -> S -> Prop) : S -> Prop :=
  fun s => Q (m s).1 (m s).2.

Lemma wp_ret {A} (a : A) Q s : Q a s -> wp (ret a) Q s.
Proof. done. Qed.

Lemma wp_bind {A B} (m : M S A) (k : A -> M S B) Q s :
  wp m (fun a => wp (k a) Q) s -> wp (bind m k) Q s.
Proof. unfold wp, bind. by destruct (m s). Qed.

Lemma wp_gets {A} (f : S -> A) Q s : Q (f s) s -> wp (gets f) Q s.
Proof. done. Qed.

Lemma wp_modify (f : S -> S) (Q : unit -> S -> Prop) s :
  Q tt (f s) -> wp (modify f) Q s.
Proof. done. Qed.

Lemma wp_mono {A} (m : M S A) (Q Q' : A -> S -> Prop) s :
  (forall a s', Q a s' -> Q' a s') -> wp m Q s -> wp m Q' s.
Proof. unfold wp; auto. Qed.

Lemma wp_and {A} (m : M S A) (Q Q' : A -> S -> Prop) s :
  wp m Q s -> wp m Q' s -> wp m (fun a s' => Q a s' /\ Q' a s') s.
Proof. unfold wp; auto. Qed.

(** ** Relational frame reasoning: [respects R m] says that every call of
    [m] moves the state along [R]; it is closed under all the ways the
    library composes calls when [R] is a preorder. *)
Definition respects {A} (R : S -> S -> Prop) (m : M S A) : Prop :=
  forall s, R s (m s).2.

(** Preservation of an invariant. *)
Definition preserves {A} (I : S -> Prop) (m : M S A) : Prop :=
  forall s, I s -> I (m s).2.

Section closure.
Context (R : S -> S -> Prop) {HR : PreOrder R}.

Lemma respects_ret {A} (a : A) : respects R (ret a).
Proof. intros s. cbn. reflexivity. Qed.
Lemma respects_gets {A} (f : S -> A) : respects R (gets f).
Proof. intros s. cbn. reflexivity. Qed.
Lemma respects_bind {A B} (m : M S A) (k : A -> M S B) :
  respects R m -> (forall a, respects R (k a)) -> respects R (bind m k).
Proof.
  intros Hm Hk s. unfold bind. specialize (Hm s).
  destruct (m s) as [a s1]. etransitivity; [exact Hm | apply Hk].
Qed.
Lemma respects_modify (f : S -> S) : (forall s, R s (f s)) -> respects R (modify f).
Proof. intros H s. apply H. Qed.
Lemma respects_zoom {T A} get set (m : M T A) :
  (forall s, R s (set (m (get s)).2 s)) -> respects R (zoom get set m).
Proof. intros H s. unfold zoom. specialize (H s). by destruct (m (get s)). Qed.
Lemma respects_for_each {A} (l : list A) body :
  (forall a, respects R (body a)) -> respects R (for_each l body).
Proof.
  intros Hb. induction l; cbn; [apply respects_ret | by apply respects_bind].
Qed.
Lemma respects_for_rc {A} (l : list A) body :
  (forall a, respects R (body a)) -> respects R (for_rc l body).
Proof.
  intros Hb. induction l; cbn; [apply respects_ret|].
  apply respects_bind; [done|]. intros rc. destruct (rc =? 0); auto using respects_ret.
Qed.
Lemma respects_for_first_error {A} (l : list A) body rc :
  (forall a, respects R (body a)) -> respects R (for_first_error l body rc).
Proof.
  intros Hb. revert rc. induction l; intros rc; cbn; [apply respects_ret|].
  by apply respects_bind.
Qed.
End closure.

Section closure_inv.
Context (I : S -> Prop).
Lemma preserves_ret {A} (a : A) : preserves I (ret a).
Proof. by intros s. Qed.
Lemma preserves_gets {A} (f : S -> A) : preserves I (gets f).
Proof. by intros s. Qed.
Lemma preserves_bind {A B} (m : M S A) (k : A -> M S B) :
  preserves I m -> (forall a, preserves I (k a)) -> preserves I (bind m k).
Proof.
  intros Hm Hk s Hs. unfold bind. specialize (Hm s Hs).
  destruct (m s) as [a s1]. by apply Hk.
Qed.
Lemma preserves_modify (f : S -> S) : (forall s, I s -> I (f s)) -> preserves I (modify f).
Proof. intros H s. apply H. Qed.
Lemma preserves_for_rc {A} (l : list A) body :
  (forall a, preserves I (body a)) -> preserves I (for_rc l body).
Proof.
  intros Hb. induction l; cbn; [apply preserves_ret|].
  apply preserves_bind; [done|]. intros rc. destruct (rc =? 0); auto using preserves_ret.
Qed.
Lemma preserves_for_each {A} (l : list A) body :
  (forall a, preserves I (body a)) -> preserves I (for_each l body).
Proof.
  intros Hb. induction l; cbn; [apply preserves_ret | by apply preserves_bind].
Qed.
Lemma preserves_for_first_error {A} (l : list A) body rc :
  (forall a, preserves I (body a)) -> preserves I (for_first_error l body rc).
Proof.
  intros Hb. revert rc. induction l; intros rc; cbn; [apply preserves_ret|]. by apply preserves_bind.
Qed.
End closure_inv.
End hoare.

(** [keeps f]: the call leaves the observation [f] of the state alone. *)
Definition same {S X} (f : S -> X) : S -> S -> Prop := fun s s' => f s' = f s.
#[export] Instance same_preorder {S X} (f : S -> X) : PreOrder (same f).
Proof. split; unfold same; congruence. Qed.
Abbreviation keeps f m := (respects (same f) m).

Create HintDb frame discriminated.
#[export] Hint Resolve respects_ret respects_gets respects_bind respects_modify
  respects_for_each respects_for_rc respects_for_first_error : frame.
#[export] Hint Resolve same_preorder : frame.

(** Evaluate both sides of an equation on a concrete input. *)
Ltac vm_refl := lazymatch goal with |- ?a = ?b => vm_cast_no_check (@eq_refl _ b) end.
Lemma bind_eq {S A B} (m : M S A) (k : A -> M S B) s : bind m k s = k (m s).1 (m s).2.
Proof. unfold bind. by destruct (m s). Qed.
(** [mrun] exposes the state transformer of a call. *)
Ltac mrun :=
  repeat (progress (cbv beta iota delta [bind ret gets modify zoom] || cbn [fst snd])).
(** [frame]: decompose a call along its control flow and close the leaves. *)
Ltac frame_step :=
  lazymatch goal with
  | |- respects _ (ret _) => apply respects_ret; apply _
  | |- respects _ (gets _) => apply respects_gets; apply _
  | |- respects _ (bind _ _) => apply respects_bind; [apply _ | | intros ?]
  | |- respects _ (for_rc _ _) => apply respects_for_rc; [apply _ | intros ?]
  | |- respects _ (for_each _ _) => apply respects_for_each; [apply _ | intros ?]
  | |- respects _ (for_first_error _ _ _) => apply respects_for_first_error; [apply _ | intros ?]
  | |- respects _ (match ?x with _ => _ end) => destruct x
  | |- respects _ _ => solve [auto with frame]
  end.
Ltac frame := repeat frame_step.
Ltac preserve_step :=
  lazymatch goal with
  | |- preserves _ (ret _) => apply preserves_ret
  | |- preserves _ (gets _) => apply preserves_gets
  | |- preserves _ (bind _ _) => apply preserves_bind; [ | intros ?]
  | |- preserves _ (for_rc _ _) => apply preserves_for_rc; intros ?
  | |- preserves _ (for_each _ _) => apply preserves_for_each; intros ?
  | |- preserves _ (match ?x with _ => _ end) => destruct x
  | |- preserves _ _ => solve [auto with frame]
  end.
Ltac preserve := repeat preserve_step.
(** Case analysis on every test the goal still waits for. *)
Ltac cases :=
  repeat match goal with
         | |- context [match ?x with _ => _ end] => destruct x eqn:?; cbn; try done
         end.
(** Turn the boolean tests of the code into propositions. *)
Ltac zify_tests :=
  repeat match goal with
         | H : (_ =? _) = true |- _ => apply Z.eqb_eq in H
         | H : (_ =? _) = false |- _ => apply Z.eqb_neq in H
         | H : (_ <? _) = true |- _ => apply Z.ltb_lt in H
         | H : (_ <? _) = false |- _ => apply Z.ltb_ge in H
         | H : (_ <=? _) = true |- _ => apply Z.leb_le in H
         | H : (_ <=? _) = false |- _ => apply Z.leb_gt in H
         | H : negb _ = true |- _ => apply negb_true_iff in H
         | H : negb _ = false |- _ => apply negb_false_iff in H
         | H : _ && _ = true |- _ => apply andb_true_iff in H as [? ?]
         | H : _ || _ = false |- _ => apply orb_false_iff in H as [? ?]
         end.
