(* ===== verification/Zephyr.v ===== *)
(** * The platform below the SDK

    Everything the SDK calls that is not in the repository, as operations of
    type classes: Zephyr's PM policy, settings, NVS, CRC, byte-order and
    message-queue APIs, the libc error numbers, the Kconfig options that
    select the compiled code, and whether the caller runs in an interrupt.
    Each class of operations has a class of laws that states the documented
    behaviour the SDK relies on.  The module [Instances] at the end gives
    concrete platforms, on which the library's witnesses run. *)
From S2P Require Import Prelude.

(** ** Interrupt context of the running call. *)
Class ExecCtx : Type := { k_is_in_isr : bool }.

(** ** Kconfig options (zephyr/Kconfig.* of the repository, and Zephyr's). *)
Class Kconfig : Type := {
  CONFIG_PM : bool;
  CONFIG_RZI_POWER : bool;
  CONFIG_RZI_POWER_AUTO_SERVICE_LOCK : bool;
  CONFIG_RZI_STORAGE : bool;
  CONFIG_RZI_STORAGE_RECORD_MAX_SIZE : Z;
  CONFIG_SETTINGS_NVS : bool;
  CONFIG_RZI_LORAWAN_MAX_CALLBACKS : Z;
  CONFIG_RZI_LORAWAN_EVENT_QUEUE_SIZE : Z;
  CONFIG_RZI_LORAWAN_FUOTA : bool;
  CONFIG_RZI_LORAWAN_FUOTA_AUTO_APPLY : bool;
  CONFIG_RZI_LORAWAN_FUOTA_KEEPALIVE_INTERVAL_S : Z;
  CONFIG_RZI_LORAWAN_FUOTA_KEEPALIVE_PORT : Z;
  CONFIG_IMG_MANAGER : bool;
  CONFIG_RZI_AT_ECHO : bool;
  CONFIG_RZI_AT_MAX_COMMANDS : Z;
  CONFIG_RZI_AT_MAX_EXTENSIONS : Z;
  CONFIG_RZI_AT_LINE_MAX : Z;
  CONFIG_RZI_AT_RX_BUFFER_SIZE : Z;
  CONFIG_RZI_AT_TX_BUFFER_SIZE : Z;
  CONFIG_RZI_AT_NVM : bool;
  CONFIG_RZI_AT_COMMAND_LORAWAN : bool;
  CONFIG_RZI_AT_COMMAND_LORA : bool;
  CONFIG_ZTEST : bool;
}.

(** The [range] lines of the Kconfig files. *)
Class KconfigOk `{Kconfig} : Prop := {
  record_max_range : 16 <= CONFIG_RZI_STORAGE_RECORD_MAX_SIZE <= 2048;
  max_callbacks_range : 1 <= CONFIG_RZI_LORAWAN_MAX_CALLBACKS <= 16;
  event_queue_range : 4 <= CONFIG_RZI_LORAWAN_EVENT_QUEUE_SIZE <= 64;
  max_commands_range : 8 <= CONFIG_RZI_AT_MAX_COMMANDS <= 256;
  max_extensions_range : 1 <= CONFIG_RZI_AT_MAX_EXTENSIONS <= 16;
  line_max_range : 64 <= CONFIG_RZI_AT_LINE_MAX <= 2048;
  rx_buffer_range : 128 <= CONFIG_RZI_AT_RX_BUFFER_SIZE <= 4096;
  tx_buffer_range : 128 <= CONFIG_RZI_AT_TX_BUFFER_SIZE <= 2048;
}.

(** [defined(CONFIG_RZI_POWER) && defined(CONFIG_RZI_POWER_AUTO_SERVICE_LOCK)] *)
Definition auto_service_lock `{Kconfig} : bool :=
  CONFIG_RZI_POWER && CONFIG_RZI_POWER_AUTO_SERVICE_LOCK.

(** ** libc error numbers.  The values belong to the C library; the switch in
    common_err.c compiles only when the labels it keeps are distinct. *)
Class Errno : Type := {
  EINVAL : Z; EWOULDBLOCK : Z; EAGAIN : Z; EALREADY : Z; EBUSY : Z;
  ENOTSUP : Z; ENOSYS : Z; EOPNOTSUPP : Z; ENOMEM : Z; ENOENT : Z;
  ENODATA : Z; EMSGSIZE : Z; ENAMETOOLONG : Z; ETIMEDOUT : Z; EOVERFLOW : Z;
  ENOSPC : Z; EBADMSG : Z; ENODEV : Z; ENETDOWN : Z; EACCES : Z; EPERM : Z;
  EEXIST : Z; EIO : Z;
}.
Definition errno_labels `{Errno} : list Z :=
  [EINVAL; EWOULDBLOCK; EALREADY; EBUSY; ENOTSUP; ENOMEM; ENOENT; ENODATA;
   EMSGSIZE; ENAMETOOLONG; ETIMEDOUT; EOVERFLOW; ENOSPC; EBADMSG; ENODEV;
   ENETDOWN; EACCES; EEXIST; EIO].
(** The labels the [#if]s drop when they alias a label of [errno_labels]. *)
Definition errno_aliases `{Errno} : list (Z * Z) :=
  [(EAGAIN, EWOULDBLOCK); (ENOSYS, ENOTSUP); (EOPNOTSUPP, ENOTSUP); (EPERM, EACCES)].
Class ErrnoOk `{Errno} : Prop := {
  errno_range : Forall (fun e => 0 < e < 1000) errno_labels;
  errno_alias_range : Forall (fun p => 0 < p.1 < 1000) errno_aliases;
  errno_distinct : NoDup errno_labels;
  errno_alias_distinct :
    NoDup (EAGAIN :: ENOSYS :: EOPNOTSUPP :: [EPERM]) /\
    Forall (fun p => Forall (fun l => l = p.2 \/ l <> p.1) errno_labels) errno_aliases;
}.

(** ** Zephyr services. *)
Inductive k_timeout : Type := K_FOREVER | K_MSEC (ms : Z).

Class Zephyr : Type := {
  (* zephyr/pm/policy.h and k_sleep *)
  pm_st : Type;
  pm_policy_state_all_lock_get : pm_st -> pm_st;
  pm_policy_state_all_lock_put : pm_st -> pm_st;
  k_sleep : k_timeout -> pm_st -> pm_st;
  (* zephyr/settings/settings.h; a load returns the buffer prefix it wrote *)
  flash : Type;
  settings_subsys_init : M flash Z;
  settings_load_one : string -> Z -> M flash (Z * list Z);
  settings_save_one : string -> list Z -> M flash Z;
  settings_get_val_len : string -> M flash Z;
  settings_delete : string -> M flash Z;
  (* the (key, len) pairs handed to the callback, in order *)
  settings_load_subtree_direct : string -> M flash (Z * list (option string * Z));
  (* zephyr/kvss/nvs.h: the handle, its sector geometry, and free space *)
  nvs_fs : Type;
  settings_storage_get : M flash (Z * option nvs_fs);
  nvs_calc_free_space : nvs_fs -> M flash Z;
  nvs_sector_max_data_size : nvs_fs -> M flash Z;
  nvs_sector_size : nvs_fs -> Z;
  nvs_sector_count : nvs_fs -> Z;
  (* zephyr/sys/crc.h *)
  crc32_ieee : list Z -> Z;
  crc32_ieee_update : Z -> list Z -> Z;
  (* zephyr/sys/byteorder.h *)
  sys_put_le16 : Z -> list Z;
  sys_put_le32 : Z -> list Z;
  sys_get_le16 : list Z -> Z;
  sys_get_le32 : list Z -> Z;
  sys_put_be32 : Z -> list Z;
  sys_get_be32 : list Z -> Z;
  (* K_MSGQ_DEFINE, k_msgq_put(K_NO_WAIT), k_msgq_get *)
  msgq : Type -> Type;
  k_msgq_put : forall {E}, E -> M (msgq E) Z;
  k_msgq_get : forall {E}, M (msgq E) (option E);
  (* zephyr/sys/ring_buffer.h *)
  ring_buf : Type;
  ring_buf_put : list Z -> M ring_buf Z;
  ring_buf_get : Z -> M ring_buf (list Z);
}.

(** *** Documented behaviour the SDK relies on. *)
(** PM policy: nested references to one lock. *)
Class PmOk `{Zephyr} : Type := {
  pm_locks : pm_st -> Z;
  pm_get_locks p : pm_locks (pm_policy_state_all_lock_get p) = pm_locks p + 1;
  pm_put_locks p : 0 < pm_locks p ->
    pm_locks (pm_policy_state_all_lock_put p) = pm_locks p - 1;
  pm_sleep_locks t p : pm_locks (k_sleep t p) = pm_locks p;
}.

(** Settings: a map from names to non-empty values.  Initialisation and reads
    leave it alone; a successful save or delete updates one name; an operation
    that fails touches at most the name it was given. *)
Class SettingsOk `{Zephyr} : Type := {
  kv : flash -> gmap string (list Z);
  init_rc f : (settings_subsys_init f).1 <= 0;
  kv_init f : kv (settings_subsys_init f).2 = kv f;
  kv_load name n f : kv (settings_load_one name n f).2 = kv f;
  kv_val_len name f : kv (settings_get_val_len name f).2 = kv f;
  kv_subtree name f : kv (settings_load_subtree_direct name f).2 = kv f;
  load_rc name n f : 0 <= (settings_load_one name n f).1.1 ->
    (settings_load_one name n f).1 =
      match kv f !! name with
      | None => (0, [])
      | Some v => (zlen v, take (Z.to_nat n) v)
      end;
  load_bounded name n f :
    (length (settings_load_one name n f).1.2 <= Z.to_nat n)%nat;
  val_len_rc name f : 0 <= (settings_get_val_len name f).1 ->
    (settings_get_val_len name f).1 =
      match kv f !! name with None => 0 | Some v => zlen v end;
  save_rc name v f : (settings_save_one name v f).1 <= 0;
  save_kv name v f : (settings_save_one name v f).1 = 0 ->
    kv (settings_save_one name v f).2 = <[name := v]> (kv f);
  save_other name v f name' : name' <> name ->
    kv (settings_save_one name v f).2 !! name' = kv f !! name';
  delete_rc name f : (settings_delete name f).1 <= 0;
  delete_kv name f : (settings_delete name f).1 = 0 ->
    kv (settings_delete name f).2 = delete name (kv f);
  delete_other name f name' : name' <> name ->
    kv (settings_delete name f).2 !! name' = kv f !! name';
}.

(** Byte order and CRC: fixed-width little-endian encodings, 32-bit checks. *)
Class BytesOk `{Zephyr} : Prop := {
  put_le16_length v : length (sys_put_le16 v) = 2%nat;
  put_le32_length v : length (sys_put_le32 v) = 4%nat;
  get_put_le16 v l : sys_get_le16 (sys_put_le16 v ++ l) = u16 v;
  get_put_le32 v l : sys_get_le32 (sys_put_le32 v ++ l) = u32 v;
  crc_update_range c l : 0 <= crc32_ieee_update c l < 4294967296;
}.

(** Big-endian 32-bit words: four bytes, and the two conversions are inverse. *)
Class BigEndianOk `{Zephyr} : Prop := {
  put_be32_length v : length (sys_put_be32 v) = 4%nat;
  put_be32_bytes v : Forall byte_range (sys_put_be32 v);
  get_be32_range l : 0 <= sys_get_be32 l < 4294967296;
  put_get_be32 l : length l = 4%nat -> Forall byte_range l -> sys_put_be32 (sys_get_be32 l) = l;
}.

(** Message queues: bounded first-in first-out. *)
Class MsgqOk `{Zephyr} : Type := {
  msgq_list : forall {E}, msgq E -> list E;
  msgq_max : forall {E}, msgq E -> Z;
  msgq_put_ok {E} (e : E) q : zlen (msgq_list q) < msgq_max q ->
    (k_msgq_put e q).1 = 0 /\ msgq_list (k_msgq_put e q).2 = msgq_list q ++ [e];
  msgq_put_full {E} (e : E) q : msgq_max q <= zlen (msgq_list q) ->
    (k_msgq_put e q).1 <> 0 /\ msgq_list (k_msgq_put e q).2 = msgq_list q;
  msgq_put_max {E} (e : E) q : msgq_max (k_msgq_put e q).2 = msgq_max q;
  msgq_get_ok {E} (q : msgq E) :
    (k_msgq_get q).1 = head (msgq_list q) /\
    msgq_list (k_msgq_get q).2 = tail (msgq_list q);
  msgq_get_max {E} (q : msgq E) : msgq_max (k_msgq_get q).2 = msgq_max q;
}.

(** Byte ring buffers: a put stores the prefix that fits, a get takes at most
    the requested number of bytes, oldest first. *)
Class RingOk `{Zephyr} : Type := {
  ring_list : ring_buf -> list Z;
  ring_max : ring_buf -> Z;
  ring_put_ok data r :
    let n := Z.min (zlen data) (Z.max 0 (ring_max r - zlen (ring_list r))) in
    (ring_buf_put data r).1 = n /\
    ring_list (ring_buf_put data r).2 = ring_list r ++ take (Z.to_nat n) data;
  ring_put_max data r : ring_max (ring_buf_put data r).2 = ring_max r;
  ring_get_ok n r : 0 <= n ->
    (ring_buf_get n r).1 = take (Z.to_nat n) (ring_list r) /\
    ring_list (ring_buf_get n r).2 = drop (Z.to_nat n) (ring_list r);
  ring_get_max n r : ring_max (ring_buf_get n r).2 = ring_max r;
}.

(** ** Concrete platforms *)
Module Instances.
#[export] Instance thread_ctx : ExecCtx | 10 := {| k_is_in_isr := false |}.
Definition isr_ctx : ExecCtx := {| k_is_in_isr := true |}.

(** The Kconfig defaults with every optional service compiled in. *)
#[export] Instance full_config : Kconfig | 10 := {|
  CONFIG_PM := true; CONFIG_RZI_POWER := true;
  CONFIG_RZI_POWER_AUTO_SERVICE_LOCK := true;
  CONFIG_RZI_STORAGE := true; CONFIG_RZI_STORAGE_RECORD_MAX_SIZE := 256;
  CONFIG_SETTINGS_NVS := true;
  CONFIG_RZI_LORAWAN_MAX_CALLBACKS := 4; CONFIG_RZI_LORAWAN_EVENT_QUEUE_SIZE := 8;
  CONFIG_RZI_LORAWAN_FUOTA := true; CONFIG_RZI_LORAWAN_FUOTA_AUTO_APPLY := false;
  CONFIG_RZI_LORAWAN_FUOTA_KEEPALIVE_INTERVAL_S := 0;
  CONFIG_RZI_LORAWAN_FUOTA_KEEPALIVE_PORT := 2; CONFIG_IMG_MANAGER := true;
  CONFIG_RZI_AT_ECHO := true; CONFIG_RZI_AT_MAX_COMMANDS := 160;
  CONFIG_RZI_AT_MAX_EXTENSIONS := 4; CONFIG_RZI_AT_LINE_MAX := 600;
  CONFIG_RZI_AT_RX_BUFFER_SIZE := 1024; CONFIG_RZI_AT_TX_BUFFER_SIZE := 640;
  CONFIG_RZI_AT_NVM := true; CONFIG_RZI_AT_COMMAND_LORAWAN := true;
  CONFIG_RZI_AT_COMMAND_LORA := true; CONFIG_ZTEST := false;
|}.
#[export] Instance full_config_ok : KconfigOk.
Proof. split; vm_compute; split; discriminate. Qed.

(** The errno numbers of Zephyr's minimal libc. *)
#[export] Instance minimal_errno : Errno | 10 := {|
  EINVAL := 22; EWOULDBLOCK := 11; EAGAIN := 11; EALREADY := 120; EBUSY := 16;
  ENOTSUP := 134; ENOSYS := 88; EOPNOTSUPP := 95; ENOMEM := 12; ENOENT := 2;
  ENODATA := 61; EMSGSIZE := 122; ENAMETOOLONG := 91; ETIMEDOUT := 116;
  EOVERFLOW := 139; ENOSPC := 28; EBADMSG := 77; ENODEV := 19; ENETDOWN := 115;
  EACCES := 13; EPERM := 1; EEXIST := 17; EIO := 5;
|}.
#[export] Instance minimal_errno_ok : ErrnoOk.
Proof.
  split.
  - repeat constructor.
  - repeat constructor.
  - apply (bool_decide_unpack _). vm_compute. exact I.
  - split; [apply (bool_decide_unpack _); vm_compute; exact I|].
    apply (bool_decide_unpack _). vm_compute. exact I.
Qed.

(** A settings store with a script of faults for the coming saves and
    deletes: [true] is a write that fails with [-EIO]; an exhausted script
    means success. *)
Record sim_flash := SimFlash { fs_kv : gmap string (list Z); fs_script : list bool }.
Definition sim_rc (f : sim_flash) : Z := if hd false (fs_script f) then -5 else 0.
Definition sim_update (g : gmap string (list Z) -> gmap string (list Z)) : M sim_flash Z :=
  fun f => let rc := sim_rc f in
    (rc, SimFlash (if rc =? 0 then g (fs_kv f) else fs_kv f) (tl (fs_script f))).
Definition sim_load (name : string) (n : Z) : M sim_flash (Z * list Z) :=
  gets (fun f => match fs_kv f !! name with
                 | None => (0, [])
                 | Some v => (zlen v, take (Z.to_nat n) v)
                 end).
Definition sim_len (name : string) : M sim_flash Z :=
  gets (fun f => match fs_kv f !! name with None => 0 | Some v => zlen v end).
Definition sim_subtree (ns : string) : M sim_flash (Z * list (option string * Z)) :=
  gets (fun f => (0, (fun '(k, v) => (Some k, zlen v)) <$>
    List.filter (fun kv : string * list Z =>
      String.prefix (ns ++ "/")%string kv.1) (map_to_list (fs_kv f)))).

Fixpoint crc_bits (n : nat) (c : Z) : Z :=
  match n with
  | O => c
  | S n' => crc_bits n' (if Z.odd c then Z.lxor (Z.shiftr c 1) 0xEDB88320 else Z.shiftr c 1)
  end.
Definition sim_crc_update (c : Z) (l : list Z) : Z :=
  u32 (Z.lxor (foldl (fun a b => crc_bits 8 (Z.lxor a b)) (Z.lxor c 0xFFFFFFFF) l) 0xFFFFFFFF).

Definition le_bytes (n : nat) (v : Z) : list Z :=
  (fun i => u8 (Z.shiftr v (8 * Z.of_nat i))) <$> seq 0 n.
Definition le_get (n : nat) (l : list Z) : Z :=
  foldr (fun b acc => b + 256 * acc) 0 (take n l).

Definition sim_msgq (E : Type) : Type := list E * Z.
Definition sim_msgq_put {E} (e : E) : M (sim_msgq E) Z := fun q =>
  if zlen q.1 <? q.2 then (0, (q.1 ++ [e], q.2)) else (-35, q).
Definition sim_msgq_get {E} : M (sim_msgq E) (option E) := fun q =>
  (head q.1, (tail q.1, q.2)).
Definition sim_ring : Type := list Z * Z.
Definition sim_ring_put (data : list Z) : M sim_ring Z := fun r =>
  let n := Z.min (zlen data) (Z.max 0 (r.2 - zlen r.1)) in
  (n, (r.1 ++ take (Z.to_nat n) data, r.2)).
Definition sim_ring_get (n : Z) : M sim_ring (list Z) := fun r =>
  (take (Z.to_nat n) r.1, (drop (Z.to_nat n) r.1, r.2)).

#[export] Instance sim_zephyr : Zephyr | 10 := {|
  pm_st := Z;
  pm_policy_state_all_lock_get p := p + 1;
  pm_policy_state_all_lock_put p := p - 1;
  k_sleep _ p := p;
  flash := sim_flash;
  settings_subsys_init := ret 0;
  settings_load_one := sim_load;
  settings_save_one name v := sim_update (<[name := v]>);
  settings_get_val_len := sim_len;
  settings_delete name := sim_update (delete name);
  settings_load_subtree_direct := sim_subtree;
  nvs_fs := unit;
  settings_storage_get := ret (0, Some tt);
  nvs_calc_free_space _ := ret 4000;
  nvs_sector_max_data_size _ := ret 1000;
  nvs_sector_size _ := 1024;
  nvs_sector_count _ := 8;
  crc32_ieee := sim_crc_update 0;
  crc32_ieee_update := sim_crc_update;
  sys_put_le16 := le_bytes 2; sys_put_le32 := le_bytes 4;
  sys_get_le16 := le_get 2; sys_get_le32 := le_get 4;
  sys_put_be32 v := rev (le_bytes 4 v); sys_get_be32 l := u32 (le_get 4 (rev l));
  msgq := sim_msgq; k_msgq_put E := sim_msgq_put; k_msgq_get E := sim_msgq_get;
  ring_buf := sim_ring; ring_buf_put := sim_ring_put; ring_buf_get := sim_ring_get;
|}.

#[export] Instance sim_pm_ok : PmOk.
Proof. refine {| pm_locks := fun p : @pm_st sim_zephyr => (p : Z) |}; done. Defined.

#[export] Instance sim_settings_ok : SettingsOk.
Proof.
  assert (Hrc : forall f, sim_rc f <= 0) by (intros f; unfold sim_rc; destruct (hd false _); lia).
  refine {| kv := fs_kv : @flash sim_zephyr -> _ |}; cbn; unfold sim_update; cbn;
    try done; intros.
  - destruct (fs_kv f !! name); cbn; rewrite ?length_take; lia.
  - by rewrite H.
  - case_match; [by rewrite lookup_insert_ne | done].
  - by rewrite H.
  - case_match; [by rewrite lookup_delete_ne | done].
Defined.

Lemma le_bytes_2 v : le_bytes 2 v = [u8 v; u8 (Z.shiftr v 8)].
Proof. unfold le_bytes. cbn. by rewrite Z.shiftr_0_r. Qed.
Lemma le_bytes_4 v : le_bytes 4 v =
  [u8 v; u8 (Z.shiftr v 8); u8 (Z.shiftr v 16); u8 (Z.shiftr v 24)].
Proof. unfold le_bytes. cbn. by rewrite Z.shiftr_0_r. Qed.

#[export] Instance sim_bytes_ok : BytesOk.
Proof.
  split; cbn [sys_put_le16 sys_put_le32 sys_get_le16 sys_get_le32 sim_zephyr];
    intros; rewrite ?le_bytes_2, ?le_bytes_4; unfold le_get; cbn [app take foldr length];
    unfold u8, u16, u32; rewrite ?Z.shiftr_div_pow2 by lia; try done.
  - change (take 0 l) with (@nil Z). cbn [foldr]. change (2 ^ 8) with 256.
    apply (Z.mod_unique_pos _ _ (v / 256 / 256)); Z.div_mod_to_equations; lia.
  - change (take 0 l) with (@nil Z). cbn [foldr].
    change (2 ^ 8) with 256. change (2 ^ 16) with (256 * 256).
    change (2 ^ 24) with (256 * 256 * 256). rewrite <- !Z.div_div by lia.
    apply (Z.mod_unique_pos _ _ (v / 256 / 256 / 256 / 256)); Z.div_mod_to_equations; lia.
  - apply Z.mod_pos_bound; lia.
Qed.
Lemma le_bytes_range n v : Forall byte_range (le_bytes n v).
Proof. apply Forall_fmap, Forall_true. intros i. apply Z.mod_pos_bound. lia. Qed.
#[export] Instance sim_be_ok : BigEndianOk.
Proof.
  split; cbn [sys_put_be32 sys_get_be32 sim_zephyr].
  - done.
  - intros v. apply Forall_rev, le_bytes_range.
  - intros l. apply Z.mod_pos_bound. lia.
  - intros l Hl Hb. destruct l as [|a [|b [|c [|d [|? ?]]]]]; try done.
    apply Forall_cons in Hb as [Ha Hb]. apply Forall_cons in Hb as [Hb Hc].
    apply Forall_cons in Hc as [Hc Hd]. apply Forall_cons in Hd as [Hd _]. unfold byte_range in *.
    cbn [rev app]. unfold le_get. cbn [take foldr]. unfold u32. rewrite Z.mod_small by lia.
    rewrite le_bytes_4. cbn [rev app]. unfold u8. rewrite !Z.shiftr_div_pow2 by lia.
    change (2 ^ 8) with 256; change (2 ^ 16) with 65536; change (2 ^ 24) with 16777216.
    repeat f_equal; Z.div_mod_to_equations; lia.
Qed.


#[export] Instance sim_msgq_ok : MsgqOk.
Proof.
  refine {| msgq_list := fun E (q : @msgq sim_zephyr E) => q.1;
            msgq_max := fun E (q : @msgq sim_zephyr E) => q.2 |};
    cbn; unfold sim_msgq_put; intros; try done.
  - destruct (Z.ltb_spec (zlen q.1) q.2); [done | lia].
  - destruct (Z.ltb_spec (zlen q.1) q.2); [lia | done].
  - by destruct (zlen q.1 <? q.2).
Defined.

#[export] Instance sim_ring_ok : RingOk.
Proof.
  by refine {| ring_list := fun r : @ring_buf sim_zephyr => r.1;
               ring_max := fun r : @ring_buf sim_zephyr => r.2 |}.
Defined.
End Instances.
