(* ===== verification/Err.v ===== *)
(** * The closed error catalog (include/rzi/err.h, src/common/common_err.c)

    The enumerators of [enum rzi_err], their names, and the mapping of vendor
    error numbers into the catalog that every backend boundary applies. *)
From S2P Require Import Prelude Zephyr.

(** [enum rzi_err] *)
Abbreviation RZI_SUCCESS := 0.
Abbreviation RZI_ERR_INVALID := 1000.
Abbreviation RZI_ERR_ISR := 1001.
Abbreviation RZI_ERR_NOT_READY := 1002.
Abbreviation RZI_ERR_ALREADY := 1003.
Abbreviation RZI_ERR_BUSY := 1004.
Abbreviation RZI_ERR_NOT_SUPPORTED := 1005.
Abbreviation RZI_ERR_NO_RESOURCE := 1006.
Abbreviation RZI_ERR_NOT_FOUND := 1007.
Abbreviation RZI_ERR_NO_DATA := 1008.
Abbreviation RZI_ERR_TOO_LARGE := 1009.
Abbreviation RZI_ERR_TIMEOUT := 1010.
Abbreviation RZI_ERR_OVERFLOW := 1011.
Abbreviation RZI_ERR_IO := 1012.
Abbreviation RZI_ERR_BAD_MESSAGE := 1013.
Abbreviation RZI_ERR_NO_DEVICE := 1014.
Abbreviation RZI_ERR_NOT_JOINED := 1015.
Abbreviation RZI_ERR_DENIED := 1016.
Abbreviation RZI_ERR_INVALID_STATE := 1017.

(** The enumeration itself, in declaration order. *)
Inductive rzi_err : Type :=
  | E_SUCCESS | E_INVALID | E_ISR | E_NOT_READY | E_ALREADY | E_BUSY
  | E_NOT_SUPPORTED | E_NO_RESOURCE | E_NOT_FOUND | E_NO_DATA | E_TOO_LARGE
  | E_TIMEOUT | E_OVERFLOW | E_IO | E_BAD_MESSAGE | E_NO_DEVICE | E_NOT_JOINED
  | E_DENIED | E_INVALID_STATE.
#[export] Instance rzi_err_eq_dec : EqDecision rzi_err.
Proof. solve_decision. Defined.

Definition rzi_err_value (e : rzi_err) : Z :=
  match e with
  | E_SUCCESS => RZI_SUCCESS | E_INVALID => RZI_ERR_INVALID | E_ISR => RZI_ERR_ISR
  | E_NOT_READY => RZI_ERR_NOT_READY | E_ALREADY => RZI_ERR_ALREADY
  | E_BUSY => RZI_ERR_BUSY | E_NOT_SUPPORTED => RZI_ERR_NOT_SUPPORTED
  | E_NO_RESOURCE => RZI_ERR_NO_RESOURCE | E_NOT_FOUND => RZI_ERR_NOT_FOUND
  | E_NO_DATA => RZI_ERR_NO_DATA | E_TOO_LARGE => RZI_ERR_TOO_LARGE
  | E_TIMEOUT => RZI_ERR_TIMEOUT | E_OVERFLOW => RZI_ERR_OVERFLOW
  | E_IO => RZI_ERR_IO | E_BAD_MESSAGE => RZI_ERR_BAD_MESSAGE
  | E_NO_DEVICE => RZI_ERR_NO_DEVICE | E_NOT_JOINED => RZI_ERR_NOT_JOINED
  | E_DENIED => RZI_ERR_DENIED | E_INVALID_STATE => RZI_ERR_INVALID_STATE
  end.

(** [static const char *catalog_name(int err)]: the switch over the
    enumerators; [None] is the NULL after it. *)
Definition catalog_name (err : Z) : option string :=
  if err =? RZI_SUCCESS then Some "RZI_SUCCESS" else
  if err =? RZI_ERR_INVALID then Some "RZI_ERR_INVALID" else
  if err =? RZI_ERR_ISR then Some "RZI_ERR_ISR" else
  if err =? RZI_ERR_NOT_READY then Some "RZI_ERR_NOT_READY" else
  if err =? RZI_ERR_ALREADY then Some "RZI_ERR_ALREADY" else
  if err =? RZI_ERR_BUSY then Some "RZI_ERR_BUSY" else
  if err =? RZI_ERR_NOT_SUPPORTED then Some "RZI_ERR_NOT_SUPPORTED" else
  if err =? RZI_ERR_NO_RESOURCE then Some "RZI_ERR_NO_RESOURCE" else
  if err =? RZI_ERR_NOT_FOUND then Some "RZI_ERR_NOT_FOUND" else
  if err =? RZI_ERR_NO_DATA then Some "RZI_ERR_NO_DATA" else
  if err =? RZI_ERR_TOO_LARGE then Some "RZI_ERR_TOO_LARGE" else
  if err =? RZI_ERR_TIMEOUT then Some "RZI_ERR_TIMEOUT" else
  if err =? RZI_ERR_OVERFLOW then Some "RZI_ERR_OVERFLOW" else
  if err =? RZI_ERR_IO then Some "RZI_ERR_IO" else
  if err =? RZI_ERR_BAD_MESSAGE then Some "RZI_ERR_BAD_MESSAGE" else
  if err =? RZI_ERR_NO_DEVICE then Some "RZI_ERR_NO_DEVICE" else
  if err =? RZI_ERR_NOT_JOINED then Some "RZI_ERR_NOT_JOINED" else
  if err =? RZI_ERR_DENIED then Some "RZI_ERR_DENIED" else
  if err =? RZI_ERR_INVALID_STATE then Some "RZI_ERR_INVALID_STATE" else
  None.

Definition rzi_err_str (err : Z) : string :=
  let err := if err <? 0 then - err else err in
  match catalog_name err with
  | Some name => name
  | None => "RZI_ERR_UNKNOWN"
  end.

(** The second switch of [rzi_err_from_errno], with the labels kept by its
    preprocessor conditions. *)
Definition errno_switch `{Errno} (rc : Z) : Z :=
  if rc =? - EINVAL then - RZI_ERR_INVALID else
  if (rc =? - EWOULDBLOCK) || (rc =? - EAGAIN) then - RZI_ERR_NOT_READY else
  if rc =? - EALREADY then - RZI_ERR_ALREADY else
  if rc =? - EBUSY then - RZI_ERR_BUSY else
  if (rc =? - ENOTSUP) || (rc =? - ENOSYS) || (rc =? - EOPNOTSUPP) then - RZI_ERR_NOT_SUPPORTED else
  if rc =? - ENOMEM then - RZI_ERR_NO_RESOURCE else
  if rc =? - ENOENT then - RZI_ERR_NOT_FOUND else
  if rc =? - ENODATA then - RZI_ERR_NO_DATA else
  if (rc =? - EMSGSIZE) || (rc =? - ENAMETOOLONG) then - RZI_ERR_TOO_LARGE else
  if rc =? - ETIMEDOUT then - RZI_ERR_TIMEOUT else
  if rc =? - EOVERFLOW then - RZI_ERR_OVERFLOW else
  if rc =? - ENOSPC then - RZI_ERR_NO_RESOURCE else
  if rc =? - EBADMSG then - RZI_ERR_BAD_MESSAGE else
  if rc =? - ENODEV then - RZI_ERR_NO_DEVICE else
  if rc =? - ENETDOWN then - RZI_ERR_NOT_READY else
  if (rc =? - EACCES) || (rc =? - EPERM) then - RZI_ERR_DENIED else
  if rc =? - EEXIST then - RZI_ERR_ALREADY else
  (* case -EIO: default: *)
  - RZI_ERR_IO.

Definition rzi_err_from_errno `{Errno} (rc : Z) : Z :=
  if 0 <=? rc then 0
  else match catalog_name (- rc) with
       | Some _ => rc
       | None => errno_switch rc
       end.

(** ** What callers may rely on *)

(** A result of a public function: zero or the negation of an enumerator. *)
Definition in_catalog (rc : Z) : Prop := exists e, rc = - rzi_err_value e.
(** The code the public headers promise for a library error number. *)
Definition errno_spec `{Errno} : list (Z * rzi_err) :=
  [(EINVAL, E_INVALID); (EWOULDBLOCK, E_NOT_READY); (EAGAIN, E_NOT_READY);
   (EALREADY, E_ALREADY); (EBUSY, E_BUSY); (ENOTSUP, E_NOT_SUPPORTED);
   (ENOSYS, E_NOT_SUPPORTED); (EOPNOTSUPP, E_NOT_SUPPORTED);
   (ENOMEM, E_NO_RESOURCE); (ENOENT, E_NOT_FOUND); (ENODATA, E_NO_DATA);
   (EMSGSIZE, E_TOO_LARGE); (ENAMETOOLONG, E_TOO_LARGE); (ETIMEDOUT, E_TIMEOUT);
   (EOVERFLOW, E_OVERFLOW); (ENOSPC, E_NO_RESOURCE); (EBADMSG, E_BAD_MESSAGE);
   (ENODEV, E_NO_DEVICE); (ENETDOWN, E_NOT_READY); (EACCES, E_DENIED);
   (EPERM, E_DENIED); (EEXIST, E_ALREADY); (EIO, E_IO)].

Lemma catalog_name_value e : catalog_name (rzi_err_value e) <> None.
Proof. by destruct e. Qed.

Lemma catalog_name_inv z s :
  catalog_name z = Some s -> exists e, z = rzi_err_value e.
Proof.
  unfold catalog_name.
  repeat (case_match; zify_tests; subst;
    [intros _; first
      [by exists E_SUCCESS | by exists E_INVALID | by exists E_ISR | by exists E_NOT_READY
      | by exists E_ALREADY | by exists E_BUSY | by exists E_NOT_SUPPORTED
      | by exists E_NO_RESOURCE | by exists E_NOT_FOUND | by exists E_NO_DATA
      | by exists E_TOO_LARGE | by exists E_TIMEOUT | by exists E_OVERFLOW
      | by exists E_IO | by exists E_BAD_MESSAGE | by exists E_NO_DEVICE
      | by exists E_NOT_JOINED | by exists E_DENIED | by exists E_INVALID_STATE]|]).
  done.
Qed.

Lemma rzi_err_value_range e : e <> E_SUCCESS -> 1000 <= rzi_err_value e <= 1017.
Proof. by destruct e. Qed.

Lemma catalog_name_small z : 0 < z < 1000 -> catalog_name z = None.
Proof.
  intros Hz. destruct (catalog_name z) eqn:E; [|done].
  apply catalog_name_inv in E as [e ->].
  destruct (decide (e = E_SUCCESS)) as [->|He]; [cbn in Hz; lia|].
  pose proof (rzi_err_value_range e He). lia.
Qed.

Lemma errno_switch_catalog `{Errno} rc : exists e,
  errno_switch rc = - rzi_err_value e /\ e <> E_SUCCESS /\ e <> E_ISR /\ e <> E_NOT_JOINED.
Proof.
  unfold errno_switch. repeat case_match; first
    [by exists E_INVALID | by exists E_NOT_READY | by exists E_ALREADY | by exists E_BUSY
    | by exists E_NOT_SUPPORTED | by exists E_NO_RESOURCE | by exists E_NOT_FOUND
    | by exists E_NO_DATA | by exists E_TOO_LARGE | by exists E_TIMEOUT
    | by exists E_OVERFLOW | by exists E_IO | by exists E_BAD_MESSAGE
    | by exists E_NO_DEVICE | by exists E_DENIED].
Qed.

Lemma rzi_err_from_errno_cases `{Errno} rc :
  (0 <= rc /\ rzi_err_from_errno rc = 0) \/
  (rc < 0 /\ exists e, e <> E_SUCCESS /\ rzi_err_from_errno rc = - rzi_err_value e).
Proof.
  unfold rzi_err_from_errno. destruct (Z.leb_spec 0 rc); [by left|right]. split; [lia|].
  case_match eqn:E.
  - apply catalog_name_inv in E as [e He]. exists e. split; [|lia].
    intros ->. cbn in He. lia.
  - destruct (errno_switch_catalog rc) as (e & -> & ? & ? & ?). by exists e.
Qed.

(** Zero is preserved and only produced by non-negative results: the form in
    which the backends use the mapping. *)
Lemma rzi_err_from_errno_zero `{Errno} rc : rzi_err_from_errno rc = 0 <-> 0 <= rc.
Proof.
  destruct (rzi_err_from_errno_cases rc) as [[? ->]|(? & e & He & ->)]; [done|].
  pose proof (rzi_err_value_range e He). lia.
Qed.

Lemma rzi_err_from_errno_nonpos `{Errno} rc : rzi_err_from_errno rc <= 0.
Proof.
  destruct (rzi_err_from_errno_cases rc) as [[? ->]|(? & e & He & ->)]; [done|].
  pose proof (rzi_err_value_range e He). lia.
Qed.

#[export] Hint Resolve rzi_err_from_errno_nonpos : core.

(** mapping a vendor result closes it into the public catalog: the result is zero
    exactly for non-negative inputs and otherwise the negation of an enumerator, mapping
    twice is mapping once, and the helper never produces an ISR or a not-joined error that
    was not already one. *)
Theorem rzi_err_from_errno_closed `{Errno} (rc : Z) :
  in_catalog (rzi_err_from_errno rc) /\
  (rzi_err_from_errno rc = 0 <-> 0 <= rc) /\
  rzi_err_from_errno (rzi_err_from_errno rc) = rzi_err_from_errno rc /\
  (rzi_err_from_errno rc = - RZI_ERR_ISR -> rc = - RZI_ERR_ISR) /\
  (rzi_err_from_errno rc = - RZI_ERR_NOT_JOINED -> rc = - RZI_ERR_NOT_JOINED).
Proof.
  split; [|split; [apply rzi_err_from_errno_zero|split]].
  - destruct (rzi_err_from_errno_cases rc) as [[? ->]|(? & e & He & ->)].
    + by exists E_SUCCESS.
    + by exists e.
  - destruct (rzi_err_from_errno_cases rc) as [[? ->]|(? & e & He & ->)]; [done|].
    unfold rzi_err_from_errno at 1. pose proof (rzi_err_value_range e He).
    destruct (Z.leb_spec 0 (- rzi_err_value e)); [lia|].
    rewrite Z.opp_involutive. pose proof (catalog_name_value e). by destruct (catalog_name _).
  - unfold rzi_err_from_errno. destruct (Z.leb_spec 0 rc); [split; lia|].
    destruct (catalog_name (- rc)); [split; lia|].
    destruct (errno_switch_catalog rc) as (e & -> & ? & ? & ?). by destruct e.
Qed.

Lemma opp_eqb x y : (- x =? - y) = (x =? y).
Proof. destruct (Z.eqb_spec x y), (Z.eqb_spec (- x) (- y)); lia. Qed.

(** Decide the label tests of the switch from distinctness hypotheses. *)
Ltac errno_tests :=
  rewrite !opp_eqb;
  repeat (match goal with
  | |- context [?x =? ?x] => rewrite (Z.eqb_refl x)
  | |- context [?x =? ?y] =>
      first [ rewrite (proj2 (Z.eqb_neq x y)) by (assumption || (apply not_eq_sym; assumption))
            | destruct (x =? y) ]
  end; cbn [orb]).

(** every libc error number of the documented table is mapped to its documented catalog
    code, whatever the numbers are, provided they are distinct as the switch needs. *)
Theorem rzi_err_from_errno_table `{ErrnoOk} : forall en e,
  (en, e) ∈ errno_spec -> rzi_err_from_errno (- en) = - rzi_err_value e.
Proof.
  intros en e Hin.
  destruct H0 as [Hr Ha Hd [Had Hal]].
  assert (Hen : 0 < en < 1000).
  { unfold errno_labels, errno_aliases in *.
    repeat (apply Forall_cons in Hr as [? Hr]). repeat (apply Forall_cons in Ha as [? Ha]).
    cbn in *. unfold errno_spec in Hin.
    repeat (apply elem_of_cons in Hin as [[= -> ->]|Hin]; [lia|]). by apply elem_of_nil in Hin. }
  unfold rzi_err_from_errno. destruct (Z.leb_spec 0 (- en)); [lia|].
  rewrite Z.opp_involutive, catalog_name_small by done.
  unfold errno_labels, errno_aliases in *.
  repeat (apply NoDup_cons in Hd as [? Hd]). repeat (apply NoDup_cons in Had as [? Had]).
  repeat match goal with
  | H : Forall _ (_ :: _) |- _ => apply Forall_cons in H as [? H]
  | H : _ ∉ _ :: _ |- _ => apply not_elem_of_cons in H as [? H]
  end.
  cbn [fst snd] in *.
  repeat match goal with
  | H : ?x = ?x \/ _ |- _ => clear H
  | H : ?x = ?y \/ ?x <> ?z |- _ => assert (x <> z) by (destruct H; congruence); clear H
  end.
  unfold errno_spec in Hin; unfold errno_switch.
  repeat (apply elem_of_cons in Hin as [[= -> ->]|Hin]; [by errno_tests|]).
  by apply elem_of_nil in Hin.
Qed.

Lemma rzi_err_from_errno_table_witness :
  @rzi_err_from_errno Instances.minimal_errno (- 61) = - RZI_ERR_NO_DATA.
Proof.
  apply (@rzi_err_from_errno_table Instances.minimal_errno Instances.minimal_errno_ok 61 E_NO_DATA).
  apply (bool_decide_unpack _). vm_compute. exact I.
Defined.

(** the names are the enumerators' names: both signs of a code print alike, distinct
    codes print differently, and any other integer prints as unknown. *)
Theorem rzi_err_str_correct (z : Z) :
  rzi_err_str (- z) = rzi_err_str z /\
  (forall e e', rzi_err_str (rzi_err_value e) = rzi_err_str (rzi_err_value e') -> e = e') /\
  ((forall e, Z.abs z <> rzi_err_value e) <-> rzi_err_str z = "RZI_ERR_UNKNOWN"%string).
Proof.
  assert (Habs : forall y, rzi_err_str y =
      match catalog_name (Z.abs y) with Some n => n | None => "RZI_ERR_UNKNOWN"%string end).
  { intros y. unfold rzi_err_str.
    destruct (Z.ltb_spec y 0); [rewrite Z.abs_neq by lia | rewrite Z.abs_eq by lia]; done. }
  split; [|split].
  - by rewrite !Habs, Z.abs_opp.
  - intros e e'. by destruct e, e'.
  - rewrite Habs. split.
    + intros Hno. destruct (catalog_name (Z.abs z)) eqn:E; [|done].
      apply catalog_name_inv in E as [e He]. by destruct (Hno e).
    + intros Hu e He. rewrite He in Hu. by destruct e.
Qed.
