(* ===== verification/Power.v ===== *)
(** * Power service (src/power/power.c, include/rzi/power/power.h)

    Service PM locks counted per owner on top of one native all-state PM lock,
    and the runtime switch that holds one more native reference. *)
From S2P Require Import Prelude Zephyr Err.

(** [enum rzi_power_lock] *)
Abbreviation RZI_POWER_LOCK_APP := 0.
Abbreviation RZI_POWER_LOCK_LORAWAN := 1.
Abbreviation RZI_POWER_LOCK_FLASH := 2.
Abbreviation RZI_POWER_LOCK_TRANSPORT := 3.
Abbreviation RZI_POWER_LOCK_UPDATE := 4.
Abbreviation RZI_POWER_LOCK_COUNT := 5.

Section power.
Context `{Zephyr} `{Kconfig} {ctx : ExecCtx}.

(** The file-scope variables, and the kernel's PM state they reference. *)
Record power_state : Type := PowerState {
  is_pm_locked : bool;
  lock_counts : list Z; (* uint8_t lock_counts[RZI_POWER_LOCK_COUNT] *)
  pm : pm_st;
}.

Definition power_init (p : pm_st) : power_state := PowerState false [0; 0; 0; 0; 0] p.

Definition all_lock_get (s : power_state) : power_state :=
  PowerState (is_pm_locked s) (lock_counts s) (pm_policy_state_all_lock_get (pm s)).
Definition all_lock_put (s : power_state) : power_state :=
  PowerState (is_pm_locked s) (lock_counts s) (pm_policy_state_all_lock_put (pm s)).
Definition set_pm_locked (b : bool) (s : power_state) : power_state :=
  PowerState b (lock_counts s) (pm s).
(** [lock_counts[lock] = c] *)
Definition set_count (lock c : Z) (s : power_state) : power_state :=
  PowerState (is_pm_locked s) (<[Z.to_nat lock := c]> (lock_counts s)) (pm s).

(** [static uint32_t get_lock_mask_locked(void)] *)
Fixpoint lock_mask_from (i : Z) (counts : list Z) (mask : Z) : Z :=
  match counts with
  | [] => mask
  | c :: counts' =>
      lock_mask_from (i + 1) counts' (if negb (c =? 0) then Z.lor mask (BIT i) else mask)
  end.
Definition get_lock_mask_locked (s : power_state) : Z := lock_mask_from 0 (lock_counts s) 0.

Definition rzi_power_set_pm_enabled (enabled : bool) : M power_state Z :=
  if k_is_in_isr then ret (- RZI_ERR_ISR)
  else if negb CONFIG_PM then ret (- RZI_ERR_NOT_SUPPORTED)
  else
    let* locked := gets is_pm_locked in
    (if negb enabled && negb locked
     then modify (fun s => set_pm_locked true (all_lock_get s))
     else if enabled && locked
     then modify (fun s => set_pm_locked false (all_lock_put s))
     else ret tt) ;;;
    ret 0.

Definition rzi_power_get_pm_enabled (enabled : option bool) : M power_state (Z * option bool) :=
  if k_is_in_isr then ret (- RZI_ERR_ISR, enabled)
  else match enabled with
  | None => ret (- RZI_ERR_INVALID, None)
  | Some _ =>
      let* locked := gets is_pm_locked in
      ret (0, Some (CONFIG_PM && negb locked))
  end.

(** The lock argument is the caller's enum value, compared as unsigned. *)
Definition rzi_power_lock_get (lock : Z) : M power_state Z :=
  if k_is_in_isr then ret (- RZI_ERR_ISR)
  else if RZI_POWER_LOCK_COUNT <=? u32 lock then ret (- RZI_ERR_INVALID)
  else
    let* counts := gets lock_counts in
    let c := at_ counts lock in
    if c =? UINT8_MAX then ret (- RZI_ERR_NO_RESOURCE)
    else
      modify all_lock_get ;;;
      modify (set_count lock (u8 (c + 1))) ;;;
      ret 0.

Definition rzi_power_lock_put (lock : Z) : M power_state Z :=
  if k_is_in_isr then ret (- RZI_ERR_ISR)
  else if RZI_POWER_LOCK_COUNT <=? u32 lock then ret (- RZI_ERR_INVALID)
  else
    let* counts := gets lock_counts in
    let c := at_ counts lock in
    if c =? 0 then ret (- RZI_ERR_INVALID)
    else
      modify (set_count lock (u8 (c - 1))) ;;;
      modify all_lock_put ;;;
      ret 0.

Definition rzi_power_get_lock_mask (lock_mask : option Z) : M power_state (Z * option Z) :=
  if k_is_in_isr then ret (- RZI_ERR_ISR, lock_mask)
  else match lock_mask with
  | None => ret (- RZI_ERR_INVALID, None)
  | Some _ => let* m := gets get_lock_mask_locked in ret (0, Some m)
  end.

Definition rzi_power_sleep (timeout_ms : Z) : M power_state Z :=
  if k_is_in_isr then ret (- RZI_ERR_ISR)
  else
    let t := if timeout_ms <? 0 then K_FOREVER else K_MSEC timeout_ms in
    modify (fun s => PowerState (is_pm_locked s) (lock_counts s) (k_sleep t (pm s))) ;;;
    ret 0.

(** The public operations, as calls a client makes. *)
Inductive power_call : Type :=
  | SetPmEnabled (enabled : bool) | GetPmEnabled (enabled : option bool)
  | LockGet (lock : Z) | LockPut (lock : Z) | GetLockMask (m : option Z) | Sleep (ms : Z).
Definition power_exec (c : power_call) : M power_state unit :=
  match c with
  | SetPmEnabled e => rzi_power_set_pm_enabled e ;;; ret tt
  | GetPmEnabled e => rzi_power_get_pm_enabled e ;;; ret tt
  | LockGet l => rzi_power_lock_get l ;;; ret tt
  | LockPut l => rzi_power_lock_put l ;;; ret tt
  | GetLockMask m => rzi_power_get_lock_mask m ;;; ret tt
  | Sleep ms => rzi_power_sleep ms ;;; ret tt
  end.
End power.

(** ** Invariant: the native references are the sum of what RZI counts. *)
Section invariant.
Context `{PmOk} `{Kconfig} {ctx : ExecCtx}.

Definition held (s : power_state) : Z := b2z (is_pm_locked s) + foldr Z.add 0 (lock_counts s).

(** [base] native references belong to code outside RZI. *)
Definition power_inv (base : Z) (s : power_state) : Prop :=
  length (lock_counts s) = 5%nat /\
  Forall byte_range (lock_counts s) /\
  0 <= base /\ pm_locks (pm s) = base + held s.

Lemma sum_insert (l : list Z) i v d :
  (i < length l)%nat ->
  foldr Z.add 0 (<[i := v]> l) = foldr Z.add 0 l - nth i l d + v.
Proof.
  revert i. induction l as [|x l IH]; intros [|i] Hi; cbn in *; try lia.
  rewrite IH by lia. lia.
Qed.
Lemma nth_Forall {A} (P : A -> Prop) l i d : Forall P l -> (i < length l)%nat -> P (nth i l d).
Proof. intros HF Hi. rewrite List.Forall_forall in HF. apply HF. by apply nth_In. Qed.
Lemma sum_nonneg l : Forall byte_range l -> 0 <= foldr Z.add 0 l.
Proof. induction 1; cbn; unfold byte_range in *; lia. Qed.
Lemma sum_ge_nth l i : Forall byte_range l -> (i < length l)%nat ->
  nth i l 0 <= foldr Z.add 0 l.
Proof.
  intros HF. revert i. induction HF; intros [|i] Hi; cbn in *; try lia.
  - pose proof (sum_nonneg l HF). lia.
  - specialize (IHHF i ltac:(lia)). unfold byte_range in *. lia.
Qed.

Lemma lock_in_range lock : (RZI_POWER_LOCK_COUNT <=? u32 lock) = false ->
  -2147483648 <= lock <= 2147483647 -> (Z.to_nat lock < 5)%nat /\ 0 <= lock.
Proof. unfold u32. intros ?%Z.leb_gt Hr. Z.div_mod_to_equations. lia. Qed.

Lemma inv_get base s lock :
  power_inv base s -> (Z.to_nat lock < 5)%nat -> at_ (lock_counts s) lock <> UINT8_MAX ->
  power_inv base (set_count lock (u8 (at_ (lock_counts s) lock + 1)) (all_lock_get s)).
Proof.
  intros (Hl & Hb & Hn & Hp) Hi Hc. unfold power_inv, held, at_, UINT8_MAX in *. cbn.
  assert (Hi' : (Z.to_nat lock < length (lock_counts s))%nat) by lia.
  pose proof (nth_Forall _ _ _ 0 Hb Hi') as Hr. unfold byte_range in Hr.
  unfold u8. rewrite Z.mod_small by lia.
  rewrite length_insert, pm_get_locks, (sum_insert _ _ _ 0) by done.
  split_and!; [done| |done|lia].
  apply Forall_insert; [done|]. unfold byte_range. lia.
Qed.

Lemma inv_put base s lock :
  power_inv base s -> (Z.to_nat lock < 5)%nat -> at_ (lock_counts s) lock <> 0 ->
  power_inv base (all_lock_put (set_count lock (u8 (at_ (lock_counts s) lock - 1)) s)).
Proof.
  intros (Hl & Hb & Hn & Hp) Hi Hc. unfold power_inv, held, at_ in *. cbn.
  assert (Hi' : (Z.to_nat lock < length (lock_counts s))%nat) by lia.
  pose proof (nth_Forall _ _ _ 0 Hb Hi') as Hr. unfold byte_range in Hr.
  pose proof (sum_ge_nth _ _ Hb Hi') as Hge.
  unfold u8. rewrite Z.mod_small by lia.
  assert (0 <= b2z (is_pm_locked s)) by (destruct (is_pm_locked s); cbn; lia).
  rewrite length_insert, pm_put_locks, (sum_insert _ _ _ 0) by (done || lia).
  split_and!; [done| |done|lia].
  apply Forall_insert; [done|]. unfold byte_range. lia.
Qed.

Definition int_range (z : Z) : Prop := -2147483648 <= z <= 2147483647.
Definition call_ok (c : power_call) : Prop :=
  match c with LockGet l | LockPut l => int_range l | _ => True end.

(** The two outcomes of taking and of releasing a reference. *)
Lemma lock_get_cases lock s : let r := rzi_power_lock_get lock s in
  (r.1 < 0 /\ r.2 = s) \/
  (r.1 = 0 /\ k_is_in_isr = false /\ u32 lock < 5 /\ at_ (lock_counts s) lock <> UINT8_MAX /\
   r.2 = set_count lock (u8 (at_ (lock_counts s) lock + 1)) (all_lock_get s)).
Proof.
  unfold rzi_power_lock_get. destruct k_is_in_isr eqn:?; [by left|].
  destruct (5 <=? u32 lock) eqn:?; [by left|]. mrun.
  destruct (_ =? UINT8_MAX) eqn:?; zify_tests; [by left | by right].
Qed.
Lemma lock_put_cases lock s : let r := rzi_power_lock_put lock s in
  (r.1 < 0 /\ r.2 = s) \/
  (r.1 = 0 /\ k_is_in_isr = false /\ u32 lock < 5 /\ at_ (lock_counts s) lock <> 0 /\
   r.2 = all_lock_put (set_count lock (u8 (at_ (lock_counts s) lock - 1)) s)).
Proof.
  unfold rzi_power_lock_put. destruct k_is_in_isr eqn:?; [by left|].
  destruct (5 <=? u32 lock) eqn:?; [by left|]. mrun.
  destruct (_ =? 0) eqn:?; zify_tests; [by left | by right].
Qed.

Lemma lock_get_inv base lock : int_range lock ->
  preserves (power_inv base) (rzi_power_lock_get lock).
Proof.
  intros Hr s Hs. destruct (lock_get_cases lock s) as [[_ ->]|(_ & _ & Hl & Hc & ->)]; [done|].
  apply Z.leb_gt, lock_in_range in Hl as [Hi ?]; [|done]. by apply inv_get.
Qed.

Lemma lock_put_inv base lock : int_range lock ->
  preserves (power_inv base) (rzi_power_lock_put lock).
Proof.
  intros Hr s Hs. destruct (lock_put_cases lock s) as [[_ ->]|(_ & _ & Hl & Hc & ->)]; [done|].
  apply Z.leb_gt, lock_in_range in Hl as [Hi ?]; [|done]. by apply inv_put.
Qed.

Lemma set_pm_inv base e : preserves (power_inv base) (rzi_power_set_pm_enabled e).
Proof.
  intros s (Hl & Hb & Hn & Hp). unfold rzi_power_set_pm_enabled.
  destruct k_is_in_isr, CONFIG_PM; try done. cbn. mrun.
  pose proof (sum_nonneg _ Hb). unfold held in *.
  destruct e, (is_pm_locked s) eqn:E; cbn in *; try (by (unfold power_inv, held; rewrite E));
    unfold power_inv, held; cbn; rewrite ?pm_get_locks, ?pm_put_locks by lia;
    split_and!; try done; lia.
Qed.

Lemma power_exec_inv base c : call_ok c -> preserves (power_inv base) (power_exec c).
Proof.
  intros Hc. destruct c; cbn; apply preserves_bind; try (intros; apply preserves_ret).
  - apply set_pm_inv.
  - unfold rzi_power_get_pm_enabled. preserve.
  - by apply lock_get_inv.
  - by apply lock_put_inv.
  - unfold rzi_power_get_lock_mask. preserve.
  - unfold rzi_power_sleep. intros s (Hl & Hb & Hn & Hp). destruct k_is_in_isr; [done|].
    mrun. unfold power_inv, held in *; cbn. by rewrite pm_sleep_locks.
Qed.

(** C35: PM lock accounting: whatever the sequence of public power calls from the initial
    state, in every reached state the native PM lock carries exactly the outside
    references, plus one for the runtime switch when it is off, plus one per counted
    reference; the 8-bit counts never wrap. *)
Theorem power_lock_accounting (p : pm_st) (calls : list power_call) :
  0 <= pm_locks p -> Forall call_ok calls ->
  let s := (for_each calls power_exec (power_init p)).2 in
  Forall byte_range (lock_counts s) /\
  pm_locks (pm s) = pm_locks p + b2z (is_pm_locked s) + foldr Z.add 0 (lock_counts s).
Proof.
  intros Hp Hc.
  assert (Hi : power_inv (pm_locks p) (power_init p)).
  { unfold power_inv, held. cbn. split_and!; [done| |done|lia].
    repeat constructor; unfold byte_range; lia. }
  enough (Hinv : power_inv (pm_locks p) (for_each calls power_exec (power_init p)).2).
  { destruct Hinv as (? & ? & ? & Hq). split; [done|]. rewrite Hq. unfold held. lia. }
  revert Hi. generalize (power_init p). induction Hc as [|c l Hc Hl IH]; intros s Hs; cbn; [done|].
  unfold bind. pose proof (power_exec_inv (pm_locks p) c Hc s Hs) as H'.
  destruct (power_exec c s). by apply IH.
Qed.
End invariant.

(** A reference taken and released around other work leaves no trace: the form in which
    the storage and FUOTA services use the locks. *)
Lemma lock_get_put_balanced `{PmOk} `{Kconfig} {ctx : ExecCtx} base lock s :
  power_inv base s -> int_range lock ->
  (rzi_power_lock_get lock s).1 = 0 ->
  let s1 := (rzi_power_lock_get lock s).2 in
  (rzi_power_lock_put lock s1).1 = 0 /\
  lock_counts (rzi_power_lock_put lock s1).2 = lock_counts s /\
  is_pm_locked (rzi_power_lock_put lock s1).2 = is_pm_locked s /\
  power_inv base (rzi_power_lock_put lock s1).2.
Proof.
  intros Hinv Hr Hrc. cbv zeta.
  assert (Hinv2 : power_inv base (rzi_power_lock_put lock (rzi_power_lock_get lock s).2).2).
  { apply lock_put_inv; [done|]. by apply lock_get_inv. }
  destruct (lock_get_cases lock s) as [[? _]|(_ & Hisr & Hl & Hc & E)]; [lia|].
  revert Hinv2. rewrite E. intros Hinv2.
  pose proof Hl as Hl'. apply Z.leb_gt, lock_in_range in Hl' as [Hi ?]; [|done].
  destruct Hinv as (Hlen & Hb & _). unfold at_, UINT8_MAX in *.
  assert (Hi' : (Z.to_nat lock < length (lock_counts s))%nat) by lia.
  pose proof (nth_Forall _ _ _ 0 Hb Hi') as Hbyte. unfold byte_range in Hbyte.
  set (c := nth (Z.to_nat lock) (lock_counts s) 0) in *.
  assert (Hn : nth (Z.to_nat lock) (lock_counts (set_count lock (u8 (c + 1)) (all_lock_get s))) 0 = c + 1).
  { cbn. rewrite nth_lookup, list_lookup_insert_eq by done. cbn. unfold u8. by rewrite Z.mod_small by lia. }
  destruct (lock_put_cases lock (set_count lock (u8 (c + 1)) (all_lock_get s)))
    as [[Hneg _]|(-> & _ & _ & _ & E2)].
  { exfalso. revert Hneg. unfold rzi_power_lock_put, at_. rewrite Hisr.
    destruct (Z.leb_spec 5 (u32 lock)); [lia|]. unfold bind, gets. rewrite Hn.
    destruct (Z.eqb_spec (c + 1) 0); [lia|]. done. }
  split; [done|]. split; [|split; [|done]]; rewrite E2; unfold at_; rewrite Hn; [|done].
  cbn. rewrite list_insert_insert_eq.
  apply list_insert_id. unfold u8. rewrite Z.mod_small by lia.
  rewrite Z.add_simpl_r. unfold c. rewrite nth_lookup.
  destruct (lookup_lt_is_Some_2 (lock_counts s) (Z.to_nat lock) Hi') as [x Hx]. by rewrite Hx.
Qed.

(** the lock mask has exactly the bits of the locks with a nonzero count. *)
Theorem power_mask_bits `{Zephyr} (s : power_state) (i : Z) :
  0 <= i ->
  Z.testbit (get_lock_mask_locked s) i = negb (at_ (lock_counts s) i =? 0).
Proof.
  intros Hi. unfold get_lock_mask_locked, at_.
  assert (Hgen : forall l k m, 0 <= k -> 0 <= i ->
    Z.testbit (lock_mask_from k l m) i =
    Z.testbit m i || ((k <=? i) && negb (nth (Z.to_nat (i - k)) l 0 =? 0))).
  { induction l as [|c l IH]; intros k m Hk _; cbn.
    - destruct (Z.to_nat (i - k)); cbn; by rewrite andb_false_r, orb_false_r.
    - rewrite IH by lia.
      assert (Hm : Z.testbit (if negb (c =? 0) then Z.lor m (BIT k) else m) i =
                   Z.testbit m i || (negb (c =? 0) && (i =? k))).
      { destruct (negb (c =? 0)); [|by rewrite orb_false_r].
        rewrite Z.lor_spec. f_equal. unfold BIT. rewrite Z.shiftl_1_l.
        rewrite Z.pow2_bits_eqb by done. by rewrite Z.eqb_sym. }
      rewrite Hm. destruct (Z.eqb_spec i k) as [->|Hne].
      + rewrite Z.sub_diag, Z.leb_refl. cbn. destruct (Z.leb_spec (k + 1) k); [lia|].
        by rewrite andb_true_r, orb_false_r.
      + rewrite andb_false_r, orb_false_r. f_equal.
        destruct (Z.leb_spec (k + 1) i), (Z.leb_spec k i); try lia; cbn; try done.
        replace (Z.to_nat (i - k)) with (S (Z.to_nat (i - (k + 1)))) by lia. done. }
  rewrite Hgen by lia. rewrite Z.testbit_0_l, Z.sub_0_r.
  destruct (Z.leb_spec 0 i); [done | lia].
Qed.

Module PowerWitness.
Import Instances.

Lemma power_lock_accounting_witness :
  let s := (for_each [LockGet 2; SetPmEnabled false; LockGet 2; LockPut 1; LockGet 4]
                     power_exec (power_init 7)).2 in
  Forall byte_range (lock_counts s) /\ pm s = 7 + 1 + 3.
Proof.
  assert (Hc : Forall call_ok [LockGet 2; SetPmEnabled false; LockGet 2; LockPut 1; LockGet 4])
    by (repeat constructor; unfold int_range; lia).
  assert (Hp : 0 <= pm_locks (7 : @pm_st sim_zephyr)) by (vm_compute; discriminate).
  exact (power_lock_accounting (7 : @pm_st sim_zephyr) _ Hp Hc).
Defined.

Lemma power_mask_bits_witness :
  Z.testbit (get_lock_mask_locked (PowerState true [0; 1; 3; 0; 0] (0 : @pm_st sim_zephyr))) 2 = true.
Proof. exact (power_mask_bits (PowerState true [0; 1; 3; 0; 0] (0 : @pm_st sim_zephyr)) 2 ltac:(lia)). Defined.
End PowerWitness.
