(* ===== verification/Storage.v ===== *)
(** * Storage service (src/storage/storage_settings.c, src/common/common_init.c)

    Namespaced values over the Zephyr settings subsystem, and versioned records
    protected by a CRC.  The state keeps the [initialized] flag, the settings
    subsystem below it, and the power service whose flash lock every write takes. *)
From S2P Require Import Prelude Zephyr Err Power.

Definition RZI_STORAGE_NAME_MAX : Z := 64.
Definition RECORD_HEADER_SIZE : Z := 12.
Definition RECORD_MAGIC : Z := 0x31525a52.

(** [static bool valid_component(const char *component)]; [None] is NULL. *)
Definition slash : Ascii.ascii := "/"%char.
Definition valid_component (component : option string) : bool :=
  match component with
  | None => false
  | Some c =>
      match String.get 0 c with
      | None => false
      | Some c0 =>
          if Ascii.eqb c0 slash then false
          else
            let length := String.length c in
            match String.get (length - 1) c with
            | Some last =>
                negb (Ascii.eqb last slash) &&
                match String.index 0 "//" c with None => true | Some _ => false end
            | None => false
            end
      end
  end.

(** [build_name]: the settings name on success.  [snprintk("%s/%s")] returns
    the length of the whole expansion. *)
Definition build_name (name_size : Z) (namespace_name key : option string) : string * Z :=
  match namespace_name, key with
  | Some ns, Some k =>
      if negb (valid_component (Some ns)) || negb (valid_component (Some k))
      then (EmptyString, - RZI_ERR_INVALID)
      else
        let name := (ns ++ "/" ++ k)%string in
        if name_size <=? zstrlen name then (EmptyString, - RZI_ERR_TOO_LARGE)
        else (name, 0)
  | _, _ => (EmptyString, - RZI_ERR_INVALID)
  end.

Record rzi_storage_info : Type := StorageInfo {
  total_bytes : Z; free_bytes : Z; contiguous_bytes : Z; sector_bytes : Z;
}.
Record rzi_storage_usage : Type := StorageUsage {
  keys : Z; value_bytes : Z; name_bytes : Z;
}.

Section storage.
Context `{Zephyr} `{Errno} `{Kconfig} {ctx : ExecCtx}.

Record storage_state : Type := StorageState {
  initialized : bool;
  sys : flash;
  sto_power : power_state;
}.
Definition set_initialized b (s : storage_state) := StorageState b (sys s) (sto_power s).
Definition set_sys f (s : storage_state) := StorageState (initialized s) f (sto_power s).
Definition set_power p (s : storage_state) := StorageState (initialized s) (sys s) p.

Definition settings {A} (m : M flash A) : M storage_state A := zoom sys set_sys m.
Definition power {A} (m : M power_state A) : M storage_state A := zoom sto_power set_power m.

(** Helpers that stand for the [#if] blocks around a write. *)
Definition flash_lock_get : M storage_state Z :=
  if auto_service_lock then power (rzi_power_lock_get RZI_POWER_LOCK_FLASH) else ret 0.
Definition flash_lock_put : M storage_state unit :=
  if auto_service_lock then power (rzi_power_lock_put RZI_POWER_LOCK_FLASH) ;;; ret tt else ret tt.

Definition rzi_storage_init : M storage_state Z :=
  if k_is_in_isr then ret (- RZI_ERR_ISR)
  else
    let* init := gets initialized in
    if init then ret 0
    else
      let* rc := settings settings_subsys_init in
      if rc =? 0 then modify (set_initialized true) ;;; ret 0
      else ret (rzi_err_from_errno rc).

Definition rzi_storage_read (namespace_name key : option string)
    (value : option (list Z)) (size : Z) : M storage_state (Z * option (list Z)) :=
  match value with
  | None => ret (- RZI_ERR_INVALID, None)
  | Some buf =>
      if size =? 0 then ret (- RZI_ERR_INVALID, value)
      else
        let (name, rc) := build_name RZI_STORAGE_NAME_MAX namespace_name key in
        if negb (rc =? 0) then ret (rc, value)
        else
          rc* rc := rzi_storage_init else (rc, value) in
          let* '(bytes, loaded) := settings (settings_load_one name size) in
          let value := Some (overlay buf 0 loaded) in
          if bytes <? 0 then ret (rzi_err_from_errno bytes, value)
          else if bytes =? 0 then ret (- RZI_ERR_NOT_FOUND, value)
          else ret (if bytes =? size then 0 else - RZI_ERR_TOO_LARGE, value)
  end.

Definition rzi_storage_write (namespace_name key : option string)
    (value : option (list Z)) (size : Z) : M storage_state Z :=
  match value with
  | None => ret (- RZI_ERR_INVALID)
  | Some bytes =>
      if size =? 0 then ret (- RZI_ERR_INVALID)
      else
        let (name, rc) := build_name RZI_STORAGE_NAME_MAX namespace_name key in
        if negb (rc =? 0) then ret rc
        else
          rc* rc := rzi_storage_init else rc in
          rc* rc := flash_lock_get else rc in
          let* rc := settings (settings_save_one name (take (Z.to_nat size) bytes)) in
          flash_lock_put ;;;
          ret (rzi_err_from_errno rc)
  end.

Definition rzi_storage_delete (namespace_name key : option string) : M storage_state Z :=
  let (name, rc) := build_name RZI_STORAGE_NAME_MAX namespace_name key in
  if negb (rc =? 0) then ret rc
  else
    rc* rc := rzi_storage_init else rc in
    rc* rc := flash_lock_get else rc in
    let* stored_size := settings (settings_get_val_len name) in
    let* rc :=
      (if stored_size <? 0 then ret stored_size
       else if stored_size =? 0 then ret (- ENOENT)
       else settings (settings_delete name)) in
    flash_lock_put ;;;
    ret (rzi_err_from_errno rc).

(** [static uint32_t record_crc(const uint8_t *record, size_t size)] *)
Definition record_crc (record : list Z) (size : nat) : Z :=
  crc32_ieee_update (crc32_ieee (slice record 0 8))
    (slice record (Z.to_nat RECORD_HEADER_SIZE) size).

(** The bytes [rzi_storage_write_record] assembles.  The scratch array holds
    the header room and the largest payload; its contents before the stores
    are arbitrary and are all overwritten in the stored prefix. *)
Definition encode_record (version : Z) (value : list Z) (size : nat) : list Z :=
  let record := replicate (Z.to_nat (RECORD_HEADER_SIZE + CONFIG_RZI_STORAGE_RECORD_MAX_SIZE)) 0 in
  let record := overlay record 0 (sys_put_le32 RECORD_MAGIC) in
  let record := overlay record 4 (sys_put_le16 version) in
  let record := overlay record 6 (sys_put_le16 (u16 (Z.of_nat size))) in
  let record := overlay record (Z.to_nat RECORD_HEADER_SIZE) (take size value) in
  overlay record 8 (sys_put_le32 (record_crc record size)).

Definition rzi_storage_write_record (namespace_name key : option string) (version : Z)
    (value : option (list Z)) (size : Z) : M storage_state Z :=
  if k_is_in_isr then ret (- RZI_ERR_ISR)
  else match value with
  | None => ret (- RZI_ERR_INVALID)
  | Some bytes =>
      if (version =? 0) || (size =? 0) then ret (- RZI_ERR_INVALID)
      else if CONFIG_RZI_STORAGE_RECORD_MAX_SIZE <? size then ret (- RZI_ERR_TOO_LARGE)
      else
        rzi_storage_write namespace_name key
          (Some (encode_record version bytes (Z.to_nat size))) (RECORD_HEADER_SIZE + size)
  end.

(** The length and load calls that share the storage lock. *)
Definition fetch_record (name : string) : M storage_state (Z * (Z * list Z)) :=
  let* length := settings (settings_get_val_len name) in
  if RECORD_HEADER_SIZE + CONFIG_RZI_STORAGE_RECORD_MAX_SIZE <? length
  then ret (- RZI_ERR_TOO_LARGE, (length, []))
  else if length <? 0 then ret (rzi_err_from_errno length, (length, []))
  else if length =? 0 then ret (- RZI_ERR_NOT_FOUND, (length, []))
  else
    let* '(actual, record) := settings (settings_load_one name length) in
    ret (if actual <? 0 then rzi_err_from_errno actual
         else if negb (actual =? length) then - RZI_ERR_IO
         else 0, (length, record)).

(** The validation after the lock: version and payload of a sound record. *)
Definition decode_record (record : list Z) (length capacity : Z) : Z * option (Z * list Z) :=
  if (length <=? RECORD_HEADER_SIZE) || negb (sys_get_le32 (slice record 0 4) =? RECORD_MAGIC) ||
     (sys_get_le16 (slice record 4 2) =? 0)
  then (- RZI_ERR_BAD_MESSAGE, None)
  else
    let payload_size := sys_get_le16 (slice record 6 2) in
    if negb (payload_size =? length - RECORD_HEADER_SIZE) ||
       negb (sys_get_le32 (slice record 8 4) =? record_crc record (Z.to_nat payload_size))
    then (- RZI_ERR_BAD_MESSAGE, None)
    else if capacity <? payload_size then (- RZI_ERR_TOO_LARGE, None)
    else (0, Some (sys_get_le16 (slice record 4 2),
                   slice record (Z.to_nat RECORD_HEADER_SIZE) (Z.to_nat payload_size))).

(** The three output cells of [rzi_storage_read_record]. *)
Record record_out : Type := RecordOut {
  out_version : option Z; out_value : option (list Z); out_size : option Z;
}.

Definition rzi_storage_read_record (namespace_name key : option string) (out : record_out)
    (capacity : Z) : M storage_state (Z * record_out) :=
  if k_is_in_isr then ret (- RZI_ERR_ISR, out)
  else match out_version out, out_value out, out_size out with
  | Some _, Some value, Some _ =>
      if capacity =? 0 then ret (- RZI_ERR_INVALID, out)
      else
        let (name, rc) := build_name RZI_STORAGE_NAME_MAX namespace_name key in
        if negb (rc =? 0) then ret (rc, out)
        else
          rc* rc := rzi_storage_init else (rc, out) in
          let* '(rc, (length, record)) := fetch_record name in
          if negb (rc =? 0) then ret (rc, out)
          else
            match decode_record record length capacity with
            | (rc, Some (version, payload)) =>
                ret (rc, RecordOut (Some version) (Some (overlay value 0 payload))
                                   (Some (zlen payload)))
            | (rc, None) => ret (rc, out)
            end
  | _, _, _ => ret (- RZI_ERR_INVALID, out)
  end.

Definition rzi_storage_get_info (info : option rzi_storage_info)
  : M storage_state (Z * option rzi_storage_info) :=
  if k_is_in_isr then ret (- RZI_ERR_ISR, info)
  else match info with
  | None => ret (- RZI_ERR_INVALID, None)
  | Some old =>
      if negb CONFIG_SETTINGS_NVS then ret (- RZI_ERR_NOT_SUPPORTED, info)
      else
        rc* rc := rzi_storage_init else (rc, info) in
        let* '(rc, handle) := settings settings_storage_get in
        match (if rc =? 0 then handle else None) with
        | None => ret (rzi_err_from_errno (if rc =? 0 then - ENOTSUP else rc), info)
        | Some fs =>
            let* available := settings (nvs_calc_free_space fs) in
            if available <? 0 then ret (rzi_err_from_errno available, info)
            else
              let* contiguous := settings (nvs_sector_max_data_size fs) in
              ret (0, Some (StorageInfo (nvs_sector_size fs * nvs_sector_count fs)
                              available contiguous (nvs_sector_size fs)))
        end
  end.

(** [count_usage]: the callback of the subtree walk. *)
Definition count_usage (usage : rzi_storage_usage) (entry : option string * Z) : rzi_storage_usage :=
  let (key, len) := entry in
  if len =? 0 then usage
  else StorageUsage (keys usage + 1) (value_bytes usage + len)
         (name_bytes usage + match key with Some k => zstrlen k | None => 0 end).

Definition rzi_storage_get_usage (namespace_name : option string)
    (usage : option rzi_storage_usage) : M storage_state (Z * option rzi_storage_usage) :=
  if k_is_in_isr then ret (- RZI_ERR_ISR, usage)
  else if match usage with None => true | Some _ => false end
          || negb (valid_component namespace_name)
  then ret (- RZI_ERR_INVALID, usage)
  else
    rc* rc := rzi_storage_init else (rc, usage) in
    let* '(rc, entries) := settings
      (settings_load_subtree_direct (default EmptyString namespace_name)) in
    ret (rzi_err_from_errno rc,
         if rc =? 0 then Some (foldl count_usage (StorageUsage 0 0 0) entries) else usage).

(** common_init.c *)
Definition rzi_init : M storage_state Z :=
  if k_is_in_isr then ret (- RZI_ERR_ISR)
  else if CONFIG_RZI_STORAGE then
    rc* rc := rzi_storage_init else rc in
    ret 0
  else ret 0.
End storage.

(** ** Names *)
Lemma build_name_inv size ns key name :
  build_name size ns key = (name, 0) ->
  exists n k, ns = Some n /\ key = Some k /\ valid_component (Some n) = true /\
    valid_component (Some k) = true /\ name = (n ++ "/" ++ k)%string /\ zstrlen name < size.
Proof.
  unfold build_name. destruct ns as [n|], key as [k|]; try done.
  destruct (valid_component (Some n)) eqn:En, (valid_component (Some k)) eqn:Ek; cbn; try done.
  destruct (Z.leb_spec size (zstrlen (n ++ "/" ++ k))); [done|].
  intros [= <-]. exists n, k. by split_and!.
Qed.

Lemma build_name_cases size ns key : exists name rc, build_name size ns key = (name, rc) /\
  (rc = 0 \/ rc = - RZI_ERR_INVALID \/ rc = - RZI_ERR_TOO_LARGE).
Proof.
  unfold build_name. destruct ns, key; repeat case_match; eexists _, _; split; eauto.
Qed.

(** A character that does not occur splits a string in at most one way. *)
Fixpoint no_slash (s : string) : bool :=
  match s with
  | EmptyString => true
  | String c s' => negb (Ascii.eqb c slash) && no_slash s'
  end.
Lemma slash_split n n' k k' :
  no_slash n = true -> no_slash n' = true ->
  (n ++ "/" ++ k = n' ++ "/" ++ k')%string -> n = n' /\ k = k'.
Proof.
  revert n'. induction n as [|c n IH]; intros [|c' n'] Hn Hn' Heq; cbn in *.
  - by injection Heq.
  - injection Heq as <- _. done.
  - injection Heq as -> _. done.
  - apply andb_true_iff in Hn as [? ?], Hn' as [? ?].
    injection Heq as -> Heq. destruct (IH n') as [-> ->]; done.
Qed.

(** names of keys in namespaces without a slash, such as the SDK's own "rzi" and
    "lorawan", collide only when the namespace and the key are the same. *)
Theorem build_name_injective size n n' k k' name :
  no_slash n = true -> no_slash n' = true ->
  build_name size (Some n) (Some k) = (name, 0) ->
  build_name size (Some n') (Some k') = (name, 0) ->
  n = n' /\ k = k'.
Proof.
  intros Hn Hn' H1 H2.
  apply build_name_inv in H1 as (? & ? & [= <-] & [= <-] & _ & _ & E1 & _).
  apply build_name_inv in H2 as (? & ? & [= <-] & [= <-] & _ & _ & E2 & _).
  apply slash_split; congruence.
Qed.

Lemma build_name_injective_witness : ("lorawan" = "lorawan" /\ "njm" = "njm")%string.
Proof.
  apply (build_name_injective 64 "lorawan" "lorawan" "njm" "njm" "lorawan/njm"); reflexivity.
Defined.

(** ** Functional behaviour against a map from names to values *)
Section facts.
Context `{SettingsOk} `{Errno} `{Kconfig} {ctx : ExecCtx}.

Definition stored (s : storage_state) : gmap string (list Z) := kv (sys s).

Lemma init_spec s :
  let r := rzi_storage_init s in
  r.1 <= 0 /\ stored r.2 = stored s /\ sto_power r.2 = sto_power s /\
  (r.1 = 0 -> k_is_in_isr = false /\ initialized r.2 = true).
Proof.
  unfold rzi_storage_init, stored, settings. destruct k_is_in_isr; [done|]. mrun.
  destruct (initialized s) eqn:?; [done|].
  destruct (settings_subsys_init (sys s)) as [rc f] eqn:E.
  pose proof (kv_init (sys s)) as Hkv. pose proof (init_rc (sys s)) as Hrc.
  rewrite E in Hkv, Hrc. cbn in *.
  destruct (Z.eqb_spec rc 0); cbn; split_and!; auto; try lia.
  intros ?%rzi_err_from_errno_zero. lia.
Qed.

Lemma init_done s : initialized s = true -> k_is_in_isr = false -> rzi_storage_init s = (0, s).
Proof. unfold rzi_storage_init. intros Hi ->. mrun. by rewrite Hi. Qed.

(** The lock around a write returns to the same counts, whatever happens between. *)
Lemma flash_lock_get_spec s :
  let r := flash_lock_get s in
  r.1 <= 0 /\ sys r.2 = sys s /\ initialized r.2 = initialized s.
Proof.
  unfold flash_lock_get, power. destruct auto_service_lock; [|done]. mrun.
  pose proof (lock_get_cases RZI_POWER_LOCK_FLASH (sto_power s)) as Hc.
  destruct (rzi_power_lock_get _ _) as [rc p]. cbn in *.
  destruct Hc as [[? _]|[? _]]; lia || (split_and!; [lia|done|done]).
Qed.
Lemma flash_lock_put_spec s :
  let r := flash_lock_put s in sys r.2 = sys s /\ initialized r.2 = initialized s.
Proof.
  unfold flash_lock_put, power. destruct auto_service_lock; [|done]. mrun.
  by destruct (rzi_power_lock_put _ _).
Qed.

(** The state a storage call leaves: other names keep their values. *)
Definition others_kept (name : string) (s s' : storage_state) : Prop :=
  forall name', name' <> name -> stored s' !! name' = stored s !! name'.
#[local] Instance others_kept_preorder name : PreOrder (others_kept name).
Proof. split; unfold others_kept; [done|]. intros ? ? ? Ha Hb n Hn. by rewrite Hb, Ha. Qed.

Lemma init_others name : respects (others_kept name) rzi_storage_init.
Proof. intros s n _. destruct (init_spec s) as (_ & -> & _). done. Qed.
Lemma lock_get_others name : respects (others_kept name) flash_lock_get.
Proof. intros s n _. unfold stored. destruct (flash_lock_get_spec s) as (_ & -> & _). done. Qed.
Lemma lock_put_others name : respects (others_kept name) flash_lock_put.
Proof. intros s n _. unfold stored. by destruct (flash_lock_put_spec s) as (-> & _). Qed.
Lemma settings_others {A} name (m : M flash A) :
  (forall f n, n <> name -> kv (m f).2 !! n = kv f !! n) ->
  respects (others_kept name) (settings m).
Proof.
  intros Hm. apply respects_zoom. intros s n Hn. unfold stored. cbn. by apply Hm.
Qed.
#[local] Hint Resolve init_others lock_get_others lock_put_others : frame.

Lemma write_others ns key v size name :
  (build_name RZI_STORAGE_NAME_MAX ns key).1 = name ->
  respects (others_kept name) (rzi_storage_write ns key v size).
Proof.
  intros <-. unfold rzi_storage_write. frame.
  apply settings_others. intros f n Hn. by apply save_other.
Qed.
Lemma delete_others ns key name :
  (build_name RZI_STORAGE_NAME_MAX ns key).1 = name ->
  respects (others_kept name) (rzi_storage_delete ns key).
Proof.
  intros <-. unfold rzi_storage_delete. frame.
  - apply settings_others. intros f n Hn. by rewrite kv_val_len.
  - apply settings_others. intros f n Hn. by apply delete_other.
Qed.

(** isolation: a write, record write or delete of one key leaves every other stored name
    as it was, whatever the result of the call. *)
Theorem storage_isolation ns key ns' key' name v size version s :
  build_name RZI_STORAGE_NAME_MAX ns' key' = (name, 0) ->
  name <> (build_name RZI_STORAGE_NAME_MAX ns key).1 ->
  stored (rzi_storage_write ns key v size s).2 !! name = stored s !! name /\
  stored (rzi_storage_write_record ns key version v size s).2 !! name = stored s !! name /\
  stored (rzi_storage_delete ns key s).2 !! name = stored s !! name.
Proof.
  intros _ Hne. split_and!.
  - by apply (write_others ns key v size _ eq_refl).
  - unfold rzi_storage_write_record. repeat case_match; try done.
    by apply (write_others ns key _ _ _ eq_refl).
  - by apply (delete_others ns key _ eq_refl).
Qed.

(** The critical section of a write or delete: initialise, take the flash lock, run
    [op], release the lock, and map the code. *)
Definition critical (op : M storage_state Z) : M storage_state Z :=
  rc* rc := rzi_storage_init else rc in
  rc* rc := flash_lock_get else rc in
  let* rc := op in
  flash_lock_put ;;;
  ret (rzi_err_from_errno rc).

(** Either [op] did not run and nothing is stored, or it ran on a state that stores the
    same values and its code and store are what the section returns. *)
Lemma critical_cases op s :
  ((critical op s).1 < 0 /\ stored (critical op s).2 = stored s) \/
  (exists s1, stored s1 = stored s /\ k_is_in_isr = false /\ initialized s1 = true /\
    (critical op s).1 = rzi_err_from_errno (op s1).1 /\
    initialized (critical op s).2 = initialized (op s1).2 /\
    stored (critical op s).2 = stored (op s1).2).
Proof.
  unfold critical, bind, stored. destruct (init_spec s) as (Hle & Hst & _ & Hisr).
  destruct (rzi_storage_init s) as [rc0 s0]. unfold stored in *. cbn in *.
  destruct (Z.eqb_spec rc0 0) as [->|]; [|cbn; left; split; [lia | done]].
  destruct (Hisr eq_refl) as [? Hinit].
  destruct (flash_lock_get_spec s0) as (Hle1 & Hs1 & Hi1).
  destruct (flash_lock_get s0) as [rc1 s1]. cbn in *.
  destruct (Z.eqb_spec rc1 0) as [->|]; [|cbn; left; split; [lia | by rewrite Hs1]].
  right. exists s1. destruct (op s1) as [rc2 s2].
  destruct (flash_lock_put_spec s2) as (Hs3 & Hi3).
  destruct (flash_lock_put s2) as [[] s3]. cbn in *. rewrite Hs1, Hs3, Hi1, Hi3. by split_and!.
Qed.

Lemma write_critical ns key bytes size name :
  size <> 0 -> build_name RZI_STORAGE_NAME_MAX ns key = (name, 0) ->
  rzi_storage_write ns key (Some bytes) size =
  critical (settings (settings_save_one name (take (Z.to_nat size) bytes))).
Proof.
  intros Hs Hn. unfold rzi_storage_write. rewrite Hn.
  by destruct (Z.eqb_spec size 0).
Qed.

(** The body of a delete between the lock calls. *)
Definition delete_op (name : string) : M storage_state Z :=
  let* stored_size := settings (settings_get_val_len name) in
  if stored_size <? 0 then ret stored_size
  else if stored_size =? 0 then ret (- ENOENT)
  else settings (settings_delete name).

Lemma delete_critical ns key name s :
  build_name RZI_STORAGE_NAME_MAX ns key = (name, 0) ->
  rzi_storage_delete ns key s = critical (delete_op name) s.
Proof.
  intros Eb. unfold rzi_storage_delete, critical. rewrite Eb. cbn [negb Z.eqb].
  unfold delete_op, bind. repeat case_match; simplify_eq; done.
Qed.

(** A successful write is a map update. *)
Lemma write_ok ns key v size s :
  (rzi_storage_write ns key v size s).1 = 0 ->
  exists name bytes, build_name RZI_STORAGE_NAME_MAX ns key = (name, 0) /\ v = Some bytes /\
    size <> 0 /\ k_is_in_isr = false /\
    initialized (rzi_storage_write ns key v size s).2 = true /\
    stored (rzi_storage_write ns key v size s).2 =
      <[name := take (Z.to_nat size) bytes]> (stored s).
Proof.
  destruct v as [bytes|]; [|done].
  destruct (decide (size = 0)) as [->|Hsz]; [done|].
  destruct (build_name RZI_STORAGE_NAME_MAX ns key) as [name rc] eqn:Eb.
  destruct (decide (rc = 0)) as [->|Hrc].
  2:{ unfold rzi_storage_write. rewrite Eb. repeat case_match; zify_tests; try lia; cbn; lia. }
  rewrite (write_critical _ _ _ _ name) by done.
  destruct (critical_cases (settings (settings_save_one name (take (Z.to_nat size) bytes))) s)
    as [[? _]|(s1 & <- & Hisr & Hi & -> & -> & ->)]; [lia|].
  unfold settings, zoom. pose proof (save_rc name (take (Z.to_nat size) bytes) (sys s1)) as Hle.
  pose proof (save_kv name (take (Z.to_nat size) bytes) (sys s1)) as Hkv.
  destruct (settings_save_one name _ (sys s1)) as [rc2 f2]. cbn in *.
  intros ?%rzi_err_from_errno_zero. exists name, bytes. split_and!; auto.
  unfold stored. cbn. apply Hkv. lia.
Qed.

Lemma delete_ok `{!ErrnoOk} ns key s :
  (rzi_storage_delete ns key s).1 = 0 ->
  exists name, build_name RZI_STORAGE_NAME_MAX ns key = (name, 0) /\
    stored (rzi_storage_delete ns key s).2 = delete name (stored s).
Proof.
  assert (Hpos : 0 < ENOENT).
  { pose proof errno_range as Hr. unfold errno_labels in Hr.
    repeat (apply Forall_cons in Hr as [? Hr]). lia. }
  destruct (build_name RZI_STORAGE_NAME_MAX ns key) as [name rc] eqn:Eb.
  destruct (decide (rc = 0)) as [->|Hrc].
  2:{ unfold rzi_storage_delete. rewrite Eb. repeat case_match; zify_tests; try lia; cbn; lia. }
  rewrite (delete_critical _ _ name) by done.
  destruct (critical_cases (delete_op name) s) as [[? _]|(s1 & <- & Hisr & _ & -> & _ & ->)]; [lia|].
  intros Hz%rzi_err_from_errno_zero. exists name. split; [done|]. revert Hz.
  unfold delete_op, bind, settings, zoom, stored. pose proof (kv_val_len name (sys s1)) as Hlen.
  destruct (settings_get_val_len name (sys s1)) as [n f1]. cbn in Hlen.
  destruct (Z.ltb_spec n 0); [cbn; lia|]. destruct (Z.eqb_spec n 0); [cbn; lia|]. cbn.
  pose proof (delete_rc name f1) as Hle. pose proof (delete_kv name f1) as Hkv.
  destruct (settings_delete name f1) as [rc2 f2]. cbn in *. rewrite <- Hlen.
  intros. apply Hkv. lia.
Qed.

(** What a read of a stored name yields when the settings subsystem can load it. *)
Lemma read_spec ns key buf size s name :
  build_name RZI_STORAGE_NAME_MAX ns key = (name, 0) -> size <> 0 -> 
  (forall f, kv f = stored s -> 0 <= (settings_load_one name size f).1.1) ->
  (rzi_storage_init s).1 = 0 ->
  (rzi_storage_read ns key (Some buf) size s).1 =
    match stored s !! name with
    | None => (- RZI_ERR_NOT_FOUND, Some buf)
    | Some v =>
        (if zlen v =? 0 then - RZI_ERR_NOT_FOUND
         else if zlen v =? size then 0 else - RZI_ERR_TOO_LARGE,
         Some (overlay buf 0 (take (Z.to_nat size) v)))
    end.
Proof.
  intros Hn Hsz Hload Hinit. unfold rzi_storage_read. rewrite Hn.
  destruct (Z.eqb_spec size 0); [done|]. cbn [negb Z.eqb]. unfold bind.
  destruct (init_spec s) as (_ & Hst & _). destruct (rzi_storage_init s) as [rc0 s0].
  cbn in *. subst rc0. unfold settings, zoom. cbn.
  pose proof (load_rc name size (sys s0)) as Hl. specialize (Hload (sys s0) Hst).
  unfold stored in *. rewrite Hst in Hl.
  destruct (settings_load_one name size (sys s0)) as [[cnt l] f]. cbn in *.
  specialize (Hl Hload). destruct (kv (sys s) !! name) as [v|]; injection Hl as -> ->; cbn.
  - pose proof (zlen_nonneg v). destruct (Z.ltb_spec (zlen v) 0); [lia|].
    by destruct (zlen v =? 0), (zlen v =? size).
  - done.
Qed.
End facts.

(** ** Versioned records *)
Lemma overlay_mid (a b c b' : list Z) : length b = length b' ->
  overlay (a ++ b ++ c) (length a) b' = a ++ b' ++ c.
Proof.
  intros Hl. unfold overlay. rewrite take_app_length. f_equal. f_equal.
  rewrite <- drop_drop, drop_app_length, <- Hl. apply drop_app_length.
Qed.
Lemma overlay_at off (a b c b' : list Z) : length a = off -> length b = length b' ->
  overlay (a ++ b ++ c) off b' = a ++ b' ++ c.
Proof. intros <-. apply overlay_mid. Qed.
Lemma slice_mid (a b c : list Z) n : length b = n -> slice (a ++ b ++ c) (length a) n = b.
Proof. intros <-. unfold slice. by rewrite drop_app_length, take_app_length. Qed.
Lemma slice_end (a b : list Z) n : length b = n -> slice (a ++ b) (length a) n = b.
Proof. intros <-. unfold slice. rewrite drop_app_length. by rewrite take_ge. Qed.

Lemma slice_at off n (a b c : list Z) : length a = off -> length b = n ->
  slice (a ++ b ++ c) off n = b.
Proof. intros <-. apply slice_mid. Qed.
Lemma slice_end_at off n (a b : list Z) : length a = off -> length b = n ->
  slice (a ++ b) off n = b.
Proof. intros <-. apply slice_end. Qed.

Lemma overlay_at_0 (b c b' : list Z) : length b = length b' ->
  overlay (b ++ c) 0 b' = b' ++ c.
Proof. apply (overlay_at 0 []). done. Qed.
Lemma slice_at_0 n (b c : list Z) : length b = n -> slice (b ++ c) 0 n = b.
Proof. by apply (slice_at 0 n []). Qed.

Section records.
Context `{SettingsOk} `{!BytesOk} `{Errno} `{Kconfig} `{!KconfigOk} {ctx : ExecCtx}.

Definition record_header8 (version : Z) (size : nat) : list Z :=
  sys_put_le32 RECORD_MAGIC ++ sys_put_le16 version ++ sys_put_le16 (u16 (Z.of_nat size)).
(** The stored image of a record: magic, version, size, CRC, payload. *)
Definition record_image (version : Z) (payload : list Z) : list Z :=
  let h := record_header8 version (length payload) in
  h ++ sys_put_le32 (crc32_ieee_update (crc32_ieee h) payload) ++ payload.

Lemma length_header8 v n : length (record_header8 v n) = 8%nat.
Proof.
  unfold record_header8. by rewrite !length_app, put_le32_length, !put_le16_length.
Qed.

Lemma get_le32_put v : sys_get_le32 (sys_put_le32 v) = u32 v.
Proof. rewrite <- (app_nil_r (sys_put_le32 v)). apply get_put_le32. Qed.
Lemma get_le16_put v : sys_get_le16 (sys_put_le16 v) = u16 v.
Proof. rewrite <- (app_nil_r (sys_put_le16 v)). apply get_put_le16. Qed.

(** The CRC covers the first eight header bytes and the payload, and does not
    depend on the bytes of the CRC field itself. *)
Lemma record_crc_image_pre h c payload rest : length h = 8%nat -> length c = 4%nat ->
  record_crc (h ++ c ++ payload ++ rest) (length payload) =
  crc32_ieee_update (crc32_ieee h) payload.
Proof.
  intros Hh Hc. unfold record_crc. f_equal.
  - f_equal. by apply slice_at_0.
  - rewrite app_assoc. apply slice_at; [|done]. by rewrite length_app, Hh, Hc.
Qed.
Lemma record_crc_image h c payload : length h = 8%nat -> length c = 4%nat ->
  record_crc (h ++ c ++ payload) (length payload) =
  crc32_ieee_update (crc32_ieee h) payload.
Proof. rewrite <- (app_nil_r payload) at 1. apply record_crc_image_pre. Qed.

Lemma encode_record_image version value size :
  (size <= length value)%nat -> Z.of_nat size <= CONFIG_RZI_STORAGE_RECORD_MAX_SIZE ->
  take (12 + size) (encode_record version value size) = record_image version (take size value).
Proof.
  intros Hlen Hmax. pose proof record_max_range as Hr.
  set (payload := take size value).
  assert (Hp : length payload = size) by (unfold payload; rewrite length_take; lia).
  set (rest := (Z.to_nat CONFIG_RZI_STORAGE_RECORD_MAX_SIZE - size)%nat).
  assert (Hrep : replicate (Z.to_nat (RECORD_HEADER_SIZE + CONFIG_RZI_STORAGE_RECORD_MAX_SIZE)) 0 =
    replicate 4 0 ++ replicate 2 0 ++ replicate 2 0 ++ replicate 4 0 ++
    replicate size 0 ++ replicate rest 0).
  { rewrite <- !replicate_add. f_equal. unfold rest, RECORD_HEADER_SIZE. lia. }
  unfold encode_record. rewrite Hrep.
  set (m := sys_put_le32 RECORD_MAGIC). set (v := sys_put_le16 version).
  set (z := sys_put_le16 (u16 (Z.of_nat size))).
  assert (Hm : length m = 4%nat) by apply put_le32_length.
  assert (Hv : length v = 2%nat) by apply put_le16_length.
  assert (Hz : length z = 2%nat) by apply put_le16_length.
  rewrite (overlay_at_0 (replicate 4 0) _ m) by (rewrite ?length_replicate; done).
  set (tail := replicate size 0 ++ replicate rest 0).
  rewrite (overlay_at 4 m (replicate 2 0) _ v) by (rewrite ?length_replicate; done).
  rewrite (app_assoc m v).
  rewrite (overlay_at 6 (m ++ v) (replicate 2 0) _ z)
    by (rewrite ?length_app, ?length_replicate; lia).
  rewrite (app_assoc (m ++ v) z). set (h := (m ++ v) ++ z).
  assert (Hh8 : length h = 8%nat) by (unfold h; rewrite !length_app; lia).
  rewrite (app_assoc h (replicate 4 0)). unfold tail.
  rewrite (overlay_at (Z.to_nat RECORD_HEADER_SIZE) (h ++ replicate 4 0) (replicate size 0) _ payload)
    by (rewrite ?length_app, ?length_replicate; unfold RECORD_HEADER_SIZE; lia).
  rewrite <- (app_assoc h (replicate 4 0)).
  set (crc := record_crc _ _).
  assert (Hcrc : crc = crc32_ieee_update (crc32_ieee h) payload).
  { unfold crc. rewrite <- Hp at 1. apply record_crc_image_pre; done || by rewrite length_replicate. }
  rewrite (overlay_at 8 h (replicate 4 0) _ (sys_put_le32 crc))
    by (rewrite ?length_replicate, ?put_le32_length; done).
  assert (Hh : h = record_header8 version (length payload)).
  { unfold record_header8, h. by rewrite Hp, <- app_assoc. }
  unfold record_image. rewrite <- Hh, <- Hcrc, !app_assoc.
  rewrite take_app_le; [apply take_ge|]; rewrite !length_app, put_le32_length; lia.
Qed.

(** Reading back the header fields of a stored image. *)
Lemma decode_record_image version payload capacity :
  u16 version <> 0 -> 0 < zlen payload <= CONFIG_RZI_STORAGE_RECORD_MAX_SIZE ->
  zlen payload <= capacity ->
  decode_record (record_image version payload) (12 + zlen payload) capacity =
    (0, Some (u16 version, payload)).
Proof.
  intros Hv Hp Hcap. pose proof record_max_range as Hr.
  assert (Hz : u16 (Z.of_nat (length payload)) = zlen payload).
  { unfold u16, zlen in *. rewrite Z.mod_small; lia. }
  assert (Hz2 : u16 (u16 (Z.of_nat (length payload))) = zlen payload).
  { rewrite Hz. unfold u16. rewrite Z.mod_small; lia. }
  set (c := crc32_ieee_update (crc32_ieee (record_header8 version (length payload))) payload).
  assert (Himg : record_image version payload =
    sys_put_le32 RECORD_MAGIC ++ sys_put_le16 version ++
    sys_put_le16 (u16 (Z.of_nat (length payload))) ++ sys_put_le32 c ++ payload).
  { unfold record_image, c. unfold record_header8 at 1. by rewrite <- !app_assoc. }
  assert (Hcrc : record_crc (record_image version payload) (length payload) = c).
  { unfold record_image. apply record_crc_image; [apply length_header8 | apply put_le32_length]. }
  unfold decode_record, RECORD_HEADER_SIZE.
  destruct (Z.leb_spec (12 + zlen payload) 12); [lia|]. cbn [orb].
  assert (Hs0 : slice (record_image version payload) 0 4 = sys_put_le32 RECORD_MAGIC).
  { rewrite Himg. apply slice_at_0, put_le32_length. }
  assert (Hs4 : slice (record_image version payload) 4 2 = sys_put_le16 version).
  { rewrite Himg. apply slice_at; [apply put_le32_length | apply put_le16_length]. }
  assert (Hs6 : slice (record_image version payload) 6 2 =
                sys_put_le16 (u16 (Z.of_nat (length payload)))).
  { rewrite Himg, app_assoc. apply slice_at; [|apply put_le16_length].
    by rewrite length_app, put_le32_length, put_le16_length. }
  cbv zeta. rewrite Hs0, Hs4, Hs6.
  rewrite get_le32_put, !get_le16_put, Hz2.
  change (u32 RECORD_MAGIC =? RECORD_MAGIC) with true. cbn [negb orb].
  destruct (Z.eqb_spec (u16 version) 0); [done|].
  replace (12 + zlen payload - 12) with (zlen payload) by lia. rewrite Z.eqb_refl. cbn [negb orb].
  assert (Hn : Z.to_nat (zlen payload) = length payload) by apply Nat2Z.id.
  rewrite Hn, Hcrc.
  assert (Hs8 : slice (record_image version payload) 8 4 = sys_put_le32 c).
  { unfold record_image. apply slice_at; [apply length_header8 | apply put_le32_length]. }
  rewrite Hs8, get_le32_put. pose proof (crc_update_range (crc32_ieee
    (record_header8 version (length payload))) payload) as Hc. fold c in Hc.
  unfold u32. rewrite Z.mod_small, Z.eqb_refl by done. cbn [negb].
  destruct (Z.ltb_spec capacity (zlen payload)); [lia|]. do 3 f_equal.
  unfold record_image. rewrite app_assoc. apply slice_end_at; [|done].
  by rewrite length_app, length_header8, put_le32_length.
Qed.
(** The no-fault assumption of the round trips: the settings subsystem can read. *)
Definition loads_ok : Prop := forall (name : string) (n : Z) (f : flash),
  0 <= (settings_load_one name n f).1.1 /\ 0 <= (settings_get_val_len name f).1.

(** write then read: after a write that returned zero, reading the same key with the
    same size returns zero and exactly the bytes written, and leaves the store alone. *)
Theorem storage_write_read ns key bytes size buf s s1 :
  loads_ok -> 0 < size <= zlen bytes ->
  rzi_storage_write ns key (Some bytes) size s = (0, s1) ->
  (rzi_storage_read ns key (Some buf) size s1).1 =
    (0, Some (overlay buf 0 (take (Z.to_nat size) bytes))).
Proof.
  intros Hok Hsz Hw.
  destruct (write_ok ns key (Some bytes) size s) as
    (name & b & Hn & [= <-] & _ & Hisr & Hinit & Hst); [by rewrite Hw|].
  rewrite Hw in Hst, Hinit. cbn [fst snd] in *.
  rewrite (read_spec ns key buf size s1 name Hn ltac:(lia) (fun f _ => proj1 (Hok name size f)) (f_equal fst (init_done s1 Hinit Hisr))).
  rewrite Hst, lookup_insert_eq. unfold zlen in *. rewrite length_take, take_take.
  rewrite Nat.min_id. destruct (Z.eqb_spec (Z.of_nat (Z.to_nat size `min` length bytes)) 0); [lia|].
  destruct (Z.eqb_spec (Z.of_nat (Z.to_nat size `min` length bytes)) size); [done|lia].
Qed.

Lemma fetch_record_ok name v s :
  loads_ok -> stored s !! name = Some v ->
  0 < zlen v <= 12 + CONFIG_RZI_STORAGE_RECORD_MAX_SIZE ->
  (fetch_record name s).1 = (0, (zlen v, v)).
Proof.
  intros Hok Hv Hl. unfold fetch_record, bind, settings, zoom, stored in *.
  pose proof (val_len_rc name (sys s) (proj2 (Hok name 0 _))) as Hlen.
  pose proof (kv_val_len name (sys s)) as Hkv. rewrite Hv in Hlen.
  destruct (settings_get_val_len name (sys s)) as [n f]. cbn in *. subst n.
  unfold RECORD_HEADER_SIZE.
  destruct (Z.ltb_spec (12 + CONFIG_RZI_STORAGE_RECORD_MAX_SIZE) (zlen v)); [lia|].
  destruct (Z.ltb_spec (zlen v) 0); [lia|]. destruct (Z.eqb_spec (zlen v) 0); [lia|].
  pose proof (load_rc name (zlen v) f (proj1 (Hok name (zlen v) _))) as Hload. rewrite Hkv, Hv in Hload.
  cbn. destruct (settings_load_one name (zlen v) f) as [[a l] f']. cbn in *. injection Hload as -> ->.
  destruct (Z.ltb_spec (zlen v) 0); [lia|]. rewrite Z.eqb_refl. cbn.
  unfold zlen. by rewrite Nat2Z.id, take_ge.
Qed.

(** C34: record round trip: a record written with a nonzero 16-bit version is read back with
    the same version, payload and size by any reader whose buffer is large enough. *)
Theorem storage_record_roundtrip ns key version bytes size out old_value old_version old_size capacity s s1 :
  loads_ok -> 0 < version < 65536 -> 0 < size <= zlen bytes -> size <= capacity ->
  rzi_storage_write_record ns key version (Some bytes) size s = (0, s1) ->
  out = RecordOut (Some old_version) (Some old_value) (Some old_size) ->
  (rzi_storage_read_record ns key out capacity s1).1 =
    (0, RecordOut (Some version) (Some (overlay old_value 0 (take (Z.to_nat size) bytes)))
          (Some size)).
Proof.
  intros Hok Hv Hsz Hcap Hw ->. unfold rzi_storage_write_record in Hw.
  destruct k_is_in_isr eqn:Hisr; [done|]. destruct (_ || _) eqn:?; [done|].
  destruct (Z.ltb_spec CONFIG_RZI_STORAGE_RECORD_MAX_SIZE size); [done|].
  destruct (write_ok ns key (Some (encode_record version bytes (Z.to_nat size)))
    (RECORD_HEADER_SIZE + size) s)
    as (name & b & Hn & [= <-] & _ & _ & Hinit & Hst); [by rewrite Hw|].
  rewrite Hw in Hst, Hinit. change RECORD_HEADER_SIZE with 12 in *. cbn [fst snd] in *.
  set (payload := take (Z.to_nat size) bytes).
  assert (Hp : zlen payload = size).
  { unfold payload, zlen in *. rewrite length_take. lia. }
  replace (Z.to_nat (12 + size)) with (12 + Z.to_nat size)%nat in Hst by lia.
  rewrite encode_record_image in Hst by (unfold zlen in *; lia). fold payload in Hst.
  assert (Himg : zlen (record_image version payload) = 12 + size).
  { unfold record_image, zlen in *. rewrite !length_app, length_header8, put_le32_length. lia. }
  unfold rzi_storage_read_record. rewrite Hisr. cbn [out_version out_value out_size].
  destruct (Z.eqb_spec capacity 0); [lia|]. rewrite Hn. cbn [negb Z.eqb].
  unfold bind. rewrite init_done by done. cbn [Z.eqb].
  pose proof (fetch_record_ok name (record_image version payload) s1 Hok) as Hf.
  rewrite Hst, lookup_insert_eq in Hf. specialize (Hf eq_refl ltac:(lia)).
  destruct (fetch_record name s1) as [x s2]. cbn [fst snd] in *. subst x. cbn [negb Z.eqb].
  assert (Hu : u16 version = version) by (unfold u16; rewrite Z.mod_small; lia).
  rewrite Himg, <- Hp, decode_record_image by lia.
  rewrite Hu. done.
Qed.

Lemma decode_record_sound rec len cap :
  match decode_record rec len cap with
  | (rc, None) => rc <> 0
  | (rc, Some (v, p)) => rc = 0 /\ v <> 0 /\ zlen p <= len - 12 /\ zlen p <= cap
  end.
Proof.
  unfold decode_record, RECORD_HEADER_SIZE.
  destruct ((len <=? 12) || _ || _) eqn:E1; [done|]. cbv zeta.
  set (z := sys_get_le16 (slice rec 6 2)) in *.
  destruct (negb (z =? len - 12) || _) eqn:E2; [done|].
  destruct (cap <? z) eqn:E3; [done|]. zify_tests.
  assert (Hle : zlen (slice rec (Z.to_nat 12) (Z.to_nat z)) <= z).
  { unfold zlen, slice. rewrite length_take. lia. }
  split_and!; done || lia.
Qed.

(** What a record fetch under the lock returns. *)
Lemma fetch_record_spec name s :
  let f := fetch_record name s in
  stored f.2 = stored s /\
  (f.1.1 = 0 -> exists rec, stored s !! name = Some rec /\ f.1.2 = (zlen rec, rec) /\
    zlen rec <= 12 + CONFIG_RZI_STORAGE_RECORD_MAX_SIZE).
Proof.
  unfold fetch_record, bind, settings, zoom, stored, RECORD_HEADER_SIZE.
  pose proof (kv_val_len name (sys s)) as Hkv.
  destruct (settings_get_val_len name (sys s)) as [n f]. cbn in Hkv.
  destruct (Z.ltb_spec (12 + CONFIG_RZI_STORAGE_RECORD_MAX_SIZE) n); [done|].
  destruct (Z.ltb_spec n 0).
  { cbn. split; [done|]. intros ?%rzi_err_from_errno_zero. lia. }
  destruct (Z.eqb_spec n 0); [done|].
  pose proof (kv_load name n f) as Hkv2. pose proof (load_rc name n f) as Hload. cbn.
  destruct (settings_load_one name n f) as [[a l] f']. cbn in *. split; [congruence|].
  destruct (Z.ltb_spec a 0); [intros ?%rzi_err_from_errno_zero; lia|].
  destruct (Z.eqb_spec a n) as [->|]; [|done]. intros _. specialize (Hload ltac:(lia)).
  rewrite Hkv in Hload. destruct (kv (sys s) !! name) as [v|]; [|injection Hload; lia].
  injection Hload as -> ->. exists v. unfold zlen. rewrite Nat2Z.id, take_ge by lia.
  split_and!; done.
Qed.

(** The two outcomes of a record read. *)
Lemma read_record_cases ns key out capacity s :
  let r := rzi_storage_read_record ns key out capacity s in
  stored r.2 = stored s /\
  ((r.1.1 <> 0 /\ r.1.2 = out) \/
   (r.1.1 = 0 /\ exists name rec v p old,
      build_name RZI_STORAGE_NAME_MAX ns key = (name, 0) /\
      stored s !! name = Some rec /\ zlen rec <= 12 + CONFIG_RZI_STORAGE_RECORD_MAX_SIZE /\
      decode_record rec (zlen rec) capacity = (0, Some (v, p)) /\ out_value out = Some old /\
      r.1.2 = RecordOut (Some v) (Some (overlay old 0 p)) (Some (zlen p)))).
Proof.
  unfold rzi_storage_read_record.
  destruct k_is_in_isr; [by split; [|left]|].
  destruct (out_version out) eqn:Ev; [|by split; [|left]].
  destruct (out_value out) as [old|] eqn:Eo; [|by split; [|left]].
  destruct (out_size out) eqn:Es; [|by split; [|left]].
  destruct (capacity =? 0); [by split; [|left]|].
  destruct (build_name _ _ _) as [name rc].
  destruct (Z.eqb_spec rc 0) as [->|]; cbn [negb]; [|by split; [|left]].
  unfold bind. destruct (init_spec s) as (_ & Hst & _). destruct (rzi_storage_init s) as [rc0 s0].
  cbn [fst snd] in *. destruct (Z.eqb_spec rc0 0); [|by split; [|left]].
  destruct (fetch_record_spec name s0) as [Hst2 Hrec].
  destruct (fetch_record name s0) as [[rc1 lr] s2]. cbn [fst snd] in *.
  destruct (Z.eqb_spec rc1 0) as [->|].
  2:{ destruct lr. destruct (Z.eqb_spec rc1 0); [done|]. cbn. split; [congruence|]. by left. }
  destruct (Hrec eq_refl) as (rec & Hv & -> & Hmax). cbn [negb Z.eqb].
  pose proof (decode_record_sound rec (zlen rec) capacity) as Hdec.
  destruct (decode_record rec (zlen rec) capacity) as [rc2 [[v p]|]] eqn:Ed; cbn;
    (split; [congruence|]); [|by left].
  right. destruct Hdec as (-> & _). split; [done|].
  exists name, rec, v, p, old. rewrite <- Hst. by split_and!.
Qed.

(** a record read that fails changes none of its outputs, and one that succeeds
    delivers a nonzero version and a payload within the capacity and the scratch limit,
    taken from a stored record whose checks pass; no read changes the stored values. *)
Theorem read_record_atomic ns key out capacity s :
  let r := rzi_storage_read_record ns key out capacity s in
  stored r.2 = stored s /\
  (r.1.1 <> 0 -> r.1.2 = out) /\
  (r.1.1 = 0 -> exists v p old, r.1.2 = RecordOut (Some v) (Some (overlay old 0 p)) (Some (zlen p)) /\
     out_value out = Some old /\ v <> 0 /\ zlen p <= capacity /\
     zlen p <= CONFIG_RZI_STORAGE_RECORD_MAX_SIZE).
Proof.
  destruct (read_record_cases ns key out capacity s) as
    [Hst [[Hrc Ho]|[Hrc (name & rec & v & p & old & _ & _ & Hmax & Hd & Hold & Ho)]]].
  - by split_and!.
  - split_and!; [done|done|]. intros _. exists v, p, old.
    pose proof (decode_record_sound rec (zlen rec) capacity) as Hs. rewrite Hd in Hs.
    destruct Hs as (_ & ? & ? & ?). split_and!; done || lia.
Qed.
End records.

(** ** The flash PM lock around writes *)
Section power_balance.
Context `{SettingsOk} `{!PmOk} `{Errno} `{Kconfig} {ctx : ExecCtx}.

Definition same_locks (base : Z) (s s' : storage_state) : Prop :=
  power_inv base (sto_power s') /\
  lock_counts (sto_power s') = lock_counts (sto_power s) /\
  is_pm_locked (sto_power s') = is_pm_locked (sto_power s).

Lemma critical_power base op s :
  (forall s0, sto_power (op s0).2 = sto_power s0) ->
  power_inv base (sto_power s) -> same_locks base s (critical op s).2.
Proof.
  intros Hop Hinv. unfold critical, bind, same_locks. destruct (init_spec s) as (_ & _ & Hp & _).
  destruct (rzi_storage_init s) as [rc0 s0]. cbn in Hp.
  destruct (Z.eqb_spec rc0 0) as [->|]; [|cbn; by rewrite Hp].
  unfold flash_lock_get, flash_lock_put, power, zoom. destruct auto_service_lock.
  2:{ cbn. specialize (Hop s0). destruct (op s0) as [rc2 s2]. cbn in *. by rewrite Hop, Hp. }
  rewrite Hp.
  pose proof (lock_get_put_balanced base RZI_POWER_LOCK_FLASH (sto_power s) Hinv) as Hbal.
  pose proof (lock_get_cases RZI_POWER_LOCK_FLASH (sto_power s)) as Hc.
  destruct (rzi_power_lock_get RZI_POWER_LOCK_FLASH (sto_power s)) as [rc1 p1].
  cbn [fst snd] in *. destruct (Z.eqb_spec rc1 0) as [->|].
  - specialize (Hop (set_power p1 s0)). destruct (op (set_power p1 s0)) as [rc2 s2].
    cbn [fst snd sto_power set_power] in *. unfold bind. rewrite Hop.
    destruct (Hbal ltac:(unfold int_range; lia) eq_refl) as (_ & ? & ? & ?).
    by destruct (rzi_power_lock_put _ p1).
  - destruct Hc as [[_ ->]|[? _]]; [|lia]. done.
Qed.

(** lock balance: a write, a record write and a delete, successful or not, leave every
    PM lock count as it was, so the flash lock they take is always released. *)
Theorem storage_lock_balanced base ns key v size version s :
  power_inv base (sto_power s) ->
  same_locks base s (rzi_storage_write ns key v size s).2 /\
  same_locks base s (rzi_storage_write_record ns key version v size s).2 /\
  same_locks base s (rzi_storage_delete ns key s).2.
Proof.
  intros Hinv.
  assert (Hset : forall A (m : M flash A) s0, sto_power (settings m s0).2 = sto_power s0).
  { intros A m s0. unfold settings, zoom. by destruct (m (sys s0)). }
  assert (Hw : forall v size, same_locks base s (rzi_storage_write ns key v size s).2).
  { intros [bytes|] sz; [|done]. unfold rzi_storage_write.
    destruct (sz =? 0); [done|]. destruct (build_name _ _ _) as [name rc].
    destruct (rc =? 0); [|done]. cbn [negb].
    apply (critical_power base (settings (settings_save_one name (take (Z.to_nat sz) bytes)))); auto. }
  split_and!.
  - apply Hw.
  - unfold rzi_storage_write_record. destruct k_is_in_isr; [done|]. destruct v as [b|]; [|done].
    destruct ((version =? 0) || _); [done|]. destruct (_ <? size); [done|]. apply Hw.
  - destruct (build_name RZI_STORAGE_NAME_MAX ns key) as [name rc] eqn:Eb.
    destruct (decide (rc = 0)) as [->|Hrc].
    + rewrite (delete_critical _ _ name) by done. apply critical_power; [|done].
      intros s0. unfold delete_op, bind. pose proof (Hset _ (settings_get_val_len name) s0) as E.
      destruct (settings (settings_get_val_len name) s0) as [n s']. cbn in E.
      destruct (n <? 0); [done|]. destruct (n =? 0); [done|]. by rewrite Hset.
    + unfold rzi_storage_delete. rewrite Eb. by destruct (Z.eqb_spec rc 0).
Qed.
End power_balance.

Module StorageWitness.
Import Instances.
Local Open Scope string_scope.
Definition fresh : storage_state := StorageState false (SimFlash ∅ []) (power_init (0 : @pm_st sim_zephyr)).

Lemma sim_loads_ok : loads_ok.
Proof.
  intros name n f. cbn. unfold sim_load, sim_len, gets. cbn.
  pose proof (@zlen_nonneg Z). destruct (fs_kv f !! name); cbn; auto; split; done || lia.
Defined.

Lemma storage_isolation_witness :
  stored (rzi_storage_write (Some "rzi") (Some "nwm") (Some [2]) 1 fresh).2 !! "lorawan/njm" = None.
Proof.
  exact (proj1 (storage_isolation (Some "rzi") (Some "nwm") (Some "lorawan") (Some "njm")
    "lorawan/njm" (Some [2]) 1 1 fresh eq_refl ltac:(discriminate))).
Defined.

Lemma storage_write_read_witness :
  let s1 := (rzi_storage_write (Some "rzi") (Some "nwm") (Some [2]) 1 fresh).2 in
  (rzi_storage_read (Some "rzi") (Some "nwm") (Some [0]) 1 s1).1 = (0, Some [2]).
Proof.
  exact (storage_write_read (Some "rzi") (Some "nwm") [2] 1 [0] fresh _ sim_loads_ok
    ltac:(vm_compute; split; congruence) eq_refl).
Defined.

Definition record_cells : record_out := RecordOut (Some 0) (Some [9; 9; 9]) (Some 0).
Definition record_written : storage_state :=
  (rzi_storage_write_record (Some "lorawan") (Some "join_policy") 1 (Some [1; 8; 3]) 3 fresh).2.
Lemma storage_record_roundtrip_witness :
  (rzi_storage_read_record (Some "lorawan") (Some "join_policy") record_cells 3 record_written).1 =
    (0, RecordOut (Some 1) (Some [1; 8; 3]) (Some 3)).
Proof.
  apply (storage_record_roundtrip (Some "lorawan") (Some "join_policy") 1 [1; 8; 3] 3
    record_cells [9; 9; 9] 0 0 3 fresh record_written).
  - exact sim_loads_ok.
  - lia.
  - vm_compute. split; congruence.
  - lia.
  - vm_refl.
  - reflexivity.
Defined.

Lemma storage_lock_balanced_witness :
  lock_counts (sto_power (rzi_storage_delete (Some "rzi") (Some "nwm") fresh).2) = [0; 0; 0; 0; 0].
Proof.
  assert (Hinv : power_inv 0 (sto_power fresh)).
  { unfold power_inv. split_and!; [reflexivity| |lia|reflexivity].
    repeat constructor; unfold byte_range; lia. }
  exact (proj1 (proj2 (proj2 (proj2
    (storage_lock_balanced 0 (Some "rzi") (Some "nwm") None 0 0 fresh Hinv))))).
Defined.
End StorageWitness.
