(* ===== verification/LorawanSettings.v ===== *)
(** * LoRaWAN settings (src/lorawan/lorawan_settings.c, lorawan_settings.h)

    The central schema of persisted settings: defaults, validation, migration
    of legacy keys, and a cache with one entry per key.  The state is the
    static table [settings] and the storage service below it. *)
From S2P Require Import Prelude Zephyr Err Power Storage.

(** include/rzi/lorawan/lorawan.h *)
Abbreviation RZI_LORAWAN_CHANNEL_MASK_WORDS := 6.
Abbreviation RZI_LORAWAN_JOIN_KEEP := (-1).
Abbreviation RZI_LORAWAN_JOIN_INTERVAL_MIN := 7.
Abbreviation RZI_LORAWAN_JOIN_INTERVAL_MAX := 255.
Abbreviation RZI_LORAWAN_JOIN_INTERVAL_DEFAULT := 8.

(** [enum rzi_lorawan_region] *)
Abbreviation RZI_LORAWAN_REGION_EU_868 := 0.
Abbreviation RZI_LORAWAN_REGION_US_915 := 1.
Abbreviation RZI_LORAWAN_REGION_AU_915 := 2.
Abbreviation RZI_LORAWAN_REGION_CN_470 := 3.
Abbreviation RZI_LORAWAN_REGION_AS_923_GRP1 := 4.
Abbreviation RZI_LORAWAN_REGION_AS_923_GRP2 := 5.
Abbreviation RZI_LORAWAN_REGION_AS_923_GRP3 := 6.
Abbreviation RZI_LORAWAN_REGION_AS_923_GRP4 := 7.
Abbreviation RZI_LORAWAN_REGION_IN_865 := 8.
Abbreviation RZI_LORAWAN_REGION_KR_920 := 9.
Abbreviation RZI_LORAWAN_REGION_RU_864 := 10.

(** lorawan_settings.h *)
Abbreviation RZI_JOIN_POLICY_SIZE := 3.
Abbreviation RZI_JOIN_POLICY_VERSION := 1.
Abbreviation RZI_JOIN_POLICY_AUTO := 0.
Abbreviation RZI_JOIN_POLICY_INTERVAL := 1.
Abbreviation RZI_JOIN_POLICY_ATTEMPTS := 2.

(** ** Integers as bytes: [memcpy] between a byte array and an integer object
    of the little-endian targets. *)
Definition load16 (l : list Z) (i : nat) : Z := nth (2 * i) l 0 + 256 * nth (2 * i + 1) l 0.
Definition load32 (l : list Z) : Z :=
  nth 0 l 0 + 256 * (nth 1 l 0 + 256 * (nth 2 l 0 + 256 * nth 3 l 0)).
Definition store16 (v : Z) : list Z := [u8 v; u8 (v / 256)].
Definition store32 (v : Z) : list Z :=
  [u8 v; u8 (v / 256); u8 (v / 65536); u8 (v / 16777216)].
Definition load_words (l : list Z) (n : nat) : list Z := load16 l <$> seq 0 n.
Definition store_words (ws : list Z) : list Z := concat (store16 <$> ws).

Inductive value_kind : Type :=
  BYTES | BOOLEAN | RETRIES | REGION | ACTIVATION | NET_ID | CHANNEL_MASK | INTERVAL | JOIN_POLICY.
#[export] Instance value_kind_eq_dec : EqDecision value_kind.
Proof. solve_decision. Defined.

(** [struct setting] *)
Record setting : Type := Setting {
  skey : string; ssize : Z; skind : value_kind; sdefault_first : Z;
  sloaded : bool; spresent : bool; svalue : list Z;
}.
(** Publishing a value to, and dropping it from, the cache part of an entry. *)
Definition cache_store (value : list Z) (present : bool) (s : setting) : setting :=
  Setting (skey s) (ssize s) (skind s) (sdefault_first s) true present value.
Definition cache_drop (s : setting) : setting :=
  Setting (skey s) (ssize s) (skind s) (sdefault_first s) false false (replicate 16 0).

Definition ENTRY (name : string) (bytes : Z) (type : value_kind) (first : Z) : setting :=
  Setting name bytes type first false false (replicate 16 0).

(** [static struct setting settings[]] *)
Definition settings_init : list setting := [
  ENTRY "deveui" 8 BYTES 0;
  ENTRY "joineui" 8 BYTES 0;
  ENTRY "appkey" 16 BYTES 0;
  ENTRY "genappkey" 16 BYTES 0;
  ENTRY "devaddr" 4 BYTES 0;
  ENTRY "nwkskey" 16 BYTES 0;
  ENTRY "appskey" 16 BYTES 0;
  ENTRY "njm" 1 ACTIVATION 1;
  ENTRY "chmask" (RZI_LORAWAN_CHANNEL_MASK_WORDS * 2) CHANNEL_MASK 0;
  ENTRY "region" 1 REGION RZI_LORAWAN_REGION_EU_868;
  ENTRY "cfm" 1 BOOLEAN 0;
  ENTRY "rety" 1 RETRIES 0;
  ENTRY "netid" 4 NET_ID 0;
  ENTRY "join_policy" RZI_JOIN_POLICY_SIZE JOIN_POLICY 0;
  ENTRY "autojoin" 1 BOOLEAN 0;
  ENTRY "join_interval" 1 INTERVAL RZI_LORAWAN_JOIN_INTERVAL_DEFAULT;
  ENTRY "join_attempts" 1 BYTES 0;
  ENTRY "band" 1 BYTES 0
].

(** The loop of the CHANNEL_MASK case: no channel from 72 on is set. *)
Definition mask_bit (mask : list Z) (channel : Z) : bool :=
  negb (Z.land (at_ mask (channel / 16)) (BIT (channel mod 16)) =? 0).
Definition no_high_channel (mask : list Z) : bool :=
  forallb (fun channel => negb (mask_bit mask (Z.of_nat channel)))
          (seq 72 (Z.to_nat (RZI_LORAWAN_CHANNEL_MASK_WORDS * 16) - 72)).

Definition valid_value (s : setting) (value : list Z) : bool :=
  match skind s with
  | BOOLEAN | ACTIVATION => at_ value 0 <=? 1
  | RETRIES => at_ value 0 <=? 7
  | REGION => at_ value 0 <=? RZI_LORAWAN_REGION_RU_864
  | INTERVAL => RZI_LORAWAN_JOIN_INTERVAL_MIN <=? at_ value 0
  | NET_ID => load32 value <=? 0xffffff
  | CHANNEL_MASK => no_high_channel (load_words value (Z.to_nat RZI_LORAWAN_CHANNEL_MASK_WORDS))
  | JOIN_POLICY =>
      (at_ value RZI_JOIN_POLICY_AUTO <=? 1) &&
      (RZI_LORAWAN_JOIN_INTERVAL_MIN <=? at_ value RZI_JOIN_POLICY_INTERVAL)
  | BYTES => true
  end.

Definition default_value (s : setting) : list Z :=
  let value := <[0%nat := sdefault_first s]> (replicate (Z.to_nat (ssize s)) 0) in
  if decide (skind s = JOIN_POLICY)
  then <[Z.to_nat RZI_JOIN_POLICY_INTERVAL := RZI_LORAWAN_JOIN_INTERVAL_DEFAULT]> value
  else value.

(** The band table of [migrate_region]. *)
Definition bands : list Z := [
  RZI_LORAWAN_REGION_EU_868; RZI_LORAWAN_REGION_CN_470;
  RZI_LORAWAN_REGION_RU_864; RZI_LORAWAN_REGION_IN_865;
  RZI_LORAWAN_REGION_EU_868; RZI_LORAWAN_REGION_US_915;
  RZI_LORAWAN_REGION_AU_915; RZI_LORAWAN_REGION_KR_920;
  RZI_LORAWAN_REGION_AS_923_GRP1; RZI_LORAWAN_REGION_AS_923_GRP2;
  RZI_LORAWAN_REGION_AS_923_GRP3; RZI_LORAWAN_REGION_AS_923_GRP4
].

Definition legacy_policy_keys : list string := ["autojoin"; "join_interval"; "join_attempts"]%string.
Definition clear_namespaces : list string := ["lorawan"; "rzi"]%string.

Section settings.
Context `{Zephyr} `{Errno} `{Kconfig} {ctx : ExecCtx}.

Record schema_state : Type := SchemaState { table : list setting; sto : storage_state }.
Definition set_table t (s : schema_state) := SchemaState t (sto s).
Definition set_sto x (s : schema_state) := SchemaState (table s) x.
Definition storage {A} (m : M storage_state A) : M schema_state A := zoom sto set_sto m.

(** [find_setting]: the position of the entry, i.e. the pointer returned. *)
Fixpoint find_index (key : string) (t : list setting) : option nat :=
  match t with
  | [] => None
  | s :: t' => if String.eqb (skey s) key then Some O else S <$> find_index key t'
  end.
Definition find_setting (key : string) (t : list setting) : option (nat * setting) :=
  i ← find_index key t; s ← t !! i; Some (i, s).

Definition save_value (s : setting) (value : list Z) : M schema_state Z :=
  if CONFIG_RZI_STORAGE then
    if decide (skind s = JOIN_POLICY)
    then storage (rzi_storage_write_record (Some "lorawan"%string) (Some (skey s))
                    RZI_JOIN_POLICY_VERSION (Some value) (ssize s))
    else storage (rzi_storage_write (Some "lorawan"%string) (Some (skey s)) (Some value) (ssize s))
  else ret 0.

(** Storage reads into a buffer that is never NULL. *)
Definition read_into (ns key : string) (value : list Z) (size : Z)
  : M schema_state (Z * list Z) :=
  let* '(rc, out) := storage (rzi_storage_read (Some ns) (Some key) (Some value) size) in
  ret (rc, default value out).

Definition read_legacy (s : setting) (value : list Z) : M schema_state (Z * (list Z * bool)) :=
  let* '(rc, value) := read_into "lorawan" (skey s) value (ssize s) in
  let* '(rc, value) :=
    (if rc =? - RZI_ERR_NOT_FOUND then read_into "rzi" (skey s) value (ssize s)
     else ret (rc, value)) in
  let found := rc =? 0 in
  if rc =? - RZI_ERR_NOT_FOUND then ret (0, (default_value s, found))
  else if negb (rc =? 0) then ret (rc, (value, found))
  else ret (if valid_value s value then 0 else - RZI_ERR_BAD_MESSAGE, (value, found)).

Definition migrate_region (value : list Z) : M schema_state (Z * (list Z * bool)) :=
  let* '(rc, buf) := read_into "rzi" "band" [0] 1 in
  let band := at_ buf 0 in
  let found := rc =? 0 in
  if rc =? - RZI_ERR_NOT_FOUND then ret (0, (value, found))
  else if negb (rc =? 0) then ret (rc, (value, found))
  else if (band =? 0) || (zlen bands <=? band) then ret (- RZI_ERR_BAD_MESSAGE, (value, found))
  else ret (0, (<[0%nat := at_ bands band]> value, found)).

(** The loop over the legacy join-policy keys: byte [i] of [value] each. *)
Fixpoint load_legacy_policy (i : nat) (keys : list string) (value : list Z) (found : bool)
  : M schema_state (Z * (list Z * bool)) :=
  match keys with
  | [] => ret (0, (value, found))
  | key :: keys' =>
      let* t := gets table in
      match find_setting key t with
      | None => ret (- RZI_ERR_INVALID, (value, found)) (* every legacy key is in the table *)
      | Some (_, s) =>
          let* '(rc, (b, present)) := read_legacy s (slice value i 1) in
          let value := overlay value i b in
          if rc =? 0 then load_legacy_policy (S i) keys' value (found || present)
          else ret (rc, (value, found))
      end
  end.

(** The tail of [load_value]: a value found under a legacy key is saved
    under the current one. *)
Definition save_found (s : setting) (r : Z * (list Z * bool))
  : M schema_state (Z * (list Z * bool)) :=
  let '(rc, (value, found)) := r in
  if negb (rc =? 0) then ret (rc, (value, found))
  else if found then let* rc := save_value s value in ret (rc, (value, found))
  else ret (0, (value, found)).

Definition load_value (s : setting) (value : list Z) : M schema_state (Z * (list Z * bool)) :=
  if decide (skind s = JOIN_POLICY) then
    let* '(rc, out) := storage (rzi_storage_read_record (Some "lorawan"%string) (Some (skey s))
      (RecordOut (Some 0) (Some value) (Some 0)) (ssize s)) in
    if rc =? 0 then
      let version := default 0 (out_version out) in
      let value := default value (out_value out) in
      let size := default 0 (out_size out) in
      if negb (version =? RZI_JOIN_POLICY_VERSION)
      then ret (- RZI_ERR_NOT_SUPPORTED, (value, false))
      else if negb (size =? ssize s) || negb (valid_value s value)
      then ret (- RZI_ERR_BAD_MESSAGE, (value, false))
      else ret (0, (value, true))
    else if negb (rc =? - RZI_ERR_NOT_FOUND) then ret (rc, (value, false))
    else
      let* r := load_legacy_policy 0 legacy_policy_keys value false in
      save_found s r
  else
    let* '(rc, value) := read_into "lorawan" (skey s) value (ssize s) in
    if rc =? 0 then
      ret (if valid_value s value then 0 else - RZI_ERR_BAD_MESSAGE, (value, true))
    else if negb (rc =? - RZI_ERR_NOT_FOUND) then ret (rc, (value, false))
    else
      let* '(rc, (value, found)) := read_legacy s value in
      if negb (rc =? 0) then ret (rc, (value, found))
      else
        let* r :=
          (if negb found && bool_decide (skind s = REGION) then migrate_region value
           else ret (0, (value, found))) in
        save_found s r.

(** [settings[i] = e] *)
Definition put_setting (i : nat) (e : setting) : M schema_state unit :=
  modify (fun st => set_table (<[i := e]> (table st)) st).

(** [rzi_lorawan_setting_read]: the value and the found flag it stores
    through its pointers, or [None] when it stores nothing. *)
Definition rzi_lorawan_setting_read (key : string) (size : Z)
  : M schema_state (Z * option (list Z * bool)) :=
  let* t := gets table in
  match find_setting key t with
  | None => ret (- RZI_ERR_INVALID, None)
  | Some (i, s) =>
      if negb (size =? ssize s) then ret (- RZI_ERR_INVALID, None)
      else if sloaded s then ret (0, Some (take (Z.to_nat size) (svalue s), spresent s))
      else
        let candidate := default_value s in
        let* '(rc, (candidate, present)) :=
          (if CONFIG_RZI_STORAGE then load_value s candidate else ret (0, (candidate, false))) in
        if rc =? 0 then
          put_setting i (cache_store candidate present s) ;;;
          ret (0, Some (candidate, present))
        else ret (rc, None)
  end.

Definition rzi_lorawan_setting_write (key : string) (value : list Z) (size : Z)
  : M schema_state Z :=
  let* t := gets table in
  match find_setting key t with
  | None => ret (- RZI_ERR_INVALID)
  | Some (i, s) =>
      if negb (size =? ssize s) || negb (valid_value s value) then ret (- RZI_ERR_INVALID)
      else
        let* rc :=
          (if negb (sloaded s) || negb (spresent s) ||
              negb (bool_decide (take (Z.to_nat size) (svalue s) = value))
           then save_value s value else ret 0) in
        if rc =? 0 then put_setting i (cache_store value true s) ;;; ret 0
        else ret rc
  end.

(** One namespace of the manifest: delete every key, keep the first error
    that is not "not found". *)
Definition clear_key (ns key : string) : M schema_state Z :=
  let* one := storage (rzi_storage_delete (Some ns) (Some key)) in
  ret (if one =? - RZI_ERR_NOT_FOUND then 0 else one).
Definition clear_targets (t : list setting) : list (string * string) :=
  ns ← clear_namespaces; (fun s => (ns, skey s)) <$> t.

Definition rzi_lorawan_settings_clear : M schema_state Z :=
  let* t := gets table in
  let* rc :=
    (if CONFIG_RZI_STORAGE
     then for_first_error (clear_targets t) (fun '(ns, key) => clear_key ns key) 0
     else ret 0) in
  if rc =? 0 then modify (fun st => set_table (cache_drop <$> table st) st) ;;; ret 0
  else ret rc.
End settings.

(** ** The static schema *)
Definition static (s : setting) : string * Z * value_kind * Z :=
  (skey s, ssize s, skind s, sdefault_first s).
Definition schema (t : list setting) : Prop := static <$> t = static <$> settings_init.

Lemma valid_value_static s s' v : static s = static s' -> valid_value s v = valid_value s' v.
Proof. unfold static, valid_value. by intros [= _ _ -> _]. Qed.
Lemma default_value_static s s' : static s = static s' -> default_value s = default_value s'.
Proof. unfold static, default_value. by intros [= _ -> -> ->]. Qed.

Lemma schema_entry t i s : schema t -> t !! i = Some s ->
  exists s0, settings_init !! i = Some s0 /\ static s = static s0.
Proof.
  intros Ht Hs. assert (Hm : (static <$> t) !! i = Some (static s)) by (by rewrite list_lookup_fmap, Hs).
  rewrite Ht, list_lookup_fmap in Hm. destruct (settings_init !! i) as [s0|]; [|done].
  exists s0. split; [done|]. cbn in Hm. congruence.
Qed.

(** Facts about every entry of the schema, decided on the initial table. *)
Lemma schema_decide (P : setting -> bool) t i s :
  (forall s s', static s = static s' -> P s = P s') ->
  forallb P settings_init = true -> schema t -> t !! i = Some s -> P s = true.
Proof.
  intros HP Hall Ht Hs. destruct (schema_entry t i s Ht Hs) as (s0 & H0 & Heq).
  rewrite (HP s s0 Heq). rewrite forallb_forall in Hall. apply Hall.
  apply list_elem_of_In, list_elem_of_lookup. eauto.
Qed.

Definition default_ok (s : setting) : bool :=
  (Z.of_nat (length (default_value s)) =? ssize s) && valid_value s (default_value s) &&
  (0 <? ssize s) && (ssize s <=? 16).
Lemma schema_default t i s : schema t -> t !! i = Some s ->
  length (default_value s) = Z.to_nat (ssize s) /\ valid_value s (default_value s) = true /\
  0 < ssize s <= 16.
Proof.
  intros Ht Hs. assert (Hok : default_ok s = true).
  { apply (schema_decide default_ok t i s); [|by vm_compute|done|done].
    intros a b Hab. unfold default_ok. rewrite (default_value_static a b Hab).
    rewrite (valid_value_static a b _ Hab). unfold static in Hab. by injection Hab as _ -> _ _. }
  unfold default_ok in Hok. zify_tests.
  split_and!; [lia|done|lia|lia].
Qed.

(** The kind of an entry fixes its size where the code relies on it. *)
Definition kind_ok (s : setting) : bool :=
  match skind s with
  | JOIN_POLICY => ssize s =? 3
  | REGION => ssize s =? 1
  | _ => true
  end.
Lemma schema_kind t i s : schema t -> t !! i = Some s -> kind_ok s = true.
Proof.
  apply schema_decide; [|by vm_compute].
  intros a b Hab. unfold kind_ok, static in *. by injection Hab as _ -> -> _.
Qed.

Definition name_ok (s : setting) : bool :=
  bool_decide (build_name RZI_STORAGE_NAME_MAX (Some "lorawan"%string) (Some (skey s)) =
               (("lorawan/" ++ skey s)%string, 0)) &&
  bool_decide (build_name RZI_STORAGE_NAME_MAX (Some "rzi"%string) (Some (skey s)) =
               (("rzi/" ++ skey s)%string, 0)).
Lemma schema_name t i s : schema t -> t !! i = Some s ->
  build_name RZI_STORAGE_NAME_MAX (Some "lorawan"%string) (Some (skey s)) =
    (("lorawan/" ++ skey s)%string, 0) /\
  build_name RZI_STORAGE_NAME_MAX (Some "rzi"%string) (Some (skey s)) =
    (("rzi/" ++ skey s)%string, 0).
Proof.
  intros Ht Hs. assert (Hok : name_ok s = true).
  { apply (schema_decide name_ok t i s); [|by vm_compute|done|done].
    intros a b Hab. unfold name_ok, static in *. by injection Hab as -> _ _ _. }
  unfold name_ok in Hok. apply andb_true_iff in Hok as [?%bool_decide_eq_true ?%bool_decide_eq_true].
  done.
Qed.

Lemma find_index_Some key t i : find_index key t = Some i ->
  exists s, t !! i = Some s /\ skey s = key.
Proof.
  revert i. induction t as [|s t IH]; intros i; cbn; [done|].
  destruct (String.eqb_spec (skey s) key); [intros [= <-]; by exists s|].
  destruct (find_index key t) as [j|]; [|done]. intros [= <-].
  destruct (IH j eq_refl) as (s' & ? & ?). by exists s'.
Qed.
Lemma find_setting_Some key t i s : find_setting key t = Some (i, s) ->
  t !! i = Some s /\ skey s = key.
Proof.
  unfold find_setting. destruct (find_index key t) as [j|] eqn:E; [|done]. cbn.
  apply find_index_Some in E as (s' & Hs & Hk). rewrite Hs. cbn. by intros [= <- <-].
Qed.
(** The position of a key depends only on the keys. *)
Lemma find_index_keys key t t' : skey <$> t = skey <$> t' -> find_index key t = find_index key t'.
Proof.
  revert t'. induction t as [|s t IH]; intros [|s' t']; cbn; try done.
  intros [= -> Ht]. by rewrite (IH t').
Qed.
Lemma schema_keys t : schema t -> skey <$> t = skey <$> settings_init.
Proof.
  intros Ht. assert (Hk : (fun x : string * Z * value_kind * Z => x.1.1.1) <$> (static <$> t) =
                          (fun x => x.1.1.1) <$> (static <$> settings_init)) by (by rewrite Ht).
  by rewrite <- !list_fmap_compose in Hk.
Qed.
Lemma schema_nodup t : schema t -> NoDup (skey <$> t).
Proof.
  intros Ht. rewrite (schema_keys t Ht). apply (bool_decide_unpack _). by vm_compute.
Qed.
Lemma schema_insert t i s s' : schema t -> t !! i = Some s -> static s' = static s ->
  schema (<[i := s']> t).
Proof.
  intros Ht Hs He. unfold schema. rewrite list_fmap_insert, He, <- Ht.
  apply list_insert_id. by rewrite list_lookup_fmap, Hs.
Qed.

(** ** Every value the service hands out is valid *)
Section validity.
Context `{SettingsOk} `{Errno} `{Kconfig} {ctx : ExecCtx}.

(** An entry holds a valid value of its size whenever it is loaded. *)
Definition entry_ok (s : setting) : Prop :=
  sloaded s = true -> length (svalue s) = Z.to_nat (ssize s) /\ valid_value s (svalue s) = true.
Definition cache_ok (st : schema_state) : Prop :=
  schema (table st) /\ Forall entry_ok (table st).

Lemma storage_table {A} (m : M storage_state A) st : table (storage m st).2 = table st.
Proof. unfold storage, zoom. by destruct (m (sto st)). Qed.

(** A raw read fills its buffer without changing its length. *)
Lemma read_buffer ns key buf size s :
  length buf = Z.to_nat size ->
  exists v, (rzi_storage_read ns key (Some buf) size s).1.2 = Some v /\ length v = Z.to_nat size.
Proof.
  intros Hb. unfold rzi_storage_read. destruct (size =? 0); [by exists buf|].
  destruct (build_name _ ns key) as [name rc]. destruct (negb (rc =? 0)); [by exists buf|].
  unfold bind. destruct (rzi_storage_init s) as [rc0 s0]. destruct (rc0 =? 0); [|by exists buf].
  unfold settings, zoom. pose proof (load_bounded name size (sys s0)) as Hl.
  destruct (settings_load_one name size (sys s0)) as [[n l] f]. cbn in Hl.
  exists (overlay buf 0 l). split; [by destruct (n <? 0), (n =? 0)|].
  rewrite length_overlay; lia.
Qed.

Lemma read_into_spec ns key value size st :
  length value = Z.to_nat size ->
  let r := read_into ns key value size st in
  table r.2 = table st /\ length r.1.2 = Z.to_nat size.
Proof.
  intros Hv. unfold read_into, bind, storage, zoom.
  destruct (read_buffer (Some ns) (Some key) value size (sto st) Hv) as (v & Hv1 & Hv2).
  destruct (rzi_storage_read _ _ _ _ _) as [[rc out] s']. cbn in *. by subst out.
Qed.

(** What a candidate loader guarantees: the table is untouched and success
    comes with a valid value of the right length. *)
Definition loads_valid (s : setting) (m : M schema_state (Z * (list Z * bool))) : Prop :=
  forall st, table (m st).2 = table st /\
    ((m st).1.1 = 0 -> length (m st).1.2.1 = Z.to_nat (ssize s) /\
                      valid_value s (m st).1.2.1 = true).

Lemma read_legacy_valid s value :
  length (default_value s) = Z.to_nat (ssize s) -> valid_value s (default_value s) = true ->
  length value = Z.to_nat (ssize s) ->
  loads_valid s (read_legacy s value).
Proof.
  intros Hd1 Hd2 Hv st. unfold read_legacy, bind.
  destruct (read_into_spec "lorawan" (skey s) value (ssize s) st Hv) as [Ht Hl].
  destruct (read_into "lorawan" (skey s) value (ssize s) st) as [[rc v] st1]. cbn [fst snd] in *.
  assert (Hstep : exists rc2 v2 st2,
    (if rc =? - RZI_ERR_NOT_FOUND then read_into "rzi" (skey s) v (ssize s) else ret (rc, v)) st1 =
      ((rc2, v2), st2) /\ table st2 = table st /\ length v2 = Z.to_nat (ssize s)).
  { destruct (rc =? - RZI_ERR_NOT_FOUND); [|by exists rc, v, st1].
    destruct (read_into_spec "rzi" (skey s) v (ssize s) st1 Hl) as [Ht2 Hl2].
    destruct (read_into "rzi" (skey s) v (ssize s) st1) as [[rc2 v2] st2]. cbn in *.
    exists rc2, v2, st2. split_and!; congruence. }
  destruct Hstep as (rc2 & v2 & st2 & -> & Ht2 & Hl2).
  destruct (rc2 =? - RZI_ERR_NOT_FOUND); [done|].
  destruct (Z.eqb_spec rc2 0); cbn [negb]; [|done].
  destruct (valid_value s v2) eqn:E; cbn; auto. split; [done|]. lia.
Qed.

Lemma bands_in_range band : 0 <= band < zlen bands -> 0 <= at_ bands band <= 10.
Proof.
  intros Hb. assert (Hall : Forall (fun b => 0 <= b <= 10) bands)
    by (repeat constructor; lia).
  apply (nth_Forall (fun b => 0 <= b <= 10) bands); [done|]. unfold zlen in Hb. lia.
Qed.

Lemma migrate_region_valid s value :
  skind s = REGION -> length value = Z.to_nat (ssize s) -> 0 < ssize s ->
  valid_value s value = true ->
  loads_valid s (migrate_region value).
Proof.
  intros Hk Hl Hsz Hv st. unfold migrate_region, bind.
  destruct (read_into_spec "rzi" "band" [0] 1 st eq_refl) as [Ht _].
  destruct (read_into "rzi" "band" [0] 1 st) as [[rc buf] st1]. cbn [fst snd] in *.
  destruct (rc =? - RZI_ERR_NOT_FOUND); [done|].
  destruct (Z.eqb_spec rc 0); cbn [negb]; [|done].
  destruct (_ || _) eqn:Eb; [done|]. zify_tests. cbn [fst snd ret]. split; [done|]. intros _.
  split; [by rewrite length_insert|]. unfold valid_value. rewrite Hk.
  assert (Hat : forall x, at_ (<[0%nat := x]> value) 0 = x).
  { intros x. unfold at_. cbn. by rewrite nth_lookup, list_lookup_insert_eq by lia. }
  rewrite Hat. apply Z.leb_le.
  destruct (Z.leb_spec 0 (at_ buf 0)).
  - apply bands_in_range. lia.
  - unfold at_ at 1. replace (Z.to_nat (at_ buf 0)) with 0%nat by lia. cbn. lia.
Qed.

Lemma storage_reads_table ns key out cap st :
  table (storage (rzi_storage_read_record ns key out cap) st).2 = table st.
Proof. apply storage_table. Qed.

Lemma save_value_table s v st : table (save_value s v st).2 = table st.
Proof.
  unfold save_value. destruct CONFIG_RZI_STORAGE; [|done].
  destruct (decide _); apply storage_table.
Qed.

(** A key of the schema is found in every table of the schema. *)
Lemma find_setting_schema key t i s0 :
  schema t -> find_setting key settings_init = Some (i, s0) ->
  exists s, find_setting key t = Some (i, s) /\ t !! i = Some s /\ static s = static s0.
Proof.
  intros Ht. unfold find_setting. rewrite (find_index_keys key t settings_init) by by apply schema_keys.
  destruct (find_index key settings_init) as [j|]; [|done]. cbn.
  destruct (settings_init !! j) as [e|] eqn:E; [|done]. cbn. intros [= <- <-].
  assert (Hm : (static <$> t) !! j = Some (static e)) by (by rewrite Ht, list_lookup_fmap, E).
  rewrite list_lookup_fmap in Hm. destruct (t !! j) as [s|]; [|done].
  exists s. cbn in *. split_and!; [done|done|congruence].
Qed.

(** Reading one legacy byte of the join policy. *)
Lemma legacy_byte key j e0 b st :
  schema (table st) -> find_setting key settings_init = Some (j, e0) -> ssize e0 = 1 ->
  exists e, find_setting key (table st) = Some (j, e) /\
    let r := read_legacy e [b] st in
    table r.2 = table st /\
    (r.1.1 = 0 -> exists x, r.1.2.1 = [x] /\ valid_value e0 [x] = true).
Proof.
  intros Ht Hf Hsz. destruct (find_setting_schema key _ j e0 Ht Hf) as (e & Hfe & He & Hst).
  assert (Hse : ssize e = 1) by (unfold static in Hst; congruence).
  destruct (schema_default _ _ _ Ht He) as (Hd1 & Hd2 & _).
  exists e. split; [done|]. destruct (read_legacy_valid e [b] Hd1 Hd2 ltac:(by rewrite Hse) st) as [Ht' Hv].
  split; [done|]. intros Hrc. destruct (Hv Hrc) as [Hl Hval]. rewrite Hse in Hl.
  destruct (read_legacy e [b] st) as [[rc [[|x [|]] found]] st']; cbn in *; try done.
  exists x. split; [done|]. by rewrite <- (valid_value_static e e0).
Qed.

Definition result_ok (s : setting) (st : schema_state)
    (r : Z * (list Z * bool) * schema_state) : Prop :=
  table r.2 = table st /\
  (r.1.1 = 0 -> length r.1.2.1 = Z.to_nat (ssize s) /\ valid_value s r.1.2.1 = true).

Lemma result_bad s st rc v st' : table st' = table st -> rc <> 0 -> result_ok s st ((rc, v), st').
Proof. by split. Qed.
Ltac bad := apply result_bad; [first [reflexivity | congruence] | first [lia | congruence]].

Lemma legacy_policy_valid s value :
  skind s = JOIN_POLICY -> ssize s = 3 -> length value = 3%nat ->
  forall st, schema (table st) ->
  result_ok s st (load_legacy_policy 0 legacy_policy_keys value false st).
Proof.
  intros Hk Hsz Hl st Ht. destruct value as [|a [|b [|c [|]]]]; try done.
  unfold legacy_policy_keys. cbn [load_legacy_policy]. unfold bind, gets.
  destruct (legacy_byte "autojoin" 14 _ a st Ht eq_refl eq_refl) as (e1 & -> & Ht1 & Hv1).
  change (slice [a; b; c] 0 1) with [a].
  destruct (read_legacy e1 [a] st) as [[rc1 [v1 p1]] st1]. cbn [fst snd] in *.
  destruct (Z.eqb_spec rc1 0) as [E1|]; [|done].
  destruct (Hv1 E1) as (x & -> & Hx). change (overlay [a; b; c] 0 [x]) with [x; b; c].
  rewrite <- Ht1 in Ht.
  destruct (legacy_byte "join_interval" 15 _ b st1 Ht eq_refl eq_refl) as (e2 & -> & Ht2 & Hv2).
  change (slice [x; b; c] 1 1) with [b].
  destruct (read_legacy e2 [b] st1) as [[rc2 [v2 p2]] st2]. cbn [fst snd] in *.
  destruct (Z.eqb_spec rc2 0) as [E2|]; [|bad].
  destruct (Hv2 E2) as (y & -> & Hy). change (overlay [x; b; c] 1 [y]) with [x; y; c].
  rewrite <- Ht2 in Ht.
  destruct (legacy_byte "join_attempts" 16 _ c st2 Ht eq_refl eq_refl) as (e3 & -> & Ht3 & Hv3).
  change (slice [x; y; c] 2 1) with [c].
  destruct (read_legacy e3 [c] st2) as [[rc3 [v3 p3]] st3]. cbn [fst snd] in *.
  destruct (Z.eqb_spec rc3 0) as [E3|]; [|bad].
  destruct (Hv3 E3) as (z & -> & _). change (overlay [x; y; c] 2 [z]) with [x; y; z].
  unfold result_ok. cbn. rewrite Hsz. split; [congruence|]. intros _. split; [done|].
  change ((x <=? 1) = true) in Hx. change ((7 <=? y) = true) in Hy.
  unfold valid_value. rewrite Hk. change ((x <=? 1) && (7 <=? y) = true). by rewrite Hx, Hy.
Qed.

(** Saving what was found keeps the candidate. *)
Lemma finish_valid s m st :
  result_ok s st (m st) -> result_ok s st (bind m (save_found s) st).
Proof.
  unfold bind, save_found, result_ok. destruct (m st) as [[rc [v found]] st1].
  cbn [fst snd]. intros [Ht Hv].
  destruct (Z.eqb_spec rc 0) as [->|]; cbn [negb]; [|done].
  destruct found; [|by cbn]. unfold bind. pose proof (save_value_table s v st1) as Hs.
  destruct (save_value s v st1) as [rc2 st2]. cbn in *. split; [congruence|]. auto.
Qed.

Lemma load_value_valid st i s :
  schema (table st) -> table st !! i = Some s ->
  result_ok s st (load_value s (default_value s) st).
Proof.
  intros Ht Hs. destruct (schema_default _ _ _ Ht Hs) as (Hd1 & Hd2 & Hsz).
  pose proof (schema_kind _ _ _ Ht Hs) as Hkind. unfold kind_ok in Hkind.
  unfold load_value. destruct (decide (skind s = JOIN_POLICY)) as [Hk|Hk].
  - rewrite Hk in Hkind. zify_tests. unfold bind at 1, storage at 1, zoom at 1.
    destruct (read_record_cases (Some "lorawan"%string) (Some (skey s))
      (RecordOut (Some 0) (Some (default_value s)) (Some 0)) (ssize s) (sto st)) as [_ Hcases].
    destruct (rzi_storage_read_record _ _ _ _ (sto st)) as [[rc out] s1]. cbn [fst snd] in *.
    destruct Hcases as [[Hrc ->]|[-> (name & rec & v & p & old & _ & _ & _ & Hd & [= <-] & ->)]].
    + destruct (Z.eqb_spec rc 0); [done|].
      destruct (rc =? - RZI_ERR_NOT_FOUND); cbn [negb]; [|bad].
      change (result_ok s (set_sto s1 st) (bind (load_legacy_policy 0 legacy_policy_keys
        (default_value s) false) (save_found s) (set_sto s1 st))).
      apply finish_valid. pose proof (legacy_policy_valid s (default_value s) Hk Hkind ltac:(by rewrite Hd1, Hkind) (set_sto s1 st) Ht) as Hp. exact Hp.
    + cbn [Z.eqb out_version out_value out_size default from_option id].
      destruct (negb (v =? 1)); [bad|].
      destruct (_ || _) eqn:E; [bad|]. zify_tests.
      pose proof (decode_record_sound rec (zlen rec) (ssize s)) as Hs'. rewrite Hd in Hs'.
      split; [done|]. intros _. split; [|done]. cbn.
      rewrite length_overlay; [done|]. unfold zlen in *. lia.
  - unfold bind at 1.
    destruct (read_into_spec "lorawan" (skey s) (default_value s) (ssize s) st Hd1) as [Ht1 Hl1].
    destruct (read_into "lorawan" (skey s) (default_value s) (ssize s) st) as [[rc v] st1].
    cbn [fst snd] in *. destruct (Z.eqb_spec rc 0).
    { destruct (valid_value s v) eqn:E; [done|]. bad. }
    destruct (rc =? _); cbn [negb]; [|bad]. unfold bind at 1.
    destruct (read_legacy_valid s v Hd1 Hd2 Hl1 st1) as [Ht2 Hv2].
    destruct (read_legacy s v st1) as [[rc2 [v2 found]] st2]. cbn [fst snd] in *.
    destruct (Z.eqb_spec rc2 0) as [E2|]; cbn [negb]; [|bad].
    destruct (Hv2 E2) as [Hl3 Hv3].
    enough (Hfin : result_ok s st2 ((if negb found && bool_decide (skind s = REGION)
      then migrate_region v2 else ret (0, (v2, found))) st2)).
    { destruct (finish_valid s _ st2 Hfin) as [Ha Hb]. split; [|exact Hb]. etransitivity; [exact Ha|congruence]. }
    destruct found; cbn [negb andb]; [done|].
    destruct (bool_decide_reflect (skind s = REGION)) as [Hr|]; [|done].
    by apply (migrate_region_valid s v2 Hr Hl3 ltac:(lia) Hv3 st2).
Qed.
End validity.

(** ** Coherence of the cache with the flash, and durability *)
Section durability.
Context `{SettingsOk} `{!BytesOk} `{Errno} `{Kconfig} `{!KconfigOk} {ctx : ExecCtx}.

Definition flash_of (st : schema_state) : gmap string (list Z) := stored (sto st).
Definition lorawan_name (key : string) : string := ("lorawan/" ++ key)%string.

(** The flash holds [v] as the value of entry [s]: raw bytes, or a record
    that decodes to version 1 and [v]. *)
Definition persisted (f : gmap string (list Z)) (s : setting) (v : list Z) : Prop :=
  exists img, f !! lorawan_name (skey s) = Some img /\
    if decide (skind s = JOIN_POLICY)
    then zlen img <= 12 + CONFIG_RZI_STORAGE_RECORD_MAX_SIZE /\
         decode_record img (zlen img) (ssize s) = (0, Some (RZI_JOIN_POLICY_VERSION, v))
    else img = v.

Definition entry_coherent (f : gmap string (list Z)) (s : setting) : Prop :=
  sloaded s = true -> spresent s = true -> CONFIG_RZI_STORAGE = true -> persisted f s (svalue s).
Definition settings_inv (st : schema_state) : Prop :=
  cache_ok st /\ Forall (entry_coherent (flash_of st)) (table st).

(** Only the named value of the flash moves. *)
Definition only_moves (name : string) : schema_state -> schema_state -> Prop :=
  fun st st' => table st' = table st /\
    forall name', name' <> name -> flash_of st' !! name' = flash_of st !! name'.
#[export] Instance only_moves_preorder name : PreOrder (only_moves name).
Proof.
  split; [by intros st; split|]. intros a b c [Ea Fa] [Eb Fb]. split; [congruence|].
  intros n' Hn. by rewrite Fb, Fa.
Qed.

Lemma read_sound ns key buf size s :
  let r := rzi_storage_read ns key (Some buf) size s in
  stored r.2 = stored s /\
  (r.1.1 = 0 -> exists name v, build_name RZI_STORAGE_NAME_MAX ns key = (name, 0) /\
     stored s !! name = Some v /\ zlen v = size /\ r.1.2 = Some (overlay buf 0 v)).
Proof.
  unfold rzi_storage_read. destruct (size =? 0); [by split|].
  destruct (build_name _ ns key) as [name rc] eqn:Eb.
  destruct (Z.eqb_spec rc 0) as [->|]; cbn [negb]; [|by split].
  unfold bind. destruct (init_spec s) as (_ & Hst & _).
  destruct (rzi_storage_init s) as [rc0 s0]. cbn in Hst.
  destruct (Z.eqb_spec rc0 0); [|by split]. unfold settings, zoom.
  pose proof (kv_load name size (sys s0)) as Hkv. pose proof (load_rc name size (sys s0)) as Hl.
  destruct (settings_load_one name size (sys s0)) as [[cnt l] f]. cbn in Hkv, Hl. unfold stored in *.
  destruct (Z.ltb_spec cnt 0) as [Hneg|Hpos].
  { cbn. split; [congruence|]. intros ?%rzi_err_from_errno_zero. lia. }
  specialize (Hl Hpos). rewrite Hst in Hl.
  destruct (Z.eqb_spec cnt 0); [cbn; by split; [congruence|]|].
  destruct (Z.eqb_spec cnt size) as [->|]; cbn [fst snd ret sys set_sys];
    (split; [congruence|]); [intros _|done].
  destruct (kv (sys s) !! name) as [v|] eqn:Ev; injection Hl as -> ->; [|done].
  exists name, v. split_and!; try done. by rewrite take_ge by (unfold zlen; lia).
Qed.

Lemma read_into_sound ns key value size st :
  length value = Z.to_nat size ->
  let r := read_into ns key value size st in
  table r.2 = table st /\ flash_of r.2 = flash_of st /\ length r.1.2 = Z.to_nat size /\
  (r.1.1 = 0 -> exists name,
     build_name RZI_STORAGE_NAME_MAX (Some ns) (Some key) = (name, 0) /\
     flash_of st !! name = Some r.1.2).
Proof.
  intros Hv. destruct (read_into_spec ns key value size st Hv) as [Ht Hl]. revert Ht Hl.
  unfold read_into, bind, storage, zoom, flash_of.
  destruct (read_sound (Some ns) (Some key) value size (sto st)) as [Hs Hr].
  destruct (rzi_storage_read _ _ _ _ _) as [[rc out] s']. cbn in *.
  intros _ Hl. split_and!; [done|done|done|]. intros Hrc.
  destruct (Hr Hrc) as (name & v & Hn & Hk & Hz & ->). exists name. split; [done|].
  cbn in *. rewrite Hk. f_equal. symmetry. apply overlay_all. unfold zlen in *. lia.
Qed.

(** Loading never writes another key. *)
Lemma storage_only_moves {A} name (m : M storage_state A) :
  respects (others_kept name) m -> respects (only_moves name) (storage m).
Proof.
  intros Hm st. unfold storage, zoom. specialize (Hm (sto st)). by destruct (m (sto st)).
Qed.
Lemma read_into_only name ns key v n : respects (only_moves name) (read_into ns key v n).
Proof.
  intros st. unfold read_into, bind, storage, zoom.
  destruct (read_sound (Some ns) (Some key) v n (sto st)) as [Hs _].
  destruct (rzi_storage_read _ _ _ _ _) as [[rc out] s']. cbn in *. split; [done|].
  intros name' _. unfold flash_of. cbn. by rewrite Hs.
Qed.
#[local] Hint Resolve read_into_only : frame.
Lemma read_legacy_only name s v : respects (only_moves name) (read_legacy s v).
Proof. unfold read_legacy. frame. Qed.
#[local] Hint Resolve read_legacy_only : frame.
Lemma migrate_region_only name v : respects (only_moves name) (migrate_region v).
Proof. unfold migrate_region. frame. Qed.
Lemma load_legacy_policy_only name keys : forall i v found,
  respects (only_moves name) (load_legacy_policy i keys v found).
Proof. induction keys as [|k ks IH]; intros i v found; cbn [load_legacy_policy]; frame. Qed.

Lemma write_record_write ns key version v size s :
  0 < size <= zlen v ->
  (rzi_storage_write_record ns key version (Some v) size s).1 = 0 ->
  0 < size <= CONFIG_RZI_STORAGE_RECORD_MAX_SIZE /\ k_is_in_isr = false /\ version <> 0 /\
  exists name, build_name RZI_STORAGE_NAME_MAX ns key = (name, 0) /\
    stored (rzi_storage_write_record ns key version (Some v) size s).2 =
      <[name := record_image version (take (Z.to_nat size) v)]> (stored s).
Proof.
  intros Hsz. unfold rzi_storage_write_record.
  destruct k_is_in_isr eqn:Hisr; [done|]. destruct ((version =? 0) || (size =? 0)) eqn:E; [done|].
  destruct (Z.ltb_spec CONFIG_RZI_STORAGE_RECORD_MAX_SIZE size); [done|]. zify_tests.
  intros Hrc. split; [lia|]. split_and!; [done|done|].
  destruct (write_ok _ _ _ _ _ Hrc) as (name & b & Hn & [= <-] & _ & _ & _ & Hst).
  exists name. split; [done|]. rewrite Hst. change RECORD_HEADER_SIZE with 12.
  replace (Z.to_nat (12 + size)) with (12 + Z.to_nat size)%nat by lia.
  by rewrite encode_record_image by (unfold zlen in *; lia).
Qed.

Lemma persisted_image s v f :
  skind s = JOIN_POLICY -> zlen v = ssize s -> 0 < ssize s <= CONFIG_RZI_STORAGE_RECORD_MAX_SIZE ->
  persisted (<[lorawan_name (skey s) := record_image 1 v]> f) s v.
Proof.
  intros Hk Hl Hsz. exists (record_image 1 v). rewrite lookup_insert_eq. split; [done|].
  rewrite decide_True by done.
  assert (Himg : zlen (record_image 1 v) = 12 + zlen v).
  { unfold record_image, zlen. rewrite !length_app, length_header8, put_le32_length. lia. }
  split; [lia|]. rewrite Himg. apply (decode_record_image 1 v (ssize s)); [done|lia|lia].
Qed.

Lemma save_persisted i s v st :
  schema (table st) -> table st !! i = Some s -> CONFIG_RZI_STORAGE = true ->
  zlen v = ssize s -> (save_value s v st).1 = 0 ->
  persisted (flash_of (save_value s v st).2) s v.
Proof.
  intros Ht Hs Hc Hl. destruct (schema_default _ _ _ Ht Hs) as (_ & _ & Hsz).
  destruct (schema_name _ _ _ Ht Hs) as [Hn _].
  unfold save_value. rewrite Hc. destruct (decide _) as [Hk|Hk]; unfold storage, zoom, flash_of.
  - pose proof (write_record_write (Some "lorawan"%string) (Some (skey s)) 1 v (ssize s) (sto st)
      ltac:(lia)) as Hw.
    destruct (rzi_storage_write_record _ _ _ _ _ (sto st)) as [rc s']. cbn in *. intros Hrc.
    destruct (Hw Hrc) as (? & _ & _ & name & Hn2 & ->). rewrite Hn in Hn2. injection Hn2 as <-.
    rewrite take_ge by (unfold zlen in *; lia). by apply persisted_image.
  - pose proof (write_ok (Some "lorawan"%string) (Some (skey s)) (Some v) (ssize s) (sto st)) as Hw.
    destruct (rzi_storage_write _ _ _ _ (sto st)) as [rc s']. cbn in *. intros Hrc.
    destruct (Hw Hrc) as (name & b & Hn2 & [= <-] & _ & _ & _ & ->). rewrite Hn in Hn2.
    injection Hn2 as <-. exists v. rewrite decide_False by done. split; [|done].
    change (lorawan_name (skey s)) with ("lorawan/" ++ skey s)%string.
    rewrite lookup_insert_eq. f_equal. apply take_ge. unfold zlen in *. lia.
Qed.

Lemma save_value_only i s v st :
  schema (table st) -> table st !! i = Some s ->
  only_moves (lorawan_name (skey s)) st (save_value s v st).2.
Proof.
  intros Ht Hs. destruct (schema_name _ _ _ Ht Hs) as [Hn _].
  assert (Hw : forall v n, respects (others_kept (lorawan_name (skey s)))
    (rzi_storage_write (Some "lorawan"%string) (Some (skey s)) v n)).
  { intros. apply write_others. by rewrite Hn. }
  unfold save_value. destruct CONFIG_RZI_STORAGE; [|by split].
  destruct (decide _); apply storage_only_moves; [|apply Hw].
  intros s0. unfold rzi_storage_write_record. destruct k_is_in_isr; [done|].
  destruct (_ || _); [done|]. destruct (_ <? _); [done|]. apply Hw.
Qed.

(** A found value that was saved, or read from the current key, is in the flash. *)
Definition load_ok (s : setting) (st : schema_state)
    (r : Z * (list Z * bool) * schema_state) : Prop :=
  only_moves (lorawan_name (skey s)) st r.2 /\
  (r.1.1 = 0 -> r.1.2.2 = true -> persisted (flash_of r.2) s r.1.2.1).

Lemma save_found_ok i s m st :
  schema (table st) -> table st !! i = Some s -> CONFIG_RZI_STORAGE = true ->
  only_moves (lorawan_name (skey s)) st (m st).2 -> result_ok s st (m st) ->
  load_ok s st (bind m (save_found s) st).
Proof.
  intros Ht Hs Hc. destruct (schema_default _ _ _ Ht Hs) as (_ & _ & Hsz).
  unfold bind, save_found, load_ok, result_ok.
  destruct (m st) as [[rc [v found]] st1]. cbn [fst snd]. intros Ho [Htab Hv].
  destruct (Z.eqb_spec rc 0) as [->|]; cbn [negb]; [|by split].
  destruct found; [|by split]. destruct (Hv eq_refl) as [Hl _].
  rewrite <- Htab in Ht, Hs. unfold bind.
  pose proof (save_value_only i s v st1 Ht Hs) as Ho2.
  pose proof (save_persisted i s v st1 Ht Hs Hc ltac:(unfold zlen; lia)) as Hp.
  destruct (save_value s v st1) as [rc2 st2]. cbn in *. split; [by etransitivity|]. auto.
Qed.

Lemma load_bad s st rc v st' : only_moves (lorawan_name (skey s)) st st' -> rc <> 0 ->
  load_ok s st ((rc, v), st').
Proof. by split. Qed.

Lemma load_value_ok i s st :
  schema (table st) -> table st !! i = Some s -> CONFIG_RZI_STORAGE = true ->
  load_ok s st (load_value s (default_value s) st).
Proof.
  intros Ht Hs Hc. destruct (schema_default _ _ _ Ht Hs) as (Hd1 & Hd2 & Hsz).
  destruct (schema_name _ _ _ Ht Hs) as [Hn _].
  pose proof (schema_kind _ _ _ Ht Hs) as Hkind. unfold kind_ok in Hkind.
  unfold load_value. destruct (decide (skind s = JOIN_POLICY)) as [Hk|Hk].
  - rewrite Hk in Hkind. zify_tests. unfold bind at 1, storage at 1, zoom at 1.
    destruct (read_record_cases (Some "lorawan"%string) (Some (skey s))
      (RecordOut (Some 0) (Some (default_value s)) (Some 0)) (ssize s) (sto st)) as [Hst Hcases].
    destruct (rzi_storage_read_record _ _ _ _ (sto st)) as [[rc out] s1]. cbn [fst snd] in *.
    assert (Ho1 : only_moves (lorawan_name (skey s)) st (set_sto s1 st)).
    { split; [done|]. intros. unfold flash_of. cbn. by rewrite Hst. }
    destruct Hcases as [[Hrc ->]|[-> (name & rec & v & p & old & Hn2 & Hrec & Hmax & Hd & [= <-] & ->)]].
    + destruct (Z.eqb_spec rc 0); [done|].
      destruct (rc =? - RZI_ERR_NOT_FOUND); cbn [negb]; [|by apply load_bad].
      pose proof (save_found_ok i s (load_legacy_policy 0 legacy_policy_keys (default_value s) false)
        (set_sto s1 st) Ht Hs Hc (load_legacy_policy_only _ _ _ _ _ _)
        (legacy_policy_valid s _ Hk Hkind ltac:(by rewrite Hd1, Hkind) (set_sto s1 st) Ht)) as [Ha Hb].
      split; [etransitivity; [exact Ho1|exact Ha]|exact Hb].
    + cbn [Z.eqb out_version out_value out_size default from_option id].
      destruct (Z.eqb_spec v 1) as [->|]; cbn [negb]; [|by apply load_bad].
      destruct (_ || _) eqn:E; [by apply load_bad|]. zify_tests.
      split; [done|]. intros _ _. exists rec. rewrite decide_True by done. cbn [fst snd ret].
      unfold flash_of. cbn [sto set_sto]. rewrite Hst. rewrite Hn in Hn2. injection Hn2 as <-.
      split; [done|]. split; [done|]. rewrite Hd. do 3 f_equal. symmetry. apply overlay_all.
      unfold zlen in *. lia.
  - unfold bind at 1.
    destruct (read_into_sound "lorawan" (skey s) (default_value s) (ssize s) st Hd1)
      as (Ht1 & Hf1 & Hl1 & Hp1).
    pose proof (read_into_only (lorawan_name (skey s)) "lorawan" (skey s) (default_value s) (ssize s) st) as Ho1.
    destruct (read_into "lorawan" (skey s) (default_value s) (ssize s) st) as [[rc v] st1].
    cbn [fst snd] in *. destruct (Z.eqb_spec rc 0) as [->|].
    { destruct (valid_value s v) eqn:E; [|by apply load_bad]. split; [done|]. intros _ _.
      destruct (Hp1 eq_refl) as (name & Hn2 & Hv). rewrite Hn in Hn2. injection Hn2 as <-.
      exists v. rewrite decide_False by done. cbn [fst snd ret]. by rewrite Hf1. }
    destruct (rc =? _); cbn [negb]; [|by apply load_bad].
    rewrite <- Ht1 in Ht, Hs. unfold bind at 1.
    destruct (read_legacy_valid s v Hd1 Hd2 Hl1 st1) as [Ht2 Hv2].
    pose proof (read_legacy_only (lorawan_name (skey s)) s v st1) as Ho2.
    destruct (read_legacy s v st1) as [[rc2 [v2 found]] st2]. cbn [fst snd] in *.
    assert (Ho12 : only_moves (lorawan_name (skey s)) st st2) by by etransitivity.
    destruct (Z.eqb_spec rc2 0) as [E2|]; cbn [negb]; [|by apply load_bad].
    destruct (Hv2 E2) as [Hl3 Hv3]. rewrite <- Ht2 in Ht, Hs.
    assert (Hfin : result_ok s st2 ((if negb found && bool_decide (skind s = REGION)
      then migrate_region v2 else ret (0, (v2, found))) st2)).
    { destruct found; cbn [negb andb]; [done|].
      destruct (bool_decide_reflect (skind s = REGION)) as [Hr|]; [|done].
      by apply (migrate_region_valid s v2 Hr Hl3 ltac:(lia) Hv3 st2). }
    assert (Hm : respects (only_moves (lorawan_name (skey s))) (if negb found && bool_decide (skind s = REGION)
      then migrate_region v2 else ret (0, (v2, found)))).
    { destruct (_ && _); [apply migrate_region_only|frame]. }
    destruct (save_found_ok i s _ st2 Ht Hs Hc (Hm st2) Hfin) as [Ha Hb].
    split; [etransitivity; [exact Ho12|exact Ha]|exact Hb].
Qed.
End durability.

(** ** The operations of the service *)
Section service.
Context `{SettingsOk} `{!BytesOk} `{Errno} `{Kconfig} `{!KconfigOk} {ctx : ExecCtx}.

Lemma coherent_moves (name : string) st st' s :
  only_moves name st st' -> lorawan_name (skey s) <> name ->
  entry_coherent (flash_of st) s -> entry_coherent (flash_of st') s.
Proof.
  intros [_ Hf] Hne Hc Hl Hp Hcfg. destruct (Hc Hl Hp Hcfg) as (img & Himg & Hd).
  exists img. by rewrite Hf.
Qed.

(** Other entries have other names. *)
Lemma schema_other t i j s s' : schema t -> t !! i = Some s -> t !! j = Some s' -> i <> j ->
  lorawan_name (skey s') <> lorawan_name (skey s).
Proof.
  intros Ht Hi Hj Hne Heq. apply Hne.
  apply (NoDup_lookup (skey <$> t) i j (skey s)); [by apply schema_nodup| |].
  - by rewrite list_lookup_fmap, Hi.
  - rewrite list_lookup_fmap, Hj. cbn. f_equal. by injection Heq.
Qed.

Lemma moves_inv i s e st st' :
  settings_inv st -> table st !! i = Some s ->
  only_moves (lorawan_name (skey s)) st st' -> static e = static s -> entry_ok e ->
  entry_coherent (flash_of st') e ->
  settings_inv (set_table (<[i := e]> (table st')) st').
Proof.
  intros [[Hsch Hok] Hco] Hs Hm He Heok Heco. pose proof Hm as [Ht _]. rewrite Ht.
  split; [split|]; cbn [table set_table].
  - by apply (schema_insert _ _ s).
  - by apply Forall_insert.
  - apply Forall_lookup. intros j s' [(-> & -> & _)|[Hne Hj]]%list_lookup_insert_Some; [done|].
    apply (coherent_moves (lorawan_name (skey s)) st st'); [done| |].
    + by apply (schema_other (table st) i j).
    + rewrite Forall_lookup in Hco. by apply (Hco j).
Qed.

Lemma moves_inv_unloaded i s st st' :
  settings_inv st -> table st !! i = Some s -> sloaded s = false ->
  only_moves (lorawan_name (skey s)) st st' -> settings_inv st'.
Proof.
  intros Hinv Hi Hl Hm. pose proof Hm as [Ht _].
  replace st' with (set_table (<[i := s]> (table st')) st').
  - apply (moves_inv i s s st st'); try done; intros ?; congruence.
  - rewrite list_insert_id by (by rewrite Ht). by destruct st'.
Qed.

Lemma cache_ok_put i s e st st' :
  cache_ok st -> table st !! i = Some s -> table st' = table st -> static e = static s ->
  entry_ok e -> cache_ok (set_table (<[i := e]> (table st')) st').
Proof.
  intros [Hsch Hok] Hs Ht He Heok. rewrite Ht. split; cbn [table set_table].
  - by apply (schema_insert _ _ s).
  - by apply Forall_insert.
Qed.

(** A found entry of a well-formed table. *)
Lemma find_ok key st i s : cache_ok st -> find_setting key (table st) = Some (i, s) ->
  schema (table st) /\ table st !! i = Some s /\ skey s = key /\ entry_ok s.
Proof.
  intros [Hsch Hok] Hf. destruct (find_setting_Some _ _ _ _ Hf) as [Hi Hk].
  split_and!; try done. rewrite Forall_lookup in Hok. by apply (Hok i).
Qed.

Definition load_step (s : setting) : M schema_state (Z * (list Z * bool)) :=
  if CONFIG_RZI_STORAGE then load_value s (default_value s) else ret (0, (default_value s, false)).

Lemma load_step_ok i s st :
  schema (table st) -> table st !! i = Some s ->
  result_ok s st (load_step s st) /\
  only_moves (lorawan_name (skey s)) st (load_step s st).2 /\
  ((load_step s st).1.1 = 0 -> (load_step s st).1.2.2 = true -> CONFIG_RZI_STORAGE = true ->
   persisted (flash_of (load_step s st).2) s (load_step s st).1.2.1).
Proof.
  intros Ht Hs. destruct (schema_default _ _ _ Ht Hs) as (Hd1 & Hd2 & Hsz).
  unfold load_step. destruct CONFIG_RZI_STORAGE eqn:Hc.
  - split; [by apply (load_value_valid _ i)|]. destruct (load_value_ok i s st Ht Hs Hc). auto.
  - by split_and!.
Qed.

(** The three outcomes of a read: rejected, served from the cache, loaded. *)
Lemma setting_read_cases key size st :
  cache_ok st ->
  let r := rzi_lorawan_setting_read key size st in
  (r.1.1 <> 0 /\ r.1.2 = None /\
    (r.2 = st \/ exists i s, table st !! i = Some s /\ sloaded s = false /\
                             only_moves (lorawan_name (skey s)) st r.2)) \/
  exists i s, find_setting key (table st) = Some (i, s) /\ size = ssize s /\
    ((sloaded s = true /\ r = ((0, Some (svalue s, spresent s)), st)) \/
     (exists v p st1, sloaded s = false /\ load_step s st = ((0, (v, p)), st1) /\
        r = ((0, Some (v, p)), set_table (<[i := cache_store v p s]> (table st1)) st1))).
Proof.
  intros Hok. unfold rzi_lorawan_setting_read. mrun.
  destruct (find_setting key (table st)) as [[i s]|] eqn:Ef; [|left; by split_and!; [| |left]].
  destruct (find_ok _ _ _ _ Hok Ef) as (Hsch & Hi & _ & Heok).
  destruct (Z.eqb_spec size (ssize s)) as [->|]; cbn [negb]; [|left; by split_and!; [| |left]].
  destruct (sloaded s) eqn:El.
  { right. exists i, s. split_and!; [done|done|]. left. split; [done|].
    destruct (Heok El) as [Hl _]. by rewrite take_ge by lia. }
  change (if CONFIG_RZI_STORAGE then _ else _) with (load_step s).
  destruct (load_step_ok i s st Hsch Hi) as (_ & Hm & _).
  destruct (load_step s st) as [[rc [v p]] st1] eqn:Els. cbn [fst snd] in *.
  destruct (Z.eqb_spec rc 0) as [->|].
  - right. exists i, s. split_and!; [done|done|]. right. by exists v, p, st1.
  - left. split_and!; [done|done|]. right. by exists i, s.
Qed.

Lemma cache_store_static v p s : static (cache_store v p s) = static s.
Proof. done. Qed.
Lemma cache_store_ok v p s : length v = Z.to_nat (ssize s) -> valid_value s v = true ->
  entry_ok (cache_store v p s).
Proof. by intros ? ? _. Qed.


(** The two outcomes of a write. *)
Lemma setting_write_cases key value size st :
  cache_ok st -> zlen value = size ->
  let r := rzi_lorawan_setting_write key value size st in
  (r.1 <> 0 /\ table r.2 = table st) \/
  exists i s st1, find_setting key (table st) = Some (i, s) /\ size = ssize s /\
    valid_value s value = true /\ table st1 = table st /\
    r = (0, set_table (<[i := cache_store value true s]> (table st1)) st1) /\
    ((st1 = st /\ sloaded s = true /\ spresent s = true /\ svalue s = value) \/
     save_value s value st = (0, st1)).
Proof.
  intros Hok Hl r. subst r. unfold rzi_lorawan_setting_write, bind, gets.
  destruct (find_setting key (table st)) as [[i s]|] eqn:Ef; [|left; by split].
  destruct (find_ok _ _ _ _ Hok Ef) as (Hsch & Hi & _ & Heok).
  destruct (Z.eqb_spec size (ssize s)) as [->|]; cbn [negb orb]; [|left; by split].
  destruct (valid_value s value) eqn:Hv; cbn [negb]; [|left; by split].
  assert (Hcase : forall rc st1,
    (if negb (sloaded s) || negb (spresent s) ||
        negb (bool_decide (take (Z.to_nat (ssize s)) (svalue s) = value))
     then save_value s value else ret 0) st = (rc, st1) ->
    table st1 = table st /\ (rc = 0 ->
      (st1 = st /\ sloaded s = true /\ spresent s = true /\ svalue s = value) \/
      save_value s value st = (0, st1))).
  { intros rc st1. destruct (_ || _) eqn:Eb.
    - intros Hs. pose proof (save_value_table s value st) as Ht. rewrite Hs in Ht.
      split; [done|]. intros ->. by right.
    - apply orb_false_iff in Eb as [[Hld Hpr]%orb_false_iff Heq%negb_false_iff%bool_decide_eq_true].
      apply negb_false_iff in Hld, Hpr. intros [= <- <-]. split; [done|]. left.
      destruct (Heok Hld) as [Hl2 _]. rewrite take_ge in Heq by lia. done. }
  destruct ((if negb (sloaded s) || negb (spresent s) || _
     then save_value s value else ret 0) st) as [rc st1].
  destruct (Hcase rc st1 eq_refl) as [Ht Hrc].
  destruct (Z.eqb_spec rc 0) as [->|]; [|left; by split].
  right. exists i, s, st1. split_and!; auto.
Qed.

Lemma clear_table st :
  (rzi_lorawan_settings_clear st).1 <> 0 /\ table (rzi_lorawan_settings_clear st).2 = table st \/
  (rzi_lorawan_settings_clear st).1 = 0 /\
    table (rzi_lorawan_settings_clear st).2 = cache_drop <$> table st.
Proof.
  unfold rzi_lorawan_settings_clear, bind, gets.
  set (m := if CONFIG_RZI_STORAGE then for_first_error _ _ _ else _).
  assert (Hm : keeps table m).
  { unfold m. destruct CONFIG_RZI_STORAGE; [|frame].
    apply respects_for_first_error; [apply _|]. intros [ns key]. unfold clear_key.
    apply respects_bind; [apply _|intros s0; apply storage_table|]. intros. frame. }
  specialize (Hm st). unfold same in Hm. destruct (m st) as [rc st1]. cbn in Hm.
  destruct (Z.eqb_spec rc 0) as [->|]; [right|left]; cbn; rewrite ?Hm; done.
Qed.

Lemma drop_static (t : list setting) : static <$> (cache_drop <$> t) = static <$> t.
Proof. rewrite <- list_fmap_compose. by apply list_fmap_ext. Qed.

(** *** What other components observe: the cached values *)
Definition cached (t : list setting) (key : string) (v : list Z) (present : bool) : Prop :=
  exists i s, find_setting key t = Some (i, s) /\ sloaded s = true /\ svalue s = v /\
              spresent s = present.

Lemma find_setting_insert key t i s e :
  t !! i = Some s -> skey e = skey s ->
  find_setting key (<[i := e]> t) =
    match find_setting key t with
    | Some (j, s') => Some (j, if decide (j = i) then e else s')
    | None => None
    end.
Proof.
  intros Hi Hk. unfold find_setting.
  rewrite (find_index_keys key (<[i := e]> t) t).
  - destruct (find_index key t) as [j|]; [|done]. cbn.
    destruct (decide (j = i)) as [->|Hne].
    + rewrite list_lookup_insert_eq by (by eapply lookup_lt_Some). rewrite Hi. cbn.
      by rewrite decide_True.
    + rewrite list_lookup_insert_ne by done. destruct (t !! j); cbn; [by rewrite decide_False|done].
  - rewrite list_fmap_insert, Hk. apply list_insert_id. by rewrite list_lookup_fmap, Hi.
Qed.

(** A store into an entry is seen under its key and under no other. *)
Lemma cached_store key t i s v p : find_setting key t = Some (i, s) ->
  cached (<[i := cache_store v p s]> t) key v p /\
  forall key' v' p', key' <> key -> cached t key' v' p' ->
    cached (<[i := cache_store v p s]> t) key' v' p'.
Proof.
  intros Hf. destruct (find_setting_Some _ _ _ _ Hf) as [Hi Hk]. split.
  - exists i, (cache_store v p s). rewrite (find_setting_insert key t i s) by done.
    rewrite Hf, decide_True by done. done.
  - intros key' v' p' Hne (j & s' & Hf' & Hl & <- & <-). exists j, s'.
    rewrite (find_setting_insert key' t i s) by done. rewrite Hf'.
    destruct (decide (j = i)) as [->|]; [|done].
    destruct (find_setting_Some _ _ _ _ Hf') as [Hi' Hk']. congruence.
Qed.

Lemma read_cached key size st :
  cache_ok st ->
  let r := rzi_lorawan_setting_read key size st in
  (forall key' v p, cached (table st) key' v p -> cached (table r.2) key' v p) /\
  (r.1.1 = 0 -> exists v p, r.1.2 = Some (v, p) /\ cached (table r.2) key v p /\ zlen v = size).
Proof.
  intros Hok. cbv zeta. destruct (setting_read_cases key size st Hok) as
    [(Hrc & _ & [->|(i & s & _ & _ & [Ht _])])|(i & s & Hf & -> & [[Hl ->]|(v & p & st1 & Hl & Els & ->)])].
  - by split.
  - rewrite Ht. by split.
  - split; [done|]. intros _. exists (svalue s), (spresent s). split; [done|]. split; [by exists i, s|].
    destruct (find_ok _ _ _ _ Hok Hf) as (Hsch & Hi & _ & Heok). destruct (Heok Hl) as [Hz _].
    destruct (schema_default _ _ _ Hsch Hi) as (_ & _ & ?). unfold zlen. lia.
  - destruct (find_ok _ _ _ _ Hok Hf) as (Hsch & Hi & _ & _).
    destruct (load_step_ok i s st Hsch Hi) as ([Ht Hv] & _). rewrite Els in *. cbn [fst snd] in *.
    destruct (schema_default _ _ _ Hsch Hi) as (_ & _ & ?).
    cbn [table set_table]. rewrite Ht. destruct (cached_store key (table st) i s v p Hf) as [Hc Ho].
    split; [|intros _; exists v, p; split; [done|]; split; [done|]; destruct (Hv eq_refl); unfold zlen; lia].
    intros key' v' p' Hc'. destruct (decide (key' = key)) as [->|]; [|by apply Ho].
    destruct Hc' as (j & s' & Hf' & Hl' & _). rewrite Hf in Hf'. injection Hf' as <- <-. congruence.
Qed.

Lemma write_cached key value size st :
  cache_ok st -> zlen value = size ->
  let r := rzi_lorawan_setting_write key value size st in
  (r.1 <> 0 -> table r.2 = table st) /\
  (r.1 = 0 -> cached (table r.2) key value true) /\
  (forall key' v p, key' <> key -> cached (table st) key' v p -> cached (table r.2) key' v p).
Proof.
  intros Hok Hl. cbv zeta. destruct (setting_write_cases key value size st Hok Hl) as
    [[Hrc Ht]|(i & s & st1 & Hf & -> & Hv & Ht & -> & _)].
  - rewrite Ht. by split_and!.
  - cbn [fst snd table set_table]. rewrite Ht.
    destruct (cached_store key (table st) i s value true Hf) as [Hc Ho]. by split_and!.
Qed.

(** Well-formedness of the cache under the operations. *)
Lemma read_cache_ok key size st :
  cache_ok st -> cache_ok (rzi_lorawan_setting_read key size st).2.
Proof.
  intros Hok. destruct (setting_read_cases key size st Hok) as
    [(_ & _ & [->|(i & s & _ & _ & [Ht _])])|(i & s & Hf & -> & [[_ ->]|(v & p & st1 & Hl' & Els & ->)])];
    try done.
  - unfold cache_ok. by rewrite Ht.
  - destruct (find_ok _ _ _ _ Hok Hf) as (Hsch & Hi & _ & _).
    destruct (load_step_ok i s st Hsch Hi) as ([Ht Hv] & _). rewrite Els in *. cbn in *.
    destruct (Hv eq_refl). by apply (cache_ok_put i s _ st).
Qed.
Lemma write_cache_ok key value size st :
  cache_ok st -> zlen value = size -> cache_ok (rzi_lorawan_setting_write key value size st).2.
Proof.
  intros Hok Hl. destruct (setting_write_cases key value size st Hok Hl) as [[_ Ht]|
    (i & s & st1 & Hf & -> & Hv & Ht & -> & _)]; [unfold cache_ok; by rewrite Ht|].
  destruct (find_ok _ _ _ _ Hok Hf) as (Hsch & Hi & _ & _).
  apply (cache_ok_put i s _ st); try done. apply cache_store_ok; [unfold zlen in *; lia|done].
Qed.
Lemma clear_cache_ok st : cache_ok st -> cache_ok (rzi_lorawan_settings_clear st).2.
Proof.
  intros [Hsch Hok]. unfold cache_ok, schema. destruct (clear_table st) as [[_ ->]|[_ ->]]; [done|].
  rewrite drop_static. split; [done|]. apply Forall_fmap, Forall_true. by intros s ?.
Qed.

(** The settings service never hands out or caches an invalid value: with a well-formed
    cache, a read, a write and a clear keep it well formed whatever the flash does, and a read
    that returns zero delivers a value of the entry's size that the entry's validation accepts. *)
Theorem settings_values_valid key size value st :
  cache_ok st -> zlen value = size ->
  cache_ok (rzi_lorawan_setting_read key size st).2 /\
  cache_ok (rzi_lorawan_setting_write key value size st).2 /\
  cache_ok (rzi_lorawan_settings_clear st).2 /\
  ((rzi_lorawan_setting_read key size st).1.1 = 0 -> exists i s v present,
     find_setting key (table st) = Some (i, s) /\
     (rzi_lorawan_setting_read key size st).1.2 = Some (v, present) /\
     zlen v = size /\ valid_value s v = true).
Proof.
  intros Hok Hl.
  split; [by apply read_cache_ok|]. split; [by apply write_cache_ok|].
  split; [by apply clear_cache_ok|].
  destruct (setting_read_cases key size st Hok) as [(? & _)|
      (i & s & Hf & -> & [[Hld ->]|(v & p & st1 & Hl' & Els & ->)])]; [done| |]; intros _.
  + destruct (find_ok _ _ _ _ Hok Hf) as (_ & _ & _ & Heok). destruct (Heok Hld).
    exists i, s, (svalue s), (spresent s). split_and!; try done. unfold zlen in *. lia.
  + destruct (find_ok _ _ _ _ Hok Hf) as (Hsch & Hi & _ & _).
    destruct (load_step_ok i s st Hsch Hi) as ([Ht Hv] & _). rewrite Els in *. cbn in *.
    destruct (Hv eq_refl). exists i, s, v, p. split_and!; try done. unfold zlen in *. lia.
Qed.

(** What a successful write leaves behind. *)
Lemma write_done key value size st :
  settings_inv st -> zlen value = size ->
  (rzi_lorawan_setting_write key value size st).1 = 0 ->
  let st' := (rzi_lorawan_setting_write key value size st).2 in
  settings_inv st' /\ exists i s, find_setting key settings_init = Some (i, s) /\
    size = ssize s /\ valid_value s value = true /\
    (CONFIG_RZI_STORAGE = true -> persisted (flash_of st') s value) /\
    rzi_lorawan_setting_read key size st' = ((0, Some (value, true)), st').
Proof.
  intros Hinv Hl. pose proof Hinv as [Hok Hco].
  destruct (setting_write_cases key value size st Hok Hl) as [[? _]|
    (i & s & st1 & Hf & -> & Hv & Ht & -> & Hsave)]; [done|]. intros _. cbn [fst snd].
  destruct (find_ok _ _ _ _ Hok Hf) as (Hsch & Hi & Hkey & Heok).
  destruct (schema_default _ _ _ Hsch Hi) as (_ & _ & Hsz).
  assert (Hmp : only_moves (lorawan_name (skey s)) st st1 /\
                (CONFIG_RZI_STORAGE = true -> persisted (flash_of st1) s value)).
  { destruct Hsave as [(-> & Hld & Hpr & <-)|Hs].
    - split; [done|]. intros Hc. rewrite Forall_lookup in Hco. by apply (Hco i).
    - pose proof (save_value_only i s value st Hsch Hi) as Hm. rewrite Hs in Hm.
      split; [done|]. intros Hc. pose proof (save_persisted i s value st Hsch Hi Hc Hl) as Hp.
      rewrite Hs in Hp. by apply Hp. }
  destruct Hmp as [Hm Hp]. assert (Hl2 : length value = Z.to_nat (ssize s)) by (unfold zlen in *; lia).
  split; [apply (moves_inv i s _ st st1); try done; intros _ _; apply Hp|].
  destruct (schema_entry _ _ _ Hsch Hi) as (s0 & Hi0 & Hst0).
  unfold find_setting in Hf |- *. rewrite (find_index_keys key _ settings_init) in Hf by by apply schema_keys.
  destruct (find_index key settings_init) as [j|] eqn:Ej; [|done]. cbn in Hf.
  destruct (table st !! j) eqn:Etj; [|done]. cbn in Hf. injection Hf as -> ->.
  exists i, s0. cbn. rewrite Hi0.
  assert (Hf0 : skey s = skey s0 /\ ssize s = ssize s0 /\ skind s = skind s0)
    by (unfold static in Hst0; by injection Hst0).
  destruct Hf0 as (Hk0 & Hz0 & Hkd0).
  split_and!; [done|done|by rewrite <- (valid_value_static s s0)| |].
  - intros Hc. destruct (Hp Hc) as (img & Himg & Hd). exists img.
    change (flash_of (set_table _ st1)) with (flash_of st1). by rewrite <- Hk0, <- Hkd0, <- Hz0.
  - unfold rzi_lorawan_setting_read, bind, gets. cbn [table set_table].
    unfold find_setting. rewrite (find_index_keys key _ settings_init), Ej; [|].
    2:{ apply schema_keys, (schema_insert _ _ s); [by rewrite Ht|by rewrite Ht|done]. }
    cbn. rewrite list_lookup_insert_eq by (rewrite Ht; by apply lookup_lt_Some in Hi). cbn.
    rewrite Z.eqb_refl. cbn. rewrite take_ge by lia. done.
Qed.

(** Reading back what the flash holds, on a store that can be read. *)
Definition readable (s : storage_state) : Prop :=
  loads_ok /\ (rzi_storage_init s).1 = 0 /\ k_is_in_isr = false.

Lemma read_record_ok ns key old_v old old_n capacity s name img v p :
  readable s -> build_name RZI_STORAGE_NAME_MAX ns key = (name, 0) -> capacity <> 0 ->
  stored s !! name = Some img -> 0 < zlen img <= 12 + CONFIG_RZI_STORAGE_RECORD_MAX_SIZE ->
  decode_record img (zlen img) capacity = (0, Some (v, p)) ->
  (rzi_storage_read_record ns key (RecordOut (Some old_v) (Some old) (Some old_n)) capacity s).1 =
    (0, RecordOut (Some v) (Some (overlay old 0 p)) (Some (zlen p))).
Proof.
  intros (Hok & Hinit & Hisr) Hn Hcap Himg Hz Hd. unfold rzi_storage_read_record.
  rewrite Hisr. cbn [out_version out_value out_size].
  destruct (Z.eqb_spec capacity 0); [done|]. rewrite Hn. cbn [negb Z.eqb]. unfold bind.
  destruct (init_spec s) as (_ & Hst & _). destruct (rzi_storage_init s) as [rc0 s0].
  cbn in Hinit, Hst. subst rc0. cbn [Z.eqb].
  pose proof (fetch_record_ok name img s0 Hok) as Hf. rewrite Hst in Hf. specialize (Hf Himg Hz).
  destruct (fetch_record name s0) as [x s2]. cbn [fst snd] in *. subst x. cbn [negb Z.eqb].
  by rewrite Hd.
Qed.

Lemma load_persisted i s v st :
  schema (table st) -> table st !! i = Some s -> CONFIG_RZI_STORAGE = true ->
  readable (sto st) -> persisted (flash_of st) s v -> zlen v = ssize s -> valid_value s v = true ->
  (load_value s (default_value s) st).1 = (0, (v, true)).
Proof.
  intros Hsch Hi Hc Hread (img & Himg & Hp) Hl Hv.
  destruct (schema_default _ _ _ Hsch Hi) as (Hd1 & _ & Hsz).
  destruct (schema_name _ _ _ Hsch Hi) as [Hn _]. unfold load_value.
  assert (Hov : overlay (default_value s) 0 v = v) by (apply overlay_all; unfold zlen in *; lia).
  destruct (decide (skind s = JOIN_POLICY)).
  - destruct Hp as [Hmax Hd]. unfold bind, storage, zoom.
    assert (Hpos : 0 < zlen img).
    { pose proof (decode_record_sound img (zlen img) (ssize s)) as Hs. rewrite Hd in Hs. lia. }
    pose proof (read_record_ok (Some "lorawan"%string) (Some (skey s)) 0 (default_value s) 0
      (ssize s) (sto st) _ img _ _ Hread Hn ltac:(lia) Himg ltac:(lia) Hd) as Hr.
    destruct (rzi_storage_read_record _ _ _ _ (sto st)) as [x s1]. cbn in Hr. subst x.
    cbn [Z.eqb out_version out_value out_size default from_option id].
    rewrite Hov, Hl, Z.eqb_refl, Hv. done.
  - subst img. unfold bind, read_into, storage, zoom.
    destruct Hread as (Hok & Hinit & _). unfold bind.
    pose proof (read_spec (Some "lorawan"%string) (Some (skey s)) (default_value s) (ssize s) (sto st)
      _ Hn ltac:(lia) (fun f _ => proj1 (Hok _ (ssize s) f)) Hinit) as Hr.
    unfold flash_of, lorawan_name in Himg. rewrite Himg in Hr.
    destruct (rzi_storage_read _ _ _ _ (sto st)) as [x s1]. cbn [fst] in Hr. subst x.
    rewrite Hl, Z.eqb_refl. destruct (Z.eqb_spec (ssize s) 0); [lia|].
    cbn [ret Z.eqb default from_option id]. rewrite take_ge by (unfold zlen in *; lia).
    rewrite Hov, Hv. done.
Qed.

(** *** Clearing *)

(** No usable value is stored under the name. *)
Definition erased (name : string) (st : schema_state) : Prop :=
  match flash_of st !! name with Some v => zlen v = 0 | None => True end.
Definition ready (st : schema_state) : Prop := initialized (sto st) = true.

(** The settings subsystem works: loads succeed, and deleting a value that
    exists is never reported as "not found". *)
Definition clean_deletes : Prop := forall (name : string) (f : flash),
  rzi_err_from_errno (settings_delete name f).1 <> - RZI_ERR_NOT_FOUND.

Lemma lock_get_code lock p : (rzi_power_lock_get lock p).1 <> - RZI_ERR_NOT_FOUND.
Proof.
  unfold rzi_power_lock_get. destruct k_is_in_isr; [done|]. destruct (_ <=? _); [done|].
  mrun. by destruct (_ =? UINT8_MAX).
Qed.

Lemma critical_ready op s : k_is_in_isr = false -> initialized s = true ->
  ((critical op s).1 <> 0 /\ (critical op s).1 <> - RZI_ERR_NOT_FOUND /\
    stored (critical op s).2 = stored s /\ initialized (critical op s).2 = true) \/
  exists s1, stored s1 = stored s /\ initialized s1 = true /\
    (critical op s).1 = rzi_err_from_errno (op s1).1 /\
    stored (critical op s).2 = stored (op s1).2 /\
    initialized (critical op s).2 = initialized (op s1).2.
Proof.
  intros Hisr Hi. unfold critical, bind, stored. rewrite init_done by done. cbn [Z.eqb].
  destruct (flash_lock_get_spec s) as (_ & Hs1 & Hi1).
  assert (Hcode : (flash_lock_get s).1 <> - RZI_ERR_NOT_FOUND).
  { unfold flash_lock_get, power, zoom. destruct auto_service_lock; [|done].
    pose proof (lock_get_code RZI_POWER_LOCK_FLASH (sto_power s)).
    by destruct (rzi_power_lock_get _ _). }
  destruct (flash_lock_get s) as [rc1 s1]. cbn [fst snd] in *.
  destruct (Z.eqb_spec rc1 0) as [->|Hne].
  - right. exists s1. destruct (op s1) as [rc2 s2].
    destruct (flash_lock_put_spec s2) as (Hs3 & Hi3).
    destruct (flash_lock_put s2) as [[] s3]. cbn in *. rewrite Hs3, Hi3, Hs1, Hi1. by split_and!.
  - left. cbn. rewrite Hs1, Hi1. by split_and!.
Qed.

(** One delete of the manifest on a working store. *)
Lemma clear_key_spec `{!ErrnoOk} ns key name st :
  loads_ok -> clean_deletes -> k_is_in_isr = false -> ready st ->
  build_name RZI_STORAGE_NAME_MAX (Some ns) (Some key) = (name, 0) ->
  let r := clear_key ns key st in
  ready r.2 /\ (r.1 = 0 -> erased name r.2) /\
  (forall name', erased name' st -> erased name' r.2).
Proof.
  intros Hok Hclean Hisr Hr Hn.
  assert (Hother : others_kept name (sto st) (rzi_storage_delete (Some ns) (Some key) (sto st)).2)
    by (apply delete_others; by rewrite Hn).
  unfold clear_key, bind, storage, zoom.
  rewrite (delete_critical _ _ name) in * by done.
  destruct (critical_ready (delete_op name) (sto st) Hisr Hr) as
    [(H1' & H2' & Hst & Hi)|(s1 & Hs1 & Hi1 & Hrc & Hst & Hi)];
    destruct (critical (delete_op name) (sto st)) as [rc s2]; cbn [fst snd] in *.
  { destruct (Z.eqb_spec rc (- RZI_ERR_NOT_FOUND)); [done|]. unfold erased, flash_of. cbn.
    rewrite Hst. by split_and!. }
  unfold ready, erased, flash_of. cbn [sto set_sto fst snd ret].
  revert Hrc Hst Hi. unfold delete_op, bind, settings, zoom.
  pose proof (val_len_rc name (sys s1) (proj2 (Hok name 0 (sys s1)))) as Hlen.
  pose proof (kv_val_len name (sys s1)) as Hkv. pose proof (proj2 (Hok name 0 (sys s1))) as Hpos.
  destruct (settings_get_val_len name (sys s1)) as [n f1]. cbn [fst snd] in *.
  change (kv (sys s1)) with (stored s1) in *. rewrite Hs1 in *.
  destruct (Z.ltb_spec n 0); [lia|]. destruct (Z.eqb_spec n 0) as [->|Hn0]; cbn.
  { intros _ Hst Hi. unfold stored in *. cbn in Hst. rewrite Hst, Hkv. split; [congruence|].
    split; [|done]. intros _. destruct (kv (sys (sto st)) !! name); [lia|done]. }
  pose proof (delete_rc name f1) as Hle. pose proof (delete_kv name f1) as Hdel.
  pose proof (Hclean name f1) as Hcl.
  destruct (settings_delete name f1) as [rc2 f2]. cbn in *. intros -> Hst Hi.
  destruct (Z.eqb_spec (rzi_err_from_errno rc2) (- RZI_ERR_NOT_FOUND)); [done|].
  split; [congruence|]. split.
  - intros ?%rzi_err_from_errno_zero. rewrite Hst. unfold stored. cbn.
    by rewrite Hdel, lookup_delete_eq by lia.
  - intros name' Her. destruct (decide (name' = name)) as [->|Hne].
    + exfalso. unfold stored in *. destruct (kv (sys (sto st)) !! name); lia.
    + by rewrite Hother.
Qed.

Definition target_name (p : string * string) : string := (p.1 ++ "/" ++ p.2)%string.

Lemma clear_loop_spec `{!ErrnoOk} l : forall rc st,
  loads_ok -> clean_deletes -> k_is_in_isr = false -> ready st ->
  (forall p, p ∈ l -> build_name RZI_STORAGE_NAME_MAX (Some p.1) (Some p.2) = (target_name p, 0)) ->
  let r := for_first_error l (fun '(ns, key) => clear_key ns key) rc st in
  (forall name, erased name st -> erased name r.2) /\
  (rc <> 0 -> r.1 = rc) /\
  (r.1 = 0 -> forall p, p ∈ l -> erased (target_name p) r.2).
Proof.
  induction l as [|[ns key] l IH]; intros rc st Hok Hclean Hisr Hr Hl; cbn [for_first_error].
  { split_and!; [done|done|]. intros _ p Hp. by apply elem_of_nil in Hp. }
  destruct (clear_key_spec ns key (target_name (ns, key)) st Hok Hclean Hisr Hr
    (Hl (ns, key) (list_elem_of_here _ _))) as (Hr1 & He1 & Hk1). unfold bind.
  destruct (clear_key ns key st) as [one st1]. cbn [fst snd] in *.
  specialize (IH (if negb (one =? 0) && (rc =? 0) then one else rc) st1 Hok Hclean Hisr Hr1
    (fun p Hp => Hl p (list_elem_of_further _ _ _ Hp))) as (Hk2 & Hrc2 & He2).
  destruct (for_first_error l _ _ st1) as [r st2]. cbn [fst snd] in *. split_and!.
  - auto.
  - intros Hne. destruct (Z.eqb_spec rc 0); [done|]. rewrite andb_false_r in Hrc2. auto.
  - intros -> p [->|Hp]%elem_of_cons; [|auto].
    apply Hk2, He1. destruct (Z.eqb_spec one 0) as [|Hne]; [done|]. cbn [negb andb] in *.
    exfalso. destruct (Z.eqb_spec rc 0); cbn in Hrc2; lia.
Qed.

(** Reads keep the coherence of the cache with the flash, whatever the flash answers. *)
Lemma read_inv key size st :
  settings_inv st -> settings_inv (rzi_lorawan_setting_read key size st).2.
Proof.
  intros Hinv. pose proof Hinv as [Hok Hco].
  destruct (setting_read_cases key size st Hok) as [(_ & _ & [->|(i & s & Hi & Hl & Hm)])|
    (i & s & Hf & -> & [[_ ->]|(v & p & st1 & Hl & Els & ->)])]; try exact Hinv.
  - by apply (moves_inv_unloaded i s st).
  - destruct (find_ok _ _ _ _ Hok Hf) as (Hsch & Hi & _ & _).
    destruct (load_step_ok i s st Hsch Hi) as ([_ Hv] & Hm & Hp). rewrite Els in *. cbn in *.
    destruct (Hv eq_refl). apply (moves_inv i s _ st st1); try done.
    intros _ Hpres Hc. by apply Hp.
Qed.

(** A clear that returns zero on a working store has erased every key of the schema in both
    namespaces and forgotten every cached value. *)
Theorem settings_clear_erases `{!ErrnoOk} st :
  schema (table st) -> CONFIG_RZI_STORAGE = true ->
  loads_ok -> clean_deletes -> k_is_in_isr = false -> ready st ->
  (rzi_lorawan_settings_clear st).1 = 0 ->
  let st' := (rzi_lorawan_settings_clear st).2 in
  Forall (fun s => sloaded s = false /\ spresent s = false) (table st') /\
  forall ns key, ns ∈ clear_namespaces -> key ∈ (skey <$> settings_init) ->
    erased (ns ++ "/" ++ key)%string st'.
Proof.
  intros Hsch Hc Hok Hclean Hisr Hr. unfold rzi_lorawan_settings_clear, bind, gets. rewrite Hc.
  assert (Hnames : forall p, p ∈ clear_targets (table st) ->
    build_name RZI_STORAGE_NAME_MAX (Some p.1) (Some p.2) = (target_name p, 0)).
  { intros p Hp. unfold clear_targets in Hp.
    apply list_elem_of_bind in Hp as (ns & (s & -> & Hs)%list_elem_of_fmap & Hns).
    apply list_elem_of_lookup in Hs as [i Hi].
    destruct (schema_name _ _ _ Hsch Hi) as [H1' H2'].
    by repeat (apply elem_of_cons in Hns as [->|Hns]); [..|apply elem_of_nil in Hns]. }
  destruct (clear_loop_spec (clear_targets (table st)) 0 st Hok Hclean Hisr Hr Hnames)
    as (_ & _ & Her).
  destruct (for_first_error (clear_targets (table st)) _ 0 st) as [rc st1]. cbn [fst snd] in *.
  destruct (Z.eqb_spec rc 0) as [->|]; [|done]. intros _. cbn. split.
  - apply Forall_fmap, Forall_true. by intros s.
  - intros ns key Hns Hkey. apply (Her eq_refl (ns, key)). unfold clear_targets.
    apply list_elem_of_bind. exists ns. split; [|done].
    assert (Hk : key ∈ (skey <$> table st)) by (by rewrite (schema_keys _ Hsch)).
    apply list_elem_of_fmap in Hk as (s & -> & Hs).
    apply list_elem_of_fmap. by exists s.
Qed.
End service.

Module SettingsWitness.
Import Instances.
Local Open Scope string_scope.
Definition cold : schema_state := SchemaState settings_init StorageWitness.fresh.

Lemma init_unloaded : Forall (fun s => sloaded s = false) settings_init.
Proof. by repeat constructor. Defined.
Lemma cold_ok : cache_ok cold.
Proof.
  split; [reflexivity|]. apply (Forall_impl _ _ _ init_unloaded). intros s Hs Hl. congruence.
Defined.
Lemma cold_inv : settings_inv cold.
Proof.
  split; [exact cold_ok|]. apply (Forall_impl _ _ _ init_unloaded). intros s Hs Hl. congruence.
Defined.

Definition after_write : schema_state := (rzi_lorawan_setting_write "region" [4] 1 cold).2.
(** The device restarts: a fresh table, the flash as it was left. *)
Definition restarted : schema_state :=
  SchemaState settings_init (StorageState false (sys (sto after_write)) (sto_power (sto cold))).

Lemma settings_values_valid_witness :
  (rzi_lorawan_setting_read "join_policy" 3 cold).1.1 = 0 /\
  cache_ok (rzi_lorawan_setting_read "join_policy" 3 cold).2.
Proof.
  split; [vm_refl|].
  exact (proj1 (settings_values_valid "join_policy" 3 [1; 8; 0] cold cold_ok eq_refl)).
Defined.

(** A store with a value, cleared. *)
Definition dirty : schema_state :=
  SchemaState settings_init (StorageState true
    (SimFlash (<["rzi/band" := [6]]> (<["lorawan/deveui" := [1;2;3;4;5;6;7;8]]> ∅)) [])
    (sto_power (sto cold))).

Lemma settings_clear_erases_witness : erased "rzi/band" (rzi_lorawan_settings_clear dirty).2.
Proof.
  refine (proj2 (settings_clear_erases dirty eq_refl eq_refl StorageWitness.sim_loads_ok _
    eq_refl eq_refl _) "rzi" "band" _ _).
  - intros name f. cbn. unfold sim_rc. by destruct (hd false _).
  - vm_refl.
  - right. left.
  - apply (bool_decide_unpack _). vm_compute. exact I.
Defined.

(** A failed clear: the delete of "lorawan/deveui" succeeds, the next one fails. *)
Definition clear_fails : schema_state :=
  SchemaState settings_init (StorageState true
    (SimFlash (<["lorawan/deveui" := [1;2;3;4;5;6;7;8]]>
              (<["lorawan/joineui" := [8;7;6;5;4;3;2;1]]> ∅)) [false; true])
    (sto_power (sto cold))).
Definition lost_eui : list Z := [1;2;3;4;5;6;7;8].
Definition after_failed_clear : Z * schema_state :=
  rzi_lorawan_settings_clear (rzi_lorawan_setting_read "deveui" 8 clear_fails).2.
Definition after_rewrite : Z * schema_state :=
  rzi_lorawan_setting_write "deveui" lost_eui 8 after_failed_clear.2.

(** After a clear that fails half way the cache still vouches for keys the flash has lost:
    rewriting such a key with its cached value returns zero and stores nothing. *)
Theorem settings_failed_clear_hides_loss :
  flash_of clear_fails !! lorawan_name "deveui" = Some lost_eui /\
  after_failed_clear.1 = - RZI_ERR_IO /\
  after_rewrite.1 = 0 /\
  flash_of after_rewrite.2 !! lorawan_name "deveui" = None.
Proof. split_and!; vm_refl. Qed.
End SettingsWitness.
