(* ===== verification/SettingsFlows.v ===== *)
(** * The settings schema over runs (src/lorawan/lorawan_settings.c)

    What a client of the settings sees from one boot to the next: the cache is
    filled from the flash by reads and kept up by writes, so what a read hands
    out is what the flash holds, and what a write accepted is there after a
    restart.  Both are stated of the states a boot leads to. *)
From S2P Require Import Prelude Zephyr Err Power Storage LorawanSettings.

Section flows.
Context `{SettingsOk} `{!BytesOk} `{Errno} `{Kconfig} `{!KconfigOk} {ctx : ExecCtx}.

(** ** Runs *)
(** A call of the schema, or anything below it that leaves the values of the namespace alone (the
    storage service starting up, other namespaces, the power locks).  Reads happen where [P]
    holds.  A failed clear is left out, and a failed write that has damaged the flash: after
    either the cache vouches for what the flash may have lost. *)
Inductive schema_step (P : schema_state -> Prop) (st : schema_state) : schema_state -> Prop :=
| schema_read key size : P st -> schema_step P st (rzi_lorawan_setting_read key size st).2
| schema_write key value : (rzi_lorawan_setting_write key value (zlen value) st).1 = 0 ->
    schema_step P st (rzi_lorawan_setting_write key value (zlen value) st).2
| schema_write_failed key value :
    flash_of (rzi_lorawan_setting_write key value (zlen value) st).2 = flash_of st ->
    schema_step P st (rzi_lorawan_setting_write key value (zlen value) st).2
| schema_clear : (rzi_lorawan_settings_clear st).1 = 0 -> schema_step P st (rzi_lorawan_settings_clear st).2
| schema_below x : (forall key, stored x !! lorawan_name key = stored (sto st) !! lorawan_name key) ->
    schema_step P st (set_sto x st).
(** The states a boot leads to. *)
Definition since_boot (P : schema_state -> Prop) (st : schema_state) : Prop :=
  exists boot, table boot = settings_init /\ rtc (schema_step P) boot st.

Lemma below_coherent x st s :
  (forall key, stored x !! lorawan_name key = stored (sto st) !! lorawan_name key) ->
  entry_coherent (flash_of st) s -> entry_coherent (flash_of (set_sto x st)) s.
Proof.
  intros Hx Hc Hl Hp Hcfg. destruct (Hc Hl Hp Hcfg) as (img & Himg & Hd). exists img.
  split; [|done]. unfold flash_of in *. cbn. by rewrite Hx.
Qed.
Lemma boot_unloaded : Forall (fun s => sloaded s = false) settings_init.
Proof. by repeat constructor. Qed.
Lemma unloaded_inv st : schema (table st) -> Forall (fun s => sloaded s = false) (table st) -> settings_inv st.
Proof.
  intros Hs Hu. split; [split; [done|]|]; apply (Forall_impl _ _ _ Hu); intros s Hl Hl'; congruence.
Qed.
Lemma schema_boot_inv boot : table boot = settings_init -> settings_inv boot.
Proof. intros Hb. apply unloaded_inv; unfold schema; rewrite Hb; [done|apply boot_unloaded]. Qed.
Lemma clear_unloaded st : schema (table st) -> (rzi_lorawan_settings_clear st).1 = 0 ->
  schema (table (rzi_lorawan_settings_clear st).2) /\
  Forall (fun s => sloaded s = false) (table (rzi_lorawan_settings_clear st).2).
Proof.
  intros Hs Hrc. destruct (clear_table st) as [[? _]|[_ ->]]; [done|]. unfold schema. rewrite drop_static.
  split; [done|]. apply Forall_fmap, Forall_true. by intros s.
Qed.
Lemma failed_write_table key value st : cache_ok st ->
  (rzi_lorawan_setting_write key value (zlen value) st).1 <> 0 ->
  table (rzi_lorawan_setting_write key value (zlen value) st).2 = table st.
Proof.
  intros Hok Hrc. destruct (setting_write_cases key value (zlen value) st Hok eq_refl) as
    [[_ Ht]|(i & s & st1 & _ & _ & _ & _ & E & _)]; [done|]. by rewrite E in Hrc.
Qed.
Lemma same_inv st st' : table st' = table st -> flash_of st' = flash_of st -> settings_inv st -> settings_inv st'.
Proof. unfold settings_inv, cache_ok. by intros -> ->. Qed.
Lemma schema_step_inv P st st' : schema_step P st st' -> settings_inv st -> settings_inv st'.
Proof.
  intros Hs Hinv. pose proof Hinv as [[Hsch Hok] Hco]. destruct Hs as [key size _|key value Hrc|key value Hf|Hrc|x Hx].
  - by apply read_inv.
  - by destruct (write_done key value (zlen value) st Hinv eq_refl Hrc).
  - destruct (decide ((rzi_lorawan_setting_write key value (zlen value) st).1 = 0)) as [Hrc|Hrc].
    + by destruct (write_done key value (zlen value) st Hinv eq_refl Hrc).
    + apply (same_inv st); [|done..]. by apply failed_write_table.
  - destruct (clear_unloaded st Hsch Hrc). by apply unloaded_inv.
  - split; [by split|]. cbn [table set_sto]. apply (Forall_impl _ _ _ Hco). intros s. by apply below_coherent.
Qed.
Lemma since_boot_inv P st : since_boot P st -> settings_inv st.
Proof.
  intros (boot & Hb & Hr). pose proof (schema_boot_inv boot Hb) as Hinv. clear Hb.
  induction Hr; eauto using schema_step_inv.
Qed.

(** C7: Durability, with persistent storage configured: in every state a boot leads to through reads,
    writes and clears none of which failed destructively (a clear that failed, or a write that
    failed and damaged the flash, leaves a cache that hides the loss), a write that returns zero
    is read back at once, and again after a restart that begins with the initial table and the
    flash the write left behind, provided the store can be read then. *)
Theorem settings_write_durable key value size st st2 :
  since_boot (fun _ => True) st -> zlen value = size -> CONFIG_RZI_STORAGE = true ->
  (rzi_lorawan_setting_write key value size st).1 = 0 ->
  let st1 := (rzi_lorawan_setting_write key value size st).2 in
  table st2 = settings_init -> flash_of st2 = flash_of st1 -> readable (sto st2) ->
  (rzi_lorawan_setting_read key size st1).1 = (0, Some (value, true)) /\
  (rzi_lorawan_setting_read key size st2).1 = (0, Some (value, true)).
Proof.
  intros Hboot Hl Hc Hw st1 Ht2 Hf2 Hread. pose proof (since_boot_inv _ st Hboot) as Hinv.
  destruct (write_done key value size st Hinv Hl Hw) as
    (Hinv1 & i & s & Hfs & -> & Hv & Hp & Hr).
  split; [by unfold st1; rewrite Hr|].
  destruct (find_setting_Some _ _ _ _ Hfs) as [Hi _].
  assert (Hsch : schema (table st2)) by (by unfold schema; rewrite Ht2).
  unfold rzi_lorawan_setting_read, bind, gets. rewrite Ht2, Hfs, Z.eqb_refl. cbn [negb].
  assert (Hcold : sloaded s = false) by (pose proof boot_unloaded as Hall; rewrite Forall_lookup in Hall; by apply (Hall i)).
  rewrite Hcold, Hc.
  pose proof (load_persisted i s value st2 Hsch ltac:(by rewrite Ht2) Hc Hread
    ltac:(rewrite Hf2; by apply Hp) Hl Hv) as Hload.
  destruct (load_value s (default_value s) st2) as [x st3]. cbn in Hload. by subst x.
Qed.

(** ** Loading *)
(** Nothing usable under the name. *)
Definition absent (f : gmap string (list Z)) (name : string) : Prop :=
  match f !! name with Some v => zlen v = 0 | None => True end.

(** A store that can be read says "not found" only of what is absent. *)
Lemma read_into_missing ns key name value size st :
  readable (sto st) -> build_name RZI_STORAGE_NAME_MAX (Some ns) (Some key) = (name, 0) -> 0 < size ->
  (read_into ns key value size st).1.1 = - RZI_ERR_NOT_FOUND -> absent (flash_of st) name.
Proof.
  intros (Hok & Hinit & _) Hn Hsz. unfold read_into, bind, storage, zoom.
  pose proof (read_spec (Some ns) (Some key) value size (sto st) name Hn ltac:(lia)
    (fun f _ => proj1 (Hok _ size f)) Hinit) as Hr.
  destruct (rzi_storage_read _ _ _ _ (sto st)) as [[rc out] s']. cbn [fst] in Hr.
  cbn. unfold absent, flash_of. destruct (stored (sto st) !! name) as [v|]; [|done].
  injection Hr as -> _. destruct (Z.eqb_spec (zlen v) 0); [done|]. by destruct (_ =? _).
Qed.
Lemma decode_record_found record length capacity : (decode_record record length capacity).1 <> - RZI_ERR_NOT_FOUND.
Proof. unfold decode_record. destruct (_ || _); [done|]. destruct (_ || _); [done|]. by destruct (_ <? _). Qed.
Lemma record_missing ns key name version old n capacity st :
  readable (sto st) -> build_name RZI_STORAGE_NAME_MAX (Some ns) (Some key) = (name, 0) -> capacity <> 0 ->
  (rzi_storage_read_record (Some ns) (Some key) (RecordOut (Some version) (Some old) (Some n)) capacity (sto st)).1.1
    = - RZI_ERR_NOT_FOUND -> absent (flash_of st) name.
Proof.
  intros (Hok & Hinit & Hisr) Hn Hcap. unfold rzi_storage_read_record. rewrite Hisr.
  cbn [out_version out_value out_size]. destruct (Z.eqb_spec capacity 0); [done|]. rewrite Hn. cbn [negb Z.eqb].
  unfold bind at 1. destruct (init_spec (sto st)) as (_ & Hst & _). destruct (rzi_storage_init (sto st)) as [rc0 s0].
  cbn in Hinit, Hst. subst rc0. cbn [Z.eqb]. unfold absent, flash_of. rewrite <- Hst.
  destruct (stored s0 !! name) as [v|] eqn:Ev; [|done].
  destruct (decide (zlen v = 0)) as [|Hne]; [done|]. pose proof (zlen_nonneg v). intros Hrc. exfalso. revert Hrc.
  unfold bind. destruct (decide (zlen v <= 12 + CONFIG_RZI_STORAGE_RECORD_MAX_SIZE)) as [Hle|Hgt].
  - assert (Hpos : 0 < zlen v <= 12 + CONFIG_RZI_STORAGE_RECORD_MAX_SIZE) by lia.
    pose proof (fetch_record_ok name v s0 Hok Ev Hpos) as Hf.
    destruct (fetch_record name s0) as [x s2]. cbn [fst] in Hf. subst x. cbn [negb Z.eqb].
    pose proof (decode_record_found v (zlen v) capacity) as Hd.
    by destruct (decode_record v (zlen v) capacity) as [rc [[w l]|]].
  - assert (Hf : (fetch_record name s0).1.1 = - RZI_ERR_TOO_LARGE).
    { unfold fetch_record, bind, settings, zoom, stored in *.
      pose proof (val_len_rc name (sys s0) (proj2 (Hok name 0 _))) as Hlen. rewrite Ev in Hlen.
      destruct (settings_get_val_len name (sys s0)) as [m f]. cbn in *. subst m.
      unfold RECORD_HEADER_SIZE. destruct (Z.ltb_spec (12 + CONFIG_RZI_STORAGE_RECORD_MAX_SIZE) (zlen v)); [done|lia]. }
    destruct (fetch_record name s0) as [[rc [l r]] s2]. cbn [fst] in Hf. subst rc. done.
Qed.

(** A loader that finds nothing hands out the default. *)
Lemma read_legacy_unfound s value st :
  (read_legacy s value st).1.1 = 0 -> (read_legacy s value st).1.2.2 = false ->
  (read_legacy s value st).1.2.1 = default_value s.
Proof.
  unfold read_legacy. rewrite bind_eq. destruct (read_into "lorawan" _ _ _ st) as [[rc v] st1]. cbn [fst snd].
  rewrite bind_eq. match goal with |- context [(if ?c then ?a else ?b) st1] => destruct ((if c then a else b) st1) as [[rc2 v2] st2] end.
  cbn [fst snd].
  destruct (rc2 =? - RZI_ERR_NOT_FOUND); [done|]. by destruct (Z.eqb_spec rc2 0).
Qed.
Lemma migrate_unfound v st :
  (migrate_region v st).1.1 = 0 -> (migrate_region v st).1.2.2 = false -> (migrate_region v st).1.2.1 = v.
Proof.
  unfold migrate_region. rewrite bind_eq. destruct (read_into _ _ _ _ st) as [[rc b] st1]. cbn [fst snd].
  destruct (rc =? - RZI_ERR_NOT_FOUND); [done|]. destruct (Z.eqb_spec rc 0); [|done].
  by destruct (_ || _).
Qed.
Lemma save_found_unfound s m st : (bind m (save_found s) st).1.1 = 0 -> (bind m (save_found s) st).1.2.2 = false ->
  (m st).1.1 = 0 /\ (m st).1.2.2 = false /\ (bind m (save_found s) st).1.2.1 = (m st).1.2.1 /\
  (bind m (save_found s) st).2 = (m st).2.
Proof.
  rewrite bind_eq. destruct (m st) as [[rc [v found]] st1]. cbn [fst snd]. unfold save_found.
  destruct (Z.eqb_spec rc 0) as [->|]; cbn [negb]; [|by cbn]. destruct found; [|by cbn].
  rewrite bind_eq. by destruct (save_value s v st1) as [rc2 st2].
Qed.

Definition policy_ok (s : setting) : bool :=
  bool_decide (skind s = JOIN_POLICY -> default_value s = [0; RZI_LORAWAN_JOIN_INTERVAL_DEFAULT; 0]).
Lemma schema_policy t i s : schema t -> t !! i = Some s -> skind s = JOIN_POLICY ->
  default_value s = [0; RZI_LORAWAN_JOIN_INTERVAL_DEFAULT; 0].
Proof.
  intros Ht Hs. assert (Hok : policy_ok s = true); [|by apply bool_decide_eq_true in Hok].
  apply (schema_decide policy_ok t i s); [|by vm_compute|done|done].
  intros a b Hab. unfold policy_ok. rewrite (default_value_static a b Hab). unfold static in Hab.
  by injection Hab as _ _ -> _.
Qed.
(** One step of the legacy loop that finds nothing puts the default of its key in its place. *)
Lemma legacy_step key j e0 i keys value found st :
  schema (table st) -> find_setting key settings_init = Some (j, e0) ->
  let r := load_legacy_policy i (key :: keys) value found st in
  r.1.1 = 0 -> r.1.2.2 = false -> exists st', schema (table st') /\ found = false /\
    r = load_legacy_policy (S i) keys (overlay value i (default_value e0)) false st'.
Proof.
  intros Ht Hf. destruct (find_setting_schema key _ j e0 Ht Hf) as (e & Hfe & He & Hst). cbv zeta.
  cbn [load_legacy_policy]. rewrite bind_eq. cbn [gets fst snd]. rewrite Hfe, bind_eq.
  pose proof (read_legacy_unfound e (slice value i 1) st) as Hu.
  assert (Htab : table (read_legacy e (slice value i 1) st).2 = table st)
    by apply (read_legacy_only "" e (slice value i 1) st).
  destruct (read_legacy e (slice value i 1) st) as [[rc [b present]] st1]. cbn [fst snd] in *.
  destruct (Z.eqb_spec rc 0) as [->|]; [|done]. exists st1. rewrite Htab. split; [done|].
  assert (Hmono : forall ks n v fd w, fd = true -> (load_legacy_policy n ks v fd w).1.1 = 0 ->
    (load_legacy_policy n ks v fd w).1.2.2 = true).
  { clear. induction ks as [|k ks IH]; intros n v fd w Hfd; cbn [load_legacy_policy]; [done|].
    rewrite bind_eq. cbn [gets fst snd]. destruct (find_setting k (table w)) as [[? ?]|]; [|done].
    rewrite bind_eq. destruct (read_legacy _ _ w) as [[rc [b p]] w1]. cbn [fst snd].
    destruct (rc =? 0); [|by cbn]. intros Hrc. apply IH; [|done]. by rewrite Hfd. }
  destruct found; cbn [orb] in *.
  { rewrite (Hmono _ _ _ true) in *; [done|done|done]. }
  destruct present; [rewrite (Hmono _ _ _ true) in *; done|].
  split; [done|]. by rewrite (Hu eq_refl eq_refl), (default_value_static e e0 Hst).
Qed.
Lemma legacy_policy_unfound value st :
  schema (table st) -> length value = 3%nat ->
  let r := load_legacy_policy 0 legacy_policy_keys value false st in
  r.1.1 = 0 -> r.1.2.2 = false -> r.1.2.1 = [0; RZI_LORAWAN_JOIN_INTERVAL_DEFAULT; 0].
Proof.
  intros Ht Hl. cbv zeta. unfold legacy_policy_keys. intros Hrc Hfd.
  destruct (legacy_step "autojoin" 14 _ _ _ _ _ _ Ht eq_refl Hrc Hfd) as (st1 & Ht1 & _ & E1). rewrite E1 in *.
  destruct (legacy_step "join_interval" 15 _ _ _ _ _ _ Ht1 eq_refl Hrc Hfd) as (st2 & Ht2 & _ & E2). rewrite E2 in *.
  destruct (legacy_step "join_attempts" 16 _ _ _ _ _ _ Ht2 eq_refl Hrc Hfd) as (st3 & Ht3 & _ & E3). rewrite E3.
  destruct value as [|a [|b [|c [|]]]]; done.
Qed.

(** Loading, on a store that can be read: what is not found is the default, and the flash holds
    nothing under the current key, before as after. *)
Lemma load_unfound i s st :
  schema (table st) -> table st !! i = Some s -> readable (sto st) ->
  let r := load_value s (default_value s) st in
  r.1.1 = 0 -> r.1.2.2 = false ->
  r.1.2.1 = default_value s /\ absent (flash_of st) (lorawan_name (skey s)) /\
  flash_of r.2 !! lorawan_name (skey s) = flash_of st !! lorawan_name (skey s).
Proof.
  intros Hsch Hi Hread. assert (Hne : lorawan_name (skey s) <> "" ) by done. destruct (schema_default _ _ _ Hsch Hi) as (Hd1 & _ & Hsz).
  destruct (schema_name _ _ _ Hsch Hi) as [Hn _]. cbv zeta. unfold load_value.
  destruct (decide (skind s = JOIN_POLICY)) as [Hk|Hk].
  - pose proof (record_missing "lorawan" (skey s) _ 0 (default_value s) 0 (ssize s) st Hread Hn ltac:(lia)) as Habs.
    rewrite bind_eq. unfold storage, zoom.
    destruct (rzi_storage_read_record _ _ _ _ (sto st)) as [[rc out] s1] eqn:Er. cbn [fst snd] in *.
    destruct (Z.eqb_spec rc 0) as [->|].
    { destruct (negb _); [done|]. by destruct (_ || _). }
    destruct (Z.eqb_spec rc (- RZI_ERR_NOT_FOUND)) as [->|]; cbn [negb]; [|by cbn]. intros Hrc Hfd.
    destruct (save_found_unfound s (load_legacy_policy 0 legacy_policy_keys (default_value s) false) (set_sto s1 st) Hrc Hfd)
      as (Hrc' & Hfd' & Hval & Hst).
    split; [|split; [by apply Habs|]].
    2:{ etransitivity; [exact (f_equal (fun x => flash_of x !! lorawan_name (skey s)) Hst)|].
        rewrite (proj2 (load_legacy_policy_only "" _ _ _ _ _) _ Hne). unfold flash_of. cbn.
        destruct (read_record_cases (Some "lorawan"%string) (Some (skey s))
          (RecordOut (Some 0) (Some (default_value s)) (Some 0)) (ssize s) (sto st)) as [Hkeep _].
        rewrite Er in Hkeep. cbn in Hkeep. by rewrite Hkeep. }
    etransitivity; [exact Hval|].
    rewrite (legacy_policy_unfound (default_value s) (set_sto s1 st) Hsch); [|by rewrite (schema_policy _ i s Hsch Hi Hk)|done..].
    symmetry. by apply (schema_policy (table st) i).
  - pose proof (read_into_missing "lorawan" (skey s) _ (default_value s) (ssize s) st Hread Hn ltac:(lia)) as Habs.
    pose proof (proj2 (read_into_only "" "lorawan" (skey s) (default_value s) (ssize s) st) _ Hne) as Hf1.
    rewrite bind_eq. destruct (read_into "lorawan" (skey s) (default_value s) (ssize s) st) as [[rc v] st1].
    cbn [fst snd] in *. destruct (Z.eqb_spec rc 0); [by cbn|].
    destruct (Z.eqb_spec rc (- RZI_ERR_NOT_FOUND)) as [->|]; cbn [negb]; [|by cbn].
    rewrite bind_eq. pose proof (read_legacy_unfound s v st1) as Hu.
    pose proof (proj2 (read_legacy_only "" s v st1) _ Hne) as Hf2.
    destruct (read_legacy s v st1) as [[rc2 [v2 found]] st2]. cbn [fst snd] in *.
    destruct (Z.eqb_spec rc2 0) as [->|]; cbn [negb]; [|by cbn]. intros Hrc Hfd.
    destruct (save_found_unfound s (if negb found && bool_decide (skind s = REGION) then migrate_region v2 else ret (0, (v2, found))) st2 Hrc Hfd) as (Hrc' & Hfd' & Hval & Hst).
    split; [|split; [by apply Habs|]].
    2:{ etransitivity; [exact (f_equal (fun x => flash_of x !! lorawan_name (skey s)) Hst)|].
        rewrite <- Hf1, <- Hf2. destruct (_ && _); [|done]. by apply (migrate_region_only "" v2 st2). }
    etransitivity; [exact Hval|]. clear Hval Hrc Hfd Hst.
    destruct found; cbn [negb andb] in *; [done|]. rewrite <- (Hu eq_refl eq_refl).
    destruct (bool_decide _); [by apply migrate_unfound|done].
Qed.

(** *** What the cache says of the flash *)
(** An entry loaded as absent holds the default, and the flash holds nothing. *)
Definition entry_default (f : gmap string (list Z)) (s : setting) : Prop :=
  sloaded s = true -> spresent s = false -> CONFIG_RZI_STORAGE = true ->
  svalue s = default_value s /\ absent f (lorawan_name (skey s)).
Definition settings_view (st : schema_state) : Prop :=
  settings_inv st /\ Forall (entry_default (flash_of st)) (table st).
Definition store_readable (st : schema_state) : Prop := readable (sto st).

Lemma default_same f f' s : f' !! lorawan_name (skey s) = f !! lorawan_name (skey s) ->
  entry_default f s -> entry_default f' s.
Proof. unfold entry_default, absent. by intros ->. Qed.
(** Entry [i] has moved, with its own value in the flash only. *)
Lemma view_moved i s e st st' :
  settings_view st -> table st !! i = Some s -> only_moves (lorawan_name (skey s)) st st' ->
  entry_default (flash_of st') e -> Forall (entry_default (flash_of st')) (<[i := e]> (table st')).
Proof.
  intros [[[Hsch _] _] Hv] Hi [Ht Hf] He. rewrite Ht. apply Forall_lookup. intros j s'.
  intros [(-> & -> & _)|[Hne Hj]]%list_lookup_insert_Some; [done|].
  rewrite Forall_lookup in Hv. apply (default_same (flash_of st)); [|by apply (Hv j)].
  apply Hf. by apply (schema_other (table st) i j).
Qed.
Lemma view_moved_unloaded i s st st' :
  settings_view st -> table st !! i = Some s -> sloaded s = false -> only_moves (lorawan_name (skey s)) st st' ->
  Forall (entry_default (flash_of st')) (table st').
Proof.
  intros Hv Hi Hl Hm. rewrite <- (list_insert_id (table st') i s) by (by rewrite (proj1 Hm)).
  apply (view_moved i s s st); [done..|]. intros Hl'. congruence.
Qed.
Lemma view_unloaded st : Forall (fun s => sloaded s = false) (table st) -> Forall (entry_default (flash_of st)) (table st).
Proof. intros Hu. apply (Forall_impl _ _ _ Hu). intros s Hl Hl'. congruence. Qed.
Lemma read_view key size st : store_readable st -> settings_view st ->
  Forall (entry_default (flash_of (rzi_lorawan_setting_read key size st).2)) (table (rzi_lorawan_setting_read key size st).2).
Proof.
  intros Hread Hv. pose proof Hv as [[Hok _] Hd].
  destruct (setting_read_cases key size st Hok) as [(_ & _ & [->|(i & s & Hi & Hl & Hm)])|
    (i & s & Hf & -> & [[_ ->]|(v & p & st1 & Hl & Els & ->)])]; try exact Hd.
  - by apply (view_moved_unloaded i s st).
  - destruct (find_ok _ _ _ _ Hok Hf) as (Hsch & Hi & _ & _).
    destruct (load_step_ok i s st Hsch Hi) as (_ & Hm & _). rewrite Els in Hm. cbn [fst snd] in *.
    apply (view_moved i s _ st st1); try done. intros _ Hp Hc. cbn in Hp. subst p.
    pose proof (load_unfound i s st Hsch Hi Hread) as Hu. unfold load_step in Els. rewrite Hc in Els.
    rewrite Els in Hu. destruct (Hu eq_refl eq_refl) as (Hval & Habs & Hsame). cbn [cache_store svalue skey].
    split; [exact Hval|]. unfold absent in *. change (flash_of (set_table _ st1)) with (flash_of st1).
    cbn [snd] in Hsame. by rewrite Hsame.
Qed.
Lemma write_view key value st : settings_view st ->
  (rzi_lorawan_setting_write key value (zlen value) st).1 = 0 ->
  Forall (entry_default (flash_of (rzi_lorawan_setting_write key value (zlen value) st).2))
    (table (rzi_lorawan_setting_write key value (zlen value) st).2).
Proof.
  intros Hv Hrc. pose proof Hv as [[Hok _] Hd].
  destruct (setting_write_cases key value (zlen value) st Hok eq_refl) as
    [[? _]|(i & s & st1 & Hf & Hz & Hval & Ht & -> & Hsave)]; [done|]. cbn [fst snd].
  destruct (find_ok _ _ _ _ Hok Hf) as (Hsch & Hi & _ & _).
  assert (Hm : only_moves (lorawan_name (skey s)) st st1).
  { destruct Hsave as [(-> & _)|Hs]; [done|]. pose proof (save_value_only i s value st Hsch Hi) as Hm. by rewrite Hs in Hm. }
  by apply (view_moved i s _ st st1).
Qed.
Lemma step_view st st' : schema_step store_readable st st' -> settings_view st -> settings_view st'.
Proof.
  intros Hs Hv. pose proof Hv as [Hinv Hd]. split; [by apply (schema_step_inv store_readable st)|].
  pose proof Hinv as [[Hsch Hok] _]. destruct Hs as [key size Hr|key value Hrc|key value Hf|Hrc|x Hx].
  - by apply read_view.
  - by apply write_view.
  - destruct (decide ((rzi_lorawan_setting_write key value (zlen value) st).1 = 0)) as [Hrc|Hrc]; [by apply write_view|].
    by rewrite Hf, (failed_write_table key value st).
  - destruct (clear_unloaded st Hsch Hrc). by apply view_unloaded.
  - cbn [table set_sto]. apply (Forall_impl _ _ _ Hd). intros s. apply default_same.
    unfold flash_of. cbn. apply Hx.
Qed.
Lemma since_boot_view st : since_boot store_readable st -> settings_view st.
Proof.
  intros (boot & Hb & Hr). assert (Hv : settings_view boot).
  { split; [by apply schema_boot_inv|]. apply view_unloaded. rewrite Hb. apply boot_unloaded. }
  clear Hb. induction Hr; eauto using step_view.
Qed.

(** What the flash holds determines the value. *)
Lemma persisted_unique f s v w : persisted f s v -> persisted f s w -> v = w.
Proof.
  intros (img & Hi & Hv) (img' & Hi' & Hw). rewrite Hi in Hi'. injection Hi' as <-.
  destruct (decide _); [|congruence]. destruct Hv as [_ Hv], Hw as [_ Hw]. congruence.
Qed.
Lemma persisted_not_absent f s v : 0 < ssize s -> zlen v = ssize s -> persisted f s v ->
  ~ absent f (lorawan_name (skey s)).
Proof.
  intros Hsz Hl (img & Hi & Hv). unfold absent. rewrite Hi. destruct (decide _); [|subst; lia].
  destruct Hv as [_ Hd]. intros Hz. pose proof (decode_record_sound img (zlen img) (ssize s)) as Hs.
  rewrite Hd in Hs. lia.
Qed.
(** The code a raw read answers with, by what the flash holds. *)
Definition lookup_code (f : gmap string (list Z)) (name : string) (size : Z) : Z :=
  match f !! name with
  | None => - RZI_ERR_NOT_FOUND
  | Some v => if zlen v =? 0 then - RZI_ERR_NOT_FOUND else if zlen v =? size then 0 else - RZI_ERR_TOO_LARGE
  end.
Lemma lookup_code_absent f name size : absent f name -> lookup_code f name size = - RZI_ERR_NOT_FOUND.
Proof. unfold absent, lookup_code. destruct (f !! name); [|done]. by intros ->. Qed.
Lemma read_into_result ns key name value size st :
  readable (sto st) -> build_name RZI_STORAGE_NAME_MAX (Some ns) (Some key) = (name, 0) -> 0 < size ->
  length value = Z.to_nat size ->
  let r := read_into ns key value size st in
  r.1.1 = lookup_code (flash_of st) name size /\ flash_of r.2 = flash_of st /\ readable (sto r.2) /\
  length r.1.2 = Z.to_nat size.
Proof.
  intros Hread Hn Hsz Hl. cbv zeta. destruct (read_into_sound ns key value size st Hl) as (_ & Hf & Hlen & _).
  split; [|split; [done|split; [|done]]]; destruct Hread as (Hok & Hinit & Hisr); revert Hf Hlen;
    unfold read_into, bind, storage, zoom, flash_of.
  - pose proof (read_spec (Some ns) (Some key) value size (sto st) name Hn ltac:(lia)
      (fun f _ => proj1 (Hok _ size f)) Hinit) as Hr.
    destruct (rzi_storage_read _ _ _ _ (sto st)) as [[rc out] s']. cbn [fst snd ret] in *. intros _ _.
    unfold lookup_code. by destruct (stored (sto st) !! name); injection Hr as -> _.
  - assert (Hi : initialized (rzi_storage_read (Some ns) (Some key) (Some value) size (sto st)).2 = true).
    { unfold rzi_storage_read. destruct (Z.eqb_spec size 0); [lia|]. rewrite Hn. cbn [negb Z.eqb]. unfold bind.
      destruct (init_spec (sto st)) as (_ & _ & _ & Hini). specialize (Hini Hinit).
      destruct (rzi_storage_init (sto st)) as [rc0 s0]. cbn [fst snd] in *. rewrite Hinit. cbn [Z.eqb].
      unfold settings, zoom. destruct (settings_load_one name size (sys s0)) as [[cnt l] f].
      destruct Hini as [_ Hini]. by destruct (cnt <? 0), (cnt =? 0). }
    destruct (rzi_storage_read _ _ _ _ (sto st)) as [[rc out] s']. cbn [fst snd ret sto set_sto] in *. intros _ _.
    split; [done|]. split; [|done]. by rewrite init_done.
Qed.
Lemma read_into_value ns key name value size st v :
  readable (sto st) -> build_name RZI_STORAGE_NAME_MAX (Some ns) (Some key) = (name, 0) -> 0 < size ->
  length value = Z.to_nat size -> flash_of st !! name = Some v -> zlen v = size ->
  (read_into ns key value size st).1 = (0, v).
Proof.
  intros Hread Hn Hsz Hl Hv Hz. destruct (read_into_sound ns key value size st Hl) as (_ & _ & _ & Hp).
  destruct (read_into_result ns key name value size st Hread Hn Hsz Hl) as (Hrc & _).
  unfold lookup_code in Hrc. rewrite Hv, Hz, Z.eqb_refl in Hrc. destruct (Z.eqb_spec size 0); [lia|].
  destruct (Hp Hrc) as (name' & Hn' & Hv'). rewrite Hn in Hn'. injection Hn' as <-. rewrite Hv in Hv'.
  injection Hv' as Hv'. destruct (read_into ns key value size st) as [[rc w] st']. cbn in *. by subst.
Qed.
(** A value waiting under the legacy key is taken over. *)
Lemma load_legacy_value i s v st :
  schema (table st) -> table st !! i = Some s -> readable (sto st) -> skind s <> JOIN_POLICY ->
  absent (flash_of st) (lorawan_name (skey s)) -> flash_of st !! ("rzi/" ++ skey s)%string = Some v ->
  zlen v = ssize s -> (load_value s (default_value s) st).1.1 = 0 ->
  (load_value s (default_value s) st).1.2 = (v, true).
Proof.
  intros Hsch Hi Hread Hk Habs Hold Hl. destruct (schema_default _ _ _ Hsch Hi) as (Hd1 & _ & Hsz).
  destruct (schema_name _ _ _ Hsch Hi) as [Hn Hnr]. unfold load_value. rewrite decide_False by done.
  destruct (read_into_result "lorawan" (skey s) _ (default_value s) (ssize s) st Hread Hn ltac:(lia) Hd1)
    as (Hr1 & Hf1 & Hread1 & Hl1). rewrite bind_eq.
  destruct (read_into "lorawan" (skey s) (default_value s) (ssize s) st) as [[rc v1] st1]. cbn [fst snd] in *.
  rewrite Hr1, lookup_code_absent by done. change (- RZI_ERR_NOT_FOUND =? 0) with false. rewrite Z.eqb_refl. cbn [negb].
  rewrite bind_eq. unfold read_legacy. rewrite bind_eq.
  destruct (read_into_result "lorawan" (skey s) _ v1 (ssize s) st1 Hread1 Hn ltac:(lia) Hl1)
    as (Hr2 & Hf2 & Hread2 & Hl2).
  destruct (read_into "lorawan" (skey s) v1 (ssize s) st1) as [[rc2 v2] st2]. cbn [fst snd] in *.
  rewrite Hr2, Hf1, lookup_code_absent by done. rewrite Z.eqb_refl, bind_eq.
  destruct (read_into_result "rzi" (skey s) _ v2 (ssize s) st2 Hread2 Hnr ltac:(lia) Hl2)
    as (Hr3 & Hf3 & Hread3 & Hl3).
  pose proof (read_into_value "rzi" (skey s) _ v2 (ssize s) st2 v Hread2 Hnr ltac:(lia) Hl2
    ltac:(by rewrite Hf2, Hf1) Hl) as Hv3.
  destruct (read_into "rzi" (skey s) v2 (ssize s) st2) as [[rc3 v3] st3]. cbn [fst snd] in *. injection Hv3 as -> ->.
  change (0 =? - RZI_ERR_NOT_FOUND) with false. cbn [Z.eqb negb]. destruct (valid_value s v); [|done]. cbn [ret fst snd Z.eqb negb andb].
  rewrite bind_eq. cbn [ret fst snd save_found Z.eqb negb]. rewrite bind_eq. by destruct (save_value s v st3).
Qed.

(** *** What a read hands out *)
Lemma read_present key st i s v :
  settings_view st -> readable (sto st) -> CONFIG_RZI_STORAGE = true ->
  find_setting key (table st) = Some (i, s) ->
  persisted (flash_of st) s v -> zlen v = ssize s -> valid_value s v = true ->
  (rzi_lorawan_setting_read key (ssize s) st).1 = (0, Some (v, true)).
Proof.
  intros [[Hok Hco] Hd] Hread Hc Hf Hp Hl Hv. destruct (find_ok _ _ _ _ Hok Hf) as (Hsch & Hi & Hkey & Heok).
  destruct (schema_default _ _ _ Hsch Hi) as (_ & _ & Hsz). rewrite Forall_lookup in Hco, Hd.
  unfold rzi_lorawan_setting_read. rewrite bind_eq. cbn [gets fst snd]. rewrite Hf, Z.eqb_refl. cbn [negb].
  destruct (sloaded s) eqn:El.
  - destruct (Heok El) as [Hlen _]. cbn [ret fst]. rewrite take_ge by lia. destruct (spresent s) eqn:Ep.
    + by rewrite (persisted_unique _ s _ _ (Hco i s Hi El Ep Hc) Hp).
    + exfalso. apply (persisted_not_absent (flash_of st) s v); [lia|done..|]. by apply (Hd i s Hi El Ep Hc).
  - rewrite Hc, bind_eq. rewrite (load_persisted i s v st Hsch Hi Hc Hread Hp Hl Hv). done.
Qed.
(** C40: A read hands out what the flash holds, with persistent storage configured, in every state a
    boot leads to (without a failed clear or a destructive failed write) while the store can be
    read.  A valid value under the key's current name is what the read returns, cached or not.  A
    value reported as found is in the flash afterwards; a value reported as not found is the
    default, and nothing is stored under the current name.  The first read of a key whose value waits
    under the legacy name of the older namespace returns that value. *)
Theorem settings_read_coherent key i s st :
  since_boot store_readable st -> readable (sto st) -> CONFIG_RZI_STORAGE = true ->
  find_setting key (table st) = Some (i, s) ->
  let r := rzi_lorawan_setting_read key (ssize s) st in
  (forall v, persisted (flash_of st) s v -> zlen v = ssize s -> valid_value s v = true ->
     r.1 = (0, Some (v, true))) /\
  (r.1.1 = 0 -> exists v present, r.1.2 = Some (v, present) /\
     (present = true -> persisted (flash_of r.2) s v) /\
     (present = false -> v = default_value s /\ absent (flash_of st) (lorawan_name key))) /\
  (forall v, sloaded s = false -> skind s <> JOIN_POLICY ->
     absent (flash_of st) (lorawan_name key) -> flash_of st !! ("rzi/" ++ key)%string = Some v ->
     zlen v = ssize s -> r.1.1 = 0 -> r.1.2 = Some (v, true)).
Proof.
  intros Hboot Hread Hc Hf. cbv zeta. pose proof (since_boot_view st Hboot) as Hview.
  pose proof Hview as [[Hok Hco] Hd]. destruct (find_ok _ _ _ _ Hok Hf) as (Hsch & Hi & Hkey & Heok).
  split; [intros v; by apply (read_present key st i)|]. subst key.
  pose proof (load_step_ok i s st Hsch Hi) as (_ & _ & Hstep).
  pose proof (load_unfound i s st Hsch Hi Hread) as Hun.
  pose proof (fun v => load_legacy_value i s v st Hsch Hi Hread) as Hold.
  unfold load_step in Hstep. rewrite Hc in Hstep. rewrite Forall_lookup in Hco, Hd.
  unfold rzi_lorawan_setting_read. rewrite bind_eq. cbn [gets fst snd]. rewrite Hf, Z.eqb_refl. cbn [negb].
  destruct (sloaded s) eqn:El.
  - split; [|done]. intros _. destruct (Heok El) as [Hlen _]. exists (svalue s), (spresent s). cbn [ret fst snd].
    rewrite take_ge by lia. split; [done|]. split; intros Hp; [by apply (Hco i)|by apply (Hd i)].
  - rewrite Hc, bind_eq. destruct (load_value s (default_value s) st) as [[rc [v p]] st1]. cbn [fst snd] in *.
    destruct (Z.eqb_spec rc 0) as [->|]; [|done]. rewrite bind_eq. cbn [put_setting modify ret fst snd]. split.
    + intros _. exists v, p. split; [done|]. split; intros ->; [by apply Hstep|]. by destruct (Hun eq_refl eq_refl) as (? & ? & _).
    + intros w _ Hk Habs Hl1 Hl2 _. f_equal. by apply Hold.
Qed.
End flows.

Module SettingsFlowsWitness.
Import Instances SettingsWitness.
Local Open Scope string_scope.
Lemma cold_since P : since_boot P cold.
Proof. by exists cold. Qed.
Lemma restarted_since P : since_boot P restarted.
Proof. by exists restarted. Qed.
Lemma restarted_readable : readable (sto restarted).
Proof. split; [exact StorageWitness.sim_loads_ok|]. split; [vm_refl|reflexivity]. Qed.
Lemma restarted_holds : flash_of restarted !! lorawan_name "region" = Some [4].
Proof. vm_refl. Qed.
Lemma settings_write_durable_witness :
  (rzi_lorawan_setting_read "region" 1 restarted).1 = (0, Some ([4], true)).
Proof.
  refine (proj2 (settings_write_durable "region" [4] 1 cold restarted (cold_since _)
    eq_refl eq_refl _ eq_refl eq_refl restarted_readable)). vm_refl.
Defined.
Lemma settings_read_coherent_witness :
  (rzi_lorawan_setting_read "region" 1 restarted).1 = (0, Some ([4], true)).
Proof.
  refine (proj1 (settings_read_coherent "region" 9 (ENTRY "region" 1 REGION RZI_LORAWAN_REGION_EU_868) restarted
    (restarted_since _) restarted_readable eq_refl _) [4] _ eq_refl eq_refl).
  - reflexivity.
  - exists [4]. split; [exact restarted_holds|reflexivity].
Defined.
End SettingsFlowsWitness.
