(* ===== verification/LorawanBackend.v ===== *)
(** * The LoRaWAN backend contract and the service's shared state
    (src/lorawan/backend/lorawan_backend.h, backend/ops/*.h, lorawan_priv.h,
    include/rzi/lorawan/lorawan.h, the file-scope variables of lorawan.c)

    A backend is a table of operations over a state of its own; an operation
    may publish events through the event sink before it returns.  The backend
    (a vendor stack) is a parameter: the class [LorawanBackend].  So are the
    subscribers and attached services that run on the dispatcher: they act on
    the shared state [world], which has a component [w_ext] of their own. *)
From S2P Require Import Prelude Zephyr Err Power Storage LorawanSettings.

(** ** Public constants (lorawan.h) *)
Abbreviation RZI_LORAWAN_MAX_PAYLOAD := 242.
Abbreviation RZI_LORAWAN_DR_DISTRIBUTION_LENGTH := 16.
Abbreviation RZI_LORAWAN_DR_15 := 15.
(** [enum rzi_lorawan_activation], [_message_type], [_class] *)
Abbreviation RZI_LORAWAN_ACTIVATION_OTAA := 0.
Abbreviation RZI_LORAWAN_ACTIVATION_ABP := 1.
Abbreviation RZI_LORAWAN_MSG_UNCONFIRMED := 0.
Abbreviation RZI_LORAWAN_MSG_CONFIRMED := 1.
Abbreviation RZI_LORAWAN_CLASS_A := 0.
Abbreviation RZI_LORAWAN_CLASS_B := 1.
Abbreviation RZI_LORAWAN_CLASS_C := 2.
(** [enum rzi_lorawan_link_check_mode], [_adr_profile] *)
Abbreviation RZI_LORAWAN_LINK_CHECK_DISABLED := 0.
Abbreviation RZI_LORAWAN_LINK_CHECK_ONCE := 1.
Abbreviation RZI_LORAWAN_LINK_CHECK_EVERY_UPLINK := 2.
Abbreviation RZI_LORAWAN_ADR_CUSTOM := 3.
(** [enum rzi_lorawan_capability] *)
Abbreviation RZI_LORAWAN_CAP_OTAA := 1.
Abbreviation RZI_LORAWAN_CAP_ABP := 2.
Abbreviation RZI_LORAWAN_CAP_CLASS_A := 4.
Abbreviation RZI_LORAWAN_CAP_CLASS_B := 8.
Abbreviation RZI_LORAWAN_CAP_CLASS_C := 16.
Abbreviation RZI_LORAWAN_CAP_NETWORK := 32.
Abbreviation RZI_LORAWAN_CAP_CHANNEL := 64.
Abbreviation RZI_LORAWAN_CAP_SESSION := 128.
Abbreviation RZI_LORAWAN_CAP_MAC := 256.
Abbreviation RZI_LORAWAN_CAP_MULTICAST := 512.
Abbreviation RZI_LORAWAN_CAP_CERTIFICATION := 1024.
Abbreviation RZI_LORAWAN_CAP_FUOTA := 2048.
(** lorawan_priv.h *)
Abbreviation RZI_LORAWAN_FIXED_PLAN_CHANNELS := 72.
Abbreviation RZI_LORAWAN_FIXED_PLAN_WIDE := 64.
Abbreviation RZI_LORAWAN_FIXED_PLAN_WORDS := 5.

(** ** Data *)
Inductive rzi_lorawan_state : Type :=
  STATE_STOPPED | STATE_STARTING | STATE_READY | STATE_JOINING | STATE_JOINED.
Inductive rzi_lorawan_tx_status : Type := TXDONE_SENT | TXDONE_CONFIRMED | TXDONE_NOT_SENT.
Inductive fuota_kind : Type :=
  FUOTA_CLOCK_SYNCED | FUOTA_SESSION_STARTED | FUOTA_SESSION_ENDED | FUOTA_TRANSFER_DONE
| FUOTA_REBOOT_REQUESTED.
#[export] Instance rzi_lorawan_state_eq_dec : EqDecision rzi_lorawan_state.
Proof. solve_decision. Defined.
#[export] Instance rzi_lorawan_tx_status_eq_dec : EqDecision rzi_lorawan_tx_status.
Proof. solve_decision. Defined.
#[export] Instance fuota_kind_eq_dec : EqDecision fuota_kind.
Proof. solve_decision. Defined.

(** The downlink fields shared by the backend event and the public event. *)
Record downlink_info : Type := Downlink {
  dl_port : Z; dl_size : Z; dl_rssi_dbm : Z; dl_snr_quarter_db : Z; dl_flags : Z; dl_window : Z;
  dl_multicast_group : Z; dl_data_rate : Z; dl_frequency_hz : Z; dl_data : list Z;
}.
Record link_check_result : Type := LinkCheck {
  demod_margin : Z; gateway_count : Z; lc_rssi_dbm : Z; lc_snr_quarter_db : Z;
}.
#[export] Instance downlink_info_eq_dec : EqDecision downlink_info.
Proof. solve_decision. Defined.
#[export] Instance link_check_result_eq_dec : EqDecision link_check_result.
Proof. solve_decision. Defined.

(** [struct rzi_lorawan_backend_event]: the type and the members it selects. *)
Inductive rzi_lorawan_backend_event : Type :=
| BACKEND_READY
| BACKEND_JOINED
| BACKEND_JOIN_FAILED (error : Z)
| BACKEND_TX_DONE (status : rzi_lorawan_tx_status) (error : Z)
| BACKEND_DOWNLINK (d : downlink_info)
| BACKEND_ERROR (error : Z)
| BACKEND_STATE_CHANGED (state : rzi_lorawan_state)
| BACKEND_FUOTA (kind : fuota_kind) (successful : bool) (image_size : Z)
| BACKEND_LINK_CHECK (r : link_check_result)
| BACKEND_DEVICE_TIME (error : Z)
| BACKEND_CLASS_B (state : Z)
| BACKEND_DUTY_CYCLE (limited : bool)
| BACKEND_NO_DOWNLINK (reasons : Z).
#[export] Instance backend_event_eq_dec : EqDecision rzi_lorawan_backend_event.
Proof. solve_decision. Defined.

(** [struct rzi_lorawan_event] *)
Inductive rzi_lorawan_event : Type :=
| EVENT_READY
| EVENT_JOINED
| EVENT_JOIN_FAILED (error : Z)
| EVENT_TXDONE (status : rzi_lorawan_tx_status) (error : Z)
| EVENT_DOWNDATA (d : downlink_info)
| EVENT_ERROR (error : Z)
| EVENT_STATE_CHANGED (state : rzi_lorawan_state)
| EVENT_LINK_CHECK (r : link_check_result)
| EVENT_LORAWAN_MAC_TIME (error : Z)
| EVENT_CLASS_B (state : Z)
| EVENT_REGIONAL_DUTY_CYCLE (limited : bool)
| EVENT_NO_DOWNLINK_THRESHOLD (reasons : Z).
#[export] Instance lorawan_event_eq_dec : EqDecision rzi_lorawan_event.
Proof. solve_decision. Defined.

(** [struct rzi_lorawan_join_config] and its union members *)
Record rzi_lorawan_join_otaa : Type := JoinOtaa {
  j_dev_eui : list Z; j_join_eui : list Z; j_network_key : list Z; j_application_key : list Z;
  j_dev_nonce : Z;
}.
Record rzi_lorawan_join_abp : Type := JoinAbp {
  j_dev_addr : Z; j_network_session_key : list Z; j_application_session_key : list Z;
}.
Record rzi_lorawan_join_config : Type := JoinConfig {
  j_activation : Z; j_retry_interval_s : Z; j_channel_mask_set : bool; j_channel_mask : list Z;
  j_params : rzi_lorawan_join_otaa + rzi_lorawan_join_abp;
}.
Record rzi_lorawan_csma_params : Type := Csma {
  max_channel_changes : Z; backoff_enabled : bool; max_backoffs : Z;
}.
Record rzi_lorawan_network_time : Type := NetworkTime { gps_seconds : Z; gps_subseconds : Z }.
Record rzi_lorawan_beacon_gateway : Type := Gateway {
  has_coordinates : bool; latitude : Z; longitude : Z; gw_net_id : Z; gateway_id : Z;
}.
Record rzi_lorawan_multicast_session : Type := McSession {
  mc_device_class : Z; mc_dev_addr : Z; mc_app_skey : list Z; mc_nwk_skey : list Z;
  mc_frequency_hz : Z; mc_data_rate : Z; mc_periodicity : Z; mc_group_id : Z;
}.

(** ** Operation tables.  [None] is a NULL member.  An operation returns its
    code; a getter takes the content of the caller's cell and returns the
    content it leaves there. *)
Section tables.
Context (B : Type).

(** A backend operation: result, events published in order, new state. *)
Definition bop (A : Type) : Type := B -> (A * list rzi_lorawan_backend_event) * B.
Definition getter (A : Type) : Type := A -> bop (Z * A).

Record rzi_lorawan_base_ops : Type := BaseOps {
  op_start : Z -> bool -> bop Z;
  op_join : rzi_lorawan_join_config -> bop Z;
  op_leave : bop Z;
  op_send : Z -> option (list Z) -> Z -> Z -> bop Z;
  op_set_class : Z -> bop Z;
  op_get_class : option (getter Z);
  op_is_joined : getter bool;
  op_is_busy : getter bool;
}.
Record rzi_lorawan_network_ops : Type := NetworkOps {
  op_get_adr : option (getter bool);
  op_set_adr : option (bool -> bop Z);
  op_get_data_rate : option (getter Z);
  op_set_data_rate : option (Z -> bop Z);
  op_get_enabled_data_rates : option (getter Z);
  op_get_adr_profile : option (getter Z);
  op_set_adr_profile : option (Z -> option (list Z) -> bop Z);
  op_get_nb_trans : option (getter Z);
  op_set_nb_trans : option (Z -> bop Z);
  op_get_adr_ack : option (getter (Z * Z));
  op_set_adr_ack : option (Z -> Z -> bop Z);
  op_set_join_data_rates : option (option (list Z) -> bop Z);
  op_get_duty_cycle_status : option (getter Z);
  op_get_join_backoff : option (getter Z);
  op_get_public_network : option (getter bool);
  op_set_public_network : option (bool -> bop Z);
  op_get_lbt : option (getter bool);
  op_set_lbt : option (bool -> bop Z);
  op_get_lbt_rssi : option (getter Z);
  op_set_lbt_rssi : option (Z -> bop Z);
  op_get_lbt_scan_time : option (getter Z);
  op_set_lbt_scan_time : option (Z -> bop Z);
  op_get_csma : option (getter bool);
  op_set_csma : option (bool -> bop Z);
  op_get_csma_params : option (getter rzi_lorawan_csma_params);
  op_set_csma_params : option (rzi_lorawan_csma_params -> bop Z);
  op_get_lost_connection_count : option (getter Z);
  op_get_no_downlink_threshold : option (getter Z);
  op_set_no_downlink_threshold : option (Z -> bop Z);
  op_get_crystal_error : option (getter Z);
  op_set_crystal_error : option (Z -> bop Z);
  op_send_empty : option (bool -> Z -> Z -> bop Z);
  op_query_tx_possible : option (Z -> bop Z);
}.
Record rzi_lorawan_class_b_ops : Type := ClassBOps {
  op_get_ping_slot_periodicity : option (getter Z);
  op_set_ping_slot_periodicity : option (Z -> bop Z);
  op_get_beacon_frequency : option (getter Z);
  op_get_beacon_time : option (getter Z);
  op_get_beacon_data_rate : option (getter Z);
  op_get_beacon_gateway : option (getter rzi_lorawan_beacon_gateway);
  op_get_state : option (getter Z);
  op_stop : option (bop Z);
}.
Record rzi_lorawan_session_ops : Type := SessionOps {
  op_get_net_id : option (getter Z);
  op_get_dev_nonce : option (getter Z);
  op_set_dev_nonce : option (Z -> bop Z);
  op_get_dev_addr : option (getter Z);
  op_get_nwk_skey : option (getter (list Z));
  op_get_app_skey : option (getter (list Z));
}.
Record rzi_lorawan_mac_ops : Type := MacOps {
  op_request_link_check : option (bop Z);
  op_request_device_time : option (bop Z);
  op_get_network_time : option (getter rzi_lorawan_network_time);
}.
Record rzi_lorawan_multicast_ops : Type := MulticastOps {
  op_add : option (rzi_lorawan_multicast_session -> bop Z);
  op_remove : option (Z -> bop Z);
  op_get_count : option (getter Z);
  op_get : option (Z -> getter rzi_lorawan_multicast_session);
  op_clear : option (bop Z);
}.
Record rzi_lorawan_certification_ops : Type := CertificationOps {
  op_get_mode : option (getter bool);
  op_set_mode : option (bool -> bop Z);
  op_get_port_enabled : option (getter bool);
  op_set_port_enabled : option (bool -> bop Z);
}.
Record rzi_lorawan_fuota_ops : Type := FuotaOps {
  op_start_clock_sync : option (bop Z);
  op_get_image_size : option (getter Z);
  op_read_image : option (Z -> Z -> bop (Z * list Z));
  op_reboot : option (bop Z);
}.
Record rzi_lorawan_backend_api : Type := BackendApi {
  capabilities : Z;
  base : rzi_lorawan_base_ops;
  network : option rzi_lorawan_network_ops;
  class_b : option rzi_lorawan_class_b_ops;
  session : option rzi_lorawan_session_ops;
  mac : option rzi_lorawan_mac_ops;
  multicast : option rzi_lorawan_multicast_ops;
  certification : option rzi_lorawan_certification_ops;
  fuota : option rzi_lorawan_fuota_ops;
}.
End tables.

(** The selected backend: [const struct rzi_lorawan_backend_api rzi_lorawan_backend]. *)
Class LorawanBackend : Type := {
  backend_state : Type;
  rzi_lorawan_backend : rzi_lorawan_backend_api backend_state;
}.
(** State of the application and of the attached services. *)
Class LorawanExt : Type := { ext_state : Type }.

(** [(capabilities & cap) != 0U] *)
Definition has_cap `{LorawanBackend} (cap : Z) : bool :=
  negb (Z.land (capabilities _ rzi_lorawan_backend) cap =? 0).

(** ** Credentials (the variable of lorawan_credentials.c) *)
Record credential_store : Type := CredentialStore {
  dev_eui : list Z; dev_eui_set : bool;
  app_eui : list Z; app_eui_set : bool;
  app_key : list Z; app_key_set : bool;
  gen_app_key : list Z; gen_app_key_set : bool;
  dev_addr : Z; dev_addr_set : bool;
  nwk_skey : list Z; nwk_skey_set : bool;
  app_skey : list Z; app_skey_set : bool;
  njm : Z; auto_join : bool; join_interval : Z; join_attempts : Z;
  channel_mask : list Z; channel_mask_set : bool;
  join_active : bool; loaded : bool;
}.
(** [= {0}] *)
Definition credentials_zero : credential_store :=
  CredentialStore (replicate 8 0) false (replicate 8 0) false (replicate 16 0) false
    (replicate 16 0) false 0 false (replicate 16 0) false (replicate 16 0) false
    RZI_LORAWAN_ACTIVATION_OTAA false 0 0 (replicate 6 0) false false false.

(** [struct callback_slot]: the two pointers of a subscriber; [on_event = 0]
    is NULL. *)
Record rzi_lorawan_callbacks : Type := Callbacks { on_event : Z; user_data : Z }.
#[export] Instance callbacks_eq_dec : EqDecision rzi_lorawan_callbacks.
Proof. solve_decision. Defined.
Record callback_slot : Type := CallbackSlot { active : bool; callbacks : rzi_lorawan_callbacks }.
Definition slot_zero : callback_slot := CallbackSlot false (Callbacks 0 0).

(** The scalar variables of lorawan.c; the [atomic_t]s are integers. *)
Record core_state : Type := Core {
  configured_region : Z; configured_class : Z; configured_join_backoff_bypass : bool;
  started : Z; overflow : Z; join_sequence_active : Z; join_retries_remaining : Z;
  last_downlink_valid : bool; last_rssi_dbm : Z; last_snr_quarter_db : Z;
  power_class_c_held : bool;
}.
Definition core_init : core_state := Core RZI_LORAWAN_REGION_EU_868 RZI_LORAWAN_CLASS_A false
  0 0 0 0 false 0 0 false.
Definition set_region v c := Core v (configured_class c) (configured_join_backoff_bypass c)
  (started c) (overflow c) (join_sequence_active c) (join_retries_remaining c)
  (last_downlink_valid c) (last_rssi_dbm c) (last_snr_quarter_db c) (power_class_c_held c).
Definition set_class v c := Core (configured_region c) v (configured_join_backoff_bypass c)
  (started c) (overflow c) (join_sequence_active c) (join_retries_remaining c)
  (last_downlink_valid c) (last_rssi_dbm c) (last_snr_quarter_db c) (power_class_c_held c).
Definition set_bypass v c := Core (configured_region c) (configured_class c) v
  (started c) (overflow c) (join_sequence_active c) (join_retries_remaining c)
  (last_downlink_valid c) (last_rssi_dbm c) (last_snr_quarter_db c) (power_class_c_held c).
Definition set_started v c := Core (configured_region c) (configured_class c)
  (configured_join_backoff_bypass c) v (overflow c) (join_sequence_active c)
  (join_retries_remaining c) (last_downlink_valid c) (last_rssi_dbm c) (last_snr_quarter_db c)
  (power_class_c_held c).
Definition set_overflow v c := Core (configured_region c) (configured_class c)
  (configured_join_backoff_bypass c) (started c) v (join_sequence_active c)
  (join_retries_remaining c) (last_downlink_valid c) (last_rssi_dbm c) (last_snr_quarter_db c)
  (power_class_c_held c).
Definition set_sequence v c := Core (configured_region c) (configured_class c)
  (configured_join_backoff_bypass c) (started c) (overflow c) v
  (join_retries_remaining c) (last_downlink_valid c) (last_rssi_dbm c) (last_snr_quarter_db c)
  (power_class_c_held c).
Definition set_retries v c := Core (configured_region c) (configured_class c)
  (configured_join_backoff_bypass c) (started c) (overflow c) (join_sequence_active c)
  v (last_downlink_valid c) (last_rssi_dbm c) (last_snr_quarter_db c) (power_class_c_held c).
Definition set_last_downlink rssi snr c := Core (configured_region c) (configured_class c)
  (configured_join_backoff_bypass c) (started c) (overflow c) (join_sequence_active c)
  (join_retries_remaining c) true rssi snr (power_class_c_held c).
Definition set_class_c_held v c := Core (configured_region c) (configured_class c)
  (configured_join_backoff_bypass c) (started c) (overflow c) (join_sequence_active c)
  (join_retries_remaining c) (last_downlink_valid c) (last_rssi_dbm c) (last_snr_quarter_db c) v.

(** The variables of lorawan_mac_commands.c *)
Record mac_state : Type := Mac { link_check_mode : Z; device_time_enabled : bool }.

(** ** The state of the LoRaWAN service and of everything it reaches *)
Section world.
Context `{Zephyr} `{LorawanBackend} `{LorawanExt}.

Record world : Type := World {
  w_cfg : schema_state;                       (* lorawan_settings.c, and storage, power below *)
  w_cred : credential_store;                  (* lorawan_credentials.c *)
  w_core : core_state;                        (* lorawan.c *)
  w_slots : list callback_slot;               (* lorawan.c: callback_slots[] *)
  w_services : list Z;                        (* lorawan.c: services[0 .. service_count) *)
  w_events : msgq rzi_lorawan_backend_event;  (* lorawan.c: K_MSGQ_DEFINE(events) *)
  w_mac : mac_state;                          (* lorawan_mac_commands.c *)
  w_backend : backend_state;
  w_ext : ext_state;
}.
Definition set_w_cfg x w := World x (w_cred w) (w_core w) (w_slots w) (w_services w) (w_events w) (w_mac w) (w_backend w) (w_ext w).
Definition set_w_cred x w := World (w_cfg w) x (w_core w) (w_slots w) (w_services w) (w_events w) (w_mac w) (w_backend w) (w_ext w).
Definition set_w_core x w := World (w_cfg w) (w_cred w) x (w_slots w) (w_services w) (w_events w) (w_mac w) (w_backend w) (w_ext w).
Definition set_w_slots x w := World (w_cfg w) (w_cred w) (w_core w) x (w_services w) (w_events w) (w_mac w) (w_backend w) (w_ext w).
Definition set_w_services x w := World (w_cfg w) (w_cred w) (w_core w) (w_slots w) x (w_events w) (w_mac w) (w_backend w) (w_ext w).
Definition set_w_events x w := World (w_cfg w) (w_cred w) (w_core w) (w_slots w) (w_services w) x (w_mac w) (w_backend w) (w_ext w).
Definition set_w_mac x w := World (w_cfg w) (w_cred w) (w_core w) (w_slots w) (w_services w) (w_events w) x (w_backend w) (w_ext w).
Definition set_w_backend x w := World (w_cfg w) (w_cred w) (w_core w) (w_slots w) (w_services w) (w_events w) (w_mac w) x (w_ext w).
Definition set_w_ext x w := World (w_cfg w) (w_cred w) (w_core w) (w_slots w) (w_services w) (w_events w) (w_mac w) (w_backend w) x.

Definition cfg {A} (m : M schema_state A) : M world A := zoom w_cfg set_w_cfg m.
Definition power_service {A} (m : M power_state A) : M world A :=
  cfg (storage (power m)).
Definition upd_core (f : core_state -> core_state) : M world unit :=
  modify (fun w => set_w_core (f (w_core w)) w).
Definition get_core {A} (f : core_state -> A) : M world A := gets (fun w => f (w_core w)).

(** [static void publish(const struct rzi_lorawan_backend_event *event)]: the event sink. *)
Definition publish (event : rzi_lorawan_backend_event) : M world unit :=
  let* rc := zoom w_events set_w_events (k_msgq_put event) in
  if negb (rc =? 0) then upd_core (set_overflow 1) else ret tt.

Definition publish_state (state : rzi_lorawan_state) : M world unit :=
  publish (BACKEND_STATE_CHANGED state).

(** A call of a backend operation: the events it hands to the sink are
    published before it returns. *)
Definition call {A} (op : bop backend_state A) : M world A :=
  fun w => match op (w_backend w) with
           | ((a, events), b) => (for_each events publish ;;; ret a) (set_w_backend b w)
           end.
End world.
