(* ===== verification/LorawanSim.v ===== *)
(** * A concrete LoRaWAN backend and subscriber state for the witnesses

    A backend that accepts everything, keeps a log of the operations it was
    asked for, reports a join success only when told to, and publishes READY
    when it starts; and an application state that is the log of the callbacks
    its subscribers received: function, event, user data. *)
From S2P Require Import Prelude Zephyr Err Power Storage LorawanSettings LorawanBackend.

Inductive sim_op : Type :=
| SimStart (region : Z) | SimJoin (config : rzi_lorawan_join_config) | SimLeave
| SimSend (port : Z) (data : option (list Z)) | SimClass (c : Z) | SimLinkCheck | SimDeviceTime.
Record sim_backend : Type := SimBackend { sim_joined : bool; sim_log : list sim_op }.

Definition sim_do (o : sim_op) (events : list rzi_lorawan_backend_event) : bop sim_backend Z :=
  fun b => ((0, events), SimBackend (sim_joined b) (sim_log b ++ [o])).
Definition sim_get {A} (f : sim_backend -> A) : getter sim_backend A :=
  fun _ b => (((0, f b), []), b).

Definition sim_api : rzi_lorawan_backend_api sim_backend := {|
  (* OTAA, ABP, class A and C, channel masks, link check *)
  capabilities := 1 + 2 + 4 + 16 + 64 + 256;
  base := {|
    op_start region _ := sim_do (SimStart region) [BACKEND_READY];
    op_join config := sim_do (SimJoin config) [];
    op_leave := sim_do SimLeave [];
    op_send port data _ _ := sim_do (SimSend port data) [];
    op_set_class c := sim_do (SimClass c) [];
    op_get_class := None;
    op_is_joined := sim_get sim_joined;
    op_is_busy := sim_get (fun _ => false);
  |};
  network := None; class_b := None; session := None;
  mac := Some {|
    op_request_link_check := Some (sim_do SimLinkCheck []);
    op_request_device_time := Some (sim_do SimDeviceTime []);
    op_get_network_time := None;
  |};
  multicast := None; certification := None; fuota := None;
|}.

Module SimInstances.
Export Instances.
#[export] Instance sim_lorawan : LorawanBackend | 10 := {|
  backend_state := sim_backend; rzi_lorawan_backend := sim_api |}.
#[export] Instance sim_ext : LorawanExt | 10 := {| ext_state := list (Z * rzi_lorawan_event * Z) |}.

Definition sim_world (c : credential_store) (k : core_state) (joined : bool) : world :=
  World SettingsWitness.cold c k (replicate 4 slot_zero) []
    (([], 8) : @msgq sim_zephyr rzi_lorawan_backend_event) (Mac 0 false)
    (SimBackend joined []) [].
(** After power-up. *)
Definition boot : world := sim_world credentials_zero core_init false.
End SimInstances.
