(* ===== verification/LorawanCore.v ===== *)
(** * Shared service functions (parts of src/lorawan/lorawan.c and
    src/lorawan/api/lorawan_config.c)

    The context checks every API function starts with, the device class and
    its power lock, the configured region, and the settings-backed options. *)
From S2P Require Import Prelude Zephyr Err Power Storage LorawanSettings LorawanBackend.

Section core.
Context `{Zephyr} `{Errno} `{Kconfig} {ctx : ExecCtx} `{LorawanBackend} `{LorawanExt}.

Definition rzi_lorawan_check_thread : M world Z :=
  ret (if k_is_in_isr then - RZI_ERR_ISR else 0).

Definition rzi_lorawan_check_started : M world Z :=
  rc* rc := rzi_lorawan_check_thread else rc in
  let* s := get_core started in
  if s =? 0 then ret (- RZI_ERR_NOT_READY) else ret 0.

Definition check_context : M world Z := rzi_lorawan_check_started.

(** *** The class C power lock *)
Definition update_class_c_power_locked (class_c : bool) : M world unit :=
  if auto_service_lock then
    let* held := get_core power_class_c_held in
    if class_c && negb held then
      let* rc := power_service (rzi_power_lock_get RZI_POWER_LOCK_LORAWAN) in
      if rc =? 0 then upd_core (set_class_c_held true) else ret tt
    else if negb class_c && held then
      let* rc := power_service (rzi_power_lock_put RZI_POWER_LOCK_LORAWAN) in
      if rc =? 0 then upd_core (set_class_c_held false) else ret tt
    else ret tt
  else ret tt.

Definition rzi_lorawan_note_class (device_class : Z) : M world unit :=
  upd_core (set_class device_class) ;;;
  update_class_c_power_locked (device_class =? RZI_LORAWAN_CLASS_C).

(** *** Settings-backed configuration.  A pointer that is never NULL is
    modelled by the value stored through it when the code is zero. *)
Definition setting_read (key : string) (size : Z) : M world (Z * option (list Z * bool)) :=
  cfg (rzi_lorawan_setting_read key size).
Definition setting_write (key : string) (value : list Z) (size : Z) : M world Z :=
  cfg (rzi_lorawan_setting_write key value size).

Definition rzi_lorawan_config_get_region (region : Z) : M world (Z * Z) :=
  let* '(rc, out) := setting_read "region" 1 in
  ret (rc, match out with
           | Some (stored, _) => if rc =? 0 then at_ stored 0 else region
           | None => region
           end).

Definition rzi_lorawan_config_set_region (region : Z) : M world Z :=
  setting_write "region" [u8 region] 1.

(** [read_config]: the bytes read into [value] and the found flag. *)
Definition read_config (key : string) (value : option (list Z)) (size : Z)
  : M world (Z * option (list Z * bool)) :=
  let* rc := rzi_lorawan_check_thread in
  match value with
  | Some _ => if rc =? 0 then setting_read key size else ret (rc, None)
  | None => ret (if negb (rc =? 0) then rc else - RZI_ERR_INVALID, None)
  end.

Definition write_config (key : string) (value : list Z) (size : Z) : M world Z :=
  rc* rc := rzi_lorawan_check_thread else rc in
  setting_write key value size.

Definition rzi_lorawan_get_confirmed (enabled : option bool) : M world (Z * option bool) :=
  let* rc := rzi_lorawan_check_thread in
  match enabled with
  | None => ret (if negb (rc =? 0) then rc else - RZI_ERR_INVALID, None)
  | Some _ =>
      if negb (rc =? 0) then ret (rc, enabled)
      else
        let* '(rc, out) := read_config "cfm" (Some [0]) 1 in
        match out with
        | Some (stored, _) =>
            ret (rc, if rc =? 0 then Some (negb (at_ stored 0 =? 0)) else enabled)
        | None => ret (rc, enabled)
        end
  end.

Definition rzi_lorawan_set_confirmed (enabled : bool) : M world Z :=
  write_config "cfm" [if enabled then 1 else 0] 1.

Definition rzi_lorawan_get_retries (count : option Z) : M world (Z * option Z) :=
  let* '(rc, out) := read_config "rety" ((fun c => [c]) <$> count) 1 in
  match out with
  | Some (stored, _) => ret (rc, Some (at_ stored 0))
  | None => ret (rc, count)
  end.

Definition rzi_lorawan_set_retries (count : Z) : M world Z := write_config "rety" [count] 1.

Definition rzi_lorawan_config_get_net_id (net_id : Z) : M world (Z * Z) :=
  let* '(rc, out) := setting_read "netid" 4 in
  match out with
  | Some (stored, found) =>
      if (rc =? 0) && negb found then ret (- RZI_ERR_NO_DATA, net_id)
      else if rc =? 0 then ret (rc, load32 stored) else ret (rc, net_id)
  | None => ret (rc, net_id)
  end.

Definition rzi_lorawan_set_net_id (net_id : Z) : M world Z :=
  write_config "netid" (store32 net_id) 4.

(** *** Region and join state (lorawan.c) *)
Definition rzi_lorawan_get_region (region : option Z) : M world (Z * option Z) :=
  let* rc := rzi_lorawan_check_thread in
  if negb (rc =? 0) then ret (rc, region)
  else match region with
  | None => ret (- RZI_ERR_INVALID, None)
  | Some old =>
      let* s := get_core started in
      let* rc :=
        (if s =? 0 then
           let* current := get_core configured_region in
           let* '(rc, stored) := rzi_lorawan_config_get_region current in
           upd_core (set_region stored) ;;; ret rc
         else ret 0) in
      let* current := get_core configured_region in
      ret (rc, Some (if rc =? 0 then current else old))
  end.

Definition rzi_lorawan_is_joined (joined : option bool) : M world (Z * option bool) :=
  match joined with
  | None => ret (- RZI_ERR_INVALID, None)
  | Some old =>
      let* rc := check_context in
      if negb (rc =? 0) then ret (rc, joined)
      else
        let* '(rc, j) := call (op_is_joined _ (base _ rzi_lorawan_backend) old) in
        ret (rc, Some j)
  end.

(** [base.is_joined(&joined)] from a local initialised to false *)
Definition backend_is_joined : M world (Z * bool) :=
  call (op_is_joined _ (base _ rzi_lorawan_backend) false).
End core.

(** ** Frames *)
Section frames.
Context `{Zephyr} `{Errno} `{Kconfig} {ctx : ExecCtx} `{LorawanBackend} `{LorawanExt}.

(** Only the settings, and the storage and power services below them, move. *)
Definition only_cfg (w w' : world) : Prop := w' = set_w_cfg (w_cfg w') w.
#[export] Instance only_cfg_preorder : PreOrder only_cfg.
Proof.
  unfold only_cfg. split; [by intros []|]. intros a b c Hb Hc. rewrite Hc, Hb at 1. done.
Qed.
Lemma cfg_run {A} (m : M schema_state A) w :
  cfg m w = ((m (w_cfg w)).1, set_w_cfg (m (w_cfg w)).2 w).
Proof. unfold cfg, zoom. by destruct (m (w_cfg w)). Qed.
Lemma cfg_only {A} (m : M schema_state A) : respects only_cfg (cfg m).
Proof. intros w. by rewrite cfg_run. Qed.

(** A backend call moves the backend, the event queue and the overflow flag. *)
Definition sinks (w w' : world) : Prop := exists b q o,
  w' = set_w_core (set_overflow o (w_core w)) (set_w_events q (set_w_backend b w)).
#[export] Instance sinks_preorder : PreOrder sinks.
Proof.
  split.
  - intros [? ? [] ? ? ? ? ? ?]. by eexists _, _, _.
  - intros a b c (b1 & q1 & o1 & ->) (b2 & q2 & o2 & ->). by exists b2, q2, o2.
Qed.
Lemma publish_sinks e : respects sinks (publish e).
Proof.
  intros [? ? [] ? ? q ? b ?]. unfold publish, bind, zoom. cbn.
  destruct (k_msgq_put e q) as [rc q']. destruct (rc =? 0); cbn; by eexists b, q', _.
Qed.
Lemma call_sinks {A} (op : bop backend_state A) : respects sinks (call op).
Proof.
  intros w. unfold call. destruct (op (w_backend w)) as [[a es] b].
  assert (Hall : respects sinks (for_each es publish ;;; ret a)).
  { frame. apply publish_sinks. }
  etransitivity; [|apply Hall]. destruct w as [? ? [] ? ? q ? ? ?]. by eexists b, q, _.
Qed.
Lemma call_result {A} (op : bop backend_state A) w : (call op w).1 = (op (w_backend w)).1.1.
Proof.
  unfold call. destruct (op (w_backend w)) as [[a es] b]. unfold bind.
  by destruct (for_each es publish (set_w_backend b w)).
Qed.

Lemma check_started_run w :
  rzi_lorawan_check_started w =
    (if k_is_in_isr then - RZI_ERR_ISR
     else if started (w_core w) =? 0 then - RZI_ERR_NOT_READY else 0, w).
Proof.
  unfold rzi_lorawan_check_started, rzi_lorawan_check_thread, get_core. mrun.
  destruct k_is_in_isr; [done|]. cbn. by destruct (started (w_core w) =? 0).
Qed.
Lemma check_thread_run w :
  rzi_lorawan_check_thread w = (if k_is_in_isr then - RZI_ERR_ISR else 0, w).
Proof. done. Qed.
End frames.
#[export] Hint Resolve cfg_only publish_sinks call_sinks : frame.
