(* ===== verification/LorawanCredentials.v ===== *)
(** * Stored LoRaWAN credentials and join policy
    (src/lorawan/api/lorawan_credentials.c, clear_settings of lorawan_config.c)

    A cache of the credentials, loaded all at once from the settings and
    written through to them, and locked while a join sequence owns it. *)
From S2P Require Import Prelude Zephyr Err Power Storage LorawanSettings LorawanBackend LorawanSim LorawanCore.

Abbreviation NJM_WIRE_ABP := 0.
Abbreviation NJM_WIRE_OTAA := 1.

(** A byte-array member of [struct credential_store] and its [_set] flag, as
    the pair of pointers the helpers take. *)
Record cred_field : Type := CredField {
  f_get : credential_store -> list Z;
  f_valid : credential_store -> bool;
  f_put : list Z -> credential_store -> credential_store; (* memcpy; *valid = true *)
}.
Definition put_dev_eui v c := CredentialStore v true (app_eui c) (app_eui_set c) (app_key c)
  (app_key_set c) (gen_app_key c) (gen_app_key_set c) (dev_addr c) (dev_addr_set c) (nwk_skey c)
  (nwk_skey_set c) (app_skey c) (app_skey_set c) (njm c) (auto_join c) (join_interval c)
  (join_attempts c) (channel_mask c) (channel_mask_set c) (join_active c) (loaded c).
Definition put_app_eui v c := CredentialStore (dev_eui c) (dev_eui_set c) v true (app_key c)
  (app_key_set c) (gen_app_key c) (gen_app_key_set c) (dev_addr c) (dev_addr_set c) (nwk_skey c)
  (nwk_skey_set c) (app_skey c) (app_skey_set c) (njm c) (auto_join c) (join_interval c)
  (join_attempts c) (channel_mask c) (channel_mask_set c) (join_active c) (loaded c).
Definition put_app_key v c := CredentialStore (dev_eui c) (dev_eui_set c) (app_eui c)
  (app_eui_set c) v true (gen_app_key c) (gen_app_key_set c) (dev_addr c) (dev_addr_set c)
  (nwk_skey c) (nwk_skey_set c) (app_skey c) (app_skey_set c) (njm c) (auto_join c)
  (join_interval c) (join_attempts c) (channel_mask c) (channel_mask_set c) (join_active c)
  (loaded c).
Definition put_gen_app_key v c := CredentialStore (dev_eui c) (dev_eui_set c) (app_eui c)
  (app_eui_set c) (app_key c) (app_key_set c) v true (dev_addr c) (dev_addr_set c)
  (nwk_skey c) (nwk_skey_set c) (app_skey c) (app_skey_set c) (njm c) (auto_join c)
  (join_interval c) (join_attempts c) (channel_mask c) (channel_mask_set c) (join_active c)
  (loaded c).
Definition put_dev_addr v c := CredentialStore (dev_eui c) (dev_eui_set c) (app_eui c)
  (app_eui_set c) (app_key c) (app_key_set c) (gen_app_key c) (gen_app_key_set c) v true
  (nwk_skey c) (nwk_skey_set c) (app_skey c) (app_skey_set c) (njm c) (auto_join c)
  (join_interval c) (join_attempts c) (channel_mask c) (channel_mask_set c) (join_active c)
  (loaded c).
Definition put_nwk_skey v c := CredentialStore (dev_eui c) (dev_eui_set c) (app_eui c)
  (app_eui_set c) (app_key c) (app_key_set c) (gen_app_key c) (gen_app_key_set c) (dev_addr c)
  (dev_addr_set c) v true (app_skey c) (app_skey_set c) (njm c) (auto_join c)
  (join_interval c) (join_attempts c) (channel_mask c) (channel_mask_set c) (join_active c)
  (loaded c).
Definition put_app_skey v c := CredentialStore (dev_eui c) (dev_eui_set c) (app_eui c)
  (app_eui_set c) (app_key c) (app_key_set c) (gen_app_key c) (gen_app_key_set c) (dev_addr c)
  (dev_addr_set c) (nwk_skey c) (nwk_skey_set c) v true (njm c) (auto_join c)
  (join_interval c) (join_attempts c) (channel_mask c) (channel_mask_set c) (join_active c)
  (loaded c).
Definition put_njm v c := CredentialStore (dev_eui c) (dev_eui_set c) (app_eui c)
  (app_eui_set c) (app_key c) (app_key_set c) (gen_app_key c) (gen_app_key_set c) (dev_addr c)
  (dev_addr_set c) (nwk_skey c) (nwk_skey_set c) (app_skey c) (app_skey_set c) v (auto_join c)
  (join_interval c) (join_attempts c) (channel_mask c) (channel_mask_set c) (join_active c)
  (loaded c).
Definition put_policy a i n c := CredentialStore (dev_eui c) (dev_eui_set c) (app_eui c)
  (app_eui_set c) (app_key c) (app_key_set c) (gen_app_key c) (gen_app_key_set c) (dev_addr c)
  (dev_addr_set c) (nwk_skey c) (nwk_skey_set c) (app_skey c) (app_skey_set c) (njm c) a i n
  (channel_mask c) (channel_mask_set c) (join_active c) (loaded c).
Definition put_channel_mask m b c := CredentialStore (dev_eui c) (dev_eui_set c) (app_eui c)
  (app_eui_set c) (app_key c) (app_key_set c) (gen_app_key c) (gen_app_key_set c) (dev_addr c)
  (dev_addr_set c) (nwk_skey c) (nwk_skey_set c) (app_skey c) (app_skey_set c) (njm c)
  (auto_join c) (join_interval c) (join_attempts c) m b (join_active c) (loaded c).
Definition put_join_active b c := CredentialStore (dev_eui c) (dev_eui_set c) (app_eui c)
  (app_eui_set c) (app_key c) (app_key_set c) (gen_app_key c) (gen_app_key_set c) (dev_addr c)
  (dev_addr_set c) (nwk_skey c) (nwk_skey_set c) (app_skey c) (app_skey_set c) (njm c)
  (auto_join c) (join_interval c) (join_attempts c) (channel_mask c) (channel_mask_set c) b
  (loaded c).
Definition F_dev_eui := CredField dev_eui dev_eui_set put_dev_eui.
Definition F_app_eui := CredField app_eui app_eui_set put_app_eui.
Definition F_app_key := CredField app_key app_key_set put_app_key.
Definition F_gen_app_key := CredField gen_app_key gen_app_key_set put_gen_app_key.
Definition F_nwk_skey := CredField nwk_skey nwk_skey_set put_nwk_skey.
Definition F_app_skey := CredField app_skey app_skey_set put_app_skey.

(** The two accumulators of [channel_mask_valid], over the channels. *)
Fixpoint mask_valid_from (mask : list Z) (channels : list nat) (any : bool) : bool :=
  match channels with
  | [] => any
  | c :: channels' =>
      let enabled := mask_bit mask (Z.of_nat c) in
      if enabled && (RZI_LORAWAN_FIXED_PLAN_CHANNELS <=? Z.of_nat c) then false
      else mask_valid_from mask channels' (any || enabled)
  end.
Definition channel_mask_valid (mask : list Z) : bool :=
  mask_valid_from mask (seq 0 (Z.to_nat (RZI_LORAWAN_CHANNEL_MASK_WORDS * 16))) false.

Definition rzi_lorawan_region_has_fixed_plan (region : Z) : bool :=
  (region =? RZI_LORAWAN_REGION_US_915) || (region =? RZI_LORAWAN_REGION_AU_915).

Definition njm_wire (mode : Z) : Z :=
  if mode =? RZI_LORAWAN_ACTIVATION_ABP then NJM_WIRE_ABP else NJM_WIRE_OTAA.

Section credentials.
Context `{Zephyr} `{Errno} `{Kconfig} {ctx : ExecCtx} `{LorawanBackend} `{LorawanExt}.

Definition get_cred {A} (f : credential_store -> A) : M world A := gets (fun w => f (w_cred w)).
Definition upd_cred (f : credential_store -> credential_store) : M world unit :=
  modify (fun w => set_w_cred (f (w_cred w)) w).

Definition persist (key : string) (value : list Z) (len : Z) : M world Z :=
  setting_write key value len.
Definition load_bytes (key : string) (len : Z) : M world (Z * (list Z * bool)) :=
  let* '(rc, out) := setting_read key len in ret (rc, default ([], false) out).

Definition ensure_loaded_locked : M world Z :=
  let* c := get_cred (fun c => c) in
  if loaded c then ret 0 else
  let* '(rc, (v_dev_eui, s_dev_eui)) := load_bytes "deveui" 8 in
  if negb (rc =? 0) then ret rc else
  let* '(rc, (v_app_eui, s_app_eui)) := load_bytes "joineui" 8 in
  if negb (rc =? 0) then ret rc else
  let* '(rc, (v_app_key, s_app_key)) := load_bytes "appkey" 16 in
  if negb (rc =? 0) then ret rc else
  let* '(rc, (v_gen_key, s_gen_key)) := load_bytes "genappkey" 16 in
  if negb (rc =? 0) then ret rc else
  let* '(rc, (v_dev_addr, s_dev_addr)) := load_bytes "devaddr" 4 in
  if negb (rc =? 0) then ret rc else
  let* '(rc, (v_nwk_skey, s_nwk_skey)) := load_bytes "nwkskey" 16 in
  if negb (rc =? 0) then ret rc else
  let* '(rc, (v_app_skey, s_app_skey)) := load_bytes "appskey" 16 in
  if negb (rc =? 0) then ret rc else
  let* '(rc, (mode, _)) := load_bytes "njm" 1 in
  if negb (rc =? 0) then ret rc else
  let v_njm := if at_ mode 0 =? NJM_WIRE_ABP then RZI_LORAWAN_ACTIVATION_ABP
               else RZI_LORAWAN_ACTIVATION_OTAA in
  let* '(rc, (policy, _)) := load_bytes "join_policy" RZI_JOIN_POLICY_SIZE in
  if negb (rc =? 0) then ret rc else
  let* '(rc, (chmask, s_chmask)) := load_bytes "chmask" (RZI_LORAWAN_CHANNEL_MASK_WORDS * 2) in
  if negb (rc =? 0) then ret rc else
  let v_mask := load_words chmask (Z.to_nat RZI_LORAWAN_CHANNEL_MASK_WORDS) in
  let s_mask := if s_chmask && negb (channel_mask_valid v_mask) then false else s_chmask in
  let* busy := get_cred join_active in
  upd_cred (fun _ => CredentialStore v_dev_eui s_dev_eui v_app_eui s_app_eui v_app_key s_app_key
    v_gen_key s_gen_key (load32 v_dev_addr) s_dev_addr v_nwk_skey s_nwk_skey v_app_skey
    s_app_skey v_njm (negb (at_ policy RZI_JOIN_POLICY_AUTO =? 0))
    (at_ policy RZI_JOIN_POLICY_INTERVAL) (at_ policy RZI_JOIN_POLICY_ATTEMPTS)
    v_mask s_mask busy true) ;;;
  ret 0.

Definition set_bytes (field : cred_field) (key : string) (src : option (list Z))
    (len expected : Z) : M world Z :=
  rc* rc := rzi_lorawan_check_thread else rc in
  match src with
  | None => ret (- RZI_ERR_INVALID)
  | Some src =>
      if negb (len =? expected) then ret (- RZI_ERR_INVALID)
      else
        rc* rc := ensure_loaded_locked else rc in
        let* busy := get_cred join_active in
        if busy then ret (- RZI_ERR_BUSY)
        else
          rc* rc := persist key src expected else rc in
          upd_cred (f_put field src) ;;; ret 0
  end.

Definition session_joined : M world (Z * bool) :=
  let* rc := rzi_lorawan_check_started in
  if negb (rc =? 0) then ret (0, false) else backend_is_joined.

Definition session_op {A} (member : rzi_lorawan_session_ops backend_state -> option A) : option A :=
  session _ rzi_lorawan_backend ≫= member.

Definition read_otaa_dev_addr (addr : Z) : M world (Z * Z) :=
  let* '(rc, joined) := session_joined in
  if negb (rc =? 0) then ret (rc, addr)
  else if negb joined then ret (0, 0)
  else match session_op (op_get_dev_addr _) with
       | None => ret (- RZI_ERR_NOT_SUPPORTED, addr)
       | Some op => call (op addr)
       end.

Definition read_otaa_key (read : option (getter backend_state (list Z))) (key : list Z) (len : Z)
  : M world (Z * list Z) :=
  let* '(rc, joined) := session_joined in
  if negb (rc =? 0) then ret (rc, key)
  else if negb joined then ret (0, replicate (Z.to_nat len) 0)
  else match read with
       | None => ret (- RZI_ERR_NOT_SUPPORTED, key)
       | Some op => call (op key)
       end.

Definition get_bytes (field : cred_field) (dst : option (list Z)) (len expected : Z)
  : M world (Z * option (list Z)) :=
  let* rc := rzi_lorawan_check_thread in
  if negb (rc =? 0) then ret (rc, dst)
  else match dst with
  | None => ret (- RZI_ERR_INVALID, None)
  | Some old =>
      if negb (len =? expected) then ret (- RZI_ERR_INVALID, dst)
      else
        let* rc := ensure_loaded_locked in
        if negb (rc =? 0) then ret (rc, dst)
        else
          let* c := get_cred (fun c => c) in
          if f_valid field c then ret (0, Some (overlay old 0 (f_get field c)))
          else ret (- RZI_ERR_NO_DATA, dst)
  end.

Definition activation_supported (mode : Z) : bool :=
  if mode =? RZI_LORAWAN_ACTIVATION_OTAA then has_cap RZI_LORAWAN_CAP_OTAA
  else if mode =? RZI_LORAWAN_ACTIVATION_ABP then has_cap RZI_LORAWAN_CAP_ABP
  else false.

Definition rzi_lorawan_get_dev_eui eui len := get_bytes F_dev_eui eui len 8.
Definition rzi_lorawan_set_dev_eui eui len := set_bytes F_dev_eui "deveui" eui len 8.
Definition rzi_lorawan_get_app_eui eui len := get_bytes F_app_eui eui len 8.
Definition rzi_lorawan_set_app_eui eui len := set_bytes F_app_eui "joineui" eui len 8.
Definition rzi_lorawan_get_app_key key len := get_bytes F_app_key key len 16.
Definition rzi_lorawan_set_app_key key len := set_bytes F_app_key "appkey" key len 16.
Definition rzi_lorawan_get_gen_app_key key len := get_bytes F_gen_app_key key len 16.
Definition rzi_lorawan_set_gen_app_key key len := set_bytes F_gen_app_key "genappkey" key len 16.

Definition rzi_lorawan_get_dev_addr (out : option Z) : M world (Z * option Z) :=
  let* rc := rzi_lorawan_check_thread in
  if negb (rc =? 0) then ret (rc, out)
  else match out with
  | None => ret (- RZI_ERR_INVALID, None)
  | Some old =>
      let* rc := ensure_loaded_locked in
      let* c := get_cred (fun c => c) in
      if negb (rc =? 0) then ret (rc, out)
      else if njm c =? RZI_LORAWAN_ACTIVATION_ABP then
        if negb (dev_addr_set c) then ret (- RZI_ERR_NO_DATA, out) else ret (0, Some (dev_addr c))
      else
        let* '(rc, v) := read_otaa_dev_addr old in ret (rc, Some v)
  end.

Definition rzi_lorawan_set_dev_addr (addr : Z) : M world Z :=
  rc* rc := rzi_lorawan_check_thread else rc in
  rc* rc := ensure_loaded_locked else rc in
  let* busy := get_cred join_active in
  if busy then ret (- RZI_ERR_BUSY)
  else
    rc* rc := persist "devaddr" (store32 addr) 4 else rc in
    upd_cred (put_dev_addr addr) ;;; ret 0.

(** The common body of the two session-key getters. *)
Definition get_session_key (field : cred_field)
    (read : option (getter backend_state (list Z))) (key : option (list Z)) (len : Z)
  : M world (Z * option (list Z)) :=
  let* rc := rzi_lorawan_check_thread in
  if negb (rc =? 0) then ret (rc, key)
  else match key with
  | None => ret (- RZI_ERR_INVALID, None)
  | Some old =>
      if negb (len =? 16) then ret (- RZI_ERR_INVALID, key)
      else
        let* rc := ensure_loaded_locked in
        let* c := get_cred (fun c => c) in
        if negb (rc =? 0) then ret (rc, key)
        else if njm c =? RZI_LORAWAN_ACTIVATION_ABP then
          if negb (f_valid field c) then ret (- RZI_ERR_NO_DATA, key)
          else ret (0, Some (overlay old 0 (f_get field c)))
        else
          let* '(rc, v) := read_otaa_key read old len in ret (rc, Some v)
  end.

Definition rzi_lorawan_get_nwk_skey key len :=
  get_session_key F_nwk_skey (session_op (op_get_nwk_skey _)) key len.
Definition rzi_lorawan_set_nwk_skey key len := set_bytes F_nwk_skey "nwkskey" key len 16.
Definition rzi_lorawan_get_app_skey key len :=
  get_session_key F_app_skey (session_op (op_get_app_skey _)) key len.
Definition rzi_lorawan_set_app_skey key len := set_bytes F_app_skey "appskey" key len 16.

(** The common shape of the getters of one loaded value. *)
Definition get_loaded {A} (f : credential_store -> A) (out : option A) : M world (Z * option A) :=
  let* rc := rzi_lorawan_check_thread in
  if negb (rc =? 0) then ret (rc, out)
  else match out with
  | None => ret (- RZI_ERR_INVALID, None)
  | Some _ =>
      let* rc := ensure_loaded_locked in
      if negb (rc =? 0) then ret (rc, out)
      else let* v := get_cred f in ret (0, Some v)
  end.

Definition rzi_lorawan_get_activation (mode : option Z) := get_loaded njm mode.

Definition rzi_lorawan_set_activation (mode : Z) : M world Z :=
  rc* rc := rzi_lorawan_check_thread else rc in
  if negb (activation_supported mode) then
    ret (if (mode =? RZI_LORAWAN_ACTIVATION_OTAA) || (mode =? RZI_LORAWAN_ACTIVATION_ABP)
         then - RZI_ERR_NOT_SUPPORTED else - RZI_ERR_INVALID)
  else
    rc* rc := ensure_loaded_locked else rc in
    let* busy := get_cred join_active in
    if busy then ret (- RZI_ERR_BUSY)
    else
      rc* rc := persist "njm" [njm_wire mode] 1 else rc in
      upd_cred (put_njm mode) ;;; ret 0.

Definition rzi_lorawan_get_auto_join (enabled : option bool) := get_loaded auto_join enabled.
Definition rzi_lorawan_get_join_interval (interval_s : option Z) :=
  get_loaded join_interval interval_s.
Definition rzi_lorawan_get_join_attempts (attempts : option Z) := get_loaded join_attempts attempts.

(** The argument check and the merged policy of [update_policy]. *)
Definition policy_args_ok (a i n : Z) : bool :=
  negb ((negb (a =? RZI_LORAWAN_JOIN_KEEP) && negb (a =? 0) && negb (a =? 1)) ||
        (negb (i =? RZI_LORAWAN_JOIN_KEEP) &&
           ((i <? RZI_LORAWAN_JOIN_INTERVAL_MIN) || (RZI_LORAWAN_JOIN_INTERVAL_MAX <? i))) ||
        (negb (n =? RZI_LORAWAN_JOIN_KEEP) && ((n <? 0) || (UINT8_MAX <? n)))).
Definition merged_policy (a i n : Z) (c : credential_store) : list Z :=
  [u8 (if a =? RZI_LORAWAN_JOIN_KEEP then b2z (auto_join c) else a);
   u8 (if i =? RZI_LORAWAN_JOIN_KEEP then join_interval c else i);
   u8 (if n =? RZI_LORAWAN_JOIN_KEEP then join_attempts c else n)].

Definition rzi_lorawan_credentials_update_policy (a i n : Z) : M world Z :=
  rc* rc := rzi_lorawan_check_thread else rc in
  if negb (policy_args_ok a i n) then ret (- RZI_ERR_INVALID)
  else
    rc* rc := ensure_loaded_locked else rc in
    let* c := get_cred (fun c => c) in
    let policy := merged_policy a i n c in
    rc* rc := persist "join_policy" policy RZI_JOIN_POLICY_SIZE else rc in
    upd_cred (put_policy (negb (at_ policy RZI_JOIN_POLICY_AUTO =? 0))
      (at_ policy RZI_JOIN_POLICY_INTERVAL) (at_ policy RZI_JOIN_POLICY_ATTEMPTS)) ;;;
    ret 0.

Definition rzi_lorawan_credentials_get_channel_mask : M world (Z * option (list Z * bool)) :=
  let* rc := ensure_loaded_locked in
  if negb (rc =? 0) then ret (rc, None)
  else let* c := get_cred (fun c => c) in ret (0, Some (channel_mask c, channel_mask_set c)).

Definition rzi_lorawan_credentials_set_channel_mask (mask : option (list Z)) : M world Z :=
  if match mask with Some m => negb (channel_mask_valid m) | None => false end
  then ret (- RZI_ERR_INVALID)
  else
    rc* rc := ensure_loaded_locked else rc in
    let* busy := get_cred join_active in
    if busy then ret (- RZI_ERR_BUSY)
    else
      let candidate := default (replicate (Z.to_nat RZI_LORAWAN_CHANNEL_MASK_WORDS) 0) mask in
      rc* rc := persist "chmask" (store_words candidate) (RZI_LORAWAN_CHANNEL_MASK_WORDS * 2)
        else rc in
      upd_cred (put_channel_mask candidate (bool_decide (is_Some mask))) ;;; ret 0.

(** The configuration built from the loaded store. *)
Definition join_config_of (region : Z) (c : credential_store) : rzi_lorawan_join_config :=
  let use_mask := channel_mask_set c && rzi_lorawan_region_has_fixed_plan region &&
                  has_cap RZI_LORAWAN_CAP_CHANNEL in
  JoinConfig (njm c) (join_interval c) use_mask
    (if use_mask then channel_mask c else replicate (Z.to_nat RZI_LORAWAN_CHANNEL_MASK_WORDS) 0)
    (if njm c =? RZI_LORAWAN_ACTIVATION_ABP
     then inr (JoinAbp (dev_addr c) (nwk_skey c) (app_skey c))
     else inl (JoinOtaa (dev_eui c) (app_eui c) (app_key c)
                 (if gen_app_key_set c then gen_app_key c else app_key c) 0)).

Definition rzi_lorawan_credentials_build_config : M world (Z * option rzi_lorawan_join_config) :=
  let* rc := rzi_lorawan_check_thread in
  if negb (rc =? 0) then ret (rc, None)
  else
    let* '(rc, region) := rzi_lorawan_get_region (Some 0) in
    if negb (rc =? 0) then ret (rc, None)
    else
      let* rc := ensure_loaded_locked in
      if negb (rc =? 0) then ret (rc, None)
      else
        let* c := get_cred (fun c => c) in
        ret (0, Some (join_config_of (default 0 region) c)).

Definition rzi_lorawan_credentials_set_join_active (b : bool) : M world unit :=
  upd_cred (put_join_active b).

Definition rzi_lorawan_credentials_clear_settings : M world Z :=
  let* busy := get_cred join_active in
  if busy then ret (- RZI_ERR_BUSY)
  else
    rc* rc := cfg rzi_lorawan_settings_clear else rc in
    upd_cred (fun _ => credentials_zero) ;;; ret 0.

Definition rzi_lorawan_clear_settings : M world Z :=
  rc* rc := rzi_lorawan_check_thread else rc in
  rzi_lorawan_credentials_clear_settings.
End credentials.

(** ** Loading *)
Lemma channel_mask_valid_spec_pre mask channels any :
  mask_valid_from mask channels any = true ->
  Forall (fun c => mask_bit mask (Z.of_nat c) = true -> Z.of_nat c < 72) channels /\
  (any = true \/ Exists (fun c => mask_bit mask (Z.of_nat c) = true) channels).
Proof.
  revert any. induction channels as [|c l IH]; intros any; cbn [mask_valid_from].
  { intros ->. split; [constructor|by left]. }
  destruct (mask_bit mask (Z.of_nat c)) eqn:E; cbn [andb orb].
  - destruct (Z.leb_spec 72 (Z.of_nat c)); [done|]. rewrite orb_true_r. intros Hv.
    destruct (IH _ Hv) as [Hf _]. split; [by constructor|]. right. by left.
  - rewrite orb_false_r. intros Hv. destruct (IH _ Hv) as [Hf Ha].
    split; [constructor; [congruence|done]|]. destruct Ha; [by left|right; by right].
Qed.

Section loading.
Context `{SettingsOk} `{!BytesOk} `{Errno} `{Kconfig} `{!KconfigOk} {ctx : ExecCtx}
  `{LorawanBackend} `{LorawanExt}.

Definition tbl (w : world) : list setting := table (w_cfg w).
Definition cfg_ok (w : world) : Prop := cache_ok (w_cfg w).

(** Reading settings only adds to what is cached. *)
Definition grows (w w' : world) : Prop :=
  only_cfg w w' /\
  (cfg_ok w -> cfg_ok w' /\
     forall key v p, cached (tbl w) key v p -> cached (tbl w') key v p).
#[export] Instance grows_preorder : PreOrder grows.
Proof.
  split; [by split|]. intros a b c [Ha Fa] [Hb Fb]. split; [by etransitivity|].
  intros Hok. destruct (Fa Hok) as [Hok2 F2]. destruct (Fb Hok2). auto.
Qed.

Lemma wp_load key len (k : Z * (list Z * bool) -> M world Z) (Q : Z -> world -> Prop) w0 w :
  grows w0 w ->
  (forall rc v p w', grows w0 w' -> rc <> 0 -> wp (k (rc, (v, p))) Q w') ->
  (forall v p w', grows w0 w' -> (cfg_ok w -> grows w w' /\ cached (tbl w') key v p /\ zlen v = len) ->
     wp (k (0, (v, p))) Q w') ->
  wp (bind (load_bytes key len) k) Q w.
Proof.
  intros H0w Hbad Hgood. apply wp_bind. unfold load_bytes. apply wp_bind. unfold wp at 1, setting_read.
  rewrite cfg_run. cbn [fst snd].
  set (r := rzi_lorawan_setting_read key len (w_cfg w)).
  assert (Hg : grows w (set_w_cfg r.2 w)).
  { split; [done|]. intros Hok. split; [by apply read_cache_ok|].
    destruct (read_cached key len (w_cfg w) Hok) as [Hm _]. exact Hm. }
  pose proof (read_cached key len (w_cfg w)) as Hr. fold r in Hr. destruct r as [[rc out] st1]. cbn in *.
  assert (Hg0 : grows w0 (set_w_cfg st1 w)) by by etransitivity.
  destruct (decide (rc = 0)) as [->|Hne].
  - destruct (default ([], false) out) as [v p] eqn:Ed. apply Hgood; [done|].
    intros Hok. split; [done|]. destruct (Hr Hok) as [_ Hc].
    destruct (Hc eq_refl) as (v' & p' & -> & ? & ?). cbn in Ed. by injection Ed as -> ->.
  - destruct (default ([], false) out) as [v p]. by apply Hbad.
Qed.

(** The credential cache as a view of the settings cache. *)
Definition njm_of (wire : Z) : Z :=
  if wire =? NJM_WIRE_ABP then RZI_LORAWAN_ACTIVATION_ABP else RZI_LORAWAN_ACTIVATION_OTAA.
Record cred_view (t : list setting) (c : credential_store) : Prop := CredView {
  view_dev_eui : cached t "deveui" (dev_eui c) (dev_eui_set c);
  view_app_eui : cached t "joineui" (app_eui c) (app_eui_set c);
  view_app_key : cached t "appkey" (app_key c) (app_key_set c);
  view_gen_key : cached t "genappkey" (gen_app_key c) (gen_app_key_set c);
  view_dev_addr : exists v, cached t "devaddr" v (dev_addr_set c) /\ dev_addr c = load32 v;
  view_nwk_skey : cached t "nwkskey" (nwk_skey c) (nwk_skey_set c);
  view_app_skey : cached t "appskey" (app_skey c) (app_skey_set c);
  view_njm : exists v p, cached t "njm" v p /\ njm c = njm_of (at_ v 0);
  view_policy : exists v p, cached t "join_policy" v p /\
    auto_join c = negb (at_ v RZI_JOIN_POLICY_AUTO =? 0) /\
    join_interval c = at_ v RZI_JOIN_POLICY_INTERVAL /\
    join_attempts c = at_ v RZI_JOIN_POLICY_ATTEMPTS;
  view_mask : exists v p, cached t "chmask" v p /\ channel_mask c = load_words v 6 /\
    channel_mask_set c = p && channel_mask_valid (channel_mask c);
}.
Definition view_inv (w : world) : Prop :=
  cfg_ok w /\ (loaded (w_cred w) = true -> cred_view (tbl w) (w_cred w)).

(** What [ensure_loaded_locked] moves: the credential cache, but not the join
    lock, and the settings cache, which only grows. *)
Definition loads (w w' : world) : Prop :=
  (exists c, w' = set_w_cred c (set_w_cfg (w_cfg w') w) /\
             join_active c = join_active (w_cred w)) /\
  (cfg_ok w -> cfg_ok w' /\
     forall key v p, cached (tbl w) key v p -> cached (tbl w') key v p).
Lemma grows_loads w w' : grows w w' -> loads w w'.
Proof. intros [Heq Hg]. split; [|done]. rewrite Heq. by exists (w_cred w); destruct w. Qed.

Ltac load_next Hbad w' Hg Hc := apply (wp_load _ _ _ _ _ _ ltac:(eassumption || reflexivity));
  [intros ? ? ? ? Hg Hrc; rewrite (proj2 (Z.eqb_neq _ _) Hrc); cbn [negb]; apply wp_ret, Hbad; [exact Hg|exact Hrc]|
   intros ? ? w' Hg Hc; cbn [negb Z.eqb]].

(** One more load: the cache stays well formed, the new value is cached. *)
Ltac advance Hc K :=
  let G := fresh "G" in let C := fresh "C" in
  match type of Hc with cfg_ok ?w -> _ =>
    match goal with Hw : cfg_ok w |- _ =>
      destruct (Hc Hw) as (G & C & _); pose proof (proj1 (proj2 G Hw)) as K
    end
  end.

Lemma ensure_loaded_spec w :
  wp ensure_loaded_locked (fun rc w' =>
    loads w w' /\
    (rc = 0 -> loaded (w_cred w') = true) /\ (rc <> 0 -> w_cred w' = w_cred w) /\
    (loaded (w_cred w) = true -> rc = 0 /\ w' = w) /\
    (view_inv w -> view_inv w')) w.
Proof.
  unfold ensure_loaded_locked. apply wp_bind, wp_gets.
  destruct (loaded (w_cred w)) eqn:El.
  { apply wp_ret. split; [|by split_and!]. apply grows_loads. reflexivity. }
  assert (Hbad : forall rc w', grows w w' -> rc <> 0 ->
    loads w w' /\ (rc = 0 -> loaded (w_cred w') = true) /\ (rc <> 0 -> w_cred w' = w_cred w) /\
    (false = true -> rc = 0 /\ w' = w) /\ (view_inv w -> view_inv w')).
  { intros rc w' Hg Hrc. split; [by apply grows_loads|]. destruct Hg as [Heq Hg].
    split_and!; [done|intros _; by rewrite Heq|done|]. intros [Hok _]. split; [by apply Hg|].
    rewrite Heq. cbn. congruence. }
  load_next Hbad w1 Hg1 Hc1. load_next Hbad w2 Hg2 Hc2. load_next Hbad w3 Hg3 Hc3.
  load_next Hbad w4 Hg4 Hc4. load_next Hbad w5 Hg5 Hc5. load_next Hbad w6 Hg6 Hc6.
  load_next Hbad w7 Hg7 Hc7. load_next Hbad w8 Hg8 Hc8. load_next Hbad w9 Hg9 Hc9.
  load_next Hbad w10 Hg10 Hc10. clear Hbad.
  apply wp_bind, wp_gets, wp_bind, wp_modify, wp_ret.
  pose proof Hg10 as [Heq _].
  split; [|split_and!; [done|done|done|]].
  { split; [|exact (proj2 Hg10)]. rewrite Heq. eexists. split; reflexivity. }
  intros [Hok _].
  advance Hc1 K1. advance Hc2 K2. advance Hc3 K3. advance Hc4 K4. advance Hc5 K5.
  advance Hc6 K6. advance Hc7 K7. advance Hc8 K8. advance Hc9 K9. advance Hc10 K10.
  repeat match goal with
         | G : grows ?a ?b, K : cfg_ok ?a, C : cached (tbl ?a) _ _ _ |- _ =>
             apply (proj2 (proj2 G K)) in C
         end.
  split; [exact K10|]. intros _. split; cbn; try done.
  - by exists v3.
  - by exists v6, p6.
  - by exists v7, p7.
  - exists v8, p8. split_and!; [done|done|].
    change (Z.to_nat 6) with 6%nat. by destruct p8, (channel_mask_valid _).
Qed.

(** ** Writing through *)
Definition others (key : string) (t t' : list setting) : Prop :=
  forall key' v p, key' <> key -> cached t key' v p -> cached t' key' v p.

Lemma persist_spec key v len w :
  zlen v = len ->
  wp (persist key v len) (fun rc w' => only_cfg w w' /\
    (cfg_ok w -> cfg_ok w' /\ (rc <> 0 -> tbl w' = tbl w) /\
       (rc = 0 -> cached (tbl w') key v true) /\ others key (tbl w) (tbl w'))) w.
Proof.
  intros Hl. unfold wp, persist, setting_write. rewrite cfg_run. split; [done|]. intros Hok.
  split; [by apply write_cache_ok|].
  destruct (write_cached key v len (w_cfg w) Hok Hl) as (Ha & Hb & Hc). by split_and!.
Qed.

(** The view under an update of one value. *)
Definition put_law (key : string) (v : list Z) (f : credential_store -> credential_store) : Prop :=
  forall t t' c, cred_view t c -> others key t t' -> cached t' key v true -> cred_view t' (f c).
Ltac view_step :=
  match goal with
  | H : exists _, _ |- _ => destruct H
  | H : _ /\ _ |- _ => destruct H
  end.
Ltac view_put := intros t t' c [] Ho Hc; repeat view_step;
  split; cbn; first [done | (apply Ho; [done|done]) | idtac];
  repeat match goal with
         | |- exists v p, cached _ ?k v p /\ _ =>
             first [do 2 eexists; split; [exact Hc|]
                   | match goal with C : cached _ k ?v ?p |- _ => exists v, p; split; [apply Ho; done|] end]
         | |- exists v, cached _ ?k v _ /\ _ =>
             first [eexists; split; [exact Hc|]
                   | match goal with C : cached _ k ?v _ |- _ => exists v; split; [apply Ho; done|] end]
         end; try done.
Lemma dev_eui_law v : put_law "deveui" v (put_dev_eui v).
Proof. view_put. Qed.
Lemma app_eui_law v : put_law "joineui" v (put_app_eui v).
Proof. view_put. Qed.
Lemma app_key_law v : put_law "appkey" v (put_app_key v).
Proof. view_put. Qed.
Lemma gen_app_key_law v : put_law "genappkey" v (put_gen_app_key v).
Proof. view_put. Qed.
Lemma nwk_skey_law v : put_law "nwkskey" v (put_nwk_skey v).
Proof. view_put. Qed.
Lemma app_skey_law v : put_law "appskey" v (put_app_skey v).
Proof. view_put. Qed.
Lemma load32_store32 a : 0 <= a < 4294967296 -> load32 (store32 a) = a.
Proof. intros Ha. unfold load32, store32, u8. cbn [nth]. Z.div_mod_to_equations; lia. Qed.
Lemma dev_addr_law a : 0 <= a < 4294967296 -> put_law "devaddr" (store32 a) (put_dev_addr a).
Proof. intros Ha. view_put. by rewrite load32_store32. Qed.
Lemma njm_law mode : 0 <= mode <= 1 -> put_law "njm" [njm_wire mode] (put_njm mode).
Proof.
  intros Hm. view_put. assert (mode = 0 \/ mode = 1) as [->| ->] by lia; done.
Qed.
Lemma policy_law p : put_law "join_policy" p
  (put_policy (negb (at_ p RZI_JOIN_POLICY_AUTO =? 0)) (at_ p RZI_JOIN_POLICY_INTERVAL)
     (at_ p RZI_JOIN_POLICY_ATTEMPTS)).
Proof. view_put. Qed.

(** 16-bit words survive their byte encoding. *)
Lemma load16_cons a b l i : load16 (a :: b :: l) (S i) = load16 l i.
Proof. unfold load16. replace (2 * S i)%nat with (S (S (2 * i))) by lia. done. Qed.
Lemma load_store_words ws n : length ws = n -> Forall (fun x => 0 <= x < 65536) ws ->
  load_words (store_words ws) n = ws.
Proof.
  intros <- Hw. unfold load_words. induction Hw as [|x ws Hx Hw IH]; [done|].
  cbn [length seq fmap list_fmap]. f_equal.
  - unfold load16, store_words, store16, u8. cbn. Z.div_mod_to_equations; lia.
  - rewrite <- fmap_S_seq, <- list_fmap_compose. etransitivity; [|exact IH].
    apply list_fmap_ext. intros i y _. unfold compose, store_words. cbn [fmap list_fmap concat].
    apply load16_cons.
Qed.
Lemma length_store_words ws : length (store_words ws) = (2 * length ws)%nat.
Proof. unfold store_words. induction ws; cbn in *; lia. Qed.

Lemma mask_law m b :
  length m = 6%nat -> Forall (fun x => 0 <= x < 65536) m -> b = channel_mask_valid m ->
  put_law "chmask" (store_words m) (put_channel_mask m b).
Proof. intros Hl Hm ->. view_put. split; [exact (eq_sym (load_store_words m 6 Hl Hm))|done]. Qed.

(** The common shape of the setters of a loaded, unlocked store. *)
Lemma store_view key v len f w rc' (m := rc* rc := persist key v len else rc in (upd_cred f ;;; ret rc')) :
  zlen v = len -> put_law key v f -> (forall c, loaded (f c) = loaded c) ->
  loaded (w_cred w) = true -> view_inv w -> view_inv (m w).2.
Proof.
  intros Hl Hlaw Hld Hloaded [Hok Hv]. unfold m, bind.
  pose proof (persist_spec key v len w Hl) as [Ho Hs]. unfold wp in *.
  destruct (persist key v len w) as [rc w1]. cbn in *. destruct (Hs Hok) as (Hok1 & Hne & He & Hoth).
  destruct (Z.eqb_spec rc 0) as [->|Hrc].
  - cbn. split; [done|]. intros _. cbn. apply (Hlaw (tbl w)); [|done|by apply He].
    rewrite Ho. by apply Hv.
  - split; [done|]. cbn. rewrite (Hne Hrc). rewrite Ho. done.
Qed.

(** *** The operations as calls *)
Inductive cred_call : Type :=
| SetDevEui (src : option (list Z)) (len : Z) | SetAppEui (src : option (list Z)) (len : Z)
| SetAppKey (src : option (list Z)) (len : Z) | SetGenAppKey (src : option (list Z)) (len : Z)
| SetNwkSkey (src : option (list Z)) (len : Z) | SetAppSkey (src : option (list Z)) (len : Z)
| SetDevAddr (addr : Z) | SetActivation (mode : Z) | UpdatePolicy (a i n : Z)
| SetChannelMask (mask : option (list Z)) | ClearSettings
| GetDevEui (dst : option (list Z)) (len : Z) | GetAppEui (dst : option (list Z)) (len : Z)
| GetAppKey (dst : option (list Z)) (len : Z) | GetGenAppKey (dst : option (list Z)) (len : Z)
| GetNwkSkey (dst : option (list Z)) (len : Z) | GetAppSkey (dst : option (list Z)) (len : Z)
| GetDevAddr (out : option Z) | GetActivation (out : option Z) | GetAutoJoin (out : option bool)
| GetJoinInterval (out : option Z) | GetJoinAttempts (out : option Z)
| GetChannelMask | BuildConfig.

(** The code a call returns. *)
Definition code {A} (m : M world (Z * A)) : M world Z := let* r := m in ret r.1.
Definition run_cred (c : cred_call) : M world Z :=
  match c with
  | SetDevEui s l => rzi_lorawan_set_dev_eui s l
  | SetAppEui s l => rzi_lorawan_set_app_eui s l
  | SetAppKey s l => rzi_lorawan_set_app_key s l
  | SetGenAppKey s l => rzi_lorawan_set_gen_app_key s l
  | SetNwkSkey s l => rzi_lorawan_set_nwk_skey s l
  | SetAppSkey s l => rzi_lorawan_set_app_skey s l
  | SetDevAddr a => rzi_lorawan_set_dev_addr a
  | SetActivation m => rzi_lorawan_set_activation m
  | UpdatePolicy a i n => rzi_lorawan_credentials_update_policy a i n
  | SetChannelMask m => rzi_lorawan_credentials_set_channel_mask m
  | ClearSettings => rzi_lorawan_clear_settings
  | GetDevEui d l => code (rzi_lorawan_get_dev_eui d l)
  | GetAppEui d l => code (rzi_lorawan_get_app_eui d l)
  | GetAppKey d l => code (rzi_lorawan_get_app_key d l)
  | GetGenAppKey d l => code (rzi_lorawan_get_gen_app_key d l)
  | GetNwkSkey d l => code (rzi_lorawan_get_nwk_skey d l)
  | GetAppSkey d l => code (rzi_lorawan_get_app_skey d l)
  | GetDevAddr o => code (rzi_lorawan_get_dev_addr o)
  | GetActivation o => code (rzi_lorawan_get_activation o)
  | GetAutoJoin o => code (rzi_lorawan_get_auto_join o)
  | GetJoinInterval o => code (rzi_lorawan_get_join_interval o)
  | GetJoinAttempts o => code (rzi_lorawan_get_join_attempts o)
  | GetChannelMask => code rzi_lorawan_credentials_get_channel_mask
  | BuildConfig => code rzi_lorawan_credentials_build_config
  end.
(** The C types of the arguments: a buffer of [len] bytes, an unsigned
    32-bit address, an array of mask words. *)
Definition buffer_ok (src : option (list Z)) (len : Z) : Prop :=
  forall v, src = Some v -> zlen v = len.
Definition mask_ok (mask : option (list Z)) : Prop :=
  forall m, mask = Some m -> length m = 6%nat /\ Forall (fun x => 0 <= x < 65536) m.
Definition call_ok (c : cred_call) : Prop :=
  match c with
  | SetDevEui s l | SetAppEui s l | SetAppKey s l | SetGenAppKey s l | SetNwkSkey s l
  | SetAppSkey s l => buffer_ok s l
  | SetDevAddr a => 0 <= a < 4294967296
  | SetChannelMask m => mask_ok m
  | _ => True
  end.
(** The calls that write a credential (the join policy is not one). *)
Definition writes_credential (c : cred_call) : bool :=
  match c with
  | SetDevEui _ _ | SetAppEui _ _ | SetAppKey _ _ | SetGenAppKey _ _ | SetNwkSkey _ _
  | SetAppSkey _ _ | SetDevAddr _ | SetActivation _ | SetChannelMask _ | ClearSettings => true
  | _ => false
  end.

Lemma ensure_loaded_view : preserves view_inv ensure_loaded_locked.
Proof. intros w Hv. destruct (ensure_loaded_spec w) as (_ & _ & _ & _ & Hp). by apply Hp. Qed.

Lemma preserves_pure (m : M world Z) : (forall w, (m w).2 = w) -> preserves view_inv m.
Proof. intros Hm w. by rewrite Hm. Qed.

(** Continuing after the store is loaded. *)
Lemma after_loaded (k : M world Z) :
  (forall w, loaded (w_cred w) = true -> view_inv w -> view_inv (k w).2) ->
  preserves view_inv (rc* rc := ensure_loaded_locked else rc in k).
Proof.
  intros Hk w Hv. unfold bind. destruct (ensure_loaded_spec w) as (_ & Hl & _ & _ & Hp).
  destruct (ensure_loaded_locked w) as [rc w1]. cbn [fst snd] in *.
  destruct (Z.eqb_spec rc 0) as [->|]; [|by apply Hp]. apply Hk; auto.
Qed.
Lemma unless_busy key v len f w :
  zlen v = len -> put_law key v f -> (forall c, loaded (f c) = loaded c) ->
  loaded (w_cred w) = true -> view_inv w ->
  view_inv ((let* busy := get_cred join_active in
             if busy then ret (- RZI_ERR_BUSY)
             else rc* rc := persist key v len else rc in (upd_cred f ;;; ret 0)) w).2.
Proof.
  intros Hl Hlaw Hld Hloaded Hv. unfold bind at 1, get_cred, gets.
  destruct (join_active _); [done|]. by apply store_view.
Qed.

Lemma set_bytes_view F key src len expected :
  buffer_ok src len -> (forall v, put_law key v (f_put F v)) ->
  (forall v c, loaded (f_put F v c) = loaded c) ->
  preserves view_inv (set_bytes F key src len expected).
Proof.
  intros Hb Hlaw Hld w Hv. unfold set_bytes, bind at 1. rewrite check_thread_run.
  destruct k_is_in_isr; [done|]. cbn [Z.eqb]. destruct src as [v|]; [|done].
  destruct (Z.eqb_spec len expected) as [->|]; [|done]. cbn [negb].
  apply after_loaded; [|done]. intros w1 Hl1 Hv1. by apply unless_busy; auto.
Qed.

Lemma get_view {A} (m : M world A) : preserves view_inv m -> forall (k : A -> M world Z),
  (forall a, preserves view_inv (k a)) -> preserves view_inv (bind m k).
Proof. intros. by apply preserves_bind. Qed.

Lemma sinks_view w w' : sinks w w' -> view_inv w -> view_inv w'.
Proof. by intros (b & q & o & ->). Qed.
Lemma call_view {A} (op : bop backend_state A) : preserves view_inv (call op).
Proof. intros w. apply sinks_view, call_sinks. Qed.
Lemma check_started_view : preserves view_inv rzi_lorawan_check_started.
Proof. intros w Hv. by rewrite check_started_run. Qed.
#[local] Hint Resolve ensure_loaded_view call_view check_started_view : frame.
Lemma upd_core_view f : preserves view_inv (upd_core f).
Proof. by intros w. Qed.
Lemma setting_read_view key size : preserves view_inv (setting_read key size).
Proof.
  intros w [Hok Hv]. unfold setting_read. rewrite cfg_run. cbn.
  destruct (read_cached key size (w_cfg w) Hok) as [Hm _].
  split; [by apply read_cache_ok|]. intros Hl. destruct (Hv Hl). cbn in *.
  repeat view_step. split; eauto 10; cbn; eauto 12.
Qed.
#[local] Hint Resolve upd_core_view setting_read_view : frame.
Lemma get_region_view out : preserves view_inv (rzi_lorawan_get_region out).
Proof.
  unfold rzi_lorawan_get_region, rzi_lorawan_check_thread, get_core, rzi_lorawan_config_get_region.
  preserve.
Qed.
#[local] Hint Resolve get_region_view : frame.
Lemma code_view {A} (m : M world (Z * A)) : preserves view_inv m -> preserves view_inv (code m).
Proof. intros Hm. unfold code. preserve; try done; apply preserves_ret. Qed.

Lemma get_bytes_view F dst len expected : preserves view_inv (get_bytes F dst len expected).
Proof. unfold get_bytes, rzi_lorawan_check_thread, get_cred. preserve. Qed.
Lemma session_joined_view : preserves view_inv session_joined.
Proof. unfold session_joined, backend_is_joined. preserve. Qed.
#[local] Hint Resolve get_bytes_view session_joined_view : frame.
Lemma read_otaa_key_view read key len : preserves view_inv (read_otaa_key read key len).
Proof. unfold read_otaa_key. preserve. Qed.
Lemma read_otaa_dev_addr_view a : preserves view_inv (read_otaa_dev_addr a).
Proof. unfold read_otaa_dev_addr. preserve. Qed.
#[local] Hint Resolve read_otaa_key_view read_otaa_dev_addr_view : frame.
Lemma get_session_key_view F read key len : preserves view_inv (get_session_key F read key len).
Proof. unfold get_session_key, rzi_lorawan_check_thread, get_cred. preserve. Qed.
Lemma get_loaded_view {A} (f : credential_store -> A) out : preserves view_inv (get_loaded f out).
Proof. unfold get_loaded, rzi_lorawan_check_thread, get_cred. preserve. Qed.
#[local] Hint Resolve get_session_key_view get_loaded_view : frame.

Lemma set_dev_addr_view a : 0 <= a < 4294967296 -> preserves view_inv (rzi_lorawan_set_dev_addr a).
Proof.
  intros Ha w Hv. unfold rzi_lorawan_set_dev_addr, bind at 1. rewrite check_thread_run.
  destruct k_is_in_isr; [done|]. cbn [Z.eqb]. apply after_loaded; [|done].
  intros w1 Hl1 Hv1. apply unless_busy; auto using dev_addr_law.
Qed.
Lemma activation_range mode : activation_supported mode = true -> 0 <= mode <= 1.
Proof.
  unfold activation_supported. destruct (Z.eqb_spec mode 0); [lia|].
  destruct (Z.eqb_spec mode 1); [lia|done].
Qed.
Lemma set_activation_view mode : preserves view_inv (rzi_lorawan_set_activation mode).
Proof.
  intros w Hv. unfold rzi_lorawan_set_activation, bind at 1. rewrite check_thread_run.
  destruct k_is_in_isr; [done|]. cbn [Z.eqb]. destruct (activation_supported mode) eqn:E; [|done].
  cbn [negb]. apply after_loaded; [|done]. intros w1 Hl1 Hv1.
  apply unless_busy; auto using njm_law, activation_range.
Qed.
Lemma update_policy_view a i n : preserves view_inv (rzi_lorawan_credentials_update_policy a i n).
Proof.
  intros w Hv. unfold rzi_lorawan_credentials_update_policy, bind at 1. rewrite check_thread_run.
  destruct k_is_in_isr; [done|]. cbn [Z.eqb]. destruct (policy_args_ok a i n); [|done].
  cbn [negb]. apply after_loaded; [|done]. intros w1 Hl1 Hv1.
  unfold bind at 1, get_cred, gets. apply store_view; auto using policy_law.
Qed.
Lemma default_mask_ok mask : mask_ok mask ->
  let m := default (replicate (Z.to_nat RZI_LORAWAN_CHANNEL_MASK_WORDS) 0) mask in
  length m = 6%nat /\ Forall (fun x => 0 <= x < 65536) m.
Proof.
  intros Hm. destruct mask as [m|]; [by apply Hm|]. split; [done|]. by repeat constructor.
Qed.
Lemma set_mask_view mask : mask_ok mask ->
  preserves view_inv (rzi_lorawan_credentials_set_channel_mask mask).
Proof.
  intros Hm w Hv. unfold rzi_lorawan_credentials_set_channel_mask.
  destruct (default_mask_ok mask Hm) as [Hl Hr].
  destruct (match mask with Some _ => _ | None => _ end) eqn:E; [done|].
  apply after_loaded; [|done]. intros w1 Hl1 Hv1. apply unless_busy; auto.
  - unfold zlen. rewrite length_store_words, Hl. done.
  - apply mask_law; [done|done|]. destruct mask as [m|]; cbn; [|by vm_compute].
    by apply negb_false_iff in E.
Qed.
Lemma clear_view : preserves view_inv rzi_lorawan_clear_settings.
Proof.
  intros w [Hok Hv]. unfold rzi_lorawan_clear_settings, bind at 1. rewrite check_thread_run.
  destruct k_is_in_isr; [done|]. cbn [Z.eqb]. unfold rzi_lorawan_credentials_clear_settings, bind.
  unfold get_cred, gets. destruct (join_active (w_cred w)); [done|]. rewrite cfg_run.
  pose proof (clear_cache_ok (w_cfg w) Hok) as Hc. pose proof (clear_table (w_cfg w)) as Ht.
  destruct (rzi_lorawan_settings_clear (w_cfg w)) as [rc st]. cbn in *.
  destruct Ht as [[Hrc Ht]|[-> Ht]]; [|by split].
  destruct (Z.eqb_spec rc 0); [done|]. split; [done|]. unfold tbl. cbn. by rewrite Ht.
Qed.
Lemma build_config_view : preserves view_inv rzi_lorawan_credentials_build_config.
Proof. unfold rzi_lorawan_credentials_build_config, rzi_lorawan_check_thread, get_cred. preserve. Qed.
Lemma get_mask_view : preserves view_inv rzi_lorawan_credentials_get_channel_mask.
Proof. unfold rzi_lorawan_credentials_get_channel_mask, get_cred. preserve. Qed.

Lemma run_cred_view c : call_ok c -> preserves view_inv (run_cred c).
Proof.
  destruct c; cbn [call_ok run_cred]; intros Hok;
    first [by apply set_bytes_view; auto using dev_eui_law, app_eui_law, app_key_law,
             gen_app_key_law, nwk_skey_law, app_skey_law
          |by apply set_dev_addr_view |apply set_activation_view |apply update_policy_view
          |by apply set_mask_view |apply clear_view
          |apply code_view; first [apply get_bytes_view | apply get_session_key_view
             | apply get_loaded_view | apply get_mask_view | apply build_config_view | idtac]].
  unfold rzi_lorawan_get_dev_addr, rzi_lorawan_check_thread, get_cred. preserve.
Qed.

(** ** Properties *)

(** C2: The credential cache is a view of the settings: once loaded, every member equals the
    decoded value cached under its key, after any sequence of credential calls, whatever the
    flash and the backend do. *)
Theorem credentials_are_a_view calls w :
  Forall call_ok calls -> view_inv w ->
  view_inv (for_each calls (fun c => run_cred c ;;; ret tt) w).2.
Proof.
  intros Hc. revert w. induction Hc as [|c calls Hok Hc IH]; intros w Hv; cbn [for_each]; [done|].
  unfold bind. pose proof (run_cred_view c Hok w Hv) as Hv1.
  destruct (run_cred c w) as [rc w1]. by apply IH.
Qed.

(** Loading is all or nothing: a failed load leaves the credentials as they were, a successful
    one publishes them all at once; neither touches the join lock nor any state outside the
    credential and settings caches, and nothing is read again once loaded. *)
Theorem ensure_loaded_atomic w :
  let r := ensure_loaded_locked w in
  loads w r.2 /\ (r.1 = 0 -> loaded (w_cred r.2) = true) /\ (r.1 <> 0 -> w_cred r.2 = w_cred w) /\
  (loaded (w_cred w) = true -> r = (0, w)).
Proof.
  destruct (ensure_loaded_spec w) as (Hl & Ha & Hb & Hc & _). split_and!; try done.
  intros Hld. destruct (Hc Hld) as [Hr Hw]. destruct (ensure_loaded_locked w). cbn in *. congruence.
Qed.

Lemma ensure_loaded_done w : loaded (w_cred w) = true -> ensure_loaded_locked w = (0, w).
Proof.
  intros Hld. destruct (ensure_loaded_spec w) as (_ & _ & _ & Hc & _).
  destruct (Hc Hld) as [Ha Hb]. destruct (ensure_loaded_locked w). cbn in *. congruence.
Qed.

(** The same device without a join sequence. *)
Definition released (w : world) : world := set_w_cred (put_join_active false (w_cred w)) w.
(** C39: While a join sequence owns them the credentials cannot be changed: every call that writes
    a credential, or clears them all, fails and changes nothing at all, neither in memory nor in
    flash; and one that would succeed if there were no join sequence fails with the busy code. *)
Theorem credentials_locked_while_joining c w :
  loaded (w_cred w) = true -> join_active (w_cred w) = true -> writes_credential c = true ->
  (run_cred c w).1 <> 0 /\ (run_cred c w).2 = w /\
  ((run_cred c (released w)).1 = 0 -> (run_cred c w).1 = - RZI_ERR_BUSY).
Proof.
  intros Hld Hj Hc. assert (Hld' : loaded (w_cred (released w)) = true) by done.
  assert (Hset : forall F key src len n,
    (set_bytes F key src len n w).1 <> 0 /\ (set_bytes F key src len n w).2 = w /\
    ((set_bytes F key src len n (released w)).1 = 0 -> (set_bytes F key src len n w).1 = - RZI_ERR_BUSY)).
  { intros. unfold set_bytes, bind. rewrite !check_thread_run. destruct k_is_in_isr; [done|].
    cbn [Z.eqb]. destruct src; [|done]. destruct (negb (len =? n)); [done|].
    rewrite !ensure_loaded_done by done. cbn. by rewrite Hj. }
  destruct c; try discriminate; cbn [run_cred]; try apply Hset.
  - unfold rzi_lorawan_set_dev_addr, bind. rewrite !check_thread_run. destruct k_is_in_isr; [done|].
    cbn [Z.eqb]. rewrite !ensure_loaded_done by done. cbn. by rewrite Hj.
  - unfold rzi_lorawan_set_activation, bind. rewrite !check_thread_run. destruct k_is_in_isr; [done|].
    cbn [Z.eqb]. destruct (activation_supported mode); cbn [negb]; [|by destruct (_ || _)].
    rewrite !ensure_loaded_done by done. cbn. by rewrite Hj.
  - unfold rzi_lorawan_credentials_set_channel_mask.
    match goal with |- context [if match ?x with Some _ => _ | None => _ end then _ else _] =>
      destruct (match x with Some m => negb (channel_mask_valid m) | None => false end) end; [done|].
    unfold bind. rewrite !ensure_loaded_done by done. cbn. by rewrite Hj.
  - unfold rzi_lorawan_clear_settings, rzi_lorawan_credentials_clear_settings, bind.
    rewrite !check_thread_run. destruct k_is_in_isr; [done|]. cbn. by rewrite Hj.
Qed.

(** What a setter that returns zero has done. *)
Lemma set_bytes_done F key v len n w :
  (set_bytes F key (Some v) len n w).1 = 0 ->
  let w' := (set_bytes F key (Some v) len n w).2 in
  k_is_in_isr = false /\ len = n /\ exists c, w_cred w' = f_put F v c /\ loaded c = true.
Proof.
  cbv zeta. unfold set_bytes, bind. rewrite check_thread_run. destruct k_is_in_isr; [done|]. cbn [Z.eqb].
  destruct (Z.eqb_spec len n) as [->|]; [|done]. cbn [negb].
  destruct (ensure_loaded_spec w) as (_ & Hl & _). destruct (ensure_loaded_locked w) as [rc w1].
  cbn [fst snd] in *. destruct (Z.eqb_spec rc 0) as [->|]; [|done]. unfold get_cred, gets.
  destruct (join_active (w_cred w1)); [done|]. unfold persist, setting_write. rewrite cfg_run.
  destruct (Z.eqb_spec (rzi_lorawan_setting_write key v n (w_cfg w1)).1 0); [|done].
  intros _. split_and!; [done|done|]. exists (w_cred w1). split; [reflexivity|by apply Hl].
Qed.

(** The byte credentials read back through the getter of the same kind. *)
Definition byte_credentials : list (cred_field * string * Z) :=
  [(F_dev_eui, "deveui", 8); (F_app_eui, "joineui", 8); (F_app_key, "appkey", 16);
   (F_gen_app_key, "genappkey", 16)]%string.

(** What the getters find once a field was put into the loaded store. *)
Lemma stored_credential_read F key n v old c w' :
  zlen v = n -> length old = length v -> k_is_in_isr = false -> w_cred w' = f_put F v c -> loaded c = true ->
  ((F, key, n) ∈ byte_credentials -> get_bytes F (Some old) n n w' = ((0, Some v), w')) /\
  (F = F_nwk_skey -> n = 16 -> njm (w_cred w') = RZI_LORAWAN_ACTIVATION_ABP ->
     rzi_lorawan_get_nwk_skey (Some old) n w' = ((0, Some v), w')) /\
  (F = F_app_skey -> n = 16 -> njm (w_cred w') = RZI_LORAWAN_ACTIVATION_ABP ->
     rzi_lorawan_get_app_skey (Some old) n w' = ((0, Some v), w')).
Proof.
  intros Hn Hl Hisr Hw Hld.
  assert (Hov : overlay old 0 v = v) by (apply overlay_all; lia).
  split; [|split].
  - intros Hin. unfold get_bytes, bind. rewrite check_thread_run, Hisr, (Z.eqb_refl n). cbn [negb Z.eqb].
    assert (Hf : loaded (w_cred w') = true /\ f_valid F (w_cred w') = true /\ f_get F (w_cred w') = v).
    { rewrite Hw. unfold byte_credentials in Hin.
      repeat (apply elem_of_cons in Hin as [[= -> -> ->]|Hin]; [by split_and!|]).
      by apply elem_of_nil in Hin. }
    destruct Hf as (Hld' & Hv & Hg). rewrite ensure_loaded_done by done. cbn.
    by rewrite Hv, Hg, Hov.
  - intros -> -> Habp. unfold rzi_lorawan_get_nwk_skey, get_session_key, bind.
    rewrite check_thread_run, Hisr. cbn [negb Z.eqb Pos.eqb].
    rewrite ensure_loaded_done by by rewrite Hw. cbn. rewrite Habp, Hw. cbn. by rewrite Hov.
  - intros -> -> Habp. unfold rzi_lorawan_get_app_skey, get_session_key, bind.
    rewrite check_thread_run, Hisr. cbn [negb Z.eqb Pos.eqb].
    rewrite ensure_loaded_done by by rewrite Hw. cbn. rewrite Habp, Hw. cbn. by rewrite Hov.
Qed.

(** Set then get: an EUI or a root key that was accepted is read back unchanged, and an ABP
    session key is read back unchanged while the activation mode is ABP. *)
Theorem credential_set_get F key n v old w :
  zlen v = n -> length old = length v ->
  (set_bytes F key (Some v) n n w).1 = 0 ->
  let w' := (set_bytes F key (Some v) n n w).2 in
  ((F, key, n) ∈ byte_credentials -> get_bytes F (Some old) n n w' = ((0, Some v), w')) /\
  (F = F_nwk_skey -> n = 16 -> njm (w_cred w') = RZI_LORAWAN_ACTIVATION_ABP ->
     rzi_lorawan_get_nwk_skey (Some old) n w' = ((0, Some v), w')) /\
  (F = F_app_skey -> n = 16 -> njm (w_cred w') = RZI_LORAWAN_ACTIVATION_ABP ->
     rzi_lorawan_get_app_skey (Some old) n w' = ((0, Some v), w')).
Proof.
  intros Hn Hl Hrc. destruct (set_bytes_done _ _ _ _ _ _ Hrc) as (Hisr & _ & c & Hw & Hld).
  cbv zeta. by eapply stored_credential_read.
Qed.

Definition keep_or (arg old : Z) : Z := if arg =? RZI_LORAWAN_JOIN_KEEP then old else arg.

(** Updating the join policy: accepted arguments are in range, the kept fields stay as loaded,
    the given ones take the new values, and no other credential moves. *)
Theorem update_policy_merges a i n w :
  loaded (w_cred w) = true ->
  byte_range (join_interval (w_cred w)) -> byte_range (join_attempts (w_cred w)) ->
  (rzi_lorawan_credentials_update_policy a i n w).1 = 0 ->
  let c := w_cred w in
  let w' := (rzi_lorawan_credentials_update_policy a i n w).2 in
  (a = -1 \/ a = 0 \/ a = 1) /\ (i = -1 \/ 7 <= i <= 255) /\ (n = -1 \/ 0 <= n <= 255) /\
  w_cred w' = put_policy (if a =? -1 then auto_join c else a =? 1)
    (keep_or i (join_interval c)) (keep_or n (join_attempts c)) c.
Proof.
  intros Hld Hi Hn. unfold rzi_lorawan_credentials_update_policy, bind. rewrite check_thread_run.
  destruct k_is_in_isr; [done|]. cbn [Z.eqb]. destruct (policy_args_ok a i n) eqn:Ea; [|done].
  cbn [negb]. rewrite ensure_loaded_done by done. cbn [Z.eqb get_cred gets].
  unfold persist, setting_write. rewrite cfg_run.
  destruct (Z.eqb_spec (rzi_lorawan_setting_write "join_policy"
    (merged_policy a i n (w_cred w)) 3 (w_cfg w)).1 0); [|done]. intros _. cbn [fst snd].
  unfold policy_args_ok, UINT8_MAX in Ea. apply negb_true_iff in Ea.
  apply orb_false_iff in Ea as [[Ea Ei]%orb_false_iff En].
  assert (Ha : a = -1 \/ a = 0 \/ a = 1).
  { destruct (Z.eqb_spec a (-1)), (Z.eqb_spec a 0), (Z.eqb_spec a 1); cbn in Ea; lia || discriminate. }
  assert (Hir : i = -1 \/ 7 <= i <= 255).
  { destruct (Z.eqb_spec i (-1)); [by left|right]. cbn in Ei. zify_tests. lia. }
  assert (Hnr : n = -1 \/ 0 <= n <= 255).
  { destruct (Z.eqb_spec n (-1)); [by left|right]. cbn in En. zify_tests. lia. }
  split_and!; try done. set (p := merged_policy a i n (w_cred w)).
  transitivity (put_policy (negb (at_ p 0 =? 0)) (at_ p 1) (at_ p 2) (w_cred w)); [reflexivity|].
  change (at_ p 0) with (u8 (if a =? -1 then b2z (auto_join (w_cred w)) else a)).
  change (at_ p 1) with (u8 (keep_or i (join_interval (w_cred w)))).
  change (at_ p 2) with (u8 (keep_or n (join_attempts (w_cred w)))).
  unfold byte_range, u8, keep_or in *. f_equal.
  - destruct (Z.eqb_spec a (-1)) as [->|]; [by destruct (auto_join (w_cred w))|].
    by destruct Ha as [|[-> | ->]].
  - rewrite Z.mod_small; [done|]. destruct (Z.eqb_spec i (-1)); lia.
  - rewrite Z.mod_small; [done|]. destruct (Z.eqb_spec n (-1)); lia.
Qed.

(** The join configuration handed to the backend is built from the loaded credentials for the
    configured region, and a channel mask is part of it only on a fixed-plan region with a
    backend that applies it, and then it is a valid, non-empty mask. *)
Theorem build_config_sound w :
  view_inv w ->
  let r := rzi_lorawan_credentials_build_config w in
  (r.1.1 = 0 -> exists region cfg, r.1.2 = Some cfg /\ cfg = join_config_of region (w_cred r.2) /\
     loaded (w_cred r.2) = true /\
     (j_channel_mask_set cfg = true ->
        (region = RZI_LORAWAN_REGION_US_915 \/ region = RZI_LORAWAN_REGION_AU_915) /\
        has_cap RZI_LORAWAN_CAP_CHANNEL = true /\
        channel_mask_valid (j_channel_mask cfg) = true)) /\
  (r.1.1 <> 0 -> r.1.2 = None).
Proof.
  intros Hv. unfold rzi_lorawan_credentials_build_config, bind. rewrite check_thread_run.
  destruct k_is_in_isr; [done|]. cbn [negb Z.eqb].
  pose proof (get_region_view (Some 0) w Hv) as Hv1.
  destruct (rzi_lorawan_get_region (Some 0) w) as [[rc region] w1]. cbn [fst snd] in *.
  destruct (Z.eqb_spec rc 0) as [->|]; cbn [negb]; [|done].
  destruct (ensure_loaded_spec w1) as (_ & Hl & _ & _ & Hv2).
  destruct (ensure_loaded_locked w1) as [rc2 w2]. cbn [fst snd] in *.
  destruct (Z.eqb_spec rc2 0) as [->|]; cbn [negb]; [|done]. split; [|done]. intros _.
  exists (default 0 region). eexists. split; [done|]. split; [done|]. split; [by apply Hl|].
  cbn [snd get_cred gets fst]. unfold join_config_of. cbn [j_channel_mask_set j_channel_mask].
  destruct (channel_mask_set (w_cred w2)) eqn:Es; [|done].
  destruct (rzi_lorawan_region_has_fixed_plan (default 0 region)) eqn:Er; [|done].
  destruct (has_cap RZI_LORAWAN_CAP_CHANNEL); [|done]. intros _. cbn. split.
  - unfold rzi_lorawan_region_has_fixed_plan in Er. apply orb_true_iff in Er as [?%Z.eqb_eq|?%Z.eqb_eq]; auto.
  - split; [done|]. destruct (Hv2 Hv1) as [_ Hview]. destruct (Hview (Hl eq_refl)).
    repeat view_step. rewrite Es in *. destruct (channel_mask_valid _); [done|].
    by rewrite andb_false_r in *.
Qed.
End loading.

Module CredentialsWitness.
Import SimInstances.
Local Open Scope string_scope.

Lemma boot_view : view_inv boot.
Proof. split; [exact SettingsWitness.cold_ok|done]. Defined.

Definition some_eui : list Z := [1; 2; 3; 4; 5; 6; 7; 8].
Definition some_calls : list cred_call :=
  [SetDevEui (Some some_eui) 8; GetActivation (Some 0); SetDevAddr 77].
Lemma some_calls_ok : Forall call_ok some_calls.
Proof.
  apply Forall_cons; split; [intros v [= <-]; reflexivity|].
  apply Forall_cons; split; [exact I|]. apply Forall_cons; split; [cbn; lia|]. apply Forall_nil, I.
Defined.
Lemma credentials_are_a_view_witness :
  view_inv (for_each some_calls (fun c => run_cred c ;;; ret tt) boot).2.
Proof. exact (credentials_are_a_view some_calls boot some_calls_ok boot_view). Defined.

Lemma ensure_loaded_atomic_witness : loaded (w_cred (ensure_loaded_locked boot).2) = true.
Proof. refine (proj1 (proj2 (ensure_loaded_atomic boot)) _). vm_refl. Defined.
Definition joining : world :=
  sim_world (put_join_active true (CredentialStore some_eui true (replicate 8 0) false
    (replicate 16 0) false (replicate 16 0) false 0 false (replicate 16 0) false
    (replicate 16 0) false 0 false 8 0 (replicate 6 0) false false true)) core_init false.
Lemma credentials_locked_while_joining_witness :
  (run_cred (SetDevEui (Some some_eui) 8) joining).2 = joining.
Proof.
  exact (proj1 (proj2 (credentials_locked_while_joining (SetDevEui (Some some_eui) 8) joining
    eq_refl eq_refl eq_refl))).
Defined.

Definition eui_set : world :=
  (set_bytes F_dev_eui "deveui" (Some some_eui) 8 8 boot).2.
Lemma credential_set_get_witness :
  get_bytes F_dev_eui (Some (replicate 8 9)) 8 8 eui_set = ((0, Some some_eui), eui_set).
Proof.
  refine (proj1 (credential_set_get F_dev_eui "deveui" 8 some_eui (replicate 8 9) boot
    eq_refl eq_refl _) _).
  - vm_refl.
  - apply list_elem_of_here.
Defined.

Definition policy_world : world := joining.
Lemma update_policy_merges_witness :
  join_interval (w_cred (rzi_lorawan_credentials_update_policy (-1) 30 (-1) policy_world).2) = 30.
Proof.
  destruct (update_policy_merges (-1) 30 (-1) policy_world eq_refl) as (_ & _ & _ & Hw).
  - vm_compute. split; congruence.
  - vm_compute. split; congruence.
  - vm_refl.
  - rewrite Hw. reflexivity.
Defined.

Lemma build_config_sound_witness :
  (rzi_lorawan_credentials_build_config boot).1.1 = 0 /\
  ((rzi_lorawan_credentials_build_config boot).1.1 <> 0 ->
   (rzi_lorawan_credentials_build_config boot).1.2 = None).
Proof. split; [vm_refl|]. exact (proj2 (build_config_sound boot boot_view)). Defined.
End CredentialsWitness.
