(* ===== verification/LorawanChannel.v ===== *)
(** * LoRaWAN channel plan (src/lorawan/api/lorawan_channel.c)

    The sub-band and fixed-channel selections of US915 and AU915 as views of
    the one stored channel mask. *)
From S2P Require Import Prelude Zephyr Err Power Storage LorawanSettings LorawanBackend LorawanSim LorawanCore LorawanCredentials.

Abbreviation NARROW_STEP_HZ := 200000.
Abbreviation WIDE_STEP_HZ := 1600000.
Abbreviation SUB_BANDS := 8.
Abbreviation MASK_WORDS := (Z.to_nat RZI_LORAWAN_CHANNEL_MASK_WORDS).

Record channel_plan : Type := ChannelPlan { narrow_base_hz : Z; wide_base_hz : Z }.

Definition mask_zero : list Z := replicate MASK_WORDS 0.
(** [mask[channel / 16U] |= BIT(channel % 16U)] on 16-bit words *)
Definition put_channel (mask : list Z) (channel : Z) : list Z :=
  let i := Z.to_nat (channel / 16) in
  <[i := u16 (Z.lor (at_ mask (channel / 16)) (BIT (channel mod 16)))]> mask.
Definition has_channel (mask : list Z) (channel : Z) : bool := mask_bit mask channel.
(** The channels of [for (channel = first; channel < first + n; ++channel)]. *)
Definition channel_range (first : Z) (n : nat) : list Z := (fun i => first + Z.of_nat i) <$> seq 0 n.
Definition all_channels : list Z :=
  foldl put_channel mask_zero (channel_range 0 (Z.to_nat RZI_LORAWAN_FIXED_PLAN_CHANNELS)).
Definition sub_band_channels (sub_band : Z) : list Z :=
  put_channel (foldl put_channel mask_zero (channel_range (u32 (sub_band - 1) * 8) 8))
    (RZI_LORAWAN_FIXED_PLAN_WIDE + sub_band - 1).
Definition same_mask (a b : list Z) : bool := bool_decide (a = b).

Definition channel_frequency (plan : channel_plan) (channel : Z) : Z :=
  u32 (if channel <? RZI_LORAWAN_FIXED_PLAN_WIDE
       then narrow_base_hz plan + channel * NARROW_STEP_HZ
       else wide_base_hz plan + (channel - RZI_LORAWAN_FIXED_PLAN_WIDE) * WIDE_STEP_HZ).
(** The first channel of the plan with this frequency. *)
Fixpoint frequency_channel_from (plan : channel_plan) (channels : list Z) (frequency_hz : Z) : Z :=
  match channels with
  | [] => - RZI_ERR_INVALID
  | c :: channels' =>
      if channel_frequency plan c =? frequency_hz then c
      else frequency_channel_from plan channels' frequency_hz
  end.
Definition plan_channels : list Z := channel_range 0 (Z.to_nat RZI_LORAWAN_FIXED_PLAN_CHANNELS).
Definition frequency_channel (plan : channel_plan) (frequency_hz : Z) : Z :=
  frequency_channel_from plan plan_channels frequency_hz.
(** The sub-band whose mask is the current one, tried in order. *)
Fixpoint find_sub_band (current : list Z) (bands : list Z) : option Z :=
  match bands with
  | [] => None
  | b :: bands' =>
      if same_mask current (sub_band_channels b) then Some b else find_sub_band current bands'
  end.
Definition sub_band_of (current : list Z) : option Z :=
  if same_mask current all_channels then Some 0
  else find_sub_band current (channel_range 1 (Z.to_nat SUB_BANDS)).
(** The accumulators [found] and [count] of the fixed-channel loop. *)
Definition scan_channels (current : list Z) : Z * Z :=
  foldl (fun '(found, count) c =>
           if has_channel current c then (c, count + 1) else (found, count))
        (0, 0) plan_channels.
Definition fixed_channel_of (plan : channel_plan) (current : list Z) : Z :=
  let '(found, count) := scan_channels current in
  if count =? 1 then channel_frequency plan found else 0.

(** The part of [channel_plan()] that depends on the region alone. *)
Definition plan_of_region (region : Z) : option channel_plan :=
  if region =? RZI_LORAWAN_REGION_US_915 then Some (ChannelPlan 902300000 903000000)
  else if region =? RZI_LORAWAN_REGION_AU_915 then Some (ChannelPlan 915200000 915900000)
  else None.

Section channel.
Context `{Zephyr} `{Errno} `{Kconfig} {ctx : ExecCtx} `{LorawanBackend} `{LorawanExt}.

(** [static int channel_plan(struct channel_plan *plan)] *)
Definition get_channel_plan : M world (Z * option channel_plan) :=
  let* '(rc, region) := rzi_lorawan_get_region (Some 0) in
  if negb (rc =? 0) then ret (rc, None)
  else if negb (has_cap RZI_LORAWAN_CAP_CHANNEL) then ret (- RZI_ERR_NOT_SUPPORTED, None)
  else match plan_of_region (default 0 region) with
       | Some plan => ret (0, Some plan)
       | None => ret (- RZI_ERR_NOT_SUPPORTED, None)
       end.

Definition read_mask : M world (Z * list Z) :=
  let* '(rc, out) := rzi_lorawan_credentials_get_channel_mask in
  match out with
  | Some (mask, set) => ret (rc, if (rc =? 0) && negb set then all_channels else mask)
  | None => ret (rc, mask_zero)
  end.

Definition store_mask (mask : list Z) : M world Z :=
  rzi_lorawan_credentials_set_channel_mask (if same_mask mask all_channels then None else Some mask).

(** [words] entries of [mask]: the stored words, then zeros. *)
Definition mask_words (current : list Z) (words : nat) : list Z :=
  (fun i => if (i <? MASK_WORDS)%nat then nth i current 0 else 0) <$> seq 0 words.

Definition rzi_lorawan_get_channel_mask (mask : option (list Z)) (words : Z)
  : M world (Z * option (list Z)) :=
  let* rc := rzi_lorawan_check_thread in
  if negb (rc =? 0) then ret (rc, mask)
  else match mask with
  | None => ret (- RZI_ERR_INVALID, None)
  | Some old =>
      if words =? 0 then ret (- RZI_ERR_INVALID, mask)
      else
        let* '(rc, _) := get_channel_plan in
        if negb (rc =? 0) then ret (rc, mask)
        else if words <? RZI_LORAWAN_FIXED_PLAN_WORDS then ret (- RZI_ERR_INVALID, mask)
        else
          let* '(rc, current) := read_mask in
          if negb (rc =? 0) then ret (rc, mask)
          else ret (0, Some (overlay old 0 (mask_words current (Z.to_nat words))))
  end.

Definition rzi_lorawan_set_channel_mask (mask : option (list Z)) (words : Z) : M world Z :=
  rc* rc := rzi_lorawan_check_thread else rc in
  match mask with
  | None => ret (- RZI_ERR_INVALID)
  | Some mask =>
      if (words =? 0) || (RZI_LORAWAN_CHANNEL_MASK_WORDS <? words) then ret (- RZI_ERR_INVALID)
      else
        let* '(rc, _) := get_channel_plan in
        if negb (rc =? 0) then ret rc
        else if words <? RZI_LORAWAN_FIXED_PLAN_WORDS then ret (- RZI_ERR_INVALID)
        else store_mask (overlay mask_zero 0 (take (Z.to_nat words) mask))
  end.

Definition rzi_lorawan_get_sub_band (sub_band : option Z) : M world (Z * option Z) :=
  let* rc := rzi_lorawan_check_thread in
  if negb (rc =? 0) then ret (rc, sub_band)
  else match sub_band with
  | None => ret (- RZI_ERR_INVALID, None)
  | Some old =>
      let* '(rc, _) := get_channel_plan in
      if negb (rc =? 0) then ret (rc, sub_band)
      else
        let* '(rc, current) := read_mask in
        if negb (rc =? 0) then ret (rc, sub_band)
        else match sub_band_of current with
             | Some b => ret (0, Some b)
             | None => ret (- RZI_ERR_NO_DATA, sub_band)
             end
  end.

Definition rzi_lorawan_set_sub_band (sub_band : Z) : M world Z :=
  rc* rc := rzi_lorawan_check_thread else rc in
  let* '(rc, _) := get_channel_plan in
  if negb (rc =? 0) then ret rc
  else if SUB_BANDS <? sub_band then ret (- RZI_ERR_INVALID)
  else if sub_band =? 0 then rzi_lorawan_credentials_set_channel_mask None
  else store_mask (sub_band_channels sub_band).

Definition rzi_lorawan_get_fixed_channel (frequency_hz : option Z) : M world (Z * option Z) :=
  let* rc := rzi_lorawan_check_thread in
  if negb (rc =? 0) then ret (rc, frequency_hz)
  else match frequency_hz with
  | None => ret (- RZI_ERR_INVALID, None)
  | Some old =>
      let* '(rc, plan) := get_channel_plan in
      match plan with
      | None => ret (rc, frequency_hz)
      | Some plan =>
          let* '(rc, current) := read_mask in
          if negb (rc =? 0) then ret (rc, frequency_hz)
          else ret (0, Some (fixed_channel_of plan current))
      end
  end.

Definition rzi_lorawan_set_fixed_channel (frequency_hz : Z) : M world Z :=
  rc* rc := rzi_lorawan_check_thread else rc in
  let* '(rc, plan) := get_channel_plan in
  match plan with
  | None => ret rc
  | Some plan =>
      if frequency_hz =? 0 then rzi_lorawan_credentials_set_channel_mask None
      else
        let channel := frequency_channel plan frequency_hz in
        if channel <? 0 then ret channel
        else rzi_lorawan_credentials_set_channel_mask (Some (put_channel mask_zero channel))
  end.
End channel.

(** ** The channel arithmetic, decided channel by channel *)
Definition fixed_plans : list channel_plan :=
  [ChannelPlan 902300000 903000000; ChannelPlan 915200000 915900000].
Definition channel_ok (plan : channel_plan) (c : Z) : bool :=
  (frequency_channel plan (channel_frequency plan c) =? c) &&
  (fixed_channel_of plan (put_channel mask_zero c) =? channel_frequency plan c) &&
  negb (channel_frequency plan c =? 0) &&
  negb (bool_decide (put_channel mask_zero c = all_channels)).
Lemma channels_ok : forallb (fun p => forallb (channel_ok p) plan_channels) fixed_plans = true.
Proof. by vm_compute. Qed.
Lemma sub_bands_ok :
  forallb (fun b => bool_decide (sub_band_of (sub_band_channels b) = Some b) &&
                    negb (bool_decide (sub_band_channels b = all_channels)))
    (channel_range 1 8) = true.
Proof. by vm_compute. Qed.
Lemma in_range first n x : x ∈ channel_range first n <-> first <= x < first + Z.of_nat n.
Proof.
  unfold channel_range. rewrite list_elem_of_fmap. split.
  - intros (i & -> & Hi%elem_of_seq). lia.
  - intros Hx. exists (Z.to_nat (x - first)). split; [lia|]. apply elem_of_seq. lia.
Qed.
Lemma frequency_channel_inv plan l f c : frequency_channel_from plan l f = c -> 0 <= c ->
  c ∈ l /\ channel_frequency plan c = f.
Proof.
  induction l as [|x l IH]; cbn [frequency_channel_from]; [lia|].
  destruct (Z.eqb_spec (channel_frequency plan x) f) as [<-|]; [intros <- _; split; [left|done]|].
  intros Hc Hp. destruct (IH Hc Hp). split; [by right|done].
Qed.
Lemma plan_of_region_fixed r plan : plan_of_region r = Some plan -> plan ∈ fixed_plans.
Proof.
  unfold plan_of_region. destruct (_ =? _); [intros [= <-]; left|].
  destruct (_ =? _); [intros [= <-]; right; left|done].
Qed.
Lemma plan_channel_ok plan c : plan ∈ fixed_plans -> 0 <= c < 72 -> channel_ok plan c = true.
Proof.
  intros Hp Hc. pose proof channels_ok as Hall. rewrite forallb_forall in Hall.
  specialize (Hall plan (proj1 (list_elem_of_In _ _) Hp)). rewrite forallb_forall in Hall.
  apply Hall, list_elem_of_In, in_range. lia.
Qed.
Lemma sub_band_ok b : 1 <= b <= 8 ->
  sub_band_of (sub_band_channels b) = Some b /\ sub_band_channels b <> all_channels.
Proof.
  intros Hb. pose proof sub_bands_ok as Hall. rewrite forallb_forall in Hall.
  specialize (Hall b (proj1 (list_elem_of_In _ _) (proj2 (in_range 1 8 b) ltac:(lia)))).
  apply andb_true_iff in Hall as [?%bool_decide_eq_true ?%negb_true_iff%bool_decide_eq_false]. done.
Qed.

Lemma length_put_channel m c : length (put_channel m c) = length m.
Proof. apply length_insert. Qed.
Lemma length_put_channels l m : length (foldl put_channel m l) = length m.
Proof. revert m. induction l as [|c l IH]; intros m; cbn; [done|]. by rewrite IH, length_put_channel. Qed.

Lemma length_sub_band b : length (sub_band_channels b) = 6%nat.
Proof.
  unfold sub_band_channels. rewrite length_put_channel.
  generalize (channel_range (u32 (b - 1) * 8) 8). intros l. by rewrite length_put_channels.
Qed.

Lemma fixed_all plan : plan ∈ fixed_plans -> fixed_channel_of plan all_channels = 0.
Proof.
  unfold fixed_plans. intros Hp.
  repeat (apply elem_of_cons in Hp as [->|Hp]; [by vm_compute|]). by apply elem_of_nil in Hp.
Qed.

Lemma all_channels_valid : channel_mask_valid all_channels = true.
Proof. by vm_compute. Qed.

#[local] Opaque all_channels sub_band_channels channel_mask_valid.

Section facts.
Context `{SettingsOk} `{!BytesOk} `{Errno} `{Kconfig} `{!KconfigOk} {ctx : ExecCtx}
  `{LorawanBackend} `{LorawanExt}.

(** A key that is cached is read without touching the flash. *)
Lemma cached_read key v p size w :
  cfg_ok w -> cached (tbl w) key v p -> zlen v = size ->
  setting_read key size w = ((0, Some (v, p)), w).
Proof.
  intros Hok (i & s & Hf & Hl & <- & <-) Hz. unfold setting_read. rewrite cfg_run.
  destruct (find_ok _ _ _ _ Hok Hf) as (Hsch & Hi & _ & Heok). destruct (Heok Hl) as [Hlen _].
  destruct (schema_default _ _ _ Hsch Hi) as (_ & _ & Hsz).
  unfold rzi_lorawan_setting_read, bind, gets. unfold tbl in Hf. rewrite Hf.
  assert (size = ssize s) as -> by (unfold zlen in *; lia). rewrite Z.eqb_refl. cbn [negb].
  rewrite Hl, take_ge by lia. cbn. by destruct w.
Qed.

(** Where the region a call sees comes from. *)
Definition region_is (r : Z) (w : world) : Prop :=
  if started (w_core w) =? 0 then exists v p, cached (tbl w) "region" v p /\ zlen v = 1 /\ at_ v 0 = r
  else configured_region (w_core w) = r.

Lemma get_region_cases old w :
  cfg_ok w -> k_is_in_isr = false ->
  let r := rzi_lorawan_get_region (Some old) w in
  cfg_ok r.2 /\ w_cred r.2 = w_cred w /\ started (w_core r.2) = started (w_core w) /\
  (r.1.1 = 0 -> exists reg, r.1.2 = Some reg /\ region_is reg r.2).
Proof.
  intros Hok Hisr. unfold rzi_lorawan_get_region, bind. rewrite check_thread_run, Hisr.
  cbn [negb Z.eqb get_core gets]. unfold region_is. destruct (started (w_core w) =? 0) eqn:Es.
  - unfold rzi_lorawan_config_get_region, bind, setting_read. rewrite cfg_run.
    pose proof (read_cache_ok "region" 1 (w_cfg w) Hok) as Hok1.
    destruct (read_cached "region" 1 (w_cfg w) Hok) as [_ Hc].
    destruct (rzi_lorawan_setting_read "region" 1 (w_cfg w)) as [[rc out] st]. cbn in *. rewrite Es.
    split_and!; [done|done|done|]. intros ->. destruct (Hc eq_refl) as (v & p & -> & Hc' & Hz).
    cbn. exists (at_ v 0). split; [done|]. by exists v, p.
  - cbn. rewrite Es. split_and!; try done. intros _. by eexists.
Qed.

Lemma get_region_known reg old w :
  cfg_ok w -> k_is_in_isr = false -> region_is reg w ->
  (rzi_lorawan_get_region (Some old) w).1 = (0, Some reg) /\
  w_cred (rzi_lorawan_get_region (Some old) w).2 = w_cred w /\
  w_cfg (rzi_lorawan_get_region (Some old) w).2 = w_cfg w.
Proof.
  intros Hok Hisr. unfold region_is, rzi_lorawan_get_region, bind. rewrite check_thread_run, Hisr.
  cbn [negb Z.eqb get_core gets]. destruct (started (w_core w) =? 0) eqn:Es.
  - intros (v & p & Hc & Hz & <-). unfold rzi_lorawan_config_get_region, bind.
    rewrite (cached_read _ _ _ _ _ Hok Hc Hz). done.
  - cbn. by intros ->.
Qed.

(** The plan a call sees, and that it sees it again. *)
Lemma plan_cases w :
  cfg_ok w -> k_is_in_isr = false ->
  let r := get_channel_plan w in
  cfg_ok r.2 /\ w_cred r.2 = w_cred w /\ started (w_core r.2) = started (w_core w) /\
  ((r.1.1 <> 0 /\ r.1.2 = None) \/
   (r.1.1 = 0 /\ exists plan, r.1.2 = Some plan /\ plan ∈ fixed_plans /\
     forall w', cfg_ok w' -> (forall reg, region_is reg r.2 -> region_is reg w') ->
       (get_channel_plan w').1 = (0, Some plan) /\ w_cred (get_channel_plan w').2 = w_cred w' /\
       w_cfg (get_channel_plan w').2 = w_cfg w')).
Proof.
  intros Hok Hisr. unfold get_channel_plan, bind.
  destruct (get_region_cases 0 w Hok Hisr) as (Hok1 & Hcred & Hst & Hreg).
  destruct (rzi_lorawan_get_region (Some 0) w) as [[rc reg] w1]. cbn [fst snd] in *.
  destruct (Z.eqb_spec rc 0) as [->|]; cbn [negb]; [|by split_and!; try done; left].
  destruct (Hreg eq_refl) as (r & -> & Hr).
  destruct (has_cap RZI_LORAWAN_CAP_CHANNEL) eqn:Ec; cbn [negb]; [|by split_and!; try done; left].
  cbn [default from_option id]. destruct (plan_of_region r) as [plan|] eqn:Ep;
    [|by split_and!; try done; left].
  split_and!; try done. right. split; [done|]. exists plan. split; [done|].
  split; [by apply (plan_of_region_fixed r)|]. intros w' Hok' Hr'.
  destruct (get_region_known r 0 w' Hok' Hisr (Hr' r Hr)) as (Hg & Hc & Hf).
  destruct (rzi_lorawan_get_region (Some 0) w') as [x w2]. cbn [fst snd] in *. subst x.
  cbn [negb Z.eqb default from_option id]. by rewrite Ep.
Qed.

Lemma loads_region w w' : loads w w' -> cfg_ok w ->
  cfg_ok w' /\ started (w_core w') = started (w_core w) /\
  forall reg, region_is reg w -> region_is reg w'.
Proof.
  intros [(c & Heq & _) Hg] Hok. destruct (Hg Hok) as [Hok' Hm].
  assert (Hcore : w_core w' = w_core w) by by rewrite Heq.
  split; [done|]. unfold region_is. rewrite Hcore. split; [done|]. intros reg.
  destruct (started (w_core w) =? 0); [|done]. intros (v & p & Hc & ?). exists v, p. auto.
Qed.

Definition stored_mask (mask : option (list Z)) : list Z :=
  default (replicate (Z.to_nat RZI_LORAWAN_CHANNEL_MASK_WORDS) 0) mask.

Lemma set_mask_spec mask w :
  cfg_ok w -> length (stored_mask mask) = 6%nat ->
  let r := rzi_lorawan_credentials_set_channel_mask mask w in
  cfg_ok r.2 /\ (forall reg, region_is reg w -> region_is reg r.2) /\
  (r.1 = 0 -> loaded (w_cred r.2) = true /\ channel_mask (w_cred r.2) = stored_mask mask /\
              channel_mask_set (w_cred r.2) = bool_decide (is_Some mask)).
Proof.
  intros Hok Hlen. unfold rzi_lorawan_credentials_set_channel_mask, bind.
  destruct (match mask with Some _ => _ | None => _ end); [done|].
  destruct (ensure_loaded_spec w) as (Hloads & Hld & _).
  destruct (ensure_loaded_locked w) as [rc w1]. cbn [fst snd] in *.
  destruct (loads_region _ _ Hloads Hok) as (Hok1 & Hst1 & Hr1).
  destruct (Z.eqb_spec rc 0) as [->|]; [|done]. cbn [get_cred gets].
  destruct (join_active (w_cred w1)); [done|].
  pose proof (persist_spec "chmask" (store_words (stored_mask mask)) (RZI_LORAWAN_CHANNEL_MASK_WORDS * 2) w1)
    as [Ho Hp]; [unfold zlen; by rewrite length_store_words, Hlen|].
  unfold wp in *. destruct (Hp Hok1) as (Hok2 & _ & _ & Hoth). fold (stored_mask mask).
  destruct (persist "chmask" _ _ w1) as [rc2 w2]. cbn [fst snd] in *.
  assert (Hr2 : forall reg, region_is reg w -> region_is reg w2).
  { intros reg Hr%Hr1. revert Hr. unfold region_is. rewrite Ho. cbn.
    destruct (started (w_core w1) =? 0); [|done]. intros (v & p & Hc & ?). exists v, p.
    split; [|done]. by apply Hoth. }
  destruct (Z.eqb_spec rc2 0) as [->|]; [|done]. cbn. split_and!; [done|done|].
  intros _. split_and!; [|done|done]. rewrite Ho. cbn. by apply Hld.
Qed.

Lemma read_mask_stored mask w :
  loaded (w_cred w) = true -> channel_mask (w_cred w) = stored_mask mask ->
  channel_mask_set (w_cred w) = bool_decide (is_Some mask) ->
  read_mask w = ((0, default all_channels mask), w).
Proof.
  intros Hld Hm Hs. unfold read_mask, rzi_lorawan_credentials_get_channel_mask, bind.
  rewrite ensure_loaded_done by done. cbn. rewrite Hm, Hs. destruct mask; reflexivity.
Qed.

(** Setting through the plan, then reading the mask through the plan again. *)
Lemma set_then_plan (mk : channel_plan -> option (list Z)) w :
  cfg_ok w -> k_is_in_isr = false -> 
  (forall plan, plan ∈ fixed_plans -> length (stored_mask (mk plan)) = 6%nat) ->
  let set := (let* '(rc, plan) := get_channel_plan in
              match plan with
              | None => ret rc
              | Some plan => rzi_lorawan_credentials_set_channel_mask (mk plan)
              end) in
  (set w).1 = 0 -> exists plan, plan ∈ fixed_plans /\ (get_channel_plan w).1.2 = Some plan /\
    let w' := (set w).2 in
    (get_channel_plan w').1 = (0, Some plan) /\
    (read_mask (get_channel_plan w').2).1 = (0, default all_channels (mk plan)).
Proof.
  intros Hok Hisr Hlen set. unfold set, bind.
  destruct (plan_cases w Hok Hisr) as (Hok1 & Hcred & Hst & Hcase).
  destruct (get_channel_plan w) as [[rc plan] w1]. cbn [fst snd] in *.
  destruct Hcase as [[Hrc ->]|(-> & p & -> & Hp & Hagain)]; [done|].
  destruct (set_mask_spec (mk p) w1 Hok1 (Hlen p Hp)) as (Hok2 & Hreg & Hdone).
  destruct (rzi_lorawan_credentials_set_channel_mask (mk p) w1) as [rc2 w2]. cbn [fst snd] in *.
  intros ->. destruct (Hdone eq_refl) as (Hld & Hm & Hs). exists p. split; [done|]. split; [done|].
  destruct (Hagain w2 Hok2 Hreg) as (Hg & Hc & _). split; [done|].
  rewrite (read_mask_stored (mk p)); [done|by rewrite Hc|by rewrite Hc|by rewrite Hc].
Qed.

(** Selecting a sub-band and asking for it gives it back; 0 selects every channel. *)
Theorem sub_band_roundtrip b old w :
  cfg_ok w -> 0 <= b -> (rzi_lorawan_set_sub_band b w).1 = 0 ->
  b <= SUB_BANDS /\
  (rzi_lorawan_get_sub_band (Some old) (rzi_lorawan_set_sub_band b w).2).1 = (0, Some b).
Proof.
  intros Hok Hb Hrc. assert (Hisr : k_is_in_isr = false).
  { revert Hrc. unfold rzi_lorawan_set_sub_band, bind. rewrite check_thread_run. by destruct k_is_in_isr. }
  assert (Hb8 : b <= 8).
  { destruct (Z.ltb_spec 8 b); [|lia]. exfalso. revert Hrc.
    unfold rzi_lorawan_set_sub_band, bind. rewrite check_thread_run, Hisr. cbn [Z.eqb].
    destruct (plan_cases w Hok Hisr) as (_ & _ & _ & Hc). destruct (get_channel_plan w) as [[rc pl] w1].
    cbn in Hc. destruct (Z.eqb_spec rc 0); cbn [negb]; [|done].
    by rewrite (proj2 (Z.ltb_lt 8 b)). }
  split; [done|].
  set (mk := fun _ : channel_plan => if b =? 0 then None else Some (sub_band_channels b)).
  assert (Hset : rzi_lorawan_set_sub_band b w = (let* '(rc, plan) := get_channel_plan in
              match plan with
              | None => ret rc
              | Some plan => rzi_lorawan_credentials_set_channel_mask (mk plan)
              end) w).
  { unfold rzi_lorawan_set_sub_band, bind. rewrite check_thread_run, Hisr. cbn [Z.eqb].
    destruct (plan_cases w Hok Hisr) as (_ & _ & _ & Hc). destruct (get_channel_plan w) as [[rc pl] w1].
    cbn in Hc. destruct Hc as [[Hne ->]|(-> & p & -> & _)].
    - by rewrite (proj2 (Z.eqb_neq _ _) Hne).
    - cbn [negb Z.eqb]. destruct (Z.ltb_spec 8 b); [lia|]. unfold mk.
      destruct (Z.eqb_spec b 0); [done|]. unfold store_mask, same_mask.
      destruct (sub_band_ok b ltac:(lia)) as [_ Hne]. by rewrite bool_decide_false. }
  rewrite Hset in *. destruct (set_then_plan mk w Hok Hisr) as (plan & Hp & _ & Hg & Hr); [|done|].
  { intros plan _. unfold mk, stored_mask. destruct (b =? 0); [done|]. exact (length_sub_band b). }
  set (w' := (_ : M world Z) w) in *. destruct w' as [rcx w']. cbn [snd] in *.
  unfold rzi_lorawan_get_sub_band, bind. rewrite check_thread_run, Hisr. cbn [negb Z.eqb].
  destruct (get_channel_plan w') as [x w1]. cbn in Hg. subst x. cbn [negb Z.eqb snd] in *.
  destruct (read_mask w1) as [x w2]. cbn in Hr. subst x. cbn [negb Z.eqb].
  unfold mk. destruct (Z.eqb_spec b 0) as [->|]; cbn [default from_option id].
  - unfold sub_band_of, same_mask. by rewrite bool_decide_true.
  - by destruct (sub_band_ok b ltac:(lia)) as [-> _].
Qed.

Lemma set_fixed_run f w :
  cfg_ok w -> (rzi_lorawan_set_fixed_channel f w).1 = 0 ->
  k_is_in_isr = false /\
  let mk plan := if f =? 0 then None else Some (put_channel mask_zero (frequency_channel plan f)) in
  (forall plan, (get_channel_plan w).1.2 = Some plan -> f = 0 \/ 0 <= frequency_channel plan f) /\
  rzi_lorawan_set_fixed_channel f w = (let* '(rc, plan) := get_channel_plan in
              match plan with
              | None => ret rc
              | Some plan => rzi_lorawan_credentials_set_channel_mask (mk plan)
              end) w.
Proof.
  intros Hok. cbv zeta. unfold rzi_lorawan_set_fixed_channel, bind. rewrite check_thread_run.
  destruct k_is_in_isr; [done|]. cbn [Z.eqb]. destruct (get_channel_plan w) as [[rc pl] w1].
  cbn [fst snd]. destruct pl as [plan|]; [|intros _; by split_and!].
  destruct (Z.eqb_spec f 0); [intros _; split_and!; auto|].
  destruct (Z.ltb_spec (frequency_channel plan f) 0); [cbn; lia|]. intros _.
  split_and!; [done| |done]. intros ? [= <-]. by right.
Qed.

(** Selecting one channel by its frequency and asking for it gives the frequency back; 0 frees
    the selection, and the query reports 0. *)
Theorem fixed_channel_roundtrip f old w :
  cfg_ok w -> (rzi_lorawan_set_fixed_channel f w).1 = 0 ->
  (rzi_lorawan_get_fixed_channel (Some old) (rzi_lorawan_set_fixed_channel f w).2).1 = (0, Some f).
Proof.
  intros Hok Hrc. destruct (set_fixed_run f w Hok Hrc) as (Hisr & Hch & Hset). cbv zeta in *.
  set (mk := fun plan => if f =? 0 then None else Some (put_channel mask_zero (frequency_channel plan f))) in *.
  rewrite Hset in *.
  destruct (set_then_plan mk w Hok Hisr) as (plan & Hp & Hpl & Hg & Hr); [|done|].
  { intros plan _. unfold mk, stored_mask. destruct (f =? 0); [done|apply length_put_channel]. }
  set (w' := (_ : M world Z) w) in *. destruct w' as [rcx w']. cbn [snd] in *.
  unfold rzi_lorawan_get_fixed_channel, bind. rewrite check_thread_run, Hisr. cbn [negb Z.eqb].
  destruct (get_channel_plan w') as [x w1]. cbn in Hg. subst x. cbn [snd] in *.
  destruct (read_mask w1) as [x w2]. cbn in Hr. subst x. cbn [negb Z.eqb ret fst].
  unfold mk. do 2 f_equal. destruct (Z.eqb_spec f 0) as [->|Hne]; cbn [default from_option id].
  - by apply fixed_all.
  - destruct (Hch plan Hpl) as [?|Hpos]; [done|].
    destruct (frequency_channel_inv plan plan_channels f _ eq_refl Hpos) as [Hin Hf].
    apply in_range in Hin. pose proof (plan_channel_ok plan (frequency_channel plan f) Hp
      ltac:(unfold frequency_channel; lia)) as Hc.
    apply andb_true_iff in Hc as [[[_ Hc%Z.eqb_eq]%andb_true_iff _]%andb_true_iff _].
    by rewrite Hc.
Qed.

Lemma mask_words_take words m :
  (words <= 6)%nat -> length m = words ->
  mask_words (overlay mask_zero 0 (take words m)) words = m.
Proof.
  intros Hw Hl. unfold mask_words. rewrite take_ge by lia. apply list_eq. intros i.
  rewrite list_lookup_fmap. destruct (decide (i < words)%nat) as [Hi|Hi].
  - rewrite lookup_seq_lt by done. cbn [fmap option_fmap option_map Nat.add].
    rewrite (proj2 (Nat.ltb_lt i MASK_WORDS)) by lia. change (overlay mask_zero 0 m) with (m ++ drop (length m) mask_zero).
    destruct (m !! i) as [x|] eqn:Hx; [|apply lookup_ge_None in Hx; lia].
    rewrite app_nth1 by lia. by rewrite nth_lookup, Hx.
  - rewrite lookup_seq_ge by lia. cbn. symmetry. apply lookup_ge_None. lia.
Qed.

(** Storing a channel mask and asking for it with the same number of words gives it back, and
    an accepted mask is valid: it enables some channel and none outside the plan. *)
Theorem channel_mask_roundtrip m words old w :
  cfg_ok w -> zlen m = words -> zlen old = words ->
  (rzi_lorawan_set_channel_mask (Some m) words w).1 = 0 ->
  (rzi_lorawan_get_channel_mask (Some old) words
     (rzi_lorawan_set_channel_mask (Some m) words w).2).1 = (0, Some m) /\
  channel_mask_valid (overlay mask_zero 0 m) = true.
Proof.
  intros Hok Hm Ho. set (R := overlay mask_zero 0 m).
  assert (Hrun : (rzi_lorawan_set_channel_mask (Some m) words w).1 = 0 ->
    k_is_in_isr = false /\ 5 <= words <= 6 /\
    rzi_lorawan_set_channel_mask (Some m) words w = (let* '(rc, plan) := get_channel_plan in
              match plan with
              | None => ret rc
              | Some plan => rzi_lorawan_credentials_set_channel_mask
                  (if same_mask R all_channels then None else Some R)
              end) w).
  { unfold rzi_lorawan_set_channel_mask, bind. rewrite check_thread_run.
    destruct k_is_in_isr eqn:Hisr; [done|]. cbn [Z.eqb].
    destruct ((words =? 0) || _) eqn:Ew; [done|]. zify_tests.
    destruct (plan_cases w Hok Hisr) as (_ & _ & _ & Hc).
    destruct (get_channel_plan w) as [[rc pl] w1]. cbn [fst snd] in *.
    destruct Hc as [[Hne ->]|(-> & p & -> & _)].
    - by rewrite (proj2 (Z.eqb_neq _ _) Hne).
    - cbn [negb Z.eqb]. destruct (Z.ltb_spec words 5); [done|]. intros _.
      split_and!; [done|lia|lia|]. unfold store_mask. rewrite take_ge by (unfold zlen in *; lia). done. }
  intros Hrc. destruct (Hrun Hrc) as (Hisr & Hw & Heq). rewrite Heq in *. clear Hrun Heq.
  set (mk := fun _ : channel_plan => if same_mask R all_channels then None else Some R).
  assert (Hlen : length R = 6%nat).
  { unfold R. rewrite length_overlay; [done|]. change (length mask_zero) with 6%nat.
    unfold zlen in *. lia. }
  destruct (set_then_plan mk w Hok Hisr) as (plan & Hp & Hpl & Hg & Hr); [|done|].
  { intros plan _. unfold mk, stored_mask. by destruct (same_mask R all_channels). }
  assert (Hmk : default all_channels (mk plan) = R).
  { unfold mk, same_mask. by destruct (bool_decide_reflect (R = all_channels)). }
  rewrite Hmk in Hr. split.
  - set (w' := (_ : M world Z) w) in *. destruct w' as [rcx w']. cbn [snd] in *.
    unfold rzi_lorawan_get_channel_mask, bind. rewrite check_thread_run, Hisr. cbn [negb Z.eqb].
    destruct (Z.eqb_spec words 0); [lia|].
    destruct (get_channel_plan w') as [x w1]. cbn in Hg. subst x. cbn [negb Z.eqb snd] in *.
    destruct (Z.ltb_spec words 5); [lia|].
    destruct (read_mask w1) as [x w2]. cbn in Hr. subst x. cbn [negb Z.eqb ret fst].
    do 2 f_equal. pose proof (mask_words_take (Z.to_nat words) m ltac:(lia) ltac:(unfold zlen in *; lia)) as Hmw.
    rewrite (take_ge m) in Hmw by (unfold zlen in *; lia). fold R in Hmw. rewrite Hmw.
    apply overlay_all. unfold zlen in *. lia.
  - destruct (decide (R = all_channels)) as [->|Hne]; [exact all_channels_valid|].
    revert Hrc. unfold bind. destruct (get_channel_plan w) as [[rc pl] w1]. cbn [fst snd] in *.
    subst pl. unfold same_mask. rewrite bool_decide_false by done.
    unfold rzi_lorawan_credentials_set_channel_mask.
    by destruct (channel_mask_valid R).
Qed.
End facts.

Module ChannelWitness.
Import SimInstances.

(** A device configured for US915. *)
Definition us_boot : world := (rzi_lorawan_config_set_region RZI_LORAWAN_REGION_US_915 boot).2.
Lemma us_boot_ok : cfg_ok us_boot.
Proof. exact (write_cache_ok "region" [1] 1 (w_cfg boot) SettingsWitness.cold_ok eq_refl). Defined.

Lemma sub_band_roundtrip_witness :
  (rzi_lorawan_get_sub_band (Some 0) (rzi_lorawan_set_sub_band 2 us_boot).2).1 = (0, Some 2).
Proof.
  refine (proj2 (sub_band_roundtrip 2 0 us_boot us_boot_ok _ _)); [lia|vm_refl].
Defined.
Lemma fixed_channel_roundtrip_witness :
  (rzi_lorawan_get_fixed_channel (Some 0) (rzi_lorawan_set_fixed_channel 903000000 us_boot).2).1 =
    (0, Some 903000000).
Proof. refine (fixed_channel_roundtrip 903000000 0 us_boot us_boot_ok _). vm_refl. Defined.
Lemma channel_mask_roundtrip_witness :
  (rzi_lorawan_get_channel_mask (Some [9; 9; 9; 9; 9]) 5
     (rzi_lorawan_set_channel_mask (Some [255; 0; 0; 0; 1]) 5 us_boot).2).1 =
    (0, Some [255; 0; 0; 0; 1]).
Proof.
  refine (proj1 (channel_mask_roundtrip [255; 0; 0; 0; 1] 5 [9; 9; 9; 9; 9] us_boot us_boot_ok
    eq_refl eq_refl _)). vm_refl.
Defined.
End ChannelWitness.
