(* ===== verification/LorawanApi.v ===== *)
(** * The optional LoRaWAN operations (src/lorawan/api/lorawan_network.c,
    lorawan_session.c, lorawan_class_b.c, lorawan_multicast.c,
    lorawan_certification.c, lorawan_mac_commands.c)

    Thin public functions over the optional tables of the backend: argument
    and context checks, then the table member or "not supported". *)
From S2P Require Import Prelude Zephyr Err Power Storage LorawanSettings LorawanBackend LorawanSim LorawanCore.

(** [distribution_valid] on a non-NULL pointer, and on any pointer *)
Definition distribution_valid (distribution : option (list Z)) : bool :=
  match distribution with
  | None => false
  | Some d => forallb (fun i => at_ d (Z.of_nat i) <=? 15)
                (seq 0 (Z.to_nat RZI_LORAWAN_DR_DISTRIBUTION_LENGTH))
  end.

Section api.
Context `{Zephyr} `{Errno} `{Kconfig} {ctx : ExecCtx} `{LorawanBackend} `{LorawanExt}.

(** A member of an optional table: NULL when the table or the member is. *)
Definition member_of {T A} (table : rzi_lorawan_backend_api backend_state -> option T)
    (f : T -> option A) : option A := table rzi_lorawan_backend ≫= f.

(** Started-check, then call the member or report it unsupported. *)
Definition call_op (op : option (bop backend_state Z)) : M world Z :=
  rc* rc := rzi_lorawan_check_started else rc in
  match op with
  | None => ret (- RZI_ERR_NOT_SUPPORTED)
  | Some f => call f
  end.
Definition call_getter {A} (op : option (getter backend_state A)) (old : A) : M world (Z * A) :=
  match op with
  | None => ret (- RZI_ERR_NOT_SUPPORTED, old)
  | Some f => call (f old)
  end.
(** The getters of lorawan_network.c: NULL check, started-check, member. *)
Definition network_get {A} (op : option (getter backend_state A)) (out : option A)
  : M world (Z * option A) :=
  match out with
  | None => ret (- RZI_ERR_INVALID, None)
  | Some old =>
      let* rc := rzi_lorawan_check_started in
      if negb (rc =? 0) then ret (rc, out)
      else let* '(rc, v) := call_getter op old in ret (rc, Some v)
  end.
(** The getters of the other files: started-check, NULL check, member. *)
Definition started_get {A} (op : option (getter backend_state A)) (out : option A)
  : M world (Z * option A) :=
  let* rc := rzi_lorawan_check_started in
  if negb (rc =? 0) then ret (rc, out)
  else match out with
  | None => ret (- RZI_ERR_INVALID, None)
  | Some old => let* '(rc, v) := call_getter op old in ret (rc, Some v)
  end.

(** *** lorawan_network.c *)
Definition NETWORK_OP {A} (f : rzi_lorawan_network_ops backend_state -> option A) : option A :=
  member_of (network _) f.

Definition unsupported : M world Z :=
  rc* rc := rzi_lorawan_check_started else rc in ret (- RZI_ERR_NOT_SUPPORTED).

Definition check_uplink_data_rate (data_rate : Z) : M world Z :=
  if RZI_LORAWAN_DR_15 <? u32 data_rate then ret (- RZI_ERR_INVALID)
  else match NETWORK_OP (op_get_enabled_data_rates _) with
  | None => ret 0
  | Some f =>
      let* '(rc, mask) := call (f 0) in
      if negb (rc =? 0) then ret rc
      else ret (if negb (Z.land mask (BIT data_rate) =? 0) then 0 else - RZI_ERR_INVALID)
  end.

Definition rzi_lorawan_get_adr enabled := network_get (NETWORK_OP (op_get_adr _)) enabled.
Definition rzi_lorawan_set_adr (enabled : bool) : M world Z :=
  call_op ((fun f => f enabled) <$> NETWORK_OP (op_set_adr _)).
Definition rzi_lorawan_get_data_rate out := network_get (NETWORK_OP (op_get_data_rate _)) out.
Definition rzi_lorawan_set_data_rate (data_rate : Z) : M world Z :=
  rc* rc := rzi_lorawan_check_started else rc in
  match NETWORK_OP (op_set_data_rate _) with
  | None => ret (- RZI_ERR_NOT_SUPPORTED)
  | Some f =>
      rc* rc := check_uplink_data_rate data_rate else rc in
      call (f data_rate)
  end.
Definition rzi_lorawan_get_tx_power (out : option Z) := unsupported.
Definition rzi_lorawan_set_tx_power (v : Z) := unsupported.
Definition rzi_lorawan_get_duty_cycle (out : option bool) := unsupported.
Definition rzi_lorawan_set_duty_cycle (v : bool) := unsupported.
Definition rzi_lorawan_get_rx1_delay (out : option Z) := unsupported.
Definition rzi_lorawan_set_rx1_delay (v : Z) := unsupported.
Definition rzi_lorawan_get_rx2_delay (out : option Z) := unsupported.
Definition rzi_lorawan_set_rx2_delay (v : Z) := unsupported.
Definition rzi_lorawan_get_rx2_data_rate (out : option Z) := unsupported.
Definition rzi_lorawan_set_rx2_data_rate (v : Z) := unsupported.
Definition rzi_lorawan_get_rx2_frequency (out : option Z) := unsupported.
Definition rzi_lorawan_set_rx2_frequency (v : Z) := unsupported.
Definition rzi_lorawan_get_join_accept_delay1 (out : option Z) := unsupported.
Definition rzi_lorawan_set_join_accept_delay1 (v : Z) := unsupported.
Definition rzi_lorawan_get_join_accept_delay2 (out : option Z) := unsupported.
Definition rzi_lorawan_set_join_accept_delay2 (v : Z) := unsupported.
Definition rzi_lorawan_get_public_network out :=
  network_get (NETWORK_OP (op_get_public_network _)) out.
Definition rzi_lorawan_set_public_network (enabled : bool) : M world Z :=
  call_op ((fun f => f enabled) <$> NETWORK_OP (op_set_public_network _)).
Definition rzi_lorawan_get_lbt out := network_get (NETWORK_OP (op_get_lbt _)) out.
Definition rzi_lorawan_set_lbt (enabled : bool) : M world Z :=
  call_op ((fun f => f enabled) <$> NETWORK_OP (op_set_lbt _)).
Definition rzi_lorawan_get_lbt_rssi out := network_get (NETWORK_OP (op_get_lbt_rssi _)) out.
Definition rzi_lorawan_set_lbt_rssi (rssi_dbm : Z) : M world Z :=
  call_op ((fun f => f rssi_dbm) <$> NETWORK_OP (op_set_lbt_rssi _)).
Definition rzi_lorawan_get_lbt_scan_time out :=
  network_get (NETWORK_OP (op_get_lbt_scan_time _)) out.
Definition rzi_lorawan_set_lbt_scan_time (time_ms : Z) : M world Z :=
  if time_ms =? 0 then ret (- RZI_ERR_INVALID)
  else call_op ((fun f => f time_ms) <$> NETWORK_OP (op_set_lbt_scan_time _)).
Definition rzi_lorawan_get_adr_profile out := network_get (NETWORK_OP (op_get_adr_profile _)) out.
Definition rzi_lorawan_set_adr_profile (profile : Z) (distribution : option (list Z)) : M world Z :=
  if (RZI_LORAWAN_ADR_CUSTOM <? u32 profile) ||
     ((profile =? RZI_LORAWAN_ADR_CUSTOM) && negb (distribution_valid distribution))
  then ret (- RZI_ERR_INVALID)
  else call_op ((fun f => f profile distribution) <$> NETWORK_OP (op_set_adr_profile _)).
Definition rzi_lorawan_get_nb_trans out := network_get (NETWORK_OP (op_get_nb_trans _)) out.
Definition rzi_lorawan_set_nb_trans (nb_trans : Z) : M world Z :=
  if (nb_trans =? 0) || (15 <? nb_trans) then ret (- RZI_ERR_INVALID)
  else call_op ((fun f => f nb_trans) <$> NETWORK_OP (op_set_nb_trans _)).
Definition rzi_lorawan_get_adr_ack (limit delay : option Z) : M world (Z * option (Z * Z)) :=
  network_get (NETWORK_OP (op_get_adr_ack _))
    (match limit, delay with Some l, Some d => Some (l, d) | _, _ => None end).
Definition rzi_lorawan_set_adr_ack (limit delay : Z) : M world Z :=
  if (limit <? 2) || (127 <? limit) || (delay <? 2) || (127 <? delay) then ret (- RZI_ERR_INVALID)
  else call_op ((fun f => f limit delay) <$> NETWORK_OP (op_set_adr_ack _)).
Definition rzi_lorawan_set_join_data_rates (distribution : option (list Z)) : M world Z :=
  if negb (distribution_valid distribution) then ret (- RZI_ERR_INVALID)
  else call_op ((fun f => f distribution) <$> NETWORK_OP (op_set_join_data_rates _)).
Definition rzi_lorawan_get_join_backoff out :=
  network_get (NETWORK_OP (op_get_join_backoff _)) out.
Definition rzi_lorawan_get_duty_cycle_status out :=
  network_get (NETWORK_OP (op_get_duty_cycle_status _)) out.
Definition rzi_lorawan_get_csma out := network_get (NETWORK_OP (op_get_csma _)) out.
Definition rzi_lorawan_set_csma (enabled : bool) : M world Z :=
  call_op ((fun f => f enabled) <$> NETWORK_OP (op_set_csma _)).
Definition rzi_lorawan_get_csma_params out := network_get (NETWORK_OP (op_get_csma_params _)) out.
Definition rzi_lorawan_set_csma_params (params : option rzi_lorawan_csma_params) : M world Z :=
  match params with
  | None => ret (- RZI_ERR_INVALID)
  | Some p => call_op ((fun f => f p) <$> NETWORK_OP (op_set_csma_params _))
  end.
Definition rzi_lorawan_get_lost_connection_count out :=
  network_get (NETWORK_OP (op_get_lost_connection_count _)) out.
Definition rzi_lorawan_get_no_downlink_threshold out :=
  network_get (NETWORK_OP (op_get_no_downlink_threshold _)) out.
Definition rzi_lorawan_set_no_downlink_threshold (uplinks : Z) : M world Z :=
  call_op ((fun f => f uplinks) <$> NETWORK_OP (op_set_no_downlink_threshold _)).
Definition rzi_lorawan_get_crystal_error out :=
  network_get (NETWORK_OP (op_get_crystal_error _)) out.
Definition rzi_lorawan_set_crystal_error (ppm : Z) : M world Z :=
  call_op ((fun f => f ppm) <$> NETWORK_OP (op_set_crystal_error _)).
Definition rzi_lorawan_query_tx_possible (size : Z) : M world Z :=
  call_op ((fun f => f size) <$> NETWORK_OP (op_query_tx_possible _)).

(** *** lorawan_session.c *)
Definition rzi_lorawan_get_net_id (net_id : option Z) : M world (Z * option Z) :=
  let* rc := rzi_lorawan_check_thread in
  match net_id with
  | None => ret (if negb (rc =? 0) then rc else - RZI_ERR_INVALID, None)
  | Some old =>
      if negb (rc =? 0) then ret (rc, net_id)
      else
        let* '(rc, joined) := rzi_lorawan_is_joined (Some false) in
        let from_config (old : Z) : M world (Z * option Z) :=
          let* '(rc, v) := rzi_lorawan_config_get_net_id old in ret (rc, Some v) in
        match member_of (session _) (op_get_net_id _) with
        | Some f =>
            if (rc =? 0) && default false joined then
              let* '(rc, v) := call (f old) in
              if rc =? 0 then ret (0, Some v) else from_config v
            else from_config old
        | None => from_config old
        end
  end.
Definition rzi_lorawan_get_dev_nonce out :=
  started_get (member_of (session _) (op_get_dev_nonce _)) out.
Definition rzi_lorawan_set_dev_nonce (dev_nonce : Z) : M world Z :=
  call_op ((fun f => f dev_nonce) <$> member_of (session _) (op_set_dev_nonce _)).

(** *** lorawan_class_b.c *)
Definition rzi_lorawan_get_ping_slot_periodicity out :=
  started_get (member_of (class_b _) (op_get_ping_slot_periodicity _)) out.
Definition rzi_lorawan_set_ping_slot_periodicity (periodicity : Z) : M world Z :=
  rc* rc := rzi_lorawan_check_started else rc in
  if 7 <? periodicity then ret (- RZI_ERR_INVALID)
  else match member_of (class_b _) (op_set_ping_slot_periodicity _) with
       | None => ret (- RZI_ERR_NOT_SUPPORTED)
       | Some f => call (f periodicity)
       end.
Definition rzi_lorawan_get_beacon_frequency out :=
  started_get (member_of (class_b _) (op_get_beacon_frequency _)) out.
Definition rzi_lorawan_get_beacon_time out :=
  started_get (member_of (class_b _) (op_get_beacon_time _)) out.
Definition rzi_lorawan_get_beacon_data_rate out :=
  started_get (member_of (class_b _) (op_get_beacon_data_rate _)) out.
Definition rzi_lorawan_get_beacon_gateway out :=
  started_get (member_of (class_b _) (op_get_beacon_gateway _)) out.
Definition rzi_lorawan_get_class_b_state out :=
  started_get (member_of (class_b _) (op_get_state _)) out.
Definition rzi_lorawan_stop_class_b : M world Z :=
  rc* rc := rzi_lorawan_check_started else rc in
  match member_of (class_b _) (op_stop _) with
  | None => ret (- RZI_ERR_NOT_SUPPORTED)
  | Some f =>
      let* rc := call f in
      if rc =? 0 then rzi_lorawan_note_class RZI_LORAWAN_CLASS_A ;;; ret rc else ret rc
  end.

(** *** lorawan_multicast.c *)
Definition multicast_valid (s : rzi_lorawan_multicast_session) : bool :=
  negb ((negb (mc_device_class s =? RZI_LORAWAN_CLASS_B) &&
         negb (mc_device_class s =? RZI_LORAWAN_CLASS_C)) ||
        (RZI_LORAWAN_DR_15 <? u32 (mc_data_rate s)) || (mc_frequency_hz s =? 0) ||
        (mc_group_id s <? -1) || (3 <? mc_group_id s)).
Definition rzi_lorawan_add_multicast_session (s : option rzi_lorawan_multicast_session)
  : M world Z :=
  rc* rc := rzi_lorawan_check_started else rc in
  match s with
  | None => ret (- RZI_ERR_INVALID)
  | Some s =>
      if negb (multicast_valid s) then ret (- RZI_ERR_INVALID)
      else match member_of (multicast _) (op_add _) with
           | None => ret (- RZI_ERR_NOT_SUPPORTED)
           | Some f => call (f s)
           end
  end.
Definition rzi_lorawan_remove_multicast_session (addr : Z) : M world Z :=
  call_op ((fun f => f addr) <$> member_of (multicast _) (op_remove _)).
Definition rzi_lorawan_get_multicast_count out :=
  started_get (member_of (multicast _) (op_get_count _)) out.
Definition rzi_lorawan_get_multicast_session (index : Z)
    (out : option rzi_lorawan_multicast_session) :=
  started_get ((fun f => f index) <$> member_of (multicast _) (op_get _)) out.
Definition rzi_lorawan_clear_multicast_sessions : M world Z :=
  call_op (member_of (multicast _) (op_clear _)).

(** *** lorawan_certification.c *)
Definition rzi_lorawan_get_certification_mode out :=
  started_get (member_of (certification _) (op_get_mode _)) out.
Definition rzi_lorawan_set_certification_mode (enabled : bool) : M world Z :=
  call_op ((fun f => f enabled) <$> member_of (certification _) (op_set_mode _)).
Definition rzi_lorawan_get_certification_port_enabled out :=
  started_get (member_of (certification _) (op_get_port_enabled _)) out.
Definition rzi_lorawan_set_certification_port_enabled (enabled : bool) : M world Z :=
  call_op ((fun f => f enabled) <$> member_of (certification _) (op_set_port_enabled _)).

(** *** lorawan_mac_commands.c *)
Definition get_mac {A} (f : mac_state -> A) : M world A := gets (fun w => f (w_mac w)).
Definition set_link_check_mode (mode : Z) : M world unit :=
  modify (fun w => set_w_mac (Mac mode (device_time_enabled (w_mac w))) w).
Definition set_device_time_enabled (b : bool) : M world unit :=
  modify (fun w => set_w_mac (Mac (link_check_mode (w_mac w)) b) w).

Definition link_check_op : option (bop backend_state Z) :=
  member_of (mac _) (op_request_link_check _).
Definition device_time_op : option (bop backend_state Z) :=
  member_of (mac _) (op_request_device_time _).

Definition trig_link_check : M world Z :=
  match link_check_op with None => ret (- RZI_ERR_NOT_SUPPORTED) | Some f => call f end.
Definition trig_device_time : M world Z :=
  match device_time_op with None => ret (- RZI_ERR_NOT_SUPPORTED) | Some f => call f end.

Definition rzi_lorawan_get_link_check_mode (mode : option Z) : M world (Z * option Z) :=
  let* rc := rzi_lorawan_check_started in
  if negb (rc =? 0) then ret (rc, mode)
  else match mode, link_check_op with
  | None, _ => ret (- RZI_ERR_INVALID, None)
  | _, None => ret (- RZI_ERR_NOT_SUPPORTED, mode)
  | Some _, Some _ => let* m := get_mac link_check_mode in ret (0, Some m)
  end.

Definition rzi_lorawan_request_link_check (mode : Z) : M world Z :=
  rc* rc := rzi_lorawan_check_started else rc in
  if RZI_LORAWAN_LINK_CHECK_EVERY_UPLINK <? u32 mode then ret (- RZI_ERR_INVALID)
  else match link_check_op with
  | None => ret (- RZI_ERR_NOT_SUPPORTED)
  | Some _ =>
      set_link_check_mode mode ;;;
      if mode =? RZI_LORAWAN_LINK_CHECK_DISABLED then ret 0
      else
        let* rc := trig_link_check in
        (if (rc =? 0) && (mode =? RZI_LORAWAN_LINK_CHECK_ONCE)
         then set_link_check_mode RZI_LORAWAN_LINK_CHECK_DISABLED else ret tt) ;;;
        ret rc
  end.

Definition rzi_lorawan_get_device_time_enabled (enabled : option bool) : M world (Z * option bool) :=
  let* rc := rzi_lorawan_check_started in
  if negb (rc =? 0) then ret (rc, enabled)
  else match enabled, device_time_op with
  | None, _ => ret (- RZI_ERR_INVALID, None)
  | _, None => ret (- RZI_ERR_NOT_SUPPORTED, enabled)
  | Some _, Some _ => let* b := get_mac device_time_enabled in ret (0, Some b)
  end.

Definition rzi_lorawan_request_device_time (enabled : bool) : M world Z :=
  rc* rc := rzi_lorawan_check_started else rc in
  match device_time_op with
  | None => ret (- RZI_ERR_NOT_SUPPORTED)
  | Some _ =>
      set_device_time_enabled enabled ;;;
      if negb enabled then ret 0 else trig_device_time
  end.

Definition rzi_lorawan_get_network_time out :=
  started_get (member_of (mac _) (op_get_network_time _)) out.

Definition rzi_lorawan_mac_commands_on_uplink : M world unit :=
  let* mode := get_mac link_check_mode in
  (if mode =? RZI_LORAWAN_LINK_CHECK_EVERY_UPLINK then trig_link_check ;;; ret tt else ret tt) ;;;
  let* enabled := get_mac device_time_enabled in
  if enabled then trig_device_time ;;; ret tt else ret tt.
End api.

(** ** Properties *)
Section facts.
Context `{Zephyr} `{Errno} `{Kconfig} {ctx : ExecCtx} `{LorawanBackend} `{LorawanExt}.

(** Arbitrary arguments, of every C type the functions take. *)
Record api_args : Type := ApiArgs {
  a_bool : bool; a_int : Z; a_int2 : Z; a_bool_out : option bool; a_out : option Z;
  a_out2 : option Z; a_bytes : option (list Z); a_csma : option rzi_lorawan_csma_params;
  a_gateway : option rzi_lorawan_beacon_gateway; a_mc : option rzi_lorawan_multicast_session;
  a_time : option rzi_lorawan_network_time;
}.
Definition rc_of {A} (m : M world (Z * A)) : M world Z := let* r := m in ret r.1.

(** The public functions over each optional table. *)
Definition network_calls (a : api_args) : list (M world Z) := [
  rc_of (rzi_lorawan_get_adr (a_bool_out a)); rzi_lorawan_set_adr (a_bool a);
  rc_of (rzi_lorawan_get_data_rate (a_out a)); rzi_lorawan_set_data_rate (a_int a);
  rc_of (rzi_lorawan_get_public_network (a_bool_out a)); rzi_lorawan_set_public_network (a_bool a);
  rc_of (rzi_lorawan_get_lbt (a_bool_out a)); rzi_lorawan_set_lbt (a_bool a);
  rc_of (rzi_lorawan_get_lbt_rssi (a_out a)); rzi_lorawan_set_lbt_rssi (a_int a);
  rc_of (rzi_lorawan_get_lbt_scan_time (a_out a)); rzi_lorawan_set_lbt_scan_time (a_int a);
  rc_of (rzi_lorawan_get_adr_profile (a_out a));
  rzi_lorawan_set_adr_profile (a_int a) (a_bytes a);
  rc_of (rzi_lorawan_get_nb_trans (a_out a)); rzi_lorawan_set_nb_trans (a_int a);
  rc_of (rzi_lorawan_get_adr_ack (a_out a) (a_out2 a)); rzi_lorawan_set_adr_ack (a_int a) (a_int2 a);
  rzi_lorawan_set_join_data_rates (a_bytes a);
  rc_of (rzi_lorawan_get_join_backoff (a_out a));
  rc_of (rzi_lorawan_get_duty_cycle_status (a_out a));
  rc_of (rzi_lorawan_get_csma (a_bool_out a)); rzi_lorawan_set_csma (a_bool a);
  rc_of (rzi_lorawan_get_csma_params (a_csma a)); rzi_lorawan_set_csma_params (a_csma a);
  rc_of (rzi_lorawan_get_lost_connection_count (a_out a));
  rc_of (rzi_lorawan_get_no_downlink_threshold (a_out a));
  rzi_lorawan_set_no_downlink_threshold (a_int a);
  rc_of (rzi_lorawan_get_crystal_error (a_out a)); rzi_lorawan_set_crystal_error (a_int a);
  rzi_lorawan_query_tx_possible (a_int a);
  rzi_lorawan_get_tx_power (a_out a); rzi_lorawan_set_tx_power (a_int a);
  rzi_lorawan_get_duty_cycle (a_bool_out a); rzi_lorawan_set_duty_cycle (a_bool a);
  rzi_lorawan_get_rx1_delay (a_out a); rzi_lorawan_set_rx1_delay (a_int a);
  rzi_lorawan_get_rx2_delay (a_out a); rzi_lorawan_set_rx2_delay (a_int a);
  rzi_lorawan_get_rx2_data_rate (a_out a); rzi_lorawan_set_rx2_data_rate (a_int a);
  rzi_lorawan_get_rx2_frequency (a_out a); rzi_lorawan_set_rx2_frequency (a_int a);
  rzi_lorawan_get_join_accept_delay1 (a_out a); rzi_lorawan_set_join_accept_delay1 (a_int a);
  rzi_lorawan_get_join_accept_delay2 (a_out a); rzi_lorawan_set_join_accept_delay2 (a_int a)
].
Definition session_calls (a : api_args) : list (M world Z) := [
  rc_of (rzi_lorawan_get_dev_nonce (a_out a)); rzi_lorawan_set_dev_nonce (a_int a) ].
Definition class_b_calls (a : api_args) : list (M world Z) := [
  rc_of (rzi_lorawan_get_ping_slot_periodicity (a_out a));
  rzi_lorawan_set_ping_slot_periodicity (a_int a);
  rc_of (rzi_lorawan_get_beacon_frequency (a_out a)); rc_of (rzi_lorawan_get_beacon_time (a_out a));
  rc_of (rzi_lorawan_get_beacon_data_rate (a_out a));
  rc_of (rzi_lorawan_get_beacon_gateway (a_gateway a));
  rc_of (rzi_lorawan_get_class_b_state (a_out a)); rzi_lorawan_stop_class_b ].
Definition multicast_calls (a : api_args) : list (M world Z) := [
  rzi_lorawan_add_multicast_session (a_mc a); rzi_lorawan_remove_multicast_session (a_int a);
  rc_of (rzi_lorawan_get_multicast_count (a_out a));
  rc_of (rzi_lorawan_get_multicast_session (a_int a) (a_mc a));
  rzi_lorawan_clear_multicast_sessions ].
Definition certification_calls (a : api_args) : list (M world Z) := [
  rc_of (rzi_lorawan_get_certification_mode (a_bool_out a));
  rzi_lorawan_set_certification_mode (a_bool a);
  rc_of (rzi_lorawan_get_certification_port_enabled (a_bool_out a));
  rzi_lorawan_set_certification_port_enabled (a_bool a) ].
Definition mac_calls (a : api_args) : list (M world Z) := [
  rc_of (rzi_lorawan_get_link_check_mode (a_out a)); rzi_lorawan_request_link_check (a_int a);
  rc_of (rzi_lorawan_get_device_time_enabled (a_bool_out a));
  rzi_lorawan_request_device_time (a_bool a); rc_of (rzi_lorawan_get_network_time (a_time a)) ].
Definition optional_calls (a : api_args) : list (M world Z) :=
  network_calls a ++ session_calls a ++ class_b_calls a ++ multicast_calls a ++
  certification_calls a ++ mac_calls a.

(** A call that fails with one of the codes and changes nothing. *)
Definition refuses (codes : list Z) (w : world) (m : M world Z) : Prop :=
  (m w).1 ∈ codes /\ (m w).2 = w.
Ltac in_list := apply (bool_decide_unpack _); vm_compute; exact I.

(** Before the service has started. *)
Definition early : list Z := [- RZI_ERR_ISR; - RZI_ERR_INVALID; - RZI_ERR_NOT_READY].
Lemma early_bind w (k : M world Z) : started (w_core w) = 0 ->
  refuses early w (rc* rc := rzi_lorawan_check_started else rc in k).
Proof.
  intros Hs. unfold refuses, bind. rewrite check_started_run, Hs.
  destruct k_is_in_isr; (split; [in_list|done]).
Qed.
Lemma early_get {A} w (out : A) (k : M world (Z * A)) : started (w_core w) = 0 ->
  refuses early w (rc_of (let* rc := rzi_lorawan_check_started in
                          if negb (rc =? 0) then ret (rc, out) else k)).
Proof.
  intros Hs. unfold refuses, rc_of, bind. rewrite check_started_run, Hs.
  destruct k_is_in_isr; (split; [in_list|done]).
Qed.
Lemma early_network_get {A} w (op : option (getter backend_state A)) out :
  started (w_core w) = 0 -> refuses early w (rc_of (network_get op out)).
Proof.
  intros Hs. destruct out; [by apply early_get|]. split; [in_list|done].
Qed.
Lemma early_guard w (b : bool) m : refuses early w m ->
  refuses early w (if b then ret (- RZI_ERR_INVALID) else m).
Proof. intros Hm. destruct b; [|done]. split; [in_list|done]. Qed.
Lemma early_option {A} w (o : option A) m : (forall a, refuses early w (m a)) ->
  refuses early w (match o with None => ret (- RZI_ERR_INVALID) | Some a => m a end).
Proof. intros Hm. destruct o; [done|]. split; [in_list|done]. Qed.

(** On a thread, with the service started, and the table of the group absent. *)
Definition absent : list Z := [- RZI_ERR_INVALID; - RZI_ERR_NOT_SUPPORTED].
Definition running (w : world) : Prop := k_is_in_isr = false /\ started (w_core w) <> 0.
Lemma running_started w : running w -> rzi_lorawan_check_started w = (0, w).
Proof.
  intros [Hisr Hs]. rewrite check_started_run, Hisr. by destruct (Z.eqb_spec (started (w_core w)) 0).
Qed.
Lemma absent_bind w (k : M world Z) : running w -> refuses absent w k ->
  refuses absent w (rc* rc := rzi_lorawan_check_started else rc in k).
Proof. intros Hr Hk. unfold refuses, bind in *. by rewrite running_started. Qed.
Lemma absent_get {A} w (out : A) (k : M world (Z * A)) : running w -> refuses absent w (rc_of k) ->
  refuses absent w (rc_of (let* rc := rzi_lorawan_check_started in
                          if negb (rc =? 0) then ret (rc, out) else k)).
Proof. intros Hr Hk. unfold refuses, rc_of, bind in *. by rewrite running_started. Qed.
Lemma absent_ret w : refuses absent w (ret (- RZI_ERR_NOT_SUPPORTED)).
Proof. split; [in_list|done]. Qed.
Lemma absent_call w : running w -> refuses absent w (call_op None).
Proof. intros. by apply absent_bind, absent_ret. Qed.
Lemma absent_network_get {A} w (out : option A) :
  running w -> refuses absent w (rc_of (network_get None out)).
Proof.
  intros Hr. destruct out; [apply absent_get; [done|]|]; (split; [in_list|done]).
Qed.
Lemma absent_started_get {A} w (out : option A) :
  running w -> refuses absent w (rc_of (started_get None out)).
Proof. intros Hr. apply absent_get; [done|]. destruct out; (split; [in_list|done]). Qed.
Lemma absent_guard w (b : bool) m : refuses absent w m ->
  refuses absent w (if b then ret (- RZI_ERR_INVALID) else m).
Proof. intros Hm. destruct b; [|done]. split; [in_list|done]. Qed.
Lemma absent_option {A} w (o : option A) m : (forall a, refuses absent w (m a)) ->
  refuses absent w (match o with None => ret (- RZI_ERR_INVALID) | Some a => m a end).
Proof. intros Hm. destruct o; [done|]. split; [in_list|done]. Qed.

Ltac unfold_head := match goal with |- refuses _ _ ?m =>
  let rec head t := lazymatch t with ?f _ => head f | _ => t end in
  let h := head m in unfold h end.
Ltac early_step := first
  [by apply early_network_get | by apply early_bind | by apply early_get
  | apply early_guard | apply early_option; intros ? | unfold_head].

(** No optional function does anything before the service has started, or from an
    interrupt-less caller error: it returns an ISR, argument or not-ready code and changes
    nothing. *)
Theorem optional_calls_need_start a w :
  started (w_core w) = 0 -> Forall (refuses early w) (optional_calls a).
Proof.
  intros Hs. unfold optional_calls. rewrite !Forall_app.
  split_and!; repeat apply Forall_cons_2; try apply Forall_nil_2; repeat early_step.
Qed.

Ltac head_of t := lazymatch t with ?f _ => head_of f | _ => t end.
Ltac unfold_call := match goal with
  | |- refuses _ _ (rc_of ?m) => let h := head_of m in unfold h
  | |- refuses _ _ ?m => let h := head_of m in unfold h
  end.
Ltac absent_step Hn := first
  [ by apply absent_network_get | by apply absent_started_get | by apply absent_call
  | apply absent_ret | apply absent_guard | (apply absent_option; intros ?)
  | (apply absent_bind; [done|]) | (apply absent_get; [done|])
  | progress (unfold NETWORK_OP, link_check_op, device_time_op; rewrite ?Hn;
              cbn [fmap option_fmap option_map])
  | match goal with |- context [match ?o with None => _ | Some _ => _ end] =>
      destruct o; (split; [in_list|done]) end
  | unfold_call ].
Lemma member_none {T A} (table : rzi_lorawan_backend_api backend_state -> option T)
  (f : T -> option A) : table rzi_lorawan_backend = None -> member_of table f = None.
Proof. unfold member_of. by intros ->. Qed.

(** A group of optional functions whose table the backend does not provide is uniformly
    unsupported: on a running service every function of the group reports a bad argument or
    "not supported", and changes nothing. *)
Theorem absent_tables_unsupported a w :
  running w ->
  (network _ rzi_lorawan_backend = None -> Forall (refuses absent w) (network_calls a)) /\
  (session _ rzi_lorawan_backend = None -> Forall (refuses absent w) (session_calls a)) /\
  (class_b _ rzi_lorawan_backend = None -> Forall (refuses absent w) (class_b_calls a)) /\
  (multicast _ rzi_lorawan_backend = None -> Forall (refuses absent w) (multicast_calls a)) /\
  (certification _ rzi_lorawan_backend = None -> Forall (refuses absent w) (certification_calls a)) /\
  (mac _ rzi_lorawan_backend = None -> Forall (refuses absent w) (mac_calls a)).
Proof.
  intros Hr. split_and!; intros Ht;
    pose proof (fun A f => @member_none _ A _ f Ht) as Hn;
    repeat apply Forall_cons_2; try apply Forall_nil_2; repeat absent_step Hn.
Qed.

Lemma land_bit m i : 0 <= i -> (Z.land m (BIT i) =? 0) = negb (Z.testbit m i).
Proof.
  intros Hi. unfold BIT. rewrite Z.shiftl_1_l. destruct (Z.testbit m i) eqn:E.
  - apply Z.eqb_neq. intros Hz. assert (Hb : Z.testbit (Z.land m (2 ^ i)) i = true).
    { by rewrite Z.land_spec, E, Z.pow2_bits_true. }
    by rewrite Hz, Z.bits_0 in Hb.
  - apply Z.eqb_eq, Z.bits_inj'. intros n Hn. rewrite Z.land_spec, Z.bits_0.
    destruct (decide (n = i)) as [->|]; [by rewrite E|].
    by rewrite Z.pow2_bits_false, andb_false_r.
Qed.

(** The values the setters let through to the backend. *)
Definition args_in_range (a : api_args) : list (M world Z * bool) := [
  (rzi_lorawan_set_nb_trans (a_int a), (1 <=? a_int a) && (a_int a <=? 15));
  (rzi_lorawan_set_adr_ack (a_int a) (a_int2 a),
    (2 <=? a_int a) && (a_int a <=? 127) && (2 <=? a_int2 a) && (a_int2 a <=? 127));
  (rzi_lorawan_set_join_data_rates (a_bytes a), distribution_valid (a_bytes a));
  (rzi_lorawan_set_adr_profile (a_int a) (a_bytes a),
    (a_int a <=? 3) && (negb (a_int a =? 3) || distribution_valid (a_bytes a)));
  (rzi_lorawan_set_lbt_scan_time (a_int a), negb (a_int a =? 0));
  (rzi_lorawan_set_ping_slot_periodicity (a_int a), a_int a <=? 7);
  (rzi_lorawan_add_multicast_session (a_mc a),
    match a_mc a with Some s => multicast_valid s | None => false end);
  (rzi_lorawan_request_link_check (a_int a), a_int a <=? 2);
  (rzi_lorawan_set_data_rate (a_int a), a_int a <=? 15) ].

(** A call that is refused before it reaches the backend. *)
Definition rejected (w : world) (m : M world Z) : Prop := (m w).1 <> 0 /\ (m w).2 = w.
Lemma rejected_started w k : rejected w k ->
  rejected w (rc* rc := rzi_lorawan_check_started else rc in k).
Proof.
  intros Hk. unfold rejected, bind in *. rewrite check_started_run.
  destruct k_is_in_isr; [done|]. by destruct (started (w_core w) =? 0).
Qed.
Lemma rejected_invalid w : rejected w (ret (- RZI_ERR_INVALID)).
Proof. done. Qed.

(** Out-of-range arguments never reach the backend: such a call fails and changes nothing; and
    a data rate outside the mask the backend reports for the region is refused without calling
    the backend's setter. *)
Theorem bad_arguments_rejected a w :
  0 <= a_int a < 4294967296 -> 0 <= a_int2 a ->
  Forall (fun '(m, ok) => ok = false -> rejected w m) (args_in_range a) /\
  (forall f mask w1, running w -> a_int a <= 15 ->
     NETWORK_OP (op_get_enabled_data_rates _) = Some f -> call (f 0) w = ((0, mask), w1) ->
     Z.testbit mask (a_int a) = false ->
     (rzi_lorawan_set_data_rate (a_int a) w).1 <> 0 /\
     ((rzi_lorawan_set_data_rate (a_int a) w).2 = w \/ (rzi_lorawan_set_data_rate (a_int a) w).2 = w1)).
Proof.
  intros Hi Hi2. assert (Hu : u32 (a_int a) = a_int a) by (unfold u32; by rewrite Z.mod_small).
  split.
  - unfold args_in_range. repeat apply Forall_cons_2; try apply Forall_nil_2; intros Hok.
    + unfold rzi_lorawan_set_nb_trans. apply andb_false_iff in Hok.
      destruct (Z.eqb_spec (a_int a) 0), (Z.ltb_spec 15 (a_int a)); cbn [orb]; try done.
      exfalso. destruct Hok; zify_tests; lia.
    + unfold rzi_lorawan_set_adr_ack.
      destruct (Z.ltb_spec (a_int a) 2), (Z.ltb_spec 127 (a_int a)), (Z.ltb_spec (a_int2 a) 2),
        (Z.ltb_spec 127 (a_int2 a)); cbn [orb]; try done.
      exfalso. rewrite !(proj2 (Z.leb_le _ _)) in Hok by lia. done.
    + unfold rzi_lorawan_set_join_data_rates. by rewrite Hok.
    + unfold rzi_lorawan_set_adr_profile. rewrite Hu.
      destruct (Z.ltb_spec 3 (a_int a)); [done|]. rewrite (proj2 (Z.leb_le _ _)) in Hok by lia.
      cbn [andb orb] in *. apply orb_false_iff in Hok as [Heq%negb_false_iff Hd].
      by rewrite Heq, Hd.
    + unfold rzi_lorawan_set_lbt_scan_time. apply negb_false_iff in Hok. by rewrite Hok.
    + apply rejected_started. apply Z.leb_gt in Hok. by rewrite (proj2 (Z.ltb_lt _ _)).
    + apply rejected_started. destruct (a_mc a); [|done]. by rewrite Hok.
    + apply rejected_started. rewrite Hu. apply Z.leb_gt in Hok. by rewrite (proj2 (Z.ltb_lt _ _)).
    + unfold rzi_lorawan_set_data_rate. apply rejected_started.
      destruct (NETWORK_OP (op_set_data_rate _)); [|done]. unfold check_uplink_data_rate.
      rewrite Hu. apply Z.leb_gt in Hok. by rewrite (proj2 (Z.ltb_lt _ _)).
  - intros f mask w1 Hr Hle Hf Hc Hbit. unfold rzi_lorawan_set_data_rate, bind.
    rewrite running_started by done. cbn [Z.eqb].
    destruct (NETWORK_OP (op_set_data_rate _)); [|by split; [|left]].
    unfold check_uplink_data_rate. rewrite Hu. destruct (Z.ltb_spec 15 (a_int a)); [lia|].
    rewrite Hf. unfold bind. rewrite Hc. cbn [negb Z.eqb].
    rewrite land_bit by lia. rewrite Hbit. cbn. split; [done|by right].
Qed.

(** A link check requested once is not repeated by later uplinks, and one requested for every
    uplink is sent with each of them; a switched-off check is never sent. *)
Theorem link_check_once_or_every mode f w :
  running w -> link_check_op = Some f -> device_time_enabled (w_mac w) = false ->
  (rzi_lorawan_request_link_check mode w).1 = 0 ->
  let w' := (rzi_lorawan_request_link_check mode w).2 in
  (mode = RZI_LORAWAN_LINK_CHECK_EVERY_UPLINK ->
     (rzi_lorawan_mac_commands_on_uplink w').2 = (call f w').2) /\
  (mode = RZI_LORAWAN_LINK_CHECK_DISABLED \/ mode = RZI_LORAWAN_LINK_CHECK_ONCE ->
     (rzi_lorawan_mac_commands_on_uplink w').2 = w').
Proof.
  intros Hr Hf Hd. cbv zeta. unfold rzi_lorawan_request_link_check, bind.
  rewrite running_started by done. cbn [Z.eqb].
  destruct (_ <? u32 mode); [done|]. rewrite Hf. unfold trig_link_check. rewrite Hf.
  unfold set_link_check_mode, modify.
  assert (Hmac : forall v, w_mac (call f v).2 = w_mac v).
  { intros v. by destruct (call_sinks f v) as (b & q & o & ->). }
  assert (Hrun : forall v, device_time_enabled (w_mac v) = false ->
    (rzi_lorawan_mac_commands_on_uplink v).2 =
      (if link_check_mode (w_mac v) =? RZI_LORAWAN_LINK_CHECK_EVERY_UPLINK then (call f v).2 else v)).
  { intros v Hv. unfold rzi_lorawan_mac_commands_on_uplink, bind, get_mac, gets, trig_link_check.
    rewrite Hf. destruct (_ =? _).
    - unfold bind. specialize (Hmac v). destruct (call f v) as [x v']. cbn in *. by rewrite Hmac, Hv.
    - cbn. by rewrite Hv. }
  destruct (Z.eqb_spec mode RZI_LORAWAN_LINK_CHECK_DISABLED) as [->|].
  - intros _. cbn [snd ret]. split; [done|]. intros _. by rewrite Hrun.
  - set (w0 := set_w_mac _ w). specialize (Hmac w0). destruct (call f w0) as [rc w1] eqn:Ec. cbn [fst snd] in *.
    destruct (Z.eqb_spec rc 0) as [->|Hne]; [|cbn [andb]; destruct (Z.eqb_spec rc 0); done].
    cbn [andb]. destruct (Z.eqb_spec mode RZI_LORAWAN_LINK_CHECK_ONCE) as [->|]; cbn [fst snd ret].
    + intros _. split; [done|]. intros _. rewrite Hrun; [done|]. cbn. by rewrite Hmac.
    + intros _. split; [|lia]. intros ->. rewrite Hrun; rewrite Hmac; done.
Qed.
End facts.

Module ApiWitness.
Import SimInstances.
Definition args : api_args :=
  ApiArgs true 40 1 (Some false) (Some 0) None None None None None (Some (NetworkTime 0 0)).
Definition up : world := sim_world credentials_zero (set_started 1 core_init) true.
Lemma up_running : running up.
Proof. split; [reflexivity|discriminate]. Defined.

Lemma optional_calls_need_start_witness : Forall (refuses early boot) (optional_calls args).
Proof. exact (optional_calls_need_start args boot eq_refl). Defined.
Lemma absent_tables_unsupported_witness : Forall (refuses absent up) (network_calls args).
Proof. exact (proj1 (absent_tables_unsupported args up up_running) eq_refl). Defined.
Lemma bad_arguments_rejected_witness :
  Forall (fun '(m, ok) => ok = false -> rejected up m) (args_in_range args).
Proof.
  refine (proj1 (bad_arguments_rejected args up _ _)); vm_compute; [split; congruence|congruence].
Defined.
Lemma link_check_once_or_every_witness :
  let w' := (rzi_lorawan_request_link_check RZI_LORAWAN_LINK_CHECK_ONCE up).2 in
  (rzi_lorawan_mac_commands_on_uplink w').2 = w'.
Proof.
  refine (proj2 (link_check_once_or_every RZI_LORAWAN_LINK_CHECK_ONCE _ up up_running eq_refl
    eq_refl _) _); [vm_refl|by right].
Defined.
End ApiWitness.
