(* ===== verification/Lorawan.v ===== *)
(** * The LoRaWAN service (src/lorawan/lorawan.c)

    Start-up, the event queue and its dispatcher, subscribers, the join
    sequence, uplinks and the device class, over the backend contract of
    LorawanBackend.v.  The dispatcher thread is one step per queued event. *)
From S2P Require Import Prelude Zephyr Err Power Storage LorawanSettings LorawanBackend LorawanCore LorawanCredentials LorawanChannel LorawanApi.

Abbreviation SERVICE_MAX := 2.

(** The code behind the function pointers the service is given: subscriber
    callbacks [on_event(event, user_data)] and the hooks of attached services
    ([None] is a NULL hook). *)
Class LorawanHooks `{Zephyr} `{LorawanBackend} `{LorawanExt} : Type := {
  run_callback : Z -> rzi_lorawan_event -> Z -> M world unit;
  service_on_started : Z -> option (M world unit);
  service_on_event : Z -> option (rzi_lorawan_backend_event -> M world unit);
}.

(** [event_from_backend]: the public event of a backend event, if any. *)
Definition public_event (event : rzi_lorawan_backend_event) : option rzi_lorawan_event :=
  match event with
  | BACKEND_READY => Some EVENT_READY
  | BACKEND_JOINED => Some EVENT_JOINED
  | BACKEND_JOIN_FAILED error =>
      Some (EVENT_JOIN_FAILED (if negb (error =? 0) then error else - RZI_ERR_TIMEOUT))
  | BACKEND_TX_DONE status error => Some (EVENT_TXDONE status error)
  | BACKEND_DOWNLINK d => Some (EVENT_DOWNDATA d)
  | BACKEND_ERROR error => Some (EVENT_ERROR error)
  | BACKEND_STATE_CHANGED state => Some (EVENT_STATE_CHANGED state)
  | BACKEND_LINK_CHECK r => Some (EVENT_LINK_CHECK r)
  | BACKEND_DEVICE_TIME error => Some (EVENT_LORAWAN_MAC_TIME error)
  | BACKEND_CLASS_B state => Some (EVENT_CLASS_B state)
  | BACKEND_DUTY_CYCLE limited => Some (EVENT_REGIONAL_DUTY_CYCLE limited)
  | BACKEND_NO_DOWNLINK reasons => Some (EVENT_NO_DOWNLINK_THRESHOLD reasons)
  | BACKEND_FUOTA _ _ _ => None
  end.

(** *** Subscribers *)
Definition same_subscriber (registered callbacks : rzi_lorawan_callbacks) : bool :=
  (on_event registered =? on_event callbacks) && (user_data registered =? user_data callbacks).
Definition callbacks_empty (c : rzi_lorawan_callbacks) : bool := on_event c =? 0.
(** The registration loop: the first free slot, or the duplicate that stops it. *)
Fixpoint scan_slots (slots : list callback_slot) (i : nat) (available : option nat)
    (c : rzi_lorawan_callbacks) : option nat * bool :=
  match slots with
  | [] => (available, false)
  | s :: slots' =>
      if negb (active s)
      then scan_slots slots' (S i) (match available with None => Some i | Some _ => available end) c
      else if same_subscriber (callbacks s) c then (available, true)
      else scan_slots slots' (S i) available c
  end.
(** The unregistration loop: the first active slot of this subscriber. *)
Fixpoint find_slot (slots : list callback_slot) (i : nat) (c : rzi_lorawan_callbacks) : option nat :=
  match slots with
  | [] => None
  | s :: slots' =>
      if active s && same_subscriber (callbacks s) c then Some i else find_slot slots' (S i) c
  end.
Definition subscribers (slots : list callback_slot) : list rzi_lorawan_callbacks :=
  callbacks <$> filter (fun s => active s = true) slots.

Definition message_type_valid (type : Z) : bool :=
  (type =? RZI_LORAWAN_MSG_UNCONFIRMED) || (type =? RZI_LORAWAN_MSG_CONFIRMED).

Section service.
Context `{Zephyr} `{Errno} `{Kconfig} {ctx : ExecCtx} `{LorawanBackend} `{LorawanExt}
  `{!LorawanHooks}.

Abbreviation backend_base := (base _ rzi_lorawan_backend).

Definition event_from_backend (event : rzi_lorawan_backend_event)
  : M world (option rzi_lorawan_event) :=
  (match event with
   | BACKEND_DOWNLINK d => upd_core (set_last_downlink (dl_rssi_dbm d) (dl_snr_quarter_db d))
   | _ => ret tt
   end) ;;;
  ret (public_event event).

Definition clear_join_sequence : M world unit :=
  upd_core (set_sequence 0) ;;;
  upd_core (set_retries 0) ;;;
  rzi_lorawan_credentials_set_join_active false.

Definition swallow_join_event (event : rzi_lorawan_backend_event) : M world bool :=
  match event with
  | BACKEND_JOINED => clear_join_sequence ;;; ret false
  | BACKEND_JOIN_FAILED _ =>
      let* sequence := get_core join_sequence_active in
      if sequence =? 0 then ret false
      else
        let* retries := get_core join_retries_remaining in
        if 0 <? retries then upd_core (set_retries (retries - 1)) ;;; ret true
        else
          clear_join_sequence ;;;
          call (op_leave _ backend_base) ;;;
          publish_state STATE_READY ;;;
          ret false
  | _ => ret false
  end.

(** Delivery of one event to the subscribers and services of the snapshots. *)
Definition deliver_public (event : option rzi_lorawan_event)
    (subs : list rzi_lorawan_callbacks) : M world unit :=
  for_each subs (fun s =>
    match event with
    | Some e => if negb (on_event s =? 0) then run_callback (on_event s) e (user_data s) else ret tt
    | None => ret tt
    end).
Definition deliver_services (event : rzi_lorawan_backend_event) (attached : list Z)
  : M world unit :=
  for_each attached (fun s => match service_on_event s with
                              | Some h => h event
                              | None => ret tt
                              end).

Definition dispatch (event : rzi_lorawan_backend_event) : M world unit :=
  let* subs := gets (fun w => subscribers (w_slots w)) in
  let* swallowed := swallow_join_event event in
  if swallowed then ret tt
  else
    let* deliver := event_from_backend event in
    deliver_public deliver subs ;;;
    let* attached := gets w_services in
    deliver_services event attached.

(** One iteration of [dispatcher]; [false] when the queue is empty (the
    thread blocks). *)
Definition dispatcher_step : M world bool :=
  let* e := zoom w_events set_w_events k_msgq_get in
  match e with
  | None => ret false
  | Some event =>
      dispatch event ;;;
      let* o := get_core overflow in
      (if o =? 1
       then upd_core (set_overflow 0) ;;; dispatch (BACKEND_ERROR (- RZI_ERR_OVERFLOW))
       else ret tt) ;;;
      ret true
  end.

Definition rzi_lorawan_register_callbacks (c : option rzi_lorawan_callbacks) : M world Z :=
  if k_is_in_isr then ret (- RZI_ERR_ISR)
  else match c with
  | None => ret (- RZI_ERR_INVALID)
  | Some c =>
      if callbacks_empty c then ret (- RZI_ERR_INVALID)
      else
        let* slots := gets w_slots in
        match scan_slots slots 0 None c with
        | (_, true) => ret (- RZI_ERR_ALREADY)
        | (None, false) => ret (- RZI_ERR_NO_RESOURCE)
        | (Some i, false) =>
            modify (fun w => set_w_slots (<[i := CallbackSlot true c]> (w_slots w)) w) ;;; ret 0
        end
  end.

Definition rzi_lorawan_unregister_callbacks (c : option rzi_lorawan_callbacks) : M world Z :=
  if k_is_in_isr then ret (- RZI_ERR_ISR)
  else match c with
  | None => ret (- RZI_ERR_INVALID)
  | Some c =>
      if callbacks_empty c then ret (- RZI_ERR_INVALID)
      else
        let* slots := gets w_slots in
        match find_slot slots 0 c with
        | None => ret (- RZI_ERR_NOT_FOUND)
        | Some i => modify (fun w => set_w_slots (<[i := slot_zero]> (w_slots w)) w) ;;; ret 0
        end
  end.

Definition rzi_lorawan_set_region (region : Z) : M world Z :=
  if k_is_in_isr then ret (- RZI_ERR_ISR)
  else if RZI_LORAWAN_REGION_RU_864 <? u32 region then ret (- RZI_ERR_INVALID)
  else
    let* s := get_core started in
    if negb (s =? 0) then ret (- RZI_ERR_INVALID_STATE)
    else
      let* rc := rzi_lorawan_config_set_region region in
      if rc =? 0 then upd_core (set_region region) ;;; ret rc else ret rc.

Definition rzi_lorawan_set_join_backoff_bypass (enabled : bool) : M world Z :=
  if k_is_in_isr then ret (- RZI_ERR_ISR)
  else
    let* s := get_core started in
    if negb (s =? 0) then ret (- RZI_ERR_INVALID_STATE)
    else upd_core (set_bypass enabled) ;;; ret 0.

(** The assertions of [check_backend_contract] on the optional tables (the
    base operations are present by construction). *)
Definition capability_matches {T} (cap : Z) (ops : option T) : bool :=
  Bool.eqb (has_cap cap) (bool_decide (is_Some ops)).
Definition check_backend_contract : bool :=
  capability_matches RZI_LORAWAN_CAP_NETWORK (network _ rzi_lorawan_backend) &&
  capability_matches RZI_LORAWAN_CAP_CLASS_B (class_b _ rzi_lorawan_backend) &&
  capability_matches RZI_LORAWAN_CAP_SESSION (session _ rzi_lorawan_backend) &&
  capability_matches RZI_LORAWAN_CAP_MAC (mac _ rzi_lorawan_backend) &&
  capability_matches RZI_LORAWAN_CAP_MULTICAST (multicast _ rzi_lorawan_backend) &&
  capability_matches RZI_LORAWAN_CAP_CERTIFICATION (certification _ rzi_lorawan_backend) &&
  (negb CONFIG_RZI_LORAWAN_FUOTA ||
   capability_matches RZI_LORAWAN_CAP_FUOTA (fuota _ rzi_lorawan_backend)).

Definition rzi_lorawan_init (region : Z) : M world Z :=
  if k_is_in_isr then ret (- RZI_ERR_ISR)
  else if RZI_LORAWAN_REGION_RU_864 <? u32 region then ret (- RZI_ERR_INVALID)
  else
    let* s := get_core started in
    if negb (s =? 0) then ret (- RZI_ERR_ALREADY)
    else
      upd_core (set_started 1) ;;;
      let* rc := rzi_lorawan_config_set_region region in
      if negb (rc =? 0) then upd_core (set_started 0) ;;; ret rc
      else
        upd_core (set_region region) ;;;
        let* bypass := get_core configured_join_backoff_bypass in
        publish_state STATE_STARTING ;;;
        let* rc := call (op_start _ backend_base region bypass) in
        (if negb (rc =? 0)
         then upd_core (set_started 0) ;;; publish_state STATE_STOPPED
         else
           let* attached := gets w_services in
           for_each attached (fun s => default (ret tt) (service_on_started s))) ;;;
        ret rc.

Definition rzi_lorawan_register_service (service : option Z) : M world Z :=
  rc* rc := rzi_lorawan_check_thread else rc in
  match service with
  | None => ret (- RZI_ERR_INVALID)
  | Some s =>
      let* attached := gets w_services in
      if SERVICE_MAX <=? zlen attached then ret (- RZI_ERR_NO_RESOURCE)
      else modify (fun w => set_w_services (w_services w ++ [s]) w) ;;; ret 0
  end.

(** *** The join sequence *)
Definition begin_join : M world Z :=
  let* '(rc, mode) := rzi_lorawan_get_activation (Some 0) in
  let mode := default 0 mode in
  if negb (rc =? 0) then ret rc
  else if (mode =? RZI_LORAWAN_ACTIVATION_OTAA) && negb (has_cap RZI_LORAWAN_CAP_OTAA)
  then ret (- RZI_ERR_NOT_SUPPORTED)
  else if (mode =? RZI_LORAWAN_ACTIVATION_ABP) && negb (has_cap RZI_LORAWAN_CAP_ABP)
  then ret (- RZI_ERR_NOT_SUPPORTED)
  else
    let* '(rc, attempts) := rzi_lorawan_get_join_attempts (Some 0) in
    if negb (rc =? 0) then ret rc
    else
      let* '(rc, config) := rzi_lorawan_credentials_build_config in
      match config with
      | None => ret rc
      | Some config =>
          let* sequence := get_core join_sequence_active in
          if negb (sequence =? 0) then ret (- RZI_ERR_BUSY)
          else
            upd_core (set_sequence 1) ;;;
            upd_core (set_retries (default 0 attempts)) ;;;
            rzi_lorawan_credentials_set_join_active true ;;;
            publish_state STATE_JOINING ;;;
            let* rc := call (op_join _ backend_base config) in
            (if negb (rc =? 0) then clear_join_sequence ;;; publish_state STATE_READY
             else ret tt) ;;;
            ret rc
      end.

Definition stop_join : M world Z :=
  let* sequence := get_core join_sequence_active in
  clear_join_sequence ;;;
  let* context := check_context in
  if (sequence =? 0) || negb (context =? 0) then ret 0
  else
    let* '(rc, joined) := backend_is_joined in
    let* rc :=
      (if (rc =? 0) && negb joined then
         let* rc := call (op_leave _ backend_base) in
         ret (if rc =? - RZI_ERR_NOT_SUPPORTED then 0 else rc)
       else ret rc) in
    (if (rc =? 0) && negb joined then publish_state STATE_READY else ret tt) ;;;
    ret rc.

Definition rzi_lorawan_join (start auto_join interval attempts : Z) : M world Z :=
  rc* rc := rzi_lorawan_check_thread else rc in
  if negb (start =? RZI_LORAWAN_JOIN_KEEP) && negb (start =? 0) && negb (start =? 1)
  then ret (- RZI_ERR_INVALID)
  else
    let* sequence := get_core join_sequence_active in
    if (start =? 1) && negb (sequence =? 0) then ret (- RZI_ERR_BUSY)
    else
      rc* rc := rzi_lorawan_credentials_update_policy auto_join interval attempts else rc in
      if start =? 0 then stop_join
      else if negb (start =? 1) then ret 0
      else
        rc* rc := check_context else rc in
        begin_join.

Definition rzi_lorawan_leave : M world Z :=
  rc* rc := check_context else rc in
  let* rc := call (op_leave _ backend_base) in
  (if rc =? 0
   then update_class_c_power_locked false ;;; publish_state STATE_READY
   else ret tt) ;;;
  ret rc.

(** *** Uplinks *)
Definition check_joined : M world Z :=
  rc* rc := check_context else rc in
  let* '(rc, joined) := backend_is_joined in
  if negb (rc =? 0) then ret rc
  else ret (if joined then 0 else - RZI_ERR_NOT_JOINED).

Definition send_args_ok (port : Z) (data : option (list Z)) (size type : Z) : bool :=
  negb ((bool_decide (data = None) && negb (size =? 0)) || (port =? 0) || (223 <? port) ||
        negb (message_type_valid type)).

Definition rzi_lorawan_send (port : Z) (data : option (list Z)) (size type : Z) : M world Z :=
  if negb (send_args_ok port data size type) then ret (- RZI_ERR_INVALID)
  else if RZI_LORAWAN_MAX_PAYLOAD <? size then ret (- RZI_ERR_TOO_LARGE)
  else
    rc* rc := check_joined else rc in
    rzi_lorawan_mac_commands_on_uplink ;;;
    call (op_send _ backend_base port data size type).

Definition rzi_lorawan_send_empty (with_port : bool) (port type : Z) : M world Z :=
  if (with_port && ((port =? 0) || (223 <? port))) || negb (message_type_valid type)
  then ret (- RZI_ERR_INVALID)
  else
    rc* rc := check_context else rc in
    match NETWORK_OP (op_send_empty _) with
    | None => ret (- RZI_ERR_NOT_SUPPORTED)
    | Some f =>
        rc* rc := check_joined else rc in
        rzi_lorawan_mac_commands_on_uplink ;;;
        call (f with_port port type)
    end.

(** *** Device class *)
Definition class_cap (device_class : Z) : Z :=
  at_ [RZI_LORAWAN_CAP_CLASS_A; RZI_LORAWAN_CAP_CLASS_B; RZI_LORAWAN_CAP_CLASS_C] device_class.

Definition rzi_lorawan_set_class (device_class : Z) : M world Z :=
  if RZI_LORAWAN_CLASS_C <? u32 device_class then ret (- RZI_ERR_INVALID)
  else
    rc* rc := check_context else rc in
    if negb (has_cap (class_cap device_class)) then ret (- RZI_ERR_NOT_SUPPORTED)
    else
      let* rc := call (op_set_class _ backend_base device_class) in
      if rc =? 0 then rzi_lorawan_note_class device_class ;;; ret rc else ret rc.

Definition rzi_lorawan_get_class (out : option Z) : M world (Z * option Z) :=
  let* rc := rzi_lorawan_check_started in
  if negb (rc =? 0) then ret (rc, out)
  else match out with
  | None => ret (- RZI_ERR_INVALID, None)
  | Some old =>
      let remembered : M world (Z * option Z) :=
        let* c := get_core configured_class in ret (0, Some c) in
      match op_get_class _ backend_base with
      | None => remembered
      | Some f =>
          let* '(rc, v) := call (f old) in
          if rc =? 0 then rzi_lorawan_note_class v ;;; ret (0, Some v)
          else if negb (rc =? - RZI_ERR_NOT_SUPPORTED) then ret (rc, Some v)
          else remembered
      end
  end.

(** *** Information *)
Definition rzi_lorawan_get_capabilities : Z := capabilities _ rzi_lorawan_backend.

Definition get_last {A} (f : core_state -> A) (out : option A) : M world (Z * option A) :=
  let* rc := rzi_lorawan_check_thread in
  if negb (rc =? 0) then ret (rc, out)
  else match out with
  | None => ret (- RZI_ERR_INVALID, None)
  | Some _ =>
      let* valid := get_core last_downlink_valid in
      if negb valid then ret (- RZI_ERR_NO_DATA, out)
      else let* v := get_core f in ret (0, Some v)
  end.
Definition rzi_lorawan_get_last_rssi (out : option Z) := get_last last_rssi_dbm out.
Definition rzi_lorawan_get_last_snr (out : option Z) := get_last last_snr_quarter_db out.

Definition rzi_lorawan_get_protocol_version (out : option string) : M world (Z * option string) :=
  let* rc := rzi_lorawan_check_thread in
  if negb (rc =? 0) then ret (rc, out)
  else match out with
  | None => ret (- RZI_ERR_INVALID, None)
  | Some _ => ret (0, Some "LoRaWAN 1.0.4"%string)
  end.

Definition rzi_lorawan_is_busy (busy : option bool) : M world (Z * option bool) :=
  let* rc := rzi_lorawan_check_thread in
  if negb (rc =? 0) then ret (rc, busy)
  else match busy with
  | None => ret (- RZI_ERR_INVALID, None)
  | Some old =>
      let* s := get_core started in
      if s =? 0 then ret (0, Some false)
      else let* '(rc, b) := call (op_is_busy _ backend_base old) in ret (rc, Some b)
  end.
End service.

(** ** Facts about the subscriber slots *)
Lemma same_subscriber_spec a b : same_subscriber a b = true <-> a = b.
Proof.
  unfold same_subscriber. rewrite andb_true_iff, !Z.eqb_eq. destruct a, b; cbn.
  split; [intros [-> ->]; done|by intros [= -> ->]].
Qed.
Lemma filter_all {A} (P : A -> Prop) `{!forall x, Decision (P x)} l : Forall P l -> filter P l = l.
Proof. induction 1 as [|x l Hx _ IH]; [done|]. by rewrite filter_cons_True, IH. Qed.
Lemma subscribers_app l l' : subscribers (l ++ l') = subscribers l ++ subscribers l'.
Proof. unfold subscribers. by rewrite filter_app, fmap_app. Qed.
Lemma subscribers_cons s l :
  subscribers (s :: l) = (if active s then [callbacks s] else []) ++ subscribers l.
Proof. unfold subscribers. rewrite filter_cons. destruct (active s); [by rewrite decide_True|by rewrite decide_False]. Qed.
Lemma insert_split (l : list callback_slot) i s x : l !! i = Some s ->
  l = take i l ++ s :: drop (S i) l /\ <[i := x]> l = take i l ++ x :: drop (S i) l.
Proof.
  intros Hi. split; [by rewrite take_drop_middle|].
  apply insert_take_drop. by apply lookup_lt_Some in Hi.
Qed.
Lemma subscribers_insert l i s c : l !! i = Some s -> active s = false ->
  subscribers (<[i := CallbackSlot true c]> l) ≡ₚ c :: subscribers l.
Proof.
  intros Hi Hs. destruct (insert_split l i s (CallbackSlot true c) Hi) as [Hl ->].
  rewrite Hl at 3. rewrite !subscribers_app, !subscribers_cons, Hs. cbn.
  by rewrite Permutation_middle.
Qed.
Lemma subscribers_clear l i s : l !! i = Some s -> active s = true ->
  subscribers l ≡ₚ callbacks s :: subscribers (<[i := slot_zero]> l).
Proof.
  intros Hi Hs. destruct (insert_split l i s slot_zero Hi) as [Hl ->].
  rewrite Hl at 1. rewrite !subscribers_app, !subscribers_cons, Hs. cbn.
  by rewrite Permutation_middle.
Qed.

Lemma scan_slots_spec c slots : forall i avail,
  let r := scan_slots slots i avail c in
  (r.2 = true <-> c ∈ subscribers slots) /\
  (r.2 = false -> match avail with
                  | Some _ => r.1 = avail
                  | None => match r.1 with
                            | Some k => exists j s, k = (i + j)%nat /\ slots !! j = Some s /\ active s = false
                            | None => Forall (fun s => active s = true) slots
                            end
                  end).
Proof.
  induction slots as [|s slots IH]; intros i avail; cbn [scan_slots].
  { cbn. split; [split; [done|by intros ?%elem_of_nil]|]. intros _. destruct avail; [done|constructor]. }
  rewrite subscribers_cons. destruct (active s) eqn:Ea; cbn [negb].
  - destruct (same_subscriber (callbacks s) c) eqn:Es.
    + apply same_subscriber_spec in Es as ->. cbn. split; [|done]. split; [left|done].
    + specialize (IH (S i) avail) as [IH1 IH2]. split.
      * rewrite IH1. cbn. rewrite elem_of_cons. split; [by right|]. intros [->|]; [|done].
        by rewrite (proj2 (same_subscriber_spec _ _) eq_refl) in Es.
      * intros Hr. specialize (IH2 Hr). destruct avail; [done|].
        destruct (scan_slots slots (S i) None c).1; [|by constructor].
        destruct IH2 as (j & s' & -> & ? & ?). exists (S j), s'. split_and!; [lia|done|done].
  - cbn [app]. destruct (IH (S i) (match avail with Some _ => avail | None => Some i end)) as [IH1 IH2].
    split; [done|]. intros Hr. specialize (IH2 Hr). destruct avail; [done|].
    rewrite IH2. exists 0%nat, s. split_and!; [lia|done|done].
Qed.
Lemma find_slot_spec c slots : forall i,
  match find_slot slots i c with
  | Some k => exists j s, k = (i + j)%nat /\ slots !! j = Some s /\ active s = true /\ callbacks s = c
  | None => c ∉ subscribers slots
  end.
Proof.
  induction slots as [|s slots IH]; intros i; cbn [find_slot]; [by intros ?%elem_of_nil|].
  destruct (active s && same_subscriber (callbacks s) c) eqn:E.
  - apply andb_true_iff in E as [Ha Hs%same_subscriber_spec]. exists 0%nat, s. split_and!; [lia|done..].
  - specialize (IH (S i)). destruct (find_slot slots (S i) c).
    + destruct IH as (j & s' & -> & ? & ? & ?). exists (S j), s'. split_and!; [lia|done..].
    + rewrite subscribers_cons. apply andb_false_iff in E. destruct (active s); [|done].
      destruct E as [|E]; [done|]. cbn. rewrite not_elem_of_cons. split; [|done].
      intros ->. by rewrite (proj2 (same_subscriber_spec _ _) eq_refl) in E.
Qed.
