(* ===== verification/LorawanService.v ===== *)
(** * The LoRaWAN service as a transition system

    Every public function, every event and every dispatcher step as a step
    relation on the whole service state, and the invariant its reachable
    states keep.  The first half shows that almost every call leaves the join
    sequence, the subscribers, the services and the started flag alone. *)
From S2P Require Import Prelude Zephyr Err Power Storage LorawanSettings LorawanBackend LorawanCore LorawanCredentials LorawanChannel LorawanApi Lorawan.

(** ** Calls that leave the join sequence, the subscribers, the services and
    the started flag alone *)
Section quiet.
Context `{SettingsOk} `{!BytesOk} `{Errno} `{Kconfig} `{!KconfigOk} {ctx : ExecCtx}
  `{LorawanBackend} `{LorawanExt} `{!LorawanHooks}.

Definition obs (w : world) : Z * Z * bool * list callback_slot * list Z * Z :=
  (join_sequence_active (w_core w), join_retries_remaining (w_core w), join_active (w_cred w),
   w_slots w, w_services w, started (w_core w)).
(** The overflow flag stays raised until the dispatcher lowers it. *)
Definition overflowed (w : world) : Prop := overflow (w_core w) = 1.
Definition quietly (w w' : world) : Prop := obs w' = obs w /\ (overflowed w -> overflowed w').
#[export] Instance quietly_preorder : PreOrder quietly.
Proof. split; [by split|]. intros a b c [Ha Hb] [Hc Hd]. split; [congruence|auto]. Qed.
Abbreviation quiet m := (respects quietly m).

Lemma quiet_obs {A} (m : M world A) : quiet m -> keeps obs m.
Proof. intros Hm w. apply Hm. Qed.
Lemma cfg_quiet {A} (m : M schema_state A) : quiet (cfg m).
Proof. intros w. by rewrite cfg_run. Qed.
Lemma sinks_obs w w' : sinks w w' -> obs w' = obs w.
Proof. by intros (b & q & o & ->). Qed.
Lemma publish_quiet e : quiet (publish e).
Proof.
  intros w. split; [apply sinks_obs, publish_sinks|]. intros Ho. unfold publish, bind, zoom.
  destruct (k_msgq_put e (w_events w)) as [rc q]. by destruct (negb (rc =? 0)).
Qed.
Lemma call_quiet {A} (op : bop backend_state A) : quiet (call op).
Proof.
  intros w. unfold call. destruct (op (w_backend w)) as [[a es] b].
  assert (Hq : quiet (for_each es publish ;;; ret a)) by (frame; apply publish_quiet).
  etransitivity; [|apply Hq]. by split.
Qed.
Lemma upd_core_quiet f :
  (forall c, join_sequence_active (f c) = join_sequence_active c /\
             join_retries_remaining (f c) = join_retries_remaining c /\ started (f c) = started c /\
             overflow (f c) = overflow c) ->
  quiet (upd_core f).
Proof.
  intros Hf w. unfold quietly, obs, overflowed, upd_core. cbn.
  destruct (Hf (w_core w)) as (-> & -> & -> & ->). done.
Qed.
Lemma upd_cred_quiet f : (forall c, join_active (f c) = join_active c) -> quiet (upd_cred f).
Proof. intros Hf w. split; [|done]. unfold obs, upd_cred. cbn. by rewrite Hf. Qed.
Lemma gets_quiet {A} (f : world -> A) : quiet (gets f).
Proof. by intros w. Qed.
Lemma ensure_loaded_quiet : quiet ensure_loaded_locked.
Proof.
  intros w. destruct (ensure_loaded_spec w) as ([(c & Heq & Hj) _] & _). unfold wp in *.
  unfold quietly, obs, overflowed. rewrite Heq. cbn. by rewrite Hj.
Qed.
Lemma check_started_quiet : quiet rzi_lorawan_check_started.
Proof. intros w. by rewrite check_started_run. Qed.
Lemma check_thread_quiet : quiet rzi_lorawan_check_thread.
Proof. by intros w. Qed.
Lemma set_mac_quiet f : quiet (modify (fun w : world => set_w_mac (f w) w)).
Proof. by intros w. Qed.
End quiet.
#[export] Hint Resolve cfg_quiet call_quiet publish_quiet gets_quiet ensure_loaded_quiet
  check_started_quiet check_thread_quiet : frame.

Section quiet2.
Context `{SettingsOk} `{!BytesOk} `{Errno} `{Kconfig} `{!KconfigOk} {ctx : ExecCtx}
  `{LorawanBackend} `{LorawanExt} `{!LorawanHooks}.
Abbreviation quiet m := (respects quietly m).

Ltac q := repeat first
  [ frame_step
  | match goal with
    | |- respects _ (get_core _) => apply gets_quiet
    | |- respects _ (get_cred _) => apply gets_quiet
    | |- respects _ (get_mac _) => apply gets_quiet
    | |- respects _ (upd_core _) => apply upd_core_quiet; by intros []
    | |- respects _ (upd_cred _) => apply upd_cred_quiet; by intros []
    | |- respects _ (modify _) => apply set_mac_quiet
    end ].
Ltac qu h := unfold h; q.

Lemma setting_read_quiet k n : quiet (setting_read k n). Proof. apply cfg_quiet. Qed.
Lemma setting_write_quiet k v n : quiet (setting_write k v n). Proof. apply cfg_quiet. Qed.
Lemma persist_quiet k v n : quiet (persist k v n). Proof. apply cfg_quiet. Qed.
Lemma backend_is_joined_quiet : quiet backend_is_joined. Proof. apply call_quiet. Qed.
Lemma check_context_quiet : quiet check_context. Proof. apply check_started_quiet. Qed.
#[local] Hint Resolve setting_read_quiet setting_write_quiet persist_quiet
  backend_is_joined_quiet check_context_quiet : frame.
Lemma power_quiet {A} (m : M power_state A) : quiet (power_service m). Proof. apply cfg_quiet. Qed.
#[local] Hint Resolve power_quiet : frame.
Lemma class_power_quiet b : quiet (update_class_c_power_locked b).
Proof. qu @update_class_c_power_locked. Qed.
#[local] Hint Resolve class_power_quiet : frame.
Lemma note_class_quiet c : quiet (rzi_lorawan_note_class c).
Proof. qu @rzi_lorawan_note_class. Qed.
Lemma config_get_region_quiet r : quiet (rzi_lorawan_config_get_region r).
Proof. qu @rzi_lorawan_config_get_region. Qed.
#[local] Hint Resolve note_class_quiet config_get_region_quiet : frame.
Lemma get_region_quiet o : quiet (rzi_lorawan_get_region o).
Proof. qu @rzi_lorawan_get_region. Qed.
Lemma is_joined_quiet o : quiet (rzi_lorawan_is_joined o).
Proof. qu @rzi_lorawan_is_joined. Qed.
#[local] Hint Resolve get_region_quiet is_joined_quiet : frame.

(** *** Credentials *)
Lemma set_bytes_quiet F k s l n : (forall v c, join_active (f_put F v c) = join_active c) ->
  quiet (set_bytes F k s l n).
Proof. intros HF. unfold set_bytes. q. Qed.
Lemma get_bytes_quiet F d l n : quiet (get_bytes F d l n).
Proof. qu @get_bytes. Qed.
Lemma session_joined_quiet : quiet session_joined.
Proof. qu @session_joined. Qed.
#[local] Hint Resolve session_joined_quiet : frame.
Lemma read_otaa_key_quiet r k l : quiet (read_otaa_key r k l).
Proof. qu @read_otaa_key. Qed.
Lemma read_otaa_dev_addr_quiet a : quiet (read_otaa_dev_addr a).
Proof. qu @read_otaa_dev_addr. Qed.
#[local] Hint Resolve read_otaa_key_quiet read_otaa_dev_addr_quiet : frame.
Lemma get_session_key_quiet F r k l : quiet (get_session_key F r k l).
Proof. qu @get_session_key. Qed.
Lemma get_loaded_quiet {A} (f : credential_store -> A) o : quiet (get_loaded f o).
Proof. qu @get_loaded. Qed.
Lemma get_dev_addr_quiet o : quiet (rzi_lorawan_get_dev_addr o).
Proof. qu @rzi_lorawan_get_dev_addr. Qed.
Lemma set_dev_addr_quiet a : quiet (rzi_lorawan_set_dev_addr a).
Proof. qu @rzi_lorawan_set_dev_addr. Qed.
Lemma set_activation_quiet m : quiet (rzi_lorawan_set_activation m).
Proof. qu @rzi_lorawan_set_activation. Qed.
Lemma update_policy_quiet a i n : quiet (rzi_lorawan_credentials_update_policy a i n).
Proof. qu @rzi_lorawan_credentials_update_policy. Qed.
Lemma get_mask_quiet : quiet rzi_lorawan_credentials_get_channel_mask.
Proof. qu @rzi_lorawan_credentials_get_channel_mask. Qed.
Lemma set_mask_quiet m : quiet (rzi_lorawan_credentials_set_channel_mask m).
Proof. qu @rzi_lorawan_credentials_set_channel_mask. Qed.
Lemma build_config_quiet : quiet rzi_lorawan_credentials_build_config.
Proof. qu @rzi_lorawan_credentials_build_config. Qed.
Lemma clear_settings_quiet : quiet rzi_lorawan_clear_settings.
Proof.
  intros w. unfold rzi_lorawan_clear_settings, rzi_lorawan_credentials_clear_settings, bind, quietly, overflowed.
  rewrite check_thread_run. destruct k_is_in_isr; [done|]. cbn [Z.eqb get_cred gets].
  destruct (join_active (w_cred w)) eqn:E; [done|]. rewrite cfg_run.
  destruct (_ =? 0); [|done]. split; [|done]. unfold obs. cbn. by rewrite E.
Qed.
#[local] Hint Resolve get_bytes_quiet get_session_key_quiet get_loaded_quiet get_dev_addr_quiet
  set_dev_addr_quiet set_activation_quiet update_policy_quiet get_mask_quiet set_mask_quiet
  build_config_quiet clear_settings_quiet : frame.
Lemma code_quiet {A} (m : M world (Z * A)) : quiet m -> quiet (code m).
Proof. intros. unfold code. q. Qed.
Lemma cred_quiet c : quiet (run_cred c).
Proof.
  destruct c; cbn [run_cred]; try apply code_quiet;
    first [by apply set_bytes_quiet | solve [auto with frame] | apply get_bytes_quiet
          | apply get_session_key_quiet | apply get_loaded_quiet].
Qed.

(** *** Optional functions *)
Lemma call_getter_quiet {A} (op : option (getter backend_state A)) old : quiet (call_getter op old).
Proof. qu @call_getter. Qed.
#[local] Hint Resolve call_getter_quiet : frame.
Lemma network_get_quiet {A} (op : option (getter backend_state A)) out :
  quiet (rc_of (network_get op out)).
Proof. unfold rc_of, network_get. q. Qed.
Lemma started_get_quiet {A} (op : option (getter backend_state A)) out :
  quiet (rc_of (started_get op out)).
Proof. unfold rc_of, started_get. q. Qed.
Lemma call_op_quiet op : quiet (call_op op).
Proof. qu @call_op. Qed.
Lemma unsupported_quiet : quiet unsupported.
Proof. qu @unsupported. Qed.
#[local] Hint Resolve call_op_quiet unsupported_quiet : frame.
Lemma trig_link_check_quiet : quiet trig_link_check.
Proof. qu @trig_link_check. Qed.
Lemma trig_device_time_quiet : quiet trig_device_time.
Proof. qu @trig_device_time. Qed.
#[local] Hint Resolve trig_link_check_quiet trig_device_time_quiet : frame.
Lemma link_check_mode_quiet m : quiet (set_link_check_mode m).
Proof. by intros w. Qed.
Lemma device_time_enabled_quiet m : quiet (set_device_time_enabled m).
Proof. by intros w. Qed.
Lemma check_data_rate_quiet d : quiet (check_uplink_data_rate d).
Proof. qu @check_uplink_data_rate. Qed.
#[local] Hint Resolve link_check_mode_quiet device_time_enabled_quiet check_data_rate_quiet : frame.
Lemma on_uplink_quiet : quiet rzi_lorawan_mac_commands_on_uplink.
Proof. qu @rzi_lorawan_mac_commands_on_uplink. Qed.

Ltac head_of t := lazymatch t with ?f _ => head_of f | _ => t end.
Ltac optional_step := first
  [ apply network_get_quiet | apply started_get_quiet | apply call_op_quiet | apply unsupported_quiet
  | match goal with
    | |- respects _ (rc_of ?m) => let h := head_of m in unfold rc_of, h; solve [q]
    | |- respects _ ?m => let h := head_of m in unfold h; solve [q]
    end
  | match goal with
    | |- respects _ (rc_of ?m) => let h := head_of m in unfold h
    | |- respects _ ?m => let h := head_of m in unfold h
    end ].
Lemma optional_quiet a : Forall (fun m => quiet m) (optional_calls a).
Proof.
  unfold optional_calls. rewrite !Forall_app.
  split_and!; repeat apply Forall_cons_2; try apply Forall_nil_2; repeat optional_step.
Qed.
Lemma get_net_id_quiet o : quiet (rzi_lorawan_get_net_id o).
Proof. unfold rzi_lorawan_get_net_id, rzi_lorawan_config_get_net_id. q. Qed.

(** *** Channel plan *)
Lemma channel_plan_quiet : quiet get_channel_plan.
Proof. qu @get_channel_plan. Qed.
Lemma read_mask_quiet : quiet read_mask.
Proof. qu @read_mask. Qed.
Lemma store_mask_quiet m : quiet (store_mask m).
Proof. apply set_mask_quiet. Qed.
#[local] Hint Resolve channel_plan_quiet read_mask_quiet store_mask_quiet : frame.
Lemma channel_calls_quiet :
  (forall b, quiet (rzi_lorawan_set_sub_band b)) /\ (forall f, quiet (rzi_lorawan_set_fixed_channel f)) /\
  (forall m n, quiet (rzi_lorawan_set_channel_mask m n)) /\
  (forall b, quiet (rzi_lorawan_get_sub_band b)) /\ (forall f, quiet (rzi_lorawan_get_fixed_channel f)) /\
  (forall m n, quiet (rzi_lorawan_get_channel_mask m n)).
Proof.
  split_and!; intros; [qu @rzi_lorawan_set_sub_band | qu @rzi_lorawan_set_fixed_channel
    | qu @rzi_lorawan_set_channel_mask | qu @rzi_lorawan_get_sub_band
    | qu @rzi_lorawan_get_fixed_channel | qu @rzi_lorawan_get_channel_mask].
Qed.

(** *** Service functions *)
Lemma event_from_backend_quiet e : quiet (event_from_backend e).
Proof. qu @event_from_backend. Qed.
Lemma check_joined_quiet : quiet check_joined.
Proof. qu @check_joined. Qed.
#[local] Hint Resolve check_joined_quiet on_uplink_quiet : frame.
Lemma send_quiet p d n t : quiet (rzi_lorawan_send p d n t).
Proof. qu @rzi_lorawan_send. Qed.
Lemma send_empty_quiet b p t : quiet (rzi_lorawan_send_empty b p t).
Proof. qu @rzi_lorawan_send_empty. Qed.
Lemma set_class_quiet c : quiet (rzi_lorawan_set_class c).
Proof. qu @rzi_lorawan_set_class. Qed.
Lemma get_class_quiet o : quiet (rzi_lorawan_get_class o).
Proof. qu @rzi_lorawan_get_class. Qed.
Lemma publish_state_quiet s : quiet (publish_state s).
Proof. apply publish_quiet. Qed.
#[local] Hint Resolve publish_state_quiet : frame.
Lemma leave_quiet : quiet rzi_lorawan_leave.
Proof. qu @rzi_lorawan_leave. Qed.
Lemma set_region_quiet r : quiet (rzi_lorawan_set_region r).
Proof. unfold rzi_lorawan_set_region, rzi_lorawan_config_set_region. q. Qed.
Lemma set_bypass_quiet b : quiet (rzi_lorawan_set_join_backoff_bypass b).
Proof. qu @rzi_lorawan_set_join_backoff_bypass. Qed.
Lemma is_busy_quiet o : quiet (rzi_lorawan_is_busy o).
Proof. qu @rzi_lorawan_is_busy. Qed.
End quiet2.

(** ** The service as a transition system *)
Section steps.
Context `{SettingsOk} `{!BytesOk} `{Errno} `{Kconfig} `{!KconfigOk} {ctx : ExecCtx}
  `{LorawanBackend} `{LorawanExt} `{!LorawanHooks}.

(** Every public function that can change the state, with its arguments. *)
Inductive lorawan_call : Type :=
| Join (start auto_join interval attempts : Z) | Leave
| Send (port : Z) (data : option (list Z)) (size type : Z)
| SendEmpty (with_port : bool) (port type : Z)
| SetClass (c : Z) | GetClass (out : option Z) | Init (region : Z) | SetRegion (region : Z)
| SetBypass (b : bool) | Register (c : option rzi_lorawan_callbacks)
| Unregister (c : option rzi_lorawan_callbacks) | RegisterService (s : option Z)
| GetRegion (out : option Z) | IsJoined (out : option bool) | IsBusy (out : option bool)
| GetNetId (out : option Z) | Cred (c : cred_call) | Optional (a : api_args) (i : nat)
| SetSubBand (b : Z) | SetFixedChannel (f : Z) | SetMask (m : option (list Z)) (n : Z)
| GetSubBand (out : option Z) | GetFixedChannel (out : option Z) | GetMask (m : option (list Z)) (n : Z).
Definition run_call (c : lorawan_call) : M world unit :=
  match c with
  | Join s a i n => rzi_lorawan_join s a i n ;;; ret tt
  | Leave => rzi_lorawan_leave ;;; ret tt
  | Send p d n t => rzi_lorawan_send p d n t ;;; ret tt
  | SendEmpty b p t => rzi_lorawan_send_empty b p t ;;; ret tt
  | SetClass c => rzi_lorawan_set_class c ;;; ret tt
  | GetClass o => rzi_lorawan_get_class o ;;; ret tt
  | Init r => rzi_lorawan_init r ;;; ret tt
  | SetRegion r => rzi_lorawan_set_region r ;;; ret tt
  | SetBypass b => rzi_lorawan_set_join_backoff_bypass b ;;; ret tt
  | Register c => rzi_lorawan_register_callbacks c ;;; ret tt
  | Unregister c => rzi_lorawan_unregister_callbacks c ;;; ret tt
  | RegisterService s => rzi_lorawan_register_service s ;;; ret tt
  | GetRegion o => rzi_lorawan_get_region o ;;; ret tt
  | IsJoined o => rzi_lorawan_is_joined o ;;; ret tt
  | IsBusy o => rzi_lorawan_is_busy o ;;; ret tt
  | GetNetId o => rzi_lorawan_get_net_id o ;;; ret tt
  | Cred c => run_cred c ;;; ret tt
  | Optional a i => nth i (optional_calls a) (ret 0) ;;; ret tt
  | SetSubBand b => rzi_lorawan_set_sub_band b ;;; ret tt
  | SetFixedChannel f => rzi_lorawan_set_fixed_channel f ;;; ret tt
  | SetMask m n => rzi_lorawan_set_channel_mask m n ;;; ret tt
  | GetSubBand o => rzi_lorawan_get_sub_band o ;;; ret tt
  | GetFixedChannel o => rzi_lorawan_get_fixed_channel o ;;; ret tt
  | GetMask m n => rzi_lorawan_get_channel_mask m n ;;; ret tt
  end.

(** What application code, attached services and the backend's own threads
    can do: call the API (other than [rzi_lorawan_init], which runs hooks),
    publish an event, change their own state, and use the storage and power
    services directly. *)
Inductive client_step (w : world) : world -> Prop :=
| step_call c : (forall r, c <> Init r) -> client_step w (run_call c w).2
| step_event e : client_step w (publish e w).2
| step_backend b : client_step w (set_w_backend b w)
| step_ext x : client_step w (set_w_ext x w)
| step_below {A} (m : M schema_state A) : client_step w (cfg m w).2.
(** The whole service: its clients, a start, and the dispatcher thread. *)
Inductive service_step (w : world) : world -> Prop :=
| step_client w' : client_step w w' -> service_step w w'
| step_init r : service_step w (run_call (Init r) w).2
| step_dispatch : service_step w (dispatcher_step w).2.

(** Hooks are clients: all a callback or an attached service does is a
    sequence of client steps. *)
Definition hooks_are_clients : Prop :=
  (forall f e u w, rtc client_step w (run_callback f e u w).2) /\
  (forall s h e w, service_on_event s = Some h -> rtc client_step w (h e w).2) /\
  (forall s h w, service_on_started s = Some h -> rtc client_step w (h w).2).

(** *** The invariant *)
Definition join_ok (w : world) : Prop :=
  let k := w_core w in
  (join_sequence_active k = 0 \/ join_sequence_active k = 1) /\
  (join_active (w_cred w) = true <-> join_sequence_active k <> 0) /\
  (join_sequence_active k = 0 -> join_retries_remaining k = 0).
Definition slots_ok (slots : list callback_slot) : Prop :=
  zlen slots = CONFIG_RZI_LORAWAN_MAX_CALLBACKS /\ NoDup (subscribers slots) /\
  Forall (fun c => on_event c <> 0) (subscribers slots).
Definition service_inv (w : world) : Prop :=
  join_ok w /\ slots_ok (w_slots w) /\ zlen (w_services w) <= SERVICE_MAX /\
  (started (w_core w) = 0 \/ started (w_core w) = 1).

Lemma obs_inv w w' : obs w' = obs w -> service_inv w -> service_inv w'.
Proof. unfold obs, service_inv, join_ok. intros [= -> -> -> -> -> ->]. done. Qed.
Lemma quiet_inv {A} (m : M world A) : respects quietly m -> preserves service_inv m.
Proof. intros Hm w. apply obs_inv, Hm. Qed.

(** *** The join sequence *)
Lemma clear_join_inv w : service_inv w ->
  service_inv (clear_join_sequence w).2 /\
  join_sequence_active (w_core (clear_join_sequence w).2) = 0.
Proof.
  intros (_ & ? & ? & ?). split; [|done]. split_and!; try done. unfold join_ok. cbn.
  split_and!; [by left| |done]. split; done.
Qed.
#[local] Hint Resolve quiet_inv : frame.
Lemma clear_join_preserves : preserves service_inv clear_join_sequence.
Proof. intros w Hw. by apply clear_join_inv. Qed.
Lemma publish_state_inv s : preserves service_inv (publish_state s).
Proof. apply quiet_inv, publish_quiet. Qed.
Lemma call_inv {A} (op : bop backend_state A) : preserves service_inv (call op).
Proof. apply quiet_inv, call_quiet. Qed.
#[local] Hint Resolve clear_join_preserves publish_state_inv call_inv : frame.

Lemma begin_join_inv : preserves service_inv begin_join.
Proof.
  unfold begin_join. apply preserves_bind; [apply quiet_inv, get_loaded_quiet|]. intros [rc mode].
  destruct (negb (rc =? 0)); [apply preserves_ret|]. destruct (_ && _); [apply preserves_ret|].
  destruct (_ && _); [apply preserves_ret|].
  apply preserves_bind; [apply quiet_inv, get_loaded_quiet|]. intros [rc2 attempts].
  destruct (negb (rc2 =? 0)); [apply preserves_ret|].
  apply preserves_bind; [apply quiet_inv, build_config_quiet|]. intros [rc3 [config|]]; [|apply preserves_ret].
  intros w Hw. unfold bind at 1, get_core, gets.
  destruct (Z.eqb_spec (join_sequence_active (w_core w)) 0); cbn [negb]; [|done].
  unfold bind at 1, upd_core at 1, modify at 1. unfold bind at 1, upd_core at 1, modify at 1.
  unfold bind at 1, rzi_lorawan_credentials_set_join_active, upd_cred, modify.
  apply (preserves_bind service_inv (publish_state STATE_JOINING)); [auto with frame| |].
  - intros _. apply preserves_bind; [auto with frame|]. intros rc4. apply preserves_bind; [|intros; apply preserves_ret].
    destruct (negb (rc4 =? 0)); [apply preserves_bind; auto with frame|apply preserves_ret].
  - destruct Hw as (_ & ? & ? & ?). split_and!; try done. unfold join_ok. cbn.
    split_and!; [by right| |done]. by split.
Qed.
Lemma stop_join_inv : preserves service_inv stop_join.
Proof.
  unfold stop_join, get_core.
  assert (Hj : preserves service_inv backend_is_joined) by apply call_inv.
  assert (Hc : preserves service_inv check_context) by (apply quiet_inv, check_started_quiet).
  preserve.
Qed.
Lemma join_inv start a i n : preserves service_inv (rzi_lorawan_join start a i n).
Proof.
  unfold rzi_lorawan_join, get_core.
  pose proof (quiet_inv _ check_thread_quiet). pose proof (quiet_inv _ check_started_quiet).
  pose proof (quiet_inv _ (update_policy_quiet a i n)). pose proof stop_join_inv. pose proof begin_join_inv.
  preserve.
Qed.

(** *** Subscribers *)
Lemma register_spec c w :
  slots_ok (w_slots w) ->
  let r := rzi_lorawan_register_callbacks (Some c) w in
  let old := subscribers (w_slots w) in
  (r.1 <> 0 /\ r.2 = w /\
     (r.1 = - RZI_ERR_ALREADY -> c ∈ old) /\
     (r.1 = - RZI_ERR_NO_RESOURCE -> zlen old = CONFIG_RZI_LORAWAN_MAX_CALLBACKS)) \/
  (r.1 = 0 /\ on_event c <> 0 /\ (c ∉ old) /\ exists slots,
     r.2 = set_w_slots slots w /\ length slots = length (w_slots w) /\
     subscribers slots ≡ₚ c :: old).
Proof.
  intros (Hlen & Hnd & Hnz). unfold rzi_lorawan_register_callbacks.
  destruct k_is_in_isr; [by left|]. unfold callbacks_empty.
  destruct (Z.eqb_spec (on_event c) 0); [by left|]. mrun.
  destruct (scan_slots_spec c (w_slots w) 0 None) as [Hdup Hav].
  destruct (scan_slots (w_slots w) 0 None c) as [[k|] []]; cbn [fst snd] in *.
  - left. split_and!; try done. intros _. by apply Hdup.
  - right. destruct (Hav eq_refl) as (j & s & -> & Hj & Hs). split_and!; try done.
    + intros Hin. by apply Hdup in Hin.
    + exists (<[j := CallbackSlot true c]> (w_slots w)). cbn.
      split_and!; [done|by rewrite length_insert|by apply (subscribers_insert _ _ s)].
  - left. split_and!; try done. intros _. by apply Hdup.
  - left. split_and!; try done. intros _. rewrite <- Hlen. unfold subscribers, zlen.
    rewrite length_fmap. specialize (Hav eq_refl). do 2 f_equal. by apply filter_all.
Qed.
Lemma unregister_spec c w :
  let r := rzi_lorawan_unregister_callbacks (Some c) w in
  let old := subscribers (w_slots w) in
  (r.1 <> 0 /\ r.2 = w /\ (r.1 = - RZI_ERR_NOT_FOUND -> c ∉ old)) \/
  (r.1 = 0 /\ exists slots,
     r.2 = set_w_slots slots w /\ length slots = length (w_slots w) /\ old ≡ₚ c :: subscribers slots).
Proof.
  unfold rzi_lorawan_unregister_callbacks. destruct k_is_in_isr; [by left|].
  destruct (callbacks_empty c); [by left|]. mrun. pose proof (find_slot_spec c (w_slots w) 0) as Hf.
  destruct (find_slot (w_slots w) 0 c) as [k|]; cbn; [right|by left].
  destruct Hf as (j & s & -> & Hj & Ha & <-). split; [done|]. eexists. split_and!; [done| |].
  - by rewrite length_insert.
  - by apply subscribers_clear.
Qed.

Lemma register_inv c : preserves service_inv (rzi_lorawan_register_callbacks c).
Proof.
  intros w Hw. destruct c as [c|].
  2:{ unfold rzi_lorawan_register_callbacks. by destruct k_is_in_isr. }
  pose proof Hw as (Hj & Hs & Hv & Hst). pose proof Hs as (Hlen & Hnd & Hnz).
  destruct (register_spec c w Hs) as [(_ & -> & _)|(_ & Hc & Hnin & slots & -> & Hl & Hp)]; [done|].
  split_and!; try done. cbn. split_and!; [unfold zlen in *; by rewrite Hl|by rewrite Hp; constructor|].
  rewrite Hp. by constructor.
Qed.
Lemma unregister_inv c : preserves service_inv (rzi_lorawan_unregister_callbacks c).
Proof.
  intros w Hw. destruct c as [c|].
  2:{ unfold rzi_lorawan_unregister_callbacks. by destruct k_is_in_isr. }
  pose proof Hw as (Hj & (Hlen & Hnd & Hnz) & Hv & Hst).
  destruct (unregister_spec c w) as [(_ & -> & _)|(_ & slots & -> & Hl & Hp)]; [done|].
  rewrite Hp in Hnd, Hnz. apply NoDup_cons in Hnd as [_ Hnd]. apply Forall_cons in Hnz as [_ Hnz].
  split_and!; try done. cbn. split_and!; [unfold zlen in *; by rewrite Hl|done|done].
Qed.
Lemma register_service_inv s : preserves service_inv (rzi_lorawan_register_service s).
Proof.
  intros w Hw. pose proof Hw as (? & ? & Hv & ?). unfold rzi_lorawan_register_service, bind.
  rewrite check_thread_run. destruct k_is_in_isr; [done|]. cbn [Z.eqb]. destruct s; [|done].
  cbn [gets]. destruct (Z.leb_spec SERVICE_MAX (zlen (w_services w))); [done|].
  split_and!; try done. cbn. rewrite zlen_app. unfold zlen at 2. cbn. lia.
Qed.

(** *** Steps *)
(** A property that quiet calls preserve is preserved by every call once the few calls that are
    not quiet preserve it. *)
Lemma client_call_preserves (I : world -> Prop) :
  (forall A (m : M world A), respects quietly m -> preserves I m) ->
  (forall s a i n, preserves I (rzi_lorawan_join s a i n)) ->
  (forall c, preserves I (rzi_lorawan_register_callbacks c)) ->
  (forall c, preserves I (rzi_lorawan_unregister_callbacks c)) ->
  (forall s, preserves I (rzi_lorawan_register_service s)) ->
  forall c, (forall r, c <> Init r) -> preserves I (run_call c).
Proof.
  intros Hquiet Hj Hr Hu Hs c Hc.
  assert (Hret : forall A (m : M world A), preserves I m -> preserves I (m ;;; ret tt))
    by (intros; apply preserves_bind; [done|intros; apply preserves_ret]).
  destruct channel_calls_quiet as (? & ? & ? & ? & ? & ?).
  destruct c; cbn [run_call]; apply Hret; try solve [auto];
    first [ apply Hquiet; solve [auto using leave_quiet, send_quiet, send_empty_quiet, set_class_quiet,
              get_class_quiet, set_region_quiet, set_bypass_quiet, get_region_quiet, is_joined_quiet,
              is_busy_quiet, get_net_id_quiet, cred_quiet] | idtac ].
  - by destruct (Hc region).
  - destruct (nth_in_or_default i (optional_calls a) (ret 0)) as [Hin| ->]; [|apply preserves_ret].
    apply Hquiet. pose proof (optional_quiet a) as Hall. rewrite Forall_forall in Hall.
    apply Hall. by apply list_elem_of_In.
Qed.
Lemma client_call_inv c : (forall r, c <> Init r) -> preserves service_inv (run_call c).
Proof.
  apply client_call_preserves; auto using @quiet_inv, join_inv, register_inv, unregister_inv,
    register_service_inv.
Qed.
Lemma client_step_inv w w' : client_step w w' -> service_inv w -> service_inv w'.
Proof.
  intros [c Hc|e|b|x|A m] Hw; [by apply client_call_inv|by apply (quiet_inv _ (publish_quiet e))| | |by apply (quiet_inv _ (cfg_quiet m))];
    by apply (obs_inv w).
Qed.
Lemma clients_inv w w' : rtc client_step w w' -> service_inv w -> service_inv w'.
Proof. induction 1; eauto using client_step_inv. Qed.

(** Clients never change the started flag, and never lower the overflow flag. *)
Lemma join_preserves (I : world -> Prop) :
  (forall A (m : M world A), respects quietly m -> preserves I m) ->
  (forall v, preserves I (upd_core (set_sequence v))) ->
  (forall v, preserves I (upd_core (set_retries v))) ->
  (forall b, preserves I (rzi_lorawan_credentials_set_join_active b)) ->
  forall s a i n, preserves I (rzi_lorawan_join s a i n).
Proof.
  intros Hq Hs Hr Hl s a i n.
  unfold rzi_lorawan_join, begin_join, stop_join, clear_join_sequence, get_core, check_context,
    rzi_lorawan_get_activation, rzi_lorawan_get_join_attempts.
  pose proof (Hq _ _ check_thread_quiet). pose proof (Hq _ _ check_started_quiet).
  pose proof (Hq _ _ (update_policy_quiet a i n)). pose proof (Hq _ _ backend_is_joined_quiet).
  pose proof (fun op => Hq _ _ (@call_quiet _ _ _ Z op)). pose proof (fun x => Hq _ _ (publish_state_quiet x)).
  pose proof (Hq _ _ build_config_quiet).
  pose proof (Hq _ _ (get_loaded_quiet njm (Some 0))).
  pose proof (Hq _ _ (get_loaded_quiet join_attempts (Some 0))).
  preserve.
Qed.
Lemma client_step_keeps (I : world -> Prop) :
  (forall w w', quietly w w' -> I w -> I w') ->
  (forall w w', started (w_core w') = started (w_core w) -> overflow (w_core w') = overflow (w_core w) ->
     I w -> I w') ->
  forall w w', rtc client_step w w' -> I w -> I w'.
Proof.
  intros Hq Hf w w' Hr. induction Hr as [|w w1 w2 Hstep _ IH]; [done|]. intros Hw. apply IH. clear IH.
  assert (HqM : forall A (m : M world A), respects quietly m -> preserves I m)
    by (intros A m Hm v; apply Hq, Hm).
  assert (Hslot : forall A (m : M world A) v, (m v).2 = v \/ (exists x, (m v).2 = set_w_slots x v) -> I v -> I (m v).2).
  { intros A m v [->|[x ->]]; [done|]. by apply Hf. }
  destruct Hstep as [c Hc|e|b|x|A m];
    [|by apply (HqM _ _ (publish_quiet e))|by apply (Hf w)..|by apply (HqM _ _ (cfg_quiet m))].
  apply client_call_preserves; [done| | | | |done|done].
  - apply join_preserves; [done| | |]; intros v u; by apply Hf.
  - intros c' v. apply Hslot. unfold rzi_lorawan_register_callbacks. destruct k_is_in_isr; [by left|].
    destruct c' as [c'|]; [|by left]. destruct (callbacks_empty c'); [by left|]. mrun.
    destruct (scan_slots _ _ _ _) as [[k|] []]; cbn; eauto.
  - intros c' v. apply Hslot. unfold rzi_lorawan_unregister_callbacks. destruct k_is_in_isr; [by left|].
    destruct c' as [c'|]; [|by left]. destruct (callbacks_empty c'); [by left|]. mrun.
    destruct (find_slot _ _ _); cbn; eauto.
  - intros s v Hv. unfold rzi_lorawan_register_service, bind. rewrite check_thread_run.
    destruct k_is_in_isr; [done|]. cbn [Z.eqb]. destruct s; [|done]. cbn [gets].
    destruct (_ <=? _); [done|]. by apply (Hf v).
Qed.
Lemma clients_started w w' : rtc client_step w w' -> started (w_core w') = started (w_core w).
Proof.
  intros Hr. apply (client_step_keeps (fun v => started (w_core v) = started (w_core w))) in Hr; [done| | |done].
  - intros a b [Ho _]. unfold obs in Ho. by injection Ho as _ _ _ _ _ ->.
  - by intros a b ->.
Qed.
Lemma clients_overflowed w w' : rtc client_step w w' -> overflowed w -> overflowed w'.
Proof.
  apply client_step_keeps; [by intros a b [_ Ho]|]. unfold overflowed. by intros a b _ ->.
Qed.

Lemma swallow_inv e : preserves service_inv (swallow_join_event e).
Proof.
  intros w Hw. unfold swallow_join_event. destruct e; try done.
  - by apply (preserves_bind _ _ _ clear_join_preserves (fun _ => preserves_ret _ _)).
  - unfold bind at 1, get_core, gets. destruct (Z.eqb_spec (join_sequence_active (w_core w)) 0); [done|].
    unfold bind at 1, gets. destruct (0 <? _).
    + pose proof Hw as ((Hs & Ha & Hz) & ? & ? & ?). split; [|done]. unfold join_ok. cbn. done.
    + assert (Hp : preserves service_inv (clear_join_sequence ;;;
        call (op_leave _ (base _ rzi_lorawan_backend)) ;;; publish_state STATE_READY ;;; ret false)).
      { preserve; auto using clear_join_preserves, call_inv, publish_state_inv. }
      by apply Hp.
Qed.
Lemma for_each_inv {A} (l : list A) body :
  (forall a, preserves service_inv (body a)) -> preserves service_inv (for_each l body).
Proof. apply preserves_for_each. Qed.
Lemma dispatch_inv e : hooks_are_clients -> preserves service_inv (dispatch e).
Proof.
  intros (Hcb & Hsv & _). unfold dispatch, deliver_public, deliver_services.
  pose proof (swallow_inv e) as Hsw. pose proof (quiet_inv _ (event_from_backend_quiet e)) as Hev.
  apply preserves_bind; [apply preserves_gets|]. intros subs. apply preserves_bind; [done|].
  intros []; [apply preserves_ret|]. apply preserves_bind; [done|]. intros d.
  apply preserves_bind.
  { apply for_each_inv. intros s w Hw. destruct d as [e'|]; [|done].
    destruct (negb _); [|done]. by apply (clients_inv w), Hw; apply Hcb. }
  intros _. apply preserves_bind; [apply preserves_gets|]. intros att.
  apply for_each_inv. intros s w Hw. destruct (service_on_event s) as [h|] eqn:E; [|done].
  by apply (clients_inv w), Hw; apply (Hsv s).
Qed.
Lemma dispatcher_inv : hooks_are_clients -> preserves service_inv dispatcher_step.
Proof.
  intros Hh. unfold dispatcher_step.
  assert (Hq : preserves service_inv (zoom w_events set_w_events (@k_msgq_get _ rzi_lorawan_backend_event))).
  { intros w. apply obs_inv. unfold zoom. by destruct (k_msgq_get (w_events w)). }
  apply preserves_bind; [done|]. intros [e|]; [|apply preserves_ret].
  apply preserves_bind; [by apply dispatch_inv|]. intros _.
  apply preserves_bind; [apply preserves_gets|]. intros o. apply preserves_bind; [|intros; apply preserves_ret].
  destruct (o =? 1); [|apply preserves_ret]. apply preserves_bind; [|intros; by apply dispatch_inv].
  intros w. by apply (obs_inv w).
Qed.
Lemma set_started_inv v : v = 0 \/ v = 1 -> preserves service_inv (upd_core (set_started v)).
Proof. intros Hv w Hw. destruct Hw as (? & ? & ? & _). split_and!; done. Qed.
Lemma init_inv r : hooks_are_clients -> preserves service_inv (rzi_lorawan_init r).
Proof.
  intros (_ & _ & Hst). unfold rzi_lorawan_init, get_core.
  pose proof (set_started_inv 0 ltac:(by left)). pose proof (set_started_inv 1 ltac:(by right)).
  assert (preserves service_inv (rzi_lorawan_config_set_region r)) by apply quiet_inv, cfg_quiet.
  assert (preserves service_inv (upd_core (set_region r))) by (apply quiet_inv, upd_core_quiet; by intros []).
  pose proof publish_state_inv. pose proof (fun A op => @call_inv A op).
  preserve. match goal with |- preserves _ (default _ ?h) => destruct h as [m|] eqn:E end; [|done].
  intros w Hw. apply (clients_inv w); [by eapply Hst|done].
Qed.

(** C1: The service invariant holds in every state reachable from one where it holds, whatever the
    application, the attached services, the backend and the flash do: the credentials are locked
    exactly while a join sequence is active, no retries are left over from a finished sequence,
    subscribers are distinct, callable and within the slots, and at most two services are
    attached. *)
Theorem service_invariant w w' :
  hooks_are_clients -> service_inv w -> rtc service_step w w' -> service_inv w'.
Proof.
  intros Hh Hw Hr. induction Hr as [|w w1 w2 Hs Hr IH]; [done|]. apply IH. clear IH Hr.
  destruct Hs as [w1 Hc|r|].
  - by apply (client_step_inv w).
  - by apply (preserves_bind _ _ _ (init_inv r Hh) (fun _ => preserves_ret _ _)).
  - by apply dispatcher_inv.
Qed.
End steps.
