(* ===== verification/LorawanFlows.v ===== *)
(** * Functional behaviour of the LoRaWAN service (src/lorawan/lorawan.c)

    The join sequence from its start to the last retry, uplinks, start-up,
    subscribers, the delivery of events, the event queue's overflow report and
    the class C power lock. *)
From S2P Require Import Prelude Zephyr Err Power Storage LorawanSettings LorawanBackend LorawanSim LorawanCore LorawanCredentials LorawanChannel LorawanApi Lorawan LorawanService.

Section flows.
Context `{SettingsOk} `{!BytesOk} `{Errno} `{Kconfig} `{!KconfigOk} {ctx : ExecCtx}
  `{LorawanBackend} `{LorawanExt} `{!LorawanHooks}.

Abbreviation backend_base := (base _ rzi_lorawan_backend).

(** *** Observations of the state *)
Definition sequence_of (w : world) : Z := join_sequence_active (w_core w).
Definition retries_of (w : world) : Z := join_retries_remaining (w_core w).
Definition locked_of (w : world) : bool := join_active (w_cred w).
Lemma same_obs w w' : obs w' = obs w ->
  sequence_of w' = sequence_of w /\ retries_of w' = retries_of w /\ locked_of w' = locked_of w /\
  w_slots w' = w_slots w /\ w_services w' = w_services w /\ started (w_core w') = started (w_core w).
Proof. intros [= ? ? ? ? ? ?]. done. Qed.
Lemma sinks_cred w w' : sinks w w' -> w_cred w' = w_cred w /\ w_cfg w' = w_cfg w.
Proof. by intros (b & q & o & ->). Qed.

(** *** Loading keeps what is loaded *)
Lemma get_loaded_spec {A} (f : credential_store -> A) old w :
  let r := get_loaded f (Some old) w in
  (r.1.1 = 0 -> r.1.2 = Some (f (w_cred r.2)) /\ loaded (w_cred r.2) = true) /\
  (loaded (w_cred w) = true -> w_cred r.2 = w_cred w).
Proof.
  cbv zeta. unfold get_loaded, bind. rewrite check_thread_run. destruct k_is_in_isr; [done|].
  cbn [negb Z.eqb]. destruct (ensure_loaded_spec w) as (_ & Hl & _ & Hd & _). unfold wp in *.
  destruct (ensure_loaded_locked w) as [rc w1]. cbn [fst snd] in *.
  destruct (Z.eqb_spec rc 0) as [->|]; cbn [negb]; (split; [|by intros Hld; destruct (Hd Hld) as [_ ->]]).
  - intros _. split; [done|]. by apply Hl.
  - done.
Qed.
Lemma get_region_cred out w : w_cred (rzi_lorawan_get_region out w).2 = w_cred w.
Proof.
  unfold rzi_lorawan_get_region, bind. rewrite check_thread_run. destruct k_is_in_isr; [done|].
  cbn [negb Z.eqb]. destruct out; [|done]. unfold get_core, gets. destruct (_ =? 0); [|done].
  unfold rzi_lorawan_config_get_region, setting_read, bind. rewrite cfg_run.
  by destruct (rzi_lorawan_setting_read "region" 1 (w_cfg w)) as [[rc [[v p]|]] s].
Qed.
Lemma build_config_spec w : loaded (w_cred w) = true ->
  let r := rzi_lorawan_credentials_build_config w in
  w_cred r.2 = w_cred w /\
  (r.1.1 = 0 -> exists region, r.1.2 = Some (join_config_of region (w_cred w))) /\
  (r.1.1 <> 0 -> r.1.2 = None).
Proof.
  intros Hl. cbv zeta. unfold rzi_lorawan_credentials_build_config, bind. rewrite check_thread_run.
  destruct k_is_in_isr; [done|]. cbn [negb Z.eqb]. pose proof (get_region_cred (Some 0) w) as Hc.
  destruct (rzi_lorawan_get_region (Some 0) w) as [[rc region] w1]. cbn [fst snd] in *.
  destruct (Z.eqb_spec rc 0) as [->|]; cbn [negb]; [|done].
  rewrite ensure_loaded_done by by rewrite Hc. cbn. rewrite Hc. split_and!; [done| |done].
  intros _. by eexists.
Qed.

(** *** Starting a join sequence *)
Definition idle_restored (w w' : world) : Prop := obs w' = obs w.
Definition join_accepted (w' : world) : Prop :=
  sequence_of w' = 1 /\ locked_of w' = true /\ retries_of w' = join_attempts (w_cred w') /\
  exists region w1, call (op_join _ backend_base (join_config_of region (w_cred w'))) w1 = (0, w').

(** The last part of [begin_join], once the sequence is marked active. *)
Lemma start_join_spec w config rc w' :
  (publish_state STATE_JOINING ;;;
   (let* rc := call (op_join _ backend_base config) in
    (if negb (rc =? 0) then clear_join_sequence ;;; publish_state STATE_READY else ret tt) ;;;
    ret rc)) w = (rc, w') ->
  (rc = 0 -> obs w' = obs w /\ w_cred w' = w_cred w /\
     exists w1, call (op_join _ backend_base config) w1 = (0, w')) /\
  (rc <> 0 -> obs w' = (0, 0, false, w_slots w, w_services w, started (w_core w))).
Proof.
  pose proof (publish_sinks (BACKEND_STATE_CHANGED STATE_JOINING) w) as Hp.
  unfold bind at 1, publish_state at 1. destruct (publish _ w) as [u w2]. cbn [fst snd] in *.
  pose proof (call_sinks (op_join _ backend_base config) w2) as Hc.
  unfold bind at 1. destruct (call _ w2) as [rc1 w3] eqn:Ecall. cbn [fst snd] in *.
  pose proof (sinks_obs _ _ Hp) as Ho. pose proof (sinks_obs _ _ Hc) as Ho3. rewrite Ho in Ho3.
  destruct (Z.eqb_spec rc1 0) as [->|Hne]; cbn [negb].
  - intros [= <- <-]. split; [intros _|done]. split_and!; [done| |by exists w2].
    by rewrite (proj1 (sinks_cred _ _ Hc)), (proj1 (sinks_cred _ _ Hp)).
  - unfold bind at 1 2. destruct (clear_join_sequence w3) as [u1 w4] eqn:E4.
    pose proof (publish_sinks (BACKEND_STATE_CHANGED STATE_READY) w4) as Hp2.
    unfold publish_state. destruct (publish _ w4) as [u2 w5]. cbn [fst snd ret] in *.
    intros [= <- <-]. split; [done|]. intros _.
    rewrite (sinks_obs _ _ Hp2). replace w4 with (clear_join_sequence w3).2 by by rewrite E4.
    destruct (same_obs _ _ Ho3) as (_ & _ & _ & Hsl & Hsv & Hst).
    unfold obs. cbn. by rewrite Hsl, Hsv, Hst.
Qed.
Lemma begin_join_spec w rc w' : join_ok w -> begin_join w = (rc, w') ->
  (rc = 0 -> sequence_of w = 0 /\ join_accepted w') /\ (rc <> 0 -> obs w' = obs w).
Proof.
  intros Hj. unfold begin_join, rzi_lorawan_get_activation, rzi_lorawan_get_join_attempts.
  unfold bind at 1. destruct (get_loaded_spec njm 0 w) as [Hn _].
  pose proof (quiet_obs _ (get_loaded_quiet njm (Some 0)) w) as Hq.
  destruct (get_loaded njm (Some 0) w) as [[rc1 mode] w1]. cbn [fst snd] in *.
  destruct (Z.eqb_spec rc1 0) as [->|]; cbn [negb]; [|by intros [= <- <-]].
  destruct (Hn eq_refl) as [-> Hl].
  destruct (_ && negb (has_cap RZI_LORAWAN_CAP_OTAA)); [by intros [= <- <-]|].
  destruct (_ && negb _); [by intros [= <- <-]|].
  unfold bind at 1. destruct (get_loaded_spec join_attempts 0 w1) as [Hn2 Hc2].
  pose proof (quiet_obs _ (get_loaded_quiet join_attempts (Some 0)) w1) as Hq2.
  destruct (get_loaded join_attempts (Some 0) w1) as [[rc2 attempts] w2]. cbn [fst snd] in *.
  unfold same in *. rewrite Hq in Hq2. specialize (Hc2 Hl).
  destruct (Z.eqb_spec rc2 0) as [->|]; cbn [negb]; [|by intros [= <- <-]].
  destruct (Hn2 eq_refl) as [-> _].
  unfold bind at 1. destruct (build_config_spec w2) as (Hc3 & Hsome & Hnone); [by rewrite Hc2|].
  pose proof (quiet_obs _ (build_config_quiet) w2) as Hq3. unfold same in Hq3. rewrite Hq2 in Hq3.
  destruct (rzi_lorawan_credentials_build_config w2) as [[rc3 config] w3]. cbn [fst snd] in *.
  destruct (decide (rc3 = 0)) as [->|Hne]; [|rewrite (Hnone Hne); by intros [= <- <-]].
  destruct (Hsome eq_refl) as [region ->]. unfold bind at 1, get_core, gets.
  destruct (same_obs _ _ Hq3) as (Hs & _ & _ & Hsl & Hsv & Hst).
  change (join_sequence_active (w_core w3)) with (sequence_of w3). rewrite Hs.
  destruct (Z.eqb_spec (sequence_of w) 0) as [Hz|]; cbn [negb default]; [|by intros [= <- <-]].
  set (w4 := set_w_cred (put_join_active true (w_cred w3))
    (set_w_core (set_retries (join_attempts (w_cred w2)) (set_sequence 1 (w_core w3))) w3)).
  intros Heq. destruct (start_join_spec w4 (join_config_of region (w_cred w2)) rc w' Heq)
    as [Hok Hbad]. split.
  - intros Hrc. destruct (Hok Hrc) as (Ho & Hcred & w5 & Hcall). split; [done|].
    destruct (same_obs _ _ Ho) as (Ha & Hb & Hc & _). unfold join_accepted.
    rewrite Ha, Hb, Hc, Hcred. cbn. rewrite Hc3. split_and!; try done.
    exists region, w5. exact Hcall.
  - intros Hrc. rewrite (Hbad Hrc). destruct Hj as (_ & Hlock & Hrz). unfold obs. cbn.
    rewrite Hsl, Hsv, Hst. unfold sequence_of in Hz. rewrite Hz, (Hrz Hz).
    destruct (join_active (w_cred w)); [|done]. by destruct (proj1 Hlock eq_refl).
Qed.

(** C4: Starting a join: an accepted request marks the sequence active, locks the credentials, arms
    the configured number of retries and has handed the backend the configuration built from
    the credentials of that very moment; a refused or failed one leaves the join sequence, the
    credentials lock, the subscribers and the services exactly as they were. *)
Theorem join_starts_a_sequence a i n w :
  join_ok w ->
  let r := rzi_lorawan_join 1 a i n w in
  (r.1 = 0 -> sequence_of w = 0 /\ started (w_core w) <> 0 /\ join_accepted r.2) /\
  (r.1 <> 0 -> obs r.2 = obs w).
Proof.
  intros Hj. cbv zeta. destruct (rzi_lorawan_join 1 a i n w) as [rc w'] eqn:E. cbn [fst snd].
  revert E. unfold rzi_lorawan_join. unfold bind at 1. rewrite check_thread_run.
  destruct k_is_in_isr eqn:Hisr; [by intros [= <- <-]|]. cbn [Z.eqb Pos.eqb negb andb].
  unfold bind at 1, get_core, gets. destruct (Z.eqb_spec (join_sequence_active (w_core w)) 0) as [Hs|];
    cbn [negb]; [|by intros [= <- <-]].
  unfold bind at 1. pose proof (quiet_obs _ (update_policy_quiet a i n) w) as Hq.
  destruct (rzi_lorawan_credentials_update_policy a i n w) as [rc1 w1]. unfold same in Hq. cbn [fst snd] in *.
  destruct (Z.eqb_spec rc1 0) as [->|]; [|by intros [= <- <-]].
  unfold bind at 1, check_context. rewrite check_started_run, Hisr.
  destruct (same_obs _ _ Hq) as (Ha & Hb & Hc & _ & _ & Hst).
  rewrite Hst. destruct (Z.eqb_spec (started (w_core w)) 0); [by intros [= <- <-]|]. cbn [Z.eqb].
  intros E. destruct (begin_join_spec w1 rc w') as [Hok Hbad]; [|done|].
  { unfold join_ok, sequence_of, retries_of, locked_of in *. by rewrite Ha, Hb, Hc. }
  split; [|intros Hrc; by rewrite (Hbad Hrc)]. intros Hrc. by split_and!; [|done|apply Hok].
Qed.

(** Stopping a join: once the policy is accepted the sequence is over, no retry is left and the
    credentials are unlocked, whatever the backend answers; with no sequence running (or before
    the service is started) the backend is not called at all. *)
Theorem join_stop_ends_sequence a i n w :
  let p := rzi_lorawan_credentials_update_policy a i n w in
  let r := rzi_lorawan_join 0 a i n w in
  (p.1 <> 0 -> r.1 <> 0 /\ obs r.2 = obs w) /\
  (p.1 = 0 -> sequence_of r.2 = 0 /\ retries_of r.2 = 0 /\ locked_of r.2 = false /\
     (sequence_of w = 0 \/ started (w_core w) = 0 -> r = (0, (clear_join_sequence p.2).2))).
Proof.
  cbv zeta. destruct (rzi_lorawan_join 0 a i n w) as [rc w'] eqn:E. cbn [fst snd].
  revert E. unfold rzi_lorawan_join. unfold bind at 1. rewrite check_thread_run.
  pose proof (quiet_obs _ (update_policy_quiet a i n) w) as Hq. destruct k_is_in_isr eqn:Hisr.
  { intros [= <- <-]. split; [done|]. intros Hp. exfalso. revert Hp.
    unfold rzi_lorawan_credentials_update_policy, bind. rewrite check_thread_run, Hisr. done. }
  cbn [Z.eqb Pos.eqb negb andb]. unfold bind at 1, get_core, gets. unfold bind at 1.
  destruct (rzi_lorawan_credentials_update_policy a i n w) as [rc1 w1]. unfold same in Hq. cbn [fst snd] in *.
  destruct (same_obs _ _ Hq) as (Ha & _ & _ & _ & _ & Hst).
  destruct (Z.eqb_spec rc1 0) as [->|]; [|by intros [= <- <-]]. split; [done|]. intros _.
  revert E. unfold stop_join. unfold bind at 1, get_core, gets.
  change (join_sequence_active (w_core w1)) with (sequence_of w1). rewrite Ha.
  set (w2 := (clear_join_sequence w1).2). unfold bind at 1.
  replace (clear_join_sequence w1) with (tt, w2) by done. unfold bind at 1, check_context.
  rewrite check_started_run, Hisr. change (started (w_core w2)) with (started (w_core w1)). rewrite Hst.
  assert (Hw2 : obs w2 = (0, 0, false, w_slots w1, w_services w1, started (w_core w1))) by done.
  match goal with |- context [if ?b then ret 0 else ?m] => destruct b eqn:Eb; [|set (tail := m)] end.
  { by intros [= <- <-]. }
  assert (Ht : respects quietly tail).
  { pose proof backend_is_joined_quiet. pose proof (fun op : bop backend_state Z => call_quiet op).
    pose proof publish_state_quiet. subst tail. frame; auto. }
  intros E. specialize (Ht w2). apply proj1 in Ht. rewrite E in Ht. unfold same in Ht. cbn [snd] in Ht. rewrite Hw2 in Ht.
  injection Ht as ? ? ? _ _ _. split_and!; try done. intros Hor. exfalso. revert Eb.
  destruct Hor as [-> | ->]; [done|]. cbn. by rewrite orb_true_r.
Qed.

(** *** Retries *)
Definition after_failure (error : Z) (w : world) : world :=
  (dispatch (BACKEND_JOIN_FAILED error) w).2.
Definition with_retries (n : Z) (w : world) : world :=
  set_w_core (set_retries n (w_core w)) w.
(** What the end of the sequence delivers, to whom. *)
Definition deliver_join_failed (error : Z) (subs : list rzi_lorawan_callbacks) : M world unit :=
  deliver_public (Some (EVENT_JOIN_FAILED (if error =? 0 then - RZI_ERR_TIMEOUT else error))) subs ;;;
  let* attached := gets w_services in
  deliver_services (BACKEND_JOIN_FAILED error) attached.

Lemma after_failure_step error w :
  sequence_of w <> 0 -> 0 < retries_of w ->
  after_failure error w = with_retries (retries_of w - 1) w.
Proof.
  intros Hs Hr. unfold after_failure, dispatch, swallow_join_event. mrun. unfold get_core. mrun.
  unfold sequence_of, retries_of in *. destruct (Z.eqb_spec (join_sequence_active (w_core w)) 0); [done|].
  apply Z.ltb_lt in Hr. by rewrite Hr.
Qed.
Lemma after_failures error w n : sequence_of w <> 0 -> forall k : nat,
  retries_of w = Z.of_nat n -> (k <= n)%nat ->
  Nat.iter k (after_failure error) w = with_retries (Z.of_nat (n - k)) w.
Proof.
  intros Hs k Hr. induction k as [|k IH]; intros Hk.
  - rewrite Nat.sub_0_r, <- Hr. unfold with_retries, retries_of. by destruct w as [? ? [] ? ? ? ? ? ?].
  - rewrite Nat.iter_succ, IH by lia. rewrite after_failure_step; [|done|cbn; lia].
    unfold with_retries, retries_of. cbn [w_core set_w_core set_retries join_retries_remaining].
    replace (Z.of_nat (n - k) - 1) with (Z.of_nat (n - S k)) by lia. reflexivity.
Qed.

Lemma swallow_last error w : sequence_of w <> 0 -> retries_of w = 0 ->
  swallow_join_event (BACKEND_JOIN_FAILED error) w =
    (clear_join_sequence ;;; call (op_leave _ backend_base) ;;; publish_state STATE_READY ;;;
     ret false) w.
Proof.
  unfold sequence_of, retries_of. intros Hs Hr. unfold swallow_join_event.
  unfold bind at 1, get_core, gets. destruct (Z.eqb_spec (join_sequence_active (w_core w)) 0); [done|].
  unfold bind at 1, gets. by rewrite Hr.
Qed.

(** C3: A join sequence with [n] retries absorbs exactly [n] failures: each of them only counts one
    retry down (no subscriber and no service hears of it); the next one ends the sequence,
    unlocks the credentials, asks the backend to leave and reaches every subscriber as
    JOIN_FAILED with its error (a timeout when the backend gave none). *)
Theorem join_gives_up_after_limit error (n : nat) w :
  sequence_of w <> 0 -> retries_of w = Z.of_nat n ->
  (forall k : nat, (k <= n)%nat ->
     Nat.iter k (after_failure error) w = with_retries (Z.of_nat (n - k)) w) /\
  exists w1 b,
    call (op_leave _ backend_base) (clear_join_sequence (with_retries 0 w)).2 = (b, w1) /\
    Nat.iter (S n) (after_failure error) w =
      (deliver_join_failed error (subscribers (w_slots w)) (publish_state STATE_READY w1).2).2 /\
    sequence_of w1 = 0 /\ retries_of w1 = 0 /\ locked_of w1 = false.
Proof.
  intros Hs Hr. split; [intros k Hk; by apply (after_failures error w n)|].
  pose proof (quiet_obs _ (call_quiet (op_leave _ backend_base)) (clear_join_sequence (with_retries 0 w)).2) as Hq.
  destruct (call _ _) as [b w1] eqn:Ec. exists w1, b. split; [done|].
  destruct (same_obs _ _ Hq) as (Ha & Hb & Hc & _). cbn [snd] in *. split_and!; try done.
  rewrite Nat.iter_succ, (after_failures error w n Hs n Hr (le_n _)), Nat.sub_diag.
  unfold after_failure, dispatch. unfold bind at 1, gets. unfold bind at 1.
  rewrite swallow_last by done. change (Z.of_nat 0) with 0. unfold bind.
  destruct (clear_join_sequence (with_retries 0 w)) as [u w0] eqn:E0. cbn [snd] in Ec.
  rewrite Ec. destruct (publish_state STATE_READY w1) as [u2 w2]. cbn [ret snd fst].
  unfold event_from_backend, bind. cbn [ret public_event].
  unfold deliver_join_failed. by destruct (error =? 0).
Qed.

(** Leaving the network does not end a running join sequence: the sequence and the credentials
    lock stay, and the next join request is refused as busy. *)
Theorem leave_keeps_join_sequence a i n w :
  sequence_of w <> 0 -> k_is_in_isr = false ->
  let w' := rzi_lorawan_leave w in
  sequence_of w'.2 = sequence_of w /\ locked_of w'.2 = locked_of w /\
  rzi_lorawan_join 1 a i n w'.2 = (- RZI_ERR_BUSY, w'.2).
Proof.
  intros Hs Hisr. cbv zeta. destruct (same_obs _ _ (quiet_obs _ leave_quiet w)) as (Ha & _ & Hc & _).
  split_and!; try done. unfold rzi_lorawan_join, bind. rewrite check_thread_run, Hisr.
  cbn [Z.eqb Pos.eqb negb andb get_core gets].
  change (join_sequence_active (w_core ?x)) with (sequence_of x). rewrite Ha.
  by destruct (Z.eqb_spec (sequence_of w) 0).
Qed.

(** *** Uplinks *)
Definition backend_joined (w : world) : Prop := (backend_is_joined w).1 = (0, true).

Lemma check_joined_spec w rc w' : check_joined w = (rc, w') ->
  (rc = 0 -> k_is_in_isr = false /\ started (w_core w) <> 0 /\ backend_joined w) /\
  (w' = w \/ w' = (backend_is_joined w).2).
Proof.
  unfold check_joined, backend_joined, check_context. unfold bind at 1. rewrite check_started_run.
  destruct k_is_in_isr; [intros [= <- <-]; by split; [|left]|].
  destruct (Z.eqb_spec (started (w_core w)) 0); [intros [= <- <-]; by split; [|left]|]. cbn [Z.eqb].
  unfold bind at 1. destruct (backend_is_joined w) as [[rc1 j] w1]. cbn [fst snd].
  destruct (Z.eqb_spec rc1 0) as [->|]; cbn [negb]; [|intros [= <- <-]; by split; [|right]].
  destruct j; intros [= <- <-]; by split; [|right].
Qed.

(** Uplinks: a payload that was accepted had legal arguments, the service was started and the
    backend had joined; and unless the backend reports a joined session nothing is handed to it
    and no MAC command is triggered: at most its join state was asked for. *)
Theorem send_only_when_joined port data size type w :
  byte_range port ->
  let r := rzi_lorawan_send port data size type w in
  (r.1 = 0 -> 1 <= port <= 223 /\ (type = 0 \/ type = 1) /\ (data = None -> size = 0) /\
     size <= 242 /\ k_is_in_isr = false /\ started (w_core w) <> 0 /\ backend_joined w /\
     exists w1, call (op_send _ backend_base port data size type) w1 = (0, r.2)) /\
  (~ backend_joined w -> r.1 <> 0 /\ (r.2 = w \/ r.2 = (backend_is_joined w).2)).
Proof.
  intros Hport. cbv zeta. destruct (rzi_lorawan_send port data size type w) as [rc w'] eqn:E.
  cbn [fst snd]. revert E. unfold rzi_lorawan_send.
  destruct (send_args_ok port data size type) eqn:Ea; cbn [negb];
    [|intros [= <- <-]; split; [done|intros _; split; [done|by left]]].
  destruct (Z.ltb_spec RZI_LORAWAN_MAX_PAYLOAD size);
    [intros [= <- <-]; split; [done|intros _; split; [done|by left]]|].
  unfold bind at 1. destruct (check_joined w) as [rc1 w1] eqn:Ec.
  destruct (check_joined_spec _ _ _ Ec) as [Hok Hw].
  destruct (Z.eqb_spec rc1 0) as [->|]; [|by intros [= <- <-]].
  destruct (Hok eq_refl) as (Hisr & Hst & Hj). unfold bind at 1.
  destruct (rzi_lorawan_mac_commands_on_uplink w1) as [u w2]. intros Hcall.
  split; [|done]. intros ->. unfold send_args_ok in Ea. apply negb_true_iff in Ea.
  repeat (apply orb_false_iff in Ea as [Ea ?]). zify_tests.
  unfold byte_range, message_type_valid in *. split_and!; try done; try lia.
  - intros Hd. rewrite bool_decide_true in Ea by done. by apply negb_false_iff, Z.eqb_eq in Ea.
  - by exists w2.
Qed.

(** *** Subscribers *)
(** Registering: accepted exactly when the caller is a thread, the subscriber is callable and
    not yet registered and a slot is free; it then joins the others. *)
Theorem register_outcomes c w :
  slots_ok (w_slots w) ->
  let r := rzi_lorawan_register_callbacks (Some c) w in
  let old := subscribers (w_slots w) in
  (r.1 = 0 <-> k_is_in_isr = false /\ on_event c <> 0 /\ (c ∉ old) /\
               zlen old < CONFIG_RZI_LORAWAN_MAX_CALLBACKS) /\
  (r.1 = 0 -> subscribers (w_slots r.2) ≡ₚ c :: old) /\ (r.1 <> 0 -> r.2 = w).
Proof.
  intros Hok. cbv zeta. pose proof Hok as (Hlen & _ & _).
  assert (Hmax : zlen (subscribers (w_slots w)) <= CONFIG_RZI_LORAWAN_MAX_CALLBACKS).
  { rewrite <- Hlen. unfold subscribers, zlen. rewrite length_fmap.
    pose proof (length_filter (fun s => active s = true) (w_slots w)). lia. }
  destruct (register_spec c w Hok) as [(Hne & Hw & Hdup & Hfull)|(H0' & Hc & Hnin & slots & Hw & Hl & Hp)].
  - split; [|by split]. split; [done|]. intros (Hisr & Hc & Hnin & Hlt). exfalso.
    revert Hne Hdup Hfull. unfold rzi_lorawan_register_callbacks. rewrite Hisr. unfold callbacks_empty.
    destruct (Z.eqb_spec (on_event c) 0); [done|]. mrun.
    destruct (scan_slots (w_slots w) 0 None c) as [[k|] []]; cbn [fst snd]; intros Hne Hdup Hfull.
    + by apply Hnin, Hdup.
    + done.
    + by apply Hnin, Hdup.
    + specialize (Hfull eq_refl). lia.
  - split; [|split; [intros _; by rewrite Hw|done]]. split; [|done]. intros _.
    split_and!; try done.
    + revert H0'. unfold rzi_lorawan_register_callbacks. by destruct k_is_in_isr.
    + assert (zlen (c :: subscribers (w_slots w)) <= CONFIG_RZI_LORAWAN_MAX_CALLBACKS).
      { unfold zlen. rewrite <- Hp. rewrite <- Hlen. unfold subscribers, zlen. rewrite length_fmap, <- Hl.
        pose proof (length_filter (fun s => active s = true) slots). lia. }
      unfold zlen in *. cbn [length] in *. lia.
Qed.
(** Unregistering what was registered restores the subscribers, and then it is not found. *)
Theorem register_unregister c w :
  slots_ok (w_slots w) -> (rzi_lorawan_register_callbacks (Some c) w).1 = 0 ->
  let w1 := (rzi_lorawan_register_callbacks (Some c) w).2 in
  let r := rzi_lorawan_unregister_callbacks (Some c) w1 in
  r.1 = 0 /\ subscribers (w_slots r.2) ≡ₚ subscribers (w_slots w) /\
  (rzi_lorawan_unregister_callbacks (Some c) r.2).1 = - RZI_ERR_NOT_FOUND.
Proof.
  intros Hok Hrc. cbv zeta.
  destruct (register_spec c w Hok) as [(? & _)|(_ & Hc & Hnin & slots & -> & Hl & Hp)]; [done|].
  assert (Hisr : k_is_in_isr = false).
  { revert Hrc. unfold rzi_lorawan_register_callbacks. by destruct k_is_in_isr. }
  assert (Hcases : forall v, let u := rzi_lorawan_unregister_callbacks (Some c) v in
    u.1 = 0 \/ u.1 = - RZI_ERR_NOT_FOUND).
  { intros v. unfold rzi_lorawan_unregister_callbacks, callbacks_empty. rewrite Hisr.
    destruct (Z.eqb_spec (on_event c) 0); [done|]. mrun. destruct (find_slot _ _ _); [by left|by right]. }
  destruct (unregister_spec c (set_w_slots slots w)) as [(Hne & _ & Hnf)|(H0' & slots2 & Hw2 & Hl2 & Hp2)].
  { exfalso. destruct (Hcases (set_w_slots slots w)) as [|Hnfc]; [done|]. apply (Hnf Hnfc).
    cbn. rewrite Hp. by left. }
  cbn [w_slots set_w_slots] in Hp2. rewrite Hp in Hp2. apply Permutation.Permutation_cons_inv in Hp2.
  rewrite Hw2. split_and!; [done|by symmetry|].
  destruct (Hcases (set_w_slots slots2 (set_w_slots slots w))) as [Hz|]; [|done]. exfalso.
  destruct (unregister_spec c (set_w_slots slots2 (set_w_slots slots w)))
    as [(Hne & _)|(_ & slots3 & _ & _ & Hp3)]; [done|].
  cbn [w_slots set_w_slots] in Hp3. apply Hnin. rewrite Hp2, Hp3. by left.
Qed.

(** *** Start-up *)
Lemma run_started_hooks l w : hooks_are_clients ->
  rtc client_step w (for_each l (fun s => default (ret tt) (service_on_started s)) w).2.
Proof.
  intros (_ & _ & Hst). revert w. induction l as [|s l IH]; intros w; [reflexivity|]. cbn [for_each].
  unfold bind. destruct (service_on_started s) as [h|] eqn:E.
  - change (default (ret tt) (Some h)) with h. specialize (Hst s h w E). destruct (h w) as [u w1]. etransitivity; [exact Hst|apply IH].
  - apply IH.
Qed.
(** The last part of [rzi_lorawan_init], once the region is stored. *)
Definition start_backend (region : Z) (bypass : bool) : M world Z :=
  publish_state STATE_STARTING ;;;
  (let* rc := call (op_start _ backend_base region bypass) in
   (if negb (rc =? 0)
    then upd_core (set_started 0) ;;; publish_state STATE_STOPPED
    else
      let* attached := gets w_services in
      for_each attached (fun s => default (ret tt) (service_on_started s))) ;;;
   ret rc).
Lemma start_backend_spec region bypass w rc w' :
  hooks_are_clients -> start_backend region bypass w = (rc, w') ->
  (rc <> 0 -> obs w' = obs (set_w_core (set_started 0 (w_core w)) w)) /\
  (rc = 0 -> exists w1 w2, configured_region (w_core w1) = configured_region (w_core w) /\
     call (op_start _ backend_base region bypass) w1 = (0, w2) /\
     rtc client_step w2 w' /\ obs w2 = obs w).
Proof.
  intros Hh. unfold start_backend. unfold bind at 1.
  pose proof (publish_sinks (BACKEND_STATE_CHANGED STATE_STARTING) w) as Hp.
  unfold publish_state at 1. destruct (publish _ w) as [u w1]. cbn [fst snd] in *.
  pose proof (sinks_obs _ _ Hp) as Ho.
  pose proof (quiet_obs _ (call_quiet (op_start _ backend_base region bypass)) w1) as Hq.
  unfold bind at 1. destruct (call _ w1) as [rc1 w2] eqn:Ec. unfold same in Hq. cbn [snd] in Hq.
  rewrite Ho in Hq. destruct (Z.eqb_spec rc1 0) as [->|]; cbn [negb].
  - unfold bind, gets. pose proof (run_started_hooks (w_services w2) w2 Hh) as Hr.
    destruct (for_each _ _ w2) as [u2 w3]. intros [= <- <-]. split; [done|]. intros _.
    exists w1, w2. split_and!; try done. by destruct Hp as (b & q & o & ->).
  - unfold bind, upd_core, modify. set (w3 := set_w_core _ w2).
    pose proof (publish_sinks (BACKEND_STATE_CHANGED STATE_STOPPED) w3) as Hp2.
    unfold publish_state. destruct (publish _ w3) as [u2 w4]. cbn [snd] in Hp2.
    intros [= <- <-]. split; [intros _|done]. rewrite (sinks_obs _ _ Hp2).
    destruct (same_obs _ _ Hq) as (Ha & Hb & Hc & Hd & He & _). unfold sequence_of, retries_of, locked_of in *.
    unfold obs. cbn. congruence.
Qed.

(** Starting the service: on a started service nothing happens at all; otherwise it is started
    afterwards exactly when the call returned zero, the backend has then been started with the
    requested region, and a failed start leaves the join sequence, the subscribers and the
    attached services untouched. *)
Theorem init_outcomes region w :
  hooks_are_clients ->
  let r := rzi_lorawan_init region w in
  (started (w_core w) <> 0 -> r.1 <> 0 /\ r.2 = w) /\
  (started (w_core w) = 0 ->
     (r.1 <> 0 -> obs r.2 = obs w) /\
     (r.1 = 0 -> started (w_core r.2) = 1 /\ u32 region <= RZI_LORAWAN_REGION_RU_864 /\
        exists w1 w2, configured_region (w_core w1) = region /\
          call (op_start _ backend_base region (configured_join_backoff_bypass (w_core w))) w1 = (0, w2) /\
          rtc client_step w2 r.2)).
Proof.
  intros Hh. cbv zeta. destruct (rzi_lorawan_init region w) as [rc w'] eqn:E. cbn [fst snd].
  revert E. unfold rzi_lorawan_init. destruct k_is_in_isr; [by intros [= <- <-]|].
  destruct (Z.ltb_spec RZI_LORAWAN_REGION_RU_864 (u32 region)); [by intros [= <- <-]|].
  unfold bind at 1, get_core, gets. destruct (Z.eqb_spec (started (w_core w)) 0) as [Hz|];
    cbn [negb]; [|by intros [= <- <-]].
  set (w0 := set_w_core (set_started 1 (w_core w)) w). unfold bind at 1, upd_core at 1, modify at 1.
  fold w0. unfold bind at 1, rzi_lorawan_config_set_region, setting_write. rewrite cfg_run.
  destruct (rzi_lorawan_setting_write _ _ _ _) as [rc1 c]. cbn [fst snd].
  destruct (Z.eqb_spec rc1 0) as [->|]; cbn [negb].
  2:{ intros [= <- <-]. split; [done|]. intros _. split; [|done]. intros _. unfold obs. cbn. by rewrite Hz. }
  set (w2 := set_w_core (set_region region (w_core w0)) (set_w_cfg c w0)). intros E.
  destruct (start_backend_spec region (configured_join_backoff_bypass (w_core w)) w2 rc w' Hh E)
    as [Hbad Hok]. split; [done|]. intros _. split.
  - intros Hrc. rewrite (Hbad Hrc). unfold obs. cbn. by rewrite Hz.
  - intros Hrc. destruct (Hok Hrc) as (w3 & w4 & Hreg & Hcall & Hr & Ho). split_and!; [|done|].
    + rewrite (clients_started _ _ Hr). by destruct (same_obs _ _ Ho) as (_ & _ & _ & _ & _ & ->).
    + by exists w3, w4.
Qed.

(** *** Delivery *)
Section delivery.
(** The application keeps a log of its callbacks; beyond that a callback may do anything an
    application can.  Attached services do not write to it. *)
Context (log : ext_state -> list (Z * rzi_lorawan_event * Z)).
Definition log_of (w : world) := log (w_ext w).
Definition logging : Prop :=
  hooks_are_clients /\
  (forall f e u w, log_of (run_callback f e u w).2 = log_of w ++ [(f, e, u)]) /\
  (forall s h e w, service_on_event s = Some h -> log_of (h e w).2 = log_of w).

Definition deliveries (e : rzi_lorawan_event) (subs : list rzi_lorawan_callbacks) :=
  (fun c => (on_event c, e, user_data c)) <$> subs.
(** The event of a failed join attempt that the sequence retries. *)
Definition retried (e : rzi_lorawan_backend_event) (w : world) : bool :=
  match e with
  | BACKEND_JOIN_FAILED _ => negb (sequence_of w =? 0) && (0 <? retries_of w)
  | _ => false
  end.
Definition expected (e : rzi_lorawan_backend_event) (w : world) :=
  if retried e w then []
  else match public_event e with
       | Some e' => deliveries e' (subscribers (w_slots w))
       | None => []
       end.

Lemma swallow_result e w : (swallow_join_event e w).1 = retried e w.
Proof.
  unfold swallow_join_event, retried, sequence_of, retries_of. destruct e; try done.
  unfold bind at 1, get_core, gets. destruct (_ =? 0); [done|]. unfold bind at 1, gets. cbn [negb andb].
  destruct (0 <? _); [done|]. unfold bind. destruct (clear_join_sequence w) as [? w1].
  destruct (call _ w1) as [? w2]. by destruct (publish_state _ w2).
Qed.
Lemma sinks_keeps {X} (f : world -> X) :
  (forall b q o w, f (set_w_core (set_overflow o (w_core w)) (set_w_events q (set_w_backend b w))) = f w) ->
  (forall A (op : bop backend_state A), keeps f (call op)) /\ (forall s, keeps f (publish_state s)).
Proof.
  intros Hf. split; intros; intros w.
  - destruct (call_sinks op w) as (b & q & o & Hw). unfold same. rewrite Hw. apply Hf.
  - destruct (publish_sinks (BACKEND_STATE_CHANGED s) w) as (b & q & o & Hw). unfold same, publish_state.
    rewrite Hw. apply Hf.
Qed.
Lemma swallow_keeps_ext e : keeps (fun w => w_ext w) (swallow_join_event e).
Proof.
  destruct (sinks_keeps (fun w => w_ext w)) as [Hc Hp]; [done|].
  assert (Hclear : keeps (fun w => w_ext w) clear_join_sequence) by by intros w.
  unfold swallow_join_event, get_core.
  destruct e; frame; auto; by intros w.
Qed.
Lemma event_keeps_ext e : keeps (fun w => w_ext w) (event_from_backend e).
Proof. unfold event_from_backend. frame. by intros w. Qed.

Lemma deliver_public_log e subs : logging -> Forall (fun c => on_event c <> 0) subs ->
  forall w, log_of (deliver_public (Some e) subs w).2 = log_of w ++ deliveries e subs.
Proof.
  intros (_ & Hcb & _) Hsubs. induction Hsubs as [|c subs Hc Hs IH]; intros w; cbn; [by rewrite app_nil_r|].
  unfold deliver_public in *. cbn [for_each]. unfold bind.
  destruct (Z.eqb_spec (on_event c) 0); [done|]. cbn [negb].
  specialize (Hcb (on_event c) e (user_data c) w).
  destruct (run_callback _ _ _ w) as [u w1]. cbn [snd] in Hcb.
  by rewrite IH, Hcb, <- app_assoc.
Qed.
Lemma deliver_none subs w : (deliver_public None subs w).2 = w.
Proof. revert w. induction subs as [|c subs IH]; intros w; [done|]. apply IH. Qed.
Lemma deliver_services_log e l w : logging -> log_of (deliver_services e l w).2 = log_of w.
Proof.
  intros (_ & _ & Hs). unfold deliver_services.
  assert (Hk : keeps log_of (for_each l (fun s => match service_on_event s with
                            | Some h => h e | None => ret tt end))).
  { apply respects_for_each; [apply _|]. intros s v. destruct (service_on_event s) eqn:E; [|done].
    by apply (Hs s). }
  apply Hk.
Qed.

Lemma dispatch_log e w : logging -> slots_ok (w_slots w) ->
  log_of (dispatch e w).2 = log_of w ++ expected e w.
Proof.
  intros Hl (_ & _ & Hsubs). unfold dispatch, expected. unfold bind at 1, gets. unfold bind at 1.
  pose proof (swallow_result e w) as Hr. pose proof (swallow_keeps_ext e w) as Hk.
  destruct (swallow_join_event e w) as [b w1]. cbn [fst snd] in *. subst b. unfold same in Hk.
  destruct (retried e w); [by unfold log_of; cbn; rewrite Hk, app_nil_r|].
  unfold bind at 1. pose proof (event_keeps_ext e w1) as Hk2.
  assert (Hev : (event_from_backend e w1).1 = public_event e) by by destruct e.
  destruct (event_from_backend e w1) as [d w2]. cbn [fst snd] in *. subst d. unfold same in Hk2.
  assert (Hw2 : log_of w2 = log_of w) by (unfold log_of; congruence).
  unfold bind at 1. destruct (public_event e) as [e'|].
  - pose proof (deliver_public_log e' _ Hl Hsubs w2) as Hd.
    destruct (deliver_public _ _ w2) as [u w3]. unfold bind at 1, gets. cbn [fst snd] in *.
    by rewrite deliver_services_log, Hd, Hw2.
  - pose proof (deliver_none (subscribers (w_slots w)) w2) as Hd.
    destruct (deliver_public _ _ w2) as [u w3]. unfold bind at 1, gets. cbn [fst snd] in *. subst w3.
    by rewrite deliver_services_log, Hw2, app_nil_r.
Qed.

(** C8: Delivery: one dispatched event calls every subscriber registered at that moment exactly
    once, in slot order, with the public form of the event, whatever the callbacks do meanwhile
    (registering, unregistering, joining, sending); only a failed join attempt that will be
    retried, and FUOTA events, reach no subscriber. *)
Theorem dispatch_delivers_once e w :
  logging -> slots_ok (w_slots w) ->
  log_of (dispatch e w).2 =
    log_of w ++ (if retried e w then []
                 else match public_event e with
                      | Some e' => deliveries e' (subscribers (w_slots w))
                      | None => []
                      end).
Proof. apply dispatch_log. Qed.

(** *** Lost events *)
Context `{!MsgqOk}.
Definition pending (w : world) : list rzi_lorawan_backend_event := msgq_list (w_events w).

(** Publishing queues the event behind the pending ones, or, when the queue is full, raises the
    overflow flag; it changes nothing else. *)
Theorem publish_queues_or_flags e w :
  let w' := (publish e w).2 in
  (zlen (pending w) < msgq_max (w_events w) ->
     pending w' = pending w ++ [e] /\ w_core w' = w_core w) /\
  (msgq_max (w_events w) <= zlen (pending w) ->
     pending w' = pending w /\ w_core w' = set_overflow 1 (w_core w)) /\
  w' = set_w_core (w_core w') (set_w_events (w_events w') w).
Proof.
  cbv zeta. unfold pending. pose proof (msgq_put_ok e (w_events w)) as Hok.
  pose proof (msgq_put_full e (w_events w)) as Hfull. unfold publish, bind, zoom.
  destruct (k_msgq_put e (w_events w)) as [rc q]. cbn [fst snd] in *. split_and!.
  - intros Hlt. by destruct (Hok Hlt) as [-> ?].
  - intros Hge. destruct (Hfull Hge) as [? ?]. by rewrite (proj2 (Z.eqb_neq rc 0)).
  - destruct (negb (rc =? 0)); by destruct w as [? ? [] ? ? ? ? ? ?].
Qed.

Lemma hook_loop_overflowed {A} (l : list A) body :
  (forall a w, rtc client_step w (body a w).2) -> preserves overflowed (for_each l body).
Proof. intros Hb. apply preserves_for_each. intros a w. by apply clients_overflowed. Qed.
Lemma dispatch_overflowed e : hooks_are_clients -> preserves overflowed (dispatch e).
Proof.
  intros (Hcb & Hs & _). unfold dispatch.
  assert (Hquiet : forall A (m : M world A), respects quietly m -> preserves overflowed m)
    by (intros A m Hm w; apply (Hm w)).
  assert (Hsw : preserves overflowed (swallow_join_event e)).
  { unfold swallow_join_event, get_core.
    assert (preserves overflowed clear_join_sequence) by by intros w.
    assert (forall n, preserves overflowed (upd_core (set_retries n))) by by intros n w.
    pose proof (fun op : bop backend_state Z => Hquiet _ _ (call_quiet op)).
    pose proof (fun s => Hquiet _ _ (publish_state_quiet s)).
    destruct e; preserve. }
  apply preserves_bind; [apply preserves_gets|]. intros subs. apply preserves_bind; [done|].
  intros []; [apply preserves_ret|]. apply preserves_bind; [apply Hquiet, event_from_backend_quiet|].
  intros d. apply preserves_bind.
  { apply hook_loop_overflowed. intros c w. destruct d; [|done]. by destruct (negb _). }
  intros _. apply preserves_bind; [apply preserves_gets|]. intros l. apply hook_loop_overflowed.
  intros s w. destruct (service_on_event s) eqn:E; [by eapply Hs|done].
Qed.

Lemma dispatcher_run e q w : k_msgq_get (w_events w) = (Some e, q) ->
  dispatcher_step w =
    (dispatch e ;;;
     let* o := get_core overflow in
     (if o =? 1
      then upd_core (set_overflow 0) ;;; dispatch (BACKEND_ERROR (- RZI_ERR_OVERFLOW))
      else ret tt) ;;;
     ret true) (set_w_events q w).
Proof. intros Heq. unfold dispatcher_step. unfold bind at 1, zoom. by rewrite Heq. Qed.

(** C9: A lost event is never lost silently: once the overflow flag is up, the next event the
    dispatcher takes (the oldest) is delivered and followed by an OVERFLOW error to every
    subscriber then registered. *)
Theorem lost_events_are_reported e rest w :
  logging -> service_inv w -> overflowed w -> pending w = e :: rest ->
  exists q, msgq_list q = rest /\
    let w1 := (dispatch e (set_w_events q w)).2 in
    (dispatcher_step w).1 = true /\
    log_of (dispatcher_step w).2 =
      log_of w ++ expected e w ++
      deliveries (EVENT_ERROR (- RZI_ERR_OVERFLOW)) (subscribers (w_slots w1)).
Proof.
  intros Hl Hinv Ho Hp. destruct (msgq_get_ok (w_events w)) as [Hg Hq].
  fold (pending w) in *. rewrite Hp in Hg, Hq.
  exists (k_msgq_get (w_events w)).2. split; [done|]. cbv zeta.
  destruct (k_msgq_get (w_events w)) as [o q] eqn:Eq. cbn [fst snd head tail] in *. subst o.
  rewrite (dispatcher_run _ _ _ Eq).
  set (w0 := set_w_events q w).
  assert (Hinv1 : service_inv (dispatch e w0).2).
  { apply dispatch_inv; [apply Hl|]. by apply (obs_inv w). }
  assert (Ho1 : overflowed (dispatch e w0).2) by (apply dispatch_overflowed; [apply Hl|done]).
  pose proof (dispatch_log e w0 Hl) as Hd. specialize (Hd (proj1 (proj2 Hinv))).
  unfold bind. destruct (dispatch e w0) as [u w1]. cbn [fst snd] in *.
  unfold get_core, gets. unfold overflowed in Ho1. rewrite Ho1. cbn [Z.eqb Pos.eqb].
  unfold upd_core, modify. set (w2 := set_w_core (set_overflow 0 (w_core w1)) w1).
  pose proof (dispatch_log (BACKEND_ERROR (- RZI_ERR_OVERFLOW)) w2 Hl) as Hd2.
  specialize (Hd2 (proj1 (proj2 Hinv1))).
  destruct (dispatch (BACKEND_ERROR (- RZI_ERR_OVERFLOW)) w2) as [u2 w3]. cbn [fst snd ret] in *.
  split; [done|]. rewrite Hd2. unfold expected at 1. cbn [retried public_event].
  change (log_of w2) with (log_of w1). rewrite Hd. by rewrite <- app_assoc.
Qed.
End delivery.

(** *** The class C power lock *)
Section class_lock.
Context `{!PmOk}.
Definition power_of (w : world) : power_state := sto_power (sto (w_cfg w)).
Definition lorawan_locks (w : world) : Z := at_ (lock_counts (power_of w)) RZI_POWER_LOCK_LORAWAN.
(** The service's own flag agrees with its count of the PM lock. *)
Definition class_lock_inv (base : Z) (w : world) : Prop :=
  power_inv base (power_of w) /\ lorawan_locks w = b2z (power_class_c_held (w_core w)).

Lemma power_service_run {A} (m : M power_state A) w :
  power_service m w =
    ((m (power_of w)).1,
     set_w_cfg (set_sto (set_power (m (power_of w)).2 (sto (w_cfg w))) (w_cfg w)) w).
Proof.
  unfold power_service. rewrite cfg_run. unfold storage, power, zoom, power_of.
  by destruct (m (sto_power (sto (w_cfg w)))).
Qed.
Lemma count_set v s : length (lock_counts s) = 5%nat ->
  at_ (lock_counts (set_count RZI_POWER_LOCK_LORAWAN v s)) RZI_POWER_LOCK_LORAWAN = v.
Proof.
  intros Hl. unfold at_. cbn. rewrite nth_lookup, list_lookup_insert_eq; [done|].
  rewrite Hl. vm_compute. lia.
Qed.

(** Raising and dropping the lock both succeed when they are needed, so that afterwards the
    lock is held exactly when asked for. *)
Lemma update_class_c_spec base b w :
  auto_service_lock = true -> k_is_in_isr = false -> class_lock_inv base w ->
  let w' := (update_class_c_power_locked b w).2 in
  class_lock_inv base w' /\ power_class_c_held (w_core w') = b /\
  w_core w' = set_class_c_held b (w_core w).
Proof.
  intros Hauto Hisr [Hpi Hcount]. cbv zeta. destruct (update_class_c_power_locked b w) as [u w'] eqn:E.
  cbn [snd]. revert E. unfold update_class_c_power_locked. rewrite Hauto. unfold bind, get_core, gets.
  assert (Hstay : power_class_c_held (w_core w) = b -> class_lock_inv base w /\
    power_class_c_held (w_core w) = b /\ w_core w = set_class_c_held b (w_core w)).
  { intros Heq. split_and!; [done..|]. by destruct w as [? ? [] ? ? ? ? ? ?]; cbn in *; subst. }
  destruct (power_class_c_held (w_core w)) eqn:Eh, b; cbn [b2z negb andb] in *;
    try (intros [= _ <-]; rewrite Eh; by apply Hstay).
  - rewrite power_service_run.
    pose proof (lock_put_inv base RZI_POWER_LOCK_LORAWAN ltac:(unfold int_range; lia) _ Hpi) as Hpi2.
    destruct (lock_put_cases RZI_POWER_LOCK_LORAWAN (power_of w)) as [[Hneg _]|(Hz & _ & _ & _ & Hw)].
    { exfalso. revert Hneg. unfold rzi_power_lock_put. rewrite Hisr.
      change (5 <=? u32 1) with false. mrun. unfold lorawan_locks in Hcount. rewrite Hcount. done. }
    rewrite Hz. cbn [Z.eqb fst snd]. intros [= _ <-]. split_and!; [|done|done]. split; [done|].
    transitivity (at_ (lock_counts (rzi_power_lock_put RZI_POWER_LOCK_LORAWAN (power_of w)).2)
      RZI_POWER_LOCK_LORAWAN); [done|]. rewrite Hw. unfold lorawan_locks in Hcount. rewrite Hcount.
    apply count_set, (proj1 Hpi).
  - rewrite power_service_run.
    pose proof (lock_get_inv base RZI_POWER_LOCK_LORAWAN ltac:(unfold int_range; lia) _ Hpi) as Hpi2.
    destruct (lock_get_cases RZI_POWER_LOCK_LORAWAN (power_of w)) as [[Hneg _]|(Hz & _ & _ & _ & Hw)].
    { exfalso. revert Hneg. unfold rzi_power_lock_get. rewrite Hisr.
      change (5 <=? u32 1) with false. mrun. unfold lorawan_locks in Hcount. rewrite Hcount. done. }
    rewrite Hz. cbn [Z.eqb fst snd]. intros [= _ <-]. split_and!; [|done|done]. split; [done|].
    transitivity (at_ (lock_counts (rzi_power_lock_get RZI_POWER_LOCK_LORAWAN (power_of w)).2)
      RZI_POWER_LOCK_LORAWAN); [done|]. rewrite Hw. unfold lorawan_locks in Hcount. rewrite Hcount.
    apply count_set, (proj1 Hpi).
Qed.

Lemma sinks_class base w w' : sinks w w' -> class_lock_inv base w -> class_lock_inv base w'.
Proof. by intros (b & q & o & ->). Qed.
Lemma note_class_spec base c w :
  auto_service_lock = true -> k_is_in_isr = false -> class_lock_inv base w ->
  let w' := (rzi_lorawan_note_class c w).2 in
  class_lock_inv base w' /\ configured_class (w_core w') = c /\
  lorawan_locks w' = b2z (c =? RZI_LORAWAN_CLASS_C).
Proof.
  intros Hauto Hisr Hinv. cbv zeta. unfold rzi_lorawan_note_class, bind, upd_core, modify.
  destruct (update_class_c_spec base (c =? RZI_LORAWAN_CLASS_C)
    (set_w_core (set_class c (w_core w)) w) Hauto Hisr Hinv) as (Ha & Hb & Hc).
  split_and!; [done|by rewrite Hc|]. destruct Ha as [_ ->]. by rewrite Hb.
Qed.

(** The class C power lock: with automatic locking, a class change that succeeds leaves exactly
    one LORAWAN reference on the PM lock when the new class is C and none otherwise, leaving
    the network drops it, and a failed change moves neither the class nor the lock. *)
Theorem class_c_power_lock base c w :
  auto_service_lock = true -> class_lock_inv base w ->
  let r := rzi_lorawan_set_class c w in
  let l := rzi_lorawan_leave w in
  class_lock_inv base r.2 /\ class_lock_inv base l.2 /\
  (r.1 = 0 -> configured_class (w_core r.2) = c /\
              lorawan_locks r.2 = b2z (c =? RZI_LORAWAN_CLASS_C) /\
              has_cap (class_cap c) = true) /\
  (r.1 <> 0 -> configured_class (w_core r.2) = configured_class (w_core w) /\
               lorawan_locks r.2 = lorawan_locks w) /\
  (l.1 = 0 -> lorawan_locks l.2 = 0).
Proof.
  intros Hauto Hinv. cbv zeta.
  enough (Hr : forall rc w', rzi_lorawan_set_class c w = (rc, w') ->
    class_lock_inv base w' /\
    (rc = 0 -> configured_class (w_core w') = c /\ lorawan_locks w' = b2z (c =? RZI_LORAWAN_CLASS_C) /\
               has_cap (class_cap c) = true) /\
    (rc <> 0 -> configured_class (w_core w') = configured_class (w_core w) /\
                lorawan_locks w' = lorawan_locks w)).
  { enough (Hl : forall rc w', rzi_lorawan_leave w = (rc, w') ->
      class_lock_inv base w' /\ (rc = 0 -> lorawan_locks w' = 0)).
    { destruct (rzi_lorawan_set_class c w) as [rc w1], (rzi_lorawan_leave w) as [rc2 w2].
      destruct (Hr _ _ eq_refl) as (? & ? & ?), (Hl _ _ eq_refl) as (? & ?). by split_and!. }
    intros rc w'. unfold rzi_lorawan_leave, check_context. unfold bind at 1. rewrite check_started_run.
    destruct k_is_in_isr eqn:Hisr; [by intros [= <- <-]|].
    destruct (started (w_core w) =? 0); [by intros [= <- <-]|]. cbn [Z.eqb]. unfold bind at 1.
    pose proof (call_sinks (op_leave _ backend_base) w) as Hs. destruct (call _ w) as [rc1 w1].
    apply sinks_class with (base := base) in Hs; [|done]. cbn [snd] in Hs.
    destruct (Z.eqb_spec rc1 0) as [->|]; [|by intros [= <- <-]].
    destruct (update_class_c_spec base false w1 Hauto Hisr Hs) as (Ha & Hb & _). unfold bind.
    destruct (update_class_c_power_locked false w1) as [u w2]. cbn [snd] in *.
    pose proof (publish_sinks (BACKEND_STATE_CHANGED STATE_READY) w2) as Hs2. unfold publish_state.
    destruct (publish _ w2) as [u2 w3]. intros [= <- <-]. cbn [snd] in Hs2.
    assert (Hw3 : class_lock_inv base w3) by by apply (sinks_class base w2).
    split; [done|]. intros _. destruct Hw3 as [_ ->]. destruct Hs2 as (b & q & o & ->). cbn. by rewrite Hb. }
  intros rc w'. unfold rzi_lorawan_set_class, check_context. destruct (_ <? u32 c); [by intros [= <- <-]|].
  unfold bind at 1. rewrite check_started_run.
  destruct k_is_in_isr eqn:Hisr; [by intros [= <- <-]|].
  destruct (started (w_core w) =? 0); [by intros [= <- <-]|]. cbn [Z.eqb].
  destruct (has_cap (class_cap c)); cbn [negb]; [|by intros [= <- <-]]. unfold bind at 1.
  pose proof (call_sinks (op_set_class _ backend_base c) w) as Hs.
  destruct (call _ w) as [rc1 w1]. cbn [snd] in Hs. pose proof (sinks_class base _ _ Hs Hinv) as Hinv1.
  destruct (Z.eqb_spec rc1 0) as [->|].
  - destruct (note_class_spec base c w1 Hauto Hisr Hinv1) as (Ha & Hb & Hc). unfold bind.
    destruct (rzi_lorawan_note_class c w1) as [u w2]. intros [= <- <-]. by split_and!.
  - intros [= <- <-]. split; [done|]. split; [done|]. intros _. by destruct Hs as (b & q & o & ->).
Qed.
End class_lock.
End flows.

Module FlowsWitness.
Export SimInstances.
(** Callbacks log what they get; callback 7 also unregisters itself. *)
#[export] Instance sim_hooks : LorawanHooks | 10 := {|
  run_callback f e u :=
    modify (fun w : world => set_w_ext (w_ext w ++ [(f, e, u)]) w) ;;;
    (if f =? 7
     then rzi_lorawan_unregister_callbacks (Some (Callbacks 7 u)) ;;; ret tt
     else ret tt);
  service_on_started _ := None;
  service_on_event _ := None;
|}.
Lemma sim_hooks_are_clients : hooks_are_clients.
Proof.
  split_and!; [|done|done]. intros f e u w.
  eapply rtc_l; [apply (step_ext w (w_ext w ++ [(f, e, u)]))|].
  cbn [run_callback sim_hooks]. unfold bind at 1, modify. destruct (f =? 7); [|reflexivity].
  apply rtc_once. apply (step_call _ (Unregister (Some (Callbacks 7 u)))). done.
Defined.
Definition whole_log (l : @ext_state sim_ext) : list (Z * rzi_lorawan_event * Z) := l.
Lemma sim_logging : logging whole_log.
Proof.
  split_and!; [apply sim_hooks_are_clients| |done]. intros f e u w.
  cbn [run_callback sim_hooks]. unfold bind at 1, modify. destruct (f =? 7); [|done].
  unfold bind. pose proof (unregister_spec (Callbacks 7 u) (set_w_ext (w_ext w ++ [(f, e, u)]) w)) as Hu.
  destruct (rzi_lorawan_unregister_callbacks _ _) as [rc w1]. cbn [fst snd] in Hu.
  by destruct Hu as [(_ & -> & _)|(_ & slots & -> & _)].
Defined.

Definition idle : world := sim_world credentials_zero (set_started 1 core_init) true.
(** Two subscribers, and a join sequence with one retry left. *)
Definition two : list callback_slot :=
  [CallbackSlot true (Callbacks 7 70); slot_zero; CallbackSlot true (Callbacks 8 80); slot_zero].
Definition trying : world :=
  set_w_slots two (set_w_cred (put_join_active true credentials_zero)
    (set_w_core (set_retries 1 (set_sequence 1 (w_core idle))) idle)).
Lemma two_ok : slots_ok two.
Proof.
  split_and!; [reflexivity| |by repeat constructor].
  apply (bool_decide_unpack _). vm_compute. exact I.
Defined.
Lemma boot_inv : service_inv boot.
Proof.
  split_and!; [|split_and!; [reflexivity|constructor|constructor]|cbn; unfold zlen; cbn; lia|by left].
  split_and!; [by left|by split|done].
Defined.

Lemma service_invariant_witness :
  service_inv (dispatcher_step (run_call (Init 4) boot).2).2.
Proof.
  refine (service_invariant boot _ sim_hooks_are_clients boot_inv _).
  eapply rtc_l; [apply (step_init boot 4)|]. eapply rtc_l; [apply step_dispatch|]. apply rtc_refl.
Defined.
Lemma idle_join_ok : join_ok idle.
Proof. split_and!; [by left|by split|done]. Defined.
Lemma join_starts_a_sequence_witness :
  (rzi_lorawan_join 1 (-1) 10 2 idle).1 = 0 /\
  retries_of (rzi_lorawan_join 1 (-1) 10 2 idle).2 = 2.
Proof.
  assert (Hrc : (rzi_lorawan_join 1 (-1) 10 2 idle).1 = 0) by vm_refl.
  split; [exact Hrc|].
  destruct (proj1 (join_starts_a_sequence (-1) 10 2 idle idle_join_ok) Hrc) as (_ & _ & _ & _ & Hr & _).
  rewrite Hr. vm_refl.
Defined.
Lemma join_stop_ends_sequence_witness : sequence_of (rzi_lorawan_join 0 (-1) (-1) (-1) trying).2 = 0.
Proof.
  refine (proj1 (proj2 (join_stop_ends_sequence (-1) (-1) (-1) trying) _)). vm_refl.
Defined.
Lemma join_gives_up_after_limit_witness :
  exists w1, sequence_of w1 = 0 /\
    Nat.iter 2 (after_failure 0) trying =
      (deliver_join_failed 0 (subscribers (w_slots trying)) (publish_state STATE_READY w1).2).2.
Proof.
  destruct (join_gives_up_after_limit 0 1 trying ltac:(discriminate) eq_refl)
    as [_ (w1 & b & _ & Heq & Hs & _)].
  exists w1. split; [exact Hs|exact Heq].
Defined.
Lemma leave_keeps_join_sequence_witness :
  rzi_lorawan_join 1 (-1) (-1) (-1) (rzi_lorawan_leave trying).2 =
    (- RZI_ERR_BUSY, (rzi_lorawan_leave trying).2).
Proof.
  exact (proj2 (proj2 (leave_keeps_join_sequence (-1) (-1) (-1) trying ltac:(discriminate) eq_refl))).
Defined.
Lemma send_only_when_joined_witness :
  (rzi_lorawan_send 2 (Some [1; 2]) 2 1 idle).1 = 0 /\ backend_joined idle.
Proof.
  assert (Hrc : (rzi_lorawan_send 2 (Some [1; 2]) 2 1 idle).1 = 0) by vm_refl. split; [exact Hrc|].
  assert (Hp : byte_range 2) by (split; [discriminate|reflexivity]).
  destruct (proj1 (send_only_when_joined 2 (Some [1; 2]) 2 1 idle Hp) Hrc)
    as (_ & _ & _ & _ & _ & _ & Hj & _). exact Hj.
Defined.
Lemma register_outcomes_witness :
  subscribers (w_slots (rzi_lorawan_register_callbacks (Some (Callbacks 9 90)) trying).2) ≡ₚ
    [Callbacks 9 90; Callbacks 7 70; Callbacks 8 80].
Proof.
  exact (proj1 (proj2 (register_outcomes (Callbacks 9 90) trying two_ok)) eq_refl).
Defined.
Lemma register_unregister_witness :
  subscribers (w_slots (rzi_lorawan_unregister_callbacks (Some (Callbacks 9 90))
    (rzi_lorawan_register_callbacks (Some (Callbacks 9 90)) trying).2).2) ≡ₚ
    [Callbacks 7 70; Callbacks 8 80].
Proof.
  exact (proj1 (proj2 (register_unregister (Callbacks 9 90) trying two_ok eq_refl))).
Defined.
Lemma init_outcomes_witness :
  (rzi_lorawan_init 4 boot).1 = 0 /\ started (w_core (rzi_lorawan_init 4 boot).2) = 1.
Proof.
  assert (Hrc : (rzi_lorawan_init 4 boot).1 = 0) by vm_refl. split; [exact Hrc|].
  exact (proj1 (proj2 (proj2 (init_outcomes 4 boot sim_hooks_are_clients) eq_refl) Hrc)).
Defined.
Lemma dispatch_delivers_once_witness :
  log_of whole_log (dispatch BACKEND_JOINED trying).2 = [(7, EVENT_JOINED, 70); (8, EVENT_JOINED, 80)].
Proof. exact (dispatch_delivers_once whole_log BACKEND_JOINED trying sim_logging two_ok). Defined.

(** One event is queued and another one was lost. *)
Definition flooded : world :=
  set_w_events (([BACKEND_READY], 8) : @msgq sim_zephyr rzi_lorawan_backend_event)
    (set_w_core (set_overflow 1 (w_core trying)) trying).
Lemma flooded_inv : service_inv flooded.
Proof.
  split_and!; [|apply two_ok|cbn; unfold zlen; cbn; lia|by right].
  split_and!; [by right|by split|done].
Defined.
Lemma lost_events_are_reported_witness : exists subs,
  log_of whole_log (dispatcher_step flooded).2 =
    [(7, EVENT_READY, 70); (8, EVENT_READY, 80)] ++
    deliveries (EVENT_ERROR (- RZI_ERR_OVERFLOW)) subs.
Proof.
  assert (Hp : pending flooded = [BACKEND_READY]) by reflexivity.
  destruct (lost_events_are_reported whole_log BACKEND_READY [] flooded sim_logging flooded_inv
    eq_refl Hp) as (q & _ & _ & Heq).
  eexists. exact Heq.
Defined.
Lemma class_c_power_lock_witness :
  lorawan_locks (rzi_lorawan_set_class RZI_LORAWAN_CLASS_C idle).2 = 1.
Proof.
  assert (Hinv : class_lock_inv 0 idle).
  { split; [|reflexivity]. split_and!; [reflexivity|repeat constructor; unfold byte_range; lia|lia|reflexivity]. }
  exact (proj1 (proj2 (proj1 (proj2 (proj2 (class_c_power_lock 0 RZI_LORAWAN_CLASS_C idle eq_refl Hinv)))
    eq_refl))).
Defined.
End FlowsWitness.
