(* ===== verification/LorawanClient.v ===== *)
(** * The LoRaWAN service seen from a client

    What the public functions do to the state around them.  Every function is
    put together from the same few effects: assignments to the variables of the
    service and of its credentials, calls into settings, storage and power,
    backend operations and publications.  [ServiceEffects R] says that each of
    these moves the state along [R]; then so does every function a client
    calls.  Two instances: the state of the application is left alone, and the
    event queue only grows. *)
From S2P Require Import Prelude Zephyr Err Power Storage LorawanSettings LorawanBackend LorawanCore LorawanCredentials LorawanChannel LorawanApi Lorawan LorawanService LorawanFlows.

Class ServiceEffects `{Zephyr} `{LorawanBackend} `{LorawanExt} (R : world -> world -> Prop) : Prop := {
  effects_preorder :: PreOrder R;
  effect_core f : respects R (upd_core f);
  effect_cred f : respects R (upd_cred f);
  effect_mac f : respects R (modify (fun w => set_w_mac (f w) w));
  effect_cfg {A} (m : M schema_state A) : respects R (cfg m);
  effect_publish e : respects R (publish e);
  effect_call {A} (op : bop backend_state A) : respects R (call op);
}.

Section effects.
Context `{Zephyr} `{Errno} `{Kconfig} {ctx : ExecCtx} `{LorawanBackend} `{LorawanExt}
  (R : world -> world -> Prop) `{!ServiceEffects R}.
Abbreviation moves m := (respects R m).
Ltac effects := repeat first
  [ frame_step | apply effect_publish | apply effect_call | apply effect_cfg | apply effect_core
  | apply effect_cred | apply effect_mac ].
Lemma check_started_moves : moves rzi_lorawan_check_started.
Proof. unfold rzi_lorawan_check_started, rzi_lorawan_check_thread, get_core. effects. Qed.
#[local] Hint Resolve check_started_moves : frame.
Lemma update_policy_moves a i n : moves (rzi_lorawan_credentials_update_policy a i n).
Proof.
  unfold rzi_lorawan_credentials_update_policy, rzi_lorawan_check_thread, ensure_loaded_locked, load_bytes,
    persist, setting_read, setting_write, get_cred. effects.
Qed.
Lemma ensure_loaded_moves : moves ensure_loaded_locked.
Proof. unfold ensure_loaded_locked, load_bytes, setting_read, get_cred. effects. Qed.
Lemma get_region_moves out : moves (rzi_lorawan_get_region out).
Proof.
  unfold rzi_lorawan_get_region, rzi_lorawan_config_get_region, setting_read, rzi_lorawan_check_thread, get_core.
  effects.
Qed.
#[local] Hint Resolve update_policy_moves ensure_loaded_moves get_region_moves : frame.
Lemma join_moves s a i n : moves (rzi_lorawan_join s a i n).
Proof.
  unfold rzi_lorawan_join, stop_join, begin_join, clear_join_sequence, rzi_lorawan_credentials_set_join_active,
    rzi_lorawan_credentials_build_config, rzi_lorawan_get_activation, rzi_lorawan_get_join_attempts, get_loaded,
    check_context, rzi_lorawan_check_thread, backend_is_joined, publish_state, get_core, get_cred.
  effects.
Qed.
Lemma send_moves port d n t : moves (rzi_lorawan_send port d n t).
Proof.
  unfold rzi_lorawan_send, check_joined, check_context, backend_is_joined, rzi_lorawan_mac_commands_on_uplink,
    trig_link_check, trig_device_time, set_link_check_mode, set_device_time_enabled, get_mac, get_core.
  effects.
Qed.
Lemma class_power_moves b : moves (update_class_c_power_locked b).
Proof. unfold update_class_c_power_locked, power_service, get_core. effects. Qed.
#[local] Hint Resolve class_power_moves : frame.
Lemma set_class_moves c : moves (rzi_lorawan_set_class c).
Proof. unfold rzi_lorawan_set_class, check_context, rzi_lorawan_note_class. effects. Qed.
Lemma leave_moves : moves rzi_lorawan_leave.
Proof. unfold rzi_lorawan_leave, check_context, publish_state. effects. Qed.
Lemma config_set_region_moves r : moves (rzi_lorawan_config_set_region r).
Proof. apply effect_cfg. Qed.
(** The network functions a client of the samples calls. *)
Lemma call_op_moves op : moves (call_op op).
Proof. unfold call_op. effects. Qed.
Lemma network_get_moves {A} (op : option (getter backend_state A)) out : moves (network_get op out).
Proof. unfold network_get, call_getter. effects. Qed.
Lemma set_data_rate_moves d : moves (rzi_lorawan_set_data_rate d).
Proof. unfold rzi_lorawan_set_data_rate, check_uplink_data_rate. effects. Qed.
Lemma clear_settings_moves : moves rzi_lorawan_clear_settings.
Proof.
  unfold rzi_lorawan_clear_settings, rzi_lorawan_credentials_clear_settings, rzi_lorawan_check_thread, get_cred.
  effects.
Qed.
Lemma set_bytes_moves F k v l n : moves (set_bytes F k v l n).
Proof. unfold set_bytes, rzi_lorawan_check_thread, persist, setting_write, get_cred. effects. Qed.
Lemma set_activation_moves mode : moves (rzi_lorawan_set_activation mode).
Proof. unfold rzi_lorawan_set_activation, rzi_lorawan_check_thread, persist, setting_write, get_cred. effects. Qed.
(** The end of a join sequence. *)
Lemma swallow_moves e : moves (swallow_join_event e).
Proof.
  unfold swallow_join_event, clear_join_sequence, rzi_lorawan_credentials_set_join_active, publish_state, get_core.
  effects.
Qed.
Lemma event_moves e : moves (event_from_backend e).
Proof. unfold event_from_backend. effects. Qed.
(** Start-up: the hooks of the attached services run inside. *)
Lemma init_moves `{!LorawanHooks} r : (forall s h, service_on_started s = Some h -> moves h) -> moves (rzi_lorawan_init r).
Proof.
  intros Hhooks. unfold rzi_lorawan_init, publish_state, get_core. pose proof (config_set_region_moves r).
  effects. match goal with |- respects _ (default _ ?h) => destruct h as [m|] eqn:E end; cbn;
    [by eapply Hhooks|effects].
Qed.
End effects.

(** ** The state of the application is left alone *)
Section ext.
Context `{Zephyr} `{Errno} `{Kconfig} {ctx : ExecCtx} `{LorawanBackend} `{LorawanExt}.
Lemma sinks_ext {A} (m : M world A) : respects sinks m -> keeps w_ext m.
Proof. intros Hm w. destruct (Hm w) as (b & q & o & Hw). unfold same. by rewrite Hw. Qed.
(** The variables of the application, the subscribers and the attached services. *)
Definition client_view (w : world) : ext_state * list callback_slot * list Z := (w_ext w, w_slots w, w_services w).
#[export] Instance view_effects : ServiceEffects (same client_view).
Proof.
  split; try (by intros; apply respects_modify); [apply _|intros A m w; by rewrite cfg_run| |].
  - intros e w. destruct (publish_sinks e w) as (b & q & o & Hw). unfold same. by rewrite Hw.
  - intros A op w. destruct (call_sinks op w) as (b & q & o & Hw). unfold same. by rewrite Hw.
Qed.
#[export] Instance ext_effects : ServiceEffects (same w_ext).
Proof.
  split; try (by intros; apply respects_modify); [apply _|intros A m w; by rewrite cfg_run| |];
    intros; apply sinks_ext; auto using publish_sinks, call_sinks.
Qed.
(** So is whatever an observation sees of it only. *)
Lemma effects_via {X} (f : world -> X) : (forall w w', w_ext w = w_ext w' -> f w = f w') -> ServiceEffects (same f).
Proof.
  intros Hf. assert (Hk : forall A (m : M world A), keeps w_ext m -> keeps f m) by (intros A m Hm w; apply Hf, Hm).
  split; [apply _|..]; intros; apply Hk; apply ext_effects.
Qed.
End ext.

(** ** The event queue only grows *)
Section queue.
Context `{Zephyr} `{!MsgqOk} `{Errno} `{Kconfig} {ctx : ExecCtx} `{LorawanBackend} `{LorawanExt}.
Definition grows (w w' : world) : Prop := exists es, pending w' = pending w ++ es.
#[export] Instance grows_preorder : PreOrder grows.
Proof.
  split; [intros w; exists []; by rewrite app_nil_r|].
  intros a b c [l Hl] [m Hm]. exists (l ++ m). by rewrite Hm, Hl, app_assoc.
Qed.
Lemma same_grows w w' : w_events w' = w_events w -> grows w w'.
Proof. intros E. exists []. unfold pending. by rewrite E, app_nil_r. Qed.
(** A publication is queued, or dropped when the queue is full. *)
Lemma publish_pending e w : pending (publish e w).2 = pending w ++ (if decide (zlen (pending w) < msgq_max (w_events w)) then [e] else []).
Proof.
  unfold publish, pending, bind, zoom. destruct (decide _) as [Hlt|Hge].
  - destruct (msgq_put_ok e (w_events w) Hlt) as [Hrc Hl]. destruct (k_msgq_put e (w_events w)) as [rc q].
    cbn [fst snd] in *. by rewrite Hrc.
  - destruct (msgq_put_full e (w_events w)) as [Hrc Hl]; [lia|]. destruct (k_msgq_put e (w_events w)) as [rc q].
    cbn [fst snd] in *. apply Z.eqb_neq in Hrc. rewrite Hrc. cbn. by rewrite app_nil_r.
Qed.
Lemma publish_grows e : respects grows (publish e).
Proof. intros w. eexists. apply publish_pending. Qed.
#[export] Instance queue_effects : ServiceEffects grows.
Proof.
  split; try (by intros; apply respects_modify; intros w; apply same_grows); [apply _| |apply publish_grows|].
  - intros A m w. rewrite cfg_run. by apply same_grows.
  - intros A op w. unfold call. destruct (op (w_backend w)) as [[a es] b].
    assert (Hg : respects grows (for_each es publish ;;; ret a)) by (frame; apply publish_grows).
    exact (Hg (set_w_backend b w)).
Qed.
(** The events that a call which moved from [w] to [w'] has queued. *)
Definition arrivals (w w' : world) : list rzi_lorawan_backend_event := drop (length (pending w)) (pending w').
Lemma arrivals_split w w' : grows w w' -> pending w' = pending w ++ arrivals w w'.
Proof. intros [es Hes]. unfold arrivals. by rewrite Hes, drop_app_length. Qed.
End queue.
