(* ===== verification/BackendView.v ===== *)
(** * The LoRaWAN service seen from its backend

    What the service's functions do to the backend below, for any backend:
    events do not touch it, a call runs the operation on it, an accepted uplink
    is the backend's own acceptance, and the failure that ends a join sequence
    calls its leave.  The backends' theorems about the service are instances. *)
From S2P Require Import Prelude Zephyr Err Power Storage LorawanSettings LorawanBackend LorawanCore LorawanCredentials LorawanChannel LorawanApi Lorawan LorawanService LorawanFlows.

Section view.
Context `{Zephyr} `{Errno} `{Kconfig} {ctx : ExecCtx} `{LorawanBackend} `{LorawanExt} `{!LorawanHooks}.
Definition backend_of (w : world) : backend_state := w_backend w.
Abbreviation base_ops := (base _ rzi_lorawan_backend).

Lemma publish_backend e : keeps backend_of (publish e).
Proof.
  unfold publish. intros w. unfold same, bind, zoom. destruct (k_msgq_put e (w_events w)) as [rc q].
  by destruct (rc =? 0).
Qed.
Lemma call_backend {A} (op : bop backend_state A) (w : world) :
  backend_of (call op w).2 = (op (backend_of w)).2.
Proof.
  unfold call. change (w_backend w) with (backend_of w). destruct (op (backend_of w)) as [[a es] b].
  assert (Hk : keeps backend_of (for_each es publish ;;; ret a)) by (frame; apply publish_backend).
  etransitivity; [apply Hk|done].
Qed.

(** *** Uplinks *)
(** An observation of the backend that the operations called before an uplink
    leave alone. *)
Section send.
Context {X : Type} (obs : backend_state -> X).
Definition op_keeps {A} (op : bop backend_state A) : Prop := forall b, obs (op b).2 = obs b.
Definition uplink_quiet : Prop :=
  op_keeps (op_is_joined _ base_ops false) /\
  (forall f, member_of (mac _) (op_request_link_check _) = Some f -> op_keeps f) /\
  (forall f, member_of (mac _) (op_request_device_time _) = Some f -> op_keeps f).
Context (Hquiet : uplink_quiet).
Definition seen (w : world) : X := obs (backend_of w).
Lemma call_seen {A} (op : bop backend_state A) : op_keeps op -> keeps seen (call op).
Proof. intros Hop w. unfold same, seen. rewrite call_backend. apply Hop. Qed.
Lemma check_joined_seen : keeps seen check_joined.
Proof.
  unfold check_joined, check_context, rzi_lorawan_check_started, rzi_lorawan_check_thread, get_core,
    backend_is_joined. frame. apply call_seen, Hquiet.
Qed.
Lemma on_uplink_seen : keeps seen rzi_lorawan_mac_commands_on_uplink.
Proof.
  destruct Hquiet as (_ & Hlink & Htime).
  assert (Hl : keeps seen trig_link_check).
  { unfold trig_link_check. destruct link_check_op as [f|] eqn:E; [|by intros w].
    by apply call_seen, Hlink. }
  assert (Ht : keeps seen trig_device_time).
  { unfold trig_device_time. destruct device_time_op as [f|] eqn:E; [|by intros w].
    by apply call_seen, Htime. }
  unfold rzi_lorawan_mac_commands_on_uplink, get_mac. frame; assumption.
Qed.
(** An uplink the service accepts was accepted by the backend, in a state that
    looks like the one before the call. *)
Lemma send_reaches_backend port data size type w : (rzi_lorawan_send port data size type w).1 = 0 ->
  size <= RZI_LORAWAN_MAX_PAYLOAD /\
  exists b, obs b = obs (backend_of w) /\ (op_send _ base_ops port data size type b).1.1 = 0 /\
    backend_of (rzi_lorawan_send port data size type w).2 = (op_send _ base_ops port data size type b).2.
Proof.
  unfold rzi_lorawan_send.
  destruct (negb (send_args_ok port data size type)); [done|].
  destruct (Z.ltb_spec RZI_LORAWAN_MAX_PAYLOAD size); [done|].
  pose proof (check_joined_seen w) as Hj. unfold bind at 1 3. destruct (check_joined w) as [rc1 w1].
  cbn [snd] in Hj. destruct (Z.eqb_spec rc1 0) as [->|]; [|done].
  pose proof (on_uplink_seen w1) as Hu. unfold bind. destruct (rzi_lorawan_mac_commands_on_uplink w1) as [x w2].
  cbn [snd] in Hu. rewrite call_result, call_backend. intros Hrc. split; [done|].
  exists (backend_of w2). split_and!; [|done|done]. unfold same, seen in *. congruence.
Qed.
End send.

(** *** The end of a join sequence *)
Lemma clear_sequence_backend : keeps backend_of clear_join_sequence.
Proof.
  unfold clear_join_sequence, rzi_lorawan_credentials_set_join_active, upd_cred, upd_core. frame;
    by apply respects_modify.
Qed.
Lemma after_clear w : sequence_of (clear_join_sequence w).2 = 0 /\ locked_of (clear_join_sequence w).2 = false.
Proof. done. Qed.
(** A stop request of a service that has no sequence does not reach the backend. *)
Lemma stop_without_sequence w : sequence_of w = 0 -> backend_of (stop_join w).2 = backend_of w.
Proof.
  intros Hs. unfold stop_join, bind at 1, get_core, gets. unfold sequence_of in Hs. rewrite Hs.
  unfold bind at 1. pose proof (clear_sequence_backend w) as Hk. destruct (clear_join_sequence w) as [u w1].
  cbn [snd] in Hk. unfold bind at 1, check_context. by rewrite check_started_run.
Qed.
Lemma sinks_service w w' : sinks w w' -> sequence_of w' = sequence_of w /\ locked_of w' = locked_of w.
Proof. by intros (b & q & o & ->). Qed.
(** The failure that ends the sequence frees the service and asks the backend
    to leave. *)
Lemma last_failure_state error w : sequence_of w <> 0 -> retries_of w = 0 ->
  let w' := (swallow_join_event (BACKEND_JOIN_FAILED error) w).2 in
  sequence_of w' = 0 /\ locked_of w' = false /\
  backend_of w' = (op_leave _ base_ops (backend_of w)).2.
Proof.
  cbn zeta. intros Hs Hr. rewrite swallow_last by done. unfold bind at 1 4 7.
  pose proof (after_clear w) as [Hs1 Hl1]. pose proof (clear_sequence_backend w) as Hb1.
  destruct (clear_join_sequence w) as [u w1]. cbn [snd] in *. unfold same in Hb1. rewrite <- Hb1.
  pose proof (call_backend (op_leave _ base_ops) w1) as Hb2.
  pose proof (call_sinks (op_leave _ base_ops) w1) as Hk2.
  unfold bind. destruct (call _ w1) as [rc w2]. cbn [snd] in *.
  pose proof (publish_backend (BACKEND_STATE_CHANGED STATE_READY) w2) as Hb3.
  pose proof (publish_sinks (BACKEND_STATE_CHANGED STATE_READY) w2) as Hk3.
  unfold publish_state. destruct (publish _ w2) as [x w3]. cbn [snd] in *. unfold same in Hb3.
  destruct (sinks_service _ _ Hk2) as [Hs2 Hl2]. destruct (sinks_service _ _ Hk3) as [Hs3 Hl3].
  cbn [ret snd]. by rewrite Hs3, Hs2, Hl3, Hl2, Hb3, Hb2.
Qed.
End view.
