(* ===== verification/Fuota.v ===== *)
(** * The FUOTA service (src/lorawan/services/fuota/lorawan_fuota.c)

    Firmware-update coordination as a service attached to the LoRaWAN core:
    its handlers of the dispatched events, the measurement of the received
    image, and its installation in the MCUboot secondary slot; its state machine
    under interleaving is in FuotaSteps.v.  The
    service's variables live in the application part of the state.  Log output
    is left out; the image read behind [log_image_head] is not. *)
From S2P Require Import Prelude Zephyr Err Power Storage LorawanSettings LorawanBackend LorawanCore LorawanCredentials LorawanApi Lorawan LorawanService.

(** [enum rzi_fuota_state] *)
Inductive rzi_fuota_state : Type :=
  FUOTA_IDLE | FUOTA_READY | FUOTA_TRANSFERRING | FUOTA_COMPLETE | FUOTA_FAILED | FUOTA_APPLYING.
#[export] Instance rzi_fuota_state_eq_dec : EqDecision rzi_fuota_state.
Proof. solve_decision. Defined.

(** [struct rzi_fuota_callbacks]: function pointers (0 is NULL) and user data *)
Record rzi_fuota_callbacks : Type := FuotaCallbacks {
  state_changed : Z; session_started : Z; complete : Z; fuota_user_data : Z;
}.
(** [struct rzi_fuota_status] *)
Record rzi_fuota_status : Type := FuotaStatus {
  st_state : rzi_fuota_state; st_image_ready : bool; st_image_size : Z; st_last_error : Z;
}.

Abbreviation IMAGE_MAGIC := 0x96f3b83d.
Abbreviation IMAGE_TLV_MAGIC := 0x6907.
Abbreviation IMAGE_HDR_SIZE := 32.
Abbreviation IMAGE_HEAD_LOG := 16.
Abbreviation APPLY_CHUNK := 256.

(** Zephyr below the service: the flash image writer with MCUboot's upgrade
    request, and the work items of the system work queue. *)
Class FuotaPlatform : Type := {
  img_st : Type;
  flash_img_init : M img_st Z;
  flash_img_buffered_write : list Z -> bool -> M img_st Z;
  boot_request_upgrade : M img_st Z;
  work_st : Type;
  k_work_submit_apply : work_st -> work_st;
  k_work_schedule_keepalive : work_st -> work_st;
  k_work_cancel_keepalive : work_st -> work_st;
}.

(** The file-scope variables, with the platform state below them. *)
Record fuota_state `{LorawanBackend} `{FuotaPlatform} : Type := FuotaState {
  f_started : Z; f_state : rzi_fuota_state; f_image_ready : bool; f_power_flash_held : bool;
  f_image_size : Z; f_expected_size : Z; f_last_error : Z; f_callbacks : rzi_fuota_callbacks;
  f_ops : option (rzi_lorawan_fuota_ops backend_state);
  f_img : img_st; f_work : work_st;
}.

(** Where the variables live, and the code behind the callbacks. *)
Class FuotaEnv `{Zephyr} `{LorawanBackend} `{LorawanExt} `{FuotaPlatform} : Type := {
  fuota_of : ext_state -> fuota_state;
  set_fuota : fuota_state -> ext_state -> ext_state;
  run_state_changed : Z -> rzi_fuota_state -> Z -> M world unit;
  run_session_started : Z -> Z -> M world unit;
  run_complete : Z -> Z -> Z -> M world unit;
}.
Class FuotaEnvOk `{FuotaEnv} : Prop := {
  fuota_of_set f x : fuota_of (set_fuota f x) = f;
  set_fuota_set f g x : set_fuota f (set_fuota g x) = set_fuota f x;
}.

Section setters.
Context `{LorawanBackend} `{FuotaPlatform}.
Definition put_f_started v f := FuotaState _ _ v (f_state f) (f_image_ready f) (f_power_flash_held f) (f_image_size f) (f_expected_size f) (f_last_error f) (f_callbacks f) (f_ops f) (f_img f) (f_work f).
Definition put_f_state v f := FuotaState _ _ (f_started f) v (f_image_ready f) (f_power_flash_held f) (f_image_size f) (f_expected_size f) (f_last_error f) (f_callbacks f) (f_ops f) (f_img f) (f_work f).
Definition put_f_image_ready v f := FuotaState _ _ (f_started f) (f_state f) v (f_power_flash_held f) (f_image_size f) (f_expected_size f) (f_last_error f) (f_callbacks f) (f_ops f) (f_img f) (f_work f).
Definition put_f_power_flash_held v f := FuotaState _ _ (f_started f) (f_state f) (f_image_ready f) v (f_image_size f) (f_expected_size f) (f_last_error f) (f_callbacks f) (f_ops f) (f_img f) (f_work f).
Definition put_f_image_size v f := FuotaState _ _ (f_started f) (f_state f) (f_image_ready f) (f_power_flash_held f) v (f_expected_size f) (f_last_error f) (f_callbacks f) (f_ops f) (f_img f) (f_work f).
Definition put_f_expected_size v f := FuotaState _ _ (f_started f) (f_state f) (f_image_ready f) (f_power_flash_held f) (f_image_size f) v (f_last_error f) (f_callbacks f) (f_ops f) (f_img f) (f_work f).
Definition put_f_last_error v f := FuotaState _ _ (f_started f) (f_state f) (f_image_ready f) (f_power_flash_held f) (f_image_size f) (f_expected_size f) v (f_callbacks f) (f_ops f) (f_img f) (f_work f).
Definition put_f_callbacks v f := FuotaState _ _ (f_started f) (f_state f) (f_image_ready f) (f_power_flash_held f) (f_image_size f) (f_expected_size f) (f_last_error f) v (f_ops f) (f_img f) (f_work f).
Definition put_f_ops v f := FuotaState _ _ (f_started f) (f_state f) (f_image_ready f) (f_power_flash_held f) (f_image_size f) (f_expected_size f) (f_last_error f) (f_callbacks f) v (f_img f) (f_work f).
Definition put_f_img v f := FuotaState _ _ (f_started f) (f_state f) (f_image_ready f) (f_power_flash_held f) (f_image_size f) (f_expected_size f) (f_last_error f) (f_callbacks f) (f_ops f) v (f_work f).
Definition put_f_work v f := FuotaState _ _ (f_started f) (f_state f) (f_image_ready f) (f_power_flash_held f) (f_image_size f) (f_expected_size f) (f_last_error f) (f_callbacks f) (f_ops f) (f_img f) v.
End setters.

Definition fuota_callbacks_empty (table : rzi_fuota_callbacks) : bool :=
  (state_changed table =? 0) && (session_started table =? 0) && (complete table =? 0).
(** The states in which the service keeps the flash powered. *)
Definition wants_flash (s : rzi_fuota_state) : bool :=
  bool_decide (s = FUOTA_TRANSFERRING) || bool_decide (s = FUOTA_APPLYING).

Section fuota.
Context `{Zephyr} `{Errno} `{Kconfig} {ctx : ExecCtx} `{LorawanBackend} `{LorawanExt} `{FuotaPlatform} `{!FuotaEnv}.

Definition fget {A} (p : fuota_state -> A) : M world A := gets (fun w => p (fuota_of (w_ext w))).
Definition fput (f : fuota_state -> fuota_state) : M world unit :=
  modify (fun w => set_w_ext (set_fuota (f (fuota_of (w_ext w))) (w_ext w)) w).
Definition fwork (f : work_st -> work_st) : M world unit :=
  fput (fun s => put_f_work (f (f_work s)) s).
Definition fimg {A} (m : M img_st A) : M world A :=
  zoom (fun w => f_img (fuota_of (w_ext w)))
       (fun i w => set_w_ext (set_fuota (put_f_img i (fuota_of (w_ext w))) (w_ext w)) w) m.

(** The [#if] block of [set_state_locked]. *)
Definition update_flash_lock (next : rzi_fuota_state) : M world unit :=
  if auto_service_lock then
    let want := wants_flash next in
    let* held := fget f_power_flash_held in
    if want && negb held then
      let* rc := power_service (rzi_power_lock_get RZI_POWER_LOCK_FLASH) in
      if rc =? 0 then fput (put_f_power_flash_held true) else ret tt
    else if negb want && held then
      power_service (rzi_power_lock_put RZI_POWER_LOCK_FLASH) ;;;
      fput (put_f_power_flash_held false)
    else ret tt
  else ret tt.

Definition set_state_locked (next : rzi_fuota_state) : M world unit :=
  let* table := fget f_callbacks in
  let* current := fget f_state in
  if decide (current = next) then ret tt
  else
    fput (put_f_state next) ;;;
    update_flash_lock next ;;;
    (if negb (state_changed table =? 0)
     then run_state_changed (state_changed table) next (fuota_user_data table)
     else ret tt).

Definition notify_complete (status : Z) : M world unit :=
  let* table := fget f_callbacks in
  if negb (complete table =? 0) then run_complete (complete table) status (fuota_user_data table)
  else ret tt.
Definition notify_session_started : M world unit :=
  let* table := fget f_callbacks in
  if negb (session_started table =? 0)
  then run_session_started (session_started table) (fuota_user_data table)
  else ret tt.

Definition schedule_keepalive : M world unit :=
  if 0 <? CONFIG_RZI_LORAWAN_FUOTA_KEEPALIVE_INTERVAL_S then fwork k_work_schedule_keepalive else ret tt.
Definition cancel_keepalive : M world unit :=
  if 0 <? CONFIG_RZI_LORAWAN_FUOTA_KEEPALIVE_INTERVAL_S then fwork k_work_cancel_keepalive else ret tt.
Definition keepalive_work_handler : M world unit :=
  let* s := fget f_started in
  let* state := fget f_state in
  if (s =? 0) || wants_flash state then ret tt
  else
    rzi_lorawan_send CONFIG_RZI_LORAWAN_FUOTA_KEEPALIVE_PORT (Some [0]) 1 RZI_LORAWAN_MSG_UNCONFIRMED ;;;
    schedule_keepalive.

(** *** The image *)
(** [ops != NULL && ops->x != NULL] *)
Definition fop {T} (member : rzi_lorawan_fuota_ops backend_state -> option T)
    (ops : option (rzi_lorawan_fuota_ops backend_state)) : option T := ops ≫= member.

Definition log_image_head : M world unit :=
  let* ops := fget f_ops in
  match fop (op_read_image _) ops with
  | None => ret tt
  | Some read =>
      let* size := fget f_image_size in
      let request := if negb (size =? 0) && (size <? IMAGE_HEAD_LOG) then size else IMAGE_HEAD_LOG in
      call (read 0 request) ;;; ret tt
  end.

(** The part of [detect_image_size] that parses the MCUboot header. *)
Definition measure_image (read : Z -> Z -> bop backend_state (Z * list Z)) : M world Z :=
  let* '(rc, bytes) := call (read 0 IMAGE_HDR_SIZE) in
  if negb (rc =? 0) then ret rc
  else
    let header := overlay (replicate (Z.to_nat IMAGE_HDR_SIZE) 0) 0 bytes in
    if negb (sys_get_le32 (slice header 0 4) =? IMAGE_MAGIC) then ret (- RZI_ERR_NO_DATA)
    else
      let hdr_size := sys_get_le16 (slice header 8 2) in
      let payload_size := sys_get_le32 (slice header 12 4) in
      let* '(rc, bytes) := call (read (u32 (hdr_size + payload_size)) 4) in
      if negb (rc =? 0) then ret rc
      else
        let tlv := overlay (replicate 4 0) 0 bytes in
        if negb (sys_get_le16 (slice tlv 0 2) =? IMAGE_TLV_MAGIC)
        then fput (put_f_image_size (u32 (hdr_size + payload_size))) ;;; ret 0
        else
          fput (put_f_image_size (u32 (hdr_size + payload_size + sys_get_le16 (slice tlv 2 2)))) ;;;
          ret 0.

Definition detect_image_size (reported : Z) : M world Z :=
  let* expected := fget f_expected_size in
  if negb (expected =? 0) then fput (put_f_image_size expected) ;;; ret 0
  else if negb (reported =? 0) then fput (put_f_image_size reported) ;;; ret 0
  else
    let* ops := fget f_ops in
    let* measured :=
      match fop (op_get_image_size _) ops with
      | None => ret 0
      | Some f => let* '(rc, v) := call (f 0) in ret (if rc =? 0 then v else 0)
      end in
    if negb (measured =? 0) then fput (put_f_image_size measured) ;;; ret 0
    else match fop (op_read_image _) ops with
    | None => ret (- RZI_ERR_NOT_SUPPORTED)
    | Some read => measure_image read
    end.

(** The copy loop; every round takes at least one byte, so the byte count is
    enough fuel (see [copy_fuel]). *)
Fixpoint copy_loop (fuel : nat) (read : Z -> Z -> bop backend_state (Z * list Z))
    (remaining offset : Z) : M world Z :=
  match fuel with
  | O => ret 0
  | S fuel =>
      if 0 <? remaining then
        let request := Z.min remaining APPLY_CHUNK in
        let flush := remaining <=? APPLY_CHUNK in
        let* '(rc, bytes) := call (read (u32 offset) request) in
        if negb (rc =? 0) then ret rc
        else
          let chunk := overlay (replicate (Z.to_nat APPLY_CHUNK) 0) 0 bytes in
          let* rc := fimg (flash_img_buffered_write (take (Z.to_nat request) chunk) flush) in
          if negb (rc =? 0) then ret (rzi_err_from_errno rc)
          else copy_loop fuel read (remaining - request) (offset + request)
      else ret 0
  end.
Definition copy_image_to_slot : M world Z :=
  let* remaining := fget f_image_size in
  let* ops := fget f_ops in
  match fop (op_read_image _) ops with
  | None => ret (- RZI_ERR_NOT_SUPPORTED)
  | Some read =>
      let* rc := fimg flash_img_init in
      if negb (rc =? 0) then ret (rzi_err_from_errno rc)
      else
        rc* rc := copy_loop (Z.to_nat remaining) read remaining 0 else rc in
        let* rc := fimg boot_request_upgrade in ret (rzi_err_from_errno rc)
  end.

(** *** The public functions *)
Definition rzi_fuota_register_callbacks (table : option rzi_fuota_callbacks) : M world Z :=
  if k_is_in_isr then ret (- RZI_ERR_ISR)
  else match table with
  | None => ret (- RZI_ERR_INVALID)
  | Some t =>
      if fuota_callbacks_empty t then ret (- RZI_ERR_INVALID)
      else fput (put_f_callbacks t) ;;; ret 0
  end.

Definition rzi_fuota_start : M world Z :=
  if k_is_in_isr then ret (- RZI_ERR_ISR)
  else
    let* s := fget f_started in
    if negb (s =? 0) then ret 0
    else
      fput (put_f_ops (fuota _ rzi_lorawan_backend)) ;;;
      if bool_decide (fuota _ rzi_lorawan_backend = None) && negb (has_cap RZI_LORAWAN_CAP_FUOTA)
      then ret (- RZI_ERR_NOT_SUPPORTED)
      else fput (put_f_started 1) ;;; ret 0.

Definition rzi_fuota_get_status (status : option rzi_fuota_status) : M world (Z * option rzi_fuota_status) :=
  if k_is_in_isr then ret (- RZI_ERR_ISR, status)
  else match status with
  | None => ret (- RZI_ERR_INVALID, None)
  | Some _ =>
      let* f := fget (fun f => f) in
      ret (0, Some (FuotaStatus (f_state f) (f_image_ready f) (f_image_size f) (f_last_error f)))
  end.

Definition rzi_fuota_set_expected_size (size : Z) : M world Z :=
  if k_is_in_isr then ret (- RZI_ERR_ISR)
  else if size =? 0 then ret (- RZI_ERR_INVALID)
  else
    fput (put_f_expected_size size) ;;;
    let* f := fget (fun f => f) in
    (if f_image_ready f && (f_image_size f =? 0) then fput (put_f_image_size size) else ret tt) ;;;
    ret 0.

Definition rzi_fuota_read_image (offset : Z) (buffer : option (list Z)) (size : Z)
  : M world (Z * option (list Z)) :=
  if k_is_in_isr then ret (- RZI_ERR_ISR, buffer)
  else match buffer with
  | None => ret (- RZI_ERR_INVALID, None)
  | Some old =>
      if size =? 0 then ret (- RZI_ERR_INVALID, buffer)
      else
        let* ready := fget f_image_ready in
        let* ops := fget f_ops in
        if negb ready then ret (- RZI_ERR_NOT_FOUND, buffer)
        else match fop (op_read_image _) ops with
        | None => ret (- RZI_ERR_NOT_SUPPORTED, buffer)
        | Some read =>
            let* '(rc, bytes) := call (read (u32 offset) size) in ret (rc, Some (overlay old 0 bytes))
        end
  end.

(** [rzi_fuota_apply]: a critical section that enters APPLYING, the copy outside the lock, and,
    when the copy fails, a second critical section. *)
Definition apply_begin : M world Z :=
  if k_is_in_isr then ret (- RZI_ERR_ISR)
  else
    let* ready := fget f_image_ready in
    let* size := fget f_image_size in
    if negb ready then ret (- RZI_ERR_NOT_FOUND)
    else if size =? 0 then ret (- RZI_ERR_NO_DATA)
    else set_state_locked FUOTA_APPLYING ;;; ret 0.
Definition apply_failed (rc : Z) : M world Z :=
  fput (put_f_last_error rc) ;;; set_state_locked FUOTA_COMPLETE ;;; ret rc.
Definition apply_finish : M world Z :=
  if negb CONFIG_IMG_MANAGER then ret (- RZI_ERR_NOT_SUPPORTED)
  else
    let* rc := copy_image_to_slot in
    if negb (rc =? 0) then apply_failed rc
    else
      let* ops := fget f_ops in
      match fop (op_reboot _) ops with
      | Some reboot => call reboot
      | None => ret (- RZI_ERR_NOT_SUPPORTED)
      end.
Definition rzi_fuota_apply : M world Z :=
  rc* rc := apply_begin else rc in apply_finish.

Definition apply_work_handler : M world unit := rzi_fuota_apply ;;; ret tt.
Definition submit_apply : M world unit :=
  if CONFIG_RZI_LORAWAN_FUOTA_AUTO_APPLY then fwork k_work_submit_apply else ret tt.

(** *** Events *)
Definition handle_joined : M world unit :=
  fput (put_f_image_ready false) ;;;
  fput (fun f => put_f_image_size (f_expected_size f) f) ;;;
  fput (put_f_last_error 0) ;;;
  let* ops := fget f_ops in
  let* rc := match fop (op_start_clock_sync _) ops with Some f => call f | None => ret 0 end in
  (if negb (rc =? 0) then fput (put_f_last_error rc) else ret tt) ;;;
  set_state_locked FUOTA_READY ;;;
  schedule_keepalive.

Definition handle_transfer_done (successful : bool) (reported : Z) : M world unit :=
  if successful then
    let* rc := detect_image_size reported in
    fput (put_f_image_ready true) ;;;
    fput (put_f_last_error (if rc =? - RZI_ERR_NO_DATA then 0 else rc)) ;;;
    log_image_head ;;;
    set_state_locked FUOTA_COMPLETE ;;;
    notify_complete 0 ;;;
    submit_apply
  else
    fput (put_f_image_ready false) ;;;
    fput (put_f_last_error (- RZI_ERR_IO)) ;;;
    set_state_locked FUOTA_FAILED ;;;
    notify_complete (- RZI_ERR_IO) ;;;
    schedule_keepalive.

Definition handle_fuota_event (kind : fuota_kind) (successful : bool) (reported : Z) : M world unit :=
  match kind with
  | FUOTA_CLOCK_SYNCED => ret tt
  | FUOTA_SESSION_STARTED =>
      cancel_keepalive ;;; set_state_locked FUOTA_TRANSFERRING ;;; notify_session_started
  | FUOTA_SESSION_ENDED =>
      let* state := fget f_state in
      let* ready := fget f_image_ready in
      if bool_decide (state = FUOTA_TRANSFERRING) && negb ready
      then schedule_keepalive ;;; set_state_locked FUOTA_READY
      else ret tt
  | FUOTA_TRANSFER_DONE => handle_transfer_done successful reported
  | FUOTA_REBOOT_REQUESTED =>
      let* ready := fget f_image_ready in
      if ready then submit_apply else ret tt
  end.

Definition back_to_idle : M world unit :=
  cancel_keepalive ;;; fput (put_f_image_ready false) ;;; set_state_locked FUOTA_IDLE.
Definition fuota_on_event (event : rzi_lorawan_backend_event) : M world unit :=
  let* s := fget f_started in
  if s =? 0 then ret tt
  else match event with
  | BACKEND_JOINED => handle_joined
  | BACKEND_JOIN_FAILED _ => back_to_idle
  | BACKEND_STATE_CHANGED state =>
      let* current := fget f_state in
      if bool_decide (state = STATE_READY) && negb (bool_decide (current = FUOTA_IDLE))
      then back_to_idle else ret tt
  | BACKEND_FUOTA kind successful reported => handle_fuota_event kind successful reported
  | _ => ret tt
  end.

Definition fuota_on_started : M world unit := rzi_fuota_start ;;; ret tt.
Definition fuota_register (service : Z) : M world Z := rzi_lorawan_register_service (Some service).
End fuota.

(** ** The service as a client of the LoRaWAN core *)
Section client.
Context `{SettingsOk} `{!BytesOk} `{Errno} `{Kconfig} `{!KconfigOk} {ctx : ExecCtx} `{LorawanBackend} `{LorawanExt} `{!LorawanHooks} `{FuotaPlatform} `{!FuotaEnv}.
Abbreviation client m := (respects (rtc client_step) m).

(** Callbacks are application code. *)
Definition fuota_callbacks_are_clients : Prop :=
  (forall f s u, client (run_state_changed f s u)) /\
  (forall f u, client (run_session_started f u)) /\
  (forall f r u, client (run_complete f r u)).

Lemma fput_client f : client (fput f).
Proof. intros w. apply rtc_once, step_ext. Qed.
Lemma fimg_client {A} (m : M img_st A) : client (fimg m).
Proof.
  intros w. unfold fimg, zoom. destruct (m (f_img (fuota_of (w_ext w)))) as [a i]. apply rtc_once, step_ext.
Qed.
Lemma fwork_client f : client (fwork f).
Proof. apply fput_client. Qed.
Lemma fget_client {A} (p : fuota_state -> A) : client (fget p).
Proof. by intros w. Qed.
Lemma power_client {A} (m : M power_state A) : client (power_service m).
Proof. intros w. apply rtc_once, step_below. Qed.
Lemma publish_client e : client (publish e).
Proof. intros w. apply rtc_once, step_event. Qed.
Lemma call_client {A} (op : bop backend_state A) : client (call op).
Proof.
  intros w. unfold call. destruct (op (w_backend w)) as [[a es] b].
  eapply rtc_l; [apply (step_backend w b)|].
  assert (Hes : client (for_each es publish ;;; ret a)) by (frame; apply publish_client). apply Hes.
Qed.
Lemma send_client p d n t : client (rzi_lorawan_send p d n t).
Proof.
  intros w. eapply rtc_l; [by apply (step_call w (Send p d n t))|]. cbn [run_call]. unfold bind.
  by destruct (rzi_lorawan_send p d n t w).
Qed.
#[local] Hint Resolve fput_client fimg_client fwork_client fget_client power_client call_client send_client : frame.

Ltac cl h := unfold h; frame.
Lemma update_flash_lock_client s : client (update_flash_lock s).
Proof. cl @update_flash_lock. Qed.
#[local] Hint Resolve update_flash_lock_client : frame.
Lemma set_state_client s : fuota_callbacks_are_clients -> client (set_state_locked s).
Proof. intros (? & _). unfold set_state_locked. frame; auto. Qed.
Lemma notify_client : fuota_callbacks_are_clients ->
  client notify_session_started /\ forall r, client (notify_complete r).
Proof. intros (_ & ? & ?). split; intros; unfold notify_session_started, notify_complete; frame; auto. Qed.
Lemma keepalive_client : client schedule_keepalive /\ client cancel_keepalive /\ client submit_apply.
Proof. split_and!; unfold schedule_keepalive, cancel_keepalive, submit_apply; frame. Qed.
Lemma measure_client read : client (measure_image read).
Proof. cl @measure_image. Qed.
#[local] Hint Resolve measure_client : frame.
Lemma detect_client n : client (detect_image_size n).
Proof. cl @detect_image_size. Qed.
Lemma log_client : client log_image_head.
Proof. cl @log_image_head. Qed.
Lemma copy_loop_client fuel read n o : client (copy_loop fuel read n o).
Proof. revert n o. induction fuel as [|fuel IH]; intros n o; cbn [copy_loop]; frame; apply IH. Qed.
#[local] Hint Resolve copy_loop_client : frame.
Lemma copy_client : client copy_image_to_slot.
Proof. cl @copy_image_to_slot. Qed.
Lemma start_client : client rzi_fuota_start.
Proof. cl @rzi_fuota_start. Qed.

Lemma fuota_clients : fuota_callbacks_are_clients ->
  (forall event, client (fuota_on_event event)) /\ client fuota_on_started /\
  client rzi_fuota_apply /\ client keepalive_work_handler.
Proof.
  intros Hcb. pose proof (fun s => set_state_client s Hcb). destruct (notify_client Hcb) as [? ?].
  destruct keepalive_client as (? & ? & ?). pose proof start_client. pose proof copy_client.
  pose proof log_client. pose proof detect_client.
  split_and!.
  - intros event. unfold fuota_on_event, handle_joined, back_to_idle, handle_fuota_event, handle_transfer_done.
    destruct event; frame; auto.
  - unfold fuota_on_started. frame; auto.
  - unfold rzi_fuota_apply, apply_begin, apply_finish, apply_failed. frame; auto.
  - unfold keepalive_work_handler. frame; auto.
Qed.
End client.

(** The hooks of a core to which FUOTA is attached as [service]. *)
Definition with_fuota `{Zephyr} `{Errno} `{Kconfig} {ctx : ExecCtx} `{LorawanBackend} `{LorawanExt} `{FuotaPlatform} `{!FuotaEnv}
    (app : LorawanHooks) (service : Z) : LorawanHooks := {|
  run_callback := run_callback;
  service_on_started s := if s =? service then Some fuota_on_started else service_on_started s;
  service_on_event s := if s =? service then Some fuota_on_event else service_on_event s;
|}.
Section attached.
Context `{SettingsOk} `{!BytesOk} `{Errno} `{Kconfig} `{!KconfigOk} {ctx : ExecCtx} `{LorawanBackend} `{LorawanExt} `{FuotaPlatform} `{!FuotaEnv}.

(** With FUOTA attached the hooks are still clients, as soon as the application's callbacks and the
    other services are: what the core's theorems ask of attached services.  So are its installer
    and its work item. *)
Lemma fuota_attaches (app : LorawanHooks) service :
  let step := @client_step _ _ _ ctx _ _ (with_fuota app service) in
  (forall f e u w, rtc step w (run_callback f e u w).2) ->
  (forall s h e w, service_on_event s = Some h -> rtc step w (h e w).2) ->
  (forall s h w, service_on_started s = Some h -> rtc step w (h w).2) ->
  @fuota_callbacks_are_clients _ _ _ ctx _ _ (with_fuota app service) _ _ ->
  @hooks_are_clients _ _ _ ctx _ _ (with_fuota app service) /\
  (forall w, rtc step w (rzi_fuota_apply w).2) /\ (forall w, rtc step w (keepalive_work_handler w).2).
Proof.
  intros step Hcb Hev Hst Hf.
  destruct (@fuota_clients _ _ _ ctx _ _ (with_fuota app service) _ _ Hf) as (He & Hs & Ha & Hk).
  split; [|by split]. split_and!; [exact Hcb| |].
  - intros s h e w. cbn. destruct (s =? service); [intros [= <-]; apply He|apply Hev].
  - intros s h w. cbn. destruct (s =? service); [intros [= <-]; apply Hs|apply Hst].
Qed.
End attached.

(** ** The image *)
Section image.
Context `{SettingsOk} `{!BytesOk} `{Errno} `{Kconfig} `{!KconfigOk} {ctx : ExecCtx} `{LorawanBackend} `{LorawanExt} `{!LorawanHooks} `{FuotaPlatform} `{!FuotaEnv} `{!FuotaEnvOk}.

Definition fu (w : world) : fuota_state := fuota_of (w_ext w).
Lemma fu_set s x w : fu (set_w_ext (set_fuota s x) w) = s.
Proof. unfold fu. cbn. apply fuota_of_set. Qed.
Lemma fu_fput f w : fu (fput f w).2 = f (fu w).
Proof. unfold fu. cbn. by rewrite fuota_of_set. Qed.

(** *** The copy loop *)
(** What Zephyr's image writer promises.  It collects what it is given in a block buffer and writes
    to the slot as blocks fill: initialisation starts an empty image with an empty buffer; after
    a write that succeeds the slot and the buffer together hold the new bytes at the end, and
    only with the flush flag is the buffer certain to be in the slot; the upgrade request leaves
    both.  Results are zero or negative error numbers. *)
Class FlashImgOk : Type := {
  img_bytes : img_st -> list Z;   (* written to the slot *)
  img_pending : img_st -> list Z; (* still in the buffer *)
  img_upgrade : img_st -> bool;
  img_init_rc i : (flash_img_init i).1 <= 0;
  img_init i : (flash_img_init i).1 = 0 ->
    img_bytes (flash_img_init i).2 = [] /\ img_pending (flash_img_init i).2 = [];
  img_write_rc d b i : (flash_img_buffered_write d b i).1 <= 0;
  img_write d b i : let r := flash_img_buffered_write d b i in
    r.1 = 0 -> img_bytes r.2 ++ img_pending r.2 = (img_bytes i ++ img_pending i) ++ d;
  img_flush d i : let r := flash_img_buffered_write d true i in r.1 = 0 -> img_pending r.2 = [];
  img_boot_rc i : (boot_request_upgrade i).1 <= 0;
  img_boot i : (boot_request_upgrade i).1 = 0 ->
    img_bytes (boot_request_upgrade i).2 = img_bytes i /\ img_upgrade (boot_request_upgrade i).2 = true;
}.
(** A backend whose successful reads return the bytes of [image]. *)
Definition serves (image : list Z) (read : Z -> Z -> bop backend_state (Z * list Z)) : Prop :=
  forall offset n b, 0 <= offset -> (read offset n b).1.1.1 = 0 ->
    (read offset n b).1.1.2 = slice image (Z.to_nat offset) (Z.to_nat n).
Lemma copy_fuel read f1 : forall f2 remaining offset w,
  (Z.to_nat remaining <= f1)%nat -> (Z.to_nat remaining <= f2)%nat ->
  copy_loop f1 read remaining offset w = copy_loop f2 read remaining offset w.
Proof.
  induction f1 as [|f1 IH]; intros f2 remaining offset w H1' H2'.
  - destruct f2; [done|]. cbn [copy_loop]. destruct (Z.ltb_spec 0 remaining); [lia|done].
  - destruct f2 as [|f2]; cbn [copy_loop]; [destruct (Z.ltb_spec 0 remaining); [lia|done]|].
    destruct (Z.ltb_spec 0 remaining); [|done]. unfold bind.
    destruct (call _ w) as [[rc bytes] w1]. destruct (negb (rc =? 0)); [done|].
    destruct (fimg _ w1) as [rc2 w2]. destruct (negb (rc2 =? 0)); [done|]. apply IH; lia.
Qed.

Section install.
Context `{!FlashImgOk}.
Definition slot_of (w : world) : list Z := img_bytes (f_img (fu w)).
Definition unwritten (w : world) : list Z := img_pending (f_img (fu w)).

Lemma call_fu {A} (op : bop backend_state A) w : fu (call op w).2 = fu w.
Proof. destruct (call_sinks op w) as (b & q & o & Hw). by rewrite Hw. Qed.
Lemma fimg_run {A} (m : M img_st A) w :
  (fimg m w).1 = (m (f_img (fu w))).1 /\ f_img (fu (fimg m w).2) = (m (f_img (fu w))).2.
Proof.
  unfold fimg, zoom. change (fuota_of (w_ext w)) with (fu w). destruct (m (f_img (fu w))) as [a i].
  cbn [fst snd]. by rewrite fu_set.
Qed.
Lemma take_slice (l : list Z) o n : take o l ++ slice l o n = take (o + n) l.
Proof. unfold slice. by rewrite take_take_drop. Qed.
Lemma take_chunk (bytes : list Z) n : length bytes = n -> (n <= 256)%nat ->
  take n (overlay (replicate 256 0) 0 bytes) = bytes.
Proof.
  intros <- _. unfold overlay. rewrite take_0, app_nil_l. apply take_app_length.
Qed.

(** A round of the loop hands the next bytes to the writer; the last one flushes. *)
Lemma copy_loop_spec image read : serves image read -> zlen image < 4294967296 ->
  forall fuel remaining offset w w',
  (Z.to_nat remaining <= fuel)%nat -> 0 <= remaining -> 0 <= offset -> offset + remaining = zlen image ->
  slot_of w ++ unwritten w = take (Z.to_nat offset) image -> (remaining = 0 -> unwritten w = []) ->
  copy_loop fuel read remaining offset w = (0, w') -> slot_of w' = image.
Proof.
  intros Hread Hlen. induction fuel as [|fuel IH]; intros remaining offset w w' Hf Hr Ho Hsum Hslot Hend;
    assert (Hdone : remaining = 0 -> slot_of w = image)
      by (intros Hz; rewrite (Hend Hz), app_nil_r in Hslot; rewrite Hslot; apply take_ge; unfold zlen in *; lia).
  - cbn. intros [= <-]. apply Hdone. lia.
  - cbn [copy_loop]. destruct (Z.ltb_spec 0 remaining).
    2:{ cbn. intros [= <-]. apply Hdone. lia. }
    set (n := Z.min remaining 256). unfold bind at 1.
    assert (Hu : u32 offset = offset) by (unfold u32; apply Z.mod_small; lia). rewrite Hu.
    pose proof (call_fu (read offset n) w) as Hfu. pose proof (call_result (read offset n) w) as Hres.
    specialize (Hread offset n (w_backend w) Ho). rewrite <- Hres in Hread.
    destruct (call (read offset n) w) as [[rc bytes] w1]. cbn [fst snd] in *.
    destruct (Z.eqb_spec rc 0) as [->|]; cbn [negb]; [|by intros [= ? _]].
    specialize (Hread eq_refl). subst bytes. unfold bind at 1.
    set (bytes := slice image (Z.to_nat offset) (Z.to_nat n)).
    assert (Hb : length bytes = Z.to_nat n).
    { unfold bytes, slice. rewrite length_take, length_drop. unfold zlen in *. lia. }
    change (Z.to_nat 256) with 256%nat. rewrite take_chunk by (done || lia).
    destruct (fimg_run (flash_img_buffered_write bytes (remaining <=? 256)) w1) as [Hrc Hi].
    rewrite Hfu in Hrc, Hi. pose proof (img_write_rc bytes (remaining <=? 256) (f_img (fu w))) as Hneg.
    pose proof (img_write bytes (remaining <=? 256) (f_img (fu w))) as Hw.
    assert (Hflush : (remaining <=? 256) = true ->
      (flash_img_buffered_write bytes (remaining <=? 256) (f_img (fu w))).1 = 0 ->
      img_pending (flash_img_buffered_write bytes (remaining <=? 256) (f_img (fu w))).2 = [])
      by (intros ->; apply img_flush).
    destruct (fimg _ w1) as [rc2 w2]. cbn [fst snd] in *. rewrite <- Hrc, <- Hi in *.
    destruct (Z.eqb_spec rc2 0) as [->|Hne]; cbn [negb].
    + apply IH; try lia.
      * unfold slot_of, unwritten. rewrite (Hw eq_refl). fold (slot_of w) (unwritten w). rewrite Hslot.
        unfold bytes. rewrite take_slice. f_equal. lia.
      * intros Hz. apply Hflush; [apply Z.leb_le; lia|done].
    + intros [= Hz _]. apply rzi_err_from_errno_zero in Hz. lia.
Qed.

(** C6: Installing: when [copy_image_to_slot] succeeds, the slot itself (not the block buffer of the
    image writer) holds exactly the received image and the bootloader has been asked to run it,
    provided the backend reads the image it received, of the recorded size; the loop needs no
    more rounds than there are bytes. *)
Theorem copy_installs_image image ops read w :
  serves image read -> f_ops (fu w) = Some ops -> op_read_image _ ops = Some read ->
  f_image_size (fu w) = zlen image -> zlen image < 4294967296 ->
  (forall fuel offset v, (Z.to_nat (zlen image) <= fuel)%nat ->
     copy_loop fuel read (zlen image) offset v = copy_loop (Z.to_nat (zlen image)) read (zlen image) offset v) /\
  ((copy_image_to_slot w).1 = 0 ->
     slot_of (copy_image_to_slot w).2 = image /\
     img_upgrade (f_img (fu (copy_image_to_slot w).2)) = true).
Proof.
  intros Hs Ho Hop Hsize Hlen. split; [intros; by apply copy_fuel|].
  destruct (copy_image_to_slot w) as [rc w'] eqn:E. cbn [fst snd]. revert E. unfold copy_image_to_slot.
  unfold bind at 1 2, fget, gets. change (fuota_of (w_ext w)) with (fu w). rewrite Ho. unfold fop.
  cbn [mbind option_bind]. rewrite Hop, Hsize. unfold bind at 1.
  destruct (fimg_run flash_img_init w) as [Hrc Hi]. pose proof (img_init_rc (f_img (fu w))) as Hneg.
  pose proof (img_init (f_img (fu w))) as Hinit. destruct (fimg flash_img_init w) as [rc1 w1].
  cbn [fst snd] in *. rewrite <- Hrc, <- Hi in *.
  destruct (Z.eqb_spec rc1 0) as [->|]; cbn [negb].
  2:{ intros [= <- <-] Hz. apply rzi_err_from_errno_zero in Hz. lia. }
  unfold bind at 1. destruct (copy_loop _ read (zlen image) 0 w1) as [rc2 w2] eqn:Ec.
  destruct (Z.eqb_spec rc2 0) as [->|]; [|by intros [= <- <-]].
  assert (Hslot : slot_of w2 = image).
  { apply (copy_loop_spec image read Hs Hlen (Z.to_nat (zlen image)) (zlen image) 0 w1 w2); try lia; try done.
    - apply zlen_nonneg.
    - unfold slot_of, unwritten. by destruct (Hinit eq_refl) as [-> ->].
    - intros _. unfold unwritten. by destruct (Hinit eq_refl) as [_ ->]. }
  unfold bind. destruct (fimg_run boot_request_upgrade w2) as [Hrc2 Hi2].
  pose proof (img_boot_rc (f_img (fu w2))) as Hneg2. pose proof (img_boot (f_img (fu w2))) as Hboot.
  destruct (fimg boot_request_upgrade w2) as [rc3 w3]. cbn [fst snd ret] in *.
  rewrite <- Hrc2, <- Hi2 in *. intros [= <- <-] Hz. apply rzi_err_from_errno_zero in Hz.
  assert (rc3 = 0) as -> by lia. destruct (Hboot eq_refl) as [Ha Hb]. split; [|done].
  unfold slot_of. rewrite Ha. exact Hslot.
Qed.

(** *** Measuring the image *)
(** The layout [detect_image_size] looks for: MCUboot's header, and the TLV area behind the
    payload. *)
Definition mcuboot_image (image : list Z) (hdr payload tlv : Z) : Prop :=
  exists a b rest, length a = 4%nat /\ length b = 2%nat /\
    slice image 0 32 =
      sys_put_le32 IMAGE_MAGIC ++ a ++ sys_put_le16 hdr ++ b ++ sys_put_le32 payload ++ rest /\
    length (slice image 0 32) = 32%nat /\
    slice image (Z.to_nat (hdr + payload)) 4 = sys_put_le16 IMAGE_TLV_MAGIC ++ sys_put_le16 tlv.

Lemma header_fields image hdr payload tlv : mcuboot_image image hdr payload tlv ->
  let header := overlay (replicate 32 0) 0 (slice image 0 32) in
  sys_get_le32 (slice header 0 4) = u32 IMAGE_MAGIC /\ sys_get_le16 (slice header 8 2) = u16 hdr /\
  sys_get_le32 (slice header 12 4) = u32 payload.
Proof.
  intros (a & b & rest & Ha & Hb & Heq & Hlen & _). cbv zeta.
  rewrite overlay_all by (rewrite length_replicate; lia). rewrite Heq.
  split_and!.
  - rewrite slice_at_0 by apply put_le32_length. apply get_le32_put.
  - rewrite (app_assoc (sys_put_le32 _) a), (slice_at 8 2); [apply get_le16_put| |apply put_le16_length].
    by rewrite length_app, put_le32_length, Ha.
  - rewrite (app_assoc (sys_put_le32 _) a), (app_assoc _ (sys_put_le16 _)), (app_assoc _ b),
      (slice_at 12 4); [apply get_le32_put| |apply put_le32_length].
    by rewrite !length_app, put_le32_length, put_le16_length, Ha, Hb.
Qed.

Lemma measure_mcuboot image read hdr payload tlv w :
  serves image read -> (forall o n b, (read o n b).1.1.1 = 0) -> mcuboot_image image hdr payload tlv ->
  0 <= hdr < 65536 -> 0 <= tlv < 65536 -> 0 <= payload -> hdr + payload + tlv < 4294967296 ->
  (measure_image read w).1 = 0 /\ f_image_size (fu (measure_image read w).2) = hdr + payload + tlv.
Proof.
  intros Hs Hok Himg Hh Ht Hp Hsum. destruct (header_fields _ _ _ _ Himg) as (Hmagic & Hhdr & Hpay).
  destruct Himg as (_ & _ & _ & _ & _ & _ & _ & Htlv).
  destruct (measure_image read w) as [rc w'] eqn:E. cbn [fst snd]. revert E. unfold measure_image.
  unfold bind at 1. pose proof (call_result (read 0 32) w) as Hr1.
  pose proof (Hs 0 32 (w_backend w) ltac:(lia)) as Hb1. pose proof (Hok 0 32 (w_backend w)) as Hz1.
  rewrite <- Hr1 in Hb1, Hz1. destruct (call (read 0 32) w) as [[rc1 bytes] w1]. cbn [fst snd] in *. subst rc1.
  specialize (Hb1 eq_refl). subst bytes. cbn [negb Z.eqb].
  change (Z.to_nat 0) with 0%nat. change (Z.to_nat 32) with 32%nat. rewrite Hmagic, Hhdr, Hpay.
  unfold u16. rewrite (Z.mod_small hdr) by lia.
  assert (Hup : u32 payload = payload) by (unfold u32; apply Z.mod_small; lia).
  assert (Hum : (u32 IMAGE_MAGIC =? IMAGE_MAGIC) = true) by reflexivity.
  assert (Hus : u32 (hdr + payload) = hdr + payload) by (unfold u32; apply Z.mod_small; lia).
  rewrite Hum, Hup, Hus. cbn [negb]. unfold bind at 1.
  pose proof (call_result (read (hdr + payload) 4) w1) as Hr2.
  pose proof (Hs (hdr + payload) 4 (w_backend w1) ltac:(lia)) as Hb2.
  pose proof (Hok (hdr + payload) 4 (w_backend w1)) as Hz2.
  rewrite <- Hr2 in Hb2, Hz2. destruct (call (read (hdr + payload) 4) w1) as [[rc2 bytes] w2].
  cbn [fst snd] in *. subst rc2. specialize (Hb2 eq_refl). subst bytes. cbn [negb Z.eqb].
  change (Z.to_nat 4) with 4%nat. rewrite Htlv.
  rewrite overlay_all by (rewrite length_app, !put_le16_length; done).
  rewrite slice_at_0, (slice_end_at 2 2), !get_le16_put by apply put_le16_length.
  change (u16 IMAGE_TLV_MAGIC =? IMAGE_TLV_MAGIC) with true. cbn [negb].
  unfold u16, u32. rewrite (Z.mod_small tlv), (Z.mod_small (hdr + payload + tlv)) by lia.
  unfold bind. pose proof (fu_fput (put_f_image_size (hdr + payload + tlv)) w2) as Hf.
  destruct (fput _ w2) as [u w3]. cbn [snd] in Hf. intros [= <- <-]. by rewrite Hf.
Qed.

(** The image size: a size the application fixed wins, then the size the backend reports with the
    transfer, then the one it measured, and last the size an MCUboot image states itself: header,
    payload and TLV area. *)
Theorem detect_size_precedence reported w :
  let r := detect_image_size reported w in
  (f_expected_size (fu w) <> 0 -> r.1 = 0 /\ f_image_size (fu r.2) = f_expected_size (fu w)) /\
  (f_expected_size (fu w) = 0 -> reported <> 0 -> r.1 = 0 /\ f_image_size (fu r.2) = reported) /\
  (f_expected_size (fu w) = 0 -> reported = 0 -> forall f m,
     fop (op_get_image_size _) (f_ops (fu w)) = Some f -> (f 0 (w_backend w)).1.1 = (0, m) -> m <> 0 ->
     r.1 = 0 /\ f_image_size (fu r.2) = m) /\
  (f_expected_size (fu w) = 0 -> reported = 0 -> forall image read hdr payload tlv,
     fop (op_get_image_size _) (f_ops (fu w)) = None -> fop (op_read_image _) (f_ops (fu w)) = Some read ->
     serves image read -> (forall o n b, (read o n b).1.1.1 = 0) -> mcuboot_image image hdr payload tlv ->
     0 <= hdr < 65536 -> 0 <= tlv < 65536 -> 0 <= payload -> hdr + payload + tlv < 4294967296 ->
     r.1 = 0 /\ f_image_size (fu r.2) = hdr + payload + tlv).
Proof.
  cbv zeta. assert (Hput : forall n v, let r := (fput (put_f_image_size n) ;;; ret 0) v in
    r.1 = 0 /\ f_image_size (fu r.2) = n).
  { intros n v. unfold bind. pose proof (fu_fput (put_f_image_size n) v) as Hf.
    destruct (fput _ v) as [u v1]. cbn [snd ret fst] in *. by rewrite Hf. }
  assert (Hrun : forall m, f_expected_size (fu w) = m -> detect_image_size reported w =
    (if negb (m =? 0) then fput (put_f_image_size m) ;;; ret 0
     else if negb (reported =? 0) then fput (put_f_image_size reported) ;;; ret 0
     else let* measured := match fop (op_get_image_size _) (f_ops (fu w)) with
            | None => ret 0
            | Some f => let* '(rc, v) := call (f 0) in ret (if rc =? 0 then v else 0)
            end in
          if negb (measured =? 0) then fput (put_f_image_size measured) ;;; ret 0
          else match fop (op_read_image _) (f_ops (fu w)) with
               | None => ret (- RZI_ERR_NOT_SUPPORTED)
               | Some read => measure_image read
               end) w).
  { intros m <-. unfold detect_image_size. unfold bind at 1, fget, gets. change (fuota_of (w_ext w)) with (fu w).
    destruct (negb _); [done|]. by destruct (negb (reported =? 0)). }
  split_and!.
  - intros He. rewrite (Hrun _ eq_refl). destruct (Z.eqb_spec (f_expected_size (fu w)) 0); [done|]. apply Hput.
  - intros He Hr. rewrite (Hrun _ He). cbn [negb Z.eqb]. destruct (Z.eqb_spec reported 0); [done|]. apply Hput.
  - intros He -> f m Hf Hm Hne. rewrite (Hrun _ He). cbn [negb Z.eqb]. rewrite Hf. unfold bind at 1 4.
    rewrite <- call_result in Hm. unfold bind at 1 3. destruct (call (f 0) w) as [[rc v] w1]. cbn [fst] in Hm.
    injection Hm as -> ->. cbn [ret Z.eqb]. destruct (Z.eqb_spec m 0); [done|]. apply Hput.
  - intros He -> image read hdr payload tlv Hf Hread Hs Hok Himg Hh Ht Hp Hsum. rewrite (Hrun _ He).
    cbn [negb Z.eqb]. rewrite Hf, Hread. by apply (measure_mcuboot image).
Qed.
End install.
End image.

Module FuotaWitness.
Export Instances.
(** An image writer with a block buffer of 512 bytes: the slot, the buffer, the upgrade request;
    and counters for the work items. *)
Definition sim_write (d : list Z) (flush : bool) (i : list Z * list Z * bool) : Z * (list Z * list Z * bool) :=
  let '(slot, buffer, upgrade) := i in
  let all := buffer ++ d in
  let n := if flush then length all else (length all / 512 * 512)%nat in
  (0, (slot ++ take n all, drop n all, upgrade)).
#[export] Instance sim_platform : FuotaPlatform | 10 := {|
  img_st := list Z * list Z * bool;
  flash_img_init := fun _ => (0, ([], [], false));
  flash_img_buffered_write := sim_write;
  boot_request_upgrade := fun i => (0, (i.1, true));
  work_st := Z * Z;
  k_work_submit_apply w := (w.1 + 1, w.2);
  k_work_schedule_keepalive w := (w.1, w.2 + 1);
  k_work_cancel_keepalive w := w;
|}.
#[export] Instance sim_img_ok : FlashImgOk.
Proof.
  refine {| img_bytes := fun i : @img_st sim_platform => i.1.1; img_pending := fun i : @img_st sim_platform => i.1.2;
            img_upgrade := fun i : @img_st sim_platform => i.2 |}; try done.
  - by intros d b [[s f] u].
  - intros d b [[s f] u]. cbv zeta. intros _. cbn -[take drop Nat.div]. by rewrite <- app_assoc, take_drop, app_assoc.
  - intros d [[s f] u]. cbv zeta. intros _. cbn -[take drop]. by rewrite drop_all.
Defined.

(** A backend that has received an MCUboot image of 300 bytes: header size 32, payload 260, and
    a TLV area of 8 bytes. *)
Definition image : list Z :=
  le_bytes 4 IMAGE_MAGIC ++ [0; 0; 0; 0] ++ le_bytes 2 32 ++ [0; 0] ++ le_bytes 4 260 ++
  replicate 276 7 ++ le_bytes 2 IMAGE_TLV_MAGIC ++ le_bytes 2 8 ++ replicate 4 9.
Definition read_image (o n : Z) : bop unit (Z * list Z) :=
  fun b => (((0, slice image (Z.to_nat o) (Z.to_nat n)), []), b).
Definition fuota_ops : rzi_lorawan_fuota_ops unit := {|
  op_start_clock_sync := Some (fun b => ((0, []), b));
  op_get_image_size := None;
  op_read_image := Some read_image;
  op_reboot := Some (fun b => ((- RZI_ERR_IO, []), b));
|}.
Definition ok_op : bop unit Z := fun b => ((0, []), b).
#[export] Instance fuota_backend : LorawanBackend | 10 := {|
  backend_state := unit;
  rzi_lorawan_backend := {|
    capabilities := RZI_LORAWAN_CAP_OTAA + RZI_LORAWAN_CAP_CLASS_A + RZI_LORAWAN_CAP_FUOTA;
    base := {| op_start _ _ := ok_op; op_join _ := ok_op; op_leave := ok_op; op_send _ _ _ _ := ok_op;
               op_set_class _ := ok_op; op_get_class := None;
               op_is_joined _ b := (((0, true), []), b); op_is_busy _ b := (((0, false), []), b) |};
    network := None; class_b := None; session := None; mac := None; multicast := None;
    certification := None; fuota := Some fuota_ops |} |}.
#[export] Instance fuota_ext : LorawanExt | 10 := {| ext_state := fuota_state |}.
#[export] Instance fuota_env : FuotaEnv | 10 := {|
  fuota_of f := f; set_fuota f _ := f;
  run_state_changed _ _ _ := ret tt; run_session_started _ _ := ret tt; run_complete _ _ _ := ret tt;
|}.
#[export] Instance fuota_env_ok : FuotaEnvOk.
Proof. by split. Qed.
(** The application has no hooks of its own; FUOTA is service 1. *)
Definition no_hooks : LorawanHooks := {|
  run_callback _ _ _ := ret tt; service_on_started _ := None; service_on_event _ := None |}.
#[export] Instance fuota_hooks : LorawanHooks | 10 := with_fuota no_hooks 1.

Definition fresh (s : rzi_fuota_state) (ready : bool) (size : Z) : fuota_state :=
  FuotaState _ _ 1 s ready false size 0 0 (FuotaCallbacks 0 0 0 0) (Some fuota_ops) ([], [], false) (0, 0).
Definition world_of (f : fuota_state) : world :=
  World SettingsWitness.cold credentials_zero (set_started 1 core_init) (replicate 4 slot_zero) [1]
    (([], 8) : @msgq sim_zephyr rzi_lorawan_backend_event) (Mac 0 false) tt f.
Definition waiting : world := world_of (fresh FUOTA_READY false 0).
Definition received : world := world_of (fresh FUOTA_COMPLETE true 300).

Lemma image_served : serves image read_image.
Proof. by intros o n b _ _. Qed.
Lemma image_layout : mcuboot_image image 32 260 8.
Proof.
  exists [0; 0; 0; 0], [0; 0], (replicate 16 7). split_and!; vm_refl.
Qed.

Lemma copy_installs_image_witness : slot_of (copy_image_to_slot received).2 = image.
Proof.
  refine (proj1 (proj2 (copy_installs_image image fuota_ops read_image received image_served eq_refl
    eq_refl _ _) _)); by vm_compute.
Defined.
Lemma detect_size_precedence_witness :
  f_image_size (fu (detect_image_size 0 waiting).2) = 300.
Proof.
  refine (proj2 (proj2 (proj2 (proj2 (detect_size_precedence 0 waiting))) eq_refl eq_refl
    image read_image 32 260 8 eq_refl eq_refl image_served _ image_layout _ _ _ _)); [done|lia..].
Defined.
End FuotaWitness.
