(* ===== verification/FuotaSteps.v ===== *)
(** * The FUOTA state machine under interleaving (src/lorawan/services/fuota/lorawan_fuota.c)

    The service holds its lock for short stretches only: it is released around
    every callback, and [rzi_fuota_apply] copies the image outside it.  So a
    run is a sequence of critical sections, between which anything may happen:
    other public calls, dispatched events, a callback that calls the service
    back, another installation.  An abstract machine over what the service
    remembers (started, state, image flag) says what one critical section may
    do; every function of the service is shown to follow it, whatever follows
    it in the windows its callbacks open, and to keep its account with the
    power service. *)
From S2P Require Import Prelude Zephyr Err Power Storage LorawanSettings LorawanBackend LorawanCore LorawanCredentials LorawanApi Lorawan LorawanService LorawanFlows Fuota.

(** ** The abstract machine *)
Definition phase : Type := Z * rzi_fuota_state * bool.
(** The states in which an image is available, and those in which one may be. *)
Definition keeps_image (s : rzi_fuota_state) : bool :=
  bool_decide (s = FUOTA_COMPLETE) || bool_decide (s = FUOTA_APPLYING) || bool_decide (s = FUOTA_TRANSFERRING).
(** One critical section.  [overtaken] tells whether an installation may fail after something else
    has moved the service on from the state the installation had put it in. *)
Inductive phase_step (overtaken : bool) : phase -> phase -> Prop :=
| phase_start s r : phase_step overtaken (0, s, r) (1, s, r)
| phase_joined s r : phase_step overtaken (1, s, r) (1, FUOTA_READY, false)
| phase_idle s r : phase_step overtaken (1, s, r) (1, FUOTA_IDLE, false)
| phase_session s r : phase_step overtaken (1, s, r) (1, FUOTA_TRANSFERRING, r)
| phase_ended : phase_step overtaken (1, FUOTA_TRANSFERRING, false) (1, FUOTA_READY, false)
| phase_received s r : phase_step overtaken (1, s, r) (1, FUOTA_COMPLETE, true)
| phase_failed s r : phase_step overtaken (1, s, r) (1, FUOTA_FAILED, false)
| phase_apply k s : phase_step overtaken (k, s, true) (k, FUOTA_APPLYING, true)
| phase_apply_failed s r :
    overtaken = true \/ s = FUOTA_APPLYING \/ s = FUOTA_COMPLETE ->
    phase_step overtaken (1, s, r) (1, FUOTA_COMPLETE, r).

(** What the machine guarantees.  Only an overtaken installation can leave the service COMPLETE
    without an image. *)
Definition phase_inv (overtaken : bool) (p : phase) : Prop :=
  let '(k, s, r) := p in
  (k = 0 \/ k = 1) /\ (k = 0 -> s = FUOTA_IDLE) /\
  (r = true -> keeps_image s = true) /\ (s = FUOTA_APPLYING -> r = true) /\
  (overtaken = false -> s = FUOTA_COMPLETE -> r = true).
Lemma phase_step_inv o p q : phase_step o p q -> phase_inv o p -> phase_inv o q.
Proof.
  destruct 1 as [s r|s r|s r|s r| |s r|s r|k s|s r Ho]; cbn; intros (Hk & Hi & Hr & Ha & Hc); split_and!; try done;
    try (by right).
  - intros ->. specialize (Hr eq_refl). by rewrite Hi in Hr.
  - intros -> _. destruct Ho as [|[Hs|Hs]]; [done|by apply Ha|by apply Hc].
Qed.
Lemma phase_steps_inv o p q : rtc (phase_step o) p q -> phase_inv o p -> phase_inv o q.
Proof. induction 1; eauto using phase_step_inv. Qed.

(** ** The service follows it *)
Section machine.
Context `{Zephyr} `{!PmOk} `{Errno} `{Kconfig} {ctx : ExecCtx} `{LorawanBackend} `{LorawanExt} `{!LorawanHooks} `{FuotaPlatform} `{!FuotaEnv} `{!FuotaEnvOk}.
(** The public functions are called from threads. *)
Context (Hisr : k_is_in_isr = false).

Definition phase_of (w : world) : phase := (f_started (fu w), f_state (fu w), f_image_ready (fu w)).
(** References the power service counts for the flash. *)
Definition flash_refs (w : world) : Z := at_ (lock_counts (power_of w)) RZI_POWER_LOCK_FLASH.
(** The service owns one of them exactly while it transfers or installs, and its flag says so; [n]
    belong to others. *)
Definition flash_account (n : Z) (w : world) : Prop :=
  length (lock_counts (power_of w)) = 5%nat /\
  flash_refs w = n + b2z (f_power_flash_held (fu w)) /\
  f_power_flash_held (fu w) = auto_service_lock && wants_flash (f_state (fu w)).
(** [w'] is reached by steps of the machine, with the account kept. *)
Definition follows (o : bool) (n : Z) (w w' : world) : Prop :=
  flash_account n w -> flash_account n w' /\ rtc (phase_step o) (phase_of w) (phase_of w').
#[export] Instance follows_preorder o n : PreOrder (follows o n).
Proof.
  split; [by intros w Hw|]. intros a b c Hb Hc Ha. destruct (Hb Ha) as [Hb1 Hb2]. destruct (Hc Hb1) as [Hc1 Hc2].
  split; [done|by etransitivity].
Qed.
(** A callback, and whatever other threads do in the window around it: further critical sections
    of the service, and any use of the power service that is balanced. *)
Definition fuota_callbacks_follow (o : bool) : Prop := forall n, 0 <= n < UINT8_MAX ->
  (forall f s u, respects (follows o n) (run_state_changed f s u)) /\
  (forall f u, respects (follows o n) (run_session_started f u)) /\
  (forall f r u, respects (follows o n) (run_complete f r u)).

(** *** What moves neither the phase nor the account *)
Definition view (w : world) : Z * rzi_fuota_state * bool * bool * list Z :=
  (f_started (fu w), f_state (fu w), f_image_ready (fu w), f_power_flash_held (fu w), lock_counts (power_of w)).
Abbreviation still m := (keeps view m).
Lemma view_fput f w : view (fput f w).2 =
  (f_started (f (fu w)), f_state (f (fu w)), f_image_ready (f (fu w)), f_power_flash_held (f (fu w)), lock_counts (power_of w)).
Proof. unfold view. by rewrite fu_fput. Qed.
Lemma fput_still f :
  (forall s, (f_started (f s), f_state (f s), f_image_ready (f s), f_power_flash_held (f s)) =
             (f_started s, f_state s, f_image_ready s, f_power_flash_held s)) -> still (fput f).
Proof. intros Hf w. unfold same. rewrite view_fput. specialize (Hf (fu w)). injection Hf as -> -> -> ->. done. Qed.
Lemma fget_still {A} (p : fuota_state -> A) : still (fget p).
Proof. by intros w. Qed.
Lemma fwork_still f : still (fwork f).
Proof. by apply fput_still. Qed.
Lemma fimg_still {A} (m : M img_st A) : still (fimg m).
Proof.
  intros w. unfold same, view, fu, fimg, zoom. destruct (m _) as [a i]. cbn. by rewrite fuota_of_set.
Qed.
Lemma call_still {A} (op : bop backend_state A) : still (call op).
Proof. intros w. destruct (call_sinks op w) as (b & q & o & Hw). unfold same. by rewrite Hw. Qed.
#[local] Hint Resolve fget_still fwork_still fimg_still call_still : frame.
Ltac st := frame; try (apply fput_still; by intros []).

Lemma work_still : still schedule_keepalive /\ still cancel_keepalive /\ still submit_apply.
Proof. split_and!; unfold schedule_keepalive, cancel_keepalive, submit_apply; st. Qed.
Lemma detect_still n : still (detect_image_size n).
Proof. unfold detect_image_size, measure_image. st. Qed.
Lemma log_still : still log_image_head.
Proof. unfold log_image_head. st. Qed.
Lemma copy_loop_still fuel read n o : still (copy_loop fuel read n o).
Proof. revert n o. induction fuel as [|fuel IH]; intros n o; cbn [copy_loop]; st; apply IH. Qed.
#[local] Hint Resolve copy_loop_still : frame.
Lemma copy_still : still copy_image_to_slot.
Proof. unfold copy_image_to_slot. st. Qed.
Lemma view_phase w w' : view w' = view w -> phase_of w' = phase_of w.
Proof. unfold view, phase_of. by intros [= -> -> -> _ _]. Qed.
Lemma view_account n w w' : view w' = view w -> flash_account n w -> flash_account n w'.
Proof. unfold view, flash_account, flash_refs. by intros [= _ -> _ -> ->]. Qed.
Lemma view_follows o n w w' : view w' = view w -> follows o n w w'.
Proof. intros E Hw. rewrite (view_phase _ _ E). split; [by eapply view_account|done]. Qed.
Lemma still_follows {A} o n (m : M world A) : still m -> respects (follows o n) m.
Proof. intros Hm w. apply view_follows, Hm. Qed.

(** *** Entering a state *)
(** The flash lock is taken and released with the states that want it. *)
Lemma update_flash_lock_account n next w :
  0 <= n < UINT8_MAX -> length (lock_counts (power_of w)) = 5%nat ->
  flash_refs w = n + b2z (f_power_flash_held (fu w)) -> (auto_service_lock = false -> f_power_flash_held (fu w) = false) ->
  f_state (fu w) = next ->
  let w' := (update_flash_lock next w).2 in flash_account n w' /\ phase_of w' = phase_of w.
Proof using All.
  intros Hn Hlen Hrefs Hoff Hs. cbv zeta. unfold update_flash_lock, flash_account.
  destruct auto_service_lock; [|cbn [ret snd]; specialize (Hoff eq_refl); rewrite Hoff in *; done].
  rewrite bind_eq. unfold fget, gets. cbn [fst snd]. change (fuota_of (w_ext w)) with (fu w). rewrite <- Hs.
  unfold flash_refs in *. set (c := at_ (lock_counts (power_of w)) 2) in *.
  assert (Hset : forall v s, length (lock_counts s) = 5%nat ->
    length (lock_counts (set_count 2 v s)) = 5%nat /\ at_ (lock_counts (set_count 2 v s)) 2 = v).
  { intros v s Hl. cbn. rewrite length_insert. split; [done|]. unfold at_.
    rewrite nth_lookup, list_lookup_insert_eq; [done|]. rewrite Hl. cbn. lia. }
  destruct (wants_flash (f_state (fu w))) eqn:Ew, (f_power_flash_held (fu w)) eqn:Eh; cbn [andb negb b2z] in *.
  - cbn [ret snd]. rewrite Ew, Eh. done.
  - rewrite bind_eq, power_service_run. cbn [fst snd].
    destruct (lock_get_cases 2 (power_of w)) as [[Hneg _]|(Hz & _ & _ & _ & Hw)].
    { exfalso. revert Hneg. unfold rzi_power_lock_get. rewrite Hisr. change (5 <=? u32 2) with false. mrun.
      fold c. destruct (Z.eqb_spec c UINT8_MAX); [lia|]. done. }
    rewrite Hz. cbn [Z.eqb]. destruct (Hset (u8 (c + 1)) (all_lock_get (power_of w)) Hlen) as [Hl' Hc'].
    unfold phase_of. rewrite fu_fput. cbn. rewrite Hw. split_and!; [done| |done|done].
    fold c. change (at_ (lock_counts (set_count 2 (u8 (c + 1)) (all_lock_get (power_of w)))) 2 = n + 1). rewrite Hc'.
    unfold u8, UINT8_MAX in *. rewrite Z.mod_small by lia. lia.
  - rewrite bind_eq, power_service_run. cbn [fst snd].
    destruct (lock_put_cases 2 (power_of w)) as [[Hneg _]|(Hz & _ & _ & _ & Hw)].
    { exfalso. revert Hneg. unfold rzi_power_lock_put. rewrite Hisr. change (5 <=? u32 2) with false. mrun.
      fold c. destruct (Z.eqb_spec c 0); [lia|]. done. }
    destruct (Hset (u8 (c - 1)) (power_of w) Hlen) as [Hl' Hc'].
    unfold phase_of. rewrite fu_fput. cbn. rewrite Hw. split_and!; [done| |done|done].
    fold c. change (at_ (lock_counts (set_count 2 (u8 (c - 1)) (power_of w))) 2 = n + 0). rewrite Hc'.
    unfold u8, UINT8_MAX in *. rewrite Z.mod_small by lia. lia.
  - cbn [ret snd]. rewrite Ew, Eh. done.
Qed.

(** Inside a critical section only the image flag may differ from the phase it began in. *)
Definition flagged (r : bool) (w w1 : world) : Prop :=
  view w1 = (f_started (fu w), f_state (fu w), r, f_power_flash_held (fu w), lock_counts (power_of w)).
Lemma flagged_refl w : flagged (f_image_ready (fu w)) w w.
Proof. done. Qed.
Lemma flagged_still {A} (m : M world A) r w w1 : still m -> flagged r w w1 -> flagged r w (m w1).2.
Proof. unfold flagged. intros Hm <-. apply Hm. Qed.
Lemma flagged_put r w w1 q : flagged q w w1 -> flagged r w (fput (put_f_image_ready r) w1).2.
Proof. unfold flagged. rewrite view_fput. unfold view. cbn. by intros [= -> -> _ -> ->]. Qed.

Section run.
Context (o : bool) (n : Z) (Hcb : fuota_callbacks_follow o) (Hn : 0 <= n < UINT8_MAX).
Definition after (w : world) {A} (_ : A) (w' : world) : Prop :=
  flash_account n w' /\ rtc (phase_step o) (phase_of w) (phase_of w').

(** The end of a critical section: the state it enters, and then the window of the callback. *)
Lemma enter next r w w1 :
  flash_account n w -> flagged r w w1 -> phase_step o (phase_of w) (f_started (fu w), next, r) ->
  wp (set_state_locked next) (after w) w1.
Proof using All.
  intros (Hlen & Hrefs & Hheld) Hfl Hstep. unfold flagged, view in Hfl. injection Hfl as E1 E2 E3 E4 E5.
  unfold set_state_locked. apply wp_bind, wp_gets, wp_bind, wp_gets. change (fuota_of (w_ext w1)) with (fu w1).
  destruct (decide (f_state (fu w1) = next)) as [Hnext|_].
  { apply wp_ret. unfold after, flash_account, flash_refs, phase_of. rewrite E1, E2, E3, E4, E5. split; [done|].
    assert (Hsn : f_state (fu w) = next) by congruence. apply rtc_once. unfold phase_of in Hstep.
    by rewrite Hsn in Hstep |- *. }
  apply wp_bind. unfold wp at 1. pose proof (fu_fput (put_f_state next) w1) as Hf.
  assert (Hp2 : power_of (fput (put_f_state next) w1).2 = power_of w1) by done.
  destruct (fput (put_f_state next) w1) as [[] w2]. cbn [snd] in *. apply wp_bind. unfold wp at 1.
  destruct (update_flash_lock_account n next w2 Hn) as [Ha Hp].
  - by rewrite Hp2, E5.
  - unfold flash_refs in *. rewrite Hp2, E5, Hf. cbn. by rewrite E4.
  - intros Hauto. rewrite Hf. cbn. by rewrite E4, Hheld, Hauto.
  - by rewrite Hf.
  - destruct (update_flash_lock next w2) as [[] w3]. cbn [snd] in *.
    assert (Hw3 : after w tt w3).
    { split; [done|]. rewrite Hp. apply rtc_once. unfold phase_of at 2. rewrite Hf. cbn. by rewrite E1, E3. }
    destruct (negb _); [|by apply wp_ret]. destruct (Hcb n Hn) as (Hsc & _ & _).
    destruct Hw3 as [Hw3a Hw3b]. destruct (Hsc (state_changed (f_callbacks (fu w1))) next (fuota_user_data (f_callbacks (fu w1))) w3 Hw3a) as [Hx Hy].
    split; [exact Hx|]. by etransitivity.
Qed.
Lemma wp_after {A B} (m : M world A) w (a : B) :
  respects (follows o n) m -> forall w1, after w a w1 -> wp m (after w) w1.
Proof using All.
  intros Hm w1 [Ha Hr]. destruct (Hm w1 Ha) as [Ha' Hr']. split; [exact Ha'|]. by etransitivity.
Qed.

Lemma wp_flagged {A} (m : M world A) r w w1 Q :
  still m -> flagged r w w1 -> (forall a w2, flagged r w w2 -> Q a w2) -> wp m Q w1.
Proof. intros Hm Hf HQ. apply HQ. by apply flagged_still. Qed.
Lemma wp_flag r q w w1 Q :
  flagged q w w1 -> (forall w2, flagged r w w2 -> Q tt w2) -> wp (fput (put_f_image_ready r)) Q w1.
Proof. intros Hf HQ. apply HQ. by apply (flagged_put r w w1 q). Qed.
Lemma wp_last {A} (m : M world A) w w1 : respects (follows o n) m -> after w tt w1 -> wp m (after w) w1.
Proof using All. intros Hm. by apply (wp_after m w tt Hm). Qed.
Lemma wp_still_last {A} (m : M world A) w w1 : still m -> after w tt w1 -> wp m (after w) w1.
Proof using All. intros Hm. apply wp_last. by apply still_follows. Qed.
Lemma notify_follows :
  respects (follows o n) notify_session_started /\ forall rc, respects (follows o n) (notify_complete rc).
Proof using All.
  destruct (Hcb n Hn) as (_ & Hs & Hc). split; intros; unfold notify_session_started, notify_complete; frame;
    try apply still_follows; auto using fget_still.
Qed.

(** *** The handlers *)
Lemma back_to_idle_follows w : flash_account n w -> f_started (fu w) = 1 -> wp back_to_idle (after w) w.
Proof using All.
  intros Ha Hs. unfold back_to_idle. apply wp_bind.
  apply (wp_flagged _ _ w w _ (proj1 (proj2 work_still)) (flagged_refl w)). intros _ w1 Hf1.
  apply wp_bind, (wp_flag _ _ w w1 _ Hf1). intros w2 Hf2. apply (enter _ false); [done..|].
  unfold phase_of. rewrite Hs. constructor.
Qed.
Lemma handle_joined_follows w : flash_account n w -> f_started (fu w) = 1 -> wp handle_joined (after w) w.
Proof using All.
  intros Ha Hs. unfold handle_joined. apply wp_bind, (wp_flag _ _ w w _ (flagged_refl w)). intros w1 Hf1.
  apply wp_bind, (wp_flagged _ false w w1); [by apply fput_still; intros []|done|]. intros _ w2 Hf2.
  apply wp_bind, (wp_flagged _ false w w2); [by apply fput_still; intros []|done|]. intros _ w3 Hf3.
  apply wp_bind, wp_gets, wp_bind, (wp_flagged _ false w w3);
    [destruct (fop _ _); [apply call_still|apply respects_ret; apply _]|done|]. intros rc w4 Hf4.
  apply wp_bind, (wp_flagged _ false w w4); [destruct (negb _); st|done|]. intros _ w5 Hf5.
  apply wp_bind. eapply wp_mono; [|apply (enter _ false); [done..|]].
  - intros [] w6 Hf6. apply wp_still_last; [apply work_still|done].
  - unfold phase_of. rewrite Hs. constructor.
Qed.
Lemma transfer_done_follows b m w :
  flash_account n w -> f_started (fu w) = 1 -> wp (handle_transfer_done b m) (after w) w.
Proof using All.
  intros Ha Hs. destruct notify_follows as [_ Hnc]. unfold handle_transfer_done. destruct b.
  - apply wp_bind, (wp_flagged _ _ w w _ (detect_still m) (flagged_refl w)). intros rc w1 Hf1.
    apply wp_bind, (wp_flag _ _ w w1 _ Hf1). intros w2 Hf2.
    apply wp_bind, (wp_flagged _ true w w2); [by apply fput_still; intros []|done|]. intros _ w3 Hf3.
    apply wp_bind, (wp_flagged _ true w w3); [apply log_still|done|]. intros _ w4 Hf4.
    apply wp_bind. eapply wp_mono; [|apply (enter _ true); [done..|unfold phase_of; rewrite Hs; constructor]].
    intros [] w5 Hf5. apply wp_bind. eapply wp_mono; [|apply (wp_last (notify_complete 0)); [apply Hnc|done]].
    intros [] w6 Hf6. apply wp_still_last; [apply work_still|done].
  - apply wp_bind, (wp_flag _ _ w w _ (flagged_refl w)). intros w1 Hf1.
    apply wp_bind, (wp_flagged _ false w w1); [by apply fput_still; intros []|done|]. intros _ w2 Hf2.
    apply wp_bind. eapply wp_mono; [|apply (enter _ false); [done..|unfold phase_of; rewrite Hs; constructor]].
    intros [] w5 Hf5. apply wp_bind. eapply wp_mono; [|apply (wp_last (notify_complete _)); [apply Hnc|done]].
    intros [] w6 Hf6. apply wp_still_last; [apply work_still|done].
Qed.
Lemma handle_fuota_event_follows k b m w :
  flash_account n w -> f_started (fu w) = 1 -> wp (handle_fuota_event k b m) (after w) w.
Proof using All.
  intros Ha Hs. destruct work_still as (Hsch & Hcan & Hsub). destruct notify_follows as [Hns _].
  assert (Hself : after w tt w) by by split.
  destruct k; cbn [handle_fuota_event].
  - by apply wp_ret.
  - apply wp_bind, (wp_flagged _ _ w w _ Hcan (flagged_refl w)). intros _ w1 Hf1.
    apply wp_bind. eapply wp_mono; [|apply (enter _ (f_image_ready (fu w))); [done..|unfold phase_of; rewrite Hs; constructor]].
    intros [] w2 Hf2. by apply wp_last.
  - apply wp_bind, wp_gets, wp_bind, wp_gets. change (fuota_of (w_ext w)) with (fu w).
    destruct (bool_decide_reflect (f_state (fu w) = FUOTA_TRANSFERRING)) as [Ht|], (f_image_ready (fu w)) eqn:Er;
      try (by apply wp_ret). cbn [andb negb].
    pose proof (flagged_refl w) as Hfl. rewrite Er in Hfl.
    apply wp_bind, (wp_flagged _ _ w w _ Hsch Hfl). intros _ w1 Hf1. apply (enter _ false); [done..|].
    unfold phase_of. rewrite Hs, Ht, Er. constructor.
  - by apply transfer_done_follows.
  - apply wp_bind, wp_gets. destruct (f_image_ready _); [by apply wp_still_last|by apply wp_ret].
Qed.
Lemma on_event_follows event w :
  flash_account n w -> f_started (fu w) = 0 \/ f_started (fu w) = 1 -> wp (fuota_on_event event) (after w) w.
Proof using All.
  intros Ha Hs. assert (Hself : after w tt w) by by split.
  unfold fuota_on_event. apply wp_bind, wp_gets. change (fuota_of (w_ext w)) with (fu w).
  destruct Hs as [-> | Hs]; [by apply wp_ret|]. rewrite Hs. cbn [Z.eqb].
  destruct event; try (by apply wp_ret).
  - by apply handle_joined_follows.
  - by apply back_to_idle_follows.
  - apply wp_bind, wp_gets. destruct (_ && _); [by apply back_to_idle_follows|by apply wp_ret].
  - by apply handle_fuota_event_follows.
Qed.

(** *** The public functions *)
Lemma start_follows w : flash_account n w -> wp rzi_fuota_start (after w) w.
Proof using All.
  intros Ha. assert (Hself : forall a : Z, after w a w) by by split. unfold rzi_fuota_start. rewrite Hisr.
  apply wp_bind, wp_gets. change (fuota_of (w_ext w)) with (fu w).
  destruct (Z.eqb_spec (f_started (fu w)) 0) as [Hz|]; cbn [negb]; [|by apply wp_ret].
  apply wp_bind, (wp_flagged _ (f_image_ready (fu w)) w w); [by apply fput_still; intros []|apply flagged_refl|]. intros _ w1 Hf1.
  unfold flagged in Hf1. change (view w1 = view w) in Hf1.
  destruct (_ && _).
  - apply wp_ret. destruct (view_follows o n w w1 Hf1 Ha). by split.
  - apply wp_bind. unfold wp at 1. pose proof (view_fput (put_f_started 1) w1) as Hv.
    destruct (fput (put_f_started 1) w1) as [[] w2]. cbn [snd] in Hv. apply wp_ret.
    assert (Ha2 : flash_account n w2 /\ phase_of w2 = (1, f_state (fu w), f_image_ready (fu w))).
    { unfold flash_account, flash_refs, phase_of. unfold view in Hv, Hf1. cbn in Hv.
      injection Hv as -> -> -> -> ->. injection Hf1 as _ -> -> -> ->. done. }
    destruct Ha2 as [Ha2 Hp]. split; [done|]. cbn [snd]. rewrite Hp. unfold phase_of. rewrite Hz. apply rtc_once. constructor.
Qed.
Lemma apply_begin_follows w : flash_account n w -> wp apply_begin (after w) w.
Proof using All.
  intros Ha. assert (Hself : forall a : Z, after w a w) by by split. unfold apply_begin. rewrite Hisr.
  apply wp_bind, wp_gets, wp_bind, wp_gets. change (fuota_of (w_ext w)) with (fu w).
  destruct (f_image_ready (fu w)) eqn:Er; cbn [negb]; [|by apply wp_ret].
  destruct (_ =? 0); [by apply wp_ret|]. pose proof (flagged_refl w) as Hfl. rewrite Er in Hfl.
  apply wp_bind. eapply wp_mono; [|apply (enter _ true); [done..|unfold phase_of; rewrite Er; constructor]].
  intros [] w1 Hf1. by apply wp_ret.
Qed.
Lemma apply_failed_follows rc w : flash_account n w -> f_started (fu w) = 1 ->
  o = true \/ f_state (fu w) = FUOTA_APPLYING \/ f_state (fu w) = FUOTA_COMPLETE ->
  wp (apply_failed rc) (after w) w.
Proof using All.
  intros Ha Hs Ho. unfold apply_failed.
  apply wp_bind, (wp_flagged _ (f_image_ready (fu w)) w w); [by apply fput_still; intros []|apply flagged_refl|]. intros _ w1 Hf1.
  apply wp_bind. eapply wp_mono; [|apply (enter _ (f_image_ready (fu w))); [done..|]].
  - intros [] w2 Hf2. by apply wp_ret.
  - unfold phase_of. rewrite Hs. by constructor.
Qed.
End run.

(** ** Runs *)
(** One step: a critical section of the service with the windows its callbacks open; the copy of
    an image, which happens outside the lock; or anything else, which leaves the service's
    variables alone and accounts for the flash references it takes and gives back.  An
    installation may fail at any time once the service is started: those that began earlier are
    among these.  Without [o] it fails only while the service is still where an installation
    leaves it. *)
Inductive fuota_step (o : bool) : Z * world -> Z * world -> Prop :=
| step_event n w e : fuota_step o (n, w) (n, (fuota_on_event e w).2)
| step_start n w : fuota_step o (n, w) (n, (rzi_fuota_start w).2)
| step_apply_begin n w : fuota_step o (n, w) (n, (apply_begin w).2)
| step_copy n w : fuota_step o (n, w) (n, (copy_image_to_slot w).2)
| step_apply_failed n w rc : f_started (fu w) = 1 ->
    o = true \/ f_state (fu w) = FUOTA_APPLYING \/ f_state (fu w) = FUOTA_COMPLETE ->
    fuota_step o (n, w) (n, (apply_failed rc w).2)
| step_expect n w size : fuota_step o (n, w) (n, (rzi_fuota_set_expected_size size w).2)
| step_register n w t : fuota_step o (n, w) (n, (rzi_fuota_register_callbacks t w).2)
| step_read n w a b c : fuota_step o (n, w) (n, (rzi_fuota_read_image a b c w).2)
| step_other n w n' w' :
    0 <= n' < UINT8_MAX -> phase_of w' = phase_of w -> f_power_flash_held (fu w') = f_power_flash_held (fu w) ->
    length (lock_counts (power_of w')) = 5%nat -> flash_refs w' - flash_refs w = n' - n ->
    fuota_step o (n, w) (n', w').

Definition fuota_inv (o : bool) (n : Z) (w : world) : Prop :=
  0 <= n < UINT8_MAX /\ phase_inv o (phase_of w) /\ flash_account n w.
Lemma other_follows o n w n' w' :
  flash_account n w -> 0 <= n' < UINT8_MAX -> phase_of w' = phase_of w ->
  f_power_flash_held (fu w') = f_power_flash_held (fu w) -> length (lock_counts (power_of w')) = 5%nat ->
  flash_refs w' - flash_refs w = n' - n ->
  0 <= n' < UINT8_MAX /\ flash_account n' w' /\ rtc (phase_step o) (phase_of w) (phase_of w').
Proof.
  intros (_ & Hr & Hh) Hn Hp Hheld Hlen Hrefs. split; [done|]. split; [|by rewrite Hp].
  unfold phase_of in Hp. injection Hp as _ Hst _. unfold flash_account. rewrite Hst, Hheld.
  split_and!; [done| |done]. lia.
Qed.
Lemma fuota_step_follows o n w n' w' : fuota_callbacks_follow o -> fuota_inv o n w ->
  fuota_step o (n, w) (n', w') ->
  0 <= n' < UINT8_MAX /\ flash_account n' w' /\ rtc (phase_step o) (phase_of w) (phase_of w').
Proof using All.
  intros Hcb (Hn & Hp & Ha) Hs.
  assert (Hk : forall A (m : M world A), still m ->
    flash_account n (m w).2 /\ rtc (phase_step o) (phase_of w) (phase_of (m w).2))
    by (intros A m Hm; by apply (still_follows o n m Hm)).
  inversion Hs; subst; try (split; [exact Hn|]).
  - apply (on_event_follows o n' Hcb Hn e w Ha), Hp.
  - exact (start_follows o n' Hcb Hn w Ha).
  - exact (apply_begin_follows o n' Hcb Hn w Ha).
  - apply Hk, copy_still.
  - by apply (apply_failed_follows o n' Hcb Hn rc w).
  - apply Hk. unfold rzi_fuota_set_expected_size. st.
  - apply Hk. unfold rzi_fuota_register_callbacks. st.
  - apply Hk. unfold rzi_fuota_read_image. st.
  - by apply (other_follows o n).
Qed.
(** C5: The update state machine, over every interleaving of events, public calls, callbacks that call
    back, and installations (which copy outside the lock): the service moves only along the
    edges of its state diagram; it owns one reference of the flash power lock exactly while
    transferring or applying (when automatic service locking is configured, and the count of the
    lock is not exhausted), and the power service counts that one reference besides those of others;
    nothing leaves IDLE before the start; APPLYING has an image, and an image is there only in
    COMPLETE, APPLYING, or TRANSFERRING; COMPLETE has an image unless an installation failed
    after another event had moved the service on ([o]).  Callbacks are assumed to act on the
    service only through its own critical sections and to balance their use of the flash lock. *)
Theorem fuota_invariant o n w n' w' :
  fuota_callbacks_follow o -> fuota_inv o n w -> rtc (fuota_step o) (n, w) (n', w') ->
  fuota_inv o n' w' /\ rtc (phase_step o) (phase_of w) (phase_of w').
Proof using All.
  intros Hcb Hinv Hr. remember (n, w) as a eqn:Ea. remember (n', w') as b eqn:Eb.
  revert n w Ea Hinv. induction Hr as [|a [n1 w1] c Hs _ IH]; intros n w -> Hinv; [by simplify_eq|].
  destruct (fuota_step_follows o n w n1 w1 Hcb Hinv Hs) as (Hn & Ha & Hp).
  assert (Hinv1 : fuota_inv o n1 w1) by (split; [done|split; [eapply phase_steps_inv; [done|apply Hinv]|done]]).
  destruct (IH Eb n1 w1 eq_refl Hinv1) as [? ?]. split; [done|by etransitivity].
Qed.

(** ** One installation *)
(** Callbacks that leave the service alone. *)
Definition state_callback_still : Prop := forall f s u, still (run_state_changed f s u).
Lemma update_flash_lock_phase next w : phase_of (update_flash_lock next w).2 = phase_of w.
Proof.
  enough (Hk : keeps phase_of (update_flash_lock next)) by apply Hk.
  assert (Hp : forall A (m : M power_state A), keeps phase_of (power_service m))
    by (intros A m v; unfold power_service; by rewrite cfg_run).
  assert (Hf : forall b, keeps phase_of (fput (put_f_power_flash_held b)))
    by (intros b v; unfold same, phase_of; by rewrite fu_fput).
  unfold update_flash_lock. frame; auto. intros v. done.
Qed.
Lemma set_state_phase next w : state_callback_still ->
  phase_of (set_state_locked next w).2 = (f_started (fu w), next, f_image_ready (fu w)).
Proof.
  intros Hcb. unfold set_state_locked, fget. rewrite !bind_eq. cbn [gets fst snd]. change (fuota_of (w_ext w)) with (fu w).
  destruct (decide _) as [<-|_]; [done|]. rewrite !bind_eq.
  pose proof (fu_fput (put_f_state next) w) as Hf. set (w1 := (fput (put_f_state next) w).2) in *. clearbody w1.
  pose proof (update_flash_lock_phase next w1) as Hu. set (w2 := (update_flash_lock next w1).2) in *. clearbody w2.
  assert (Hw2 : phase_of w2 = (f_started (fu w), next, f_image_ready (fu w)))
    by (rewrite Hu; unfold phase_of; by rewrite Hf).
  destruct (negb _); [|done]. by rewrite (view_phase w2 _ (Hcb _ _ _ w2)).
Qed.
Lemma apply_begin_spec w :
  f_image_ready (fu w) = true -> f_image_size (fu w) <> 0 ->
  apply_begin w = (0, (set_state_locked FUOTA_APPLYING w).2).
Proof.
  intros Hr Hz. unfold apply_begin. rewrite Hisr. unfold bind at 1 2, fget, gets.
  change (fuota_of (w_ext w)) with (fu w). rewrite Hr. cbn [negb].
  destruct (Z.eqb_spec (f_image_size (fu w)) 0); [done|]. unfold bind.
  by destruct (set_state_locked FUOTA_APPLYING w).
Qed.

(** Applying an update, undisturbed: without a received image, or with an image of unknown size,
    it is refused and nothing changes; an installation that fails reports the error and returns
    to COMPLETE with the image still there to try again; without an installer in the firmware the
    call fails and the service stays APPLYING. *)
Theorem apply_outcomes w :
  state_callback_still ->
  let r := rzi_fuota_apply w in
  let w1 := (set_state_locked FUOTA_APPLYING w).2 in
  (f_image_ready (fu w) = false -> r = (- RZI_ERR_NOT_FOUND, w)) /\
  (f_image_ready (fu w) = true -> f_image_size (fu w) = 0 -> r = (- RZI_ERR_NO_DATA, w)) /\
  (f_image_ready (fu w) = true -> f_image_size (fu w) <> 0 -> CONFIG_IMG_MANAGER = true ->
     (copy_image_to_slot w1).1 <> 0 ->
     r.1 = (copy_image_to_slot w1).1 /\ f_state (fu r.2) = FUOTA_COMPLETE /\
     f_image_ready (fu r.2) = true) /\
  (f_image_ready (fu w) = true -> f_image_size (fu w) <> 0 -> CONFIG_IMG_MANAGER = false ->
     r = (- RZI_ERR_NOT_SUPPORTED, w1) /\ f_state (fu r.2) = FUOTA_APPLYING).
Proof using All.
  intros Hcb. cbv zeta. pose proof (apply_begin_spec w) as Hbegin.
  pose proof (set_state_phase FUOTA_APPLYING w Hcb) as Hp. unfold rzi_fuota_apply. split; [|split; [|split]].
  - intros Hr. unfold apply_begin. rewrite Hisr. unfold bind, fget, gets.
    change (fuota_of (w_ext w)) with (fu w). by rewrite Hr.
  - intros Hr Hz. unfold apply_begin. rewrite Hisr. unfold bind, fget, gets.
    change (fuota_of (w_ext w)) with (fu w). by rewrite Hr, Hz.
  - intros Hr Hz Himg. rewrite bind_eq, (Hbegin Hr Hz). cbn [Z.eqb fst snd]. unfold apply_finish. rewrite Himg.
    cbn [negb]. rewrite bind_eq. set (w1 := (set_state_locked FUOTA_APPLYING w).2) in *. clearbody w1.
    pose proof (view_phase _ _ (copy_still w1)) as Hk. destruct (copy_image_to_slot w1) as [rc w2]. cbn [fst snd] in *.
    intros Hrc. destruct (Z.eqb_spec rc 0); [done|]. cbn [negb]. unfold apply_failed. rewrite !bind_eq.
    pose proof (fu_fput (put_f_last_error rc) w2) as Hf.
    set (w3 := (fput (put_f_last_error rc) w2).2) in *. clearbody w3.
    pose proof (set_state_phase FUOTA_COMPLETE w3 Hcb) as Hs. unfold phase_of in *.
    injection Hs as _ Hs1 Hs2. injection Hk as _ _ Hk. injection Hp as _ _ Hp. cbn [ret fst snd].
    rewrite Hs1, Hs2, Hf. cbn. by rewrite Hk, Hp, Hr.
  - intros Hr Hz Himg. rewrite bind_eq, (Hbegin Hr Hz). cbn [Z.eqb fst snd]. unfold apply_finish. rewrite Himg.
    cbn [negb ret fst snd]. unfold phase_of in Hp. by injection Hp.
Qed.
End machine.

Module FuotaStepsWitness.
Export FuotaWitness.
Lemma callbacks_follow o : fuota_callbacks_follow o.
Proof. intros n _. split_and!; intros; apply still_follows; by intros w. Qed.
Lemma waiting_inv : fuota_inv true 0 waiting.
Proof.
  split; [done|]. split; [|done]. split; [by right|]. split; [done|]. split; [done|]. by split.
Qed.
(** A transfer completes; its installation begins; the device joins again while the image is being
    copied; the installation fails. *)
Definition complete_world : world := (fuota_on_event (BACKEND_FUOTA FUOTA_TRANSFER_DONE true 0) waiting).2.
Definition applying_world : world := (apply_begin complete_world).2.
Definition joined_world : world := (fuota_on_event BACKEND_JOINED applying_world).2.
Definition raced : world := (apply_failed (- RZI_ERR_IO) joined_world).2.
Lemma joined_started : f_started (fu joined_world) = 1.
Proof. vm_refl. Qed.
Lemma raced_run : rtc (fuota_step true) (0, waiting) (0, raced).
Proof.
  apply (rtc_l _ _ (0, complete_world)); [exact (step_event true 0 waiting _)|].
  apply (rtc_l _ _ (0, applying_world)); [exact (step_apply_begin true 0 complete_world)|].
  apply (rtc_l _ _ (0, joined_world)); [exact (step_event true 0 applying_world _)|].
  apply rtc_once. exact (step_apply_failed true 0 joined_world (- RZI_ERR_IO) joined_started (or_introl eq_refl)).
Qed.
Lemma fuota_invariant_witness : fuota_inv true 0 raced.
Proof.
  exact (proj1 (fuota_invariant eq_refl true 0 waiting 0 raced (callbacks_follow true) waiting_inv raced_run)).
Defined.
Lemma apply_outcomes_witness : rzi_fuota_apply waiting = (- RZI_ERR_NOT_FOUND, waiting).
Proof. refine (proj1 (apply_outcomes eq_refl waiting _) eq_refl). by intros f s u w. Defined.
(** The exception is real: the failed installation, overtaken by the join, leaves the service
    COMPLETE without an image, although the device has only just joined. *)
Example overtaken_installation :
  f_state (fu raced) = FUOTA_COMPLETE /\ f_image_ready (fu raced) = false.
Proof. split; vm_refl. Qed.
End FuotaStepsWitness.

Module FuotaRace.
Import FuotaWitness.
(** The image is copied outside the lock, so events come in between: if the device joins again
    just after [rzi_fuota_apply] released it, the size is reset to zero, nothing is copied, and
    the bootloader is still asked to run the slot, which is empty. The call reports the result of
    the reboot, no image error. *)
Theorem apply_races_with_join :
  let w1 := (apply_begin received).2 in
  let w2 := (fuota_on_event BACKEND_JOINED w1).2 in
  let r := apply_finish w2 in
  (apply_begin received).1 = 0 /\ f_image_ready (fu w2) = false /\
  r.1 = - RZI_ERR_IO /\ slot_of r.2 = [] /\ img_upgrade (f_img (fu r.2)) = true.
Proof. split_and!; vm_refl. Qed.
End FuotaRace.
