(* ===== verification/Lora.v ===== *)
(** * The raw LoRa / FSK service (src/lora/lora.c, backend/lora_backend.h,
    include/rzi/lora/lora.h)

    The radio configuration, the payload cipher, the started and receiving
    flags, and the thin calls into the radio backend.  The backend and the
    code behind the callbacks are parameters: a backend may complete an
    operation by calling back before it returns, and a callback may call any
    public function, so both are arbitrary calls on the whole state, of which
    the service's variables are a part.  The interface [LoraClients] says what
    they may do to it. *)
From S2P Require Import Prelude Zephyr Err.

Abbreviation RZI_LORA_MAX_PAYLOAD := 255.
(** [enum rzi_lora_modulation] *)
Abbreviation RZI_LORA_MOD_LORA := 0.
Abbreviation RZI_LORA_MOD_FSK := 1.

Record rzi_lora_config : Type := LoraConfig {
  frequency_hz : Z; spreading_factor : Z; bandwidth : Z; coding_rate : Z;
  preamble_length : Z; tx_power_dbm : Z; sync_word : Z; iq_inverted : bool;
  encrypt : bool; key : list Z; iv : list Z; (* uint8_t key[16], iv[16] *)
  cad : bool; fixed_length : bool; fsk_bitrate : Z; fsk_deviation : Z;
  symbol_timeout : Z;
}.
(** The initialiser of [config]. *)
Definition config_default : rzi_lora_config :=
  LoraConfig 868000000 7 0 0 8 14 0x3444 false false (replicate 16 0) (replicate 16 0)
    false false 49152 5000 0.

(** [struct rzi_lora_callbacks]: function pointers (0 is NULL), user data *)
Record rzi_lora_callbacks : Type := LoraCallbacks {
  tx_done : Z; rx_done : Z; lora_user_data : Z;
}.

(** The file-scope variables. *)
Record lora_state : Type := LoraState {
  l_started : Z; l_modulation : Z; l_config : rzi_lora_config;
  l_callbacks : rzi_lora_callbacks; l_rx_active : Z;
}.
Definition lora_boot : lora_state :=
  LoraState 0 RZI_LORA_MOD_LORA config_default (LoraCallbacks 0 0 0) 0.

(** Where the variables live; [struct rzi_lora_backend_api], a NULL member is
    [None]; and the code behind the function pointers of the callbacks. *)
Class LoraEnv (W : Type) : Type := {
  lora_of : W -> lora_state;
  set_lora : lora_state -> W -> W;
  b_start : option (Z -> M W Z);
  b_stop : option (M W Z);
  b_apply_config : option (rzi_lora_config -> M W Z);
  b_send : option (list Z -> Z -> M W Z);
  b_receive : option (Z -> M W Z);
  b_test_rssi : option (M W Z);
  b_test_get_rssi : option (Z -> M W (Z * Z));
  b_test_tone : option (M W Z);
  b_test_tx : option (Z -> M W Z);
  b_test_rx : option (Z -> M W Z);
  b_test_cw : option (Z -> Z -> Z -> M W Z);
  b_test_stop : option (M W Z);
  b_poll : option (M W unit);
  run_tx_done : Z -> Z -> Z -> M W unit;
  run_rx_done : Z -> list Z -> Z -> Z -> Z -> Z -> M W unit;
}.
Class LoraEnvOk `{LoraEnv W} : Prop := {
  lora_of_set s w : lora_of (set_lora s w) = s;
}.

Definition xor_key (settings : rzi_lora_config) (i : nat) (b : Z) : Z :=
  Z.lxor b (Z.lxor (at_ (key settings) (Z.of_nat i mod 16)) (at_ (iv settings) (Z.of_nat i mod 16))).
(** [apply_cipher] on the buffer [data\[0..size)]. *)
Definition apply_cipher (data : list Z) (settings : rzi_lora_config) : list Z :=
  if negb (encrypt settings) then data else imap (xor_key settings) data.
Definition config_in_range (c : rzi_lora_config) : bool :=
  negb ((spreading_factor c <? 5) || (12 <? spreading_factor c) || (tx_power_dbm c <? 5) ||
        (22 <? tx_power_dbm c) || (preamble_length c <? 5) || (3 <? coding_rate c)).

Section lora.
Context {ctx : ExecCtx} `{LoraEnv W}.

Definition put_started v s := LoraState v (l_modulation s) (l_config s) (l_callbacks s) (l_rx_active s).
Definition put_modulation v s := LoraState (l_started s) v (l_config s) (l_callbacks s) (l_rx_active s).
Definition put_config v s := LoraState (l_started s) (l_modulation s) v (l_callbacks s) (l_rx_active s).
Definition put_callbacks v s := LoraState (l_started s) (l_modulation s) (l_config s) v (l_rx_active s).
Definition put_rx_active v s := LoraState (l_started s) (l_modulation s) (l_config s) (l_callbacks s) v.
Definition lget {A} (p : lora_state -> A) : M W A := gets (fun w => p (lora_of w)).
Definition lput (f : lora_state -> lora_state) : M W unit :=
  modify (fun w => set_lora (f (lora_of w)) w).

Definition check_thread : Z := if k_is_in_isr then - RZI_ERR_ISR else 0.

(** *** Results from the backend *)
Definition rzi_lora_publish_tx_done (error : Z) : M W unit :=
  let* cb := lget l_callbacks in
  if negb (tx_done cb =? 0) then run_tx_done (tx_done cb) error (lora_user_data cb) else ret tt.
Definition rzi_lora_publish_rx (data : option (list Z)) (size rssi_dbm snr_quarter_db : Z)
  : M W unit :=
  let copy := if RZI_LORA_MAX_PAYLOAD <? size then RZI_LORA_MAX_PAYLOAD else size in
  match data with
  | None => ret tt
  | Some data =>
      if copy =? 0 then ret tt
      else
        let* c := lget l_config in
        let payload := apply_cipher (take (Z.to_nat copy) data) c in
        let* cb := lget l_callbacks in
        if negb (rx_done cb =? 0)
        then run_rx_done (rx_done cb) payload copy rssi_dbm snr_quarter_db (lora_user_data cb)
        else ret tt
  end.

(** *** Public functions *)
Definition rzi_lora_register_callbacks (table : option rzi_lora_callbacks) : M W Z :=
  if negb (check_thread =? 0) then ret check_thread
  else match table with
  | None => ret (- RZI_ERR_INVALID)
  | Some t => lput (put_callbacks t) ;;; ret 0
  end.

Definition rzi_lora_init (value : Z) : M W Z :=
  if negb (check_thread =? 0) then ret check_thread
  else if negb (value =? RZI_LORA_MOD_LORA) && negb (value =? RZI_LORA_MOD_FSK)
  then ret (- RZI_ERR_INVALID)
  else match b_start with
  | None => ret (- RZI_ERR_NOT_SUPPORTED)
  | Some start =>
      let* rc := start value in
      if rc =? 0 then
        lput (put_modulation value) ;;;
        lput (put_started 1) ;;;
        match b_apply_config with
        | Some apply => let* c := lget l_config in apply c
        | None => ret rc
        end
      else ret rc
  end.

Definition rzi_lora_stop : M W Z :=
  if negb (check_thread =? 0) then ret check_thread
  else
    let* rc := match b_stop with Some stop => stop | None => ret 0 end in
    (if rc =? 0 then lput (put_started 0) ;;; lput (put_rx_active 0) else ret tt) ;;;
    ret rc.

Definition rzi_lora_is_started : M W bool := lget (fun s => negb (l_started s =? 0)).

Definition rzi_lora_get_config (out : option rzi_lora_config)
  : M W (Z * option rzi_lora_config) :=
  if negb (check_thread =? 0) then ret (check_thread, out)
  else match out with
  | None => ret (- RZI_ERR_INVALID, None)
  | Some _ => let* c := lget l_config in ret (0, Some c)
  end.

Definition rzi_lora_set_config (input : option rzi_lora_config) : M W Z :=
  if negb (check_thread =? 0) then ret check_thread
  else match input with
  | None => ret (- RZI_ERR_INVALID)
  | Some c =>
      if negb (config_in_range c) then ret (- RZI_ERR_INVALID)
      else
        lput (put_config c) ;;;
        let* s := lget l_started in
        match b_apply_config with
        | Some apply => if negb (s =? 0) then let* c := lget l_config in apply c else ret 0
        | None => ret 0
        end
  end.

Definition rzi_lora_send (data : option (list Z)) (size : Z) : M W Z :=
  if negb (check_thread =? 0) then ret check_thread
  else match data with
  | None => ret (- RZI_ERR_INVALID)
  | Some data =>
      if size =? 0 then ret (- RZI_ERR_INVALID)
      else if RZI_LORA_MAX_PAYLOAD <? size then ret (- RZI_ERR_TOO_LARGE)
      else
        let* s := lget l_started in
        match b_send with
        | Some send =>
            if s =? 0 then ret (- RZI_ERR_NOT_SUPPORTED)
            else
              let* c := lget l_config in
              send (apply_cipher (take (Z.to_nat size) data) c) size
        | None => ret (- RZI_ERR_NOT_SUPPORTED)
        end
  end.

Definition rzi_lora_receive (timeout_ms : Z) : M W Z :=
  if negb (check_thread =? 0) then ret check_thread
  else
    let* s := lget l_started in
    match b_receive with
    | Some receive =>
        if s =? 0 then ret (- RZI_ERR_NOT_SUPPORTED)
        else
          let* rc := receive timeout_ms in
          (if rc =? 0 then lput (put_rx_active (if timeout_ms =? 0 then 0 else 1)) else ret tt) ;;;
          ret rc
    | None => ret (- RZI_ERR_NOT_SUPPORTED)
    end.
Definition rzi_lora_receive_active : M W bool := lget (fun s => negb (l_rx_active s =? 0)).
Definition rzi_lora_poll : M W unit :=
  match b_poll with Some poll => poll | None => ret tt end.

(** *** Radio tests *)
Definition call_test (fn : option (M W Z)) : M W Z :=
  if negb (check_thread =? 0) then ret check_thread
  else match fn with None => ret (- RZI_ERR_NOT_SUPPORTED) | Some fn => fn end.
Definition rzi_lora_test_rssi : M W Z := call_test b_test_rssi.
Definition rzi_lora_test_get_rssi (rssi_dbm : option Z) : M W (Z * option Z) :=
  if negb (check_thread =? 0) then ret (check_thread, rssi_dbm)
  else match rssi_dbm, b_test_get_rssi with
  | None, _ => ret (- RZI_ERR_INVALID, None)
  | _, None => ret (- RZI_ERR_NOT_SUPPORTED, rssi_dbm)
  | Some old, Some f => let* '(rc, v) := f old in ret (rc, Some v)
  end.
Definition rzi_lora_test_tone : M W Z := call_test b_test_tone.
Definition rzi_lora_test_tx (packet_count : Z) : M W Z :=
  call_test ((fun f => f packet_count) <$> b_test_tx).
Definition rzi_lora_test_rx (packet_count : Z) : M W Z :=
  call_test ((fun f => f packet_count) <$> b_test_rx).
Definition rzi_lora_test_cw (frequency power duration_ms : Z) : M W Z :=
  call_test ((fun f => f frequency power duration_ms) <$> b_test_cw).
Definition rzi_lora_test_stop : M W Z := call_test b_test_stop.
End lora.

(** ** The service as a transition system *)
Section clients.
Context {ctx : ExecCtx} `{LoraEnvOk W}.

(** The effects the service has on its own state: every assignment of lora.c. *)
Inductive lora_step (s : lora_state) : lora_state -> Prop :=
| lora_registers t : lora_step s (put_callbacks t s)
| lora_configures c : config_in_range c = true -> lora_step s (put_config c s)
| lora_modulates m : m = RZI_LORA_MOD_LORA \/ m = RZI_LORA_MOD_FSK -> lora_step s (put_modulation m s)
| lora_starts v : v = 0 \/ v = 1 -> lora_step s (put_started v s)
| lora_receives v : v = 0 \/ v = 1 -> lora_step s (put_rx_active v s).
(** A call of code outside: any effect on its own state, and these on the service. *)
Definition lora_moves (w w' : W) : Prop := rtc lora_step (lora_of w) (lora_of w').
#[local] Instance lora_moves_preorder : PreOrder lora_moves.
Proof. split; [intros w; apply rtc_refl|intros ? ? ?; unfold lora_moves; apply transitivity]. Qed.
Abbreviation client m := (respects lora_moves m).

(** The interface of the backend and the callbacks: they act on the service
    through its functions, that is by such effects only. *)
Class LoraClients : Prop := {
  hooks_client : (forall f e u, client (run_tx_done f e u)) /\
    (forall f d n r q u, client (run_rx_done f d n r q u));
  start_client f v : b_start = Some f -> client (f v);
  stop_client f : b_stop = Some f -> client f;
  apply_client f c : b_apply_config = Some f -> client (f c);
  send_client f d n : b_send = Some f -> client (f d n);
  receive_client f t : b_receive = Some f -> client (f t);
  poll_client f : b_poll = Some f -> client f;
  test_client : (forall f, b_test_rssi = Some f -> client f) /\
    (forall f v, b_test_get_rssi = Some f -> client (f v)) /\
    (forall f, b_test_tone = Some f -> client f) /\
    (forall f n, b_test_tx = Some f -> client (f n)) /\
    (forall f n, b_test_rx = Some f -> client (f n)) /\
    (forall f h p d, b_test_cw = Some f -> client (f h p d)) /\
    (forall f, b_test_stop = Some f -> client f);
}.

(** Every function of lora.h and lora_backend.h with its arguments. *)
Inductive lora_call : Type :=
| LRegister (t : option rzi_lora_callbacks) | LInit (m : Z) | LStop | LIsStarted
| LGetConfig (out : option rzi_lora_config) | LSetConfig (c : option rzi_lora_config)
| LSend (d : option (list Z)) (n : Z) | LReceive (t : Z) | LReceiveActive | LPoll
| LTestRssi | LTestGetRssi (out : option Z) | LTestTone | LTestTx (n : Z) | LTestRx (n : Z)
| LTestCw (f p d : Z) | LTestStop
| LPublishTxDone (e : Z) | LPublishRx (d : option (list Z)) (n r q : Z).
Definition run_lora (c : lora_call) : M W unit :=
  match c with
  | LRegister t => rzi_lora_register_callbacks t ;;; ret tt
  | LInit m => rzi_lora_init m ;;; ret tt
  | LStop => rzi_lora_stop ;;; ret tt
  | LIsStarted => rzi_lora_is_started ;;; ret tt
  | LGetConfig o => rzi_lora_get_config o ;;; ret tt
  | LSetConfig c => rzi_lora_set_config c ;;; ret tt
  | LSend d n => rzi_lora_send d n ;;; ret tt
  | LReceive t => rzi_lora_receive t ;;; ret tt
  | LReceiveActive => rzi_lora_receive_active ;;; ret tt
  | LPoll => rzi_lora_poll
  | LTestRssi => rzi_lora_test_rssi ;;; ret tt
  | LTestGetRssi o => rzi_lora_test_get_rssi o ;;; ret tt
  | LTestTone => rzi_lora_test_tone ;;; ret tt
  | LTestTx n => rzi_lora_test_tx n ;;; ret tt
  | LTestRx n => rzi_lora_test_rx n ;;; ret tt
  | LTestCw f p d => rzi_lora_test_cw f p d ;;; ret tt
  | LTestStop => rzi_lora_test_stop ;;; ret tt
  | LPublishTxDone e => rzi_lora_publish_tx_done e
  | LPublishRx d n r q => rzi_lora_publish_rx d n r q
  end.

(** The configuration is always one the radio may be given, and the flags and
    the modulation are values of their types. *)
Definition lora_inv (s : lora_state) : Prop :=
  config_in_range (l_config s) = true /\ (l_started s = 0 \/ l_started s = 1) /\
  (l_rx_active s = 0 \/ l_rx_active s = 1) /\
  (l_modulation s = RZI_LORA_MOD_LORA \/ l_modulation s = RZI_LORA_MOD_FSK).
Lemma step_inv s s' : lora_step s s' -> lora_inv s -> lora_inv s'.
Proof. intros Hs (?&?&?&?). destruct Hs; by split_and!. Qed.

Section with_clients.
Context `{!LoraClients}.
Lemma lput_client f : (forall s, lora_step s (f s)) -> client (lput f).
Proof. intros Hf w. unfold lora_moves. cbn. rewrite lora_of_set. apply rtc_once, Hf. Qed.
Lemma test_call fn : (forall f, fn = Some f -> client f) -> client (call_test fn).
Proof. intros Hf. unfold call_test. destruct (negb _); [frame|]. destruct fn; [by apply Hf|frame]. Qed.

(** Every public function and every report of the backend is a client of the
    service: so callbacks may call any of them, at any depth. *)
Lemma lora_calls_are_clients c : client (run_lora c).
Proof.
  destruct hooks_client as [Htx Hrx]. destruct test_client as (?&?&?&?&?&?&?).
  destruct c; cbn [run_lora];
    unfold rzi_lora_register_callbacks, rzi_lora_init, rzi_lora_stop, rzi_lora_is_started,
      rzi_lora_get_config, rzi_lora_set_config, rzi_lora_send, rzi_lora_receive, rzi_lora_receive_active,
      rzi_lora_poll, rzi_lora_test_rssi, rzi_lora_test_get_rssi, rzi_lora_test_tone, rzi_lora_test_tx,
      rzi_lora_test_rx, rzi_lora_test_cw, rzi_lora_test_stop, rzi_lora_publish_tx_done, rzi_lora_publish_rx.
  all: repeat match goal with
    | |- client (match ?x with Some _ => _ | None => _ end) => destruct x eqn:?
    | |- client (if ?x then _ else _) => destruct x eqn:?
    | |- client (bind _ _) => apply respects_bind; [apply _| |intros ?]
    | |- client (ret _) => apply respects_ret; apply _
    | |- client (gets _) => apply respects_gets; apply _
    | |- client (call_test _) => apply test_call; intros ?f Hf; first [apply fmap_Some in Hf as (?&?&->)|idtac]
    | |- client (let '(_, _) := ?x in _) => destruct x
    | |- client (lget _) => apply respects_gets; apply _
    | |- client (lput _) => apply lput_client; intros ?; constructor; try done
    end; eauto using start_client, stop_client, apply_client, send_client, receive_client, poll_client.
  - destruct (Z.eqb_spec m 0), (Z.eqb_spec m 1); auto; done.
  - by apply negb_false_iff.
  - destruct (t =? 0); auto.
Qed.

(** Whatever calls the application, its callbacks and the backend interleave, the stored
    configuration stays in the documented ranges, so that is all the backend is ever asked to
    apply, and the flags stay flags. *)
Theorem lora_invariant w w' :
  lora_inv (lora_of w) -> rtc (fun w w' => lora_moves w w' \/ exists c, w' = (run_lora c w).2) w w' ->
  lora_inv (lora_of w').
Proof.
  assert (Hm : forall v v', lora_moves v v' -> lora_inv (lora_of v) -> lora_inv (lora_of v')).
  { intros v v' Hr. unfold lora_moves in Hr. induction Hr; eauto using step_inv. }
  intros Hinv Hr. induction Hr as [|w w1 w2 [Hs|[c ->]] _ IH]; [done| |]; apply IH.
  - by eapply Hm.
  - eapply Hm; [|done]. apply lora_calls_are_clients.
Qed.
End with_clients.
End clients.

(** ** Functional behaviour *)
Section lora_functional.
Context {ctx : ExecCtx} `{LoraEnvOk W}.

Lemma length_cipher data c : length (apply_cipher data c) = length data.
Proof. unfold apply_cipher. destruct (negb _); [done|apply length_imap]. Qed.
(** The cipher is its own inverse under the same key and IV. *)
Lemma cipher_involutive data c c' :
  encrypt c' = encrypt c -> key c' = key c -> iv c' = iv c ->
  apply_cipher (apply_cipher data c) c' = data.
Proof.
  intros He Hk Hi. unfold apply_cipher. rewrite He. destruct (encrypt c); [|done]. cbn [negb].
  apply list_eq. intros i. rewrite !list_lookup_imap.
  destruct (data !! i) as [b|]; [|done]. cbn [fmap option_fmap option_map]. f_equal.
  unfold xor_key. rewrite Hk, Hi, Z.lxor_assoc, Z.lxor_nilpotent. apply Z.lxor_0_r.
Qed.

(** Two radios that share encryption flag, key and IV: what one hands to its backend, the other
    delivers to its subscriber as the original payload, whatever the payload and the rest of the
    configurations. *)
Theorem lora_payload_roundtrip w v data size send rssi snr :
  k_is_in_isr = false -> l_started (lora_of w) <> 0 -> b_send = Some send ->
  zlen data = size -> 1 <= size <= RZI_LORA_MAX_PAYLOAD ->
  let here := l_config (lora_of w) in
  let there := l_config (lora_of v) in
  encrypt there = encrypt here -> key there = key here -> iv there = iv here ->
  rx_done (l_callbacks (lora_of v)) <> 0 ->
  exists framed, zlen framed = size /\
    rzi_lora_send (Some data) size w = send framed size w /\
    rzi_lora_publish_rx (Some framed) size rssi snr v =
      run_rx_done (rx_done (l_callbacks (lora_of v))) data size rssi snr
        (lora_user_data (l_callbacks (lora_of v))) v.
Proof.
  intros Hisr Hst Hsend Hlen Hsize here there He Hk Hi Hrx.
  assert (Htake : forall l : list Z, zlen l = size -> take (Z.to_nat size) l = l).
  { intros l Hl. apply take_ge. unfold zlen in Hl. lia. }
  exists (apply_cipher data here). split_and!.
  - unfold zlen. by rewrite length_cipher.
  - unfold rzi_lora_send, check_thread. rewrite Hisr. cbn [Z.eqb negb].
    destruct (Z.eqb_spec size 0); [lia|]. destruct (Z.ltb_spec 255 size); [lia|].
    unfold bind, lget, gets. rewrite Hsend. destruct (Z.eqb_spec (l_started (lora_of w)) 0); [done|].
    by rewrite Htake.
  - unfold rzi_lora_publish_rx. destruct (Z.ltb_spec 255 size); [lia|].
    destruct (Z.eqb_spec size 0); [lia|]. unfold bind, lget, gets.
    rewrite Htake by (unfold zlen; by rewrite length_cipher).
    fold there. rewrite (cipher_involutive data here there) by done.
    by destruct (Z.eqb_spec (rx_done (l_callbacks (lora_of v))) 0).
Qed.

(** Starting the radio.  A modulation the service does not know and a backend without a start
    operation are refused without effect; a backend that fails to start leaves the service as it
    was; and once the backend has started, the service counts as started whatever becomes of the
    configuration: a rejected one is reported to the caller of a service that stays up. *)
Theorem lora_init_outcomes m w :
  k_is_in_isr = false ->
  (m <> RZI_LORA_MOD_LORA -> m <> RZI_LORA_MOD_FSK -> rzi_lora_init m w = (- RZI_ERR_INVALID, w)) /\
  (m = RZI_LORA_MOD_LORA \/ m = RZI_LORA_MOD_FSK ->
    (b_start = None -> rzi_lora_init m w = (- RZI_ERR_NOT_SUPPORTED, w)) /\
    forall start rc w1, b_start = Some start -> start m w = (rc, w1) ->
      (rc <> 0 -> rzi_lora_init m w = (rc, w1)) /\
      (rc = 0 -> exists w2, lora_of w2 = put_started 1 (put_modulation m (lora_of w1)) /\
         (b_apply_config = None -> rzi_lora_init m w = (0, w2)) /\
         forall apply, b_apply_config = Some apply ->
           rzi_lora_init m w = apply (l_config (lora_of w1)) w2 /\
           (keeps (fun v => l_started (lora_of v)) (apply (l_config (lora_of w1))) ->
            l_started (lora_of (rzi_lora_init m w).2) = 1))).
Proof.
  intros Hisr. unfold rzi_lora_init, check_thread. rewrite Hisr. cbn [Z.eqb negb].
  split; [by intros; destruct (Z.eqb_spec m 0), (Z.eqb_spec m 1)|].
  intros Hm. assert (negb (m =? 0) && negb (m =? 1) = false) as -> by (by destruct Hm as [-> | ->]).
  split; [by intros ->|]. intros start rc w1 -> Hs. unfold bind. rewrite Hs.
  split; intros Hrc; [by destruct (Z.eqb_spec rc 0)|]. subst rc. cbn [Z.eqb]. unfold lput, lget, gets, modify, ret.
  set (w2 := set_lora (put_started 1 (lora_of (set_lora (put_modulation m (lora_of w1)) w1)))
               (set_lora (put_modulation m (lora_of w1)) w1)).
  exists w2. assert (Hw2 : lora_of w2 = put_started 1 (put_modulation m (lora_of w1))).
  { unfold w2. by rewrite !lora_of_set. }
  split_and!; [done|by intros ->|]. intros apply ->. split; [by rewrite Hw2|]. intros Hk.
  rewrite Hw2. cbn [l_config put_started put_modulation]. rewrite (Hk w2). by rewrite Hw2.
Qed.

(** Stopping closes the service: when the backend has stopped (or has nothing to stop), both
    flags are down, and from then on sending and receiving are refused without touching anything,
    until the next start. *)
Theorem lora_stop_closes w :
  k_is_in_isr = false ->
  (b_stop = None -> (rzi_lora_stop w).1 = 0) /\
  ((rzi_lora_stop w).1 = 0 ->
    let w' := (rzi_lora_stop w).2 in
    rzi_lora_is_started w' = (false, w') /\ rzi_lora_receive_active w' = (false, w') /\
    (forall timeout, rzi_lora_receive timeout w' = (- RZI_ERR_NOT_SUPPORTED, w')) /\
    (forall data size, 1 <= size <= RZI_LORA_MAX_PAYLOAD ->
       rzi_lora_send (Some data) size w' = (- RZI_ERR_NOT_SUPPORTED, w'))).
Proof.
  intros Hisr. destruct (rzi_lora_stop w) as [rc w'] eqn:E. cbn [fst snd]. revert E.
  unfold rzi_lora_stop, rzi_lora_receive, rzi_lora_send, check_thread. rewrite Hisr. cbn [Z.eqb negb].
  unfold bind. destruct (match b_stop with Some s => s | None => ret 0 end w) as [rc1 w1] eqn:Es.
  destruct (Z.eqb_spec rc1 0) as [->|Hne]; intros [= <- <-].
  2:{ split; [|done]. intros Hn. rewrite Hn in Es. by injection Es as <- <-. }
  split; [done|]. intros _. unfold lput, modify, rzi_lora_is_started, rzi_lora_receive_active, lget, gets.
  cbn [ret snd]. rewrite !lora_of_set. cbn. split_and!; [done|done|by destruct b_receive; rewrite ?lora_of_set|].
  intros data size Hs. destruct (Z.eqb_spec size 0); [lia|]. destruct (Z.ltb_spec 255 size); [lia|].
  destruct b_send; [by rewrite !lora_of_set|done].
Qed.
End lora_functional.

Module LoraWitness.
Export Instances.
(** A radio that logs what it transmits, and an application that logs what it receives. *)
Record air : Type := Air { air_vars : lora_state; air_sent : list (list Z); air_got : list (list Z) }.
#[export] Instance air_lora : LoraEnv air | 10 := {|
  lora_of := air_vars; set_lora s w := Air s (air_sent w) (air_got w);
  b_start := Some (fun _ => ret 0);
  b_stop := None;
  b_apply_config := Some (fun _ => ret (- RZI_ERR_NOT_SUPPORTED));
  b_send := Some (fun d _ w => (0, Air (air_vars w) (air_sent w ++ [d]) (air_got w)));
  b_receive := Some (fun _ => ret 0);
  b_test_rssi := None; b_test_get_rssi := None; b_test_tone := None; b_test_tx := None;
  b_test_rx := None; b_test_cw := None; b_test_stop := None; b_poll := None;
  run_tx_done _ _ _ := ret tt;
  run_rx_done _ d _ _ _ _ w := (tt, Air (air_vars w) (air_sent w) (air_got w ++ [d]));
|}.
#[export] Instance air_lora_ok : LoraEnvOk.
Proof. by split. Qed.
#[export] Instance air_clients : LoraClients.
Proof.
  split; try (intros; repeat match goal with H : _ = Some _ |- _ => injection H as <- || discriminate H end;
    intros w; apply rtc_refl).
  - split; intros; intros w; apply rtc_refl.
  - split_and!; intros; discriminate.
Qed.
Definition secret (sf : Z) : rzi_lora_config :=
  LoraConfig 868000000 sf 0 0 8 14 0x3444 false true (replicate 16 0x5a) (0xff :: replicate 15 1)
    false false 49152 5000 0.
Definition radio (sf : Z) : air := Air (LoraState 1 0 (secret sf) (LoraCallbacks 0 7 3) 0) [] [].

Lemma lora_payload_roundtrip_witness : exists framed,
  zlen framed = 3 /\
  rzi_lora_send (Some [1; 2; 3]) 3 (radio 7) = (0, Air (air_vars (radio 7)) [framed] []) /\
  rzi_lora_publish_rx (Some framed) 3 (-80) 20 (radio 9) = (tt, Air (air_vars (radio 9)) [] [[1; 2; 3]]).
Proof.
  refine (lora_payload_roundtrip (radio 7) (radio 9) [1; 2; 3] 3 _ (-80) 20 eq_refl _ eq_refl eq_refl _
    eq_refl eq_refl eq_refl _); [done|lia|done].
Defined.
Lemma lora_init_outcomes_witness : l_started (lora_of (rzi_lora_init 0 (radio 7)).2) = 1.
Proof.
  refine (match proj2 (proj2 (lora_init_outcomes 0 (radio 7) eq_refl) (or_introl eq_refl)) _ _ _ eq_refl eq_refl with
          | conj _ Hz => match Hz eq_refl with
                         | ex_intro _ w2 Hw => proj2 (proj2 (proj2 Hw) _ eq_refl) _
                         end
          end).
  by intros w.
Defined.
Lemma lora_stop_closes_witness : rzi_lora_is_started (rzi_lora_stop (radio 7)).2 = (false, (rzi_lora_stop (radio 7)).2).
Proof. exact (proj1 (proj2 (lora_stop_closes (radio 7) eq_refl) eq_refl)). Defined.
Lemma lora_invariant_witness : lora_inv (lora_of (run_lora (LSetConfig (Some (secret 12))) (radio 7)).2).
Proof.
  refine (lora_invariant (radio 7) _ _ _); [by repeat split; [right|left|left]|].
  apply rtc_once. right. by eexists.
Defined.
End LoraWitness.
