(* ===== verification/CString.v ===== *)
(** * The C string functions the AT service uses

    [strtol], [strtoul], [strchr], [strpbrk], ASCII case folding and the
    decimal conversions of printf on NUL-free character strings, with the
    lemmas that relate printing and scanning.  The width of [long] is that of
    the target and a parameter. *)
From S2P Require Import Prelude.

(** [LONG_MAX]; two's complement gives the other limits. *)
Class CLong : Type := { LONG_MAX : Z }.
Class CLongOk `{CLong} : Prop := { long_max_range : 2147483647 <= LONG_MAX }.
Definition LONG_MIN `{CLong} : Z := - LONG_MAX - 1.
Definition ULONG_MAX `{CLong} : Z := 2 * LONG_MAX + 1.

Definition code (c : ascii) : Z := Z.of_N (N_of_ascii c).
Definition char (z : Z) : ascii := ascii_of_N (Z.to_N z).
(** The characters of a string, and the string in a buffer: up to the first
    NUL. *)
Fixpoint codes (s : string) : list Z :=
  match s with "" => [] | String c s => code c :: codes s end%string.
Fixpoint c_string (bytes : list Z) : string :=
  match bytes with
  | [] => ""
  | b :: bytes => if (b =? 0)%Z then "" else String (char b) (c_string bytes)
  end%string.
Definition crlf : string := String (char 13) (String (char 10) "").

Definition is_digit (c : ascii) : bool := (48 <=? code c) && (code c <=? 57).
Definition is_space (c : ascii) : bool := ((9 <=? code c) && (code c <=? 13)) || (code c =? 32).
Definition is_upper (c : ascii) : bool := (65 <=? code c) && (code c <=? 90).
Definition is_lower (c : ascii) : bool := (97 <=? code c) && (code c <=? 122).
Definition upper (c : ascii) : ascii := if is_lower c then char (code c - 32) else c.

Fixpoint string_map (f : ascii -> ascii) (s : string) : string :=
  match s with "" => "" | String c s' => String (f c) (string_map f s') end%string.
Fixpoint string_forall (p : ascii -> bool) (s : string) : bool :=
  match s with "" => true | String c s' => p c && string_forall p s' end%string.

(** *** Searching *)
(** [strchr]: the text before the first occurrence and the text after it. *)
Fixpoint split_at (p : ascii -> bool) (s : string) : option (string * ascii * string) :=
  match s with
  | ""%string => None
  | String c s' =>
      if p c then Some (""%string, c, s')
      else match split_at p s' with
           | None => None
           | Some (before, d, after) => Some (String c before, d, after)
           end
  end.
Definition strchr (c : ascii) (s : string) : option (string * string) :=
  match split_at (Ascii.eqb c) s with Some (a, _, b) => Some (a, b) | None => None end.

(** *** Scanning numbers *)
Fixpoint skip_spaces (s : string) : string :=
  match s with
  | String c s' => if is_space c then skip_spaces s' else s
  | ""%string => s
  end.
Fixpoint scan_digits (v : Z) (s : string) : Z * string :=
  match s with
  | String c s' => if is_digit c then scan_digits (10 * v + (code c - 48)) s' else (v, s)
  | ""%string => (v, s)
  end.
(** White space, sign and digits of a subject sequence: negative, magnitude,
    and the rest; [None] when there are no digits. *)
Definition scan_number (s : string) : option (bool * Z * string) :=
  let s := skip_spaces s in
  let '(negative, s) :=
    match s with
    | String c s' => if Ascii.eqb c "-" then (true, s') else if Ascii.eqb c "+" then (false, s') else (false, s)
    | ""%string => (false, s)
    end in
  match s with
  | String c _ => if is_digit c then let (v, rest) := scan_digits 0 s in Some (negative, v, rest) else None
  | ""%string => None
  end.
(** [strtol(s, &end, 10)]: the value and [end]; [None] stands for [end == s]
    (and the value 0). *)
Definition strtol `{CLong} (s : string) : option (Z * string) :=
  match scan_number s with
  | None => None
  | Some (negative, v, rest) =>
      Some (Z.max LONG_MIN (Z.min LONG_MAX (if negative then - v else v)), rest)
  end.
(** [strtoul(s, &end, 10)]: a minus sign negates in the unsigned type. *)
Definition strtoul `{CLong} (s : string) : option (Z * string) :=
  match scan_number s with
  | None => None
  | Some (negative, v, rest) =>
      Some (if ULONG_MAX <? v then ULONG_MAX
            else if negative then (- v) mod (ULONG_MAX + 1) else v, rest)
  end.

(** [strtoul(s, &end, 16)]: an optional 0x before the digits. *)
Definition hex_value (c : ascii) : option Z :=
  if is_digit c then Some (code c - 48)
  else if (65 <=? code c) && (code c <=? 70) then Some (code c - 55)
  else if (97 <=? code c) && (code c <=? 102) then Some (code c - 87)
  else None.
Definition is_hex (c : ascii) : bool := match hex_value c with Some _ => true | None => false end.
Fixpoint scan_hex_digits (v : Z) (s : string) : Z * string :=
  match s with
  | String c s' => match hex_value c with Some d => scan_hex_digits (16 * v + d) s' | None => (v, s) end
  | ""%string => (v, s)
  end.
Definition skip_0x (s : string) : string :=
  match s with
  | String z (String x (String c _ as digits)) =>
      if Ascii.eqb z "0" && (Ascii.eqb x "x" || Ascii.eqb x "X") && is_hex c then digits else s
  | _ => s
  end.
Definition strtoul16 `{CLong} (s : string) : option (Z * string) :=
  let s := skip_spaces s in
  let '(negative, s) :=
    match s with
    | String c s' => if Ascii.eqb c "-" then (true, s') else if Ascii.eqb c "+" then (false, s') else (false, s)
    | ""%string => (false, s)
    end in
  match skip_0x s with
  | String c _ as s =>
      if is_hex c then
        let (v, rest) := scan_hex_digits 0 s in
        Some (if ULONG_MAX <? v then ULONG_MAX
              else if negative : bool then (- v) mod (ULONG_MAX + 1) else v, rest)
      else None
  | ""%string => None
  end.
(** Of [sscanf]: a literal colon, and a run of at most [n] hexadecimal digits,
    one at least. *)
Definition scan_colon (s : string) : option string :=
  match s with String c s' => if Ascii.eqb c ":" then Some s' else None | ""%string => None end.
Fixpoint hex_run (n : nat) (s : string) : string * string :=
  match n, s with
  | S n, String c s' => if is_hex c then let (a, b) := hex_run n s' in (String c a, b) else (""%string, s)
  | _, _ => (""%string, s)
  end.
Definition scan_hex_run (n : nat) (s : string) : option (string * string) :=
  match hex_run n s with (""%string, _) => None | r => Some r end.

(** *** Printing numbers *)
Definition digit (d : Z) : ascii := char (48 + d).
Fixpoint show_digits (fuel : nat) (n : Z) (acc : string) : string :=
  match fuel with
  | O => acc
  | S fuel =>
      let acc := String (digit (n mod 10)) acc in
      if n <? 10 then acc else show_digits fuel (n / 10) acc
  end.
(** [%u]; one digit per bit is enough fuel. *)
Definition show_u (n : Z) : string := show_digits (S (Z.to_nat (Z.log2 n))) n "".
(** [%d] *)
Definition show_d (n : Z) : string :=
  if n <? 0 then String "-" (show_u (- n)) else show_u n.
(** [%02X] *)
Definition hex_digit (n : Z) : ascii := if n <? 10 then char (48 + n) else char (55 + n).
Definition show_hex2 (b : Z) : string :=
  String (hex_digit (Z.shiftr b 4)) (String (hex_digit (Z.land b 15)) "").

(** ** Facts *)
Lemma string_app_cons c s t : (String c s ++ t)%string = String c (s ++ t).
Proof. done. Qed.
Lemma string_app_nil_r s : (s ++ "")%string = s.
Proof. induction s as [|c s IH]; [done|]. change (String c (s ++ "") = String c s). by rewrite IH. Qed.
Lemma string_app_assoc s t u : (s ++ (t ++ u))%string = ((s ++ t) ++ u)%string.
Proof. induction s as [|c s IH]; [done|]. change (String c (s ++ (t ++ u)) = String c ((s ++ t) ++ u)). by rewrite IH. Qed.
Lemma zstrlen_app s t : zstrlen (s ++ t) = zstrlen s + zstrlen t.
Proof. unfold zstrlen. induction s as [|c s IH]; [done|]. change (Z.of_nat (S (String.length (s ++ t))) = Z.of_nat (S (String.length s)) + Z.of_nat (String.length t)). lia. Qed.
Lemma zstrlen_nonneg s : 0 <= zstrlen s.
Proof. unfold zstrlen. lia. Qed.
Lemma string_forall_app p s t : string_forall p (s ++ t) = string_forall p s && string_forall p t.
Proof. induction s as [|c s IH]; [done|]. rewrite string_app_cons. cbn [string_forall]. rewrite IH. by destruct (p c). Qed.
Lemma string_forall_impl (p q : ascii -> bool) s :
  (forall c, p c = true -> q c = true) -> string_forall p s = true -> string_forall q s = true.
Proof.
  intros Hpq. induction s as [|c s IH]; cbn; [done|]. rewrite !andb_true_iff. intros [? ?]. auto.
Qed.
Lemma split_at_app p s c t : string_forall (fun d => negb (p d)) s = true -> p c = true ->
  split_at p (s ++ String c t) = Some (s, c, t).
Proof.
  induction s as [|d s IH]; [intros _ Hc; change (split_at p (String c t) = Some (""%string, c, t)); cbn [split_at]; by rewrite Hc|]. rewrite string_app_cons. cbn [string_forall split_at].
  rewrite andb_true_iff. intros [Hd Hs] Hc.
  apply negb_true_iff in Hd. by rewrite Hd, IH.
Qed.
Lemma split_at_Some p s a c b : split_at p s = Some (a, c, b) ->
  s = (a ++ String c b)%string /\ p c = true /\ string_forall (fun d => negb (p d)) a = true.
Proof.
  revert a. induction s as [|d s IH]; intros a; cbn [split_at]; [done|]. destruct (p d) eqn:E.
  - intros [= <- <- <-]. done.
  - destruct (split_at p s) as [[[a' c'] b']|]; [|done]. intros [= <- <- <-].
    destruct (IH a' eq_refl) as (-> & Hc & Ha). split; [done|]. split; [done|]. cbn [string_forall]. by rewrite E, Ha.
Qed.
Lemma strchr_split c s a b : strchr c s = Some (a, b) ->
  s = (a ++ String c b)%string /\ string_forall (fun d => negb (Ascii.eqb c d)) a = true.
Proof.
  unfold strchr. destruct (split_at (Ascii.eqb c) s) as [[[a' c'] b']|] eqn:E; [|done]. intros [= <- <-].
  apply split_at_Some in E as (-> & Hc & Ha). apply Ascii.eqb_eq in Hc as <-. done.
Qed.
Lemma split_at_none p s : string_forall (fun d => negb (p d)) s = true -> split_at p s = None.
Proof.
  induction s as [|d s IH]; cbn; [done|]. rewrite andb_true_iff. intros [Hd Hs].
  apply negb_true_iff in Hd. by rewrite Hd, IH.
Qed.

Lemma code_char z : 0 <= z < 256 -> code (char z) = z.
Proof. intros Hz. unfold code, char. rewrite N_ascii_embedding; lia. Qed.
Lemma char_code c : char (code c) = c.
Proof. unfold char, code. rewrite N2Z.id. apply ascii_N_embedding. Qed.
Lemma code_range c : 0 <= code c < 256.
Proof. unfold code. pose proof (N_ascii_bounded c). lia. Qed.
Lemma code_digit d : 0 <= d < 10 -> code (digit d) = 48 + d.
Proof. intros. apply code_char. lia. Qed.
Lemma is_digit_digit d : 0 <= d < 10 -> is_digit (digit d) = true.
Proof. intros. unfold is_digit. rewrite code_digit by done. apply andb_true_iff. lia. Qed.

(** Scanning what was printed: the digits are consumed up to the value. *)
Lemma scan_show_digits fuel : forall n acc v,
  0 <= n < 10 ^ Z.of_nat fuel -> exists k, 0 <= k /\ scan_digits v (show_digits fuel n acc) = scan_digits (v * 10 ^ k + n) acc.
Proof.
  induction fuel as [|fuel IH]; intros n acc v Hn.
  - change (10 ^ Z.of_nat 0) with 1 in Hn. exists 0. cbn [show_digits]. split; [done|]. f_equal. lia.
  - cbn [show_digits]. rewrite Nat2Z.inj_succ, Z.pow_succ_r in Hn by lia.
    pose proof (Z.mod_pos_bound n 10 ltac:(lia)) as Hm. pose proof (Z.div_mod n 10 ltac:(lia)) as Hdm.
    assert (Hstep : forall u, scan_digits u (String (digit (n mod 10)) acc) = scan_digits (10 * u + n mod 10) acc).
    { intros u. cbn [scan_digits]. rewrite is_digit_digit, code_digit by done. f_equal. lia. }
    destruct (Z.ltb_spec n 10).
    + exists 1. rewrite Hstep. split; [done|]. f_equal. assert (n / 10 = 0) by (apply Z.div_small; lia). lia.
    + destruct (IH (n / 10) (String (digit (n mod 10)) acc) v) as (k & Hk & ->).
      { split; [apply Z.div_pos; lia|]. apply Z.div_lt_upper_bound; lia. }
      exists (k + 1). rewrite Hstep. split; [lia|]. f_equal.
      rewrite Z.pow_add_r by lia. change (10 ^ 1) with 10. nia.
Qed.
Lemma show_u_fuel n : 0 <= n -> 0 <= n < 10 ^ Z.of_nat (S (Z.to_nat (Z.log2 n))).
Proof.
  intros Hn. split; [done|]. rewrite Nat2Z.inj_succ, Z2Nat.id by apply Z.log2_nonneg.
  destruct (Z.eq_dec n 0) as [->|]; [done|]. destruct (Z.log2_spec n ltac:(lia)) as [_ Hlog].
  eapply Z.lt_le_trans; [exact Hlog|]. apply Z.pow_le_mono_l. lia.
Qed.
Lemma show_digits_app fuel : forall n acc, show_digits fuel n acc = (show_digits fuel n "" ++ acc)%string.
Proof.
  induction fuel as [|fuel IH]; intros n acc; cbn [show_digits]; [done|].
  destruct (n <? 10); [done|]. rewrite IH, (IH _ (String _ "")), <- string_app_assoc. done.
Qed.
Lemma scan_show_u n rest : 0 <= n -> scan_digits 0 (show_u n ++ rest) = scan_digits n rest.
Proof.
  intros Hn. unfold show_u. rewrite <- show_digits_app.
  destruct (scan_show_digits _ n rest 0 (show_u_fuel n Hn)) as (k & _ & ->). done.
Qed.
Lemma show_digits_head fuel : forall n acc, 0 <= n < 10 ^ Z.of_nat fuel -> (0 < fuel)%nat ->
  exists d s, show_digits fuel n acc = String (digit d) s /\ 0 <= d < 10.
Proof.
  induction fuel as [|fuel IH]; intros n acc Hn Hf; [lia|]. cbn [show_digits].
  pose proof (Z.mod_pos_bound n 10 ltac:(lia)). destruct (Z.ltb_spec n 10); [by eexists _, _|].
  rewrite Nat2Z.inj_succ, Z.pow_succ_r in Hn by lia. apply IH.
  - split; [apply Z.div_pos; lia|]. apply Z.div_lt_upper_bound; lia.
  - destruct fuel; [|lia]. change (10 ^ Z.of_nat 0) with 1 in Hn. lia.
Qed.
Lemma show_u_head n : 0 <= n -> exists d s, show_u n = String (digit d) s /\ 0 <= d < 10.
Proof. intros Hn. apply show_digits_head; [by apply show_u_fuel|lia]. Qed.
Lemma show_digits_all fuel : forall n acc, 0 <= n ->
  string_forall is_digit acc = true -> string_forall is_digit (show_digits fuel n acc) = true.
Proof.
  induction fuel as [|fuel IH]; intros n acc Hn Hacc; cbn [show_digits]; [done|].
  assert (Hd : string_forall is_digit (String (digit (n mod 10)) acc) = true).
  { cbn. rewrite is_digit_digit by (apply Z.mod_pos_bound; lia). done. }
  destruct (n <? 10); [done|]. apply IH; [|done]. apply Z.div_pos; lia.
Qed.
Lemma show_u_digits n : 0 <= n -> string_forall is_digit (show_u n) = true.
Proof. intros. by apply show_digits_all. Qed.

(** The text that follows a number does not continue it. *)
Definition no_digit_first (s : string) : bool :=
  match s with String c _ => negb (is_digit c) | ""%string => true end.
Lemma scan_digits_stop v s : no_digit_first s = true -> scan_digits v s = (v, s).
Proof. destruct s as [|c s]; [done|]. cbn. intros Hc. apply negb_true_iff in Hc. by rewrite Hc. Qed.

Lemma digit_plain d : 0 <= d < 10 ->
  is_space (digit d) = false /\ Ascii.eqb (digit d) "-" = false /\ Ascii.eqb (digit d) "+" = false.
Proof.
  intros Hd. unfold is_space. rewrite code_digit by done. split; [apply orb_false_iff; split;
    [apply andb_false_iff; right|]; lia|].
  split; apply Ascii.eqb_neq; intros Heq; apply (f_equal code) in Heq; rewrite code_digit in Heq by done;
    change (code "-") with 45 in Heq || change (code "+") with 43 in Heq; lia.
Qed.
Lemma scan_number_show_u n rest : 0 <= n -> no_digit_first rest = true ->
  scan_number (show_u n ++ rest) = Some (false, n, rest).
Proof.
  intros Hn Hrest. pose proof (scan_show_u n rest Hn) as Hs. rewrite (scan_digits_stop n rest) in Hs by done.
  destruct (show_u_head n Hn) as (d & s & Eq & Hd). rewrite Eq in *. rewrite ?string_app_cons in *.
  destruct (digit_plain d Hd) as (Hsp & Hm & Hp). unfold scan_number. cbn [skip_spaces].
  rewrite Hsp, Hm, Hp, is_digit_digit by done. by rewrite Hs.
Qed.
Lemma scan_number_show_d n rest : no_digit_first rest = true ->
  scan_number (show_d n ++ rest) = Some (n <? 0, Z.abs n, rest).
Proof.
  intros Hrest. unfold show_d. destruct (Z.ltb_spec n 0).
  - pose proof (scan_show_u (- n) rest ltac:(lia)) as Hs. rewrite (scan_digits_stop (- n) rest) in Hs by done.
    destruct (show_u_head (- n) ltac:(lia)) as (d & s & Eq & Hd). rewrite Eq in *. rewrite ?string_app_cons in *.
    unfold scan_number. cbn [skip_spaces]. change (is_space "-") with false. cbv iota.
    change (Ascii.eqb "-" "-") with true. cbv iota. rewrite is_digit_digit by done. rewrite Hs.
    repeat f_equal. lia.
  - rewrite scan_number_show_u by done. repeat f_equal. lia.
Qed.

Section long.
Context `{CLongOk}.
(** Printing and scanning round trips, with whatever follows the number. *)
Lemma strtol_show_d n rest : LONG_MIN <= n <= LONG_MAX -> no_digit_first rest = true ->
  strtol (show_d n ++ rest) = Some (n, rest).
Proof.
  intros Hn Hrest. unfold strtol. rewrite scan_number_show_d by done. repeat f_equal.
  destruct (Z.ltb_spec n 0); lia.
Qed.
Lemma strtol_show_u n rest : 0 <= n <= LONG_MAX -> no_digit_first rest = true ->
  strtol (show_u n ++ rest) = Some (n, rest).
Proof.
  intros Hn Hrest. unfold strtol. rewrite scan_number_show_u by (done || lia). unfold LONG_MIN.
  repeat f_equal. lia.
Qed.
Lemma strtoul_show_u n rest : 0 <= n <= ULONG_MAX -> no_digit_first rest = true ->
  strtoul (show_u n ++ rest) = Some (n, rest).
Proof.
  intros Hn Hrest. unfold strtoul. rewrite scan_number_show_u by (done || lia).
  by destruct (Z.ltb_spec ULONG_MAX n); [lia|].
Qed.
Lemma strtol_bounds s v rest : strtol s = Some (v, rest) -> LONG_MIN <= v <= LONG_MAX.
Proof.
  unfold strtol, LONG_MIN. pose proof long_max_range. destruct (scan_number s) as [[[g u] r]|]; [|done].
  intros [= <- <-]. lia.
Qed.
Lemma strtoul_bounds s v rest : strtoul s = Some (v, rest) -> 0 <= v <= ULONG_MAX.
Proof.
  unfold strtoul, ULONG_MAX, scan_number. pose proof long_max_range. intros Hs.
  assert (Hd : forall t u, 0 <= u -> 0 <= (scan_digits u t).1).
  { induction t as [|c t IH]; intros u Hu; cbn; [done|]. destruct (is_digit c) eqn:Ec; [|done]. apply IH.
    unfold is_digit in Ec. apply andb_true_iff in Ec as [Hc _]. apply Z.leb_le in Hc. lia. }
  revert Hs. set (p := match skip_spaces s with String _ _ => _ | ""%string => _ end). destruct p as [neg t].
  destruct t as [|c t]; [done|]. destruct (is_digit c); [|done]. specialize (Hd (String c t) 0 ltac:(lia)).
  destruct (scan_digits 0 (String c t)) as [u r]. cbn [fst] in Hd.
  intros [= <- <-]. destruct (Z.ltb_spec (2 * LONG_MAX + 1) u); [lia|].
  destruct neg; [|lia]. pose proof (Z.mod_pos_bound (- u) (2 * LONG_MAX + 1 + 1)). lia.
Qed.
End long.
Module CLongInstances.
(** A 32-bit target. *)
#[export] Instance long32 : CLong | 10 := {| LONG_MAX := 2147483647 |}.
#[export] Instance long32_ok : CLongOk.
Proof. by split. Qed.
End CLongInstances.
