(* ===== verification/At.v ===== *)
(** * The AT service (src/at/at.c, at_registry.c, at_parser.c,
    include/rzi/at/at.h, src/at/at_priv.h)

    The input ring, the line editor, the command-line parser, the registry of
    commands and extensions, and the replies.  A pointer to a function or a
    static object is its symbolic name, and NULL is [None]; C strings are
    NUL-free character strings.  What the names stand for, where the service's
    variables live in the state, and the output binding are parameters:
    [AtEnv], and the interfaces [AtExtensions] and [AtHandlers] through which
    command packages plug in. *)
From S2P Require Import Prelude Zephyr Err CString.

(** [enum rzi_at_operation] *)
Abbreviation RZI_AT_OP_RUN := 0.
Abbreviation RZI_AT_OP_HELP := 1.
Abbreviation RZI_AT_OP_READ := 2.
Abbreviation RZI_AT_OP_WRITE := 3.
Definition RZI_AT_ALLOW_RUN : Z := BIT RZI_AT_OP_RUN.
Definition RZI_AT_ALLOW_READ : Z := BIT RZI_AT_OP_READ.
Definition RZI_AT_ALLOW_WRITE : Z := BIT RZI_AT_OP_WRITE.
(** [enum rzi_at_status] *)
Abbreviation RZI_AT_STATUS_OK := 0.
Abbreviation RZI_AT_STATUS_ERROR := 1.
Abbreviation RZI_AT_STATUS_PARAM_ERROR := 2.
Abbreviation RZI_AT_STATUS_BUSY_ERROR := 3.
Abbreviation RZI_AT_STATUS_NO_NETWORK_JOINED := 4.
Abbreviation RZI_AT_STATUS_TEST_PARAM_OVERFLOW := 5.
Definition status_names : list string :=
  ["OK"; "AT_ERROR"; "AT_PARAM_ERROR"; "AT_BUSY_ERROR"; "AT_NO_NETWORK_JOINED";
   "AT_TEST_PARAM_OVERFLOW"]%string.

Record rzi_at_request : Type := AtRequest { operation : Z; argument : option string }.
Record rzi_at_command : Type := AtCommand {
  name : option string; help : option string; allowed_operations : Z;
  handler : option string; user_data : option string;
}.
Record rzi_at_extension : Type := AtExtension {
  start : option string; process : option string; factory_reset : option string;
}.
(** [struct rzi_at_io]: the write function (0 is NULL) and its user data *)
Record rzi_at_io : Type := AtIo { write : Z; io_user_data : Z }.

(** The file-scope variables of at.c, at_registry.c and at_parser.c.  The
    editor's buffer is the characters typed so far. *)
Record at_state `{Zephyr} : Type := AtState {
  rx_ring : ring_buf; active_io : rzi_at_io; at_started : Z; rx_overflow : Z;
  locked : Z; echo_enabled : Z; password : string; at_thread : bool;
  line : string; line_overflow : bool; ignore_lf : bool;
  registered : list rzi_at_command; extensions : list rzi_at_extension; sealed : bool;
}.
Definition at_boot `{Zephyr} `{Kconfig} (ring : ring_buf) : at_state :=
  AtState _ ring (AtIo 0 0) 0 0 0 (b2z CONFIG_RZI_AT_ECHO) "" false "" false false [] [] false.

Section setters.
Context `{Zephyr}.
Definition put_rx_ring v s := AtState _ v (active_io s) (at_started s) (rx_overflow s) (locked s) (echo_enabled s) (password s) (at_thread s) (line s) (line_overflow s) (ignore_lf s) (registered s) (extensions s) (sealed s).
Definition put_active_io v s := AtState _ (rx_ring s) v (at_started s) (rx_overflow s) (locked s) (echo_enabled s) (password s) (at_thread s) (line s) (line_overflow s) (ignore_lf s) (registered s) (extensions s) (sealed s).
Definition put_at_started v s := AtState _ (rx_ring s) (active_io s) v (rx_overflow s) (locked s) (echo_enabled s) (password s) (at_thread s) (line s) (line_overflow s) (ignore_lf s) (registered s) (extensions s) (sealed s).
Definition put_rx_overflow v s := AtState _ (rx_ring s) (active_io s) (at_started s) v (locked s) (echo_enabled s) (password s) (at_thread s) (line s) (line_overflow s) (ignore_lf s) (registered s) (extensions s) (sealed s).
Definition put_locked v s := AtState _ (rx_ring s) (active_io s) (at_started s) (rx_overflow s) v (echo_enabled s) (password s) (at_thread s) (line s) (line_overflow s) (ignore_lf s) (registered s) (extensions s) (sealed s).
Definition put_echo_enabled v s := AtState _ (rx_ring s) (active_io s) (at_started s) (rx_overflow s) (locked s) v (password s) (at_thread s) (line s) (line_overflow s) (ignore_lf s) (registered s) (extensions s) (sealed s).
Definition put_password v s := AtState _ (rx_ring s) (active_io s) (at_started s) (rx_overflow s) (locked s) (echo_enabled s) v (at_thread s) (line s) (line_overflow s) (ignore_lf s) (registered s) (extensions s) (sealed s).
Definition put_at_thread v s := AtState _ (rx_ring s) (active_io s) (at_started s) (rx_overflow s) (locked s) (echo_enabled s) (password s) v (line s) (line_overflow s) (ignore_lf s) (registered s) (extensions s) (sealed s).
Definition put_editor l o i s := AtState _ (rx_ring s) (active_io s) (at_started s) (rx_overflow s) (locked s) (echo_enabled s) (password s) (at_thread s) l o i (registered s) (extensions s) (sealed s).
Definition put_line v s := put_editor v (line_overflow s) (ignore_lf s) s.
Definition put_line_overflow v s := put_editor (line s) v (ignore_lf s) s.
Definition put_ignore_lf v s := put_editor (line s) (line_overflow s) v s.
Definition put_registered v s := AtState _ (rx_ring s) (active_io s) (at_started s) (rx_overflow s) (locked s) (echo_enabled s) (password s) (at_thread s) (line s) (line_overflow s) (ignore_lf s) v (extensions s) (sealed s).
Definition put_extensions v s := AtState _ (rx_ring s) (active_io s) (at_started s) (rx_overflow s) (locked s) (echo_enabled s) (password s) (at_thread s) (line s) (line_overflow s) (ignore_lf s) (registered s) v (sealed s).
Definition put_sealed v s := AtState _ (rx_ring s) (active_io s) (at_started s) (rx_overflow s) (locked s) (echo_enabled s) (password s) (at_thread s) (line s) (line_overflow s) (ignore_lf s) (registered s) (extensions s) v.
End setters.

(** Where the variables live; the output binding and the reset, which are not
    part of the service; [resets]: how often the MCU has been reset.
    [sys_reboot] does not return: what is computed after it is of a device
    that is gone, and the next boot begins with [at_boot]. *)
Class AtEnv `{Zephyr} (W : Type) : Type := {
  at_of : W -> at_state;
  set_at : at_state -> W -> W;
  run_write : Z -> string -> Z -> M W Z;
  sys_reboot : M W unit;
  resets : W -> Z;
}.
(** The output binding is output only, and only [sys_reboot] resets.
    [at_of (sys_reboot w).2] is not the memory after the reset but the memory
    the call finds: the last state of the boot that ends there. *)
Class AtEnvOk `{AtEnv W} : Prop := {
  at_of_set s w : at_of (set_at s w) = s;
  write_at f t u w : at_of (run_write f t u w).2 = at_of w;
  reboot_at w : at_of (sys_reboot w).2 = at_of w;
  set_resets s w : resets (set_at s w) = resets w;
  write_resets f t u w : resets (run_write f t u w).2 = resets w;
  reboot_resets w : resets (sys_reboot w).2 = resets w + 1;
}.
(** The code behind the hooks of an extension, and behind a command handler. *)
Class AtExtensions `{AtEnv W} : Type := {
  run_start : string -> M W Z;
  run_process : string -> M W unit;
  run_factory_reset : string -> M W Z;
}.
Class AtHandlers `{AtEnv W} : Type := {
  run_handler : string -> rzi_at_request -> option string -> M W Z;
}.

Section at_service.
Context `{AtEnv W} `{Kconfig} {ctx : ExecCtx}.

Definition aget {A} (p : at_state -> A) : M W A := gets (fun w => p (at_of w)).
Definition aput (f : at_state -> at_state) : M W unit :=
  modify (fun w => set_at (f (at_of w)) w).

(** *** Port state *)
Definition rzi_at_is_locked : M W bool := aget (fun s => negb (locked s =? 0)).
Definition rzi_at_set_locked (enable : bool) : M W unit := aput (put_locked (b2z enable)).
Definition rzi_at_echo_enabled : M W bool := aget (fun s => negb (echo_enabled s =? 0)).
Definition rzi_at_set_echo (enable : bool) : M W unit := aput (put_echo_enabled (b2z enable)).
Definition rzi_at_password_matches (value : option string) : M W bool :=
  aget (fun s => match value with Some v => String.eqb (password s) v | None => false end).
Definition rzi_at_set_password (value : option string) : M W Z :=
  match value with
  | None => ret (- RZI_ERR_INVALID)
  | Some v =>
      if (zstrlen v =? 0) || (8 <? zstrlen v) then ret (- RZI_ERR_INVALID)
      else aput (put_password v) ;;; ret 0
  end.
Definition rzi_at_password : M W string := aget password.

(** *** Output *)
Definition write_all (text : string) : M W Z :=
  let* io := aget active_io in run_write (write io) text (io_user_data io).
Definition rzi_at_write_raw (text : option string) : M W Z :=
  let* s := aget at_started in
  match text with
  | Some t => if s =? 0 then ret (- RZI_ERR_INVALID) else write_all t
  | None => ret (- RZI_ERR_INVALID)
  end.
Definition rzi_at_respond_status (status : Z) : M W Z :=
  let* s := aget at_started in
  if (s =? 0) || (status <? 0) || (zlen status_names <=? status) then ret (- RZI_ERR_INVALID)
  else write_all (crlf ++ nth (Z.to_nat status) status_names "" ++ crlf).
(** The text printf makes of the format and its arguments is [formatted]. *)
Definition write_formatted (prefix suffix formatted : string) : M W Z :=
  let size := CONFIG_RZI_AT_TX_BUFFER_SIZE in
  let head := zstrlen prefix in
  if size <=? head then ret (- RZI_ERR_OVERFLOW)
  else
    let body := zstrlen formatted in
    if size - head <=? body then ret (- RZI_ERR_OVERFLOW)
    else if size <=? head + body + zstrlen suffix then ret (- RZI_ERR_OVERFLOW)
    else write_all (prefix ++ formatted ++ suffix).
Definition rzi_at_respond_value (formatted : string) : M W Z :=
  let* s := aget at_started in
  if s =? 0 then ret (- RZI_ERR_INVALID)
  else write_formatted crlf (crlf ++ "OK" ++ crlf) formatted.
Definition rzi_at_publish_event (formatted : string) : M W Z :=
  let* s := aget at_started in
  if s =? 0 then ret (- RZI_ERR_INVALID)
  else write_formatted (crlf ++ "+EVT:") crlf formatted.

(** *** The registry *)
Definition name_char (c : ascii) : bool := is_upper c || is_digit c || (code c =? 95).
Definition valid_name (n : option string) : bool :=
  match n with
  | None => false
  | Some n => negb (String.eqb n "") && string_forall name_char n
  end.
(** [strcmp(a->name, b->name) == 0]; registered names are not NULL. *)
Definition same_name (a b : rzi_at_command) : bool := bool_decide (name a = name b).
(** The validation of one command against the registry and the commands
    before it. *)
Definition check_command (known before : list rzi_at_command) (c : rzi_at_command) : Z :=
  if negb (valid_name (name c)) || bool_decide (handler c = None) then - RZI_ERR_INVALID
  else if existsb (same_name c) known then - RZI_ERR_ALREADY
  else if existsb (same_name c) before then - RZI_ERR_ALREADY
  else 0.
Fixpoint check_commands (known before commands : list rzi_at_command) : Z :=
  match commands with
  | [] => 0
  | c :: rest =>
      let rc := check_command known before c in
      if negb (rc =? 0) then rc else check_commands known (before ++ [c]) rest
  end.
Definition rzi_at_register (commands : option (list rzi_at_command)) (count : Z) : M W Z :=
  let* is_sealed := aget sealed in
  if is_sealed then ret (- RZI_ERR_INVALID_STATE)
  else
    let* known := aget registered in
    if (bool_decide (commands = None) && negb (count =? 0)) ||
       (CONFIG_RZI_AT_MAX_COMMANDS <? u32 (zlen known + count))
    then ret (- RZI_ERR_INVALID)
    else
      let commands := take (Z.to_nat count) (default [] commands) in
      let rc := check_commands known [] commands in
      if negb (rc =? 0) then ret rc
      else aput (fun s => put_registered (registered s ++ commands) s) ;;; ret 0.
Definition rzi_at_registry_seal : M W unit := aput (put_sealed true).
Definition rzi_at_registry_add_extension (extension : option rzi_at_extension) : M W Z :=
  let* known := aget extensions in
  match extension with
  | None => ret (- RZI_ERR_NO_RESOURCE)
  | Some e =>
      if CONFIG_RZI_AT_MAX_EXTENSIONS <=? zlen known then ret (- RZI_ERR_NO_RESOURCE)
      else aput (fun s => put_extensions (extensions s ++ [e]) s) ;;; ret 0
  end.

Section hooks.
Context `{!AtExtensions}.
Definition rzi_at_registry_start_extensions : M W Z :=
  let* es := aget extensions in
  for_rc es (fun e => match start e with Some f => run_start f | None => ret 0 end).
Definition rzi_at_registry_process_extensions : M W unit :=
  let* es := aget extensions in
  for_each es (fun e => match process e with Some f => run_process f | None => ret tt end).
Definition rzi_at_registry_factory_reset : M W Z :=
  let* es := aget extensions in
  for_first_error es (fun e => match factory_reset e with
                               | Some f => run_factory_reset f
                               | None => ret 0
                               end) 0.
End hooks.

(** [char line\[160\]] *)
Abbreviation HELP_LINE := 160.
Definition help_line (c : rzi_at_command) (h : string) : string :=
  ("AT+" ++ default "" (name c) ++ ": " ++ h ++ crlf)%string.
Definition help_intro : string :=
  (crlf ++ "AT+<CMD>?: help on <CMD>" ++ crlf ++ "AT+<CMD>: run <CMD>" ++ crlf ++
   "AT+<CMD>=<value>: set the value" ++ crlf ++ "AT+<CMD>=?: get the value" ++ crlf)%string.
Definition rzi_at_registry_write_all_help : M W Z :=
  rc* rc := rzi_at_write_raw (Some help_intro) else rc in
  let* known := aget registered in
  rc* rc := for_rc known (fun c =>
    match help c with
    | None => ret 0
    | Some h =>
        if HELP_LINE <=? zstrlen (help_line c h) then ret (- RZI_ERR_OVERFLOW)
        else rzi_at_write_raw (Some (help_line c h))
    end) else rc in
  rzi_at_respond_status RZI_AT_STATUS_OK.

(** *** Dispatch *)
Section dispatch.
Context `{!AtHandlers}.
Definition find_command (n : string) (known : list rzi_at_command) : option rzi_at_command :=
  List.find (fun c => bool_decide (name c = Some n)) known.
Definition rzi_at_dispatch (n : string) (op : Z) (arg : option string) : M W Z :=
  let* known := aget registered in
  match find_command n known with
  | None => ret (- RZI_ERR_NOT_FOUND)
  | Some c =>
      if op =? RZI_AT_OP_HELP then
        match help c with
        | None => ret (- RZI_ERR_NOT_SUPPORTED)
        | Some h => rzi_at_respond_value ("AT+" ++ n ++ ": " ++ h)
        end
      else if Z.land (allowed_operations c) (BIT op) =? 0 then ret (- RZI_ERR_NOT_SUPPORTED)
      else match handler c with
      | Some h => run_handler h (AtRequest op arg) (user_data c)
      | None => ret 0 (* excluded by registration *)
      end
  end.
Definition respond_for_error (rc : Z) : M W unit :=
  (if rc =? - RZI_ERR_INVALID then rzi_at_respond_status RZI_AT_STATUS_PARAM_ERROR
   else if rc =? - RZI_ERR_BUSY then rzi_at_respond_status RZI_AT_STATUS_BUSY_ERROR
   else if rc =? - RZI_ERR_NOT_JOINED then rzi_at_respond_status RZI_AT_STATUS_NO_NETWORK_JOINED
   else if (rc =? - RZI_ERR_TOO_LARGE) || (rc =? - RZI_ERR_OVERFLOW)
   then rzi_at_respond_status RZI_AT_STATUS_TEST_PARAM_OVERFLOW
   else if negb (rc =? 0) then rzi_at_respond_status RZI_AT_STATUS_ERROR
   else ret 0) ;;; ret tt.

(** *** The command line *)
Definition first_code (s : string) : Z := match s with String c _ => code c | ""%string => 0 end.
Definition rest_of (s : string) : string := match s with String _ r => r | ""%string => ""%string end.
Definition fold_code (z : Z) : Z := if (97 <=? z) && (z <=? 122) then z - 32 else z.
Fixpoint ascii_casecmp_n (left right : string) (count : nat) : Z :=
  match count with
  | O => 0
  | S n =>
      let a := fold_code (first_code left) in
      let b := fold_code (first_code right) in
      if negb (a =? b) || (a =? 0) then a - b
      else ascii_casecmp_n (rest_of left) (rest_of right) n
  end.
Definition equals_ignore_case (left right : string) : bool :=
  (zstrlen left =? zstrlen right) && (ascii_casecmp_n left right (String.length left) =? 0).
Definition uppercase_name (n : string) : string := string_map upper n.

(** The command form: name, operation, argument; [None] is a malformed line. *)
Definition parse_body (body : string) : option (string * Z * option string) :=
  match split_at (fun c => Ascii.eqb c "=" || Ascii.eqb c "?") body with
  | None => Some (body, RZI_AT_OP_RUN, None)
  | Some (n, sep, after) =>
      if Ascii.eqb sep "?" && String.eqb after "" then Some (n, RZI_AT_OP_HELP, None)
      else if Ascii.eqb sep "=" && String.eqb after "?" then Some (n, RZI_AT_OP_READ, None)
      else if Ascii.eqb sep "=" && negb (String.eqb after "") && bool_decide (strchr "?" after = None)
      then Some (n, RZI_AT_OP_WRITE, Some after)
      else None
  end.
Definition status (s : Z) : M W unit := rzi_at_respond_status s ;;; ret tt.
(** The last part of [execute], for a line that starts with AT+. *)
Definition execute_command (body : string) : M W unit :=
  match parse_body body with
  | None => status RZI_AT_STATUS_ERROR
  | Some (n, op, arg) =>
      if String.eqb n "" then status RZI_AT_STATUS_ERROR
      else
        let n := uppercase_name n in
        let* is_locked := rzi_at_is_locked in
        if is_locked && negb (String.eqb n "PWORD") && negb (String.eqb n "LOCK")
        then status RZI_AT_STATUS_ERROR
        else let* rc := rzi_at_dispatch n op arg in respond_for_error rc
  end.
Definition execute `{!AtExtensions} (input : string) : M W unit :=
  if equals_ignore_case input "AT" then status RZI_AT_STATUS_OK
  else if equals_ignore_case input "AT?" then rzi_at_registry_write_all_help ;;; ret tt
  else if equals_ignore_case input "ATE" then
    let* on := rzi_at_echo_enabled in
    rzi_at_set_echo (negb on) ;;; status RZI_AT_STATUS_OK
  else if equals_ignore_case input "ATE?" then
    rzi_at_respond_value "ATE: show or hide the AT command input" ;;; ret tt
  else if equals_ignore_case input "ATZ" then sys_reboot
  else if equals_ignore_case input "ATZ?" then
    rzi_at_respond_value "ATZ: triggers a reset on the MCU." ;;; ret tt
  else if equals_ignore_case input "ATR" then
    let* rc := rzi_at_registry_factory_reset in
    status (if rc =? 0 then RZI_AT_STATUS_OK else RZI_AT_STATUS_ERROR) ;;;
    (if rc =? 0 then sys_reboot else ret tt)
  else if equals_ignore_case input "ATR?" then
    rzi_at_respond_value "ATR: restore default parameters" ;;; ret tt
  else if negb (ascii_casecmp_n input "AT+" 3 =? 0) then status RZI_AT_STATUS_ERROR
  else execute_command (String.substring 3 (String.length input - 3) input).

(** *** The line editor *)
Fixpoint chop (s : string) : string :=
  match s with
  | String c ""%string => ""%string
  | String c s' => String c (chop s')
  | ""%string => ""%string
  end.
(** The [#if defined(CONFIG_RZI_AT_ECHO)] blocks. *)
Definition echo (text : string) : M W unit :=
  if CONFIG_RZI_AT_ECHO then
    let* on := rzi_at_echo_enabled in
    if on then rzi_at_write_raw (Some text) ;;; ret tt else ret tt
  else ret tt.
Definition rubout : string := String (char 8) (String " " (String (char 8) "")).
Definition rzi_at_parser_feed `{!AtExtensions} (byte : Z) : M W Z :=
  let* skip := aget ignore_lf in
  if (byte =? 10) && skip then aput (put_ignore_lf false) ;;; ret 0
  else
    aput (put_ignore_lf false) ;;;
    let* l := aget line in
    if (byte =? 8) || (byte =? 0x7f) then
      (if negb (String.eqb l "") then aput (put_line (chop l)) ;;; echo rubout else ret tt) ;;;
      ret 0
    else if (byte =? 13) || (byte =? 10) then
      aput (put_ignore_lf (byte =? 13)) ;;;
      (if byte =? 13 then echo crlf else ret tt) ;;;
      let* over := aget line_overflow in
      let* l := aget line in
      if over then
        aput (put_line_overflow false) ;;;
        aput (put_line "") ;;;
        rzi_at_respond_status RZI_AT_STATUS_TEST_PARAM_OVERFLOW
      else
        (if negb (String.eqb l "") then aput (put_line "") ;;; execute l else ret tt) ;;;
        ret 0
    else if (byte <? 32) || (126 <? byte) then ret 0
    else if CONFIG_RZI_AT_LINE_MAX - 1 <=? zstrlen l then
      aput (put_line_overflow true) ;;; ret (- RZI_ERR_OVERFLOW)
    else
      aput (put_line (l ++ String (char byte) "")) ;;;
      echo (String (char byte) "") ;;;
      ret 0.
Definition rzi_at_parser_reset : M W unit := aput (put_editor "" false false).

(** *** The AT thread *)
Definition rzi_at_receive (data : option (list Z)) (size : Z) : M W Z :=
  let* s := aget at_started in
  if s =? 0 then ret (- RZI_ERR_NOT_READY)
  else if bool_decide (data = None) && negb (size =? 0) then ret (- RZI_ERR_INVALID)
  else
    let* written := zoom (fun w => rx_ring (at_of w)) (fun r w => set_at (put_rx_ring r (at_of w)) w)
                      (ring_buf_put (take (Z.to_nat size) (default [] data))) in
    (if negb (written =? size) then aput (put_rx_overflow 1) else ret tt) ;;;
    ret (if written =? size then 0 else - RZI_ERR_OVERFLOW).
Definition take_input : M W (list Z) :=
  zoom (fun w => rx_ring (at_of w)) (fun r w => set_at (put_rx_ring r (at_of w)) w) (ring_buf_get 64).
(** The [while] loop of [process_input]: see [drain_fuel] for the fuel. *)
Fixpoint drain `{!AtExtensions} (fuel : nat) : M W unit :=
  match fuel with
  | O => ret tt
  | S fuel =>
      let* bytes := take_input in
      match bytes with
      | [] => ret tt
      | _ => for_each bytes (fun b => rzi_at_parser_feed b ;;; ret tt) ;;; drain fuel
      end
  end.
Definition process_input `{!AtExtensions} (fuel : nat) : M W unit :=
  let* over := aget rx_overflow in
  (if over =? 1 then
     aput (put_rx_overflow 0) ;;; rzi_at_parser_reset ;;;
     status RZI_AT_STATUS_TEST_PARAM_OVERFLOW
   else ret tt) ;;;
  drain fuel.
(** One round of [thread_entry]. *)
Definition thread_round `{!AtExtensions} (fuel : nat) : M W unit :=
  process_input fuel ;;; rzi_at_registry_process_extensions.
End dispatch.

(** [rzi_at_start] over the registration of the built-in packages, which is
    at_command_system.c's. *)
Definition rzi_at_start `{!AtExtensions} (rzi_at_builtin_register : M W Z)
    (io : option rzi_at_io) : M W Z :=
  if k_is_in_isr then ret (- RZI_ERR_ISR)
  else match io with
  | None => ret (- RZI_ERR_INVALID)
  | Some io =>
      if write io =? 0 then ret (- RZI_ERR_INVALID)
      else
        let* s := aget at_started in
        if negb (s =? 0) then ret (- RZI_ERR_ALREADY)
        else
          aput (put_at_started 1) ;;;
          aput (put_active_io io) ;;;
          let* rc := rzi_at_builtin_register in
          let* rc := (if rc =? 0 then rzi_at_registry_seal ;;; rzi_at_registry_start_extensions
                      else ret rc) in
          if negb (rc =? 0) then aput (put_at_started 0) ;;; ret rc
          else aput (put_at_thread true) ;;; ret 0
  end.
End at_service.
