(* ===== verification/AtParser.v ===== *)
(** * The AT input path (theorems on src/at/at.c and at_parser.c)

    The line editor refines a pure editor of (characters, overflow, skip-LF),
    so what is executed is a function of the bytes received; command lines
    parse back from their printed form and reach the handler that is registered
    for them; the input loop drains the ring; the registry stays well formed.
    [AtSim] is a port on which the witnesses run. *)
From S2P Require Import Prelude Zephyr Err CString At.

Section private.
Context `{AtEnvOk W} `{Kconfig} `{!AtHandlers} `{!AtExtensions}.

(** The variables only the input path touches. *)
Definition editor_state : Type := string * bool * bool.
Definition editor_of (s : at_state) : editor_state := (line s, line_overflow s, ignore_lf s).
Definition editor (w : W) : editor_state := editor_of (at_of w).
Definition input_of (s : at_state) : ring_buf * editor_state := (rx_ring s, editor_of s).
Definition input (w : W) : ring_buf * editor_state := input_of (at_of w).
(** The interface of the packages that plug in: handlers and hooks do not
    reach the input path (its variables are static in at.c and at_parser.c). *)
Class AtClients : Prop := {
  handler_keeps h r u : keeps input (run_handler h r u);
  reset_keeps f : keeps input (run_factory_reset f);
  process_keeps f : keeps input (run_process f);
}.

(** *** Frames *)
(** The replies: what the output binding and the reads of the variables leave alone. *)
Section replies.
Context {X : Type} (view : W -> X) (write_view : forall f t u, keeps view (run_write f t u)).
Lemma aget_kept {A} (p : at_state -> A) : keeps view (aget p).
Proof. by intros w. Qed.
Lemma write_all_kept t : keeps view (write_all t).
Proof. unfold write_all, aget. frame. Qed.
#[local] Hint Resolve aget_kept write_all_kept : frame.
Lemma write_raw_kept t : keeps view (rzi_at_write_raw t).
Proof. unfold rzi_at_write_raw. frame. Qed.
Lemma respond_status_kept s : keeps view (rzi_at_respond_status s).
Proof. unfold rzi_at_respond_status. frame. Qed.
Lemma respond_value_kept s : keeps view (rzi_at_respond_value s).
Proof. unfold rzi_at_respond_value, write_formatted. frame. Qed.
Lemma publish_event_kept s : keeps view (rzi_at_publish_event s).
Proof. unfold rzi_at_publish_event, write_formatted. frame. Qed.
#[local] Hint Resolve write_raw_kept respond_status_kept respond_value_kept publish_event_kept : frame.
Lemma all_help_kept : keeps view rzi_at_registry_write_all_help.
Proof. unfold rzi_at_registry_write_all_help. frame. Qed.
Lemma echo_kept t : keeps view (echo t).
Proof. unfold echo, rzi_at_echo_enabled. frame. Qed.
Lemma status_kept s : keeps view (status s).
Proof. unfold status. frame. Qed.
Lemma respond_for_error_kept rc : keeps view (respond_for_error rc).
Proof. unfold respond_for_error. frame. Qed.
End replies.
Lemma aget_at {A} (p : at_state -> A) : keeps at_of (aget p).
Proof. apply aget_kept. Qed.
Lemma at_of_aput f w : at_of (aput f w).2 = f (at_of w).
Proof. apply at_of_set. Qed.
Lemma write_all_at t : keeps at_of (write_all t).
Proof. exact (write_all_kept at_of write_at t). Qed.
Lemma write_raw_at t : keeps at_of (rzi_at_write_raw t).
Proof. exact (write_raw_kept at_of write_at t). Qed.
Lemma respond_status_at s : keeps at_of (rzi_at_respond_status s).
Proof. exact (respond_status_kept at_of write_at s). Qed.
Lemma respond_value_at s : keeps at_of (rzi_at_respond_value s).
Proof. exact (respond_value_kept at_of write_at s). Qed.
Lemma publish_event_at s : keeps at_of (rzi_at_publish_event s).
Proof. exact (publish_event_kept at_of write_at s). Qed.
Lemma reboot_keeps : keeps at_of sys_reboot.
Proof. intros w. apply reboot_at. Qed.
Lemma all_help_at : keeps at_of rzi_at_registry_write_all_help.
Proof. exact (all_help_kept at_of write_at). Qed.
Lemma echo_at t : keeps at_of (echo t).
Proof. exact (echo_kept at_of write_at t). Qed.
Lemma status_at s : keeps at_of (status s).
Proof. exact (status_kept at_of write_at s). Qed.
Lemma respond_for_error_at rc : keeps at_of (respond_for_error rc).
Proof. exact (respond_for_error_kept at_of write_at rc). Qed.

(** What leaves all the variables alone leaves the input path alone. *)
Lemma keeps_input {A} (m : M W A) : keeps at_of m -> keeps input m.
Proof. intros Hm w. unfold same, input. by rewrite (Hm w). Qed.
Lemma aput_input f : (forall s, input_of (f s) = input_of s) -> keeps input (aput f).
Proof. intros Hf w. unfold same, input. rewrite at_of_aput. apply Hf. Qed.
End private.
#[export] Hint Resolve aget_at write_all_at write_raw_at respond_status_at respond_value_at publish_event_at
  reboot_keeps all_help_at echo_at status_at respond_for_error_at : frame.

Section editor.
Context `{AtEnvOk W} `{Kconfig} `{!AtHandlers} `{!AtExtensions} `{!AtClients}.

Lemma execute_keeps l : keeps input (execute l).
Proof.
  assert (Hat : forall A (m : M W A), keeps at_of m -> keeps input m) by (intros; by apply keeps_input).
  unfold execute, execute_command, rzi_at_dispatch, rzi_at_registry_factory_reset, rzi_at_is_locked,
    rzi_at_echo_enabled, rzi_at_set_echo.
  pose proof handler_keeps. pose proof reset_keeps.
  repeat first [apply Hat; solve [auto with frame] | apply aput_input; done | frame_step | done | by auto].
Qed.

(** *** The abstract editor *)
Inductive action : Type := Keep | Refuse | Report | Exec (l : string).
Definition perform (a : action) : M W Z :=
  match a with
  | Keep => ret 0
  | Refuse => ret (- RZI_ERR_OVERFLOW)
  | Report => rzi_at_respond_status RZI_AT_STATUS_TEST_PARAM_OVERFLOW
  | Exec l => execute l ;;; ret 0
  end.
Definition edit (e : editor_state) (b : Z) : editor_state * action :=
  let '(l, over, skip) := e in
  if (b =? 10) && skip then ((l, over, false), Keep)
  else if (b =? 8) || (b =? 127) then ((chop l, over, false), Keep)
  else if (b =? 13) || (b =? 10) then
    (("", false, b =? 13), if over then Report else if String.eqb l "" then Keep else Exec l)
  else if (b <? 32) || (126 <? b) then ((l, over, false), Keep)
  else if CONFIG_RZI_AT_LINE_MAX - 1 <=? zstrlen l then ((l, true, false), Refuse)
  else ((l ++ String (char b) "", over, false), Keep)%string.

Lemma perform_keeps a : keeps editor (perform a).
Proof.
  assert (Hi : forall A (m : M W A), keeps input m -> keeps editor m).
  { intros A m Hm w. exact (f_equal snd (Hm w)). }
  apply Hi. destruct a; cbn [perform]; frame.
  - by apply keeps_input, respond_status_at.
  - apply execute_keeps.
Qed.

(** What editing does to the device: it changes the editor's variables, and it writes the echo of a
    character, of an end of line or of a deletion. *)
Definition printable (c : ascii) : bool := (32 <=? code c) && (code c <=? 126).
Definition echo_text (t : string) : Prop :=
  t = rubout \/ t = crlf \/ exists c, t = String c "" /\ printable c = true.
Inductive editing (w : W) : W -> Prop :=
  | edit_variables l o i : editing w (aput (put_editor l o i) w).2
  | edit_echo t : echo_text t -> editing w (echo t w).2.

(** One byte, in terms of the abstract editor: the editor takes its step, other variables stay,
    nothing but an echo is written, and what remains to be done is the step's action. *)
Definition fed (b : Z) (w : W) (r : Z * W) : Prop :=
  exists w1, at_of w1 = put_editor (edit (editor w) b).1.1.1 (edit (editor w) b).1.1.2 (edit (editor w) b).1.2 (at_of w) /\
    r = perform (edit (editor w) b).2 w1 /\ rtc editing w w1.
Lemma put_editor_same s : put_editor (line s) (line_overflow s) (ignore_lf s) s = s.
Proof. by destruct s. Qed.
Lemma chop_empty : chop "" = ""%string.
Proof. done. Qed.
(** The steps of editing, one after the other. *)
Lemma editing_aput f w w0 : (forall s, exists l o i, f s = put_editor l o i s) -> rtc editing w w0 -> rtc editing w (aput f w0).2.
Proof.
  intros Hf Hw. eapply rtc_r; [exact Hw|]. destruct (Hf (at_of w0)) as (l & o & i & E).
  replace (aput f w0).2 with (aput (put_editor l o i) w0).2; [constructor|]. unfold aput, modify. cbn. by rewrite E.
Qed.
Lemma editing_ignore_lf v w w0 : rtc editing w w0 -> rtc editing w (aput (put_ignore_lf v) w0).2.
Proof. apply editing_aput. intros s. by exists (line s), (line_overflow s), v. Qed.
Lemma editing_line v w w0 : rtc editing w w0 -> rtc editing w (aput (put_line v) w0).2.
Proof. apply editing_aput. intros s. by exists v, (line_overflow s), (ignore_lf s). Qed.
Lemma editing_overflow v w w0 : rtc editing w w0 -> rtc editing w (aput (put_line_overflow v) w0).2.
Proof. apply editing_aput. intros s. by exists (line s), v, (ignore_lf s). Qed.
Lemma editing_echo t w w0 : echo_text t -> rtc editing w w0 -> rtc editing w (echo t w0).2.
Proof. intros Ht Hw. eapply rtc_r; [exact Hw|]. by constructor. Qed.
Lemma feed_fed b w : fed b w (rzi_at_parser_feed b w).
Proof.
  unfold fed, rzi_at_parser_feed, editor, editor_of, edit.
  unfold bind at 1, aget, gets. set (s := at_of w). pose proof (rtc_refl editing w) as Hq.
  destruct ((b =? 10) && ignore_lf s) eqn:E1.
  { unfold bind, ret. exists (aput (put_ignore_lf false) w).2. rewrite at_of_aput. by split_and!; [| |apply editing_ignore_lf]. }
  unfold bind at 1. pose proof (at_of_aput (put_ignore_lf false) w) as Hw1. apply (editing_ignore_lf false) in Hq.
  destruct (aput (put_ignore_lf false) w) as [u w1]. cbn [snd] in *. unfold bind at 1, gets. rewrite Hw1. fold s.
  cbn [line put_ignore_lf put_editor].
  destruct ((b =? 8) || (b =? 127)) eqn:E2.
  { destruct (String.eqb_spec (line s) ""); cbn [negb].
    - exists w1. rewrite Hw1. fold s. rewrite e. split_and!; [|done|done]. unfold put_ignore_lf. by rewrite e.
    - unfold bind. pose proof (at_of_aput (put_line (chop (line s))) w1) as Hw2. apply (editing_line (chop (line s))) in Hq.
      destruct (aput _ w1) as [u2 w2]. cbn [snd] in *. pose proof (echo_at rubout w2) as He.
      apply (editing_echo rubout) in Hq; [|by left].
      destruct (echo rubout w2) as [u3 w3]. cbn [snd] in *. exists w3. split_and!; [|done|done].
      unfold same in He. rewrite He, Hw2, Hw1. done. }
  destruct ((b =? 13) || (b =? 10)) eqn:E3.
  { unfold bind at 1. pose proof (at_of_aput (put_ignore_lf (b =? 13)) w1) as Hw2. apply (editing_ignore_lf (b =? 13)) in Hq.
    destruct (aput (put_ignore_lf (b =? 13)) w1) as [u2 w2]. cbn [snd] in *.
    unfold bind at 1.
    assert (He : keeps at_of (if b =? 13 then echo crlf else ret tt)) by (destruct (b =? 13); auto with frame; frame).
    assert (Hq3 : rtc editing w ((if b =? 13 then echo crlf else ret tt) w2).2)
      by (destruct (b =? 13); [by apply editing_echo; [right; left|]|done]).
    specialize (He w2). destruct ((if b =? 13 then echo crlf else ret tt) w2) as [u3 w3].
    unfold same in He. cbn [snd] in *. rewrite Hw2, Hw1 in He. fold s in He.
    unfold bind at 1, gets. unfold bind at 1, gets. rewrite He. cbn [line line_overflow put_ignore_lf put_editor].
    destruct (line_overflow s) eqn:Eo.
    - unfold bind. pose proof (at_of_aput (put_line_overflow false) w3) as Hw4. apply (editing_overflow false) in Hq3.
      destruct (aput (put_line_overflow false) w3) as [u4 w4]. cbn [snd] in *. apply (editing_line "") in Hq3.
      pose proof (at_of_aput (put_line "") w4) as Hw5. destruct (aput (put_line "") w4) as [u5 w5]. cbn [snd] in *.
      exists w5. split_and!; [|done|done]. by rewrite Hw5, Hw4, He.
    - destruct (String.eqb_spec (line s) "") as [e|]; cbn [negb].
      + exists w3. split_and!; [|done|done]. rewrite He. unfold put_ignore_lf, put_editor. cbn. by rewrite e, Eo.
      + unfold bind. pose proof (at_of_aput (put_line "") w3) as Hw4. apply (editing_line "") in Hq3.
        destruct (aput (put_line "") w3) as [u4 w4]. cbn [snd] in *. exists w4. split_and!; [|done|done].
        rewrite Hw4, He. unfold put_line, put_ignore_lf, put_editor. cbn. by rewrite Eo. }
  destruct ((b <? 32) || (126 <? b)) eqn:E4; [exists w1; by rewrite Hw1|].
  destruct (CONFIG_RZI_AT_LINE_MAX - 1 <=? zstrlen (line s)) eqn:E5.
  { unfold bind. pose proof (at_of_aput (put_line_overflow true) w1) as Hw2. apply (editing_overflow true) in Hq.
    destruct (aput _ w1) as [u2 w2]. cbn [snd] in *. exists w2. split_and!; [|done|done]. by rewrite Hw2, Hw1. }
  unfold bind. pose proof (at_of_aput (put_line (line s ++ String (char b) "")) w1) as Hw2.
  apply (editing_line (line s ++ String (char b) "")) in Hq.
  destruct (aput _ w1) as [u2 w2]. cbn [snd] in *. pose proof (echo_at (String (char b) "") w2) as He.
  apply (editing_echo (String (char b) "")) in Hq; [|right; right; exists (char b); split; [done|]; unfold printable; rewrite code_char by lia; lia].
  destruct (echo _ w2) as [u3 w3]. cbn [snd] in *. exists w3. split_and!; [|done|done].
  unfold same in He. by rewrite He, Hw2, Hw1.
Qed.
End editor.

(** ** Sequences of bytes *)
Section bytes.
Context `{AtEnvOk W} `{Kconfig} `{!AtHandlers} `{!AtExtensions} `{!AtClients}.

Fixpoint edit_all (e : editor_state) (bs : list Z) : editor_state * list action :=
  match bs with
  | [] => (e, [])
  | b :: bs => let (e, a) := edit e b in let (e, rest) := edit_all e bs in (e, a :: rest)
  end.
Definition feed_all (bs : list Z) : M W unit :=
  for_each bs (fun b => rzi_at_parser_feed b ;;; ret tt).
Lemma feed_editor b w : editor (rzi_at_parser_feed b w).2 = (edit (editor w) b).1.
Proof.
  destruct (feed_fed b w) as (w1 & Hw1 & -> & _). pose proof (perform_keeps (edit (editor w) b).2 w1) as Hk.
  unfold same in Hk. rewrite Hk. destruct (edit (editor w) b) as [[[l o] i] a]. unfold editor. by rewrite Hw1.
Qed.
Lemma feed_all_cons b bs w : feed_all (b :: bs) w = feed_all bs (rzi_at_parser_feed b w).2.
Proof. unfold feed_all. cbn [for_each]. unfold bind. by destruct (rzi_at_parser_feed b w). Qed.
Lemma feed_all_app bs bs' w : feed_all (bs ++ bs') w = feed_all bs' (feed_all bs w).2.
Proof.
  revert w. induction bs as [|b bs IH]; intros w; [by destruct (feed_all bs' w)|]. cbn [app].
  by rewrite !feed_all_cons, IH.
Qed.
Lemma feed_all_editor bs w : editor (feed_all bs w).2 = (edit_all (editor w) bs).1.
Proof.
  revert w. induction bs as [|b bs IH]; intros w; [done|].
  rewrite feed_all_cons, IH, feed_editor. cbn [edit_all]. destruct (edit (editor w) b) as [e a]. cbn [fst]. by destruct (edit_all e bs).
Qed.
Lemma edit_all_app e bs bs' :
  edit_all e (bs ++ bs') = ((edit_all (edit_all e bs).1 bs').1, (edit_all e bs).2 ++ (edit_all (edit_all e bs).1 bs').2).
Proof.
  revert e. induction bs as [|b bs IH]; intros e; cbn [app edit_all fst snd]; [by destruct (edit_all e bs')|].
  destruct (edit e b) as [e1 a]. rewrite IH. by destruct (edit_all e1 bs) as [e2 r].
Qed.

(** C18: The line editor refines its abstract specification: for every byte, in every state, the
    parser moves the editor as [edit] says, changes no other variable of the service, writes at
    most the echo, and then performs just the action [edit] names; over a sequence of bytes the
    editor is a function of the bytes alone, whatever the commands executed on the way did. *)
Theorem parser_refines_editor w :
  (forall b, exists w1,
     at_of w1 = put_editor (edit (editor w) b).1.1.1 (edit (editor w) b).1.1.2 (edit (editor w) b).1.2 (at_of w) /\
     rzi_at_parser_feed b w = perform (edit (editor w) b).2 w1 /\ rtc editing w w1) /\
  (forall bs, editor (feed_all bs w).2 = (edit_all (editor w) bs).1).
Proof. split; [intros b; apply feed_fed|intros bs; apply feed_all_editor]. Qed.

(** *** Bounds *)
Definition editor_ok (e : editor_state) : Prop :=
  zstrlen e.1.1 <= CONFIG_RZI_AT_LINE_MAX - 1 /\ string_forall printable e.1.1 = true.
Definition action_ok (a : action) : Prop :=
  match a with
  | Exec l => 1 <= zstrlen l <= CONFIG_RZI_AT_LINE_MAX - 1 /\ string_forall printable l = true
  | _ => True
  end.
Lemma chop_ok p l : string_forall p l = true -> string_forall p (chop l) = true /\ zstrlen (chop l) <= zstrlen l.
Proof.
  unfold zstrlen. induction l as [|c l IH]; [done|]. cbn [string_forall chop]. rewrite andb_true_iff. intros [Hc Hl].
  destruct l as [|d l]; [by split; [|cbn; lia]|]. destruct (IH Hl) as [Hp Hn]. split; [by cbn [string_forall]; rewrite Hc|].
  set (m := chop (String d l)) in *. change (String.length (String c m)) with (S (String.length m)).
  change (String.length (String c (String d l))) with (S (String.length (String d l))). lia.
Qed.
Lemma edit_ok e b : 1 <= CONFIG_RZI_AT_LINE_MAX -> editor_ok e ->
  editor_ok (edit e b).1 /\ action_ok (edit e b).2.
Proof.
  destruct e as [[l o] i]. intros Hmax [Hlen Hp]. cbn [fst] in *. unfold edit.
  destruct ((b =? 10) && i); [done|]. destruct ((b =? 8) || (b =? 127)).
  { destruct (chop_ok printable l Hp). split; [|done]. split; cbn [fst]; [lia|done]. }
  destruct ((b =? 13) || (b =? 10)).
  { split; [split; cbn; [unfold zstrlen; cbn; lia|done]|]. destruct o; [done|]. destruct (String.eqb_spec l ""); [done|].
    cbn. split; [|done]. split; [|done]. unfold zstrlen. destruct l; [done|]. cbn [String.length]. lia. }
  destruct (Z.ltb_spec b 32); [done|]. destruct (Z.ltb_spec 126 b); [done|]. cbn [orb].
  destruct (Z.leb_spec (CONFIG_RZI_AT_LINE_MAX - 1) (zstrlen l)); [done|]. split; [|done]. split; cbn [fst].
  - rewrite zstrlen_app. change (zstrlen (String (char b) "")) with 1. lia.
  - rewrite string_forall_app, Hp. cbn [string_forall]. unfold printable. rewrite code_char by lia.
    destruct (Z.leb_spec 32 b), (Z.leb_spec b 126); try done; lia.
Qed.
(** An end of line is what makes the editor name a line to execute: the line it holds. *)
Lemma edit_exec e b l : (edit e b).2 = Exec l -> (b = 13 \/ b = 10) /\ l = e.1.1.
Proof.
  destruct e as [[l' o] i]. unfold edit. repeat (destruct (_ && _); [done|]). destruct (_ || _); [done|].
  destruct (Z.eqb_spec b 13), (Z.eqb_spec b 10); cbn [orb]; destruct o; try done;
    try (destruct (String.eqb l' ""); [done|]; intros [= ->]; by split; [auto|]).
  all: destruct (_ || _); [done|]; destruct (_ <=? _); done.
Qed.
(** C36: The buffer never overflows, and only such lines run: whatever bytes arrived, the line stays
    within the buffer with room for its terminator, and the next byte edits (it sets variables of
    the editor and echoes) and then does one of: nothing more; nothing more, with the overflow
    code; reporting an overflow; or, at an end of line, executing just the line that was in the
    buffer, which has 1 to the maximum of characters, all of them printable. *)
Theorem executed_lines_bounded w bs b :
  1 <= CONFIG_RZI_AT_LINE_MAX -> editor_ok (editor w) ->
  let v := (feed_all bs w).2 in
  let l := line (at_of v) in
  editor_ok (editor v) /\
  exists w1, rtc editing v w1 /\
    (rzi_at_parser_feed b v = (0, w1) \/ rzi_at_parser_feed b v = (- RZI_ERR_OVERFLOW, w1) \/
     rzi_at_parser_feed b v = rzi_at_respond_status RZI_AT_STATUS_TEST_PARAM_OVERFLOW w1 \/
     (b = 13 \/ b = 10) /\ 1 <= zstrlen l <= CONFIG_RZI_AT_LINE_MAX - 1 /\ string_forall printable l = true /\
     rzi_at_parser_feed b v = (0, (execute l w1).2)).
Proof.
  intros Hmax Hw v l. assert (Hv : editor_ok (editor v)).
  { subst v. rewrite feed_all_editor. revert Hw. generalize (editor w) as e. induction bs as [|c bs IH]; intros e He; [done|].
    cbn [edit_all]. destruct (edit_ok e c Hmax He) as [He1 _]. destruct (edit e c) as [e1 a]. cbn [fst snd] in *.
    specialize (IH e1 He1). by destruct (edit_all e1 bs). }
  split; [done|]. destruct (feed_fed b v) as (w1 & _ & Hf & Hq). exists w1. split; [done|]. rewrite Hf.
  pose proof (proj2 (edit_ok _ b Hmax Hv)) as Ha. pose proof (edit_exec (editor v) b) as Hx.
  destruct (edit (editor v) b).2 as [| | |l'] eqn:Ea; cbn [perform]; [by left|by right; left|by right; right; left|].
  destruct (Hx l' eq_refl) as [Hb ->]. destruct Ha as [Hlen Hp]. right; right; right. split; [done|]. split; [done|]. split; [done|].
  by rewrite bind_eq.
Qed.

(** *** Lines *)
Lemma edit_printable l o i c : printable c = true -> zstrlen l < CONFIG_RZI_AT_LINE_MAX - 1 ->
  edit (l, o, i) (code c) = ((l ++ String c "", o, false), Keep)%string.
Proof.
  unfold printable. intros Hc Hl. apply andb_true_iff in Hc as [H32 H126].
  apply Z.leb_le in H32, H126. unfold edit.
  replace (code c =? 10) with false by lia. replace (code c =? 8) with false by lia.
  replace (code c =? 127) with false by lia. replace (code c =? 13) with false by lia.
  replace (code c <? 32) with false by lia. replace (126 <? code c) with false by lia. cbn [andb orb].
  replace (CONFIG_RZI_AT_LINE_MAX - 1 <=? zstrlen l) with false by lia. by rewrite char_code.
Qed.
Lemma edit_all_printable s : forall l o i, string_forall printable s = true ->
  zstrlen l + zstrlen s <= CONFIG_RZI_AT_LINE_MAX - 1 ->
  edit_all (l, o, i) (codes s) =
    (((l ++ s)%string, o, match s with "" => i | _ => false end)%string, repeat Keep (length (codes s))).
Proof.
  induction s as [|c s IH]; intros l o i Hp Hlen; [cbn; by rewrite string_app_nil_r|].
  cbn [string_forall] in Hp. apply andb_true_iff in Hp as [Hc Hs].
  assert (Hl : zstrlen (String c s) = 1 + zstrlen s) by (unfold zstrlen; cbn [String.length]; lia).
  pose proof (zstrlen_nonneg s). cbn [codes edit_all length repeat].
  rewrite edit_printable by (done || lia).
  specialize (IH (l ++ String c "")%string o false Hs). rewrite zstrlen_app in IH.
  change (zstrlen (String c "")) with 1 in IH. specialize (IH ltac:(lia)).
  rewrite IH, <- string_app_assoc. by destruct s.
Qed.
Lemma edit_end e b : b = 13 -> (edit e b).1 = (""%string, false, true) /\
  (edit e b).2 = (if e.1.2 then Report else if String.eqb e.1.1 "" then Keep else Exec e.1.1).
Proof. intros ->. by destruct e as [[l o] i]. Qed.

(** Bytes that only edit the line change nothing but the editor. *)
Lemma typing_is_quiet bs : forall v, (edit_all (editor v) bs).2 = repeat Keep (length bs) ->
  put_editor "" false true (at_of (feed_all bs v).2) = put_editor "" false true (at_of v).
Proof.
  induction bs as [|b bs IH]; intros v; [done|].
  rewrite feed_all_cons. cbn [edit_all length repeat]. pose proof (feed_editor b v) as He.
  destruct (feed_fed b v) as (v1 & Hv1 & Hv & _). destruct (edit (editor v) b) as [e a]. cbn [fst snd] in *.
  destruct (rzi_at_parser_feed b v) as [rc v2]. cbn [snd] in *. rewrite <- He.
  specialize (IH v2). destruct (edit_all (editor v2) bs) as [e2 rest]. cbn [snd] in *. intros [= -> Hr].
  rewrite (IH Hr). injection Hv as _ ->. by rewrite Hv1.
Qed.

(** No input can wedge the parser: whatever state it is in and whatever bytes arrive, a carriage
    return brings it back to an empty line, and the next line of at most the maximum of printable
    characters is executed as it was typed, with nothing but its echo before it. *)
Theorem parser_resynchronises w garbage l :
  string_forall printable l = true -> 1 <= zstrlen l <= CONFIG_RZI_AT_LINE_MAX - 1 ->
  let w0 := (feed_all (garbage ++ [13]) w).2 in
  editor w0 = (""%string, false, true) /\
  exists w1, at_of w1 = put_editor "" false true (at_of w0) /\
    feed_all ((garbage ++ [13]) ++ codes l ++ [13]) w = (tt, (execute l w1).2).
Proof.
  intros Hp Hlen. cbv zeta. set (w0 := (feed_all (garbage ++ [13]) w).2).
  assert (Hclean : editor w0 = (""%string, false, true)).
  { unfold w0. rewrite feed_all_editor, edit_all_app. cbn [fst edit_all].
    destruct (edit_end (edit_all (editor w) garbage).1 13 eq_refl) as [He _]. by destruct (edit _ 13). }
  split; [done|]. rewrite feed_all_app. fold w0. rewrite feed_all_app.
  set (w2 := (feed_all (codes l) w0).2).
  assert (Htyped : editor w2 = (l, false, false)).
  { unfold w2. rewrite feed_all_editor, Hclean, edit_all_printable by (done || (change (zstrlen "") with 0; lia)).
    destruct l; [by change (zstrlen "") with 0 in Hlen; lia|done]. }
  destruct (feed_fed 13 w2) as (w3 & Hw3 & Hf & _). rewrite Htyped in Hw3, Hf.
  destruct (edit_end (l, false, false) 13 eq_refl) as [He Ha]. rewrite He in Hw3. rewrite Ha in Hf. cbn [fst snd] in *.
  exists w3. split.
  - rewrite Hw3. apply typing_is_quiet. rewrite Hclean, edit_all_printable by (done || (change (zstrlen "") with 0; lia)). done.
  - rewrite feed_all_cons, Hf. destruct (String.eqb_spec l ""); [subst l; change (zstrlen "") with 0 in Hlen; lia|].
    cbn [perform]. unfold bind. by destruct (execute l w3).
Qed.
End bytes.

(** ** The input loop *)
Section drain.
Context `{AtEnvOk W} `{Kconfig} `{!AtHandlers} `{!AtExtensions} `{!AtClients} `{!RingOk}.

Definition unread (w : W) : list Z := ring_list (rx_ring (at_of w)).
Lemma feed_ring b w : rx_ring (at_of (rzi_at_parser_feed b w).2) = rx_ring (at_of w).
Proof.
  destruct (feed_fed b w) as (w1 & Hw1 & -> & _).
  assert (Hk : keeps input (perform (edit (editor w) b).2)).
  { destruct (edit _ b) as [e a]. cbn [snd]. destruct a; cbn [perform]; frame.
    - by apply keeps_input, respond_status_at.
    - apply execute_keeps. }
  transitivity (rx_ring (at_of w1)); [exact (f_equal fst (Hk w1))|]. by rewrite Hw1.
Qed.
Lemma feed_all_ring bs w : rx_ring (at_of (feed_all bs w).2) = rx_ring (at_of w).
Proof.
  revert w. induction bs as [|b bs IH]; intros w; [done|]. by rewrite feed_all_cons, IH, feed_ring.
Qed.
Lemma take_input_spec w : exists w', take_input w = (take 64 (unread w), w') /\
  unread w' = drop 64 (unread w) /\ editor w' = editor w.
Proof.
  unfold take_input, zoom. destruct (ring_get_ok 64 (rx_ring (at_of w)) ltac:(lia)) as [Hb Hr].
  change (Z.to_nat 64) with 64%nat in *. unfold unread.
  destruct (ring_buf_get 64 (rx_ring (at_of w))) as [bytes r]. cbn [fst snd] in *. subst bytes.
  eexists. split; [done|]. unfold editor. rewrite at_of_set. by cbn.
Qed.

(** C37: The loop of the input thread ends: every round takes at least one of the waiting bytes and
    parsing puts none back, so one more round than there are bytes is always enough; it leaves the
    ring empty and the editor as all the bytes, in order, make it. *)
Theorem input_drained w fuel fuel' :
  (length (unread w) < fuel)%nat -> (length (unread w) < fuel')%nat ->
  drain fuel w = drain fuel' w /\
  unread (drain fuel w).2 = [] /\ editor (drain fuel w).2 = (edit_all (editor w) (unread w)).1.
Proof.
  assert (Hone : forall n v, (length (unread v) < n)%nat ->
    (forall m, (length (unread v) < m)%nat -> drain n v = drain m v) /\
    unread (drain n v).2 = [] /\ editor (drain n v).2 = (edit_all (editor v) (unread v)).1).
  2:{ intros H1' H2'. destruct (Hone fuel w H1') as (Heq & ? & ?). split_and!; auto. }
  induction n as [|n IH]; intros v Hn; [lia|].
  destruct (take_input_spec v) as (v1 & Ht & Hw1 & He1).
  assert (Hunfold : forall k, drain (S k) v =
    match take 64 (unread v) with [] => (tt, v1) | bs => drain k (feed_all bs v1).2 end).
  { intros k. cbn [drain]. unfold bind at 1. rewrite Ht. destruct (take 64 (unread v)) eqn:E; [done|].
    unfold bind at 1. fold (feed_all (z :: l)). by destruct (feed_all (z :: l) v1). }
  destruct (unread v) as [|b bs] eqn:Ew.
  { rewrite Hunfold. cbn. split; [|by rewrite He1]. intros [|m] Hm; [cbn in Hm; lia|]. by rewrite Hunfold. }
  set (v2 := (feed_all (take 64 (b :: bs)) v1).2).
  assert (Hw2 : unread v2 = drop 64 (b :: bs)).
  { unfold v2, unread. rewrite feed_all_ring. exact Hw1. }
  assert (Hlt : (length (unread v2) < n)%nat).
  { rewrite Hw2, length_drop. cbn [length] in *. lia. }
  destruct (IH v2 Hlt) as (Heq & Hempty & Hed). rewrite Hunfold. cbn [take]. fold (take 63 bs).
  change (b :: take 63 bs) with (take 64 (b :: bs)). fold v2. split_and!; [|done|].
  - intros [|m] Hm; [cbn in Hm; lia|]. rewrite Hunfold. cbn [take]. fold (take 63 bs).
    change (b :: take 63 bs) with (take 64 (b :: bs)). fold v2. apply Heq.
    rewrite Hw2, length_drop. cbn [length] in *. lia.
  - rewrite Hed, Hw2. unfold v2. rewrite feed_all_editor, He1.
    rewrite <- (take_drop 64 (b :: bs)) at 3. by rewrite edit_all_app.
Qed.
End drain.

(** ** Command lines *)
(** The printed form of a command. *)
Definition print_body (n : string) (op : Z) (arg : option string) : string :=
  (n ++ (if (op =? RZI_AT_OP_HELP)%Z then "?" else if (op =? RZI_AT_OP_READ)%Z then "=?"
         else if (op =? RZI_AT_OP_WRITE)%Z then "=" ++ default "" arg else ""))%string.
Definition plain (c : ascii) : bool := negb (Ascii.eqb c "=" || Ascii.eqb c "?").
Definition no_question (c : ascii) : bool := negb (Ascii.eqb "?" c).
Definition well_formed (n : string) (op : Z) (arg : option string) : Prop :=
  string_forall plain n = true /\
  ((op = RZI_AT_OP_RUN /\ arg = None) \/ (op = RZI_AT_OP_HELP /\ arg = None) \/
   (op = RZI_AT_OP_READ /\ arg = None) \/
   (op = RZI_AT_OP_WRITE /\ exists a, arg = Some a /\ a <> ""%string /\ string_forall no_question a = true)).
Lemma split_at_spec p s : match split_at p s with
  | None => string_forall (fun c => negb (p c)) s = true
  | Some (a, c, b) => s = (a ++ String c b)%string /\ string_forall (fun c => negb (p c)) a = true /\ p c = true
  end.
Proof.
  induction s as [|c s IH]; [done|]. cbn [split_at]. destruct (p c) eqn:Ec; [done|].
  destruct (split_at p s) as [[[a d] b]|].
  - destruct IH as (-> & Ha & Hd). rewrite string_app_cons. split_and!; try done. cbn [string_forall]. by rewrite Ec.
  - cbn [string_forall]. by rewrite Ec.
Qed.
Lemma strchr_none c s : strchr c s = None <-> string_forall (fun d => negb (Ascii.eqb c d)) s = true.
Proof.
  unfold strchr. pose proof (split_at_spec (Ascii.eqb c) s) as Hs. destruct (split_at _ s) as [[[a d] b]|]; [|done].
  destruct Hs as (-> & _ & Hd). split; [done|]. rewrite string_forall_app. cbn [string_forall].
  rewrite Hd. cbn. by rewrite andb_false_r.
Qed.

(** Parsing a command body inverts printing it, and accepts nothing else: a body parses as name,
    operation and argument exactly when it is their printed form (name without separators,
    argument present only for a write, not empty and without a question mark). *)
Theorem command_line_roundtrip body n op arg :
  parse_body body = Some (n, op, arg) <-> well_formed n op arg /\ body = print_body n op arg.
Proof.
  unfold parse_body. split.
  - pose proof (split_at_spec (fun c => Ascii.eqb c "=" || Ascii.eqb c "?") body) as Hs.
    destruct (split_at _ body) as [[[a c] b]|].
    2:{ intros [= <- <- <-]. split; [split; [done|by left]|]. unfold print_body. cbn. by rewrite string_app_nil_r. }
    destruct Hs as (-> & Ha & Hc). destruct (Ascii.eqb_spec c "?") as [->|Hq].
    { destruct (String.eqb_spec b ""); cbn [andb]; [|done]. subst b. intros [= <- <- <-].
      split; [split; [done|by right; left]|done]. }
    destruct (Ascii.eqb_spec c "=") as [->|]; [|done]. cbn [andb].
    destruct (String.eqb_spec b "?") as [->|]; cbn [andb].
    { intros [= <- <- <-]. split; [split; [done|by right; right; left]|done]. }
    destruct (String.eqb_spec b ""); cbn [andb negb]; [done|].
    destruct (bool_decide (strchr "?" b = None)) eqn:Eb; [|done]. apply bool_decide_eq_true, strchr_none in Eb.
    intros [= <- <- <-]. split; [|done]. split; [done|]. right; right; right. split; [done|]. by exists b.
  - intros [[Hn Hop] ->]. destruct Hop as [[-> ->]|[[-> ->]|[[-> ->]|[-> (a & -> & Ha & Hq)]]]];
      unfold print_body; cbn [Z.eqb default].
    + rewrite string_app_nil_r, split_at_none; done.
    + rewrite (split_at_app _ n "?" ""); done.
    + rewrite (split_at_app _ n "=" "?"); done.
    + change ("=" ++ a)%string with (String "=" a). rewrite (split_at_app _ n "=" a) by done.
      change (Ascii.eqb "=" "?") with false. change (Ascii.eqb "=" "=") with true. cbn [andb].
      apply strchr_none in Hq. rewrite (bool_decide_eq_true_2 _ Hq).
      destruct (String.eqb_spec a "?"); [by subst a|]. by destruct (String.eqb_spec a "").
Qed.

(** ** Execution *)
Section execution.
Context `{AtEnvOk W} `{Kconfig} `{!AtHandlers} `{!AtExtensions}.

Lemma casecmp_plus input : ascii_casecmp_n input "AT+" 3 = 0 ->
  exists a t p body, input = String a (String t (String p body)) /\
    fold_code (code a) = 65 /\ fold_code (code t) = 84 /\ fold_code (code p) = 43.
Proof.
  assert (Hz : fold_code 0 = 0) by done.
  destruct input as [|a input]; cbn [ascii_casecmp_n first_code rest_of]; [done|].
  change (fold_code (code "A")) with 65. destruct (Z.eqb_spec (fold_code (code a)) 65) as [Ea|]; cbn [negb orb];
    [|destruct (fold_code (code a) =? 0); lia].
  rewrite Ea. change (65 =? 0) with false. cbv iota.
  destruct input as [|t input]; cbn [ascii_casecmp_n first_code rest_of]; [done|].
  change (fold_code (code "T")) with 84. destruct (Z.eqb_spec (fold_code (code t)) 84) as [Et|]; cbn [negb orb]; [|lia].
  rewrite Et. change (84 =? 0) with false. cbv iota.
  destruct input as [|p body]; cbn [ascii_casecmp_n first_code rest_of]; [done|].
  change (fold_code (code "+")) with 43. destruct (Z.eqb_spec (fold_code (code p)) 43) as [Ep|]; cbn [negb orb]; [|lia].
  intros _. by exists a, t, p, body.
Qed.
(** None of the words that are not AT+ commands starts like one. *)
Lemma not_a_word a t p body c rest :
  fold_code (code a) = 65 -> fold_code (code t) = 84 -> fold_code (code p) = 43 -> fold_code (code c) <> 43 ->
  equals_ignore_case (String a (String t (String p body))) (String "A" (String "T" (String c rest))) = false.
Proof.
  intros Ha Ht Hp Hc. unfold equals_ignore_case. apply andb_false_iff. right. apply Z.eqb_neq.
  cbn [String.length ascii_casecmp_n first_code rest_of]. change (fold_code (code "A")) with 65.
  change (fold_code (code "T")) with 84. rewrite Ha, Ht, Hp.
  change (65 =? 65) with true. change (65 =? 0) with false. change (84 =? 84) with true. change (84 =? 0) with false.
  cbn [negb orb].
  destruct (Z.eqb_spec 43 (fold_code (code c))); cbn [negb orb]; lia.
Qed.
Lemma execute_at_plus input w : ascii_casecmp_n input "AT+" 3 = 0 ->
  execute input w = execute_command (String.substring 3 (String.length input - 3) input) w.
Proof.
  intros Hc. pose proof Hc as Hw. apply casecmp_plus in Hw as (a & t & p & body & -> & Ha & Ht & Hp).
  unfold execute. rewrite !not_a_word by (done || vm_compute; discriminate). rewrite Hc.
  assert (equals_ignore_case (String a (String t (String p body))) "AT" = false) as ->; [|done].
  unfold equals_ignore_case, zstrlen. cbn [String.length]. apply andb_false_iff. left. apply Z.eqb_neq.
  lia.
Qed.
Lemma substring_0_all s : String.substring 0 (String.length s) s = s.
Proof. induction s as [|c s IH]; [done|]. cbn [String.length String.substring]. by rewrite IH. Qed.
Lemma execute_plus body w : execute ("AT+" ++ body)%string w = execute_command body w.
Proof.
  rewrite execute_at_plus by done.
  change ("AT+" ++ body)%string with (String "A" (String "T" (String "+" body))).
  cbn [String.length String.substring Nat.sub]. by rewrite Nat.sub_0_r, substring_0_all.
Qed.

(** A command line reaches its handler: the text of a registered command, in any of its forms and
    with its name in any case, runs that command's handler with the operation and the argument of
    the text, and answers with the status of the result; provided the form is allowed and the port
    is unlocked (or the command is one that unlocks it). *)
Theorem command_reaches_handler w n op arg c h :
  well_formed n op arg -> n <> ""%string ->
  find_command (uppercase_name n) (registered (at_of w)) = Some c -> handler c = Some h ->
  op <> RZI_AT_OP_HELP -> Z.land (allowed_operations c) (BIT op) <> 0 ->
  locked (at_of w) = 0 \/ uppercase_name n = "PWORD"%string \/ uppercase_name n = "LOCK"%string ->
  execute ("AT+" ++ print_body n op arg)%string w =
    (let* rc := run_handler h (AtRequest op arg) (user_data c) in respond_for_error rc) w.
Proof.
  intros Hwf Hne Hfind Hh Hop Hallow Hlock. rewrite execute_plus. unfold execute_command.
  assert (parse_body (print_body n op arg) = Some (n, op, arg)) as -> by (by apply command_line_roundtrip).
  destruct (String.eqb_spec n ""); [done|]. unfold bind, rzi_at_is_locked, aget, gets.
  assert (negb (locked (at_of w) =? 0) && negb (String.eqb (uppercase_name n) "PWORD") &&
    negb (String.eqb (uppercase_name n) "LOCK") = false) as ->.
  { destruct Hlock as [-> |[-> | ->]]; [done|by rewrite andb_false_r|].
    change (String.eqb "LOCK" "LOCK") with true. by rewrite !andb_false_r. }
  unfold rzi_at_dispatch, bind, aget, gets. rewrite Hfind. destruct (Z.eqb_spec op RZI_AT_OP_HELP); [done|].
  destruct (Z.eqb_spec (Z.land (allowed_operations c) (BIT op)) 0); [done|]. by rewrite Hh.
Qed.

(** A locked port runs no command: whatever follows AT+, unless its name is PWORD or LOCK, is
    answered with AT_ERROR and nothing else happens: no handler runs, nothing is dispatched. *)
Theorem locked_port_runs_nothing w input :
  locked (at_of w) <> 0 -> ascii_casecmp_n input "AT+" 3 = 0 ->
  (forall n op arg, parse_body (String.substring 3 (String.length input - 3) input) = Some (n, op, arg) ->
     uppercase_name n <> "PWORD"%string /\ uppercase_name n <> "LOCK"%string) ->
  execute input w = status RZI_AT_STATUS_ERROR w.
Proof.
  intros Hl Hi Hn. rewrite execute_at_plus by done. unfold execute_command.
  destruct (parse_body _) as [[[n op] arg]|]; [|done]. destruct (Hn n op arg eq_refl) as [Hp Hk].
  destruct (String.eqb n ""); [done|]. unfold bind, rzi_at_is_locked, aget, gets.
  destruct (Z.eqb_spec (locked (at_of w)) 0); [done|].
  destruct (String.eqb_spec (uppercase_name n) "PWORD"); [done|].
  by destruct (String.eqb_spec (uppercase_name n) "LOCK").
Qed.

(** *** The registry *)
Definition command_ok (c : rzi_at_command) : Prop := valid_name (name c) = true /\ handler c <> None.
Definition registry_ok (cs : list rzi_at_command) : Prop :=
  Forall command_ok cs /\ NoDup (name <$> cs) /\ zlen cs <= CONFIG_RZI_AT_MAX_COMMANDS.
Lemma existsb_same c cs : existsb (same_name c) cs = true <-> name c ∈ (name <$> cs).
Proof.
  induction cs as [|d cs IH]; cbn [existsb]; [by split; [|intros ?%elem_of_nil]|].
  rewrite fmap_cons, elem_of_cons, <- IH. unfold same_name at 1.
  destruct (bool_decide_reflect (name c = name d)); cbn [orb]; split; auto. by intros [|].
Qed.
Lemma check_command_spec known before c :
  (check_command known before c = 0 <->
     command_ok c /\ (name c ∉ (name <$> known)) /\ (name c ∉ (name <$> before))) /\
  (check_command known before c = 0 \/ check_command known before c = - RZI_ERR_INVALID \/
   check_command known before c = - RZI_ERR_ALREADY).
Proof.
  unfold check_command, command_ok. destruct (valid_name (name c)); cbn [negb orb].
  2:{ split; [split; [done|by intros [[? _] _]]|by right; left]. }
  destruct (bool_decide_reflect (handler c = None)).
  { split; [split; [done|by intros [[_ ?] _]]|by right; left]. }
  pose proof (existsb_same c known) as Hk. pose proof (existsb_same c before) as Hb.
  destruct (existsb (same_name c) known).
  { split; [split; [done|]|by right; right]. intros (_ & Hn & _). by destruct Hn; apply Hk. }
  destruct (existsb (same_name c) before).
  { split; [split; [done|]|by right; right]. intros (_ & _ & Hn). by destruct Hn; apply Hb. }
  split; [|by left]. split; [|done]. intros _. split_and!; try done; [intros Hx; by apply Hk in Hx|intros Hx; by apply Hb in Hx].
Qed.
Lemma check_commands_spec known cs : forall before,
  (check_commands known before cs = 0 \/ check_commands known before cs = - RZI_ERR_INVALID \/
   check_commands known before cs = - RZI_ERR_ALREADY) /\
  (check_commands known before cs = 0 -> NoDup (name <$> known ++ before) -> 
   Forall command_ok cs /\ NoDup (name <$> known ++ before ++ cs)).
Proof.
  induction cs as [|c cs IH]; intros before; cbn [check_commands].
  { split; [by left|]. intros _ Hnd. by rewrite app_nil_r. }
  destruct (check_command_spec known before c) as [Hz Hcases].
  destruct (Z.eqb_spec (check_command known before c) 0) as [E|]; cbn [negb]; [|by split].
  apply Hz in E as (Hok & Hk & Hb). destruct (IH (before ++ [c])) as [Hc Hnd]. split; [done|].
  intros H0' Hu. specialize (Hnd H0'). rewrite <- app_assoc in Hnd. destruct Hnd as [Hf Hd]; [|by split; [constructor|]].
  rewrite app_assoc, fmap_app. apply NoDup_app. split_and!; [done| |apply NoDup_singleton].
  intros x Hx Hx'. apply list_elem_of_singleton in Hx'. subst x. rewrite fmap_app, elem_of_app in Hx. tauto.
Qed.

(** Registration is all or nothing and keeps the registry well formed: distinct non-empty upper
    case names, callable handlers, no more than there is room for; so that a command, once
    registered, is the one its name finds for ever (nothing is ever removed). *)
Theorem register_keeps_registry w cs :
  registry_ok (registered (at_of w)) -> zlen (registered (at_of w)) + zlen cs < 4294967296 ->
  let r := rzi_at_register (Some cs) (zlen cs) w in
  (r.1 = 0 \/ r.1 = - RZI_ERR_INVALID_STATE \/ r.1 = - RZI_ERR_INVALID \/ r.1 = - RZI_ERR_ALREADY) /\
  (r.1 <> 0 -> r.2 = w) /\
  (r.1 = 0 -> sealed (at_of w) = false /\ registered (at_of r.2) = registered (at_of w) ++ cs) /\
  registry_ok (registered (at_of r.2)) /\
  (forall c n, c ∈ registered (at_of w) -> name c = Some n -> find_command n (registered (at_of r.2)) = Some c).
Proof.
  intros (Hok & Hnd & Hlen) Hsmall. cbv zeta.
  assert (Hfind : forall l c n, NoDup (name <$> l) -> c ∈ l -> name c = Some n -> find_command n l = Some c).
  { intros l c n. unfold find_command. induction l as [|d l IH]; intros Hu Hc Hn; [by apply elem_of_nil in Hc|].
    rewrite fmap_cons in Hu. apply NoDup_cons in Hu as [Hd Hu]. cbn [List.find].
    apply elem_of_cons in Hc as [->|Hc]; [by rewrite bool_decide_eq_true_2|].
    rewrite bool_decide_eq_false_2; [by apply IH|]. intros He. destruct Hd. rewrite He, <- Hn.
    by apply list_elem_of_fmap_2. }
  destruct (rzi_at_register (Some cs) (zlen cs) w) as [rc w'] eqn:E. cbn [fst snd]. revert E.
  unfold rzi_at_register. unfold bind at 1, aget, gets. unfold bind at 1, gets.
  destruct (sealed (at_of w)) eqn:Es; [intros [= <- <-]; split_and!; eauto; done|].
  rewrite bool_decide_eq_false_2 by done. cbn [andb orb].
  assert (u32 (zlen (registered (at_of w)) + zlen cs) = zlen (registered (at_of w)) + zlen cs) as ->.
  { unfold u32. apply Z.mod_small. pose proof (zlen_nonneg cs). pose proof (zlen_nonneg (registered (at_of w))). lia. }
  destruct (Z.ltb_spec CONFIG_RZI_AT_MAX_COMMANDS (zlen (registered (at_of w)) + zlen cs)).
  { intros [= <- <-]. split_and!; eauto; done. }
  change (default [] (Some cs)) with cs. assert (take (Z.to_nat (zlen cs)) cs = cs) as -> by (apply take_ge; unfold zlen; lia).
  destruct (check_commands_spec (registered (at_of w)) cs []) as [Hcases Hgood].
  destruct (Z.eqb_spec (check_commands (registered (at_of w)) [] cs) 0) as [Ez|]; cbn [negb].
  2:{ intros [= <- <-]. split_and!; [tauto|done|done|done|eauto]. }
  rewrite app_nil_r in Hgood. destruct (Hgood Ez Hnd) as [Hf Hn]. cbn [app] in Hn.
  unfold bind. pose proof (at_of_aput (fun s => put_registered (registered s ++ cs) s) w) as Hw.
  destruct (aput _ w) as [u w1]. cbn [snd] in Hw. intros [= <- <-]. rewrite Hw. cbn [registered put_registered].
  split_and!; try done; [by left|split_and!; [by apply Forall_app|done|]|].
  - unfold zlen in *. rewrite length_app. lia.
  - intros c n Hc Hcn. apply Hfind; [done| |done]. apply elem_of_app. by left.
Qed.
End execution.

Module AtSim.
Export Instances.
(** A port that records what is written, what handlers are run, and resets. *)
Record port : Type := Port {
  port_vars : at_state; port_out : list string; port_calls : list (string * rzi_at_request);
  port_resets : Z;
}.
#[export] Instance port_env : AtEnv port | 10 := {|
  at_of := port_vars;
  set_at s w := Port s (port_out w) (port_calls w) (port_resets w);
  run_write _ t _ w := (0, Port (port_vars w) (port_out w ++ [t]) (port_calls w) (port_resets w));
  sys_reboot w := (tt, Port (port_vars w) (port_out w) (port_calls w) (port_resets w + 1));
  resets := port_resets;
|}.
#[export] Instance port_env_ok : AtEnvOk.
Proof. by split. Qed.
#[export] Instance port_extensions : AtExtensions | 10 := {|
  run_start _ := ret 0; run_process _ := ret tt; run_factory_reset _ := ret 0 |}.
#[export] Instance port_handlers : AtHandlers | 10 := {|
  run_handler h rq _ w := (0, Port (port_vars w) (port_out w) (port_calls w ++ [(h, rq)]) (port_resets w)) |}.
#[export] Instance port_clients : AtClients.
Proof. by split. Qed.

Definition set_command : rzi_at_command :=
  AtCommand (Some "SET") (Some "set it") (RZI_AT_ALLOW_READ + RZI_AT_ALLOW_WRITE) (Some "handle_set") None.
Definition other_command : rzi_at_command :=
  AtCommand (Some "OTHER_1") None RZI_AT_ALLOW_RUN (Some "handle_other") None.
Definition running (is_locked : Z) (ring : list Z) : port :=
  Port (AtState _ ((ring, 64) : @ring_buf sim_zephyr) (AtIo 1 0) 1 0 is_locked 0 "" true "" false false
    [set_command] [] true) [] [] 0.
Definition open_registry : port :=
  Port (put_sealed false (port_vars (running 0 []))) [] [] 0.
End AtSim.

Module AtWitness.
Import AtSim.
Lemma parser_refines_editor_witness :
  editor (feed_all [65; 84; 8; 13] (running 0 [])).2 = (""%string, false, true).
Proof. exact (proj2 (parser_refines_editor (running 0 [])) [65; 84; 8; 13]). Defined.
Lemma executed_lines_bounded_witness : editor_ok (editor (feed_all [65; 84; 8; 200; 66] (running 0 [])).2).
Proof. refine (proj1 (executed_lines_bounded (running 0 []) _ 13 _ _)); [by vm_compute|by split]. Defined.
Lemma parser_resynchronises_witness : exists w1 : port,
  (feed_all (([65; 1; 66] ++ [13]) ++ codes "at+set=5" ++ [13]) (running 0 [])).2 = (execute "at+set=5" w1).2.
Proof.
  refine (match parser_resynchronises (running 0 []) [65; 1; 66] "at+set=5" eq_refl _ with
          | conj _ (ex_intro _ w1 (conj _ H)) => ex_intro _ w1 (f_equal snd H)
          end).
  by vm_compute.
Defined.
Lemma input_drained_witness :
  drain 4 (running 0 [65; 84; 13]) = drain 100 (running 0 [65; 84; 13]) /\
  unread (drain 4 (running 0 [65; 84; 13])).2 = [].
Proof.
  refine (let H := input_drained (running 0 [65; 84; 13]) 4 100 _ _ in conj (proj1 H) (proj1 (proj2 H)));
    cbn; lia.
Defined.
Lemma command_line_roundtrip_witness :
  parse_body "SET=a=b" = Some ("SET", RZI_AT_OP_WRITE, Some "a=b")%string.
Proof.
  refine (proj2 (command_line_roundtrip "SET=a=b" "SET" RZI_AT_OP_WRITE (Some "a=b"%string)) (conj (conj _ _) _)); try done.
  right; right; right. by split; [|exists "a=b"%string].
Defined.
Lemma command_reaches_handler_witness : (execute "AT+set=5" (running 0 [])).2 =
  Port (port_vars (running 0 [])) [] [("handle_set"%string, AtRequest RZI_AT_OP_WRITE (Some "5"%string))] 0.
Proof.
  refine (f_equal snd (command_reaches_handler (running 0 []) "set" RZI_AT_OP_WRITE (Some "5"%string) set_command
    "handle_set" (conj eq_refl _) _ eq_refl eq_refl _ _ (or_introl eq_refl))); try done.
  right; right; right. by split; [|exists "5"%string].
Defined.
Lemma locked_port_runs_nothing_witness :
  execute "AT+SET=5" (running 1 []) = status RZI_AT_STATUS_ERROR (running 1 []).
Proof.
  refine (locked_port_runs_nothing (running 1 []) "AT+SET=5" _ eq_refl _); [done|].
  by intros n op arg [= <- _ _].
Defined.
Lemma register_keeps_registry_witness :
  registry_ok (registered (at_of (rzi_at_register (Some [other_command]) 1 open_registry).2)).
Proof.
  refine (proj1 (proj2 (proj2 (proj2 (register_keeps_registry open_registry [other_command] _ _))))); [|done].
  split_and!; [by repeat constructor|by apply NoDup_singleton|by vm_compute].
Defined.
End AtWitness.

Module AtOverflow.
Import AtSim.
Definition narrow : port :=
  Port (put_rx_ring (([], 8) : @ring_buf sim_zephyr) (port_vars (running 0 []))) [] [] 0.
(** After bytes were lost the parser is reset, but before the bytes that are still in the ring are
    parsed: the head of the damaged line survives, and the next end of line executes it.  Here the
    port receives AT+SET=12 and loses the last digit; the overflow is reported, and yet the next
    carriage return sets 1. *)
Theorem lost_bytes_run_a_truncated_line :
  let w1 := (rzi_at_receive (Some (codes "AT+SET=1")) 8 narrow).2 in
  let r2 := rzi_at_receive (Some (codes "2" ++ [13])) 2 w1 in
  let w3 := (thread_round 10 r2.2).2 in
  let w4 := (rzi_at_receive (Some [13]) 1 w3).2 in
  let w5 := (thread_round 10 w4).2 in
  r2.1 = - RZI_ERR_OVERFLOW /\
  port_out w3 = [crlf ++ "AT_TEST_PARAM_OVERFLOW" ++ crlf]%string /\ port_calls w3 = [] /\
  port_calls w5 = [("handle_set"%string, AtRequest RZI_AT_OP_WRITE (Some "1"%string))].
Proof. split_and!; vm_refl. Qed.
End AtOverflow.
