(* ===== verification/AtArgs.v ===== *)
(** * Arguments of AT commands (src/at/commands/lorawan/at_lorawan.c and
    src/at/commands/lora/at_lora.c, the conversion functions)

    Hexadecimal byte strings, whole decimal numbers, booleans, band numbers and
    colon-separated lists, with their round trips. *)
From S2P Require Import Prelude Zephyr Err CString.

Definition hex_nibble (value : ascii) : Z :=
  let c := code value in
  if (48 <=? c) && (c <=? 57) then c - 48
  else if (65 <=? c) && (c <=? 70) then c - 65 + 10
  else if (97 <=? c) && (c <=? 102) then c - 97 + 10
  else -1.
(** The conversion loop: [None] at the first character that is not a digit. *)
Fixpoint hex_pairs (hex : string) : option (list Z) :=
  match hex with
  | String h (String l rest) =>
      let high := hex_nibble h in
      let low := hex_nibble l in
      if (high <? 0) || (low <? 0) then None
      else cons (Z.lor (Z.shiftl high 4) low) <$> hex_pairs rest
  | _ => Some []
  end.
(** The result code, and the bytes when it is 0. *)
Definition rzi_at_lorawan_hex_to_bin (hex : string) (out_len : Z) : Z * list Z :=
  if negb (zstrlen hex =? out_len * 2) then (- RZI_ERR_INVALID, [])
  else match hex_pairs hex with Some out => (0, out) | None => (- RZI_ERR_INVALID, []) end.
Fixpoint rzi_at_lorawan_bin_to_hex (bytes : list Z) : string :=
  match bytes with
  | [] => ""
  | b :: bytes => show_hex2 b ++ rzi_at_lorawan_bin_to_hex bytes
  end%string.
(** A whole decimal number; the value is meaningful when the code is 0. *)
Definition rzi_at_lorawan_parse_long `{CLong} (argument : option string) : Z * Z :=
  match argument with
  | None => (- RZI_ERR_INVALID, 0)
  | Some s => match strtol s with
              | Some (v, rest) => if String.eqb rest "" then (0, v) else (- RZI_ERR_INVALID, v)
              | None => (- RZI_ERR_INVALID, 0)
              end
  end.
Definition rzi_at_lorawan_parse_bool (argument : option string) : Z * bool :=
  match argument with
  | Some s => if String.eqb s "0" then (0, false)
              else if String.eqb s "1" then (0, true)
              else (- RZI_ERR_INVALID, false)
  | None => (- RZI_ERR_INVALID, false)
  end.
(** at_lora.c has the same text under its own names. *)
Definition rzi_at_lora_hex_to_bin := rzi_at_lorawan_hex_to_bin.
Definition rzi_at_lora_bin_to_hex := rzi_at_lorawan_bin_to_hex.
Definition rzi_at_lora_parse_long `{CLong} := rzi_at_lorawan_parse_long.
Definition rzi_at_lora_parse_bool := rzi_at_lorawan_parse_bool.

(** ** Round trips *)
Lemma nibble_digit n : 0 <= n < 16 -> hex_nibble (hex_digit n) = n.
Proof.
  intros Hn. unfold hex_nibble, hex_digit. destruct (Z.ltb_spec n 10); rewrite code_char by lia.
  - replace ((48 <=? 48 + n) && (48 + n <=? 57)) with true by lia. lia.
  - replace ((48 <=? 55 + n) && (55 + n <=? 57)) with false by lia.
    replace ((65 <=? 55 + n) && (55 + n <=? 70)) with true by lia. lia.
Qed.
Lemma nibbles_of_byte b : byte_range b ->
  0 <= Z.shiftr b 4 < 16 /\ 0 <= Z.land b 15 < 16 /\ Z.lor (Z.shiftl (Z.shiftr b 4) 4) (Z.land b 15) = b.
Proof.
  unfold byte_range. intros Hb. change 15 with (Z.ones 4). split_and!.
  1-4: rewrite ?Z.shiftr_div_pow2, ?Z.land_ones by lia; change (2 ^ 4) with 16; Z.div_mod_to_equations; lia.
  rewrite <- Z.ldiff_ones_r by lia. apply Z.lor_ldiff_and.
Qed.
Lemma bin_to_hex_length bytes : zstrlen (rzi_at_lorawan_bin_to_hex bytes) = zlen bytes * 2.
Proof.
  induction bytes as [|b bytes IH]; [done|]. cbn [rzi_at_lorawan_bin_to_hex]. rewrite zstrlen_app, IH.
  unfold zlen. cbn [length]. change (zstrlen (show_hex2 b)) with 2. lia.
Qed.
Lemma hex_pairs_show bytes : Forall byte_range bytes ->
  hex_pairs (rzi_at_lorawan_bin_to_hex bytes) = Some bytes.
Proof.
  induction 1 as [|b bytes Hb _ IH]; [done|]. destruct (nibbles_of_byte b Hb) as (Hh & Hl & Heq).
  change (rzi_at_lorawan_bin_to_hex (b :: bytes)) with
    (String (hex_digit (Z.shiftr b 4)) (String (hex_digit (Z.land b 15)) (rzi_at_lorawan_bin_to_hex bytes))).
  cbn [hex_pairs]. rewrite !nibble_digit by done. rewrite IH, Heq.
  replace (Z.shiftr b 4 <? 0) with false by lia. by replace (Z.land b 15 <? 0) with false by lia.
Qed.
(** What is printed for a byte string parses back to it. *)
Lemma hex_roundtrip bytes : Forall byte_range bytes ->
  rzi_at_lorawan_hex_to_bin (rzi_at_lorawan_bin_to_hex bytes) (zlen bytes) = (0, bytes).
Proof.
  intros Hb. unfold rzi_at_lorawan_hex_to_bin. rewrite bin_to_hex_length, Z.eqb_refl. cbn [negb].
  by rewrite hex_pairs_show.
Qed.
Lemma nibble_bound c : hex_nibble c < 16.
Proof.
  unfold hex_nibble. pose proof (code_range c).
  destruct (Z.leb_spec 48 (code c)), (Z.leb_spec (code c) 57), (Z.leb_spec 65 (code c)), (Z.leb_spec (code c) 70),
    (Z.leb_spec 97 (code c)), (Z.leb_spec (code c) 102); cbn [andb]; lia.
Qed.
Lemma hex_pairs_range hex : forall bytes, hex_pairs hex = Some bytes -> Forall byte_range bytes.
Proof.
  cut (forall n hex bytes, (String.length hex < n)%nat -> hex_pairs hex = Some bytes -> Forall byte_range bytes).
  { intros Hn bytes. apply (Hn (S (String.length hex))). lia. }
  clear hex. induction n as [|n IH]; intros hex bytes Hl; [lia|].
  destruct hex as [|h [|l rest]]; cbn [hex_pairs]; try (intros [= <-]; constructor).
  destruct (Z.ltb_spec (hex_nibble h) 0); [done|]. destruct (Z.ltb_spec (hex_nibble l) 0); [done|]. cbn [orb].
  destruct (hex_pairs rest) as [bs|] eqn:E; cbn; [|done]. intros [= <-]. constructor.
  - pose proof (nibble_bound h). pose proof (nibble_bound l). unfold byte_range.
    rewrite Z.shiftl_mul_pow2 by lia. change (2 ^ 4) with 16. split; [apply Z.lor_nonneg; lia|].
    destruct (Z.eq_dec (Z.lor (hex_nibble h * 16) (hex_nibble l)) 0) as [->|Hne]; [lia|].
    change 256 with (2 ^ 8). apply Z.log2_lt_pow2; [pose proof (Z.lor_nonneg (hex_nibble h * 16) (hex_nibble l)); lia|].
    rewrite Z.log2_lor by lia.
    assert (Hlog : forall z, 0 <= z < 256 -> Z.log2 z < 8).
    { intros z Hz. destruct (Z.eq_dec z 0) as [->|]; [done|]. apply Z.log2_lt_pow2; lia. }
    pose proof (Hlog (hex_nibble h * 16) ltac:(lia)). pose proof (Hlog (hex_nibble l) ltac:(lia)). lia.
  - apply (IH rest); [|done]. cbn [String.length] in Hl. lia.
Qed.
Lemma hex_pairs_length hex bytes : hex_pairs hex = Some bytes -> Nat.Even (String.length hex) ->
  zlen bytes * 2 = zstrlen hex.
Proof.
  cut (forall n hex bytes, (String.length hex < n)%nat -> hex_pairs hex = Some bytes ->
    Nat.Even (String.length hex) -> zlen bytes * 2 = zstrlen hex).
  { intros Hn. apply (Hn (S (String.length hex))). lia. }
  clear hex bytes. induction n as [|n IH]; intros hex bytes Hl; [lia|].
  destruct hex as [|h [|l rest]]; cbn [hex_pairs].
  - by intros [= <-].
  - intros _ [k Hk]. cbn in Hk. lia.
  - destruct (_ || _); [done|]. destruct (hex_pairs rest) as [bs|] eqn:E; cbn; [|done]. intros [= <-] [k Hk].
    cbn [String.length] in Hl, Hk. unfold zstrlen. cbn [length String.length]. specialize (IH rest bs ltac:(lia) E).
    unfold zlen, zstrlen in *. cbn [length]. specialize (IH ltac:(exists (k - 1)%nat; lia)). lia.
Qed.
Lemma hex_to_bin_rc hex n : (rzi_at_lorawan_hex_to_bin hex n).1 = 0 \/ (rzi_at_lorawan_hex_to_bin hex n).1 = - RZI_ERR_INVALID.
Proof.
  unfold rzi_at_lorawan_hex_to_bin. destruct (negb _); [by right|]. destruct (hex_pairs hex); [by left|by right].
Qed.
(** A text that is accepted has exactly the bytes asked for. *)
Lemma hex_to_bin_spec hex n bytes : rzi_at_lorawan_hex_to_bin hex n = (0, bytes) ->
  zlen bytes = n /\ Forall byte_range bytes /\ zstrlen hex = n * 2.
Proof.
  unfold rzi_at_lorawan_hex_to_bin. destruct (Z.eqb_spec (zstrlen hex) (n * 2)) as [Hl|]; cbn [negb]; [|done].
  destruct (hex_pairs hex) as [bs|] eqn:E; [|done]. intros [= <-]. split_and!; [|by eapply hex_pairs_range|done].
  assert (Hev : Nat.Even (String.length hex)). { exists (Z.to_nat n). unfold zstrlen in Hl. lia. }
  pose proof (hex_pairs_length _ _ E Hev). lia.
Qed.

(** The texts that stand for bytes: two hexadecimal digits each, capitals or not. *)
Inductive hex_text : string -> list Z -> Prop :=
| hex_text_nil : hex_text "" []
| hex_text_cons h l a b rest bytes : hex_value h = Some a -> hex_value l = Some b -> hex_text rest bytes ->
    hex_text (String h (String l rest)) (16 * a + b :: bytes).
Lemma nibble_value c : hex_nibble c = default (-1) (hex_value c).
Proof.
  unfold hex_nibble, hex_value, is_digit. cbn zeta. destruct ((48 <=? code c) && (code c <=? 57)); [done|].
  destruct ((65 <=? code c) && (code c <=? 70)); [cbn; lia|]. destruct ((97 <=? code c) && (code c <=? 102)); [cbn; lia|done].
Qed.
Lemma value_bound c a : hex_value c = Some a -> 0 <= a < 16.
Proof.
  unfold hex_value, is_digit. pose proof (code_range c).
  destruct (Z.leb_spec 48 (code c)), (Z.leb_spec (code c) 57), (Z.leb_spec 65 (code c)), (Z.leb_spec (code c) 70),
    (Z.leb_spec 97 (code c)), (Z.leb_spec (code c) 102); cbn [andb]; try done; intros [= <-]; lia.
Qed.
Lemma value_nibble c : 0 <= hex_nibble c -> hex_value c = Some (hex_nibble c).
Proof. rewrite nibble_value. destruct (hex_value c); [done|]. cbn. lia. Qed.
Lemma nibbles_join a b : 0 <= a < 16 -> 0 <= b < 16 -> Z.lor (Z.shiftl a 4) b = 16 * a + b.
Proof.
  assert (Hall : forallb (fun i => forallb (fun j => Z.lor (Z.shiftl (Z.of_nat i) 4) (Z.of_nat j) =? 16 * Z.of_nat i + Z.of_nat j)
    (seq 0 16)) (seq 0 16) = true) by (by vm_compute).
  intros Ha Hb. rewrite forallb_forall in Hall. specialize (Hall (Z.to_nat a) ltac:(apply in_seq; lia)).
  rewrite forallb_forall in Hall. specialize (Hall (Z.to_nat b) ltac:(apply in_seq; lia)).
  rewrite !Z2Nat.id in Hall by lia. by apply Z.eqb_eq.
Qed.
(** The conversion reads exactly these. *)
Lemma hex_text_pairs hex bytes :
  hex_text hex bytes <-> hex_pairs hex = Some bytes /\ zstrlen hex = zlen bytes * 2.
Proof.
  split.
  - induction 1 as [|h l a b rest bytes Hh Hl _ [IH Hlen]]; [done|]. cbn [hex_pairs].
    rewrite !nibble_value, Hh, Hl. cbn [default from_option id]. pose proof (value_bound h a Hh). pose proof (value_bound l b Hl).
    destruct (Z.ltb_spec a 0); [lia|]. destruct (Z.ltb_spec b 0); [lia|]. cbn [orb]. rewrite IH. cbn.
    rewrite nibbles_join by done. split; [done|]. unfold zstrlen, zlen in *. cbn [String.length length]. lia.
  - revert bytes. cut (forall n hex bytes, (String.length hex < n)%nat ->
      hex_pairs hex = Some bytes /\ zstrlen hex = zlen bytes * 2 -> hex_text hex bytes).
    { intros Hn bytes. apply (Hn (S (String.length hex))). lia. }
    clear hex. induction n as [|n IH]; intros hex bytes Hl; [lia|]. unfold zstrlen, zlen.
    destruct hex as [|h [|l rest]]; cbn [hex_pairs]; cbn [String.length] in *.
    + intros [[= <-] _]. constructor.
    + intros [_ Hlen]. lia.
    + destruct (Z.ltb_spec (hex_nibble h) 0); [by intros []|]. destruct (Z.ltb_spec (hex_nibble l) 0); [by intros []|]. cbn [orb].
      destruct (hex_pairs rest) as [bs|] eqn:E; [|by intros []]. cbn. intros [[= <-] Hlen].
      pose proof (value_nibble h ltac:(lia)) as Hh. pose proof (value_nibble l ltac:(lia)) as Hv.
      rewrite nibbles_join by (by eapply value_bound). constructor; [done..|]. apply IH; [lia|]. split; [done|].
      unfold zstrlen, zlen. cbn [length] in Hlen. lia.
Qed.
Lemma hex_text_print bytes : Forall byte_range bytes -> hex_text (rzi_at_lorawan_bin_to_hex bytes) bytes.
Proof. intros Hb. apply hex_text_pairs. split; [by apply hex_pairs_show|apply bin_to_hex_length]. Qed.

(** Decimal fields between colons. *)
Fixpoint colon_list (values : list Z) : string :=
  match values with
  | [] => ""
  | [v] => show_u v
  | v :: vs => show_u v ++ String ":" (colon_list vs)
  end%string.
Lemma colon_list_cons v vs : vs <> [] -> colon_list (v :: vs) = (show_u v ++ String ":" (colon_list vs))%string.
Proof. by destruct vs. Qed.
Lemma colon_list_head v vs : 0 <= v -> exists c s, colon_list (v :: vs) = String c s.
Proof.
  intros Hv. destruct (show_u_head v Hv) as (d & s & E & _). destruct vs as [|u vs].
  - exists (digit d), s. done.
  - rewrite colon_list_cons, E by done. by eexists _, _.
Qed.

Section numbers.
Context `{CLongOk}.
Lemma parse_long_show n : LONG_MIN <= n <= LONG_MAX ->
  rzi_at_lorawan_parse_long (Some (show_d n)) = (0, n).
Proof.
  intros Hn. unfold rzi_at_lorawan_parse_long. pose proof (strtol_show_d n "" Hn eq_refl) as Hs.
  rewrite string_app_nil_r in Hs. by rewrite Hs.
Qed.
Lemma parse_long_show_u n : 0 <= n <= LONG_MAX ->
  rzi_at_lorawan_parse_long (Some (show_u n)) = (0, n).
Proof.
  intros Hn. unfold rzi_at_lorawan_parse_long. pose proof (strtol_show_u n "" Hn eq_refl) as Hs.
  rewrite string_app_nil_r in Hs. by rewrite Hs.
Qed.
Lemma parse_long_bounds s v : rzi_at_lorawan_parse_long s = (0, v) -> LONG_MIN <= v <= LONG_MAX.
Proof.
  unfold rzi_at_lorawan_parse_long. destruct s as [s|]; [|done]. destruct (strtol s) as [[u rest]|] eqn:E; [|done].
  destruct (String.eqb rest ""); [|done]. intros [= <-]. by eapply strtol_bounds.
Qed.
End numbers.
Lemma parse_bool_show b : rzi_at_lorawan_parse_bool (Some (show_u (b2z b))) = (0, b).
Proof. by destruct b. Qed.
