(* ===== verification/AtSystem.v ===== *)
(** * The system AT commands (src/at/commands/at_command_system.c,
    at_network_mode.c, src/at/adapters/at_adapter_uart.c, include/rzi/at/uart.h)

    Identity, alias, lock, sleep and UART commands; the network working mode
    with its listeners; the UART adapter that carries the AT port.  The board
    strings, the hardware identifier, the Bluetooth addresses and the UART
    driver are parameters: [AtBoard] and [UartDriver].  The storage and power
    services are reached through [StorageEnv], and the registration of the
    LoRaWAN and LoRa packages is an argument of [rzi_at_builtin_register]. *)
From S2P Require Import Prelude Zephyr Err Power Storage CString At AtArgs.

Definition ALLOW_READ_WRITE : Z := Z.lor RZI_AT_ALLOW_READ RZI_AT_ALLOW_WRITE.

Definition system_commands : list rzi_at_command := [
  AtCommand (Some "VER") (Some "get the version of the firmware")
    RZI_AT_ALLOW_READ (Some "handle_version") None;
  AtCommand (Some "FIRMWAREVER") (Some "get the custom firmware version")
    RZI_AT_ALLOW_READ (Some "handle_firmwarever") None;
  AtCommand (Some "CLIVER") (Some "get the version of the AT command")
    RZI_AT_ALLOW_READ (Some "handle_cliver") None;
  AtCommand (Some "APIVER") (Some "get the version of the RZI API")
    RZI_AT_ALLOW_READ (Some "handle_apiver") None;
  AtCommand (Some "HWMODEL") (Some "get the string of the hardware model")
    RZI_AT_ALLOW_READ (Some "handle_hwmodel") None;
  AtCommand (Some "HWID") (Some "get the string of the hardware ID")
    RZI_AT_ALLOW_READ (Some "handle_hwid") None;
  AtCommand (Some "SN") (Some "get the serial number of the device (max 18 char)")
    RZI_AT_ALLOW_READ (Some "handle_sn") None;
  AtCommand (Some "FSN") (Some "get the factory serial number of the device")
    RZI_AT_ALLOW_READ (Some "handle_sn") None;
  AtCommand (Some "ALIAS") (Some "add an alias name to the device")
    ALLOW_READ_WRITE (Some "handle_alias") None;
  AtCommand (Some "BAT") (Some "get the battery level (volt)")
    RZI_AT_ALLOW_READ (Some "handle_bat") None;
  AtCommand (Some "SYSV") (Some "get the System Voltage")
    RZI_AT_ALLOW_READ (Some "handle_bat") None;
  AtCommand (Some "BUILDTIME") (Some "get the build time of the firmware")
    RZI_AT_ALLOW_READ (Some "handle_buildtime") None;
  AtCommand (Some "REPOINFO") (Some "get the commit ID of the firmware")
    RZI_AT_ALLOW_READ (Some "handle_repoinfo") None;
  AtCommand (Some "BOOT") (Some "reboot the device")
    RZI_AT_ALLOW_RUN (Some "handle_boot") None;
  AtCommand (Some "BOOTVER") (Some "get the version of RUI Bootloader")
    RZI_AT_ALLOW_READ (Some "handle_bootver") None;
  AtCommand (Some "DEBUG") (Some "dump AT debug information")
    RZI_AT_ALLOW_RUN (Some "handle_debug") None;
  AtCommand (Some "FACTORY") (Some "restore default parameters")
    RZI_AT_ALLOW_RUN (Some "handle_factory") None;
  AtCommand (Some "LOCK") (Some "lock the serial port")
    (Z.lor RZI_AT_ALLOW_RUN RZI_AT_ALLOW_READ) (Some "handle_lock") None;
  AtCommand (Some "PWORD") (Some "set the serial port locking password (max 8 char)")
    ALLOW_READ_WRITE (Some "handle_pword") None;
  AtCommand (Some "BAUD") (Some "get or set the serial port baudrate")
    ALLOW_READ_WRITE (Some "handle_baud") None;
  AtCommand (Some "ATM") (Some "switch to AT command mode")
    RZI_AT_ALLOW_RUN (Some "handle_atm") None;
  AtCommand (Some "SLEEP") (Some "enter sleep mode for a period of time (ms)")
    RZI_AT_ALLOW_WRITE (Some "handle_sleep") None;
  AtCommand (Some "LPM") (Some "get or set the low power mode (0 = off, 1 = on)")
    ALLOW_READ_WRITE (Some "handle_lpm") None;
  AtCommand (Some "LPMLVL") (Some "get or set the sleep level for low power mode")
    ALLOW_READ_WRITE (Some "handle_lpmlvl") None;
  AtCommand (Some "BLEMAC") (Some "get the BLE MAC address")
    RZI_AT_ALLOW_READ (Some "handle_blemac") None
]%string.

Definition nwm_commands : list rzi_at_command := [
  AtCommand (Some "NWM") (Some "get or set the network working mode (0 = P2P_LORA, 1 = LoRaWAN, 2 = P2P_FSK)")
    ALLOW_READ_WRITE (Some "handle_nwm") None
]%string.

Abbreviation RZI_VERSION_STRING := "0.2.0"%string.
Abbreviation ALIAS_MAX := 16.
Abbreviation SN_MAX := 18.
(** at_network_mode.h *)
Abbreviation RZI_AT_NETWORK_MODE_P2P_LORA := 0.
Abbreviation RZI_AT_NETWORK_MODE_LORAWAN := 1.
Abbreviation RZI_AT_NETWORK_MODE_P2P_FSK := 2.
Abbreviation LISTENER_MAX := 2.

(** The file-scope variables of the three files. *)
Record system_state : Type := SystemState {
  alias_name : string; serial_number : string; lpm_level : Z;
  network_mode : Z; listeners : list string;
  active_uart : Z; current_baud : Z;
}.
Definition default_mode `{Kconfig} : Z :=
  if CONFIG_RZI_AT_COMMAND_LORAWAN then RZI_AT_NETWORK_MODE_LORAWAN
  else RZI_AT_NETWORK_MODE_P2P_LORA.
Definition system_boot `{Kconfig} : system_state :=
  SystemState "" "" 1 default_mode [] 0 115200.
Definition put_alias_name v s := SystemState v (serial_number s) (lpm_level s) (network_mode s) (listeners s) (active_uart s) (current_baud s).
Definition put_serial_number v s := SystemState (alias_name s) v (lpm_level s) (network_mode s) (listeners s) (active_uart s) (current_baud s).
Definition put_lpm_level v s := SystemState (alias_name s) (serial_number s) v (network_mode s) (listeners s) (active_uart s) (current_baud s).
Definition put_network_mode v s := SystemState (alias_name s) (serial_number s) (lpm_level s) v (listeners s) (active_uart s) (current_baud s).
Definition put_listeners v s := SystemState (alias_name s) (serial_number s) (lpm_level s) (network_mode s) v (active_uart s) (current_baud s).
Definition put_active_uart v s := SystemState (alias_name s) (serial_number s) (lpm_level s) (network_mode s) (listeners s) v (current_baud s).
Definition put_current_baud v s := SystemState (alias_name s) (serial_number s) (lpm_level s) (network_mode s) (listeners s) (active_uart s) v.

(** Where the variables of these files and of the storage service live. *)
Class StorageEnv `{Zephyr} (W : Type) : Type := {
  storage_of : W -> storage_state;
  set_storage : storage_state -> W -> W;
}.
Class SystemEnv (W : Type) : Type := {
  system_of : W -> system_state;
  set_system : system_state -> W -> W;
}.
(** Build strings, [hwinfo_get_device_id] (code and bytes; [None] without
    CONFIG_HWINFO) and [bt_id_get] ([None] without CONFIG_BT). *)
Class AtBoard (W : Type) : Type := {
  CONFIG_BOARD : string;
  CONFIG_SOC : string;
  BUILD_DATE : string; (* __DATE__ *)
  BUILD_TIME : string; (* __TIME__ *)
  hwinfo_get_device_id : option (Z -> M W (Z * list Z));
  bt_id_get : option (M W (list (list Z)));
}.
(** The code behind the listener pointers. *)
Class ModeListeners (W : Type) : Type := { run_listener : string -> Z -> M W Z }.
(** zephyr/drivers/uart.h; a device is its address, NULL is 0.  The members
    of [struct uart_config] other than the baud rate stay opaque. *)
Class UartDriver (W : Type) : Type := {
  CONFIG_RZI_AT_ADAPTER_UART : bool;
  uart_config : Type;
  set_baudrate : Z -> uart_config -> uart_config;
  device_is_ready : Z -> M W bool;
  uart_irq_callback_user_data_set : Z -> option string -> M W Z;
  uart_irq_rx_enable : Z -> M W unit;
  uart_irq_update : Z -> M W unit;
  uart_irq_rx_ready : Z -> M W bool;
  uart_fifo_read : Z -> Z -> M W (Z * list Z);
  uart_poll_out : Z -> Z -> M W unit;
  uart_config_get : Z -> M W (Z * uart_config);
  uart_configure : Z -> uart_config -> M W Z;
  uart_write_address : Z; (* of the function uart_write *)
}.

Section system.
Context `{Zephyr} `{Errno} `{Kconfig} {ctx : ExecCtx} `{CLong} {W : Type} `{!AtEnv W} `{!StorageEnv W}
  `{!SystemEnv W} `{!AtBoard W} `{!ModeListeners W} `{!UartDriver W}.

Definition sget {A} (p : system_state -> A) : M W A := gets (fun w => p (system_of w)).
Definition sput (f : system_state -> system_state) : M W unit :=
  modify (fun w => set_system (f (system_of w)) w).
Definition nvm {A} (m : M storage_state A) : M W A := zoom storage_of set_storage m.
(** A WRITE request carries an argument: no other operation reads it. *)
Definition argument_of (request : rzi_at_request) : string := default "" (argument request).
Definition respond_ok : M W Z := rzi_at_respond_status RZI_AT_STATUS_OK.

(** *** Network mode *)
Definition notify_listeners (mode : Z) : M W Z :=
  let* ls := sget listeners in for_first_error ls (fun l => run_listener l mode) 0.
Definition load_mode : M W Z :=
  if negb CONFIG_RZI_AT_NVM then ret 0
  else
    rc* rc := nvm rzi_storage_init else rc in
    let* '(rc, stored) := nvm (rzi_storage_read (Some "rzi") (Some "nwm") (Some [0]) 1)%string in
    if rc =? - RZI_ERR_NOT_FOUND then ret 0
    else if negb (rc =? 0) then ret rc
    else
      let stored := at_ (default [] stored) 0 in
      if RZI_AT_NETWORK_MODE_P2P_FSK <? stored then ret 0
      else sput (put_network_mode stored) ;;; ret 0.
Definition save_mode (mode : Z) : M W Z :=
  if negb CONFIG_RZI_AT_NVM then ret 0
  else
    rc* rc := nvm rzi_storage_init else rc in
    nvm (rzi_storage_write (Some "rzi") (Some "nwm") (Some [mode]) 1)%string.
Definition rzi_at_network_mode_get : M W Z := sget network_mode.
Definition rzi_at_network_mode_add_listener (listener : option string) : M W Z :=
  match listener with
  | None => ret (- RZI_ERR_INVALID)
  | Some l =>
      let* ls := sget listeners in
      if LISTENER_MAX <=? zlen ls then ret (- RZI_ERR_NO_RESOURCE)
      else sput (put_listeners (ls ++ [l])) ;;; ret 0
  end.
Definition handle_nwm (request : rzi_at_request) : M W Z :=
  if operation request =? RZI_AT_OP_READ then
    let* mode := sget network_mode in rzi_at_respond_value ("AT+NWM=" ++ show_u mode)
  else
    let (rc, parsed) := rzi_at_lorawan_parse_long (argument request) in
    if negb (rc =? 0) || (parsed <? 0) || (RZI_AT_NETWORK_MODE_P2P_FSK <? parsed)
    then ret (- RZI_ERR_INVALID)
    else if negb (u8 parsed =? RZI_AT_NETWORK_MODE_LORAWAN) && negb CONFIG_RZI_AT_COMMAND_LORA
    then ret (- RZI_ERR_NOT_SUPPORTED)
    else
      let* previous := sget network_mode in
      if u8 parsed =? previous then respond_ok
      else
        sput (put_network_mode (u8 parsed)) ;;;
        let* rc := notify_listeners (u8 parsed) in
        let* rc := if rc =? 0 then let* mode := sget network_mode in save_mode mode else ret rc in
        if negb (rc =? 0) then
          sput (put_network_mode previous) ;;;
          notify_listeners previous ;;;
          ret rc
        else
          let* rc := respond_ok in
          (if CONFIG_RZI_AT_COMMAND_LORAWAN && negb CONFIG_ZTEST then sys_reboot else ret tt) ;;;
          ret rc.
(** The result of deleting a key that may be absent. *)
Definition delete_result (rc : Z) : Z := if (rc =? 0) || (rc =? - RZI_ERR_NOT_FOUND) then 0 else rc.
Definition delete_stored_key (namespace_name key : string) : M W Z :=
  let* rc := nvm (rzi_storage_delete (Some namespace_name) (Some key)) in ret (delete_result rc).
Definition network_mode_factory_reset : M W Z := delete_stored_key "rzi" "nwm".
Definition rzi_at_network_mode_restore_default : M W Z :=
  sput (put_network_mode default_mode) ;;;
  if negb CONFIG_RZI_AT_NVM then ret 0
  else
    rc* rc := nvm rzi_storage_init else rc in
    delete_stored_key "rzi" "nwm".
Definition network_mode_extension : rzi_at_extension :=
  AtExtension None None (Some "network_mode_factory_reset"%string).
Definition rzi_at_network_mode_register : M W Z :=
  rc* rc := load_mode else rc in
  let* rc := rzi_at_register (Some nwm_commands) 1 in
  if CONFIG_RZI_AT_NVM && (rc =? 0)
  then rzi_at_registry_add_extension (Some network_mode_extension)
  else ret rc.

(** *** The UART adapter *)
Definition uart_write (data : string) (uart : Z) : M W Z :=
  for_each (codes data) (uart_poll_out uart) ;;; ret 0.
(** The receive loop of [uart_isr]: the driver says when its FIFO is empty,
    and the fuel bounds how often it is asked. *)
Fixpoint uart_drain (fuel : nat) (uart : Z) : M W unit :=
  match fuel with
  | O => ret tt
  | S fuel =>
      let* ready := uart_irq_rx_ready uart in
      if negb ready then ret tt
      else
        let* '(count, buffer) := uart_fifo_read uart 32 in
        if count <=? 0 then ret tt
        else rzi_at_receive (Some buffer) count ;;; uart_drain fuel uart
  end.
Definition uart_isr (fuel : nat) (uart : Z) : M W unit :=
  uart_irq_update uart ;;; uart_drain fuel uart.
Definition rzi_at_uart_start `{!AtExtensions} (builtin_register : M W Z) (uart : Z) : M W Z :=
  let* ready := if uart =? 0 then ret false else device_is_ready uart in
  if negb ready then ret (- RZI_ERR_NO_DEVICE)
  else
    let* active := sget active_uart in
    if negb (active =? 0) then ret (- RZI_ERR_ALREADY)
    else
      let* rc := uart_irq_callback_user_data_set uart (Some "uart_isr"%string) in
      if negb (rc =? 0) then ret (rzi_err_from_errno rc)
      else
        sput (put_active_uart uart) ;;;
        let* rc := rzi_at_start builtin_register (Some (AtIo uart_write_address uart)) in
        if negb (rc =? 0) then
          sput (put_active_uart 0) ;;;
          uart_irq_callback_user_data_set uart None ;;;
          ret rc
        else uart_irq_rx_enable uart ;;; ret 0.
Definition rzi_at_uart_get_baud (baud_rate : option Z) : M W (Z * option Z) :=
  match baud_rate with
  | None => ret (- RZI_ERR_INVALID, None)
  | Some _ =>
      let* active := sget active_uart in
      if active =? 0 then ret (- RZI_ERR_NOT_READY, baud_rate)
      else let* baud := sget current_baud in ret (0, Some baud)
  end.
Definition rzi_at_uart_set_baud (baud_rate : Z) : M W Z :=
  if baud_rate =? 0 then ret (- RZI_ERR_INVALID)
  else
    let* active := sget active_uart in
    if active =? 0 then ret (- RZI_ERR_NOT_READY)
    else
      let* '(rc, config) := uart_config_get active in
      if negb (rc =? 0) then ret (rzi_err_from_errno rc)
      else
        let* rc := uart_configure active (set_baudrate baud_rate config) in
        if negb (rc =? 0) then ret (rzi_err_from_errno rc)
        else sput (put_current_baud baud_rate) ;;; ret 0.

(** *** System commands *)
Definition VERSION_STRING : string := ("RZI_" ++ RZI_VERSION_STRING ++ "_" ++ CONFIG_BOARD)%string.
(** [strncpy(dst, s, n); dst\[n\] = 0] *)
Definition strncpy (n : Z) (s : string) : string := String.substring 0 (Z.to_nat n) s.
(** [load_string]: the code, and the string left in [dst] when one was found. *)
Definition load_string (key : string) (max_len : Z) : M W (Z * option string) :=
  if negb CONFIG_RZI_AT_NVM then ret (0, None)
  else
    let* '(rc, stored) := nvm (rzi_storage_read (Some "rzi"%string) (Some key)
                            (Some (replicate 17 0)) (ALIAS_MAX + 1)) in
    if rc =? 0 then
      ret (0, Some (strncpy max_len (c_string (overlay (default [] stored) 16 [0]))))
    else ret (if rc =? - RZI_ERR_NOT_FOUND then 0 else rc, None).
Definition stored_string (value : string) (max_len : Z) : list Z :=
  overlay (replicate 17 0) 0 (codes (strncpy max_len value)).
Definition save_string (key value : string) (max_len : Z) : M W Z :=
  if negb CONFIG_RZI_AT_NVM then ret 0
  else nvm (rzi_storage_write (Some "rzi"%string) (Some key) (Some (stored_string value max_len))
              (ALIAS_MAX + 1)).
Definition fill_serial_from_hwinfo : M W unit :=
  let* '(n, id) := match hwinfo_get_device_id with
                   | Some get => get 8
                   | None => ret (- RZI_ERR_NOT_SUPPORTED, [])
                   end in
  let count := if 0 <? n then Z.min n 9 else 0 in
  if count =? 0 then sput (put_serial_number (strncpy SN_MAX CONFIG_BOARD))
  else sput (put_serial_number (rzi_at_lorawan_bin_to_hex (take (Z.to_nat count) id))).
Definition handle_version : M W Z := rzi_at_respond_value ("AT+VER=" ++ VERSION_STRING).
Definition handle_firmwarever : M W Z := rzi_at_respond_value ("AT+FIRMWAREVER=" ++ VERSION_STRING).
Definition handle_cliver : M W Z := rzi_at_respond_value ("AT+CLIVER=" ++ RZI_VERSION_STRING).
Definition handle_apiver : M W Z := rzi_at_respond_value ("AT+APIVER=" ++ RZI_VERSION_STRING).
Definition handle_hwmodel : M W Z := rzi_at_respond_value ("AT+HWMODEL=" ++ CONFIG_BOARD).
Definition handle_hwid : M W Z := rzi_at_respond_value ("AT+HWID=" ++ CONFIG_SOC).
Definition handle_sn : M W Z :=
  let* sn := sget serial_number in
  (if String.eqb sn "" then fill_serial_from_hwinfo else ret tt) ;;;
  let* sn := sget serial_number in
  rzi_at_respond_value ("AT+SN=" ++ sn).
Definition handle_alias (request : rzi_at_request) : M W Z :=
  if operation request =? RZI_AT_OP_READ then
    let* alias := sget alias_name in rzi_at_respond_value ("AT+ALIAS=" ++ alias)
  else
    let value := argument_of request in
    if (zstrlen value =? 0) || (ALIAS_MAX <? zstrlen value) then ret (- RZI_ERR_INVALID)
    else
      let* rc := save_string "alias" value ALIAS_MAX in
      if rc =? 0 then sput (put_alias_name value) ;;; respond_ok else ret rc.
Definition handle_buildtime : M W Z :=
  rzi_at_respond_value ("AT+BUILDTIME=" ++ BUILD_DATE ++ "-" ++ BUILD_TIME).
Definition handle_repoinfo : M W Z :=
  rzi_at_respond_value ("AT+REPOINFO=" ++ RZI_VERSION_STRING ++ ":0:0:0:0:0:0:0").
Definition handle_boot : M W Z := respond_ok ;;; sys_reboot ;;; ret 0.
Definition handle_bootver : M W Z := rzi_at_respond_value "AT+BOOTVER=RZI MCUboot".
Definition handle_debug : M W Z :=
  let* is_locked := rzi_at_is_locked in
  let* echo_on := rzi_at_echo_enabled in
  rzi_at_respond_value ("AT+DEBUG=" ++ VERSION_STRING ++ " locked=" ++ show_d (b2z is_locked) ++
    " echo=" ++ show_d (b2z echo_on)).
Definition handle_factory `{!AtExtensions} : M W Z :=
  rc* rc := rzi_at_registry_factory_reset else rc in
  respond_ok ;;; sys_reboot ;;; ret 0.
Definition handle_lock (request : rzi_at_request) : M W Z :=
  if operation request =? RZI_AT_OP_READ then
    let* is_locked := rzi_at_is_locked in
    rzi_at_respond_value ("AT+LOCK=" ++ (if is_locked : bool then "locked" else "unlocked"))
  else rzi_at_set_locked true ;;; respond_ok.
Definition handle_pword (request : rzi_at_request) : M W Z :=
  if operation request =? RZI_AT_OP_READ then
    let* password := rzi_at_password in rzi_at_respond_value ("AT+PWORD=" ++ password)
  else
    let value := argument_of request in
    let* is_locked := rzi_at_is_locked in
    if is_locked : bool then
      let* matches := rzi_at_password_matches (Some value) in
      if negb matches then ret (- RZI_ERR_INVALID)
      else rzi_at_set_locked false ;;; respond_ok
    else if (zstrlen value =? 0) || (8 <? zstrlen value) then ret (- RZI_ERR_INVALID)
    else
      rc* rc := save_string "pword" value 8 else rc in
      rc* rc := rzi_at_set_password (Some value) else rc in
      respond_ok.
Definition handle_baud (request : rzi_at_request) : M W Z :=
  if negb CONFIG_RZI_AT_ADAPTER_UART then ret (- RZI_ERR_NOT_SUPPORTED)
  else if operation request =? RZI_AT_OP_READ then
    let* '(rc, baud) := rzi_at_uart_get_baud (Some 0) in
    if rc =? 0 then rzi_at_respond_value ("AT+BAUD=" ++ show_u (default 0 baud)) else ret rc
  else match strtoul (argument_of request) with
  | Some (parsed, ""%string) =>
      if parsed =? 0 then ret (- RZI_ERR_INVALID)
      else rc* rc := rzi_at_uart_set_baud (u32 parsed) else rc in respond_ok
  | _ => ret (- RZI_ERR_INVALID)
  end.
Definition handle_atm : M W Z := respond_ok.
Definition handle_sleep (request : rzi_at_request) : M W Z :=
  if negb CONFIG_RZI_POWER then ret (- RZI_ERR_NOT_SUPPORTED)
  else match strtol (argument_of request) with
  | Some (parsed, ""%string) =>
      if (parsed <=? 0) || (INT32_MAX <? parsed) then ret (- RZI_ERR_INVALID)
      else respond_ok ;;; nvm (power (rzi_power_sleep parsed))
  | _ => ret (- RZI_ERR_INVALID)
  end.
Definition handle_lpm (request : rzi_at_request) : M W Z :=
  if negb CONFIG_RZI_POWER then ret (- RZI_ERR_NOT_SUPPORTED)
  else if operation request =? RZI_AT_OP_READ then
    let* '(rc, enabled) := nvm (power (rzi_power_get_pm_enabled (Some false))) in
    if rc =? 0 then rzi_at_respond_value ("AT+LPM=" ++ show_u (b2z (default false enabled))) else ret rc
  else
    let (rc, enabled) := rzi_at_lorawan_parse_bool (Some (argument_of request)) in
    if negb (rc =? 0) then ret (- RZI_ERR_INVALID)
    else rc* rc := nvm (power (rzi_power_set_pm_enabled enabled)) else rc in respond_ok.
Definition handle_lpmlvl (request : rzi_at_request) : M W Z :=
  if operation request =? RZI_AT_OP_READ then
    let* level := sget lpm_level in rzi_at_respond_value ("AT+LPMLVL=" ++ show_u level)
  else if String.eqb (argument_of request) "1" then sput (put_lpm_level 1) ;;; respond_ok
  else if String.eqb (argument_of request) "2" then sput (put_lpm_level 2) ;;; respond_ok
  else ret (- RZI_ERR_INVALID).
Definition handle_bat : M W Z := ret (- RZI_ERR_NOT_SUPPORTED).
Definition handle_blemac : M W Z :=
  match bt_id_get with
  | None => ret (- RZI_ERR_NOT_SUPPORTED)
  | Some get =>
      let* addrs := get in
      match addrs with
      | [] => ret (- RZI_ERR_NOT_SUPPORTED)
      | addr :: _ =>
          let byte i := show_hex2 (at_ addr i) in
          rzi_at_respond_value ("AT+BLEMAC=" ++ byte 5 ++ ":" ++ byte 4 ++ ":" ++ byte 3 ++ ":" ++
            byte 2 ++ ":" ++ byte 1 ++ ":" ++ byte 0)
      end
  end.

(** [rzi_at_builtin_register], over the registration of the two radio
    packages. *)
Definition rzi_at_builtin_register (rzi_at_lorawan_register rzi_at_lora_register : M W Z) : M W Z :=
  rc* rc := rzi_at_register (Some system_commands) (zlen system_commands) else rc in
  let* '(_, alias) := load_string "alias" ALIAS_MAX in
  match alias with Some s => sput (put_alias_name s) | None => ret tt end ;;;
  let* '(_, serial) := load_string "sn" SN_MAX in
  match serial with Some s => sput (put_serial_number s) | None => ret tt end ;;;
  let* '(rc, stored) := load_string "pword" 8 in
  (if (rc =? 0) && negb (String.eqb (default "" stored) "")
   then rzi_at_set_password stored ;;; ret tt else ret tt) ;;;
  rc* rc := (if CONFIG_RZI_AT_COMMAND_LORAWAN || CONFIG_RZI_AT_COMMAND_LORA
             then rzi_at_network_mode_register else ret 0) else rc in
  rc* rc := (if CONFIG_RZI_AT_COMMAND_LORAWAN then rzi_at_lorawan_register else ret 0) else rc in
  if CONFIG_RZI_AT_COMMAND_LORA then rzi_at_lora_register else ret 0.

(** The handlers of these files, by name. *)
Definition system_handler `{!AtExtensions} (name : string) (request : rzi_at_request) : option (M W Z) :=
  let table : list (string * M W Z) := [
    ("handle_version", handle_version); ("handle_firmwarever", handle_firmwarever);
    ("handle_cliver", handle_cliver); ("handle_apiver", handle_apiver);
    ("handle_hwmodel", handle_hwmodel); ("handle_hwid", handle_hwid); ("handle_sn", handle_sn);
    ("handle_alias", handle_alias request); ("handle_bat", handle_bat);
    ("handle_buildtime", handle_buildtime); ("handle_repoinfo", handle_repoinfo);
    ("handle_boot", handle_boot); ("handle_bootver", handle_bootver); ("handle_debug", handle_debug);
    ("handle_factory", handle_factory); ("handle_lock", handle_lock request);
    ("handle_pword", handle_pword request); ("handle_baud", handle_baud request);
    ("handle_atm", handle_atm); ("handle_sleep", handle_sleep request);
    ("handle_lpm", handle_lpm request); ("handle_lpmlvl", handle_lpmlvl request);
    ("handle_blemac", handle_blemac); ("handle_nwm", handle_nwm request)]%string in
  snd <$> List.find (fun e => String.eqb e.1 name) table.
End system.

(** ** Properties *)
(** The variables live apart: each lens is lawful and moves only its own part,
    and the output binding touches none of them. *)
Class SystemOk `{Zephyr} (W : Type) `{!AtEnv W} `{!StorageEnv W} `{!SystemEnv W} : Prop := {
  system_of_set s w : system_of (set_system s w) = s;
  storage_of_set s w : storage_of (set_storage s w) = s;
  storage_system s w : system_of (set_storage s w) = system_of w;
  system_storage s w : storage_of (set_system s w) = storage_of w;
  at_system s w : system_of (set_at s w) = system_of w;
  at_storage s w : storage_of (set_at s w) = storage_of w;
  system_at s w : at_of (set_system s w) = at_of w;
  storage_at s w : at_of (set_storage s w) = at_of w;
  write_parts f t u w : system_of (run_write f t u w).2 = system_of w /\
    storage_of (run_write f t u w).2 = storage_of w;
  reboot_parts w : system_of (sys_reboot w).2 = system_of w /\ storage_of (sys_reboot w).2 = storage_of w;
}.

Section facts.
Context `{SettingsOk} `{Errno} `{Kconfig} {ctx : ExecCtx} `{CLongOk} {W : Type} `{!AtEnv W}
  `{!StorageEnv W} `{!SystemEnv W} `{!AtBoard W} `{!ModeListeners W} `{!UartDriver W} `{!AtEnvOk} `{!SystemOk W}.

(** What the replies and the reset leave alone. *)
Definition parts (w : W) : system_state * storage_state := (system_of w, storage_of w).
Lemma run_write_parts f t u : keeps parts (run_write f t u).
Proof. intros w. unfold same, parts. by destruct (write_parts f t u w) as [-> ->]. Qed.
Lemma reboot_parts_kept : keeps parts sys_reboot.
Proof. intros w. unfold same, parts. by destruct (reboot_parts w) as [-> ->]. Qed.
#[local] Hint Resolve run_write_parts reboot_parts_kept : frame.
Lemma respond_value_parts t : keeps parts (rzi_at_respond_value t).
Proof. unfold rzi_at_respond_value, write_formatted, write_all, aget. frame. Qed.
Lemma respond_status_parts s : keeps parts (rzi_at_respond_status s).
Proof. unfold rzi_at_respond_status, write_all, aget. frame. Qed.
#[local] Hint Resolve respond_value_parts respond_status_parts : frame.
Lemma respond_at s : keeps at_of (rzi_at_respond_status s).
Proof. unfold rzi_at_respond_status, write_all, aget. frame. intros w. apply write_at. Qed.
Lemma nvm_run {A} (m : M storage_state A) w :
  nvm m w = ((m (storage_of w)).1, set_storage (m (storage_of w)).2 w).
Proof. unfold nvm, zoom. by destruct (m (storage_of w)). Qed.
Lemma nvm_system {A} (m : M storage_state A) : keeps system_of (nvm m).
Proof. intros w. rewrite nvm_run. apply storage_system. Qed.
#[local] Hint Resolve nvm_system : frame.
Lemma sput_run f w : sput f w = (tt, set_system (f (system_of w)) w).
Proof. done. Qed.
Lemma init_again s : (rzi_storage_init s).1 = 0 -> (rzi_storage_init (rzi_storage_init s).2).1 = 0.
Proof. intros Hz. destruct (init_spec s) as (_ & _ & _ & [Hisr Hi]); [done|]. by rewrite init_done. Qed.
Lemma sget_bind {A B} (p : system_state -> A) (k : A -> M W B) w :
  (let* x := sget p in k x) w = k (p (system_of w)) w.
Proof. done. Qed.
Lemma save_mode_system m : keeps system_of (save_mode m).
Proof. unfold save_mode. frame. Qed.
Lemma notify_system m : (forall l, keeps system_of (run_listener l m)) -> keeps system_of (notify_listeners m).
Proof. intros Hl. unfold notify_listeners, sget. frame. Qed.
Lemma save_mode_stored m w : (save_mode m w).1 = 0 -> CONFIG_RZI_AT_NVM = true ->
  stored (storage_of (save_mode m w).2) !! "rzi/nwm"%string = Some [m].
Proof.
  unfold save_mode. intros Hrc Hnvm. revert Hrc. rewrite Hnvm. cbn [negb]. unfold bind. rewrite nvm_run.
  destruct (Z.eqb_spec (rzi_storage_init (storage_of w)).1 0); [|cbn; congruence]. rewrite nvm_run. cbn [fst snd].
  rewrite storage_of_set. intros Hrc.
  destruct (write_ok (Some "rzi")%string (Some "nwm")%string (Some [m]) 1 _ Hrc) as (name & bs & Hn & [= <-] & _ & _ & _ & Hs).
  injection Hn as <-. rewrite storage_of_set, Hs. by rewrite lookup_insert_eq.
Qed.

(** *** Texts in flash *)
Definition nul_free (s : string) : bool := string_forall (fun c => negb (code c =? 0)) s.
Lemma codes_length s : length (codes s) = String.length s.
Proof. induction s as [|c s IH]; cbn; congruence. Qed.
Lemma c_string_codes s t : nul_free s = true -> c_string (codes s ++ 0 :: t) = s.
Proof.
  induction s as [|c s IH]; [done|]. unfold nul_free. cbn [string_forall codes app c_string].
  rewrite andb_true_iff, negb_true_iff. intros [-> Hs]. by rewrite char_code, IH.
Qed.
Lemma strncpy_all n s : zstrlen s <= n -> strncpy n s = s.
Proof.
  unfold strncpy, zstrlen. intros Hn. assert (Hl : (String.length s <= Z.to_nat n)%nat) by lia. clear Hn.
  revert Hl. generalize (Z.to_nat n). induction s as [|c s IH]; intros k Hk; [by destruct k|].
  destruct k as [|k]; cbn in *; [lia|]. rewrite IH by lia. done.
Qed.
Lemma stored_string_shape value n : zstrlen value <= n -> zstrlen value <= ALIAS_MAX ->
  stored_string value n = codes value ++ replicate (17 - String.length value) 0.
Proof.
  intros Hn Ha. unfold stored_string. rewrite strncpy_all by done. unfold overlay.
  cbn [take app]. rewrite drop_replicate, codes_length. by unfold zstrlen in *.
Qed.
Lemma stored_string_text value n : nul_free value = true -> zstrlen value <= n -> zstrlen value <= ALIAS_MAX ->
  strncpy n (c_string (overlay (stored_string value n) 16 [0])) = value.
Proof.
  intros Hf Hn Ha. rewrite stored_string_shape by done. unfold zstrlen in Ha.
  assert (overlay (codes value ++ replicate (17 - String.length value) 0) 16 [0] =
          codes value ++ replicate (17 - String.length value) 0) as ->.
  { unfold overlay. rewrite take_app_ge, drop_app_ge by (rewrite codes_length; lia).
    rewrite codes_length, take_replicate, drop_replicate. cbn [length].
    replace (17 - String.length value - (16 + 1 - String.length value))%nat with O by lia. cbn [replicate].
    rewrite app_nil_r, <- app_assoc. f_equal.
    replace ((16 - String.length value) `min` (17 - String.length value))%nat with (16 - String.length value)%nat by lia.
    replace (17 - String.length value)%nat with ((16 - String.length value) + 1)%nat by lia.
    by rewrite replicate_add. }
  replace (17 - String.length value)%nat with (S (16 - String.length value)) by lia. cbn [replicate].
  rewrite c_string_codes by done. by apply strncpy_all.
Qed.
(** A text that was stored is what [load_string] finds in the same flash. *)
Lemma save_load_string key value n w v : CONFIG_RZI_AT_NVM = true -> loads_ok ->
  nul_free value = true -> 1 <= zstrlen value <= n -> zstrlen value <= ALIAS_MAX ->
  (save_string key value n w).1 = 0 -> (rzi_storage_init (storage_of v)).1 = 0 ->
  stored (storage_of v) = stored (storage_of (save_string key value n w).2) ->
  (load_string key n v).1 = (0, Some value).
Proof.
  intros Hnvm Hloads Hf Hn Ha Hs Hi Hst. revert Hs Hst. unfold save_string, load_string. rewrite Hnvm. cbn [negb].
  rewrite !nvm_run. cbn [fst snd]. rewrite storage_of_set. intros Hs Hst. unfold bind. rewrite nvm_run.
  destruct (write_ok _ _ _ _ _ Hs) as (name & bs & Hname & [= <-] & _ & _ & _ & Hw).
  rewrite (read_spec _ _ _ (ALIAS_MAX + 1) _ name Hname ltac:(lia) (fun f _ => proj1 (Hloads name (ALIAS_MAX + 1) f)) Hi), Hst, Hw.
  rewrite lookup_insert_eq. clear Hw Hst Hs.
  assert (Hlen : length (stored_string value n) = 17%nat).
  { rewrite stored_string_shape by lia. rewrite length_app, codes_length, length_replicate. unfold zstrlen in *. lia. }
  rewrite (take_ge (stored_string value n) (Z.to_nat (ALIAS_MAX + 1))) by (rewrite Hlen; lia).
  assert (Hz : zlen (stored_string value n) = 17) by (unfold zlen; by rewrite Hlen).
  rewrite take_ge by (rewrite Hlen; lia). rewrite Hz, overlay_all by (rewrite Hlen; done).
  change (17 =? 0) with false. change (17 =? ALIAS_MAX + 1) with true. cbv iota. cbn [fst snd default Z.eqb ret].
  unfold default, id. by rewrite stored_string_text by (done || lia).
Qed.
Lemma load_string_parts key n : keeps system_of (load_string key n) /\ keeps (fun w => at_of w) (load_string key n).
Proof.
  unfold load_string. split; [frame|]. frame. intros w. rewrite nvm_run. apply storage_at.
Qed.

(** The restart of the device: what the built-in registration makes of the flash. *)
Lemma aput_parts f : keeps parts (aput f).
Proof. intros w. unfold same, parts, aput, modify. cbn [snd]. by rewrite at_system, at_storage. Qed.
#[local] Hint Resolve aput_parts : frame.
Lemma register_parts cs n : keeps parts (rzi_at_register cs n).
Proof. unfold rzi_at_register, aget. frame. Qed.
Lemma set_password_parts v : keeps parts (rzi_at_set_password v).
Proof. unfold rzi_at_set_password. frame. Qed.
Lemma nvm_at {A} (m : M storage_state A) : keeps at_of (nvm m).
Proof. intros w. rewrite nvm_run. apply storage_at. Qed.
Lemma sput_at f : keeps at_of (sput f).
Proof. intros w. apply system_at. Qed.
#[local] Hint Resolve register_parts set_password_parts nvm_at sput_at : frame.
(** The alias and the password. *)
Definition texts (w : W) : string * string := (alias_name (system_of w), password (at_of w)).
Lemma texts_parts {A} (m : M W A) : keeps system_of m -> keeps at_of m -> keeps texts m.
Proof. intros Hs Ha w. unfold same, texts. by rewrite (Hs w), (Ha w). Qed.
Lemma parts_system {A} (m : M W A) : keeps parts m -> keeps system_of m.
Proof. intros Hp w. specialize (Hp w). unfold same, parts in *. congruence. Qed.
Lemma aput_texts f : (forall s, password (f s) = password s) -> keeps texts (aput f).
Proof. intros Hf w. unfold same, texts, aput, modify. cbn [snd]. by rewrite at_system, at_of_set, Hf. Qed.
Lemma sput_texts f : (forall s, alias_name (f s) = alias_name s) -> keeps texts (sput f).
Proof. intros Hf w. unfold same, texts. rewrite sput_run. cbn [snd]. by rewrite system_of_set, system_at, Hf. Qed.
Lemma register_texts cs n : keeps texts (rzi_at_register cs n).
Proof. unfold rzi_at_register, aget. frame. by apply aput_texts. Qed.
Lemma network_mode_register_texts : keeps texts rzi_at_network_mode_register.
Proof.
  unfold rzi_at_network_mode_register, load_mode, rzi_at_registry_add_extension, aget. frame;
    first [by apply register_texts | by apply aput_texts | by apply sput_texts | apply texts_parts; auto with frame].
Qed.
(** A flash that can be read, and its contents. *)
Definition readable (g : gmap string (list Z)) (w : W) : Prop :=
  (rzi_storage_init (storage_of w)).1 = 0 /\ stored (storage_of w) = g.
Lemma readable_storage g w w' : storage_of w' = storage_of w -> readable g w -> readable g w'.
Proof. unfold readable. by intros ->. Qed.
Lemma load_string_readable g key n : preserves (readable g) (load_string key n).
Proof.
  intros w [Hi Hg]. unfold load_string. destruct CONFIG_RZI_AT_NVM; cbn [negb]; [|done]. unfold bind. rewrite nvm_run.
  assert (Hr : readable g (set_storage
    (rzi_storage_read (Some "rzi"%string) (Some key) (Some (replicate 17 0)) (ALIAS_MAX + 1) (storage_of w)).2 w)).
  2:{ destruct (rzi_storage_read _ _ _ _ _) as [[rc st] s']. cbn [fst snd] in *. by destruct (rc =? 0). }
  unfold readable. rewrite storage_of_set. unfold rzi_storage_read. change (ALIAS_MAX + 1 =? 0) with false. cbv iota.
  destruct (build_name RZI_STORAGE_NAME_MAX (Some "rzi"%string) (Some key)) as [name rc].
  destruct (negb (rc =? 0)); [done|]. unfold bind. destruct (init_spec (storage_of w)) as (_ & Hk & _ & Hd).
  specialize (Hd Hi) as [Hisr Hinit]. destruct (rzi_storage_init (storage_of w)) as [rc0 s0]. cbn [fst snd] in *. subst rc0.
  cbn [Z.eqb]. unfold settings, zoom. pose proof (kv_load name (ALIAS_MAX + 1) (sys s0)) as Hkv.
  destruct (settings_load_one name (ALIAS_MAX + 1) (sys s0)) as [[b l] f]. cbn [fst snd] in *.
  assert (Hdone : (rzi_storage_init (set_sys f s0)).1 = 0 /\ stored (set_sys f s0) = g).
  { rewrite init_done by done. split; [done|]. rewrite <- Hg, <- Hk. done. }
  by destruct (b <? 0), (b =? 0).
Qed.
(** The registration from the alias on: what it does to the two texts. *)
Lemma builtin_register_texts g v L R : readable g v -> keeps texts L -> keeps texts R ->
  (rzi_at_register (Some system_commands) (zlen system_commands) v).1 = 0 ->
  exists va vp, readable g va /\ readable g vp /\
    (forall a, (load_string "alias" ALIAS_MAX va).1 = (0, Some a) ->
       alias_name (system_of (rzi_at_builtin_register L R v).2) = a) /\
    (forall p, (load_string "pword" 8 vp).1 = (0, Some p) -> 1 <= zstrlen p <= 8 ->
       password (at_of (rzi_at_builtin_register L R v).2) = p).
Proof.
  intros Hg HL HR Hreg. set (n := zlen system_commands) in *.
  destruct (rzi_at_builtin_register L R v) as [rc vz] eqn:E. cbn [snd]. revert E. unfold rzi_at_builtin_register.
  fold n. unfold bind at 1. pose proof (register_parts (Some system_commands) n v) as Hp1.
  destruct (rzi_at_register (Some system_commands) n v) as [rc1 v1]. cbn [fst snd] in Hreg, Hp1. subst rc1.
  assert (Hg1 : readable g v1) by (eapply readable_storage, Hg; by injection Hp1).
  cbn [Z.eqb]. unfold bind at 1. pose proof (load_string_readable g "alias" ALIAS_MAX v1 Hg1) as Hg2.
  destruct (load_string "alias" ALIAS_MAX v1) as [[rca a] v2] eqn:Ea. cbn [snd] in Hg2. unfold bind at 1.
  set (step := match a with Some s => sput (put_alias_name s) | None => ret tt end).
  assert (Hg3 : readable g (step v2).2).
  { apply (readable_storage g v2); [|done]. subst step. destruct a; [apply system_storage|done]. }
  assert (Ha3 : forall s, a = Some s -> alias_name (system_of (step v2).2) = s).
  { intros s ->. subst step. rewrite sput_run. cbn [snd]. by rewrite system_of_set. }
  destruct (step v2) as [u3 v3]. cbn [snd] in *. clear step. unfold bind at 1.
  pose proof (load_string_readable g "sn" SN_MAX v3 Hg3) as Hg4.
  pose proof (texts_parts _ (proj1 (load_string_parts "sn" SN_MAX)) (proj2 (load_string_parts "sn" SN_MAX)) v3) as Ht4.
  destruct (load_string "sn" SN_MAX v3) as [[rcs sn] v4]. cbn [snd] in Hg4, Ht4. unfold bind at 1.
  set (step := match sn with Some s => sput (put_serial_number s) | None => ret tt end).
  assert (Hg5 : readable g (step v4).2).
  { apply (readable_storage g v4); [|done]. subst step. destruct sn; [apply system_storage|done]. }
  assert (Ht5 : texts (step v4).2 = texts v4).
  { subst step. destruct sn; [by apply sput_texts|done]. }
  destruct (step v4) as [u5 v5]. cbn [snd] in *. clear step. unfold bind at 1.
  pose proof (texts_parts _ (proj1 (load_string_parts "pword" 8)) (proj2 (load_string_parts "pword" 8)) v5) as Ht6.
  destruct (load_string "pword" 8 v5) as [[rcp p] v6] eqn:Ep. cbn [snd] in Ht6.
  match goal with |- ?m v6 = _ -> _ => set (suffix := m) end. intros E.
  exists v1, v5. split_and!; [done|done| |].
  - intros s Hs. rewrite Ea in Hs. cbn [fst] in Hs. injection Hs as -> ->. rewrite <- (Ha3 s eq_refl).
    assert (Hk : keeps (fun w => alias_name (system_of w)) suffix).
    { subst suffix. frame; first [by intros w; apply (f_equal alias_name), parts_system, set_password_parts
        | intros w; apply (f_equal fst (network_mode_register_texts w)) | intros w; apply (f_equal fst (HL w))
        | intros w; apply (f_equal fst (HR w))]. }
    specialize (Hk v6). rewrite E in Hk. unfold same in Hk. cbn [snd] in Hk.
    unfold same, texts in *. congruence.
  - intros s Hs Hl. rewrite Ep in Hs. cbn [fst] in Hs. injection Hs as -> ->. revert E. subst suffix. unfold bind at 1.
    assert (String.eqb (default "" (Some s)) "" = false) as -> by (destruct s; [by vm_compute in Hl; destruct Hl|done]).
    cbn [Z.eqb negb andb]. unfold bind at 1.
    assert (Hset : password (at_of (rzi_at_set_password (Some s) v6).2) = s).
    { unfold rzi_at_set_password. destruct (Z.eqb_spec (zstrlen s) 0); [lia|]. destruct (Z.ltb_spec 8 (zstrlen s)); [lia|].
      cbn. by rewrite at_of_set. }
    destruct (rzi_at_set_password (Some s) v6) as [rc7 v7]. cbn [snd] in Hset. rewrite <- Hset.
    change (@ret W unit tt v7) with (tt, v7). cbv iota.
    match goal with |- ?m v7 = _ -> _ => set (suffix := m) end. intros E.
    assert (Hk : keeps texts suffix).
    { subst suffix. frame; first [apply network_mode_register_texts | done]. }
    specialize (Hk v7). rewrite E in Hk. unfold same, texts in Hk. cbn [snd] in Hk. congruence.
Qed.

(** The operator's texts are durable: an alias or a password that was stored is in force at once,
    and the built-in registration of a device that restarts with this flash brings it back. *)
Theorem texts_survive_restart value w v L R :
  CONFIG_RZI_AT_NVM = true -> loads_ok -> nul_free value = true ->
  (rzi_storage_init (storage_of v)).1 = 0 ->
  (rzi_at_register (Some system_commands) (zlen system_commands) v).1 = 0 -> keeps texts L -> keeps texts R ->
  let request := AtRequest RZI_AT_OP_WRITE (Some value) in
  let restarted := (rzi_at_builtin_register L R v).2 in
  (1 <= zstrlen value <= ALIAS_MAX -> (save_string "alias" value ALIAS_MAX w).1 = 0 ->
    let w' := (handle_alias request w).2 in
    alias_name (system_of w') = value /\
    (stored (storage_of v) = stored (storage_of w') -> alias_name (system_of restarted) = value)) /\
  (1 <= zstrlen value <= 8 -> locked (at_of w) = 0 -> (save_string "pword" value 8 w).1 = 0 ->
    let w' := (handle_pword request w).2 in
    password (at_of w') = value /\
    (stored (storage_of v) = stored (storage_of w') -> password (at_of restarted) = value)).
Proof.
  intros Hnvm Hloads Hf Hi Hreg HL HR. cbv zeta.
  destruct (builtin_register_texts (stored (storage_of v)) v L R (conj Hi eq_refl) HL HR Hreg)
    as (va & vp & [Hia Hsa] & [Hip Hsp] & Halias & Hpass).
  split; intros Hl.
  - intros Hsave. destruct (handle_alias _ w) as [rc w'] eqn:E. cbn [snd]. revert E. unfold handle_alias.
    unfold argument_of. cbn [operation argument default]. unfold id. change (RZI_AT_OP_WRITE =? RZI_AT_OP_READ) with false. cbv iota.
    destruct (Z.eqb_spec (zstrlen value) 0); [lia|]. destruct (Z.ltb_spec ALIAS_MAX (zstrlen value)); [lia|].
    cbn [orb]. unfold bind at 1. destruct (save_string "alias" value ALIAS_MAX w) as [rc1 w1] eqn:Es. cbn [fst] in Hsave. subst rc1.
    cbn [Z.eqb]. unfold bind. rewrite sput_run. pose proof (respond_status_parts RZI_AT_STATUS_OK (set_system (put_alias_name value (system_of w1)) w1)) as Hp.
    unfold respond_ok. intros E. rewrite E in Hp. cbn [snd] in Hp. unfold same, parts in Hp. injection Hp as Hp1 Hp2.
    rewrite system_of_set in Hp1. rewrite system_storage in Hp2. rewrite Hp1, Hp2. split; [done|]. intros Hst.
    apply Halias. apply (save_load_string "alias" value ALIAS_MAX w); try done; try lia; rewrite Es; [done|]. cbn [snd]. congruence.
  - intros Hlock Hsave. destruct (handle_pword _ w) as [rc w'] eqn:E. cbn [snd]. revert E. unfold handle_pword.
    unfold argument_of. cbn [operation argument default]. unfold id. change (RZI_AT_OP_WRITE =? RZI_AT_OP_READ) with false. cbv iota.
    unfold bind at 1, rzi_at_is_locked, aget, gets. rewrite Hlock. cbn [Z.eqb negb].
    destruct (Z.eqb_spec (zstrlen value) 0); [lia|]. destruct (Z.ltb_spec 8 (zstrlen value)); [lia|]. cbn [orb].
    unfold bind at 1. destruct (save_string "pword" value 8 w) as [rc1 w1] eqn:Es. cbn [fst] in Hsave. subst rc1. cbn [Z.eqb].
    unfold bind, rzi_at_set_password. destruct (Z.eqb_spec (zstrlen value) 0); [lia|]. destruct (Z.ltb_spec 8 (zstrlen value)); [lia|].
    cbn [orb]. unfold bind. pose proof (aput_parts (put_password value) w1) as Hp1.
    assert (Hw2 : password (at_of (aput (put_password value) w1).2) = value) by (cbn; by rewrite at_of_set).
    destruct (aput (put_password value) w1) as [u w2]. cbn [snd fst ret] in *. cbn [Z.eqb]. intros E.
    pose proof (respond_status_parts RZI_AT_STATUS_OK w2) as Hp2. pose proof (respond_at RZI_AT_STATUS_OK w2) as Ha.
    unfold respond_ok in E. rewrite E in Hp2, Ha. unfold same, parts in *. cbn [snd] in *. rewrite Ha. split; [done|].
    intros Hst. apply Hpass; [|done]. apply (save_load_string "pword" value 8 w); try done; try lia; rewrite Es; [done|].
    cbn [snd]. congruence.
Qed.

(** A stored mode is the one a device starts in. *)
Lemma load_mode_stored n v : 0 <= n <= RZI_AT_NETWORK_MODE_P2P_FSK -> CONFIG_RZI_AT_NVM = true -> loads_ok ->
  (rzi_storage_init (storage_of v)).1 = 0 -> stored (storage_of v) !! "rzi/nwm"%string = Some [n] ->
  (load_mode v).1 = 0 /\ network_mode (system_of (load_mode v).2) = n.
Proof.
  intros Hn Hnvm Hloads Hinit Hst.
  unfold load_mode. rewrite Hnvm. cbn [negb]. unfold bind. rewrite nvm_run, Hinit. cbn [Z.eqb]. rewrite nvm_run.
  rewrite storage_of_set. destruct (init_spec (storage_of v)) as (_ & Hkeep & _).
  rewrite (read_spec (Some "rzi")%string (Some "nwm")%string [0] 1 (rzi_storage_init (storage_of v)).2 "rzi/nwm"
    eq_refl ltac:(lia) (fun f _ => proj1 (Hloads "rzi/nwm"%string 1 f)) (init_again _ Hinit)), Hkeep, Hst.
  change (overlay [0] 0 (take (Z.to_nat 1) [n])) with [n]. cbn [fst snd].
  change (zlen [n] =? 0) with false. change (zlen [n] =? 1) with true. cbv iota.
  change (0 =? - RZI_ERR_NOT_FOUND) with false. change (negb (0 =? 0)) with false. cbv iota.
  change (at_ (default [] (Some [n])) 0) with n. unfold bind.
  destruct (Z.ltb_spec RZI_AT_NETWORK_MODE_P2P_FSK n); [lia|].
  rewrite sput_run. cbn [fst snd ret]. split; [done|]. by rewrite system_of_set.
Qed.
(** What [handle_nwm] does once the mode is stored leaves these parts alone. *)
Lemma confirm_mode_parts w : parts
  ((let* rc := respond_ok in (if CONFIG_RZI_AT_COMMAND_LORAWAN && negb CONFIG_ZTEST then sys_reboot else ret tt) ;;; ret rc) w).2 = parts w.
Proof.
  unfold bind. pose proof (respond_status_parts RZI_AT_STATUS_OK w) as Hp. unfold respond_ok.
  destruct (rzi_at_respond_status RZI_AT_STATUS_OK w) as [rc w1]. cbn [snd] in *. rewrite <- Hp.
  assert (Hr : parts ((if CONFIG_RZI_AT_COMMAND_LORAWAN && negb CONFIG_ZTEST then sys_reboot else ret tt) w1).2 = parts w1).
  { destruct (_ && _); [apply reboot_parts_kept|done]. }
  by destruct ((if CONFIG_RZI_AT_COMMAND_LORAWAN && negb CONFIG_ZTEST then sys_reboot else ret tt) w1).
Qed.

(** C19: Switching the working mode is all or nothing.  A listener that refuses, or a mode that cannot
    be stored, is the reply's code: the mode is the old one again and the listeners are told so.
    Otherwise the new mode is in force, and a device that restarts with this flash comes up in it. *)
Theorem mode_switch_outcomes r n w :
  operation r <> RZI_AT_OP_READ -> rzi_at_lorawan_parse_long (argument r) = (0, n) -> 0 <= n <= 2 ->
  n = RZI_AT_NETWORK_MODE_LORAWAN \/ CONFIG_RZI_AT_COMMAND_LORA = true ->
  n <> network_mode (system_of w) -> (forall l m, keeps system_of (run_listener l m)) ->
  let told := notify_listeners n (set_system (put_network_mode n (system_of w)) w) in
  let saved := if told.1 =? 0 then save_mode n told.2 else told in
  let r' := handle_nwm r w in
  (saved.1 <> 0 ->
    r' = (saved.1, (notify_listeners (network_mode (system_of w)) (set_system (system_of w) saved.2)).2) /\
    system_of r'.2 = system_of w) /\
  (saved.1 = 0 ->
    network_mode (system_of r'.2) = n /\
    forall v, CONFIG_RZI_AT_NVM = true -> loads_ok -> (rzi_storage_init (storage_of v)).1 = 0 ->
      stored (storage_of v) = stored (storage_of r'.2) ->
      (load_mode v).1 = 0 /\ network_mode (system_of (load_mode v).2) = n).
Proof.
  intros Hop Hp Hn Hc Hne Hl. cbv zeta. destruct (handle_nwm r w) as [rc w'] eqn:E. cbn [fst snd]. revert E. unfold handle_nwm.
  destruct (Z.eqb_spec (operation r) RZI_AT_OP_READ); [done|]. rewrite Hp. cbn [Z.eqb negb orb].
  destruct (Z.ltb_spec n 0); [lia|]. destruct (Z.ltb_spec RZI_AT_NETWORK_MODE_P2P_FSK n); [lia|]. cbn [orb].
  assert (u8 n = n) as -> by (unfold u8; rewrite Z.mod_small; lia).
  assert (negb (n =? RZI_AT_NETWORK_MODE_LORAWAN) && negb CONFIG_RZI_AT_COMMAND_LORA = false) as ->.
  { destruct Hc as [-> | ->]; [done|]. by rewrite andb_false_r. }
  rewrite sget_bind. destruct (Z.eqb_spec n (network_mode (system_of w))); [done|].
  unfold bind at 1. rewrite sput_run. unfold bind at 1.
  set (w1 := set_system (put_network_mode n (system_of w)) w).
  pose proof (notify_system n (fun l => Hl l n) w1) as Hk. unfold same in Hk.
  assert (Hw1 : system_of w1 = put_network_mode n (system_of w)) by apply system_of_set.
  destruct (notify_listeners n w1) as [rc1 w2]. cbn [fst snd] in *. unfold bind at 1.
  assert (Heq : (if rc1 =? 0 then let* mode := sget network_mode in save_mode mode else ret rc1) w2 = if rc1 =? 0 then save_mode n w2 else (rc1, w2)).
  { destruct (rc1 =? 0); [|done]. by rewrite sget_bind, Hk, Hw1. }
  rewrite Heq. clear Heq. set (saved := if rc1 =? 0 then save_mode n w2 else (rc1, w2)).
  assert (Hw3 : system_of saved.2 = put_network_mode n (system_of w)).
  { rewrite <- Hw1, <- Hk. subst saved. destruct (rc1 =? 0); [|done]. apply save_mode_system. }
  assert (Hstored : saved.1 = 0 -> CONFIG_RZI_AT_NVM = true ->
    stored (storage_of saved.2) !! "rzi/nwm"%string = Some [n]).
  { subst saved. destruct (rc1 =? 0) eqn:E; [apply save_mode_stored|]. cbn. lia. }
  destruct saved as [rc3 w3]. cbn [fst snd] in *.
  assert (Hold : put_network_mode (network_mode (system_of w)) (system_of w3) = system_of w)
    by (rewrite Hw3; by destruct (system_of w)).
  destruct (Z.eqb_spec rc3 0) as [->|Hrc]; cbn [negb].
  - intros E. split; [done|]. intros _. pose proof (confirm_mode_parts w3) as Hp3. rewrite E in Hp3. cbn [snd] in Hp3.
    unfold parts in Hp3. injection Hp3 as -> ->. rewrite Hw3. split; [done|].
    intros v Hnvm Hloads Hinit Hst. specialize (Hstored eq_refl Hnvm). rewrite <- Hst in Hstored.
    by apply load_mode_stored.
  - intros E. split; [|done]. intros _. revert E. unfold bind. rewrite sput_run, Hold.
    pose proof (notify_system (network_mode (system_of w)) (fun l => Hl l _) (set_system (system_of w) w3)) as Hk5.
    destruct (notify_listeners _ (set_system (system_of w) w3)) as [rc5 w5]. cbn [snd] in *.
    intros [= <- <-]. split; [done|]. unfold same in Hk5. by rewrite Hk5, system_of_set.
Qed.
End facts.

Module SystemSim.
Export Instances CLongInstances.
(** A device without radio packages: it records its output and the modes its
    listener is told, and a listener can refuse the FSK mode. *)
Record box : Type := Box {
  box_at : at_state; box_storage : storage_state; box_system : system_state;
  box_out : list string; box_told : list Z; box_resets : Z;
}.
#[export] Instance box_env : AtEnv box | 10 := {|
  at_of := box_at;
  set_at s w := Box s (box_storage w) (box_system w) (box_out w) (box_told w) (box_resets w);
  run_write _ t _ w := (0, Box (box_at w) (box_storage w) (box_system w) (box_out w ++ [t]) (box_told w) (box_resets w));
  sys_reboot := modify (fun w => Box (box_at w) (box_storage w) (box_system w) (box_out w) (box_told w) (box_resets w + 1));
  resets := box_resets;
|}.
#[export] Instance box_env_ok : AtEnvOk.
Proof. by split. Qed.
#[export] Instance box_storage_env : StorageEnv box | 10 := {|
  storage_of := box_storage;
  set_storage s w := Box (box_at w) s (box_system w) (box_out w) (box_told w) (box_resets w) |}.
#[export] Instance box_system_env : SystemEnv box | 10 := {|
  system_of := box_system;
  set_system s w := Box (box_at w) (box_storage w) s (box_out w) (box_told w) (box_resets w) |}.
#[export] Instance box_system_ok : SystemOk box.
Proof. by split. Qed.
#[export] Instance box_board : AtBoard box | 10 := {|
  CONFIG_BOARD := "rak4631"; CONFIG_SOC := "nrf52840"; BUILD_DATE := "Jan  1 2026"; BUILD_TIME := "00:00:00";
  hwinfo_get_device_id := Some (fun _ => ret (8, [1; 2; 3; 4; 5; 6; 7; 255])); bt_id_get := None;
|}.
#[export] Instance box_listeners : ModeListeners box | 10 := {|
  run_listener _ m w := (if m =? RZI_AT_NETWORK_MODE_P2P_FSK then - RZI_ERR_NOT_SUPPORTED else 0,
    Box (box_at w) (box_storage w) (box_system w) (box_out w) (box_told w ++ [m]) (box_resets w)) |}.
#[export] Instance box_uart : UartDriver box | 10 := {|
  CONFIG_RZI_AT_ADAPTER_UART := true; uart_config := Z; set_baudrate b _ := b;
  device_is_ready _ := ret true; uart_irq_callback_user_data_set _ _ := ret 0;
  uart_irq_rx_enable _ := ret tt; uart_irq_update _ := ret tt; uart_irq_rx_ready _ := ret false;
  uart_fifo_read _ _ := ret (0, []); uart_poll_out _ _ := ret tt; uart_config_get _ := ret (0, 115200);
  uart_configure _ _ := ret 0; uart_write_address := 9;
|}.
Definition fresh_flash (f : sim_flash) : storage_state :=
  StorageState false f (power_init (0 : @pm_st sim_zephyr)).
(** A device that starts, with this flash: the AT service is in [rzi_at_start]. *)
Definition starting (f : sim_flash) : box :=
  Box (put_at_started 1 (at_boot (([], 1024) : @ring_buf sim_zephyr))) (fresh_flash f)
    (put_listeners ["on_network_mode"%string] system_boot) [] [] 0.
End SystemSim.

Module SystemWitness.
Import SystemSim.
Definition empty_device : box := starting (SimFlash ∅ []).
Definition nwm_write (mode : string) : rzi_at_request := AtRequest RZI_AT_OP_WRITE (Some mode).
Lemma mode_switch_outcomes_witness :
  network_mode (system_of (handle_nwm (nwm_write "0") empty_device).2) = RZI_AT_NETWORK_MODE_P2P_LORA /\
  handle_nwm (nwm_write "2") empty_device =
    (- RZI_ERR_NOT_SUPPORTED, Box (box_at empty_device) (box_storage empty_device) (box_system empty_device) [] [2; 1] 0).
Proof.
  split.
  - refine (proj1 (proj2 (mode_switch_outcomes (nwm_write "0") 0 empty_device _ _ _ _ _ _) _));
      first [done | by right | by vm_compute].
  - refine (eq_trans (proj1 (proj1 (mode_switch_outcomes (nwm_write "2") 2 empty_device _ _ _ _ _ _) _)) _);
      first [done | by right | by vm_compute].
Defined.
(** The alias and password of the device before, and what it left in flash. *)
Definition named : box := (handle_alias (AtRequest RZI_AT_OP_WRITE (Some "n1")) empty_device).2.
Definition with_password : box := (handle_pword (AtRequest RZI_AT_OP_WRITE (Some "n1")) empty_device).2.
Lemma texts_survive_restart_witness :
  alias_name (system_of (rzi_at_builtin_register (ret 0) (ret 0) (starting (sys (box_storage named)))).2) = "n1"%string /\
  password (at_of (rzi_at_builtin_register (ret 0) (ret 0) (starting (sys (box_storage with_password)))).2) = "n1"%string.
Proof.
  split.
  - refine (proj2 (proj1 (texts_survive_restart "n1" empty_device (starting (sys (box_storage named))) (ret 0) (ret 0)
      eq_refl StorageWitness.sim_loads_ok eq_refl eq_refl eq_refl _ _) _ _) _); first [done | by vm_compute].
  - refine (proj2 (proj2 (texts_survive_restart "n1" empty_device (starting (sys (box_storage with_password))) (ret 0) (ret 0)
      eq_refl StorageWitness.sim_loads_ok eq_refl eq_refl eq_refl _ _) _ _ _) _); first [done | by vm_compute].
Defined.
End SystemWitness.
