(* ===== verification/AtLorawan.v ===== *)
(** * The LoRaWAN AT package (src/at/commands/lorawan/at_lorawan.c,
    at_lorawan_priv.h, at_lorawan_key_id.c, at_lorawan_join_send.c)

    The package's context and life cycle, its event handler, and the commands
    for keys, joining and data.  The package runs on the state of the LoRaWAN
    service: its context, the AT port and the system commands have their
    variables in the part of that state that belongs to the application.  The
    devicetree defaults and the address of the event handler are parameters. *)
From S2P Require Import Prelude Zephyr Err Power Storage LorawanSettings LorawanBackend LorawanCore LorawanCredentials LorawanChannel LorawanApi Lorawan CString At AtArgs AtSystem.

(** [struct rzi_at_lorawan_last_downlink] *)
Record rzi_at_lorawan_last_downlink : Type := LastDownlink {
  ld_valid : bool; ld_port : Z; ld_size : Z; ld_data : list Z;
}.
(** [struct rzi_at_lorawan_context], without its mutex *)
Record rzi_at_lorawan_context : Type := LorawanContext {
  service_started : bool; join_pending : Z; device_class : Z; confirmation_status : Z;
  tx_confirmed : Z; last_downlink : rzi_at_lorawan_last_downlink;
}.
Definition context_boot : rzi_at_lorawan_context :=
  LorawanContext false 0 RZI_LORAWAN_CLASS_A 0 0
    (LastDownlink false 0 0 (replicate (Z.to_nat RZI_LORAWAN_MAX_PAYLOAD) 0)).
Definition put_service_started v c := LorawanContext v (join_pending c) (device_class c) (confirmation_status c) (tx_confirmed c) (last_downlink c).
Definition put_join_pending v c := LorawanContext (service_started c) v (device_class c) (confirmation_status c) (tx_confirmed c) (last_downlink c).
Definition put_device_class v c := LorawanContext (service_started c) (join_pending c) v (confirmation_status c) (tx_confirmed c) (last_downlink c).
Definition put_confirmation_status v c := LorawanContext (service_started c) (join_pending c) (device_class c) v (tx_confirmed c) (last_downlink c).
Definition put_tx_confirmed v c := LorawanContext (service_started c) (join_pending c) (device_class c) (confirmation_status c) v (last_downlink c).
Definition put_last_downlink v c := LorawanContext (service_started c) (join_pending c) (device_class c) (confirmation_status c) (tx_confirmed c) v.

Definition rzi_at_lorawan_band_to_region (band : Z) : Z * Z :=
  match band with
  | 1 => (0, RZI_LORAWAN_REGION_CN_470)
  | 2 => (0, RZI_LORAWAN_REGION_RU_864)
  | 3 => (0, RZI_LORAWAN_REGION_IN_865)
  | 4 => (0, RZI_LORAWAN_REGION_EU_868)
  | 5 => (0, RZI_LORAWAN_REGION_US_915)
  | 6 => (0, RZI_LORAWAN_REGION_AU_915)
  | 7 => (0, RZI_LORAWAN_REGION_KR_920)
  | 8 => (0, RZI_LORAWAN_REGION_AS_923_GRP1)
  | 9 => (0, RZI_LORAWAN_REGION_AS_923_GRP2)
  | 10 => (0, RZI_LORAWAN_REGION_AS_923_GRP3)
  | 11 => (0, RZI_LORAWAN_REGION_AS_923_GRP4)
  | _ => (- RZI_ERR_INVALID, 0)
  end.
Definition rzi_at_lorawan_region_to_band (region : Z) : Z :=
  if region =? RZI_LORAWAN_REGION_CN_470 then 1
  else if region =? RZI_LORAWAN_REGION_RU_864 then 2
  else if region =? RZI_LORAWAN_REGION_IN_865 then 3
  else if region =? RZI_LORAWAN_REGION_EU_868 then 4
  else if region =? RZI_LORAWAN_REGION_US_915 then 5
  else if region =? RZI_LORAWAN_REGION_AU_915 then 6
  else if region =? RZI_LORAWAN_REGION_KR_920 then 7
  else if region =? RZI_LORAWAN_REGION_AS_923_GRP1 then 8
  else if region =? RZI_LORAWAN_REGION_AS_923_GRP2 then 9
  else if region =? RZI_LORAWAN_REGION_AS_923_GRP3 then 10
  else if region =? RZI_LORAWAN_REGION_AS_923_GRP4 then 11
  else 4.

Definition key_id_commands : list rzi_at_command := [
  AtCommand (Some "DEVEUI") (Some "get or set the device EUI (8 bytes in hex)")
    ALLOW_READ_WRITE (Some "handle_key") (Some "dev_eui");
  AtCommand (Some "APPEUI") (Some "get or set the application EUI (8 bytes in hex)")
    ALLOW_READ_WRITE (Some "handle_key") (Some "join_eui");
  AtCommand (Some "APPKEY") (Some "get or set the application key (16 bytes in hex)")
    ALLOW_READ_WRITE (Some "handle_key") (Some "app_key");
  AtCommand (Some "DEVADDR") (Some "get or set the device address (4 bytes in hex)")
    ALLOW_READ_WRITE (Some "handle_devaddr") None;
  AtCommand (Some "NWKSKEY") (Some "get or set the network session key (16 bytes in hex)")
    ALLOW_READ_WRITE (Some "handle_key") (Some "nwk_skey");
  AtCommand (Some "APPSKEY") (Some "get or set the application session key (16 bytes in hex)")
    ALLOW_READ_WRITE (Some "handle_key") (Some "app_skey");
  AtCommand (Some "NETID") (Some "get or set the network identifier (NetID) (3 bytes in hex)")
    ALLOW_READ_WRITE (Some "handle_netid") None;
  AtCommand (Some "MCROOTKEY") (Some "get the multicast root key (16 bytes in hex)")
    RZI_AT_ALLOW_READ (Some "handle_mcrootkey") None
]%string.
Definition join_send_commands : list rzi_at_command := [
  AtCommand (Some "NJM") (Some "get or set the network join mode (0 = ABP, 1 = OTAA)")
    ALLOW_READ_WRITE (Some "handle_njm") None;
  AtCommand (Some "NJS") (Some "get the join status (0 = not joined, 1 = joined)")
    RZI_AT_ALLOW_READ (Some "handle_njs") None;
  AtCommand (Some "CFM") (Some "get or set the confirmation mode (0 = OFF, 1 = ON)")
    ALLOW_READ_WRITE (Some "handle_cfm") None;
  AtCommand (Some "CFS") (Some "get the confirmation status of the last AT+SEND (0 = failure, 1 = success)")
    RZI_AT_ALLOW_READ (Some "handle_cfs") None;
  AtCommand (Some "JOIN") (Some "join network")
    (Z.lor (Z.lor RZI_AT_ALLOW_RUN RZI_AT_ALLOW_READ) RZI_AT_ALLOW_WRITE) (Some "handle_join") None;
  AtCommand (Some "SEND") (Some "send data along with the application port")
    RZI_AT_ALLOW_WRITE (Some "handle_send") None;
  AtCommand (Some "RECV") (Some "print the last received data in hex format")
    RZI_AT_ALLOW_READ (Some "handle_recv") None;
  AtCommand (Some "RETY") (Some "get or set the number of retransmission of confirm packet data")
    ALLOW_READ_WRITE (Some "handle_rety") None;
  AtCommand (Some "LPSEND") (Some "send long packet data (max 242 bytes in this implementation)")
    RZI_AT_ALLOW_WRITE (Some "handle_lpsend") None
]%string.

(** [struct join_parameters] *)
Record join_parameters : Type := JoinParameters {
  jp_start : Z; jp_auto_join : Z; jp_interval : Z; jp_attempts : Z;
}.
(** The loop of [parse_join_parameters]; the fuel is the room in [values]. *)
Fixpoint join_values `{CLong} (fuel : nat) (cursor : string) (values : list Z) : option (list Z * string) :=
  match fuel, cursor with
  | O, _ | _, ""%string => Some (values, cursor)
  | S fuel, _ =>
      match strtol cursor with
      | None => None
      | Some (v, rest) =>
          if (v <? 0) || (UINT8_MAX <? v) then None
          else match rest with
          | ""%string => Some (values ++ [v], ""%string)
          | String c next =>
              if negb (Ascii.eqb c ":") || String.eqb next "" then None
              else join_values fuel next (values ++ [v])
          end
      end
  end.
Definition parse_join_parameters `{CLong} (argument : string) : Z * join_parameters :=
  let refused := (- RZI_ERR_INVALID, JoinParameters 0 0 0 0) in
  match join_values 4 argument [] with
  | None => refused
  | Some (values, cursor) =>
      let count := zlen values in
      if negb (String.eqb cursor "") || (count =? 0) || (1 <? at_ values 0) ||
         ((2 <=? count) && (1 <? at_ values 1)) ||
         ((3 <=? count) && ((at_ values 2 <? RZI_LORAWAN_JOIN_INTERVAL_MIN) ||
                            (RZI_LORAWAN_JOIN_INTERVAL_MAX <? at_ values 2)))
      then refused
      else
        (0, JoinParameters (at_ values 0)
              (if 2 <=? count then at_ values 1 else RZI_LORAWAN_JOIN_KEEP)
              (if 3 <=? count then at_ values 2 else RZI_LORAWAN_JOIN_KEEP)
              (if 4 <=? count then at_ values 3 else RZI_LORAWAN_JOIN_KEEP))
  end.

(** Where the context lives, the address of [on_event], and the devicetree
    properties user-lorawan-device-eui, -join-eui and -app-key when all three
    are present. *)
Class LorawanAtEnv (W : Type) : Type := {
  lctx_of : W -> rzi_at_lorawan_context;
  set_lctx : rzi_at_lorawan_context -> W -> W;
  on_event_address : Z;
  dt_defaults : option (list Z * list Z * list Z);
}.

Section package.
Context `{Zephyr} `{Errno} `{Kconfig} {ctx : ExecCtx} `{CLong} `{LorawanBackend} `{LorawanExt}
  `{!LorawanHooks} `{!AtEnv world} `{!SystemEnv world} `{!LorawanAtEnv world}.
#[export] Instance world_storage : StorageEnv world := {|
  storage_of w := sto (w_cfg w);
  set_storage s w := set_w_cfg (set_sto s (w_cfg w)) w;
|}.

Definition cget {A} (p : rzi_at_lorawan_context -> A) : M world A := gets (fun w => p (lctx_of w)).
Definition cput (f : rzi_at_lorawan_context -> rzi_at_lorawan_context) : M world unit :=
  modify (fun w => set_lctx (f (lctx_of w)) w).
Definition at_event (text : string) : M world unit := rzi_at_publish_event text ;;; ret tt.
(** [rc == 0 ? rzi_at_respond_status(RZI_AT_STATUS_OK) : rc], also written
    [rc != 0 ? rc : ...] *)
Definition respond_to_result (rc : Z) : M world Z := if rc =? 0 then respond_ok else ret rc.
(** [rc = get(&x); return rc != 0 ? rc : rzi_at_respond_value(...)] *)
Definition respond_with {A} (d : A) (get : option A -> M world (Z * option A)) (text : A -> string)
  : M world Z :=
  let* '(rc, v) := get (Some d) in
  if rc =? 0 then rzi_at_respond_value (text (default d v)) else ret rc.

(** *** at_lorawan.c *)
Definition rzi_at_lorawan_apply_class : M world Z :=
  let* started := cget service_started in
  let* class := cget device_class in
  if negb started || (class =? RZI_LORAWAN_CLASS_A) then ret 0 else rzi_lorawan_set_class class.
Definition rzi_at_lorawan_is_joined : M world bool :=
  let* started := cget service_started in
  if negb started then ret false
  else let* '(rc, joined) := rzi_lorawan_is_joined (Some false) in
       ret ((rc =? 0) && default false joined).
Definition start_service : M world Z :=
  let* '(rc, region) := rzi_lorawan_get_region (Some 0) in
  if negb (rc =? 0) then ret rc
  else
    cput (put_join_pending 1) ;;;
    let* rc := rzi_lorawan_init (default 0 region) in
    if negb (rc =? 0) then cput (put_join_pending 0) ;;; ret rc
    else cput (put_service_started true) ;;; ret 0.
Definition join_now : M world Z :=
  rzi_lorawan_join 1 RZI_LORAWAN_JOIN_KEEP RZI_LORAWAN_JOIN_KEEP RZI_LORAWAN_JOIN_KEEP.
Definition rzi_at_lorawan_join_start : M world Z :=
  let* started := cget service_started in
  if negb started then start_service
  else
    let* joined := rzi_at_lorawan_is_joined in
    if joined : bool then at_event "JOINED" ;;; ret 0 else join_now.
Definition rzi_at_lorawan_join_stop : M world Z :=
  cput (put_join_pending 0) ;;;
  let* started := cget service_started in
  if started : bool then rzi_lorawan_leave else ret 0.
Definition continue_pending_join : M world unit :=
  let* pending := cget join_pending in
  if pending =? 1 then
    cput (put_join_pending 0) ;;;
    let* rc := rzi_at_lorawan_apply_class in
    let* rc := if rc =? 0 then join_now else ret rc in
    if negb (rc =? 0) then at_event "JOIN_FAILED_RX_TIMEOUT" else ret tt
  else ret tt.
Definition downlink_text (d : downlink_info) : string :=
  "RX_1:" ++ show_d (dl_rssi_dbm d) ++ ":" ++ show_d (Z.quot (dl_snr_quarter_db d) 4) ++ ":UNICAST:" ++
  show_u (dl_port d) ++ ":" ++ rzi_at_lorawan_bin_to_hex (take (Z.to_nat (dl_size d)) (dl_data d)).
Definition on_event (event : rzi_lorawan_event) : M world unit :=
  match event with
  | EVENT_READY => continue_pending_join
  | EVENT_STATE_CHANGED STATE_READY => continue_pending_join
  | EVENT_JOINED => at_event "JOINED"
  | EVENT_JOIN_FAILED _ => at_event "JOIN_FAILED_RX_TIMEOUT"
  | EVENT_TXDONE status _ =>
      let* confirmed := cget tx_confirmed in
      if confirmed =? 0 then at_event "TX_DONE"
      else match status with
      | TXDONE_CONFIRMED => cput (put_confirmation_status 1) ;;; at_event "SEND_CONFIRMED_OK"
      | TXDONE_NOT_SENT => cput (put_confirmation_status 0) ;;; at_event "SEND_CONFIRMED_FAILED"
      | _ => at_event "TX_DONE"
      end
  | EVENT_DOWNDATA d =>
      cput (fun c => put_last_downlink
        (LastDownlink true (dl_port d) (dl_size d)
           (overlay (ld_data (last_downlink c)) 0 (take (Z.to_nat (dl_size d)) (dl_data d)))) c) ;;;
      at_event (downlink_text d)
  | _ => ret tt
  end.
(** One step of the provisioning: a credential that was never stored gets its
    devicetree value. *)
Definition provision (get : option (list Z) -> Z -> M world (Z * option (list Z)))
    (set : option (list Z) -> Z -> M world Z) (value : list Z) : M world Z :=
  let* '(rc, _) := get (Some (replicate (length value) 0)) (zlen value) in
  if rc =? - RZI_ERR_NO_DATA then set (Some value) (zlen value) else ret 0.
Definition lorawan_extension_start : M world Z :=
  rc* rc := (match dt_defaults with
             | None => ret 0
             | Some (dev_eui, join_eui, app_key) =>
                 rc* rc := provision rzi_lorawan_get_dev_eui rzi_lorawan_set_dev_eui dev_eui else rc in
                 rc* rc := provision rzi_lorawan_get_app_eui rzi_lorawan_set_app_eui join_eui else rc in
                 provision rzi_lorawan_get_app_key rzi_lorawan_set_app_key app_key
             end) else rc in
  rc* rc := rzi_lorawan_register_callbacks (Some (Callbacks on_event_address 0)) else rc in
  let* '(rc, auto_join) := rzi_lorawan_get_auto_join (Some false) in
  (if (rc =? 0) && default false auto_join then
     let* mode := rzi_at_network_mode_get in
     if mode =? RZI_AT_NETWORK_MODE_LORAWAN then
       let* rc := rzi_at_lorawan_join_start in
       if negb (rc =? 0) then at_event "JOIN_FAILED_RX_TIMEOUT" else ret tt
     else ret tt
   else ret tt) ;;;
  ret 0.
Definition lorawan_factory_reset : M world Z :=
  let* result := rzi_lorawan_clear_settings in
  if negb CONFIG_RZI_AT_NVM then ret result
  else for_first_error ["alias"; "sn"; "pword"; "lpm"]%string (delete_stored_key "rzi") result.
Definition lorawan_extension : rzi_at_extension :=
  AtExtension (Some "lorawan_extension_start") None (Some "lorawan_factory_reset")%string.

(** *** at_lorawan_key_id.c *)
Record key_command : Type := KeyCommand {
  response_name : string; key_size : Z;
  key_get : option (list Z) -> Z -> M world (Z * option (list Z));
  key_set : option (list Z) -> Z -> M world Z;
}.
Definition dev_eui_command := KeyCommand "AT+DEVEUI" 8 rzi_lorawan_get_dev_eui rzi_lorawan_set_dev_eui.
Definition join_eui_command := KeyCommand "AT+APPEUI" 8 rzi_lorawan_get_app_eui rzi_lorawan_set_app_eui.
Definition app_key_command := KeyCommand "AT+APPKEY" 16 rzi_lorawan_get_app_key rzi_lorawan_set_app_key.
Definition nwk_skey_command := KeyCommand "AT+NWKSKEY" 16 rzi_lorawan_get_nwk_skey rzi_lorawan_set_nwk_skey.
Definition app_skey_command := KeyCommand "AT+APPSKEY" 16 rzi_lorawan_get_app_skey rzi_lorawan_set_app_skey.
(** The objects the command table points to. *)
Definition key_command_of (user_data : option string) : key_command :=
  match user_data with
  | Some "join_eui" => join_eui_command
  | Some "app_key" => app_key_command
  | Some "nwk_skey" => nwk_skey_command
  | Some "app_skey" => app_skey_command
  | _ => dev_eui_command
  end%string.
Definition handle_key (request : rzi_at_request) (command : key_command) : M world Z :=
  let zeros := replicate (Z.to_nat (key_size command)) 0 in
  if operation request =? RZI_AT_OP_READ then
    let* '(rc, value) := key_get command (Some zeros) (key_size command) in
    if negb (rc =? 0) && negb (rc =? - RZI_ERR_NO_DATA) then ret rc
    else
      let value := if rc =? 0 then default zeros value else zeros in
      rzi_at_respond_value (response_name command ++ "=" ++ rzi_at_lorawan_bin_to_hex value)
  else
    let (rc, value) := rzi_at_lorawan_hex_to_bin (argument_of request) (key_size command) in
    if negb (rc =? 0) then ret rc
    else let* rc := key_set command (Some value) (key_size command) in respond_to_result rc.
Definition handle_devaddr (request : rzi_at_request) : M world Z :=
  if operation request =? RZI_AT_OP_READ then
    let* '(rc, dev_addr) := rzi_lorawan_get_dev_addr (Some 0) in
    if negb (rc =? 0) && negb (rc =? - RZI_ERR_NO_DATA) then ret rc
    else
      let dev_addr := if rc =? 0 then default 0 dev_addr else 0 in
      rzi_at_respond_value ("AT+DEVADDR=" ++ rzi_at_lorawan_bin_to_hex (sys_put_be32 dev_addr))
  else
    let (rc, bytes) := rzi_at_lorawan_hex_to_bin (argument_of request) 4 in
    if negb (rc =? 0) then ret rc
    else let* rc := rzi_lorawan_set_dev_addr (sys_get_be32 bytes) in respond_to_result rc.
Definition net_id_bytes (net_id : Z) : list Z :=
  [Z.land (Z.shiftr net_id 16) 0xff; Z.land (Z.shiftr net_id 8) 0xff; Z.land net_id 0xff].
Definition handle_netid (request : rzi_at_request) : M world Z :=
  if operation request =? RZI_AT_OP_READ then
    respond_with 0 rzi_lorawan_get_net_id (fun net_id =>
      "AT+NETID=" ++ rzi_at_lorawan_bin_to_hex (net_id_bytes net_id))%string
  else
    let (rc, bytes) := rzi_at_lorawan_hex_to_bin (argument_of request) 3 in
    if negb (rc =? 0) then ret rc
    else
      let net_id := Z.lor (Z.lor (Z.shiftl (at_ bytes 0) 16) (Z.shiftl (at_ bytes 1) 8)) (at_ bytes 2) in
      let* rc := rzi_lorawan_set_net_id net_id in respond_to_result rc.
Definition handle_mcrootkey : M world Z :=
  let zeros := replicate 16 0 in
  let* '(rc, key) := rzi_lorawan_get_app_key (Some zeros) 16 in
  if negb (rc =? 0) && negb (rc =? - RZI_ERR_NO_DATA) then ret rc
  else rzi_at_respond_value ("AT+MCROOTKEY=" ++ rzi_at_lorawan_bin_to_hex (default zeros key)).

(** *** at_lorawan_join_send.c *)
Definition handle_njm (request : rzi_at_request) : M world Z :=
  if operation request =? RZI_AT_OP_READ then
    respond_with 0 rzi_lorawan_get_activation (fun mode =>
      "AT+NJM=" ++ show_u (if (mode =? RZI_LORAWAN_ACTIVATION_ABP)%Z then 0 else 1))%string
  else
    let (rc, parsed) := rzi_at_lorawan_parse_long (argument request) in
    if negb (rc =? 0) || (parsed <? 0) || (1 <? parsed) then ret (- RZI_ERR_INVALID)
    else
      let mode := if parsed =? 0 then RZI_LORAWAN_ACTIVATION_ABP else RZI_LORAWAN_ACTIVATION_OTAA in
      let* rc := rzi_lorawan_set_activation mode in respond_to_result rc.
Definition handle_njs : M world Z :=
  let* joined := rzi_at_lorawan_is_joined in
  rzi_at_respond_value ("AT+NJS=" ++ show_d (b2z joined)).
Definition handle_cfm (request : rzi_at_request) : M world Z :=
  if operation request =? RZI_AT_OP_READ then
    respond_with false rzi_lorawan_get_confirmed (fun enabled => "AT+CFM=" ++ show_u (b2z enabled))%string
  else
    let (rc, enabled) := rzi_at_lorawan_parse_bool (argument request) in
    if negb (rc =? 0) then ret rc
    else let* rc := rzi_lorawan_set_confirmed enabled in respond_to_result rc.
Definition handle_cfs : M world Z :=
  let* status := cget confirmation_status in
  rzi_at_respond_value ("AT+CFS=" ++ show_d (b2z (negb (status =? 0)))).
Definition handle_join (request : rzi_at_request) : M world Z :=
  if operation request =? RZI_AT_OP_READ then
    let* '(rc, auto_join) := rzi_lorawan_get_auto_join (Some false) in
    if negb (rc =? 0) then ret rc
    else
      let* '(rc, interval) := rzi_lorawan_get_join_interval (Some RZI_LORAWAN_JOIN_INTERVAL_DEFAULT) in
      if negb (rc =? 0) then ret rc
      else
        let* '(rc, attempts) := rzi_lorawan_get_join_attempts (Some 0) in
        if negb (rc =? 0) then ret rc
        else rzi_at_respond_value ("AT+JOIN=1:" ++ show_u (b2z (default false auto_join)) ++ ":" ++
               show_u (default 0 interval) ++ ":" ++ show_u (default 0 attempts))
  else if operation request =? RZI_AT_OP_RUN then
    let* rc := rzi_at_lorawan_join_start in respond_to_result rc
  else
    let (rc, p) := parse_join_parameters (argument_of request) in
    if negb (rc =? 0) then ret rc
    else if jp_start p =? 0 then
      rc* rc := rzi_lorawan_join 0 (jp_auto_join p) (jp_interval p) (jp_attempts p) else rc in
      let* rc := rzi_at_lorawan_join_stop in respond_to_result rc
    else
      let* joined := rzi_at_lorawan_is_joined in
      if joined : bool then
        let* rc := rzi_lorawan_join RZI_LORAWAN_JOIN_KEEP (jp_auto_join p) (jp_interval p) (jp_attempts p) in
        (if rc =? 0 then at_event "JOINED" else ret tt) ;;;
        respond_to_result rc
      else
        let* rc := rzi_lorawan_join 1 (jp_auto_join p) (jp_interval p) (jp_attempts p) in
        if rc =? - RZI_ERR_NOT_READY
        then let* rc := rzi_at_lorawan_join_start in respond_to_result rc
        else respond_to_result rc.
(** The last part of [handle_send] and [handle_lpsend]. *)
Definition send_now (port : Z) (payload : list Z) (hex_len : Z) (confirmed : bool) : M world Z :=
  cput (put_tx_confirmed (b2z confirmed)) ;;;
  let* rc := rzi_lorawan_send (u8 port) (Some payload) (hex_len / 2)
    (if confirmed then RZI_LORAWAN_MSG_CONFIRMED else RZI_LORAWAN_MSG_UNCONFIRMED) in
  respond_to_result rc.
Definition handle_send (request : rzi_at_request) : M world Z :=
  let text := argument_of request in
  match strchr ":" text with
  | None => ret (- RZI_ERR_INVALID)
  | Some (_, hex) =>
      match strtol text with
      | None => ret (- RZI_ERR_INVALID)
      | Some (port, port_end) =>
          if negb (String.eqb port_end (String ":" hex)) || (port <? 1) || (223 <? port)
          then ret (- RZI_ERR_INVALID)
          else
            let hex_len := zstrlen hex in
            if hex_len =? 0 then ret (- RZI_ERR_INVALID)
            else if RZI_LORAWAN_MAX_PAYLOAD * 2 <? hex_len then ret (- RZI_ERR_TOO_LARGE)
            else
              let (rc, payload) := rzi_at_lorawan_hex_to_bin hex (hex_len / 2) in
              if negb (rc =? 0) then ret rc
              else
                let* '(rc, confirmed) := rzi_lorawan_get_confirmed (Some false) in
                if negb (rc =? 0) then ret rc
                else send_now port payload hex_len (default false confirmed)
      end
  end.
Definition handle_recv : M world Z :=
  let* last := cget last_downlink in
  if negb (ld_valid last) then rzi_at_respond_value "AT+RECV="
  else
    cput (put_last_downlink (LastDownlink false (ld_port last) (ld_size last) (ld_data last))) ;;;
    rzi_at_respond_value ("AT+RECV=" ++ show_u (ld_port last) ++ ":" ++
      rzi_at_lorawan_bin_to_hex (take (Z.to_nat (ld_size last)) (ld_data last))).
Definition handle_rety (request : rzi_at_request) : M world Z :=
  if operation request =? RZI_AT_OP_READ then
    respond_with 0 rzi_lorawan_get_retries (fun n => "AT+RETY=" ++ show_u n)%string
  else
    let (rc, parsed) := rzi_at_lorawan_parse_long (argument request) in
    if negb (rc =? 0) || (parsed <? 0) || (7 <? parsed) then ret (- RZI_ERR_INVALID)
    else let* rc := rzi_lorawan_set_retries (u8 parsed) in respond_to_result rc.
(** [strtol(cursor, &end, 10)] followed by the test that [*end == ':'] *)
Definition long_field (cursor : string) : option (Z * string) :=
  match strtol cursor with
  | Some (v, String c next) => if Ascii.eqb c ":" then Some (v, next) else None
  | _ => None
  end.
Definition handle_lpsend (request : rzi_at_request) : M world Z :=
  match long_field (argument_of request) with
  | None => ret (- RZI_ERR_INVALID)
  | Some (port, cursor) =>
      if (port <? 1) || (223 <? port) then ret (- RZI_ERR_INVALID)
      else match long_field cursor with
      | None => ret (- RZI_ERR_INVALID)
      | Some (ack, hex) =>
          let hex_len := zstrlen hex in
          if negb (ack =? 0) && negb (ack =? 1) then ret (- RZI_ERR_INVALID)
          else if (hex_len =? 0) || negb (hex_len mod 2 =? 0) then ret (- RZI_ERR_INVALID)
          else if RZI_LORAWAN_MAX_PAYLOAD * 2 <? hex_len then ret (- RZI_ERR_TOO_LARGE)
          else
            let (rc, payload) := rzi_at_lorawan_hex_to_bin hex (hex_len / 2) in
            if negb (rc =? 0) then ret rc
            else send_now port payload hex_len (negb (ack =? 0))
      end
  end.

(** The handlers of these two groups, by name. *)
Definition key_id_handler (name : string) (request : rzi_at_request) (user_data : option string)
  : option (M world Z) :=
  let table : list (string * M world Z) := [
    ("handle_key", handle_key request (key_command_of user_data));
    ("handle_devaddr", handle_devaddr request); ("handle_netid", handle_netid request);
    ("handle_mcrootkey", handle_mcrootkey)]%string in
  snd <$> List.find (fun e => String.eqb e.1 name) table.
Definition join_send_handler (name : string) (request : rzi_at_request) : option (M world Z) :=
  let table : list (string * M world Z) := [
    ("handle_njm", handle_njm request); ("handle_njs", handle_njs);
    ("handle_cfm", handle_cfm request); ("handle_cfs", handle_cfs);
    ("handle_join", handle_join request); ("handle_send", handle_send request);
    ("handle_recv", handle_recv); ("handle_rety", handle_rety request);
    ("handle_lpsend", handle_lpsend request)]%string in
  snd <$> List.find (fun e => String.eqb e.1 name) table.
End package.
