(* ===== verification/AtLorawanNet.v ===== *)
(** * The LoRaWAN network AT commands
    (src/at/commands/lorawan/at_lorawan_network_management.c,
    at_lorawan_information.c, at_lorawan_class_b.c, at_lorawan_multicast.c,
    at_lorawan_certification.c, at_lorawan_supplementary.c)

    Region, class, MAC parameters, class B, multicast groups, certification,
    and the channel-mask commands of the fixed channel plans. *)
From S2P Require Import Prelude Zephyr Err Power Storage LorawanSettings LorawanBackend LorawanCore LorawanCredentials LorawanChannel LorawanApi Lorawan CString At AtArgs AtSystem AtLorawan.

Definition network_management_commands : list rzi_at_command := [
  AtCommand (Some "BAND") (Some "get or set the active region (0 = EU433, 1 = CN470, 2 = RU864, 3 = IN865, 4 = EU868, 5 = US915, 6 = AU915, 7 = KR920, 8 = AS923-1, 9 = AS923-2, 10 = AS923-3, 11 = AS923-4, 12 = LA915)")
    ALLOW_READ_WRITE (Some "handle_band") None;
  AtCommand (Some "CLASS") (Some "get or set the device class (A = class A, B = class B, C = class C)")
    ALLOW_READ_WRITE (Some "handle_class") None;
  AtCommand (Some "ADR") (Some "get or set the adaptive data rate setting (0 = off, 1 = on)")
    ALLOW_READ_WRITE (Some "handle_adr") None;
  AtCommand (Some "DCS") (Some "get or set the ETSI duty cycle setting (0 = disabled, 1 = enabled)")
    ALLOW_READ_WRITE (Some "handle_dcs") None;
  AtCommand (Some "DR") (Some "get or set the data rate")
    ALLOW_READ_WRITE (Some "handle_dr") None;
  AtCommand (Some "TXP") (Some "get or set the transmitting power")
    ALLOW_READ_WRITE (Some "handle_txp") None;
  AtCommand (Some "PNM") (Some "get or set the public network mode (0 = off, 1 = on)")
    ALLOW_READ_WRITE (Some "handle_pnm") None;
  AtCommand (Some "RX1DL") (Some "get or set the delay between the end of TX and RX window 1 in seconds")
    ALLOW_READ_WRITE (Some "handle_rx1dl") None;
  AtCommand (Some "RX2DL") (Some "get or set the delay between the end of TX and RX window 2 in seconds")
    ALLOW_READ_WRITE (Some "handle_rx2dl") None;
  AtCommand (Some "RX2DR") (Some "get or set the RX2 window data rate")
    ALLOW_READ_WRITE (Some "handle_rx2dr") None;
  AtCommand (Some "RX2FQ") (Some "get or set the RX2 window frequency (Hz)")
    ALLOW_READ_WRITE (Some "handle_rx2fq") None;
  AtCommand (Some "JN1DL") (Some "get or set the join accept delay for Rx window 1 in seconds")
    ALLOW_READ_WRITE (Some "handle_jn1dl") None;
  AtCommand (Some "JN2DL") (Some "get or set the join accept delay for Rx window 2 in seconds")
    ALLOW_READ_WRITE (Some "handle_jn2dl") None;
  AtCommand (Some "LBT") (Some "get or set LoRaWAN LBT (0 = disabled, 1 = enabled)")
    ALLOW_READ_WRITE (Some "handle_lbt") None;
  AtCommand (Some "LBTRSSI") (Some "get or set the LoRaWAN LBT RSSI threshold")
    ALLOW_READ_WRITE (Some "handle_lbt_rssi") None;
  AtCommand (Some "LBTSCANTIME") (Some "get or set the LoRaWAN LBT scan time in milliseconds")
    ALLOW_READ_WRITE (Some "handle_lbt_scan") None;
  AtCommand (Some "LINKCHECK") (Some "get or set the link check setting (0 = disabled, 1 = once, 2 = everytime)")
    ALLOW_READ_WRITE (Some "handle_linkcheck") None;
  AtCommand (Some "TIMEREQ") (Some "request the current date and time (0 = disabled, 1 = enabled)")
    ALLOW_READ_WRITE (Some "handle_timereq") None
]%string.
Definition supplementary_commands : list rzi_at_command := [
  AtCommand (Some "MASK") (Some "get or set the channel mask (only for US915, AU915)")
    ALLOW_READ_WRITE (Some "handle_mask") None;
  AtCommand (Some "CHE") (Some "get or set eight channels mode (only for US915, AU915)")
    ALLOW_READ_WRITE (Some "handle_che") None;
  AtCommand (Some "CHS") (Some "get or set single channel mode (only for US915, AU915)")
    ALLOW_READ_WRITE (Some "handle_chs") None
]%string.
Definition information_commands : list rzi_at_command := [
  AtCommand (Some "RSSI") (Some "get the RSSI of the last received packet")
    RZI_AT_ALLOW_READ (Some "handle_rssi") None;
  AtCommand (Some "SNR") (Some "get the SNR of the last received packet")
    RZI_AT_ALLOW_READ (Some "handle_snr") None
]%string.
Definition class_b_commands : list rzi_at_command := [
  AtCommand (Some "PGSLOT") (Some "get or set the unicast ping slot periodicity (0-7)")
    ALLOW_READ_WRITE (Some "handle_pgslot") None;
  AtCommand (Some "BFREQ") (Some "get the data rate and beacon frequency")
    RZI_AT_ALLOW_READ (Some "handle_bfreq") None;
  AtCommand (Some "BTIME") (Some "get the beacon time (seconds since GPS Epoch time)")
    RZI_AT_ALLOW_READ (Some "handle_btime") None;
  AtCommand (Some "BGW") (Some "get the gateway GPS coordinate, NetID and GwID")
    RZI_AT_ALLOW_READ (Some "handle_bgw") None;
  AtCommand (Some "LTIME") (Some "get the local time from DeviceTimeAns")
    RZI_AT_ALLOW_READ (Some "handle_ltime") None
]%string.
Definition multicast_commands : list rzi_at_command := [
  AtCommand (Some "ADDMULC") (Some "add a new multicast group")
    RZI_AT_ALLOW_WRITE (Some "handle_addmulc") None;
  AtCommand (Some "RMVMULC") (Some "delete a multicast group")
    RZI_AT_ALLOW_WRITE (Some "handle_rmvmulc") None;
  AtCommand (Some "LSTMULC") (Some "view multicast group information")
    (Z.lor RZI_AT_ALLOW_READ RZI_AT_ALLOW_RUN) (Some "handle_lstmulc") None
]%string.
Definition certification_commands : list rzi_at_command := [
  AtCommand (Some "CERTIF") (Some "set the module in LoRaWAN certification mode (0 = normal, 1 = certification)")
    ALLOW_READ_WRITE (Some "handle_certif") None
]%string.

(** Conversions to [int] and [int16_t]. *)
Definition i32 (z : Z) : Z := (z + 2147483648) mod 4294967296 - 2147483648.
Definition i16 (z : Z) : Z := (z + 32768) mod 65536 - 32768.
(** [%08X] and [%03u] *)
Definition show_hex8 (v : Z) : string :=
  (show_hex2 (u8 (Z.shiftr v 24)) ++ show_hex2 (u8 (Z.shiftr v 16)) ++ show_hex2 (u8 (Z.shiftr v 8)) ++
   show_hex2 (u8 v))%string.
Definition show_hex4 (v : Z) : string := (show_hex2 (u8 (Z.shiftr v 8)) ++ show_hex2 (u8 v))%string.
Definition show_u3 (v : Z) : string :=
  ((if (v <? 100)%Z then "0" else "") ++ (if (v <? 10)%Z then "0" else "") ++ show_u v)%string.

(** *** The channel groups of at_lorawan_supplementary.c *)
Abbreviation NARROW_BLOCKS := 8.
Abbreviation WIDE_GROUP := 8.
Abbreviation GROUPS := 9.
Abbreviation WIDE_FIRST := 64.
Abbreviation MASK_ALL := 0x1ff.
(** [mask[channel / 16U]] read and written as in lorawan_channel.c *)
Definition group_has_channel := has_channel.
Definition group_put_channel := put_channel.
Definition group_first (group : Z) : Z := if group =? WIDE_GROUP then WIDE_FIRST else group * 8.
Definition put_group (mask : list Z) (group : Z) : list Z :=
  foldl group_put_channel mask (channel_range (group_first group) 8).
Definition enabled_in_group (mask : list Z) (group : Z) : Z :=
  foldl (fun enabled channel => enabled + b2z (group_has_channel mask channel)) 0
    (channel_range (group_first group) 8).
(** The loop of [read_groups]: the fully and the partly enabled groups. *)
Definition group_bits (mask : list Z) : Z * Z :=
  foldl (fun '(full, partial) group =>
      let enabled := enabled_in_group mask group in
      (if enabled =? 8 then Z.lor full (BIT group) else full,
       if negb (enabled =? 0) then Z.lor partial (BIT group) else partial))
    (0, 0) (channel_range 0 (Z.to_nat GROUPS)).
Definition groups_of (mask : list Z) : Z :=
  let (full, partial) := group_bits mask in if negb (full =? 0) then full else partial.
(** The mask AT+MASK=value builds. *)
Definition mask_of_bits (value : Z) : list Z :=
  let value := if value =? 0 then MASK_ALL else value in
  let mask := foldl (fun mask block =>
      if negb (Z.land value (BIT block) =? 0)
      then group_put_channel (put_group mask block) (WIDE_FIRST + block) else mask)
    mask_zero (channel_range 0 (Z.to_nat NARROW_BLOCKS)) in
  if negb (Z.land value (BIT WIDE_GROUP) =? 0) then put_group mask WIDE_GROUP else mask.
(** The list AT+CHE=? prints. *)
Definition group_list (groups : Z) : string :=
  foldl (fun list group =>
      if negb (Z.land groups (BIT group) =? 0)
      then (list ++ (if String.eqb list "" then "" else ":") ++ show_u (group + 1)%Z)%string else list)
    ""%string (channel_range 0 (Z.to_nat GROUPS)).
(** The masks of AT+CHE=0 and AT+CHE=n[:n...]; [None] is a malformed list.
    [count] fields have been read. *)
Definition mask_all_groups : list Z :=
  foldl put_group (put_group mask_zero WIDE_GROUP) (channel_range 0 (Z.to_nat NARROW_BLOCKS)).
Fixpoint che_mask `{CLong} (fuel : nat) (cursor : string) (mask : list Z) : option (list Z) :=
  match fuel with
  | O => None (* count >= GROUPS *)
  | S fuel =>
      match strtoul cursor with
      | None => None
      | Some (value, rest) =>
          if (value <? 1) || (GROUPS <? value) then None
          else match rest with
          | ""%string => Some (put_group mask (value - 1))
          | String c next =>
              if Ascii.eqb c ":" then che_mask fuel next (put_group mask (value - 1)) else None
          end
      end
  end.

Section commands.
Context `{Zephyr} `{Errno} `{Kconfig} {ctx : ExecCtx} `{CLong} `{LorawanBackend} `{LorawanExt}
  `{!LorawanHooks} `{!AtEnv world} `{!SystemEnv world} `{!LorawanAtEnv world}.

(** *** at_lorawan_network_management.c *)
Definition class_supported (device_class : Z) : Z :=
  let caps := rzi_lorawan_get_capabilities in
  let supported cap := if negb (Z.land caps cap =? 0) then 0 else - RZI_ERR_NOT_SUPPORTED in
  if device_class =? RZI_LORAWAN_CLASS_A then supported RZI_LORAWAN_CAP_CLASS_A
  else if device_class =? RZI_LORAWAN_CLASS_B then supported RZI_LORAWAN_CAP_CLASS_B
  else if device_class =? RZI_LORAWAN_CLASS_C then supported RZI_LORAWAN_CAP_CLASS_C
  else - RZI_ERR_INVALID.
Definition class_letter (device_class : Z) : string :=
  if (device_class =? RZI_LORAWAN_CLASS_B)%Z then "B"
  else if (device_class =? RZI_LORAWAN_CLASS_C)%Z then "C" else "A".
Definition handle_bool (request : rzi_at_request) (name : string)
    (get : option bool -> M world (Z * option bool)) (set : bool -> M world Z) : M world Z :=
  if operation request =? RZI_AT_OP_READ then
    respond_with false get (fun enabled => "AT+" ++ name ++ "=" ++ show_d (b2z enabled))%string
  else
    let (rc, enabled) := rzi_at_lorawan_parse_bool (argument request) in
    if negb (rc =? 0) then ret rc
    else let* rc := set enabled in respond_to_result rc.
Definition handle_u32 (request : rzi_at_request) (name : string)
    (get : option Z -> M world (Z * option Z)) (set : option (Z -> M world Z)) (scale : Z) : M world Z :=
  if operation request =? RZI_AT_OP_READ then
    respond_with 0 get (fun value => "AT+" ++ name ++ "=" ++ show_u (value / scale)%Z)%string
  else match set with
  | None => ret (- RZI_ERR_NOT_SUPPORTED)
  | Some set =>
      let (rc, parsed) := rzi_at_lorawan_parse_long (argument request) in
      if negb (rc =? 0) || (parsed <=? 0) then ret (- RZI_ERR_INVALID)
      else let* rc := set (u32 (u32 parsed * scale)) in respond_to_result rc
  end.
Definition handle_band (request : rzi_at_request) : M world Z :=
  if operation request =? RZI_AT_OP_READ then
    respond_with 0 rzi_lorawan_get_region (fun region =>
      "AT+BAND=" ++ show_d (rzi_at_lorawan_region_to_band region))%string
  else
    let* started := cget service_started in
    if started : bool then ret (- RZI_ERR_BUSY)
    else match strtol (argument_of request) with
    | Some (band, ""%string) =>
        let (rc, region) := rzi_at_lorawan_band_to_region (i32 band) in
        if negb (rc =? 0) then ret rc
        else let* rc := rzi_lorawan_set_region region in respond_to_result rc
    | _ => ret (- RZI_ERR_INVALID)
    end.
Definition class_of_letter (argument : string) : option Z :=
  if String.eqb argument "A" then Some RZI_LORAWAN_CLASS_A
  else if String.eqb argument "B" then Some RZI_LORAWAN_CLASS_B
  else if String.eqb argument "C" then Some RZI_LORAWAN_CLASS_C
  else None.
Definition handle_class (request : rzi_at_request) : M world Z :=
  let* started := cget service_started in
  if operation request =? RZI_AT_OP_READ then
    let* rc := (if started : bool then
                  let* '(rc, class) := rzi_lorawan_get_class (Some 0) in
                  if rc =? 0 then cput (put_device_class (default 0 class)) ;;; ret 0 else ret rc
                else ret 0) in
    if negb (rc =? 0) then ret rc
    else
      let* class := cget device_class in
      rzi_at_respond_value ("AT+CLASS=" ++ class_letter class)
  else match class_of_letter (argument_of request) with
  | None => ret (- RZI_ERR_INVALID)
  | Some class =>
      if negb (class_supported class =? 0) then ret (class_supported class)
      else
        rc* rc := (if started : bool then rzi_lorawan_set_class class else ret 0) else rc in
        cput (put_device_class class) ;;; respond_ok
  end.
Definition handle_adr r := handle_bool r "ADR" rzi_lorawan_get_adr rzi_lorawan_set_adr.
Definition handle_dcs r :=
  handle_bool r "DCS" (fun out => let* rc := rzi_lorawan_get_duty_cycle out in ret (rc, out))
    rzi_lorawan_set_duty_cycle.
Definition handle_pnm r := handle_bool r "PNM" rzi_lorawan_get_public_network rzi_lorawan_set_public_network.
Definition handle_lbt r := handle_bool r "LBT" rzi_lorawan_get_lbt rzi_lorawan_set_lbt.
(** [handle_dr] and [handle_rx2dr], [handle_txp]: a small decimal value *)
Definition handle_small (request : rzi_at_request) (name : string)
    (get : option Z -> M world (Z * option Z)) (set : Z -> M world Z) (max : Z) : M world Z :=
  if operation request =? RZI_AT_OP_READ then
    respond_with 0 get (fun value => "AT+" ++ name ++ "=" ++ show_u value)%string
  else
    let (rc, parsed) := rzi_at_lorawan_parse_long (argument request) in
    if negb (rc =? 0) || (parsed <? 0) || (max <? parsed) then ret (- RZI_ERR_INVALID)
    else let* rc := set parsed in respond_to_result rc.
(** The getters that always fail leave the cell alone. *)
Definition unsupported_get (get : option Z -> M world Z) (out : option Z) : M world (Z * option Z) :=
  let* rc := get out in ret (rc, out).
Definition handle_dr r := handle_small r "DR" rzi_lorawan_get_data_rate rzi_lorawan_set_data_rate 15.
Definition handle_txp r :=
  handle_small r "TXP" (unsupported_get rzi_lorawan_get_tx_power) (fun v => rzi_lorawan_set_tx_power (u8 v)) 15.
Definition handle_rx2dr r :=
  handle_small r "RX2DR" (unsupported_get rzi_lorawan_get_rx2_data_rate) rzi_lorawan_set_rx2_data_rate 15.
Definition handle_rx1dl r :=
  handle_u32 r "RX1DL" (unsupported_get rzi_lorawan_get_rx1_delay) (Some rzi_lorawan_set_rx1_delay) 1000.
Definition handle_rx2dl r :=
  handle_u32 r "RX2DL" (unsupported_get rzi_lorawan_get_rx2_delay) (Some rzi_lorawan_set_rx2_delay) 1000.
Definition handle_jn1dl r :=
  handle_u32 r "JN1DL" (unsupported_get rzi_lorawan_get_join_accept_delay1)
    (Some rzi_lorawan_set_join_accept_delay1) 1000.
Definition handle_jn2dl r :=
  handle_u32 r "JN2DL" (unsupported_get rzi_lorawan_get_join_accept_delay2)
    (Some rzi_lorawan_set_join_accept_delay2) 1000.
Definition handle_rx2fq r :=
  handle_u32 r "RX2FQ" (unsupported_get rzi_lorawan_get_rx2_frequency)
    (Some rzi_lorawan_set_rx2_frequency) 1.
Definition handle_lbt_rssi (request : rzi_at_request) : M world Z :=
  if operation request =? RZI_AT_OP_READ then
    respond_with 0 rzi_lorawan_get_lbt_rssi (fun rssi => "AT+LBTRSSI=" ++ show_d rssi)%string
  else
    let (rc, parsed) := rzi_at_lorawan_parse_long (argument request) in
    if negb (rc =? 0) then ret rc
    else let* rc := rzi_lorawan_set_lbt_rssi (i16 parsed) in respond_to_result rc.
Definition handle_lbt_scan r :=
  handle_u32 r "LBTSCANTIME" rzi_lorawan_get_lbt_scan_time (Some rzi_lorawan_set_lbt_scan_time) 1.
Definition handle_timereq r :=
  handle_bool r "TIMEREQ" rzi_lorawan_get_device_time_enabled rzi_lorawan_request_device_time.
Definition handle_linkcheck r :=
  handle_small r "LINKCHECK" rzi_lorawan_get_link_check_mode rzi_lorawan_request_link_check 2.

(** *** at_lorawan_information.c *)
Definition handle_rssi : M world Z :=
  respond_with 0 rzi_lorawan_get_last_rssi (fun rssi => "AT+RSSI=" ++ show_d rssi)%string.
Definition handle_snr : M world Z :=
  respond_with 0 rzi_lorawan_get_last_snr (fun snr => "AT+SNR=" ++ show_d (Z.quot snr 4))%string.

(** *** at_lorawan_certification.c *)
Definition handle_certif r :=
  handle_bool r "CERTIF" rzi_lorawan_get_certification_mode rzi_lorawan_set_certification_mode.

(** *** at_lorawan_class_b.c *)
Definition handle_pgslot r :=
  handle_small r "PGSLOT" rzi_lorawan_get_ping_slot_periodicity
    (fun v => rzi_lorawan_set_ping_slot_periodicity (u8 v)) 7.
Definition handle_bfreq : M world Z :=
  let* '(rc, data_rate) := rzi_lorawan_get_beacon_data_rate (Some 0) in
  if negb (rc =? 0) then ret rc
  else respond_with 0 rzi_lorawan_get_beacon_frequency (fun hz =>
    "BCON: " ++ show_u (default 0 data_rate) ++ ", " ++ show_u (hz / 1000000)%Z ++ "." ++
    show_u3 ((hz / 1000) mod 1000))%string.
Definition handle_btime : M world Z :=
  respond_with 0 rzi_lorawan_get_beacon_time (fun gps_time => "BTIME: " ++ show_u gps_time)%string.
Definition handle_bgw : M world Z :=
  respond_with (Gateway false 0 0 0 0) rzi_lorawan_get_beacon_gateway (fun g =>
    "BGW: " ++ show_d (b2z (has_coordinates g)) ++ ", " ++ show_u (gw_net_id g) ++ ", " ++
    show_u (gateway_id g) ++ ", " ++ show_u (longitude g) ++ ", " ++ show_u (latitude g))%string.
Definition handle_ltime : M world Z :=
  respond_with (NetworkTime 0 0) rzi_lorawan_get_network_time (fun t =>
    "LTIME: GPS " ++ show_u (gps_seconds t))%string.

(** *** at_lorawan_multicast.c *)
Definition parse_dev_addr (hex : string) : Z * Z :=
  let (rc, bytes) := rzi_at_lorawan_hex_to_bin hex 4 in
  if negb (rc =? 0) then (rc, 0)
  else (0, Z.lor (Z.lor (Z.lor (Z.shiftl (at_ bytes 0) 24) (Z.shiftl (at_ bytes 1) 16))
                        (Z.shiftl (at_ bytes 2) 8)) (at_ bytes 3)).
Record multicast_fields : Type := MulticastFields {
  f_class : ascii; f_dev_addr : string; f_nwk_skey : string; f_app_skey : string;
  f_frequency_hz : Z; f_data_rate : Z; f_periodicity : Z;
}.
(** The [sscanf] of [handle_addmulc] with all seven conversions made: [%c],
    hexadecimal runs of bounded width, [%u] in [unsigned int], and the colons
    between them.  Characters after the last number are not looked at. *)
Definition scan_addmulc (text : string) : option multicast_fields :=
  match text with
  | String class rest =>
      rest ← scan_colon rest;
      '(addr, rest) ← scan_hex_run 8 rest; rest ← scan_colon rest;
      '(nwk, rest) ← scan_hex_run 32 rest; rest ← scan_colon rest;
      '(app, rest) ← scan_hex_run 32 rest; rest ← scan_colon rest;
      '(frequency, rest) ← strtoul rest; rest ← scan_colon rest;
      '(rate, rest) ← strtoul rest; rest ← scan_colon rest;
      '(period, _) ← strtoul rest;
      Some (MulticastFields class addr nwk app (u32 frequency) (u32 rate) (u32 period))
  | ""%string => None
  end.
Definition handle_addmulc (request : rzi_at_request) : M world Z :=
  match scan_addmulc (argument_of request) with
  | None => ret (- RZI_ERR_INVALID)
  | Some f =>
      match (if Ascii.eqb (f_class f) "B" then Some RZI_LORAWAN_CLASS_B
             else if Ascii.eqb (f_class f) "C" then Some RZI_LORAWAN_CLASS_C else None) with
      | None => ret (- RZI_ERR_INVALID)
      | Some class =>
          let (rc, addr) := parse_dev_addr (f_dev_addr f) in
          let (rc, nwk) := if rc =? 0 then rzi_at_lorawan_hex_to_bin (f_nwk_skey f) 16 else (rc, []) in
          let (rc, app) := if rc =? 0 then rzi_at_lorawan_hex_to_bin (f_app_skey f) 16 else (rc, []) in
          if negb (rc =? 0) || (f_frequency_hz f =? 0) || (15 <? f_data_rate f)
          then ret (- RZI_ERR_INVALID)
          else
            let* rc := rzi_lorawan_add_multicast_session (Some
              (McSession class addr app nwk (f_frequency_hz f) (f_data_rate f) (u16 (f_periodicity f)) (-1))) in
            respond_to_result rc
      end
  end.
Definition handle_rmvmulc (request : rzi_at_request) : M world Z :=
  let (rc, dev_addr) := parse_dev_addr (argument_of request) in
  if negb (rc =? 0) then ret rc
  else let* rc := rzi_lorawan_remove_multicast_session dev_addr in respond_to_result rc.
Definition session_line (line : string) (i : Z) (s : rzi_lorawan_multicast_session) : string :=
  ((if String.eqb line "" then "" else crlf) ++ "MC" ++ show_u (i + 1)%Z ++ ":" ++
   (if (mc_device_class s =? RZI_LORAWAN_CLASS_B)%Z then "B" else "C") ++ ":" ++
   show_hex8 (mc_dev_addr s) ++ ":" ++ show_u (mc_frequency_hz s) ++ ":" ++ show_u (mc_data_rate s) ++
   ":" ++ show_u (mc_periodicity s))%string.
(** The loop of [handle_lstmulc] from index [i] with [n] rounds left: the code
    and the line built. *)
Fixpoint list_sessions (n : nat) (i : Z) (line : string) : M world (Z * string) :=
  match n with
  | O => ret (0, line)
  | S n =>
      let* '(rc, s) := rzi_lorawan_get_multicast_session i (Some (McSession 0 0 [] [] 0 0 0 0)) in
      if negb (rc =? 0) then ret (rc, line)
      else
        let more := session_line line i (default (McSession 0 0 [] [] 0 0 0 0) s) in
        if CONFIG_RZI_AT_TX_BUFFER_SIZE - zstrlen line <=? zstrlen more
        then ret (- RZI_ERR_NO_RESOURCE, line)
        else list_sessions n (i + 1) (line ++ more)
  end.
Definition handle_lstmulc : M world Z :=
  let* '(rc, count) := rzi_lorawan_get_multicast_count (Some 0) in
  if negb (rc =? 0) then ret rc
  else
    let* '(rc, line) := list_sessions (Z.to_nat (default 0 count)) 0 "" in
    if negb (rc =? 0) then ret rc else rzi_at_respond_value line.

(** *** at_lorawan_supplementary.c *)
Definition read_groups : M world (Z * Z) :=
  let* '(rc, mask) := rzi_lorawan_get_channel_mask (Some mask_zero) RZI_LORAWAN_CHANNEL_MASK_WORDS in
  if negb (rc =? 0) then ret (rc, 0) else ret (0, groups_of (default mask_zero mask)).
Definition write_mask (mask : list Z) : M world Z :=
  let* rc := rzi_lorawan_set_channel_mask (Some mask) RZI_LORAWAN_CHANNEL_MASK_WORDS in
  respond_to_result rc.
Definition handle_mask (request : rzi_at_request) : M world Z :=
  if operation request =? RZI_AT_OP_READ then
    let* '(rc, groups) := read_groups in
    if negb (rc =? 0) then ret rc else rzi_at_respond_value ("AT+MASK=" ++ show_hex4 groups)
  else if negb (zstrlen (argument_of request) =? 4) then ret (- RZI_ERR_INVALID)
  else match strtoul16 (argument_of request) with
  | Some (value, ""%string) =>
      if negb (Z.land value (Z.lnot MASK_ALL) =? 0) then ret (- RZI_ERR_INVALID)
      else write_mask (mask_of_bits value)
  | _ => ret (- RZI_ERR_INVALID)
  end.
Definition handle_che (request : rzi_at_request) : M world Z :=
  if operation request =? RZI_AT_OP_READ then
    let* '(rc, groups) := read_groups in
    if negb (rc =? 0) then ret rc
    else if groups =? MASK_ALL then rzi_at_respond_value "AT+CHE=0"
    else rzi_at_respond_value ("AT+CHE=" ++ group_list groups)
  else if String.eqb (argument_of request) "0" then write_mask mask_all_groups
  else match che_mask (Z.to_nat GROUPS) (argument_of request) mask_zero with
  | None => ret (- RZI_ERR_INVALID)
  | Some mask => write_mask mask
  end.
Definition handle_chs (request : rzi_at_request) : M world Z :=
  if operation request =? RZI_AT_OP_READ then
    respond_with 0 rzi_lorawan_get_fixed_channel (fun hz => "AT+CHS=" ++ show_u hz)%string
  else
    let (rc, parsed) := rzi_at_lorawan_parse_long (argument request) in
    if negb (rc =? 0) || (parsed <? 0) then ret (- RZI_ERR_INVALID)
    else let* rc := rzi_lorawan_set_fixed_channel (u32 parsed) in respond_to_result rc.

(** The handlers of these groups, by name. *)
Definition network_handler (name : string) (request : rzi_at_request) : option (M world Z) :=
  let table : list (string * M world Z) := [
    ("handle_band", handle_band request); ("handle_class", handle_class request);
    ("handle_adr", handle_adr request); ("handle_dcs", handle_dcs request);
    ("handle_dr", handle_dr request); ("handle_txp", handle_txp request);
    ("handle_pnm", handle_pnm request); ("handle_rx1dl", handle_rx1dl request);
    ("handle_rx2dl", handle_rx2dl request); ("handle_rx2dr", handle_rx2dr request);
    ("handle_rx2fq", handle_rx2fq request); ("handle_jn1dl", handle_jn1dl request);
    ("handle_jn2dl", handle_jn2dl request); ("handle_lbt", handle_lbt request);
    ("handle_lbt_rssi", handle_lbt_rssi request); ("handle_lbt_scan", handle_lbt_scan request);
    ("handle_linkcheck", handle_linkcheck request); ("handle_timereq", handle_timereq request);
    ("handle_mask", handle_mask request); ("handle_che", handle_che request);
    ("handle_chs", handle_chs request); ("handle_rssi", handle_rssi); ("handle_snr", handle_snr);
    ("handle_pgslot", handle_pgslot request); ("handle_bfreq", handle_bfreq);
    ("handle_btime", handle_btime); ("handle_bgw", handle_bgw); ("handle_ltime", handle_ltime);
    ("handle_addmulc", handle_addmulc request); ("handle_rmvmulc", handle_rmvmulc request);
    ("handle_lstmulc", handle_lstmulc); ("handle_certif", handle_certif request)]%string in
  snd <$> List.find (fun e => String.eqb e.1 name) table.
End commands.
