(* ===== verification/AtLora.v ===== *)
(** * The raw LoRa AT package (src/at/commands/lora/at_lora.c, at_lora_p2p.c,
    at_lora_test.c, at_lora_priv.h)

    The package's life cycle under the network working mode, the P2P
    configuration commands, sending and receiving, and the radio tests, over
    the LoRa service of Lora.v.  The addresses of the two callbacks are
    parameters. *)
From S2P Require Import Prelude Zephyr Err Power Storage CString At AtArgs AtSystem Lora.

Definition p2p_commands : list rzi_at_command := [
  AtCommand (Some "P2P") (Some "get or set the P2P configuration (Freq:SF:BW:CR:PPL:PTP)")
    ALLOW_READ_WRITE (Some "handle_p2p") None;
  AtCommand (Some "PFREQ") (Some "get or set the P2P frequency (Hz)")
    ALLOW_READ_WRITE (Some "handle_pfreq") None;
  AtCommand (Some "PSF") (Some "get or set the P2P spreading factor (5-12)")
    ALLOW_READ_WRITE (Some "handle_psf") None;
  AtCommand (Some "PBW") (Some "get or set the P2P bandwidth (0-9 for LoRa, Hz for FSK)")
    ALLOW_READ_WRITE (Some "handle_pbw") None;
  AtCommand (Some "PCR") (Some "get or set the P2P coding rate (0-3)")
    ALLOW_READ_WRITE (Some "handle_pcr") None;
  AtCommand (Some "PPL") (Some "get or set the P2P preamble length")
    ALLOW_READ_WRITE (Some "handle_ppl") None;
  AtCommand (Some "PTP") (Some "get or set the P2P TX power (dBm)")
    ALLOW_READ_WRITE (Some "handle_ptp") None;
  AtCommand (Some "PSEND") (Some "send data in P2P mode")
    RZI_AT_ALLOW_WRITE (Some "handle_psend") None;
  AtCommand (Some "PRECV") (Some "set the P2P receive window (0 = stop, 65535 = continuous)")
    ALLOW_READ_WRITE (Some "handle_precv") None;
  AtCommand (Some "CAD") (Some "get or set P2P CAD (0 = off, 1 = on)")
    ALLOW_READ_WRITE (Some "handle_cad") None;
  AtCommand (Some "ENCRY") (Some "get or set P2P encryption (0 = off, 1 = on)")
    ALLOW_READ_WRITE (Some "handle_encry") None;
  AtCommand (Some "ENCKEY") (Some "get or set the P2P encryption key (16 bytes in hex)")
    ALLOW_READ_WRITE (Some "handle_enckey") None;
  AtCommand (Some "CRYPIV") (Some "get or set the P2P encryption IV (16 bytes in hex)")
    ALLOW_READ_WRITE (Some "handle_crypiv") None;
  AtCommand (Some "IQINVER") (Some "get or set P2P IQ inversion (0 = off, 1 = on)")
    ALLOW_READ_WRITE (Some "handle_iqinver") None;
  AtCommand (Some "SYNCWORD") (Some "get or set the P2P sync word")
    ALLOW_READ_WRITE (Some "handle_syncword") None;
  AtCommand (Some "PBR") (Some "get or set the P2P FSK bitrate (bps)")
    ALLOW_READ_WRITE (Some "handle_pbr") None;
  AtCommand (Some "PFDEV") (Some "get or set the P2P FSK frequency deviation (Hz)")
    ALLOW_READ_WRITE (Some "handle_pfdev") None
]%string.
Definition test_commands : list rzi_at_command := [
  AtCommand (Some "TRSSI") (Some "start RF RSSI tone test")
    RZI_AT_ALLOW_RUN (Some "handle_trssi") None;
  AtCommand (Some "TTONE") (Some "start RF CW tone test")
    RZI_AT_ALLOW_RUN (Some "handle_ttone") None;
  AtCommand (Some "TTX") (Some "start RF TX test, set the number of packets")
    RZI_AT_ALLOW_WRITE (Some "handle_ttx") None;
  AtCommand (Some "TRX") (Some "start RF RX test, set the number of packets")
    RZI_AT_ALLOW_WRITE (Some "handle_trx") None;
  AtCommand (Some "TCONF") (Some "configure LoRa RF test (Freq:SF:BW:CR:PPL:PTP)")
    ALLOW_READ_WRITE (Some "handle_tconf") None;
  AtCommand (Some "TTH") (Some "start RF TX hopping test (start:stop:hop:count)")
    RZI_AT_ALLOW_WRITE (Some "handle_tth") None;
  AtCommand (Some "TRTH") (Some "start RF RX hopping test (start:stop:hop:count)")
    RZI_AT_ALLOW_WRITE (Some "handle_trth") None;
  AtCommand (Some "TOFF") (Some "stop an ongoing RF test")
    RZI_AT_ALLOW_RUN (Some "handle_toff") None;
  AtCommand (Some "CW") (Some "start continuous wave (Freq:Power:Duration)")
    RZI_AT_ALLOW_WRITE (Some "handle_cw") None
]%string.

Definition i8 (z : Z) : Z := (z + 128) mod 256 - 128.

(** [parse_colon_u32] with [n] values still expected. *)
Fixpoint parse_colon_u32 `{CLong} (n : nat) (cursor : string) : option (list Z) :=
  match n, cursor with
  | O, _ => Some []
  | S _, ""%string => None
  | S n, _ =>
      match strtoul cursor with
      | None => None
      | Some (v, ""%string) => if (n =? 0)%nat then Some [u32 v] else None
      | Some (v, String c next) =>
          if negb (Ascii.eqb c ":") || String.eqb next "" then None
          else cons (u32 v) <$> parse_colon_u32 n next
      end
  end.
(** The loops of [handle_tconf] and [handle_hop]: [unsigned long] fields, and
    nothing said about what follows the last colon. *)
Fixpoint parse_test_fields `{CLong} (n : nat) (cursor : string) : option (list Z) :=
  match n, cursor with
  | O, _ => Some []
  | S _, ""%string => None
  | S n, _ =>
      match strtoul cursor with
      | None => None
      | Some (v, ""%string) => if (n =? 0)%nat then Some [v] else None
      | Some (v, String c next) =>
          if negb (Ascii.eqb c ":") then None else cons v <$> parse_test_fields n next
      end
  end.

(** The setters and getters of at_lora_p2p.c. *)
Definition set_radio f sf bw cr pl tp (c : rzi_lora_config) : rzi_lora_config :=
  LoraConfig f sf bw cr pl tp (sync_word c) (iq_inverted c) (encrypt c) (key c) (iv c) (cad c)
    (fixed_length c) (fsk_bitrate c) (fsk_deviation c) (symbol_timeout c).
Definition set_freq c v := set_radio v (spreading_factor c) (bandwidth c) (coding_rate c) (preamble_length c) (tx_power_dbm c) c.
Definition get_freq := frequency_hz.
Definition set_sf c v := set_radio (frequency_hz c) (u8 v) (bandwidth c) (coding_rate c) (preamble_length c) (tx_power_dbm c) c.
Definition get_sf := spreading_factor.
Definition set_bw c v := set_radio (frequency_hz c) (spreading_factor c) v (coding_rate c) (preamble_length c) (tx_power_dbm c) c.
Definition get_bw := bandwidth.
Definition set_cr c v := set_radio (frequency_hz c) (spreading_factor c) (bandwidth c) (u8 v) (preamble_length c) (tx_power_dbm c) c.
Definition get_cr := coding_rate.
Definition set_pl c v := set_radio (frequency_hz c) (spreading_factor c) (bandwidth c) (coding_rate c) (u16 v) (tx_power_dbm c) c.
Definition get_pl := preamble_length.
Definition set_tp c v := set_radio (frequency_hz c) (spreading_factor c) (bandwidth c) (coding_rate c) (preamble_length c) (i8 v) c.
Definition get_tp c := u32 (tx_power_dbm c).
Definition set_rest sw iq enc key iv cad br dev (c : rzi_lora_config) : rzi_lora_config :=
  LoraConfig (frequency_hz c) (spreading_factor c) (bandwidth c) (coding_rate c) (preamble_length c)
    (tx_power_dbm c) sw iq enc key iv cad (fixed_length c) br dev (symbol_timeout c).
Definition set_sw c v := set_rest (u16 v) (iq_inverted c) (encrypt c) (key c) (iv c) (cad c) (fsk_bitrate c) (fsk_deviation c) c.
Definition get_sw := sync_word.
Definition set_br c v := set_rest (sync_word c) (iq_inverted c) (encrypt c) (key c) (iv c) (cad c) v (fsk_deviation c) c.
Definition get_br := fsk_bitrate.
Definition set_dev c v := set_rest (sync_word c) (iq_inverted c) (encrypt c) (key c) (iv c) (cad c) (fsk_bitrate c) v c.
Definition get_dev := fsk_deviation.
Definition set_enc c v := set_rest (sync_word c) (iq_inverted c) v (key c) (iv c) (cad c) (fsk_bitrate c) (fsk_deviation c) c.
Definition get_enc := encrypt.
Definition set_iq c v := set_rest (sync_word c) v (encrypt c) (key c) (iv c) (cad c) (fsk_bitrate c) (fsk_deviation c) c.
Definition get_iq := iq_inverted.
Definition set_cad c v := set_rest (sync_word c) (iq_inverted c) (encrypt c) (key c) (iv c) v (fsk_bitrate c) (fsk_deviation c) c.
Definition get_cad := cad.
(** Writes through the pointers [config.key] and [config.iv]. *)
Definition set_key c v := set_rest (sync_word c) (iq_inverted c) (encrypt c) v (iv c) (cad c) (fsk_bitrate c) (fsk_deviation c) c.
Definition set_iv c v := set_rest (sync_word c) (iq_inverted c) (encrypt c) (key c) v (cad c) (fsk_bitrate c) (fsk_deviation c) c.
(** The six assignments of [handle_p2p] and [handle_tconf]. *)
Definition set_p2p (c : rzi_lora_config) (values : list Z) : rzi_lora_config :=
  set_radio (u32 (at_ values 0)) (u8 (at_ values 1)) (u32 (at_ values 2)) (u8 (at_ values 3))
    (u16 (at_ values 4)) (i8 (at_ values 5)) c.
Definition show_p2p (c : rzi_lora_config) : string :=
  (show_u (frequency_hz c) ++ ":" ++ show_u (spreading_factor c) ++ ":" ++ show_u (bandwidth c) ++ ":" ++
   show_u (coding_rate c) ++ ":" ++ show_u (preamble_length c) ++ ":" ++ show_d (tx_power_dbm c))%string.

(** Where [p2p_start_pending] lives, and the addresses of [on_tx_done] and
    [on_rx_done]. *)
Class LoraAtEnv (W : Type) : Type := {
  p2p_start_pending : W -> bool;
  set_p2p_start_pending : bool -> W -> W;
  on_tx_done_address : Z;
  on_rx_done_address : Z;
}.

Section package.
Context `{Zephyr} `{Errno} `{Kconfig} {ctx : ExecCtx} `{CLong} {W : Type} `{!AtEnv W} `{!StorageEnv W}
  `{!SystemEnv W} `{!LoraEnv W} `{!LoraAtEnv W}.

Definition respond_ok_rc (rc : Z) : M W Z := if rc =? 0 then respond_ok else ret rc.

(** *** at_lora.c *)
Definition modulation_of (mode : Z) : Z :=
  if mode =? RZI_AT_NETWORK_MODE_P2P_FSK then RZI_LORA_MOD_FSK else RZI_LORA_MOD_LORA.
Definition on_network_mode (mode : Z) : M W Z :=
  if mode =? RZI_AT_NETWORK_MODE_LORAWAN then rzi_lora_stop else rzi_lora_init (modulation_of mode).
Definition rzi_at_lora_ensure_started : M W Z :=
  let* mode := rzi_at_network_mode_get in
  if mode =? RZI_AT_NETWORK_MODE_LORAWAN then ret (- RZI_ERR_BUSY)
  else
    let* running := rzi_lora_is_started in
    if running : bool then ret 0 else rzi_lora_init (modulation_of mode).
Definition on_tx_done (error : Z) : M W unit :=
  rzi_at_publish_event (if (error =? 0)%Z then "TXP2P DONE" else "TXP2P ERROR")%string ;;; ret tt.
Definition on_rx_done (data : list Z) (size rssi_dbm snr_quarter_db : Z) : M W unit :=
  rzi_at_publish_event ("RXP2P:" ++ show_d rssi_dbm ++ ":" ++ show_d (Z.quot snr_quarter_db 4) ++ ":" ++
    rzi_at_lora_bin_to_hex (take (Z.to_nat size) data)) ;;; ret tt.
Definition lora_extension_start : M W Z :=
  rc* rc := rzi_lora_register_callbacks (Some (LoraCallbacks on_tx_done_address on_rx_done_address 0)) else rc in
  let* mode := rzi_at_network_mode_get in
  modify (set_p2p_start_pending (negb (mode =? RZI_AT_NETWORK_MODE_LORAWAN))) ;;;
  ret 0.
Definition lora_extension_process : M W unit :=
  let* pending := gets p2p_start_pending in
  (if pending : bool then
     modify (set_p2p_start_pending false) ;;;
     let* mode := rzi_at_network_mode_get in
     if mode =? RZI_AT_NETWORK_MODE_LORAWAN then ret tt
     else
       let* rc := rzi_at_lora_ensure_started in
       if negb (rc =? 0) then rzi_at_network_mode_restore_default ;;; ret tt else ret tt
   else ret tt) ;;;
  rzi_lora_poll.
Definition lora_extension : rzi_at_extension :=
  AtExtension (Some "lora_extension_start") (Some "lora_extension_process") None%string.
Definition rzi_at_lora_register : M W Z :=
  rc* rc := rzi_at_network_mode_add_listener (Some "on_network_mode"%string) else rc in
  rc* rc := for_rc [p2p_commands; test_commands] (fun g => rzi_at_register (Some g) (zlen g)) else rc in
  rzi_at_registry_add_extension (Some lora_extension).

(** *** at_lora_p2p.c *)
Definition with_config (k : rzi_lora_config -> M W Z) : M W Z :=
  let* '(rc, c) := rzi_lora_get_config (Some config_default) in
  if negb (rc =? 0) then ret rc else k (default config_default c).
Definition store_config (c : rzi_lora_config) : M W Z :=
  let* rc := rzi_lora_set_config (Some c) in respond_ok_rc rc.
Definition write_u32 (request : rzi_at_request) (name : string) (min max : Z)
    (store : rzi_lora_config -> Z -> rzi_lora_config) (load : rzi_lora_config -> Z) : M W Z :=
  with_config (fun config =>
    if operation request =? RZI_AT_OP_READ then
      rzi_at_respond_value ("AT+" ++ name ++ "=" ++ show_u (load config))
    else
      let (rc, parsed) := rzi_at_lora_parse_long (argument request) in
      if negb (rc =? 0) || (parsed <? min) || (max <? parsed) then ret (- RZI_ERR_INVALID)
      else store_config (store config (u32 parsed))).
Definition write_bool (request : rzi_at_request) (name : string)
    (store : rzi_lora_config -> bool -> rzi_lora_config) (load : rzi_lora_config -> bool) : M W Z :=
  with_config (fun config =>
    if operation request =? RZI_AT_OP_READ then
      rzi_at_respond_value ("AT+" ++ name ++ "=" ++ show_d (b2z (load config)))
    else
      let (rc, enabled) := rzi_at_lora_parse_bool (argument request) in
      if negb (rc =? 0) then ret rc else store_config (store config enabled)).
Definition write_key (request : rzi_at_request) (name : string) (field : list Z)
    (store : list Z -> rzi_lora_config) : M W Z :=
  if operation request =? RZI_AT_OP_READ then
    rzi_at_respond_value ("AT+" ++ name ++ "=" ++ rzi_at_lora_bin_to_hex field)
  else
    let (rc, value) := rzi_at_lora_hex_to_bin (argument_of request) 16 in
    if negb (rc =? 0) then ret rc else store_config (store value).
Definition handle_p2p (request : rzi_at_request) : M W Z :=
  if operation request =? RZI_AT_OP_READ then
    with_config (fun config => rzi_at_respond_value ("AT+P2P=" ++ show_p2p config))
  else match parse_colon_u32 6 (argument_of request) with
  | None => ret (- RZI_ERR_INVALID)
  | Some values => with_config (fun config => store_config (set_p2p config values))
  end.
Definition handle_pfreq r := write_u32 r "PFREQ" 150000000 960000000 set_freq get_freq.
Definition handle_psf r := write_u32 r "PSF" 5 12 set_sf get_sf.
Definition handle_pbw r := write_u32 r "PBW" 0 960000000 set_bw get_bw.
Definition handle_pcr r := write_u32 r "PCR" 0 3 set_cr get_cr.
Definition handle_ppl r := write_u32 r "PPL" 5 65535 set_pl get_pl.
Definition handle_ptp r := write_u32 r "PTP" 5 22 set_tp get_tp.
Definition handle_syncword r := write_u32 r "SYNCWORD" 0 65535 set_sw get_sw.
Definition handle_pbr r := write_u32 r "PBR" 600 300000 set_br get_br.
Definition handle_pfdev r := write_u32 r "PFDEV" 600 200000 set_dev get_dev.
Definition handle_encry r := write_bool r "ENCRY" set_enc get_enc.
Definition handle_iqinver r := write_bool r "IQINVER" set_iq get_iq.
Definition handle_cad r := write_bool r "CAD" set_cad get_cad.
Definition handle_enckey (r : rzi_at_request) : M W Z :=
  with_config (fun config => write_key r "ENCKEY" (key config) (set_key config)).
Definition handle_crypiv (r : rzi_at_request) : M W Z :=
  with_config (fun config => write_key r "CRYPIV" (iv config) (set_iv config)).
Definition handle_psend (request : rzi_at_request) : M W Z :=
  let hex := argument_of request in
  let hex_len := zstrlen hex in
  if (hex_len =? 0) || negb (hex_len mod 2 =? 0) then ret (- RZI_ERR_INVALID)
  else if RZI_LORA_MAX_PAYLOAD * 2 <? hex_len then ret (- RZI_ERR_TOO_LARGE)
  else
    let (rc, payload) := rzi_at_lora_hex_to_bin hex (hex_len / 2) in
    if negb (rc =? 0) then ret rc
    else
      rc* rc := rzi_at_lora_ensure_started else rc in
      let* rc := rzi_lora_send (Some payload) (hex_len / 2) in respond_ok_rc rc.
Definition handle_precv (request : rzi_at_request) : M W Z :=
  if operation request =? RZI_AT_OP_READ then
    let* active := rzi_lora_receive_active in
    rzi_at_respond_value ("AT+PRECV=" ++ show_d (if active : bool then 65535 else 0))
  else
    let (rc, parsed) := rzi_at_lora_parse_long (argument request) in
    if negb (rc =? 0) || (parsed <? 0) || (65535 <? parsed) then ret (- RZI_ERR_INVALID)
    else
      rc* rc := rzi_at_lora_ensure_started else rc in
      let* rc := rzi_lora_receive (u32 parsed) in respond_ok_rc rc.

(** *** at_lora_test.c *)
Definition ensure_radio : M W Z := rzi_at_lora_ensure_started.
Definition radio_test (test : M W Z) : M W Z :=
  rc* rc := ensure_radio else rc in let* rc := test in respond_ok_rc rc.
Definition handle_trssi : M W Z := radio_test rzi_lora_test_rssi.
Definition handle_ttone : M W Z := radio_test rzi_lora_test_tone.
Definition handle_count (request : rzi_at_request) (fn : Z -> M W Z) : M W Z :=
  let (rc, parsed) := rzi_at_lora_parse_long (argument request) in
  if negb (rc =? 0) || (parsed <? 0) then ret (- RZI_ERR_INVALID)
  else radio_test (fn (u32 parsed)).
Definition handle_ttx r := handle_count r rzi_lora_test_tx.
Definition handle_trx r := handle_count r rzi_lora_test_rx.
Definition handle_tconf (request : rzi_at_request) : M W Z :=
  with_config (fun config =>
    if operation request =? RZI_AT_OP_READ then rzi_at_respond_value ("AT+TCONF=" ++ show_p2p config)
    else match parse_test_fields 6 (argument_of request) with
    | None => ret (- RZI_ERR_INVALID)
    | Some values => store_config (set_p2p config values)
    end).
Definition handle_hop (request : rzi_at_request) (fn : Z -> M W Z) : M W Z :=
  match parse_test_fields 4 (argument_of request) with
  | None => ret (- RZI_ERR_INVALID)
  | Some values => radio_test (fn (u32 (at_ values 3)))
  end.
Definition handle_tth r := handle_hop r rzi_lora_test_tx.
Definition handle_trth r := handle_hop r rzi_lora_test_rx.
Definition handle_toff : M W Z := let* rc := rzi_lora_test_stop in respond_ok_rc rc.
(** A number that a colon must follow, as [handle_cw] reads its fields. *)
Definition colon_field (number : option (Z * string)) : option (Z * string) :=
  match number with
  | Some (v, String c next) => if Ascii.eqb c ":" then Some (v, next) else None
  | _ => None
  end.
Definition parse_cw (text : string) : option (Z * Z * Z) :=
  '(frequency, text) ← colon_field (strtoul text);
  '(power, text) ← colon_field (strtol text);
  '(duration, text) ← strtoul text;
  if String.eqb text "" then Some (frequency, power, duration) else None.
Definition handle_cw (request : rzi_at_request) : M W Z :=
  match parse_cw (argument_of request) with
  | None => ret (- RZI_ERR_INVALID)
  | Some (frequency, power, duration) =>
      radio_test (rzi_lora_test_cw (u32 frequency) (i8 power) (u32 duration))
  end.

(** The handlers of the package, by name. *)
Definition lora_handler (name : string) (request : rzi_at_request) : option (M W Z) :=
  let table : list (string * M W Z) := [
    ("handle_p2p", handle_p2p request); ("handle_pfreq", handle_pfreq request);
    ("handle_psf", handle_psf request); ("handle_pbw", handle_pbw request);
    ("handle_pcr", handle_pcr request); ("handle_ppl", handle_ppl request);
    ("handle_ptp", handle_ptp request); ("handle_psend", handle_psend request);
    ("handle_precv", handle_precv request); ("handle_cad", handle_cad request);
    ("handle_encry", handle_encry request); ("handle_enckey", handle_enckey request);
    ("handle_crypiv", handle_crypiv request); ("handle_iqinver", handle_iqinver request);
    ("handle_syncword", handle_syncword request); ("handle_pbr", handle_pbr request);
    ("handle_pfdev", handle_pfdev request); ("handle_trssi", handle_trssi);
    ("handle_ttone", handle_ttone); ("handle_ttx", handle_ttx request);
    ("handle_trx", handle_trx request); ("handle_tconf", handle_tconf request);
    ("handle_tth", handle_tth request); ("handle_trth", handle_trth request);
    ("handle_toff", handle_toff); ("handle_cw", handle_cw request)]%string in
  snd <$> List.find (fun e => String.eqb e.1 name) table.
End package.
