(* ===== verification/AtDevice.v ===== *)
(** * The AT device (src/src/at: the packages put together)

    The built-in registration with both radio packages, and what the function
    pointers of the registry stand for: the handlers of the command tables, the
    hooks of the extensions, the listener of the working mode and the event
    callback of the LoRaWAN package.  Here the interfaces of At.v, AtSystem.v
    and Lorawan.v are implemented, on the state of the LoRaWAN service.  The
    application beside the port keeps its own callbacks ([app]). *)
From S2P Require Import Prelude Zephyr Err Power Storage LorawanSettings LorawanBackend LorawanSim LorawanCore LorawanCredentials LorawanChannel LorawanApi Lorawan Lora CString At AtArgs AtParser AtSystem AtLorawan AtLorawanNet AtLora.

(** The groups [rzi_at_lorawan_register] and [rzi_at_lora_register] register. *)
Definition lorawan_groups : list (list rzi_at_command) :=
  [key_id_commands; join_send_commands; network_management_commands; supplementary_commands;
   information_commands; class_b_commands; multicast_commands; certification_commands].
Definition lorawan_commands : list rzi_at_command := concat lorawan_groups.
Definition lora_commands : list rzi_at_command := p2p_commands ++ test_commands.
Definition device_commands `{Kconfig} : list rzi_at_command :=
  system_commands ++
  (if CONFIG_RZI_AT_COMMAND_LORAWAN || CONFIG_RZI_AT_COMMAND_LORA then nwm_commands else []) ++
  (if CONFIG_RZI_AT_COMMAND_LORAWAN then lorawan_commands else []) ++
  (if CONFIG_RZI_AT_COMMAND_LORA then lora_commands else []).

Section device.
Context `{Zephyr} `{Errno} `{Kconfig} {ctx : ExecCtx} `{CLong} `{LorawanBackend} `{LorawanExt}
  `{!AtEnv world} `{!SystemEnv world} `{!LorawanAtEnv world} `{!LoraEnv world} `{!LoraAtEnv world}
  `{!AtBoard world} `{!UartDriver world}.

(** The application's own hooks, and the package's event callback. *)
Definition device_hooks (app : LorawanHooks) : LorawanHooks := {|
  run_callback f e u := if f =? on_event_address then on_event e else @run_callback _ _ _ app f e u;
  service_on_started := @service_on_started _ _ _ app;
  service_on_event := @service_on_event _ _ _ app;
|}.
Definition device_listeners : ModeListeners world := {|
  run_listener l mode := if String.eqb l "on_network_mode" then on_network_mode mode else ret 0 |}.
Definition device_extensions (app : LorawanHooks) : AtExtensions :=
  let hooks := device_hooks app in {|
  run_start f :=
    if String.eqb f "lorawan_extension_start" then lorawan_extension_start
    else if String.eqb f "lora_extension_start" then lora_extension_start else ret 0;
  run_process f := if String.eqb f "lora_extension_process" then lora_extension_process else ret tt;
  run_factory_reset f :=
    if String.eqb f "network_mode_factory_reset" then network_mode_factory_reset
    else if String.eqb f "lorawan_factory_reset" then lorawan_factory_reset else ret 0;
|}.
(** The first of the tables that has the name. *)
Definition device_handler (app : LorawanHooks) (name : string) (request : rzi_at_request)
    (user_data : option string) : option (M world Z) :=
  let hooks := device_hooks app in
  let listeners := device_listeners in
  let extensions := device_extensions app in
  match system_handler name request with
  | Some m => Some m
  | None =>
      match key_id_handler name request user_data with
      | Some m => Some m
      | None =>
          match join_send_handler name request with
          | Some m => Some m
          | None =>
              match network_handler name request with
              | Some m => Some m
              | None => lora_handler name request
              end
          end
      end
  end.
Definition device_handlers (app : LorawanHooks) : AtHandlers := {|
  run_handler name request user_data := default (ret 0) (device_handler app name request user_data) |}.

Definition rzi_at_lorawan_register : M world Z :=
  rc* rc := for_rc lorawan_groups (fun g => rzi_at_register (Some g) (zlen g)) else rc in
  rzi_at_registry_add_extension (Some lorawan_extension).
Definition device_register : M world Z := rzi_at_builtin_register rzi_at_lorawan_register rzi_at_lora_register.
End device.
