(* ===== verification/AtLorawanFlows.v ===== *)
(** * Properties of the LoRaWAN AT package

    Keys written and read over the port, join parameters, uplinks and their
    confirmation, the retained downlink, the deferred join, channel groups and
    bands, over the handlers of AtLorawan.v and AtLorawanNet.v.  The witnesses
    are in AtDeviceFlows.v, on a simulated device. *)
From S2P Require Import Prelude Zephyr Err Power Storage LorawanSettings LorawanBackend LorawanSim LorawanCore LorawanCredentials LorawanChannel LorawanApi Lorawan LorawanService LorawanFlows LorawanClient CString At AtArgs AtParser AtSystem AtLorawan AtLorawanNet.

(** *** Join parameters *)
Definition join_fields_ok (values : list Z) : Prop :=
  1 <= zlen values <= 4 /\ Forall (fun v => 0 <= v <= UINT8_MAX) values /\
  at_ values 0 <= 1 /\ (2 <= zlen values -> at_ values 1 <= 1) /\
  (3 <= zlen values -> RZI_LORAWAN_JOIN_INTERVAL_MIN <= at_ values 2 <= RZI_LORAWAN_JOIN_INTERVAL_MAX).
(** An omitted field keeps what is configured. *)
Definition join_field (values : list Z) (i : Z) : Z :=
  if i <? zlen values then at_ values i else RZI_LORAWAN_JOIN_KEEP.
Definition parameters_of (values : list Z) : join_parameters :=
  JoinParameters (at_ values 0) (join_field values 1) (join_field values 2) (join_field values 3).

Section join_text.
Context `{CLongOk}.
Lemma join_values_print vs : forall fuel acc, vs <> [] -> (length vs <= fuel)%nat ->
  Forall (fun v => 0 <= v <= UINT8_MAX) vs -> join_values fuel (colon_list vs) acc = Some (acc ++ vs, ""%string).
Proof.
  pose proof long_max_range as Hlong. unfold UINT8_MAX. induction vs as [|v vs IH]; intros fuel acc Hne Hf Hr; [done|].
  apply Forall_cons in Hr as [Hv Hr]. destruct fuel as [|fuel]; [cbn in Hf; lia|].
  destruct (colon_list_head v vs ltac:(lia)) as (c & s & E). cbn [join_values]. rewrite E, <- E.
  destruct (decide (vs = [])) as [->|Hvs].
  - change (colon_list [v]) with (show_u v). rewrite <- (string_app_nil_r (show_u v)), strtol_show_u by (done || lia). replace ((v <? 0) || (UINT8_MAX <? v)) with false by (unfold UINT8_MAX; lia).
    done.
  - rewrite (colon_list_cons v vs Hvs), strtol_show_u by (done || lia).
    replace ((v <? 0) || (UINT8_MAX <? v)) with false by (unfold UINT8_MAX; lia).
    destruct vs as [|u vs]; [done|]. apply Forall_cons in Hr as Hr'. destruct Hr' as [Hu _].
    destruct (colon_list_head u vs ltac:(lia)) as (d & t & E').
    assert (String.eqb (colon_list (u :: vs)) "" = false) as -> by (by rewrite E').
    change (negb (Ascii.eqb ":" ":")) with false. cbn [orb].
    rewrite IH by (done || cbn in *; lia). by rewrite <- app_assoc.
Qed.
Lemma join_values_sound fuel : forall cursor acc out rest,
  join_values fuel cursor acc = Some (out, rest) ->
  exists vs, out = acc ++ vs /\ (length vs <= fuel)%nat /\ Forall (fun v => 0 <= v <= UINT8_MAX) vs.
Proof.
  induction fuel as [|fuel IH]; intros cursor acc out rest Hj.
  - destruct cursor; injection Hj as <- <-; exists []; by rewrite app_nil_r.
  - destruct cursor as [|c s]; [injection Hj as <- <-; exists []; rewrite app_nil_r; by split_and!; [|cbn; lia|]|].
    revert Hj. cbn [join_values]. destruct (strtol (String c s)) as [[v r]|]; [|done].
    destruct (Z.ltb_spec v 0); [done|]. destruct (Z.ltb_spec UINT8_MAX v); [done|]. cbn [orb].
    destruct r as [|d next].
    + intros [= <- <-]. exists [v]. split_and!; [done|cbn; lia|repeat constructor; lia].
    + destruct (_ || _); [done|]. intros Hj. destruct (IH _ _ _ _ Hj) as (vs & -> & Hl & Hr).
      exists (v :: vs). rewrite <- app_assoc. split_and!; [done|cbn; lia|by constructor; [lia|]].
Qed.
Lemma join_field_keep values i : 0 <= i -> Forall (fun v => 0 <= v <= UINT8_MAX) values ->
  join_field values i = RZI_LORAWAN_JOIN_KEEP /\ zlen values <= i \/
  0 <= join_field values i <= UINT8_MAX /\ join_field values i = at_ values i /\ i + 1 <= zlen values.
Proof.
  intros Hi Hr. unfold join_field. destruct (Z.ltb_spec i (zlen values)); [right|left; by split].
  split; [|split; [done|lia]]. unfold at_. rewrite Forall_lookup in Hr.
  destruct (nth_lookup_or_length values (Z.to_nat i) 0) as [Hl|]; [by apply Hr in Hl|unfold zlen in *; lia].
Qed.

(** The parameters of AT+JOIN are read back from what they print as, for any number of trailing
    fields left out; and whatever text is accepted, it stands for such fields: the start flag is
    0 or 1, and the others are such that the join service takes them. *)
Theorem join_parameters_roundtrip :
  (forall vs, join_fields_ok vs -> parse_join_parameters (colon_list vs) = (0, parameters_of vs)) /\
  (forall text p, parse_join_parameters text = (0, p) ->
     exists vs, join_fields_ok vs /\ p = parameters_of vs /\ 0 <= jp_start p <= 1 /\
       policy_args_ok (jp_auto_join p) (jp_interval p) (jp_attempts p) = true).
Proof.
  assert (Heq : forall vs, zlen vs <= 4 -> JoinParameters (at_ vs 0)
      (if 2 <=? zlen vs then at_ vs 1 else RZI_LORAWAN_JOIN_KEEP)
      (if 3 <=? zlen vs then at_ vs 2 else RZI_LORAWAN_JOIN_KEEP)
      (if 4 <=? zlen vs then at_ vs 3 else RZI_LORAWAN_JOIN_KEEP) = parameters_of vs).
  { intros vs Hl. unfold parameters_of, join_field. f_equal.
    - by replace (2 <=? zlen vs) with (1 <? zlen vs) by lia.
    - by replace (3 <=? zlen vs) with (2 <? zlen vs) by lia.
    - by replace (4 <=? zlen vs) with (3 <? zlen vs) by lia. }
  unfold parse_join_parameters, join_fields_ok. split.
  - intros vs (Hl & Hr & Hs & Ha & Hi). rewrite join_values_print; [|intros ->; rewrite zlen_nil in Hl; lia|unfold zlen in Hl; lia|done].
    cbn [app]. rewrite Heq by lia. change (negb (String.eqb "" "")) with false. cbn [orb].
    destruct (Z.eqb_spec (zlen vs) 0); [lia|]. destruct (Z.ltb_spec 1 (at_ vs 0)); [lia|]. cbn [orb].
    destruct (Z.leb_spec 2 (zlen vs)), (Z.leb_spec 3 (zlen vs)), (Z.ltb_spec 1 (at_ vs 1)),
      (Z.ltb_spec (at_ vs 2) RZI_LORAWAN_JOIN_INTERVAL_MIN), (Z.ltb_spec RZI_LORAWAN_JOIN_INTERVAL_MAX (at_ vs 2));
      cbn [andb orb]; try done; lia.
  - intros text p. destruct (join_values 4 text []) as [[vs rest]|] eqn:E; [|done].
    destruct (join_values_sound 4 text [] vs rest E) as (vs' & -> & Hl & Hr). cbn [app].
    assert (Hl4 : zlen vs' <= 4) by (unfold zlen; lia). rewrite (Heq vs' Hl4). pose proof (zlen_nonneg vs').
    destruct (negb (String.eqb rest "")); [done|]. cbn [orb].
    destruct (Z.eqb_spec (zlen vs') 0); [done|]. destruct (Z.ltb_spec 1 (at_ vs' 0)); [done|]. cbn [orb].
    intros Hp. exists vs'.
    assert (Hrange : (2 <= zlen vs' -> at_ vs' 1 <= 1) /\
      (3 <= zlen vs' -> RZI_LORAWAN_JOIN_INTERVAL_MIN <= at_ vs' 2 <= RZI_LORAWAN_JOIN_INTERVAL_MAX)).
    { revert Hp. destruct (Z.leb_spec 2 (zlen vs')), (Z.leb_spec 3 (zlen vs')), (Z.ltb_spec 1 (at_ vs' 1)),
        (Z.ltb_spec (at_ vs' 2) RZI_LORAWAN_JOIN_INTERVAL_MIN), (Z.ltb_spec RZI_LORAWAN_JOIN_INTERVAL_MAX (at_ vs' 2));
        cbn [andb orb]; intros; try done; lia. }
    assert (p = parameters_of vs') as -> 
      by (revert Hp; match goal with |- (if ?b then _ else _) = _ -> _ => destruct b end;
        intros Hq; [discriminate Hq|by injection Hq]). destruct Hrange as [Ha Hi].
    split_and!; try done; try lia.
    + assert (Hn : zlen vs' <> 0) by done. destruct vs' as [|v vs']; [done|]. apply Forall_cons in Hr as [[Hv _] _]. exact Hv.
    + unfold policy_args_ok, parameters_of, UINT8_MAX. cbn [jp_auto_join jp_interval jp_attempts].
      destruct (join_field_keep vs' 1 ltac:(lia) Hr) as [[Ka _]|(Ka & Va & La)],
        (join_field_keep vs' 2 ltac:(lia) Hr) as [[Ki _]|(Ki & Vi & Li)],
        (join_field_keep vs' 3 ltac:(lia) Hr) as [[Kn _]|(Kn & Vn & Ln)]; unfold UINT8_MAX in *;
        rewrite ?Va, ?Vi, ?Vn, ?Ka, ?Ki, ?Kn in *; lia.
Qed.
End join_text.

(** ** The package on the state of the service *)
(** All of the state but the application's part. *)
Definition outside `{Zephyr} `{LorawanBackend} `{LorawanExt} (w : world) :=
  (w_cfg w, w_cred w, w_core w, w_slots w, w_services w, w_events w, w_mac w, w_backend w).
(** The package's context and the AT port live apart, in the application's
    part; the output binding touches neither, nor the service. *)
Class LorawanAtOk `{Zephyr} `{LorawanBackend} `{LorawanExt} `{!AtEnv world} `{!LorawanAtEnv world} : Prop := {
  lctx_of_set c w : lctx_of (set_lctx c w) = c;
  lctx_at s w : lctx_of (set_at s w) = lctx_of w;
  at_lctx c w : at_of (set_lctx c w) = at_of w;
  lctx_ext w w' : w_ext w = w_ext w' -> lctx_of w = lctx_of w';
  at_ext w w' : w_ext w = w_ext w' -> at_of w = at_of w';
  outside_at s w : outside (set_at s w) = outside w;
  outside_lctx c w : outside (set_lctx c w) = outside w;
  write_outside f t u w : outside (run_write f t u w).2 = outside w;
  write_lctx f t u w : lctx_of (run_write f t u w).2 = lctx_of w;
}.

Section package_facts.
Context `{SettingsOk} `{!BytesOk} `{Errno} `{Kconfig} `{!KconfigOk} {ctx : ExecCtx} `{CLongOk} `{LorawanBackend} `{LorawanExt}
  `{!LorawanHooks} `{!AtEnv world} `{!SystemEnv world} `{!LorawanAtEnv world} `{!AtEnvOk} `{!LorawanAtOk}.

(** *** What replies leave alone *)
Lemma write_outside_kept f t u : keeps outside (run_write f t u).
Proof. intros w. apply write_outside. Qed.
Lemma write_lctx_kept f t u : keeps lctx_of (run_write f t u).
Proof. intros w. apply write_lctx. Qed.
#[local] Hint Resolve write_outside_kept write_lctx_kept : frame.
Lemma respond_value_outside t : keeps outside (rzi_at_respond_value t).
Proof. unfold rzi_at_respond_value, write_formatted, write_all, aget. frame. Qed.
Lemma respond_ok_outside : keeps outside respond_ok.
Proof. unfold respond_ok, rzi_at_respond_status, write_all, aget. frame. Qed.
Lemma publish_event_outside t : keeps outside (rzi_at_publish_event t).
Proof. unfold rzi_at_publish_event, write_formatted, write_all, aget. frame. Qed.
Lemma respond_value_lctx t : keeps lctx_of (rzi_at_respond_value t).
Proof. unfold rzi_at_respond_value, write_formatted, write_all, aget. frame. Qed.
Lemma respond_ok_lctx : keeps lctx_of respond_ok.
Proof. unfold respond_ok, rzi_at_respond_status, write_all, aget. frame. Qed.
Lemma publish_event_lctx t : keeps lctx_of (rzi_at_publish_event t).
Proof. unfold rzi_at_publish_event, write_formatted, write_all, aget. frame. Qed.
#[local] Hint Resolve respond_value_outside respond_ok_outside publish_event_outside
  respond_value_lctx respond_ok_lctx publish_event_lctx : frame.

(** *** What the service leaves alone *)
Lemma modify_ext f : (forall w, w_ext (f w) = w_ext w) -> keeps w_ext (modify f).
Proof. intros Hf w. apply Hf. Qed.
Lemma ext_lctx {A} (m : M world A) : keeps w_ext m -> keeps lctx_of m.
Proof. intros Hm w. apply lctx_ext, Hm. Qed.
Lemma ext_at {A} (m : M world A) : keeps w_ext m -> keeps at_of m.
Proof. intros Hm w. apply at_ext, Hm. Qed.
Lemma cget_bind {A B} (p : rzi_at_lorawan_context -> A) (k : A -> M world B) w :
  (let* x := cget p in k x) w = k (p (lctx_of w)) w.
Proof. done. Qed.
Lemma cput_bind {B} f (k : M world B) w : (cput f ;;; k) w = k (set_lctx (f (lctx_of w)) w).
Proof. done. Qed.

(** *** Keys *)
Definition key_commands : list key_command :=
  [dev_eui_command; join_eui_command; app_key_command; nwk_skey_command; app_skey_command].
(** Session keys are read from the store only in the ABP mode. *)
Definition session_key (c : key_command) : Prop :=
  response_name c = "AT+NWKSKEY"%string \/ response_name c = "AT+APPSKEY"%string.
(** What a stored key reads as. *)
Lemma key_get_stored c bytes w w' :
  c ∈ key_commands -> zlen bytes = key_size c -> (key_set c (Some bytes) (key_size c) w).1 = 0 ->
  let w1 := (key_set c (Some bytes) (key_size c) w).2 in
  w_cred w' = w_cred w1 -> (session_key c -> njm (w_cred w1) = RZI_LORAWAN_ACTIVATION_ABP) ->
  key_get c (Some (replicate (Z.to_nat (key_size c)) 0)) (key_size c) w' = ((0, Some bytes), w').
Proof.
  intros Hc Hl Hset. cbv zeta. intros Hw Habp.
  assert (Hold : length (replicate (Z.to_nat (key_size c)) 0) = length bytes).
  { rewrite length_replicate. unfold zlen in Hl. lia. }
  unfold key_commands in Hc. repeat (apply elem_of_cons in Hc as [->|Hc]); [..|by apply elem_of_nil in Hc];
    cbn [key_get key_set key_size dev_eui_command join_eui_command app_key_command nwk_skey_command app_skey_command] in *;
    unfold rzi_lorawan_set_dev_eui, rzi_lorawan_set_app_eui, rzi_lorawan_set_app_key, rzi_lorawan_set_nwk_skey,
      rzi_lorawan_set_app_skey in *;
    destruct (set_bytes_done _ _ _ _ _ _ Hset) as (Hisr & _ & cr & Hcr & Hld); rewrite Hcr in Hw.
  - exact (proj1 (stored_credential_read F_dev_eui "deveui" 8 bytes _ cr w' Hl Hold Hisr Hw Hld) ltac:(by left)).
  - exact (proj1 (stored_credential_read F_app_eui "joineui" 8 bytes _ cr w' Hl Hold Hisr Hw Hld) ltac:(by right; left)).
  - exact (proj1 (stored_credential_read F_app_key "appkey" 16 bytes _ cr w' Hl Hold Hisr Hw Hld) ltac:(by right; right; left)).
  - refine (proj1 (proj2 (stored_credential_read F_nwk_skey "nwkskey" 16 bytes _ cr w' Hl Hold Hisr Hw Hld)) eq_refl eq_refl _).
    rewrite Hw, <- Hcr. apply Habp. by left.
  - refine (proj2 (proj2 (stored_credential_read F_app_skey "appskey" 16 bytes _ cr w' Hl Hold Hisr Hw Hld)) eq_refl eq_refl _).
    rewrite Hw, <- Hcr. apply Habp. by right.
Qed.

(** Keys over the port: AT+DEVEUI, AT+APPEUI, AT+APPKEY and, in the ABP mode, AT+NWKSKEY and
    AT+APPSKEY. A text that is not exactly the hexadecimal digits of a key is refused and nothing
    is changed; a key that the service took is read back, in capitals. *)
Theorem key_command_reads_back c text w :
  c ∈ key_commands ->
  let write := AtRequest RZI_AT_OP_WRITE (Some text) in
  let (rc, bytes) := rzi_at_lorawan_hex_to_bin text (key_size c) in
  (rc <> 0 -> handle_key write c w = (rc, w)) /\
  (rc = 0 -> (key_set c (Some bytes) (key_size c) w).1 = 0 ->
    (session_key c -> njm (w_cred (key_set c (Some bytes) (key_size c) w).2) = RZI_LORAWAN_ACTIVATION_ABP) ->
    let w' := (handle_key write c w).2 in
    handle_key (AtRequest RZI_AT_OP_READ None) c w' =
      rzi_at_respond_value (response_name c ++ "=" ++ rzi_at_lorawan_bin_to_hex bytes) w').
Proof.
  intros Hc. cbv zeta. destruct (rzi_at_lorawan_hex_to_bin text (key_size c)) as [rc bytes] eqn:Eh.
  unfold handle_key. cbn [operation argument]. change (RZI_AT_OP_WRITE =? RZI_AT_OP_READ) with false.
  change (RZI_AT_OP_READ =? RZI_AT_OP_READ) with true. cbv iota.
  assert (argument_of (AtRequest RZI_AT_OP_WRITE (Some text)) = text) as -> by done. rewrite Eh.
  split; [by destruct (Z.eqb_spec rc 0)|]. intros -> Hset Habp. cbn [Z.eqb negb].
  destruct (hex_to_bin_spec _ _ _ Eh) as (Hl & _ & _).
  assert (Hw : w_cred ((let* rc := key_set c (Some bytes) (key_size c) in respond_to_result rc) w).2 =
               w_cred (key_set c (Some bytes) (key_size c) w).2).
  { unfold bind. destruct (key_set c (Some bytes) (key_size c) w) as [rc1 w1]. cbn [fst snd] in *. subst rc1.
    unfold respond_to_result. cbn [Z.eqb]. pose proof (respond_ok_outside w1) as Hk. unfold same, outside in Hk. cbn [snd]. congruence. }
  set (w' := ((let* rc := key_set c (Some bytes) (key_size c) in respond_to_result rc) w).2) in *.
  unfold bind at 1. rewrite (key_get_stored c bytes w w' Hc Hl Hset Hw Habp). done.
Qed.

(** *** Uplinks *)
(** The uplink a port and a payload stand for: the request handed to the service, confirmed as the
    setting says, and OK or its error as the reply. *)
Definition uplink_of (port : Z) (payload : list Z) (w : world) : Z * world :=
  let '((rc, setting), w1) := rzi_lorawan_get_confirmed (Some false) w in
  if negb (rc =? 0) then (rc, w1)
  else
    let confirmed := default false setting in
    let w2 := set_lctx (put_tx_confirmed (b2z confirmed) (lctx_of w1)) w1 in
    let '(rc, w3) := rzi_lorawan_send port (Some payload) (zlen payload)
      (if confirmed then RZI_LORAWAN_MSG_CONFIRMED else RZI_LORAWAN_MSG_UNCONFIRMED) w2 in
    if rc =? 0 then respond_ok w3 else (rc, w3).
Definition uplink_ok (port : Z) (payload : list Z) : Prop :=
  1 <= port <= 223 /\ 1 <= zlen payload <= RZI_LORAWAN_MAX_PAYLOAD.
(** The text "port:payload": a number that ends at the first colon, and the digits of the payload. *)
Definition send_argument (text : string) (port : Z) (payload : list Z) : Prop :=
  exists number hex, text = (number ++ String ":" hex)%string /\
    string_forall (fun d => negb (Ascii.eqb ":" d)) number = true /\
    strtol text = Some (port, String ":" hex) /\ hex_text hex payload /\ uplink_ok port payload.

Lemma show_u_no_colon n : 0 <= n -> string_forall (fun d => negb (Ascii.eqb ":" d)) (show_u n) = true.
Proof.
  intros Hn. eapply string_forall_impl; [|by apply show_u_digits]. intros d Hd. apply negb_true_iff, Ascii.eqb_neq.
  intros <-. done.
Qed.
Lemma printed_argument port payload : uplink_ok port payload -> Forall byte_range payload ->
  send_argument (show_u port ++ String ":" (rzi_at_lorawan_bin_to_hex payload)) port payload.
Proof.
  intros Hu Hb. pose proof Hu as [Hp Hl]. pose proof long_max_range as Hlong.
  exists (show_u port), (rzi_at_lorawan_bin_to_hex payload). split_and!; try apply Hu; try done.
  - apply show_u_no_colon. lia.
  - apply strtol_show_u; [lia|done].
  - by apply hex_text_print.
Qed.
Lemma send_argument_runs op text port payload w : send_argument text port payload ->
  handle_send (AtRequest op (Some text)) w = uplink_of port payload w.
Proof.
  intros (number & hex & -> & Hn & Hnum & Hhex & Hp & Hl). destruct (hex_text_pairs hex payload) as [Hpairs _].
  destruct (Hpairs Hhex) as [Hval Hlen]. clear Hpairs.
  unfold handle_send. cbn [argument].
  assert (argument_of (AtRequest op (Some (number ++ String ":" hex)%string)) = (number ++ String ":" hex)%string) as -> by done.
  unfold strchr. rewrite split_at_app by done. rewrite Hnum, String.eqb_refl. cbn [negb orb].
  destruct (Z.ltb_spec port 1); [lia|]. destruct (Z.ltb_spec 223 port); [lia|]. cbn [orb].
  rewrite Hlen. destruct (Z.eqb_spec (zlen payload * 2) 0); [lia|].
  destruct (Z.ltb_spec (RZI_LORAWAN_MAX_PAYLOAD * 2) (zlen payload * 2)); [lia|].
  rewrite Z.div_mul by lia. unfold rzi_at_lorawan_hex_to_bin. rewrite Hlen, Z.eqb_refl, Hval. cbn [negb Z.eqb].
  rewrite bind_eq. unfold uplink_of. destruct (rzi_lorawan_get_confirmed (Some false) w) as [[rc setting] w1].
  cbn [fst snd]. destruct (negb (rc =? 0)); [done|]. unfold send_now. rewrite cput_bind, bind_eq, Z.div_mul by lia.
  unfold u8. rewrite Z.mod_small by lia. destruct (rzi_lorawan_send _ _ _ _ _) as [rc2 w3]. cbn [fst snd].
  unfold respond_to_result. by destruct (rc2 =? 0).
Qed.
(** C22: AT+SEND takes the texts "port:payload" and no others: a number from 1 to 223 that ends at the
    colon, and one to 242 bytes in pairs of hexadecimal digits.  Such a text is handed to the
    service as one uplink of exactly those bytes on that port, confirmed as the setting says, and
    answered with OK or the service's error; every other text is refused with a parameter or a
    length error and changes nothing.  The text that a port and a payload print as is such a text. *)
Theorem send_command_transmits op w :
  (forall text port payload, send_argument text port payload ->
    handle_send (AtRequest op (Some text)) w = uplink_of port payload w) /\
  (forall text, (forall port payload, ~ send_argument text port payload) ->
    let r := handle_send (AtRequest op (Some text)) w in
    (r.1 = - RZI_ERR_INVALID \/ r.1 = - RZI_ERR_TOO_LARGE) /\ r.2 = w) /\
  (forall port payload, uplink_ok port payload -> Forall byte_range payload ->
    send_argument (show_u port ++ String ":" (rzi_at_lorawan_bin_to_hex payload)) port payload).
Proof.
  split; [intros; by apply send_argument_runs|split; [|by apply printed_argument]].
  intros text Hno. cbv zeta. unfold handle_send.
  assert (argument_of (AtRequest op (Some text)) = text) as -> by done.
  destruct (strchr ":" text) as [[before hex]|] eqn:Ec; [|by split; [left|]].
  apply strchr_split in Ec as [-> Hb].
  destruct (strtol (before ++ String ":" hex)) as [[port rest]|] eqn:En; [|by split; [left|]].
  destruct (String.eqb_spec rest (String ":" hex)) as [->|]; cbn [negb orb]; [|by split; [left|]].
  destruct (Z.ltb_spec port 1); [by split; [left|]|]. destruct (Z.ltb_spec 223 port); [by split; [left|]|]. cbn [orb].
  destruct (Z.eqb_spec (zstrlen hex) 0); [by split; [left|]|].
  destruct (Z.ltb_spec (RZI_LORAWAN_MAX_PAYLOAD * 2) (zstrlen hex)); [by split; [right|]|].
  destruct (rzi_at_lorawan_hex_to_bin hex (zstrlen hex / 2)) as [rc payload] eqn:Eh.
  destruct (Z.eqb_spec rc 0) as [->|Hrc]; cbn [negb].
  2:{ split; [|done]. left. pose proof (hex_to_bin_rc hex (zstrlen hex / 2)) as Hc. rewrite Eh in Hc. by destruct Hc. }
  exfalso. apply (Hno port payload). exists before, hex. destruct (hex_to_bin_spec _ _ _ Eh) as (Hlen & _ & Hhex).
  pose proof (zstrlen_nonneg hex). rewrite <- Hlen in Hhex. split; [done|]. split; [done|]. split; [done|].
  split; [|unfold uplink_ok; lia]. apply hex_text_pairs. unfold rzi_at_lorawan_hex_to_bin in Eh. destruct (negb _); [done|].
  destruct (hex_pairs hex) as [bs|]; [|done]. injection Eh as ->. split; [done|]. lia.
Qed.

(** *** The retained downlink *)
(** A downlink is announced and kept; AT+RECV=? prints its port and payload once, and then an
    empty value, until the next one. *)
Theorem downlink_read_once d w :
  0 <= dl_size d <= RZI_LORAWAN_MAX_PAYLOAD -> zlen (dl_data d) = RZI_LORAWAN_MAX_PAYLOAD ->
  zlen (ld_data (last_downlink (lctx_of w))) = RZI_LORAWAN_MAX_PAYLOAD ->
  let payload := take (Z.to_nat (dl_size d)) (dl_data d) in
  let w1 := (on_event (EVENT_DOWNDATA d) w).2 in
  let r2 := handle_recv w1 in
  (exists w0, at_of w0 = at_of w /\ w1 = (at_event (downlink_text d) w0).2) /\
  (exists w1', at_of w1' = at_of w1 /\
    r2 = rzi_at_respond_value ("AT+RECV=" ++ show_u (dl_port d) ++ ":" ++ rzi_at_lorawan_bin_to_hex payload) w1') /\
  handle_recv r2.2 = rzi_at_respond_value "AT+RECV=" r2.2.
Proof.
  intros Hs Hd Hlast. cbv zeta. unfold on_event. rewrite cput_bind.
  set (stored := LastDownlink true (dl_port d) (dl_size d) _).
  set (w0 := set_lctx _ w). assert (Hw0 : last_downlink (lctx_of w0) = stored) by (unfold w0; by rewrite lctx_of_set).
  pose proof (publish_event_lctx (downlink_text d) w0) as Hk.
  split; [exists w0; split; [apply at_lctx|done]|].
  unfold at_event, bind. destruct (rzi_at_publish_event (downlink_text d) w0) as [rc w1]. cbn [snd ret] in *.
  unfold same in Hk.
  assert (Htake : take (Z.to_nat (ld_size stored)) (ld_data stored) = take (Z.to_nat (dl_size d)) (dl_data d)).
  { cbn [ld_size ld_data stored]. unfold overlay. rewrite take_0. cbn [app]. unfold zlen in *. rewrite take_app_le; [rewrite take_take; f_equal; lia|].
    rewrite length_take. lia. }
  set (w2 := set_lctx (put_last_downlink (LastDownlink false (ld_port stored) (ld_size stored) (ld_data stored)) (lctx_of w1)) w1).
  assert (Hr : handle_recv w1 = rzi_at_respond_value ("AT+RECV=" ++ show_u (dl_port d) ++ ":" ++
      rzi_at_lorawan_bin_to_hex (take (Z.to_nat (dl_size d)) (dl_data d))) w2).
  { unfold handle_recv. rewrite cget_bind, Hk, Hw0. cbn [ld_valid stored negb]. rewrite cput_bind, Htake. unfold w2. by rewrite Hk. }
  assert (Hw2 : ld_valid (last_downlink (lctx_of w2)) = false) by (unfold w2; by rewrite lctx_of_set).
  rewrite Hr. split; [exists w2; split; [apply at_lctx|done]|].
  match goal with |- context [rzi_at_respond_value ?t w2] => pose proof (respond_value_lctx t w2) as Hk2;
    destruct (rzi_at_respond_value t w2) as [rc3 w3] end.
  unfold same in Hk2. cbn [snd] in *. unfold handle_recv. by rewrite cget_bind, Hk2, Hw2.
Qed.
(** *** The deferred join *)
Definition ready_event (e : rzi_lorawan_event) : Prop := e = EVENT_READY \/ e = EVENT_STATE_CHANGED STATE_READY.
Lemma on_ready e w : ready_event e -> AtLorawan.on_event e w = continue_pending_join w.
Proof. by intros [-> | ->]. Qed.
Lemma apply_class_lctx : keeps lctx_of rzi_at_lorawan_apply_class.
Proof. unfold rzi_at_lorawan_apply_class, cget. frame. apply ext_lctx, (set_class_moves (same w_ext)). Qed.
Lemma join_now_lctx : keeps lctx_of join_now.
Proof. apply ext_lctx, (join_moves (same w_ext)). Qed.
(** The start-up of the service moves the package's context only through the hooks it calls. *)
Lemma init_lctx r : (forall s h, service_on_started s = Some h -> keeps lctx_of h) -> keeps lctx_of (rzi_lorawan_init r).
Proof. pose proof (effects_via lctx_of lctx_ext). apply (init_moves (same lctx_of)). Qed.
(** C20: AT+JOIN before the service runs starts it: [rzi_lorawan_init] runs with the region that is
    configured, and when it succeeds the port counts the service as started and leaves the join
    pending; when the region cannot be read or the start fails, the error is returned, the service
    does not count as started and no new join is pending.  The service's next READY runs the pending
    join, once: with the class of the port applied first, as one join request that starts joining
    and keeps the join policy, whose refusal is announced as a failed join; no later READY repeats
    it.  And it is not run when nothing is pending, or after AT+JOIN=0 has cancelled it. *)
Theorem deferred_join w e e' :
  (forall s h, service_on_started s = Some h -> keeps lctx_of h) -> ready_event e -> ready_event e' ->
  (service_started (lctx_of w) = false ->
    let r := rzi_at_lorawan_join_start w in
    let '((rc, region), v) := rzi_lorawan_get_region (Some 0) w in
    let init := rzi_lorawan_init (default 0 region) (set_lctx (put_join_pending 1 (lctx_of v)) v) in
    if negb (rc =? 0) then r = (rc, v) /\ lctx_of v = lctx_of w
    else outside r.2 = outside init.2 /\ r.1 = init.1 /\
      (r.1 = 0 -> service_started (lctx_of r.2) = true /\ join_pending (lctx_of r.2) = 1) /\
      (r.1 <> 0 -> service_started (lctx_of r.2) = false /\ join_pending (lctx_of r.2) = 0)) /\
  (join_pending (lctx_of w) = 1 ->
    let c := lctx_of w in
    let w0 := set_lctx (put_join_pending 0 c) w in
    let class := if negb (service_started c) || (device_class c =? RZI_LORAWAN_CLASS_A) then (0, w0)
                 else rzi_lorawan_set_class (device_class c) w0 in
    let r := if class.1 =? 0
             then rzi_lorawan_join 1 RZI_LORAWAN_JOIN_KEEP RZI_LORAWAN_JOIN_KEEP RZI_LORAWAN_JOIN_KEEP class.2
             else class in
    let w1 := (AtLorawan.on_event e w).2 in
    w1 = (if r.1 =? 0 then r.2 else (at_event "JOIN_FAILED_RX_TIMEOUT" r.2).2) /\
    AtLorawan.on_event e' w1 = (tt, w1)) /\
  (join_pending (lctx_of w) <> 1 -> AtLorawan.on_event e w = (tt, w)) /\
  (let stopped := (rzi_at_lorawan_join_stop w).2 in AtLorawan.on_event e stopped = (tt, stopped)).
Proof.
  intros Hh He He'. assert (Hidle : forall e v, ready_event e -> join_pending (lctx_of v) <> 1 -> AtLorawan.on_event e v = (tt, v)).
  { intros x v Hx Hv. rewrite on_ready by done. unfold continue_pending_join. rewrite cget_bind.
    by destruct (Z.eqb_spec (join_pending (lctx_of v)) 1). }
  split_and!.
  - intros Hs. cbv zeta. unfold rzi_at_lorawan_join_start. rewrite cget_bind, Hs. cbn [negb]. unfold start_service.
    rewrite bind_eq. pose proof (ext_lctx _ (get_region_moves (same w_ext) (Some 0)) w) as Hg. unfold same in Hg.
    destruct (rzi_lorawan_get_region (Some 0) w) as [[rc region] v]. cbn [fst snd] in *.
    destruct (Z.eqb_spec rc 0) as [->|]; cbn [negb]; [|done].
    rewrite cput_bind, bind_eq. set (v1 := set_lctx _ v).
    assert (Hv1 : lctx_of v1 = put_join_pending 1 (lctx_of w)) by (unfold v1; by rewrite lctx_of_set, Hg).
    pose proof (init_lctx (default 0 region) Hh v1) as Hi. unfold same in Hi.
    destruct (rzi_lorawan_init (default 0 region) v1) as [rc v2]. cbn [fst snd] in *.
    destruct (Z.eqb_spec rc 0) as [->|]; cbn [negb]; rewrite cput_bind; cbn [ret fst snd];
      (split; [apply outside_lctx|]; split; [done|]; rewrite !lctx_of_set; split; [intros|intros ?]; try done);
      by rewrite Hi, Hv1.
  - intros Hp. cbv zeta. set (w0 := set_lctx _ w).
    assert (Hw0 : join_pending (lctx_of w0) = 0) by (unfold w0; by rewrite lctx_of_set).
    rewrite (on_ready e w He). unfold continue_pending_join. rewrite cget_bind, Hp. cbn [Z.eqb Pos.eqb]. rewrite cput_bind.
    fold w0. unfold bind. pose proof (apply_class_lctx w0) as Hc. unfold same in Hc.
    assert (Hcl : rzi_at_lorawan_apply_class w0 =
      (if negb (service_started (lctx_of w)) || (device_class (lctx_of w) =? RZI_LORAWAN_CLASS_A) then (0, w0)
       else rzi_lorawan_set_class (device_class (lctx_of w)) w0)).
    { unfold rzi_at_lorawan_apply_class. rewrite !cget_bind.
      assert (lctx_of w0 = put_join_pending 0 (lctx_of w)) as -> by (unfold w0; by rewrite lctx_of_set).
      cbn [service_started device_class put_join_pending]. by destruct (_ || _). }
    rewrite <- Hcl. fold join_now.
    destruct (rzi_at_lorawan_apply_class w0) as [rc1 v1]. cbn [fst snd] in *.
    set (r := if rc1 =? 0 then join_now v1 else (rc1, v1)).
    assert ((if rc1 =? 0 then join_now else ret rc1) v1 = r) as -> by (unfold r; by destruct (rc1 =? 0)).
    assert (Hr : lctx_of r.2 = lctx_of w0).
    { unfold r. destruct (rc1 =? 0); [|done]. by rewrite (join_now_lctx v1). }
    destruct r as [rc v2]. cbn [fst snd] in *. destruct (Z.eqb_spec rc 0) as [->|]; cbn [negb].
    + split; [done|]. apply Hidle; [done|]. cbn. by rewrite Hr, Hw0.
    + split; [done|]. apply Hidle; [done|]. unfold at_event, bind. pose proof (publish_event_lctx "JOIN_FAILED_RX_TIMEOUT" v2) as Hk.
      unfold same in Hk. destruct (rzi_at_publish_event _ v2) as [? v3]. cbn [snd ret] in *. by rewrite Hk, Hr, Hw0.
  - by apply Hidle.
  - cbv zeta. apply Hidle; [done|]. unfold rzi_at_lorawan_join_stop. rewrite cput_bind, cget_bind.
    set (w0 := set_lctx _ w). assert (Hw0 : join_pending (lctx_of w0) = 0) by (unfold w0; by rewrite lctx_of_set).
    destruct (service_started (lctx_of w0)); [by rewrite (ext_lctx _ (leave_moves (same w_ext)) w0), Hw0|cbn [snd ret]; by rewrite Hw0].
Qed.

(** *** Confirmations *)
Lemma respond_to_result_lctx rc : keeps lctx_of (respond_to_result rc).
Proof. unfold respond_to_result. frame. Qed.
(** How the end of an uplink is announced depends on the last uplink that was asked for, also when
    that one was refused: a confirmed one is announced with its outcome, which AT+CFS=? then
    reports; an unconfirmed one as done, and AT+CFS=? keeps what it had. *)
Theorem confirmation_follows_last_request port payload n confirmed w v status error :
  let asked := (send_now port payload n confirmed w).2 in
  tx_confirmed (lctx_of v) = tx_confirmed (lctx_of asked) ->
  let report := AtLorawan.on_event (EVENT_TXDONE status error) v in
  let with_status s := set_lctx (put_confirmation_status s (lctx_of v)) v in
  report = (if negb confirmed then at_event "TX_DONE" v
            else match status with
                 | TXDONE_CONFIRMED => at_event "SEND_CONFIRMED_OK" (with_status 1)
                 | TXDONE_NOT_SENT => at_event "SEND_CONFIRMED_FAILED" (with_status 0)
                 | TXDONE_SENT => at_event "TX_DONE" v
                 end) /\
  handle_cfs report.2 = rzi_at_respond_value ("AT+CFS=" ++ show_d (b2z (
    if negb confirmed then negb (confirmation_status (lctx_of v) =? 0)%Z
    else match status with
         | TXDONE_CONFIRMED => true
         | TXDONE_NOT_SENT => false
         | TXDONE_SENT => negb (confirmation_status (lctx_of v) =? 0)%Z
         end)))%string report.2.
Proof.
  cbv zeta. assert (Hasked : tx_confirmed (lctx_of (send_now port payload n confirmed w).2) = b2z confirmed).
  { unfold send_now. rewrite cput_bind. set (w0 := set_lctx _ w). unfold bind.
    match goal with |- context [rzi_lorawan_send ?p ?d ?n ?t w0] => pose proof (ext_lctx _ (send_moves (same w_ext) p d n t) w0) as Hs end.
    unfold same in Hs. destruct (rzi_lorawan_send _ _ _ _ w0) as [rc w1]. cbn [snd] in Hs.
    rewrite (respond_to_result_lctx rc w1), Hs. unfold w0. by rewrite lctx_of_set. }
  rewrite Hasked. intros Hv. unfold AtLorawan.on_event. rewrite cget_bind, Hv.
  assert (Hev : forall t u, lctx_of (at_event t u).2 = lctx_of u).
  { intros t u. unfold at_event, bind. pose proof (publish_event_lctx t u) as Hk. unfold same in Hk.
    by destruct (rzi_at_publish_event t u). }
  unfold handle_cfs. rewrite cget_bind.
  destruct confirmed; cbn [b2z Z.eqb negb]; [destruct status|]; rewrite ?cput_bind; (split; [done|]); rewrite Hev, ?lctx_of_set; done.
Qed.
(** *** The factory reset *)
Lemma lorawan_factory_reset_ext : keeps w_ext lorawan_factory_reset.
Proof.
  unfold lorawan_factory_reset, delete_stored_key, nvm. frame; [apply (clear_settings_moves (same w_ext))|].
  apply respects_zoom. by intros [].
Qed.
Lemma lorawan_factory_reset_at : keeps at_of lorawan_factory_reset.
Proof. apply ext_at, lorawan_factory_reset_ext. Qed.
End package_facts.

(** ** Channel groups and bands *)
(** The group numbers AT+CHE=? prints. *)
Definition group_numbers (groups : Z) : list Z :=
  (fun g => g + 1) <$> List.filter (fun g => negb (Z.land groups (BIT g) =? 0)) (channel_range 0 (Z.to_nat GROUPS)).
(** Decide a property of every value of a small range by evaluation. *)
Lemma small_range (n : nat) (p : Z -> bool) : forallb (fun k => p (Z.of_nat k)) (seq 0 n) = true ->
  forall v, 0 <= v < Z.of_nat n -> p v = true.
Proof.
  intros Hf v Hv. rewrite forallb_forall in Hf. rewrite <- (Z2Nat.id v) by lia. apply Hf, in_seq. lia.
Qed.
Section groups.
Context `{CLongOk}.
Lemma che_mask_print vs : forall fuel mask, vs <> [] -> (length vs <= fuel)%nat ->
  Forall (fun v => 1 <= v <= GROUPS) vs ->
  che_mask fuel (colon_list vs) mask = Some (foldl (fun m v => put_group m (v - 1)) mask vs).
Proof.
  pose proof long_max_range as Hlong. assert (Hul : 9 <= ULONG_MAX) by (unfold ULONG_MAX; lia).
  induction vs as [|v vs IH]; intros fuel mask Hne Hf Hr; [done|]. apply Forall_cons in Hr as [Hv Hr].
  destruct fuel as [|fuel]; [cbn in Hf; lia|]. cbn [che_mask]. destruct (decide (vs = [])) as [->|Hvs].
  - change (colon_list [v]) with (show_u v). rewrite <- (string_app_nil_r (show_u v)), strtoul_show_u by (done || lia).
    by replace ((v <? 1) || (GROUPS <? v)) with false by lia.
  - rewrite colon_list_cons, strtoul_show_u by (done || lia). replace ((v <? 1) || (GROUPS <? v)) with false by lia.
    change (Ascii.eqb ":" ":") with true. cbv iota. cbn [foldl]. apply IH; [done|cbn in Hf; lia|done].
Qed.
(** AT+MASK and AT+CHE read back what was written.  A group mask reads as itself, except that all
    groups are reported when all eight narrow ones are on, or when none was named; a list of group
    numbers written to AT+CHE, as it prints them, enables just those groups; and AT+CHE=0 is every
    group. *)
Theorem channel_groups_roundtrip groups :
  0 <= groups <= MASK_ALL ->
  groups_of (mask_of_bits groups) = (if (groups =? 0) || (groups =? 0xff) then MASK_ALL else groups) /\
  (groups <> 0 -> exists mask, che_mask (Z.to_nat GROUPS) (group_list groups) mask_zero = Some mask /\ groups_of mask = groups) /\
  groups_of mask_all_groups = MASK_ALL.
Proof.
  intros Hg. split_and!; [| |by vm_compute].
  - apply Z.eqb_eq. revert groups Hg.
    assert (Hall : forall v, 0 <= v < Z.of_nat 512 ->
      (groups_of (mask_of_bits v) =? if (v =? 0) || (v =? 0xff) then MASK_ALL else v) = true)
      by (apply small_range; by vm_compute).
    intros v Hv. apply Hall. lia.
  - intros Hz.
    assert (Hall : forall v, 0 <= v < Z.of_nat 512 ->
      (v =? 0) || (String.eqb (group_list v) (colon_list (group_numbers v)) && negb (bool_decide (group_numbers v = [])) &&
        (groups_of (foldl (fun m v => put_group m (v - 1)) mask_zero (group_numbers v)) =? v)) = true)
      by (apply small_range; by vm_compute).
    specialize (Hall groups ltac:(lia)). destruct (Z.eqb_spec groups 0); [done|]. cbn [orb] in Hall.
    apply andb_true_iff in Hall as [Hall Hm]. apply andb_true_iff in Hall as [Hs Hne].
    apply String.eqb_eq in Hs. apply negb_true_iff, bool_decide_eq_false in Hne. apply Z.eqb_eq in Hm.
    eexists. split; [|exact Hm]. rewrite Hs. apply che_mask_print; [done| |].
    + unfold group_numbers. rewrite length_fmap. etransitivity; [apply List.filter_length_le|]. done.
    + unfold group_numbers. apply Forall_fmap, Forall_forall. intros g Hin.
      apply list_elem_of_In, filter_In in Hin as [Hin _]. cbn [compose].
      unfold channel_range in Hin. apply list_elem_of_In, list_elem_of_fmap in Hin as (k & -> & Hk).
      apply elem_of_seq in Hk. change (Z.to_nat GROUPS) with 9%nat in Hk. lia.
Qed.
End groups.
(** The band numbers 1 to 11 and the regions of the service correspond one to one, and every other
    number AT+BAND= is given is refused: so AT+BAND=? prints the number that was accepted. *)
Theorem band_region_roundtrip band region :
  (1 <= band <= 11 -> exists r, rzi_at_lorawan_band_to_region band = (0, r) /\ 0 <= r <= RZI_LORAWAN_REGION_RU_864 /\
     rzi_at_lorawan_region_to_band r = band) /\
  (0 <= region <= RZI_LORAWAN_REGION_RU_864 -> let b := rzi_at_lorawan_region_to_band region in
     1 <= b <= 11 /\ rzi_at_lorawan_band_to_region b = (0, region)) /\
  (~ 1 <= band <= 11 -> (rzi_at_lorawan_band_to_region band).1 = - RZI_ERR_INVALID).
Proof.
  split_and!.
  - intros Hb. assert (Hin : band ∈ [1; 2; 3; 4; 5; 6; 7; 8; 9; 10; 11]) by (rewrite !elem_of_cons; lia). clear Hb.
    repeat (apply elem_of_cons in Hin as [->|Hin]; [by eexists|]). by apply elem_of_nil in Hin.
  - intros Hr. assert (Hin : region ∈ [0; 1; 2; 3; 4; 5; 6; 7; 8; 9; 10]) by (rewrite !elem_of_cons; lia). clear Hr.
    repeat (apply elem_of_cons in Hin as [->|Hin]; [by split|]). by apply elem_of_nil in Hin.
  - intros Hb. unfold rzi_at_lorawan_band_to_region. destruct band as [|p|p]; [done| |done].
    destruct (decide (12 <= Z.pos p)) as [Hp|]; [|lia].
    do 4 (destruct p as [p|p|]; try done; try lia).
Qed.
