(* ===== verification/AtDeviceSim.v ===== *)
(** * A simulated device with every AT package

    The LoRaWAN service over the backend of LorawanSim.v, a radio that logs its
    frames, and a port that logs its output: the instances of every interface
    of the AT files, with their laws, for the witnesses of the theorems about
    commands. *)
From S2P Require Import Prelude Zephyr Err Power Storage LorawanSettings LorawanBackend LorawanSim LorawanCore LorawanCredentials LorawanChannel LorawanApi Lorawan LorawanService Lora CString At AtArgs AtParser AtSystem AtLorawan AtLorawanNet AtLora AtDevice AtLorawanFlows.

Module DeviceSim.
Export Instances CLongInstances.
#[export] Instance device_lorawan : LorawanBackend | 10 := SimInstances.sim_lorawan.
(** The variables of the AT service, its packages and the LoRa service, the
    output of the port, the frames on the air, and the number of resets. *)
Record device_ext : Type := DeviceExt {
  x_at : at_state; x_system : system_state; x_lorawan : rzi_at_lorawan_context;
  x_lora : lora_state; x_pending : bool; x_out : list string; x_air : list (list Z); x_resets : Z;
}.
#[export] Instance device_state : LorawanExt | 10 := {| ext_state := device_ext |}.
Definition on_ext (f : device_ext -> device_ext) (w : world) : world := set_w_ext (f (w_ext w)) w.
#[export] Instance device_at : AtEnv world | 10 := {|
  at_of w := x_at (w_ext w);
  set_at s := on_ext (fun x => DeviceExt s (x_system x) (x_lorawan x) (x_lora x) (x_pending x) (x_out x) (x_air x) (x_resets x));
  run_write _ t _ w := (0, on_ext (fun x => DeviceExt (x_at x) (x_system x) (x_lorawan x) (x_lora x) (x_pending x) (x_out x ++ [t]) (x_air x) (x_resets x)) w);
  sys_reboot := modify (on_ext (fun x => DeviceExt (x_at x) (x_system x) (x_lorawan x) (x_lora x) (x_pending x) (x_out x) (x_air x) (x_resets x + 1)));
  resets w := x_resets (w_ext w);
|}.
#[export] Instance device_system : SystemEnv world | 10 := {|
  system_of w := x_system (w_ext w);
  set_system s := on_ext (fun x => DeviceExt (x_at x) s (x_lorawan x) (x_lora x) (x_pending x) (x_out x) (x_air x) (x_resets x));
|}.
#[export] Instance device_context : LorawanAtEnv world | 10 := {|
  lctx_of w := x_lorawan (w_ext w);
  set_lctx c := on_ext (fun x => DeviceExt (x_at x) (x_system x) c (x_lora x) (x_pending x) (x_out x) (x_air x) (x_resets x));
  on_event_address := 1; dt_defaults := None;
|}.
Definition put_lora s x := DeviceExt (x_at x) (x_system x) (x_lorawan x) s (x_pending x) (x_out x) (x_air x) (x_resets x).
Definition transmitted frame x := DeviceExt (x_at x) (x_system x) (x_lorawan x) (x_lora x) (x_pending x) (x_out x) (x_air x ++ [frame]) (x_resets x).
#[export] Instance device_lora : LoraEnv world | 10 := {|
  lora_of w := x_lora (w_ext w);
  set_lora s := on_ext (put_lora s);
  b_start := Some (fun _ => ret 0); b_stop := Some (ret 0);
  b_apply_config := Some (fun c => ret (if bandwidth c =? 999 then - RZI_ERR_INVALID else 0));
  b_send := Some (fun d _ w => (0, on_ext (transmitted d) w)); b_receive := Some (fun _ => ret 0);
  b_test_rssi := None; b_test_get_rssi := None; b_test_tone := None; b_test_tx := None;
  b_test_rx := None; b_test_cw := None; b_test_stop := None; b_poll := None;
  run_tx_done f e _ := if f =? 2 then on_tx_done e else ret tt;
  run_rx_done f d n rssi snr _ := if f =? 3 then on_rx_done d n rssi snr else ret tt;
|}.
#[export] Instance device_p2p : LoraAtEnv world | 10 := {|
  p2p_start_pending w := x_pending (w_ext w);
  set_p2p_start_pending b := on_ext (fun x => DeviceExt (x_at x) (x_system x) (x_lorawan x) (x_lora x) b (x_out x) (x_air x) (x_resets x));
  on_tx_done_address := 2; on_rx_done_address := 3;
|}.
#[export] Instance device_board : AtBoard world | 10 := {|
  CONFIG_BOARD := "rak4631"; CONFIG_SOC := "nrf52840"; BUILD_DATE := "Jan  1 2026"; BUILD_TIME := "00:00:00";
  hwinfo_get_device_id := Some (fun _ => ret (8, [1; 2; 3; 4; 5; 6; 7; 255])); bt_id_get := None;
|}.
#[export] Instance device_uart : UartDriver world | 10 := {|
  CONFIG_RZI_AT_ADAPTER_UART := true; uart_config := Z; set_baudrate b _ := b;
  device_is_ready _ := ret true; uart_irq_callback_user_data_set _ _ := ret 0;
  uart_irq_rx_enable _ := ret tt; uart_irq_update _ := ret tt; uart_irq_rx_ready _ := ret false;
  uart_fifo_read _ _ := ret (0, []); uart_poll_out _ _ := ret tt; uart_config_get _ := ret (0, 115200);
  uart_configure _ _ := ret 0; uart_write_address := 9;
|}.
(** No application beside the port. *)
Definition no_application : LorawanHooks :=
  {| run_callback _ _ _ := ret tt; service_on_started _ := None; service_on_event _ := None |}.
#[export] Instance port_hooks : LorawanHooks | 5 := device_hooks no_application.
#[export] Instance port_listeners : ModeListeners world | 5 := device_listeners.
#[export] Instance port_extensions : AtExtensions | 5 := device_extensions no_application.
#[export] Instance port_handlers : AtHandlers | 5 := device_handlers no_application.

#[export] Instance device_at_ok : AtEnvOk.
Proof. by split. Qed.
#[export] Instance device_lorawan_ok : LorawanAtOk.
Proof. split; try done; intros; cbn; congruence. Qed.
#[export] Instance device_system_ok : SystemOk world.
Proof. by split. Qed.

#[export] Instance device_lora_ok : LoraEnvOk.
Proof. by split. Qed.

Definition ext_boot : device_ext :=
  DeviceExt (at_boot (([], 1024) : @ring_buf sim_zephyr)) system_boot context_boot lora_boot false [] [] 0.
Definition device (f : schema_state) (x : device_ext) : world :=
  World f credentials_zero core_init (replicate 4 slot_zero) []
    (([], 8) : @msgq sim_zephyr rzi_lorawan_backend_event) (Mac 0 false) (SimBackend false []) x.
Definition power_on : world := device SettingsWitness.cold ext_boot.
Definition started_device : world := (rzi_at_start device_register (Some (AtIo 1 0)) power_on).2.
(** The device after these characters arrived and the AT thread and the
    dispatcher ran. *)
Definition type_line (text : string) (w : world) : world :=
  let w := (rzi_at_receive (Some (codes text ++ [13])) (zlen (codes text) + 1) w).2 in
  (thread_round 20 w).2.
Definition output (w : world) : list string := x_out (w_ext w).
End DeviceSim.
