(* ===== verification/AtLoraFlows.v ===== *)
(** * Properties of the LoRa AT package

    The radio commands and the working mode, and the six fields of AT+P2P, over
    the handlers of AtLora.v. *)
From S2P Require Import Prelude Zephyr Err Power Storage LorawanSettings LorawanBackend Lora CString At AtArgs AtParser AtSystem AtLora AtDeviceSim.

(** The six fields as AT+P2P=? prints them. *)
Definition p2p_fields (c : rzi_lora_config) : list Z :=
  [frequency_hz c; spreading_factor c; bandwidth c; coding_rate c; preamble_length c; tx_power_dbm c].
(** Values of their C types that the service accepts. *)
Definition p2p_ok (c : rzi_lora_config) : Prop :=
  config_in_range c = true /\ 0 <= frequency_hz c <= 4294967295 /\ 0 <= bandwidth c <= 4294967295 /\
  0 <= coding_rate c /\ preamble_length c <= 65535.
(** [config] with the six fields of [c]. *)
Definition with_fields_of (c config : rzi_lora_config) : rzi_lora_config :=
  set_radio (frequency_hz c) (spreading_factor c) (bandwidth c) (coding_rate c) (preamble_length c) (tx_power_dbm c) config.

Section fields.
Context `{CLongOk}.
Lemma ulong_u32 : 4294967295 <= ULONG_MAX.
Proof. unfold ULONG_MAX. pose proof long_max_range. lia. Qed.
Lemma u32_small v : 0 <= v <= 4294967295 -> u32 v = v.
Proof. intros. unfold u32. rewrite Z.mod_small; lia. Qed.
(** Reading a printed list, with or without something after it. *)
Lemma parse_colon_print vs : vs <> [] -> Forall (fun v => 0 <= v <= 4294967295) vs ->
  parse_colon_u32 (length vs) (colon_list vs) = Some vs /\
  forall c junk, parse_colon_u32 (length vs) (colon_list vs ++ String ":" (String c junk)) = Some vs.
Proof.
  pose proof ulong_u32. induction vs as [|v vs IH]; intros Hne Hr; [done|]. apply Forall_cons in Hr as [Hv Hr].
  destruct (colon_list_head v vs ltac:(lia)) as (d & s & E). cbn [length parse_colon_u32].
  destruct (decide (vs = [])) as [->|Hvs].
  - change (colon_list [v]) with (show_u v) in *. split.
    + rewrite E, <- E, <- (string_app_nil_r (show_u v)), strtoul_show_u by (done || lia). by rewrite u32_small.
    + intros c junk. rewrite E, string_app_cons, <- string_app_cons, <- E, strtoul_show_u by (done || lia).
      change (negb (Ascii.eqb ":" ":")) with false. cbn [orb String.eqb length parse_colon_u32 fmap option_fmap option_map].
      by rewrite u32_small.
  - destruct vs as [|u vs]; [done|]. destruct (IH ltac:(done) Hr) as [IH1 IH2].
    apply Forall_cons in Hr as [Hu _]. destruct (colon_list_head u vs ltac:(lia)) as (d' & s' & E'). split.
    + rewrite E, <- E, colon_list_cons, strtoul_show_u by (done || lia).
      change (negb (Ascii.eqb ":" ":")) with false. assert (String.eqb (colon_list (u :: vs)) "" = false) as -> by by rewrite E'.
      cbn [orb]. rewrite IH1. cbn. by rewrite u32_small.
    + intros c junk. rewrite E, string_app_cons, <- string_app_cons, <- E, colon_list_cons by done.
      rewrite <- string_app_assoc, string_app_cons, strtoul_show_u by (done || lia).
      change (negb (Ascii.eqb ":" ":")) with false.
      assert (String.eqb (colon_list (u :: vs) ++ String ":" (String c junk)) "" = false) as -> by by rewrite E'.
      cbn [orb]. rewrite IH2. cbn. by rewrite u32_small.
Qed.
Lemma show_p2p_list c : 0 <= tx_power_dbm c -> show_p2p c = colon_list (p2p_fields c).
Proof.
  intros Hp. unfold show_p2p, p2p_fields. cbn [colon_list]. unfold show_d.
  by destruct (Z.ltb_spec (tx_power_dbm c) 0); [lia|].
Qed.
Lemma set_p2p_fields c config : p2p_ok c -> set_p2p config (p2p_fields c) = with_fields_of c config.
Proof.
  intros (Hr & Hf & Hb & Hc & Hp). unfold config_in_range in Hr. apply negb_true_iff in Hr.
  change (set_p2p config (p2p_fields c)) with
    (set_radio (u32 (frequency_hz c)) (u8 (spreading_factor c)) (u32 (bandwidth c)) (u8 (coding_rate c))
       (u16 (preamble_length c)) (i8 (tx_power_dbm c)) config).
  unfold with_fields_of. rewrite !u32_small by lia. unfold u8, u16, i8. rewrite !Z.mod_small by lia.
  f_equal. lia.
Qed.
End fields.

(** The port and the working mode live apart from the radio service. *)
Class LoraAtOk `{Zephyr} (W : Type) `{!AtEnv W} `{!LoraEnv W} : Prop := {
  write_lora f t u w : lora_of (run_write f t u w).2 = lora_of w;
}.
Section commands.
Context `{Zephyr} `{Errno} `{Kconfig} {ctx : ExecCtx} `{CLongOk} {W : Type} `{!AtEnv W} `{!StorageEnv W}
  `{!SystemEnv W} `{!LoraEnv W} `{!LoraAtEnv W} `{!LoraEnvOk} `{!LoraAtOk W}.

Lemma respond_ok_lora : keeps lora_of respond_ok.
Proof. unfold respond_ok, rzi_at_respond_status, write_all, aget. frame. intros w. apply write_lora. Qed.
Lemma with_config_run k w : k_is_in_isr = false -> with_config k w = k (l_config (lora_of w)) w.
Proof. intros Hc. unfold with_config, rzi_lora_get_config, check_thread. by rewrite Hc. Qed.
(** Storing an accepted configuration while the radio is off. *)
Lemma store_config_off c w : k_is_in_isr = false -> config_in_range c = true -> l_started (lora_of w) = 0 ->
  let w1 := set_lora (put_config c (lora_of w)) w in
  store_config c w = respond_ok w1 /\ l_config (lora_of (store_config c w).2) = c.
Proof.
  intros Hc Hr Hs. cbv zeta. assert (Heq : store_config c w = respond_ok (set_lora (put_config c (lora_of w)) w)).
  { unfold store_config, rzi_lora_set_config, check_thread. rewrite Hc, Hr. unfold bind, lput, lget, modify, gets. cbn [negb Z.eqb].
    cbv iota. rewrite lora_of_set. unfold put_config at 1. cbn [l_started]. rewrite Hs. by destruct b_apply_config. }
  rewrite Heq. split; [done|]. rewrite (respond_ok_lora _). by rewrite lora_of_set.
Qed.

(** What AT+P2P=? prints, AT+P2P= takes back: on any device, whatever its working mode, the six
    fields it has now become those, the rest of its configuration is kept, and with the radio off
    that is the configuration afterwards. *)
Theorem p2p_command_roundtrip w w' a :
  k_is_in_isr = false -> p2p_ok (l_config (lora_of w)) ->
  let c := l_config (lora_of w) in
  let c' := with_fields_of c (l_config (lora_of w')) in
  let r' := handle_p2p (AtRequest RZI_AT_OP_WRITE (Some (show_p2p c))) w' in
  handle_p2p (AtRequest RZI_AT_OP_READ a) w = rzi_at_respond_value ("AT+P2P=" ++ show_p2p c)%string w /\
  r' = store_config c' w' /\
  (l_started (lora_of w') = 0 -> r' = respond_ok (set_lora (put_config c' (lora_of w')) w') /\ l_config (lora_of r'.2) = c').
Proof.
  intros Hc Hok. cbv zeta. set (c := l_config (lora_of w)) in *. unfold handle_p2p. cbn [operation argument].
  change (RZI_AT_OP_READ =? RZI_AT_OP_READ) with true. change (RZI_AT_OP_WRITE =? RZI_AT_OP_READ) with false. cbv iota.
  rewrite with_config_run by done. split; [done|].
  assert (argument_of (AtRequest RZI_AT_OP_WRITE (Some (show_p2p c))) = show_p2p c) as -> by done.
  pose proof Hok as (Hr & Hf & Hb & Hcr & Hp). pose proof Hr as Hr'. unfold config_in_range in Hr'. apply negb_true_iff in Hr'.
  rewrite show_p2p_list by lia.
  destruct (parse_colon_print (p2p_fields c)) as [Hparse _]; [done|unfold p2p_fields; repeat (constructor; [lia|]); constructor|].
  change (length (p2p_fields c)) with 6%nat in Hparse. rewrite Hparse, with_config_run, set_p2p_fields by done.
  split; [done|]. intros Hs. by apply store_config_off.
Qed.

(** AT+P2P= checks neither the width of a field nor the end of its argument: any six decimal
    numbers followed by a colon and anything more are accepted, and set the fields to what is left
    of the numbers in their C types, so that a spreading factor of 263 is 7. *)
Theorem p2p_fields_unchecked w vs sf x junk :
  k_is_in_isr = false -> length vs = 6%nat -> Forall (fun v => 0 <= v <= 4294967295) vs -> 0 <= sf + 256 <= 4294967295 ->
  let write text := handle_p2p (AtRequest RZI_AT_OP_WRITE (Some text)) w in
  write (colon_list vs ++ String ":" (String x junk))%string = write (colon_list vs) /\
  (at_ vs 1 = sf -> 0 <= sf -> write (colon_list (<[1%nat := sf + 256]> vs)) = write (colon_list vs)).
Proof.
  intros Hc Hl Hr Hsf. cbv zeta. unfold handle_p2p. cbn [operation]. change (RZI_AT_OP_WRITE =? RZI_AT_OP_READ) with false. cbv iota.
  assert (Harg : forall t, argument_of (AtRequest RZI_AT_OP_WRITE (Some t)) = t) by done. rewrite !Harg.
  assert (Hne : vs <> []) by (intros ->; done). destruct (parse_colon_print vs Hne Hr) as [H1' H2']. rewrite Hl in *.
  rewrite H1', H2'. split; [done|]. intros Hv Hs0.
  assert (Hr' : Forall (fun v => 0 <= v <= 4294967295) (<[1%nat := sf + 256]> vs)) by (apply Forall_insert; [done|lia]).
  destruct (parse_colon_print (<[1%nat := sf + 256]> vs)) as [H3' _]; [by destruct vs as [|? [|? ?]]|done|].
  rewrite length_insert, Hl in H3'. rewrite H3', !with_config_run by done. f_equal.
  destruct vs as [|v0 [|v1 [|v2 [|v3 [|v4 [|v5 [|? ?]]]]]]]; try done. change (v1 = sf) in Hv. subst v1. unfold set_p2p. cbn [list_insert insert].
  f_equal. change (u8 (sf + 256) = u8 sf). unfold u8. by rewrite Z.add_mod, Z_mod_same_full, Z.add_0_r, Zmod_mod by lia.
Qed.

(** The commands that use the radio. *)
Definition radio_commands (r : rzi_at_request) : list (M W Z) :=
  [handle_psend r; handle_trssi; handle_ttone; handle_ttx r; handle_trx r; handle_tth r; handle_trth r; handle_cw r] ++
  (if operation r =? RZI_AT_OP_READ then [] else [handle_precv r]).
Lemma radio_test_busy t w : network_mode (system_of w) = RZI_AT_NETWORK_MODE_LORAWAN ->
  radio_test t w = (- RZI_ERR_BUSY, w).
Proof.
  intros Hm. unfold radio_test, ensure_radio, rzi_at_lora_ensure_started, rzi_at_network_mode_get, sget, bind, gets.
  by rewrite Hm.
Qed.
Lemma psend_busy r w : network_mode (system_of w) = RZI_AT_NETWORK_MODE_LORAWAN ->
  (handle_psend r w).2 = w /\ ((handle_psend r w).1 = - RZI_ERR_BUSY \/ (handle_psend r w).1 = - RZI_ERR_INVALID \/
    (handle_psend r w).1 = - RZI_ERR_TOO_LARGE).
Proof.
  intros Hm. unfold handle_psend. cbv zeta. destruct (_ || _); [by auto|]. destruct (_ <? _); [by auto|].
  pose proof (hex_to_bin_rc (argument_of r) (zstrlen (argument_of r) / 2)) as Hrc. unfold rzi_at_lora_hex_to_bin.
  destruct (rzi_at_lorawan_hex_to_bin _ _) as [rc p]. cbn [fst] in Hrc. destruct Hrc as [-> | ->]; cbn [Z.eqb negb]; [|by auto].
  unfold rzi_at_lora_ensure_started, rzi_at_network_mode_get, sget, bind, gets. rewrite Hm. by auto.
Qed.
(** While the device is a LoRaWAN device no command reaches the radio: each is refused, as busy or
    for its argument, and nothing at all changes. *)
Theorem radio_commands_exclusive r m w :
  network_mode (system_of w) = RZI_AT_NETWORK_MODE_LORAWAN -> m ∈ radio_commands r ->
  (m w).2 = w /\ ((m w).1 = - RZI_ERR_BUSY \/ (m w).1 = - RZI_ERR_INVALID \/ (m w).1 = - RZI_ERR_TOO_LARGE).
Proof.
  intros Hm Hin. assert (Hrt : forall t, radio_test t w = (- RZI_ERR_BUSY, w)) by (intros; by apply radio_test_busy).
  assert (Hes : rzi_at_lora_ensure_started w = (- RZI_ERR_BUSY, w)).
  { unfold rzi_at_lora_ensure_started, rzi_at_network_mode_get, sget, bind, gets. by rewrite Hm. }
  unfold radio_commands in Hin. destruct (operation r =? RZI_AT_OP_READ) eqn:Eop; cbn [app] in Hin;
  repeat (apply elem_of_cons in Hin as [->|Hin]); try (by apply elem_of_nil in Hin);
    try apply psend_busy; try done;
    unfold handle_trssi, handle_ttone, handle_ttx, handle_trx, handle_tth, handle_trth, handle_cw,
      handle_precv, handle_count, handle_hop; cbv zeta; rewrite ?Eop, ?Hrt;
    repeat match goal with
    | |- context [let (_, _) := ?p in _] => destruct p
    | |- context [match ?p with Some _ => _ | None => _ end] => destruct p
    | |- context [if ?b then _ else _] => destruct b
    end; rewrite ?Hrt; unfold bind; rewrite ?Hes; auto.
Qed.
End commands.

Module LoraFlowsWitness.
Import DeviceSim.
#[local] Instance device_lora_at_ok : LoraAtOk world.
Proof. by split. Qed.
(** A device whose radio has this configuration, and one with the defaults. *)
Definition radio_of (c : rzi_lora_config) : world := device SettingsWitness.cold (put_lora (put_config c lora_boot) ext_boot).
Definition tuned : rzi_lora_config := set_radio 915000000 10 125 1 12 20 config_default.
Definition from_text (text : string) : world :=
  (handle_p2p (AtRequest RZI_AT_OP_WRITE (Some text)) power_on).2.
Lemma p2p_command_roundtrip_witness :
  l_config (lora_of (from_text "915000000:10:125:1:12:20")) = tuned.
Proof.
  refine (proj2 (proj2 (proj2 (p2p_command_roundtrip (radio_of tuned) power_on None eq_refl _)) eq_refl)).
  split; [done|]. cbn. lia.
Defined.
Lemma p2p_fields_unchecked_witness :
  from_text "868000000:263:0:0:8:14" = from_text "868000000:7:0:0:8:14" /\
  from_text "868000000:7:0:0:8:14:x" = from_text "868000000:7:0:0:8:14".
Proof.
  split; apply (f_equal snd).
  - refine (proj2 (p2p_fields_unchecked power_on [868000000; 7; 0; 0; 8; 14] 7 "x" "" eq_refl eq_refl _ _) eq_refl _);
      [repeat (constructor; [lia|]); constructor|lia|lia].
  - refine (proj1 (p2p_fields_unchecked power_on [868000000; 7; 0; 0; 8; 14] 7 "x" "" eq_refl eq_refl _ _));
      [repeat (constructor; [lia|]); constructor|lia].
Defined.
Lemma radio_commands_exclusive_witness :
  (handle_psend (AtRequest RZI_AT_OP_WRITE (Some "0011"%string)) power_on).2 = power_on.
Proof.
  refine (proj1 (radio_commands_exclusive (AtRequest RZI_AT_OP_WRITE (Some "0011"%string)) _ power_on eq_refl _)).
  by apply elem_of_cons; left.
Defined.
End LoraFlowsWitness.
