(* ===== verification/AtDeviceFlows.v ===== *)
(** * The AT device at work

    Properties of the composition: what the start of the port installs and how
    it fails, the lock, the command tables against their handlers, and the help
    listing; and the witnesses of AtLorawanFlows.v on a simulated device. *)
From S2P Require Import Prelude Zephyr Err Power Storage LorawanSettings LorawanBackend LorawanSim LorawanCore LorawanCredentials LorawanChannel LorawanApi Lorawan LorawanService Lora CString At AtArgs AtParser AtSystem AtLorawan AtLorawanNet AtLora AtDevice AtLorawanFlows AtDeviceSim.

Section port.
Context `{Zephyr} `{Errno} `{Kconfig} {ctx : ExecCtx} `{CLong} {W : Type} `{!AtEnv W} `{!StorageEnv W}
  `{!SystemEnv W} `{!AtEnvOk} `{!SystemOk W} `{!AtHandlers} `{!AtExtensions}.

(** *** The lock *)
(** The port is locked, with this password. *)
Definition guarded (p : string) (w : W) : Prop := locked (at_of w) <> 0 /\ password (at_of w) = p.
(** The same, in a boot that goes on: so many resets up to now. *)
Definition held (p : string) (n : Z) (w : W) : Prop := guarded p w /\ resets w = n.
Lemma held_keeps {A} p n (m : M W A) : keeps at_of m -> keeps resets m -> preserves (held p n) m.
Proof. intros Hm Hr w [Hw <-]. specialize (Hm w). specialize (Hr w). unfold held, guarded, same in *. by rewrite Hm, Hr. Qed.
Lemma held_aput p n f : (forall s, locked s <> 0 -> locked (f s) <> 0) -> (forall s, password (f s) = password s) ->
  preserves (held p n) (aput f).
Proof.
  intros Hl Hp w [[Hw Hq] <-]. unfold held, guarded. rewrite at_of_aput, Hp. split; [by split; [apply Hl|]|]. apply set_resets.
Qed.
Lemma held_aget {A} p n (f : at_state -> A) : preserves (held p n) (aget f).
Proof. by intros w. Qed.
Lemma status_held p n s : preserves (held p n) (status s).
Proof. apply held_keeps; [apply status_at|exact (status_kept resets write_resets s)]. Qed.
Lemma respond_status_held p n s : preserves (held p n) (rzi_at_respond_status s).
Proof. apply held_keeps; [apply respond_status_at|exact (respond_status_kept resets write_resets s)]. Qed.
Lemma respond_value_held p n t : preserves (held p n) (rzi_at_respond_value t).
Proof. apply held_keeps; [apply respond_value_at|exact (respond_value_kept resets write_resets t)]. Qed.
Lemma all_help_held p n : preserves (held p n) rzi_at_registry_write_all_help.
Proof. apply held_keeps; [apply all_help_at|exact (all_help_kept resets write_resets)]. Qed.
Lemma respond_for_error_held p n rc : preserves (held p n) (respond_for_error rc).
Proof. apply held_keeps; [apply respond_for_error_at|exact (respond_for_error_kept resets write_resets rc)]. Qed.
#[local] Hint Resolve held_aget status_held respond_status_held respond_value_held all_help_held respond_for_error_held : core.
Lemma lock_held p n r : preserves (held p n) (handle_lock r).
Proof.
  unfold handle_lock. destruct (_ =? _).
  - unfold rzi_at_is_locked. apply preserves_bind; [done|]. intros l. apply respond_value_held.
  - apply preserves_bind; [by apply held_aput|]. intros _. apply respond_status_held.
Qed.
(** The password command on a locked port: anything but the password keeps it locked. *)
Lemma pword_held p n r w : held p n w -> operation r = RZI_AT_OP_READ \/ argument_of r <> p ->
  held p n (handle_pword r w).2.
Proof.
  intros Hw Hr. unfold handle_pword. destruct (Z.eqb_spec (operation r) RZI_AT_OP_READ).
  { unfold rzi_at_password. apply preserves_bind; [done| |done]. intros q. apply respond_value_held. }
  destruct Hr as [|Hr]; [done|]. pose proof Hw as [[Hl Hp] _]. unfold rzi_at_is_locked, rzi_at_password_matches, aget, bind, gets.
  destruct (Z.eqb_spec (locked (at_of w)) 0); [done|]. cbn [negb]. rewrite Hp.
  by destruct (String.eqb_spec p (argument_of r)); [congruence|].
Qed.
(** Dispatching reaches the state through the handler only. *)
Lemma finish_held p n (m : M W Z) w : held p n (m w).2 -> held p n ((let* rc := m in respond_for_error rc) w).2.
Proof. rewrite bind_eq. apply respond_for_error_held. Qed.
Lemma dispatch_held p k n op arg w : held p k w ->
  (forall c h, find_command n (registered (at_of w)) = Some c -> handler c = Some h ->
     Z.land (allowed_operations c) (BIT op) <> 0 -> held p k (run_handler h (AtRequest op arg) (At.user_data c) w).2) ->
  held p k (rzi_at_dispatch n op arg w).2.
Proof.
  intros Hw Hrun. unfold rzi_at_dispatch, bind, aget, gets. destruct (find_command n (registered (at_of w))) as [c|] eqn:Ef; [|done].
  destruct (op =? RZI_AT_OP_HELP).
  { destruct (help c); [|done]. by apply respond_value_held. }
  destruct (Z.eqb_spec (Z.land (allowed_operations c) (BIT op)) 0); [done|]. destruct (handler c) as [h|] eqn:Eh; [|done].
  by apply (Hrun c h).
Qed.
(** What the parser makes of a line with an argument. *)
Lemma parse_forms body n op arg : parse_body body = Some (n, op, arg) ->
  (op = RZI_AT_OP_RUN \/ op = RZI_AT_OP_HELP \/ op = RZI_AT_OP_READ) /\ arg = None \/
  op = RZI_AT_OP_WRITE /\ exists a, arg = Some a.
Proof.
  unfold parse_body. destruct (split_at _ body) as [[[n' c] after]|]; [|intros [= <- <- <-]; by left; split; [left|]].
  destruct (_ && _); [intros [= <- <- <-]; left; by split; [right; left|]|].
  destruct (_ && _); [intros [= <- <- <-]; left; by split; [right; right|]|].
  destruct (_ && _); [|done]. intros [= <- <- <-]. right. split; [done|by eexists].
Qed.
(** The registry has the two commands that a locked port runs, and the code behind the names. *)
Definition lock_installed (w : W) : Prop :=
  (forall c, find_command "LOCK" (registered (at_of w)) = Some c -> handler c = Some "handle_lock"%string) /\
  (forall c, find_command "PWORD" (registered (at_of w)) = Some c ->
     handler c = Some "handle_pword"%string /\ allowed_operations c = ALLOW_READ_WRITE).
(** A command line on a locked port, in a boot that goes on. *)
Lemma command_held w body p k :
  (forall r u, run_handler "handle_lock" r u = handle_lock r) ->
  (forall r u, run_handler "handle_pword" r u = handle_pword r) -> lock_installed w -> held p k w ->
  (forall n, parse_body body = Some (n, RZI_AT_OP_WRITE, Some p) -> uppercase_name n <> "PWORD"%string) ->
  held p k (execute_command body w).2.
Proof.
  intros Hlock Hpword [Hil Hip] Hw Hne. unfold execute_command.
  destruct (parse_body _) as [[[n op] arg]|] eqn:Ep; [|by apply status_held].
  destruct (String.eqb n ""); [by apply status_held|].
  unfold bind at 1, rzi_at_is_locked, aget, gets. destruct (Z.eqb_spec (locked (at_of w)) 0) as [E0|E0]; [by destruct Hw as [[]]|].
  cbn [negb andb].
  destruct (String.eqb_spec (uppercase_name n) "PWORD") as [En|En]; cbn [negb andb]; [rewrite En in *|].
  2: destruct (String.eqb_spec (uppercase_name n) "LOCK") as [En'|En']; cbn [negb andb]; [rewrite En' in *|by apply status_held].
  all: apply finish_held, dispatch_held; try done; intros c h Hf Hh Hop.
  - destruct (Hip c Hf) as [Hpw Hal]. rewrite Hpw in Hh. injection Hh as <-. rewrite Hal in Hop. rewrite Hpword.
    apply pword_held; [done|]. cbn [operation].
    destruct (parse_forms _ _ _ _ Ep) as [[Hops ->]|[-> [a ->]]].
    + by destruct Hops as [-> |[-> | ->]]; [by destruct Hop|by destruct Hop|left].
    + right. intros Harg. unfold argument_of in Harg; cbn in Harg; subst a. by apply (Hne n).
  - rewrite (Hil c Hf) in Hh. injection Hh as <-. rewrite Hlock. by apply lock_held.
Qed.
Lemma registry_reset_held p n : (forall f, preserves (held p n) (run_factory_reset f)) ->
  preserves (held p n) rzi_at_registry_factory_reset.
Proof.
  intros Hreset. unfold rzi_at_registry_factory_reset. apply preserves_bind; [done|]. intros es.
  apply preserves_for_first_error. intros e. destruct (factory_reset e); [apply Hreset|apply preserves_ret].
Qed.
(** C21: Only the password, or a restart, opens the port.  A line executed on a locked port leaves it
    locked, with the same password and without a reset of the device, unless it is AT+PWORD= and the
    password; or ATZ, which resets the device; or ATR, when the factory resets of all packages
    succeed, which resets it too.  The lock is a variable, so the boot that follows a reset starts
    unlocked ([lock_gives_way]). *)
Theorem only_the_password_unlocks w input p :
  (forall r u, run_handler "handle_lock" r u = handle_lock r) ->
  (forall r u, run_handler "handle_pword" r u = handle_pword r) ->
  (forall f n, preserves (held p n) (run_factory_reset f)) -> lock_installed w -> guarded p w ->
  let v := (execute input w).2 in
  (guarded p v /\ resets v = resets w) \/
  (ascii_casecmp_n input "AT+" 3 = 0 /\
   exists n, parse_body (String.substring 3 (String.length input - 3) input) = Some (n, RZI_AT_OP_WRITE, Some p) /\
             uppercase_name n = "PWORD"%string) \/
  ((equals_ignore_case input "ATZ" = true \/
    equals_ignore_case input "ATR" = true /\ (rzi_at_registry_factory_reset w).1 = 0) /\
   resets v = resets w + 1 /\ forall ring, locked (at_boot ring) = 0).
Proof.
  intros Hlock Hpword Hreset Hi Hw v. assert (Hh : held p (resets w) w) by done.
  assert (Hk : forall A (m : M W A), preserves (held p (resets w)) m -> held p (resets w) (m w).2) by (intros A m Hm; by apply Hm).
  subst v. unfold execute.
  destruct (equals_ignore_case input "AT"); [left; by apply status_held|].
  destruct (equals_ignore_case input "AT?"); [left; apply Hk; apply preserves_bind; [done|]; by intros _ u|].
  destruct (equals_ignore_case input "ATE").
  { left. apply Hk. apply preserves_bind; [unfold rzi_at_echo_enabled; done|]. intros on.
    apply preserves_bind; [by apply held_aput|]. intros _. apply status_held. }
  destruct (equals_ignore_case input "ATE?"); [left; apply Hk; apply preserves_bind; [done|]; by intros _ u|].
  destruct (equals_ignore_case input "ATZ") eqn:Ez; [right; right; split; [by left|]; split; [apply reboot_resets|done]|].
  destruct (equals_ignore_case input "ATZ?"); [left; apply Hk; apply preserves_bind; [done|]; by intros _ u|].
  destruct (equals_ignore_case input "ATR") eqn:Er.
  { rewrite bind_eq. assert (Hr : held p (resets w) (rzi_at_registry_factory_reset w).2) by by apply Hk, registry_reset_held.
    destruct (rzi_at_registry_factory_reset w) as [rc w1]. cbn [fst snd] in *. rewrite bind_eq.
    apply (status_held p _ (if rc =? 0 then RZI_AT_STATUS_OK else RZI_AT_STATUS_ERROR)) in Hr.
    destruct (Z.eqb_spec rc 0); [|by left]. right; right. split; [by right|]. split; [|done]. rewrite reboot_resets. f_equal. apply Hr. }
  destruct (equals_ignore_case input "ATR?"); [left; apply Hk; apply preserves_bind; [done|]; by intros _ u|].
  destruct (Z.eqb_spec (ascii_casecmp_n input "AT+" 3) 0) as [E3|]; [cbn [negb]|left; by apply status_held].
  set (body := String.substring 3 (String.length input - 3) input).
  assert (Hheld := command_held w body p (resets w) Hlock Hpword Hi Hh).
  destruct (parse_body body) as [[[n op] arg]|] eqn:Ep; [|by left; apply Hheld].
  destruct (decide (op = RZI_AT_OP_WRITE /\ arg = Some p /\ uppercase_name n = "PWORD"%string)) as [(-> & -> & Hn)|Hno].
  - right; left. split; [done|]. by exists n.
  - left. apply Hheld. intros n' [= <- -> ->] Hu. by apply Hno.
Qed.

(** What else a locked port does: it runs ATZ, and the device comes up unlocked, since the lock is
    a variable; and AT+PWORD=? prints the password.  So whoever has the port gets past the lock. *)
Theorem lock_gives_way w c :
  locked (at_of w) <> 0 -> find_command "PWORD" (registered (at_of w)) = Some c ->
  handler c = Some "handle_pword"%string -> allowed_operations c = ALLOW_READ_WRITE ->
  (forall r u, run_handler "handle_pword" r u = handle_pword r) ->
  execute "ATZ" w = sys_reboot w /\ (forall ring, locked (at_boot ring) = 0) /\
  execute "AT+PWORD=?" w =
    (let* rc := rzi_at_respond_value ("AT+PWORD=" ++ password (at_of w)) in respond_for_error rc) w.
Proof.
  intros Hl Hf Hh Hal Hp. split_and!; [done|done|].
  change "AT+PWORD=?"%string with ("AT+" ++ "PWORD=?")%string. rewrite execute_plus. unfold execute_command.
  change (parse_body "PWORD=?") with (Some ("PWORD"%string, RZI_AT_OP_READ, @None string)). cbv iota.
  change (String.eqb "PWORD" "") with false. change (uppercase_name "PWORD") with "PWORD"%string. cbv iota zeta.
  unfold bind at 1, rzi_at_is_locked, aget, gets. change (String.eqb "PWORD" "PWORD") with true. rewrite andb_false_r. cbn [andb].
  unfold rzi_at_dispatch, bind, aget, gets. rewrite Hf, Hal, Hh, Hp. done.
Qed.

(** *** Starting the port *)
(** Whether the port runs, and has its thread. *)
Definition life (w : W) : Z * bool := (at_started (at_of w), at_thread (at_of w)).
Lemma aput_life f : (forall s, (at_started (f s), at_thread (f s)) = (at_started s, at_thread s)) -> keeps life (aput f).
Proof. intros Hf w. unfold same, life. by rewrite at_of_aput, Hf. Qed.
(** The start of the port is refused in an interrupt, without an output binding, or a second time,
    and then changes nothing.  Otherwise it ends either with the port started, its registry sealed
    and its thread running, or with the code of the registration or of the first extension that
    failed, the port stopped and no thread started.  But a failure after the registration leaves
    the registry sealed: every later start is refused with the state code. *)
Theorem start_outcomes B L R io w :
  keeps life B -> (forall f, keeps life (run_start f)) -> (forall f, keeps (fun v => sealed (at_of v)) (run_start f)) ->
  let r := rzi_at_start B io w in
  (k_is_in_isr = true -> r = (- RZI_ERR_ISR, w)) /\
  (k_is_in_isr = false -> match io with None => True | Some b => write b = 0 end -> r = (- RZI_ERR_INVALID, w)) /\
  (k_is_in_isr = false -> forall b, io = Some b -> write b <> 0 ->
    (at_started (at_of w) <> 0 -> r = (- RZI_ERR_ALREADY, w)) /\
    (at_started (at_of w) = 0 -> 
      (r.1 = 0 -> life r.2 = (1, true) /\ sealed (at_of r.2) = true) /\
      (r.1 <> 0 -> life r.2 = (0, at_thread (at_of w)))) /\
    (at_started (at_of w) = 0 -> sealed (at_of w) = true ->
      (rzi_at_start (rzi_at_builtin_register L R) io w).1 = - RZI_ERR_INVALID_STATE)).
Proof.
  intros HB Hs Hseal. cbv zeta. split_and!.
  - intros Hi. unfold rzi_at_start. by rewrite Hi.
  - intros Hi Hio. unfold rzi_at_start. rewrite Hi. destruct io as [b|]; [|done]. by rewrite Hio.
  - intros Hi b -> Hb. split_and!.
    + intros Hst. unfold rzi_at_start. rewrite Hi. destruct (Z.eqb_spec (write b) 0); [done|]. unfold bind at 1, aget, gets.
      by destruct (Z.eqb_spec (at_started (at_of w)) 0).
    + intros Hst. destruct (rzi_at_start B (Some b) w) as [rc w'] eqn:E. cbn [fst snd]. revert E. unfold rzi_at_start. rewrite Hi.
      destruct (Z.eqb_spec (write b) 0); [done|]. unfold bind at 1, aget, gets. rewrite Hst. cbn [Z.eqb negb].
      unfold bind at 1. set (w1 := (aput (put_at_started 1) w).2). change (aput (put_at_started 1) w) with (tt, w1).
      unfold bind at 1. set (w2 := (aput (put_active_io b) w1).2). change (aput (put_active_io b) w1) with (tt, w2). cbv iota.
      assert (Hw2 : life w2 = (1, at_thread (at_of w))).
      { unfold w2, w1. rewrite aput_life by done. unfold life. by rewrite at_of_aput. }
      unfold bind at 1. pose proof (HB w2) as Hk. unfold same in Hk. destruct (B w2) as [rc1 w3]. cbn [snd] in Hk.
      set (m := if rc1 =? 0 then rzi_at_registry_seal ;;; rzi_at_registry_start_extensions else ret rc1).
      assert (Hm : life (m w3).2 = life w3 /\ ((m w3).1 = 0 -> sealed (at_of (m w3).2) = true)).
      { unfold m. destruct (Z.eqb_spec rc1 0) as [->|]; [|by split]. unfold bind.
        set (w4 := (rzi_at_registry_seal w3).2). change (rzi_at_registry_seal w3) with (tt, w4). cbv iota.
        assert (Hw4 : life w4 = life w3 /\ sealed (at_of w4) = true).
        { unfold w4, rzi_at_registry_seal. rewrite aput_life by done. by rewrite at_of_aput. }
        assert (Hx : keeps life rzi_at_registry_start_extensions /\
                     keeps (fun v => sealed (at_of v)) rzi_at_registry_start_extensions).
        { unfold rzi_at_registry_start_extensions, aget. split; frame; auto. }
        destruct Hx as [Hx1 Hx2]. specialize (Hx1 w4). specialize (Hx2 w4). unfold same in *. destruct Hw4. split; congruence. }
      unfold bind. destruct (m w3) as [rc2 w4]. cbn [fst snd] in Hm. destruct Hm as [Hm1 Hm2].
      destruct (Z.eqb_spec rc2 0) as [->|Hrc]; cbn [negb]; unfold aput, modify, ret; intros [= <- <-]; (split; intros Hz; try done).
      * unfold life. rewrite at_of_set. cbn [put_at_thread at_started at_thread sealed]. unfold life in Hm1, Hk, Hw2.
        injection Hm1 as Hm1 _. injection Hk as Hk _. injection Hw2 as Hw2 _. rewrite Hm1, Hk, Hw2. split; [done|]. by apply Hm2.
      * unfold life. rewrite at_of_set. cbn [put_at_started at_started at_thread]. unfold life in Hm1, Hk, Hw2. congruence.
    + intros Hst Hsl. destruct (rzi_at_start _ (Some b) w) as [rc w'] eqn:E. cbn [fst]. revert E. unfold rzi_at_start. rewrite Hi.
      destruct (Z.eqb_spec (write b) 0); [done|]. unfold bind at 1, aget, gets. rewrite Hst. cbn [Z.eqb negb].
      unfold bind at 1. set (w1 := (aput (put_at_started 1) w).2). change (aput (put_at_started 1) w) with (tt, w1).
      unfold bind at 1. set (w2 := (aput (put_active_io b) w1).2). change (aput (put_active_io b) w1) with (tt, w2). cbv iota.
      assert (Hw2 : sealed (at_of w2) = true). { unfold w2, w1. by rewrite !at_of_aput. }
      assert (Hreg : rzi_at_builtin_register L R w2 = (- RZI_ERR_INVALID_STATE, w2)).
      { unfold rzi_at_builtin_register, rzi_at_register. unfold bind at 1, aget, gets. unfold bind at 1. by rewrite Hw2. }
      unfold bind at 1. rewrite Hreg. unfold bind. by intros [= <- _].
Qed.
End port.

(** ** What the registration installs *)
Section tables.
Context `{Zephyr} `{Errno} `{Kconfig} {ctx : ExecCtx} `{CLong} `{LorawanBackend} `{LorawanExt}
  `{!AtEnv world} `{!SystemEnv world} `{!LorawanAtEnv world} `{!LoraEnv world} `{!LoraAtEnv world}
  `{!AtBoard world} `{!UartDriver world} `{!AtEnvOk} `{!SystemOk world}.

(** A registration that succeeds appends [l] to a table of the port. *)
Definition appends {X} (p : at_state -> list X) (m : M world Z) (l : list X) : Prop :=
  forall w, (m w).1 = 0 -> p (at_of (m w).2) = p (at_of w) ++ l.
Section appending.
Context {X : Type} (p : at_state -> list X).
Lemma appends_keeps m : keeps (fun w => p (at_of w)) m -> appends p m [].
Proof. intros Hm w _. rewrite app_nil_r. apply Hm. Qed.
Lemma appends_rc m k l l' : appends p m l -> appends p k l' ->
  appends p (rc* rc := m else rc in k) (l ++ l').
Proof.
  intros Hm Hk w. unfold bind. specialize (Hm w). destruct (m w) as [rc v]. cbn [fst snd] in Hm.
  destruct (Z.eqb_spec rc 0) as [->|]; [|done]. intros Hz. by rewrite Hk, Hm, app_assoc.
Qed.
Lemma appends_bind {A} (m : M world A) k l : keeps (fun w => p (at_of w)) m -> (forall a, appends p (k a) l) ->
  appends p (bind m k) l.
Proof.
  intros Hm Hk w. unfold bind. specialize (Hm w). unfold same in Hm. destruct (m w) as [a v]. cbn [snd] in Hm.
  rewrite <- Hm. apply Hk.
Qed.
Lemma appends_for_rc {A} (l : list A) body f : (forall a, appends p (body a) (f a)) ->
  appends p (for_rc l body) (concat (f <$> l)).
Proof.
  intros Hb. induction l as [|a l IH]; cbn [for_rc]; [by apply appends_keeps, respects_ret, _|].
  rewrite fmap_cons. cbn [concat]. by apply appends_rc.
Qed.
End appending.
Lemma register_appends g : appends registered (rzi_at_register (Some g) (zlen g)) g.
Proof.
  intros w. destruct (rzi_at_register (Some g) (zlen g) w) as [rc v] eqn:E. cbn [fst snd]. revert E.
  unfold rzi_at_register, aget. unfold bind at 1, gets. destruct (sealed (at_of w)); [by intros [= <- <-]|].
  unfold bind at 1. destruct (_ || _); [by intros [= <- <-]|]. unfold default, id. rewrite take_ge by (unfold zlen; lia).
  destruct (Z.eqb_spec (check_commands (registered (at_of w)) [] g) 0); cbn [negb]; [|by intros [= <- <-]].
  unfold bind. intros E _. injection E as _ <-. by rewrite at_of_set.
Qed.
Lemma register_extensions g n : appends At.extensions (rzi_at_register g n) [].
Proof.
  apply appends_keeps. unfold rzi_at_register, aget. frame. intros w. unfold same. by rewrite at_of_aput.
Qed.
Lemma extension_appends e : appends At.extensions (rzi_at_registry_add_extension (Some e)) [e].
Proof.
  intros w. unfold rzi_at_registry_add_extension, bind, aget, gets. destruct (_ <=? _); [done|]. intros _. cbn. by rewrite at_of_set.
Qed.
Lemma extension_commands e : appends registered (rzi_at_registry_add_extension e) [].
Proof.
  apply appends_keeps. unfold rzi_at_registry_add_extension, aget. frame. intros w. unfold same. by rewrite at_of_aput.
Qed.
(** The extensions of the packages that are built in. *)
Definition device_extension_list : list rzi_at_extension :=
  (if (CONFIG_RZI_AT_COMMAND_LORAWAN || CONFIG_RZI_AT_COMMAND_LORA) && CONFIG_RZI_AT_NVM
   then [network_mode_extension] else []) ++
  (if CONFIG_RZI_AT_COMMAND_LORAWAN then [lorawan_extension] else []) ++
  (if CONFIG_RZI_AT_COMMAND_LORA then [lora_extension] else []).

Section table.
Context {X : Type} (p : at_state -> list X) (reg : list rzi_at_command -> list X) (ext : rzi_at_extension -> list X).
Hypothesis Hpass : forall v s, p (put_password v s) = p s.
Hypothesis Hreg : forall g, appends p (rzi_at_register (Some g) (zlen g)) (reg g).
Hypothesis Hext : forall e, appends p (rzi_at_registry_add_extension (Some e)) (ext e).
Lemma keeps_table {A} (m : M world A) : keeps at_of m -> keeps (fun w => p (at_of w)) m.
Proof. intros Hm w. unfold same. by rewrite (Hm w). Qed.
Lemma nvm_table {A} (m : M storage_state A) : keeps (fun w => p (at_of w)) (nvm m).
Proof. apply keeps_table. intros w. rewrite nvm_run. apply storage_at. Qed.
Lemma sput_table f : keeps (fun w => p (at_of w)) (sput f).
Proof. intros w. unfold same, sput, modify. cbn [snd]. by rewrite system_at. Qed.
Lemma load_string_table k n : keeps (fun w => p (at_of w)) (load_string k n).
Proof. unfold load_string. frame. apply nvm_table. Qed.
Lemma password_table v : keeps (fun w => p (at_of w)) (rzi_at_set_password v).
Proof. unfold rzi_at_set_password. frame. intros w. unfold same. by rewrite at_of_aput, Hpass. Qed.
Definition table_of (commands : list (list rzi_at_command)) (extension : rzi_at_extension) : list X :=
  concat (reg <$> commands) ++ ext extension.
(** What the built-in registration appends, for this table. *)
Definition installed : list X :=
  reg system_commands ++
  ((if CONFIG_RZI_AT_COMMAND_LORAWAN || CONFIG_RZI_AT_COMMAND_LORA
    then reg nwm_commands ++ (if CONFIG_RZI_AT_NVM then ext network_mode_extension else []) else []) ++
   ((if CONFIG_RZI_AT_COMMAND_LORAWAN then table_of lorawan_groups lorawan_extension else []) ++
    (if CONFIG_RZI_AT_COMMAND_LORA then table_of [p2p_commands; test_commands] lora_extension else []))).
Lemma network_mode_appends : appends p rzi_at_network_mode_register
  (reg nwm_commands ++ (if CONFIG_RZI_AT_NVM then ext network_mode_extension else [])).
Proof.
  unfold rzi_at_network_mode_register, load_mode. rewrite <- (app_nil_l (reg nwm_commands ++ _)). apply appends_rc.
  { apply appends_keeps. frame; first [apply nvm_table|apply sput_table]. }
  intros w. unfold bind. pose proof (Hreg nwm_commands w) as Hr. change (zlen nwm_commands) with 1 in Hr.
  destruct (rzi_at_register (Some nwm_commands) 1 w) as [rc v]. cbn [fst snd] in Hr.
  destruct (Z.eqb_spec rc 0) as [->|Hrc]; [|rewrite andb_false_r; by cbn]. rewrite andb_true_r.
  destruct CONFIG_RZI_AT_NVM; [|by rewrite app_nil_r]. intros Hz. by rewrite (Hext _ v Hz), Hr, app_assoc.
Qed.
Lemma device_appends : appends p device_register installed.
Proof.
  unfold device_register, rzi_at_builtin_register, installed. apply appends_rc; [apply Hreg|].
  apply appends_bind; [apply load_string_table|]. intros [? alias].
  apply appends_bind; [destruct alias; [apply sput_table|apply respects_ret, _]|]. intros _.
  apply appends_bind; [apply load_string_table|]. intros [? serial].
  apply appends_bind; [destruct serial; [apply sput_table|apply respects_ret, _]|]. intros _.
  apply appends_bind; [apply load_string_table|]. intros [rc stored].
  apply appends_bind; [destruct (_ && _); frame; apply password_table|]. intros _.
  apply appends_rc; [destruct (_ || _); [apply network_mode_appends|by apply appends_keeps, respects_ret, _]|].
  apply appends_rc.
  - destruct CONFIG_RZI_AT_COMMAND_LORAWAN; [|by apply appends_keeps, respects_ret, _].
    unfold rzi_at_lorawan_register, table_of. apply appends_rc; [|apply Hext]. by apply appends_for_rc.
  - destruct CONFIG_RZI_AT_COMMAND_LORA; [|by apply appends_keeps, respects_ret, _].
    unfold rzi_at_lora_register, table_of, rzi_at_network_mode_add_listener.
    rewrite <- (app_nil_l (concat _ ++ _)). apply appends_rc.
    { apply appends_keeps. unfold sget. frame. apply sput_table. }
    apply appends_rc; [|apply Hext]. by apply appends_for_rc.
Qed.
End table.

(** A registration that succeeds installs exactly the tables of the packages that are built in,
    behind whatever the application registered, and their extensions in the order in which their
    hooks then run. *)
Theorem registration_installs_tables w :
  (device_register w).1 = 0 ->
  registered (at_of (device_register w).2) = registered (at_of w) ++ device_commands /\
  At.extensions (at_of (device_register w).2) = At.extensions (at_of w) ++ device_extension_list.
Proof.
  intros Hz. split.
  - rewrite (device_appends registered (fun g => g) (fun _ => []) ltac:(done) register_appends (fun e => extension_commands _) w Hz).
    f_equal. unfold installed, table_of, device_commands.
    by destruct CONFIG_RZI_AT_COMMAND_LORAWAN, CONFIG_RZI_AT_COMMAND_LORA, CONFIG_RZI_AT_NVM.
  - rewrite (device_appends At.extensions (fun _ => []) (fun e => [e]) ltac:(done) (fun g => register_extensions _ _) extension_appends w Hz).
    f_equal. unfold installed, table_of, device_extension_list.
    by destruct CONFIG_RZI_AT_COMMAND_LORAWAN, CONFIG_RZI_AT_COMMAND_LORA, CONFIG_RZI_AT_NVM.
Qed.

(** *** The tables and their handlers *)
(** The tables are fit for the registry whatever is built in: names are distinct, upper case and
    not empty, each command has a handler, and behind each handler's name there is code; so every
    command of the tables, once installed in an empty registry, is found under its name and run. *)
Theorem command_tables_sound app :
  zlen device_commands <= 101 /\ (zlen device_commands <= CONFIG_RZI_AT_MAX_COMMANDS -> registry_ok device_commands) /\
  forall c, c ∈ device_commands -> exists n h, name c = Some n /\ handler c = Some h /\
    find_command n device_commands = Some c /\
    forall r u, is_Some (device_handler app h r u).
Proof.
  assert (Hall : forall cs, Forall (fun c => exists n h, name c = Some n /\ handler c = Some h /\ find_command n cs = Some c /\
      forall r u, is_Some (device_handler app h r u)) cs ->
      forall c, c ∈ cs -> exists n h, name c = Some n /\ handler c = Some h /\ find_command n cs = Some c /\
      forall r u, is_Some (device_handler app h r u)).
  { intros cs Hf c Hc. by rewrite Forall_forall in Hf; apply Hf. }
  unfold registry_ok, device_commands. destruct CONFIG_RZI_AT_COMMAND_LORAWAN, CONFIG_RZI_AT_COMMAND_LORA; cbn [orb];
    (split; [by vm_compute|split; [intros Hn; split_and!; [|by apply (bool_decide_unpack _); vm_compute|exact Hn]|apply Hall]]);
    repeat (constructor; [first [by split | eexists _, _; split_and!; [reflexivity|reflexivity|reflexivity|intros; eexists; reflexivity]]|]); constructor.
Qed.

(** *** The help listing *)
Lemma for_rc_fails {A} (l : list A) (body : A -> M world Z) a :
  a ∈ l -> (forall w, (body a w).1 <> 0) -> forall w, (for_rc l body w).1 <> 0.
Proof.
  intros Ha Hb. induction l as [|x l IH]; [by apply elem_of_nil in Ha|]. intros w. cbn [for_rc]. unfold bind.
  apply elem_of_cons in Ha. destruct (body x w) as [rc v] eqn:E. destruct (Z.eqb_spec rc 0) as [->|]; [|done].
  destruct Ha as [->|Ha]; [|by apply IH]. specialize (Hb w). by rewrite E in Hb.
Qed.
(** AT? cannot complete on a device with the LoRaWAN commands: the line of one of them does not
    fit the 160 characters a line is built in, and the listing stops there, without the commands
    after it and without the final OK. *)
Theorem help_listing_stops w :
  CONFIG_RZI_AT_COMMAND_LORAWAN = true -> registered (at_of w) = device_commands ->
  (rzi_at_registry_write_all_help w).1 <> 0 /\
  exists before c after, device_commands = before ++ c :: after /\ name c = Some "BAND"%string /\ after <> [] /\
    160 <= zstrlen (help_line c (default ""%string (help c))) /\
    Forall (fun d => zstrlen (help_line d (default ""%string (help d))) < 160) before.
Proof.
  intros Hl Hr.
  assert (Hex : exists before c after, device_commands = before ++ c :: after /\ name c = Some "BAND"%string /\ after <> [] /\
    160 <= zstrlen (help_line c (default ""%string (help c))) /\ is_Some (help c) /\
    Forall (fun d => zstrlen (help_line d (default ""%string (help d))) < 160) before).
  { unfold device_commands. rewrite Hl. cbn [orb].
    exists (system_commands ++ nwm_commands ++ key_id_commands ++ join_send_commands).
    exists (hd (AtCommand None None 0 None None) network_management_commands).
    destruct CONFIG_RZI_AT_COMMAND_LORA; eexists; (split; [reflexivity|]); split_and!;
      try done; try (by eexists); apply (bool_decide_unpack _); by vm_compute. }
  destruct Hex as (before & c & after & Heq & Hn & Ha & Hc & [h Hh] & Hb). split; [|by exists before, c, after; split_and!].
  unfold rzi_at_registry_write_all_help. unfold bind at 1. destruct (rzi_at_write_raw (Some help_intro) w) as [rc v] eqn:E.
  destruct (Z.eqb_spec rc 0) as [->|]; [|done]. unfold bind at 1, aget, gets.
  assert (Hv : at_of v = at_of w). { pose proof (write_raw_at (Some help_intro) w) as Hk. unfold same in Hk. by rewrite E in Hk. }
  rewrite Hv, Hr. unfold bind.
  match goal with |- context [for_rc device_commands ?b v] => pose proof (for_rc_fails device_commands b c
    ltac:(rewrite Heq; apply elem_of_app; right; by apply elem_of_cons; left)) as Hf end.
  match goal with |- context [for_rc device_commands ?b v] => destruct (for_rc device_commands b v) as [rc u] eqn:E' end.
  assert (Hrc : rc <> 0).
  { intros ->. refine (Hf _ v _); [|by rewrite E']. intros v'. rewrite Hh in *. cbn [default] in Hc. unfold id in Hc.
    by destruct (Z.leb_spec 160 (zstrlen (help_line c h))); [|lia]. }
  by destruct (Z.eqb_spec rc 0).
Qed.
End tables.

Module DeviceWitness.
Import DeviceSim.

Lemma registration_installs_tables_witness :
  registered (at_of (device_register power_on).2) = device_commands /\
  At.extensions (at_of (device_register power_on).2) = [network_mode_extension; lorawan_extension; lora_extension].
Proof. refine (registration_installs_tables power_on _). vm_refl. Defined.
Lemma command_tables_sound_witness : zlen device_commands <= 101.
Proof. refine (proj1 (command_tables_sound no_application)). Defined.
Lemma help_listing_stops_witness : (rzi_at_registry_write_all_help started_device).1 <> 0.
Proof. refine (proj1 (help_listing_stops started_device _ _)); vm_refl. Defined.
Definition locked_device : world :=
  type_line "AT+LOCK" (type_line "AT+PWORD=secret" started_device).
Lemma locked_installed : lock_installed locked_device.
Proof.
  split; intros c Hc.
  - assert (find_command "LOCK" (registered (at_of locked_device)) =
            Some (nth 17 system_commands (AtCommand None None 0 None None))) as E by vm_refl.
    rewrite E in Hc. injection Hc as <-. reflexivity.
  - assert (find_command "PWORD" (registered (at_of locked_device)) =
            Some (nth 18 system_commands (AtCommand None None 0 None None))) as E by vm_refl.
    rewrite E in Hc. injection Hc as <-. split; reflexivity.
Qed.
Lemma locked_guarded : guarded "secret" locked_device.
Proof. split; [|vm_refl]. assert (locked (at_of locked_device) = 1) as -> by vm_refl. done. Qed.
Lemma factory_resets_held f n : preserves (held "secret" n) (run_factory_reset f).
Proof.
  change (run_factory_reset f) with
    (if String.eqb f "network_mode_factory_reset" then network_mode_factory_reset
     else if String.eqb f "lorawan_factory_reset" then lorawan_factory_reset else ret 0).
  destruct (String.eqb f "network_mode_factory_reset").
  { apply held_keeps; unfold network_mode_factory_reset, delete_stored_key; frame; intros w; rewrite nvm_run; by destruct w. }
  destruct (String.eqb f "lorawan_factory_reset"); [|by intros w].
  apply held_keeps; [apply lorawan_factory_reset_at|].
  intros w. exact (f_equal x_resets (lorawan_factory_reset_ext w)).
Qed.
Lemma runs_lock r u : run_handler "handle_lock" r u = (handle_lock r : M world Z).
Proof. reflexivity. Qed.
Lemma runs_pword r u : run_handler "handle_pword" r u = (handle_pword r : M world Z).
Proof. reflexivity. Qed.
Lemma only_the_password_unlocks_witness : guarded "secret" (execute "AT+PWORD=public" locked_device).2.
Proof.
  destruct (only_the_password_unlocks locked_device "AT+PWORD=public" "secret" runs_lock runs_pword
    factory_resets_held locked_installed locked_guarded) as [[Hg _]|[[_ [n [Hn _]]]|[[Hz|[Hr _]] _]]].
  - exact Hg.
  - exfalso. by vm_compute in Hn.
  - exfalso. by vm_compute in Hz.
  - exfalso. by vm_compute in Hr.
Defined.
Lemma lock_gives_way_witness : (execute "ATZ" locked_device) = sys_reboot locked_device.
Proof.
  refine (proj1 (lock_gives_way locked_device (nth 18 system_commands (AtCommand None None 0 None None)) (proj1 locked_guarded)
    _ eq_refl eq_refl (fun _ _ => eq_refl))). vm_refl.
Defined.
(** *** The LoRaWAN package *)
Lemma join_parameters_roundtrip_witness :
  parse_join_parameters "1:0:10" = (0, JoinParameters 1 0 10 RZI_LORAWAN_JOIN_KEEP).
Proof.
  refine (proj1 join_parameters_roundtrip [1; 0; 10] _). unfold join_fields_ok, UINT8_MAX.
  change (zlen [1; 0; 10]) with 3. change (at_ [1; 0; 10] 0) with 1. change (at_ [1; 0; 10] 1) with 0.
  change (at_ [1; 0; 10] 2) with 10. split_and!; try lia. repeat (constructor; [lia|]). constructor.
Defined.
Lemma key_command_reads_back_witness :
  let w' := (handle_key (AtRequest RZI_AT_OP_WRITE (Some "0011223344556677"%string)) dev_eui_command power_on).2 in
  handle_key (AtRequest RZI_AT_OP_READ None) dev_eui_command w' =
    rzi_at_respond_value "AT+DEVEUI=0011223344556677" w'.
Proof.
  refine (proj2 (key_command_reads_back dev_eui_command "0011223344556677" power_on _) eq_refl _ _).
  - by apply elem_of_cons; left.
  - by vm_compute.
  - intros [Hs|Hs]; discriminate Hs.
Defined.
Lemma send_command_transmits_witness :
  handle_send (AtRequest RZI_AT_OP_WRITE (Some "2:01FF"%string)) power_on = uplink_of 2 [1; 255] power_on.
Proof.
  apply (proj1 (send_command_transmits RZI_AT_OP_WRITE power_on)).
  change "2:01FF"%string with (show_u 2 ++ String ":" (rzi_at_lorawan_bin_to_hex [1; 255]))%string.
  apply printed_argument; [|by repeat constructor].
  unfold uplink_ok. change (zlen [1; 255]) with 2. lia.
Defined.
Definition arrived : downlink_info := Downlink 2 3 (-70) 12 0 1 0 5 868100000 ([1; 2; 3] ++ replicate 239 0).
Definition notified : world := (AtLorawan.on_event (EVENT_DOWNDATA arrived) started_device).2.
Lemma downlink_read_once_witness :
  handle_recv (handle_recv notified).2 = rzi_at_respond_value "AT+RECV=" (handle_recv notified).2.
Proof.
  refine (proj2 (proj2 (downlink_read_once arrived started_device _ _ _))); [cbn; lia|done|vm_refl].
Defined.
Definition pending : world := set_lctx (put_join_pending 1 context_boot) power_on.
Lemma deferred_join_witness :
  let w1 := (AtLorawan.on_event EVENT_READY pending).2 in AtLorawan.on_event EVENT_READY w1 = (tt, w1).
Proof.
  refine (proj2 (proj1 (proj2 (deferred_join pending EVENT_READY EVENT_READY _ _ _)) eq_refl)); [done|by left|by left].
Defined.
(** A confirmed uplink is under way when an unconfirmed one is refused: the device is not joined. *)
Definition waiting : world := set_lctx (put_tx_confirmed 1 context_boot) power_on.
Definition refused : world := (send_now 2 [1] 2 false waiting).2.
Lemma confirmation_follows_last_request_witness :
  (send_now 2 [1] 2 false waiting).1 <> 0 /\
  AtLorawan.on_event (EVENT_TXDONE TXDONE_CONFIRMED 0) refused = at_event "TX_DONE" refused.
Proof.
  split; [by vm_compute|].
  exact (proj1 (confirmation_follows_last_request 2 [1] 2 false waiting refused TXDONE_CONFIRMED 0 eq_refl)).
Defined.
Lemma channel_groups_roundtrip_witness : groups_of (mask_of_bits 0x102) = 0x102.
Proof. refine (proj1 (channel_groups_roundtrip 0x102 _)). lia. Defined.
Lemma band_region_roundtrip_witness : rzi_at_lorawan_region_to_band RZI_LORAWAN_REGION_KR_920 = 7.
Proof.
  refine (match proj1 (band_region_roundtrip 7 0) _ with ex_intro _ r (conj Hr (conj _ Hb)) => _ end); [lia|].
  injection Hr as <-. exact Hb.
Defined.
End DeviceWitness.

Module StartWitness.
Import DeviceSim.
(** No extension has anything to start. *)
#[local] Instance quiet_extensions : AtExtensions | 1 := {|
  run_start _ := ret 0; run_process _ := ret tt; run_factory_reset _ := ret 0 |}.
Lemma start_outcomes_witness :
  life (rzi_at_start (ret (-5)) (Some (AtIo 1 0)) power_on).2 = (0, false) /\
  life (rzi_at_start (ret 0) (Some (AtIo 1 0)) power_on).2 = (1, true).
Proof.
  split.
  - refine (proj2 (proj1 (proj2 (proj2 (proj2 (start_outcomes (ret (-5)) (ret 0) (ret 0) (Some (AtIo 1 0)) power_on _ _ _))
      eq_refl (AtIo 1 0) eq_refl _)) eq_refl) _); done.
  - refine (proj1 (proj1 (proj1 (proj2 (proj2 (proj2 (start_outcomes (ret 0) (ret 0) (ret 0) (Some (AtIo 1 0)) power_on _ _ _))
      eq_refl (AtIo 1 0) eq_refl _)) eq_refl) _)); done.
Defined.
End StartWitness.
