(* ===== verification/ZephyrBackend.v ===== *)
(** * The Zephyr LoRaWAN backend
    (src/lorawan/backend/zephyr/lorawan_backend_zephyr.c,
    lorawan_backend_zephyr_features.c, lorawan_zephyr_mib.c and their header)

    An implementation of the operation tables of LorawanBackend.v.  Zephyr's
    join and send calls block, so the operations only record the request and
    hand it to a worker thread; the handlers of the worker call the stack and
    publish the result.  The stack (zephyr/lorawan, LoRaMac-node, the flash
    map) and the kernel's work queue are parameters: the classes
    [ZephyrLorawan] and [WorkQueue].

    A handler that releases the mutex around a blocking call is split there:
    [join_begin], [lorawan_join], [join_end], publication.  The handlers are
    the compositions; the step relation of ZephyrWorker.v interleaves the
    pieces with the operations. *)
From S2P Require Import Prelude Zephyr Err Power Storage LorawanSettings LorawanBackend LorawanCredentials.

(** ** The stack below *)
(** Enumerators of zephyr/lorawan/lorawan.h the source names. *)
Inductive lorawan_region : Type :=
  LORAWAN_REGION_AS923 | LORAWAN_REGION_AU915 | LORAWAN_REGION_CN470 | LORAWAN_REGION_EU868
| LORAWAN_REGION_KR920 | LORAWAN_REGION_IN865 | LORAWAN_REGION_US915 | LORAWAN_REGION_RU864.
Inductive lorawan_class : Type := LORAWAN_CLASS_A | LORAWAN_CLASS_C.
Inductive lorawan_message_type : Type := LORAWAN_MSG_UNCONFIRMED | LORAWAN_MSG_CONFIRMED.
(** [struct lorawan_join_config]: the mode and the members it selects. *)
Inductive lorawan_join_config : Type :=
| LORAWAN_ACT_OTAA (dev_eui join_eui nwk_key app_key : list Z) (dev_nonce : Z)
| LORAWAN_ACT_ABP (dev_addr : Z) (nwk_skey app_skey : list Z).
#[export] Instance lorawan_region_eq_dec : EqDecision lorawan_region.
Proof. solve_decision. Defined.
#[export] Instance lorawan_join_config_eq_dec : EqDecision lorawan_join_config.
Proof. solve_decision. Defined.

(** zephyr/lorawan, LoRaMac.h, zephyr/storage/flash_map.h, sys_reboot. *)
Class ZephyrLorawan : Type := {
  lw : Type;
  LORAWAN_DATA_PENDING : Z;
  LORAWAN_TIME_UPDATED : Z;
  device_is_ready : lw -> bool;
  lorawan_set_region : lorawan_region -> M lw Z;
  lorawan_start : M lw Z;
  lorawan_register_downlink_callback : M lw unit;
  lorawan_register_link_check_ans_callback : M lw unit;
  lorawan_join : lorawan_join_config -> M lw Z;
  lorawan_send : Z -> list Z -> Z -> lorawan_message_type -> M lw Z;
  lorawan_set_class : lorawan_class -> M lw Z;
  lorawan_enable_adr : bool -> M lw unit;
  lorawan_set_datarate : Z -> M lw Z;
  lorawan_get_payload_sizes : M lw (Z * Z);
  lorawan_request_link_check : bool -> M lw Z;
  lorawan_request_device_time : bool -> M lw Z;
  lorawan_device_time_get : M lw (Z * Z);
  lorawan_clock_sync_run : M lw Z;
  lorawan_clock_sync_get : M lw (Z * Z);
  lorawan_frag_transport_register_descriptor_callback : M lw unit;
  lorawan_frag_transport_run : M lw Z;
  (* LoRaMacMib requests; [None] and [false] are a status other than OK *)
  mib_get_dev_addr : M lw (option Z);
  mib_set_channels_default_mask : list Z -> M lw bool;
  mib_set_channels_mask : list Z -> M lw bool;
  mib_get_nvm_key_list : M lw (option (list (Z * list Z)));
  NWK_S_ENC_KEY : Z;
  APP_S_KEY : Z;
  flash_area : Type;
  fa_size : flash_area -> Z;
  flash_area_open : M lw (Z * flash_area);
  flash_area_read : flash_area -> Z -> Z -> M lw (Z * list Z);
  flash_area_close : flash_area -> M lw unit;
  sys_reboot : M lw unit;
}.
(** Documented results: zero or a negative error number. *)
Class ZephyrLorawanOk `{ZephyrLorawan} : Prop := {
  lorawan_set_region_rc r l : (lorawan_set_region r l).1 <= 0;
  lorawan_start_rc l : (lorawan_start l).1 <= 0;
  lorawan_join_rc c l : (lorawan_join c l).1 <= 0;
  lorawan_send_rc p d n t l : (lorawan_send p d n t l).1 <= 0;
}.
(** The Kconfig options this backend is compiled under. *)
Class ZephyrBackendConfig : Type := {
  CONFIG_LORAWAN_EMUL : bool;
  CONFIG_LORAWAN_APP_CLOCK_SYNC : bool;
  CONFIG_LORAWAN_FRAG_TRANSPORT : bool;
  RZI_ZEPHYR_HAS_SLOT1 : bool;
  SOFT_SE : bool;
}.

(** *** The work queue: the three work items of the file. *)
Inductive work_item : Type := JOIN_WORK | SEND_WORK | CLOCK_POLL_WORK.
#[export] Instance work_item_eq_dec : EqDecision work_item.
Proof. solve_decision. Defined.
Class WorkQueue : Type := {
  wq : Type;
  k_work_init : wq -> wq;
  k_work_schedule_for_queue : work_item -> k_timeout -> M wq Z;
  k_work_submit_to_queue : work_item -> M wq Z;
  k_work_cancel_delayable : work_item -> M wq Z;
  (* the worker thread takes a queued item and runs its handler; it returns *)
  worker_take : work_item -> wq -> wq;
  worker_done : work_item -> wq -> wq;
}.
(** Documented state of a work item: scheduled or pending on the queue; its
    handler running; cancelled while it runs. *)
Record item_state : Type := Item { it_queued : bool; it_running : bool; it_canceling : bool }.
Definition item_idle : item_state := Item false false false.
Definition item_push (s : item_state) : item_state :=
  if it_canceling s then s else Item true (it_running s) false.
Definition item_cancel (s : item_state) : item_state :=
  Item false (it_running s) (it_canceling s || it_running s).
Definition item_take (s : item_state) : item_state := Item false true (it_canceling s).
Definition item_done (s : item_state) : item_state := Item (it_queued s) false false.
(** Each call moves its own item; scheduling an item that is being cancelled
    has no effect, and a cancellation reports zero exactly when nothing runs. *)
Class WorkQueueOk `{WorkQueue} : Type := {
  item : wq -> work_item -> item_state;
  item_init i q : item (k_work_init q) i = item_idle;
  item_schedule i t j q : item (k_work_schedule_for_queue i t q).2 j =
    if decide (j = i) then item_push (item q i) else item q j;
  item_submit i j q : item (k_work_submit_to_queue i q).2 j =
    if decide (j = i) then item_push (item q i) else item q j;
  item_cancelled i j q : item (k_work_cancel_delayable i q).2 j =
    if decide (j = i) then item_cancel (item q i) else item q j;
  cancel_rc i q : (k_work_cancel_delayable i q).1 = 0 <-> it_running (item q i) = false;
  item_taken i j q : item (worker_take i q) j =
    if decide (j = i) then item_take (item q i) else item q j;
  item_finished i j q : item (worker_done i q) j =
    if decide (j = i) then item_done (item q i) else item q j;
}.

(** ** The file-scope variables of lorawan_backend_zephyr.c; a function
    pointer is a number, 0 is NULL *)
Record zephyr_vars : Type := ZephyrVars {
  z_started : bool; z_joined : bool; z_join_pending : bool; z_join_stop : bool;
  z_tx_pending : bool; z_next_dev_nonce : Z; z_current_region : Z; z_event_sink : Z;
  z_join_settings : rzi_lorawan_join_config;
  z_tx_port : Z; z_tx_size : Z; z_tx_type : Z; z_tx_data : list Z;
}.
Definition z_set_started v s := ZephyrVars v (z_joined s) (z_join_pending s) (z_join_stop s)
  (z_tx_pending s) (z_next_dev_nonce s) (z_current_region s) (z_event_sink s)
  (z_join_settings s) (z_tx_port s) (z_tx_size s) (z_tx_type s) (z_tx_data s).
Definition z_set_joined v s := ZephyrVars (z_started s) v (z_join_pending s) (z_join_stop s)
  (z_tx_pending s) (z_next_dev_nonce s) (z_current_region s) (z_event_sink s)
  (z_join_settings s) (z_tx_port s) (z_tx_size s) (z_tx_type s) (z_tx_data s).
Definition z_set_join_pending v s := ZephyrVars (z_started s) (z_joined s) v (z_join_stop s)
  (z_tx_pending s) (z_next_dev_nonce s) (z_current_region s) (z_event_sink s)
  (z_join_settings s) (z_tx_port s) (z_tx_size s) (z_tx_type s) (z_tx_data s).
Definition z_set_join_stop v s := ZephyrVars (z_started s) (z_joined s) (z_join_pending s) v
  (z_tx_pending s) (z_next_dev_nonce s) (z_current_region s) (z_event_sink s)
  (z_join_settings s) (z_tx_port s) (z_tx_size s) (z_tx_type s) (z_tx_data s).
Definition z_set_tx_pending v s := ZephyrVars (z_started s) (z_joined s) (z_join_pending s)
  (z_join_stop s) v (z_next_dev_nonce s) (z_current_region s) (z_event_sink s)
  (z_join_settings s) (z_tx_port s) (z_tx_size s) (z_tx_type s) (z_tx_data s).
Definition z_set_next_dev_nonce v s := ZephyrVars (z_started s) (z_joined s) (z_join_pending s)
  (z_join_stop s) (z_tx_pending s) v (z_current_region s) (z_event_sink s) (z_join_settings s)
  (z_tx_port s) (z_tx_size s) (z_tx_type s) (z_tx_data s).
Definition z_set_current_region v s := ZephyrVars (z_started s) (z_joined s) (z_join_pending s)
  (z_join_stop s) (z_tx_pending s) (z_next_dev_nonce s) v (z_event_sink s) (z_join_settings s)
  (z_tx_port s) (z_tx_size s) (z_tx_type s) (z_tx_data s).
Definition z_set_event_sink v s := ZephyrVars (z_started s) (z_joined s) (z_join_pending s)
  (z_join_stop s) (z_tx_pending s) (z_next_dev_nonce s) (z_current_region s) v
  (z_join_settings s) (z_tx_port s) (z_tx_size s) (z_tx_type s) (z_tx_data s).
Definition z_set_join_settings v s := ZephyrVars (z_started s) (z_joined s) (z_join_pending s)
  (z_join_stop s) (z_tx_pending s) (z_next_dev_nonce s) (z_current_region s) (z_event_sink s) v
  (z_tx_port s) (z_tx_size s) (z_tx_type s) (z_tx_data s).
Definition z_set_tx_port v s := ZephyrVars (z_started s) (z_joined s) (z_join_pending s)
  (z_join_stop s) (z_tx_pending s) (z_next_dev_nonce s) (z_current_region s) (z_event_sink s)
  (z_join_settings s) v (z_tx_size s) (z_tx_type s) (z_tx_data s).
Definition z_set_tx_size v s := ZephyrVars (z_started s) (z_joined s) (z_join_pending s)
  (z_join_stop s) (z_tx_pending s) (z_next_dev_nonce s) (z_current_region s) (z_event_sink s)
  (z_join_settings s) (z_tx_port s) v (z_tx_type s) (z_tx_data s).
Definition z_set_tx_type v s := ZephyrVars (z_started s) (z_joined s) (z_join_pending s)
  (z_join_stop s) (z_tx_pending s) (z_next_dev_nonce s) (z_current_region s) (z_event_sink s)
  (z_join_settings s) (z_tx_port s) (z_tx_size s) v (z_tx_data s).
Definition z_set_tx_data v s := ZephyrVars (z_started s) (z_joined s) (z_join_pending s)
  (z_join_stop s) (z_tx_pending s) (z_next_dev_nonce s) (z_current_region s) (z_event_sink s)
  (z_join_settings s) (z_tx_port s) (z_tx_size s) (z_tx_type s) v.
(** Static initialisation. *)
Definition join_settings_zero : rzi_lorawan_join_config :=
  JoinConfig RZI_LORAWAN_ACTIVATION_OTAA 0 false (replicate 6 0)
    (inl (JoinOtaa (replicate 8 0) (replicate 8 0) (replicate 16 0) (replicate 16 0) 0)).
Definition zephyr_vars_init : zephyr_vars :=
  ZephyrVars false false false false false 1 RZI_LORAWAN_REGION_EU_868 0 join_settings_zero
    0 0 RZI_LORAWAN_MSG_UNCONFIRMED (replicate (Z.to_nat RZI_LORAWAN_MAX_PAYLOAD) 0).

(** The file-scope variables of lorawan_backend_zephyr_features.c. *)
Abbreviation RZI_LORAWAN_DR_0 := 0.
Record zephyr_features : Type := ZephyrFeatures {
  z_device_class : Z; z_adr_enabled : bool; z_data_rate : Z;
}.
Definition zephyr_features_init : zephyr_features :=
  ZephyrFeatures RZI_LORAWAN_CLASS_A true RZI_LORAWAN_DR_0.
(** [clock_poll_left], [fuota_services_started] *)
Record zephyr_fuota_vars : Type := ZephyrFuotaVars {
  z_clock_poll_left : Z; z_fuota_services_started : bool;
}.

(** Public flags of a downlink (lorawan.h). *)
Abbreviation RZI_LORAWAN_DOWNLINK_FPENDING := 1.
Abbreviation RZI_LORAWAN_DOWNLINK_TIME_UPDATED := 2.
Abbreviation RZI_LORAWAN_CHANNEL_MASK_BITS := 16.
Abbreviation CLOCK_POLL_TRIES := 24.
Definition K_SECONDS (s : Z) : k_timeout := K_MSEC (1000 * s).
Definition K_NO_WAIT : k_timeout := K_MSEC 0.
Definition CLOCK_POLL_PERIOD : k_timeout := K_SECONDS 5.

(** [regions\[\]] and [map_region]; [None] is -RZI_ERR_INVALID *)
Definition regions : list lorawan_region :=
  [LORAWAN_REGION_EU868; LORAWAN_REGION_US915; LORAWAN_REGION_AU915; LORAWAN_REGION_CN470;
   LORAWAN_REGION_AS923; LORAWAN_REGION_AS923; LORAWAN_REGION_AS923; LORAWAN_REGION_AS923;
   LORAWAN_REGION_IN865; LORAWAN_REGION_KR920; LORAWAN_REGION_RU864].
Definition map_region (value : Z) : option lorawan_region := regions !! Z.to_nat (u32 value).

Definition snr_to_quarter_db (snr_db : Z) : Z :=
  let scaled := snr_db * 4 in
  if 127 <? scaled then 127 else if scaled <? -128 then -128 else scaled.

(** [uplink_data_rate_mask] *)
Definition uplink_data_rate_mask (region : Z) : Z :=
  if region =? RZI_LORAWAN_REGION_EU_868 then 0x0fff
  else if region =? RZI_LORAWAN_REGION_US_915 then 0x007f
  else if region =? RZI_LORAWAN_REGION_IN_865 then 0x00bf
  else if region =? RZI_LORAWAN_REGION_KR_920 then 0x003f
  else 0x00ff.

(** The member of the union that [activation] selects.  A configuration of
    the service always holds that member; the other case reads zeroes. *)
Definition join_otaa (config : rzi_lorawan_join_config) : rzi_lorawan_join_otaa :=
  match j_params config with
  | inl otaa => otaa
  | inr _ => JoinOtaa (replicate 8 0) (replicate 8 0) (replicate 16 0) (replicate 16 0) 0
  end.
Definition join_abp (config : rzi_lorawan_join_config) : rzi_lorawan_join_abp :=
  match j_params config with
  | inr abp => abp
  | inl _ => JoinAbp 0 (replicate 16 0) (replicate 16 0)
  end.

(** The mask of [apply_channel_mask], word by word: the configured one, every
    channel of a fixed plan, or none to apply. *)
Definition mask_put (mask : list Z) (channel : Z) : list Z :=
  let word := Z.to_nat (channel / RZI_LORAWAN_CHANNEL_MASK_BITS) in
  <[word := Z.lor (at_ mask (Z.of_nat word)) (u16 (BIT (channel mod RZI_LORAWAN_CHANNEL_MASK_BITS)))]>
    mask.
Definition fixed_plan_mask : list Z :=
  foldl mask_put (replicate (Z.to_nat RZI_LORAWAN_CHANNEL_MASK_WORDS) 0)
    (seqZ 0 RZI_LORAWAN_FIXED_PLAN_CHANNELS).
Definition join_mask (config : rzi_lorawan_join_config) (region : Z) : option (list Z) :=
  if j_channel_mask_set config then Some (j_channel_mask config)
  else if rzi_lorawan_region_has_fixed_plan region then Some fixed_plan_mask
  else None.

(** The service's event sink, as a non-NULL pointer. *)
Abbreviation SERVICE_SINK := 1.

Section backend.
Context `{Errno} `{Kconfig} `{ZephyrBackendConfig} `{ZephyrLorawan} `{WorkQueue}.

(** ** The state: the variables, the stack and the work queue below, and the
    events handed to the sink, in order. *)
Record zephyr_state : Type := ZephyrState {
  zb_vars : zephyr_vars; zb_features : zephyr_features; zb_fuota : zephyr_fuota_vars;
  zb_lw : lw; zb_wq : wq; zb_events : list rzi_lorawan_backend_event;
}.
Definition set_zb_vars v s := ZephyrState v (zb_features s) (zb_fuota s) (zb_lw s) (zb_wq s) (zb_events s).
Definition set_zb_features v s := ZephyrState (zb_vars s) v (zb_fuota s) (zb_lw s) (zb_wq s) (zb_events s).
Definition set_zb_fuota v s := ZephyrState (zb_vars s) (zb_features s) v (zb_lw s) (zb_wq s) (zb_events s).
Definition set_zb_lw v s := ZephyrState (zb_vars s) (zb_features s) (zb_fuota s) v (zb_wq s) (zb_events s).
Definition set_zb_wq v s := ZephyrState (zb_vars s) (zb_features s) (zb_fuota s) (zb_lw s) v (zb_events s).
Definition set_zb_events v s := ZephyrState (zb_vars s) (zb_features s) (zb_fuota s) (zb_lw s) (zb_wq s) v.
Definition zget {A} (f : zephyr_vars -> A) : M zephyr_state A := gets (fun s => f (zb_vars s)).
Definition zput (f : zephyr_vars -> zephyr_vars) : M zephyr_state unit :=
  modify (fun s => set_zb_vars (f (zb_vars s)) s).
Definition fget {A} (f : zephyr_features -> A) : M zephyr_state A := gets (fun s => f (zb_features s)).
Definition fput (f : zephyr_features -> zephyr_features) : M zephyr_state unit :=
  modify (fun s => set_zb_features (f (zb_features s)) s).
Definition uget {A} (f : zephyr_fuota_vars -> A) : M zephyr_state A := gets (fun s => f (zb_fuota s)).
Definition uput (f : zephyr_fuota_vars -> zephyr_fuota_vars) : M zephyr_state unit :=
  modify (fun s => set_zb_fuota (f (zb_fuota s)) s).
Definition stack {A} (m : M lw A) : M zephyr_state A := zoom zb_lw set_zb_lw m.
Definition worker {A} (m : M wq A) : M zephyr_state A := zoom zb_wq set_zb_wq m.
Definition when (b : bool) (m : M zephyr_state unit) : M zephyr_state unit := if b then m else ret tt.
(** [(void)m] *)
Definition ignore {A} (m : M zephyr_state A) : M zephyr_state unit := m ;;; ret tt.

(** [publish]: [event_sink(event)] *)
Definition zephyr_publish (event : rzi_lorawan_backend_event) : M zephyr_state unit :=
  modify (fun s => set_zb_events (zb_events s ++ [event]) s).

Definition rzi_lorawan_zephyr_err (rc : Z) : Z :=
  if rc =? - ENETDOWN then - RZI_ERR_NOT_JOINED else rzi_err_from_errno rc.
Definition rzi_lorawan_zephyr_lock_started : M zephyr_state Z :=
  let* s := zget z_started in ret (if s then 0 else - RZI_ERR_NOT_READY).
Definition rzi_lorawan_zephyr_busy : M zephyr_state bool :=
  zget (fun v => z_join_pending v || z_tx_pending v).
Definition rzi_lorawan_zephyr_set_dev_nonce (dev_nonce : Z) : M zephyr_state unit :=
  zput (z_set_next_dev_nonce (if dev_nonce =? 0 then 1 else dev_nonce)).

(** ** Callbacks of the stack *)
Definition downlink_event (port flags rssi snr len : Z) (data : option (list Z)) : rzi_lorawan_backend_event :=
  let size := if RZI_LORAWAN_MAX_PAYLOAD <? len then RZI_LORAWAN_MAX_PAYLOAD else len in
  let zeroes := replicate (Z.to_nat RZI_LORAWAN_MAX_PAYLOAD) 0 in
  BACKEND_DOWNLINK (Downlink port size rssi (snr_to_quarter_db snr)
    (Z.lor (if negb (Z.land flags LORAWAN_DATA_PENDING =? 0) then RZI_LORAWAN_DOWNLINK_FPENDING else 0)
           (if negb (Z.land flags LORAWAN_TIME_UPDATED =? 0) then RZI_LORAWAN_DOWNLINK_TIME_UPDATED else 0))
    0 0 0 0
    (match data with
     | Some data => if 0 <? size then overlay zeroes 0 (take (Z.to_nat size) data) else zeroes
     | None => zeroes
     end)).
Definition on_downlink (port flags rssi snr len : Z) (data : option (list Z)) : M zephyr_state unit :=
  let timed := negb (Z.land flags LORAWAN_TIME_UPDATED =? 0) in
  zephyr_publish (downlink_event port flags rssi snr len data) ;;;
  when timed (zephyr_publish (BACKEND_DEVICE_TIME 0)) ;;;
  when (CONFIG_RZI_LORAWAN_FUOTA && timed) (zephyr_publish (BACKEND_FUOTA FUOTA_CLOCK_SYNCED true 0)).
Definition on_link_check (demod_margin nb_gateways : Z) : M zephyr_state unit :=
  zephyr_publish (BACKEND_LINK_CHECK (LinkCheck demod_margin nb_gateways 0 0)).
Definition frag_descriptor : M zephyr_state Z :=
  zephyr_publish (BACKEND_FUOTA FUOTA_SESSION_STARTED true 0) ;;; ret 0.
Definition frag_finished : M zephyr_state unit :=
  zephyr_publish (BACKEND_FUOTA FUOTA_TRANSFER_DONE true 0).

(** ** The worker *)
Definition fill_zephyr_join : M zephyr_state lorawan_join_config :=
  let* config := zget z_join_settings in
  if j_activation config =? RZI_LORAWAN_ACTIVATION_OTAA then
    let o := join_otaa config in
    let otaa := LORAWAN_ACT_OTAA (j_dev_eui o) (j_join_eui o) (j_network_key o) (j_application_key o) in
    if negb (j_dev_nonce o =? 0) then ret (otaa (j_dev_nonce o))
    else
      let* nonce := zget z_next_dev_nonce in
      zput (z_set_next_dev_nonce (u16 (nonce + 1))) ;;;
      ret (otaa nonce)
  else
    let a := join_abp config in
    ret (LORAWAN_ACT_ABP (j_dev_addr a) (j_network_session_key a) (j_application_session_key a)).

(** The first critical section of [join_work_handler]; [None]: it returned. *)
Definition join_begin : M zephyr_state (option lorawan_join_config) :=
  let* stop := zget z_join_stop in
  if stop then zput (z_set_join_pending false) ;;; ret None
  else let* config := fill_zephyr_join in ret (Some config).
(** The second one, and the event to publish after it. *)
Definition join_end (rc : Z) : M zephyr_state (option rzi_lorawan_backend_event) :=
  let* stopped := zget z_join_stop in
  zput (z_set_joined (rc =? 0)) ;;;
  (if (rc =? 0) || stopped then zput (z_set_join_pending false)
   else
     let* config := zget z_join_settings in
     ignore (worker (k_work_schedule_for_queue JOIN_WORK (K_SECONDS (j_retry_interval_s config))))) ;;;
  ret (if stopped && negb (rc =? 0) then None
       else Some (if rc =? 0 then BACKEND_JOINED else BACKEND_JOIN_FAILED (rzi_lorawan_zephyr_err rc))).
Definition report (event : option rzi_lorawan_backend_event) : M zephyr_state unit :=
  match event with Some e => zephyr_publish e | None => ret tt end.
Definition join_work_handler : M zephyr_state unit :=
  let* config := join_begin in
  match config with
  | None => ret tt
  | Some config =>
      let* rc := stack (lorawan_join config) in
      let* event := join_end rc in
      report event
  end.

(** The locals of [send_work_handler]. *)
Record tx_frame : Type := TxFrame { f_port : Z; f_payload : list Z; f_size : Z; f_type : Z }.
Definition send_begin : M zephyr_state tx_frame :=
  zget (fun v => TxFrame (z_tx_port v) (take (Z.to_nat (z_tx_size v)) (z_tx_data v)) (z_tx_size v) (z_tx_type v)).
Definition call_send (f : tx_frame) : M zephyr_state Z :=
  stack (lorawan_send (f_port f) (f_payload f) (f_size f)
    (if f_type f =? RZI_LORAWAN_MSG_CONFIRMED then LORAWAN_MSG_CONFIRMED else LORAWAN_MSG_UNCONFIRMED)).
Definition send_event (type rc : Z) : rzi_lorawan_backend_event :=
  if negb (rc =? 0) then BACKEND_TX_DONE TXDONE_NOT_SENT (rzi_lorawan_zephyr_err rc)
  else if type =? RZI_LORAWAN_MSG_CONFIRMED then BACKEND_TX_DONE TXDONE_CONFIRMED 0
  else BACKEND_TX_DONE TXDONE_SENT 0.
Definition send_work_handler : M zephyr_state unit :=
  let* frame := send_begin in
  let* rc := call_send frame in
  zput (z_set_tx_pending false) ;;;
  zephyr_publish (send_event (f_type frame) rc).

Definition clock_poll_handler : M zephyr_state unit :=
  let* '(rc, _) := stack lorawan_clock_sync_get in
  if rc =? 0 then zephyr_publish (BACKEND_FUOTA FUOTA_CLOCK_SYNCED true 0)
  else
    let* left := uget z_clock_poll_left in
    when (0 <? left)
      (uput (fun u => ZephyrFuotaVars (left - 1) (z_fuota_services_started u)) ;;;
       ignore (worker (k_work_schedule_for_queue CLOCK_POLL_WORK CLOCK_POLL_PERIOD))).

(** ** MIB access (lorawan_zephyr_mib.c): errno results; [None] is NULL *)
Definition rzi_lorawan_zephyr_mib_dev_addr (dev_addr : option Z) : M zephyr_state (Z * option Z) :=
  match dev_addr with
  | None => ret (- EINVAL, None)
  | Some _ =>
      let* value := stack mib_get_dev_addr in
      match value with
      | None => ret (- EIO, dev_addr)
      | Some a => ret (0, Some a)
      end
  end.
Definition rzi_lorawan_zephyr_mib_set_channels (mask : list Z) : M zephyr_state Z :=
  let* ok := stack (mib_set_channels_default_mask mask) in
  if negb ok then ret (- EINVAL)
  else
    let* ok := stack (mib_set_channels_mask mask) in
    ret (if ok then 0 else - EINVAL).
Definition copy_session_key (key_id : Z) (key : option (list Z)) : M zephyr_state (Z * option (list Z)) :=
  if SOFT_SE then
    match key with
    | None => ret (- EINVAL, None)
    | Some old =>
        let* keys := stack mib_get_nvm_key_list in
        match keys with
        | None => ret (- EIO, key)
        | Some keys =>
            match List.find (fun k => k.1 =? key_id) keys with
            | Some (_, value) => ret (0, Some (overlay old 0 (take 16 value)))
            | None => ret (- ENOENT, key)
            end
        end
    end
  else ret (- ENOTSUP, key).
Definition rzi_lorawan_zephyr_mib_nwk_skey := copy_session_key NWK_S_ENC_KEY.
Definition rzi_lorawan_zephyr_mib_app_skey := copy_session_key APP_S_KEY.
Definition zephyr_map_mib (rc : Z) : Z :=
  if rc =? 0 then 0 else if rc =? - ENOTSUP then - RZI_ERR_NOT_SUPPORTED else - RZI_ERR_IO.

(** ** Base operations *)
Definition apply_region (selected : lorawan_region) : M zephyr_state Z :=
  if CONFIG_LORAWAN_EMUL then ret 0 else stack (lorawan_set_region selected).
Definition zephyr_start (selected_region : Z) (join_backoff_bypass : bool) (sink : Z) : M zephyr_state Z :=
  match map_region selected_region with
  | None => ret (- RZI_ERR_INVALID)
  | Some selected =>
      if sink =? 0 then ret (- RZI_ERR_INVALID)
      else
        let* ready := gets (fun s => device_is_ready (zb_lw s)) in
        if negb CONFIG_LORAWAN_EMUL && negb ready then ret (- RZI_ERR_NO_DEVICE)
        else
          zput (z_set_event_sink sink) ;;;
          zput (z_set_current_region selected_region) ;;;
          rc* rc := apply_region selected else rzi_lorawan_zephyr_err rc in
          rc* rc := stack lorawan_start else rzi_lorawan_zephyr_err rc in
          stack lorawan_register_downlink_callback ;;;
          when (negb CONFIG_LORAWAN_EMUL) (stack lorawan_register_link_check_ans_callback) ;;;
          worker (modify k_work_init) ;;;
          zput (z_set_started true) ;;;
          zput (z_set_joined false) ;;;
          zephyr_publish BACKEND_READY ;;;
          ret 0
  end.

Definition apply_channel_mask (config : rzi_lorawan_join_config) : M zephyr_state Z :=
  let* region := zget z_current_region in
  match join_mask config region with
  | None => ret 0
  | Some mask => let* rc := rzi_lorawan_zephyr_mib_set_channels mask in ret (rzi_lorawan_zephyr_err rc)
  end.
Definition zephyr_join (config : rzi_lorawan_join_config) : M zephyr_state Z :=
  let* v := zget id in
  let* rc := (if negb (z_started v) then ret (- RZI_ERR_NOT_READY)
              else if z_join_pending v || z_tx_pending v then ret (- RZI_ERR_BUSY)
              else apply_channel_mask config) in
  when (rc =? 0)
    (zput (z_set_join_settings config) ;;;
     zput (z_set_join_pending true) ;;;
     zput (z_set_join_stop false) ;;;
     ignore (worker (k_work_schedule_for_queue JOIN_WORK K_NO_WAIT))) ;;;
  ret rc.

Definition zephyr_leave : M zephyr_state Z :=
  let* pending := zget z_join_pending in
  if pending then
    zput (z_set_join_stop true) ;;;
    let* rc := worker (k_work_cancel_delayable JOIN_WORK) in
    when (rc =? 0) (zput (z_set_join_pending false)) ;;;
    ret 0
  else ret (- RZI_ERR_NOT_SUPPORTED).

(** The critical section of [zephyr_send], and the submission after it. *)
Definition send_accept (port : Z) (data : option (list Z)) (size type : Z) : M zephyr_state Z :=
  let* v := zget id in
  if negb (z_started v) then ret (- RZI_ERR_NOT_READY)
  else if negb (z_joined v) then ret (- RZI_ERR_NOT_JOINED)
  else if z_join_pending v || z_tx_pending v then ret (- RZI_ERR_BUSY)
  else
    zput (z_set_tx_port port) ;;;
    zput (z_set_tx_size (u8 size)) ;;;
    zput (z_set_tx_type type) ;;;
    when (0 <? size)
      (zput (fun v => z_set_tx_data (overlay (z_tx_data v) 0 (take (Z.to_nat size) (default [] data))) v)) ;;;
    zput (z_set_tx_pending true) ;;;
    ret 0.
Definition send_submit : M zephyr_state Z :=
  ignore (worker (k_work_submit_to_queue SEND_WORK)) ;;; ret 0.
Definition zephyr_send (port : Z) (data : option (list Z)) (size type : Z) : M zephyr_state Z :=
  rc* rc := send_accept port data size type else rc in send_submit.

Definition rzi_lorawan_zephyr_set_class (value : Z) : M zephyr_state unit :=
  fput (fun f => ZephyrFeatures value (z_adr_enabled f) (z_data_rate f)).
Definition zephyr_set_class (device_class : Z) : M zephyr_state Z :=
  let set mapped :=
    let* rc := stack (lorawan_set_class mapped) in
    when (rc =? 0) (rzi_lorawan_zephyr_set_class device_class) ;;;
    ret (rzi_lorawan_zephyr_err rc) in
  if device_class =? RZI_LORAWAN_CLASS_A then set LORAWAN_CLASS_A
  else if device_class =? RZI_LORAWAN_CLASS_C then set LORAWAN_CLASS_C
  else if device_class =? RZI_LORAWAN_CLASS_B then ret (- RZI_ERR_NOT_SUPPORTED)
  else ret (- RZI_ERR_INVALID).

(** A getter of the form: lock, copy one variable into the caller's cell. *)
Definition locked_get {A} (m : M zephyr_state A) (cell : A) : M zephyr_state (Z * A) :=
  rc* rc := rzi_lorawan_zephyr_lock_started else (rc, cell) in
  let* a := m in ret (0, a).
Definition zephyr_is_joined : bool -> M zephyr_state (Z * bool) := locked_get (zget z_joined).
Definition zephyr_is_busy : bool -> M zephyr_state (Z * bool) := locked_get rzi_lorawan_zephyr_busy.
Definition zephyr_get_class : Z -> M zephyr_state (Z * Z) := locked_get (fget z_device_class).

(** ** MAC parameters, session and MAC commands (lorawan_backend_zephyr_features.c) *)
Definition zephyr_get_adr : bool -> M zephyr_state (Z * bool) := locked_get (fget z_adr_enabled).
Definition zephyr_set_adr (enabled : bool) : M zephyr_state Z :=
  rc* rc := rzi_lorawan_zephyr_lock_started else rc in
  stack (lorawan_enable_adr enabled) ;;;
  fput (fun f => ZephyrFeatures (z_device_class f) enabled (z_data_rate f)) ;;;
  ret 0.
Definition zephyr_get_data_rate : Z -> M zephyr_state (Z * Z) := locked_get (fget z_data_rate).
Definition zephyr_set_data_rate (value : Z) : M zephyr_state Z :=
  rc* rc := rzi_lorawan_zephyr_lock_started else rc in
  let* rc := stack (lorawan_set_datarate value) in
  when (rc =? 0) (fput (fun f => ZephyrFeatures (z_device_class f) (z_adr_enabled f) value)) ;;;
  ret (rzi_lorawan_zephyr_err rc).
Definition zephyr_get_enabled_data_rates : Z -> M zephyr_state (Z * Z) :=
  locked_get (zget (fun v => uplink_data_rate_mask (z_current_region v))).
Definition zephyr_query_tx_possible (size : Z) : M zephyr_state Z :=
  rc* rc := rzi_lorawan_zephyr_lock_started else rc in
  let* '(next_size, _) := stack lorawan_get_payload_sizes in
  ret (if next_size <? size then - RZI_ERR_TOO_LARGE else 0).

Definition zephyr_get_dev_addr (cell : Z) : M zephyr_state (Z * Z) :=
  rc* rc := rzi_lorawan_zephyr_lock_started else (rc, cell) in
  let* '(rc, a) := rzi_lorawan_zephyr_mib_dev_addr (Some cell) in
  ret (zephyr_map_mib rc, default cell a).
Definition zephyr_get_nwk_skey (cell : list Z) : M zephyr_state (Z * list Z) :=
  rc* rc := rzi_lorawan_zephyr_lock_started else (rc, cell) in
  let* '(rc, k) := rzi_lorawan_zephyr_mib_nwk_skey (Some cell) in
  ret (zephyr_map_mib rc, default cell k).
Definition zephyr_get_app_skey (cell : list Z) : M zephyr_state (Z * list Z) :=
  rc* rc := rzi_lorawan_zephyr_lock_started else (rc, cell) in
  let* '(rc, k) := rzi_lorawan_zephyr_mib_app_skey (Some cell) in
  ret (zephyr_map_mib rc, default cell k).
Definition zephyr_get_dev_nonce : Z -> M zephyr_state (Z * Z) := locked_get (zget z_next_dev_nonce).
Definition zephyr_set_dev_nonce (dev_nonce : Z) : M zephyr_state Z :=
  rc* rc := rzi_lorawan_zephyr_lock_started else rc in
  rzi_lorawan_zephyr_set_dev_nonce dev_nonce ;;; ret 0.

Definition zephyr_link_check_request : M zephyr_state Z :=
  if CONFIG_LORAWAN_EMUL then ret (- RZI_ERR_NOT_SUPPORTED)
  else
    rc* rc := rzi_lorawan_zephyr_lock_started else rc in
    let* rc := stack (lorawan_request_link_check true) in ret (rzi_lorawan_zephyr_err rc).
Definition zephyr_device_time_request : M zephyr_state Z :=
  if CONFIG_LORAWAN_EMUL then ret (- RZI_ERR_NOT_SUPPORTED)
  else
    rc* rc := rzi_lorawan_zephyr_lock_started else rc in
    let* rc := stack (lorawan_request_device_time true) in ret (rzi_lorawan_zephyr_err rc).
Definition zephyr_get_network_time (time : rzi_lorawan_network_time) : M zephyr_state (Z * rzi_lorawan_network_time) :=
  if CONFIG_LORAWAN_EMUL then ret (- RZI_ERR_NOT_SUPPORTED, time)
  else
    rc* rc := rzi_lorawan_zephyr_lock_started else (rc, time) in
    let* '(rc, gps_time) := stack lorawan_device_time_get in
    ret (if negb (rc =? 0) then (rzi_lorawan_zephyr_err rc, time) else (0, NetworkTime gps_time 0)).

(** ** FUOTA access *)
Definition zephyr_fuota_start_clock_sync : M zephyr_state Z :=
  when (negb CONFIG_LORAWAN_EMUL) (ignore (stack (lorawan_request_device_time false))) ;;;
  let* rc := (if CONFIG_LORAWAN_APP_CLOCK_SYNC then
                let* r := stack lorawan_clock_sync_run in
                let rc := rzi_lorawan_zephyr_err r in
                when (rc =? 0)
                  (uput (fun u => ZephyrFuotaVars CLOCK_POLL_TRIES (z_fuota_services_started u)) ;;;
                   ignore (worker (k_work_schedule_for_queue CLOCK_POLL_WORK K_NO_WAIT))) ;;;
                ret rc
              else ret (- RZI_ERR_NOT_SUPPORTED)) in
  if negb CONFIG_LORAWAN_FRAG_TRANSPORT then ret rc
  else
    let* running := uget z_fuota_services_started in
    if running then ret rc
    else
      stack lorawan_frag_transport_register_descriptor_callback ;;;
      let* frag_rc := stack lorawan_frag_transport_run in
      uput (fun u => ZephyrFuotaVars (z_clock_poll_left u) true) ;;;
      ret (if negb (frag_rc =? 0) && (rc =? 0) then rzi_lorawan_zephyr_err frag_rc else rc).
Definition zephyr_fuota_get_image_size (size : Z) : M zephyr_state (Z * Z) := ret (- RZI_ERR_NO_DATA, size).
(** The buffer is the service's, not NULL; the result is what was written to it. *)
Definition zephyr_fuota_read_image (offset size : Z) : M zephyr_state (Z * list Z) :=
  if negb RZI_ZEPHYR_HAS_SLOT1 then ret (- RZI_ERR_NOT_SUPPORTED, [])
  else
    let* '(rc, area) := stack flash_area_open in
    if negb (rc =? 0) then ret (rzi_lorawan_zephyr_err rc, [])
    else if fa_size area <? offset + size then
      stack (flash_area_close area) ;;; ret (- RZI_ERR_INVALID, [])
    else
      let* '(rc, data) := stack (flash_area_read area offset size) in
      stack (flash_area_close area) ;;;
      ret (rzi_lorawan_zephyr_err rc, data).
Definition zephyr_fuota_reboot : M zephyr_state Z := stack sys_reboot ;;; ret (- RZI_ERR_IO).

(** ** The operation tables *)
(** An operation runs to its return; the events it handed to the sink are its
    output. *)
Definition run_op {A} (m : M zephyr_state A) : bop zephyr_state A := fun s =>
  match m (set_zb_events [] s) with
  | (a, s') => ((a, zb_events s'), set_zb_events (zb_events s) s')
  end.
Definition run_get {A} (m : A -> M zephyr_state (Z * A)) : option (getter zephyr_state A) :=
  Some (fun cell => run_op (m cell)).

Definition ZEPHYR_CAPABILITIES : Z :=
  let caps := Z.lor RZI_LORAWAN_CAP_OTAA (Z.lor RZI_LORAWAN_CAP_ABP (Z.lor RZI_LORAWAN_CAP_CLASS_A
    (Z.lor RZI_LORAWAN_CAP_CLASS_C (Z.lor RZI_LORAWAN_CAP_NETWORK (Z.lor RZI_LORAWAN_CAP_CHANNEL
    (Z.lor RZI_LORAWAN_CAP_SESSION RZI_LORAWAN_CAP_MAC)))))) in
  if CONFIG_RZI_LORAWAN_FUOTA then Z.lor caps RZI_LORAWAN_CAP_FUOTA else caps.

Definition zephyr_network_ops : rzi_lorawan_network_ops zephyr_state := {|
  op_get_adr := run_get zephyr_get_adr; op_set_adr := Some (fun e => run_op (zephyr_set_adr e));
  op_get_data_rate := run_get zephyr_get_data_rate;
  op_set_data_rate := Some (fun v => run_op (zephyr_set_data_rate v));
  op_get_enabled_data_rates := run_get zephyr_get_enabled_data_rates;
  op_get_adr_profile := None; op_set_adr_profile := None; op_get_nb_trans := None;
  op_set_nb_trans := None; op_get_adr_ack := None; op_set_adr_ack := None;
  op_set_join_data_rates := None; op_get_duty_cycle_status := None; op_get_join_backoff := None;
  op_get_public_network := None; op_set_public_network := None; op_get_lbt := None;
  op_set_lbt := None; op_get_lbt_rssi := None; op_set_lbt_rssi := None;
  op_get_lbt_scan_time := None; op_set_lbt_scan_time := None; op_get_csma := None;
  op_set_csma := None; op_get_csma_params := None; op_set_csma_params := None;
  op_get_lost_connection_count := None; op_get_no_downlink_threshold := None;
  op_set_no_downlink_threshold := None; op_get_crystal_error := None;
  op_set_crystal_error := None; op_send_empty := None;
  op_query_tx_possible := Some (fun n => run_op (zephyr_query_tx_possible n));
|}.
Definition zephyr_session_ops : rzi_lorawan_session_ops zephyr_state := {|
  op_get_net_id := None;
  op_get_dev_nonce := run_get zephyr_get_dev_nonce;
  op_set_dev_nonce := Some (fun n => run_op (zephyr_set_dev_nonce n));
  op_get_dev_addr := run_get zephyr_get_dev_addr;
  op_get_nwk_skey := run_get zephyr_get_nwk_skey;
  op_get_app_skey := run_get zephyr_get_app_skey;
|}.
Definition zephyr_mac_ops : rzi_lorawan_mac_ops zephyr_state := {|
  op_request_link_check := Some (run_op zephyr_link_check_request);
  op_request_device_time := Some (run_op zephyr_device_time_request);
  op_get_network_time := run_get zephyr_get_network_time;
|}.
Definition zephyr_fuota_ops : rzi_lorawan_fuota_ops zephyr_state := {|
  op_start_clock_sync := Some (run_op zephyr_fuota_start_clock_sync);
  op_get_image_size := run_get zephyr_fuota_get_image_size;
  op_read_image := Some (fun o n => run_op (zephyr_fuota_read_image o n));
  op_reboot := Some (run_op zephyr_fuota_reboot);
|}.
Definition zephyr_backend_api : rzi_lorawan_backend_api zephyr_state := {|
  capabilities := ZEPHYR_CAPABILITIES;
  base := {|
    op_start region bypass := run_op (zephyr_start region bypass SERVICE_SINK);
    op_join config := run_op (zephyr_join config);
    op_leave := run_op zephyr_leave;
    op_send port data size type := run_op (zephyr_send port data size type);
    op_set_class c := run_op (zephyr_set_class c);
    op_get_class := run_get zephyr_get_class;
    op_is_joined cell := run_op (zephyr_is_joined cell);
    op_is_busy cell := run_op (zephyr_is_busy cell);
  |};
  network := Some zephyr_network_ops; class_b := None; session := Some zephyr_session_ops;
  mac := Some zephyr_mac_ops; multicast := None; certification := None;
  fuota := if CONFIG_RZI_LORAWAN_FUOTA then Some zephyr_fuota_ops else None;
|}.

Definition zephyr_lorawan : LorawanBackend :=
  {| backend_state := zephyr_state; rzi_lorawan_backend := zephyr_backend_api |}.
End backend.
