(* ===== verification/ZephyrWorker.v ===== *)
(** * The Zephyr backend at run time: callers, the worker thread, the stack's
    callbacks

    The operations of ZephyrBackend.v and the pieces of the worker's handlers
    between two acquisitions of the mutex, as the steps of a system: what
    holds in every interleaving of them.  A worker item runs on one thread,
    [s_pc] is where that thread is; [s_submit] is a caller of [zephyr_send]
    between the unlock and the submission.  The lists of accepted and
    handed-over uplinks only record what happened. *)
From S2P Require Import Prelude Zephyr Err Power Storage LorawanSettings LorawanBackend LorawanCredentials ZephyrBackend.

Section system.
Context `{Errno} `{Kconfig} `{ZephyrBackendConfig} `{ZephyrLorawanOk} `{!WorkQueue} `{!WorkQueueOk}.

(** ** The system *)
(** Where the worker thread is: between items, inside lorawan_join, about to
    publish and return, inside lorawan_send, about to publish and return. *)
Inductive worker_pc : Type :=
| WIdle
| WJoin (config : lorawan_join_config)
| WJoinReport (event : option rzi_lorawan_backend_event)
| WSend (frame : tx_frame)
| WSendReport (event : rzi_lorawan_backend_event).
Record system : Type := System {
  s_b : zephyr_state; s_pc : worker_pc; s_submit : bool;
  s_accepted : list tx_frame; s_handed : list tx_frame;
}.

(** Every operation of the tables but start and send. *)
Inductive zop : Type :=
| OJoin (config : rzi_lorawan_join_config) | OLeave | OSetClass (c : Z) | OGetClass (cell : Z)
| OIsJoined (cell : bool) | OIsBusy (cell : bool) | OGetAdr (cell : bool) | OSetAdr (e : bool)
| OGetDataRate (cell : Z) | OSetDataRate (v : Z) | OGetRates (cell : Z) | OQueryTx (n : Z)
| OGetDevNonce (cell : Z) | OSetDevNonce (n : Z) | OGetDevAddr (cell : Z)
| OGetNwkSkey (cell : list Z) | OGetAppSkey (cell : list Z)
| OLinkCheck | ODeviceTime | OGetTime (cell : rzi_lorawan_network_time)
| OClockSync | OReadImage (offset size : Z) | OReboot.
Definition run_zop (o : zop) : M zephyr_state unit :=
  match o with
  | OJoin c => ignore (zephyr_join c)
  | OLeave => ignore zephyr_leave
  | OSetClass c => ignore (zephyr_set_class c)
  | OGetClass c => ignore (zephyr_get_class c)
  | OIsJoined c => ignore (zephyr_is_joined c)
  | OIsBusy c => ignore (zephyr_is_busy c)
  | OGetAdr c => ignore (zephyr_get_adr c)
  | OSetAdr e => ignore (zephyr_set_adr e)
  | OGetDataRate c => ignore (zephyr_get_data_rate c)
  | OSetDataRate v => ignore (zephyr_set_data_rate v)
  | OGetRates c => ignore (zephyr_get_enabled_data_rates c)
  | OQueryTx n => ignore (zephyr_query_tx_possible n)
  | OGetDevNonce c => ignore (zephyr_get_dev_nonce c)
  | OSetDevNonce n => ignore (zephyr_set_dev_nonce n)
  | OGetDevAddr c => ignore (zephyr_get_dev_addr c)
  | OGetNwkSkey c => ignore (zephyr_get_nwk_skey c)
  | OGetAppSkey c => ignore (zephyr_get_app_skey c)
  | OLinkCheck => ignore zephyr_link_check_request
  | ODeviceTime => ignore zephyr_device_time_request
  | OGetTime c => ignore (zephyr_get_network_time c)
  | OClockSync => ignore zephyr_fuota_start_clock_sync
  | OReadImage o n => ignore (zephyr_fuota_read_image o n)
  | OReboot => ignore zephyr_fuota_reboot
  end.
(** The callbacks of the stack. *)
Inductive zcallback : Type :=
| CDownlink (port flags rssi snr len : Z) (data : option (list Z))
| CLinkCheck (margin gateways : Z) | CFragDescriptor | CFragFinished.
Definition run_zcallback (c : zcallback) : M zephyr_state unit :=
  match c with
  | CDownlink p f r s n d => on_downlink p f r s n d
  | CLinkCheck m g => on_link_check m g
  | CFragDescriptor => ignore frag_descriptor
  | CFragFinished => frag_finished
  end.

(** An uplink as the service hands it over. *)
Definition uplink_ok (data : option (list Z)) (size : Z) : Prop :=
  0 <= size <= RZI_LORAWAN_MAX_PAYLOAD /\ size <= zlen (default [] data).
Definition request_frame (port : Z) (data : option (list Z)) (size type : Z) : tx_frame :=
  TxFrame port (take (Z.to_nat size) (default [] data)) size type.

Definition jitem (b : zephyr_state) : item_state := item (zb_wq b) JOIN_WORK.
Definition sitem (b : zephyr_state) : item_state := item (zb_wq b) SEND_WORK.
Definition take_item (i : work_item) : M zephyr_state unit := worker (modify (worker_take i)).
Definition done_item (i : work_item) : M zephyr_state unit := worker (modify (worker_done i)).

(** *** The pieces of the handlers as calls that also say where the worker goes *)
Definition take_join : M zephyr_state worker_pc :=
  take_item JOIN_WORK ;;;
  let* config := join_begin in
  ret (match config with Some c => WJoin c | None => WJoinReport None end).
Definition join_return (config : lorawan_join_config) : M zephyr_state worker_pc :=
  let* rc := stack (lorawan_join config) in
  let* event := join_end rc in
  ret (WJoinReport event).
Definition join_done (event : option rzi_lorawan_backend_event) : M zephyr_state worker_pc :=
  report event ;;; done_item JOIN_WORK ;;; ret WIdle.
Definition take_send : M zephyr_state tx_frame := take_item SEND_WORK ;;; send_begin.
Definition send_return (f : tx_frame) : M zephyr_state worker_pc :=
  let* rc := call_send f in
  zput (z_set_tx_pending false) ;;;
  ret (WSendReport (send_event (f_type f) rc)).
Definition send_done (event : rzi_lorawan_backend_event) : M zephyr_state worker_pc :=
  zephyr_publish event ;;; done_item SEND_WORK ;;; ret WIdle.
Definition poll_item : M zephyr_state unit :=
  take_item CLOCK_POLL_WORK ;;; clock_poll_handler ;;; done_item CLOCK_POLL_WORK.

(** Steps of the worker thread, and of the caller that has a submission to make. *)
Inductive worker_step : system -> system -> Prop :=
| step_submit b pc acc han :
    worker_step (System b pc true acc han) (System (send_submit b).2 pc false acc han)
| step_take_join b sub acc han : it_queued (jitem b) = true ->
    worker_step (System b WIdle sub acc han)
      (System (take_join b).2 (take_join b).1 sub acc han)
| step_join_return b c sub acc han :
    worker_step (System b (WJoin c) sub acc han)
      (System (join_return c b).2 (join_return c b).1 sub acc han)
| step_join_done b e sub acc han :
    worker_step (System b (WJoinReport e) sub acc han)
      (System (join_done e b).2 (join_done e b).1 sub acc han)
| step_take_send b sub acc han : it_queued (sitem b) = true ->
    worker_step (System b WIdle sub acc han)
      (System (take_send b).2 (WSend (take_send b).1) sub acc (han ++ [(take_send b).1]))
| step_send_return b f sub acc han :
    worker_step (System b (WSend f) sub acc han)
      (System (send_return f b).2 (send_return f b).1 sub acc han)
| step_send_done b e sub acc han :
    worker_step (System b (WSendReport e) sub acc han)
      (System (send_done e b).2 (send_done e b).1 sub acc han)
| step_poll b sub acc han : it_queued (item (zb_wq b) CLOCK_POLL_WORK) = true ->
    worker_step (System b WIdle sub acc han) (System (poll_item b).2 WIdle sub acc han).
(** Steps of the other threads. *)
Inductive caller_step : option zop -> system -> system -> Prop :=
| step_op o b pc sub acc han :
    caller_step (Some o) (System b pc sub acc han) (System (run_zop o b).2 pc sub acc han)
| step_callback c b pc sub acc han :
    caller_step None (System b pc sub acc han) (System (run_zcallback c b).2 pc sub acc han)
| step_accept port data size type b pc sub acc han : uplink_ok data size ->
    let accepted := (send_accept port data size type b).1 =? 0 in
    caller_step None (System b pc sub acc han)
      (System (send_accept port data size type b).2 pc (sub || accepted)
         (if accepted then acc ++ [request_frame port data size type] else acc) han).
Definition zstep (s s' : system) : Prop := worker_step s s' \/ exists o, caller_step o s s'.

(** After [zephyr_start] succeeded; what is below and earlier events are arbitrary. *)
Inductive zstarted : system -> Prop :=
| zstarted_intro region bypass sink u0 f0 l0 q0 e0 :
    let b0 := ZephyrState zephyr_vars_init f0 u0 l0 q0 e0 in
    e0 = [] -> (zephyr_start region bypass sink b0).1 = 0 ->
    zstarted (System (zephyr_start region bypass sink b0).2 WIdle false [] []).
Definition zreachable (s : system) : Prop := exists s0, zstarted s0 /\ rtc zstep s0 s.

(** ** What matters of a state: the flags, the uplink that waits, the two work
    items and the number of uplinks reported. *)
Definition is_tx_done (e : rzi_lorawan_backend_event) : bool :=
  match e with BACKEND_TX_DONE _ _ => true | _ => false end.
Definition tx_done_count (l : list rzi_lorawan_backend_event) : nat :=
  length (List.filter is_tx_done l).
#[local] Arguments tx_done_count : simpl never.
#[local] Arguments overlay : simpl never.
Definition pending_frame (v : zephyr_vars) : tx_frame :=
  TxFrame (z_tx_port v) (take (Z.to_nat (z_tx_size v)) (z_tx_data v)) (z_tx_size v) (z_tx_type v).
Record view : Type := View {
  v_started : bool; v_joined : bool; v_pending : bool; v_stop : bool; v_tx : bool;
  v_frame : tx_frame; v_room : nat; v_join : item_state; v_send : item_state; v_done : nat;
}.
Definition vview (v : zephyr_vars) (j s : item_state) (n : nat) : view :=
  View (z_started v) (z_joined v) (z_join_pending v) (z_join_stop v) (z_tx_pending v)
    (pending_frame v) (length (z_tx_data v)) j s n.
Definition view_of (b : zephyr_state) : view :=
  vview (zb_vars b) (jitem b) (sitem b) (tx_done_count (zb_events b)).

(** *** Most calls leave it alone *)
Lemma tx_done_count_app l l' : tx_done_count (l ++ l') = (tx_done_count l + tx_done_count l')%nat.
Proof. unfold tx_done_count. by rewrite List.filter_app, length_app. Qed.
Lemma zput_view f : (forall v j s n, vview (f v) j s n = vview v j s n) -> keeps view_of (zput f).
Proof. intros Hf. apply respects_modify. intros b. apply Hf. Qed.
Lemma zget_view {A} (f : zephyr_vars -> A) : keeps view_of (zget f).
Proof. by apply respects_gets, _. Qed.
Lemma fget_view {A} (f : zephyr_features -> A) : keeps view_of (fget f).
Proof. by apply respects_gets, _. Qed.
Lemma uget_view {A} (f : zephyr_fuota_vars -> A) : keeps view_of (uget f).
Proof. by apply respects_gets, _. Qed.
Lemma fput_view f : keeps view_of (fput f).
Proof. by apply respects_modify. Qed.
Lemma uput_view f : keeps view_of (uput f).
Proof. by apply respects_modify. Qed.
Lemma stack_view {A} (m : M lw A) : keeps view_of (stack m).
Proof. by apply respects_zoom. Qed.
Lemma worker_view {A} (m : M wq A) :
  (forall q i, i <> CLOCK_POLL_WORK -> item (m q).2 i = item q i) -> keeps view_of (worker m).
Proof.
  intros Hm. apply respects_zoom. intros b. unfold same, view_of, jitem, sitem. cbn.
  by rewrite !Hm.
Qed.
Lemma poll_schedule_view t : keeps view_of (worker (k_work_schedule_for_queue CLOCK_POLL_WORK t)).
Proof. apply worker_view. intros q i Hi. by rewrite item_schedule, decide_False. Qed.
Lemma publish_view e : is_tx_done e = false -> keeps view_of (zephyr_publish e).
Proof.
  intros He. apply respects_modify. intros b. unfold same, view_of. cbn.
  rewrite tx_done_count_app. unfold tx_done_count at 2. cbn. by rewrite He, Nat.add_0_r.
Qed.
Lemma when_view c m : keeps view_of m -> keeps view_of (when c m).
Proof. intros. destruct c; [done|]. by apply respects_ret, _. Qed.
Lemma ignore_view {A} (m : M zephyr_state A) : keeps view_of m -> keeps view_of (ignore m).
Proof. intros. unfold ignore. frame; auto. Qed.
#[local] Hint Resolve zget_view fget_view uget_view fput_view uput_view stack_view
  poll_schedule_view when_view ignore_view : frame.
#[local] Hint Extern 2 (keeps view_of (zephyr_publish _)) => by apply publish_view : frame.
#[local] Hint Extern 2 (keeps view_of (zput _)) => by apply zput_view : frame.
Ltac quiet := repeat (frame_step || apply when_view || apply ignore_view).

Lemma locked_get_view {A} (m : M zephyr_state A) cell : keeps view_of m -> keeps view_of (locked_get m cell).
Proof. intros. unfold locked_get, rzi_lorawan_zephyr_lock_started. quiet. Qed.
#[local] Hint Resolve locked_get_view : frame.

(** Every operation but join, leave and send, and every callback, does. *)
Definition moves_session (o : zop) : bool := match o with OJoin _ | OLeave => true | _ => false end.
Lemma quiet_ops o : moves_session o = false -> keeps view_of (run_zop o).
Proof.
  intros Ho. destruct o; try done; cbn [run_zop]; apply ignore_view;
    unfold zephyr_set_class, rzi_lorawan_zephyr_set_class, zephyr_get_class, zephyr_is_joined,
      zephyr_is_busy, rzi_lorawan_zephyr_busy, zephyr_get_adr, zephyr_set_adr, zephyr_get_data_rate,
      zephyr_set_data_rate, zephyr_get_enabled_data_rates, zephyr_query_tx_possible,
      zephyr_get_dev_nonce, zephyr_set_dev_nonce, rzi_lorawan_zephyr_set_dev_nonce,
      zephyr_get_dev_addr, zephyr_get_nwk_skey, zephyr_get_app_skey, rzi_lorawan_zephyr_mib_dev_addr,
      rzi_lorawan_zephyr_mib_nwk_skey, rzi_lorawan_zephyr_mib_app_skey, copy_session_key,
      zephyr_link_check_request, zephyr_device_time_request, zephyr_get_network_time,
      zephyr_fuota_start_clock_sync, zephyr_fuota_read_image, zephyr_fuota_reboot,
      rzi_lorawan_zephyr_lock_started; quiet.
Qed.
Lemma quiet_callbacks c : keeps view_of (run_zcallback c).
Proof.
  destruct c; cbn [run_zcallback]; unfold on_downlink, on_link_check, frag_descriptor, frag_finished;
    quiet.
Qed.

(** *** The calls that move it *)
Definition with_join (p st : bool) (j : item_state) (v : view) : view :=
  View (v_started v) (v_joined v) p st (v_tx v) (v_frame v) (v_room v) j (v_send v) (v_done v).
Definition with_send (tx : bool) (f : tx_frame) (s : item_state) (n : nat) (v : view) : view :=
  View (v_started v) (v_joined v) (v_pending v) (v_stop v) tx f (v_room v) (v_join v) s n.
Definition with_joined (x : bool) (v : view) : view :=
  View (v_started v) x (v_pending v) (v_stop v) (v_tx v) (v_frame v) (v_room v) (v_join v) (v_send v) (v_done v).
Definition view_join (v : view) : view := with_join true false (item_push (v_join v)) v.
Definition view_leave (v : view) : view :=
  if v_pending v then with_join (it_running (v_join v)) true (item_cancel (v_join v)) v else v.
Definition view_accept (f : tx_frame) (v : view) : view := with_send true f (v_send v) (v_done v) v.
Definition view_submit (v : view) : view :=
  with_send (v_tx v) (v_frame v) (item_push (v_send v)) (v_done v) v.
Definition view_take_join (v : view) : view :=
  with_join (v_pending v && negb (v_stop v)) (v_stop v) (item_take (v_join v)) v.
Definition view_join_return (ok : bool) (v : view) : view :=
  with_joined ok (if ok || v_stop v then with_join false (v_stop v) (v_join v) v
                  else with_join (v_pending v) (v_stop v) (item_push (v_join v)) v).
Definition view_join_done (v : view) : view :=
  with_join (v_pending v) (v_stop v) (item_done (v_join v)) v.
Definition view_take_send (v : view) : view :=
  with_send (v_tx v) (v_frame v) (item_take (v_send v)) (v_done v) v.
Definition view_send_return (v : view) : view := with_send false (v_frame v) (v_send v) (v_done v) v.
Definition view_send_done (v : view) : view :=
  with_send (v_tx v) (v_frame v) (item_done (v_send v)) (S (v_done v)) v.

Lemma mask_view config : keeps view_of (apply_channel_mask config).
Proof. unfold apply_channel_mask, rzi_lorawan_zephyr_mib_set_channels. quiet. Qed.
Lemma mask_vars config b : zb_vars (apply_channel_mask config b).2 = zb_vars b.
Proof.
  revert b. change (keeps zb_vars (apply_channel_mask config)).
  unfold apply_channel_mask, rzi_lorawan_zephyr_mib_set_channels.
  assert (forall A (m : M lw A), keeps zb_vars (stack m)) by (intros; by apply respects_zoom).
  frame; auto. unfold zget. by apply respects_gets, _.
Qed.

Ltac zrun :=
  cbv [bind ret gets modify zoom zput zget worker stack ignore when id];
  cbn [fst snd zb_vars zb_wq zb_lw zb_events set_zb_vars set_zb_wq set_zb_lw set_zb_events].
(** What a join request does, by the state it meets. *)
Definition join_recorded (config : rzi_lorawan_join_config) (b : zephyr_state) : zephyr_state :=
  let b := set_zb_vars (z_set_join_stop false (z_set_join_pending true
             (z_set_join_settings config (zb_vars b)))) b in
  set_zb_wq (k_work_schedule_for_queue JOIN_WORK K_NO_WAIT (zb_wq b)).2 b.
Lemma zephyr_join_eq config b : zephyr_join config b =
  if negb (z_started (zb_vars b)) then (- RZI_ERR_NOT_READY, b)
  else if z_join_pending (zb_vars b) || z_tx_pending (zb_vars b) then (- RZI_ERR_BUSY, b)
  else let m := apply_channel_mask config b in
       (m.1, if m.1 =? 0 then join_recorded config m.2 else m.2).
Proof.
  unfold zephyr_join, bind at 1 2, zget at 1, gets, id.
  destruct (z_started (zb_vars b)); cbn [negb]; [|done].
  destruct (z_join_pending (zb_vars b) || z_tx_pending (zb_vars b)); [done|].
  destruct (apply_channel_mask config b) as [rc b1]. cbn [fst snd]. unfold bind at 1.
  destruct (rc =? 0); cbn [when]; [|done]. unfold join_recorded. zrun.
  by destruct (k_work_schedule_for_queue JOIN_WORK K_NO_WAIT (zb_wq b1)).
Qed.
Lemma zephyr_join_view config b :
  ((zephyr_join config b).1 <> 0 /\ view_of (zephyr_join config b).2 = view_of b) \/
  ((zephyr_join config b).1 = 0 /\ v_started (view_of b) = true /\ v_pending (view_of b) = false /\
   v_tx (view_of b) = false /\ view_of (zephyr_join config b).2 = view_join (view_of b) /\
   z_join_settings (zb_vars (zephyr_join config b).2) = config).
Proof.
  rewrite zephyr_join_eq. cbn [view_of vview v_started v_pending v_tx].
  destruct (z_started (zb_vars b)) eqn:Es; cbn [negb]; [|by left].
  destruct (z_join_pending (zb_vars b)) eqn:Ep; cbn [orb]; [by left|].
  destruct (z_tx_pending (zb_vars b)) eqn:Et; [by left|].
  pose proof (mask_view config b) as Hv. pose proof (mask_vars config b) as Hz.
  destruct (apply_channel_mask config b) as [rc b1]. cbn [fst snd] in *. unfold same in Hv.
  destruct (Z.eqb_spec rc 0) as [->|Hrc]; [right|by left].
  split_and!; try done. rewrite <- Hv. unfold view_of, view_join, with_join, jitem, sitem, vview. cbn.
  by rewrite !item_schedule.
Qed.

Lemma zephyr_leave_eq b : zephyr_leave b =
  if z_join_pending (zb_vars b) then
    let q := k_work_cancel_delayable JOIN_WORK (zb_wq b) in
    (0, set_zb_wq q.2 (set_zb_vars
          (z_set_join_pending (negb (q.1 =? 0)) (z_set_join_stop true (zb_vars b))) b))
  else (- RZI_ERR_NOT_SUPPORTED, b).
Proof.
  unfold zephyr_leave, bind at 1, zget, gets. destruct (z_join_pending (zb_vars b)) eqn:Ep; [|done].
  zrun. destruct (k_work_cancel_delayable JOIN_WORK (zb_wq b)) as [rc q]. cbn.
  unfold z_set_join_pending, z_set_join_stop. destruct (rc =? 0); cbn; by rewrite ?Ep.
Qed.
Lemma zephyr_leave_view b : view_of (zephyr_leave b).2 = view_leave (view_of b).
Proof.
  rewrite zephyr_leave_eq. unfold view_leave. cbn [view_of vview v_pending].
  destruct (z_join_pending (zb_vars b)); [|done]. cbn [snd].
  pose proof (cancel_rc JOIN_WORK (zb_wq b)) as Hc.
  unfold view_of, with_join, jitem, sitem, vview. cbn. rewrite !item_cancelled. cbn. f_equal.
  destruct (Z.eqb_spec (k_work_cancel_delayable JOIN_WORK (zb_wq b)).1 0) as [E|E].
  - symmetry. by apply Hc.
  - symmetry. apply not_false_is_true. intros Er. by apply E, Hc.
Qed.

(** The variables of an accepted uplink. *)
Lemma send_accept_eq port data size type b : send_accept port data size type b =
  let v := zb_vars b in
  if negb (z_started v) then (- RZI_ERR_NOT_READY, b)
  else if negb (z_joined v) then (- RZI_ERR_NOT_JOINED, b)
  else if z_join_pending v || z_tx_pending v then (- RZI_ERR_BUSY, b)
  else
    (0, set_zb_vars
      (let v := z_set_tx_type type (z_set_tx_size (u8 size) (z_set_tx_port port v)) in
       z_set_tx_pending true
         (if 0 <? size
          then z_set_tx_data (overlay (z_tx_data v) 0 (take (Z.to_nat size) (default [] data))) v
          else v)) b).
Proof.
  unfold send_accept, bind at 1, zget, gets, id.
  destruct (z_started _), (z_joined _), (z_join_pending _ || z_tx_pending _); cbn [negb]; try done.
  zrun. by destruct (0 <? size).
Qed.
Lemma take_overlay (dst src : list Z) n : length src = n -> take n (overlay dst 0 src) = src.
Proof. intros <-. unfold overlay. change (take 0 dst) with (@nil Z). rewrite app_nil_l. apply take_app_length. Qed.
Lemma send_accept_view port data size type b : uplink_ok data size ->
  length (z_tx_data (zb_vars b)) = Z.to_nat RZI_LORAWAN_MAX_PAYLOAD ->
  ((send_accept port data size type b).1 <> 0 /\
   view_of (send_accept port data size type b).2 = view_of b) \/
  ((send_accept port data size type b).1 = 0 /\ v_started (view_of b) = true /\
   v_joined (view_of b) = true /\ v_pending (view_of b) = false /\ v_tx (view_of b) = false /\
   view_of (send_accept port data size type b).2 =
     view_accept (request_frame port data size type) (view_of b)).
Proof.
  intros [Hs Hd] Hroom. rewrite send_accept_eq. cbn [view_of vview v_started v_pending v_tx v_joined].
  destruct (z_started (zb_vars b)) eqn:Es; cbn [negb]; [|by left].
  destruct (z_joined (zb_vars b)) eqn:Ej; cbn [negb]; [|by left].
  destruct (z_join_pending (zb_vars b)) eqn:Ep; cbn [orb]; [by left|].
  destruct (z_tx_pending (zb_vars b)) eqn:Et; [by left|]. right. split_and!; try done.
  assert (Hu : u8 size = size) by (unfold u8; rewrite Z.mod_small; lia).
  assert (Hn : length (take (Z.to_nat size) (default [] data)) = Z.to_nat size).
  { rewrite length_take. unfold zlen in Hd. lia. }
  unfold view_of, view_accept, with_send, jitem, sitem, vview, pending_frame, request_frame.
  cbn. rewrite Hu. destruct (Z.ltb_spec 0 size) as [Hp|Hp]; cbn.
  - rewrite take_overlay, length_overlay by (try done; lia). done.
  - assert (size = 0) as -> by lia. by rewrite !take_0.
Qed.

Lemma send_submit_view b : view_of (send_submit b).2 = view_submit (view_of b).
Proof.
  unfold send_submit. zrun. destruct (k_work_submit_to_queue SEND_WORK (zb_wq b)) as [rc q] eqn:E. cbn.
  pose proof (item_submit SEND_WORK JOIN_WORK (zb_wq b)) as Hj.
  pose proof (item_submit SEND_WORK SEND_WORK (zb_wq b)) as Hs. rewrite E in Hj, Hs. cbn in Hj, Hs.
  unfold view_of, view_submit, with_send, jitem, sitem, vview. cbn. by rewrite Hj, Hs.
Qed.

(** The worker's side: a queue call of the kernel moves one item. *)
Lemma take_item_view i b : view_of (take_item i b).2 =
  vview (zb_vars b) (if decide (JOIN_WORK = i) then item_take (jitem b) else jitem b)
    (if decide (SEND_WORK = i) then item_take (sitem b) else sitem b) (tx_done_count (zb_events b)).
Proof. unfold view_of, jitem, sitem. cbn. rewrite !item_taken. by destruct i. Qed.
Lemma done_item_view i b : view_of (done_item i b).2 =
  vview (zb_vars b) (if decide (JOIN_WORK = i) then item_done (jitem b) else jitem b)
    (if decide (SEND_WORK = i) then item_done (sitem b) else sitem b) (tx_done_count (zb_events b)).
Proof. unfold view_of, jitem, sitem. cbn. rewrite !item_finished. by destruct i. Qed.

Lemma fill_join_view : keeps view_of fill_zephyr_join.
Proof. unfold fill_zephyr_join. quiet. Qed.
Lemma join_begin_eq b : join_begin b =
  if z_join_stop (zb_vars b) then (None, set_zb_vars (z_set_join_pending false (zb_vars b)) b)
  else (Some (fill_zephyr_join b).1, (fill_zephyr_join b).2).
Proof.
  unfold join_begin, bind at 1, zget, gets. destruct (z_join_stop (zb_vars b)); [done|].
  unfold bind at 1. by destruct (fill_zephyr_join b).
Qed.
Lemma take_join_eq b : let r := join_begin (take_item JOIN_WORK b).2 in
  take_join b = (match r.1 with Some c => WJoin c | None => WJoinReport None end, r.2).
Proof.
  cbn zeta. unfold take_join. set (b1 := (take_item JOIN_WORK b).2). unfold bind at 1.
  change (take_item JOIN_WORK b) with (tt, b1). unfold bind at 1. by destruct (join_begin b1).
Qed.
Lemma take_join_view b :
  view_of (take_join b).2 = view_take_join (view_of b) /\
  (if v_stop (view_of b) then (take_join b).1 = WJoinReport None
   else exists c, (take_join b).1 = WJoin c).
Proof.
  rewrite take_join_eq, join_begin_eq. pose proof (take_item_view JOIN_WORK b) as Ht.
  set (b1 := (take_item JOIN_WORK b).2) in *. change (zb_vars b1) with (zb_vars b).
  cbn [view_of vview v_stop]. unfold view_take_join, with_join.
  destruct (z_join_stop (zb_vars b)) eqn:Es; cbn [fst snd vview view_of v_stop v_pending].
  - split; [|done]. revert Ht. unfold view_of, vview, jitem, sitem. cbn. intros [= -> ->].
    by rewrite Es, andb_false_r.
  - split; [|by eauto]. etransitivity; [apply (fill_join_view b1)|]. rewrite Ht.
    unfold vview. cbn. by rewrite Es, andb_true_r.
Qed.

Lemma take_join_events b : zb_events (take_join b).2 = zb_events b.
Proof.
  rewrite take_join_eq, join_begin_eq.
  assert (Hk : keeps zb_events fill_zephyr_join).
  { unfold fill_zephyr_join, zget, zput.
    frame; (apply respects_gets, _ || by apply respects_modify). }
  destruct (z_join_stop _); [done|]. apply (Hk (take_item JOIN_WORK b).2).
Qed.
Definition join_event (stopped : bool) (rc : Z) : option rzi_lorawan_backend_event :=
  if stopped && negb (rc =? 0) then None
  else Some (if rc =? 0 then BACKEND_JOINED else BACKEND_JOIN_FAILED (rzi_lorawan_zephyr_err rc)).
Definition retry_delay (v : zephyr_vars) : k_timeout := K_SECONDS (j_retry_interval_s (z_join_settings v)).
Lemma join_end_eq rc b : join_end rc b =
  let v := z_set_joined (rc =? 0) (zb_vars b) in
  (join_event (z_join_stop (zb_vars b)) rc,
   if (rc =? 0) || z_join_stop (zb_vars b) then set_zb_vars (z_set_join_pending false v) b
   else set_zb_wq (k_work_schedule_for_queue JOIN_WORK (retry_delay v) (zb_wq b)).2 (set_zb_vars v b)).
Proof.
  unfold join_end, bind at 1, zget at 1, gets. unfold bind at 1, zput at 1, modify.
  destruct ((rc =? 0) || z_join_stop (zb_vars b)); [done|]. zrun.
  change (j_retry_interval_s _) with (j_retry_interval_s (z_join_settings (z_set_joined (rc =? 0) (zb_vars b)))).
  by destruct (k_work_schedule_for_queue JOIN_WORK _ _).
Qed.
Lemma join_end_view rc b :
  view_of (join_end rc b).2 = view_join_return (rc =? 0) (view_of b) /\
  (join_end rc b).1 = join_event (v_stop (view_of b)) rc /\
  zb_events (join_end rc b).2 = zb_events b.
Proof.
  rewrite join_end_eq. unfold view_join_return. cbn [view_of vview v_stop fst snd].
  destruct ((rc =? 0) || z_join_stop (zb_vars b)); [done|]. split_and!; try done.
  unfold view_of, with_join, with_joined, jitem, sitem, vview. cbn. by rewrite !item_schedule.
Qed.
Lemma join_return_eq c b :
  let r := lorawan_join c (zb_lw b) in let e := join_end r.1 (set_zb_lw r.2 b) in
  join_return c b = (WJoinReport e.1, e.2).
Proof.
  cbn zeta. unfold join_return, bind at 1, stack, zoom.
  destruct (lorawan_join c (zb_lw b)) as [rc l]. unfold bind at 1. cbn [fst snd].
  by destruct (join_end rc (set_zb_lw l b)).
Qed.
Lemma join_return_view c b :
  let rc := (lorawan_join c (zb_lw b)).1 in
  view_of (join_return c b).2 = view_join_return (rc =? 0) (view_of b) /\
  (join_return c b).1 = WJoinReport (join_event (v_stop (view_of b)) rc) /\
  zb_events (join_return c b).2 = zb_events b.
Proof.
  cbn zeta. rewrite join_return_eq. destruct (lorawan_join c (zb_lw b)) as [rc l].
  destruct (join_end_view rc (set_zb_lw l b)) as (Hv & He & Hz). cbn [fst snd].
  by rewrite Hv, He, Hz.
Qed.
Lemma join_done_view e b : match e with Some e => is_tx_done e = false | None => True end ->
  view_of (join_done e b).2 = view_join_done (view_of b) /\ (join_done e b).1 = WIdle.
Proof.
  intros He. unfold join_done. split; [|by destruct e].
  assert (Hr : view_of (report e b).2 = view_of b).
  { destruct e; [|done]. apply (publish_view _ He b). }
  unfold bind at 1. destruct (report e b) as [x b1]. cbn [snd] in Hr.
  change (view_of ((done_item JOIN_WORK;;; ret WIdle) b1).2) with (view_of (done_item JOIN_WORK b1).2).
  rewrite done_item_view. cbn [decide]. rewrite <- Hr. done.
Qed.
Lemma take_send_view b : view_of (take_send b).2 = view_take_send (view_of b) /\
  (take_send b).1 = v_frame (view_of b).
Proof.
  split; [|done]. change (take_send b).2 with (take_item SEND_WORK b).2. by rewrite take_item_view.
Qed.
Lemma call_send_frame f b :
  view_of (call_send f b).2 = view_of b /\ zb_events (call_send f b).2 = zb_events b.
Proof. unfold call_send, stack, zoom. by destruct (lorawan_send _ _ _ _ _). Qed.
Lemma send_return_eq f b : let r := call_send f b in
  send_return f b = (WSendReport (send_event (f_type f) r.1),
                     set_zb_vars (z_set_tx_pending false (zb_vars r.2)) r.2).
Proof. cbn zeta. unfold send_return, bind at 1. by destruct (call_send f b). Qed.
Lemma send_return_view f b : let rc := (call_send f b).1 in
  view_of (send_return f b).2 = view_send_return (view_of b) /\
  (send_return f b).1 = WSendReport (send_event (f_type f) rc) /\
  zb_events (send_return f b).2 = zb_events b.
Proof.
  cbn zeta. rewrite send_return_eq. destruct (call_send_frame f b) as [<- <-].
  by destruct (call_send f b).
Qed.
Lemma send_event_done t rc : is_tx_done (send_event t rc) = true.
Proof. unfold send_event. by repeat case_match. Qed.
Lemma send_done_view e b : is_tx_done e = true ->
  view_of (send_done e b).2 = view_send_done (view_of b) /\ (send_done e b).1 = WIdle /\
  zb_events (send_done e b).2 = zb_events b ++ [e].
Proof.
  intros He. split_and!; try done.
  change (view_of (send_done e b).2) with (view_of (done_item SEND_WORK (zephyr_publish e b).2).2).
  rewrite done_item_view. cbn [decide].
  unfold view_of, view_send_done, with_send, jitem, sitem, vview. cbn.
  rewrite tx_done_count_app. unfold tx_done_count at 2. cbn. rewrite He, Nat.add_1_r. done.
Qed.
Lemma poll_item_view : keeps view_of poll_item.
Proof.
  unfold poll_item, take_item, done_item, clock_poll_handler. quiet.
  all: apply worker_view; intros q i Hi; cbn; by rewrite ?item_taken, ?item_finished, decide_False.
Qed.

(** ** The invariant of every interleaving *)
Definition on_join (pc : worker_pc) : bool := match pc with WJoin _ | WJoinReport _ => true | _ => false end.
Definition on_send (pc : worker_pc) : bool := match pc with WSend _ | WSendReport _ => true | _ => false end.
Definition joining (pc : worker_pc) : bool := match pc with WJoin _ => true | _ => false end.
Definition sending (pc : worker_pc) : bool := match pc with WSend _ => true | _ => false end.
Definition report_ok (pc : worker_pc) : Prop :=
  match pc with
  | WJoinReport (Some e) => is_tx_done e = false
  | WSendReport e => is_tx_done e = true
  | _ => True
  end.
Record zinv_of (v : view) (pc : worker_pc) (sub : bool) (acc han : list tx_frame) : Prop := {
  i_started : v_started v = true;
  i_room : v_room v = Z.to_nat RZI_LORAWAN_MAX_PAYLOAD;
  (* the worker runs the item it took *)
  i_join_running : it_running (v_join v) = on_join pc;
  i_send_running : it_running (v_send v) = on_send pc;
  i_join_canceling : it_canceling (v_join v) = true -> on_join pc = true;
  i_send_canceling : it_canceling (v_send v) = false;
  i_report : report_ok pc;
  (* a join sequence owns the join item, an uplink excludes it *)
  i_join_owned : it_queued (v_join v) || joining pc = true -> v_pending v = true;
  i_join_once : joining pc && it_queued (v_join v) = false;
  i_join_stopped : joining pc && it_canceling (v_join v) = true -> v_stop v = true;
  i_exclusive : v_pending v && v_tx v = false;
  (* one uplink at a time, in one place *)
  i_tx : (Nat.b2n sub + Nat.b2n (it_queued (v_send v)) + Nat.b2n (sending pc) = Nat.b2n (v_tx v))%nat;
  i_frames : acc = han ++ (if sub || it_queued (v_send v) then [v_frame v] else []);
  i_done : (v_done v + Nat.b2n (on_send pc) = length han)%nat;
  i_sending : match pc with WSend f => last han = Some f | _ => True end;
}.
Definition zinv (s : system) : Prop :=
  zinv_of (view_of (s_b s)) (s_pc s) (s_submit s) (s_accepted s) (s_handed s).

(** Case analysis on the flags of a state that satisfies the invariant. *)
Ltac inv_view v :=
  destruct v as [vs vj vp vst vt vf vr [jq jr jc] [sq sr sc] vd].
Ltac inv_crush :=
  cbn in *; simplify_eq; split; cbn in *; repeat case_match; simplify_eq/=; auto; try lia; try done.

(** A negative error number never becomes success. *)
Lemma zephyr_err_zero rc : rc <= 0 -> rzi_lorawan_zephyr_err rc = 0 -> rc = 0.
Proof.
  intros Hr. unfold rzi_lorawan_zephyr_err, rzi_err_from_errno. case_match; [done|].
  destruct (Z.leb_spec 0 rc); [lia|]. case_match; [lia|]. unfold errno_switch. by repeat case_match.
Qed.
(** What a successful start leaves. *)
Definition started_from (region sink : Z) (b : zephyr_state) (rc : Z) (b' : zephyr_state) : Prop :=
  rc = 0 ->
  zb_vars b' = z_set_joined false (z_set_started true
    (z_set_current_region region (z_set_event_sink sink (zb_vars b)))) /\
  zb_wq b' = k_work_init (zb_wq b) /\ zb_events b' = zb_events b ++ [BACKEND_READY].
Lemma wp_stack {A} (m : M lw A) Q b :
  (forall a l, m (zb_lw b) = (a, l) -> Q a (set_zb_lw l b)) -> wp (stack m) Q b.
Proof. intros Hq. unfold wp, stack, zoom. destruct (m (zb_lw b)) eqn:E. by apply Hq. Qed.
Lemma zephyr_start_ok region bypass sink b :
  started_from region sink b (zephyr_start region bypass sink b).1 (zephyr_start region bypass sink b).2.
Proof.
  change (wp (zephyr_start region bypass sink) (started_from region sink b) b). unfold zephyr_start.
  destruct (map_region region) as [selected|]; [|done]. destruct (sink =? 0); [done|].
  apply wp_bind, wp_gets. case_match; [done|].
  do 2 apply wp_bind, wp_modify. apply wp_bind. unfold apply_region.
  assert (Hstart : forall b1, zb_vars b1 = z_set_current_region region (z_set_event_sink sink (zb_vars b)) ->
    zb_wq b1 = zb_wq b -> zb_events b1 = zb_events b ->
    wp (rc* rc := stack lorawan_start else rzi_lorawan_zephyr_err rc in
        stack lorawan_register_downlink_callback ;;;
        when (negb CONFIG_LORAWAN_EMUL) (stack lorawan_register_link_check_ans_callback) ;;;
        worker (modify k_work_init) ;;; zput (z_set_started true) ;;; zput (z_set_joined false) ;;;
        zephyr_publish BACKEND_READY ;;; ret 0) (started_from region sink b) b1).
  { intros b1 Hv Hw He. apply wp_bind, wp_stack. intros rc l El.
    destruct (Z.eqb_spec rc 0) as [->|Hr].
    2:{ intros E. pose proof (lorawan_start_rc (zb_lw b1)) as Hs. rewrite El in Hs. cbn in Hs.
        by apply zephyr_err_zero in E. }
    apply wp_bind, wp_stack. intros _ l1 _. apply wp_bind.
    destruct (negb CONFIG_LORAWAN_EMUL); [apply wp_stack; intros _ l2 _|apply wp_ret];
      intros _; cbn; by rewrite Hv, Hw, He. }
  case_match; [by apply wp_ret, Hstart|]. apply wp_stack. intros rc l El.
  destruct (Z.eqb_spec rc 0) as [->|Hr]; [by apply Hstart|].
  intros E. apply zephyr_err_zero in E; [done|].
  pose proof (lorawan_set_region_rc selected (zb_lw (set_zb_vars
    (z_set_current_region region (z_set_event_sink sink (zb_vars b))) b))) as Hs.
  revert Hs. cbn in El |- *. by rewrite El.
Qed.

Lemma started_inv s : zstarted s -> zinv s.
Proof.
  intros [region bypass sink u f l q e b0 -> Hs]. subst b0. apply zephyr_start_ok in Hs as (Hv & Hw & He).
  unfold zinv. cbn [s_b s_pc s_submit s_accepted s_handed]. unfold view_of, jitem, sitem.
  rewrite Hv, Hw, He, !item_init. by split.
Qed.

Lemma inv_quiet v pc sub acc han v' : v' = v -> zinv_of v pc sub acc han -> zinv_of v' pc sub acc han.
Proof. by intros ->. Qed.
Ltac inv_intro v Hi :=
  destruct v as [vs vj vp vst vt vf vr [jq jr jc] [sq sr sc] vd]; destruct Hi; cbn in *.

Lemma inv_submit v pc acc han : zinv_of v pc true acc han -> zinv_of (view_submit v) pc false acc han.
Proof.
  intros Hi. inv_intro v Hi. split; cbn; try done.
  - by rewrite i_send_canceling0.
  - by rewrite i_send_canceling0.
  - rewrite i_send_canceling0. cbn. destruct sq, (sending pc), vt; cbn in *; lia.
  - by rewrite i_send_canceling0.
Qed.
Lemma inv_take_join v sub acc han pc : it_queued (v_join v) = true ->
  (if v_stop v then pc = WJoinReport None else exists c, pc = WJoin c) ->
  zinv_of v WIdle sub acc han -> zinv_of (view_take_join v) pc sub acc han.
Proof.
  intros Hq Hpc Hi. inv_intro v Hi. subst jq. specialize (i_join_owned0 eq_refl). subst vp.
  destruct jc; [by discriminate i_join_canceling0|].
  destruct vst; [subst pc | destruct Hpc as [c ->]]; by split.
Qed.
Lemma inv_join_return v c ok e sub acc han : report_ok (WJoinReport e) ->
  zinv_of v (WJoin c) sub acc han -> zinv_of (view_join_return ok v) (WJoinReport e) sub acc han.
Proof.
  intros He Hi. inv_intro v Hi. subst jq jr. specialize (i_join_owned0 eq_refl). subst vp.
  unfold view_join_return. cbn. destruct ok, vst, jc; try discriminate (i_join_stopped0 eq_refl); by split.
Qed.
Lemma inv_join_done v e sub acc han :
  zinv_of v (WJoinReport e) sub acc han -> zinv_of (view_join_done v) WIdle sub acc han.
Proof. intros Hi. inv_intro v Hi. by split. Qed.
Lemma inv_take_send v sub acc han : it_queued (v_send v) = true ->
  zinv_of v WIdle sub acc han ->
  zinv_of (view_take_send v) (WSend (v_frame v)) sub acc (han ++ [v_frame v]).
Proof.
  intros Hq Hi. inv_intro v Hi. subst sq. rewrite orb_true_r in i_frames0.
  destruct sub; [destruct vt; cbn in *; lia|]. split; cbn; try done.
  - by rewrite i_frames0, app_nil_r.
  - rewrite length_app. cbn. lia.
  - apply last_snoc.
Qed.
Lemma inv_send_return v f e sub acc han : report_ok (WSendReport e) ->
  zinv_of v (WSend f) sub acc han -> zinv_of (view_send_return v) (WSendReport e) sub acc han.
Proof.
  intros He Hi. inv_intro v Hi. destruct sub, sq, vt; cbn in *; try lia.
  split; cbn; try done. by destruct vp.
Qed.
Lemma inv_send_done v e sub acc han :
  zinv_of v (WSendReport e) sub acc han -> zinv_of (view_send_done v) WIdle sub acc han.
Proof. intros Hi. inv_intro v Hi. split; cbn; try done. lia. Qed.

Lemma inv_join v pc sub acc han : v_pending v = false -> v_tx v = false ->
  zinv_of v pc sub acc han -> zinv_of (view_join v) pc sub acc han.
Proof.
  intros Hp Ht Hi. inv_intro v Hi. subst vp vt.
  assert (Hn : jq || joining pc = false).
  { destruct (jq || joining pc); [discriminate i_join_owned0; done|done]. }
  apply orb_false_iff in Hn as [-> Hj]. rewrite Hj in *.
  unfold view_join, item_push. cbn. destruct jc; split; cbn; rewrite ?Hj; try done.
Qed.
Lemma inv_leave v pc sub acc han :
  zinv_of v pc sub acc han -> zinv_of (view_leave v) pc sub acc han.
Proof.
  intros Hi. unfold view_leave. destruct (v_pending v) eqn:Hp; [|done]. inv_intro v Hi. subst vp.
  split; cbn; try done.
  - subst jr. by destruct jc, pc.
  - subst jr. by destruct pc.
  - by rewrite andb_false_r.
  - destruct vt; [done|]. apply andb_false_r.
Qed.
Lemma inv_accept v f pc sub acc han : v_joined v = true -> v_pending v = false -> v_tx v = false ->
  zinv_of v pc sub acc han -> zinv_of (view_accept f v) pc true (acc ++ [f]) han.
Proof.
  intros Hj Hp Ht Hi. inv_intro v Hi. subst vp vt. destruct sub, sq, (sending pc) eqn:Es; cbn in *; try lia.
  split; cbn; rewrite ?Es; try done. by rewrite i_frames0, app_nil_r.
Qed.

(** *** Every step keeps it *)
Lemma ignore_state {A} (m : M zephyr_state A) b : (ignore m b).2 = (m b).2.
Proof. unfold ignore, bind. by destruct (m b). Qed.
Lemma join_event_report s rc : report_ok (WJoinReport (join_event s rc)).
Proof. unfold join_event. cbn. by repeat case_match; simplify_eq. Qed.
Lemma worker_step_inv s s' : worker_step s s' -> zinv s -> zinv s'.
Proof.
  unfold zinv. destruct 1; cbn [s_b s_pc s_submit s_accepted s_handed]; intros Hi.
  - rewrite send_submit_view. by apply inv_submit.
  - destruct (take_join_view b) as [-> Hpc]. by apply inv_take_join.
  - destruct (join_return_view c b) as (-> & -> & _). eapply inv_join_return, Hi. apply join_event_report.
  - pose proof (i_report _ _ _ _ _ Hi) as Hr. destruct (join_done_view e b) as [-> ->]; [by destruct e|].
    by eapply inv_join_done.
  - destruct (take_send_view b) as [-> ->]. by apply inv_take_send.
  - destruct (send_return_view f b) as (-> & -> & _). eapply inv_send_return, Hi. apply send_event_done.
  - pose proof (i_report _ _ _ _ _ Hi) as Hr. destruct (send_done_view e b Hr) as (-> & -> & _).
    by eapply inv_send_done.
  - by rewrite (poll_item_view b).
Qed.
Lemma caller_step_inv o s s' : caller_step o s s' -> zinv s -> zinv s'.
Proof.
  unfold zinv. destruct 1 as [o b pc sub acc han|c b pc sub acc han|port data size type b pc sub acc han Hu a];
    cbn [s_b s_pc s_submit s_accepted s_handed]; intros Hi.
  - destruct (moves_session o) eqn:Eo; [|by rewrite (quiet_ops o Eo b)].
    destruct o; try done; cbn [run_zop].
    + rewrite ignore_state. destruct (zephyr_join_view config b) as [[_ ->]|(_ & _ & Hp & Ht & -> & _)]; [done|].
      by apply inv_join.
    + rewrite ignore_state, zephyr_leave_view. by apply inv_leave.
  - by rewrite (quiet_callbacks c b).
  - assert (Hroom : length (z_tx_data (zb_vars b)) = Z.to_nat RZI_LORAWAN_MAX_PAYLOAD) by apply Hi.
    subst a. destruct (send_accept_view port data size type b Hu Hroom)
      as [[Hrc ->]|(-> & _ & Hj & Hp & Ht & ->)].
    + apply Z.eqb_neq in Hrc as ->. by rewrite orb_false_r.
    + rewrite orb_true_r. by eapply inv_accept.
Qed.
Lemma zreachable_inv s : zreachable s -> zinv s.
Proof.
  intros (s0 & H0' & Hr). apply started_inv in H0'. induction Hr as [|s s1 s2 [Hs|[o Hs]] _ IH]; auto.
  - apply IH. by eapply worker_step_inv.
  - apply IH. by eapply caller_step_inv.
Qed.

(** ** Progress: what the worker thread reaches on its own *)
Abbreviation reaches n s s' := (nsteps worker_step n s s').
Lemma worker_accepted s s' : worker_step s s' -> s_accepted s' = s_accepted s.
Proof. by destruct 1. Qed.
Lemma reaches_inv n s s' : reaches n s s' -> zinv s -> zinv s' /\ s_accepted s' = s_accepted s.
Proof.
  induction 1 as [|n s s1 s2 Hs _ IH]; [done|]. intros Hi.
  destruct IH as [? ->]; [by eapply worker_step_inv|]. split; [done|]. by apply worker_accepted.
Qed.

(** The worker finishes what it is doing in two steps; what it leaves of the
    join sequence that waits, and of the events. *)
Definition join_waits (v : view) : Prop :=
  v_pending v = true /\ v_stop v = false /\ it_queued (v_join v) = true.
Lemma worker_idles s : zinv s -> exists n s', (n <= 2)%nat /\ reaches n s s' /\ s_pc s' = WIdle /\
  (exists l, zb_events (s_b s') = zb_events (s_b s) ++ l) /\
  (join_waits (view_of (s_b s)) -> join_waits (view_of (s_b s'))).
Proof.
  destruct s as [b pc sub acc han]. intros Hi. pose proof (i_report _ _ _ _ _ Hi) as Hr. cbn in Hr.
  destruct pc as [|c|e|f|e].
  - exists 0%nat. eexists. split_and!; [lia|constructor|done|by exists []; rewrite app_nil_r|done].
  - (* a call of lorawan_join: no item of it is queued meanwhile *)
    pose proof (i_join_once _ _ _ _ _ Hi) as Hn. cbn [joining s_pc s_b andb] in Hn.
    destruct (join_return_view c b) as (Hv & Hpc & He). set (rc := (lorawan_join c (zb_lw b)).1) in *.
    exists 2%nat. eexists. split_and!; [lia|..].
    + eapply nsteps_l; [apply step_join_return|]. rewrite Hpc. eapply nsteps_l; [apply step_join_done|].
      constructor.
    + by destruct (join_event _ rc).
    + cbn [s_b]. exists (match join_event (v_stop (view_of b)) rc with Some e => [e] | None => [] end).
      rewrite <- He. destruct (join_event _ rc); [done|by rewrite app_nil_r].
    + cbn [s_b]. intros (_ & _ & Hq). by rewrite Hq in Hn.
  - destruct (join_done_view e b) as [Hv Hpc]; [by destruct e|].
    exists 1%nat. eexists. split_and!; [lia|eapply nsteps_l; [apply step_join_done|constructor]|done|..]; cbn [s_b].
    + exists (match e with Some e => [e] | None => [] end). destruct e; [done|by rewrite app_nil_r].
    + rewrite Hv. by intros (?&?&?).
  - destruct (send_return_view f b) as (Hv & Hpc & He). set (e := send_event (f_type f) (call_send f b).1) in *.
    destruct (send_done_view e (send_return f b).2) as (Hv' & Hpc' & He'); [apply send_event_done|].
    exists 2%nat. eexists. split_and!; [lia|..].
    + eapply nsteps_l; [apply step_send_return|]. rewrite Hpc. eapply nsteps_l; [apply step_send_done|].
      constructor.
    + done.
    + cbn [s_b]. exists [e]. by rewrite He', He.
    + cbn [s_b]. rewrite Hv', Hv. by intros (?&?&?).
  - destruct (send_done_view e b Hr) as (Hv & Hpc & He).
    exists 1%nat. eexists. split_and!; [lia|eapply nsteps_l; [apply step_send_done|constructor]|done|..]; cbn [s_b].
    + by exists [e].
    + rewrite Hv. by intros (?&?&?).
Qed.

(** From an idle worker, a queued uplink is sent and reported. *)
Lemma idle_sends b acc han : it_queued (sitem b) = true -> zinv (System b WIdle false acc han) ->
  exists s', reaches 3 (System b WIdle false acc han) s' /\ s_pc s' = WIdle /\ s_submit s' = false /\
    v_tx (view_of (s_b s')) = false.
Proof.
  intros Hq Hi. set (b1 := (take_send b).2). set (f := (take_send b).1).
  destruct (send_return_view f b1) as (Hv & Hpc & _). set (e := send_event (f_type f) (call_send f b1).1) in *.
  destruct (send_done_view e (send_return f b1).2) as (Hv' & Hpc' & _); [apply send_event_done|].
  eexists. split_and!.
  - eapply nsteps_l; [by apply step_take_send|]. eapply nsteps_l; [apply step_send_return|].
    fold f b1. rewrite Hpc. eapply nsteps_l; [apply step_send_done|]. constructor.
  - done.
  - done.
  - cbn [s_b]. by rewrite Hv', Hv.
Qed.
Lemma queued_uplink b acc han : zinv (System b WIdle false acc han) ->
  v_tx (view_of b) = true -> it_queued (sitem b) = true.
Proof.
  intros Hi Ht. pose proof (i_tx _ _ _ _ _ Hi) as Htx. cbn [s_b s_submit s_pc] in Htx. rewrite Ht in Htx.
  change (v_send (view_of b)) with (sitem b) in Htx. destruct (it_queued (sitem b)); [done|].
  cbn in Htx. lia.
Qed.
Lemma drained s : zinv s -> s_pc s = WIdle -> v_tx (view_of (s_b s)) = false ->
  s_submit s = false /\ s_handed s = s_accepted s /\
  tx_done_count (zb_events (s_b s)) = length (s_accepted s).
Proof.
  intros Hi Hpc Ht. pose proof (i_tx _ _ _ _ _ Hi) as Htx. pose proof (i_frames _ _ _ _ _ Hi) as Hf.
  pose proof (i_done _ _ _ _ _ Hi) as Hd. rewrite Ht, Hpc in *. cbn in Htx, Hd.
  destruct (s_submit s), (it_queued _); cbn in *; try lia.
  rewrite app_nil_r in Hf. rewrite Hf. split_and!; try done. lia.
Qed.

(** C11: An accepted uplink completes. *)
Theorem uplink_completes s : zreachable s -> exists n s', (n <= 6)%nat /\ reaches n s s' /\
  s_accepted s' = s_accepted s /\ s_handed s' = s_accepted s /\
  tx_done_count (zb_events (s_b s')) = length (s_accepted s) /\ z_tx_pending (zb_vars (s_b s')) = false.
Proof.
  intros Hi%zreachable_inv. destruct (worker_idles s Hi) as (n & s1 & Hn & Hr & Hpc & _).
  destruct (reaches_inv _ _ _ Hr Hi) as [Hi1 Ha]. rewrite <- Ha.
  assert (Hsend : exists m s2, (m <= 4)%nat /\ reaches m s1 s2 /\ s_pc s2 = WIdle /\
    v_tx (view_of (s_b s2)) = false).
  { destruct (v_tx (view_of (s_b s1))) eqn:Et.
    2:{ exists 0%nat, s1. split_and!; [lia|constructor|done|done]. }
    destruct s1 as [b1 pc1 [] acc1 han1]; cbn [s_pc s_b] in *; subst pc1.
    - pose proof (worker_step_inv _ _ (step_submit b1 WIdle acc1 han1) Hi1) as Hi2.
      destruct (idle_sends (send_submit b1).2 acc1 han1) as (s2 & Hs2 & Hp2 & _ & Ht2); [|done|].
      { apply (queued_uplink _ _ _ Hi2). by rewrite send_submit_view. }
      exists 4%nat, s2. split_and!; [lia| |done|done]. by eapply nsteps_l; [apply step_submit|].
    - destruct (idle_sends b1 acc1 han1) as (s2 & Hs2 & Hp2 & _ & Ht2); [|done|].
      { by apply (queued_uplink _ _ _ Hi1). }
      exists 3%nat, s2. by split_and!; [lia|..]. }
  destruct Hsend as (m & s2 & Hm & Hr2 & Hpc2 & Ht2). destruct (reaches_inv _ _ _ Hr2 Hi1) as [Hi2 Ha2].
  destruct (drained s2 Hi2 Hpc2 Ht2) as (_ & Hh & Hc).
  exists (n + m)%nat, s2. rewrite <- Ha2. split_and!; try done; [lia|]. by eapply nsteps_trans.
Qed.

(** The outcome of an attempt of a join sequence nobody has stopped: JOINED
    ends it, a failure is reported and leaves the next attempt scheduled. *)
Definition attempt_reported (e : rzi_lorawan_backend_event) (v : view) : Prop :=
  (e = BACKEND_JOINED /\ v_joined v = true /\ v_pending v = false) \/
  (exists rc, rc < 0 /\ e = BACKEND_JOIN_FAILED (rzi_lorawan_zephyr_err rc) /\
     v_joined v = false /\ join_waits v).
Lemma attempt_ends b c sub acc han : let s := System b (WJoin c) sub acc han in
  zinv s -> v_stop (view_of b) = false ->
  exists s' e, reaches 2 s s' /\ zb_events (s_b s') = zb_events b ++ [e] /\
    attempt_reported e (view_of (s_b s')).
Proof.
  cbn zeta. intros Hi Hst. pose proof (i_join_owned _ _ _ _ _ Hi) as Hp. cbn [s_pc joining s_b] in Hp.
  rewrite orb_true_r in Hp. specialize (Hp eq_refl).
  pose proof (i_join_stopped _ _ _ _ _ Hi) as Hc. cbn [s_pc joining s_b andb] in Hc. rewrite Hst in Hc.
  destruct (join_return_view c b) as (Hv & Hpc & He). pose proof (lorawan_join_rc c (zb_lw b)) as Hrc.
  set (rc := (lorawan_join c (zb_lw b)).1) in *. rewrite Hst in Hpc. cbn [join_event andb] in Hpc.
  set (e := if rc =? 0 then BACKEND_JOINED else BACKEND_JOIN_FAILED (rzi_lorawan_zephyr_err rc)) in *.
  destruct (join_done_view (Some e) (join_return c b).2) as [Hv' _]; [subst e; by case_match|].
  eexists _, e. split_and!.
  - eapply nsteps_l; [apply step_join_return|]. rewrite Hpc. eapply nsteps_l; [apply step_join_done|].
    constructor.
  - cbn [s_b]. by rewrite <- He.
  - cbn [s_b]. rewrite Hv', Hv. subst e. unfold view_join_return, attempt_reported, join_waits. rewrite Hst.
    destruct (Z.eqb_spec rc 0) as [Hz|Hz]; [by left|]. right. exists rc. cbn.
    split_and!; try done; [lia|]. unfold item_push.
    change (v_join (view_of b)) with (jitem b) in Hc.
    by destruct (it_canceling (jitem b)); [specialize (Hc eq_refl)|].
Qed.

(** C26: An attempt of a sequence that goes on is reported. *)
Theorem join_sequence_reports s : zreachable s ->
  v_pending (view_of (s_b s)) = true -> v_stop (view_of (s_b s)) = false ->
  it_queued (jitem (s_b s)) || joining (s_pc s) = true ->
  exists n s' l e, (n <= 5)%nat /\ reaches n s s' /\
    zb_events (s_b s') = zb_events (s_b s) ++ l ++ [e] /\ attempt_reported e (view_of (s_b s')).
Proof.
  intros Hi%zreachable_inv Hp Hst Hq. destruct (joining (s_pc s)) eqn:Ej.
  { destruct s as [b [] sub acc han]; try done. destruct (attempt_ends b config sub acc han Hi Hst) as (s' & e & Hr & He & Ha).
    exists 2%nat, s', [], e. by split_and!; [lia|..]. }
  rewrite orb_false_r in Hq.
  destruct (worker_idles s Hi) as (n & s1 & Hn & Hr & Hpc & [l Hl] & Hw).
  destruct Hw as (Hp1 & Hst1 & Hq1); [done|]. destruct (reaches_inv _ _ _ Hr Hi) as [Hi1 _].
  destruct s1 as [b1 pc1 sub1 acc1 han1]. cbn [s_pc s_b] in *. subst pc1.
  assert (Hs : worker_step (System b1 WIdle sub1 acc1 han1)
    (System (take_join b1).2 (take_join b1).1 sub1 acc1 han1)) by by apply step_take_join.
  pose proof (worker_step_inv _ _ Hs Hi1) as Hi2. destruct (take_join_view b1) as [Hv Hpc2].
  rewrite Hst1 in Hpc2. destruct Hpc2 as [c Hc]. rewrite Hc in Hs, Hi2.
  destruct (attempt_ends _ c sub1 acc1 han1 Hi2) as (s' & e & Hr2 & He & Ha); [by rewrite Hv|].
  exists (n + 3)%nat, s', l, e. split_and!; [lia| | |done].
  - eapply nsteps_trans; [done|]. by eapply nsteps_l.
  - by rewrite He, take_join_events, Hl, app_assoc.
Qed.

(** ** The join sequence that is lost *)
Definition join_lost (s : system) : Prop :=
  v_pending (view_of (s_b s)) = true /\ it_queued (jitem (s_b s)) = false /\ joining (s_pc s) = false.
(** Lost is where it stays: the backend answers BUSY until leave is called. *)
Lemma lost_refuses s : zinv s -> join_lost s ->
  (forall config, zephyr_join config (s_b s) = (- RZI_ERR_BUSY, s_b s)) /\
  (forall port data size type, (send_accept port data size type (s_b s)).1 <> 0 /\
     (send_accept port data size type (s_b s)).2 = s_b s).
Proof.
  intros Hi (Hp & _ & _). pose proof (i_started _ _ _ _ _ Hi) as Hs. cbn in Hs, Hp. split.
  - intros config. by rewrite zephyr_join_eq, Hs, Hp.
  - intros. rewrite send_accept_eq. cbn zeta. rewrite Hs, Hp. by destruct (z_joined _).
Qed.
Lemma lost_stays_worker s s' : zinv s -> worker_step s s' -> join_lost s -> join_lost s'.
Proof.
  intros Hi Hs. unfold join_lost.
  change (jitem (s_b s)) with (v_join (view_of (s_b s))).
  change (jitem (s_b s')) with (v_join (view_of (s_b s'))).
  destruct Hs; cbn [s_b s_pc] in *; intros (Hp & Hq & Hj); try done.
  - by rewrite send_submit_view.
  - change (v_join (view_of b)) with (jitem b) in Hq. congruence.
  - pose proof (i_report _ _ _ _ _ Hi) as Hr. destruct (join_done_view e b) as [-> ->]; [by destruct e|].
    done.
  - destruct (take_send_view b) as [-> _]. done.
  - destruct (send_return_view f b) as (-> & -> & _). done.
  - pose proof (i_report _ _ _ _ _ Hi) as Hr. destruct (send_done_view e b Hr) as (-> & -> & _). done.
  - by rewrite (poll_item_view b).
Qed.
(** A step of any thread that is not a call of leave. *)
Definition step_but_leave (s s' : system) : Prop :=
  worker_step s s' \/ exists o, o <> Some OLeave /\ caller_step o s s'.
Lemma lost_stays s s' : zinv s -> step_but_leave s s' -> join_lost s -> zinv s' /\ join_lost s'.
Proof.
  intros Hi [Hs|(o & Ho & Hs)] Hl.
  { split; [by eapply worker_step_inv|by eapply lost_stays_worker]. }
  split; [by eapply caller_step_inv|]. destruct (lost_refuses s Hi Hl) as [Hjoin Hsend].
  revert Hl. unfold join_lost.
  change (jitem (s_b s)) with (v_join (view_of (s_b s))).
  change (jitem (s_b s')) with (v_join (view_of (s_b s'))).
  destruct Hs as [o b|c b|port data size type b ? ? ? ? ? a]; cbn [s_b s_pc] in *.
  - destruct (moves_session o) eqn:Eo; [|by rewrite (quiet_ops o Eo b)].
    destruct o; try done. cbn [run_zop]. by rewrite ignore_state, Hjoin.
  - by rewrite (quiet_callbacks c b).
  - by rewrite (proj2 (Hsend _ _ _ _)).
Qed.
Lemma lost_forever s s' : zinv s -> join_lost s -> rtc step_but_leave s s' -> zinv s' /\ join_lost s'.
Proof.
  intros Hi Hl Hr. induction Hr as [|s s1 s2 Hs _ IH]; [done|].
  destruct (lost_stays s s1 Hi Hs Hl) as [??]. auto.
Qed.

(** While the worker is about to publish the failure of an attempt, leave
    unschedules the next attempt, but the item still runs, so the sequence
    stays marked pending: from then on, whatever the other threads and the
    worker do, join and send are refused, until leave is called again. *)
Theorem leave_during_report b e sub acc han : zreachable (System b (WJoinReport e) sub acc han) ->
  z_join_pending (zb_vars b) = true ->
  let s1 := System (zephyr_leave b).2 (WJoinReport e) sub acc han in
  (zephyr_leave b).1 = 0 /\
  forall s, rtc step_but_leave s1 s ->
    z_join_pending (zb_vars (s_b s)) = true /\ it_queued (jitem (s_b s)) = false /\
    (forall config, zephyr_join config (s_b s) = (- RZI_ERR_BUSY, s_b s)) /\
    (forall port data size type, (zephyr_send port data size type (s_b s)).1 <> 0) /\
    (on_join (s_pc s) = false ->
       (zephyr_leave (s_b s)).1 = 0 /\ z_join_pending (zb_vars (zephyr_leave (s_b s)).2) = false).
Proof.
  intros Hi%zreachable_inv Hp s1.
  assert (Hi1 : zinv s1).
  { unfold s1, zinv. cbn [s_b s_pc s_submit s_accepted s_handed]. rewrite zephyr_leave_view. by apply inv_leave. }
  assert (Hv : view_of (zephyr_leave b).2 = with_join true true (item_cancel (jitem b)) (view_of b)).
  { rewrite zephyr_leave_view. unfold view_leave. cbn [view_of vview v_pending]. rewrite Hp.
    pose proof (i_join_running _ _ _ _ _ Hi) as Hr. cbn in Hr. by cbn; rewrite Hr. }
  assert (Hl : join_lost s1).
  { unfold join_lost, s1. cbn [s_b s_pc].
    change (jitem (zephyr_leave b).2) with (v_join (view_of (zephyr_leave b).2)). by rewrite Hv. }
  split; [by rewrite zephyr_leave_eq, Hp|]. intros s Hr.
  destruct (lost_forever s1 s Hi1 Hl Hr) as [Hi2 Hl2]. destruct (lost_refuses s Hi2 Hl2) as [Hj Hs].
  destruct Hl2 as (Hp2 & Hq2 & _). split_and!; try done.
  - intros port data size type Hz. destruct (Hs port data size type) as [Hne _].
    unfold zephyr_send, bind in Hz. destruct (send_accept port data size type (s_b s)) as [rc b2].
    cbn [fst] in Hne. apply Z.eqb_neq in Hne. rewrite Hne in Hz. cbn in Hz. subst rc. done.
  - intros Hon. pose proof (i_join_running _ _ _ _ _ Hi2) as Hrun. rewrite Hon in Hrun.
    cbn in Hp2. split; [by rewrite zephyr_leave_eq, Hp2|].
    change (v_pending (view_of (zephyr_leave (s_b s)).2) = false).
    rewrite zephyr_leave_view. unfold view_leave. cbn [view_of vview v_pending]. rewrite Hp2. exact Hrun.
Qed.

(** The same as a test of the view. *)
Definition lost_view (v : view) (pc : worker_pc) : bool :=
  v_pending v && negb (it_queued (v_join v)) && negb (joining pc).
Lemma join_lost_view s : join_lost s <-> lost_view (view_of (s_b s)) (s_pc s) = true.
Proof.
  unfold join_lost, lost_view. change (v_join (view_of (s_b s))) with (jitem (s_b s)).
  rewrite !andb_true_iff, !negb_true_iff. tauto.
Qed.
Lemma worker_never_loses s s' : zinv s -> worker_step s s' ->
  lost_view (view_of (s_b s')) (s_pc s') = true -> lost_view (view_of (s_b s)) (s_pc s) = true.
Proof.
  unfold zinv. intros Hi Hs. destruct Hs; cbn [s_b s_pc s_submit s_accepted s_handed] in *.
  - by rewrite send_submit_view.
  - destruct (take_join_view b) as [-> Hpc]. unfold view_take_join, lost_view.
    destruct (v_stop (view_of b)); [rewrite Hpc|destruct Hpc as [c ->]]; cbn; by rewrite !andb_false_r.
  - destruct (join_return_view c b) as (-> & -> & _). inv_intro (view_of b) Hi.
    destruct (_ =? 0), vst, jc; try discriminate (i_join_stopped0 eq_refl); unfold lost_view; cbn;
      by rewrite ?andb_false_r.
  - pose proof (i_report _ _ _ _ _ Hi) as Hr. destruct (join_done_view e b) as [-> ->]; [by destruct e|done].
  - by destruct (take_send_view b) as [-> _].
  - by destruct (send_return_view f b) as (-> & -> & _).
  - pose proof (i_report _ _ _ _ _ Hi) as Hr. by destruct (send_done_view e b Hr) as (-> & -> & _).
  - by rewrite (poll_item_view b).
Qed.

(** The only steps that lose a sequence are a leave and a join that fall into
    the window in which the join handler publishes. *)
Theorem join_lost_in_report_window s s' : zreachable s -> zstep s s' -> ~ join_lost s -> join_lost s' ->
  exists e, s_pc s = WJoinReport e /\
    (caller_step (Some OLeave) s s' \/ exists config, caller_step (Some (OJoin config)) s s').
Proof.
  intros Hi%zreachable_inv [Hs|[o Hs]] Hn Hl; rewrite join_lost_view in *.
  { by destruct Hn; eapply worker_never_loses. }
  assert (Hc := Hs). destruct Hs as [o b pc sub acc han|c b|port data size type b pc sub acc han Hu a];
    cbn [s_b s_pc] in *.
  - destruct (moves_session o) eqn:Eo; [|by rewrite (quiet_ops o Eo b) in Hl].
    unfold zinv in Hi. cbn [s_b s_pc s_submit s_accepted s_handed] in Hi.
    destruct o; try done; cbn [run_zop] in Hl; rewrite ignore_state in Hl.
    + destruct (zephyr_join_view config b) as [[_ Hv]|(_ & _ & Hp & _ & Hv & _)]; rewrite Hv in Hl; [done|].
      clear Hv. pose proof (i_join_canceling _ _ _ _ _ Hi) as Hcan. revert Hl Hcan.
      unfold view_join, lost_view, item_push. cbn. destruct (it_canceling _); [|done].
      intros Hl Hcan. destruct pc; try discriminate (Hcan eq_refl); [|by eauto].
      by rewrite andb_false_r in Hl.
    + rewrite zephyr_leave_view in Hl. unfold view_leave in Hl.
      destruct (v_pending (view_of b)); [|done]. revert Hl. unfold lost_view. cbn.
      change (v_join (view_of b)) with (jitem b). intros Hl.
      pose proof (i_join_running _ _ _ _ _ Hi) as Hr. cbn in Hr. rewrite Hr in Hl.
      destruct pc; try done. by eauto.
  - by rewrite (quiet_callbacks c b) in Hl.
  - subst a. assert (Hroom : length (z_tx_data (zb_vars b)) = Z.to_nat RZI_LORAWAN_MAX_PAYLOAD)
      by apply (i_room _ _ _ _ _ Hi).
    destruct (send_accept_view port data size type b Hu Hroom) as [[_ Hv]|(_ & _ & _ & _ & _ & Hv)];
      by rewrite Hv in Hl.
Qed.

(** ** Uplinks *)
(** C10: In every interleaving: what is handed to lorawan_send is what was
    accepted, unchanged and in order; at most one request waits; each frame
    handed over is reported exactly once; joins and uplinks exclude each other. *)
Theorem uplinks_reported_once s : zreachable s ->
  let v := zb_vars (s_b s) in
  let waits := s_submit s || it_queued (sitem (s_b s)) in
  s_accepted s = s_handed s ++ (if waits then [pending_frame v] else []) /\
  (tx_done_count (zb_events (s_b s)) + Nat.b2n (on_send (s_pc s)) = length (s_handed s))%nat /\
  (forall f, s_pc s = WSend f -> last (s_handed s) = Some f) /\
  z_tx_pending v = waits || sending (s_pc s) /\
  z_join_pending v && z_tx_pending v = false.
Proof.
  intros Hi%zreachable_inv. cbn zeta. split_and!.
  - apply (i_frames _ _ _ _ _ Hi).
  - apply (i_done _ _ _ _ _ Hi).
  - intros f Hpc. pose proof (i_sending _ _ _ _ _ Hi) as Hl. by rewrite Hpc in Hl.
  - pose proof (i_tx _ _ _ _ _ Hi) as Ht. change (v_send (view_of (s_b s))) with (sitem (s_b s)) in Ht.
    cbn in Ht |- *.
    destruct (s_submit s), (it_queued (sitem (s_b s))), (sending (s_pc s)), (z_tx_pending (zb_vars (s_b s)));
      cbn in *; try done; lia.
  - apply (i_exclusive _ _ _ _ _ Hi).
Qed.

(** ** The handlers are the compositions of their pieces: an idle worker that
    is not interrupted runs a queued item to the end of its handler. *)
Definition after_handler (i : work_item) (handler : M zephyr_state unit) (b : zephyr_state) : zephyr_state :=
  (done_item i (handler (take_item i b).2).2).2.
Theorem handlers_run b sub acc han :
  (it_queued (jitem b) = true -> exists n, (n <= 3)%nat /\
    reaches n (System b WIdle sub acc han)
      (System (after_handler JOIN_WORK join_work_handler b) WIdle sub acc han)) /\
  (it_queued (sitem b) = true ->
    reaches 3 (System b WIdle sub acc han)
      (System (after_handler SEND_WORK send_work_handler b) WIdle sub acc
         (han ++ [pending_frame (zb_vars b)]))).
Proof.
  split; intros Hq.
  - unfold after_handler, join_work_handler. pose proof (take_join_eq b) as Ht. cbn zeta in Ht.
    pose proof (step_take_join b sub acc han Hq) as Hs. rewrite Ht in Hs.
    set (b1 := (take_item JOIN_WORK b).2) in *. unfold bind at 1.
    destruct (join_begin b1) as [[c|] b2]; cbn [fst snd] in *.
    + exists 3%nat. split; [lia|]. eapply nsteps_l; [done|]. eapply nsteps_l; [apply step_join_return|].
      pose proof (join_return_eq c b2) as Hr. cbn zeta in Hr. rewrite Hr. unfold bind at 1, stack at 1, zoom.
      destruct (lorawan_join c (zb_lw b2)) as [rc l]. cbn [fst snd]. unfold bind at 1.
      destruct (join_end rc (set_zb_lw l b2)) as [e b3]. cbn [fst snd].
      eapply nsteps_l; [apply step_join_done|]. by destruct e; constructor.
    + exists 2%nat. split; [lia|]. eapply nsteps_l; [done|]. eapply nsteps_l; [apply step_join_done|].
      constructor.
  - unfold after_handler, send_work_handler. eapply nsteps_l; [by apply step_take_send|].
    eapply nsteps_l; [apply step_send_return|]. rewrite send_return_eq.
    change ((let* frame := send_begin in let* rc := call_send frame in
             zput (z_set_tx_pending false);;; zephyr_publish (send_event (f_type frame) rc))
              (take_item SEND_WORK b).2)
      with ((let* rc := call_send (take_send b).1 in
             zput (z_set_tx_pending false);;; zephyr_publish (send_event (f_type (take_send b).1) rc))
              (take_send b).2).
    unfold bind at 1. destruct (call_send (take_send b).1 (take_send b).2) as [rc b2]. cbn [fst snd].
    eapply nsteps_l; [apply step_send_done|]. constructor.
Qed.

(** ** DevNonces *)
(** The nonces of [n] activations in a row that leave the choice to the backend. *)
Fixpoint nonces (n : nat) : M zephyr_state (list Z) :=
  match n with
  | O => ret []
  | S n =>
      let* config := fill_zephyr_join in
      let* rest := nonces n in
      ret (match config with LORAWAN_ACT_OTAA _ _ _ _ x => x :: rest | _ => rest end)
  end.
Definition automatic_nonce (config : rzi_lorawan_join_config) : Prop :=
  j_activation config = RZI_LORAWAN_ACTIVATION_OTAA /\ j_dev_nonce (join_otaa config) = 0.
Lemma nonces_run n b : automatic_nonce (z_join_settings (zb_vars b)) ->
  0 <= z_next_dev_nonce (zb_vars b) < 65536 ->
  (nonces n b).1 = (fun i => u16 (z_next_dev_nonce (zb_vars b) + Z.of_nat i)) <$> seq 0 n /\
  z_next_dev_nonce (zb_vars (nonces n b).2) = u16 (z_next_dev_nonce (zb_vars b) + Z.of_nat n).
Proof.
  intros Ha Hb.
  revert b Ha Hb. induction n as [|n IH]; intros b Ha Hb.
  { cbn. rewrite Z.add_0_r. split; [done|]. symmetry. by apply Z.mod_small. }
  assert (Hfill : exists c, fill_zephyr_join b =
    (c, set_zb_vars (z_set_next_dev_nonce (u16 (z_next_dev_nonce (zb_vars b) + 1)) (zb_vars b)) b) /\
    exists e j nk ak, c = LORAWAN_ACT_OTAA e j nk ak (z_next_dev_nonce (zb_vars b))).
  { destruct Ha as [Hact Hn]. unfold fill_zephyr_join, bind at 1, zget, gets. rewrite Hact. cbn [Z.eqb].
    rewrite Hn. cbn. by eauto 10. }
  destruct Hfill as (c & Hf & e & j & nk & ak & ->). set (b1 := set_zb_vars _ b) in Hf.
  destruct (IH b1) as [Hl Hz]; [done|apply Z.mod_pos_bound; lia|].
  assert (Hs : nonces (S n) b = (z_next_dev_nonce (zb_vars b) :: (nonces n b1).1, (nonces n b1).2)).
  { cbn [nonces]. unfold bind at 1. rewrite Hf. unfold bind. by destruct (nonces n b1). }
  rewrite Hs. cbn [fst snd]. rewrite Hl.
  rewrite Hz. unfold b1. cbn [zb_vars set_zb_vars z_next_dev_nonce z_set_next_dev_nonce]. unfold u16.
  split.
  - cbn [seq fmap list_fmap]. f_equal; [symmetry; rewrite Z.add_0_r; by apply Z.mod_small|].
    rewrite <- fmap_S_seq, <- list_fmap_compose. apply list_fmap_ext. intros i x _. cbn.
    rewrite Zplus_mod_idemp_l. f_equal. lia.
  - rewrite Zplus_mod_idemp_l. f_equal. lia.
Qed.
(** The nonces count up modulo 2^16, so as many as there are differ. *)
Theorem nonces_advance n b : automatic_nonce (z_join_settings (zb_vars b)) ->
  0 <= z_next_dev_nonce (zb_vars b) < 65536 ->
  let r := nonces n b in
  r.1 = (fun i => u16 (z_next_dev_nonce (zb_vars b) + Z.of_nat i)) <$> seq 0 n /\
  z_next_dev_nonce (zb_vars r.2) = u16 (z_next_dev_nonce (zb_vars b) + Z.of_nat n) /\
  (Z.of_nat n <= 65536 -> NoDup r.1).
Proof.
  intros Ha Hb. cbn zeta. destruct (nonces_run n b Ha Hb) as [Hl Hz]. split_and!; try done. intros Hn. rewrite Hl.
  apply NoDup_fmap_2_strong; [|apply NoDup_seq].
  intros x y Hx%elem_of_seq Hy%elem_of_seq Heq. unfold u16 in Heq.
  assert (Hd : (z_next_dev_nonce (zb_vars b) + Z.of_nat x - (z_next_dev_nonce (zb_vars b) + Z.of_nat y)) mod 65536 = 0).
  { rewrite Zminus_mod, Heq, Z.sub_diag. done. }
  apply Z.mod_divide in Hd as [k Hk]; [|lia]. assert (k = 0) by lia. lia.
Qed.

(** ** Downlinks *)
(** Whatever the stack delivers, the event carries at most 242 bytes, an array
    of that size that starts with them, and an SNR of an 8-bit integer. *)
Theorem downlink_event_bounds port flags rssi snr len data :
  0 <= len <= 255 -> len <= zlen data -> -128 <= snr <= 127 ->
  exists d, downlink_event port flags rssi snr len (Some data) = BACKEND_DOWNLINK d /\
    0 <= dl_size d <= RZI_LORAWAN_MAX_PAYLOAD /\ zlen (dl_data d) = RZI_LORAWAN_MAX_PAYLOAD /\
    take (Z.to_nat (dl_size d)) (dl_data d) = take (Z.to_nat (Z.min len RZI_LORAWAN_MAX_PAYLOAD)) data /\
    -128 <= dl_snr_quarter_db d <= 127 /\
    (-32 <= snr <= 31 -> dl_snr_quarter_db d = 4 * snr) /\ 0 <= dl_flags d <= 3.
Proof.
  intros Hlen Hdata Hsnr. eexists. split; [done|].
  cbn [dl_size dl_data dl_snr_quarter_db dl_flags].
  set (size := if RZI_LORAWAN_MAX_PAYLOAD <? len then RZI_LORAWAN_MAX_PAYLOAD else len).
  assert (Hsize : size = Z.min len RZI_LORAWAN_MAX_PAYLOAD)
    by (subst size; destruct (Z.ltb_spec RZI_LORAWAN_MAX_PAYLOAD len); lia).
  rewrite Hsize. clear size Hsize. set (size := Z.min len RZI_LORAWAN_MAX_PAYLOAD).
  assert (Hn : length (take (Z.to_nat size) data) = Z.to_nat size)
    by (rewrite length_take; unfold zlen in Hdata; lia).
  split_and!; try lia.
  - destruct (0 <? size); [|done]. unfold zlen. rewrite length_overlay; [done|]. rewrite Hn, length_replicate. lia.
  - destruct (Z.ltb_spec 0 size) as [Hp|Hp]; [by apply take_overlay|].
    assert (size = 0) as -> by lia. done.
  - unfold snr_to_quarter_db. repeat case_match; zify_tests; lia.
  - unfold snr_to_quarter_db. repeat case_match; zify_tests; lia.
  - intros Hs. unfold snr_to_quarter_db. repeat case_match; zify_tests; lia.
  - by destruct (negb (Z.land flags LORAWAN_DATA_PENDING =? 0)), (negb (Z.land flags LORAWAN_TIME_UPDATED =? 0)).
  - by destruct (negb (Z.land flags LORAWAN_DATA_PENDING =? 0)), (negb (Z.land flags LORAWAN_TIME_UPDATED =? 0)).
Qed.

(** ** Before the backend is started *)
Lemma not_started_lock b : z_started (zb_vars b) = false ->
  rzi_lorawan_zephyr_lock_started b = (- RZI_ERR_NOT_READY, b).
Proof. intros Hs. unfold rzi_lorawan_zephyr_lock_started, bind, zget, gets. by rewrite Hs. Qed.
Lemma locked_get_refused {A} (m : M zephyr_state A) cell b : z_started (zb_vars b) = false ->
  locked_get m cell b = ((- RZI_ERR_NOT_READY, cell), b).
Proof. intros Hs. unfold locked_get, bind at 1. by rewrite not_started_lock. Qed.
(** Every operation that reads or writes the backend's variables is refused;
    leave finds no sequence; nothing changes and nothing is published. *)
Theorem refused_before_start b : z_started (zb_vars b) = false -> z_join_pending (zb_vars b) = false ->
  (forall config, zephyr_join config b = (- RZI_ERR_NOT_READY, b)) /\
  zephyr_leave b = (- RZI_ERR_NOT_SUPPORTED, b) /\
  (forall port data size type, zephyr_send port data size type b = (- RZI_ERR_NOT_READY, b)) /\
  (forall c, zephyr_is_joined c b = ((- RZI_ERR_NOT_READY, c), b)) /\
  (forall c, zephyr_is_busy c b = ((- RZI_ERR_NOT_READY, c), b)) /\
  (forall c, zephyr_get_class c b = ((- RZI_ERR_NOT_READY, c), b)) /\
  (forall e, zephyr_set_adr e b = (- RZI_ERR_NOT_READY, b)) /\
  (forall v, zephyr_set_data_rate v b = (- RZI_ERR_NOT_READY, b)) /\
  (forall n, zephyr_set_dev_nonce n b = (- RZI_ERR_NOT_READY, b)) /\
  (forall n, zephyr_query_tx_possible n b = (- RZI_ERR_NOT_READY, b)) /\
  (forall c, zephyr_get_dev_addr c b = ((- RZI_ERR_NOT_READY, c), b)) /\
  (forall c, zephyr_get_nwk_skey c b = ((- RZI_ERR_NOT_READY, c), b)) /\
  (forall c, zephyr_get_app_skey c b = ((- RZI_ERR_NOT_READY, c), b)).
Proof.
  intros Hs Hp. split_and!; intros.
  - by rewrite zephyr_join_eq, Hs.
  - by rewrite zephyr_leave_eq, Hp.
  - unfold zephyr_send, bind at 1. rewrite send_accept_eq. cbn zeta. by rewrite Hs.
  - by apply locked_get_refused.
  - by apply locked_get_refused.
  - by apply locked_get_refused.
  - unfold zephyr_set_adr, bind at 1. by rewrite not_started_lock.
  - unfold zephyr_set_data_rate, bind at 1. by rewrite not_started_lock.
  - unfold zephyr_set_dev_nonce, bind at 1. by rewrite not_started_lock.
  - unfold zephyr_query_tx_possible, bind at 1. by rewrite not_started_lock.
  - unfold zephyr_get_dev_addr, bind at 1. by rewrite not_started_lock.
  - unfold zephyr_get_nwk_skey, bind at 1. by rewrite not_started_lock.
  - unfold zephyr_get_app_skey, bind at 1. by rewrite not_started_lock.
Qed.

(** ** Channel masks *)
(** The mask of an unrestricted join on a fixed plan enables exactly its 72
    channels. *)
Lemma fixed_plan_mask_words : fixed_plan_mask = [65535; 65535; 65535; 65535; 255; 0].
Proof. vm_refl. Qed.
End system.
