(* ===== verification/ZephyrFlows.v ===== *)
(** * The LoRaWAN service over the Zephyr backend, and concrete runs

    The backend as an instance of the interface of LorawanBackend.v: it keeps
    the contract the service asserts, and an uplink the service accepts is the
    uplink its worker sends.  [exec] runs the system of ZephyrWorker.v along a
    schedule; the witnesses evaluate it on a simulated stack. *)
From S2P Require Import Prelude Zephyr Err Power Storage LorawanSettings LorawanBackend LorawanSim LorawanCore LorawanCredentials LorawanChannel LorawanApi Lorawan LorawanService LorawanFlows BackendView ZephyrBackend ZephyrWorker.

(** ** The backend in the service *)
Section service.
Context `{Zephyr} `{Errno} `{Kconfig} `{ZephyrBackendConfig} `{ZephyrLorawan} `{!WorkQueue} `{!WorkQueueOk}
  {ctx : ExecCtx} `{LorawanExt}.
#[local] Existing Instance zephyr_lorawan.
Context `{!LorawanHooks}.

(** The tables and the capability bits agree: the assertions of
    [rzi_lorawan_init] hold in every configuration. *)
Theorem zephyr_contract : check_backend_contract = true.
Proof.
  unfold check_backend_contract, capability_matches, has_cap. cbn.
  unfold ZEPHYR_CAPABILITIES. by destruct CONFIG_RZI_LORAWAN_FUOTA; vm_compute.
Qed.

(** *** Uplinks *)
(** What an uplink needs of the backend: the buffer's size and the send item. *)
Definition send_side (b : zephyr_state) : nat * item_state := (v_room (view_of b), v_send (view_of b)).
Lemma op_send_side {A} (m : M zephyr_state A) : keeps view_of m -> op_keeps send_side (run_op m).
Proof.
  intros Hm b. unfold send_side, run_op.
  pose proof (Hm (set_zb_events [] b)) as Hv. unfold same in Hv.
  destruct (m (set_zb_events [] b)) as [a b']. cbn [fst snd] in *.
  exact (f_equal (fun v => (v_room v, v_send v)) Hv).
Qed.
Lemma uplink_quiet_side : uplink_quiet send_side.
Proof.
  split_and!.
  - by apply op_send_side, locked_get_view, zget_view.
  - intros f [= <-]. apply op_send_side. intros b. unfold same. rewrite <- ignore_state.
    apply (quiet_ops OLinkCheck eq_refl b).
  - intros f [= <-]. apply op_send_side. intros b. unfold same. rewrite <- ignore_state.
    apply (quiet_ops ODeviceTime eq_refl b).
Qed.

(** A send request that is accepted and submitted. *)
Lemma zephyr_send_view port data size type b : uplink_ok data size ->
  length (z_tx_data (zb_vars b)) = Z.to_nat RZI_LORAWAN_MAX_PAYLOAD ->
  (zephyr_send port data size type b).1 = 0 ->
  v_joined (view_of b) = true /\ v_pending (view_of b) = false /\
  view_of (zephyr_send port data size type b).2 =
    view_submit (view_accept (request_frame port data size type) (view_of b)).
Proof.
  intros Hu Hroom. unfold zephyr_send, bind at 1 2.
  destruct (send_accept_view port data size type b Hu Hroom) as [[Hrc _]|(Hrc & _ & Hj & Hp & _ & Hv)];
    destruct (send_accept port data size type b) as [rc b1]; cbn [fst snd] in *.
  - apply Z.eqb_neq in Hrc as E. by rewrite E.
  - subst rc. cbn [Z.eqb]. intros _. by rewrite send_submit_view, Hv.
Qed.
(** An uplink the service accepts is an uplink the worker owns: the frame that
    waits is the caller's request, and the send item is queued. *)
Theorem service_uplink_queued port data size type w :
  0 <= size <= zlen (default [] data) -> v_room (view_of (backend_of w)) = Z.to_nat RZI_LORAWAN_MAX_PAYLOAD ->
  it_canceling (sitem (backend_of w)) = false ->
  let r := rzi_lorawan_send port data size type w in
  let b := backend_of r.2 in
  r.1 = 0 ->
  z_tx_pending (zb_vars b) = true /\ z_join_pending (zb_vars b) = false /\
  z_joined (zb_vars b) = true /\ it_queued (sitem b) = true /\
  pending_frame (zb_vars b) = request_frame port data size type.
Proof.
  intros Hsize Hroom Hcan. cbn zeta. intros Hrc.
  destruct (send_reaches_backend _ uplink_quiet_side _ _ _ _ _ Hrc) as (Hmax & b & Hside & Hop & ->).
  injection Hside as Hr2 Hs2. revert Hop.
  cbn [rzi_lorawan_backend zephyr_lorawan base zephyr_backend_api op_send]. unfold run_op.
  set (b2 := set_zb_events [] b). intros Hop.
  assert (Hv : view_of (zephyr_send port data size type b2).2 =
    view_submit (view_accept (request_frame port data size type) (view_of b2)) /\
    v_joined (view_of b2) = true /\ v_pending (view_of b2) = false).
  { destruct (zephyr_send_view port data size type b2) as (?&?&?); try done.
    - split; [lia|]. lia.
    - change (v_room (view_of b) = Z.to_nat RZI_LORAWAN_MAX_PAYLOAD). by rewrite <- Hroom.
    - revert Hop. by destruct (zephyr_send port data size type b2). }
  destruct (zephyr_send port data size type b2) as [rc2 b3]. cbn [fst snd] in *.
  destruct Hv as (Hv & Hj & Hp).
  change (v_tx (view_of b3) = true /\ v_pending (view_of b3) = false /\ v_joined (view_of b3) = true /\
    it_queued (v_send (view_of b3)) = true /\
    v_frame (view_of b3) = request_frame port data size type).
  rewrite Hv. split_and!; try done. cbn [view_submit view_accept with_send v_send]. unfold item_push.
  change (v_send (view_of b2)) with (sitem b). change (sitem b = sitem (backend_of w)) in Hs2.
  by rewrite Hs2, Hcan.
Qed.
(** *** The last retry *)
(** The failure that ends the service's sequence, delivered while the worker
    is still in its handler (the dispatcher may preempt it): the service is
    idle again and unlocked, but the backend keeps its join pending with no
    attempt scheduled.  Every later join is refused as busy, and stopping the
    join, which the service takes to be over, does not reach the backend. *)
Theorem last_retry_blocks_joins error w :
  let b := backend_of w in
  sequence_of w <> 0 -> retries_of w = 0 ->
  z_started (zb_vars b) = true -> z_join_pending (zb_vars b) = true -> it_running (jitem b) = true ->
  let w' := (swallow_join_event (BACKEND_JOIN_FAILED error) w).2 in
  sequence_of w' = 0 /\ locked_of w' = false /\
  z_join_pending (zb_vars (backend_of w')) = true /\ it_queued (jitem (backend_of w')) = false /\
  (forall config, zephyr_join config (backend_of w') = (- RZI_ERR_BUSY, backend_of w')) /\
  backend_of (stop_join w').2 = backend_of w'.
Proof.
  cbn zeta. intros Hs Hr Hst Hp Hrun. destruct (last_failure_state error w Hs Hr) as (Hs' & Hl' & Hb').
  cbn [rzi_lorawan_backend zephyr_lorawan base zephyr_backend_api op_leave] in Hb'.
  pose proof (stop_without_sequence _ Hs') as Hstop. rewrite Hb' in *. unfold run_op in *.
  rewrite zephyr_leave_eq in *. change (zb_vars (set_zb_events [] (backend_of w))) with (zb_vars (backend_of w)) in *.
  rewrite Hp in *. cbn [snd fst] in *.
  pose proof (cancel_rc JOIN_WORK (zb_wq (backend_of w))) as Hc.
  change (item (zb_wq (backend_of w)) JOIN_WORK) with (jitem (backend_of w)) in Hc. rewrite Hrun in Hc.
  change (zb_wq (set_zb_events [] (backend_of w))) with (zb_wq (backend_of w)) in *.
  assert (Hne : ((k_work_cancel_delayable JOIN_WORK (zb_wq (backend_of w))).1 =? 0) = false).
  { apply Z.eqb_neq. intros E. by apply Hc in E. }
  rewrite Hne in *. split_and!; try done.
  - unfold jitem. cbn. by rewrite item_cancelled.
  - intros config. rewrite zephyr_join_eq. cbn. by rewrite Hst.
Qed.
End service.

(** ** Running a schedule *)
Inductive zact : Type :=
| ASubmit | ATakeJoin | ATakeSend | APoll | AContinue
| AOp (o : zop) | ACallback (c : zcallback)
| ASend (port : Z) (data : option (list Z)) (size type : Z).
Section exec.
Context `{Errno} `{Kconfig} `{ZephyrBackendConfig} `{ZephyrLorawan} `{!WorkQueue} `{!WorkQueueOk}.

#[export] Instance uplink_ok_dec data size : Decision (uplink_ok data size).
Proof. unfold uplink_ok. apply _. Defined.
(** One scheduled step; [None] when it is not enabled. *)
Definition exec1 (a : zact) (s : system) : option system :=
  let '(System b pc sub acc han) := s in
  match a, pc with
  | ASubmit, _ => if sub then Some (System (send_submit b).2 pc false acc han) else None
  | ATakeJoin, WIdle =>
      if it_queued (jitem b)
      then let r := take_join b in Some (System r.2 r.1 sub acc han) else None
  | ATakeSend, WIdle =>
      if it_queued (sitem b)
      then let r := take_send b in Some (System r.2 (WSend r.1) sub acc (han ++ [r.1])) else None
  | APoll, WIdle =>
      if it_queued (item (zb_wq b) CLOCK_POLL_WORK)
      then Some (System (poll_item b).2 WIdle sub acc han) else None
  | AContinue, WJoin c => let r := join_return c b in Some (System r.2 r.1 sub acc han)
  | AContinue, WJoinReport e => let r := join_done e b in Some (System r.2 r.1 sub acc han)
  | AContinue, WSend f => let r := send_return f b in Some (System r.2 r.1 sub acc han)
  | AContinue, WSendReport e => let r := send_done e b in Some (System r.2 r.1 sub acc han)
  | AOp o, _ => Some (System (run_zop o b).2 pc sub acc han)
  | ACallback c, _ => Some (System (run_zcallback c b).2 pc sub acc han)
  | ASend port data size type, _ =>
      if decide (uplink_ok data size) then
        let r := send_accept port data size type b in
        let accepted := r.1 =? 0 in
        Some (System r.2 pc (sub || accepted)
                (if accepted then acc ++ [request_frame port data size type] else acc) han)
      else None
  | _, _ => None
  end.
Fixpoint exec (l : list zact) (s : system) : option system :=
  match l with
  | [] => Some s
  | a :: l => match exec1 a s with Some s1 => exec l s1 | None => None end
  end.
Lemma exec1_sound a s s' : exec1 a s = Some s' -> zstep s s'.
Proof.
  destruct s as [b pc sub acc han]. unfold exec1. cbn zeta.
  destruct a, pc; try done; try (destruct (it_queued _) eqn:Eq; [|done]);
    try (destruct sub; [|done]); try (destruct (decide _) as [Hu|]; [|done]);
    intros [= <-]; first [left; by constructor | right; eexists; by constructor].
Qed.
Lemma exec_sound l s s' : exec l s = Some s' -> rtc zstep s s'.
Proof.
  revert s. induction l as [|a l IH]; cbn; [by intros s [= ->]|]. intros s.
  destruct (exec1 a s) as [s1|] eqn:E; [|done]. intros Hl. eapply rtc_l; [by eapply exec1_sound|auto].
Qed.
Lemma exec_reachable s0 l s : zstarted s0 -> exec l s0 = Some s -> zreachable s.
Proof. intros ? Hl. exists s0. split; [done|]. by eapply exec_sound. Qed.
End exec.

(** ** A simulated stack and work queue *)
Module ZephyrSim.
Export SimInstances.
(** The results of the coming joins (zero when exhausted), and a log of what
    was handed to the stack. *)
Record sim_lw : Type := SimLw { sl_joins : list Z; sl_sent : list (Z * list Z); sl_nonces : list Z }.
Definition sim_join (c : lorawan_join_config) : M sim_lw Z := fun l =>
  (Z.min 0 (hd 0 (sl_joins l)),
   SimLw (tl (sl_joins l)) (sl_sent l)
     (sl_nonces l ++ match c with LORAWAN_ACT_OTAA _ _ _ _ n => [n] | _ => [] end)).
#[export] Instance sim_zephyr_lorawan : ZephyrLorawan | 10 := {|
  lw := sim_lw; LORAWAN_DATA_PENDING := 1; LORAWAN_TIME_UPDATED := 2;
  device_is_ready _ := true; lorawan_set_region _ := ret 0; lorawan_start := ret 0;
  lorawan_register_downlink_callback := ret tt; lorawan_register_link_check_ans_callback := ret tt;
  lorawan_join := sim_join;
  lorawan_send p d _ _ := fun l => (0, SimLw (sl_joins l) (sl_sent l ++ [(p, d)]) (sl_nonces l));
  lorawan_set_class _ := ret 0; lorawan_enable_adr _ := ret tt; lorawan_set_datarate _ := ret 0;
  lorawan_get_payload_sizes := ret (51, 51); lorawan_request_link_check _ := ret 0;
  lorawan_request_device_time _ := ret 0; lorawan_device_time_get := ret (0, 1000);
  lorawan_clock_sync_run := ret 0; lorawan_clock_sync_get := ret (-11, 0);
  lorawan_frag_transport_register_descriptor_callback := ret tt; lorawan_frag_transport_run := ret 0;
  mib_get_dev_addr := ret (Some 1); mib_set_channels_default_mask _ := ret true;
  mib_set_channels_mask _ := ret true; mib_get_nvm_key_list := ret (Some []);
  NWK_S_ENC_KEY := 8; APP_S_KEY := 9;
  flash_area := unit; fa_size _ := 0; flash_area_open := ret (-19, tt);
  flash_area_read _ _ _ := ret (0, []); flash_area_close _ := ret tt; sys_reboot := ret tt;
|}.
#[export] Instance sim_zephyr_lorawan_ok : ZephyrLorawanOk.
Proof. split; intros; cbn; lia. Qed.
#[export] Instance sim_zephyr_config : ZephyrBackendConfig | 10 := {|
  CONFIG_LORAWAN_EMUL := false; CONFIG_LORAWAN_APP_CLOCK_SYNC := true;
  CONFIG_LORAWAN_FRAG_TRANSPORT := true; RZI_ZEPHYR_HAS_SLOT1 := true; SOFT_SE := true;
|}.

Record sim_wq : Type := SimWq { q_join : item_state; q_send : item_state; q_poll : item_state }.
Definition q_item (q : sim_wq) (i : work_item) : item_state :=
  match i with JOIN_WORK => q_join q | SEND_WORK => q_send q | CLOCK_POLL_WORK => q_poll q end.
Definition q_update (f : item_state -> item_state) (i : work_item) (q : sim_wq) : sim_wq :=
  match i with
  | JOIN_WORK => SimWq (f (q_join q)) (q_send q) (q_poll q)
  | SEND_WORK => SimWq (q_join q) (f (q_send q)) (q_poll q)
  | CLOCK_POLL_WORK => SimWq (q_join q) (q_send q) (f (q_poll q))
  end.
#[export] Instance sim_work_queue : WorkQueue | 10 := {|
  wq := sim_wq; k_work_init _ := SimWq item_idle item_idle item_idle;
  k_work_schedule_for_queue i _ q := (0, q_update item_push i q);
  k_work_submit_to_queue i q := (1, q_update item_push i q);
  k_work_cancel_delayable i q := (b2z (it_running (q_item q i)), q_update item_cancel i q);
  worker_take := q_update item_take; worker_done := q_update item_done;
|}.
#[export] Instance sim_work_queue_ok : WorkQueueOk.
Proof.
  refine {| item := q_item : @wq sim_work_queue -> _ |}; try (intros; by repeat match goal with i : work_item |- _ => destruct i end).
  intros i q. cbn. by destruct (it_running _).
Defined.

(** Power-up with a script of join results, then start in EU868. *)
Definition boot_state (joins : list Z) : zephyr_state :=
  ZephyrState zephyr_vars_init zephyr_features_init (ZephyrFuotaVars 0 false) (SimLw joins [] [])
    (SimWq item_idle item_idle item_idle) [].
Definition started_system (joins : list Z) : system :=
  System (zephyr_start RZI_LORAWAN_REGION_EU_868 false SERVICE_SINK (boot_state joins)).2 WIdle false [] [].
Lemma started_system_started joins : zstarted (started_system joins).
Proof. by apply (zstarted_intro _ _ _ _ _ _ _ []). Qed.
Definition otaa_config : rzi_lorawan_join_config :=
  JoinConfig RZI_LORAWAN_ACTIVATION_OTAA 8 false (replicate 6 0)
    (inl (JoinOtaa (replicate 8 1) (replicate 8 2) (replicate 16 3) (replicate 16 3) 0)).
Definition hello : option (list Z) := Some [104; 105].
(** Runs: one attempt fails and its report is about to be published; the next
    attempt succeeds; an uplink is accepted and not yet submitted. *)
Definition reporting_run : list zact := [AOp (OJoin otaa_config); ATakeJoin; AContinue].
Definition uplink_run : list zact :=
  reporting_run ++ [AContinue; ATakeJoin; AContinue; AContinue; ASend 2 hello 2 RZI_LORAWAN_MSG_CONFIRMED].
Definition run (l : list zact) : system := default (started_system []) (exec l (started_system [-116])).
Lemma run_reachable l s : exec l (started_system [-116]) = Some s -> zreachable s.
Proof. apply exec_reachable, started_system_started. Qed.
End ZephyrSim.

Module ZephyrWitness.
Import ZephyrSim.
Definition reporting : system := Eval vm_compute in run reporting_run.
Definition in_flight : system := Eval vm_compute in run uplink_run.
Lemma reporting_reachable : zreachable reporting.
Proof. apply (run_reachable reporting_run). vm_refl. Qed.
Lemma in_flight_reachable : zreachable in_flight.
Proof. apply (run_reachable uplink_run). vm_refl. Qed.

Lemma uplinks_reported_once_witness :
  s_accepted in_flight = s_handed in_flight ++ [request_frame 2 hello 2 RZI_LORAWAN_MSG_CONFIRMED].
Proof.
  refine (eq_trans (proj1 (uplinks_reported_once in_flight in_flight_reachable)) _). vm_refl.
Defined.
Lemma uplink_completes_witness : exists n s', (n <= 6)%nat /\ nsteps worker_step n in_flight s' /\
  tx_done_count (zb_events (s_b s')) = 1%nat.
Proof.
  destruct (uplink_completes in_flight in_flight_reachable) as (n & s' & Hn & Hr & _ & _ & Hc & _).
  exists n, s'. split; [exact Hn|split; [exact Hr|]]. rewrite Hc. vm_refl.
Defined.
Definition joining_system : system := Eval vm_compute in run [AOp (OJoin otaa_config)].
Lemma join_sequence_reports_witness : exists n s' l e, (n <= 5)%nat /\
  nsteps worker_step n joining_system s' /\ zb_events (s_b s') = BACKEND_READY :: l ++ [e].
Proof.
  destruct (join_sequence_reports joining_system) as (n & s' & l & e & Hn & Hr & He & _).
  - apply (run_reachable [AOp (OJoin otaa_config)]). vm_refl.
  - vm_refl.
  - vm_refl.
  - vm_refl.
  - exists n, s', l, e. split; [exact Hn|split; [exact Hr|]]. rewrite He.
    assert (E : zb_events (s_b joining_system) = [BACKEND_READY]) by vm_refl. rewrite E. reflexivity.
Defined.

(** After a failed attempt the worker is about to publish; leave comes first. *)
Lemma leave_during_report_witness :
  (zephyr_leave (s_b reporting)).1 = 0 /\
  zephyr_join otaa_config (zephyr_leave (s_b reporting)).2 =
    (- RZI_ERR_BUSY, (zephyr_leave (s_b reporting)).2).
Proof.
  assert (G : forall b e, zreachable (System b (WJoinReport e) false [] []) ->
    z_join_pending (zb_vars b) = true ->
    (zephyr_leave b).1 = 0 /\
    zephyr_join otaa_config (zephyr_leave b).2 = (- RZI_ERR_BUSY, (zephyr_leave b).2)).
  { intros b e Hr Hp. destruct (leave_during_report _ _ _ _ _ Hr Hp) as [Hrc Hall]. split; [exact Hrc|].
    destruct (Hall _ (rtc_refl _ _)) as (_ & _ & Hj & _). exact (Hj otaa_config). }
  apply (G (s_b reporting) (Some (BACKEND_JOIN_FAILED (- RZI_ERR_TIMEOUT)))).
  - refine (eq_ind reporting zreachable reporting_reachable _ _). vm_refl.
  - vm_refl.
Defined.
Definition lost_run : list zact := reporting_run ++ [AOp OLeave].
Definition left_system : system := Eval vm_compute in run lost_run.
Lemma join_lost_in_report_window_witness :
  exists e, s_pc reporting = WJoinReport e.
Proof.
  assert (Hs : zstep reporting left_system).
  { apply (exec1_sound (AOp OLeave)). vm_refl. }
  assert (Hn : ~ join_lost reporting).
  { rewrite join_lost_view. assert (lost_view (view_of (s_b reporting)) (s_pc reporting) = false) as -> by vm_refl.
    discriminate. }
  assert (Hl : join_lost left_system) by (apply join_lost_view; vm_refl).
  destruct (join_lost_in_report_window _ _ reporting_reachable Hs Hn Hl) as (e & He & _).
  exists e. exact He.
Defined.
(** Reached by an execution: idle worker, nothing queued, still pending. *)
Definition lost_system : system := Eval vm_compute in run (lost_run ++ [AContinue]).
Example lost_run_end :
  exec (lost_run ++ [AContinue]) (started_system [-116]) = Some lost_system /\
  s_pc lost_system = WIdle /\ jitem (s_b lost_system) = item_idle /\
  z_join_pending (zb_vars (s_b lost_system)) = true.
Proof. split_and!; vm_refl. Qed.
Lemma handlers_run_witness : exists n, (n <= 3)%nat /\
  nsteps worker_step n (System (s_b joining_system) WIdle false [] [])
    (System (after_handler JOIN_WORK join_work_handler (s_b joining_system)) WIdle false [] []).
Proof. apply (proj1 (handlers_run (s_b joining_system) false [] [])). vm_refl. Defined.
Lemma nonces_advance_witness : NoDup (nonces 100 (s_b joining_system)).1.
Proof.
  apply (nonces_advance 100 (s_b joining_system)).
  - split; vm_refl.
  - split; [discriminate|reflexivity].
  - discriminate.
Defined.
Lemma downlink_event_bounds_witness : exists d,
  downlink_event 5 3 (-100) 40 2 hello = BACKEND_DOWNLINK d /\ dl_snr_quarter_db d <= 127.
Proof.
  destruct (downlink_event_bounds 5 3 (-100) 40 2 [104; 105]) as (d & Hd & _ & _ & _ & Hs & _);
    [split; discriminate|discriminate|split; discriminate|].
  exists d. split; [exact Hd|exact (proj2 Hs)].
Defined.
Lemma refused_before_start_witness : zephyr_join otaa_config (boot_state []) = (- RZI_ERR_NOT_READY, boot_state []).
Proof. apply (refused_before_start (boot_state [])); vm_refl. Defined.

(** The service over this backend: started, in a sequence with no retry left. *)
#[local] Instance zephyr_backend : LorawanBackend | 0 := zephyr_lorawan.
#[local] Instance no_hooks : LorawanHooks :=
  {| run_callback _ _ _ := ret tt; service_on_started _ := None; service_on_event _ := None |}.
Definition service_world (b : zephyr_state) (sequence : Z) : world :=
  World SettingsWitness.cold credentials_zero (set_sequence sequence (set_started 1 core_init))
    (replicate 4 slot_zero) [] (([], 8) : @msgq sim_zephyr rzi_lorawan_backend_event) (Mac 0 false) b [].
Definition joined_system : system := Eval vm_compute in run (reporting_run ++ [AContinue; ATakeJoin; AContinue; AContinue]).
Lemma service_uplink_queued_witness :
  z_tx_pending (zb_vars (backend_of
    (rzi_lorawan_send 2 hello 2 RZI_LORAWAN_MSG_CONFIRMED (service_world (s_b joined_system) 0)).2)) = true.
Proof.
  apply (service_uplink_queued 2 hello 2 RZI_LORAWAN_MSG_CONFIRMED (service_world (s_b joined_system) 0)).
  - split; discriminate.
  - vm_refl.
  - vm_refl.
  - vm_refl.
Defined.
Lemma last_retry_blocks_joins_witness :
  let w := service_world (s_b reporting) 1 in
  sequence_of (swallow_join_event (BACKEND_JOIN_FAILED (- RZI_ERR_TIMEOUT)) w).2 = 0.
Proof.
  apply (last_retry_blocks_joins (- RZI_ERR_TIMEOUT) (service_world (s_b reporting) 1)).
  - discriminate.
  - vm_refl.
  - vm_refl.
  - vm_refl.
  - vm_refl.
Defined.
Lemma zephyr_contract_witness : check_backend_contract = true.
Proof. apply zephyr_contract. Defined.
End ZephyrWitness.
