(* ===== verification/ZephyrLora.v ===== *)
(** * The Zephyr LoRa-driver backend (src/lora/backend/lora_backend_zephyr.c)

    An implementation of [struct rzi_lora_backend_api] over Zephyr's blocking
    LoRa driver.  The driver is a parameter ([LoraDriver]); so are the
    service's variables and the callbacks behind it, which Lora.v has as the
    class [LoraEnv]: the backend's functions call into the service through
    them, and [zephyr_lora_env] is that environment with this backend's table. *)
From S2P Require Import Prelude Zephyr Err Lora.

(** ** The driver (zephyr/drivers/lora.h) *)
Inductive lora_signal_bandwidth : Type :=
  BW_125_KHZ | BW_250_KHZ | BW_500_KHZ | BW_7_KHZ | BW_10_KHZ | BW_15_KHZ | BW_20_KHZ
| BW_31_KHZ | BW_41_KHZ | BW_62_KHZ.
Record lora_modem_config : Type := ModemConfig {
  m_frequency : Z; m_bandwidth : lora_signal_bandwidth; m_datarate : Z; m_coding_rate : Z;
  m_preamble_len : Z; m_tx_power : Z; m_tx : bool; m_iq_inverted : bool; m_public_network : bool;
  m_sync_word : Z;
}.
#[export] Instance lora_modem_config_eq_dec : EqDecision lora_modem_config.
Proof. unfold EqDecision, Decision. repeat decide equality. Defined.
Class LoraDriver (W : Type) : Type := {
  lora_node_exists : bool;
  driver_ready : W -> bool;
  lora_config : lora_modem_config -> M W Z;
  lora_send : list Z -> Z -> M W Z;
  (* the result, and what it leaves in the buffer, [rssi] and [snr] *)
  lora_recv : Z -> k_timeout -> M W (Z * (list Z * Z * Z));
  (* the variable [modulation] of the file *)
  modulation_of : W -> Z;
  set_modulation : Z -> W -> W;
}.

Definition i8 (z : Z) : Z := (z + 128) mod 256 - 128.
Definition bandwidths : list lora_signal_bandwidth :=
  [BW_125_KHZ; BW_250_KHZ; BW_500_KHZ; BW_7_KHZ; BW_10_KHZ; BW_15_KHZ; BW_20_KHZ; BW_31_KHZ;
   BW_41_KHZ; BW_62_KHZ].
Definition map_bandwidth (index : Z) : lora_signal_bandwidth :=
  default BW_125_KHZ (bandwidths !! Z.to_nat index).
Definition modem_config (config : rzi_lora_config) (tx : bool) : lora_modem_config :=
  ModemConfig (frequency_hz config) (map_bandwidth (bandwidth config)) (spreading_factor config)
    (u32 (coding_rate config + 1)) (preamble_length config) (tx_power_dbm config) tx
    (iq_inverted config) false
    (let word := Z.land (sync_word config) 0xff in if negb (word =? 0) then u8 word else 0).

Section backend.
Context `{Errno} {ctx : ExecCtx} `{app : LoraEnv W} `{!LoraDriver W}.

(** [*out] is written only when the result is zero. *)
Definition fill_config (config : rzi_lora_config) (tx : bool) : M W (Z * lora_modem_config) :=
  let* modulation := gets modulation_of in
  ret (if negb (modulation =? RZI_LORA_MOD_LORA) then - RZI_ERR_NOT_SUPPORTED else 0,
       modem_config config tx).
Definition zephyr_start (value : Z) : M W Z :=
  let* ready := gets driver_ready in
  if negb lora_node_exists || negb ready then ret (- RZI_ERR_NO_DEVICE)
  else modify (set_modulation value) ;;; ret 0.
Definition zephyr_stop : M W Z := ret 0.
Definition zephyr_apply (config : rzi_lora_config) : M W Z := ret 0.
(** The configuration of the service, handed to the driver: the common part of
    [zephyr_send] and [zephyr_receive]. *)
Definition configure_radio (tx : bool) (k : M W Z) : M W Z :=
  if negb lora_node_exists then ret (- RZI_ERR_NO_DEVICE)
  else
    let* '(rc, config) := rzi_lora_get_config (Some config_default) in
    if negb (rc =? 0) then ret rc
    else
      let* '(rc, modem) := fill_config (default config_default config) tx in
      if negb (rc =? 0) then ret rc
      else
        let* rc := lora_config modem in
        if negb (rc =? 0) then ret (rzi_err_from_errno rc) else k.
Definition zephyr_send (data : list Z) (size : Z) : M W Z :=
  configure_radio true
    (let* sent := lora_send data size in
     let rc := rzi_err_from_errno sent in
     rzi_lora_publish_tx_done rc ;;; ret rc).
Definition zephyr_receive (timeout_ms : Z) : M W Z :=
  if timeout_ms =? 0 then ret 0
  else
    configure_radio false
      (let* '(rc, (payload, rssi, snr)) :=
         lora_recv RZI_LORA_MAX_PAYLOAD (if timeout_ms =? 65535 then K_FOREVER else K_MSEC timeout_ms) in
       if 0 <? rc then
         rzi_lora_publish_rx (Some payload) rc rssi (i8 (snr * 4)) ;;; ret 0
       else ret (rzi_err_from_errno rc)).
Definition unsupported : M W Z := ret (- RZI_ERR_NOT_SUPPORTED).

(** [rzi_lora_backend] *)
Definition zephyr_lora_env : LoraEnv W := {|
  lora_of := @lora_of W app; set_lora := @set_lora W app;
  b_start := Some zephyr_start; b_stop := Some zephyr_stop; b_apply_config := Some zephyr_apply;
  b_send := Some zephyr_send; b_receive := Some zephyr_receive;
  b_test_rssi := Some unsupported; b_test_get_rssi := None; b_test_tone := Some unsupported;
  b_test_tx := Some (fun _ => unsupported); b_test_rx := Some (fun _ => unsupported);
  b_test_cw := Some (fun _ _ _ => unsupported); b_test_stop := Some unsupported; b_poll := None;
  run_tx_done := @run_tx_done W app; run_rx_done := @run_rx_done W app;
|}.
End backend.

(** ** The backend is a client of the service *)
Section clients.
Context `{Errno} {ctx : ExecCtx} `{app : LoraEnv W} `{!LoraEnvOk} `{!LoraDriver W}.
#[local] Instance lora_moves_pre : PreOrder (lora_moves (W := W)).
Proof. split; [intros w; apply rtc_refl|intros ? ? ?; unfold lora_moves; apply transitivity]. Qed.
(** The driver and the file's variable are apart from the service's variables. *)
Class LoraDriverOk : Prop := {
  lora_config_apart m : keeps lora_of (lora_config m);
  lora_send_apart d n : keeps lora_of (lora_send d n);
  lora_recv_apart n t : keeps lora_of (lora_recv n t);
  set_modulation_apart v w : lora_of (set_modulation v w) = lora_of w;
}.
Context `{!LoraDriverOk}.
Lemma apart_client {A} (m : M W A) : keeps lora_of m -> respects lora_moves m.
Proof. intros Hm w. unfold lora_moves. rewrite (Hm w). apply rtc_refl. Qed.
Hypothesis hooks : (forall f e u, respects lora_moves (run_tx_done f e u)) /\
  (forall f d n r q u, respects lora_moves (run_rx_done f d n r q u)).
Lemma configure_client tx k : respects lora_moves k -> respects lora_moves (configure_radio tx k).
Proof.
  intros Hk. unfold configure_radio, rzi_lora_get_config, fill_config, lget.
  frame; first [done | by apply apart_client, lora_config_apart].
Qed.
Lemma zephyr_send_client d n : respects lora_moves (zephyr_send d n).
Proof.
  apply configure_client. unfold rzi_lora_publish_tx_done, lget. destruct hooks.
  frame; auto. by apply apart_client, lora_send_apart.
Qed.
Lemma zephyr_receive_client t : respects lora_moves (zephyr_receive t).
Proof.
  unfold zephyr_receive. destruct (t =? 0); [frame|]. apply configure_client.
  unfold rzi_lora_publish_rx, lget. destruct hooks.
  frame; auto. by apply apart_client, lora_recv_apart.
Qed.

#[local] Instance zephyr_env_ok : @LoraEnvOk W zephyr_lora_env.
Proof. split. exact (@lora_of_set W app _). Qed.
(** The service over this backend: what the interface asks of a backend holds,
    so the service's invariant does. *)
Theorem zephyr_lora_clients : @LoraClients W zephyr_lora_env.
Proof.
  assert (Hret : forall (A : Type) (a : A), respects (@lora_moves W app) (ret a)) by (intros A a w; apply rtc_refl).
  split; cbn.
  - exact hooks.
  - intros f v [= <-] w. unfold zephyr_start, bind, gets. destruct (_ || _); [apply Hret|].
    unfold lora_moves. cbn. rewrite set_modulation_apart. apply rtc_refl.
  - intros f [= <-]. apply Hret.
  - intros f c [= <-]. apply Hret.
  - intros f d n [= <-]. apply zephyr_send_client.
  - intros f t [= <-]. apply zephyr_receive_client.
  - done.
  - split_and!; intros f; intros; simplify_eq; apply Hret.
Qed.
End clients.

(** ** Functional behaviour through the service *)
Section functional.
Context `{Errno} {ctx : ExecCtx} `{app : LoraEnv W} `{!LoraEnvOk} `{!LoraDriver W} `{!LoraDriverOk}.
Abbreviation service := (zephyr_lora_env (app := app)).

(** What the driver is told before a transmission or a reception. *)
Lemma configure_run tx k w : k_is_in_isr = false -> lora_node_exists = true ->
  modulation_of w = RZI_LORA_MOD_LORA ->
  configure_radio tx k w =
    let r := lora_config (modem_config (l_config (lora_of w)) tx) w in
    if r.1 =? 0 then k r.2 else (rzi_err_from_errno r.1, r.2).
Proof.
  intros Hisr Hnode Hmod. unfold configure_radio, rzi_lora_get_config, check_thread, fill_config, lget.
  rewrite Hnode, Hisr. cbn [negb Z.eqb]. unfold bind, gets, ret. cbn [default negb Z.eqb].
  rewrite Hmod. cbn [negb Z.eqb].
  destruct (lora_config _ w) as [rc w1]. cbn [fst snd]. by destruct (rc =? 0).
Qed.
Lemma configure_refused tx k w : k_is_in_isr = false -> lora_node_exists = true ->
  modulation_of w <> RZI_LORA_MOD_LORA -> configure_radio tx k w = (- RZI_ERR_NOT_SUPPORTED, w).
Proof.
  intros Hisr Hnode Hmod. unfold configure_radio, rzi_lora_get_config, check_thread, fill_config, lget.
  rewrite Hnode, Hisr. cbn [negb Z.eqb]. unfold bind, gets, ret. cbn [default negb Z.eqb].
  by destruct (Z.eqb_spec (modulation_of w) RZI_LORA_MOD_LORA).
Qed.
(** An uplink of a started service: the radio is configured from the stored
    configuration and transmits the enciphered payload; once it was asked to
    transmit, the subscriber hears of it exactly once, before the call returns
    the same code.  With an FSK service nothing reaches the radio. *)
Theorem zephyr_lora_send_outcomes data size w :
  k_is_in_isr = false -> lora_node_exists = true -> l_started (lora_of w) <> 0 ->
  1 <= size <= RZI_LORA_MAX_PAYLOAD ->
  let c := l_config (lora_of w) in
  let r := @rzi_lora_send ctx W service (Some data) size w in
  (modulation_of w <> RZI_LORA_MOD_LORA -> r = (- RZI_ERR_NOT_SUPPORTED, w)) /\
  (modulation_of w = RZI_LORA_MOD_LORA ->
    forall rc1 w1, lora_config (modem_config c true) w = (rc1, w1) ->
    (rc1 <> 0 -> r = (rzi_err_from_errno rc1, w1)) /\
    (rc1 = 0 -> forall rc2 w2, lora_send (apply_cipher (take (Z.to_nat size) data) c) size w1 = (rc2, w2) ->
       r = (rzi_err_from_errno rc2, (rzi_lora_publish_tx_done (rzi_err_from_errno rc2) w2).2))).
Proof.
  intros Hisr Hnode Hst Hsize. cbn zeta. unfold rzi_lora_send, check_thread. rewrite Hisr. cbn [Z.eqb negb].
  destruct (Z.eqb_spec size 0); [lia|]. destruct (Z.ltb_spec RZI_LORA_MAX_PAYLOAD size); [lia|].
  unfold bind, lget, gets. cbn [b_send zephyr_lora_env lora_of].
  destruct (Z.eqb_spec (l_started (lora_of w)) 0); [done|]. unfold zephyr_send.
  split; intros Hmod; [by apply configure_refused|]. intros rc1 w1 Hc.
  rewrite (configure_run _ _ w Hisr Hnode Hmod). cbn zeta. rewrite Hc. cbn [fst snd]. split.
  - intros Hne. by destruct (Z.eqb_spec rc1 0).
  - intros -> rc2 w2 Hs. cbn [Z.eqb]. unfold bind. rewrite Hs.
    by destruct (rzi_lora_publish_tx_done (rzi_err_from_errno rc2) w2).
Qed.

Lemma receive_run timeout_ms w w1 rc payload rssi snr w2 :
  k_is_in_isr = false -> lora_node_exists = true ->
  modulation_of w = RZI_LORA_MOD_LORA -> timeout_ms <> 0 ->
  lora_config (modem_config (l_config (lora_of w)) false) w = (0, w1) ->
  lora_recv RZI_LORA_MAX_PAYLOAD (if timeout_ms =? 65535 then K_FOREVER else K_MSEC timeout_ms) w1 =
    ((rc, (payload, rssi, snr)), w2) ->
  zephyr_receive timeout_ms w =
    if 0 <? rc then (0, (rzi_lora_publish_rx (Some payload) rc rssi (i8 (snr * 4)) w2).2)
    else (rzi_err_from_errno rc, w2).
Proof.
  intros Hisr Hnode Hmod Ht Hc Hrecv. unfold zephyr_receive. destruct (Z.eqb_spec timeout_ms 0); [done|].
  rewrite (configure_run _ _ w Hisr Hnode Hmod). cbn zeta. rewrite Hc. cbn [fst snd Z.eqb].
  unfold bind. rewrite Hrecv. destruct (0 <? rc); [|done].
  by destruct (rzi_lora_publish_rx (Some payload) rc rssi (i8 (snr * 4)) w2).
Qed.
(** A reception, "continuous" (65535) or not: the driver is asked once and
    blocks; at most one packet is delivered to the subscriber before the call
    returns, and from then on the service says it is receiving although
    nothing listens any more. *)
Theorem zephyr_lora_receives_once timeout_ms w w1 rc payload rssi snr w2 :
  k_is_in_isr = false -> lora_node_exists = true -> l_started (lora_of w) <> 0 ->
  modulation_of w = RZI_LORA_MOD_LORA -> timeout_ms <> 0 ->
  lora_config (modem_config (l_config (lora_of w)) false) w = (0, w1) ->
  lora_recv RZI_LORA_MAX_PAYLOAD (if timeout_ms =? 65535 then K_FOREVER else K_MSEC timeout_ms) w1 =
    ((rc, (payload, rssi, snr)), w2) ->
  let r := @rzi_lora_receive ctx W service timeout_ms w in
  let delivered := (rzi_lora_publish_rx (Some payload) rc rssi (i8 (snr * 4)) w2).2 in
  (0 < rc -> r = (0, set_lora (put_rx_active 1 (lora_of delivered)) delivered)) /\
  (rc <= 0 -> rzi_err_from_errno rc <> 0 -> r = (rzi_err_from_errno rc, w2)).
Proof.
  intros Hisr Hnode Hst Hmod Ht Hc Hrecv. cbn zeta.
  pose proof (receive_run timeout_ms w w1 rc payload rssi snr w2 Hisr Hnode Hmod Ht Hc Hrecv) as Hr.
  unfold rzi_lora_receive, check_thread. rewrite Hisr. cbn [Z.eqb negb b_receive zephyr_lora_env].
  unfold bind, lget, gets. cbn [lora_of zephyr_lora_env].
  destruct (Z.eqb_spec (l_started (lora_of w)) 0); [done|]. rewrite Hr. split; intros Hrc.
  - destruct (Z.ltb_spec 0 rc); [|lia]. by destruct (Z.eqb_spec timeout_ms 0).
  - intros Hne. destruct (Z.ltb_spec 0 rc); [lia|]. by destruct (Z.eqb_spec (rzi_err_from_errno rc) 0).
Qed.
End functional.

(** ** A simulated driver *)
Module ZephyrLoraWitness.
Export LoraWitness.
Record radio_world : Type := RadioWorld {
  rw_vars : lora_state; rw_modulation : Z; rw_sent : list (list Z); rw_air : list (list Z);
  rw_done : list Z; rw_got : list (list Z);
}.
#[export] Instance radio_app : LoraEnv radio_world | 10 := {|
  lora_of := rw_vars;
  set_lora s w := RadioWorld s (rw_modulation w) (rw_sent w) (rw_air w) (rw_done w) (rw_got w);
  b_start := None; b_stop := None; b_apply_config := None; b_send := None; b_receive := None;
  b_test_rssi := None; b_test_get_rssi := None; b_test_tone := None; b_test_tx := None;
  b_test_rx := None; b_test_cw := None; b_test_stop := None; b_poll := None;
  run_tx_done _ e _ w :=
    (tt, RadioWorld (rw_vars w) (rw_modulation w) (rw_sent w) (rw_air w) (rw_done w ++ [e]) (rw_got w));
  run_rx_done _ d _ _ _ _ w :=
    (tt, RadioWorld (rw_vars w) (rw_modulation w) (rw_sent w) (rw_air w) (rw_done w) (rw_got w ++ [d]));
|}.
(** Two packets are in the air. *)
#[export] Instance radio_driver : LoraDriver radio_world | 10 := {|
  lora_node_exists := true; driver_ready _ := true; lora_config _ := ret 0;
  lora_send d _ w :=
    (0, RadioWorld (rw_vars w) (rw_modulation w) (rw_sent w ++ [d]) (rw_air w) (rw_done w) (rw_got w));
  lora_recv _ _ w :=
    match rw_air w with
    | p :: air => ((zlen p, (p, -70, 6)),
        RadioWorld (rw_vars w) (rw_modulation w) (rw_sent w) air (rw_done w) (rw_got w))
    | [] => ((-11, ([], 0, 0)), w)
    end;
  modulation_of := rw_modulation;
  set_modulation m w := RadioWorld (rw_vars w) m (rw_sent w) (rw_air w) (rw_done w) (rw_got w);
|}.
#[export] Instance radio_app_ok : @LoraEnvOk radio_world radio_app.
Proof. by split. Qed.
#[export] Instance radio_driver_ok : LoraDriverOk.
Proof. split; try done. intros n t w. cbn. unfold same. by destruct (rw_air w). Qed.
Definition station : radio_world :=
  RadioWorld (LoraState 1 0 config_default (LoraCallbacks 5 7 3) 0) 0 [] [[1; 2]; [3]] [] [].

Lemma zephyr_lora_clients_witness : @LoraClients radio_world zephyr_lora_env.
Proof. apply zephyr_lora_clients. split; intros; intros w; apply rtc_refl. Defined.
Lemma zephyr_lora_send_outcomes_witness :
  @rzi_lora_send _ radio_world zephyr_lora_env (Some [9; 8]) 2 station =
    (0, RadioWorld (rw_vars station) 0 [[9; 8]] [[1; 2]; [3]] [0] []).
Proof.
  refine (proj2 (proj2 (zephyr_lora_send_outcomes [9; 8] 2 station eq_refl eq_refl _ _) eq_refl
    0 station eq_refl) eq_refl 0 _ eq_refl); [discriminate|split; discriminate].
Defined.
(** A "continuous" reception: one of the two packets, and the call is over. *)
Lemma zephyr_lora_receives_once_witness :
  let r := @rzi_lora_receive _ radio_world zephyr_lora_env 65535 station in
  r.1 = 0 /\ rw_got r.2 = [[1; 2]] /\ rw_air r.2 = [[3]] /\ l_rx_active (lora_of r.2) = 1.
Proof.
  cbn zeta. pose proof (zephyr_lora_receives_once 65535 station _ _ _ _ _ _ eq_refl eq_refl
    ltac:(discriminate) eq_refl ltac:(discriminate) eq_refl eq_refl) as [Hr _].
  rewrite (Hr eq_refl). split_and!; reflexivity.
Defined.
End ZephyrLoraWitness.
