(* ===== verification/LoraLoopback.v ===== *)
(** * The loopback LoRa backend (src/lora/backend/lora_backend_test.c)

    The backend of host builds: it keeps the last payload that was sent and
    hands it back to a reception. *)
From S2P Require Import Prelude Zephyr Err Lora.

(** [last_payload], [last_size] *)
Record loopback : Type := Loopback { last_payload : list Z; last_size : Z }.
Definition loopback_init : loopback := Loopback (replicate 255 0) 0.
Class LoopbackEnv (W : Type) : Type := { loopback_of : W -> loopback; set_loopback : loopback -> W -> W }.

Section backend.
Context `{app : LoraEnv W} `{!LoopbackEnv W}.
Definition lget_loop {A} (f : loopback -> A) : M W A := gets (fun w => f (loopback_of w)).
Definition lput_loop (f : loopback -> loopback) : M W unit :=
  modify (fun w => set_loopback (f (loopback_of w)) w).
Definition forget (l : loopback) : loopback := Loopback (last_payload l) 0.
Definition test_start (modulation : Z) : M W Z := lput_loop forget ;;; ret 0.
Definition test_stop : M W Z := lput_loop forget ;;; ret 0.
Definition test_apply (config : rzi_lora_config) : M W Z := ret 0.
Definition test_send (data : list Z) (size : Z) : M W Z :=
  lput_loop (fun l => Loopback (overlay (last_payload l) 0 (take (Z.to_nat size) data)) size) ;;;
  rzi_lora_publish_tx_done 0 ;;; ret 0.
Definition test_receive (timeout_ms : Z) : M W Z :=
  if timeout_ms =? 0 then ret 0
  else
    let* l := lget_loop id in
    (if 0 <? last_size l then rzi_lora_publish_rx (Some (last_payload l)) (last_size l) (-80) 0 else ret tt) ;;;
    ret 0.
Definition test_ok : M W Z := ret 0.
Definition test_get_rssi (old : Z) : M W (Z * Z) := ret (0, -80).
Definition test_count (packet_count : Z) : M W Z := ret 0.
Definition test_cw (frequency_hz power_dbm duration_ms : Z) : M W Z := ret 0.

(** [rzi_lora_backend] *)
Definition loopback_env : LoraEnv W := {|
  lora_of := @lora_of W app; set_lora := @set_lora W app;
  b_start := Some test_start; b_stop := Some test_stop; b_apply_config := Some test_apply;
  b_send := Some test_send; b_receive := Some test_receive;
  b_test_rssi := Some test_ok; b_test_get_rssi := Some test_get_rssi; b_test_tone := Some test_ok;
  b_test_tx := Some test_count; b_test_rx := Some test_count; b_test_cw := Some test_cw;
  b_test_stop := Some test_ok; b_poll := None;
  run_tx_done := @run_tx_done W app; run_rx_done := @run_rx_done W app;
|}.
End backend.

Section roundtrip.
Context {ctx : ExecCtx} `{app : LoraEnv W} `{!LoopbackEnv W}.
Abbreviation looped := (loopback_env (app := app)).
(** The variables of the service and the backend are apart, and the
    application's callback of a completed uplink touches neither. *)
Class LoopbackOk : Prop := {
  loopback_of_set l w : loopback_of (set_loopback l w) = l;
  lora_of_loopback l w : lora_of (set_loopback l w) = lora_of w;
}.
Context `{!LoopbackOk}.
Hypothesis tx_quiet : forall f e u, keeps loopback_of (run_tx_done f e u) /\ keeps lora_of (run_tx_done f e u).
Lemma publish_done_quiet e w :
  loopback_of (rzi_lora_publish_tx_done e w).2 = loopback_of w /\
  lora_of (rzi_lora_publish_tx_done e w).2 = lora_of w.
Proof.
  unfold rzi_lora_publish_tx_done, bind, lget, gets. destruct (negb _); [|done].
  destruct (tx_quiet (tx_done (l_callbacks (lora_of w))) e (lora_user_data (l_callbacks (lora_of w)))) as [H1 H2].
  split; [apply H1|apply H2].
Qed.
(** What the service sends is what it receives next: the payload goes out
    enciphered, the subscriber hears of the completed uplink before the call
    returns, and a reception delivers the payload that was sent - as many
    bytes, deciphered - to the subscriber. *)
Theorem loopback_roundtrip data size timeout_ms w :
  k_is_in_isr = false -> l_started (lora_of w) <> 0 -> 1 <= size <= RZI_LORA_MAX_PAYLOAD -> zlen data = size ->
  timeout_ms <> 0 -> rx_done (l_callbacks (lora_of w)) <> 0 ->
  let sent := @rzi_lora_send ctx W looped (Some data) size w in
  let cb := l_callbacks (lora_of w) in
  sent.1 = 0 /\
  take (Z.to_nat size) (last_payload (loopback_of sent.2)) = apply_cipher data (l_config (lora_of w)) /\
  @rzi_lora_receive ctx W looped timeout_ms sent.2 =
    (0, (lput (put_rx_active 1) (run_rx_done (rx_done cb) data size (-80) 0 (lora_user_data cb) sent.2).2).2).
Proof.
  intros Hisr Hst Hsize Hdata Ht Hrx sent cb. set (c := l_config (lora_of w)).
  set (framed := apply_cipher data c).
  assert (Hlen : length framed = Z.to_nat size) by (unfold framed; rewrite length_cipher; unfold zlen in *; lia).
  set (w1 := set_loopback (Loopback (overlay (last_payload (loopback_of w)) 0 framed) size) w).
  assert (Hsent : sent = (0, (rzi_lora_publish_tx_done 0 w1).2)).
  { unfold sent, rzi_lora_send, check_thread. rewrite Hisr. cbn [Z.eqb negb].
    destruct (Z.eqb_spec size 0); [lia|]. destruct (Z.ltb_spec RZI_LORA_MAX_PAYLOAD size); [lia|].
    unfold bind, lget, gets. cbn [b_send loopback_env lora_of].
    destruct (Z.eqb_spec (l_started (lora_of w)) 0); [done|]. fold c.
    rewrite take_ge by (unfold zlen in *; lia). fold framed. unfold test_send, lput_loop, bind, modify.
    rewrite take_ge by lia. fold w1. by destruct (rzi_lora_publish_tx_done 0 w1). }
  destruct (publish_done_quiet 0 w1) as [Hl Hs]. set (w2 := (rzi_lora_publish_tx_done 0 w1).2) in *.
  rewrite Hsent. cbn [fst snd]. unfold w1 in Hl, Hs. rewrite loopback_of_set in Hl. rewrite lora_of_loopback in Hs.
  assert (Htake : take (Z.to_nat size) (overlay (last_payload (loopback_of w)) 0 framed) = framed).
  { unfold overlay. rewrite take_0, app_nil_l, (take_app_le framed) by lia. by rewrite take_ge by lia. }
  split_and!; [done|by rewrite Hl|].
  unfold rzi_lora_receive, check_thread. rewrite Hisr. cbn [Z.eqb negb]. unfold bind, lget, gets.
  cbn [b_receive loopback_env lora_of]. rewrite Hs. destruct (Z.eqb_spec (l_started (lora_of w)) 0); [done|].
  unfold test_receive. destruct (Z.eqb_spec timeout_ms 0); [done|]. unfold bind, lget_loop, gets, id. rewrite Hl.
  cbn [last_size last_payload]. destruct (Z.ltb_spec 0 size); [|lia].
  unfold rzi_lora_publish_rx. destruct (Z.ltb_spec RZI_LORA_MAX_PAYLOAD size); [lia|].
  destruct (Z.eqb_spec size 0); [lia|]. unfold bind, lget, gets. rewrite Hs, Htake. fold c cb.
  unfold framed. rewrite cipher_involutive by done.
  destruct (Z.eqb_spec (rx_done cb) 0); [done|]. cbn [negb].
  destruct (run_rx_done (rx_done cb) data size (-80) 0 (lora_user_data cb) w2) as [u w3].
  unfold ret. cbn [fst snd Z.eqb]. done.
Qed.
End roundtrip.

(** ** A device with the loopback *)
Module LoopbackWitness.
Export Instances.
Record bench : Type := Bench { bn_lora : lora_state; bn_loop : loopback; bn_done : list Z; bn_got : list (list Z) }.
#[export] Instance bench_app : LoraEnv bench | 10 := {|
  lora_of := bn_lora; set_lora s w := Bench s (bn_loop w) (bn_done w) (bn_got w);
  b_start := None; b_stop := None; b_apply_config := None; b_send := None; b_receive := None;
  b_test_rssi := None; b_test_get_rssi := None; b_test_tone := None; b_test_tx := None;
  b_test_rx := None; b_test_cw := None; b_test_stop := None; b_poll := None;
  run_tx_done _ e _ w := (tt, Bench (bn_lora w) (bn_loop w) (bn_done w ++ [e]) (bn_got w));
  run_rx_done _ d _ _ _ _ w := (tt, Bench (bn_lora w) (bn_loop w) (bn_done w) (bn_got w ++ [d]));
|}.
#[export] Instance bench_loop : LoopbackEnv bench | 10 := {|
  loopback_of := bn_loop; set_loopback l w := Bench (bn_lora w) l (bn_done w) (bn_got w) |}.
#[export] Instance bench_ok : @LoopbackOk bench bench_app bench_loop. Proof. by split. Qed.
(** A service that enciphers. *)
Definition secret : rzi_lora_config :=
  LoraConfig 868000000 7 0 0 8 14 0x3444 false true (replicate 16 0x5A) (replicate 16 1)
    false false 49152 5000 0.
Definition bench_on : bench := Bench (LoraState 1 0 secret (LoraCallbacks 5 7 3) 0) loopback_init [] [].
Lemma loopback_roundtrip_witness :
  let sent := @rzi_lora_send _ bench loopback_env (Some [1; 2; 3]) 3 bench_on in
  take 3 (last_payload (loopback_of sent.2)) = [0x5A; 0x59; 0x58] /\ bn_done sent.2 = [0] /\
  bn_got (@rzi_lora_receive _ bench loopback_env 5000 sent.2).2 = [[1; 2; 3]].
Proof.
  pose proof (loopback_roundtrip (ctx := thread_ctx) (app := bench_app) ltac:(by split) [1; 2; 3] 3 5000 bench_on
    eq_refl ltac:(discriminate) ltac:(split; discriminate) eq_refl ltac:(discriminate) ltac:(discriminate)) as H.
  destruct H as (_&Hp&Hr). cbn zeta. split; [exact Hp|]. split; [vm_refl|]. rewrite Hr. vm_refl.
Defined.
End LoopbackWitness.
