(* ===== verification/Usp.v ===== *)
(** * The Semtech USP platform layer (src/usp/usp_platform.c, usp_platform.h)

    What the two USP backends share: the engine lock, the single consumer of
    modem events, and the mapping of the modem's return codes.  Below it is
    LoRa Basics Modem (LBM) and its glue, which is not in the repository: the
    class [Lbm] has its calls, with the enumerators the source names.  An
    output argument is a result; where the source hands the caller's cell to
    the modem, the call takes the cell's content and returns what it leaves
    there.

    The state is any type with these variables and the modem in it
    ([UspEnv]); the code behind the event handler is the class
    [UspHandlers]. *)
From S2P Require Import Prelude Zephyr Err.

(** ** Enumerators of smtc_modem_api.h; [_other] is any value not named. *)
Inductive smtc_modem_return_code_t : Type :=
| SMTC_MODEM_RC_OK | SMTC_MODEM_RC_NOT_INIT | SMTC_MODEM_RC_INVALID | SMTC_MODEM_RC_BUSY
| SMTC_MODEM_RC_FAIL | SMTC_MODEM_RC_NO_TIME | SMTC_MODEM_RC_INVALID_STACK_ID
| SMTC_MODEM_RC_NO_EVENT | SMTC_MODEM_RC_other (value : Z).
Inductive smtc_modem_event_txdone_status : Type :=
  SMTC_MODEM_EVENT_TXDONE_CONFIRMED | SMTC_MODEM_EVENT_TXDONE_SENT | SMTC_MODEM_EVENT_TXDONE_other.
Inductive smtc_modem_event_mac_request_status : Type :=
  SMTC_MODEM_EVENT_MAC_REQUEST_ANSWERED | SMTC_MODEM_EVENT_MAC_REQUEST_other.
Inductive smtc_modem_event_class_b_status : Type :=
  SMTC_MODEM_EVENT_CLASS_B_READY | SMTC_MODEM_EVENT_CLASS_B_NOT_READY | SMTC_MODEM_EVENT_CLASS_B_other.
Inductive smtc_modem_event_fmp_status : Type :=
  SMTC_MODEM_EVENT_FMP_REBOOT_IMMEDIATELY | SMTC_MODEM_EVENT_FMP_other.
(** [event_type] with the member of [event_data] it selects. *)
Inductive smtc_modem_event_type : Type :=
| SMTC_MODEM_EVENT_RESET
| SMTC_MODEM_EVENT_JOINED
| SMTC_MODEM_EVENT_JOINFAIL
| SMTC_MODEM_EVENT_TXDONE (status : smtc_modem_event_txdone_status)
| SMTC_MODEM_EVENT_DOWNDATA
| SMTC_MODEM_EVENT_REGIONAL_DUTY_CYCLE (status : Z)
| SMTC_MODEM_EVENT_NO_DOWNLINK_THRESHOLD (status : Z)
| SMTC_MODEM_EVENT_LINK_CHECK (status : smtc_modem_event_mac_request_status)
| SMTC_MODEM_EVENT_LORAWAN_MAC_TIME (status : smtc_modem_event_mac_request_status)
| SMTC_MODEM_EVENT_CLASS_B_STATUS (status : smtc_modem_event_class_b_status)
| SMTC_MODEM_EVENT_ALCSYNC_TIME
| SMTC_MODEM_EVENT_NEW_MULTICAST_SESSION_CLASS_C
| SMTC_MODEM_EVENT_NEW_MULTICAST_SESSION_CLASS_B
| SMTC_MODEM_EVENT_NO_MORE_MULTICAST_SESSION_CLASS_C
| SMTC_MODEM_EVENT_NO_MORE_MULTICAST_SESSION_CLASS_B
| SMTC_MODEM_EVENT_LORAWAN_FUOTA_DONE (successful : bool)
| SMTC_MODEM_EVENT_FIRMWARE_MANAGEMENT (status : smtc_modem_event_fmp_status)
| SMTC_MODEM_EVENT_other.
Record smtc_modem_event_t : Type := ModemEvent {
  event_type : smtc_modem_event_type; missed_events : Z;
}.
(** Its values are consecutive from each [_GRP0]: the group is the offset. *)
Inductive smtc_modem_dl_window_t : Type :=
| SMTC_MODEM_DL_WINDOW_RX1 | SMTC_MODEM_DL_WINDOW_RX2 | SMTC_MODEM_DL_WINDOW_RXC
| SMTC_MODEM_DL_WINDOW_RXC_MC_GRP0 | SMTC_MODEM_DL_WINDOW_RXC_MC_GRP1
| SMTC_MODEM_DL_WINDOW_RXC_MC_GRP2 | SMTC_MODEM_DL_WINDOW_RXC_MC_GRP3
| SMTC_MODEM_DL_WINDOW_RXB
| SMTC_MODEM_DL_WINDOW_RXB_MC_GRP0 | SMTC_MODEM_DL_WINDOW_RXB_MC_GRP1
| SMTC_MODEM_DL_WINDOW_RXB_MC_GRP2 | SMTC_MODEM_DL_WINDOW_RXB_MC_GRP3
| SMTC_MODEM_DL_WINDOW_other.
Record smtc_modem_dl_metadata_t : Type := DlMeta {
  fport : Z; meta_rssi : Z; meta_snr : Z; fpending_bit : Z; meta_window : smtc_modem_dl_window_t;
  meta_datarate : Z; meta_frequency_hz : Z;
}.
Inductive smtc_modem_mac_request_t : Type :=
  SMTC_MODEM_LORAWAN_MAC_REQ_LINK_CHECK | SMTC_MODEM_LORAWAN_MAC_REQ_DEVICE_TIME.
Inductive smtc_se_return_code_t : Type := SMTC_SE_RC_SUCCESS | SMTC_SE_RC_ERROR | SMTC_SE_RC_other.
Inductive smtc_se_key_identifier_t : Type := SMTC_SE_NWK_S_ENC_KEY | SMTC_SE_APP_S_KEY.
#[export] Instance return_code_eq_dec : EqDecision smtc_modem_return_code_t.
Proof. solve_decision. Defined.

(** ** The modem *)
(** Calls answer with a code, or a code and an output. *)
Definition smtc (lbm : Type) : Type := M lbm smtc_modem_return_code_t.
Definition smtc_out (lbm A : Type) : Type := M lbm (smtc_modem_return_code_t * A).
Class Lbm : Type := {
  lbm : Type;
  (* smtc_sw_platform_helper.h, smtc_rac_api.h, smtc_modem_utilities.h, smtc_modem_hal.h *)
  SMTC_SW_PLATFORM_INIT : M lbm unit;
  smtc_rac_init : M lbm unit;
  smtc_modem_init : M lbm unit;
  smtc_modem_hal_wake_up : lbm -> lbm;
  smtc_modem_hal_get_time_in_s : M lbm Z;
  smtc_modem_hal_context_restore : Z -> Z -> M lbm (list Z);
  smtc_modem_hal_reset_mcu : M lbm unit;
  smtc_modem_get_event : smtc_out lbm (smtc_modem_event_t * Z);
  (* smtc_modem_api.h: constants *)
  SMTC_MODEM_REGION_EU_868 : Z; SMTC_MODEM_REGION_US_915 : Z; SMTC_MODEM_REGION_AU_915 : Z;
  SMTC_MODEM_REGION_CN_470 : Z; SMTC_MODEM_REGION_AS_923_GRP1 : Z; SMTC_MODEM_REGION_AS_923_GRP2 : Z;
  SMTC_MODEM_REGION_AS_923_GRP3 : Z; SMTC_MODEM_REGION_AS_923_GRP4 : Z; SMTC_MODEM_REGION_IN_865 : Z;
  SMTC_MODEM_REGION_KR_920 : Z; SMTC_MODEM_REGION_RU_864 : Z;
  SMTC_MODEM_CLASS_A : Z; SMTC_MODEM_CLASS_B : Z; SMTC_MODEM_CLASS_C : Z;
  SMTC_MODEM_STATUS_JOINED : Z; SMTC_MODEM_STATUS_JOINING : Z;
  SMTC_MODEM_EVENT_NO_RX_THRESHOLD_ADR_BACKOFF_END : Z;
  SMTC_MODEM_EVENT_NO_RX_THRESHOLD_USER_THRESHOLD : Z;
  (* activation, uplinks, class *)
  smtc_modem_set_deveui : list Z -> smtc lbm;
  smtc_modem_set_joineui : list Z -> smtc lbm;
  smtc_modem_set_appkey : list Z -> smtc lbm;
  smtc_modem_set_nwkkey : list Z -> smtc lbm;
  smtc_modem_set_channel_mask : option (list Z) -> Z -> smtc lbm;
  smtc_modem_get_list_region : smtc_out lbm (list Z * Z);
  smtc_modem_set_region : Z -> smtc lbm;
  smtc_modem_set_join_duty_cycle_backoff_bypass : bool -> smtc lbm;
  smtc_modem_get_join_duty_cycle_backoff_bypass : smtc_out lbm bool;
  smtc_modem_join_network : smtc lbm;
  smtc_modem_leave_network : smtc lbm;
  smtc_modem_get_status : smtc_out lbm Z;
  smtc_modem_request_uplink : Z -> bool -> option (list Z) -> Z -> smtc lbm;
  smtc_modem_request_empty_uplink : bool -> Z -> bool -> smtc lbm;
  smtc_modem_get_downlink_data : list Z -> smtc_out lbm (list Z * Z * smtc_modem_dl_metadata_t * Z);
  smtc_modem_get_next_tx_max_payload : smtc_out lbm Z;
  smtc_modem_set_class : Z -> smtc lbm;
  smtc_modem_get_class : smtc_out lbm Z;
  smtc_modem_class_b_get_ping_slot_periodicity : smtc_out lbm Z;
  smtc_modem_class_b_set_ping_slot_periodicity : Z -> smtc lbm;
  (* MAC requests, time, certification *)
  smtc_modem_trig_lorawan_mac_request : smtc_modem_mac_request_t -> smtc lbm;
  smtc_modem_get_lorawan_link_check_data : smtc_out lbm (Z * Z);
  smtc_modem_get_lorawan_mac_time : Z * Z -> smtc_out lbm (Z * Z);
  smtc_modem_start_alcsync_service : smtc lbm;
  smtc_modem_get_certification_mode : bool -> smtc_out lbm bool;
  smtc_modem_set_certification_mode : bool -> smtc lbm;
  (* network parameters *)
  smtc_modem_adr_get_profile : smtc_out lbm Z;
  smtc_modem_adr_set_profile : Z -> list Z -> smtc lbm;
  smtc_modem_adr_set_join_distribution : option (list Z) -> smtc lbm;
  smtc_modem_get_enabled_datarates : Z -> smtc_out lbm Z;
  smtc_modem_get_nb_trans : Z -> smtc_out lbm Z;
  smtc_modem_set_nb_trans : Z -> smtc lbm;
  smtc_modem_get_adr_ack_limit_delay : Z * Z -> smtc_out lbm (Z * Z);
  smtc_modem_set_adr_ack_limit_delay : Z -> Z -> smtc lbm;
  smtc_modem_get_duty_cycle_status : Z -> smtc_out lbm Z;
  smtc_modem_get_network_type : bool -> smtc_out lbm bool;
  smtc_modem_set_network_type : bool -> smtc lbm;
  smtc_modem_lbt_get_state : bool -> smtc_out lbm bool;
  smtc_modem_lbt_set_state : bool -> smtc lbm;
  (* duration in ms, threshold in dBm, bandwidth in Hz *)
  smtc_modem_lbt_get_parameters : Z * Z * Z -> smtc_out lbm (Z * Z * Z);
  smtc_modem_lbt_set_parameters : Z -> Z -> Z -> smtc lbm;
  smtc_modem_csma_get_state : bool -> smtc_out lbm bool;
  smtc_modem_csma_set_state : bool -> smtc lbm;
  smtc_modem_csma_get_parameters : Z * bool * Z -> smtc_out lbm (Z * bool * Z);
  smtc_modem_csma_set_parameters : Z -> bool -> Z -> smtc lbm;
  smtc_modem_lorawan_get_lost_connection_counter : Z -> smtc_out lbm Z;
  smtc_modem_get_crystal_error_ppm : Z -> smtc_out lbm Z;
  smtc_modem_set_crystal_error_ppm : Z -> smtc lbm;
  (* multicast: group, address, keys; group, frequency, data rate *)
  smtc_modem_multicast_set_grp_config : Z -> Z -> list Z -> list Z -> smtc lbm;
  smtc_modem_multicast_class_c_start_session : Z -> Z -> Z -> smtc lbm;
  smtc_modem_multicast_class_b_start_session : Z -> Z -> Z -> Z -> smtc lbm;
  smtc_modem_multicast_class_c_stop_session : Z -> smtc lbm;
  smtc_modem_multicast_class_b_stop_session : Z -> smtc lbm;
  smtc_modem_multicast_class_c_stop_all_sessions : smtc lbm;
  smtc_modem_multicast_class_b_stop_all_sessions : smtc lbm;
  (* lorawan_api.h, the FUOTA packages, the secure element *)
  lorawan_api_devaddr_get : M lbm Z;
  lorawan_api_next_dr_get : M lbm Z;
  lorawan_api_next_join_time_second_get : M lbm Z;
  lorawan_api_set_no_rx_packet_threshold : Z -> M lbm unit;
  lorawan_api_get_no_rx_packet_threshold : M lbm Z;
  lorawan_register_fuota_callbacks : M lbm unit;
  lorawan_fragmentation_package_get_file_size : Z -> M lbm Z;
  smtc_secure_element_get_key : smtc_se_key_identifier_t -> list Z -> M lbm (smtc_se_return_code_t * list Z);
}.

(** [rzi_usp_result] *)
Definition rzi_usp_result (rc : smtc_modem_return_code_t) : Z :=
  match rc with
  | SMTC_MODEM_RC_OK => 0
  | SMTC_MODEM_RC_NOT_INIT => - RZI_ERR_NOT_READY
  | SMTC_MODEM_RC_INVALID | SMTC_MODEM_RC_INVALID_STACK_ID => - RZI_ERR_INVALID
  | SMTC_MODEM_RC_BUSY => - RZI_ERR_BUSY
  | SMTC_MODEM_RC_NO_TIME | SMTC_MODEM_RC_NO_EVENT => - RZI_ERR_NO_DATA
  | SMTC_MODEM_RC_FAIL | SMTC_MODEM_RC_other _ => - RZI_ERR_IO
  end.
Lemma usp_result_zero rc : (rzi_usp_result rc =? 0) = bool_decide (rc = SMTC_MODEM_RC_OK).
Proof. by destruct rc. Qed.

(** The file-scope variables, and the number of times the engine's recursive
    mutex [rac_api_mutex] is held by the running thread. *)
Record usp_platform : Type := UspPlatform {
  initialized : bool; reset_seen : bool; handler : Z; lock_depth : Z;
}.
Definition usp_platform_init : usp_platform := UspPlatform false false 0 0.
Definition put_initialized v p := UspPlatform v (reset_seen p) (handler p) (lock_depth p).
Definition put_reset_seen v p := UspPlatform (initialized p) v (handler p) (lock_depth p).
Definition put_handler v p := UspPlatform (initialized p) (reset_seen p) v (lock_depth p).
Definition put_lock_depth v p := UspPlatform (initialized p) (reset_seen p) (handler p) v.

Class UspEnv `{Lbm} (W : Type) : Type := {
  platform_of : W -> usp_platform; set_platform : usp_platform -> W -> W;
  lbm_of : W -> lbm; set_lbm : lbm -> W -> W;
}.
Class UspEnvOk `{UspEnv W} : Prop := {
  platform_of_set p w : platform_of (set_platform p w) = p;
  platform_of_lbm l w : platform_of (set_lbm l w) = platform_of w;
  lbm_of_set l w : lbm_of (set_lbm l w) = l;
  lbm_of_platform p w : lbm_of (set_platform p w) = lbm_of w;
}.
(** [handler(event, error)]; a NULL event is [None] *)
Class UspHandlers (W : Type) : Type := {
  run_handler : Z -> option smtc_modem_event_t -> Z -> M W unit;
}.

Section platform.
Context `{UspEnv W}.
Definition modem {A} (m : M lbm A) : M W A := zoom lbm_of set_lbm m.
Definition pget {A} (f : usp_platform -> A) : M W A := gets (fun w => f (platform_of w)).
Definition pput (f : usp_platform -> usp_platform) : M W unit :=
  modify (fun w => set_platform (f (platform_of w)) w).
(** [rzi_usp_result(f(...))], without and with an output *)
Definition usp_call (m : smtc lbm) : M W Z := let* rc := modem m in ret (rzi_usp_result rc).
Definition usp_read {A} (m : smtc_out lbm A) : M W (Z * A) :=
  let* '(rc, a) := modem m in ret (rzi_usp_result rc, a).

Definition rzi_usp_lock : M W unit := pput (fun p => put_lock_depth (lock_depth p + 1) p).
Definition rzi_usp_unlock : M W unit :=
  pput (fun p => put_lock_depth (lock_depth p - 1) p) ;;; modem (modify smtc_modem_hal_wake_up).

Definition rzi_usp_init : M W unit :=
  let* done := pget initialized in
  if negb done then
    modem SMTC_SW_PLATFORM_INIT ;;;
    rzi_usp_lock ;;;
    modem smtc_rac_init ;;;
    modem smtc_modem_init ;;;
    pput (put_initialized true) ;;;
    rzi_usp_unlock
  else ret tt.

Section events.
Context `{!UspHandlers W}.
Definition call_handler (event : option smtc_modem_event_t) (error : Z) : M W unit :=
  let* h := pget handler in if negb (h =? 0) then run_handler h event error else ret tt.
Definition is_reset (event : smtc_modem_event_t) : bool :=
  match event_type event with SMTC_MODEM_EVENT_RESET => true | _ => false end.
(** What the loop does with one event. *)
Definition deliver_event (event : smtc_modem_event_t) : M W unit :=
  (if is_reset event then pput (put_reset_seen true) else ret tt) ;;; call_handler (Some event) 0.
(** [do { ... } while (pending > 0)]; [pending] is a [uint8_t]. *)
Fixpoint event_loop (fuel : nat) : M W unit :=
  match fuel with
  | O => ret tt
  | S fuel =>
      let* '(rc, (event, pending)) := modem smtc_modem_get_event in
      match rc with
      | SMTC_MODEM_RC_NO_EVENT => ret tt
      | SMTC_MODEM_RC_OK =>
          deliver_event event ;;; (if 0 <? pending then event_loop fuel else ret tt)
      | _ => call_handler None (rzi_usp_result rc)
      end
  end.
Definition modem_event_callback : M W unit := event_loop 256.

Definition rzi_usp_set_event_handler (next : Z) : M W unit :=
  pput (put_handler next) ;;;
  let* p := pget id in
  if negb (handler p =? 0) && reset_seen p
  then run_handler (handler p) (Some (ModemEvent SMTC_MODEM_EVENT_RESET 0)) 0
  else ret tt.
End events.
End platform.

(** ** The event callback *)
(** Documented behaviour of the modem's event queue: reading takes the oldest
    event and tells how many wait behind it. *)
Class LbmEventsOk `{Lbm} : Type := {
  queued : lbm -> list smtc_modem_event_t;
  get_event_some l e rest : queued l = e :: rest -> zlen rest < 256 ->
    (smtc_modem_get_event l).1 = (SMTC_MODEM_RC_OK, (e, zlen rest)) /\
    queued (smtc_modem_get_event l).2 = rest;
  get_event_none l : queued l = [] -> (smtc_modem_get_event l).1.1 = SMTC_MODEM_RC_NO_EVENT /\
    queued (smtc_modem_get_event l).2 = [];
}.
Lemma modem_eq `{UspEnv W} {A} (m : M lbm A) (w : W) :
  modem m w = ((m (lbm_of w)).1, set_lbm (m (lbm_of w)).2 w).
Proof. unfold modem, zoom. by destruct (m (lbm_of w)). Qed.
Section callback.
Context `{UspEnv W} `{!UspEnvOk} `{!UspHandlers W} `{!LbmEventsOk}.
Definition waiting (w : W) : list smtc_modem_event_t := queued (lbm_of w).
(** Take the oldest event from the queue and hand it over. *)
Definition take_and_deliver (e : smtc_modem_event_t) : M W unit :=
  modem smtc_modem_get_event ;;; deliver_event e.
(** Handling an event queues no other. *)
Hypothesis handler_quiet : forall e, keeps waiting (deliver_event e).

Lemma event_loop_delivers n w : waiting w <> [] -> (length (waiting w) <= n)%nat -> zlen (waiting w) <= 256 ->
  event_loop n w = for_each (waiting w) take_and_deliver w /\ waiting (event_loop n w).2 = [].
Proof.
  revert w. induction n as [|n IH]; intros w Hne Hn Hb; [by destruct (waiting w); [|cbn in Hn; lia]|].
  destruct (waiting w) as [|e rest] eqn:Ew; [done|]. unfold zlen in Hb. cbn in Hn, Hb.
  destruct (get_event_some (lbm_of w) e rest Ew) as [Hget Hrest]; [unfold zlen; lia|].
  cbn [event_loop for_each]. unfold take_and_deliver at 1. rewrite !bind_eq, !modem_eq, Hget.
  set (w1 := set_lbm _ w). cbn [fst snd]. rewrite bind_eq.
  pose proof (handler_quiet e w1) as Hq. destruct (deliver_event e w1) as [u w2]. cbn [fst snd] in *.
  assert (Hw2 : waiting w2 = rest).
  { unfold same in Hq. rewrite Hq. unfold waiting, w1. by rewrite lbm_of_set. }
  clearbody w1.
  destruct rest as [|e2 rest]; [by split|].
  destruct (Z.ltb_spec 0 (zlen (e2 :: rest))) as [_|Hz]; [|unfold zlen in Hz; cbn in Hz; lia].
  rewrite <- Hw2. apply IH; rewrite Hw2; [done|cbn in *; lia|unfold zlen; cbn in *; lia].
Qed.
(** C29: The callback hands every waiting event to the handler, once and in order,
    and ends with the queue empty; 256 rounds are enough, since the modem
    counts the events behind the one it returns in eight bits. *)
Theorem modem_event_callback_delivers w : zlen (waiting w) <= 256 ->
  waiting (modem_event_callback w).2 = [] /\
  (waiting w <> [] -> forall n, (length (waiting w) <= n)%nat ->
    modem_event_callback w = for_each (waiting w) take_and_deliver w /\
    event_loop n w = modem_event_callback w).
Proof.
  intros Hb. assert (Hl : (length (waiting w) <= 256)%nat) by (unfold zlen in Hb; lia).
  destruct (waiting w) as [|e rest] eqn:Ew.
  - split; [|done]. unfold modem_event_callback. cbn [event_loop]. rewrite bind_eq, modem_eq.
    destruct (get_event_none (lbm_of w) Ew) as [Hrc Hq].
    destruct (smtc_modem_get_event (lbm_of w)) as [[rc [e p]] l]. cbn [fst snd] in *. subst rc.
    unfold waiting. cbn. by rewrite lbm_of_set.
  - assert (Hw : waiting w <> []) by (rewrite Ew; done). rewrite <- Ew in *.
    destruct (event_loop_delivers 256 w) as [Heq Hend]; try done.
    split; [done|]. intros _ n Hn. split; [done|]. unfold modem_event_callback. rewrite Heq.
    by apply event_loop_delivers.
Qed.
End callback.

(** ** The lock *)
(** How often the running thread holds the engine lock, and code that gives
    it back once. *)
Section lock.
Context `{UspEnv W} `{!UspEnvOk}.
Definition depth_of (w : W) : Z := lock_depth (platform_of w).
Definition gives_back {A} (m : M W A) : Prop := forall w, depth_of (m w).2 = depth_of w - 1.
Lemma modem_depth {A} (m : M lbm A) : keeps depth_of (modem m).
Proof. intros w. unfold same, depth_of. rewrite modem_eq. cbn. by rewrite platform_of_lbm. Qed.
Lemma gives_back_bind {A B} (m : M W A) (k : A -> M W B) :
  keeps depth_of m -> (forall a, gives_back (k a)) -> gives_back (bind m k).
Proof.
  intros Hm Hk w. rewrite bind_eq. specialize (Hm w). unfold same in Hm. rewrite <- Hm. apply Hk.
Qed.
Lemma unlock_gives_back {A} (a : A) : gives_back (rzi_usp_unlock ;;; ret a).
Proof.
  intros w. rewrite bind_eq. cbn [ret snd]. unfold rzi_usp_unlock. rewrite bind_eq, modem_depth.
  unfold depth_of. cbn. by rewrite platform_of_set.
Qed.
Lemma lock_balanced {A} (k : M W A) : gives_back k -> keeps depth_of (rzi_usp_lock ;;; k).
Proof.
  intros Hk w. unfold same. rewrite bind_eq, Hk. unfold depth_of. cbn. rewrite platform_of_set. cbn. lia.
Qed.
Lemma init_depth : keeps depth_of rzi_usp_init.
Proof.
  unfold rzi_usp_init. apply respects_bind; [apply _|by intros w|intros d].
  destruct (negb d); [|by intros w]. apply respects_bind; [apply _|apply modem_depth|intros _]. intros w. unfold same.
  enough (Hk : keeps depth_of (rzi_usp_lock ;;; (modem smtc_rac_init ;;; modem smtc_modem_init ;;;
    pput (put_initialized true) ;;; rzi_usp_unlock ;;; ret tt))).
  { specialize (Hk w). unfold same in Hk. rewrite <- Hk. by rewrite !bind_eq. }
  apply lock_balanced. do 2 (apply gives_back_bind; [apply modem_depth|intros _]).
  apply gives_back_bind; [|intros _; apply unlock_gives_back].
  intros v. unfold same, depth_of. cbn. by rewrite platform_of_set.
Qed.
End lock.
