(* ===== verification/UspBackend.v ===== *)
(** * The USP LoRaWAN backend: base operations and modem events
    (src/lorawan/backend/usp/lorawan_backend_usp.c, lorawan_backend_usp_priv.h)

    An implementation of the operation tables of LorawanBackend.v over LoRa
    Basics Modem.  The modem does the waiting: an operation is one critical
    section under the engine lock, and the engine reports back through the
    event handler [handle_event], which runs under the same lock.  The
    feature operations are in UspFeatures.v. *)
From S2P Require Import Prelude Zephyr Err Power Storage LorawanSettings LorawanBackend LorawanCredentials Usp.

(** Enumerators of lorawan.h *)
Abbreviation RZI_LORAWAN_CLASS_B_IDLE := 0.
Abbreviation RZI_LORAWAN_CLASS_B_ACQUIRING_BEACON := 1.
Abbreviation RZI_LORAWAN_CLASS_B_ACTIVE := 4.
Abbreviation RZI_LORAWAN_RX_WINDOW_UNKNOWN := 0.
Abbreviation RZI_LORAWAN_RX_WINDOW_RX1 := 1.
Abbreviation RZI_LORAWAN_RX_WINDOW_RX2 := 2.
Abbreviation RZI_LORAWAN_RX_WINDOW_RXC := 3.
Abbreviation RZI_LORAWAN_RX_WINDOW_RXB := 4.
Abbreviation RZI_LORAWAN_DOWNLINK_FPENDING := 1.
Abbreviation RZI_LORAWAN_DOWNLINK_MULTICAST := 4.
Abbreviation RZI_LORAWAN_EVENT_NO_RX_THRESHOLD_ADR_BACKOFF_END := 1.
Abbreviation RZI_LORAWAN_EVENT_NO_RX_THRESHOLD_USER_THRESHOLD := 2.

(** The Kconfig options of this backend, and include/rzi/version.h. *)
Class UspConfig : Type := {
  CONFIG_LORA_BASICS_MODEM_CLASS_B : bool;
  CONFIG_LORA_BASICS_MODEM_CLASS_C : bool;
  CONFIG_LORA_BASICS_MODEM_MULTICAST : bool;
  CONFIG_LORA_BASICS_MODEM_CSMA : bool;
  CONFIG_LORA_BASICS_MODEM_FUOTA_V2 : bool;
  CONFIG_RZI_LORAWAN_FUOTA_HW_VERSION : Z;
}.
Abbreviation RZI_VERSION_MAJOR := 0.
Abbreviation RZI_VERSION_MINOR := 2.
Abbreviation RZI_VERSION_PATCH := 0.
(** [rzi_version_get_string] (common_version.c) *)
Definition rzi_version_get_string : string := "0.2.0".

(** ** The file-scope variables *)
Record usp_vars : Type := UspVars {
  u_ready : bool; u_tx_pending : bool; u_credentials_valid : bool;
  u_join_settings : rzi_lorawan_join_config; u_join_backoff_bypass : bool; u_region : Z;
  u_event_sink : Z; u_class_b_state : Z; u_fuota_image_ready : bool;
}.
Definition u_set_ready v s := UspVars v (u_tx_pending s) (u_credentials_valid s) (u_join_settings s)
  (u_join_backoff_bypass s) (u_region s) (u_event_sink s) (u_class_b_state s) (u_fuota_image_ready s).
Definition u_set_tx_pending v s := UspVars (u_ready s) v (u_credentials_valid s) (u_join_settings s)
  (u_join_backoff_bypass s) (u_region s) (u_event_sink s) (u_class_b_state s) (u_fuota_image_ready s).
Definition u_set_join config s := UspVars (u_ready s) (u_tx_pending s) true config
  (u_join_backoff_bypass s) (u_region s) (u_event_sink s) (u_class_b_state s) (u_fuota_image_ready s).
Definition u_set_start region bypass sink s := UspVars (u_ready s) (u_tx_pending s)
  (u_credentials_valid s) (u_join_settings s) bypass region sink (u_class_b_state s) (u_fuota_image_ready s).
Definition u_set_class_b_state v s := UspVars (u_ready s) (u_tx_pending s) (u_credentials_valid s)
  (u_join_settings s) (u_join_backoff_bypass s) (u_region s) (u_event_sink s) v (u_fuota_image_ready s).
Definition u_set_fuota_image_ready v s := UspVars (u_ready s) (u_tx_pending s) (u_credentials_valid s)
  (u_join_settings s) (u_join_backoff_bypass s) (u_region s) (u_event_sink s) (u_class_b_state s) v.
(** Static initialisation. *)
Definition usp_vars_init : usp_vars :=
  UspVars false false false
    (JoinConfig RZI_LORAWAN_ACTIVATION_OTAA 0 false (replicate 6 0)
      (inl (JoinOtaa (replicate 8 0) (replicate 8 0) (replicate 16 0) (replicate 16 0) 0)))
    false 0 0 RZI_LORAWAN_CLASS_B_IDLE false.
(** lorawan_backend_usp_multicast.c: [multicast\[\]] and [multicast_used\[\]] *)
Record usp_multicast_vars : Type := UspMulticast {
  multicast_sessions : list rzi_lorawan_multicast_session; multicast_used : list bool;
}.
Abbreviation MULTICAST_GROUPS := 4.
Definition session_zero : rzi_lorawan_multicast_session :=
  McSession 0 0 (replicate 16 0) (replicate 16 0) 0 0 0 0.
Definition usp_multicast_init : usp_multicast_vars :=
  UspMulticast (replicate 4 session_zero) (replicate 4 false).

(** [handle_event] as the handler's function pointer, and the service's sink. *)
Abbreviation LORAWAN_HANDLER := 1.
Abbreviation USP_SINK := 1.

Section backend.
Context `{Kconfig} `{UspConfig} `{Lbm}.

(** ** The state: the variables of the backend's files and of the platform,
    the modem below, and the events handed to the sink, in order. *)
Record usp_state : Type := UspState {
  us_vars : usp_vars; us_cert_port : bool; us_multicast : usp_multicast_vars;
  us_platform : usp_platform; us_lbm : lbm; us_events : list rzi_lorawan_backend_event;
}.
Definition set_us_vars v s := UspState v (us_cert_port s) (us_multicast s) (us_platform s) (us_lbm s) (us_events s).
Definition set_us_cert_port v s := UspState (us_vars s) v (us_multicast s) (us_platform s) (us_lbm s) (us_events s).
Definition set_us_multicast v s := UspState (us_vars s) (us_cert_port s) v (us_platform s) (us_lbm s) (us_events s).
Definition set_us_platform v s := UspState (us_vars s) (us_cert_port s) (us_multicast s) v (us_lbm s) (us_events s).
Definition set_us_lbm v s := UspState (us_vars s) (us_cert_port s) (us_multicast s) (us_platform s) v (us_events s).
Definition set_us_events v s := UspState (us_vars s) (us_cert_port s) (us_multicast s) (us_platform s) (us_lbm s) v.
#[export] Instance usp_env : UspEnv usp_state := {|
  platform_of := us_platform; set_platform := set_us_platform; lbm_of := us_lbm; set_lbm := set_us_lbm;
|}.
#[export] Instance usp_env_ok : UspEnvOk.
Proof. by split. Qed.
Definition uget {A} (f : usp_vars -> A) : M usp_state A := gets (fun s => f (us_vars s)).
Definition uput (f : usp_vars -> usp_vars) : M usp_state unit :=
  modify (fun s => set_us_vars (f (us_vars s)) s).
Definition when (b : bool) (m : M usp_state unit) : M usp_state unit := if b then m else ret tt.

Definition usp_boot (l : lbm) : usp_state :=
  UspState usp_vars_init true usp_multicast_init usp_platform_init l [].

Definition usp_regions : list Z :=
  [SMTC_MODEM_REGION_EU_868; SMTC_MODEM_REGION_US_915; SMTC_MODEM_REGION_AU_915;
   SMTC_MODEM_REGION_CN_470; SMTC_MODEM_REGION_AS_923_GRP1; SMTC_MODEM_REGION_AS_923_GRP2;
   SMTC_MODEM_REGION_AS_923_GRP3; SMTC_MODEM_REGION_AS_923_GRP4; SMTC_MODEM_REGION_IN_865;
   SMTC_MODEM_REGION_KR_920; SMTC_MODEM_REGION_RU_864].
(** [map_region]; [None] is -RZI_ERR_INVALID *)
Definition usp_map_region (value : Z) : option Z := usp_regions !! Z.to_nat (u32 value).

Definition rzi_lorawan_usp_publish (event : rzi_lorawan_backend_event) : M usp_state unit :=
  modify (fun s => set_us_events (us_events s ++ [event]) s).
Definition publish_error (error : Z) : M usp_state unit :=
  rzi_lorawan_usp_publish (BACKEND_ERROR error).

(** ** Configuration of the modem *)
(** The member of the union; [usp_join] keeps an OTAA configuration only. *)
Definition usp_join_otaa (config : rzi_lorawan_join_config) : rzi_lorawan_join_otaa :=
  match j_params config with
  | inl otaa => otaa
  | inr _ => JoinOtaa (replicate 8 0) (replicate 8 0) (replicate 16 0) (replicate 16 0) 0
  end.
Definition configure_credentials : M usp_state Z :=
  let* settings := uget u_join_settings in
  let otaa := usp_join_otaa settings in
  rc* rc := usp_call (smtc_modem_set_deveui (j_dev_eui otaa)) else rc in
  rc* rc := usp_call (smtc_modem_set_joineui (j_join_eui otaa)) else rc in
  rc* rc := usp_call (smtc_modem_set_appkey (j_application_key otaa)) else rc in
  rc* rc := usp_call (smtc_modem_set_nwkkey (j_network_key otaa)) else rc in
  ret 0.

(** [mask\[\]]: two bytes per word, low byte first *)
Definition mask_bytes (words : list Z) : list Z :=
  flat_map (fun w => [u8 w; u8 (Z.shiftr w 8)]) words.
Definition configure_channel_mask : M usp_state Z :=
  let* region := uget u_region in
  let* settings := uget u_join_settings in
  if negb (region =? SMTC_MODEM_REGION_US_915) && negb (region =? SMTC_MODEM_REGION_AU_915) then ret 0
  else if negb (j_channel_mask_set settings) then usp_call (smtc_modem_set_channel_mask None 0)
  else
    let mask := mask_bytes (take (Z.to_nat RZI_LORAWAN_CHANNEL_MASK_WORDS) (j_channel_mask settings)) in
    let* result := modem (smtc_modem_set_channel_mask (Some mask) (2 * RZI_LORAWAN_CHANNEL_MASK_WORDS)) in
    ret (if bool_decide (result = SMTC_MODEM_RC_FAIL) then - RZI_ERR_NOT_SUPPORTED else rzi_usp_result result).

Definition check_region_built : M usp_state Z :=
  let* region := uget u_region in
  let* '(rc, (built, count)) := usp_read smtc_modem_get_list_region in
  if negb (rc =? 0) then ret rc
  else
    ret (if existsb (fun b => b =? region) (take (Z.to_nat (Z.min count 32)) built) then 0
         else - RZI_ERR_NOT_SUPPORTED).
Definition configure_service : M usp_state Z :=
  rc* rc := check_region_built else rc in
  let* region := uget u_region in
  rc* rc := usp_call (smtc_modem_set_region region) else rc in
  let* bypass := uget u_join_backoff_bypass in
  rc* rc := usp_call (smtc_modem_set_join_duty_cycle_backoff_bypass bypass) else rc in
  ret 0.

(** ** Events of the modem *)
(** [map_window]: the window, the multicast flag and the group. *)
Definition map_window (window : smtc_modem_dl_window_t) : Z * Z * Z :=
  match window with
  | SMTC_MODEM_DL_WINDOW_RX1 => (RZI_LORAWAN_RX_WINDOW_RX1, 0, 0)
  | SMTC_MODEM_DL_WINDOW_RX2 => (RZI_LORAWAN_RX_WINDOW_RX2, 0, 0)
  | SMTC_MODEM_DL_WINDOW_RXC => (RZI_LORAWAN_RX_WINDOW_RXC, 0, 0)
  | SMTC_MODEM_DL_WINDOW_RXC_MC_GRP0 => (RZI_LORAWAN_RX_WINDOW_RXC, RZI_LORAWAN_DOWNLINK_MULTICAST, 0)
  | SMTC_MODEM_DL_WINDOW_RXC_MC_GRP1 => (RZI_LORAWAN_RX_WINDOW_RXC, RZI_LORAWAN_DOWNLINK_MULTICAST, 1)
  | SMTC_MODEM_DL_WINDOW_RXC_MC_GRP2 => (RZI_LORAWAN_RX_WINDOW_RXC, RZI_LORAWAN_DOWNLINK_MULTICAST, 2)
  | SMTC_MODEM_DL_WINDOW_RXC_MC_GRP3 => (RZI_LORAWAN_RX_WINDOW_RXC, RZI_LORAWAN_DOWNLINK_MULTICAST, 3)
  | SMTC_MODEM_DL_WINDOW_RXB => (RZI_LORAWAN_RX_WINDOW_RXB, 0, 0)
  | SMTC_MODEM_DL_WINDOW_RXB_MC_GRP0 => (RZI_LORAWAN_RX_WINDOW_RXB, RZI_LORAWAN_DOWNLINK_MULTICAST, 0)
  | SMTC_MODEM_DL_WINDOW_RXB_MC_GRP1 => (RZI_LORAWAN_RX_WINDOW_RXB, RZI_LORAWAN_DOWNLINK_MULTICAST, 1)
  | SMTC_MODEM_DL_WINDOW_RXB_MC_GRP2 => (RZI_LORAWAN_RX_WINDOW_RXB, RZI_LORAWAN_DOWNLINK_MULTICAST, 2)
  | SMTC_MODEM_DL_WINDOW_RXB_MC_GRP3 => (RZI_LORAWAN_RX_WINDOW_RXB, RZI_LORAWAN_DOWNLINK_MULTICAST, 3)
  | SMTC_MODEM_DL_WINDOW_other => (RZI_LORAWAN_RX_WINDOW_UNKNOWN, 0, 0)
  end.
Definition usp_downlink (data : list Z) (size : Z) (meta : smtc_modem_dl_metadata_t) : downlink_info :=
  let '(window, multicast, group) := map_window (meta_window meta) in
  Downlink (fport meta) size (meta_rssi meta - 64) (meta_snr meta)
    (Z.lor (if negb (fpending_bit meta =? 0) then RZI_LORAWAN_DOWNLINK_FPENDING else 0) multicast)
    window group (meta_datarate meta) (meta_frequency_hz meta) data.
(** [do { ... } while (remaining > 0)]; [remaining] is a [uint8_t] and the
    buffer of the event is used again by the next round. *)
Fixpoint downlink_loop (fuel : nat) (buffer : list Z) : M usp_state unit :=
  match fuel with
  | O => ret tt
  | S fuel =>
      let* '(rc, (data, size, meta, remaining)) := modem (smtc_modem_get_downlink_data buffer) in
      if bool_decide (rc = SMTC_MODEM_RC_OK) then
        rzi_lorawan_usp_publish (BACKEND_DOWNLINK (usp_downlink data size meta)) ;;;
        (if 0 <? remaining then downlink_loop fuel data else ret tt)
      else publish_error (rzi_usp_result rc)
  end.
Definition publish_downlinks : M usp_state unit :=
  downlink_loop 256 (replicate (Z.to_nat RZI_LORAWAN_MAX_PAYLOAD) 0).

Definition rzi_lorawan_usp_set_class_b_state (state : Z) : M usp_state bool :=
  let* old := uget u_class_b_state in
  if old =? state then ret false else uput (u_set_class_b_state state) ;;; ret true.
Definition rzi_lorawan_usp_publish_class_b (state : Z) : M usp_state unit :=
  let* sink := uget u_event_sink in
  when (negb (sink =? 0)) (rzi_lorawan_usp_publish (BACKEND_CLASS_B state)).
Definition rzi_lorawan_usp_class_b_state : M usp_state Z := uget u_class_b_state.

Definition handle_reset : M usp_state unit :=
  uput (u_set_ready false) ;;;
  uput (u_set_tx_pending false) ;;;
  when CONFIG_RZI_LORAWAN_FUOTA (uput (u_set_fuota_image_ready false)) ;;;
  let* rc := configure_service in
  let* valid := uget u_credentials_valid in
  let* rc := (if (rc =? 0) && valid then configure_credentials else ret rc) in
  if negb (rc =? 0) then publish_error rc
  else
    uput (u_set_ready true) ;;;
    rzi_lorawan_usp_publish BACKEND_READY.
Definition txdone_event (status : smtc_modem_event_txdone_status) : rzi_lorawan_backend_event :=
  match status with
  | SMTC_MODEM_EVENT_TXDONE_CONFIRMED => BACKEND_TX_DONE TXDONE_CONFIRMED 0
  | SMTC_MODEM_EVENT_TXDONE_SENT => BACKEND_TX_DONE TXDONE_SENT 0
  | SMTC_MODEM_EVENT_TXDONE_other => BACKEND_TX_DONE TXDONE_NOT_SENT (- RZI_ERR_IO)
  end.
Definition no_downlink_reasons (status : Z) : Z :=
  Z.lor (if negb (Z.land status SMTC_MODEM_EVENT_NO_RX_THRESHOLD_ADR_BACKOFF_END =? 0)
         then RZI_LORAWAN_EVENT_NO_RX_THRESHOLD_ADR_BACKOFF_END else 0)
        (if negb (Z.land status SMTC_MODEM_EVENT_NO_RX_THRESHOLD_USER_THRESHOLD =? 0)
         then RZI_LORAWAN_EVENT_NO_RX_THRESHOLD_USER_THRESHOLD else 0).
Definition answered (status : smtc_modem_event_mac_request_status) : bool :=
  match status with SMTC_MODEM_EVENT_MAC_REQUEST_ANSWERED => true | _ => false end.
Definition publish_fuota (kind : fuota_kind) : M usp_state unit :=
  when CONFIG_RZI_LORAWAN_FUOTA (rzi_lorawan_usp_publish (BACKEND_FUOTA kind true 0)).
Definition handle_type (type : smtc_modem_event_type) : M usp_state unit :=
  match type with
  | SMTC_MODEM_EVENT_RESET => handle_reset
  | SMTC_MODEM_EVENT_JOINED =>
      when CONFIG_RZI_LORAWAN_FUOTA (uput (u_set_fuota_image_ready false)) ;;;
      rzi_lorawan_usp_publish BACKEND_JOINED
  | SMTC_MODEM_EVENT_JOINFAIL => rzi_lorawan_usp_publish (BACKEND_JOIN_FAILED (- RZI_ERR_TIMEOUT))
  | SMTC_MODEM_EVENT_TXDONE status =>
      uput (u_set_tx_pending false) ;;; rzi_lorawan_usp_publish (txdone_event status)
  | SMTC_MODEM_EVENT_DOWNDATA => publish_downlinks
  | SMTC_MODEM_EVENT_REGIONAL_DUTY_CYCLE status =>
      rzi_lorawan_usp_publish (BACKEND_DUTY_CYCLE (negb (status =? 0)))
  | SMTC_MODEM_EVENT_NO_DOWNLINK_THRESHOLD status =>
      rzi_lorawan_usp_publish (BACKEND_NO_DOWNLINK (no_downlink_reasons status))
  | SMTC_MODEM_EVENT_LINK_CHECK status =>
      if answered status then
        let* '(rc, (margin, gateways)) := modem smtc_modem_get_lorawan_link_check_data in
        when (bool_decide (rc = SMTC_MODEM_RC_OK))
          (rzi_lorawan_usp_publish (BACKEND_LINK_CHECK (LinkCheck margin gateways 0 0)))
      else ret tt
  | SMTC_MODEM_EVENT_LORAWAN_MAC_TIME status =>
      let error := if answered status then 0 else - RZI_ERR_TIMEOUT in
      rzi_lorawan_usp_publish (BACKEND_DEVICE_TIME error) ;;;
      when (error =? 0) (publish_fuota FUOTA_CLOCK_SYNCED)
  | SMTC_MODEM_EVENT_CLASS_B_STATUS status =>
      let next := match status with
                  | SMTC_MODEM_EVENT_CLASS_B_READY => Some RZI_LORAWAN_CLASS_B_ACTIVE
                  | SMTC_MODEM_EVENT_CLASS_B_NOT_READY => Some RZI_LORAWAN_CLASS_B_IDLE
                  | SMTC_MODEM_EVENT_CLASS_B_other => None
                  end in
      match next with
      | None => ret tt
      | Some next =>
          let* changed := rzi_lorawan_usp_set_class_b_state next in
          when changed (rzi_lorawan_usp_publish_class_b next)
      end
  | SMTC_MODEM_EVENT_ALCSYNC_TIME => publish_fuota FUOTA_CLOCK_SYNCED
  | SMTC_MODEM_EVENT_NEW_MULTICAST_SESSION_CLASS_C
  | SMTC_MODEM_EVENT_NEW_MULTICAST_SESSION_CLASS_B => publish_fuota FUOTA_SESSION_STARTED
  | SMTC_MODEM_EVENT_NO_MORE_MULTICAST_SESSION_CLASS_C
  | SMTC_MODEM_EVENT_NO_MORE_MULTICAST_SESSION_CLASS_B => publish_fuota FUOTA_SESSION_ENDED
  | SMTC_MODEM_EVENT_LORAWAN_FUOTA_DONE successful =>
      when CONFIG_RZI_LORAWAN_FUOTA
        (uput (u_set_fuota_image_ready successful) ;;;
         let* size := (if CONFIG_LORA_BASICS_MODEM_FUOTA_V2 && successful
                       then modem (lorawan_fragmentation_package_get_file_size 0) else ret 0) in
         rzi_lorawan_usp_publish (BACKEND_FUOTA FUOTA_TRANSFER_DONE successful size))
  | SMTC_MODEM_EVENT_FIRMWARE_MANAGEMENT status =>
      match status with
      | SMTC_MODEM_EVENT_FMP_REBOOT_IMMEDIATELY => publish_fuota FUOTA_REBOOT_REQUESTED
      | SMTC_MODEM_EVENT_FMP_other => ret tt
      end
  | SMTC_MODEM_EVENT_other => ret tt
  end.
Definition handle_event (source : option smtc_modem_event_t) (error : Z) : M usp_state unit :=
  match source with
  | None => publish_error error
  | Some source =>
      when (0 <? missed_events source) (publish_error (- RZI_ERR_OVERFLOW)) ;;;
      handle_type (event_type source)
  end.
#[export] Instance usp_handlers : UspHandlers usp_state := {|
  run_handler h event error := if h =? LORAWAN_HANDLER then handle_event event error else ret tt;
|}.

(** ** Helpers of the operations (lorawan_backend_usp_priv.h) *)
Definition rzi_lorawan_usp_enter : M usp_state Z :=
  rzi_usp_lock ;;;
  let* ready := uget u_ready in
  if negb ready then rzi_usp_unlock ;;; ret (- RZI_ERR_NOT_READY) else ret 0.
Definition rzi_lorawan_usp_finish {A} (a : A) : M usp_state A := rzi_usp_unlock ;;; ret a.
Definition rzi_lorawan_usp_require_joined : M usp_state Z :=
  let* '(rc, status) := usp_read smtc_modem_get_status in
  ret (if negb (rc =? 0) then rc
       else if negb (Z.land status SMTC_MODEM_STATUS_JOINED =? 0) then 0 else - RZI_ERR_NOT_JOINED).
Definition rzi_lorawan_usp_tx_pending : M usp_state bool := uget u_tx_pending.
Definition rzi_lorawan_usp_set_tx_pending : M usp_state unit := uput (u_set_tx_pending true).

(** ** Base operations *)
Definition usp_join (config : rzi_lorawan_join_config) : M usp_state Z :=
  if negb (j_activation config =? RZI_LORAWAN_ACTIVATION_OTAA) then ret (- RZI_ERR_NOT_SUPPORTED)
  else
    rc* rc := rzi_lorawan_usp_enter else rc in
    uput (u_set_join config) ;;;
    let* rc := configure_credentials in
    let* rc := (if rc =? 0 then configure_channel_mask else ret rc) in
    if negb (rc =? 0) then rzi_lorawan_usp_finish rc
    else
      let* rc := usp_call smtc_modem_join_network in
      rzi_lorawan_usp_finish rc.
Definition usp_leave : M usp_state Z :=
  rc* rc := rzi_lorawan_usp_enter else rc in
  let* pending := uget u_tx_pending in
  if pending then rzi_lorawan_usp_finish (- RZI_ERR_BUSY)
  else
    when CONFIG_RZI_LORAWAN_FUOTA (uput (u_set_fuota_image_ready false)) ;;;
    let* rc := usp_call smtc_modem_leave_network in
    rzi_lorawan_usp_finish rc.
Definition usp_send (port : Z) (data : option (list Z)) (size type : Z) : M usp_state Z :=
  rc* rc := rzi_lorawan_usp_enter else rc in
  let* pending := uget u_tx_pending in
  if pending then rzi_lorawan_usp_finish (- RZI_ERR_BUSY)
  else
    let* rc := usp_call (smtc_modem_request_uplink port (type =? RZI_LORAWAN_MSG_CONFIRMED) data size) in
    when (rc =? 0) (uput (u_set_tx_pending true)) ;;;
    rzi_lorawan_usp_finish rc.
Definition usp_is_joined (joined : bool) : M usp_state (Z * bool) :=
  rc* rc := rzi_lorawan_usp_enter else (rc, joined) in
  let* '(rc, status) := usp_read smtc_modem_get_status in
  rzi_lorawan_usp_finish
    (rc, if rc =? 0 then negb (Z.land status SMTC_MODEM_STATUS_JOINED =? 0) else joined).
(** The [switch] of [usp_set_class]: the modem's class and the next state. *)
Definition map_class (device_class : Z) : option (Z * Z) :=
  if device_class =? RZI_LORAWAN_CLASS_A then Some (SMTC_MODEM_CLASS_A, RZI_LORAWAN_CLASS_B_IDLE)
  else if device_class =? RZI_LORAWAN_CLASS_B then
    Some (SMTC_MODEM_CLASS_B, RZI_LORAWAN_CLASS_B_ACQUIRING_BEACON)
  else if device_class =? RZI_LORAWAN_CLASS_C then Some (SMTC_MODEM_CLASS_C, RZI_LORAWAN_CLASS_B_IDLE)
  else None.
Definition usp_set_class (device_class : Z) : M usp_state Z :=
  rc* rc := rzi_lorawan_usp_enter else rc in
  match map_class device_class with
  | None => rzi_lorawan_usp_finish (- RZI_ERR_INVALID)
  | Some (mapped, next) =>
      let* previous := rzi_lorawan_usp_class_b_state in
      let* changed := rzi_lorawan_usp_set_class_b_state next in
      let* rc := usp_call (smtc_modem_set_class mapped) in
      let* changed :=
        (if negb (rc =? 0) && changed
         then rzi_lorawan_usp_set_class_b_state previous ;;; ret false else ret changed) in
      when changed (rzi_lorawan_usp_publish_class_b next) ;;;
      rzi_lorawan_usp_finish rc
  end.

(** ** FUOTA access *)
Abbreviation FMP_IMAGE_VALID := 3.
(** [usp_fuota_cb]: what the modem's firmware-management package asks. *)
Definition usp_fuota_hw_version : Z := CONFIG_RZI_LORAWAN_FUOTA_HW_VERSION.
Definition usp_fuota_fw_version : Z :=
  Z.lor (Z.lor (u32 (Z.shiftl RZI_VERSION_MAJOR 16)) (u32 (Z.shiftl RZI_VERSION_MINOR 8))) RZI_VERSION_PATCH.
Definition usp_fuota_fw_status : M usp_state Z :=
  uget (fun v => if u_fuota_image_ready v then FMP_IMAGE_VALID else 0).
Definition usp_fuota_next_fw_version : Z := u32 (usp_fuota_fw_version + 1).
Definition usp_fuota_delete_status (version : Z) : Z := 0.
Definition usp_fuota_start_clock_sync : M usp_state Z :=
  rc* rc := rzi_lorawan_usp_enter else rc in
  let* rc := usp_call smtc_modem_start_alcsync_service in
  when (rc =? 0)
    (modem (smtc_modem_trig_lorawan_mac_request SMTC_MODEM_LORAWAN_MAC_REQ_DEVICE_TIME) ;;; ret tt) ;;;
  rzi_lorawan_usp_finish rc.
Definition usp_fuota_get_image_size (size : Z) : M usp_state (Z * Z) :=
  if CONFIG_LORA_BASICS_MODEM_FUOTA_V2 then
    let* file_size := modem (lorawan_fragmentation_package_get_file_size 0) in
    ret (if file_size =? 0 then (- RZI_ERR_NO_DATA, size) else (0, file_size))
  else ret (- RZI_ERR_NO_DATA, size).
Definition usp_fuota_read_image (offset size : Z) : M usp_state (Z * list Z) :=
  let* data := modem (smtc_modem_hal_context_restore offset (u32 size)) in ret (0, data).
Definition usp_fuota_reboot : M usp_state Z := modem smtc_modem_hal_reset_mcu ;;; ret 0.

Definition usp_start (selected_region : Z) (bypass : bool) (sink : Z) : M usp_state Z :=
  match usp_map_region selected_region with
  | None => ret (- RZI_ERR_INVALID)
  | Some selected =>
      if sink =? 0 then ret (- RZI_ERR_INVALID)
      else
        uput (u_set_start selected bypass sink) ;;;
        when CONFIG_RZI_LORAWAN_FUOTA (modem lorawan_register_fuota_callbacks) ;;;
        rzi_usp_init ;;;
        rzi_usp_lock ;;;
        rzi_usp_set_event_handler LORAWAN_HANDLER ;;;
        rzi_usp_unlock ;;;
        ret 0
  end.
End backend.
