(* ===== verification/UspFeatures.v ===== *)
(** * The USP LoRaWAN backend: feature operations and the tables
    (src/lorawan/backend/usp/lorawan_backend_usp_network.c, _class_b.c, _mac.c,
    _session.c, _multicast.c, _certification.c; the table of
    lorawan_backend_usp.c)

    Each operation is one critical section: [rzi_lorawan_usp_enter], calls of
    the modem, [rzi_lorawan_usp_finish]. *)
From S2P Require Import Prelude Zephyr Err Power Storage LorawanSettings LorawanBackend LorawanCredentials Usp UspBackend.

Abbreviation RZI_LORAWAN_ADR_NETWORK := 0.
Abbreviation LBT_DEFAULT_DURATION_MS := 5.
Abbreviation LBT_DEFAULT_THRESHOLD := (-80).
Abbreviation LBT_DEFAULT_BW_HZ := 200000.
Definition i32 (z : Z) : Z := (z + 2147483648) mod 4294967296 - 2147483648.

(** ** The multicast groups *)
Definition multicast_groups : list nat := seq 0 (Z.to_nat MULTICAST_GROUPS).
(** [allocate_group]; [None] is -1 *)
Definition allocate_group (used : list bool) (requested : Z) : option nat :=
  let free i := negb (nth i used false) in
  if 0 <=? requested then
    if (requested <? MULTICAST_GROUPS) && free (Z.to_nat requested) then Some (Z.to_nat requested) else None
  else List.find free multicast_groups.
(** The session with its group and without its keys. *)
Definition stored_session (session : rzi_lorawan_multicast_session) (group : nat) : rzi_lorawan_multicast_session :=
  McSession (mc_device_class session) (mc_dev_addr session) (replicate 16 0) (replicate 16 0)
    (mc_frequency_hz session) (mc_data_rate session) (mc_periodicity session) (Z.of_nat group).
Definition session_at (m : usp_multicast_vars) (i : nat) : rzi_lorawan_multicast_session :=
  nth i (multicast_sessions m) session_zero.
Definition used_at (m : usp_multicast_vars) (i : nat) : bool := nth i (multicast_used m) false.
(** The loops of [usp_multicast_remove], [_count] and [_get] over the groups. *)
Definition group_of (m : usp_multicast_vars) (dev_addr : Z) : option nat :=
  List.find (fun i => used_at m i && (mc_dev_addr (session_at m i) =? dev_addr)) multicast_groups.
Fixpoint count_used (m : usp_multicast_vars) (groups : list nat) (n : Z) : Z :=
  match groups with
  | [] => n
  | i :: groups => count_used m groups (if used_at m i then n + 1 else n)
  end.
Fixpoint nth_used (m : usp_multicast_vars) (index : Z) (groups : list nat) (n : Z)
  : option rzi_lorawan_multicast_session :=
  match groups with
  | [] => None
  | i :: groups =>
      if negb (used_at m i) then nth_used m index groups n
      else if n =? index then Some (session_at m i)
      else nth_used m index groups (n + 1)
  end.

Section features.
Context `{Kconfig} `{UspConfig} `{Lbm}.

(** ** Shapes of an operation *)
(** Enter, one call of the modem, finish. *)
Definition locked_call (m : smtc lbm) : M usp_state Z :=
  rc* rc := rzi_lorawan_usp_enter else rc in
  let* rc := usp_call m in
  rzi_lorawan_usp_finish rc.
(** The same with the caller's cell handed to the modem. *)
Definition locked_read {A} (m : A -> smtc_out lbm A) (cell : A) : M usp_state (Z * A) :=
  rc* rc := rzi_lorawan_usp_enter else (rc, cell) in
  let* r := usp_read (m cell) in
  rzi_lorawan_usp_finish r.
(** The same with a value that cannot fail. *)
Definition usp_locked_get {A} (m : M usp_state A) (cell : A) : M usp_state (Z * A) :=
  rc* rc := rzi_lorawan_usp_enter else (rc, cell) in
  let* a := m in
  rzi_lorawan_usp_finish (0, a).

(** ** ADR and data rate *)
Definition set_profile (profile : Z) (distribution : option (list Z)) : M usp_state Z :=
  rc* rc := rzi_lorawan_usp_require_joined else rc in
  let custom := match distribution with
                | Some d => take (Z.to_nat RZI_LORAWAN_DR_DISTRIBUTION_LENGTH) d
                | None => replicate (Z.to_nat RZI_LORAWAN_DR_DISTRIBUTION_LENGTH) 0
                end in
  usp_call (smtc_modem_adr_set_profile profile custom).
Definition pin_data_rate (data_rate : Z) : M usp_state Z :=
  set_profile RZI_LORAWAN_ADR_CUSTOM
    (Some (replicate (Z.to_nat RZI_LORAWAN_DR_DISTRIBUTION_LENGTH) data_rate)).
Definition usp_get_adr (enabled : bool) : M usp_state (Z * bool) :=
  rc* rc := rzi_lorawan_usp_enter else (rc, enabled) in
  let* '(rc, profile) := usp_read smtc_modem_adr_get_profile in
  rzi_lorawan_usp_finish (rc, if rc =? 0 then profile =? RZI_LORAWAN_ADR_NETWORK else enabled).
Definition usp_set_adr (enabled : bool) : M usp_state Z :=
  rc* rc := rzi_lorawan_usp_enter else rc in
  let* rc := (if enabled then set_profile RZI_LORAWAN_ADR_NETWORK None
              else let* data_rate := modem lorawan_api_next_dr_get in pin_data_rate data_rate) in
  rzi_lorawan_usp_finish rc.
Definition usp_get_data_rate : Z -> M usp_state (Z * Z) := usp_locked_get (modem lorawan_api_next_dr_get).
Definition usp_set_data_rate (data_rate : Z) : M usp_state Z :=
  rc* rc := rzi_lorawan_usp_enter else rc in
  let* rc := pin_data_rate (u8 data_rate) in
  rzi_lorawan_usp_finish rc.
Definition usp_get_enabled_data_rates : Z -> M usp_state (Z * Z) := locked_read smtc_modem_get_enabled_datarates.
Definition usp_get_adr_profile (profile : Z) : M usp_state (Z * Z) :=
  rc* rc := rzi_lorawan_usp_enter else (rc, profile) in
  let* '(rc, value) := usp_read smtc_modem_adr_get_profile in
  rzi_lorawan_usp_finish (rc, if rc =? 0 then value else profile).
Definition usp_set_adr_profile (profile : Z) (distribution : option (list Z)) : M usp_state Z :=
  rc* rc := rzi_lorawan_usp_enter else rc in
  let* rc := set_profile profile (if profile =? RZI_LORAWAN_ADR_CUSTOM then distribution else None) in
  rzi_lorawan_usp_finish rc.
Definition usp_get_nb_trans : Z -> M usp_state (Z * Z) := locked_read smtc_modem_get_nb_trans.
Definition usp_set_nb_trans (nb_trans : Z) : M usp_state Z :=
  rc* rc := rzi_lorawan_usp_enter else rc in
  let* rc := rzi_lorawan_usp_require_joined in
  let* rc := (if rc =? 0 then usp_call (smtc_modem_set_nb_trans nb_trans) else ret rc) in
  rzi_lorawan_usp_finish rc.
Definition usp_get_adr_ack : Z * Z -> M usp_state (Z * (Z * Z)) := locked_read smtc_modem_get_adr_ack_limit_delay.
Definition usp_set_adr_ack (limit delay : Z) : M usp_state Z :=
  locked_call (smtc_modem_set_adr_ack_limit_delay limit delay).

(** ** Joining *)
Definition usp_set_join_data_rates (distribution : option (list Z)) : M usp_state Z :=
  rc* rc := rzi_lorawan_usp_enter else rc in
  let* '(rc, status) := usp_read smtc_modem_get_status in
  let rc := if (rc =? 0) &&
               negb (Z.land status (Z.lor SMTC_MODEM_STATUS_JOINED SMTC_MODEM_STATUS_JOINING) =? 0)
            then - RZI_ERR_BUSY else rc in
  let* rc := (if rc =? 0 then usp_call (smtc_modem_adr_set_join_distribution distribution) else ret rc) in
  rzi_lorawan_usp_finish rc.
(** Seconds until the deadline on the modem's wrapping clock, as an [int32_t]. *)
Definition backoff_remaining (next_join now : Z) : Z := i32 (next_join - now).
Definition usp_get_join_backoff (remaining_s : Z) : M usp_state (Z * Z) :=
  rc* rc := rzi_lorawan_usp_enter else (rc, remaining_s) in
  let* '(rc, status) := usp_read smtc_modem_get_status in
  let* '(rc, bypass) :=
    (if rc =? 0 then usp_read smtc_modem_get_join_duty_cycle_backoff_bypass else ret (rc, false)) in
  let* '(rc, certification) :=
    (if rc =? 0 then usp_read (smtc_modem_get_certification_mode false) else ret (rc, false)) in
  if rc =? 0 then
    let* remaining :=
      (if (Z.land status SMTC_MODEM_STATUS_JOINED =? 0) && negb bypass && negb certification then
         let* next_join := modem lorawan_api_next_join_time_second_get in
         let* now := modem smtc_modem_hal_get_time_in_s in
         ret (backoff_remaining next_join now)
       else ret 0) in
    rzi_lorawan_usp_finish (rc, if 0 <? remaining then remaining else 0)
  else rzi_lorawan_usp_finish (rc, remaining_s).
Definition usp_get_duty_cycle_status : Z -> M usp_state (Z * Z) := locked_read smtc_modem_get_duty_cycle_status.
Definition usp_get_public_network : bool -> M usp_state (Z * bool) := locked_read smtc_modem_get_network_type.
Definition usp_set_public_network (enabled : bool) : M usp_state Z :=
  locked_call (smtc_modem_set_network_type enabled).

(** ** Listen before talk: the modem keeps the parameters as one triple *)
Definition usp_get_lbt : bool -> M usp_state (Z * bool) := locked_read smtc_modem_lbt_get_state.
Definition usp_set_lbt (enabled : bool) : M usp_state Z :=
  rc* rc := rzi_lorawan_usp_enter else rc in
  let* rc := (if enabled then
                usp_call (smtc_modem_lbt_set_parameters LBT_DEFAULT_DURATION_MS LBT_DEFAULT_THRESHOLD
                  LBT_DEFAULT_BW_HZ)
              else ret 0) in
  if negb (rc =? 0) then rzi_lorawan_usp_finish rc
  else
    let* rc := usp_call (smtc_modem_lbt_set_state enabled) in
    rzi_lorawan_usp_finish rc.
Definition usp_get_lbt_rssi (rssi_dbm : Z) : M usp_state (Z * Z) :=
  rc* rc := rzi_lorawan_usp_enter else (rc, rssi_dbm) in
  let* '(rc, (_, rssi, _)) := usp_read (smtc_modem_lbt_get_parameters (0, rssi_dbm, 0)) in
  rzi_lorawan_usp_finish (rc, rssi).
Definition usp_set_lbt_rssi (rssi_dbm : Z) : M usp_state Z :=
  rc* rc := rzi_lorawan_usp_enter else rc in
  let* '(rc, (duration_ms, _, bw_hz)) := usp_read (smtc_modem_lbt_get_parameters (0, 0, 0)) in
  let duration_ms := if negb (rc =? 0) then LBT_DEFAULT_DURATION_MS else duration_ms in
  let bw_hz := if negb (rc =? 0) then LBT_DEFAULT_BW_HZ else bw_hz in
  let* rc := usp_call (smtc_modem_lbt_set_parameters duration_ms rssi_dbm bw_hz) in
  rzi_lorawan_usp_finish rc.
Definition usp_get_lbt_scan_time (time_ms : Z) : M usp_state (Z * Z) :=
  rc* rc := rzi_lorawan_usp_enter else (rc, time_ms) in
  let* '(rc, (duration, _, _)) := usp_read (smtc_modem_lbt_get_parameters (time_ms, 0, 0)) in
  rzi_lorawan_usp_finish (rc, duration).
Definition usp_set_lbt_scan_time (time_ms : Z) : M usp_state Z :=
  rc* rc := rzi_lorawan_usp_enter else rc in
  let* '(rc, (_, threshold, bw_hz)) := usp_read (smtc_modem_lbt_get_parameters (0, 0, 0)) in
  let threshold := if negb (rc =? 0) then LBT_DEFAULT_THRESHOLD else threshold in
  let bw_hz := if negb (rc =? 0) then LBT_DEFAULT_BW_HZ else bw_hz in
  let* rc := usp_call (smtc_modem_lbt_set_parameters time_ms threshold bw_hz) in
  rzi_lorawan_usp_finish rc.
Definition usp_get_csma : bool -> M usp_state (Z * bool) := locked_read smtc_modem_csma_get_state.
Definition usp_set_csma (enabled : bool) : M usp_state Z := locked_call (smtc_modem_csma_set_state enabled).
Definition usp_get_csma_params (params : rzi_lorawan_csma_params) : M usp_state (Z * rzi_lorawan_csma_params) :=
  rc* rc := rzi_lorawan_usp_enter else (rc, params) in
  let* '(rc, (changes, backoff, backoffs)) := usp_read (smtc_modem_csma_get_parameters
    (max_channel_changes params, backoff_enabled params, max_backoffs params)) in
  rzi_lorawan_usp_finish (rc, Csma changes backoff backoffs).
Definition usp_set_csma_params (params : rzi_lorawan_csma_params) : M usp_state Z :=
  locked_call (smtc_modem_csma_set_parameters (max_channel_changes params) (backoff_enabled params)
    (max_backoffs params)).

(** ** Link supervision, crystal, uplink queries *)
Definition usp_get_lost_connection_count : Z -> M usp_state (Z * Z) :=
  locked_read smtc_modem_lorawan_get_lost_connection_counter.
Definition usp_get_no_downlink_threshold : Z -> M usp_state (Z * Z) :=
  usp_locked_get (modem lorawan_api_get_no_rx_packet_threshold).
Definition usp_set_no_downlink_threshold (uplinks : Z) : M usp_state Z :=
  rc* rc := rzi_lorawan_usp_enter else rc in
  modem (lorawan_api_set_no_rx_packet_threshold uplinks) ;;;
  rzi_lorawan_usp_finish 0.
Definition usp_get_crystal_error : Z -> M usp_state (Z * Z) := locked_read smtc_modem_get_crystal_error_ppm.
Definition usp_set_crystal_error (ppm : Z) : M usp_state Z := locked_call (smtc_modem_set_crystal_error_ppm ppm).
Definition usp_send_empty (with_port : bool) (port type : Z) : M usp_state Z :=
  rc* rc := rzi_lorawan_usp_enter else rc in
  let* pending := rzi_lorawan_usp_tx_pending in
  if pending then rzi_lorawan_usp_finish (- RZI_ERR_BUSY)
  else
    let* rc := usp_call (smtc_modem_request_empty_uplink with_port port (type =? RZI_LORAWAN_MSG_CONFIRMED)) in
    when (rc =? 0) rzi_lorawan_usp_set_tx_pending ;;;
    rzi_lorawan_usp_finish rc.
Definition usp_query_tx_possible (size : Z) : M usp_state Z :=
  rc* rc := rzi_lorawan_usp_enter else rc in
  let* '(rc, max_payload) := usp_read smtc_modem_get_next_tx_max_payload in
  rzi_lorawan_usp_finish (if (rc =? 0) && (max_payload <? size) then - RZI_ERR_TOO_LARGE else rc).
Definition usp_is_busy : bool -> M usp_state (Z * bool) := usp_locked_get rzi_lorawan_usp_tx_pending.

(** ** Class and Class B *)
Definition usp_get_class (device_class : Z) : M usp_state (Z * Z) :=
  rc* rc := rzi_lorawan_usp_enter else (rc, device_class) in
  let* '(rc, mapped) := usp_read smtc_modem_get_class in
  rzi_lorawan_usp_finish
    (if negb (rc =? 0) then (rc, device_class)
     else if mapped =? SMTC_MODEM_CLASS_A then (rc, RZI_LORAWAN_CLASS_A)
     else if mapped =? SMTC_MODEM_CLASS_B then (rc, RZI_LORAWAN_CLASS_B)
     else if mapped =? SMTC_MODEM_CLASS_C then (rc, RZI_LORAWAN_CLASS_C)
     else (- RZI_ERR_INVALID, device_class)).
Definition usp_get_ping_slot (periodicity : Z) : M usp_state (Z * Z) :=
  rc* rc := rzi_lorawan_usp_enter else (rc, periodicity) in
  let* '(rc, mapped) := usp_read smtc_modem_class_b_get_ping_slot_periodicity in
  rzi_lorawan_usp_finish (rc, if rc =? 0 then u8 mapped else periodicity).
Definition usp_set_ping_slot (periodicity : Z) : M usp_state Z :=
  locked_call (smtc_modem_class_b_set_ping_slot_periodicity periodicity).
Definition usp_get_class_b_state : Z -> M usp_state (Z * Z) := usp_locked_get rzi_lorawan_usp_class_b_state.
Definition usp_stop_class_b : M usp_state Z :=
  rc* rc := rzi_lorawan_usp_enter else rc in
  let* rc := usp_call (smtc_modem_set_class SMTC_MODEM_CLASS_A) in
  let* notify := (if rc =? 0 then rzi_lorawan_usp_set_class_b_state RZI_LORAWAN_CLASS_B_IDLE else ret false) in
  when notify (rzi_lorawan_usp_publish_class_b RZI_LORAWAN_CLASS_B_IDLE) ;;;
  rzi_lorawan_usp_finish rc.

(** ** MAC requests, session, certification *)
Definition usp_link_check_request : M usp_state Z :=
  locked_call (smtc_modem_trig_lorawan_mac_request SMTC_MODEM_LORAWAN_MAC_REQ_LINK_CHECK).
Definition usp_device_time_request : M usp_state Z :=
  locked_call (smtc_modem_trig_lorawan_mac_request SMTC_MODEM_LORAWAN_MAC_REQ_DEVICE_TIME).
Definition usp_get_network_time (time : rzi_lorawan_network_time) : M usp_state (Z * rzi_lorawan_network_time) :=
  rc* rc := rzi_lorawan_usp_enter else (rc, time) in
  let* '(rc, (seconds, subseconds)) :=
    usp_read (smtc_modem_get_lorawan_mac_time (gps_seconds time, gps_subseconds time)) in
  rzi_lorawan_usp_finish (rc, NetworkTime seconds subseconds).
Definition usp_get_dev_addr : Z -> M usp_state (Z * Z) := usp_locked_get (modem lorawan_api_devaddr_get).
Definition usp_copy_session_key (key_id : smtc_se_key_identifier_t) (key : list Z) : M usp_state (Z * list Z) :=
  rc* rc := rzi_lorawan_usp_enter else (rc, key) in
  let* '(se_rc, key) := modem (smtc_secure_element_get_key key_id key) in
  rzi_lorawan_usp_finish
    (match se_rc with
     | SMTC_SE_RC_SUCCESS => 0
     | SMTC_SE_RC_ERROR => - RZI_ERR_NOT_SUPPORTED
     | SMTC_SE_RC_other => - RZI_ERR_IO
     end, key).
Definition usp_get_nwk_skey : list Z -> M usp_state (Z * list Z) := usp_copy_session_key SMTC_SE_NWK_S_ENC_KEY.
Definition usp_get_app_skey : list Z -> M usp_state (Z * list Z) := usp_copy_session_key SMTC_SE_APP_S_KEY.
Definition usp_get_cert_mode : bool -> M usp_state (Z * bool) := locked_read smtc_modem_get_certification_mode.
Definition usp_set_cert_mode (enabled : bool) : M usp_state Z :=
  locked_call (smtc_modem_set_certification_mode enabled).
Definition usp_get_cert_port : bool -> M usp_state (Z * bool) := usp_locked_get (gets us_cert_port).
Definition usp_set_cert_port (enabled : bool) : M usp_state Z :=
  rc* rc := rzi_lorawan_usp_enter else rc in
  modify (set_us_cert_port enabled) ;;;
  rzi_lorawan_usp_finish 0.

(** ** Multicast *)
Definition mput (f : usp_multicast_vars -> usp_multicast_vars) : M usp_state unit :=
  modify (fun s => set_us_multicast (f (us_multicast s)) s).
Definition start_session (session : rzi_lorawan_multicast_session) (group : Z) : M usp_state Z :=
  if mc_device_class session =? RZI_LORAWAN_CLASS_C then
    usp_call (smtc_modem_multicast_class_c_start_session group (mc_frequency_hz session)
      (u8 (mc_data_rate session)))
  else
    usp_call (smtc_modem_multicast_class_b_start_session group (mc_frequency_hz session)
      (u8 (mc_data_rate session)) (Z.min (mc_periodicity session) 7)).
Definition usp_multicast_add (session : rzi_lorawan_multicast_session) : M usp_state Z :=
  rc* rc := rzi_lorawan_usp_enter else rc in
  let* used := gets (fun s => multicast_used (us_multicast s)) in
  match allocate_group used (mc_group_id session) with
  | None => rzi_lorawan_usp_finish (- RZI_ERR_NO_RESOURCE)
  | Some group =>
      let* rc := usp_call (smtc_modem_multicast_set_grp_config (Z.of_nat group) (mc_dev_addr session)
                   (mc_nwk_skey session) (mc_app_skey session)) in
      let* rc := (if rc =? 0 then start_session session (Z.of_nat group) else ret rc) in
      when (rc =? 0)
        (mput (fun m => UspMulticast (<[group := stored_session session group]> (multicast_sessions m))
                          (<[group := true]> (multicast_used m)))) ;;;
      rzi_lorawan_usp_finish rc
  end.
Definition usp_multicast_remove (dev_addr : Z) : M usp_state Z :=
  rc* rc := rzi_lorawan_usp_enter else rc in
  let* m := gets us_multicast in
  match group_of m dev_addr with
  | None => rzi_lorawan_usp_finish (- RZI_ERR_NOT_FOUND)
  | Some i =>
      let* rc := (if mc_device_class (session_at m i) =? RZI_LORAWAN_CLASS_C
                  then usp_call (smtc_modem_multicast_class_c_stop_session (Z.of_nat i))
                  else usp_call (smtc_modem_multicast_class_b_stop_session (Z.of_nat i))) in
      when (rc =? 0)
        (mput (fun m => UspMulticast (multicast_sessions m) (<[i := false]> (multicast_used m)))) ;;;
      rzi_lorawan_usp_finish rc
  end.
Definition usp_multicast_count : Z -> M usp_state (Z * Z) :=
  usp_locked_get (gets (fun s => count_used (us_multicast s) multicast_groups 0)).
Definition usp_multicast_get (index : Z) (session : rzi_lorawan_multicast_session)
  : M usp_state (Z * rzi_lorawan_multicast_session) :=
  rc* rc := rzi_lorawan_usp_enter else (rc, session) in
  let* m := gets us_multicast in
  rzi_lorawan_usp_finish
    (match nth_used m index multicast_groups 0 with
     | Some found => (0, found)
     | None => (- RZI_ERR_INVALID, session)
     end).
Definition usp_multicast_clear : M usp_state Z :=
  rc* rc := rzi_lorawan_usp_enter else rc in
  let* rc := usp_call smtc_modem_multicast_class_c_stop_all_sessions in
  let* rc := (if rc =? 0 then usp_call smtc_modem_multicast_class_b_stop_all_sessions else ret rc) in
  when (rc =? 0) (mput (fun m => UspMulticast (multicast_sessions m) (replicate 4 false))) ;;;
  rzi_lorawan_usp_finish rc.

(** ** The operation tables *)
(** An operation runs to its return; the events it handed to the sink are its
    output. *)
Definition usp_run {A} (m : M usp_state A) : bop usp_state A := fun s =>
  match m (set_us_events [] s) with
  | (a, s') => ((a, us_events s'), set_us_events (us_events s) s')
  end.
Definition usp_getter {A} (m : A -> M usp_state (Z * A)) : option (getter usp_state A) :=
  Some (fun cell => usp_run (m cell)).

Definition USP_CAPABILITIES : Z :=
  let opt b c := if b : bool then c else 0 in
  Z.lor RZI_LORAWAN_CAP_OTAA (Z.lor RZI_LORAWAN_CAP_CLASS_A (Z.lor RZI_LORAWAN_CAP_NETWORK
  (Z.lor RZI_LORAWAN_CAP_CHANNEL (Z.lor RZI_LORAWAN_CAP_SESSION (Z.lor RZI_LORAWAN_CAP_MAC
  (Z.lor RZI_LORAWAN_CAP_CERTIFICATION
  (Z.lor (opt CONFIG_LORA_BASICS_MODEM_CLASS_B RZI_LORAWAN_CAP_CLASS_B)
  (Z.lor (opt CONFIG_LORA_BASICS_MODEM_CLASS_C RZI_LORAWAN_CAP_CLASS_C)
  (Z.lor (opt CONFIG_LORA_BASICS_MODEM_MULTICAST RZI_LORAWAN_CAP_MULTICAST)
         (opt CONFIG_RZI_LORAWAN_FUOTA RZI_LORAWAN_CAP_FUOTA)))))))))).

Definition usp_network_ops : rzi_lorawan_network_ops usp_state := {|
  op_get_adr := usp_getter usp_get_adr; op_set_adr := Some (fun e => usp_run (usp_set_adr e));
  op_get_data_rate := usp_getter usp_get_data_rate;
  op_set_data_rate := Some (fun v => usp_run (usp_set_data_rate v));
  op_get_enabled_data_rates := usp_getter usp_get_enabled_data_rates;
  op_get_adr_profile := usp_getter usp_get_adr_profile;
  op_set_adr_profile := Some (fun p d => usp_run (usp_set_adr_profile p d));
  op_get_nb_trans := usp_getter usp_get_nb_trans;
  op_set_nb_trans := Some (fun n => usp_run (usp_set_nb_trans n));
  op_get_adr_ack := usp_getter usp_get_adr_ack;
  op_set_adr_ack := Some (fun l d => usp_run (usp_set_adr_ack l d));
  op_set_join_data_rates := Some (fun d => usp_run (usp_set_join_data_rates d));
  op_get_duty_cycle_status := usp_getter usp_get_duty_cycle_status;
  op_get_join_backoff := usp_getter usp_get_join_backoff;
  op_get_public_network := usp_getter usp_get_public_network;
  op_set_public_network := Some (fun e => usp_run (usp_set_public_network e));
  op_get_lbt := usp_getter usp_get_lbt; op_set_lbt := Some (fun e => usp_run (usp_set_lbt e));
  op_get_lbt_rssi := usp_getter usp_get_lbt_rssi;
  op_set_lbt_rssi := Some (fun v => usp_run (usp_set_lbt_rssi v));
  op_get_lbt_scan_time := usp_getter usp_get_lbt_scan_time;
  op_set_lbt_scan_time := Some (fun v => usp_run (usp_set_lbt_scan_time v));
  op_get_csma := if CONFIG_LORA_BASICS_MODEM_CSMA then usp_getter usp_get_csma else None;
  op_set_csma := if CONFIG_LORA_BASICS_MODEM_CSMA then Some (fun e => usp_run (usp_set_csma e)) else None;
  op_get_csma_params := if CONFIG_LORA_BASICS_MODEM_CSMA then usp_getter usp_get_csma_params else None;
  op_set_csma_params :=
    if CONFIG_LORA_BASICS_MODEM_CSMA then Some (fun p => usp_run (usp_set_csma_params p)) else None;
  op_get_lost_connection_count := usp_getter usp_get_lost_connection_count;
  op_get_no_downlink_threshold := usp_getter usp_get_no_downlink_threshold;
  op_set_no_downlink_threshold := Some (fun n => usp_run (usp_set_no_downlink_threshold n));
  op_get_crystal_error := usp_getter usp_get_crystal_error;
  op_set_crystal_error := Some (fun p => usp_run (usp_set_crystal_error p));
  op_send_empty := Some (fun w p t => usp_run (usp_send_empty w p t));
  op_query_tx_possible := Some (fun n => usp_run (usp_query_tx_possible n));
|}.
Definition usp_session_ops : rzi_lorawan_session_ops usp_state := {|
  op_get_net_id := None; op_get_dev_nonce := None; op_set_dev_nonce := None;
  op_get_dev_addr := usp_getter usp_get_dev_addr;
  op_get_nwk_skey := usp_getter usp_get_nwk_skey;
  op_get_app_skey := usp_getter usp_get_app_skey;
|}.
Definition usp_class_b_ops : rzi_lorawan_class_b_ops usp_state := {|
  op_get_ping_slot_periodicity := usp_getter usp_get_ping_slot;
  op_set_ping_slot_periodicity := Some (fun p => usp_run (usp_set_ping_slot p));
  op_get_beacon_frequency := None; op_get_beacon_time := None; op_get_beacon_data_rate := None;
  op_get_beacon_gateway := None;
  op_get_state := usp_getter usp_get_class_b_state; op_stop := Some (usp_run usp_stop_class_b);
|}.
Definition usp_mac_ops : rzi_lorawan_mac_ops usp_state := {|
  op_request_link_check := Some (usp_run usp_link_check_request);
  op_request_device_time := Some (usp_run usp_device_time_request);
  op_get_network_time := usp_getter usp_get_network_time;
|}.
Definition usp_multicast_ops : rzi_lorawan_multicast_ops usp_state := {|
  op_add := Some (fun s => usp_run (usp_multicast_add s));
  op_remove := Some (fun a => usp_run (usp_multicast_remove a));
  op_get_count := usp_getter usp_multicast_count;
  op_get := Some (fun i cell => usp_run (usp_multicast_get i cell));
  op_clear := Some (usp_run usp_multicast_clear);
|}.
Definition usp_cert_ops : rzi_lorawan_certification_ops usp_state := {|
  op_get_mode := usp_getter usp_get_cert_mode; op_set_mode := Some (fun e => usp_run (usp_set_cert_mode e));
  op_get_port_enabled := usp_getter usp_get_cert_port;
  op_set_port_enabled := Some (fun e => usp_run (usp_set_cert_port e));
|}.
Definition usp_fuota_ops : rzi_lorawan_fuota_ops usp_state := {|
  op_start_clock_sync := Some (usp_run usp_fuota_start_clock_sync);
  op_get_image_size := usp_getter usp_fuota_get_image_size;
  op_read_image := Some (fun o n => usp_run (usp_fuota_read_image o n));
  op_reboot := Some (usp_run usp_fuota_reboot);
|}.
Definition usp_backend_api : rzi_lorawan_backend_api usp_state := {|
  capabilities := USP_CAPABILITIES;
  base := {|
    op_start region bypass := usp_run (usp_start region bypass USP_SINK);
    op_join config := usp_run (usp_join config);
    op_leave := usp_run usp_leave;
    op_send port data size type := usp_run (usp_send port data size type);
    op_set_class c := usp_run (usp_set_class c);
    op_get_class := usp_getter usp_get_class;
    op_is_joined cell := usp_run (usp_is_joined cell);
    op_is_busy cell := usp_run (usp_is_busy cell);
  |};
  network := Some usp_network_ops; session := Some usp_session_ops;
  class_b := if CONFIG_LORA_BASICS_MODEM_CLASS_B then Some usp_class_b_ops else None;
  mac := Some usp_mac_ops;
  multicast := if CONFIG_LORA_BASICS_MODEM_MULTICAST then Some usp_multicast_ops else None;
  certification := Some usp_cert_ops;
  fuota := if CONFIG_RZI_LORAWAN_FUOTA then Some usp_fuota_ops else None;
|}.

Definition usp_lorawan : LorawanBackend :=
  {| backend_state := usp_state; rzi_lorawan_backend := usp_backend_api |}.
End features.
