(* ===== verification/UspSteps.v ===== *)
(** * The USP LoRaWAN backend as a transition system

    Callers and the engine share one lock, so a step is a whole operation or
    the delivery of one modem event; in between the modem may change in any
    way ([engine_runs]).  The theorems hold for every modem. *)
From S2P Require Import Prelude Zephyr Err Power Storage LorawanSettings LorawanBackend LorawanCredentials Usp UspBackend UspFeatures.

Section steps.
Context `{Kconfig} `{UspConfig} `{Lbm}.

(** ** The operations *)
Definition ucode {A} (m : M usp_state (Z * A)) : M usp_state Z := let* '(rc, _) := m in ret rc.
(** Operations that leave the backend's own variables alone. *)
Inductive usp_query : Type :=
| QIsJoined (c : bool) | QIsBusy (c : bool) | QGetClass (c : Z)
| QGetAdr (c : bool) | QSetAdr (e : bool) | QGetDr (c : Z) | QSetDr (v : Z) | QEnabledDrs (c : Z)
| QGetProfile (c : Z) | QSetProfile (p : Z) (d : option (list Z)) | QGetNbTrans (c : Z) | QSetNbTrans (n : Z)
| QGetAdrAck (c : Z * Z) | QSetAdrAck (l d : Z) | QSetJoinDrs (d : option (list Z)) | QDutyCycle (c : Z)
| QBackoff (c : Z) | QGetPublic (c : bool) | QSetPublic (e : bool) | QGetLbt (c : bool) | QSetLbt (e : bool)
| QGetLbtRssi (c : Z) | QSetLbtRssi (v : Z) | QGetLbtTime (c : Z) | QSetLbtTime (v : Z)
| QGetCsma (c : bool) | QSetCsma (e : bool) | QGetCsmaParams (c : rzi_lorawan_csma_params)
| QSetCsmaParams (p : rzi_lorawan_csma_params) | QLost (c : Z) | QGetThreshold (c : Z) | QSetThreshold (n : Z)
| QGetCrystal (c : Z) | QSetCrystal (p : Z) | QTxPossible (n : Z)
| QGetPing (c : Z) | QSetPing (p : Z) | QClassBState (c : Z) | QLinkCheck | QDeviceTime
| QNetworkTime (c : rzi_lorawan_network_time) | QDevAddr (c : Z) | QNwkSkey (c : list Z) | QAppSkey (c : list Z)
| QGetCert (c : bool) | QSetCert (e : bool) | QGetPort (c : bool) | QSetPort (e : bool) | QMcCount (c : Z)
| QMcGet (i : Z) (c : rzi_lorawan_multicast_session) | QClockSync.
Definition run_query (q : usp_query) : M usp_state Z :=
  match q with
  | QIsJoined c => ucode (usp_is_joined c) | QIsBusy c => ucode (usp_is_busy c)
  | QGetClass c => ucode (usp_get_class c) | QGetAdr c => ucode (usp_get_adr c)
  | QSetAdr e => usp_set_adr e | QGetDr c => ucode (usp_get_data_rate c) | QSetDr v => usp_set_data_rate v
  | QEnabledDrs c => ucode (usp_get_enabled_data_rates c) | QGetProfile c => ucode (usp_get_adr_profile c)
  | QSetProfile p d => usp_set_adr_profile p d | QGetNbTrans c => ucode (usp_get_nb_trans c)
  | QSetNbTrans n => usp_set_nb_trans n | QGetAdrAck c => ucode (usp_get_adr_ack c)
  | QSetAdrAck l d => usp_set_adr_ack l d | QSetJoinDrs d => usp_set_join_data_rates d
  | QDutyCycle c => ucode (usp_get_duty_cycle_status c) | QBackoff c => ucode (usp_get_join_backoff c)
  | QGetPublic c => ucode (usp_get_public_network c) | QSetPublic e => usp_set_public_network e
  | QGetLbt c => ucode (usp_get_lbt c) | QSetLbt e => usp_set_lbt e
  | QGetLbtRssi c => ucode (usp_get_lbt_rssi c) | QSetLbtRssi v => usp_set_lbt_rssi v
  | QGetLbtTime c => ucode (usp_get_lbt_scan_time c) | QSetLbtTime v => usp_set_lbt_scan_time v
  | QGetCsma c => ucode (usp_get_csma c) | QSetCsma e => usp_set_csma e
  | QGetCsmaParams c => ucode (usp_get_csma_params c) | QSetCsmaParams p => usp_set_csma_params p
  | QLost c => ucode (usp_get_lost_connection_count c)
  | QGetThreshold c => ucode (usp_get_no_downlink_threshold c)
  | QSetThreshold n => usp_set_no_downlink_threshold n | QGetCrystal c => ucode (usp_get_crystal_error c)
  | QSetCrystal p => usp_set_crystal_error p | QTxPossible n => usp_query_tx_possible n
  | QGetPing c => ucode (usp_get_ping_slot c) | QSetPing p => usp_set_ping_slot p
  | QClassBState c => ucode (usp_get_class_b_state c) | QLinkCheck => usp_link_check_request
  | QDeviceTime => usp_device_time_request | QNetworkTime c => ucode (usp_get_network_time c)
  | QDevAddr c => ucode (usp_get_dev_addr c) | QNwkSkey c => ucode (usp_get_nwk_skey c)
  | QAppSkey c => ucode (usp_get_app_skey c) | QGetCert c => ucode (usp_get_cert_mode c)
  | QSetCert e => usp_set_cert_mode e | QGetPort c => ucode (usp_get_cert_port c)
  | QSetPort e => usp_set_cert_port e | QMcCount c => ucode (usp_multicast_count c)
  | QMcGet i c => ucode (usp_multicast_get i c) | QClockSync => usp_fuota_start_clock_sync
  end.
(** The others. *)
Inductive usp_op : Type :=
| UQuery (q : usp_query) | UJoin (config : rzi_lorawan_join_config) | ULeave
| USend (port : Z) (data : option (list Z)) (size type : Z)
| USendEmpty (with_port : bool) (port type : Z)
| USetClass (c : Z) | UStopClassB
| UMcAdd (s : rzi_lorawan_multicast_session) | UMcRemove (a : Z) | UMcClear.
Definition run_uop (o : usp_op) : M usp_state Z :=
  match o with
  | UQuery q => run_query q | UJoin c => usp_join c | ULeave => usp_leave
  | USend p d n t => usp_send p d n t | USendEmpty w p t => usp_send_empty w p t
  | USetClass c => usp_set_class c | UStopClassB => usp_stop_class_b
  | UMcAdd s => usp_multicast_add s | UMcRemove a => usp_multicast_remove a | UMcClear => usp_multicast_clear
  end.

(** ** What the pieces leave alone *)
(** Everything but the modem, the certification port and the lock. *)
Definition calm (s : usp_state) : usp_vars * usp_multicast_vars * (bool * bool * Z) * list rzi_lorawan_backend_event :=
  (us_vars s, us_multicast s,
   (initialized (us_platform s), reset_seen (us_platform s), handler (us_platform s)), us_events s).
Lemma modem_calm {A} (m : M lbm A) : keeps calm (modem m).
Proof. intros s. unfold same, modem, zoom. by destruct (m _). Qed.
Abbreviation usp_depth := (@depth_of _ usp_state _).
Lemma usp_modem_depth {A} (m : M lbm A) : keeps usp_depth (modem m).
Proof. apply modem_depth. Qed.
Lemma uget_keeps {X A} (obs : usp_state -> X) (f : usp_vars -> A) : keeps obs (uget f).
Proof. by intros s. Qed.
#[local] Hint Resolve modem_calm usp_modem_depth uget_keeps : frame.
Lemma usp_call_calm m : keeps calm (usp_call m). Proof. unfold usp_call. frame. Qed.
Lemma usp_read_calm {A} (m : smtc_out lbm A) : keeps calm (usp_read m). Proof. unfold usp_read. frame. Qed.
Lemma usp_call_depth m : keeps usp_depth (usp_call m). Proof. unfold usp_call. frame. Qed.
Lemma usp_read_depth {A} (m : smtc_out lbm A) : keeps usp_depth (usp_read m). Proof. unfold usp_read. frame. Qed.
Lemma lock_calm : keeps calm rzi_usp_lock. Proof. by intros s. Qed.
Lemma unlock_calm : keeps calm rzi_usp_unlock. Proof. by intros s. Qed.
#[local] Hint Resolve usp_call_calm usp_read_calm usp_call_depth usp_read_depth lock_calm unlock_calm : frame.
Lemma enter_calm : keeps calm rzi_lorawan_usp_enter. Proof. unfold rzi_lorawan_usp_enter. frame. Qed.
Lemma finish_calm {A} (a : A) : keeps calm (rzi_lorawan_usp_finish a).
Proof. unfold rzi_lorawan_usp_finish. frame. Qed.
#[local] Hint Resolve enter_calm finish_calm : frame.
Lemma uput_depth f : keeps usp_depth (uput f). Proof. by intros s. Qed.
Lemma publish_depth e : keeps usp_depth (rzi_lorawan_usp_publish e). Proof. by intros s. Qed.
Lemma mput_depth f : keeps usp_depth (mput f). Proof. by intros s. Qed.
#[local] Hint Resolve uput_depth publish_depth mput_depth : frame.

(** The two ways through [rzi_lorawan_usp_enter]. *)
Definition locked (s : usp_state) : usp_state := (rzi_usp_lock s).2.
Definition woken (s : usp_state) : usp_state := set_us_lbm (smtc_modem_hal_wake_up (us_lbm s)) s.
Lemma enter_run {A} (r : Z -> A) (k : M usp_state A) s :
  bind rzi_lorawan_usp_enter (fun rc => if rc =? 0 then k else ret (r rc)) s =
    if u_ready (us_vars s) then k (locked s) else (r (- RZI_ERR_NOT_READY), woken s).
Proof.
  unfold rzi_lorawan_usp_enter, bind, uget, gets. cbn.
  destruct s as [v c m p l e]. cbn. destruct (u_ready v); [done|]. cbn.
  destruct p as [a b h d]. unfold woken, set_us_platform, put_lock_depth. cbn. by rewrite Z.add_simpl_r.
Qed.
Lemma finish_run {A} (a : A) s : rzi_lorawan_usp_finish a s =
  (a, set_us_platform (put_lock_depth (lock_depth (us_platform s) - 1) (us_platform s)) (woken s)).
Proof. done. Qed.

(** ** Operations that change nothing *)
Lemma require_joined_calm : keeps calm rzi_lorawan_usp_require_joined.
Proof. unfold rzi_lorawan_usp_require_joined. frame. Qed.
#[local] Hint Resolve require_joined_calm : frame.
Lemma set_profile_calm p d : keeps calm (set_profile p d). Proof. unfold set_profile. frame. Qed.
#[local] Hint Resolve set_profile_calm : frame.
Lemma cert_port_calm e : keeps calm (modify (set_us_cert_port e)). Proof. by intros s. Qed.
#[local] Hint Resolve cert_port_calm : frame.
Ltac unfold_queries :=
  unfold usp_is_joined, usp_is_busy, usp_get_class, usp_get_adr, usp_set_adr, usp_get_data_rate, usp_set_data_rate,
    usp_get_enabled_data_rates, usp_get_adr_profile, usp_set_adr_profile, usp_get_nb_trans, usp_set_nb_trans,
    usp_get_adr_ack, usp_set_adr_ack, usp_set_join_data_rates, usp_get_duty_cycle_status, usp_get_join_backoff,
    usp_get_public_network, usp_set_public_network, usp_get_lbt, usp_set_lbt, usp_get_lbt_rssi, usp_set_lbt_rssi,
    usp_get_lbt_scan_time, usp_set_lbt_scan_time, usp_get_csma, usp_set_csma, usp_get_csma_params,
    usp_set_csma_params, usp_get_lost_connection_count, usp_get_no_downlink_threshold,
    usp_set_no_downlink_threshold, usp_get_crystal_error, usp_set_crystal_error, usp_query_tx_possible,
    usp_get_ping_slot, usp_set_ping_slot, usp_get_class_b_state, usp_link_check_request, usp_device_time_request,
    usp_get_network_time, usp_get_dev_addr, usp_get_nwk_skey, usp_get_app_skey, usp_copy_session_key,
    usp_get_cert_mode, usp_set_cert_mode, usp_get_cert_port, usp_set_cert_port, usp_multicast_count,
    usp_multicast_get, usp_fuota_start_clock_sync, locked_call, locked_read, usp_locked_get, pin_data_rate,
    rzi_lorawan_usp_tx_pending, rzi_lorawan_usp_class_b_state, when.
Lemma query_calm q : keeps calm (run_query q).
Proof. destruct q; cbn [run_query]; unfold ucode; unfold_queries; frame. Qed.

(** ** The lock is given back on every path *)
Lemma finish_gives_back {A} (a : A) : gives_back (rzi_lorawan_usp_finish a).
Proof. by intros s. Qed.
Lemma enter_balanced {A} (r : Z -> A) (k : M usp_state A) : gives_back k ->
  keeps usp_depth (bind rzi_lorawan_usp_enter (fun rc => if rc =? 0 then k else ret (r rc))).
Proof.
  intros Hk s. unfold same. rewrite enter_run. destruct (u_ready _); [|done]. rewrite Hk. unfold depth_of, locked. cbn. lia.
Qed.
Lemma gets_depth {A} (f : usp_state -> A) : keeps usp_depth (gets f). Proof. by intros s. Qed.
Lemma cert_port_depth e : keeps usp_depth (modify (set_us_cert_port e)). Proof. by intros s. Qed.
#[local] Hint Resolve gets_depth cert_port_depth : frame.
Lemma require_joined_depth : keeps usp_depth rzi_lorawan_usp_require_joined.
Proof. unfold rzi_lorawan_usp_require_joined. frame. Qed.
#[local] Hint Resolve require_joined_depth : frame.
Lemma set_profile_depth p d : keeps usp_depth (set_profile p d). Proof. unfold set_profile. frame. Qed.
Lemma set_class_b_depth c : keeps usp_depth (rzi_lorawan_usp_set_class_b_state c).
Proof. unfold rzi_lorawan_usp_set_class_b_state. frame. Qed.
Lemma publish_class_b_depth c : keeps usp_depth (rzi_lorawan_usp_publish_class_b c).
Proof. unfold rzi_lorawan_usp_publish_class_b, when. frame. Qed.
Lemma credentials_depth : keeps usp_depth configure_credentials.
Proof. unfold configure_credentials. frame. Qed.
Lemma channel_mask_depth : keeps usp_depth configure_channel_mask.
Proof. unfold configure_channel_mask. frame. Qed.
Lemma service_depth : keeps usp_depth configure_service.
Proof. unfold configure_service, check_region_built. frame. Qed.
#[local] Hint Resolve set_profile_depth set_class_b_depth publish_class_b_depth : frame.
#[local] Hint Resolve credentials_depth channel_mask_depth service_depth : frame.
Ltac balance :=
  repeat match goal with
  | |- keeps usp_depth (bind rzi_lorawan_usp_enter _) => apply enter_balanced
  | |- keeps usp_depth (ret _) => by intros ?
  | |- keeps usp_depth (match ?x with _ => _ end) => destruct x
  | |- keeps usp_depth (ucode _) => apply respects_bind; [apply _| |intros [? ?]]
  | |- gives_back (rzi_lorawan_usp_finish _) => apply finish_gives_back
  | |- gives_back (match ?x with _ => _ end) => destruct x
  | |- gives_back (bind _ _) => apply gives_back_bind; [frame|intros ?]
  end.
Ltac unfold_ops :=
  unfold usp_join, usp_leave, usp_send, usp_send_empty, usp_set_class, usp_stop_class_b, usp_multicast_add,
    usp_multicast_remove, usp_multicast_clear, start_session, rzi_lorawan_usp_set_tx_pending,
    rzi_lorawan_usp_class_b_state, rzi_lorawan_usp_tx_pending, when.
Lemma query_depth q : keeps usp_depth (run_query q).
Proof. destruct q; cbn [run_query]; unfold_queries; balance. Qed.
Lemma op_depth o : keeps usp_depth (run_uop o).
Proof. destruct o; cbn [run_uop]; [apply query_depth|..]; unfold_ops; balance. Qed.
Lemma downlink_loop_depth n b : keeps usp_depth (downlink_loop n b).
Proof.
  revert b. induction n as [|n IH]; intros b; cbn [downlink_loop]; unfold publish_error; frame; apply IH.
Qed.
Lemma handle_event_depth e error : keeps usp_depth (handle_event e error).
Proof.
  unfold handle_event, publish_error. destruct e as [e|]; [|frame].
  unfold handle_type, handle_reset, publish_downlinks, publish_fuota, publish_error, when.
  frame; apply downlink_loop_depth.
Qed.

(** ** The steps of the system, with what they say about uplinks *)
Inductive uplink_item : Type := UAccept | UDone (status : smtc_modem_event_txdone_status) | UReset.
Definition requests_uplink (o : usp_op) : bool :=
  match o with USend _ _ _ _ | USendEmpty _ _ _ => true | _ => false end.
Definition op_label (o : usp_op) (rc : Z) : list uplink_item :=
  if requests_uplink o && (rc =? 0) then [UAccept] else [].
Definition event_label (e : smtc_modem_event_t) (s : usp_state) : list uplink_item :=
  if handler (us_platform s) =? LORAWAN_HANDLER then
    match event_type e with
    | SMTC_MODEM_EVENT_RESET => [UReset]
    | SMTC_MODEM_EVENT_TXDONE status => [UDone status]
    | _ => []
    end
  else [].
Definition start_label (rc : Z) (s : usp_state) : list uplink_item :=
  if (rc =? 0) && reset_seen (us_platform s) then [UReset] else [].
Inductive usp_step : usp_state -> list uplink_item -> usp_state -> Prop :=
| step_op o s : usp_step s (op_label o (run_uop o s).1) (run_uop o s).2
| step_start region bypass sink s :
    usp_step s (start_label (usp_start region bypass sink s).1 s) (usp_start region bypass sink s).2
| step_event e s : usp_step s (event_label e s) (deliver_event e s).2
| step_error rc s : usp_step s [] (call_handler None (rzi_usp_result rc) s).2
| step_engine l s : usp_step s [] (set_us_lbm l s).
Inductive usp_run_to : usp_state -> list uplink_item -> usp_state -> Prop :=
| run_nil s : usp_run_to s [] s
| run_cons s1 l1 s2 l2 s3 : usp_step s1 l1 s2 -> usp_run_to s2 l2 s3 -> usp_run_to s1 (l1 ++ l2) s3.
Definition usp_reachable (log : list uplink_item) (s : usp_state) : Prop := exists l, usp_run_to (usp_boot l) log s.

(** The loop of the event callback is a sequence of such steps, and so is the
    callback whatever the modem answers. *)
Lemma run_app s1 l1 s2 l2 s3 : usp_run_to s1 l1 s2 -> usp_run_to s2 l2 s3 -> usp_run_to s1 (l1 ++ l2) s3.
Proof. induction 1; intros; cbn; [done|]. rewrite <- app_assoc. econstructor; eauto. Qed.
Lemma run_one s l s' : usp_step s l s' -> usp_run_to s l s'.
Proof. intros Hs. rewrite <- (app_nil_r l). econstructor; [done|constructor]. Qed.
Lemma event_loop_runs n s : exists log, usp_run_to s log (event_loop n s).2.
Proof.
  revert s. induction n as [|n IH]; intros s; cbn [event_loop]; [eexists; constructor|].
  unfold bind at 1, modem, zoom. cbn [lbm_of usp_env]. destruct (smtc_modem_get_event (us_lbm s)) as [[rc [e pending]] l].
  cbn [set_lbm usp_env]. set (s1 := set_us_lbm l s).
  assert (Hpop : usp_run_to s [] s1) by apply run_one, step_engine.
  assert (Hend : exists log, usp_run_to s log s1) by eauto.
  assert (Herr : forall rc, exists log, usp_run_to s log (call_handler None (rzi_usp_result rc) s1).2).
  { intros rc'. eexists. eapply run_app; [exact Hpop|]. apply run_one, step_error. }
  destruct rc; cbn [ret snd]; auto.
  unfold bind. pose proof (step_event e s1) as He. destruct (deliver_event e s1) as [u s2]. cbn [snd] in He.
  assert (Hev : usp_run_to s ([] ++ event_label e s1) s2) by (eapply run_app; [exact Hpop|by apply run_one]).
  destruct (0 <? pending); [|eauto]. destruct (IH s2) as [log Hl]. eexists. by eapply run_app.
Qed.

(** ** The specification: what the backend promises of uplinks, Class B and
    readiness, as an automaton *)
Record ucore : Type := UCore {
  c_ready : bool; c_tx : bool; c_sink : Z; c_class_b : Z; c_events : list rzi_lorawan_backend_event;
}.
Definition core_of (s : usp_state) : ucore :=
  UCore (u_ready (us_vars s)) (u_tx_pending (us_vars s)) (u_event_sink (us_vars s)) (u_class_b_state (us_vars s))
    (us_events s).
(** Events the automaton says nothing about. *)
Definition other_event (e : rzi_lorawan_backend_event) : Prop :=
  match e with BACKEND_TX_DONE _ _ | BACKEND_CLASS_B _ | BACKEND_READY => False | _ => True end.
Inductive ustep : ucore -> list uplink_item -> ucore -> Prop :=
| u_other r t k c es es' : Forall other_event es' -> ustep (UCore r t k c es) [] (UCore r t k c (es ++ es'))
| u_sink r t k c es k' : k' <> 0 -> ustep (UCore r t k c es) [] (UCore r t k' c es)
| u_accept k c es : ustep (UCore true false k c es) [UAccept] (UCore true true k c es)
| u_done r t k c es status : k <> 0 ->
    ustep (UCore r t k c es) [UDone status] (UCore r false k c (es ++ [txdone_event status]))
| u_reset_ok r t k c es : k <> 0 ->
    ustep (UCore r t k c es) [UReset] (UCore true false k c (es ++ [BACKEND_READY]))
| u_reset_failed r t k c es error : k <> 0 ->
    ustep (UCore r t k c es) [UReset] (UCore false false k c (es ++ [BACKEND_ERROR error]))
| u_class r t k c es n : k <> 0 -> n <> c ->
    ustep (UCore r t k c es) [] (UCore r t k n (es ++ [BACKEND_CLASS_B n])).
Inductive usteps : ucore -> list uplink_item -> ucore -> Prop :=
| usteps_nil c : usteps c [] c
| usteps_cons c1 l1 c2 l2 c3 : ustep c1 l1 c2 -> usteps c2 l2 c3 -> usteps c1 (l1 ++ l2) c3.
Lemma usteps_app c1 l1 c2 l2 c3 : usteps c1 l1 c2 -> usteps c2 l2 c3 -> usteps c1 (l1 ++ l2) c3.
Proof. induction 1; intros; cbn; [done|]. rewrite <- app_assoc. econstructor; eauto. Qed.
Lemma usteps_one c l c' : ustep c l c' -> usteps c l c'.
Proof. intros Hs. rewrite <- (app_nil_r l). econstructor; [done|constructor]. Qed.

(** A handler or readiness implies a sink. *)
Definition wired (s : usp_state) : Prop :=
  (u_event_sink (us_vars s) <> 0 \/ (u_ready (us_vars s) = false /\ handler (us_platform s) = 0)) /\
  (handler (us_platform s) = 0 \/ handler (us_platform s) = LORAWAN_HANDLER) /\
  (u_ready (us_vars s) = true -> reset_seen (us_platform s) = true).
(** Moving without a label. *)
Definition drifts (s s' : usp_state) : Prop := wired s -> wired s' /\ usteps (core_of s) [] (core_of s').
#[local] Instance drifts_preorder : PreOrder drifts.
Proof.
  split; [intros s; split; [done|constructor]|].
  intros s1 s2 s3 H12 H23 Hw. destruct (H12 Hw) as [Hw2 Hs2]. destruct (H23 Hw2) as [Hw3 Hs3].
  split; [done|]. exact (usteps_app _ [] _ [] _ Hs2 Hs3).
Qed.
Lemma calm_core s s' : calm s' = calm s -> core_of s' = core_of s /\ (wired s -> wired s').
Proof.
  unfold calm, core_of, wired. intros [=Hv Hm Hi Hr Hh He]. by rewrite Hv, Hr, Hh, He.
Qed.
Lemma calm_drifts {A} (m : M usp_state A) : keeps calm m -> respects drifts m.
Proof.
  intros Hm s Hw. destruct (calm_core _ _ (Hm s)) as [-> Hk]. split; [auto|constructor].
Qed.
(** Variables outside the automaton. *)
Lemma uput_drifts f : (forall v, u_ready (f v) = u_ready v /\ u_tx_pending (f v) = u_tx_pending v /\
  u_event_sink (f v) = u_event_sink v /\ u_class_b_state (f v) = u_class_b_state v) -> respects drifts (uput f).
Proof.
  intros Hf s Hw. destruct (Hf (us_vars s)) as (Hr & Ht & Hk & Hc). unfold uput, modify, core_of, wired in *. cbn.
  rewrite Hr, Ht, Hk, Hc. split; [done|constructor].
Qed.
Lemma mput_drifts f : respects drifts (mput f). Proof. intros s Hw. split; [done|constructor]. Qed.
Lemma publish_drifts e : other_event e -> respects drifts (rzi_lorawan_usp_publish e).
Proof.
  intros He s Hw. split; [done|]. apply usteps_one. unfold core_of. cbn. apply u_other. by constructor.
Qed.
#[local] Hint Resolve drifts_preorder mput_drifts : frame.
#[local] Hint Extern 2 (respects drifts (uput _)) => apply uput_drifts; intros ?; done : frame.
#[local] Hint Extern 2 (respects drifts (rzi_lorawan_usp_publish _)) => apply publish_drifts; exact I : frame.
#[local] Hint Extern 3 (respects drifts _) => apply calm_drifts; solve [auto with frame] : frame.
Lemma gets_calm {A} (f : usp_state -> A) : keeps calm (gets f). Proof. by intros s. Qed.
#[local] Hint Resolve gets_calm : frame.
Lemma credentials_calm : keeps calm configure_credentials. Proof. unfold configure_credentials. frame. Qed.
Lemma channel_mask_calm : keeps calm configure_channel_mask. Proof. unfold configure_channel_mask. frame. Qed.
Lemma service_calm : keeps calm configure_service. Proof. unfold configure_service, check_region_built. frame. Qed.
#[local] Hint Resolve credentials_calm channel_mask_calm service_calm : frame.

(** Class B: a change is published once, by a backend that is wired. *)
Definition class_change (n : Z) (s : usp_state) : usp_state :=
  set_us_events (us_events s ++ [BACKEND_CLASS_B n]) (set_us_vars (u_set_class_b_state n (us_vars s)) s).
Lemma class_change_drifts n s : u_event_sink (us_vars s) <> 0 -> u_class_b_state (us_vars s) <> n ->
  wired s -> wired (class_change n s) /\ usteps (core_of s) [] (core_of (class_change n s)).
Proof.
  intros Hk Hn Hw. split; [done|]. apply usteps_one. unfold core_of. cbn. by apply u_class.
Qed.
Lemma publish_class_run n s : u_event_sink (us_vars s) <> 0 ->
  rzi_lorawan_usp_publish_class_b n s = (tt, set_us_events (us_events s ++ [BACKEND_CLASS_B n]) s).
Proof.
  intros Hk. unfold rzi_lorawan_usp_publish_class_b, bind, uget, gets, when.
  by destruct (Z.eqb_spec (u_event_sink (us_vars s)) 0).
Qed.
Lemma set_class_run n s : rzi_lorawan_usp_set_class_b_state n s =
  if u_class_b_state (us_vars s) =? n then (false, s)
  else (true, set_us_vars (u_set_class_b_state n (us_vars s)) s).
Proof. unfold rzi_lorawan_usp_set_class_b_state, bind, uget, gets. by destruct (_ =? _). Qed.

(** *** Operations *)
Lemma usp_call_eq m s : usp_call m s = (rzi_usp_result (m (us_lbm s)).1, set_us_lbm (m (us_lbm s)).2 s).
Proof. unfold usp_call, bind. by rewrite modem_eq. Qed.
Lemma usp_read_eq {A} (m : smtc_out lbm A) s : usp_read m s =
  ((rzi_usp_result (m (us_lbm s)).1.1, (m (us_lbm s)).1.2), set_us_lbm (m (us_lbm s)).2 s).
Proof. unfold usp_read. rewrite bind_eq, modem_eq. cbn. by destruct ((m (us_lbm s)).1). Qed.
(** The state after an accepted request. *)
Definition accepted_state (l : lbm) (s : usp_state) : usp_state :=
  set_us_vars (u_set_tx_pending true (us_vars s)) (set_us_lbm l s).
(** The two kinds of uplink request, by the call of the modem. *)
Definition request_uplink (m : smtc lbm) : M usp_state Z :=
  rc* rc := rzi_lorawan_usp_enter else rc in
  let* pending := uget u_tx_pending in
  if pending then rzi_lorawan_usp_finish (- RZI_ERR_BUSY)
  else
    let* rc := usp_call m in
    when (rc =? 0) (uput (u_set_tx_pending true)) ;;;
    rzi_lorawan_usp_finish rc.
Lemma request_eq m s : request_uplink m s =
  if u_ready (us_vars s) then
    if u_tx_pending (us_vars s) then (- RZI_ERR_BUSY, woken s)
    else
      let r := m (us_lbm s) in
      let s' := if rzi_usp_result r.1 =? 0 then accepted_state r.2 s else set_us_lbm r.2 s in
      (rzi_usp_result r.1, woken s')
  else (- RZI_ERR_NOT_READY, woken s).
Proof.
  unfold request_uplink. rewrite enter_run. destruct s as [v c mc p l e]. cbn [us_vars us_lbm].
  destruct (u_ready v); [|done]. unfold bind, uget, gets, locked, when, woken, accepted_state.
  destruct p as [i rs h d].
  destruct (u_tx_pending v) eqn:Et; rewrite ?usp_call_eq; cbn; rewrite Et; cbn.
  - by rewrite Z.add_simpl_r.
  - rewrite usp_call_eq. cbn. destruct (m l) as [rc l']. cbn.
    destruct (rzi_usp_result rc =? 0); cbn; by rewrite Z.add_simpl_r.
Qed.
Lemma request_step m s : wired s -> wired (request_uplink m s).2 /\
  usteps (core_of s) (if (request_uplink m s).1 =? 0 then [UAccept] else []) (core_of (request_uplink m s).2).
Proof.
  intros Hw. rewrite request_eq.
  destruct (u_ready (us_vars s)) eqn:Er; [|split; [done|constructor]].
  destruct (u_tx_pending (us_vars s)) eqn:Et; [split; [done|constructor]|]. cbn zeta.
  destruct (m (us_lbm s)) as [rc l]. cbn [fst snd].
  destruct (rzi_usp_result rc =? 0) eqn:E; cbn [fst snd]; rewrite ?E; (split; [done|]); [|constructor].
  apply usteps_one. unfold core_of. cbn. rewrite Er, Et. apply u_accept.
Qed.
Lemma set_class_drifts c : respects drifts (usp_set_class c).
Proof.
  unfold usp_set_class. intros s Hw. rewrite enter_run.
  destruct (u_ready (us_vars s)) eqn:Er; [|split; [done|constructor]].
  destruct (map_class c) as [[mapped next]|]; [|split; [done|constructor]].
  assert (Hk : u_event_sink (us_vars s) <> 0) by (destruct Hw as [[Hk|[Hr _]] _]; [done|congruence]).
  rewrite bind_eq. cbn [fst snd rzi_lorawan_usp_class_b_state uget gets].
  rewrite bind_eq, set_class_run.
  destruct s as [v cp mc p l e]. unfold locked, rzi_usp_lock, pput, modify. cbn [us_vars fst snd platform_of set_platform usp_env set_us_platform] in *.
  destruct (Z.eqb_spec (u_class_b_state v) next) as [He|Hne]; cbn [fst snd];
    rewrite bind_eq, usp_call_eq; cbn [us_lbm us_vars us_platform set_us_vars set_us_platform fst snd];
    destruct (smtc_modem_set_class mapped l) as [rc l']; cbn [fst snd].
  - rewrite andb_false_r. split; [done|constructor].
  - destruct (rzi_usp_result rc =? 0) eqn:E; cbn [negb andb].
    + rewrite bind_eq. cbn [fst snd ret when]. rewrite bind_eq, publish_class_run by done.
      by apply (class_change_drifts next (UspState v cp mc p l e)) in Hne.
    + rewrite !bind_eq, set_class_run. cbn [set_us_lbm set_us_vars us_vars u_set_class_b_state u_class_b_state].
      destruct (Z.eqb_spec next (u_class_b_state v)) as [?|_]; [congruence|].
      cbn. split; [done|]. destruct v. cbn. constructor.
Qed.
Lemma stop_class_b_drifts : respects drifts usp_stop_class_b.
Proof.
  unfold usp_stop_class_b. intros s Hw. rewrite enter_run.
  destruct (u_ready (us_vars s)) eqn:Er; [|split; [done|constructor]].
  assert (Hk : u_event_sink (us_vars s) <> 0) by (destruct Hw as [[Hk|[Hr _]] _]; [done|congruence]).
  rewrite bind_eq, usp_call_eq. cbn [fst snd]. unfold locked, rzi_usp_lock, pput, modify.
  destruct s as [v cp mc p l e]. cbn [us_vars us_lbm fst snd platform_of set_platform usp_env set_us_platform] in *.
  destruct (smtc_modem_set_class SMTC_MODEM_CLASS_A l) as [rc l']. cbn [fst snd].
  destruct (rzi_usp_result rc =? 0) eqn:E; [|split; [done|constructor]].
  rewrite bind_eq, set_class_run. cbn [us_vars us_platform set_us_platform set_us_lbm].
  destruct (Z.eqb_spec (u_class_b_state v) RZI_LORAWAN_CLASS_B_IDLE) as [He|Hne];
    cbn [fst snd when]; [split; [done|constructor]|]. rewrite bind_eq, publish_class_run by done.
  by apply (class_change_drifts RZI_LORAWAN_CLASS_B_IDLE (UspState v cp mc p l e)) in Hne.
Qed.
Lemma op_refines o s : wired s -> wired (run_uop o s).2 /\
  usteps (core_of s) (op_label o (run_uop o s).1) (core_of (run_uop o s).2).
Proof.
  destruct (requests_uplink o) eqn:E; unfold op_label; rewrite E; cbn [andb].
  - destruct o; try done; apply request_step.
  - revert s. change (respects drifts (run_uop o)). destruct o; try done; cbn [run_uop].
    + apply calm_drifts, query_calm.
    + unfold usp_join. frame.
    + unfold usp_leave, when. frame.
    + apply set_class_drifts.
    + apply stop_class_b_drifts.
    + unfold usp_multicast_add, start_session, when. frame.
    + unfold usp_multicast_remove, when. frame.
    + unfold usp_multicast_clear, when. frame.
Qed.

(** *** Events *)
Lemma downlinks_drift n b : respects drifts (downlink_loop n b).
Proof.
  revert b. induction n as [|n IH]; intros b; cbn [downlink_loop]; unfold publish_error; frame; apply IH.
Qed.
(** What [handle_reset] has done when it decides. *)
Definition reset_work : M usp_state Z :=
  uput (u_set_ready false) ;;;
  uput (u_set_tx_pending false) ;;;
  when CONFIG_RZI_LORAWAN_FUOTA (uput (u_set_fuota_image_ready false)) ;;;
  let* rc := configure_service in
  let* valid := uget u_credentials_valid in
  if (rc =? 0) && valid then configure_credentials else ret rc.
Lemma handle_reset_eq s : handle_reset s =
  let r := reset_work s in
  if r.1 =? 0 then (rzi_lorawan_usp_publish BACKEND_READY (set_us_vars (u_set_ready true (us_vars r.2)) r.2))
  else publish_error r.1 r.2.
Proof.
  unfold handle_reset, reset_work. cbn zeta. rewrite !bind_eq.
  cbn. by destruct (_ =? 0).
Qed.
(** The configuration calls leave the automaton's variables as the first lines
    of the handler set them. *)
Definition reset_begun (s : usp_state) : usp_state :=
  set_us_vars (u_set_fuota_image_ready
      (if CONFIG_RZI_LORAWAN_FUOTA then false else u_fuota_image_ready (us_vars s))
      (u_set_tx_pending false (u_set_ready false (us_vars s)))) s.
Lemma reset_work_calm s : calm (reset_work s).2 = calm (reset_begun s).
Proof.
  unfold reset_work. do 2 rewrite bind_eq. cbn [fst snd uput modify].
  set (s1 := set_us_vars (u_set_tx_pending false _) _). rewrite bind_eq.
  assert (Hf : ((when CONFIG_RZI_LORAWAN_FUOTA (uput (u_set_fuota_image_ready false))) s1).2 = reset_begun s).
  { unfold reset_begun. destruct CONFIG_RZI_LORAWAN_FUOTA; [done|]. by destruct s as [[]]. }
  rewrite Hf. generalize (reset_begun s). clear. intros s.
  enough (Hk : keeps calm (let* rc := configure_service in
    let* valid := uget u_credentials_valid in
    if (rc =? 0) && valid then configure_credentials else ret rc)) by apply Hk.
  frame.
Qed.
Lemma handle_reset_refines s : wired s -> u_event_sink (us_vars s) <> 0 -> reset_seen (us_platform s) = true ->
  wired (handle_reset s).2 /\ usteps (core_of s) [UReset] (core_of (handle_reset s).2).
Proof.
  intros Hw Hk Hr. rewrite handle_reset_eq. cbn zeta. pose proof (reset_work_calm s) as Hc.
  destruct (reset_work s) as [rc s1]. cbn [fst snd] in *.
  destruct (calm_core _ _ Hc) as [Hcore Hwired].
  assert (Hw1 : wired s1).
  { apply Hwired. destruct Hw as (_ & Hh & _). split_and!; try done. by left. }
  assert (Hrs : reset_seen (us_platform s1) = true) by (unfold calm in Hc; cbn in Hc; congruence).
  assert (Hsink : u_event_sink (us_vars s1) <> 0) by (injection Hcore; intros; congruence).
  unfold core_of in Hcore. cbn in Hcore. injection Hcore as Hr1 Ht1 Hk1 Hc1 He1.
  destruct (rc =? 0).
  - split.
    + destruct Hw1 as (_ & Hh & _). split_and!; [by left|done|done].
    + unfold core_of. cbn. rewrite Ht1, Hk1, Hc1, He1. apply usteps_one. by apply u_reset_ok.
  - split; [done|]. unfold publish_error, core_of. cbn. rewrite Hr1, Ht1, Hk1, Hc1, He1.
    apply usteps_one. by apply u_reset_failed.
Qed.
Lemma publish_fuota_drifts k : respects drifts (publish_fuota k).
Proof. unfold publish_fuota, when. frame. Qed.
#[local] Hint Resolve publish_fuota_drifts : frame.
Definition type_label (t : smtc_modem_event_type) : list uplink_item :=
  match t with
  | SMTC_MODEM_EVENT_RESET => [UReset]
  | SMTC_MODEM_EVENT_TXDONE status => [UDone status]
  | _ => []
  end.
Lemma class_status_drifts next s : u_event_sink (us_vars s) <> 0 ->
  drifts s ((let* changed := rzi_lorawan_usp_set_class_b_state next in
             when changed (rzi_lorawan_usp_publish_class_b next)) s).2.
Proof.
  intros Hk Hw. rewrite bind_eq, set_class_run.
  destruct (Z.eqb_spec (u_class_b_state (us_vars s)) next) as [He|Hne]; cbn [fst snd when].
  - split; [done|constructor].
  - rewrite publish_class_run by done. by apply (class_change_drifts next s).
Qed.
Lemma handle_type_refines t s : wired s -> u_event_sink (us_vars s) <> 0 -> 
  (t = SMTC_MODEM_EVENT_RESET -> reset_seen (us_platform s) = true) ->
  wired (handle_type t s).2 /\ usteps (core_of s) (type_label t) (core_of (handle_type t s).2).
Proof.
  intros Hw Hk Hr.
  destruct t as [| | |st| |st|st|st|st|st| | | | | |ok|st|]; cbn [handle_type type_label];
    try (revert Hw; lazymatch goal with |- wired ?s -> wired (?m ?s).2 /\ _ =>
      enough (Hd : respects drifts m) by apply Hd end; unfold publish_downlinks, publish_error, when;
      frame; apply downlinks_drift).
  - by apply handle_reset_refines; [| |apply Hr].
  - split; [done|]. apply usteps_one. unfold core_of. cbn. by apply u_done.
  - destruct st; [..|split; [done|constructor]]; by apply class_status_drifts.
Qed.
Lemma handle_event_refines e s : wired s -> u_event_sink (us_vars s) <> 0 ->
  (event_type e = SMTC_MODEM_EVENT_RESET -> reset_seen (us_platform s) = true) ->
  wired (handle_event (Some e) 0 s).2 /\
  usteps (core_of s) (type_label (event_type e)) (core_of (handle_event (Some e) 0 s).2).
Proof.
  intros Hw Hk Hr. unfold handle_event. rewrite bind_eq.
  destruct (0 <? missed_events e); cbn [when]; [|by apply handle_type_refines].
  destruct (publish_drifts (BACKEND_ERROR (- RZI_ERR_OVERFLOW)) I s Hw) as [Hw1 Hs1].
  destruct (handle_type_refines (event_type e) (rzi_lorawan_usp_publish (BACKEND_ERROR (- RZI_ERR_OVERFLOW)) s).2)
    as [Hw2 Hs2]; try done.
  split; [done|]. exact (usteps_app _ [] _ _ _ Hs1 Hs2).
Qed.
Lemma call_handler_eq e error s : handler (us_platform s) = 0 \/ handler (us_platform s) = LORAWAN_HANDLER ->
  call_handler e error s =
    if handler (us_platform s) =? LORAWAN_HANDLER then handle_event e error s else (tt, s).
Proof. intros Hh. unfold call_handler, bind, pget, gets. cbn. by destruct Hh as [-> | ->]. Qed.
Lemma reset_seen_wired b s : (reset_seen (us_platform s) = true -> b = true) -> wired s ->
  wired (set_us_platform (put_reset_seen b (us_platform s)) s).
Proof. intros Hb (Hk & Hh & Hr). split_and!; auto. Qed.
Lemma wired_sink s : wired s -> handler (us_platform s) = LORAWAN_HANDLER -> u_event_sink (us_vars s) <> 0.
Proof. intros ([?|[_ Hh]] & _) ?; [done|]. rewrite Hh in *. done. Qed.
Lemma deliver_event_refines e s : wired s -> wired (deliver_event e s).2 /\
  usteps (core_of s) (event_label e s) (core_of (deliver_event e s).2).
Proof.
  intros Hw. unfold deliver_event. rewrite bind_eq.
  set (s1 := ((if is_reset e then pput (put_reset_seen true) else ret tt) s).2).
  assert (H1s : s1 = set_us_platform (put_reset_seen (is_reset e || reset_seen (us_platform s)) (us_platform s)) s).
  { subst s1. destruct (is_reset e); [done|]. by destruct s as [? ? ? []]. }
  assert (Hw1 : wired s1).
  { rewrite H1s. apply reset_seen_wired; [intros ->; apply orb_true_r|done]. }
  assert (Hc1 : core_of s1 = core_of s) by by rewrite H1s.
  assert (Hh1 : handler (us_platform s1) = handler (us_platform s)) by by rewrite H1s.
  rewrite call_handler_eq by apply Hw1. unfold event_label. rewrite <- Hc1, Hh1.
  destruct (Z.eqb_spec (handler (us_platform s)) LORAWAN_HANDLER) as [He|]; [|split; [done|constructor]].
  apply handle_event_refines; [done|apply wired_sink; congruence|].
  intros Hr. rewrite H1s. cbn. unfold is_reset. by rewrite Hr.
Qed.
Lemma call_error_drifts error : respects drifts (call_handler None error).
Proof.
  intros s Hw. rewrite call_handler_eq by apply Hw. destruct (_ =? _); [|split; [done|constructor]].
  revert Hw. apply (publish_drifts (BACKEND_ERROR error) I).
Qed.
(** Start: the sink, then the handler, then a replayed RESET. *)
Lemma init_calm s : calm (rzi_usp_init s).2 =
  (us_vars s, us_multicast s, (true, reset_seen (us_platform s), handler (us_platform s)), us_events s).
Proof.
  unfold rzi_usp_init, pget. rewrite bind_eq. cbn [gets fst snd platform_of usp_env].
  destruct (initialized (us_platform s)) eqn:Ei; cbn [negb]; [unfold calm; cbn; by rewrite Ei|].
  rewrite !bind_eq, !modem_eq. done.
Qed.
Definition start_prepare (sink : Z) (selected : Z) (bypass : bool) : M usp_state unit :=
  uput (u_set_start selected bypass sink) ;;;
  when CONFIG_RZI_LORAWAN_FUOTA (modem lorawan_register_fuota_callbacks) ;;;
  rzi_usp_init ;;;
  rzi_usp_lock.
Lemma start_prepare_calm sink selected bypass s : calm (start_prepare sink selected bypass s).2 =
  (u_set_start selected bypass sink (us_vars s), us_multicast s,
   (true, reset_seen (us_platform s), handler (us_platform s)), us_events s).
Proof.
  unfold start_prepare. rewrite !bind_eq. rewrite (lock_calm _), init_calm. cbn [fst snd].
  unfold when. destruct CONFIG_RZI_LORAWAN_FUOTA; rewrite ?modem_eq; done.
Qed.
Lemma usp_start_eq region bypass sink s : usp_start region bypass sink s =
  match usp_map_region region with
  | None => (- RZI_ERR_INVALID, s)
  | Some selected =>
      if sink =? 0 then (- RZI_ERR_INVALID, s)
      else (0, (rzi_usp_unlock (rzi_usp_set_event_handler LORAWAN_HANDLER
                 (start_prepare sink selected bypass s).2).2).2)
  end.
Proof.
  unfold usp_start, start_prepare. destruct (usp_map_region region); [|done]. destruct (sink =? 0); [done|].
  by rewrite !bind_eq.
Qed.
Lemma set_handler_eq s : rzi_usp_set_event_handler LORAWAN_HANDLER s =
  let s1 := set_us_platform (put_handler LORAWAN_HANDLER (us_platform s)) s in
  if reset_seen (us_platform s) then handle_event (Some (ModemEvent SMTC_MODEM_EVENT_RESET 0)) 0 s1
  else (tt, s1).
Proof.
  unfold rzi_usp_set_event_handler. rewrite !bind_eq. cbn. by destruct (reset_seen (us_platform s)).
Qed.
Lemma start_refines region bypass sink s : wired s -> wired (usp_start region bypass sink s).2 /\
  usteps (core_of s) (start_label (usp_start region bypass sink s).1 s) (core_of (usp_start region bypass sink s).2).
Proof.
  intros Hw. rewrite usp_start_eq. destruct (usp_map_region region) as [selected|]; [|split; [done|constructor]].
  destruct (Z.eqb_spec sink 0) as [|Hk]; [split; [done|constructor]|]. unfold start_label. cbn [fst snd Z.eqb].
  pose proof (start_prepare_calm sink selected bypass s) as Hc.
  destruct (start_prepare sink selected bypass s) as [u s1]. cbn [fst snd] in *.
  assert (Hsink : usteps (core_of s) [] (core_of s1)).
  { unfold calm in Hc. injection Hc as Hv _ _ _ _ He. unfold core_of. rewrite Hv, He. cbn.
    apply usteps_one. by apply u_sink. }
  assert (Hrs : reset_seen (us_platform s1) = reset_seen (us_platform s)) by (unfold calm in Hc; congruence).
  set (s2 := set_us_platform (put_handler LORAWAN_HANDLER (us_platform s1)) s1).
  assert (Hw2 : wired s2).
  { unfold calm in Hc. injection Hc as Hv _ _ _ _ _. destruct Hw as (_ & _ & Hr). unfold wired, s2. cbn.
    rewrite Hv, Hrs. cbn. split_and!; auto. }
  assert (Hgo : forall s3 l, wired s3 -> usteps (core_of s1) l (core_of s3) ->
    wired (rzi_usp_unlock s3).2 /\ usteps (core_of s) l (core_of (rzi_usp_unlock s3).2)).
  { intros s3 l Hw3 Hs3. split; [done|]. exact (usteps_app _ [] _ _ _ Hsink Hs3). }
  rewrite set_handler_eq. cbn zeta. fold s2. rewrite Hrs.
  destruct (reset_seen (us_platform s)) eqn:Er; cbn [snd]; [|apply Hgo; [done|constructor]].
  destruct (handle_event_refines (ModemEvent SMTC_MODEM_EVENT_RESET 0) s2) as [Hw3 Hs3];
    [done|by apply wired_sink|by intros _; exact Hrs|]. by apply Hgo.
Qed.

(** ** Refinement *)
Lemma step_refines s l s' : usp_step s l s' -> wired s -> wired s' /\ usteps (core_of s) l (core_of s').
Proof.
  intros Hs Hw. destruct Hs.
  - by apply op_refines.
  - by apply start_refines.
  - by apply deliver_event_refines.
  - by apply call_error_drifts.
  - split; [done|constructor].
Qed.
Definition ucore_boot : ucore := UCore false false 0 RZI_LORAWAN_CLASS_B_IDLE [].
(** C12: Every execution of the backend, over any modem, is an execution of the
    specification with the same accepted uplinks, completions and resets. *)
Theorem usp_refines_spec log s : usp_reachable log s -> usteps ucore_boot log (core_of s) /\ wired s.
Proof.
  intros [l Hr]. assert (Hw : wired (usp_boot l)) by (split_and!; [right|left|]; done).
  change ucore_boot with (core_of (usp_boot l)). induction Hr as [s|s1 l1 s2 l2 s3 Hs _ IH]; [split; [constructor|done]|].
  destruct (step_refines _ _ _ Hs Hw) as [Hw2 H2s]. destruct (IH Hw2) as [H3s Hw3].
  split; [|done]. by eapply usteps_app.
Qed.

(** ** What follows from the specification *)
(** Pending after a log: an uplink is accepted only when none is pending. *)
Fixpoint uplinks (pending : bool) (log : list uplink_item) : option bool :=
  match log with
  | [] => Some pending
  | UAccept :: log => if pending then None else uplinks true log
  | UDone _ :: log | UReset :: log => uplinks false log
  end.
Lemma uplinks_app p l1 l2 : uplinks p (l1 ++ l2) = p' ← uplinks p l1; uplinks p' l2.
Proof. revert p. induction l1 as [|[]]; intros p; cbn; auto. by destruct p. Qed.
Definition completions (log : list uplink_item) : list rzi_lorawan_backend_event :=
  omap (fun i => match i with UDone status => Some (txdone_event status) | _ => None end) log.
Definition tx_dones (es : list rzi_lorawan_backend_event) : list rzi_lorawan_backend_event :=
  omap (fun e => match e with BACKEND_TX_DONE _ _ => Some e | _ => None end) es.
(** The states published for Class B, from one on, without repetition. *)
Fixpoint class_b_states (state : Z) (es : list rzi_lorawan_backend_event) : option Z :=
  match es with
  | [] => Some state
  | BACKEND_CLASS_B n :: es => if n =? state then None else class_b_states n es
  | _ :: es => class_b_states state es
  end.
Lemma class_b_app c es es' : class_b_states c (es ++ es') = c' ← class_b_states c es; class_b_states c' es'.
Proof. revert c. induction es as [|[]]; intros c; cbn; auto. by destruct (_ =? _). Qed.
Lemma other_events es c : Forall other_event es -> tx_dones es = [] /\ class_b_states c es = Some c.
Proof. induction 1 as [|e es He _ [IH1 IH2]]; [done|]. destruct e; done. Qed.
(** What one execution of the specification adds. *)
Definition spec_adds (c : ucore) (log : list uplink_item) (c' : ucore) : Prop :=
  uplinks (c_tx c) log = Some (c_tx c') /\
  exists es, c_events c' = c_events c ++ es /\ tx_dones es = completions log /\
    class_b_states (c_class_b c) es = Some (c_class_b c').
Lemma ustep_adds c l c' : ustep c l c' -> spec_adds c l c'.
Proof.
  assert (Hnil : forall (es : list rzi_lorawan_backend_event) z, exists es', es = es ++ es' /\
    tx_dones es' = [] /\ class_b_states z es' = Some z) by (intros es z; exists []; by rewrite app_nil_r).
  unfold spec_adds. destruct 1 as [r t k z es es' Ho| | |r t k z es st| | |r t k z es n Hk Hn];
    cbn [c_tx c_events c_class_b]; (split; [done|]); try apply Hnil; try by eexists.
  - exists es'. split; [done|]. by apply other_events.
  - exists [txdone_event st]. by destruct st.
  - exists [BACKEND_CLASS_B n]. split_and!; [done..|]. cbn. by destruct (Z.eqb_spec n z).
Qed.
Lemma usteps_adds c l c' : usteps c l c' -> spec_adds c l c'.
Proof.
  induction 1 as [c|c1 l1 c2 l2 c3 Hs _ [IHu (es2&He2&Hd2&Hc2)]].
  - split; [done|]. exists []. by rewrite app_nil_r.
  - apply ustep_adds in Hs as [Hu (es1&He1&Hd1&Hc1)]. split; [by rewrite uplinks_app, Hu|].
    exists (es1 ++ es2). rewrite He2, He1, app_assoc. split; [done|]. split.
    + unfold tx_dones, completions in *. by rewrite !omap_app, Hd1, Hd2.
    + by rewrite class_b_app, Hc1.
Qed.
Lemma reachable_adds log s : usp_reachable log s -> spec_adds ucore_boot log (core_of s).
Proof.
  intros [l Hr]. apply usteps_adds. assert (Hw : wired (usp_boot l)) by (split_and!; [right|left|]; done).
  change ucore_boot with (core_of (usp_boot l)). induction Hr as [s|s1 l1 s2 l2 s3 Hs _ IH]; [constructor|].
  destruct (step_refines _ _ _ Hs Hw) as [Hw2 H2s]. specialize (IH Hw2). by eapply usteps_app.
Qed.
(** C13: Whatever the modem does: an uplink is accepted only when none is pending,
    pending ends with a completion or a reset of the modem, and the TX_DONE
    events handed to the service are exactly the modem's completions, in
    order, with their outcome. *)
Theorem usp_uplinks_accounted log s : usp_reachable log s ->
  uplinks false log = Some (u_tx_pending (us_vars s)) /\ tx_dones (us_events s) = completions log.
Proof.
  intros Hr. destruct (reachable_adds _ _ Hr) as [Hu (es&He&Hd&_)]. cbn in He. split; [done|]. by rewrite He.
Qed.
(** The Class B events handed to the service name every change of the state
    once: the last one published is the state, and no state repeats. *)
Theorem usp_class_b_published log s : usp_reachable log s ->
  class_b_states RZI_LORAWAN_CLASS_B_IDLE (us_events s) = Some (u_class_b_state (us_vars s)).
Proof.
  intros Hr. destruct (reachable_adds _ _ Hr) as [_ (es&He&_&Hc)]. cbn in He. by rewrite He.
Qed.

(** ** Lock and readiness *)
Lemma deliver_depth e : keeps usp_depth (deliver_event e).
Proof.
  assert (Hh : forall h, keeps usp_depth (run_handler h (Some e) 0)).
  { intros h. unfold run_handler, usp_handlers. destruct (_ =? _); [apply handle_event_depth|by intros s]. }
  apply respects_bind; [apply _|by destruct (is_reset e); intros s|intros _].
  apply respects_bind; [apply _|by intros s|intros h]. destruct (negb _); [apply Hh|by intros s].
Qed.
Lemma start_depth region bypass sink : keeps usp_depth (usp_start region bypass sink).
Proof.
  unfold usp_start. destruct (usp_map_region region) as [selected|]; [|frame]. destruct (sink =? 0); [frame|].
  apply respects_bind; [apply _|frame|intros _].
  apply respects_bind; [apply _|unfold when; frame|intros _].
  apply respects_bind; [apply _|apply init_depth|intros _].
  apply lock_balanced, gives_back_bind; [|intros _; apply unlock_gives_back].
  intros s. rewrite set_handler_eq. cbn zeta. destruct (reset_seen _); [|done].
  exact (handle_event_depth _ 0 (set_us_platform (put_handler LORAWAN_HANDLER (us_platform s)) s)).
Qed.
(** Between two steps the engine lock is free: every operation, start and
    event gives back what it took, on every path. *)
Theorem usp_lock_free log s : usp_reachable log s -> usp_depth s = 0.
Proof.
  intros [l Hr]. assert (Hk : forall s l s', usp_step s l s' -> usp_depth s' = usp_depth s).
  { clear. intros s l s' Hs. destruct Hs; [apply op_depth|apply start_depth|apply deliver_depth| |done].
    unfold call_handler. rewrite bind_eq. cbn. destruct (negb _); [|done].
    unfold run_handler, usp_handlers. destruct (_ =? _); [|done]. apply (handle_event_depth None). }
  change 0 with (usp_depth (usp_boot l)). induction Hr as [|s1 l1 s2 l2 s3 Hs _ IH]; [done|].
  rewrite IH. by eapply Hk.
Qed.
End steps.
