(* ===== verification/UspFlows.v ===== *)
(** * The USP LoRaWAN backend: functional theorems

    Refusals before the modem's RESET, restored configuration, downlinks,
    the join-backoff clock, channel-mask bytes, the multicast groups as a map,
    and the service over this backend. *)
From S2P Require Import Prelude Zephyr Err Power Storage LorawanSettings LorawanBackend LorawanSim LorawanCore LorawanCredentials LorawanChannel LorawanApi Lorawan LorawanService LorawanFlows BackendView Usp UspBackend UspFeatures UspSteps.

Section functional.
Context `{Kconfig} `{UspConfig} `{Lbm}.

(** ** Nothing reaches the modem before its RESET *)
(** An OTAA join; other activations are refused earlier, as not supported. *)
Definition enters (o : usp_op) : bool :=
  match o with UJoin c => j_activation c =? RZI_LORAWAN_ACTIVATION_OTAA | _ => true end.
(** Until the modem reported RESET and was configured, every operation is
    refused as not ready; it changes nothing, and of the modem it only wakes
    the engine. *)
Theorem usp_refused_until_reset o s : enters o = true -> u_ready (us_vars s) = false ->
  run_uop o s = (- RZI_ERR_NOT_READY, woken s).
Proof.
  intros He Hr.
  assert (Hgo : forall A (r : Z -> A) k,
    bind rzi_lorawan_usp_enter (fun rc => if rc =? 0 then k else ret (r rc)) s = (r (- RZI_ERR_NOT_READY), woken s)).
  { intros. by rewrite enter_run, Hr. }
  assert (Hcode : forall A (c : A) m, m s = ((- RZI_ERR_NOT_READY, c), woken s) ->
    ucode m s = (- RZI_ERR_NOT_READY, woken s)).
  { intros A c m Hm. unfold ucode. by rewrite bind_eq, Hm. }
  destruct o as [q|c| | | | | | | |]; cbn [run_uop enters] in *; try apply Hgo.
  - destruct q; cbn [run_query]; try apply Hgo;
      match goal with c : _ |- _ => exact (Hcode _ c _ (Hgo _ (fun rc => (rc, c)) _)) end.
  - unfold usp_join. rewrite He. apply Hgo.
Qed.

(** ** A reset of the modem *)
(** What the modem is configured with. *)
Record modem_config : Type := ModemConfig {
  mc_region : Z; mc_bypass : bool; mc_deveui : list Z; mc_joineui : list Z; mc_appkey : list Z; mc_nwkkey : list Z;
}.
(** Documented: an accepted setting is what the modem uses from then on. *)
Class LbmConfigOk : Type := {
  config_of : lbm -> modem_config;
  list_region_config l : config_of (smtc_modem_get_list_region l).2 = config_of l;
  set_region_config v l : (smtc_modem_set_region v l).1 = SMTC_MODEM_RC_OK ->
    config_of (smtc_modem_set_region v l).2 = let c := config_of l in
      ModemConfig v (mc_bypass c) (mc_deveui c) (mc_joineui c) (mc_appkey c) (mc_nwkkey c);
  set_bypass_config v l : (smtc_modem_set_join_duty_cycle_backoff_bypass v l).1 = SMTC_MODEM_RC_OK ->
    config_of (smtc_modem_set_join_duty_cycle_backoff_bypass v l).2 = let c := config_of l in
      ModemConfig (mc_region c) v (mc_deveui c) (mc_joineui c) (mc_appkey c) (mc_nwkkey c);
  set_deveui_config v l : (smtc_modem_set_deveui v l).1 = SMTC_MODEM_RC_OK ->
    config_of (smtc_modem_set_deveui v l).2 = let c := config_of l in
      ModemConfig (mc_region c) (mc_bypass c) v (mc_joineui c) (mc_appkey c) (mc_nwkkey c);
  set_joineui_config v l : (smtc_modem_set_joineui v l).1 = SMTC_MODEM_RC_OK ->
    config_of (smtc_modem_set_joineui v l).2 = let c := config_of l in
      ModemConfig (mc_region c) (mc_bypass c) (mc_deveui c) v (mc_appkey c) (mc_nwkkey c);
  set_appkey_config v l : (smtc_modem_set_appkey v l).1 = SMTC_MODEM_RC_OK ->
    config_of (smtc_modem_set_appkey v l).2 = let c := config_of l in
      ModemConfig (mc_region c) (mc_bypass c) (mc_deveui c) (mc_joineui c) v (mc_nwkkey c);
  set_nwkkey_config v l : (smtc_modem_set_nwkkey v l).1 = SMTC_MODEM_RC_OK ->
    config_of (smtc_modem_set_nwkkey v l).2 = let c := config_of l in
      ModemConfig (mc_region c) (mc_bypass c) (mc_deveui c) (mc_joineui c) (mc_appkey c) v;
}.
Section config.
Context `{!LbmConfigOk}.
Definition configured (s : usp_state) : modem_config := config_of (us_lbm s).
(** One configuration call: what an accepted one leaves. *)
Lemma usp_call_ok m k s : (bind (usp_call m) (fun rc => if rc =? 0 then k else ret rc) s).1 = 0 ->
  (m (us_lbm s)).1 = SMTC_MODEM_RC_OK /\ 
  bind (usp_call m) (fun rc => if rc =? 0 then k else ret rc) s = k (set_us_lbm (m (us_lbm s)).2 s).
Proof.
  rewrite bind_eq, usp_call_eq. cbn [fst snd]. rewrite usp_result_zero.
  destruct (m (us_lbm s)) as [rc l]. cbn [fst snd]. case_bool_decide; [by subst|].
  cbn [ret fst]. intros Hz. by destruct rc.
Qed.
Lemma configure_credentials_ok s : (configure_credentials s).1 = 0 ->
  let otaa := usp_join_otaa (u_join_settings (us_vars s)) in
  configured (configure_credentials s).2 =
    ModemConfig (mc_region (configured s)) (mc_bypass (configured s)) (j_dev_eui otaa) (j_join_eui otaa)
      (j_application_key otaa) (j_network_key otaa).
Proof.
  unfold configure_credentials. rewrite bind_eq. cbn [uget gets fst snd]. intros Hz.
  repeat match goal with
  | Hz : (bind (usp_call ?m) (fun rc => if rc =? 0 then ?k else ret rc) ?s).1 = 0 |- _ =>
      let E := fresh "E" in let Ho := fresh "Ho" in
      destruct (usp_call_ok m k s Hz) as [Ho E]; rewrite E in Hz |- *; clear E
  end.
  unfold configured. cbn [ret snd us_lbm set_us_lbm] in *.
  rewrite set_nwkkey_config, set_appkey_config, set_joineui_config, set_deveui_config by done. done.
Qed.
Lemma check_region_config s : configured (check_region_built s).2 = configured s.
Proof.
  unfold check_region_built, usp_read. rewrite !bind_eq. cbn [uget gets fst snd]. rewrite modem_eq.
  cbn [fst snd lbm_of set_lbm usp_env]. destruct ((smtc_modem_get_list_region (us_lbm s)).1) as [rc [built count]].
  cbn [ret fst snd]. unfold configured. destruct (negb _); cbn; apply list_region_config.
Qed.
Lemma check_region_calm : keeps us_vars check_region_built.
Proof.
  intros s. unfold same. assert (Hk : keeps calm check_region_built).
  { unfold check_region_built. frame; [apply uget_keeps|apply usp_read_calm]. }
  specialize (Hk s). unfold same, calm in Hk. congruence.
Qed.
Lemma configure_service_ok s : (configure_service s).1 = 0 ->
  let s' := (configure_service s).2 in
  us_vars s' = us_vars s /\
  configured s' = ModemConfig (u_region (us_vars s)) (u_join_backoff_bypass (us_vars s)) (mc_deveui (configured s))
    (mc_joineui (configured s)) (mc_appkey (configured s)) (mc_nwkkey (configured s)).
Proof.
  unfold configure_service. rewrite bind_eq. pose proof (check_region_config s) as Hc.
  pose proof (check_region_calm s) as Hv. unfold same in Hv.
  destruct (check_region_built s) as [rc s1]. cbn [fst snd] in *. destruct (rc =? 0) eqn:E; [|by cbn; apply Z.eqb_neq in E].
  rewrite bind_eq. cbn [uget gets fst snd]. rewrite Hv. intros Hz.
  destruct (usp_call_ok _ _ _ Hz) as [Hr E1]. rewrite E1 in *. rewrite bind_eq in *. cbn [uget gets fst snd] in *.
  destruct (usp_call_ok _ _ _ Hz) as [Hb E2]. rewrite E2. cbn [ret snd us_vars us_lbm set_us_lbm] in *.
  cbn [us_vars set_us_lbm] in *. rewrite Hv in *. split; [done|].
  unfold configured in *. cbn [us_lbm set_us_lbm] in *. rewrite set_bypass_config by done.
  cbn zeta. rewrite set_region_config by done. cbn. by rewrite Hc.
Qed.
(** After a RESET event the backend is ready exactly when the modem took its
    configuration again: it then runs in the selected region, with the chosen
    backoff and, once a join was requested, the credentials of that join; the
    service is told READY, or the error.  No uplink is pending any more. *)
Theorem usp_reset_restores s : let s' := (handle_reset s).2 in
  u_tx_pending (us_vars s') = false /\
  (u_ready (us_vars s') = true -> us_events s' = us_events s ++ [BACKEND_READY] /\
    mc_region (configured s') = u_region (us_vars s) /\
    mc_bypass (configured s') = u_join_backoff_bypass (us_vars s) /\
    (u_credentials_valid (us_vars s) = true ->
      let otaa := usp_join_otaa (u_join_settings (us_vars s)) in
      mc_deveui (configured s') = j_dev_eui otaa /\ mc_joineui (configured s') = j_join_eui otaa /\
      mc_appkey (configured s') = j_application_key otaa /\ mc_nwkkey (configured s') = j_network_key otaa)) /\
  (u_ready (us_vars s') = false -> exists error, error <> 0 /\ us_events s' = us_events s ++ [BACKEND_ERROR error]).
Proof.
  cbn zeta. rewrite handle_reset_eq. cbn zeta. pose proof (reset_work_calm s) as Hc.
  assert (Hs0 : exists s0, us_vars s0 = us_vars (reset_begun s) /\ reset_work s =
    (let* rc := configure_service in let* valid := uget u_credentials_valid in
     if (rc =? 0) && valid then configure_credentials else ret rc) s0).
  { exists (reset_begun s). split; [done|]. unfold reset_work. rewrite !(bind_eq (uput _)), (bind_eq (when _ _)).
    cbn [fst snd uput modify]. f_equal. unfold reset_begun. destruct CONFIG_RZI_LORAWAN_FUOTA; [done|]. by destruct s as [[]]. }
  destruct Hs0 as (s0 & Hv0 & E). rewrite E in *. clear E.
  destruct ((let* rc := configure_service in _) s0) as [rc s1] eqn:E. cbn [fst snd] in *.
  unfold calm in Hc. injection Hc as Hv Hm Hi Hr Hh He. cbn in He.
  destruct (Z.eqb_spec rc 0) as [->|Hne]; cbn.
  2:{ rewrite Hv, He. split_and!; [done|done|]. intros _. by exists rc. }
  rewrite Hv, He. split_and!; [done| |done]. intros _. revert E. rewrite bind_eq.
  destruct (configure_service s0) as [rc2 s2] eqn:E2. cbn [fst snd]. rewrite bind_eq. cbn [uget gets fst snd].
  destruct (Z.eqb_spec rc2 0) as [->|]; cbn [andb]; [|by intros [= ->]].
  pose proof (configure_service_ok s0) as Hok. rewrite E2 in Hok. cbn [fst snd] in Hok.
  destruct (Hok eq_refl) as [Hv2 Hcfg]. rewrite Hv2, Hv0.
  change (u_credentials_valid (us_vars (reset_begun s))) with (u_credentials_valid (us_vars s)).
  unfold configured at 1 2 3 4 5 6. cbn [us_lbm set_us_events set_us_vars].
  change (config_of (us_lbm s1)) with (configured s1).
  destruct (u_credentials_valid (us_vars s)) eqn:Ev.
  - intros E. pose proof (configure_credentials_ok s2) as Hk. rewrite E in Hk. cbn [fst snd] in Hk.
    rewrite (Hk eq_refl), Hcfg, Hv2, Hv0. done.
  - intros [= <-]. rewrite Hcfg, Hv0. done.
Qed.
End config.

(** ** Downlinks *)
(** Documented: reading takes the oldest downlink, writes its payload to the
    start of the buffer and tells how many are left. *)
Class LbmDownlinksOk : Type := {
  downlinks : lbm -> list (list Z * smtc_modem_dl_metadata_t);
  get_downlink buffer l payload meta rest : downlinks l = (payload, meta) :: rest -> zlen rest < 256 ->
    (smtc_modem_get_downlink_data buffer l).1 =
      (SMTC_MODEM_RC_OK, (overlay buffer 0 payload, zlen payload, meta, zlen rest)) /\
    downlinks (smtc_modem_get_downlink_data buffer l).2 = rest;
}.
(** The event of one downlink: the payload is at the start of the buffer. *)
Definition event_of (d : list Z * smtc_modem_dl_metadata_t) (e : rzi_lorawan_backend_event) : Prop :=
  exists data, e = BACKEND_DOWNLINK (usp_downlink data (zlen d.1) d.2) /\ take (length d.1) data = d.1 /\
    length data = Z.to_nat RZI_LORAWAN_MAX_PAYLOAD.
Section downlinks.
Context `{!LbmDownlinksOk}.
Definition short (d : list Z * smtc_modem_dl_metadata_t) : Prop := zlen d.1 <= RZI_LORAWAN_MAX_PAYLOAD.
Lemma downlink_loop_run n buffer s : let ds := downlinks (us_lbm s) in
  ds <> [] -> (length ds <= n)%nat -> zlen ds <= 256 -> Forall short ds ->
  length buffer = Z.to_nat RZI_LORAWAN_MAX_PAYLOAD ->
  let s' := (downlink_loop n buffer s).2 in
  downlinks (us_lbm s') = [] /\ us_vars s' = us_vars s /\
  exists es, us_events s' = us_events s ++ es /\ Forall2 event_of ds es.
Proof.
  revert buffer s. induction n as [|n IH]; intros buffer s ds Hne Hn Hb Hs Hbuf; [by destruct ds; [|cbn in Hn; lia]|].
  destruct ds as [|[payload meta] rest] eqn:Ed; [done|]. subst ds. unfold zlen in Hb. cbn in Hn, Hb.
  destruct (get_downlink buffer (us_lbm s) payload meta rest Ed) as [Hget Hrest]; [unfold zlen; lia|].
  inversion_clear Hs as [|? ? Hshort Hs']. unfold short in Hshort. cbn [fst] in Hshort.
  set (data := overlay buffer 0 payload) in *.
  assert (Hlen : length data = Z.to_nat RZI_LORAWAN_MAX_PAYLOAD).
  { unfold data. rewrite length_overlay; [done|]. unfold zlen in Hshort. lia. }
  assert (Hdata : take (length payload) data = payload).
  { unfold data, overlay. rewrite take_0, app_nil_l. by rewrite take_app_length. }
  cbn [downlink_loop]. rewrite bind_eq, modem_eq. cbn [fst snd lbm_of set_lbm usp_env]. rewrite Hget.
  cbn zeta. rewrite (bool_decide_true (SMTC_MODEM_RC_OK = SMTC_MODEM_RC_OK)) by done. rewrite bind_eq.
  cbn [fst snd rzi_lorawan_usp_publish modify]. set (s1 := set_us_events _ _).
  assert (Hd1 : downlinks (us_lbm s1) = rest) by exact Hrest.
  assert (He1 : us_events s1 = us_events s ++ [BACKEND_DOWNLINK (usp_downlink data (zlen payload) meta)]) by done.
  assert (Hev : event_of (payload, meta) (BACKEND_DOWNLINK (usp_downlink data (zlen payload) meta))) by by exists data.
  assert (Hv1 : us_vars s1 = us_vars s) by done. clearbody s1.
  destruct rest as [|d2 rest].
  - cbn. split_and!; [done|done|]. eexists. split; [exact He1|]. by repeat constructor.
  - destruct (Z.ltb_spec 0 (zlen (d2 :: rest))) as [_|Hz]; [|unfold zlen in Hz; cbn in Hz; lia].
    specialize (IH data s1). cbn zeta in IH. rewrite Hd1 in IH. destruct IH as (Hq & Hv & es & He & Hf); try done.
    { cbn in *; lia. } { unfold zlen. cbn in *. lia. }
    split_and!; [done|congruence|]. exists (BACKEND_DOWNLINK (usp_downlink data (zlen payload) meta) :: es).
    split; [by rewrite He, He1, <- app_assoc|]. by constructor.
Qed.
(** C28: A DOWNDATA event hands every waiting downlink to the service, once, in
    order and unchanged, and leaves none in the modem. *)
Theorem usp_downlinks_delivered s : let ds := downlinks (us_lbm s) in
  ds <> [] -> zlen ds <= 256 -> Forall short ds ->
  let s' := (handle_type SMTC_MODEM_EVENT_DOWNDATA s).2 in
  downlinks (us_lbm s') = [] /\ us_vars s' = us_vars s /\
  exists es, us_events s' = us_events s ++ es /\ Forall2 event_of ds es.
Proof.
  cbn zeta. intros. apply downlink_loop_run; try done. unfold zlen in *. lia.
Qed.
End downlinks.

(** ** The join-backoff clock *)
(** The deadline and the clock are seconds modulo 2^32: their distance comes
    out right across the wrap, for deadlines less than 2^31 seconds away. *)
Lemma backoff_exact deadline now : -2147483648 <= deadline - now < 2147483648 ->
  backoff_remaining (u32 deadline) (u32 now) = deadline - now.
Proof.
  intros Hd. unfold backoff_remaining, i32, u32.
  rewrite <- Zplus_mod_idemp_l, <- Zminus_mod, Zplus_mod_idemp_l, Z.mod_small; lia.
Qed.
(** The modem's answers on the way of [usp_get_join_backoff]. *)
Definition backoff_answers (status deadline now : Z) (bypass certification : bool) (l : lbm) : Prop :=
  exists l1 l2 l3 l4, smtc_modem_get_status l = ((SMTC_MODEM_RC_OK, status), l1) /\
    smtc_modem_get_join_duty_cycle_backoff_bypass l1 = ((SMTC_MODEM_RC_OK, bypass), l2) /\
    smtc_modem_get_certification_mode false l2 = ((SMTC_MODEM_RC_OK, certification), l3) /\
    lorawan_api_next_join_time_second_get l3 = (u32 deadline, l4) /\
    (smtc_modem_hal_get_time_in_s l4).1 = u32 now.
(** The remaining backoff is the time to the deadline, zero when it is past,
    and zero for a joined, bypassing or certified device. *)
Theorem usp_join_backoff_exact status deadline now bypass certification cell s :
  u_ready (us_vars s) = true -> backoff_answers status deadline now bypass certification (us_lbm s) ->
  -2147483648 <= deadline - now < 2147483648 ->
  (usp_get_join_backoff cell s).1 =
    (0, if (Z.land status SMTC_MODEM_STATUS_JOINED =? 0) && negb bypass && negb certification
        then Z.max 0 (deadline - now) else 0).
Proof.
  intros Hr (l1 & l2 & l3 & l4 & Es & Eb & Ec & Ed & En) Hd. unfold usp_get_join_backoff.
  rewrite enter_run, Hr, bind_eq, usp_read_eq. cbn [us_lbm locked rzi_usp_lock pput modify snd set_platform usp_env
    set_us_platform]. rewrite Es. cbn [fst snd rzi_usp_result Z.eqb].
  rewrite bind_eq, usp_read_eq. cbn [us_lbm set_us_lbm]. rewrite Eb. cbn [fst snd rzi_usp_result Z.eqb].
  rewrite bind_eq, usp_read_eq. cbn [us_lbm set_us_lbm]. rewrite Ec. cbn [fst snd rzi_usp_result Z.eqb].
  rewrite bind_eq. destruct (_ && _ && _); [|done].
  rewrite bind_eq, modem_eq. cbn [us_lbm set_us_lbm lbm_of set_lbm usp_env]. rewrite Ed. cbn [fst snd].
  rewrite bind_eq, modem_eq. cbn [us_lbm set_us_lbm lbm_of set_lbm usp_env]. rewrite En.
  cbn [fst snd ret]. rewrite finish_run, backoff_exact by done. cbn [fst].
  destruct (Z.ltb_spec 0 (deadline - now)); f_equal; lia.
Qed.

(** ** Channel masks *)
(** The bytes handed to the modem are the words, low byte first. *)
Theorem mask_bytes_words words : Forall (fun w => 0 <= w < 65536) words ->
  length (mask_bytes words) = (2 * length words)%nat /\
  forall i, (i < length words)%nat ->
    nth (2 * i) (mask_bytes words) 0 + 256 * nth (2 * i + 1) (mask_bytes words) 0 = nth i words 0 /\
    byte_range (nth (2 * i) (mask_bytes words) 0) /\ byte_range (nth (2 * i + 1) (mask_bytes words) 0).
Proof.
  induction 1 as [|w words Hw _ [IHl IH]]; [split; [done|cbn; lia]|]. cbn [mask_bytes flat_map app length].
  change (flat_map _ words) with (mask_bytes words). split; [lia|]. intros [|i] Hi.
  - cbn. unfold u8, byte_range. rewrite Z.shiftr_div_pow2 by lia. change (2 ^ 8) with 256. Z.div_mod_to_equations. lia.
  - specialize (IH i ltac:(lia)). replace (2 * S i)%nat with (S (S (2 * i))) by lia.
    replace (S (S (2 * i)) + 1)%nat with (S (S (2 * i + 1))) by lia. exact IH.
Qed.

(** ** The multicast groups as a map from group numbers to sessions *)
Definition mc_at (m : usp_multicast_vars) (i : nat) : option rzi_lorawan_multicast_session :=
  if used_at m i then Some (session_at m i) else None.
(** Every slot is a group; keys are never kept; a session knows its group. *)
Definition mc_wf (m : usp_multicast_vars) : Prop :=
  length (multicast_sessions m) = 4%nat /\ length (multicast_used m) = 4%nat /\
  forall i, mc_app_skey (session_at m i) = replicate 16 0 /\ mc_nwk_skey (session_at m i) = replicate 16 0 /\
    (used_at m i = true -> mc_group_id (session_at m i) = Z.of_nat i).
Lemma nth_insert {A} (l : list A) i j x d : (i < length l)%nat ->
  nth j (<[i:=x]> l) d = if decide (j = i) then x else nth j l d.
Proof.
  intros Hi. rewrite !nth_lookup. case_decide as Hd; [|by rewrite list_lookup_insert_ne].
  subst. by rewrite list_lookup_insert_eq.
Qed.
Definition mc_insert (g : nat) (x : rzi_lorawan_multicast_session) (m : usp_multicast_vars) : usp_multicast_vars :=
  UspMulticast (<[g := x]> (multicast_sessions m)) (<[g := true]> (multicast_used m)).
Definition mc_remove (g : nat) (m : usp_multicast_vars) : usp_multicast_vars :=
  UspMulticast (multicast_sessions m) (<[g := false]> (multicast_used m)).
Lemma mc_insert_spec g session m : mc_wf m -> (g < 4)%nat ->
  mc_wf (mc_insert g (stored_session session g) m) /\
  forall j, mc_at (mc_insert g (stored_session session g) m) j =
    if decide (j = g) then Some (stored_session session g) else mc_at m j.
Proof.
  intros (Hs & Hu & Hk) Hg.
  assert (Hsess : forall j, session_at (mc_insert g (stored_session session g) m) j =
    if decide (j = g) then stored_session session g else session_at m j).
  { intros j. unfold session_at, mc_insert. cbn. by rewrite nth_insert by lia. }
  assert (Hused : forall j, used_at (mc_insert g (stored_session session g) m) j =
    if decide (j = g) then true else used_at m j).
  { intros j. unfold used_at, mc_insert. cbn. by rewrite nth_insert by lia. }
  split.
  - split_and!; [cbn; by rewrite length_insert..|]. intros i. rewrite Hsess, Hused.
    case_decide as Hd; [|apply Hk]. subst. done.
  - intros j. unfold mc_at. rewrite Hsess, Hused. by case_decide.
Qed.
Lemma mc_remove_spec g m : mc_wf m -> (g < 4)%nat ->
  mc_wf (mc_remove g m) /\ forall j, mc_at (mc_remove g m) j = if decide (j = g) then None else mc_at m j.
Proof.
  intros (Hs & Hu & Hk) Hg.
  assert (Hused : forall j, used_at (mc_remove g m) j = if decide (j = g) then false else used_at m j).
  { intros j. unfold used_at, mc_remove. cbn. by rewrite nth_insert by lia. }
  split.
  - split_and!; [done|cbn; by rewrite length_insert|]. intros i. rewrite Hused.
    destruct (Hk i) as (?&?&?). split_and!; [done..|]. by case_decide.
  - intros j. unfold mc_at. rewrite Hused. by case_decide.
Qed.
Lemma mc_clear_spec m : mc_wf m -> mc_wf (UspMulticast (multicast_sessions m) (replicate 4 false)) /\
  forall j, mc_at (UspMulticast (multicast_sessions m) (replicate 4 false)) j = None.
Proof.
  intros (Hs & Hu & Hk).
  assert (Hused : forall j, nth j (replicate 4 false) false = false) by (intros j; do 5 (destruct j as [|j]; [done|]); done).
  split.
  - split_and!; [done..|]. intros i. destruct (Hk i) as (?&?&?). split_and!; [done..|].
    unfold used_at. cbn [multicast_used]. by rewrite Hused.
  - intros j. unfold mc_at, used_at. cbn [multicast_used]. by rewrite Hused.
Qed.
Lemma allocate_spec m requested g : allocate_group (multicast_used m) requested = Some g ->
  (g < 4)%nat /\ mc_at m g = None /\ (0 <= requested -> Z.of_nat g = requested).
Proof.
  unfold allocate_group. intros Ha.
  assert (Hf : forall i, negb (nth i (multicast_used m) false) = true -> mc_at m i = None).
  { intros i Hi. unfold mc_at, used_at. by destruct (nth i _ _). }
  destruct (Z.leb_spec 0 requested).
  - destruct (Z.ltb_spec requested MULTICAST_GROUPS); cbn [andb] in Ha; [|done].
    destruct (negb _) eqn:E; [|done]. injection Ha as <-. split_and!; [lia|by apply Hf|lia].
  - apply List.find_some in Ha as [Hin Hfree]. apply in_seq in Hin. split_and!; [cbn in *; lia|by apply Hf|lia].
Qed.
Lemma group_of_spec m a g : group_of m a = Some g ->
  (g < 4)%nat /\ exists x, mc_at m g = Some x /\ mc_dev_addr x = a.
Proof.
  unfold group_of. intros Ha. apply List.find_some in Ha as [Hin Hg].
  apply in_seq in Hin. apply andb_true_iff in Hg as [Hu Hx]. apply Z.eqb_eq in Hx.
  split; [cbn in *; lia|]. exists (session_at m g). unfold mc_at. by rewrite Hu.
Qed.
(** What an operation means for the map. *)
Definition mc_effect (o : usp_op) (rc : Z) (m m' : usp_multicast_vars) : Prop :=
  match o with
  | UMcAdd session => rc = 0 -> exists g, (g < 4)%nat /\ mc_at m g = None /\
      (0 <= mc_group_id session -> Z.of_nat g = mc_group_id session) /\
      forall j, mc_at m' j = if decide (j = g) then Some (stored_session session g) else mc_at m j
  | UMcRemove a => rc = 0 -> exists g x, mc_at m g = Some x /\ mc_dev_addr x = a /\
      forall j, mc_at m' j = if decide (j = g) then None else mc_at m j
  | UMcClear => rc = 0 -> forall j, mc_at m' j = None
  | _ => m' = m
  end.
Definition mc_of (s : usp_state) : usp_multicast_vars := us_multicast s.
Lemma calm_multicast {A} (m : M usp_state A) : keeps calm m -> keeps mc_of m.
Proof. intros Hm s. specialize (Hm s). unfold same, calm, mc_of in *. congruence. Qed.
Lemma uput_multicast f : keeps mc_of (uput f). Proof. by intros s. Qed.
Lemma publish_multicast e : keeps mc_of (rzi_lorawan_usp_publish e). Proof. by intros s. Qed.
Lemma set_class_multicast c : keeps mc_of (rzi_lorawan_usp_set_class_b_state c).
Proof. intros s. rewrite set_class_run. by destruct (_ =? _). Qed.
Lemma publish_class_multicast c : keeps mc_of (rzi_lorawan_usp_publish_class_b c).
Proof.
  intros s. unfold rzi_lorawan_usp_publish_class_b. rewrite bind_eq. cbn. by destruct (negb _).
Qed.
#[local] Hint Resolve uput_multicast publish_multicast set_class_multicast publish_class_multicast uget_keeps : frame.
#[local] Hint Resolve enter_calm finish_calm usp_call_calm credentials_calm channel_mask_calm : frame.
#[local] Hint Extern 3 (respects (same mc_of) _) => apply calm_multicast; solve [auto with frame] : frame.
Lemma start_session_calm session g : keeps calm (start_session session g).
Proof. unfold start_session. frame; apply usp_call_calm. Qed.
#[local] Hint Resolve start_session_calm : frame.
(** The end of an operation that changes the groups when it succeeds. *)
Lemma mc_finish rc f s : (bind (when (rc =? 0) (mput f)) (fun _ => rzi_lorawan_usp_finish rc)) s =
  (rc, (rzi_lorawan_usp_finish tt (if rc =? 0 then set_us_multicast (f (us_multicast s)) s else s)).2).
Proof. by destruct (rc =? 0). Qed.
Lemma mc_add_run session s : let r := usp_multicast_add session s in
  us_multicast r.2 = us_multicast s /\ r.1 <> 0 \/
  exists g, allocate_group (multicast_used (us_multicast s)) (mc_group_id session) = Some g /\ r.1 = 0 /\
    us_multicast r.2 = mc_insert g (stored_session session g) (us_multicast s).
Proof.
  cbn zeta. unfold usp_multicast_add. rewrite enter_run. destruct (u_ready (us_vars s)); [|by left].
  rewrite bind_eq. cbn [gets fst snd]. change (us_multicast (locked s)) with (us_multicast s).
  destruct (allocate_group _ _) as [g|]; [|by left]. do 2 rewrite bind_eq.
  set (r1 := usp_call _ (locked s)). set (r2 := (if r1.1 =? 0 then start_session session (Z.of_nat g) else ret r1.1) r1.2).
  assert (Hm : us_multicast r2.2 = us_multicast s).
  { transitivity (us_multicast r1.2); [|apply (calm_multicast _ (usp_call_calm _) (locked s))].
    subst r2. destruct (r1.1 =? 0); [|done]. apply (calm_multicast _ (start_session_calm session (Z.of_nat g))). }
  rewrite mc_finish. cbn [fst snd]. rewrite finish_run. destruct (Z.eqb_spec r2.1 0) as [E|E]; [right|by left].
  exists g. split_and!; [done..|]. cbn. by rewrite Hm.
Qed.
Lemma mc_remove_run a s : let r := usp_multicast_remove a s in
  us_multicast r.2 = us_multicast s /\ r.1 <> 0 \/
  exists g, group_of (us_multicast s) a = Some g /\ r.1 = 0 /\ us_multicast r.2 = mc_remove g (us_multicast s).
Proof.
  cbn zeta. unfold usp_multicast_remove. rewrite enter_run. destruct (u_ready (us_vars s)); [|by left].
  rewrite bind_eq. cbn [gets fst snd]. change (us_multicast (locked s)) with (us_multicast s).
  destruct (group_of _ _) as [g|]; [|by left]. rewrite bind_eq.
  match goal with |- context [(if ?b then ?m else ?m') (locked s)] =>
    set (r1 := (if b then m else m') (locked s)) end.
  assert (Hm : us_multicast r1.2 = us_multicast s).
  { subst r1. destruct (_ =? _); apply (calm_multicast _ (usp_call_calm _) (locked s)). }
  rewrite mc_finish. cbn [fst snd]. rewrite finish_run. destruct (Z.eqb_spec r1.1 0) as [E|E]; [right|by left].
  exists g. split_and!; [done..|]. cbn. by rewrite Hm.
Qed.
Lemma mc_clear_run s : let r := usp_multicast_clear s in
  us_multicast r.2 = us_multicast s /\ r.1 <> 0 \/
  r.1 = 0 /\ us_multicast r.2 = UspMulticast (multicast_sessions (us_multicast s)) (replicate 4 false).
Proof.
  cbn zeta. unfold usp_multicast_clear. rewrite enter_run. destruct (u_ready (us_vars s)); [|by left].
  do 2 rewrite bind_eq. set (r1 := usp_call _ (locked s)). set (r2 := (if r1.1 =? 0 then usp_call _ else ret r1.1) r1.2).
  assert (Hm : us_multicast r2.2 = us_multicast s).
  { transitivity (us_multicast r1.2); [|apply (calm_multicast _ (usp_call_calm _) (locked s))].
    subst r2. destruct (r1.1 =? 0); [|done]. apply (calm_multicast _ (usp_call_calm _)). }
  rewrite mc_finish. cbn [fst snd]. rewrite finish_run. destruct (Z.eqb_spec r2.1 0) as [E|E]; [right|by left].
  split; [done|]. cbn. by rewrite Hm.
Qed.
(** C27: The multicast operations implement the map: an addition takes a free
    group, the requested one if one was requested; a removal frees a group of
    that address; failures change nothing; no key is ever kept.  All other
    operations leave the groups alone. *)
Theorem usp_multicast_refines o s : mc_wf (us_multicast s) ->
  let r := run_uop o s in
  mc_wf (us_multicast r.2) /\ (r.1 <> 0 -> us_multicast r.2 = us_multicast s) /\
  mc_effect o r.1 (us_multicast s) (us_multicast r.2).
Proof.
  intros Hwf. cbn zeta.
  assert (Hsame : us_multicast (run_uop o s).2 = us_multicast s -> mc_effect o (run_uop o s).1 (us_multicast s) (us_multicast s) ->
    mc_wf (us_multicast (run_uop o s).2) /\ ((run_uop o s).1 <> 0 -> us_multicast (run_uop o s).2 = us_multicast s) /\
    mc_effect o (run_uop o s).1 (us_multicast s) (us_multicast (run_uop o s).2)) by by intros ->.
  destruct o as [q|c| | | | | |session|a|]; cbn [run_uop] in *;
    try (apply Hsame; [|done]; revert s Hwf Hsame; intros s _ _; lazymatch goal with |- us_multicast (?m s).2 = _ =>
      enough (Hk : keeps mc_of m) by apply Hk end; unfold usp_join, usp_leave, usp_send, usp_send_empty, usp_set_class,
      usp_stop_class_b, rzi_lorawan_usp_set_tx_pending, rzi_lorawan_usp_tx_pending, rzi_lorawan_usp_class_b_state, when;
      first [apply calm_multicast, query_calm | frame]).
  - destruct (mc_add_run session s) as [[Hm Hrc]|(g & Hg & Hrc & Hm)]; [apply Hsame; [done|intros Hz; by destruct Hrc]|].
    destruct (allocate_spec _ _ _ Hg) as (Hlt & Hfree & Hreq). rewrite Hm.
    destruct (mc_insert_spec g session (us_multicast s) Hwf Hlt) as [Hwf' Hat]. split_and!; [done|intros Hz; by destruct Hz|].
    intros _. by exists g.
  - destruct (mc_remove_run a s) as [[Hm Hrc]|(g & Hg & Hrc & Hm)]; [apply Hsame; [done|intros Hz; by destruct Hrc]|].
    destruct (group_of_spec _ _ _ Hg) as (Hlt & x & Hx & Ha). rewrite Hm.
    destruct (mc_remove_spec g (us_multicast s) Hwf Hlt) as [Hwf' Hat]. split_and!; [done|intros Hz; by destruct Hz|].
    intros _. by exists g, x.
  - destruct (mc_clear_run s) as [[Hm Hrc]|[Hrc Hm]]; [apply Hsame; [done|intros Hz; by destruct Hrc]|].
    destruct (mc_clear_spec (us_multicast s) Hwf) as [Hwf' Hat]. rewrite Hm. split_and!; [done|intros Hz; by destruct Hz|by intros _].
Qed.
(** Counting and enumerating read the map in group order. *)
Definition mc_list (m : usp_multicast_vars) : list rzi_lorawan_multicast_session :=
  omap (mc_at m) multicast_groups.
Lemma count_used_spec m groups n : count_used m groups n = n + zlen (omap (mc_at m) groups).
Proof.
  revert n. induction groups as [|i groups IH]; intros n; cbn [count_used]; [unfold zlen; cbn; lia|].
  rewrite IH. cbn. unfold mc_at at 2. destruct (used_at m i); unfold zlen; cbn; lia.
Qed.
Lemma nth_used_spec m index groups n : 0 <= n <= index ->
  nth_used m index groups n = omap (mc_at m) groups !! Z.to_nat (index - n).
Proof.
  revert n. induction groups as [|i groups IH]; intros n Hn; cbn [nth_used]; [done|].
  cbn. unfold mc_at at 1. destruct (used_at m i); cbn [negb]; [|by apply IH].
  destruct (Z.eqb_spec n index) as [->|Hne]; [by rewrite Z.sub_diag|].
  rewrite IH by lia. replace (Z.to_nat (index - n)) with (S (Z.to_nat (index - (n + 1)))) by lia. done.
Qed.
Theorem usp_multicast_enumerates index count cell s : u_ready (us_vars s) = true -> 0 <= index ->
  (usp_multicast_count count s).1 = (0, zlen (mc_list (us_multicast s))) /\
  (usp_multicast_get index cell s).1 =
    match mc_list (us_multicast s) !! Z.to_nat index with
    | Some session => (0, session)
    | None => (- RZI_ERR_INVALID, cell)
    end.
Proof.
  intros Hr Hi. unfold usp_multicast_count, usp_locked_get, usp_multicast_get. rewrite !enter_run, Hr, !bind_eq.
  cbn [gets fst snd]. rewrite !finish_run. cbn [fst]. rewrite count_used_spec, nth_used_spec by lia.
  by rewrite Z.sub_0_r.
Qed.
End functional.

(** ** The service over this backend *)
Section service.
Context `{Zephyr} `{Errno} `{Kconfig} `{UspConfig} `{!Lbm} {ctx : ExecCtx} `{LorawanExt}.
#[local] Existing Instance usp_lorawan.
Context `{!LorawanHooks}.
(** In every configuration the tables and the capability bits agree: the
    assertions of [rzi_lorawan_init] hold. *)
Theorem usp_contract : check_backend_contract = true.
Proof.
  unfold check_backend_contract, capability_matches, has_cap. cbn. unfold USP_CAPABILITIES.
  by destruct CONFIG_RZI_LORAWAN_FUOTA, CONFIG_LORA_BASICS_MODEM_CLASS_B, CONFIG_LORA_BASICS_MODEM_CLASS_C,
    CONFIG_LORA_BASICS_MODEM_MULTICAST; vm_compute.
Qed.

Lemma usp_run_calm {A} (m : M usp_state A) : keeps calm m -> op_keeps us_vars (usp_run m).
Proof.
  intros Hm b. unfold usp_run. specialize (Hm (set_us_events [] b)). unfold same, calm in Hm.
  destruct (m (set_us_events [] b)) as [a b']. cbn in *. congruence.
Qed.
Lemma ucode_calm {A} (m : M usp_state (Z * A)) : keeps calm (ucode m) -> keeps calm m.
Proof. intros Hm s. specialize (Hm s). unfold ucode in Hm. rewrite bind_eq in Hm. by destruct (m s) as [[? ?] ?]. Qed.
Lemma uplink_quiet_vars : uplink_quiet us_vars.
Proof.
  split_and!.
  - apply usp_run_calm, ucode_calm, (query_calm (QIsJoined false)).
  - intros f [= <-]. apply usp_run_calm, (query_calm QLinkCheck).
  - intros f [= <-]. apply usp_run_calm, (query_calm QDeviceTime).
Qed.
(** An uplink the service accepts was taken by the modem, with the caller's
    port, payload and confirmation, by a backend that had none under way; from
    then on one is pending, so the next uplink and a leave are refused as busy
    until the modem reports. *)
Theorem usp_service_uplink port data size type w :
  let r := rzi_lorawan_send port data size type w in
  r.1 = 0 ->
  u_ready (us_vars (backend_of w)) = true /\ u_tx_pending (us_vars (backend_of w)) = false /\
  (exists l, let answer := smtc_modem_request_uplink port (type =? RZI_LORAWAN_MSG_CONFIRMED) data size l in
     answer.1 = SMTC_MODEM_RC_OK /\ us_lbm (backend_of r.2) = smtc_modem_hal_wake_up answer.2) /\
  u_tx_pending (us_vars (backend_of r.2)) = true /\
  (forall p d n t, (usp_send p d n t (backend_of r.2)).1 = - RZI_ERR_BUSY) /\
  (usp_leave (backend_of r.2)).1 = - RZI_ERR_BUSY.
Proof.
  cbn zeta. intros Hrc.
  destruct (send_reaches_backend _ uplink_quiet_vars _ _ _ _ _ Hrc) as (Hmax & b & Hv & Hop & ->).
  rewrite <- Hv. clear Hv Hrc. revert Hop.
  cbn [rzi_lorawan_backend usp_lorawan base usp_backend_api op_send]. unfold usp_run.
  change (usp_send port data size type) with
    (request_uplink (smtc_modem_request_uplink port (type =? RZI_LORAWAN_MSG_CONFIRMED) data size)).
  rewrite request_eq. cbn [us_vars set_us_events us_lbm].
  destruct (u_ready (us_vars b)) eqn:Er; [|done]. destruct (u_tx_pending (us_vars b)) eqn:Et; [done|]. cbn zeta.
  destruct (smtc_modem_request_uplink _ _ _ _ (us_lbm b)) as [rc l] eqn:E. cbn [fst snd]. intros Hz.
  pose proof (usp_result_zero rc) as Hok. rewrite Hz in *. cbn [Z.eqb] in *.
  symmetry in Hok. apply bool_decide_eq_true in Hok. subst rc.
  split_and!; [done|done|exists (us_lbm b); by rewrite E|done| |].
  - intros p d n t. change (usp_send p d n t) with
      (request_uplink (smtc_modem_request_uplink p (t =? RZI_LORAWAN_MSG_CONFIRMED) d n)).
    rewrite request_eq. cbn. by rewrite Er.
  - unfold usp_leave. rewrite enter_run. cbn. by rewrite Er.
Qed.

(** The failed attempt that ends the service's join sequence: the service is
    idle and unlocked, and the modem was told to leave the network, unless an
    uplink is still pending, in which case it goes on joining. *)
Theorem usp_last_retry_leaves error w : let b := backend_of w in
  sequence_of w <> 0 -> retries_of w = 0 -> u_ready (us_vars b) = true ->
  let w' := (swallow_join_event (BACKEND_JOIN_FAILED error) w).2 in
  sequence_of w' = 0 /\ locked_of w' = false /\ u_ready (us_vars (backend_of w')) = true /\
  us_lbm (backend_of w') = smtc_modem_hal_wake_up
    (if u_tx_pending (us_vars b) then us_lbm b else (smtc_modem_leave_network (us_lbm b)).2).
Proof.
  cbn zeta. intros Hs Hr Hrdy. destruct (last_failure_state error w Hs Hr) as (Hs' & Hl' & ->).
  split; [done|]. split; [done|]. cbn [rzi_lorawan_backend usp_lorawan base usp_backend_api op_leave]. unfold usp_run, usp_leave.
  rewrite enter_run. cbn [us_vars set_us_events]. rewrite Hrdy, bind_eq. cbn [uget gets fst snd].
  destruct (backend_of w) as [v c mc p l es]. cbn [us_vars us_lbm] in *.
  change (u_tx_pending (us_vars (locked (set_us_events [] (UspState v c mc p l es))))) with (u_tx_pending v).
  destruct (u_tx_pending v) eqn:Et; [by rewrite finish_run|]. do 2 rewrite bind_eq. rewrite usp_call_eq, finish_run.
  unfold when. by destruct CONFIG_RZI_LORAWAN_FUOTA.
Qed.
End service.
