(* ===== verification/UspSim.v ===== *)
(** * A simulated modem, and the USP backend run on it

    The modem keeps its configuration, queues of events and downlinks and a
    log of uplinks; everything is accepted.  The witnesses of the USP theorems
    are evaluated on it. *)
From S2P Require Import Prelude Zephyr Err Power Storage LorawanSettings LorawanBackend LorawanSim LorawanCore LorawanCredentials LorawanChannel LorawanApi Lorawan LorawanService LorawanFlows BackendView Usp UspBackend UspFeatures UspSteps UspFlows.

Module UspSim.
Export SimInstances.
Record sim_modem : Type := SimModem {
  sm_events : list smtc_modem_event_t; sm_downlinks : list (list Z * smtc_modem_dl_metadata_t);
  sm_config : modem_config; sm_status : Z; sm_class : Z; sm_sent : list (Z * list Z); sm_wakes : Z;
}.
Definition ok {A} (m : M sim_modem A) : smtc sim_modem := let* _ := m in ret SMTC_MODEM_RC_OK.
Definition accept : smtc sim_modem := ret SMTC_MODEM_RC_OK.
Definition answer {A} (a : A) : smtc_out sim_modem A := ret (SMTC_MODEM_RC_OK, a).
Definition same_cell {A} (cell : A) : smtc_out sim_modem A := ret (SMTC_MODEM_RC_OK, cell).
Definition set_config (f : modem_config -> modem_config) : smtc sim_modem := ok (modify (fun m =>
  SimModem (sm_events m) (sm_downlinks m) (f (sm_config m)) (sm_status m) (sm_class m) (sm_sent m) (sm_wakes m))).
Definition set_status (v : Z) : smtc sim_modem := ok (modify (fun m =>
  SimModem (sm_events m) (sm_downlinks m) (sm_config m) v (sm_class m) (sm_sent m) (sm_wakes m))).
Definition set_modem_class (v : Z) : smtc sim_modem := ok (modify (fun m =>
  SimModem (sm_events m) (sm_downlinks m) (sm_config m) (sm_status m) v (sm_sent m) (sm_wakes m))).
Definition sim_uplink (port : Z) (data : list Z) : smtc sim_modem := ok (modify (fun m =>
  SimModem (sm_events m) (sm_downlinks m) (sm_config m) (sm_status m) (sm_class m) (sm_sent m ++ [(port, data)])
    (sm_wakes m))).
Definition sim_get_event : smtc_out sim_modem (smtc_modem_event_t * Z) := fun m =>
  match sm_events m with
  | [] => ((SMTC_MODEM_RC_NO_EVENT, (ModemEvent SMTC_MODEM_EVENT_other 0, 0)), m)
  | e :: rest => ((SMTC_MODEM_RC_OK, (e, zlen rest)),
      SimModem rest (sm_downlinks m) (sm_config m) (sm_status m) (sm_class m) (sm_sent m) (sm_wakes m))
  end.
Definition no_meta : smtc_modem_dl_metadata_t := DlMeta 0 0 0 0 SMTC_MODEM_DL_WINDOW_other 0 0.
Definition sim_get_downlink (buffer : list Z) : smtc_out sim_modem (list Z * Z * smtc_modem_dl_metadata_t * Z) := fun m =>
  match sm_downlinks m with
  | [] => ((SMTC_MODEM_RC_FAIL, (buffer, 0, no_meta, 0)), m)
  | (payload, meta) :: rest => ((SMTC_MODEM_RC_OK, (overlay buffer 0 payload, zlen payload, meta, zlen rest)),
      SimModem (sm_events m) rest (sm_config m) (sm_status m) (sm_class m) (sm_sent m) (sm_wakes m))
  end.
(** Status bits: 1 joined, 2 joining.  The clock is about to wrap. *)
#[export] Instance sim_lbm : Lbm | 10 := {|
  lbm := sim_modem;
  SMTC_SW_PLATFORM_INIT := ret tt; smtc_rac_init := ret tt; smtc_modem_init := ret tt;
  smtc_modem_hal_wake_up m :=
    SimModem (sm_events m) (sm_downlinks m) (sm_config m) (sm_status m) (sm_class m) (sm_sent m) (sm_wakes m + 1);
  smtc_modem_hal_get_time_in_s := ret 4294967290; smtc_modem_hal_context_restore _ _ := ret [];
  smtc_modem_hal_reset_mcu := ret tt; smtc_modem_get_event := sim_get_event;
  SMTC_MODEM_REGION_EU_868 := 1; SMTC_MODEM_REGION_US_915 := 5; SMTC_MODEM_REGION_AU_915 := 6;
  SMTC_MODEM_REGION_CN_470 := 8; SMTC_MODEM_REGION_AS_923_GRP1 := 2; SMTC_MODEM_REGION_AS_923_GRP2 := 3;
  SMTC_MODEM_REGION_AS_923_GRP3 := 4; SMTC_MODEM_REGION_AS_923_GRP4 := 12; SMTC_MODEM_REGION_IN_865 := 9;
  SMTC_MODEM_REGION_KR_920 := 10; SMTC_MODEM_REGION_RU_864 := 11;
  SMTC_MODEM_CLASS_A := 0; SMTC_MODEM_CLASS_B := 1; SMTC_MODEM_CLASS_C := 2;
  SMTC_MODEM_STATUS_JOINED := 1; SMTC_MODEM_STATUS_JOINING := 2;
  SMTC_MODEM_EVENT_NO_RX_THRESHOLD_ADR_BACKOFF_END := 1; SMTC_MODEM_EVENT_NO_RX_THRESHOLD_USER_THRESHOLD := 2;
  smtc_modem_set_deveui v := set_config (fun c =>
    ModemConfig (mc_region c) (mc_bypass c) v (mc_joineui c) (mc_appkey c) (mc_nwkkey c));
  smtc_modem_set_joineui v := set_config (fun c =>
    ModemConfig (mc_region c) (mc_bypass c) (mc_deveui c) v (mc_appkey c) (mc_nwkkey c));
  smtc_modem_set_appkey v := set_config (fun c =>
    ModemConfig (mc_region c) (mc_bypass c) (mc_deveui c) (mc_joineui c) v (mc_nwkkey c));
  smtc_modem_set_nwkkey v := set_config (fun c =>
    ModemConfig (mc_region c) (mc_bypass c) (mc_deveui c) (mc_joineui c) (mc_appkey c) v);
  smtc_modem_set_channel_mask _ _ := accept; smtc_modem_get_list_region := answer ([1; 5], 2);
  smtc_modem_set_region v := set_config (fun c =>
    ModemConfig v (mc_bypass c) (mc_deveui c) (mc_joineui c) (mc_appkey c) (mc_nwkkey c));
  smtc_modem_set_join_duty_cycle_backoff_bypass v := set_config (fun c =>
    ModemConfig (mc_region c) v (mc_deveui c) (mc_joineui c) (mc_appkey c) (mc_nwkkey c));
  smtc_modem_get_join_duty_cycle_backoff_bypass := answer false;
  smtc_modem_join_network := set_status 1; smtc_modem_leave_network := set_status 0;
  smtc_modem_get_status m := ((SMTC_MODEM_RC_OK, sm_status m), m);
  smtc_modem_request_uplink p _ d _ := sim_uplink p (default [] d);
  smtc_modem_request_empty_uplink _ p _ := sim_uplink p [];
  smtc_modem_get_downlink_data := sim_get_downlink; smtc_modem_get_next_tx_max_payload := answer 51;
  smtc_modem_set_class := set_modem_class; smtc_modem_get_class m := ((SMTC_MODEM_RC_OK, sm_class m), m);
  smtc_modem_class_b_get_ping_slot_periodicity := answer 7;
  smtc_modem_class_b_set_ping_slot_periodicity _ := accept; smtc_modem_trig_lorawan_mac_request _ := accept;
  smtc_modem_get_lorawan_link_check_data := answer (20, 1); smtc_modem_get_lorawan_mac_time := same_cell;
  smtc_modem_start_alcsync_service := accept; smtc_modem_get_certification_mode := same_cell;
  smtc_modem_set_certification_mode _ := accept; smtc_modem_adr_get_profile := answer 0;
  smtc_modem_adr_set_profile _ _ := accept; smtc_modem_adr_set_join_distribution _ := accept;
  smtc_modem_get_enabled_datarates := same_cell; smtc_modem_get_nb_trans := same_cell;
  smtc_modem_set_nb_trans _ := accept; smtc_modem_get_adr_ack_limit_delay := same_cell;
  smtc_modem_set_adr_ack_limit_delay _ _ := accept; smtc_modem_get_duty_cycle_status := same_cell;
  smtc_modem_get_network_type := same_cell; smtc_modem_set_network_type _ := accept;
  smtc_modem_lbt_get_state := same_cell; smtc_modem_lbt_set_state _ := accept;
  smtc_modem_lbt_get_parameters := same_cell; smtc_modem_lbt_set_parameters _ _ _ := accept;
  smtc_modem_csma_get_state := same_cell; smtc_modem_csma_set_state _ := accept;
  smtc_modem_csma_get_parameters := same_cell; smtc_modem_csma_set_parameters _ _ _ := accept;
  smtc_modem_lorawan_get_lost_connection_counter := same_cell; smtc_modem_get_crystal_error_ppm := same_cell;
  smtc_modem_set_crystal_error_ppm _ := accept;
  smtc_modem_multicast_set_grp_config _ _ _ _ := accept;
  smtc_modem_multicast_class_c_start_session _ _ _ := accept;
  smtc_modem_multicast_class_b_start_session _ _ _ _ := accept;
  smtc_modem_multicast_class_c_stop_session _ := accept; smtc_modem_multicast_class_b_stop_session _ := accept;
  smtc_modem_multicast_class_c_stop_all_sessions := accept;
  smtc_modem_multicast_class_b_stop_all_sessions := accept;
  lorawan_api_devaddr_get := ret 1; lorawan_api_next_dr_get := ret 3;
  lorawan_api_next_join_time_second_get := ret 4; lorawan_api_set_no_rx_packet_threshold _ := ret tt;
  lorawan_api_get_no_rx_packet_threshold := ret 100; lorawan_register_fuota_callbacks := ret tt;
  lorawan_fragmentation_package_get_file_size _ := ret 4096;
  smtc_secure_element_get_key _ cell := ret (SMTC_SE_RC_SUCCESS, cell);
|}.
#[export] Instance sim_usp_config : UspConfig | 10 := {|
  CONFIG_LORA_BASICS_MODEM_CLASS_B := true; CONFIG_LORA_BASICS_MODEM_CLASS_C := true;
  CONFIG_LORA_BASICS_MODEM_MULTICAST := true; CONFIG_LORA_BASICS_MODEM_CSMA := true;
  CONFIG_LORA_BASICS_MODEM_FUOTA_V2 := true; CONFIG_RZI_LORAWAN_FUOTA_HW_VERSION := 1;
|}.
#[export] Instance sim_events_ok : LbmEventsOk.
Proof.
  refine {| queued := sm_events : @lbm sim_lbm -> _ |}.
  - intros l e rest Hq _. cbn. unfold sim_get_event. cbn in Hq. by rewrite Hq.
  - intros l Hq. cbn. unfold sim_get_event. cbn in Hq. by rewrite Hq.
Defined.
#[export] Instance sim_downlinks_ok : LbmDownlinksOk.
Proof.
  refine {| downlinks := sm_downlinks : @lbm sim_lbm -> _ |}.
  intros buffer l payload meta rest Hq _. cbn. unfold sim_get_downlink. cbn in Hq. by rewrite Hq.
Defined.
#[export] Instance sim_config_ok : LbmConfigOk.
Proof. by refine {| config_of := sm_config : @lbm sim_lbm -> _ |}. Defined.

Definition modem_off : sim_modem :=
  SimModem [ModemEvent SMTC_MODEM_EVENT_RESET 0] [] (ModemConfig 0 false [] [] [] []) 0 0 [] 0.
Definition otaa : rzi_lorawan_join_config :=
  JoinConfig RZI_LORAWAN_ACTIVATION_OTAA 8 false (replicate 6 0)
    (inl (JoinOtaa (replicate 8 1) (replicate 8 2) (replicate 16 3) (replicate 16 4) 0)).
Definition reset_event : smtc_modem_event_t := ModemEvent SMTC_MODEM_EVENT_RESET 0.
Definition sent_event : smtc_modem_event_t := ModemEvent (SMTC_MODEM_EVENT_TXDONE SMTC_MODEM_EVENT_TXDONE_SENT) 1.
Definition class_b_event : smtc_modem_event_t := ModemEvent (SMTC_MODEM_EVENT_CLASS_B_STATUS SMTC_MODEM_EVENT_CLASS_B_READY) 0.
Definition hi : option (list Z) := Some [104; 105].

(** Runs as lists of actions. *)
Inductive uact : Type := AStart (region sink : Z) | AOp (o : usp_op) | AEvent (e : smtc_modem_event_t).
Definition act (a : uact) (s : usp_state) : usp_state :=
  match a with
  | AStart r k => (usp_start r false k s).2
  | AOp o => (run_uop o s).2
  | AEvent e => (deliver_event e s).2
  end.
Definition act_label (a : uact) (s : usp_state) : list uplink_item :=
  match a with
  | AStart r k => start_label (usp_start r false k s).1 s
  | AOp o => op_label o (run_uop o s).1
  | AEvent e => event_label e s
  end.
Definition acts (l : list uact) (s : usp_state) : list uplink_item * usp_state :=
  foldl (fun p a => (p.1 ++ act_label a p.2, act a p.2)) ([], s) l.
Lemma act_step a s : usp_step s (act_label a s) (act a s).
Proof. destruct a; constructor. Qed.
Lemma acts_run l log s s0 : usp_run_to s0 log s ->
  usp_run_to s0 (foldl (fun p a => (p.1 ++ act_label a p.2, act a p.2)) (log, s) l).1
    (foldl (fun p a => (p.1 ++ act_label a p.2, act a p.2)) (log, s) l).2.
Proof.
  revert log s. induction l as [|a l IH]; intros log s Hr; [done|]. cbn [foldl fst snd].
  apply IH. eapply run_app; [exact Hr|]. apply run_one, act_step.
Qed.
Lemma acts_reachable l : usp_reachable (acts l (usp_boot modem_off)).1 (acts l (usp_boot modem_off)).2.
Proof. exists modem_off. apply acts_run. constructor. Qed.
(** Started, reset, joined, class B, and an uplink under way; then done. *)
Definition uplink_acts : list uact :=
  [AStart RZI_LORAWAN_REGION_EU_868 USP_SINK; AEvent reset_event; AOp (UJoin otaa); AOp (USetClass RZI_LORAWAN_CLASS_B);
   AEvent class_b_event; AOp (USend 2 hi 2 RZI_LORAWAN_MSG_UNCONFIRMED)].
Definition done_acts : list uact := uplink_acts ++ [AEvent sent_event].
End UspSim.

Module UspWitness.
Import UspSim.
Definition under_way : usp_state := Eval vm_compute in (acts uplink_acts (usp_boot modem_off)).2.
Definition completed : usp_state := Eval vm_compute in (acts done_acts (usp_boot modem_off)).2.
Definition done_log : list uplink_item := [UReset; UAccept; UDone SMTC_MODEM_EVENT_TXDONE_SENT].
Lemma completed_run : acts done_acts (usp_boot modem_off) = (done_log, completed).
Proof. vm_refl. Qed.
Lemma under_way_run : acts uplink_acts (usp_boot modem_off) = ([UReset; UAccept], under_way).
Proof. vm_refl. Qed.
Lemma completed_reachable : usp_reachable done_log completed.
Proof. pose proof (acts_reachable done_acts) as Hr. rewrite completed_run in Hr. exact Hr. Qed.
Lemma under_way_reachable : usp_reachable [UReset; UAccept] under_way.
Proof. pose proof (acts_reachable uplink_acts) as Hr. rewrite under_way_run in Hr. exact Hr. Qed.

Lemma usp_refines_spec_witness : usteps ucore_boot done_log (core_of completed).
Proof. exact (proj1 (usp_refines_spec done_log completed completed_reachable)). Defined.
Lemma usp_uplinks_accounted_witness : Some true = Some (u_tx_pending (us_vars under_way)) /\
  tx_dones (us_events completed) = [BACKEND_TX_DONE TXDONE_SENT 0].
Proof.
  split; [exact (proj1 (usp_uplinks_accounted _ under_way under_way_reachable))|].
  exact (proj2 (usp_uplinks_accounted done_log completed completed_reachable)).
Defined.
Lemma usp_class_b_published_witness :
  class_b_states RZI_LORAWAN_CLASS_B_IDLE (us_events under_way) = Some RZI_LORAWAN_CLASS_B_ACTIVE.
Proof. exact (usp_class_b_published _ under_way under_way_reachable). Defined.
Lemma usp_lock_free_witness : depth_of under_way = 0.
Proof. exact (usp_lock_free _ under_way under_way_reachable). Defined.
Lemma usp_refused_until_reset_witness :
  run_uop (USend 2 hi 2 RZI_LORAWAN_MSG_UNCONFIRMED) (usp_boot modem_off) =
    (- RZI_ERR_NOT_READY, woken (usp_boot modem_off)).
Proof. apply usp_refused_until_reset; reflexivity. Defined.
(** A reset in the middle of the uplink: the credentials are restored. *)
Lemma usp_reset_restores_witness : mc_deveui (configured (handle_reset under_way).2) = replicate 8 1.
Proof.
  destruct (usp_reset_restores under_way) as (_ & Hready & _).
  assert (Hr : u_ready (us_vars (handle_reset under_way).2) = true) by vm_refl.
  destruct (Hready Hr) as (_ & _ & _ & Hkeys).
  assert (Hv : u_credentials_valid (us_vars under_way) = true) by vm_refl.
  exact (proj1 (Hkeys Hv)).
Defined.
Definition meta1 : smtc_modem_dl_metadata_t := DlMeta 10 (-20) 24 1 SMTC_MODEM_DL_WINDOW_RXC_MC_GRP2 5 868100000.
Definition meta2 : smtc_modem_dl_metadata_t := DlMeta 11 (-30) 12 0 SMTC_MODEM_DL_WINDOW_RX1 5 868100000.
Definition with_downlinks : usp_state := set_us_lbm
  (SimModem [] [([1; 2; 3], meta1); ([9], meta2)] (ModemConfig 0 false [] [] [] []) 1 0 [] 0) under_way.
Lemma usp_downlinks_delivered_witness : exists es,
  us_events (handle_type SMTC_MODEM_EVENT_DOWNDATA with_downlinks).2 = us_events with_downlinks ++ es /\ length es = 2%nat.
Proof.
  destruct (usp_downlinks_delivered with_downlinks) as (_ & _ & es & He & Hf).
  - discriminate.
  - discriminate.
  - repeat constructor; discriminate.
  - exists es. split; [exact He|]. symmetry. exact (Forall2_length _ _ _ Hf).
Defined.
(** Deadline 10 seconds ahead, across the wrap of the 32-bit clock. *)
Definition idle : usp_state := Eval vm_compute in
  (acts [AStart RZI_LORAWAN_REGION_EU_868 USP_SINK; AEvent reset_event] (usp_boot modem_off)).2.
Lemma usp_join_backoff_exact_witness : (usp_get_join_backoff 0 idle).1 = (0, 10).
Proof.
  refine (eq_trans (usp_join_backoff_exact 0 4294967300 4294967290 false false 0 idle _ _ _) _).
  - reflexivity.
  - exists (us_lbm idle), (us_lbm idle), (us_lbm idle), (us_lbm idle). split_and!; reflexivity.
  - split; [discriminate|reflexivity].
  - reflexivity.
Defined.
Lemma mask_bytes_words_witness : length (mask_bytes [0xff00; 1]) = 4%nat.
Proof.
  destruct (mask_bytes_words [0xff00; 1]) as [Hl _]; [|exact Hl].
  repeat constructor; discriminate.
Defined.
Definition group_session : rzi_lorawan_multicast_session :=
  McSession RZI_LORAWAN_CLASS_C 0x01020304 (replicate 16 7) (replicate 16 8) 869525000 3 0 2.
Lemma boot_multicast_wf : mc_wf usp_multicast_init.
Proof.
  split_and!; [reflexivity..|]. intros i. do 4 (destruct i as [|i]; [by split_and!|]).
  assert (Hs : session_at usp_multicast_init (S (S (S (S i)))) = session_zero) by (destruct i; reflexivity).
  assert (Hu : used_at usp_multicast_init (S (S (S (S i)))) = false) by (destruct i; reflexivity).
  rewrite Hs, Hu. by split_and!.
Qed.
Lemma usp_multicast_refines_witness :
  mc_at (us_multicast (run_uop (UMcAdd group_session) idle).2) 2 = Some (stored_session group_session 2).
Proof.
  destruct (usp_multicast_refines (UMcAdd group_session) idle) as (_ & _ & He); [exact boot_multicast_wf|].
  assert (Hrc : (run_uop (UMcAdd group_session) idle).1 = 0) by vm_refl.
  destruct (He Hrc) as (g & _ & _ & Hg & Hat). assert (Hz : 0 <= mc_group_id group_session) by discriminate.
  specialize (Hg Hz). specialize (Hat 2%nat). assert (E : g = 2%nat) by (cbn in Hg; lia). subst g. exact Hat.
Defined.
Lemma usp_multicast_enumerates_witness :
  (usp_multicast_get 0 session_zero idle).1 = (- RZI_ERR_INVALID, session_zero).
Proof. exact (proj2 (usp_multicast_enumerates 0 0 session_zero idle eq_refl (Z.le_refl 0))). Defined.

(** On this modem the handler queues no event. *)
Lemma modem_waiting {A} (m : M sim_modem A) : keeps sm_events m -> keeps waiting (modem (W := usp_state) m).
Proof. intros Hm s. unfold same, waiting. rewrite modem_eq. cbn. apply Hm. Qed.
Lemma downlinks_waiting n b : keeps waiting (downlink_loop n b).
Proof.
  revert b. induction n as [|n IH]; intros b; cbn [downlink_loop]; [by intros s|].
  apply respects_bind; [apply _| |intros [rc [[[data size] meta] remaining]]].
  - apply modem_waiting. intros m. unfold same. cbn. unfold sim_get_downlink. by destruct (sm_downlinks m) as [|[]].
  - destruct (bool_decide _); [|by intros s]. apply respects_bind; [apply _|by intros s|intros _].
    destruct (0 <? remaining); [apply IH|by intros s].
Qed.
Lemma reset_waiting : keeps waiting handle_reset.
Proof.
  assert (Hc : forall m, keeps sm_events m -> keeps waiting (usp_call m)).
  { intros m Hm. unfold usp_call. frame. by apply modem_waiting. }
  assert (Hr : forall A (m : smtc_out sim_modem A), keeps sm_events m -> keeps waiting (usp_read m)).
  { intros A m Hm. unfold usp_read. frame. by apply modem_waiting. }
  unfold handle_reset, configure_service, check_region_built, configure_credentials, publish_error, when.
  repeat first [apply Hc; by intros m | apply Hr; by intros m | by intros s | frame_step].
Qed.
Lemma handler_quiet e : keeps waiting (deliver_event (W := usp_state) e).
Proof.
  assert (Ht : forall t, keeps waiting (handle_type t)).
  { intros t. destruct t as [| | |st| |st|st|st|st|st| | | | | |ok|st|]; cbn [handle_type];
      try (by intros s); try (destruct st; by intros s).
    - apply reset_waiting.
    - apply downlinks_waiting.
    - destruct st; [..|by intros s]; intros s; unfold same; rewrite bind_eq, set_class_run;
        destruct (_ =? _); cbn [fst snd when]; try done; unfold rzi_lorawan_usp_publish_class_b;
        rewrite bind_eq; cbn; by destruct (_ =? 0).
    - intros s. by destruct ok. }
  unfold deliver_event. apply respects_bind; [apply _|by destruct (is_reset e); intros s|intros _].
  unfold call_handler. apply respects_bind; [apply _|by intros s|intros h].
  destruct (negb _); [|by intros s]. unfold run_handler, usp_handlers. destruct (_ =? _); [|by intros s].
  unfold handle_event. apply respects_bind; [apply _|by destruct (0 <? _); intros s|intros _]. apply Ht.
Qed.
Definition three_events : usp_state := set_us_lbm
  (SimModem [reset_event; sent_event; class_b_event] [] (ModemConfig 0 false [] [] [] []) 1 0 [] 0) under_way.
Lemma modem_event_callback_delivers_witness : waiting (modem_event_callback three_events).2 = [].
Proof. apply (modem_event_callback_delivers handler_quiet three_events). discriminate. Defined.

(** The service over this backend. *)
#[local] Instance usp_backend : LorawanBackend | 0 := usp_lorawan.
#[local] Instance no_hooks : LorawanHooks :=
  {| run_callback _ _ _ := ret tt; service_on_started _ := None; service_on_event _ := None |}.
Definition service_world (b : usp_state) (sequence : Z) : world :=
  World SettingsWitness.cold credentials_zero (set_sequence sequence (set_started 1 core_init))
    (replicate 4 slot_zero) [] (([], 8) : @msgq sim_zephyr rzi_lorawan_backend_event) (Mac 0 false) b [].
Definition joined : usp_state := Eval vm_compute in
  (acts [AStart RZI_LORAWAN_REGION_EU_868 USP_SINK; AEvent reset_event; AOp (UJoin otaa)] (usp_boot modem_off)).2.
Lemma usp_contract_witness : check_backend_contract = true.
Proof. apply usp_contract. Defined.
Lemma usp_service_uplink_witness :
  u_tx_pending (us_vars (backend_of (rzi_lorawan_send 2 hi 2 RZI_LORAWAN_MSG_UNCONFIRMED (service_world joined 0)).2)) = true.
Proof.
  apply (usp_service_uplink 2 hi 2 RZI_LORAWAN_MSG_UNCONFIRMED (service_world joined 0)). vm_refl.
Defined.
Lemma usp_last_retry_leaves_witness :
  sequence_of (swallow_join_event (BACKEND_JOIN_FAILED (- RZI_ERR_TIMEOUT)) (service_world joined 1)).2 = 0.
Proof.
  apply (usp_last_retry_leaves (- RZI_ERR_TIMEOUT) (service_world joined 1)); [discriminate|reflexivity|vm_refl].
Defined.
End UspWitness.
