(* ===== verification/UspLora.v ===== *)
(** * The USP LoRa / FSK backend (src/lora/backend/lora_backend_usp.c)

    An implementation of [struct rzi_lora_backend_api] over the radio access
    controller (RAC) of the USP, which shares the radio with LoRaWAN.  P2P
    operations are RAC transactions: submitted under the engine lock, and
    finished by a callback that runs under the same lock; certification tests
    use the modem's test mode.  The controller is a parameter ([Rac]).  Its
    contexts are cells the file writes through pointers, so a context names
    the buffers and the callback by [payload_buffer] and [rac_callback].

    A transaction's callback comes after its submission has returned; an abort
    may run the callback of the transaction it cancels before it returns. *)
From S2P Require Import Prelude Zephyr Err Lora Usp.

(** ** Enumerators of smtc_rac_api.h, ral_defs.h and smtc_modem_test_api.h *)
Inductive smtc_rac_return_code_t : Type :=
| SMTC_RAC_SUCCESS | SMTC_RAC_BUSY | SMTC_RAC_INVALID_PARAMETER | SMTC_RAC_NOT_SUPPORTED
| SMTC_RAC_NOT_IMPLEMENTED | SMTC_RAC_NOT_INITIALIZED | SMTC_RAC_TIMEOUT | SMTC_RAC_other.
Inductive rp_status_t : Type :=
  RP_STATUS_TX_DONE | RP_STATUS_RX_PACKET | RP_STATUS_TASK_ABORTED | RP_STATUS_other.
Inductive ral_lora_bw_t : Type :=
| RAL_LORA_BW_125_KHZ | RAL_LORA_BW_250_KHZ | RAL_LORA_BW_500_KHZ | RAL_LORA_BW_007_KHZ
| RAL_LORA_BW_010_KHZ | RAL_LORA_BW_015_KHZ | RAL_LORA_BW_020_KHZ | RAL_LORA_BW_031_KHZ
| RAL_LORA_BW_041_KHZ | RAL_LORA_BW_062_KHZ.
Inductive ral_lora_pkt_len_modes_t : Type := RAL_LORA_PKT_EXPLICIT | RAL_LORA_PKT_IMPLICIT.
Inductive ral_gfsk_pkt_len_modes_t : Type := RAL_GFSK_PKT_FIX_LEN | RAL_GFSK_PKT_VAR_LEN.
Inductive ral_gfsk_pulse_shape_t : Type := RAL_GFSK_PULSE_SHAPE_BT_1 | RAL_GFSK_PULSE_SHAPE_other.
Inductive ral_gfsk_preamble_detector_t : Type :=
  RAL_GFSK_PREAMBLE_DETECTOR_MIN_16BITS | RAL_GFSK_PREAMBLE_DETECTOR_other.
Inductive ral_gfsk_crc_type_t : Type := RAL_GFSK_CRC_2_BYTES_INV | RAL_GFSK_CRC_other.
Inductive ral_gfsk_dc_free_t : Type := RAL_GFSK_DC_FREE_WHITENING | RAL_GFSK_DC_FREE_other.
Inductive smtc_modem_test_mode_sync_word_t : Type :=
  SYNC_WORD_0x12 | SYNC_WORD_0x21 | SYNC_WORD_0x34 | SYNC_WORD_0x56.
#[export] Instance rac_code_eq_dec : EqDecision smtc_rac_return_code_t.
Proof. solve_decision. Defined.
#[export] Instance test_sync_eq_dec : EqDecision smtc_modem_test_mode_sync_word_t.
Proof. solve_decision. Defined.

(** The parameters of a transaction: the member of the union that
    [modulation_type] selects. *)
Record smtc_rac_radio_lora_params_t : Type := RacLora {
  lora_is_tx : bool; lora_frequency_in_hz : Z; lora_sf : Z; lora_bw : ral_lora_bw_t; lora_cr : Z;
  lora_preamble_len_in_symb : Z; lora_header_type : ral_lora_pkt_len_modes_t; lora_invert_iq_is_on : Z;
  lora_crc_is_on : Z; lora_rac_sync_word : Z; lora_tx_power_in_dbm : Z; lora_tx_size : Z;
  lora_rx_timeout_ms : Z; lora_symb_nb_timeout : Z; lora_max_rx_size : Z;
}.
Record smtc_rac_radio_fsk_params_t : Type := RacFsk {
  fsk_is_tx : bool; fsk_tx_size : Z; fsk_max_rx_size : Z; fsk_frequency_in_hz : Z;
  fsk_tx_power_in_dbm : Z; fsk_br_in_bps : Z; fsk_fdev_in_hz : Z; fsk_bw_dsb_in_hz : Z;
  fsk_pulse_shape : ral_gfsk_pulse_shape_t; fsk_header_type : ral_gfsk_pkt_len_modes_t;
  fsk_preamble_len_in_bits : Z; fsk_preamble_detector : ral_gfsk_preamble_detector_t;
  fsk_sync_word_len_in_bits : Z; fsk_crc_type : ral_gfsk_crc_type_t; fsk_dc_free : ral_gfsk_dc_free_t;
  fsk_sync_word_bytes : list Z; fsk_whitening_seed : Z;
  fsk_crc_seed : Z; fsk_crc_polynomial : Z; fsk_rx_timeout_ms : Z;
}.
Inductive rac_params : Type :=
| SMTC_RAC_MODULATION_LORA (lora : smtc_rac_radio_lora_params_t)
| SMTC_RAC_MODULATION_FSK (fsk : smtc_rac_radio_fsk_params_t).
Inductive payload_buffer : Type := TX_BUFFER | RX_BUFFER.
Inductive rac_callback : Type := ON_TX_DONE | ON_RX_DONE.
Inductive smtc_rac_scheduling_t : Type := SMTC_RAC_ASAP_TRANSACTION | SMTC_RAC_SCHEDULING_other.
(** The members of [smtc_rac_context_t] the file uses; a NULL pointer is [None]. *)
Record smtc_rac_context_t : Type := RacContext {
  radio_params : option rac_params;
  scheduling : smtc_rac_scheduling_t; start_time_ms : Z;
  callback_post_radio_transaction : option rac_callback;
  tx_payload_buffer : option payload_buffer; size_of_tx_payload_buffer : Z;
  rx_payload_buffer : option payload_buffer; size_of_rx_payload_buffer : Z;
  rx_size : Z; rssi_result : Z; snr_result : Z;
}.
Record test_tx : Type := TestTx {
  tt_payload : list Z; tt_size : Z; tt_frequency_hz : Z; tt_power_dbm : Z; tt_sf : Z; tt_bw : ral_lora_bw_t;
  tt_cr : Z; tt_sync : smtc_modem_test_mode_sync_word_t; tt_invert_iq : bool; tt_crc_on : bool;
  tt_header : ral_lora_pkt_len_modes_t; tt_preamble : Z; tt_packets : Z; tt_delay_ms : Z;
}.
(** [struct rx_packet] *)
Record rx_packet : Type := RxPacket {
  rx_packet_size : Z; rx_rssi_dbm : Z; rx_snr_quarter_db : Z; rx_data : list Z;
}.

(** ** The radio access controller and the test mode.  An abort returns the
    status with which the controller calls back before it returns, if it does. *)
Class Rac `{Zephyr} `{Lbm} : Type := {
  RAC_LOW_PRIORITY : Z; RAC_VERY_LOW_PRIORITY : Z;
  k_uptime_get : lbm -> Z;
  smtc_modem_hal_get_time_in_ms : M lbm Z;
  smtc_rac_get_context : Z -> lbm -> smtc_rac_context_t;
  rac_set_context : Z -> smtc_rac_context_t -> lbm -> lbm;
  smtc_rac_open_radio : Z -> M lbm Z;
  smtc_rac_submit_radio_transaction : Z -> M lbm smtc_rac_return_code_t;
  smtc_rac_abort_radio_submit : Z -> M lbm (smtc_rac_return_code_t * option rp_status_t);
  smtc_modem_test_start : smtc lbm; smtc_modem_test_stop : smtc lbm;
  smtc_modem_test_rssi_lbt : Z -> Z -> Z -> smtc lbm;
  smtc_modem_test_get_rssi : Z -> smtc_out lbm Z;
  smtc_modem_test_tx_cw : Z -> Z -> smtc lbm;
  smtc_modem_test_tx_lora : test_tx -> smtc lbm;
  smtc_modem_test_nop : bool -> smtc lbm;
  k_msgq_purge : msgq rx_packet -> msgq rx_packet;
}.
Abbreviation TX_ID := RAC_LOW_PRIORITY.
Abbreviation RX_ID := RAC_VERY_LOW_PRIORITY.
Abbreviation RX_CONTINUOUS := 65535.
Abbreviation RX_WINDOW_MS := 60000.
Abbreviation USP_TEST_RSSI_OFFSET := 64.
Definition fsk_sync_word : list Z := [0xC1; 0x94; 0xC1].
Definition to_i8 (z : Z) : Z := (z + 128) mod 256 - 128.

(** ** Pure conversions *)
Definition rac_result (rc : smtc_rac_return_code_t) : Z :=
  match rc with
  | SMTC_RAC_SUCCESS => 0
  | SMTC_RAC_BUSY => - RZI_ERR_BUSY
  | SMTC_RAC_INVALID_PARAMETER => - RZI_ERR_INVALID
  | SMTC_RAC_NOT_SUPPORTED | SMTC_RAC_NOT_IMPLEMENTED => - RZI_ERR_NOT_SUPPORTED
  | SMTC_RAC_NOT_INITIALIZED => - RZI_ERR_NOT_READY
  | SMTC_RAC_TIMEOUT => - RZI_ERR_TIMEOUT
  | SMTC_RAC_other => - RZI_ERR_IO
  end.
Definition bandwidth_table : list ral_lora_bw_t :=
  [RAL_LORA_BW_125_KHZ; RAL_LORA_BW_250_KHZ; RAL_LORA_BW_500_KHZ; RAL_LORA_BW_007_KHZ;
   RAL_LORA_BW_010_KHZ; RAL_LORA_BW_015_KHZ; RAL_LORA_BW_020_KHZ; RAL_LORA_BW_031_KHZ;
   RAL_LORA_BW_041_KHZ; RAL_LORA_BW_062_KHZ].
Definition map_bandwidth (index : Z) : ral_lora_bw_t :=
  default RAL_LORA_BW_125_KHZ (bandwidth_table !! Z.to_nat index).
Definition lora_sync_byte (sync_word : Z) : Z :=
  if 0xFF <? sync_word then
    u8 (Z.lor (Z.land (Z.shiftr sync_word 8) 0xF0) (Z.land (Z.shiftr sync_word 4) 0x0F))
  else u8 sync_word.
Definition test_sync (sync_word : Z) : smtc_modem_test_mode_sync_word_t :=
  let byte := lora_sync_byte sync_word in
  if byte =? 0x12 then SYNC_WORD_0x12
  else if byte =? 0x21 then SYNC_WORD_0x21
  else if byte =? 0x56 then SYNC_WORD_0x56
  else SYNC_WORD_0x34.
Definition fill_lora (config : rzi_lora_config) (is_tx : bool) (size timeout_ms : Z) : rac_params :=
  SMTC_RAC_MODULATION_LORA
    (RacLora is_tx (frequency_hz config) (spreading_factor config) (map_bandwidth (bandwidth config))
      (u32 (coding_rate config + 1)) (preamble_length config)
      (if fixed_length config then RAL_LORA_PKT_IMPLICIT else RAL_LORA_PKT_EXPLICIT)
      (if iq_inverted config then 1 else 0) 1 (lora_sync_byte (sync_word config))
      (u8 (tx_power_dbm config)) size timeout_ms (symbol_timeout config) RZI_LORA_MAX_PAYLOAD).
Definition fsk_bandwidth (config : rzi_lora_config) : Z :=
  if 4800 <=? bandwidth config then bandwidth config
  else u32 (2 * fsk_deviation config + fsk_bitrate config).
Definition fill_fsk (config : rzi_lora_config) (is_tx : bool) (size timeout_ms : Z) : rac_params :=
  SMTC_RAC_MODULATION_FSK
    (RacFsk is_tx size RZI_LORA_MAX_PAYLOAD (frequency_hz config) (tx_power_dbm config)
      (fsk_bitrate config) (fsk_deviation config) (fsk_bandwidth config)
      RAL_GFSK_PULSE_SHAPE_BT_1
      (if fixed_length config then RAL_GFSK_PKT_FIX_LEN else RAL_GFSK_PKT_VAR_LEN)
      (u32 (preamble_length config * 8)) RAL_GFSK_PREAMBLE_DETECTOR_MIN_16BITS (zlen fsk_sync_word * 8)
      RAL_GFSK_CRC_2_BYTES_INV RAL_GFSK_DC_FREE_WHITENING fsk_sync_word 0x01FF 0x1D0F 0x1021 timeout_ms).
Definition tx_status_error (status : rp_status_t) : Z :=
  match status with
  | RP_STATUS_TX_DONE => 0
  | RP_STATUS_TASK_ABORTED => - RZI_ERR_BUSY
  | _ => - RZI_ERR_IO
  end.
Definition set_params (p : rac_params) (c : smtc_rac_context_t) : smtc_rac_context_t :=
  RacContext (Some p) (scheduling c) (start_time_ms c) (callback_post_radio_transaction c)
    (tx_payload_buffer c) (size_of_tx_payload_buffer c) (rx_payload_buffer c) (size_of_rx_payload_buffer c)
    (rx_size c) (rssi_result c) (snr_result c).
Definition set_schedule (start : Z) (c : smtc_rac_context_t) : smtc_rac_context_t :=
  RacContext (radio_params c) SMTC_RAC_ASAP_TRANSACTION start (callback_post_radio_transaction c)
    (tx_payload_buffer c) (size_of_tx_payload_buffer c) (rx_payload_buffer c) (size_of_rx_payload_buffer c)
    (rx_size c) (rssi_result c) (snr_result c).
Definition set_tx_setup (c : smtc_rac_context_t) : smtc_rac_context_t :=
  RacContext (radio_params c) (scheduling c) (start_time_ms c) (Some ON_TX_DONE)
    (Some TX_BUFFER) RZI_LORA_MAX_PAYLOAD (rx_payload_buffer c) (size_of_rx_payload_buffer c)
    (rx_size c) (rssi_result c) (snr_result c).
Definition set_rx_setup (c : smtc_rac_context_t) : smtc_rac_context_t :=
  RacContext (radio_params c) (scheduling c) (start_time_ms c) (Some ON_RX_DONE)
    (tx_payload_buffer c) (size_of_tx_payload_buffer c) (Some RX_BUFFER) RZI_LORA_MAX_PAYLOAD
    (rx_size c) (rssi_result c) (snr_result c).

(** ** The file-scope variables *)
Section variables.
Context `{Zephyr}.
Record p2p_vars : Type := P2pVars {
  p_config : rzi_lora_config; p_modulation : Z; opened : bool; test_mode : bool; tx_busy : bool;
  rx_active : bool; rx_continuous : bool; rx_deadline_ms : Z; tx_buffer : list Z; rx_buffer : list Z;
  p_tx_done : Z; p_tx_error : Z; rx_queue : msgq rx_packet;
}.
Definition put_p_config v s := P2pVars v (p_modulation s) (opened s) (test_mode s) (tx_busy s) (rx_active s)
  (rx_continuous s) (rx_deadline_ms s) (tx_buffer s) (rx_buffer s) (p_tx_done s) (p_tx_error s) (rx_queue s).
Definition put_p_modulation v s := P2pVars (p_config s) v (opened s) (test_mode s) (tx_busy s) (rx_active s)
  (rx_continuous s) (rx_deadline_ms s) (tx_buffer s) (rx_buffer s) (p_tx_done s) (p_tx_error s) (rx_queue s).
Definition put_opened v s := P2pVars (p_config s) (p_modulation s) v (test_mode s) (tx_busy s) (rx_active s)
  (rx_continuous s) (rx_deadline_ms s) (tx_buffer s) (rx_buffer s) (p_tx_done s) (p_tx_error s) (rx_queue s).
Definition put_test_mode v s := P2pVars (p_config s) (p_modulation s) (opened s) v (tx_busy s) (rx_active s)
  (rx_continuous s) (rx_deadline_ms s) (tx_buffer s) (rx_buffer s) (p_tx_done s) (p_tx_error s) (rx_queue s).
Definition put_tx_busy v s := P2pVars (p_config s) (p_modulation s) (opened s) (test_mode s) v (rx_active s)
  (rx_continuous s) (rx_deadline_ms s) (tx_buffer s) (rx_buffer s) (p_tx_done s) (p_tx_error s) (rx_queue s).
Definition put_p_rx_active v s := P2pVars (p_config s) (p_modulation s) (opened s) (test_mode s) (tx_busy s) v
  (rx_continuous s) (rx_deadline_ms s) (tx_buffer s) (rx_buffer s) (p_tx_done s) (p_tx_error s) (rx_queue s).
Definition put_rx_window continuous deadline s := P2pVars (p_config s) (p_modulation s) (opened s) (test_mode s)
  (tx_busy s) (rx_active s) continuous deadline (tx_buffer s) (rx_buffer s) (p_tx_done s) (p_tx_error s) (rx_queue s).
Definition put_tx_buffer v s := P2pVars (p_config s) (p_modulation s) (opened s) (test_mode s) (tx_busy s)
  (rx_active s) (rx_continuous s) (rx_deadline_ms s) v (rx_buffer s) (p_tx_done s) (p_tx_error s) (rx_queue s).
Definition put_rx_buffer v s := P2pVars (p_config s) (p_modulation s) (opened s) (test_mode s) (tx_busy s)
  (rx_active s) (rx_continuous s) (rx_deadline_ms s) (tx_buffer s) v (p_tx_done s) (p_tx_error s) (rx_queue s).
Definition put_p_tx_done v s := P2pVars (p_config s) (p_modulation s) (opened s) (test_mode s) (tx_busy s)
  (rx_active s) (rx_continuous s) (rx_deadline_ms s) (tx_buffer s) (rx_buffer s) v (p_tx_error s) (rx_queue s).
Definition put_p_tx_error v s := P2pVars (p_config s) (p_modulation s) (opened s) (test_mode s) (tx_busy s)
  (rx_active s) (rx_continuous s) (rx_deadline_ms s) (tx_buffer s) (rx_buffer s) (p_tx_done s) v (rx_queue s).
Definition put_rx_queue v s := P2pVars (p_config s) (p_modulation s) (opened s) (test_mode s) (tx_busy s)
  (rx_active s) (rx_continuous s) (rx_deadline_ms s) (tx_buffer s) (rx_buffer s) (p_tx_done s) (p_tx_error s) v.
(** [static struct rzi_lora_config config;] and the rest, zero-initialised. *)
Definition zero_config : rzi_lora_config :=
  LoraConfig 0 0 0 0 0 0 0 false false (replicate 16 0) (replicate 16 0) false false 0 0 0.
Definition p2p_init (queue : msgq rx_packet) : p2p_vars :=
  P2pVars zero_config RZI_LORA_MOD_LORA false false false false false 0 (replicate 255 0) (replicate 255 0)
    0 0 queue.
Class UspLoraEnv (W : Type) : Type := { p2p_of : W -> p2p_vars; set_p2p : p2p_vars -> W -> W }.
End variables.

Section backend.
Context `{Zephyr} `{Lbm} `{!Rac} `{!UspEnv W} `{app : LoraEnv W} `{!UspLoraEnv W}.
Definition vget {A} (f : p2p_vars -> A) : M W A := gets (fun w => f (p2p_of w)).
Definition vput (f : p2p_vars -> p2p_vars) : M W unit := modify (fun w => set_p2p (f (p2p_of w)) w).
(** [smtc_rac_get_context(id)->... = ...] *)
Definition update_context (id : Z) (f : smtc_rac_context_t -> smtc_rac_context_t) : M W unit :=
  modem (modify (fun l => rac_set_context id (f (smtc_rac_get_context id l)) l)).
Definition when_ok (rc : Z) (m : M W unit) : M W unit := if rc =? 0 then m else ret tt.

(** ** Transactions *)
Definition submit (id : Z) (is_tx : bool) (size timeout_ms : Z) : M W Z :=
  let* modulation := vget p_modulation in
  let* config := vget p_config in
  update_context id
    (set_params (if modulation =? RZI_LORA_MOD_FSK then fill_fsk config is_tx size timeout_ms
                 else fill_lora config is_tx size timeout_ms)) ;;;
  let* now := modem smtc_modem_hal_get_time_in_ms in
  update_context id (set_schedule now) ;;;
  let* rc := modem (smtc_rac_submit_radio_transaction id) in
  ret (rac_result rc).
Definition on_tx_done (status : rp_status_t) : M W unit :=
  vput (put_tx_busy false) ;;;
  vput (put_p_tx_error (tx_status_error status)) ;;;
  vput (put_p_tx_done 1).
Definition submit_rx_window : M W Z :=
  let* continuous := vget rx_continuous in
  if continuous then submit RX_ID false 0 RX_WINDOW_MS
  else
    let* deadline := vget rx_deadline_ms in
    let* now := gets (fun w => k_uptime_get (lbm_of w)) in
    let remaining := deadline - now in
    if remaining <=? 0 then ret (- RZI_ERR_TIMEOUT) else submit RX_ID false 0 (u32 remaining).
(** [struct rx_packet packet], from the context and the receive buffer *)
Definition received (c : smtc_rac_context_t) (buffer : list Z) : rx_packet :=
  let size := u8 (Z.min (rx_size c) RZI_LORA_MAX_PAYLOAD) in
  RxPacket size (rssi_result c) (to_i8 (snr_result c * 4))
    (overlay (replicate 255 0) 0 (take (Z.to_nat size) buffer)).
Definition is_packet (status : rp_status_t) : bool :=
  match status with RP_STATUS_RX_PACKET => true | _ => false end.
Definition is_aborted (status : rp_status_t) : bool :=
  match status with RP_STATUS_TASK_ABORTED => true | _ => false end.
Definition on_rx_done (status : rp_status_t) : M W unit :=
  let* ctx := gets (fun w => smtc_rac_get_context RX_ID (lbm_of w)) in
  (if is_packet status && (0 <? rx_size ctx) then
     let* buffer := vget rx_buffer in
     vput (fun s => put_rx_queue (k_msgq_put (received ctx buffer) (rx_queue s)).2 s)
   else ret tt) ;;;
  let* active := vget rx_active in
  if negb active then ret tt
  else
    let* continuous := vget rx_continuous in
    if negb (continuous || is_aborted status) then vput (put_p_rx_active false)
    else
      let* rc := submit_rx_window in
      if negb (rc =? 0) then vput (put_p_rx_active false) else ret tt.
Definition run_rac_callback (cb : option rac_callback) (status : rp_status_t) : M W unit :=
  match cb with
  | Some ON_TX_DONE => on_tx_done status
  | Some ON_RX_DONE => on_rx_done status
  | None => ret tt
  end.
(** [(void)smtc_rac_abort_radio_submit(id)] with the callback it may run *)
Definition rac_abort (id : Z) : M W unit :=
  let* '(_, called) := modem (smtc_rac_abort_radio_submit id) in
  match called with
  | None => ret tt
  | Some status =>
      let* cb := gets (fun w => callback_post_radio_transaction (smtc_rac_get_context id (lbm_of w))) in
      run_rac_callback cb status
  end.

Definition open_radio : M W Z :=
  let* is_open := vget opened in
  if is_open then ret 0
  else
    let* tx := modem (smtc_rac_open_radio TX_ID) in
    if negb (tx =? TX_ID) then ret (- RZI_ERR_NO_RESOURCE)
    else
      let* rx := modem (smtc_rac_open_radio RX_ID) in
      if negb (rx =? RX_ID) then ret (- RZI_ERR_NO_RESOURCE)
      else
        update_context TX_ID set_tx_setup ;;;
        update_context RX_ID set_rx_setup ;;;
        vput (put_opened true) ;;; ret 0.
Definition abort_p2p : M W unit :=
  vput (put_p_rx_active false) ;;;
  let* is_open := vget opened in
  if is_open then rac_abort RX_ID ;;; rac_abort TX_ID else ret tt.
Definition enter_test_mode : M W Z :=
  let* testing := vget test_mode in
  if testing then ret 0
  else
    abort_p2p ;;;
    let* rc := usp_call smtc_modem_test_start in
    when_ok rc (vput (put_test_mode true)) ;;; ret rc.
Definition leave_test_mode : M W Z :=
  let* testing := vget test_mode in
  if negb testing then ret 0
  else
    let* rc := usp_call smtc_modem_test_stop in
    when_ok rc (vput (put_test_mode false)) ;;; ret rc.

(** ** The operations *)
Definition usp_start (value : Z) : M W Z :=
  rzi_usp_init ;;;
  rzi_usp_lock ;;;
  let* rc := open_radio in
  when_ok rc (vput (put_p_modulation value)) ;;;
  rzi_usp_unlock ;;; ret rc.
(** [usp_stop] up to the unlock. *)
Definition stop_locked : M W Z :=
  rzi_usp_lock ;;;
  abort_p2p ;;;
  vput (put_tx_busy false) ;;;
  let* rc := leave_test_mode in
  rzi_usp_unlock ;;; ret rc.
Definition clear_tx_done : M W unit := vput (put_p_tx_done 0).
Definition purge_rx_queue : M W unit := vput (fun s => put_rx_queue (k_msgq_purge (rx_queue s)) s).
Definition usp_stop : M W Z :=
  let* rc := stop_locked in
  clear_tx_done ;;; purge_rx_queue ;;; ret rc.
Definition usp_apply (next : rzi_lora_config) : M W Z :=
  rzi_usp_lock ;;; vput (put_p_config next) ;;; rzi_usp_unlock ;;; ret 0.
Definition usp_send (data : list Z) (size : Z) : M W Z :=
  rzi_usp_lock ;;;
  let* rc := leave_test_mode in
  let* busy := vget tx_busy in
  let rc := if (rc =? 0) && busy then - RZI_ERR_BUSY else rc in
  let* rc :=
    if rc =? 0 then
      vput (fun s => put_tx_buffer (overlay (tx_buffer s) 0 (take (Z.to_nat size) data)) s) ;;;
      let* rc := submit TX_ID true (u16 size) 0 in
      vput (put_tx_busy (rc =? 0)) ;;; ret rc
    else ret rc in
  rzi_usp_unlock ;;; ret rc.
Definition usp_receive (timeout_ms : Z) : M W Z :=
  rzi_usp_lock ;;;
  vput (put_p_rx_active false) ;;;
  rac_abort RX_ID ;;;
  if timeout_ms =? 0 then rzi_usp_unlock ;;; ret 0
  else
    let* rc := leave_test_mode in
    let* rc :=
      if rc =? 0 then
        let* now := gets (fun w => k_uptime_get (lbm_of w)) in
        vput (put_rx_window (timeout_ms =? RX_CONTINUOUS) (now + timeout_ms)) ;;;
        let* rc := submit_rx_window in
        vput (put_p_rx_active (rc =? 0)) ;;; ret rc
      else ret rc in
    rzi_usp_unlock ;;; ret rc.
(** The shape of the tests: enter the test mode, then a call of the modem. *)
Definition in_test_mode (call : rzi_lora_config -> smtc lbm) : M W Z :=
  rzi_usp_lock ;;;
  let* rc := enter_test_mode in
  let* rc := if rc =? 0 then let* c := vget p_config in usp_call (call c) else ret rc in
  rzi_usp_unlock ;;; ret rc.
Definition usp_test_rssi : M W Z :=
  in_test_mode (fun c => smtc_modem_test_rssi_lbt (frequency_hz c) 125000 100).
(** [*rssi_dbm] is [old] before the call. *)
Definition usp_test_get_rssi (old : Z) : M W (Z * Z) :=
  rzi_usp_lock ;;;
  let* testing := vget test_mode in
  let* '(rc, raw) := if testing then usp_read (smtc_modem_test_get_rssi 0) else ret (- RZI_ERR_NOT_READY, 0) in
  rzi_usp_unlock ;;;
  ret (rc, if rc =? 0 then raw - USP_TEST_RSSI_OFFSET else old).
Definition usp_test_cw (frequency_hz power_dbm duration_ms : Z) : M W Z :=
  in_test_mode (fun _ => smtc_modem_test_tx_cw frequency_hz power_dbm).
Definition usp_test_tone : M W Z :=
  rzi_usp_lock ;;;
  let* current := vget p_config in
  rzi_usp_unlock ;;;
  usp_test_cw (frequency_hz current) (tx_power_dbm current) 0.
Definition test_packet (c : rzi_lora_config) (packet_count : Z) : test_tx :=
  TestTx (replicate 16 0) 16 (frequency_hz c) (tx_power_dbm c) (spreading_factor c) (map_bandwidth (bandwidth c))
    (u32 (coding_rate c + 1)) (test_sync (sync_word c)) (iq_inverted c) true RAL_LORA_PKT_EXPLICIT
    (preamble_length c) packet_count 0.
Definition usp_test_tx (packet_count : Z) : M W Z :=
  in_test_mode (fun c => smtc_modem_test_tx_lora (test_packet c packet_count)).
Definition usp_test_rx (packet_count : Z) : M W Z := usp_receive RX_CONTINUOUS.
Definition usp_test_stop : M W Z :=
  rzi_usp_lock ;;;
  let* testing := vget test_mode in
  let* rc := if testing then usp_call (smtc_modem_test_nop true) else ret 0 in
  rzi_usp_unlock ;;; ret rc.

(** [atomic_cas(&tx_done, 1, 0)] *)
Definition take_tx_done : M W bool :=
  let* d := vget p_tx_done in
  if d =? 1 then vput (put_p_tx_done 0) ;;; ret true else ret false.
(** [k_msgq_get(&rx_queue, &packet, K_NO_WAIT)] *)
Definition take_packet : M W (option rx_packet) :=
  let* q := vget rx_queue in
  vput (put_rx_queue (k_msgq_get q).2) ;;; ret (k_msgq_get q).1.
Definition publish_packet (p : rx_packet) : M W unit :=
  rzi_lora_publish_rx (Some (rx_data p)) (rx_packet_size p) (rx_rssi_dbm p) (rx_snr_quarter_db p).
(** [while (k_msgq_get(...) == 0)] *)
Fixpoint poll_loop (fuel : nat) : M W unit :=
  match fuel with
  | O => ret tt
  | S fuel =>
      let* p := take_packet in
      match p with Some p => publish_packet p ;;; poll_loop fuel | None => ret tt end
  end.
Definition poll_tx_done : M W unit :=
  let* taken := take_tx_done in
  if taken then let* error := vget p_tx_error in rzi_lora_publish_tx_done error else ret tt.
Definition usp_poll : M W unit := poll_tx_done ;;; poll_loop 256.

(** [rzi_lora_backend] *)
Definition usp_lora_env : LoraEnv W := {|
  lora_of := @lora_of W app; set_lora := @set_lora W app;
  b_start := Some usp_start; b_stop := Some usp_stop; b_apply_config := Some usp_apply;
  b_send := Some usp_send; b_receive := Some usp_receive;
  b_test_rssi := Some usp_test_rssi; b_test_get_rssi := Some usp_test_get_rssi;
  b_test_tone := Some usp_test_tone; b_test_tx := Some usp_test_tx; b_test_rx := Some usp_test_rx;
  b_test_cw := Some usp_test_cw; b_test_stop := Some usp_test_stop; b_poll := Some usp_poll;
  run_tx_done := @run_tx_done W app; run_rx_done := @run_rx_done W app;
|}.
End backend.
