(* ===== verification/UspLoraSteps.v ===== *)
(** * The USP LoRa backend as a transition system

    The backend's operations and the controller's callbacks run under the
    engine lock, so each is one step (for the two stores of [on_tx_done], which
    poll can see one without the other, [poll_within_completion] justifies it); [usp_stop] and [usp_poll] also act
    outside it, through two atomic variables and a message queue, so each such
    access is a step of its own and anything may come in between.  The
    specification sees the uplink in flight, the one-place mailbox in which a
    completion waits for poll, the test mode and the reception. *)
From S2P Require Import Prelude Zephyr Err Lora Usp UspLora.

(** The variables of the file, the modem, the engine's variables and those of
    the service are apart. *)
Class UspLoraOk `{Zephyr} `{Lbm} `{!UspEnv W} `{!LoraEnv W} `{!UspLoraEnv W} : Prop := {
  p2p_of_set v w : p2p_of (set_p2p v w) = v;
  p2p_of_lbm l w : p2p_of (set_lbm l w) = p2p_of w;
  p2p_of_platform p w : p2p_of (set_platform p w) = p2p_of w;
  lbm_of_p2p v w : lbm_of (set_p2p v w) = lbm_of w;
  platform_of_p2p v w : platform_of (set_p2p v w) = platform_of w;
  lora_of_p2p v w : lora_of (set_p2p v w) = lora_of w;
  lora_of_lbm l w : lora_of (set_lbm l w) = lora_of w;
  lora_of_platform p w : lora_of (set_platform p w) = lora_of w;
  p2p_of_lora v w : p2p_of (set_lora v w) = p2p_of w;
}.

(** ** The specification *)
Inductive p2p_item : Type :=
| PAccept | PEnd (error : Z) | PTaken | PReport (error : Z) | PClear | PStopped.
Record pcore : Type := PCore {
  c_busy : bool; c_done : Z; c_error : Z; c_test : bool; c_listen : bool;
}.
Definition pcore_boot : pcore := PCore false 0 0 false false.
Inductive pmove : pcore -> list p2p_item -> pcore -> Prop :=
| p_accept d e : pmove (PCore false d e false false) [PAccept] (PCore true d e false false)
| p_accept_listen d e : pmove (PCore false d e false true) [PAccept] (PCore true d e false true)
| p_end b d e e' t r : pmove (PCore b d e t r) [PEnd e'] (PCore false 1 e' t r)
| p_take b e t r : pmove (PCore b 1 e t r) [PTaken] (PCore b 0 e t r)
| p_report b d e t r : pmove (PCore b d e t r) [PReport e] (PCore b d e t r)
| p_clear b d e t r : pmove (PCore b d e t r) [PClear] (PCore b 0 e t r)
| p_stopped b d e t r : pmove (PCore b d e t r) [PStopped] (PCore false d e t r)
| p_listen b d e r : pmove (PCore b d e false r) [] (PCore b d e false true)
| p_quiet b d e t r : pmove (PCore b d e t r) [] (PCore b d e t false)
| p_test b d e : pmove (PCore b d e false false) [] (PCore b d e true false)
| p_leave b d e t r : pmove (PCore b d e t r) [] (PCore b d e false r).
Inductive pmoves : pcore -> list p2p_item -> pcore -> Prop :=
| pmoves_nil c : pmoves c [] c
| pmoves_cons c1 l1 c2 l2 c3 : pmove c1 l1 c2 -> pmoves c2 l2 c3 -> pmoves c1 (l1 ++ l2) c3.
Lemma pmoves_one c l c' : pmove c l c' -> pmoves c l c'.
Proof. intros Hm. rewrite <- (app_nil_r l). by eapply pmoves_cons, pmoves_nil. Qed.
Lemma pmoves_app c1 l1 c2 l2 c3 : pmoves c1 l1 c2 -> pmoves c2 l2 c3 -> pmoves c1 (l1 ++ l2) c3.
Proof. induction 1; intros Hr; [done|]. rewrite <- app_assoc. eapply pmoves_cons; eauto. Qed.
Definition is_end (i : p2p_item) : Prop := match i with PEnd _ => True | _ => False end.

(** Flights of uplinks: one at a time, each over with its completion or a stop. *)
Fixpoint flights (busy : bool) (log : list p2p_item) : option bool :=
  match log with
  | [] => Some busy
  | PAccept :: log => if busy then None else flights true log
  | PEnd _ :: log | PStopped :: log => flights false log
  | _ :: log => flights busy log
  end.
(** The mailbox: a completion fills it, overwriting; poll takes it, and reports
    the error it then finds. *)
Fixpoint mailbox (full : bool) (error : Z) (log : list p2p_item) : option (bool * Z) :=
  match log with
  | [] => Some (full, error)
  | PEnd e :: log => mailbox true e log
  | PTaken :: log => if full then mailbox false error log else None
  | PReport e :: log => if e =? error then mailbox full error log else None
  | PClear :: log => mailbox false error log
  | _ :: log => mailbox full error log
  end.
Lemma flights_app b l1 l2 : flights b (l1 ++ l2) = b' ← flights b l1; flights b' l2.
Proof. revert b. induction l1 as [|[] l IH]; intros b; cbn; auto. by destruct b. Qed.
Lemma mailbox_app f e l1 l2 :
  mailbox f e (l1 ++ l2) = p ← mailbox f e l1; mailbox p.1 p.2 l2.
Proof.
  revert f e. induction l1 as [|[] l IH]; intros f e; cbn; auto; [by destruct f|by destruct (_ =? _)].
Qed.
(** In the mailbox's log nothing is reported that was not completed, and a
    completion at most once. *)
Definition count (P : p2p_item -> bool) (log : list p2p_item) : Z := zlen (List.filter P log).
Definition is_PEnd (i : p2p_item) : bool := match i with PEnd _ => true | _ => false end.
Definition is_PTaken (i : p2p_item) : bool := match i with PTaken => true | _ => false end.
Lemma count_app P l1 l2 : count P (l1 ++ l2) = count P l1 + count P l2.
Proof. unfold count. by rewrite List.filter_app, zlen_app. Qed.
Lemma mailbox_counts log f e f' e' : mailbox f e log = Some (f', e') ->
  count is_PTaken log + b2z f' <= count is_PEnd log + b2z f.
Proof.
  revert f e. induction log as [|i log IH]; intros f e Hm; [by simplify_eq/=|].
  change (i :: log) with ([i] ++ log). rewrite !count_app.
  assert (Hf : 0 <= b2z f <= 1) by (destruct f; cbn; lia).
  destruct i as [|e1| |e1| |]; cbn in Hm; [| |destruct f; [|done]|destruct (e1 =? e); [|done]| |];
    specialize (IH _ _ Hm); unfold count, zlen in *; cbn [List.filter is_PTaken is_PEnd length b2z] in *; lia.
Qed.

Section steps.
Context `{Zephyr} `{Lbm} `{!Rac} `{!UspEnv W} `{!LoraEnv W} `{!UspLoraEnv W} `{!UspLoraOk} `{!UspEnvOk}.

Definition core_of (w : W) : pcore :=
  let s := p2p_of w in PCore (tx_busy s) (p_tx_done s) (p_tx_error s) (test_mode s) (rx_active s).

(** ** What the pieces leave alone *)
Lemma modem_p2p {A} (m : M lbm A) : keeps p2p_of (modem m).
Proof. intros w. unfold same. rewrite modem_eq. apply p2p_of_lbm. Qed.
Lemma lock_p2p : keeps p2p_of rzi_usp_lock.
Proof. intros w. apply p2p_of_platform. Qed.
Lemma unlock_p2p : keeps p2p_of rzi_usp_unlock.
Proof. intros w. unfold same, rzi_usp_unlock. rewrite bind_eq, modem_p2p. apply p2p_of_platform. Qed.
#[local] Hint Resolve modem_p2p lock_p2p unlock_p2p : frame.
Lemma usp_call_p2p m : keeps p2p_of (usp_call m). Proof. unfold usp_call. frame. Qed.
Lemma usp_read_p2p {A} (m : smtc_out lbm A) : keeps p2p_of (usp_read m). Proof. unfold usp_read. frame. Qed.
Lemma vget_keeps {A X} (obs : W -> X) (f : p2p_vars -> A) : keeps obs (vget f). Proof. by intros w. Qed.
#[local] Hint Resolve usp_call_p2p usp_read_p2p vget_keeps : frame.
Lemma submit_p2p id t n ms : keeps p2p_of (submit id t n ms).
Proof. unfold submit, update_context. frame. Qed.
#[local] Hint Resolve submit_p2p : frame.
Lemma submit_window_p2p : keeps p2p_of submit_rx_window.
Proof. unfold submit_rx_window. frame. Qed.
Lemma pput_p2p f : keeps p2p_of (pput f). Proof. intros w. apply p2p_of_platform. Qed.
#[local] Hint Resolve pput_p2p : frame.
Lemma init_p2p : keeps p2p_of rzi_usp_init. Proof. unfold rzi_usp_init, pget. frame. Qed.
#[local] Hint Resolve submit_window_p2p init_p2p : frame.

(** ** Drifting: moves of the specification that only complete uplinks *)
Definition pdrift (w w' : W) : Prop := exists l, Forall is_end l /\ pmoves (core_of w) l (core_of w').
#[local] Instance pdrift_preorder : PreOrder pdrift.
Proof.
  split; [intros w; exists []; split; [done|constructor]|].
  intros w1 w2 w3 (l1&H1l&H1m) (l2&H2l&H2m). exists (l1 ++ l2).
  split; [by apply Forall_app|by eapply pmoves_app].
Qed.
#[local] Hint Resolve pdrift_preorder : frame.
Abbreviation drifts m := (respects pdrift m).
Lemma core_drift w w' : core_of w' = core_of w -> pdrift w w'.
Proof. intros Hc. exists []. rewrite Hc. split; [done|constructor]. Qed.
Lemma keeps_drifts {A} (m : M W A) : keeps p2p_of m -> drifts m.
Proof. intros Hm w. apply core_drift. unfold core_of. by rewrite Hm. Qed.
Lemma vput_drifts f : (forall s w, p2p_of w = s -> pmove (core_of w) []
    (PCore (tx_busy (f s)) (p_tx_done (f s)) (p_tx_error (f s)) (test_mode (f s)) (rx_active (f s))))
  -> drifts (vput f).
Proof.
  intros Hf w. exists []. split; [done|]. apply pmoves_one. specialize (Hf _ w eq_refl).
  unfold core_of at 2. cbn. by rewrite p2p_of_set.
Qed.
Lemma vput_same f : (forall s, tx_busy (f s) = tx_busy s /\ p_tx_done (f s) = p_tx_done s /\
    p_tx_error (f s) = p_tx_error s /\ test_mode (f s) = test_mode s /\ rx_active (f s) = rx_active s) ->
  drifts (vput f).
Proof.
  intros Hf w. apply core_drift. unfold core_of. cbn. rewrite p2p_of_set.
  by destruct (Hf (p2p_of w)) as (-> & -> & -> & -> & ->).
Qed.
Lemma quiet_drifts : drifts (vput (put_p_rx_active false)).
Proof. apply vput_drifts. intros s w <-. apply p_quiet. Qed.
Lemma leave_drifts : drifts (vput (put_test_mode false)).
Proof. apply vput_drifts. intros s w <-. apply p_leave. Qed.
#[local] Hint Resolve quiet_drifts leave_drifts : frame.
Lemma gets_drifts {A} (f : W -> A) : drifts (gets f). Proof. intros w. by apply core_drift. Qed.
Lemma vget_drifts {A} (f : p2p_vars -> A) : drifts (vget f). Proof. intros w. by apply core_drift. Qed.
Lemma on_tx_done_drifts st : drifts (on_tx_done st).
Proof.
  intros w. exists [PEnd (tx_status_error st)]. split; [by repeat constructor|]. apply pmoves_one.
  unfold on_tx_done. rewrite !bind_eq. unfold core_of. cbn. rewrite !p2p_of_set. apply p_end.
Qed.
#[local] Hint Resolve gets_drifts vget_drifts on_tx_done_drifts : frame.
Ltac drift := repeat first
  [ progress frame
  | apply keeps_drifts; solve [frame]
  | apply vput_same; intros []; by split_and! ].
Lemma on_rx_done_drifts st : drifts (on_rx_done st).
Proof.
  unfold on_rx_done.
  apply respects_bind; [apply _|frame|intros c]. apply respects_bind; [apply _| |intros _].
  - destruct (_ && _); [|frame]. apply respects_bind; [apply _|frame|intros b].
    apply vput_same. intros []. by split_and!.
  - apply respects_bind; [apply _|frame|intros a]. destruct (negb a); [frame|].
    apply respects_bind; [apply _|frame|intros k]. destruct (negb _); [frame|].
    apply respects_bind; [apply _|apply keeps_drifts; frame|intros rc]. frame.
Qed.
#[local] Hint Resolve on_rx_done_drifts : frame.
Lemma rac_abort_drifts id : drifts (rac_abort id).
Proof.
  unfold rac_abort. apply respects_bind; [apply _|apply keeps_drifts; frame|intros [rc [st|]]]; [|frame].
  apply respects_bind; [apply _|frame|intros cb]. unfold run_rac_callback. frame.
Qed.
#[local] Hint Resolve rac_abort_drifts : frame.
Lemma abort_drifts : drifts abort_p2p. Proof. unfold abort_p2p. frame. Qed.
Lemma leave_mode_drifts : drifts leave_test_mode.
Proof.
  unfold leave_test_mode, when_ok. apply respects_bind; [apply _|frame|intros t]. destruct (negb t); [frame|].
  apply respects_bind; [apply _|apply keeps_drifts; frame|intros rc]. frame.
Qed.
Lemma lock_drifts : drifts rzi_usp_lock. Proof. apply keeps_drifts. frame. Qed.
Lemma unlock_drifts : drifts rzi_usp_unlock. Proof. apply keeps_drifts. frame. Qed.
#[local] Hint Resolve abort_drifts leave_mode_drifts lock_drifts unlock_drifts : frame.

(** ** The calls *)
Inductive p2p_call : Type :=
| PStart (modulation : Z) | PHalt | PClearDone | PPurge | PApply (c : rzi_lora_config)
| PSend (data : list Z) (size : Z) | PReceive (timeout_ms : Z)
| PRssi | PGetRssi (old : Z) | PTone | PCw (frequency power duration : Z) | PTestTx (count : Z) | PTestStop
| PTake | PRead | PPacket | PTxCallback (status : rp_status_t) | PRxCallback (status : rp_status_t).
Definition run_call (c : p2p_call) : M W Z :=
  match c with
  | PStart m => usp_start m
  | PHalt => stop_locked
  | PClearDone => clear_tx_done ;;; ret 0
  | PPurge => purge_rx_queue ;;; ret 0
  | PApply c => usp_apply c
  | PSend d n => usp_send d n
  | PReceive t => usp_receive t
  | PRssi => usp_test_rssi
  | PGetRssi old => let* '(rc, _) := usp_test_get_rssi old in ret rc
  | PTone => usp_test_tone
  | PCw f p d => usp_test_cw f p d
  | PTestTx n => usp_test_tx n
  | PTestStop => usp_test_stop
  | PTake => let* b := take_tx_done in ret (b2z b)
  | PRead => vget p_tx_error
  | PPacket => take_packet ;;; ret 0
  | PTxCallback st => on_tx_done st ;;; ret 0
  | PRxCallback st => on_rx_done st ;;; ret 0
  end.
(** What a call with result [rc] may mean to the specification: a request is
    accepted when it answers 0; the calls that abort transactions may complete
    uplinks. *)
Definition says (c : p2p_call) (rc : Z) (l : list p2p_item) : Prop :=
  match c with
  | PSend _ _ => l = if rc =? 0 then [PAccept] else []
  | PTxCallback st => l = [PEnd (tx_status_error st)]
  | PTake => l = if rc =? 1 then [PTaken] else []
  | PRead => l = [PReport rc]
  | PClearDone => l = [PClear]
  | PHalt => exists ends, Forall is_end ends /\ l = ends ++ [PStopped]
  | PReceive _ | PRssi | PTone | PCw _ _ _ | PTestTx _ => Forall is_end l
  | _ => l = []
  end.
Definition refines_call (c : p2p_call) (w : W) : Prop :=
  exists l, says c (run_call c w).1 l /\ pmoves (core_of w) l (core_of (run_call c w).2).

Lemma core_refines c w l : says c (run_call c w).1 l -> pmoves (core_of w) l (core_of (run_call c w).2) ->
  refines_call c w.
Proof. by exists l. Qed.
Lemma keeps_core {A} (m : M W A) : keeps p2p_of m -> keeps core_of m.
Proof. intros Hm w. unfold same, core_of. by rewrite Hm. Qed.
Lemma put_same_core f : (forall s, tx_busy (f s) = tx_busy s /\ p_tx_done (f s) = p_tx_done s /\
    p_tx_error (f s) = p_tx_error s /\ test_mode (f s) = test_mode s /\ rx_active (f s) = rx_active s) ->
  keeps core_of (vput f).
Proof.
  intros Hf w. unfold same, core_of. cbn. rewrite p2p_of_set.
  by destruct (Hf (p2p_of w)) as (-> & -> & -> & -> & ->).
Qed.
Lemma update_context_p2p id f : keeps p2p_of (update_context id f). Proof. unfold update_context. frame. Qed.
#[local] Hint Resolve update_context_p2p : frame.
(** Calls the specification does not see. *)
Ltac core_frame := repeat first
  [ progress frame
  | apply keeps_core; solve [frame]
  | apply put_same_core; intros []; by split_and! ].
Lemma open_core : keeps core_of open_radio.
Proof. unfold open_radio. core_frame. Qed.
#[local] Hint Resolve open_core : frame.
Lemma start_core m : keeps core_of (usp_start m).
Proof. unfold usp_start, when_ok. core_frame. Qed.
Lemma apply_core c : keeps core_of (usp_apply c). Proof. unfold usp_apply. core_frame. Qed.
Lemma get_rssi_core v : keeps core_of (usp_test_get_rssi v). Proof. unfold usp_test_get_rssi. core_frame. Qed.
Lemma test_stop_core : keeps core_of usp_test_stop. Proof. unfold usp_test_stop. core_frame. Qed.
Lemma purge_core : keeps core_of purge_rx_queue. Proof. unfold purge_rx_queue. core_frame. Qed.
Lemma take_packet_core : keeps core_of take_packet. Proof. unfold take_packet. core_frame. Qed.
Lemma silent_refines c w : (forall rc, says c rc []) -> keeps core_of (run_call c) -> refines_call c w.
Proof. intros Hs Hk. exists []. split; [apply Hs|]. rewrite (Hk w). constructor. Qed.

(** *** The test mode *)
Lemma leave_mode_run w : test_mode (p2p_of w) = false -> leave_test_mode w = (0, w).
Proof. intros Ht. unfold leave_test_mode. rewrite bind_eq. cbn. by rewrite Ht. Qed.
Lemma leave_mode_off w : (leave_test_mode w).1 = 0 -> test_mode (p2p_of (leave_test_mode w).2) = false.
Proof.
  unfold leave_test_mode. rewrite bind_eq. cbn [vget gets fst snd].
  destruct (test_mode (p2p_of w)) eqn:Et; cbn [negb]; [|done].
  rewrite !bind_eq. destruct (usp_call smtc_modem_test_stop w) as [rc w1]. cbn [fst snd ret].
  intros ->. cbn. by rewrite p2p_of_set.
Qed.
Definition listens (w : W) : bool := rx_active (p2p_of w).
Lemma off_stays_off {A} (m : M W A) : keeps p2p_of m -> preserves (fun w => listens w = false) m.
Proof. intros Hm w Hw. unfold listens. by rewrite Hm. Qed.
Lemma vput_off f : (forall s, rx_active s = false -> rx_active (f s) = false) ->
  preserves (fun w => listens w = false) (vput f).
Proof. intros Hf w Hw. unfold listens. cbn. rewrite p2p_of_set. by apply Hf. Qed.
Lemma rx_done_off st : preserves (fun w => listens w = false) (on_rx_done st).
Proof.
  unfold on_rx_done. apply preserves_bind; [by apply off_stays_off, gets_keeps || by intros w|intros c].
  apply preserves_bind; [destruct (_ && _)|intros _].
  - apply preserves_bind; [by intros w|intros b]. by apply vput_off.
  - by intros w.
  - intros w Hw. rewrite bind_eq. cbn. unfold listens in Hw. by rewrite Hw.
Qed.
Lemma tx_done_off st : preserves (fun w => listens w = false) (on_tx_done st).
Proof. intros w Hw. unfold on_tx_done, listens in *. rewrite !bind_eq. cbn. by rewrite !p2p_of_set. Qed.
Lemma rac_abort_off id : preserves (fun w => listens w = false) (rac_abort id).
Proof.
  unfold rac_abort. apply preserves_bind; [apply off_stays_off; frame|intros [rc [st|]]]; [|by intros w].
  apply preserves_bind; [by intros w|intros [[]|]]; [apply tx_done_off|apply rx_done_off|by intros w].
Qed.
Lemma abort_off w : listens (abort_p2p w).2 = false.
Proof.
  unfold abort_p2p. rewrite bind_eq. set (w1 := (vput _ w).2).
  assert (Hw1 : listens w1 = false) by (unfold listens, w1; cbn; by rewrite p2p_of_set). clearbody w1.
  enough (Hp : preserves (fun w => listens w = false)
    (let* is_open := vget opened in if is_open then rac_abort RX_ID ;;; rac_abort TX_ID else ret tt))
    by exact (Hp w1 Hw1).
  apply preserves_bind; [by intros ?|intros [|]]; [|by intros ?].
  apply preserves_bind; [apply rac_abort_off|intros _; apply rac_abort_off].
Qed.
Lemma enter_mode_drifts : drifts enter_test_mode.
Proof.
  intros w. unfold enter_test_mode. rewrite bind_eq. cbn [vget gets fst snd].
  destruct (test_mode (p2p_of w)) eqn:Et; [by apply core_drift|].
  rewrite !bind_eq. pose proof (abort_drifts w) as Hd. pose proof (abort_off w) as Hoff.
  destruct (abort_p2p w) as [u w1]. cbn [fst snd] in *.
  pose proof (usp_call_p2p smtc_modem_test_start w1) as Hc. unfold same in Hc.
  destruct (usp_call smtc_modem_test_start w1) as [rc w2]. cbn [fst snd ret] in *. etransitivity; [done|].
  unfold listens in Hoff. unfold when_ok. rewrite ?bind_eq.
  destruct (rc =? 0); [|apply core_drift; unfold core_of; cbn; by rewrite Hc].
  exists []. split; [done|].
  unfold core_of. cbn. rewrite p2p_of_set, Hc. cbn. rewrite Hoff.
  destruct (test_mode (p2p_of w1)); [constructor|apply pmoves_one, p_test].
Qed.

(** *** Requests *)
Abbreviation unlocked w := (rzi_usp_unlock w).2.
Definition fill_buffer (data : list Z) (size : Z) (w : W) : W :=
  set_p2p (put_tx_buffer (overlay (tx_buffer (p2p_of w)) 0 (take (Z.to_nat size) data)) (p2p_of w)) w.
Lemma send_eq data size w : usp_send data size w =
  let r := leave_test_mode (rzi_usp_lock w).2 in
  if negb (r.1 =? 0) then (r.1, unlocked r.2)
  else if tx_busy (p2p_of r.2) then (- RZI_ERR_BUSY, unlocked r.2)
  else
    let q := submit TX_ID true (u16 size) 0 (fill_buffer data size r.2) in
    (q.1, unlocked (set_p2p (put_tx_busy (q.1 =? 0) (p2p_of q.2)) q.2)).
Proof.
  unfold usp_send. rewrite !bind_eq. destruct (leave_test_mode _) as [rc w1]. cbn [fst snd vget gets].
  destruct (Z.eqb_spec rc 0) as [->|Hrc]; cbn [negb andb].
  - destruct (tx_busy (p2p_of w1)); cbn [Z.eqb Z.opp]; rewrite ?bind_eq; done.
  - destruct (Z.eqb_spec rc 0); [done|]. rewrite ?bind_eq. done.
Qed.
Lemma receive_eq t w : usp_receive t w =
  let w1 := (rac_abort RX_ID (vput (put_p_rx_active false) (rzi_usp_lock w).2).2).2 in
  if t =? 0 then (0, unlocked w1)
  else
    let r := leave_test_mode w1 in
    if negb (r.1 =? 0) then (r.1, unlocked r.2)
    else
      let w2 := set_p2p (put_rx_window (t =? RX_CONTINUOUS) (k_uptime_get (lbm_of r.2) + t) (p2p_of r.2)) r.2 in
      let q := submit_rx_window w2 in
      (q.1, unlocked (set_p2p (put_p_rx_active (q.1 =? 0) (p2p_of q.2)) q.2)).
Proof.
  unfold usp_receive. do 3 rewrite bind_eq. destruct (rac_abort RX_ID _) as [u w1]. cbn [fst snd].
  destruct (t =? 0); [by rewrite bind_eq|]. rewrite bind_eq. destruct (leave_test_mode w1) as [rc w2].
  cbn [fst snd]. destruct (rc =? 0); cbn [negb]; rewrite ?bind_eq; done.
Qed.
Lemma submitted_core id t n ms w : core_of (submit id t n ms w).2 = core_of w.
Proof. apply (keeps_core _ (submit_p2p id t n ms)). Qed.
Lemma unlocked_core w : core_of (unlocked w) = core_of w.
Proof. apply (keeps_core _ unlock_p2p). Qed.
Lemma leave_mode_core w : core_of (leave_test_mode w).2 =
  if bool_decide ((leave_test_mode w).1 = 0)
  then PCore (tx_busy (p2p_of w)) (p_tx_done (p2p_of w)) (p_tx_error (p2p_of w)) false (rx_active (p2p_of w))
  else core_of w.
Proof.
  destruct (test_mode (p2p_of w)) eqn:Et.
  - unfold leave_test_mode. rewrite bind_eq. cbn [vget gets fst snd]. rewrite Et. cbn [negb]. rewrite !bind_eq.
    pose proof (usp_call_p2p smtc_modem_test_stop w) as Hc. unfold same in Hc.
    destruct (usp_call _ w) as [rc w1]. cbn [fst snd ret] in *. unfold when_ok.
    destruct (Z.eqb_spec rc 0) as [->|Hne]; cbn.
    + unfold core_of. by rewrite p2p_of_set, Hc.
    + rewrite bool_decide_eq_false_2 by done. unfold core_of. by rewrite Hc.
  - rewrite leave_mode_run by done. cbn. unfold core_of. by rewrite Et.
Qed.
Lemma locked_core w : core_of (rzi_usp_lock w).2 = core_of w.
Proof. apply (keeps_core _ lock_p2p). Qed.
Lemma send_refines data size w : refines_call (PSend data size) w.
Proof.
  unfold refines_call. cbn [says run_call]. rewrite send_eq.
  pose proof (leave_mode_core (rzi_usp_lock w).2) as Hl. pose proof (leave_mode_drifts (rzi_usp_lock w).2) as Hd.
  destruct (leave_test_mode _) as [rc w1]. cbn [fst snd] in *. rewrite lock_p2p in Hl.
  assert (Hleave : pmoves (core_of w) [] (core_of w1)).
  { rewrite Hl. case_bool_decide; [apply pmoves_one; unfold core_of; apply p_leave|].
    rewrite locked_core. constructor. }
  destruct (Z.eqb_spec rc 0) as [->|Hrc]; cbn [negb].
  2: { cbn [fst snd]. destruct (Z.eqb_spec rc 0); [done|]. exists []. split; [done|]. by rewrite unlocked_core. }
  destruct (tx_busy (p2p_of w1)) eqn:Eb; cbn [fst snd].
  { exists []. split; [done|]. by rewrite unlocked_core. }
  set (w2 := fill_buffer data size w1).
  assert (Hc2 : core_of w2 = core_of w1) by (unfold w2, fill_buffer, core_of; by rewrite p2p_of_set).
  pose proof (submitted_core TX_ID true (u16 size) 0 w2) as Hs.
  destruct (submit TX_ID true (u16 size) 0 w2) as [rc w3]. cbn [fst snd] in *. rewrite unlocked_core.
  eexists. split; [done|]. eapply (pmoves_app _ []); [exact Hleave|].
  rewrite bool_decide_eq_true_2 in Hl by done. rewrite Hc2, Hl in Hs.
  unfold core_of at 2. rewrite p2p_of_set. cbn. unfold core_of in Hs. injection Hs as Hb -> -> -> ->.
  rewrite Hl. unfold core_of in Hl. injection Hl as Hb' _ _ _ _. rewrite Eb in Hb'. rewrite <- Hb'.
  destruct (rc =? 0); [|constructor]. destruct (rx_active (p2p_of w)); apply pmoves_one; constructor.
Qed.
Lemma receive_drifts t : drifts (usp_receive t).
Proof.
  intros w. rewrite receive_eq. cbn zeta.
  pose proof (lock_drifts w) as Hl. set (w0 := (rzi_usp_lock w).2) in *.
  pose proof (quiet_drifts w0) as Hq. set (w1 := (vput (put_p_rx_active false) w0).2) in *.
  pose proof (rac_abort_drifts RX_ID w1) as Ha. set (w2 := (rac_abort RX_ID w1).2) in *.
  assert (H2w : pdrift w w2) by (etransitivity; [exact Hl|]; etransitivity; [exact Hq|exact Ha]).
  clearbody w2. clear Hl Hq Ha. clearbody w1 w0.
  assert (Hu : forall v, pdrift v (unlocked v)) by (intros v; apply unlock_drifts).
  destruct (t =? 0); [cbn; etransitivity; [exact H2w|apply Hu]|].
  pose proof (leave_mode_drifts w2) as Hd. pose proof (leave_mode_off w2) as Hoff.
  destruct (leave_test_mode w2) as [rc w3]. cbn [fst snd] in *.
  assert (H3w : pdrift w w3) by (etransitivity; [exact H2w|exact Hd]).
  destruct (Z.eqb_spec rc 0) as [->|Hrc]; cbn [negb snd]; [|etransitivity; [exact H3w|apply Hu]].
  specialize (Hoff eq_refl). set (w4 := set_p2p _ w3).
  assert (H4w : core_of w4 = core_of w3) by (unfold w4, core_of; by rewrite p2p_of_set).
  pose proof (keeps_core _ submit_window_p2p w4) as Hs. unfold same in Hs. rewrite H4w in Hs.
  destruct (submit_rx_window w4) as [rc w5]. cbn [fst snd] in *.
  etransitivity; [exact H3w|]. etransitivity; [apply core_drift, Hs|]. etransitivity; [|apply Hu].
  rewrite <- Hs in H4w. exists []. split; [done|]. apply pmoves_one.
  unfold core_of in *. rewrite p2p_of_set. cbn. injection Hs as _ _ _ Ht _. rewrite Ht, Hoff.
  destruct (rc =? 0); constructor.
Qed.
Lemma test_drifts call : drifts (in_test_mode call).
Proof.
  unfold in_test_mode. apply respects_bind; [apply _|apply lock_drifts|intros _].
  apply respects_bind; [apply _|apply enter_mode_drifts|intros rc].
  apply respects_bind; [apply _| |intros rc2; frame]. destruct (rc =? 0); [|frame].
  apply respects_bind; [apply _|frame|intros c]. apply keeps_drifts. frame.
Qed.
Lemma tone_drifts : drifts usp_test_tone.
Proof. unfold usp_test_tone. frame. apply test_drifts. Qed.
Lemma halt_eq w : stop_locked w =
  let w1 := (abort_p2p (rzi_usp_lock w).2).2 in
  let r := leave_test_mode (set_p2p (put_tx_busy false (p2p_of w1)) w1) in (r.1, unlocked r.2).
Proof.
  unfold stop_locked. do 2 rewrite bind_eq. destruct (abort_p2p _) as [u w1]. cbn [fst snd].
  do 2 rewrite bind_eq. cbn [vput modify fst snd]. destruct (leave_test_mode _) as [rc w2].
  cbn [fst snd]. by rewrite bind_eq.
Qed.
Lemma halt_refines w : refines_call PHalt w.
Proof.
  unfold refines_call. cbn [says run_call]. rewrite halt_eq. cbn [fst snd]. rewrite unlocked_core.
  destruct (lock_drifts w) as (l0&H0l&H0m). destruct (abort_drifts (rzi_usp_lock w).2) as (l1&H1l&H1m).
  set (w1 := (abort_p2p _).2) in *. set (w2 := set_p2p _ w1).
  assert (Hs : pmoves (core_of w1) [PStopped] (core_of w2)).
  { apply pmoves_one. unfold w2. unfold core_of at 2. rewrite p2p_of_set. apply p_stopped. }
  assert (H2m : pmoves (core_of w2) [] (core_of (leave_test_mode w2).2)).
  { rewrite leave_mode_core. case_bool_decide; [apply pmoves_one; unfold core_of; apply p_leave|constructor]. }
  exists ((l0 ++ l1) ++ [PStopped]). split; [exists (l0 ++ l1); split; [by apply Forall_app|done]|].
  eapply pmoves_app; [by eapply pmoves_app|]. change [PStopped] with ([PStopped] ++ @nil p2p_item).
  by eapply pmoves_app.
Qed.
Lemma take_refines w : refines_call PTake w.
Proof.
  unfold refines_call. cbn [says run_call]. rewrite bind_eq. unfold take_tx_done. rewrite bind_eq.
  cbn [vget gets fst snd]. destruct (Z.eqb_spec (p_tx_done (p2p_of w)) 1) as [Hd|]; cbn.
  - exists [PTaken]. split; [done|]. apply pmoves_one. unfold core_of. rewrite p2p_of_set, Hd. apply p_take.
  - exists []. split; [done|constructor].
Qed.
Definition unheard (w : W) : bool * Z * Z * bool :=
  let s := p2p_of w in (tx_busy s, p_tx_done s, p_tx_error s, test_mode s).
Lemma rx_done_unheard st : keeps unheard (on_rx_done st).
Proof.
  assert (Hk : forall A (m : M W A), keeps p2p_of m -> keeps unheard m).
  { intros A m Hm w. unfold same, unheard. by rewrite Hm. }
  assert (Hv : forall f, (forall s, tx_busy (f s) = tx_busy s /\ p_tx_done (f s) = p_tx_done s /\
    p_tx_error (f s) = p_tx_error s /\ test_mode (f s) = test_mode s) -> keeps unheard (vput f)).
  { intros f Hf w. unfold same, unheard. cbn. rewrite p2p_of_set.
    by destruct (Hf (p2p_of w)) as (-> & -> & -> & ->). }
  unfold on_rx_done.
  repeat first [progress frame|apply Hk; solve [frame]|apply Hv; intros []; by split_and!].
Qed.
Lemma rx_callback_refines st w : refines_call (PRxCallback st) w.
Proof.
  exists []. split; [done|]. cbn [run_call]. rewrite bind_eq. cbn [ret snd].
  pose proof (rx_done_unheard st w) as Hu. pose proof (rx_done_off st w) as Hoff.
  destruct (on_rx_done st w) as [u w1]. cbn [snd] in *. unfold same, unheard in Hu. injection Hu as Hb Hd He Ht.
  unfold listens in Hoff. unfold core_of. rewrite Hb, Hd, He, Ht.
  destruct (rx_active (p2p_of w1)) eqn:E1, (rx_active (p2p_of w)) eqn:E; try constructor.
  - discriminate (Hoff eq_refl).
  - apply pmoves_one, p_quiet.
Qed.
(** Every call means what it may mean. *)
Lemma call_refines c w : refines_call c w.
Proof.
  assert (Hdrift : forall (m : M W Z), drifts m -> exists l, Forall is_end l /\
    pmoves (core_of w) l (core_of (m w).2)) by (intros m Hm; apply (Hm w)).
  destruct c; try apply rx_callback_refines; try (apply silent_refines; [done|cbn [run_call]]);
    try (apply Hdrift; cbn [run_call]).
  - apply start_core.
  - apply halt_refines.
  - exists [PClear]. split; [done|]. apply pmoves_one. unfold core_of. cbn. rewrite p2p_of_set. apply p_clear.
  - apply respects_bind; [apply _|apply purge_core|intros _; frame].
  - apply apply_core.
  - apply send_refines.
  - apply receive_drifts.
  - apply test_drifts.
  - apply respects_bind; [apply _|apply get_rssi_core|intros [??]; frame].
  - apply tone_drifts.
  - apply test_drifts.
  - apply test_drifts.
  - apply test_stop_core.
  - apply take_refines.
  - exists [PReport (p_tx_error (p2p_of w))]. split; [done|]. apply pmoves_one. unfold core_of. cbn. apply p_report.
  - apply respects_bind; [apply _|apply take_packet_core|intros _; frame].
  - exists [PEnd (tx_status_error status)]. split; [done|]. apply pmoves_one.
    unfold on_tx_done. cbn [run_call]. rewrite !bind_eq. unfold core_of. cbn. rewrite !p2p_of_set. apply p_end.
Qed.

(** ** A completion in two halves *)
(** [on_tx_done] stores the error and then raises the flag, and poll looks at
    both without the lock, so it can come in between.  What it then does is what
    it does beside the completion taken as one step: its test of the flag slips
    before the completion, its reading of the error slips behind it. *)
Definition tx_error_half (status : rp_status_t) : M W unit :=
  vput (put_tx_busy false) ;;; vput (put_p_tx_error (tx_status_error status)).
Definition tx_done_half : M W unit := vput (put_p_tx_done 1).
Lemma tx_done_halves st w : on_tx_done st w = (tx_error_half st ;;; tx_done_half) w.
Proof. unfold on_tx_done, tx_error_half, tx_done_half. by rewrite !bind_eq. Qed.
Lemma poll_within_completion st w :
  let between (c : p2p_call) : Z * W := (tx_error_half st ;;; let* r := run_call c in tx_done_half ;;; ret r) w in
  (let before := (let* r := run_call PTake in on_tx_done st ;;; ret r) w in
   (between PTake).1 = before.1 /\ p2p_of (between PTake).2 = p2p_of before.2) /\
  (let behind := (on_tx_done st ;;; run_call PRead) w in
   (between PRead).1 = behind.1 /\ p2p_of (between PRead).2 = p2p_of behind.2).
Proof.
  cbn zeta. unfold tx_error_half, tx_done_half, on_tx_done. cbn [run_call]. unfold take_tx_done, vget, vput, ret, gets, modify.
  split; unfold bind; cbn; rewrite ?p2p_of_set; [|done].
  cbn. destruct (p_tx_done (p2p_of w) =? 1); cbn; rewrite !p2p_of_set; by destruct (p2p_of w).
Qed.

(** ** Executions *)
(** What other code may do: nothing the file holds, but for the receive buffer,
    which the radio fills, and nothing about the lock. *)
Definition outside (w w' : W) : Prop :=
  core_of w' = core_of w /\ tx_buffer (p2p_of w') = tx_buffer (p2p_of w) /\ depth_of w' = depth_of w.
Inductive p2p_run : W -> list (p2p_call * Z) -> W -> Prop :=
| p2p_nil w : p2p_run w [] w
| p2p_calls c w h w' : p2p_run (run_call c w).2 h w' -> p2p_run w ((c, (run_call c w).1) :: h) w'
| p2p_outside w w1 h w' : outside w w1 -> p2p_run w1 h w' -> p2p_run w h w'.
(** A log that says of each call what it may say. *)
Inductive log_of : list (p2p_call * Z) -> list p2p_item -> Prop :=
| log_nil : log_of [] []
| log_cons c rc l h log : says c rc l -> log_of h log -> log_of ((c, rc) :: h) (l ++ log).
Lemma run_refines w h w' : p2p_run w h w' -> exists log, log_of h log /\ pmoves (core_of w) log (core_of w').
Proof.
  induction 1 as [w|c w h w' _ (log&Hl&Hm)|w w1 h w' (Hc&_) _ (log&Hl&Hm)].
  - exists []. split; constructor.
  - destruct (call_refines c w) as (l&Hs&Hm1). exists (l ++ log). split; [by constructor|by eapply pmoves_app].
  - exists log. split; [done|]. by rewrite <- Hc.
Qed.
Definition p2p_booted (w : W) : Prop := (exists q, p2p_of w = p2p_init q) /\ depth_of w = 0.
Lemma booted_core w : p2p_booted w -> core_of w = pcore_boot.
Proof. intros [[q Hq] _]. unfold core_of. by rewrite Hq. Qed.
(** C14: Every execution of the backend - any calls, callbacks and accesses of poll
    and stop, in any order, over any radio - is an execution of the
    specification, whose log says of each call what the call's result means. *)
Theorem p2p_refines_spec w h w' : p2p_booted w -> p2p_run w h w' ->
  exists log, log_of h log /\ pmoves pcore_boot log (core_of w').
Proof. intros Hb Hr. rewrite <- (booted_core w Hb). by apply run_refines. Qed.

(** ** What follows *)
Lemma pmove_accounts c l c' : pmove c l c' -> flights (c_busy c) l = Some (c_busy c') /\
  mailbox (c_done c =? 1) (c_error c) l = Some (c_done c' =? 1, c_error c').
Proof. destruct 1; cbn; rewrite ?Z.eqb_refl; try done. Qed.
Lemma pmoves_account c l c' : pmoves c l c' -> flights (c_busy c) l = Some (c_busy c') /\
  mailbox (c_done c =? 1) (c_error c) l = Some (c_done c' =? 1, c_error c').
Proof.
  induction 1 as [c|c1 l1 c2 l2 c3 Hm _ [IHf IHm]]; [done|]. destruct (pmove_accounts _ _ _ Hm) as [Hf Hb].
  rewrite flights_app, mailbox_app, Hf, Hb. done.
Qed.
(** C15: Uplinks of the service end as they are reported: one is accepted only when
    none is in flight, it is in flight until its completion or a stop, what
    poll reports is the result of the last completion, and there are never
    more reports than completions. *)
Theorem p2p_completions_reported w h w' : p2p_booted w -> p2p_run w h w' ->
  exists log, log_of h log /\
    flights false log = Some (tx_busy (p2p_of w')) /\
    mailbox false 0 log = Some (p_tx_done (p2p_of w') =? 1, p_tx_error (p2p_of w')) /\
    count is_PTaken log <= count is_PEnd log.
Proof.
  intros Hb Hr. destruct (run_refines w h w' Hr) as (log&Hl&Hm). rewrite (booted_core w Hb) in Hm.
  destruct (pmoves_account _ _ _ Hm) as [Hf Hx]. exists log. split_and!; [done..|].
  apply mailbox_counts in Hx. cbn in Hx. destruct (_ =? 1); cbn in Hx; lia.
Qed.

(** ** The lock *)
Lemma vput_depth f : keeps depth_of (vput f).
Proof. intros w. unfold same, depth_of. cbn. by rewrite platform_of_p2p. Qed.
Lemma p2p_gets_depth {A} (f : W -> A) : keeps depth_of (gets f). Proof. by intros w. Qed.
Lemma call_depth m : keeps depth_of (usp_call m).
Proof. unfold usp_call. apply respects_bind; [apply _|apply modem_depth|intros rc]. frame. Qed.
Lemma read_depth {A} (m : smtc_out lbm A) : keeps depth_of (usp_read m).
Proof. unfold usp_read. apply respects_bind; [apply _|apply modem_depth|intros [rc a]]. frame. Qed.
Lemma modem_keeps_depth {A} (m : M lbm A) : keeps depth_of (modem m). Proof. apply modem_depth. Qed.
#[local] Hint Resolve vput_depth p2p_gets_depth call_depth read_depth modem_keeps_depth : frame.
Lemma submit_depth id t n ms : keeps depth_of (submit id t n ms).
Proof. unfold submit, update_context. frame. Qed.
#[local] Hint Resolve submit_depth : frame.
Lemma submit_window_depth : keeps depth_of submit_rx_window.
Proof. unfold submit_rx_window. frame. Qed.
#[local] Hint Resolve submit_window_depth : frame.
Lemma callback_depth cb st : keeps depth_of (run_rac_callback cb st).
Proof. unfold run_rac_callback, on_tx_done, on_rx_done. frame. Qed.
#[local] Hint Resolve callback_depth : frame.
Lemma rac_abort_depth id : keeps depth_of (rac_abort id).
Proof. unfold rac_abort. frame. Qed.
#[local] Hint Resolve rac_abort_depth : frame.
Lemma abort_depth : keeps depth_of abort_p2p. Proof. unfold abort_p2p. frame. Qed.
Lemma leave_mode_depth : keeps depth_of leave_test_mode.
Proof. unfold leave_test_mode, when_ok. frame. Qed.
Lemma open_depth : keeps depth_of open_radio.
Proof. unfold open_radio, update_context. frame. Qed.
#[local] Hint Resolve abort_depth leave_mode_depth open_depth : frame.
Lemma enter_mode_depth : keeps depth_of enter_test_mode.
Proof. unfold enter_test_mode, when_ok. frame. Qed.
#[local] Hint Resolve enter_mode_depth : frame.
Ltac balance :=
  repeat match goal with
  | |- keeps depth_of (bind rzi_usp_lock _) => apply lock_balanced
  | |- gives_back (bind rzi_usp_unlock _) => apply unlock_gives_back
  | |- gives_back (match ?x with _ => _ end) => destruct x
  | |- gives_back (bind _ _) => apply gives_back_bind; [frame|intros ?]
  end.
Lemma test_depth call : keeps depth_of (in_test_mode call).
Proof. unfold in_test_mode. balance. Qed.
Lemma call_keeps_depth c : keeps depth_of (run_call c).
Proof.
  destruct c; cbn [run_call].
  - unfold usp_start, when_ok. apply respects_bind; [apply _|apply init_depth|intros _]. balance.
  - unfold stop_locked. balance.
  - unfold clear_tx_done. frame.
  - unfold purge_rx_queue. frame.
  - unfold usp_apply. balance.
  - unfold usp_send. balance.
  - unfold usp_receive. balance.
  - apply test_depth.
  - apply respects_bind; [apply _| |intros [??]; frame]. unfold usp_test_get_rssi. balance.
  - intros w. unfold same.
    unfold usp_test_tone, usp_test_cw. do 3 rewrite bind_eq. cbn [vget gets fst snd]. rewrite (test_depth _ _). unfold rzi_usp_unlock.
    rewrite bind_eq, modem_depth. unfold depth_of. cbn. rewrite !platform_of_set. cbn. lia.
  - apply test_depth.
  - apply test_depth.
  - unfold usp_test_stop. balance.
  - unfold take_tx_done. frame.
  - frame.
  - unfold take_packet. frame.
  - apply respects_bind; [apply _|apply (callback_depth (Some ON_TX_DONE))|intros _; frame].
  - apply respects_bind; [apply _|apply (callback_depth (Some ON_RX_DONE))|intros _; frame].
Qed.

(** ** Variables the calls leave alone *)
(** An observation of the variables that depends at most on the configuration
    and the transmit buffer. *)
Class Untouched {X} (obs : p2p_vars -> X) : Prop := {
  u_modulation v s : obs (put_p_modulation v s) = obs s;
  u_opened v s : obs (put_opened v s) = obs s;
  u_test v s : obs (put_test_mode v s) = obs s;
  u_busy v s : obs (put_tx_busy v s) = obs s;
  u_active v s : obs (put_p_rx_active v s) = obs s;
  u_window k d s : obs (put_rx_window k d s) = obs s;
  u_done v s : obs (put_p_tx_done v s) = obs s;
  u_error v s : obs (put_p_tx_error v s) = obs s;
  u_queue v s : obs (put_rx_queue v s) = obs s;
}.
Section untouched.
Context {X} (obs : p2p_vars -> X) `{!Untouched obs}.
Abbreviation seen := (fun w => obs (p2p_of w)).
Lemma keeps_seen {A} (m : M W A) : keeps p2p_of m -> keeps seen m.
Proof. intros Hm w. unfold same. by rewrite Hm. Qed.
Lemma vput_seen f : (forall s, obs (f s) = obs s) -> keeps seen (vput f).
Proof. intros Hf w. unfold same. cbn. by rewrite p2p_of_set. Qed.
Ltac seen_frame := repeat first
  [ progress frame | apply keeps_seen; solve [frame]
  | apply vput_seen; intros ?;
    first [ apply u_modulation | apply u_opened | apply u_test | apply u_busy | apply u_active | apply u_window
          | apply u_done | apply u_error | apply u_queue ] ].
Lemma callback_seen cb st : keeps seen (run_rac_callback cb st).
Proof. unfold run_rac_callback, on_tx_done, on_rx_done. seen_frame. Qed.
#[local] Hint Resolve callback_seen : frame.
Lemma rac_abort_seen id : keeps seen (rac_abort id). Proof. unfold rac_abort. seen_frame. Qed.
#[local] Hint Resolve rac_abort_seen : frame.
Lemma abort_seen : keeps seen abort_p2p. Proof. unfold abort_p2p. seen_frame. Qed.
Lemma leave_mode_seen : keeps seen leave_test_mode. Proof. unfold leave_test_mode, when_ok. seen_frame. Qed.
#[local] Hint Resolve abort_seen leave_mode_seen : frame.
Lemma test_seen call : keeps seen (in_test_mode call).
Proof. unfold in_test_mode, enter_test_mode, when_ok. seen_frame. Qed.
#[local] Hint Resolve test_seen : frame.
(** Only a send touches the transmit buffer, only an apply the configuration. *)
Lemma call_untouched c :
  (forall d n, c = PSend d n -> forall v s, obs (put_tx_buffer v s) = obs s) ->
  (forall k, c = PApply k -> forall v s, obs (put_p_config v s) = obs s) ->
  keeps seen (run_call c).
Proof.
  intros Hsend Happly. destruct c; cbn [run_call];
    unfold usp_start, when_ok, open_radio, stop_locked, clear_tx_done, purge_rx_queue, usp_apply, usp_send, usp_receive,
      usp_test_rssi, usp_test_get_rssi, usp_test_tone, usp_test_cw, usp_test_tx, usp_test_stop, take_tx_done, take_packet;
    seen_frame.
  - apply vput_seen. by eapply Happly.
  - apply vput_seen. intros s. by eapply Hsend.
  - apply (callback_seen (Some ON_TX_DONE)).
  - apply (callback_seen (Some ON_RX_DONE)).
Qed.
End untouched.
#[export] Instance buffer_untouched : Untouched tx_buffer.
Proof. by split. Qed.
#[export] Instance config_untouched : Untouched p_config.
Proof. by split. Qed.

(** ** The buffer of an uplink in flight *)
Definition buffer_of (w : W) : list Z := tx_buffer (p2p_of w).
Lemma leave_mode_busy w : tx_busy (p2p_of (leave_test_mode w).2) = tx_busy (p2p_of w).
Proof.
  pose proof (leave_mode_core w) as Hl. case_bool_decide; unfold core_of in Hl; by injection Hl.
Qed.
Lemma send_busy_buffer data size w : tx_busy (p2p_of w) = true ->
  buffer_of (usp_send data size w).2 = buffer_of w.
Proof.
  intros Hb. rewrite send_eq. cbn zeta.
  pose proof (leave_mode_busy (rzi_usp_lock w).2) as Hl. pose proof (leave_mode_seen tx_buffer (rzi_usp_lock w).2) as Hf.
  assert (Hw : p2p_of (rzi_usp_lock w).2 = p2p_of w) by apply lock_p2p. rewrite Hw, Hb in Hl.
  assert (Hk : forall v, buffer_of (unlocked v) = buffer_of v) by (intros v; apply (keeps_seen tx_buffer _ unlock_p2p)).
  destruct (leave_test_mode _) as [rc w1]. cbn [fst snd] in *. cbn beta in Hf; unfold same, buffer_of in Hf, Hk. rewrite Hw in Hf.
  destruct (negb (rc =? 0)); [unfold buffer_of; cbn [fst snd]; by rewrite Hk|].
  rewrite Hl. unfold buffer_of. cbn [snd]. by rewrite Hk.
Qed.
Lemma call_busy_buffer c w : tx_busy (p2p_of w) = true -> buffer_of (run_call c w).2 = buffer_of w.
Proof.
  intros Hb. destruct c; try exact (send_busy_buffer _ _ w Hb); refine (call_untouched tx_buffer _ _ _ w); done.
Qed.

Lemma pmove_modes c l c' : pmove c l c' -> c_test c && c_listen c = false -> c_test c' && c_listen c' = false.
Proof. destruct 1; cbn; try done; intros; by rewrite ?andb_false_r. Qed.
(** C16: What every execution keeps: the test mode and a reception exclude each
    other; the engine lock is given back by each call, on every path; and
    while an uplink is in flight no call touches the buffer the radio reads it
    from. *)
Theorem p2p_radio_safe w h w' : p2p_booted w -> p2p_run w h w' ->
  (test_mode (p2p_of w') = true -> rx_active (p2p_of w') = false) /\
  depth_of w' = 0 /\
  (tx_busy (p2p_of w') = true ->
     forall c, tx_buffer (p2p_of (run_call c w').2) = tx_buffer (p2p_of w')).
Proof.
  intros Hb Hr. split_and!.
  - destruct (run_refines w h w' Hr) as (log&_&Hm). rewrite (booted_core w Hb) in Hm.
    assert (Hx : c_test (core_of w') && c_listen (core_of w') = false).
    { enough (Hk : forall c l c', pmoves c l c' -> c_test c && c_listen c = false ->
        c_test c' && c_listen c' = false) by by apply (Hk _ _ _ Hm).
      induction 1; eauto using pmove_modes. }
    cbn in Hx. intros Ht. by rewrite Ht in Hx.
  - destruct Hb as [_ <-]. induction Hr as [w|c w h w' _ IH|w w1 h w' (_&_&Hd) _ IH]; [done| |].
    + rewrite IH. apply call_keeps_depth.
    + by rewrite IH.
  - intros Hbusy c. by apply call_busy_buffer.
Qed.
End steps.
