(* ===== verification/UspLoraFlows.v ===== *)
(** * The USP LoRa backend: theorems of its operations

    The service over this backend ([usp_lora_clients], [usp_config_synced]),
    an uplink through both ([usp_lora_send_outcomes]), the windows of a
    reception, what poll delivers, and the synchronisation words of the two
    radio backends. *)
From S2P Require Import Prelude Zephyr Err Lora ZephyrLora Usp UspLora UspLoraSteps.

(** ** The backend is a client of the service *)
Section clients.
Context {ctx : ExecCtx} `{Zephyr} `{Lbm} `{!Rac} `{!UspEnv W} `{app : LoraEnv W} `{!UspLoraEnv W}.
Context `{!UspLoraOk} `{!UspEnvOk} `{!LoraEnvOk}.
Lemma usp_apart_client {A} (m : M W A) : keeps lora_of m -> respects lora_moves m.
Proof. intros Hm w. unfold lora_moves. rewrite (Hm w). apply rtc_refl. Qed.
Lemma modem_lora {A} (m : M lbm A) : keeps lora_of (modem m).
Proof. intros w. unfold same. rewrite modem_eq. apply lora_of_lbm. Qed.
Lemma vput_lora f : keeps lora_of (vput f). Proof. intros w. apply lora_of_p2p. Qed.
Lemma vget_lora {A} (f : p2p_vars -> A) : keeps lora_of (vget f). Proof. by intros w. Qed.
Lemma pput_lora f : keeps lora_of (pput f). Proof. intros w. apply lora_of_platform. Qed.
#[local] Hint Resolve modem_lora vput_lora vget_lora pput_lora : frame.
Lemma lock_lora : keeps lora_of rzi_usp_lock. Proof. unfold rzi_usp_lock. frame. Qed.
Lemma unlock_lora : keeps lora_of rzi_usp_unlock. Proof. unfold rzi_usp_unlock. frame. Qed.
Lemma usp_call_lora m : keeps lora_of (usp_call m). Proof. unfold usp_call. frame. Qed.
Lemma usp_read_lora {A} (m : smtc_out lbm A) : keeps lora_of (usp_read m). Proof. unfold usp_read. frame. Qed.
#[local] Hint Resolve lock_lora unlock_lora usp_call_lora usp_read_lora : frame.
Lemma init_lora : keeps lora_of rzi_usp_init. Proof. unfold rzi_usp_init, pget. frame. Qed.
Lemma submit_lora id t n ms : keeps lora_of (submit id t n ms).
Proof. unfold submit, update_context. frame. Qed.
#[local] Hint Resolve init_lora submit_lora : frame.
Lemma submit_window_lora : keeps lora_of submit_rx_window. Proof. unfold submit_rx_window. frame. Qed.
#[local] Hint Resolve submit_window_lora : frame.
Lemma callback_lora cb st : keeps lora_of (run_rac_callback cb st).
Proof. unfold run_rac_callback, on_tx_done, on_rx_done. frame. Qed.
#[local] Hint Resolve callback_lora : frame.
Lemma rac_abort_lora id : keeps lora_of (rac_abort id). Proof. unfold rac_abort. frame. Qed.
#[local] Hint Resolve rac_abort_lora : frame.
Lemma abort_lora : keeps lora_of abort_p2p. Proof. unfold abort_p2p. frame. Qed.
Lemma leave_mode_lora : keeps lora_of leave_test_mode. Proof. unfold leave_test_mode, when_ok. frame. Qed.
Lemma open_lora : keeps lora_of open_radio. Proof. unfold open_radio, update_context. frame. Qed.
#[local] Hint Resolve abort_lora leave_mode_lora open_lora : frame.
Lemma test_lora call : keeps lora_of (in_test_mode call).
Proof. unfold in_test_mode, enter_test_mode, when_ok. frame. Qed.
#[local] Hint Resolve test_lora : frame.
Lemma call_lora c : keeps lora_of (run_call c).
Proof.
  destruct c; cbn [run_call]; unfold usp_start, when_ok, stop_locked, clear_tx_done, purge_rx_queue, usp_apply,
    usp_send, usp_receive, usp_test_rssi, usp_test_get_rssi, usp_test_tone, usp_test_cw, usp_test_tx, usp_test_stop,
    take_tx_done, take_packet; frame.
  - apply (callback_lora (Some ON_TX_DONE)).
  - apply (callback_lora (Some ON_RX_DONE)).
Qed.

#[local] Instance lora_moves_pre : PreOrder (lora_moves (W := W)).
Proof. split; [intros w; apply rtc_refl|intros ? ? ?; unfold lora_moves; apply transitivity]. Qed.
#[local] Instance usp_env_ok : @LoraEnvOk W usp_lora_env.
Proof. split. exact (@lora_of_set W app _). Qed.
Section hooked.
Hypothesis hooks : (forall f e u, respects lora_moves (run_tx_done f e u)) /\
  (forall f d n r q u, respects lora_moves (run_rx_done f d n r q u)).
Lemma publish_packet_client p : respects lora_moves (publish_packet p).
Proof. unfold publish_packet, rzi_lora_publish_rx, lget. destruct hooks. frame; auto. Qed.
Lemma poll_loop_client n : respects lora_moves (poll_loop n).
Proof.
  induction n as [|n IH]; cbn [poll_loop]; [frame|].
  apply respects_bind; [apply _|apply usp_apart_client; unfold take_packet; frame|intros [p|]]; [|frame].
  apply respects_bind; [apply _|apply publish_packet_client|done].
Qed.
Lemma poll_client' : respects lora_moves usp_poll.
Proof.
  unfold usp_poll, poll_tx_done. destruct hooks as [Htx _].
  apply respects_bind; [apply _| |intros _; apply poll_loop_client].
  apply respects_bind; [apply _|apply usp_apart_client; unfold take_tx_done; frame|intros [|]]; [|frame].
  unfold rzi_lora_publish_tx_done, lget, vget. frame; auto.
Qed.
(** The service over this backend: its operations and callbacks act on the
    service through the service's functions only, so what was proved of the
    service for arbitrary clients holds over the USP. *)
Theorem usp_lora_clients : @LoraClients W usp_lora_env.
Proof.
  split; cbn.
  - exact hooks.
  - intros f v [= <-]. apply usp_apart_client, (call_lora (PStart v)).
  - intros f [= <-]. apply usp_apart_client. unfold usp_stop, clear_tx_done, purge_rx_queue.
    apply respects_bind; [apply _|apply (call_lora PHalt)|intros rc]. frame.
  - intros f c [= <-]. apply usp_apart_client, (call_lora (PApply c)).
  - intros f d n [= <-]. apply usp_apart_client, (call_lora (PSend d n)).
  - intros f t [= <-]. apply usp_apart_client, (call_lora (PReceive t)).
  - intros f [= <-]. apply poll_client'.
  - split_and!; intros f; intros; simplify_eq; apply usp_apart_client.
    + apply (call_lora PRssi).
    + unfold usp_test_get_rssi. frame.
    + apply (call_lora PTone).
    + apply (call_lora (PTestTx n)).
    + apply (call_lora (PReceive RX_CONTINUOUS)).
    + apply (call_lora (PCw h p d)).
    + apply (call_lora PTestStop).
Qed.
End hooked.
End clients.

(** ** The configuration the radio works with *)
Section synced.
Context {ctx : ExecCtx} `{Zephyr} `{Lbm} `{!Rac} `{!UspEnv W} `{app : LoraEnv W} `{!UspLoraEnv W}.
Context `{!UspLoraOk} `{!UspEnvOk} `{!LoraEnvOk}.
(** Once started, the backend's copy is the service's configuration. *)
Definition synced (w : W) : Prop :=
  l_started (lora_of w) <> 0 -> p_config (p2p_of w) = l_config (lora_of w).
Hypothesis hooks : (forall f e u, preserves synced (run_tx_done f e u)) /\
  (forall f d n r q u, preserves synced (run_rx_done f d n r q u)).
Definition both (w : W) : rzi_lora_config * lora_state := (p_config (p2p_of w), lora_of w).
Lemma calm_synced {A} (m : M W A) : keeps both m -> preserves synced m.
Proof. intros Hm w. unfold synced. specialize (Hm w). unfold same, both in Hm. by injection Hm as -> ->. Qed.
Lemma call_both c : (forall k, c <> PApply k) -> keeps both (run_call c).
Proof.
  intros Hc w. unfold same, both. rewrite (call_lora c w). f_equal.
  apply (call_untouched p_config); [done|]. intros k ->. by destruct (Hc k).
Qed.
Lemma call_synced c : (forall k, c <> PApply k) -> preserves synced (run_call c).
Proof. intros Hc. by apply calm_synced, call_both. Qed.
Lemma gets_synced {A} (f : W -> A) : preserves synced (gets f). Proof. by intros w. Qed.
Lemma lput_synced f : (forall s, l_started (f s) <> 0 -> l_started s <> 0 /\ l_config (f s) = l_config s) ->
  preserves synced (lput f).
Proof.
  intros Hf w Hw. unfold synced. cbn. rewrite lora_of_set, p2p_of_lora. intros Hs.
  destruct (Hf _ Hs) as [Hs0 ->]. by apply Hw.
Qed.
Lemma apply_synced c w : l_config (lora_of w) = c -> synced (usp_apply c w).2.
Proof.
  intros Hc _. rewrite (call_lora (PApply c) w : lora_of (usp_apply c w).2 = _), Hc.
  unfold usp_apply. rewrite !bind_eq. cbn [ret snd]. rewrite unlock_p2p. cbn. by rewrite p2p_of_set.
Qed.
Lemma get_rssi_both v : keeps both (usp_test_get_rssi v).
Proof.
  intros w. pose proof (call_both (PGetRssi v) ltac:(done) w) as Hk. unfold same in *. cbn [run_call] in Hk.
  rewrite bind_eq in Hk. by destruct (usp_test_get_rssi v w) as [[??]?].
Qed.
Lemma stop_both : keeps both usp_stop.
Proof.
  unfold usp_stop. apply respects_bind; [apply _|apply (call_both PHalt); done|intros rc].
  assert (Hp : forall f, (forall s, p_config (f s) = p_config s) -> keeps both (vput f)).
  { intros f Hf w. unfold same, both. cbn. by rewrite p2p_of_set, Hf, lora_of_p2p. }
  unfold clear_tx_done, purge_rx_queue. apply respects_bind; [apply _|by apply Hp|intros _].
  apply respects_bind; [apply _|by apply Hp|intros _; frame].
Qed.
Lemma publish_packet_synced p : preserves synced (publish_packet p).
Proof. unfold publish_packet, rzi_lora_publish_rx, lget. destruct hooks. preserve; auto. Qed.
Lemma poll_synced : preserves synced usp_poll.
Proof.
  assert (Hp : forall f, (forall s, p_config (f s) = p_config s) -> preserves synced (vput f)).
  { intros f Hf w. unfold synced. cbn. by rewrite p2p_of_set, Hf, lora_of_p2p. }
  destruct hooks as [Htx _]. unfold usp_poll, poll_tx_done, take_tx_done, rzi_lora_publish_tx_done, lget, vget.
  apply preserves_bind; [preserve; auto|intros _]. generalize 256%nat. intros n.
  induction n as [|n IH]; cbn [poll_loop]; [preserve|].
  apply preserves_bind; [unfold take_packet, vget; preserve; by apply Hp|intros [p|]; [|preserve]].
  apply preserves_bind; [apply publish_packet_synced|done].
Qed.
Lemma init_synced m : preserves synced (@rzi_lora_init ctx W usp_lora_env m).
Proof.
  unfold rzi_lora_init. destruct (negb _); [preserve|]. destruct (_ && _); [preserve|]. cbn [b_start b_apply_config usp_lora_env].
  apply preserves_bind; [by apply (call_synced (PStart m))|intros rc]. destruct (rc =? 0); [|preserve].
  intros w _. rewrite !bind_eq. by apply apply_synced.
Qed.
Lemma set_config_synced c : preserves synced (@rzi_lora_set_config ctx W usp_lora_env c).
Proof.
  unfold rzi_lora_set_config. destruct (negb _); [preserve|]. destruct c as [c|]; [|preserve].
  destruct (negb (config_in_range c)); [preserve|]. cbn [b_apply_config usp_lora_env].
  intros w _. rewrite !bind_eq. cbn [lget gets fst snd]. set (w1 := (lput _ w).2).
  change (@lora_of W usp_lora_env) with (@lora_of W app).
  destruct (Z.eqb_spec (l_started (lora_of w1)) 0) as [Hs|]; cbn [negb].
  - intros Hne. done.
  - rewrite bind_eq. by apply apply_synced.
Qed.
(** C17: Whatever is called, from the application or from a callback: while the
    service is started, the configuration the radio is given is the one the
    service stores and reports. *)
Theorem usp_config_synced c w : synced w -> synced (@run_lora ctx W usp_lora_env c w).2.
Proof.
  revert w. change (preserves synced (@run_lora ctx W usp_lora_env c)).
  destruct hooks as [Htx Hrx].
  assert (Hbe : forall k, (forall x, k <> PApply x) -> preserves synced (run_call k)) by apply call_synced.
  assert (Hdone : forall A (m : M W A), preserves synced m -> preserves synced (m ;;; ret tt)) by
    (intros A m Hm; apply preserves_bind; [done|intros _; preserve]).
  destruct c; cbn [run_lora]; try apply Hdone.
  - unfold rzi_lora_register_callbacks. preserve. apply lput_synced. done.
  - apply init_synced.
  - unfold rzi_lora_stop. destruct (negb _); [preserve|]. cbn [b_stop usp_lora_env].
    apply preserves_bind; [apply calm_synced, stop_both|intros rc]. preserve; by apply lput_synced.
  - unfold rzi_lora_is_started, lget. preserve.
  - unfold rzi_lora_get_config, lget. preserve.
  - apply set_config_synced.
  - unfold rzi_lora_send, lget. cbn [b_send usp_lora_env]. preserve. by apply (Hbe (PSend _ _)).
  - unfold rzi_lora_receive, lget. cbn [b_receive usp_lora_env]. preserve; [by apply (Hbe (PReceive _))|..];
      by apply lput_synced.
  - unfold rzi_lora_receive_active, lget. preserve.
  - apply poll_synced.
  - unfold rzi_lora_test_rssi, call_test. cbn. preserve. by apply (Hbe PRssi).
  - unfold rzi_lora_test_get_rssi. cbn. preserve. apply calm_synced, get_rssi_both.
  - unfold rzi_lora_test_tone, call_test. cbn. preserve. by apply (Hbe PTone).
  - unfold rzi_lora_test_tx, call_test. cbn. preserve. by apply (Hbe (PTestTx _)).
  - unfold rzi_lora_test_rx, call_test. cbn. preserve. by apply (Hbe (PReceive _)).
  - unfold rzi_lora_test_cw, call_test. cbn. preserve. by apply (Hbe (PCw f p d)).
  - unfold rzi_lora_test_stop, call_test. cbn. preserve. by apply (Hbe PTestStop).
  - unfold rzi_lora_publish_tx_done, lget. preserve. apply Htx.
  - unfold rzi_lora_publish_rx, lget. preserve. apply Hrx.
Qed.
End synced.

(** ** Transactions *)
(** Documented behaviour: a context is a cell of its own, and the clocks only
    read. *)
Class RacOk `{Rac} : Prop := {
  context_of_set id c l : smtc_rac_get_context id (rac_set_context id c l) = c;
  context_of_time id l : smtc_rac_get_context id (smtc_modem_hal_get_time_in_ms l).2 = smtc_rac_get_context id l;
}.
Section functional.
Context {ctx : ExecCtx} `{Zephyr} `{Lbm} `{!Rac} `{!UspEnv W} `{app : LoraEnv W} `{!UspLoraEnv W}.
Context `{!UspLoraOk} `{!UspEnvOk} `{!LoraEnvOk} `{!RacOk}.
Abbreviation service := (usp_lora_env (app := app)).

(** The parameters a submission programs. *)
Definition radio_program (s : p2p_vars) (is_tx : bool) (size timeout_ms : Z) : rac_params :=
  if p_modulation s =? RZI_LORA_MOD_FSK then fill_fsk (p_config s) is_tx size timeout_ms
  else fill_lora (p_config s) is_tx size timeout_ms.
Lemma submit_programs id is_tx size ms w : exists l,
  (submit id is_tx size ms w).1 = rac_result (smtc_rac_submit_radio_transaction id l).1 /\
  radio_params (smtc_rac_get_context id l) = Some (radio_program (p2p_of w) is_tx size ms) /\
  scheduling (smtc_rac_get_context id l) = SMTC_RAC_ASAP_TRANSACTION.
Proof.
  unfold submit, update_context. rewrite !bind_eq. cbn [vget gets fst snd]. rewrite !modem_eq. cbn [fst snd ret].
  eexists. split; [reflexivity|]. rewrite !lbm_of_set. unfold modify. cbn [fst snd].
  by rewrite context_of_set, context_of_time, context_of_set.
Qed.
Lemma unlocked_p2p w : p2p_of (rzi_usp_unlock w).2 = p2p_of w. Proof. apply unlock_p2p. Qed.
Lemma leave_mode_p2p w : p2p_of (leave_test_mode w).2 = p2p_of w \/
  (leave_test_mode w).1 = 0 /\ p2p_of (leave_test_mode w).2 = put_test_mode false (p2p_of w).
Proof.
  unfold leave_test_mode. rewrite bind_eq. cbn [vget gets fst snd].
  destruct (test_mode (p2p_of w)); cbn [negb]; [|by left]. rewrite !bind_eq.
  pose proof (usp_call_p2p smtc_modem_test_stop w) as Hc. unfold same in Hc.
  destruct (usp_call _ w) as [rc w1]. cbn [fst snd ret] in *. unfold when_ok.
  destruct (Z.eqb_spec rc 0) as [->|]; cbn; [right; by rewrite p2p_of_set, Hc|by left].
Qed.
(** An uplink of a started service.  A modem that does not leave its test mode
    and an uplink still in flight refuse it, and the buffer the radio reads
    stays as it is.  Otherwise the payload, enciphered, is in the buffer and
    the radio is programmed to send just its bytes with the configured
    parameters when the transaction is submitted; it is in flight exactly if
    the submission was accepted, which is what the caller hears. *)
Theorem usp_lora_send_outcomes data size w :
  k_is_in_isr = false -> l_started (lora_of w) <> 0 -> 1 <= size <= RZI_LORA_MAX_PAYLOAD ->
  zlen data = size ->
  let left := leave_test_mode (rzi_usp_lock w).2 in
  let r := @rzi_lora_send ctx W service (Some data) size w in
  (left.1 <> 0 -> r.1 = left.1 /\ p2p_of r.2 = p2p_of w) /\
  (left.1 = 0 -> tx_busy (p2p_of w) = true ->
    r.1 = - RZI_ERR_BUSY /\ tx_buffer (p2p_of r.2) = tx_buffer (p2p_of w)) /\
  (left.1 = 0 -> tx_busy (p2p_of w) = false ->
    take (Z.to_nat size) (tx_buffer (p2p_of r.2)) = apply_cipher data (l_config (lora_of w)) /\
    tx_busy (p2p_of r.2) = (r.1 =? 0) /\ test_mode (p2p_of r.2) = false /\
    exists l, r.1 = rac_result (smtc_rac_submit_radio_transaction TX_ID l).1 /\
      radio_params (smtc_rac_get_context TX_ID l) = Some (radio_program (p2p_of w) true size 0)).
Proof.
  intros Hisr Hst Hsize Hdata left r.
  set (framed := apply_cipher data (l_config (lora_of w))).
  assert (Hr : r = usp_send framed size w).
  { unfold r, rzi_lora_send, check_thread. rewrite Hisr. cbn [Z.eqb negb].
    destruct (Z.eqb_spec size 0); [lia|]. destruct (Z.ltb_spec RZI_LORA_MAX_PAYLOAD size); [lia|].
    rewrite bind_eq. cbn [b_send usp_lora_env lget gets fst snd lora_of].
    destruct (Z.eqb_spec (l_started (lora_of w)) 0); [done|]. rewrite bind_eq. unfold framed.
    rewrite take_ge by (unfold zlen in *; lia). done. }
  clearbody r. subst r. rewrite send_eq. fold left. cbn zeta.
  pose proof (leave_mode_p2p (rzi_usp_lock w).2) as Hp. pose proof (leave_mode_off (rzi_usp_lock w).2) as Hoff.
  fold left in Hp, Hoff. rewrite lock_p2p in Hp. destruct left as [rc w1]. cbn [fst snd] in *.
  assert (Hlen : length framed = Z.to_nat size) by (unfold framed; rewrite length_cipher; unfold zlen in *; lia).
  destruct (Z.eqb_spec rc 0) as [->|Hrc]; cbn [negb].
  2: { split_and!; try done. intros _. cbn [fst snd]. rewrite unlocked_p2p. destruct Hp as [->|[? _]]; done. }
  assert (Hw1 : tx_busy (p2p_of w1) = tx_busy (p2p_of w) /\ tx_buffer (p2p_of w1) = tx_buffer (p2p_of w) /\
    p_config (p2p_of w1) = p_config (p2p_of w) /\ p_modulation (p2p_of w1) = p_modulation (p2p_of w))
    by (by destruct Hp as [->|[_ ->]]).
  destruct Hw1 as (Hb1&Hx1&Hc1&Hm1). rewrite Hb1. specialize (Hoff eq_refl).
  destruct (tx_busy (p2p_of w)); cbn [fst snd]; rewrite unlocked_p2p.
  { split_and!; try done. }
  split_and!; try done. intros _ _. set (w2 := fill_buffer framed size w1).
  assert (Hw2 : p2p_of w2 = put_tx_buffer (overlay (tx_buffer (p2p_of w)) 0 framed) (p2p_of w1)).
  { unfold w2, fill_buffer. by rewrite p2p_of_set, Hx1, take_ge by lia. }
  rewrite p2p_of_set, submit_p2p, Hw2. cbn [tx_buffer tx_busy test_mode put_tx_busy put_tx_buffer].
  split_and!; [|done|done|].
  - unfold overlay. rewrite take_0, app_nil_l, (take_app_le framed) by (rewrite Hlen; lia).
    by rewrite take_ge by lia.
  - destruct (submit_programs TX_ID true (u16 size) 0 w2) as (l&Hl1&Hl2&_). exists l. split; [done|].
    rewrite Hl2. unfold radio_program. rewrite Hw2. cbn [p_modulation p_config put_tx_buffer].
    rewrite Hc1, Hm1. unfold u16. rewrite Z.mod_small by lia. done.
Qed.

(** *** Windows of a reception *)
(** A window over: a further one, or the end. *)
Definition next_window (w : W) : W :=
  let q := submit_rx_window w in
  if q.1 =? 0 then q.2 else set_p2p (put_p_rx_active false (p2p_of q.2)) q.2.
(** The packet of a window, if it has one, queued. *)
Definition queue_packet (status : rp_status_t) (w : W) : W :=
  let c := smtc_rac_get_context RX_ID (lbm_of w) in
  if is_packet status && (0 <? rx_size c)
  then set_p2p (put_rx_queue (k_msgq_put (received c (rx_buffer (p2p_of w))) (rx_queue (p2p_of w))).2 (p2p_of w)) w
  else w.
Lemma rx_done_eq st w : rx_active (p2p_of w) = true ->
  (on_rx_done st w).2 =
    let w1 := queue_packet st w in
    if rx_continuous (p2p_of w) || is_aborted st then next_window w1
    else set_p2p (put_p_rx_active false (p2p_of w1)) w1.
Proof.
  intros Ha. unfold on_rx_done. do 2 rewrite bind_eq. cbn [gets fst snd].
  set (c := smtc_rac_get_context RX_ID (lbm_of w)).
  assert (Hw1 : (if is_packet st && (0 <? rx_size c) then
      let* buffer := vget rx_buffer in
      vput (fun s => put_rx_queue (k_msgq_put (received c buffer) (rx_queue s)).2 s)
    else ret tt) w = (tt, queue_packet st w)) by (unfold queue_packet; fold c; by destruct (_ && _)).
  rewrite Hw1. cbn zeta. cbn [fst snd]. clear Hw1 c.
  assert (Hq : rx_active (p2p_of (queue_packet st w)) = true /\
    rx_continuous (p2p_of (queue_packet st w)) = rx_continuous (p2p_of w)).
  { unfold queue_packet. destruct (_ && _); [|done]. by rewrite p2p_of_set. }
  destruct Hq as [Hqa Hqc]. rewrite bind_eq. cbn [vget gets fst snd]. rewrite Hqa. cbn [negb].
  rewrite bind_eq. cbn [vget gets fst snd]. rewrite Hqc. destruct (_ || _); [|done]. cbn [negb].
  rewrite bind_eq. unfold next_window. destruct (submit_rx_window _) as [rc w2]. cbn [fst snd].
  by destruct (rc =? 0).
Qed.
Lemma window_timed w : rx_continuous (p2p_of w) = false ->
  let left := rx_deadline_ms (p2p_of w) - k_uptime_get (lbm_of w) in
  submit_rx_window w = if left <=? 0 then (- RZI_ERR_TIMEOUT, w) else submit RX_ID false 0 (u32 left) w.
Proof.
  intros Hc. unfold submit_rx_window. rewrite bind_eq. cbn [vget gets fst snd]. rewrite Hc.
  rewrite !bind_eq. cbn [vget gets fst snd]. by destruct (_ <=? 0).
Qed.
(** A timed reception: the first window is the whole time asked for.  A window
    another user of the radio cuts short at a time [now] is followed by one
    that ends exactly at the deadline - its 32-bit length never wraps - and by
    none once the deadline is reached; a packet or the timeout ends the
    reception. *)
Theorem rx_windows_end_at_deadline t w : 1 <= t < 4294967296 -> t <> RX_CONTINUOUS ->
  let left := leave_test_mode (rac_abort RX_ID (vput (put_p_rx_active false) (rzi_usp_lock w).2).2).2 in
  let start := k_uptime_get (lbm_of left.2) in
  left.1 = 0 ->
  (exists w1, (usp_receive t w).1 = (submit RX_ID false 0 t w1).1 /\
     rx_deadline_ms (p2p_of w1) = start + t /\ rx_continuous (p2p_of w1) = false) /\
  forall v, rx_active (p2p_of v) = true -> rx_continuous (p2p_of v) = false ->
    rx_deadline_ms (p2p_of v) = start + t -> start <= k_uptime_get (lbm_of v) ->
    let now := k_uptime_get (lbm_of v) in
    (now < start + t -> exists window, now + window = start + t /\ 0 < window <= t /\
       submit_rx_window v = submit RX_ID false 0 window v /\
       (on_rx_done RP_STATUS_TASK_ABORTED v).2 = next_window v) /\
    (start + t <= now -> rx_active (p2p_of (on_rx_done RP_STATUS_TASK_ABORTED v).2) = false) /\
    (forall st, st <> RP_STATUS_TASK_ABORTED -> rx_active (p2p_of (on_rx_done st v).2) = false).
Proof.
  intros Ht Hne left start Hleft.
  assert (Hup : forall v s, k_uptime_get (lbm_of (set_p2p s v)) = k_uptime_get (lbm_of v)) by
    (intros v s; by rewrite lbm_of_p2p).
  split.
  - rewrite receive_eq. cbn zeta. fold left. destruct (Z.eqb_spec t 0); [lia|]. rewrite Hleft. cbn [Z.eqb negb].
    destruct (Z.eqb_spec t RX_CONTINUOUS); [done|]. fold start.
    set (w1 := set_p2p (put_rx_window false (start + t) (p2p_of left.2)) left.2). exists w1.
    assert (Hc1 : rx_continuous (p2p_of w1) = false) by (unfold w1; by rewrite p2p_of_set).
    assert (Hd1 : rx_deadline_ms (p2p_of w1) = start + t) by (unfold w1; by rewrite p2p_of_set).
    split_and!; [|done..]. cbn [fst]. rewrite (window_timed w1 Hc1), Hd1. unfold w1. rewrite Hup. fold start w1.
    destruct (Z.leb_spec (start + t - start) 0); [lia|].
    unfold u32. rewrite Z.mod_small by lia. repeat f_equal. lia.
  - intros v Ha Hc Hd Hstart now. pose proof (window_timed v Hc) as Hw. cbn zeta in Hw. rewrite Hd in Hw. fold now in Hw.
    pose proof (fun st => rx_done_eq st v Ha) as Hdone. cbn zeta in Hdone. rewrite Hc in Hdone.
    assert (Hq : forall st, is_packet st = false -> queue_packet st v = v) by (intros st Hst; unfold queue_packet; by rewrite Hst).
    split_and!.
    + intros Hnow. exists (start + t - now). destruct (Z.leb_spec (start + t - now) 0); [lia|].
      unfold u32 in Hw. rewrite Z.mod_small in Hw by (fold now in Hstart; lia).
      split_and!; try (fold now in Hstart; lia); [done|]. rewrite Hdone. cbn [orb is_aborted]. by rewrite Hq.
    + intros Hnow. rewrite Hdone. cbn [orb is_aborted]. rewrite Hq by done. unfold next_window. rewrite Hw.
      destruct (Z.leb_spec (start + t - now) 0); [|lia]. cbn [fst snd].
      change (- RZI_ERR_TIMEOUT =? 0) with false. cbn match. by rewrite p2p_of_set.
    + intros st Hst. rewrite Hdone. destruct st; try done; cbn [orb is_aborted]; by rewrite p2p_of_set.
Qed.
(** A continuous reception: whatever ends a window, the next one, a minute
    long, follows; only a refusal by the radio ends it. *)
Theorem rx_continuous_goes_on st v : rx_active (p2p_of v) = true -> rx_continuous (p2p_of v) = true ->
  let w1 := queue_packet st v in
  let q := submit RX_ID false 0 RX_WINDOW_MS w1 in
  (on_rx_done st v).2 = (if q.1 =? 0 then q.2 else set_p2p (put_p_rx_active false (p2p_of q.2)) q.2) /\
  (q.1 = 0 -> rx_active (p2p_of (on_rx_done st v).2) = true).
Proof.
  intros Ha Hc w1 q.
  assert (Hw1 : rx_continuous (p2p_of w1) = true /\ rx_active (p2p_of w1) = true).
  { unfold w1, queue_packet. destruct (_ && _); [|done]. by rewrite p2p_of_set. }
  assert (Hq : submit_rx_window w1 = q).
  { unfold submit_rx_window. rewrite bind_eq. cbn [vget gets fst snd]. by rewrite (proj1 Hw1). }
  rewrite rx_done_eq by done. fold w1. rewrite Hc. cbn zeta. cbn [orb]. unfold next_window. rewrite Hq.
  split; [done|]. intros ->. cbn [Z.eqb]. unfold q. rewrite submit_p2p. apply Hw1.
Qed.
End functional.

(** ** Poll *)
Section poll.
Context `{Zephyr} `{!MsgqOk} `{Lbm} `{!Rac} `{!UspEnv W} `{app : LoraEnv W} `{!UspLoraEnv W} `{!UspLoraOk}.
(** The application's callbacks do not call the radio. *)
Hypothesis hooks_quiet : (forall f e u, keeps p2p_of (run_tx_done f e u)) /\
  (forall f d n r q u, keeps p2p_of (run_rx_done f d n r q u)).
Definition packets (w : W) : list rx_packet := msgq_list (rx_queue (p2p_of w)).
Definition take_and_publish (p : rx_packet) : M W unit := take_packet ;;; publish_packet p.
Lemma publish_packet_quiet p : keeps p2p_of (publish_packet p).
Proof. unfold publish_packet, rzi_lora_publish_rx, lget. destruct hooks_quiet. frame; auto. Qed.
Lemma take_packet_run w : (take_packet w).1 = head (packets w) /\ packets (take_packet w).2 = tail (packets w).
Proof.
  unfold take_packet. rewrite !bind_eq. cbn [vget gets ret fst snd]. unfold packets.
  destruct (msgq_get_ok (rx_queue (p2p_of w))) as [Hh Ht]. split; [done|]. cbn. by rewrite p2p_of_set.
Qed.
Lemma poll_loop_delivers n w : (length (packets w) < n)%nat ->
  poll_loop n w = (for_each (packets w) take_and_publish ;;; take_packet ;;; ret tt) w /\
  packets (poll_loop n w).2 = [].
Proof.
  revert w. induction n as [|n IH]; intros w Hn; [lia|]. cbn [poll_loop].
  destruct (take_packet_run w) as [Hh Ht]. rewrite bind_eq. destruct (packets w) as [|p rest] eqn:Ep.
  - cbn [for_each]. rewrite !bind_eq. cbn [ret fst snd]. destruct (take_packet w) as [o w1]. cbn [fst snd] in *.
    by subst o.
  - cbn [for_each]. rewrite !bind_eq. unfold take_and_publish at 2. rewrite bind_eq.
    destruct (take_packet w) as [o w1]. cbn [fst snd head tail] in *. subst o. rewrite bind_eq.
    pose proof (publish_packet_quiet p w1) as Hq. unfold same in Hq.
    destruct (publish_packet p w1) as [u w2]. cbn [fst snd] in *.
    assert (Hw2 : packets w2 = rest) by (unfold packets; by rewrite Hq).
    destruct (IH w2) as [Heq Hend]; [rewrite Hw2; cbn in Hn; lia|]. split; [|done].
    rewrite Heq, !bind_eq. by rewrite Hw2.
Qed.
(** C38: One poll reports a completed uplink, once, and hands over every packet
    received since, once and in order; it leaves no report and no packet
    behind, and its loop ends: as many rounds as there are packets, and one. *)
Theorem usp_poll_delivers w : zlen (packets w) < 256 ->
  let w1 := if p_tx_done (p2p_of w) =? 1
            then (rzi_lora_publish_tx_done (p_tx_error (p2p_of w)) (clear_tx_done w).2).2 else w in
  usp_poll w = (for_each (packets w) take_and_publish ;;; take_packet ;;; ret tt) w1 /\
  packets (usp_poll w).2 = [] /\ p_tx_done (p2p_of (usp_poll w).2) <> 1 /\
  (forall n, (length (packets w) < n)%nat -> poll_loop n w1 = usp_poll w).
Proof.
  intros Hn w1. assert (Hl : (length (packets w) < 256)%nat) by (unfold zlen in Hn; lia).
  assert (H1w : (poll_tx_done w).2 = w1 /\ packets w1 = packets w /\ p_tx_done (p2p_of w1) <> 1).
  { unfold poll_tx_done, take_tx_done, w1. rewrite !bind_eq. cbn [vget gets fst snd].
    destruct (Z.eqb_spec (p_tx_done (p2p_of w)) 1) as [Hd|Hd]; [|done].
    rewrite !bind_eq. cbn [ret fst snd]. unfold clear_tx_done.
    assert (Hq : forall e v, p2p_of (rzi_lora_publish_tx_done e v).2 = p2p_of v).
    { intros e. destruct hooks_quiet as [Htx _].
      enough (Hk : keeps p2p_of (rzi_lora_publish_tx_done e)) by apply Hk.
      unfold rzi_lora_publish_tx_done, lget. frame; apply Htx. }
    unfold packets. rewrite Hq. cbn. rewrite !p2p_of_set. by split_and!. }
  destruct H1w as (H1w&Hp1&Hd1).
  assert (Hpoll : usp_poll w = poll_loop 256 w1).
  { unfold usp_poll. rewrite bind_eq. by rewrite H1w. }
  destruct (poll_loop_delivers 256 w1) as [Heq Hend]; [by rewrite Hp1|]. rewrite Hpoll.
  split_and!; [by rewrite Heq, Hp1|done| |].
  - assert (Hk : forall n, keeps (fun v => p_tx_done (p2p_of v)) (poll_loop n)).
    { intros n. induction n as [|n IH]; cbn [poll_loop]; [frame|].
      apply respects_bind; [apply _| |intros [p|]; [|frame]].
      - intros v. unfold take_packet, same. rewrite !bind_eq. cbn. by rewrite p2p_of_set.
      - apply respects_bind; [apply _| |done]. intros v. unfold same. by rewrite (publish_packet_quiet p v). }
    by rewrite (Hk 256%nat w1).
  - intros n Hlt. rewrite Heq. apply poll_loop_delivers. by rewrite Hp1.
Qed.
End poll.

(** ** Synchronisation words *)
(** The two-byte word of the SX126x chips that carries a sync byte. *)
Definition sx126x_sync_word (byte : Z) : Z :=
  Z.lor (Z.lor (Z.shiftl (Z.land byte 0xF0) 8) (Z.shiftl (Z.land byte 0x0F) 4)) 0x0404.
Definition all_bytes : list Z := Z.of_nat <$> seq 0 256.
Lemma byte_in b : byte_range b -> In b all_bytes.
Proof.
  intros Hb. unfold byte_range in Hb. apply in_map_iff. exists (Z.to_nat b). split; [lia|].
  apply in_seq. lia.
Qed.
Lemma for_all_bytes (P : Z -> bool) b : forallb P all_bytes = true -> byte_range b -> P b = true.
Proof. intros HP Hb. rewrite forallb_forall in HP. by apply HP, byte_in. Qed.
(** The USP backend takes a sync byte out of the two-byte word of the chips, as
    which the default 0x3444 is written, and leaves a one-byte word as it is.
    The Zephyr backend takes the low byte of either: over the two backends the
    same configuration gives the same byte only for the byte 0x44. *)
Theorem sync_words byte config : byte_range byte ->
  lora_sync_byte (sx126x_sync_word byte) = byte /\ lora_sync_byte byte = byte /\
  sx126x_sync_word 0x34 = sync_word config_default /\
  (sync_word config = sx126x_sync_word byte ->
     (m_sync_word (modem_config config true) = lora_sync_byte (sync_word config) <-> byte = 0x44)).
Proof.
  intros Hb.
  pose proof (for_all_bytes (fun b => (lora_sync_byte (sx126x_sync_word b) =? b) && (lora_sync_byte b =? b) &&
    (Bool.eqb (u8 (Z.land (sx126x_sync_word b) 0xff) =? b) (b =? 0x44)) &&
    negb (Z.land (sx126x_sync_word b) 0xff =? 0)) byte eq_refl Hb) as Hall.
  rewrite !andb_true_iff, negb_true_iff, !Z.eqb_eq, Bool.eqb_true_iff, Z.eqb_neq in Hall.
  destruct Hall as [[[Hx Hy] Hz] Hne]. split_and!; [done..|]. intros Hc. unfold modem_config. cbn [m_sync_word].
  rewrite Hc, Hx. destruct (Z.eqb_spec (Z.land (sx126x_sync_word byte) 0xff) 0) as [?|_]; [done|]. cbn [negb].
  rewrite <- !Z.eqb_eq. by rewrite Hz.
Qed.
