(* ===== verification/UspLoraSim.v ===== *)
(** * A simulated radio access controller, and the USP LoRa backend run on it

    The controller keeps its two contexts, the transactions in flight and a log
    of what was submitted; an abort calls back for a transaction in flight. *)
From S2P Require Import Prelude Zephyr Err Lora ZephyrLora Usp UspLora UspLoraSteps UspLoraFlows.

Module UspLoraSim.
Export Instances.
Record sim_radio : Type := SimRadio {
  sr_tx : smtc_rac_context_t; sr_rx : smtc_rac_context_t; sr_flying : list Z;
  sr_log : list (Z * option rac_params); sr_uptime : Z;
}.
#[local] Instance code_inhabited : Inhabited smtc_modem_return_code_t := populate SMTC_MODEM_RC_OK.
#[local] Instance event_inhabited : Inhabited smtc_modem_event_t :=
  populate (ModemEvent SMTC_MODEM_EVENT_other 0).
#[local] Instance meta_inhabited : Inhabited smtc_modem_dl_metadata_t :=
  populate (DlMeta 0 0 0 0 SMTC_MODEM_DL_WINDOW_other 0 0).
#[local] Instance se_inhabited : Inhabited smtc_se_return_code_t := populate SMTC_SE_RC_SUCCESS.
(** A modem that accepts everything. *)
#[export] Instance radio_lbm : Lbm | 10.
Proof.
  unshelve eapply Build_Lbm; [exact sim_radio|..]; intros;
    first [exact 0 | assumption | exact (ret inhabitant)].
Defined.
Definition set_flying (f : list Z -> list Z) (l : sim_radio) : sim_radio :=
  SimRadio (sr_tx l) (sr_rx l) (f (sr_flying l)) (sr_log l) (sr_uptime l).
Definition sim_context (id : Z) (l : sim_radio) : smtc_rac_context_t := if id =? 3 then sr_tx l else sr_rx l.
Definition sim_set_context (id : Z) (c : smtc_rac_context_t) (l : sim_radio) : sim_radio :=
  if id =? 3 then SimRadio c (sr_rx l) (sr_flying l) (sr_log l) (sr_uptime l)
  else SimRadio (sr_tx l) c (sr_flying l) (sr_log l) (sr_uptime l).
Definition sim_submit (id : Z) : M sim_radio smtc_rac_return_code_t := fun l =>
  (SMTC_RAC_SUCCESS,
   SimRadio (sr_tx l) (sr_rx l) (id :: sr_flying l) (sr_log l ++ [(id, radio_params (sim_context id l))]) (sr_uptime l)).
Definition sim_abort (id : Z) : M sim_radio (smtc_rac_return_code_t * option rp_status_t) := fun l =>
  ((SMTC_RAC_SUCCESS, if bool_decide (id ∈ sr_flying l) then Some RP_STATUS_TASK_ABORTED else None),
   set_flying (List.filter (fun x => negb (x =? id))) l).
Definition accepts : M sim_radio smtc_modem_return_code_t := ret SMTC_MODEM_RC_OK.
#[export] Instance sim_rac : Rac | 10 := {|
  RAC_LOW_PRIORITY := 3; RAC_VERY_LOW_PRIORITY := 4; k_uptime_get := sr_uptime : @lbm radio_lbm -> Z;
  smtc_modem_hal_get_time_in_ms := gets sr_uptime;
  smtc_rac_get_context := sim_context; rac_set_context := sim_set_context;
  smtc_rac_open_radio id := ret id; smtc_rac_submit_radio_transaction := sim_submit;
  smtc_rac_abort_radio_submit := sim_abort;
  smtc_modem_test_start := accepts; smtc_modem_test_stop := accepts;
  smtc_modem_test_rssi_lbt _ _ _ := accepts; smtc_modem_test_get_rssi _ := ret (SMTC_MODEM_RC_OK, -40);
  smtc_modem_test_tx_cw _ _ := accepts; smtc_modem_test_tx_lora _ := accepts; smtc_modem_test_nop _ := accepts;
  k_msgq_purge q := ([], q.2) : @msgq sim_zephyr rx_packet;
|}.
#[export] Instance sim_rac_ok : RacOk.
Proof. split; [intros id c l; cbn; unfold sim_context, sim_set_context; by destruct (id =? 3)|done]. Qed.

(** A device: the service, the backend, the modem, and a log of the callbacks. *)
Record device : Type := Device {
  d_p2p : p2p_vars; d_platform : usp_platform; d_radio : sim_radio; d_lora : lora_state;
  d_done : list Z; d_got : list (list Z);
}.
#[export] Instance device_usp : UspEnv device | 10 := {|
  platform_of := d_platform;
  set_platform p w := Device (d_p2p w) p (d_radio w) (d_lora w) (d_done w) (d_got w);
  lbm_of := d_radio : device -> @lbm radio_lbm;
  set_lbm l w := Device (d_p2p w) (d_platform w) l (d_lora w) (d_done w) (d_got w);
|}.
#[export] Instance device_usp_ok : UspEnvOk. Proof. by split. Qed.
#[export] Instance device_app : LoraEnv device | 10 := {|
  lora_of := d_lora;
  set_lora s w := Device (d_p2p w) (d_platform w) (d_radio w) s (d_done w) (d_got w);
  b_start := None; b_stop := None; b_apply_config := None; b_send := None; b_receive := None;
  b_test_rssi := None; b_test_get_rssi := None; b_test_tone := None; b_test_tx := None;
  b_test_rx := None; b_test_cw := None; b_test_stop := None; b_poll := None;
  run_tx_done _ e _ w :=
    (tt, Device (d_p2p w) (d_platform w) (d_radio w) (d_lora w) (d_done w ++ [e]) (d_got w));
  run_rx_done _ d _ _ _ _ w :=
    (tt, Device (d_p2p w) (d_platform w) (d_radio w) (d_lora w) (d_done w) (d_got w ++ [d]));
|}.
#[export] Instance device_app_ok : @LoraEnvOk device device_app. Proof. by split. Qed.
#[export] Instance device_p2p : UspLoraEnv device | 10 := {|
  p2p_of := d_p2p;
  set_p2p v w := Device v (d_platform w) (d_radio w) (d_lora w) (d_done w) (d_got w);
|}.
#[export] Instance device_ok : UspLoraOk. Proof. by split. Qed.

Definition no_context : smtc_rac_context_t :=
  RacContext None SMTC_RAC_SCHEDULING_other 0 None None 0 None 0 0 0 0.
Definition device_off : device :=
  Device (p2p_init ([], 2)) usp_platform_init (SimRadio no_context no_context [] [] 1000)
    (LoraState 0 0 config_default (LoraCallbacks 5 7 3) 0) [] [].
(** Runs of calls, with their results. *)
Fixpoint calls (l : list p2p_call) (w : device) : list (p2p_call * Z) * device :=
  match l with
  | [] => ([], w)
  | c :: l => let r := calls l (run_call c w).2 in ((c, (run_call c w).1) :: r.1, r.2)
  end.
Lemma calls_run l w : p2p_run w (calls l w).1 (calls l w).2.
Proof. revert w. induction l as [|c l IH]; intros w; [constructor|]. cbn. constructor. apply IH. Qed.
(** Two uplinks complete before the first poll. *)
Definition two_uplinks : list p2p_call :=
  [PStart 0; PApply config_default; PSend [1; 2] 2; PTxCallback RP_STATUS_TX_DONE; PSend [3] 1; PSend [4] 1;
   PTxCallback RP_STATUS_other; PTake; PRead; PTake].
Definition second_flying : device := (calls (take 5 two_uplinks) device_off).2.
Definition after_two : device := (calls two_uplinks device_off).2.
End UspLoraSim.

Module UspLoraWitness.
Export UspLoraSim.
Lemma device_booted : p2p_booted device_off.
Proof. split; [by exists ([], 2)|done]. Qed.
Lemma device_hooks (R : device -> device -> Prop) :
  (forall w e, R w (Device (d_p2p w) (d_platform w) (d_radio w) (d_lora w) e (d_got w))) ->
  (forall w g, R w (Device (d_p2p w) (d_platform w) (d_radio w) (d_lora w) (d_done w) g)) ->
  (forall f e u, respects R (run_tx_done f e u)) /\ (forall f d n r q u, respects R (run_rx_done f d n r q u)).
Proof. intros Hd Hg. split; intros; intros w; [apply Hd|apply Hg]. Qed.

Lemma usp_lora_clients_witness : @LoraClients device usp_lora_env.
Proof. apply usp_lora_clients. apply device_hooks; intros; apply rtc_refl. Defined.
Lemma p2p_refines_spec_witness : exists log, log_of (calls two_uplinks device_off).1 log /\
  pmoves pcore_boot log (PCore false 0 (- RZI_ERR_IO) false false).
Proof. exact (p2p_refines_spec device_off _ after_two device_booted (calls_run two_uplinks device_off)). Defined.
(** The third send is refused; poll reports the second uplink, and the report
    of the first is lost. *)
Lemma p2p_completions_reported_witness :
  snd <$> (calls two_uplinks device_off).1 = [0; 0; 0; 0; 0; - RZI_ERR_BUSY; 0; 1; - RZI_ERR_IO; 0] /\
  exists log, log_of (calls two_uplinks device_off).1 log /\
    flights false log = Some false /\ mailbox false 0 log = Some (false, - RZI_ERR_IO) /\
    count is_PTaken log <= count is_PEnd log.
Proof.
  split; [vm_refl|].
  exact (p2p_completions_reported device_off _ after_two device_booted (calls_run two_uplinks device_off)).
Defined.
Lemma p2p_radio_safe_witness :
  depth_of second_flying = 0 /\
  tx_buffer (p2p_of (run_call (PSend [7] 1) second_flying).2) = tx_buffer (p2p_of second_flying).
Proof.
  destruct (p2p_radio_safe device_off _ second_flying device_booted (calls_run (take 5 two_uplinks) device_off))
    as (_&Hd&Hb).
  split; [exact Hd|]. apply Hb. vm_refl.
Defined.

(** The service started, over this backend. *)
Definition ready : device := Eval vm_compute in (@rzi_lora_init _ device usp_lora_env 0 device_off).2.
Lemma usp_config_synced_witness : p_config (p2p_of ready) = config_default.
Proof.
  assert (Hs : synced (@run_lora _ device usp_lora_env (LInit 0) device_off).2).
  { apply usp_config_synced; [|intros Hs; by destruct Hs]. split; intros; intros w Hs; exact Hs. }
  assert (Hr : (@run_lora _ device usp_lora_env (LInit 0) device_off).2 = ready) by vm_refl.
  rewrite Hr in Hs. exact (Hs ltac:(discriminate)).
Defined.
Lemma usp_lora_send_outcomes_witness :
  take 2 (tx_buffer (p2p_of (@rzi_lora_send _ device usp_lora_env (Some [9; 8]) 2 ready).2)) = [9; 8] /\
  tx_busy (p2p_of (@rzi_lora_send _ device usp_lora_env (Some [9; 8]) 2 ready).2) = true.
Proof.
  pose proof (usp_lora_send_outcomes (ctx := thread_ctx) (app := device_app) [9; 8] 2 ready eq_refl) as Hs.
  destruct Hs as (_&_&Hs); [discriminate|split; discriminate|done|].
  destruct (Hs eq_refl eq_refl) as (Ht&Hb&_). split; [exact Ht|]. rewrite Hb. reflexivity.
Defined.

(** A reception of five seconds, interrupted two seconds in. *)
Definition later (ms : Z) (w : device) : device :=
  Device (d_p2p w) (d_platform w)
    (SimRadio (sr_tx (d_radio w)) (sr_rx (d_radio w)) (sr_flying (d_radio w)) (sr_log (d_radio w)) ms)
    (d_lora w) (d_done w) (d_got w).
Definition listening : device := (usp_receive 5000 ready).2.
Lemma rx_windows_end_at_deadline_witness :
  (exists window, 3000 + window = 1000 + 5000 /\ 0 < window <= 5000 /\
     submit_rx_window (later 3000 listening) = submit 4 false 0 window (later 3000 listening)) /\
  rx_active (p2p_of (on_rx_done RP_STATUS_RX_PACKET (later 3000 listening)).2) = false.
Proof.
  pose proof (rx_windows_end_at_deadline (app := device_app) 5000 ready ltac:(lia) ltac:(lia)) as Hr.
  destruct Hr as [_ Hv]; [reflexivity|].
  destruct (Hv (later 3000 listening)) as (Hw&_&He); [reflexivity..|discriminate|].
  split; [|by apply He]. destruct Hw as (window&H1&H2&H3&_); [reflexivity|]. by exists window.
Defined.
Definition minute : device := (usp_receive 65535 ready).2.
Lemma rx_continuous_goes_on_witness :
  rx_active (p2p_of (on_rx_done RP_STATUS_other minute).2) = true.
Proof. apply (rx_continuous_goes_on (app := device_app) RP_STATUS_other minute); reflexivity. Defined.

(** A completed uplink and two packets wait for poll. *)
Definition full_mailbox : device :=
  set_p2p (put_rx_queue ([RxPacket 1 0 0 [5]; RxPacket 2 0 0 [6; 7]], 2)
    (p2p_of (on_tx_done RP_STATUS_TX_DONE ready).2)) (on_tx_done RP_STATUS_TX_DONE ready).2.
Definition hearing : device :=
  Device (d_p2p full_mailbox) (d_platform full_mailbox) (d_radio full_mailbox)
    (put_callbacks (LoraCallbacks 5 7 3) (d_lora full_mailbox)) [] [].
Lemma usp_poll_delivers_witness :
  packets (usp_poll hearing).2 = [] /\ d_done (usp_poll hearing).2 = [0] /\
  d_got (usp_poll hearing).2 = [[5]; [6; 7]].
Proof.
  destruct (usp_poll_delivers ltac:(by apply device_hooks) hearing ltac:(done)) as (_&Hp&_&_).
  split; [exact Hp|]. split; vm_refl.
Defined.
Lemma sync_words_witness : lora_sync_byte (sx126x_sync_word 0x12) = 0x12.
Proof. apply (sync_words 0x12 config_default). split; [discriminate|reflexivity]. Defined.
End UspLoraWitness.
