(* ===== verification/SampleKernel.v ===== *)
(** * What the sample applications use of the kernel (src/samples)

    The samples are applications of the SDK: they log, let the system work queue
    run delayed items, and wait on semaphores.  Log lines are part of their
    state: format and arguments (the code where the program prints the text of
    an error).  The work queue and the blocking calls are parameters. *)
From S2P Require Import Prelude Zephyr.

Abbreviation K_NO_WAIT := (K_MSEC 0).
Definition K_SECONDS (s : Z) : k_timeout := K_MSEC (1000 * s).

(** ** Log lines *)
Inductive log_level : Type := INF | WRN | ERR.
#[export] Instance log_level_eq_dec : EqDecision log_level.
Proof. solve_decision. Defined.
Definition log_line : Type := log_level * string * list Z.
(** The arguments of the lines with this format, in order. *)
Definition lines_of (fmt : string) (l : list log_line) : list (list Z) :=
  snd <$> filter (fun x : log_line => x.1.2 = fmt) l.
Lemma lines_app fmt l l' : lines_of fmt (l ++ l') = lines_of fmt l ++ lines_of fmt l'.
Proof. unfold lines_of. by rewrite filter_app, fmap_app. Qed.
Lemma line_other v fmt fmt' args : fmt' <> fmt -> lines_of fmt [(v, fmt', args)] = [].
Proof. intros Hne. unfold lines_of. by rewrite filter_cons_False. Qed.

(** ** Delayed items on the system work queue *)
Class DelayedWork (item : Type) : Type := {
  sysq : Type;
  k_work_reschedule : item -> k_timeout -> M sysq Z;
  (* the queue's thread takes an expired item and runs its handler *)
  sysq_take : item -> sysq -> sysq;
}.
(** An item has a timer while it waits for its delay or for the thread; a
    reschedule replaces it.  Other items are left alone. *)
Class DelayedWorkOk (item : Type) `{EqDecision item} `{!DelayedWork item} : Type := {
  timer : sysq -> item -> option k_timeout;
  timer_reschedule i t j q : timer (k_work_reschedule i t q).2 j = if decide (j = i) then Some t else timer q j;
  timer_take i j q : j <> i -> timer (sysq_take i q) j = timer q j;
}.
