(* ===== verification/PeriodicalUplink.v ===== *)
(** * The periodical uplink sample (src/samples/lorawan/periodical_uplink/src/main.c)

    An application of the LoRaWAN service that does everything in its event
    callback and in two delayed work items: join, then one uplink after another,
    each with the value of a counter.  The definitions first; then the
    application as a transition system over any backend. *)
From S2P Require Import Prelude Zephyr Err Power Storage LorawanSettings LorawanBackend LorawanCore LorawanCredentials LorawanChannel LorawanApi Lorawan LorawanService LorawanFlows LorawanClient SampleKernel.

Definition LORAWAN_REGION : Z := RZI_LORAWAN_REGION_EU_868.
Definition LORAWAN_CLASS : Z := RZI_LORAWAN_CLASS_A.
Definition LORAWAN_ADR : bool := true.
Definition LORAWAN_DATA_RATE : Z := 5.
Definition RETRY_DELAY_MS : Z := 5000.
Definition UPLINK_INTERVAL_MS : Z := 60000.
Definition UPLINK_PORT : Z := 101.
Definition EU868_DUTY_CYCLE_CHECK : bool := LORAWAN_REGION =? RZI_LORAWAN_REGION_EU_868.

(** The two work items. *)
Inductive uplink_item : Type := join_work | uplink_work.
#[export] Instance uplink_item_eq_dec : EqDecision uplink_item.
Proof. solve_decision. Defined.
(** The credentials of the zephyr,user node of the devicetree. *)
Class UplinkBoard : Type := {
  user_lorawan_device_eui : list Z; user_lorawan_join_eui : list Z;
  user_lorawan_app_key : list Z; user_lorawan_gen_app_key : list Z;
}.

(** The file-scope variables, and the log. *)
Record uplink_vars `{DelayedWork uplink_item} : Type := UplinkVars {
  uplink_counter : Z; works : sysq; log : list log_line;
}.
Definition uplink_ext `{DelayedWork uplink_item} : LorawanExt := {| ext_state := uplink_vars |}.
(** The address of [on_event] and the initialiser of [callbacks]. *)
Abbreviation ON_EVENT := 1.
Definition callbacks : rzi_lorawan_callbacks := Callbacks ON_EVENT 0.

(** The lines the theorems look for. *)
Abbreviation join_accepted_text := "Join request accepted; waiting for Join-Accept"%string.
Abbreviation uplink_accepted_text := "Uplink %u accepted on port %d"%string.

Section sample.
Context `{Zephyr} `{Errno} `{Kconfig} {ctx : ExecCtx} `{LorawanBackend} `{!DelayedWork uplink_item} `{!UplinkBoard}.
#[local] Existing Instance uplink_ext.

Definition set_counter v x := UplinkVars _ v (works x) (log x).
Definition set_works v x := UplinkVars _ (uplink_counter x) v (log x).
Definition add_line v x := UplinkVars _ (uplink_counter x) (works x) (log x ++ [v]).
Definition upd_app (f : uplink_vars -> uplink_vars) : M world unit := modify (fun w => set_w_ext (f (w_ext w)) w).
Definition get_app {A} (f : uplink_vars -> A) : M world A := gets (fun w => f (w_ext w)).
Definition LOG (v : log_level) (fmt : string) (args : list Z) : M world unit := upd_app (add_line (v, fmt, args)).
Abbreviation LOG_INF := (LOG INF).
Abbreviation LOG_WRN := (LOG WRN).
Abbreviation LOG_ERR := (LOG ERR).
Definition reschedule (i : uplink_item) (delay : k_timeout) : M world unit :=
  upd_app (fun x => set_works (k_work_reschedule i delay (works x)).2 x).

(** *** [on_event], case by case *)
Definition on_joined : M world unit :=
  LOG_INF "Joined" [] ;;;
  let* rc := rzi_lorawan_set_class LORAWAN_CLASS in
  if negb (rc =? 0) then LOG_ERR "Class configuration failed: %s" [rc]
  else
    let* rc := (if LORAWAN_ADR then rzi_lorawan_set_adr true else rzi_lorawan_set_data_rate LORAWAN_DATA_RATE) in
    if negb (rc =? 0) then LOG_ERR "Data rate/ADR configuration failed: %s" [rc]
    else reschedule uplink_work K_NO_WAIT.
Definition on_join_failed : M world unit :=
  LOG_WRN "Join attempt failed; retry scheduled" [] ;;;
  let* '(rc, backoff) := rzi_lorawan_get_join_backoff (Some 0) in
  let backoff_s := default 0 backoff in
  (if (rc =? 0) && (0 <? backoff_s) then LOG_INF "Join backoff remaining: %u s" [backoff_s]
   else if negb (rc =? 0) && negb (rc =? - RZI_ERR_NOT_SUPPORTED) then LOG_WRN "Join backoff query failed: %s" [rc]
   else ret tt) ;;;
  reschedule join_work (K_MSEC RETRY_DELAY_MS).
Definition on_txdone (error : Z) : M world unit :=
  (if negb (error =? 0) then LOG_WRN "TXDONE: %s" [error] else LOG_INF "TXDONE" []) ;;;
  reschedule uplink_work (K_MSEC UPLINK_INTERVAL_MS).
Definition class_b_text (state : Z) : option string :=
  match state with
  | 0 => Some "CLASS_B: IDLE" | 1 => Some "CLASS_B: ACQUIRING_BEACON"
  | 2 => Some "CLASS_B: ACQUIRING_PING_SLOT" | 3 => Some "CLASS_B: SWITCHING"
  | 4 => Some "CLASS_B: ACTIVE" | _ => None
  end%string.
Definition on_duty_cycle (limited : bool) : M world unit :=
  LOG_INF (if limited then "REGIONAL_DUTY_CYCLE: limited" else "REGIONAL_DUTY_CYCLE: clear") [] ;;;
  if EU868_DUTY_CYCLE_CHECK && limited then
    let* '(rc, time) := rzi_lorawan_get_duty_cycle_status (Some 0) in
    let time_ms := default 0 time in
    if (rc =? 0) && (time_ms <? 0) then LOG_INF "Duty-cycle wait remaining: %lld ms" [- time_ms]
    else if negb (rc =? 0) && negb (rc =? - RZI_ERR_NOT_SUPPORTED) then LOG_WRN "Duty-cycle query failed: %s" [rc]
    else ret tt
  else ret tt.
Definition on_no_downlink (reasons : Z) : M world unit :=
  (if negb (Z.land reasons 1 =? 0) then LOG_WRN "NO_DOWNLINK_THRESHOLD: ADR backoff ended" [] else ret tt) ;;;
  (if negb (Z.land reasons 2 =? 0) then LOG_WRN "NO_DOWNLINK_THRESHOLD: user threshold reached" [] else ret tt).
Definition on_event (event : rzi_lorawan_event) : M world unit :=
  match event with
  | EVENT_READY => reschedule join_work K_NO_WAIT
  | EVENT_JOINED => on_joined
  | EVENT_JOIN_FAILED _ => on_join_failed
  | EVENT_TXDONE _ error => on_txdone error
  | EVENT_DOWNDATA d =>
      LOG_INF "DOWNDATA: port %u, %u bytes, RSSI %d dBm, SNR %d/4 dB"
        [dl_port d; u32 (dl_size d); dl_rssi_dbm d; dl_snr_quarter_db d]
  | EVENT_ERROR error => LOG_ERR "Error: %s" [error]
  | EVENT_LINK_CHECK r =>
      LOG_INF "LINK_CHECK: margin %u dB, %u gateways, RSSI %d dBm, SNR %d/4 dB"
        [demod_margin r; gateway_count r; lc_rssi_dbm r; lc_snr_quarter_db r]
  | EVENT_LORAWAN_MAC_TIME error =>
      if negb (error =? 0) then LOG_WRN "LORAWAN_MAC_TIME: %s" [error] else LOG_INF "LORAWAN_MAC_TIME" []
  | EVENT_CLASS_B state => match class_b_text state with Some t => LOG_INF t [] | None => ret tt end
  | EVENT_REGIONAL_DUTY_CYCLE limited => on_duty_cycle limited
  | EVENT_NO_DOWNLINK_THRESHOLD reasons => on_no_downlink reasons
  | EVENT_STATE_CHANGED _ => ret tt
  end.
(** The dispatcher finds [on_event]; the application attaches no services. *)
Definition uplink_hooks : LorawanHooks := {|
  run_callback f e _ := if f =? ON_EVENT then on_event e else ret tt;
  service_on_started _ := None; service_on_event _ := None;
|}.

(** *** The work handlers *)
Definition join_work_handler : M world unit :=
  let* rc := rzi_lorawan_join 1 0 RZI_LORAWAN_JOIN_INTERVAL_DEFAULT 0 in
  if negb (rc =? 0) then
    LOG_WRN "Join request rejected: %s; retry scheduled" [rc] ;;;
    reschedule join_work (K_MSEC RETRY_DELAY_MS)
  else LOG_INF join_accepted_text [].

(** Network byte order. *)
Definition uplink_payload (counter : Z) : list Z :=
  [u8 (Z.shiftr counter 24); u8 (Z.shiftr counter 16); u8 (Z.shiftr counter 8); u8 counter].
Definition send_counter : M world unit :=
  let* counter := get_app uplink_counter in
  let payload := uplink_payload counter in
  let* rc := rzi_lorawan_send UPLINK_PORT (Some payload) (zlen payload) RZI_LORAWAN_MSG_UNCONFIRMED in
  if negb (rc =? 0) then
    LOG_WRN "Uplink request rejected: %s; retry scheduled" [rc] ;;;
    reschedule uplink_work (K_MSEC RETRY_DELAY_MS)
  else
    let* counter := get_app uplink_counter in
    LOG_INF uplink_accepted_text [counter; UPLINK_PORT] ;;;
    upd_app (fun x => set_counter (u32 (uplink_counter x + 1)) x).
Definition uplink_work_handler : M world unit :=
  if EU868_DUTY_CYCLE_CHECK then
    let* '(rc, time) := rzi_lorawan_get_duty_cycle_status (Some 0) in
    let time_ms := default 0 time in
    if negb (rc =? 0) then
      LOG_WRN "Duty-cycle query failed: %s; retry scheduled" [rc] ;;;
      reschedule uplink_work (K_MSEC RETRY_DELAY_MS)
    else if time_ms <? 0 then
      let wait_ms := - time_ms in
      LOG_INF "Duty cycle limited; retry in %lld ms" [wait_ms] ;;;
      reschedule uplink_work (K_MSEC wait_ms)
    else send_counter
  else send_counter.

(** *** [main] *)
#[local] Existing Instance uplink_hooks.
Definition main : M world Z :=
  LOG_INF "RZI LoRaWAN periodical uplink (%d s) sample" [60] ;;;
  let* rc := cfg (storage rzi_init) in
  if negb (rc =? 0) then LOG_ERR "Init failed: %s" [rc] ;;; ret rc else
  let* rc := rzi_lorawan_register_callbacks (Some callbacks) in
  if negb (rc =? 0) then LOG_ERR "Callback registration failed: %s" [rc] ;;; ret rc else
  let* rc := rzi_lorawan_set_dev_eui (Some user_lorawan_device_eui) (zlen user_lorawan_device_eui) in
  if negb (rc =? 0) then LOG_ERR "Device EUI configuration failed: %s" [rc] ;;; ret rc else
  let* rc := rzi_lorawan_set_app_eui (Some user_lorawan_join_eui) (zlen user_lorawan_join_eui) in
  if negb (rc =? 0) then LOG_ERR "Join EUI configuration failed: %s" [rc] ;;; ret rc else
  let* rc := rzi_lorawan_set_app_key (Some user_lorawan_app_key) (zlen user_lorawan_app_key) in
  if negb (rc =? 0) then LOG_ERR "AppKey configuration failed: %s" [rc] ;;; ret rc else
  let* rc := rzi_lorawan_set_gen_app_key (Some user_lorawan_gen_app_key) (zlen user_lorawan_gen_app_key) in
  if negb (rc =? 0) then LOG_ERR "GenAppKey configuration failed: %s" [rc] ;;; ret rc else
  let* rc := rzi_lorawan_set_activation RZI_LORAWAN_ACTIVATION_OTAA in
  if negb (rc =? 0) then LOG_ERR "OTAA activation configuration failed: %s" [rc] ;;; ret rc else
  let* rc := rzi_lorawan_init LORAWAN_REGION in
  if negb (rc =? 0) then LOG_ERR "LoRaWAN init failed: %s" [rc] ;;; ret rc else
  ret 0.
End sample.

(** ** The application as a transition system *)
Section system.
Context `{SettingsOk} `{!BytesOk} `{!MsgqOk} `{Errno} `{Kconfig} `{!KconfigOk} {ctx : ExecCtx} `{LorawanBackend}
  `{!DelayedWork uplink_item} `{!DelayedWorkOk uplink_item} `{!UplinkBoard}.
#[local] Existing Instance uplink_ext.
#[local] Existing Instance uplink_hooks.

Definition log_of (w : world) : list log_line := log (w_ext w).
Definition timer_of (w : world) (i : uplink_item) : option k_timeout := timer (works (w_ext w)) i.
Definition counter_of (w : world) : Z := uplink_counter (w_ext w).
(** The lines a call that moved from [w] to [w'] has logged, and whether one has this format. *)
Definition new_lines (w w' : world) : list log_line := drop (length (log_of w)) (log_of w').
Definition says (fmt : string) (l : list log_line) : bool := bool_decide (lines_of fmt l <> []).

(** What the application waits for: the answer to an accepted start, join or uplink, which the
    backend has not given since; and whether an event was lost since the application last had
    something to run. *)
Record awaited : Type := Awaited { awaits_ready : bool; awaits_join : bool; awaits_tx : bool; dropped : bool }.
Definition ready_report (e : rzi_lorawan_backend_event) : bool := match e with BACKEND_READY => true | _ => false end.
Definition join_report (e : rzi_lorawan_backend_event) : bool :=
  match e with BACKEND_JOINED | BACKEND_JOIN_FAILED _ => true | _ => false end.
Definition tx_report (e : rzi_lorawan_backend_event) : bool := match e with BACKEND_TX_DONE _ _ => true | _ => false end.
Definition answer (e : rzi_lorawan_backend_event) : bool := ready_report e || join_report e || tx_report e.
(** The application has something to run: an item waits for its timer, or an answer is in the queue. *)
Definition runs (w : world) : bool :=
  existsb (fun i => bool_decide (timer_of w i <> None)) [join_work; uplink_work] || existsb answer (pending w).
(** An event found the queue full in a call that moved from [w] to [w']: the flag is up, or the
    dispatcher has taken it down and reported the loss (a backend that reports an overflow of its
    own counts as well).  What is published otherwise is in the queue ([published_or_flagged]). *)
Abbreviation error_text := "Error: %s"%string.
Definition loses (w w' : world) : bool :=
  (overflow (w_core w') =? 1) || existsb (fun args => bool_decide (args = [- RZI_ERR_OVERFLOW])) (lines_of error_text (new_lines w w')).
(** An answer that reaches the queue is no longer awaited.  Where an event was lost it may have been
    the answer, and nothing is known to be owed. *)
Definition settle (w w' : world) (a : awaited) : awaited :=
  let lines := new_lines w w' in
  let es := arrivals w w' in
  if loses w w' || dropped a then Awaited false false false (negb (runs w'))
  else Awaited (awaits_ready a && negb (existsb ready_report es))
    ((awaits_join a || says join_accepted_text lines) && negb (existsb join_report es))
    ((awaits_tx a || says uplink_accepted_text lines) && negb (existsb tx_report es)) false.
Definition moved (w w' : world) (a : awaited) : world * awaited := (w', settle w w' a).
Lemma published_or_flagged es w : let w' := (for_each es publish w).2 in
  overflow (w_core w') = 1 \/ pending w' = pending w ++ es.
Proof.
  cbn zeta. revert w. induction es as [|e es IH]; intros w; [right; cbn; by rewrite app_nil_r|].
  cbn [for_each]. rewrite bind_eq. pose proof (publish_pending e w) as Hp.
  assert (Hone : overflow (w_core (publish e w).2) = 1 \/ pending (publish e w).2 = pending w ++ [e]).
  { destruct (decide _) as [Hlt|Hge]; [by right|]. left. unfold publish, bind, zoom.
    destruct (msgq_put_full e (w_events w)) as [Hrc _]; [unfold pending in Hge; lia|].
    destruct (k_msgq_put e (w_events w)) as [rc q]. cbn [fst] in Hrc. apply Z.eqb_neq in Hrc. by rewrite Hrc. }
  clear Hp. assert (Hstay : forall l v, overflow (w_core v) = 1 -> overflow (w_core (for_each l publish v).2) = 1).
  { induction l as [|x l IHl]; intros v Hv; [done|]. cbn [for_each]. rewrite bind_eq. apply IHl.
    unfold publish, bind, zoom. destruct (k_msgq_put x (w_events v)) as [rc q]. by destruct (rc =? 0). }
  destruct Hone as [Hone|Hone]; [left; by apply Hstay|]. destruct (IH (publish e w).2) as [|Hr]; [by left|right].
  by rewrite Hr, Hone, <- app_assoc.
Qed.

(** The queue's thread takes an item whose timer ran out. *)
Definition take_item (i : uplink_item) : M world unit := upd_app (fun x => set_works (sysq_take i (works x)) x).
Definition run_item (i : uplink_item) : M world unit :=
  take_item i ;;; match i with join_work => join_work_handler | uplink_work => uplink_work_handler end.
(** The dispatcher handles the event at the head of the queue, [w0] being the
    state without it; an item runs; the backend moves and publishes. *)
Inductive app_step : world * awaited -> world * awaited -> Prop :=
| step_dispatch w a e q : k_msgq_get (w_events w) = (Some e, q) ->
    app_step (w, a) (moved (set_w_events q w) (dispatcher_step w).2 a)
| step_item w a i : timer_of w i <> None -> app_step (w, a) (moved w (run_item i w).2 a)
| step_backend w a b es :
    app_step (w, a) (moved w (for_each es publish (set_w_backend b w)).2 a).

(** *** Calm moves: the queue and the log grow, no timer stops *)
Definition calm (w w' : world) : Prop :=
  grows w w' /\ (exists l, log_of w' = log_of w ++ l) /\ (forall i, timer_of w i <> None -> timer_of w' i <> None).
#[export] Instance calm_preorder : PreOrder calm.
Proof.
  split; [intros w; split_and!; [reflexivity|exists []; by rewrite app_nil_r|done]|].
  intros a b c (Hg & (l & Hl) & Ht) (Hg' & (l' & Hl') & Ht'). split_and!; [by etransitivity| |auto].
  exists (l ++ l'). by rewrite Hl', Hl, app_assoc.
Qed.
Lemma ext_calm {A} (m : M world A) : keeps w_ext m -> respects grows m -> respects calm m.
Proof.
  intros Hx Hg w. specialize (Hx w). unfold same in Hx. split_and!; [apply Hg| |].
  - exists []. unfold log_of. by rewrite Hx, app_nil_r.
  - unfold timer_of. by rewrite Hx.
Qed.
#[export] Instance calm_effects : ServiceEffects calm.
Proof. split; [apply _|..]; intros; apply ext_calm; apply ext_effects || apply queue_effects. Qed.
Lemma LOG_calm v fmt args : respects calm (LOG v fmt args).
Proof. intros w. split_and!; [by apply same_grows|by eexists|done]. Qed.
Lemma reschedule_calm i t : respects calm (reschedule i t).
Proof.
  intros w. split_and!; [by apply same_grows|exists []; by rewrite app_nil_r|].
  intros j. unfold timer_of, reschedule. cbn. rewrite timer_reschedule. by destruct (decide _).
Qed.
Lemma on_event_calm e : respects calm (on_event e).
Proof.
  destruct e; cbn [on_event]; unfold on_joined, on_join_failed, on_txdone, on_duty_cycle, on_no_downlink, rzi_lorawan_set_adr.
  all: repeat first [frame_step | apply LOG_calm | apply reschedule_calm | apply set_class_moves; apply _
    | apply call_op_moves; apply _ | apply set_data_rate_moves; apply _ | apply network_get_moves; apply _].
Qed.

(** *** What the service needs of this application *)
Definition tidy (w : world) : Prop :=
  service_inv w /\ retries_of w = 0 /\ subscribers (w_slots w) = [callbacks] /\ w_services w = [].
Lemma tidy_quiet w w' : quietly w w' -> tidy w -> tidy w'.
Proof.
  intros [Ho _] (Hi & Hr & Hs & Hv). destruct (same_obs _ _ Ho) as (_ & Hr' & _ & Hs' & Hv' & _).
  split_and!; [by apply (obs_inv w)|congruence..].
Qed.
Lemma LOG_quiet v fmt args : respects quietly (LOG v fmt args).
Proof. by intros w. Qed.
Lemma reschedule_quiet i t : respects quietly (reschedule i t).
Proof. by intros w. Qed.
Lemma network_quiet {A} (op : option (getter backend_state A)) out : respects quietly (network_get op out).
Proof. unfold network_get, call_getter. frame. Qed.
Lemma data_rate_quiet d : respects quietly (rzi_lorawan_set_data_rate d).
Proof. unfold rzi_lorawan_set_data_rate, check_uplink_data_rate. frame. Qed.
#[local] Hint Resolve LOG_quiet reschedule_quiet network_quiet data_rate_quiet set_class_quiet call_op_quiet send_quiet : frame.
Lemma on_event_quiet e : respects quietly (on_event e).
Proof.
  destruct e; cbn [on_event]; unfold on_joined, on_join_failed, on_txdone, on_duty_cycle, on_no_downlink, rzi_lorawan_set_adr,
    rzi_lorawan_get_join_backoff, rzi_lorawan_get_duty_cycle_status; frame.
Qed.
Lemma uplink_handler_quiet : respects quietly uplink_work_handler.
Proof.
  assert (Hu : forall f, respects quietly (upd_app f)) by by intros f w.
  unfold uplink_work_handler, send_counter, get_app, rzi_lorawan_get_duty_cycle_status. frame; apply Hu.
Qed.

(** The join request of the sample asks for no retries. *)
Definition attempts_kept (w w' : world) : Prop :=
  loaded (w_cred w) = true -> loaded (w_cred w') = true /\ join_attempts (w_cred w') = join_attempts (w_cred w).
#[local] Instance attempts_preorder : PreOrder attempts_kept.
Proof. split; [by intros w|]. intros a b c Hab Hbc Hl. destruct (Hab Hl) as [Hb <-]. by apply Hbc. Qed.
Lemma same_cred_kept {A} (m : M world A) : (forall w, loaded (w_cred w) = true -> w_cred (m w).2 = w_cred w) ->
  respects attempts_kept m.
Proof. intros Hm w Hl. by rewrite (Hm w Hl). Qed.
Lemma begin_join_kept : respects attempts_kept begin_join.
Proof.
  assert (Hg : forall (f : credential_store -> Z), respects attempts_kept (get_loaded f (Some 0))).
  { intros f. apply same_cred_kept. intros w Hl. by apply (get_loaded_spec f 0 w). }
  assert (Hp : forall e, respects attempts_kept (publish e)).
  { intros e. apply same_cred_kept. intros w _. apply (sinks_cred _ _ (publish_sinks e w)). }
  assert (Hc : forall A (op : bop backend_state A), respects attempts_kept (call op)).
  { intros A op. apply same_cred_kept. intros w _. apply (sinks_cred _ _ (call_sinks op w)). }
  assert (Hb : respects attempts_kept rzi_lorawan_credentials_build_config).
  { apply same_cred_kept. intros w Hl. by apply build_config_spec. }
  assert (Ha : forall b, respects attempts_kept (rzi_lorawan_credentials_set_join_active b)) by by intros b w.
  assert (Hu : forall f, respects attempts_kept (upd_core f)) by by intros f w.
  unfold begin_join, rzi_lorawan_get_activation, rzi_lorawan_get_join_attempts, clear_join_sequence, publish_state, get_core.
  repeat first [frame_step | apply Hg | apply Hp | apply Hc | apply Hb | apply Ha | apply Hu].
Qed.
Lemma update_policy_attempts a i n w : 0 <= n ->
  (rzi_lorawan_credentials_update_policy a i n w).1 = 0 ->
  let w' := (rzi_lorawan_credentials_update_policy a i n w).2 in
  loaded (w_cred w') = true /\ join_attempts (w_cred w') = u8 n.
Proof.
  intros Hn. destruct (rzi_lorawan_credentials_update_policy a i n w) as [rc w'] eqn:E. cbn [fst snd]. revert E.
  unfold rzi_lorawan_credentials_update_policy, bind. rewrite check_thread_run.
  destruct k_is_in_isr; [by intros [= <- <-]|]. cbn [Z.eqb]. destruct (negb _); [by intros [= <- <-]|].
  destruct (ensure_loaded_spec w) as (_ & Hl & _). unfold wp in Hl.
  destruct (ensure_loaded_locked w) as [rc1 w1]. cbn [fst snd] in *.
  destruct (Z.eqb_spec rc1 0) as [->|]; [|by intros [= <- <-]].
  specialize (Hl eq_refl). unfold get_cred, gets, persist, setting_write. rewrite cfg_run.
  destruct (Z.eqb_spec (rzi_lorawan_setting_write "join_policy" (merged_policy a i n (w_cred w1)) 3 (w_cfg w1)).1 0) as [E|E];
    [|by intros [= <- <-]].
  intros [= <- <-] _. cbn [upd_cred modify fst snd w_cred set_w_cred set_w_cfg put_policy loaded join_attempts]. split; [done|].
  unfold merged_policy, at_. cbn [nth Z.to_nat Pos.to_nat Pos.iter_op Nat.add]. by destruct (Z.eqb_spec n (-1)); [lia|].
Qed.
Lemma join_retries w : join_ok w -> retries_of w = 0 ->
  retries_of (rzi_lorawan_join 1 0 RZI_LORAWAN_JOIN_INTERVAL_DEFAULT 0 w).2 = 0.
Proof.
  intros Hj Hr. unfold rzi_lorawan_join, bind at 1. rewrite check_thread_run. destruct k_is_in_isr; [done|].
  cbn [Z.eqb Pos.eqb negb andb]. unfold bind at 1, get_core, gets.
  destruct (join_sequence_active (w_core w) =? 0); cbn [negb]; [|done].
  pose proof (update_policy_attempts 0 RZI_LORAWAN_JOIN_INTERVAL_DEFAULT 0 w ltac:(lia)) as Ha.
  pose proof (quiet_obs _ (update_policy_quiet 0 RZI_LORAWAN_JOIN_INTERVAL_DEFAULT 0) w) as Hq. unfold same in Hq.
  unfold bind at 1.
  destruct (rzi_lorawan_credentials_update_policy 0 RZI_LORAWAN_JOIN_INTERVAL_DEFAULT 0 w) as [rc w1]. cbn [fst snd] in *.
  destruct (same_obs _ _ Hq) as (_ & Hr1 & _). destruct (Z.eqb_spec rc 0) as [->|]; [|cbn; congruence].
  destruct (Ha eq_refl) as [Hl Hz]. unfold bind at 1, check_context. rewrite check_started_run. destruct (_ =? 0); [|cbn; congruence].
  pose proof (begin_join_kept w1 Hl) as [_ Hk]. destruct (begin_join w1) as [rc2 w2] eqn:E. cbn [snd] in *.
  assert (Hj1 : join_ok w1) by (unfold join_ok, obs in *; injection Hq as -> -> -> _ _ _; exact Hj).
  destruct (begin_join_spec w1 rc2 w2 Hj1 E) as [Hok Hbad]. destruct (decide (rc2 = 0)) as [Hz2|Hne].
  - destruct (Hok Hz2) as (_ & _ & _ & -> & _). by rewrite Hk, Hz.
  - destruct (same_obs _ _ (Hbad Hne)) as (_ & -> & _). congruence.
Qed.

Lemma tidy_view w w' : client_view w' = client_view w -> service_inv w' -> retries_of w' = 0 -> tidy w -> tidy w'.
Proof. unfold client_view. intros [= _ Hs Hv] Hi Hr (_ & _ & Hs0 & Hv0). split_and!; [done|done|by rewrite Hs|by rewrite Hv]. Qed.
Lemma handler_tidy i : preserves tidy (run_item i).
Proof.
  assert (Hq : forall A (m : M world A), respects quietly m -> preserves tidy m) by (intros A m Hm w; apply tidy_quiet, Hm).
  assert (Ht : preserves tidy (take_item i)) by by apply Hq.
  unfold run_item. apply preserves_bind; [done|]. intros _. destruct i; [|apply Hq, uplink_handler_quiet].
  unfold join_work_handler. apply preserves_bind.
  - intros w Hw. apply (tidy_view w); [apply (join_moves (same client_view))| | |done].
    + apply join_inv, Hw.
    + apply join_retries; [apply Hw|apply Hw].
  - intros rc. apply Hq. frame.
Qed.

(** *** Dispatch *)
(** With this one subscriber and no retries left, a dispatched event calls
    [on_event] with its public form. *)
Lemma swallow_tidy e w : tidy w ->
  exists w1, swallow_join_event e w = (false, w1) /\ calm w w1 /\ tidy w1.
Proof.
  intros Hw. pose proof (swallow_result e w) as Hr. pose proof (swallow_moves calm e w) as Hc.
  pose proof (swallow_moves (same client_view) e w) as Hv. pose proof (swallow_inv e w (proj1 Hw)) as Hi.
  assert (Hz : retries_of (swallow_join_event e w).2 = 0).
  { destruct Hw as (_ & Hz & _). unfold swallow_join_event. destruct e; try done.
    unfold bind at 1, get_core, gets. destruct (_ =? 0); [done|]. unfold bind at 1, gets.
    change (join_retries_remaining (w_core w)) with (retries_of w). rewrite Hz. cbn [Z.ltb Z.compare].
    unfold bind at 1. destruct (clear_join_sequence w) as [u w1] eqn:E.
    assert (Hw1 : retries_of w1 = 0) by by injection E as _ <-.
    unfold bind at 1. pose proof (quiet_obs _ (call_quiet (op_leave _ (base _ rzi_lorawan_backend))) w1) as Hq1.
    destruct (call _ w1) as [rc w2]. pose proof (quiet_obs _ (publish_state_quiet STATE_READY) w2) as Hq2.
    unfold bind at 1. destruct (publish_state STATE_READY w2) as [u3 w3]. unfold same in *. cbn [snd ret] in *.
    destruct (same_obs _ _ Hq1) as (_ & R1 & _), (same_obs _ _ Hq2) as (_ & R2 & _). congruence. }
  destruct (swallow_join_event e w) as [b w1]. cbn [fst snd] in *. exists w1. split_and!; [|done|by apply (tidy_view w)].
  rewrite Hr. f_equal. unfold retried. destruct Hw as (_ & Hz0 & _). rewrite Hz0. destruct e; try done. apply andb_false_r.
Qed.
Lemma dispatch_run e w : tidy w -> exists w1, calm w w1 /\ tidy w1 /\
  (dispatch e w).2 = match public_event e with Some p => (on_event p w1).2 | None => w1 end.
Proof.
  intros Hw. destruct (swallow_tidy e w Hw) as (w1 & Hs & Hc1 & Hw1). exists (event_from_backend e w1).2.
  pose proof (event_moves calm e w1) as Hc2. pose proof (tidy_quiet _ _ (event_from_backend_quiet e w1) Hw1) as Hw2.
  split; [by etransitivity|]. split; [done|].
  unfold dispatch, bind at 1, gets. destruct Hw as (_ & _ & Hsub & _). rewrite Hsub. unfold bind at 1. rewrite Hs.
  unfold bind at 1. assert (He : (event_from_backend e w1).1 = public_event e) by by destruct e.
  destruct (event_from_backend e w1) as [d w2]. cbn [fst snd] in *. rewrite He.
  unfold deliver_public. cbn [for_each]. destruct (public_event e) as [p|]; cbn.
  - unfold bind. cbn. pose proof (tidy_quiet _ _ (on_event_quiet p w2) Hw2) as (_ & _ & _ & Hv).
    destruct (on_event p w2) as [u w3]. cbn [snd ret gets] in *. by rewrite Hv.
  - unfold bind. cbn. destruct Hw2 as (_ & _ & _ & Hv). by rewrite Hv.
Qed.
Lemma dispatch_calm e w : tidy w -> calm w (dispatch e w).2 /\ tidy (dispatch e w).2.
Proof.
  intros Hw. destruct (dispatch_run e w Hw) as (w1 & Hc & Hw1 & ->). destruct (public_event e) as [p|]; [|done].
  split; [etransitivity; [exact Hc|apply on_event_calm]|by apply (tidy_quiet w1), Hw1; apply on_event_quiet].
Qed.
(** The rest of the dispatcher's round: the report of lost events. *)
Lemma dispatcher_rest e q w : k_msgq_get (w_events w) = (Some e, q) -> tidy w ->
  let w1 := (dispatch e (set_w_events q w)).2 in
  tidy w1 /\ calm w1 (dispatcher_step w).2 /\ tidy (dispatcher_step w).2.
Proof.
  intros Hget Hw. cbv zeta. set (w0 := set_w_events q w). assert (Hw0 : tidy w0) by done.
  destruct (dispatch_calm e w0 Hw0) as [_ Ht1]. split; [done|].
  rewrite (dispatcher_run _ _ _ Hget). fold w0. unfold bind, get_core, gets.
  destruct (dispatch e w0) as [u w1]. cbn [snd] in *. destruct (overflow (w_core w1) =? 1); [|done].
  assert (Hl : calm w1 (upd_core (set_overflow 0) w1).2) by apply (effect_core (R := calm)).
  assert (Ht2 : tidy (upd_core (set_overflow 0) w1).2) by (by destruct Ht1).
  destruct (upd_core (set_overflow 0) w1) as [u2 w2]. cbn [snd] in *.
  destruct (dispatch_calm (BACKEND_ERROR (- RZI_ERR_OVERFLOW)) w2 Ht2) as [Hc3 Ht3].
  destruct (dispatch _ w2) as [u3 w3]. cbn [snd ret] in *. split; [by etransitivity|done].
Qed.

(** *** Something always comes next *)
Abbreviation class_failed_text := "Class configuration failed: %s"%string.
Abbreviation rate_failed_text := "Data rate/ADR configuration failed: %s"%string.
(** A session setting failed after a join: the README's only way to stop. *)
Definition halted (w : world) : Prop :=
  lines_of class_failed_text (log_of w) <> [] \/ lines_of rate_failed_text (log_of w) <> [].
(** An item waits for its timer, or an answer waits for the dispatcher. *)
Definition active (w : world) : Prop :=
  halted w \/ (exists i, timer_of w i <> None) \/ Exists (fun e => answer e = true) (pending w).
Definition alive (s : world * awaited) : Prop :=
  active s.1 \/ awaits_ready s.2 = true \/ awaits_join s.2 = true \/ awaits_tx s.2 = true \/ dropped s.2 = true.
Lemma runs_active w : runs w = true -> active w.
Proof.
  unfold runs. cbn [existsb]. intros [Ht|Ha]%orb_true_iff.
  - right. left. rewrite orb_false_r in Ht. apply orb_true_iff in Ht as [Ht|Ht]; apply bool_decide_eq_true in Ht; by eexists.
  - right. right. apply existsb_exists in Ha as (e & Hin & He). apply Exists_exists. exists e. by rewrite list_elem_of_In.
Qed.
Lemma calm_active w w' : calm w w' -> active w -> active w'.
Proof.
  intros ((es & Hes) & (l & Hl) & Ht) [Hh|[[i Hi]|Hp]].
  - left. unfold halted in *. rewrite Hl, !lines_app.
    destruct Hh as [Hh|Hh]; [left|right]; by intros [? _]%app_nil.
  - right. left. exists i. auto.
  - right. right. rewrite Hes. apply Exists_app. by left.
Qed.
Lemma answered_pending f w w' : (forall e, f e = true -> answer e = true) -> grows w w' ->
  existsb f (arrivals w w') = true -> active w'.
Proof.
  intros Hf Hg (e & Hin & He)%existsb_exists. right. right. rewrite (arrivals_split _ _ Hg). apply Exists_app. right.
  apply Exists_exists. exists e. split; [by apply list_elem_of_In|auto].
Qed.
Lemma answers : (forall e, ready_report e = true -> answer e = true) /\ (forall e, join_report e = true -> answer e = true) /\
  (forall e, tx_report e = true -> answer e = true).
Proof. by split_and!; intros []. Qed.
(** Waiting, or having just asked, ends only with the answer in the queue, or with a loss. *)
Lemma moved_alive w w' a : grows w w' ->
  awaits_ready a = true \/ awaits_join a = true \/ awaits_tx a = true \/
  says join_accepted_text (new_lines w w') = true \/ says uplink_accepted_text (new_lines w w') = true \/ dropped a = true ->
  alive (moved w w' a).
Proof.
  intros Hg Ha. unfold alive, moved, settle. destruct answers as (Hr & Hj & Ht).
  destruct (loses w w' || dropped a) eqn:El; cbn [fst snd awaits_ready awaits_join awaits_tx dropped].
  { destruct (runs w') eqn:Er; [left; by apply runs_active|auto]. }
  apply orb_false_iff in El as [_ Hd].
  destruct (existsb ready_report (arrivals w w')) eqn:Er; [left; by apply (answered_pending _ w w' Hr)|].
  destruct (existsb join_report (arrivals w w')) eqn:Ej; [left; by apply (answered_pending _ w w' Hj)|].
  destruct (existsb tx_report (arrivals w w')) eqn:Et; [left; by apply (answered_pending _ w w' Ht)|].
  right. destruct Ha as [->|[->|[->|[->|[->|Ha]]]]]; rewrite ?orb_true_r; auto. congruence.
Qed.
Lemma calm_alive w w' a : calm w w' -> alive (w, a) -> alive (moved w w' a).
Proof.
  intros Hc [Ha|Ha]; [left; by apply (calm_active w)|]. apply moved_alive; [apply Hc|]. cbn in Ha. tauto.
Qed.

Lemma reschedule_active i t w : active (reschedule i t w).2.
Proof. right. left. exists i. unfold timer_of, reschedule. cbn. rewrite timer_reschedule. by rewrite decide_True. Qed.
Lemma then_reschedule {A} (m : M world A) i t w : active ((m ;;; reschedule i t) w).2.
Proof. unfold bind. destruct (m w) as [a w1]. apply reschedule_active. Qed.
Lemma failed_halts v fmt args w : fmt = class_failed_text \/ fmt = rate_failed_text -> active (LOG v fmt args w).2.
Proof.
  intros Hf. left. unfold halted, log_of. cbn [LOG upd_app modify snd w_ext set_w_ext add_line log]. rewrite !lines_app.
  destruct Hf as [->| ->]; [left|right]; by intros [_ ?]%app_nil.
Qed.
(** Every answer makes the application go on. *)
Lemma on_answer e p w : answer e = true -> public_event e = Some p -> active (on_event p w).2.
Proof.
  intros He Hp. destruct e; try done; injection Hp as <-; cbn [on_event].
  - apply reschedule_active.
  - unfold on_joined. unfold bind at 1. destruct (LOG _ _ _ w) as [u w1]. unfold bind at 1.
    destruct (rzi_lorawan_set_class LORAWAN_CLASS w1) as [rc w2]. destruct (negb _); [apply failed_halts; auto|].
    unfold bind. cbn [LORAWAN_ADR]. destruct (rzi_lorawan_set_adr true w2) as [rc2 w3].
    destruct (negb _); [apply failed_halts; auto|apply reschedule_active].
  - unfold on_join_failed. unfold bind at 1. destruct (LOG _ _ _ w) as [u w1]. unfold bind at 1.
    destruct (rzi_lorawan_get_join_backoff (Some 0) w1) as [[rc b] w2]. apply then_reschedule.
  - apply then_reschedule.
Qed.

(** *** The handlers *)
Definition taken (i : uplink_item) (w : world) : world := (take_item i w).2.
Lemma new_lines_app w w' l : log_of w' = log_of w ++ l -> new_lines w w' = l.
Proof. unfold new_lines. intros ->. by rewrite drop_app_length. Qed.
Lemma keeps_log {A} (m : M world A) w : keeps w_ext m -> log_of (m w).2 = log_of w.
Proof. intros Hm. unfold log_of. by rewrite (Hm w). Qed.
(** The join handler logs one line: the request is accepted, or refused and
    scheduled again. *)
Lemma join_handler_outcome w : let w' := (join_work_handler w).2 in
  active w' \/ log_of w' = log_of w ++ [(INF, join_accepted_text, [])].
Proof.
  cbn zeta. unfold join_work_handler. set (m := rzi_lorawan_join _ _ _ _). rewrite bind_eq.
  assert (Hl : w_ext (m w).2 = w_ext w) by apply (join_moves (same w_ext)).
  destruct (m w) as [rc w1]. cbn [fst snd] in *. destruct (negb _).
  - left. apply then_reschedule.
  - right. unfold log_of. by rewrite <- Hl.
Qed.
Lemma send_counter_outcome w : let w' := (send_counter w).2 in
  active w' \/ (log_of w' = log_of w ++ [(INF, uplink_accepted_text, [counter_of w; UPLINK_PORT])] /\
                 counter_of w' = u32 (counter_of w + 1)).
Proof.
  cbn zeta. unfold send_counter. rewrite bind_eq. cbn [get_app gets fst snd].
  set (m := rzi_lorawan_send _ _ _ _). rewrite bind_eq.
  assert (Hl : w_ext (m w).2 = w_ext w) by apply (send_moves (same w_ext)).
  destruct (m w) as [rc w1]. cbn [fst snd] in *. destruct (negb _).
  - left. apply then_reschedule.
  - right. unfold log_of, counter_of. by rewrite <- Hl.
Qed.
Lemma uplink_handler_outcome w : let w' := (uplink_work_handler w).2 in
  active w' \/ (exists w1, w_ext w1 = w_ext w /\ w' = (send_counter w1).2 /\
    log_of w' = log_of w ++ [(INF, uplink_accepted_text, [counter_of w; UPLINK_PORT])] /\
    counter_of w' = u32 (counter_of w + 1)).
Proof.
  cbn zeta. unfold uplink_work_handler. cbn [EU868_DUTY_CYCLE_CHECK LORAWAN_REGION Z.eqb].
  set (m := rzi_lorawan_get_duty_cycle_status _). rewrite bind_eq.
  assert (Hx : w_ext (m w).2 = w_ext w) by apply (network_get_moves (same w_ext)).
  destruct (m w) as [[rc time] w1]. cbn [fst snd] in *.
  destruct (negb _); [left; apply then_reschedule|]. destruct (default 0 time <? 0); [left; apply then_reschedule|].
  destruct (send_counter_outcome w1) as [?|Hl]; [by left|]. right. exists w1. split; [done|]. split; [done|].
  revert Hl. unfold log_of, counter_of. by rewrite Hx.
Qed.
Lemma handler_grows i : respects grows (run_item i).
Proof.
  assert (Hu : forall f, respects grows (upd_app f)) by (intros f w; by apply same_grows).
  unfold run_item, take_item, join_work_handler, uplink_work_handler, send_counter, get_app, LOG, reschedule,
    rzi_lorawan_get_duty_cycle_status.
  repeat first [frame_step | apply Hu | apply join_moves; apply _ | apply send_moves; apply _ | apply network_get_moves; apply _].
Qed.
Lemma item_alive i w a : alive (moved w (run_item i w).2 a).
Proof.
  pose proof (handler_grows i w) as Hg. unfold run_item, bind in *. change (take_item i w) with (tt, taken i w) in *.
  cbv beta iota in *. destruct i.
  - destruct (join_handler_outcome (taken join_work w)) as [Ha|Hl]; [by left|].
    apply moved_alive; [done|]. do 3 right. left. by rewrite (new_lines_app w _ _ Hl).
  - destruct (uplink_handler_outcome (taken uplink_work w)) as [Ha|(w1 & _ & _ & Hl & _)]; [by left|].
    apply moved_alive; [done|]. do 4 right. left. by rewrite (new_lines_app w _ _ Hl).
Qed.

(** *** [main] *)
(** What a start may change of the service. *)
Definition starts (w w' : world) : Prop :=
  (sequence_of w', retries_of w', locked_of w', w_slots w', w_services w') =
    (sequence_of w, retries_of w, locked_of w, w_slots w, w_services w) /\
  (started (w_core w) = 0 \/ started (w_core w) = 1 -> started (w_core w') = 0 \/ started (w_core w') = 1).
#[local] Instance starts_preorder : PreOrder starts.
Proof.
  split; [by intros w|]. intros a b c [Hab Sab] [Hbc Sbc]. split; [congruence|auto].
Qed.
Lemma quiet_starts {A} (m : M world A) : respects quietly m -> respects starts m.
Proof.
  intros Hm w. destruct (same_obs _ _ (proj1 (Hm w))) as (Hs & Hr & Hl & Hsl & Hsv & Hst).
  split; [congruence|by rewrite Hst].
Qed.
Lemma init_starts r : respects starts (rzi_lorawan_init r).
Proof.
  assert (Hv : forall v, v = 0 \/ v = 1 -> respects starts (upd_core (set_started v))) by (intros v Hv w; by split).
  assert (Hr : forall v, respects starts (upd_core (set_region v))) by (intros v w; by split).
  assert (Hp : forall s, respects starts (publish_state s)) by (intros s; apply quiet_starts, publish_state_quiet).
  assert (Hc : forall A (op : bop backend_state A), respects starts (call op)) by (intros A op; apply quiet_starts, call_quiet).
  assert (Hs : forall v, respects starts (rzi_lorawan_config_set_region v)) by (intros v; apply quiet_starts, cfg_quiet).
  unfold rzi_lorawan_init, get_core. cbn [service_on_started uplink_hooks].
  repeat first [frame_step | apply Hp | apply Hc | apply Hs | apply Hr | apply Hv; auto].
  by intros w.
Qed.
Lemma tidy_starts w w' : starts w w' -> tidy w -> tidy w'.
Proof.
  unfold starts. intros [[= Hs Hr Hl Hsl Hsv] Hst] ((Hj & Hslots & Hn & Hstd) & Hz & Hsub & Hv).
  unfold sequence_of, retries_of, locked_of in *. unfold tidy, service_inv, join_ok, retries_of.
  rewrite Hs, Hr, Hl, Hsl, Hsv. split_and!; try done; by apply Hst || apply Hj.
Qed.
(** The state at boot: nothing registered, attached, logged or joined. *)
Definition unregistered (w : world) : Prop :=
  service_inv w /\ retries_of w = 0 /\ subscribers (w_slots w) = [] /\ w_services w = [].
Definition fresh (w : world) : Prop := unregistered w /\ log_of w = [] /\ counter_of w = 0.
Lemma register_tidy w : unregistered w -> (rzi_lorawan_register_callbacks (Some callbacks) w).1 = 0 ->
  tidy (rzi_lorawan_register_callbacks (Some callbacks) w).2.
Proof.
  intros (Hi & Hr & Hsub & Hsv) Hrc. pose proof (register_inv (Some callbacks) w Hi) as Hi'.
  destruct (register_spec callbacks w (proj1 (proj2 Hi))) as [(Hne & _)|(_ & _ & _ & slots & Heq & _ & Hp)]; [done|].
  rewrite Heq in *. split_and!; [done|done| |done]. rewrite Hsub in Hp.
  by apply Permutation_singleton_r in Hp.
Qed.
Lemma main_grows : respects grows main.
Proof.
  assert (Hu : forall f, respects grows (upd_app f)) by (intros f w; by apply same_grows).
  assert (Hreg : respects grows (rzi_lorawan_register_callbacks (Some callbacks))).
  { intros w. unfold rzi_lorawan_register_callbacks. destruct k_is_in_isr; [done|]. cbn. mrun.
    destruct (scan_slots _ _ _ _) as [[k|] []]; done || by apply same_grows. }
  assert (Hi : forall r, respects grows (rzi_lorawan_init r)) by (intros r; by apply init_moves; [apply _|]).
  unfold main, LOG, rzi_lorawan_set_dev_eui, rzi_lorawan_set_app_eui, rzi_lorawan_set_app_key, rzi_lorawan_set_gen_app_key.
  repeat first [frame_step | apply Hu | apply Hreg | apply Hi | apply effect_cfg | apply set_bytes_moves; apply _
    | apply set_activation_moves; apply _].
Qed.

Lemma credentials_quiet F k v l n : (forall x c, join_active (f_put F x c) = join_active c) -> respects starts (set_bytes F k v l n).
Proof. intros HF. by apply quiet_starts, set_bytes_quiet. Qed.
Lemma main_tidy w : unregistered w -> (main w).1 = 0 -> tidy (main w).2.
Proof.
  intros Hw. unfold main. rewrite bind_eq. set (w1 := (LOG _ _ _ w).2). assert (Hw1 : unregistered w1) by done.
  rewrite bind_eq, cfg_run. cbn [fst snd]. set (w2 := set_w_cfg _ w1). assert (Hw2 : unregistered w2) by done.
  destruct (negb (_ =? 0)) eqn:E; [rewrite bind_eq; cbn; by rewrite negb_true_iff, Z.eqb_neq in E|]. clear E.
  rewrite bind_eq. pose proof (register_tidy w2 Hw2) as Ht. destruct (rzi_lorawan_register_callbacks _ w2) as [rc w3]. cbn [fst snd] in *.
  destruct (Z.eqb_spec rc 0) as [->|]; cbn [negb]; [|by rewrite bind_eq]. intros _. specialize (Ht eq_refl).
  match goal with |- tidy (?m w3).2 => assert (Hm : respects starts m); [|by apply (tidy_starts w3), Ht; apply Hm] end.
  assert (Hl : forall v fmt args, respects starts (LOG v fmt args)) by (intros; apply quiet_starts, LOG_quiet).
  repeat first [frame_step | apply Hl | apply credentials_quiet; done | apply quiet_starts, set_activation_quiet | apply init_starts].
Qed.
(** The application once [main] has returned. *)
Definition booted (w : world) : world * awaited := moved w (main w).2 (Awaited true false false false).

Lemma step_tidy s s' : app_step s s' -> tidy s.1 -> tidy s'.1.
Proof.
  intros [w a e q Hget|w a i _|w a b es] Hw; cbn [moved fst] in *.
  - by apply (dispatcher_rest e q).
  - by apply handler_tidy.
  - apply (tidy_quiet (set_w_backend b w)), Hw. apply respects_for_each; [apply _|]. intros e. apply publish_quiet.
Qed.
Lemma step_alive s s' : app_step s s' -> tidy s.1 -> alive s -> alive s'.
Proof.
  intros [w a e q Hget|w a i _|w a b es] Hw Ha; cbn [fst] in *.
  - destruct (dispatcher_rest e q w Hget Hw) as (_ & Hc & _). set (w0 := set_w_events q w) in *.
    assert (Hw0 : tidy w0) by done. destruct (dispatch_calm e w0 Hw0) as [Hc0 _].
    assert (Hp : pending w = e :: pending w0).
    { unfold pending. destruct (msgq_get_ok (w_events w)) as [Hh Ht]. rewrite Hget in Hh, Ht. cbn [fst snd] in *.
      cbn [w_events set_w_events w0]. rewrite Ht. by destruct (msgq_list (w_events w)); [|injection Hh as ->]. }
    assert (Hcase : alive (w0, a) \/ answer e = true).
    { destruct Ha as [[Ha|[Ha|Ha]]|Ha]; [left; left; by left|left; left; right; by left| |by left; right].
      cbn [fst] in Ha. rewrite Hp in Ha. apply Exists_cons in Ha as [Ha|Ha]; [by right|left; left; right; by right]. }
    destruct Hcase as [Hal|He]; [apply calm_alive, Hal; by etransitivity|]. left. apply (calm_active _ _ Hc).
    destruct (dispatch_run e w0 Hw0) as (w1 & _ & _ & ->). assert (Hpub : is_Some (public_event e)) by by destruct e.
    destruct Hpub as [p Hpub]. rewrite Hpub. by apply (on_answer e).
  - apply item_alive.
  - apply calm_alive, Ha. assert (Hr : respects calm (for_each es publish)).
    { apply respects_for_each; [apply _|]. intros e. apply (effect_publish (R := calm)). }
    specialize (Hr (set_w_backend b w)). exact Hr.
Qed.

(** C23: The application never stalls of its own accord: in every state it can reach
    from its start, whatever the backend does and in whatever order events,
    work items and the backend act, an item waits for its timer, or an answer
    waits for the dispatcher, or the backend owes the answer to an accepted
    start, join or uplink and has lost none; unless a session setting failed
    after a join, or an event was lost in the full queue since the application
    last had something to run ([lost_answer_stalls] in UplinkFlows.v: it can
    have been the answer). *)
Theorem uplinks_never_stall w s : fresh w -> (main w).1 = 0 -> rtc app_step (booted w) s -> alive s.
Proof.
  intros [Hw _] Hrc Hr.
  assert (Hstart : tidy (booted w).1 /\ alive (booted w)).
  { split; [by apply main_tidy|]. apply moved_alive; [apply main_grows|by left]. }
  revert Hstart. induction Hr as [s|s s1 s2 Hs _ IH]; [by intros [_ ?]|]. intros [Ht Ha].
  apply IH. split; [by apply (step_tidy s)|by apply (step_alive s)].
Qed.

(** *** The counter *)
(** The accepted uplinks of the log, and the variable. *)
Definition count_view (w : world) : list (list Z) * Z := (lines_of uplink_accepted_text (log_of w), counter_of w).
#[export] Instance count_effects : ServiceEffects (same count_view).
Proof. apply effects_via. intros w w' E. unfold count_view, log_of, counter_of. by rewrite E. Qed.
Lemma LOG_count v fmt args : fmt <> uplink_accepted_text -> keeps count_view (LOG v fmt args).
Proof.
  intros Hf w. unfold same, count_view, log_of. cbn [LOG upd_app modify snd w_ext set_w_ext add_line log].
  by rewrite lines_app, line_other, app_nil_r.
Qed.
Lemma class_b_text_other n t : class_b_text n = Some t -> t <> uplink_accepted_text.
Proof. unfold class_b_text. repeat case_match; by intros [= <-]. Qed.
Ltac count := repeat first
  [ frame_step | apply LOG_count; done | by intros ? | apply set_class_moves; apply _ | apply call_op_moves; apply _
  | apply set_data_rate_moves; apply _ | apply network_get_moves; apply _ | apply join_moves; apply _
  | apply swallow_moves; apply _ | apply event_moves; apply _ | apply effect_core ].
Lemma on_event_count e : keeps count_view (on_event e).
Proof.
  destruct e; cbn [on_event]; try (unfold on_joined, on_join_failed, on_txdone, on_duty_cycle, on_no_downlink, rzi_lorawan_set_adr;
    count; done).
  - destruct (class_b_text state) as [t|] eqn:E; [by eapply LOG_count, class_b_text_other|count].
  - unfold on_duty_cycle, rzi_lorawan_get_duty_cycle_status. destruct limited; count.
Qed.
Lemma dispatch_count e : keeps count_view (dispatch e).
Proof.
  unfold dispatch, deliver_public, deliver_services. cbn [run_callback service_on_event uplink_hooks].
  count; apply on_event_count.
Qed.
Lemma dispatcher_count : keeps count_view dispatcher_step.
Proof.
  unfold dispatcher_step, get_core. apply respects_bind; [apply _| |].
  - intros w. unfold zoom. by destruct (k_msgq_get (w_events w)).
  - intros e. count; apply dispatch_count.
Qed.
Lemma item_count i w : count_view (run_item i w).2 = count_view w \/
  (i = uplink_work /\ count_view (run_item i w).2 =
     ((count_view w).1 ++ [[counter_of w; UPLINK_PORT]], u32 (counter_of w + 1))).
Proof.
  unfold run_item. rewrite bind_eq. change (count_view w) with (count_view (taken i w)).
  change (counter_of w) with (counter_of (taken i w)). change (take_item i w).2 with (taken i w). generalize (taken i w).
  clear w. intros w. destruct i.
  - left. unfold join_work_handler. revert w. change (keeps count_view (let* rc := rzi_lorawan_join 1 0 8 0 in
      if negb (rc =? 0) then LOG WRN "Join request rejected: %s; retry scheduled" [rc];;; reschedule join_work (K_MSEC RETRY_DELAY_MS)
      else LOG INF join_accepted_text [])). count.
  - set (m := rzi_lorawan_get_duty_cycle_status (Some 0)). unfold uplink_work_handler. cbn [EU868_DUTY_CYCLE_CHECK LORAWAN_REGION Z.eqb].
    fold m. rewrite bind_eq. assert (Hm : w_ext (m w).2 = w_ext w) by apply (network_get_moves (same w_ext)).
    assert (Hrest : forall v fmt args t, fmt <> uplink_accepted_text ->
      keeps count_view (LOG v fmt args ;;; reschedule uplink_work t)) by (intros; count; by apply LOG_count).
    assert (Hc : count_view (m w).2 = count_view w) by (unfold count_view, log_of, counter_of; by rewrite Hm).
    assert (Hn : counter_of (m w).2 = counter_of w) by (by injection Hc).
    rewrite <- Hc, <- Hn. destruct (m w) as [[rc time] w1]. cbn [fst snd].
    destruct (negb _); [left; by apply Hrest|]. destruct (default 0 time <? 0); [left; by apply Hrest|].
    unfold send_counter. rewrite bind_eq. cbn [get_app gets fst snd]. set (k := rzi_lorawan_send _ _ _ _). rewrite bind_eq.
    assert (Hk : w_ext (k w1).2 = w_ext w1) by apply (send_moves (same w_ext)). destruct (k w1) as [rc2 w2]. cbn [fst snd] in *.
    assert (Hc2 : count_view w2 = count_view w1) by (unfold count_view, log_of, counter_of; by rewrite Hk).
    destruct (negb _); [left; rewrite <- Hc2; by apply Hrest|]. right. split; [done|].
    rewrite <- Hc2. assert (Hn2 : counter_of w1 = counter_of w2) by (unfold counter_of; by rewrite Hk). rewrite Hn2.
    transitivity (lines_of uplink_accepted_text (log_of w2 ++ [(INF, uplink_accepted_text, [counter_of w2; UPLINK_PORT])]),
      u32 (counter_of w2 + 1)); [done|by rewrite lines_app].
Qed.
(** [n] uplinks were accepted, numbered from zero. *)
Definition numbered (n : nat) (v : list (list Z) * Z) : Prop :=
  v = ((fun i => [u32 (Z.of_nat i); UPLINK_PORT]) <$> seq 0 n, u32 (Z.of_nat n)).
Lemma step_numbered s s' : app_step s s' -> forall n, numbered n (count_view s.1) ->
  exists m, numbered m (count_view s'.1).
Proof.
  intros [w a e q Hget|w a i _|w a b es] n Hn; cbn [moved fst] in *.
  - exists n. by rewrite (dispatcher_count w).
  - destruct (item_count i w) as [->|(_ & ->)]; [by exists n|]. exists (S n). unfold numbered in *.
    injection Hn as Hl Hc. cbn [count_view fst]. rewrite Hl, Hc, seq_S, fmap_app. f_equal.
    rewrite Nat2Z.inj_succ. unfold u32. by rewrite Zplus_mod_idemp_l.
  - exists n. assert (Hk : keeps count_view (for_each es publish)) by (apply respects_for_each; [apply _|intros; apply effect_publish]).
    by rewrite (Hk (set_w_backend b w)).
Qed.
Lemma main_count : keeps count_view main.
Proof.
  assert (Hreg : keeps count_view (rzi_lorawan_register_callbacks (Some callbacks))).
  { intros w. unfold rzi_lorawan_register_callbacks. destruct k_is_in_isr; [done|]. cbn. mrun.
    by destruct (scan_slots _ _ _ _) as [[k|] []]. }
  assert (Hi : forall r, keeps count_view (rzi_lorawan_init r)) by (intros r; by apply init_moves; [apply _|]).
  unfold main, rzi_lorawan_set_dev_eui, rzi_lorawan_set_app_eui, rzi_lorawan_set_app_key, rzi_lorawan_set_gen_app_key.
  repeat first [frame_step | apply LOG_count; done | apply Hreg | apply Hi | apply effect_cfg
    | apply set_bytes_moves; apply _ | apply set_activation_moves; apply _].
Qed.
(** In every state the application can reach from its start. *)
Lemma reachable_numbered w s : fresh w -> rtc app_step (booted w) s -> exists n, numbered n (count_view s.1).
Proof.
  intros (_ & Hl & Hc) Hr.
  assert (Hstart : exists n, numbered n (count_view (booted w).1)).
  { exists 0%nat. unfold booted, moved. cbn [fst]. rewrite (main_count w). unfold numbered, count_view. by rewrite Hl, Hc. }
  revert Hstart. induction Hr as [s|s s1 s2 Hs _ IH]; intros [n Hn]; [by exists n|by apply IH, (step_numbered s _ Hs n)].
Qed.
End system.
