(* ===== verification/UplinkFlows.v ===== *)
(** * The periodical uplink sample over backends, and concrete runs

    What an accepted uplink hands to the backend, what the loss of an answer
    does, the sample over a backend that cannot tell its duty cycle, and an
    executable schedule of the system for the witnesses. *)
From S2P Require Import Prelude Zephyr Err Power Storage LorawanSettings LorawanBackend LorawanSim LorawanCore LorawanCredentials LorawanChannel LorawanApi Lorawan LorawanService LorawanFlows LorawanClient BackendView ZephyrBackend ZephyrFlows SampleKernel PeriodicalUplink.

(** The number a network server reads from a payload. *)
Definition payload_value (l : list Z) : Z := foldl (fun v b => 256 * v + b) 0 l.
Lemma payload_roundtrip c : 0 <= c < 4294967296 -> payload_value (uplink_payload c) = c.
Proof.
  intros Hc. unfold payload_value, uplink_payload, u8. cbn [foldl]. rewrite !Z.shiftr_div_pow2 by lia.
  change (2 ^ 24) with (256 * 256 * 256). change (2 ^ 16) with (256 * 256). change (2 ^ 8) with 256.
  rewrite <- !Z.div_div by lia. Z.div_mod_to_equations. lia.
Qed.

Lemma payload_bytes c : Forall (fun x => 0 <= x < 256) (uplink_payload c).
Proof. unfold uplink_payload, u8. repeat constructor; apply Z.mod_pos_bound; lia. Qed.

Section flows.
Context `{SettingsOk} `{!BytesOk} `{!MsgqOk} `{Errno} `{Kconfig} `{!KconfigOk} {ctx : ExecCtx} `{LorawanBackend}
  `{!DelayedWork uplink_item} `{!DelayedWorkOk uplink_item} `{!UplinkBoard}.
#[local] Existing Instance uplink_ext.
#[local] Existing Instance uplink_hooks.
Abbreviation base_ops := (base _ rzi_lorawan_backend).

(** A refusal: nothing accepted, the handler scheduled again. *)
Definition refused (w w' : world) : Prop :=
  counter_of w' = counter_of w /\ lines_of uplink_accepted_text (new_lines w w') = [] /\ timer_of w' uplink_work <> None.
Lemma retry_refused v fmt args t w w1 : fmt <> uplink_accepted_text -> log_of w1 = log_of w -> counter_of w1 = counter_of w ->
  refused w ((LOG v fmt args ;;; reschedule uplink_work t) w1).2.
Proof.
  intros Hf Hl Hc. split_and!; [done| |].
  - rewrite (new_lines_app _ _ [(v, fmt, args)]); [by rewrite line_other|]. by rewrite <- Hl.
  - rewrite bind_eq. unfold timer_of, reschedule. cbn. rewrite timer_reschedule. by rewrite decide_True.
Qed.
Lemma ext_view w w1 : w_ext w1 = w_ext w -> log_of w1 = log_of w /\ counter_of w1 = counter_of w /\ timer_of w1 = timer_of w.
Proof. unfold log_of, counter_of, timer_of. by intros ->. Qed.

(** The uplink handler, run by its timer: either nothing is accepted and the
    handler is scheduled again, or the backend accepted an unconfirmed uplink on
    port 101 whose four bytes are the counter in network order, the line is
    logged and the counter moves on; then nothing is scheduled, it is TXDONE
    that schedules the next uplink. *)
Lemma uplink_handler_accepts w : 0 <= counter_of w < 4294967296 ->
  let w' := (run_item uplink_work w).2 in
  (counter_of w' = counter_of w /\ lines_of uplink_accepted_text (new_lines w w') = [] /\ timer_of w' uplink_work <> None) \/
  (exists payload b, payload_value payload = counter_of w /\ length payload = 4%nat /\ Forall (fun x => 0 <= x < 256) payload /\
     (op_send _ base_ops 101 (Some payload) 4 RZI_LORAWAN_MSG_UNCONFIRMED b).1.1 = 0 /\
     backend_of w' = (op_send _ base_ops 101 (Some payload) 4 RZI_LORAWAN_MSG_UNCONFIRMED b).2 /\
     lines_of uplink_accepted_text (new_lines w w') = [[counter_of w; 101]] /\
     counter_of w' = u32 (counter_of w + 1) /\ timer_of w' join_work = timer_of w join_work).
Proof.
  intros Hrange. cbn zeta. unfold run_item. rewrite bind_eq. change (take_item uplink_work w).2 with (taken uplink_work w).
  set (w0 := taken uplink_work w). unfold uplink_work_handler. cbn [EU868_DUTY_CYCLE_CHECK LORAWAN_REGION Z.eqb].
  set (m := rzi_lorawan_get_duty_cycle_status (Some 0)). rewrite bind_eq.
  assert (Hm : w_ext (m w0).2 = w_ext w0) by apply (network_get_moves (same w_ext)).
  destruct (m w0) as [[rc time] w1]. cbn [fst snd] in *. destruct (ext_view _ _ Hm) as (Hl & Hc & Ht).
  destruct (negb _); [left; by apply retry_refused|]. destruct (default 0 time <? 0); [left; by apply retry_refused|].
  unfold send_counter. rewrite bind_eq. cbn [get_app gets fst snd]. change (uplink_counter (w_ext w1)) with (counter_of w1).
  rewrite Hc. change (counter_of w0) with (counter_of w). set (payload := uplink_payload (counter_of w)).
  change (zlen payload) with 4. rewrite bind_eq.
  pose proof (send_moves (same w_ext) UPLINK_PORT (Some payload) 4 RZI_LORAWAN_MSG_UNCONFIRMED w1) as Hs.
  pose proof (send_reaches_backend (fun _ => tt) ltac:(by split_and!) UPLINK_PORT (Some payload) 4 RZI_LORAWAN_MSG_UNCONFIRMED w1) as Hb.
  destruct (rzi_lorawan_send _ _ _ _ w1) as [rc2 w2]. cbn [fst snd] in *. unfold same in Hs.
  destruct (ext_view _ _ Hs) as (Hl2 & Hc2 & Ht2).
  destruct (Z.eqb_spec rc2 0) as [->|]; cbn [negb]; [|left; apply retry_refused; [done|by rewrite Hl2, Hl|by rewrite Hc2, Hc]].
  right. destruct (Hb eq_refl) as (_ & b & _ & Hop & Hst). exists payload, b. split_and!; [by apply payload_roundtrip|done|apply payload_bytes|done|done| | |].
  - rewrite (new_lines_app _ _ [(INF, uplink_accepted_text, [counter_of w2; UPLINK_PORT])]).
    + by rewrite Hc2, Hc.
    + transitivity (log_of w2 ++ [(INF, uplink_accepted_text, [counter_of w2; UPLINK_PORT])]); [done|]. by rewrite Hl2, Hl.
  - transitivity (u32 (counter_of w2 + 1)); [done|]. by rewrite Hc2, Hc.
  - transitivity (timer_of w2 join_work); [done|]. rewrite Ht2, Ht. unfold timer_of, w0, taken, take_item. cbn. by rewrite timer_take.
Qed.

(** C24: The uplinks the service accepts carry consecutive counters: in every state
    the application can reach from its start, whatever is refused, retried or
    lost on the way, the log of accepted uplinks is 0, 1, 2, ... on port 101
    (modulo 2^32), and the variable is the next number.  From there the join
    item accepts no uplink; and the uplink item either accepts none, leaves the
    counter and is scheduled again, or hands the backend an unconfirmed uplink
    on port 101 whose four bytes are the counter in network order, which the
    backend accepts, and the counter is logged and moves on. *)
Theorem uplinks_numbered w s : fresh w -> rtc app_step (booted w) s ->
  (exists n, lines_of uplink_accepted_text (log_of s.1) = (fun i => [u32 (Z.of_nat i); UPLINK_PORT]) <$> seq 0 n /\
    counter_of s.1 = u32 (Z.of_nat n)) /\
  count_view (run_item join_work s.1).2 = count_view s.1 /\
  let w' := (run_item uplink_work s.1).2 in
  (counter_of w' = counter_of s.1 /\ lines_of uplink_accepted_text (new_lines s.1 w') = [] /\ timer_of w' uplink_work <> None) \/
  (exists payload b, payload_value payload = counter_of s.1 /\ length payload = 4%nat /\ Forall (fun x => 0 <= x < 256) payload /\
     (op_send _ base_ops 101 (Some payload) 4 RZI_LORAWAN_MSG_UNCONFIRMED b).1.1 = 0 /\
     backend_of w' = (op_send _ base_ops 101 (Some payload) 4 RZI_LORAWAN_MSG_UNCONFIRMED b).2 /\
     lines_of uplink_accepted_text (new_lines s.1 w') = [[counter_of s.1; 101]] /\
     counter_of w' = u32 (counter_of s.1 + 1) /\ timer_of w' join_work = timer_of s.1 join_work).
Proof.
  intros Hf Hr. destruct (reachable_numbered w s Hf Hr) as [n Hn]. injection Hn as Hlog Hc. split_and!.
  - by exists n.
  - by destruct (item_count join_work s.1) as [->|[? _]].
  - apply uplink_handler_accepts. rewrite Hc. apply Z.mod_pos_bound. lia.
Qed.

(** *** A lost answer *)
(** Events on which the application only logs. *)
Definition only_logged (e : rzi_lorawan_backend_event) : bool :=
  match e with
  | BACKEND_DOWNLINK _ | BACKEND_ERROR _ | BACKEND_STATE_CHANGED _ | BACKEND_LINK_CHECK _ | BACKEND_DEVICE_TIME _
  | BACKEND_CLASS_B _ | BACKEND_NO_DOWNLINK _ => true
  | _ => false
  end.
(** The timers, the queue and the backend. *)
Definition outlook (w : world) := (works (w_ext w), w_events w, w_backend w).
Lemma LOG_outlook v fmt args : keeps outlook (LOG v fmt args).
Proof. by intros w. Qed.
Lemma dispatch_logged e : only_logged e = true -> keeps outlook (dispatch e).
Proof.
  intros He w. unfold dispatch, same. rewrite bind_eq. cbn [gets fst snd].
  assert (Hs : swallow_join_event e w = (false, w)) by by destruct e.
  rewrite bind_eq, Hs. cbn [fst snd]. rewrite bind_eq.
  assert (Hev : (event_from_backend e w).1 = public_event e) by by destruct e.
  assert (Ho : outlook (event_from_backend e w).2 = outlook w) by by destruct e.
  rewrite Hev, <- Ho. generalize (event_from_backend e w).2. apply (respects_bind (same outlook)).
  - unfold deliver_public. cbn [run_callback uplink_hooks].
    destruct e; try done; cbn [public_event on_event]; unfold on_no_downlink;
      repeat first [frame_step | apply LOG_outlook].
  - intros _. unfold deliver_services. cbn [service_on_event uplink_hooks]. frame.
Qed.
Lemma dispatcher_logged e rest w : pending w = e :: rest -> only_logged e = true ->
  let w' := (dispatcher_step w).2 in
  works (w_ext w') = works (w_ext w) /\ pending w' = rest /\ w_backend w' = w_backend w.
Proof.
  intros Hp He. cbn zeta. unfold pending in Hp. destruct (msgq_get_ok (w_events w)) as [Hh Ht]. rewrite Hp in Hh, Ht. cbn in Hh, Ht.
  destruct (k_msgq_get (w_events w)) as [h q] eqn:Hget. cbn [fst snd] in *. subst h. rewrite (dispatcher_run e q w Hget).
  match goal with |- context [(?m (set_w_events q w)).2] => assert (Hk : keeps outlook m) end.
  { assert (Hc : forall f, keeps outlook (upd_core f)) by by intros f v.
    unfold get_core. repeat first [frame_step | apply Hc | by apply dispatch_logged]. }
  specialize (Hk (set_w_events q w)). unfold same, outlook in Hk. injection Hk as E1 E2 E3.
  split_and!; [done| |done]. unfold pending. by rewrite E2.
Qed.
(** [n] rounds of the dispatcher. *)
Fixpoint rounds (n : nat) (w : world) : world := match n with O => w | S n => rounds n (dispatcher_step w).2 end.
Lemma rounds_logged w : forall es, pending w = es -> Forall (fun e => only_logged e = true) es ->
  let w' := rounds (length es) w in works (w_ext w') = works (w_ext w) /\ pending w' = [] /\ w_backend w' = w_backend w.
Proof.
  cbn zeta. intros es. revert w. induction es as [|e es IH]; intros w Hp He; [done|]. cbn [length rounds].
  apply Forall_cons in He as [He Hes]. destruct (dispatcher_logged e es w Hp He) as (Hw & Hp' & Hb).
  destruct (IH _ Hp' Hes) as (-> & -> & ->). done.
Qed.
(** An event that finds the queue full, an answer like any other, is lost for good: the overflow is
    reported, but the application only logs that report.  Once the dispatcher has
    emptied the queue no timer runs and nothing is on its way, so the next
    uplink (or join) is never requested. *)
Theorem lost_answer_stalls e w :
  msgq_max (w_events w) <= zlen (pending w) -> Forall (fun e => only_logged e = true) (pending w) ->
  (forall i, timer_of w i = None) ->
  let w' := rounds (length (pending w)) (publish e w).2 in
  (forall i, timer_of w' i = None) /\ pending w' = [] /\ overflow (w_core (publish e w).2) = 1.
Proof.
  intros Hfull Hlog Htimers. cbn zeta.
  assert (Hp : pending (publish e w).2 = pending w).
  { rewrite publish_pending, decide_False by lia. by rewrite app_nil_r. }
  destruct (rounds_logged (publish e w).2 (pending w) Hp Hlog) as (Hw & Hq & _).
  split_and!; [|done|].
  - intros i. unfold timer_of in *. rewrite Hw. destruct (publish_sinks e w) as (b & q & o & ->). apply Htimers.
  - unfold publish, bind, zoom. destruct (msgq_put_full e (w_events w) Hfull) as [Hrc _].
    destruct (k_msgq_put e (w_events w)) as [rc q]. cbn [fst] in Hrc. apply Z.eqb_neq in Hrc. by rewrite Hrc.
Qed.

(** *** A backend that cannot tell its duty cycle *)
Section no_query.
Context (Hnone : NETWORK_OP (op_get_duty_cycle_status _) = None).
Lemma no_query_retries w : let w' := (run_item uplink_work w).2 in
  w_backend w' = w_backend w /\ timer_of w' uplink_work = Some (K_MSEC 5000) /\ count_view w' = count_view w.
Proof.
  cbn zeta. unfold run_item. rewrite bind_eq. unfold uplink_work_handler. cbn [EU868_DUTY_CYCLE_CHECK LORAWAN_REGION Z.eqb].
  set (w0 := (take_item uplink_work w).2). set (m := rzi_lorawan_get_duty_cycle_status (Some 0)).
  assert (Hm : exists rc v, m w0 = ((rc, v), w0) /\ rc <> 0).
  { unfold m, rzi_lorawan_get_duty_cycle_status. rewrite Hnone. unfold network_get, bind. rewrite check_started_run.
    destruct k_is_in_isr; [by eexists _, _|]. destruct (started _ =? 0); by eexists _, _. }
  destruct Hm as (rc & v & Hm & Hrc). rewrite bind_eq, Hm. cbn [fst snd]. apply Z.eqb_neq in Hrc. rewrite Hrc. cbn [negb].
  split_and!; [done| |].
  - rewrite bind_eq. unfold timer_of, reschedule. cbn. rewrite timer_reschedule. by rewrite decide_True.
  - transitivity (count_view w0); [|done]. rewrite bind_eq. cbn [reschedule upd_app modify snd].
    by rewrite <- (LOG_count WRN "Duty-cycle query failed: %s; retry scheduled" [rc] ltac:(done) w0).
Qed.
Lemma no_query_step s s' : app_step s s' -> numbered 0 (count_view s.1) -> numbered 0 (count_view s'.1).
Proof.
  intros Hs Hn. destruct Hs as [w a e q Hget|w a i _|w a b es]; cbn [moved fst] in *.
  - by rewrite (dispatcher_count w).
  - destruct (item_count i w) as [->|(-> & _)]; [done|]. destruct (no_query_retries w) as (_ & _ & ->). done.
  - assert (Hk : keeps count_view (for_each es publish)) by (apply respects_for_each; [apply _|intros; apply effect_publish]).
    by rewrite (Hk (set_w_backend b w)).
Qed.
Lemma never_accepted w s : fresh w -> rtc app_step (booted w) s -> lines_of uplink_accepted_text (log_of s.1) = [].
Proof.
  intros (_ & Hl & Hc) Hr.
  assert (Hstart : numbered 0 (count_view (booted w).1)).
  { unfold booted, moved. cbn [fst]. rewrite (main_count w). unfold numbered, count_view. by rewrite Hl, Hc. }
  revert Hstart. induction Hr as [s|s s1 s2 Hs _ IH]; intros Hn; [by injection Hn|]. by apply IH, (no_query_step s).
Qed.
End no_query.
End flows.

(** ** Over the Zephyr backend *)
Section zephyr.
Context `{SettingsOk} `{!BytesOk} `{!MsgqOk} `{Errno} `{Kconfig} `{!KconfigOk} `{ZephyrBackendConfig} `{ZephyrLorawan} `{!WorkQueue}
  {ctx : ExecCtx} `{!DelayedWork uplink_item} `{!DelayedWorkOk uplink_item} `{!UplinkBoard}.
#[local] Existing Instance zephyr_lorawan.
#[local] Existing Instance uplink_ext.
#[local] Existing Instance uplink_hooks.
Lemma zephyr_no_query : NETWORK_OP (op_get_duty_cycle_status _) = None.
Proof. done. Qed.
(** The uplinks accepted so far. *)
Definition accepted_uplinks (s : world * awaited) : list (list Z) := lines_of uplink_accepted_text (log_of s.1).
(** C25: The Zephyr backend has no duty-cycle query.  [uplink_work_handler] takes the
    answer "not supported" for a failure, other than the event callback, and
    tries again after five seconds: over this backend the sample never requests
    an uplink, in any execution. *)
Theorem zephyr_never_uplinks w s : fresh w -> rtc app_step (booted w) s ->
  accepted_uplinks s = [] /\
  (forall w1, let w2 := (run_item uplink_work w1).2 in
     backend_of w2 = backend_of w1 /\ timer_of w2 uplink_work = Some (K_MSEC 5000)).
Proof.
  intros Hf Hr. split; [by apply (never_accepted zephyr_no_query w)|]. intros w1. destruct (no_query_retries zephyr_no_query w1) as (? & ? & _). done.
Qed.
End zephyr.

(** ** Running a schedule *)
Inductive uplink_act : Type := ADispatch | AItem (i : uplink_item) | AReport (es : list rzi_lorawan_backend_event).
Section exec.
Context `{Zephyr} `{!MsgqOk} `{Errno} `{Kconfig} {ctx : ExecCtx} `{LorawanBackend}
  `{!DelayedWork uplink_item} `{!DelayedWorkOk uplink_item}.
#[local] Existing Instance uplink_ext.
#[local] Existing Instance uplink_hooks.
(** One scheduled step; [None] when it is not enabled. *)
Definition exec1 (x : uplink_act) (s : world * awaited) : option (world * awaited) :=
  let '(w, a) := s in
  match x with
  | ADispatch =>
      match k_msgq_get (w_events w) with
      | (Some _, q) => Some (moved (set_w_events q w) (dispatcher_step w).2 a)
      | _ => None
      end
  | AItem i => match timer_of w i with Some _ => Some (moved w (run_item i w).2 a) | None => None end
  | AReport es => Some (moved w (for_each es publish (set_w_backend (w_backend w) w)).2 a)
  end.
Fixpoint exec (l : list uplink_act) (s : world * awaited) : option (world * awaited) :=
  match l with
  | [] => Some s
  | x :: l => match exec1 x s with Some s1 => exec l s1 | None => None end
  end.
Lemma schedule_sound l s s' : exec l s = Some s' -> rtc app_step s s'.
Proof.
  revert s. induction l as [|x l IH]; cbn [exec]; [by intros s [= ->]|]. intros s.
  destruct (exec1 x s) as [s1|] eqn:E; [|done]. intros Hl. eapply rtc_l; [|by apply IH]. clear IH Hl.
  destruct s as [w a], x as [|i|es]; unfold exec1 in E.
  - destruct (k_msgq_get (w_events w)) as [[e|] q] eqn:Hg; [|done]. injection E as <-. by apply (step_dispatch w a e).
  - destruct (timer_of w i) eqn:Ht; [|done]. injection E as <-. apply step_item. by rewrite Ht.
  - injection E as <-. apply step_backend.
Qed.
End exec.

Module UplinkWitness.
Export Instances.
(** A work queue that remembers delays, and a board. *)
#[export] Instance sim_work : DelayedWork uplink_item | 10 := {|
  sysq := option k_timeout * option k_timeout;
  k_work_reschedule i t q := (1, match i with join_work => (Some t, q.2) | uplink_work => (q.1, Some t) end);
  sysq_take i q := match i with join_work => (None, q.2) | uplink_work => (q.1, None) end;
|}.
#[export] Instance sim_work_ok : DelayedWorkOk uplink_item.
Proof.
  refine {| timer := fun (q : @sysq _ sim_work) i => match i with join_work => q.1 | uplink_work => q.2 end |};
    [by intros [] t [] q|by intros [] [] q Hne].
Defined.
#[export] Instance sim_board : UplinkBoard | 10 :=
  {| user_lorawan_device_eui := replicate 8 1; user_lorawan_join_eui := replicate 8 2;
     user_lorawan_app_key := replicate 16 3; user_lorawan_gen_app_key := replicate 16 4 |}.

(** The backend of LorawanSim.v, which also tells that the duty cycle is free. *)
Definition free_network : rzi_lorawan_network_ops sim_backend := {|
  op_get_adr := None; op_set_adr := Some (fun _ => sim_do (SimClass 0) []); op_get_data_rate := None; op_set_data_rate := None;
  op_get_enabled_data_rates := None; op_get_adr_profile := None; op_set_adr_profile := None; op_get_nb_trans := None;
  op_set_nb_trans := None; op_get_adr_ack := None; op_set_adr_ack := None; op_set_join_data_rates := None;
  op_get_duty_cycle_status := Some (sim_get (fun _ => 0)); op_get_join_backoff := None; op_get_public_network := None;
  op_set_public_network := None; op_get_lbt := None; op_set_lbt := None; op_get_lbt_rssi := None; op_set_lbt_rssi := None;
  op_get_lbt_scan_time := None; op_set_lbt_scan_time := None; op_get_csma := None; op_set_csma := None;
  op_get_csma_params := None; op_set_csma_params := None; op_get_lost_connection_count := None;
  op_get_no_downlink_threshold := None; op_set_no_downlink_threshold := None; op_get_crystal_error := None;
  op_set_crystal_error := None; op_send_empty := None; op_query_tx_possible := None |}.
#[export] Instance free_backend : LorawanBackend | 10 := {|
  backend_state := sim_backend;
  rzi_lorawan_backend := {| capabilities := capabilities _ sim_api; base := base _ sim_api; network := Some free_network;
    class_b := None; session := None; mac := None; multicast := None; certification := None; fuota := None |} |}.
#[local] Existing Instance uplink_ext.
#[local] Existing Instance uplink_hooks.
Definition power_up : world :=
  World SettingsWitness.cold credentials_zero core_init (replicate 4 slot_zero) []
    (([], 8) : @msgq sim_zephyr rzi_lorawan_backend_event) (Mac 0 false) (SimBackend true [])
    (UplinkVars _ 0 (None, None) []).
(** STARTING and READY; the join and its answer; two uplinks, each with its answer. *)
Definition first_uplinks : list uplink_act :=
  [ADispatch; ADispatch; AItem join_work; AReport [BACKEND_JOINED]; ADispatch; ADispatch; AItem uplink_work;
   AReport [BACKEND_TX_DONE TXDONE_SENT 0]; ADispatch; AItem uplink_work].
Definition run (l : list uplink_act) : world * awaited := default (booted power_up) (exec l (booted power_up)).
Definition two_accepted : world * awaited := Eval vm_compute in run first_uplinks.
Lemma two_accepted_reachable : rtc app_step (booted power_up) two_accepted.
Proof. apply (schedule_sound first_uplinks). vm_refl. Defined.
Lemma power_up_fresh : fresh power_up.
Proof.
  split; [|done]. split_and!; [|done..].
  split_and!; [|split_and!; [reflexivity|constructor|constructor]|cbn; unfold zlen; cbn; lia|by left].
  split_and!; [by left|by split|done].
Defined.
Lemma uplinks_never_stall_witness : alive two_accepted.
Proof.
  apply (uplinks_never_stall power_up two_accepted power_up_fresh).
  - vm_refl.
  - exact two_accepted_reachable.
Defined.
Lemma uplinks_numbered_witness : exists n,
  lines_of uplink_accepted_text (log_of two_accepted.1) = (fun i => [u32 (Z.of_nat i); UPLINK_PORT]) <$> seq 0 n /\
  counter_of two_accepted.1 = u32 (Z.of_nat n).
Proof. exact (proj1 (uplinks_numbered power_up two_accepted power_up_fresh two_accepted_reachable)). Defined.
(** Before the second uplink. *)
Definition one_accepted : world := Eval vm_compute in (run (take 9 first_uplinks)).1.
Lemma uplink_handler_accepts_witness :
  lines_of uplink_accepted_text (new_lines one_accepted (run_item uplink_work one_accepted).2) = [[1; 101]].
Proof.
  destruct (uplink_handler_accepts one_accepted) as [(_ & _ & Ht)|(p & b & _ & _ & _ & _ & _ & Hl & _)].
  - split; [discriminate|reflexivity].
  - exfalso. apply Ht. vm_refl.
  - exact Hl.
Defined.
(** The second uplink is on its way and the queue is full of link checks. *)
Definition crowded : world :=
  set_w_events (replicate 8 (BACKEND_LINK_CHECK (LinkCheck 10 1 (-80) 20)), 8) two_accepted.1.
Lemma lost_answer_stalls_witness :
  pending (rounds 8 (publish (BACKEND_TX_DONE TXDONE_SENT 0) crowded).2) = [].
Proof.
  refine (proj1 (proj2 (lost_answer_stalls (BACKEND_TX_DONE TXDONE_SENT 0) crowded _ _ _))).
  - vm_compute. discriminate.
  - repeat constructor.
  - by intros [].
Defined.
End UplinkWitness.

Module UplinkOverZephyr.
Export ZephyrSim UplinkWitness.
#[export] Instance zephyr_below : LorawanBackend | 0 := zephyr_lorawan.
#[local] Existing Instance uplink_ext.
#[local] Existing Instance uplink_hooks.
Definition power_up : world :=
  World SettingsWitness.cold credentials_zero core_init (replicate 4 slot_zero) []
    (([], 8) : @msgq sim_zephyr rzi_lorawan_backend_event) (Mac 0 false) (boot_state []) (UplinkVars _ 0 (None, None) []).
Lemma zephyr_power_up_fresh : fresh power_up.
Proof.
  split; [|done]. split_and!; [|done..].
  split_and!; [|split_and!; [reflexivity|constructor|constructor]|cbn; unfold zlen; cbn; lia|by left].
  split_and!; [by left|by split|done].
Defined.
Definition refusals : list uplink_act :=
  [ADispatch; ADispatch; AItem join_work; AReport [BACKEND_JOINED]; ADispatch; ADispatch; AItem uplink_work; AItem uplink_work].
Definition two_refused : world * awaited := Eval vm_compute in default (booted power_up) (exec refusals (booted power_up)).
Lemma two_refused_reachable : rtc app_step (booted power_up) two_refused.
Proof. apply (schedule_sound refusals). vm_refl. Qed.
Lemma zephyr_never_uplinks_witness : lines_of uplink_accepted_text (log_of two_refused.1) = [].
Proof. exact (proj1 (zephyr_never_uplinks power_up two_refused zephyr_power_up_fresh two_refused_reachable)). Defined.
End UplinkOverZephyr.
