(* ===== verification/SampleThread.v ===== *)
(** * Samples with a thread of their own (src/samples/lora)

    What the main threads of the radio samples use of the kernel, and the code
    the samples share.  While such a thread waits or sleeps the rest of the
    system runs, so every call is an arbitrary transformer of the whole state;
    the laws say what the clock and the semaphores promise. *)
From S2P Require Import Prelude Zephyr Err Power Storage LorawanSettings LorawanBackend LorawanCore LorawanCredentials LorawanChannel LorawanApi Lorawan Lora SampleKernel.

(** ** The kernel *)
(** The semaphores the samples define, each with an initial count of zero and a limit of one. *)
Inductive semaphore : Type := stack_ready | tx_done_sem | rx_done_sem | join_done.
#[export] Instance semaphore_eq_dec : EqDecision semaphore.
Proof. solve_decision. Defined.
Class SampleThread (W : Type) : Type := {
  LOG : log_level -> string -> list Z -> M W unit;
  k_uptime_get : M W Z;
  thread_sleep : k_timeout -> M W unit;   (* k_sleep *)
  k_sem_give : semaphore -> M W unit;
  k_sem_reset : semaphore -> M W unit;
  k_sem_take : semaphore -> k_timeout -> M W Z;
  k_sem_count_get : semaphore -> M W Z;
  sys_rand32_get : M W Z;
}.
Abbreviation LOG_INF := (LOG INF).
Abbreviation LOG_WRN := (LOG WRN).
Abbreviation LOG_ERR := (LOG ERR).

(** What holds of every call, whoever runs meanwhile: the state moves along [R]. *)
Class ThreadEffects `{SampleThread W} (R : W -> W -> Prop) : Prop := {
  thread_preorder :: PreOrder R;
  log_moves v t args : respects R (LOG v t args);
  sleep_moves t : respects R (thread_sleep t);
  give_moves s : respects R (k_sem_give s);
  reset_moves s : respects R (k_sem_reset s);
  take_moves s t : respects R (k_sem_take s t);
  count_moves s : respects R (k_sem_count_get s);
  rand_moves : respects R sys_rand32_get;
}.
(** The clock: reading it is all [k_uptime_get] does, it never goes back, and a
    sleep or a wait that was not answered lasts as long as asked. *)
Class ClockOk `{SampleThread W} : Type := {
  uptime : W -> Z;
  uptime_read w : k_uptime_get w = (uptime w, w);
  clock_forward :: ThreadEffects (fun w w' => uptime w <= uptime w');
  sleep_lasts t w : 0 <= t -> uptime w + t <= uptime (thread_sleep (K_MSEC t) w).2;
  take_lasts s t w : 0 <= t -> (k_sem_take s (K_MSEC t) w).1 <> 0 ->
    uptime w + t <= uptime (k_sem_take s (K_MSEC t) w).2;
}.

(** ** Loops that poll until a deadline *)
Section until.
Context {W A : Type}.
(** [fuel] rounds at most; [None] when they were not enough. *)
Fixpoint until (fuel : nat) (round : M W (option A)) : M W (option A) :=
  match fuel with
  | O => ret None
  | S fuel => let* r := round in match r with Some a => ret (Some a) | None => until fuel round end
  end.
(** A loop whose rounds take at least [d], and end it once the deadline has
    passed: it ends within the rounds that fit before the deadline and one more,
    and more fuel changes nothing. *)
Context (now : W -> Z) (round : M W (option A)) (deadline d : Z).
Hypothesis Hends : forall w, deadline <= now w -> (round w).1 <> None.
Hypothesis Hlasts : forall w, (round w).1 = None -> now w + d <= now (round w).2.
Lemma until_ends n w : deadline - now w <= Z.of_nat n * d ->
  (until (S n) round w).1 <> None /\ forall m, (S n <= m)%nat -> until m round w = until (S n) round w.
Proof.
  revert w. induction n as [|n IH]; intros w Hn.
  - assert (Hr : (round w).1 <> None) by (apply Hends; lia). destruct (round w) as [[a|] w1] eqn:E; [|done].
    split; [cbn; by rewrite bind_eq, E|]. intros [|m] Hm; [lia|]. cbn. by rewrite !bind_eq, E.
  - specialize (Hlasts w). destruct (round w) as [[a|] w1] eqn:E; cbn [fst snd] in *.
    + split; [cbn; by rewrite bind_eq, E|]. intros [|m] Hm; [lia|]. cbn. by rewrite !bind_eq, E.
    + specialize (Hlasts eq_refl). destruct (IH w1) as [Hs Hm]; [lia|].
      assert (Hstep : forall k, until (S k) round w = until k round w1) by (intros k; cbn; by rewrite bind_eq, E).
      rewrite Hstep. split; [done|]. intros [|m] Hle; [lia|]. rewrite Hstep. apply Hm. lia.
Qed.
(** What the last round ensures holds at the end. *)
Lemma until_result (Q : A -> W -> Prop) : (forall w a, (round w).1 = Some a -> Q a (round w).2) ->
  forall n w a, (until n round w).1 = Some a -> Q a (until n round w).2.
Proof.
  intros HQ n. induction n as [|n IH]; intros w a; [done|]. cbn [until]. rewrite bind_eq.
  specialize (HQ w). destruct (round w) as [[b|] w1]; cbn [fst snd] in *; [|apply IH].
  intros [= <-]. by apply HQ.
Qed.
End until.
Lemma until_moves {W A} (R : W -> W -> Prop) `{!PreOrder R} (round : M W (option A)) n :
  respects R round -> respects R (until n round).
Proof. intros Hr. induction n as [|n IH]; cbn [until]; frame; done. Qed.

(** ** The LoRa service seen from a client *)
(** What holds of every call of the radio backend, and with the assignments of
    the service's own variables, of the whole service. *)
Class RadioEffects {W} `{LoraEnv W} (R : W -> W -> Prop) : Prop := {
  radio_preorder :: PreOrder R;
  b_start_moves f v : b_start = Some f -> respects R (f v);
  b_apply_moves f c : b_apply_config = Some f -> respects R (f c);
  b_send_moves f d n : b_send = Some f -> respects R (f d n);
  b_receive_moves f t : b_receive = Some f -> respects R (f t);
  b_poll_moves f : b_poll = Some f -> respects R f;
  b_test_moves : (forall f, b_test_rssi = Some f -> respects R f) /\
    (forall f v, b_test_get_rssi = Some f -> respects R (f v));
}.
Class LoraEffects {W} `{LoraEnv W} (R : W -> W -> Prop) : Prop := {
  lora_radio :: RadioEffects R;
  lput_moves f : respects R (lput f);
}.
Section lora_moves.
Context {ctx : ExecCtx} `{LoraEnv W} (R : W -> W -> Prop).
Abbreviation moves m := (respects R m).
Ltac member := match goal with |- respects _ (match ?x with Some _ => _ | None => _ end) => destruct x eqn:? end.
Ltac lora := repeat first
  [ member | frame_step | apply lput_moves; apply _ | by eapply b_start_moves | by eapply b_apply_moves | by eapply b_send_moves
  | by eapply b_receive_moves | by eapply b_poll_moves ].
Section radio.
Context `{!RadioEffects R}.
Lemma lora_get_config_moves out : moves (rzi_lora_get_config out).
Proof. unfold rzi_lora_get_config, lget. lora. Qed.
Lemma lora_send_moves d n : moves (rzi_lora_send d n).
Proof. unfold rzi_lora_send, lget. lora. Qed.
Lemma lora_poll_moves : moves rzi_lora_poll.
Proof. unfold rzi_lora_poll. lora. Qed.
Lemma lora_test_rssi_moves : moves rzi_lora_test_rssi.
Proof. unfold rzi_lora_test_rssi, call_test. lora. by apply b_test_moves. Qed.
Lemma lora_test_get_rssi_moves o : moves (rzi_lora_test_get_rssi o).
Proof. unfold rzi_lora_test_get_rssi. lora. by apply b_test_moves. Qed.
End radio.
Context `{!LoraEffects R}.
Lemma lora_register_moves t : moves (rzi_lora_register_callbacks t).
Proof. unfold rzi_lora_register_callbacks. lora. Qed.
Lemma lora_init_moves v : moves (rzi_lora_init v).
Proof. unfold rzi_lora_init, lget. lora. Qed.
Lemma lora_set_config_moves c : moves (rzi_lora_set_config c).
Proof. unfold rzi_lora_set_config, lget. lora. Qed.
Lemma lora_receive_moves t : moves (rzi_lora_receive t).
Proof. unfold rzi_lora_receive, lget. lora. Qed.
End lora_moves.

(** ** Shared by the radio samples *)
Definition POLL_INTERVAL_MS : Z := 5.
Definition READY_TIMEOUT : k_timeout := K_SECONDS 10.
(** [config.x = v] *)
Definition with_frequency v (c : rzi_lora_config) : rzi_lora_config :=
  LoraConfig v (spreading_factor c) (bandwidth c) (coding_rate c) (preamble_length c) (tx_power_dbm c) (sync_word c)
    (iq_inverted c) (encrypt c) (key c) (iv c) (cad c) (fixed_length c) (fsk_bitrate c) (fsk_deviation c) (symbol_timeout c).
Definition with_radio sf bw cr pl tp (c : rzi_lora_config) : rzi_lora_config :=
  LoraConfig (frequency_hz c) sf bw cr pl tp (sync_word c) (iq_inverted c) (encrypt c) (key c) (iv c) (cad c)
    (fixed_length c) (fsk_bitrate c) (fsk_deviation c) (symbol_timeout c).

Section shared.
Context {ctx : ExecCtx} `{LoraEnv W} `{!SampleThread W}.
(** [static void on_event(...)] of the radio samples *)
Definition on_stack_event (event : rzi_lorawan_event) : M W unit :=
  match event with
  | EVENT_READY | EVENT_STATE_CHANGED STATE_READY => k_sem_give stack_ready
  | _ => ret tt
  end.
(** One round of [wait_for]; [wait_fuel] rounds fit into the timeout. *)
Definition wait_round (sem : semaphore) (deadline : Z) : M W (option bool) :=
  rzi_lora_poll ;;;
  let* rc := k_sem_take sem (K_MSEC POLL_INTERVAL_MS) in
  if rc =? 0 then ret (Some true)
  else
    let* now := k_uptime_get in
    if now <? deadline then ret None else ret (Some false).
Definition wait_fuel (timeout_ms : Z) : nat := S (Z.to_nat (timeout_ms / POLL_INTERVAL_MS + 1)).
Definition wait_for (sem : semaphore) (timeout_ms : Z) : M W bool :=
  let* now := k_uptime_get in
  let deadline := now + timeout_ms in
  let* r := until (wait_fuel timeout_ms) (wait_round sem deadline) in
  ret (default false r).

Section time.
Context `{!ClockOk} `{!RadioEffects (fun w w' => uptime w <= uptime w')}.
Lemma round_takes_time sem deadline w :
  (deadline <= uptime w -> (wait_round sem deadline w).1 <> None) /\
  ((wait_round sem deadline w).1 = None -> uptime w + POLL_INTERVAL_MS <= uptime (wait_round sem deadline w).2) /\
  ((wait_round sem deadline w).1 = Some false -> deadline <= uptime (wait_round sem deadline w).2).
Proof.
  unfold wait_round. rewrite bind_eq. pose proof (lora_poll_moves (fun w w' => uptime w <= uptime w') w) as Hp.
  destruct (rzi_lora_poll w) as [u w1]. cbn [fst snd] in *. rewrite bind_eq.
  pose proof (take_lasts sem POLL_INTERVAL_MS w1 ltac:(done)) as Ht.
  destruct (k_sem_take sem _ w1) as [rc w2]. cbn [fst snd] in *. destruct (Z.eqb_spec rc 0) as [->|Hne]; [done|].
  specialize (Ht Hne). unfold POLL_INTERVAL_MS in *. rewrite bind_eq, uptime_read. cbn [fst snd].
  destruct (Z.ltb_spec (uptime w2) deadline); cbn; split_and!; intros; try done; lia.
Qed.
(** [wait_for] always returns, within its timeout and one poll: the fuel is
    enough, and more changes nothing.  It answers [false] only once the time is up. *)
Lemma wait_ends sem timeout_ms w : let deadline := uptime w + timeout_ms in
  (until (wait_fuel timeout_ms) (wait_round sem deadline) w).1 <> None /\
  (forall m, (wait_fuel timeout_ms <= m)%nat ->
     until m (wait_round sem deadline) w = until (wait_fuel timeout_ms) (wait_round sem deadline) w) /\
  ((wait_for sem timeout_ms w).1 = false -> deadline <= uptime (wait_for sem timeout_ms w).2).
Proof.
  cbn zeta. set (deadline := uptime w + timeout_ms).
  destruct (until_ends uptime (wait_round sem deadline) deadline POLL_INTERVAL_MS
    (fun v => proj1 (round_takes_time sem deadline v)) (fun v => proj1 (proj2 (round_takes_time sem deadline v)))
    (Z.to_nat (timeout_ms / POLL_INTERVAL_MS + 1)) w) as [Hs Hm].
  { unfold deadline, POLL_INTERVAL_MS. pose proof (Z.div_mod timeout_ms 5 ltac:(lia)). pose proof (Z.mod_pos_bound timeout_ms 5 ltac:(lia)). lia. }
  change (S (Z.to_nat (timeout_ms / POLL_INTERVAL_MS + 1))) with (wait_fuel timeout_ms) in *. split_and!; [done|done|].
  unfold wait_for. rewrite bind_eq, uptime_read. cbn [fst snd]. fold deadline. rewrite bind_eq.
  pose proof (until_result (wait_round sem deadline) (fun b v => b = false -> deadline <= uptime v)) as HQ.
  specialize (HQ (fun v b Hb Hf => proj2 (proj2 (round_takes_time sem deadline v)) (eq_trans Hb (f_equal Some Hf)))
    (wait_fuel timeout_ms) w).
  destruct (until _ _ w) as [[b|] w1]; cbn [fst snd ret default] in *; [|done]. by apply HQ.
Qed.
End time.
Lemma wait_for_respects (R : W -> W -> Prop) `{!ThreadEffects R} sem t :
  respects R rzi_lora_poll -> respects R k_uptime_get -> respects R (wait_for sem t).
Proof.
  intros Hp Hu. unfold wait_for. apply respects_bind; [apply _|done|]. intros now. apply respects_bind; [apply _| |intros; frame].
  apply until_moves; [apply _|]. unfold wait_round.
  repeat first [frame_step | exact Hp | apply take_moves | exact Hu].
Qed.
Lemma wait_for_moves (R : W -> W -> Prop) `{!ThreadEffects R} `{!RadioEffects R} sem t :
  respects R k_uptime_get -> respects R (wait_for sem t).
Proof. apply wait_for_respects; [apply _|by apply lora_poll_moves]. Qed.
End shared.

Section modem.
Context `{Zephyr} `{Errno} `{Kconfig} {ctx : ExecCtx} `{LorawanBackend} `{LorawanExt} `{!LorawanHooks}
  `{!SampleThread world} (callbacks : rzi_lorawan_callbacks).
(** The first half of every [start_radio]: the modem has to be initialised, but
    not joined, before the radio. *)
Definition start_modem : M world Z :=
  let* rc := rzi_lorawan_register_callbacks (Some callbacks) in
  if negb (rc =? 0) then LOG_ERR "Callback registration failed: %s" [rc] ;;; ret rc else
  let* rc := rzi_lorawan_init RZI_LORAWAN_REGION_EU_868 in
  if negb (rc =? 0) then LOG_ERR "LoRaWAN init failed: %s" [rc] ;;; ret rc else
  let* rc := k_sem_take stack_ready READY_TIMEOUT in
  if negb (rc =? 0) then LOG_ERR "LoRaWAN ready timed out" [] ;;; ret (- RZI_ERR_TIMEOUT) else ret 0.
End modem.
