(* ===== verification/SpectralScan.v ===== *)
(** * The spectral scan and continuous-wave samples
    (src/samples/lora/spectral_scan/src/main.c, src/samples/lora/tx_cw/src/main.c)

    Two main threads over the radio tests of the LoRa service: RSSI sweeps with
    a bar per channel, and a carrier of a given duration. *)
From S2P Require Import Prelude Zephyr Err Power Storage LorawanSettings LorawanBackend LorawanCore LorawanCredentials LorawanChannel LorawanApi Lorawan Lora SampleKernel SampleThread.

(** ** spectral_scan *)
Definition RSSI_SETTLE_MS : Z := 110.
Definition RSSI_POLL_MS : Z := 10.
Definition RSSI_TIMEOUT_MS : Z := 1000.
Definition BAR_FLOOR_DBM : Z := -130.
Definition BAR_CEILING_DBM : Z := -30.
Definition BAR_WIDTH : Z := 25.
Abbreviation INT16_MAX := 32767.
Abbreviation INT16_MIN := (-32768).
(** The options of its Kconfig, with their [range] lines. *)
Class ScanConfig : Type := {
  CONFIG_APP_SCAN_START_HZ : Z; CONFIG_APP_SCAN_CHANNELS : Z; CONFIG_APP_SCAN_STEP_HZ : Z;
  CONFIG_APP_SCAN_SAMPLES : Z; CONFIG_APP_SCAN_INTERVAL_S : Z;
}.
Class ScanConfigOk `{ScanConfig} : Prop := {
  channels_range : 1 <= CONFIG_APP_SCAN_CHANNELS <= 64;
  samples_range : 1 <= CONFIG_APP_SCAN_SAMPLES <= 1000;
}.

(** [CLAMP(v, low, high)] *)
Definition CLAMP (v low high : Z) : Z := if v <=? low then low else if v <? high then v else high.
(** How many cells of the bar are filled. *)
Definition bar_fill (avg_dbm : Z) : Z :=
  let level := CLAMP avg_dbm BAR_FLOOR_DBM BAR_CEILING_DBM - BAR_FLOOR_DBM in
  Z.quot (level * BAR_WIDTH) (BAR_CEILING_DBM - BAR_FLOOR_DBM).
Fixpoint repeat_char (c : ascii) (n : nat) : string :=
  match n with O => EmptyString | S n => String c (repeat_char c n) end.
(** The string [fill_bar] leaves in the array of [BAR_WIDTH + 1] characters. *)
Definition fill_bar (avg_dbm : Z) : string :=
  let fill := bar_fill avg_dbm in
  (repeat_char "#" (Z.to_nat fill) ++ repeat_char "." (Z.to_nat (BAR_WIDTH - fill)))%string.

Section start.
Context `{Zephyr} `{Errno} `{Kconfig} {ctx : ExecCtx} `{LorawanBackend} `{LorawanExt} `{!LorawanHooks}
  `{!LoraEnv world} `{!SampleThread world}.
(** The registration of [callbacks], the same in both samples. *)
Context (callbacks : rzi_lorawan_callbacks).
Definition start_radio : M world Z :=
  let* rc := start_modem callbacks in
  if negb (rc =? 0) then ret rc else
  let* rc := rzi_lora_init RZI_LORA_MOD_LORA in
  (if negb (rc =? 0) then LOG_ERR "LoRa init failed: %s" [rc] else ret tt) ;;; ret rc.
End start.

Section scan.
Context {ctx : ExecCtx} `{LoraEnv W} `{!SampleThread W} `{ScanConfig}.
(** One round of the loop of [measure]: [None] to go on. *)
Definition measure_round (deadline : Z) : M W (option (Z * Z)) :=
  let* '(rc, rssi) := rzi_lora_test_get_rssi (Some 0) in
  let rssi_dbm := default 0 rssi in
  if negb (rc =? - RZI_ERR_BUSY) then ret (Some (rc, rssi_dbm))
  else
    let* now := k_uptime_get in
    if deadline <=? now then ret (Some (rc, rssi_dbm))
    else thread_sleep (K_MSEC RSSI_POLL_MS) ;;; ret None.
Definition measure_fuel : nat := S (Z.to_nat (RSSI_TIMEOUT_MS / RSSI_POLL_MS + 1)).
(** The code and the content of [*rssi_dbm]. *)
Definition measure (frequency_hz : Z) : M W (Z * Z) :=
  let* '(rc, config) := rzi_lora_get_config (Some config_default) in
  if negb (rc =? 0) then ret (rc, 0) else
  let* rc := rzi_lora_set_config (with_frequency frequency_hz <$> config) in
  if negb (rc =? 0) then ret (rc, 0) else
  let* rc := rzi_lora_test_rssi in
  if negb (rc =? 0) then ret (rc, 0) else
  thread_sleep (K_MSEC RSSI_SETTLE_MS) ;;;
  let* now := k_uptime_get in
  let deadline := now + RSSI_TIMEOUT_MS in
  let* r := until measure_fuel (measure_round deadline) in
  ret (default (0, 0) r).

(** The running minimum, maximum and sum. *)
Definition statistics : Type := Z * Z * Z.
Definition statistics_init : statistics := (INT16_MAX, INT16_MIN, 0).
Definition add_sample (s : statistics) (rssi_dbm : Z) : statistics :=
  let '(min_dbm, max_dbm, sum_dbm) := s in (Z.min min_dbm rssi_dbm, Z.max max_dbm rssi_dbm, sum_dbm + rssi_dbm).
Fixpoint take_samples (n : nat) (frequency_hz : Z) (s : statistics) : M W (Z * statistics) :=
  match n with
  | O => ret (0, s)
  | S n =>
      let* '(rc, rssi_dbm) := measure frequency_hz in
      if negb (rc =? 0) then LOG_ERR "%u Hz: measurement failed: %s" [frequency_hz; rc] ;;; ret (rc, s)
      else take_samples n frequency_hz (add_sample s rssi_dbm)
  end.
(** The line of a channel: its frequency, the statistics and the bar. *)
Definition channel_text (bar : string) : string :=
  ("%3u.%03u MHz  min %4d  avg %4d  max %4d dBm  |" ++ bar ++ "|")%string.
Definition scan_channel (frequency_hz : Z) : M W Z :=
  let* '(rc, (min_dbm, max_dbm, sum_dbm)) :=
    take_samples (Z.to_nat CONFIG_APP_SCAN_SAMPLES) frequency_hz statistics_init in
  if negb (rc =? 0) then ret rc
  else
    let avg_dbm := Z.quot sum_dbm CONFIG_APP_SCAN_SAMPLES in
    LOG_INF (channel_text (fill_bar avg_dbm))
      [frequency_hz / 1000000; frequency_hz / 1000 mod 1000; min_dbm; avg_dbm; max_dbm] ;;;
    ret 0.
(** One sweep, and the loop of [main]: [sweeps] bounds the loop that ends only with a
    failure when there is a pause between sweeps. *)
Definition sweep : M W Z :=
  for_rc (Z.of_nat <$> seq 0 (Z.to_nat CONFIG_APP_SCAN_CHANNELS))
    (fun ch => scan_channel (u32 (CONFIG_APP_SCAN_START_HZ + ch * CONFIG_APP_SCAN_STEP_HZ))).
Fixpoint sweep_loop (sweeps : nat) (number : Z) : M W (option Z) :=
  match sweeps with
  | O => ret None
  | S sweeps =>
      let number := u32 (number + 1) in
      LOG_INF "Sweep %u (bar from %d to %d dBm)" [number; BAR_FLOOR_DBM; BAR_CEILING_DBM] ;;;
      let* rc := sweep in
      if negb (rc =? 0) then ret (Some rc)
      else if CONFIG_APP_SCAN_INTERVAL_S =? 0 then ret (Some 0)
      else thread_sleep (K_SECONDS CONFIG_APP_SCAN_INTERVAL_S) ;;; sweep_loop sweeps number
  end.
End scan.
Section scan_main.
Context `{Zephyr} `{Errno} `{Kconfig} {ctx : ExecCtx} `{LorawanBackend} `{LorawanExt} `{!LorawanHooks}
  `{!LoraEnv world} `{!SampleThread world} `{ScanConfig} (callbacks : rzi_lorawan_callbacks).
Definition main (sweeps : nat) : M world (option Z) :=
  LOG_INF "RZI spectral scan: %d channels from %d Hz, %d Hz apart, %d samples each"
    [CONFIG_APP_SCAN_CHANNELS; CONFIG_APP_SCAN_START_HZ; CONFIG_APP_SCAN_STEP_HZ; CONFIG_APP_SCAN_SAMPLES] ;;;
  let* rc := start_radio callbacks in
  if negb (rc =? 0) then ret (Some rc) else sweep_loop sweeps 0.
End scan_main.

(** ** tx_cw *)
Class CwConfig : Type := {
  CONFIG_APP_TX_CW_FREQUENCY_HZ : Z; CONFIG_APP_TX_CW_POWER_DBM : Z; CONFIG_APP_TX_CW_DURATION_S : Z;
}.
Section cw.
Context `{Zephyr} `{Errno} `{Kconfig} {ctx : ExecCtx} `{LorawanBackend} `{LorawanExt} `{!LorawanHooks}
  `{!LoraEnv world} `{!SampleThread world} `{CwConfig} (callbacks : rzi_lorawan_callbacks).
Definition cw_main : M world Z :=
  let duration_ms := u32 (CONFIG_APP_TX_CW_DURATION_S * 1000) in
  LOG_INF "RZI continuous-wave test: %d Hz, %d dBm" [CONFIG_APP_TX_CW_FREQUENCY_HZ; CONFIG_APP_TX_CW_POWER_DBM] ;;;
  let* rc := start_radio callbacks in
  if negb (rc =? 0) then ret rc else
  let* rc := rzi_lora_test_cw CONFIG_APP_TX_CW_FREQUENCY_HZ CONFIG_APP_TX_CW_POWER_DBM duration_ms in
  if negb (rc =? 0) then LOG_ERR "Carrier start failed: %s" [rc] ;;; ret rc else
  if duration_ms =? 0 then LOG_INF "Carrier on until reset" [] ;;; ret 0
  else
    LOG_INF "Carrier on for %d s" [CONFIG_APP_TX_CW_DURATION_S] ;;;
    thread_sleep (K_MSEC duration_ms) ;;;
    let* rc := rzi_lora_test_stop in
    if negb (rc =? 0) then LOG_ERR "Carrier stop failed: %s" [rc] ;;; ret rc
    else LOG_INF "Carrier off" [] ;;; ret 0.
End cw.

(** ** The bar *)
Lemma repeat_length c n : String.length (repeat_char c n) = n.
Proof. induction n as [|n IH]; cbn; congruence. Qed.
Lemma append_length s t : String.length (s ++ t)%string = (String.length s + String.length t)%nat.
Proof.
  induction s as [|c s IH]; [done|]. change (String c s ++ t)%string with (String c (s ++ t)). cbn. by rewrite IH.
Qed.
(** The bar fits its array, its filled cells grow with the average, and it is
    empty and full exactly outside the scale. *)
Theorem bar_scales a b : a <= b ->
  0 <= bar_fill a <= bar_fill b /\ bar_fill b <= BAR_WIDTH /\
  String.length (fill_bar a) = Z.to_nat BAR_WIDTH /\
  (bar_fill a = 0 <-> a < BAR_FLOOR_DBM + 4) /\ (bar_fill a = BAR_WIDTH <-> BAR_CEILING_DBM <= a).
Proof.
  intros Hab.
  assert (Hr : forall c, bar_fill c = (CLAMP c BAR_FLOOR_DBM BAR_CEILING_DBM - BAR_FLOOR_DBM) / 4 /\
    -130 <= CLAMP c BAR_FLOOR_DBM BAR_CEILING_DBM <= -30).
  { intros c. unfold bar_fill, CLAMP, BAR_FLOOR_DBM, BAR_CEILING_DBM, BAR_WIDTH. split.
    - rewrite Z.quot_div_nonneg; [|repeat case_match; lia..].
      replace (-30 - -130) with (4 * 25) by done. rewrite Z.div_mul_cancel_r; done.
    - repeat case_match; lia. }
  destruct (Hr a) as [Ea Ha], (Hr b) as [Eb Hb].
  assert (String.length (fill_bar a) = Z.to_nat BAR_WIDTH).
  { unfold fill_bar. rewrite append_length, !repeat_length. rewrite Ea. unfold BAR_FLOOR_DBM, BAR_WIDTH in *. Z.div_mod_to_equations; lia. }
  rewrite Ea, Eb. unfold CLAMP, BAR_FLOOR_DBM, BAR_CEILING_DBM, BAR_WIDTH in *.
  split_and!; try done; repeat case_match; Z.div_mod_to_equations; lia.
Qed.

(** ** A channel *)
Definition int16 (x : Z) : Prop := -32768 <= x <= 32767.
Abbreviation low l := (foldr Z.min INT16_MAX l).
Abbreviation high l := (foldr Z.max INT16_MIN l).
Abbreviation total l := (foldr Z.add 0 l).
(** The extremes of a list of samples are samples, and bound each and their mean. *)
Lemma low_high l : Forall int16 l -> 
  Forall (fun x => low l <= x <= high l) l /\ zlen l * low l <= total l <= zlen l * high l /\
  (l <> [] -> low l ∈ l /\ high l ∈ l) /\ int16 (low l) /\ int16 (high l).
Proof.
  intros Hl. induction Hl as [|x l Hx Hl (Ha & Ht & Hm & Hlo & Hhi)]; [by split_and!|].
  unfold zlen in *. cbn [foldr length]. unfold int16 in *. split_and!; try lia.
  - constructor; [lia|]. eapply Forall_impl; [exact Ha|]. cbn. lia.
  - nia.
  - nia.
  - intros _. destruct l as [|y l]; [cbn; rewrite Z.min_l, Z.max_l by lia; split; left|].
    destruct Hm as [Hm1 Hm2]; [done|]. split.
    + destruct (Z.min_spec x (low (y :: l))) as [[_ ->]|[_ ->]]; [left|by right].
    + destruct (Z.max_spec x (high (y :: l))) as [[_ ->]|[_ ->]]; [by right|left].
Qed.

Section scan_facts.
Context {ctx : ExecCtx} `{LoraEnv W} `{!SampleThread W} `{ScanConfig}.
(** Measurements of one channel that succeeded, one after the other. *)
Inductive measures (frequency_hz : Z) : list Z -> W -> W -> Prop :=
| measures_nil w : measures frequency_hz [] w w
| measures_cons x l w w1 w2 : measure frequency_hz w = ((0, x), w1) -> measures frequency_hz l w1 w2 ->
    measures frequency_hz (x :: l) w w2.
Lemma take_outcomes n f w : forall s, exists l w1, measures f l w w1 /\
  ((length l = n /\ take_samples n f s w = ((0, fold_left add_sample l s), w1)) \/
   ((length l < n)%nat /\ exists rc x w2, measure f w1 = ((rc, x), w2) /\ rc <> 0 /\ exists s',
      take_samples n f s w = ((rc, s'), (LOG_ERR "%u Hz: measurement failed: %s" [f; rc] w2).2))).
Proof.
  revert w. induction n as [|n IH]; intros w s; [exists [], w; split; [constructor|by left]|].
  cbn [take_samples]. rewrite bind_eq. destruct (measure f w) as [[rc x] w1] eqn:E. cbn [fst snd].
  destruct (Z.eqb_spec rc 0) as [->|Hne]; cbn [negb].
  - destruct (IH w1 (add_sample s x)) as (l & w2 & Hm & [[Hl ->]|(Hl & Hf)]); exists (x :: l), w2.
    + split; [by econstructor|left]. cbn. split; [lia|done].
    + split; [by econstructor|right]. cbn. split; [lia|done].
  - exists [], w. split; [constructor|right]. cbn. split; [lia|]. exists rc, x, w1. split_and!; [done..|].
    exists s. rewrite bind_eq. by destruct (LOG_ERR _ _ w1).
Qed.
Lemma fold_samples l : forall a b c, fold_left add_sample l (a, b, c) =
  (foldr Z.min a l, foldr Z.max b l, foldr Z.add c l).
Proof.
  induction l as [|x l IH]; intros a b c; [done|]. cbn [fold_left foldr add_sample]. rewrite IH.
  f_equal; [f_equal|]; clear IH; induction l as [|y l IH]; cbn; lia.
Qed.
(** C32: A channel's line shows exactly its samples: that many measurements one after
    the other, their minimum, maximum and mean (which lies between them), and the
    mean's bar; the running sum never overflows.  The first measurement that
    fails ends the scan with its code, logged. *)
Theorem channel_line `{!ScanConfigOk} f w : exists l w1, measures f l w w1 /\
  ((zlen l = CONFIG_APP_SCAN_SAMPLES /\
    let average := Z.quot (total l) CONFIG_APP_SCAN_SAMPLES in
    scan_channel f w = (0, (LOG_INF (channel_text (fill_bar average))
      [f / 1000000; f / 1000 mod 1000; low l; average; high l] w1).2) /\
    (Forall int16 l -> Forall (fun x => low l <= x <= high l) l /\ low l ∈ l /\ high l ∈ l /\
       low l <= average <= high l /\ forall n, Z.abs (total (take n l)) <= 32768000)) \/
   (zlen l < CONFIG_APP_SCAN_SAMPLES /\ exists rc x w2, measure f w1 = ((rc, x), w2) /\ rc <> 0 /\
      scan_channel f w = (rc, (LOG_ERR "%u Hz: measurement failed: %s" [f; rc] w2).2))).
Proof.
  pose proof samples_range as Hr. unfold scan_channel. rewrite bind_eq.
  destruct (take_outcomes (Z.to_nat CONFIG_APP_SCAN_SAMPLES) f w statistics_init)
    as (l & w1 & Hm & [[Hl ->]|(Hl & rc & x & w2 & E & Hne & s' & ->)]);
    exists l, w1; (split; [done|]).
  - left. assert (Hn : zlen l = CONFIG_APP_SCAN_SAMPLES) by (unfold zlen; lia). split; [done|]. cbn zeta.
    unfold statistics_init. rewrite fold_samples. cbn [fst snd]. cbn -[fill_bar channel_text Z.quot].
    split; [rewrite bind_eq; by destruct (LOG_INF _ _ w1) as [[] ?]|]. intros Hi.
    destruct (low_high l Hi) as (Ha & Ht & Hin & Hlo & Hhi). destruct Hin as [Hin1 Hin2].
    { intros ->. unfold zlen in Hn. cbn in Hn. lia. }
    rewrite Hn in Ht. split_and!; try done.
    + apply Z.quot_le_lower_bound; lia.
    + apply Z.quot_le_upper_bound; lia.
    + intros n. destruct (low_high (take n l)) as (_ & Ht' & _ & Hlo' & Hhi'); [by apply Forall_take|].
      unfold int16 in *. assert (0 <= zlen (take n l) <= 1000) by (unfold zlen in *; rewrite length_take; lia). nia.
  - right. split; [unfold zlen; lia|]. exists rc, x, w2. split_and!; [done..|]. cbn [fst snd].
    destruct s' as [[? ?] ?]. by rewrite (proj2 (Z.eqb_neq rc 0) Hne).
Qed.
End scan_facts.
Section scan_time.
Context {ctx : ExecCtx} `{LoraEnv W} `{!SampleThread W} `{!ClockOk} `{!RadioEffects (fun w w' => uptime w <= uptime w')}.
(** Sensing always ends, whatever the radio answers: within its timeout the
    loop has an answer, more fuel changes nothing, and it is still busy only if
    the time is up. *)
Theorem sensing_ends w : let deadline := uptime w + RSSI_TIMEOUT_MS in
  exists rc rssi, (until measure_fuel (measure_round deadline) w).1 = Some (rc, rssi) /\
  (forall m, (measure_fuel <= m)%nat ->
     until m (measure_round deadline) w = until measure_fuel (measure_round deadline) w) /\
  (rc = - RZI_ERR_BUSY -> deadline <= uptime (until measure_fuel (measure_round deadline) w).2).
Proof.
  cbn zeta. set (deadline := uptime w + RSSI_TIMEOUT_MS).
  assert (Hround : forall v, (deadline <= uptime v -> (measure_round deadline v).1 <> None) /\
    ((measure_round deadline v).1 = None -> uptime v + RSSI_POLL_MS <= uptime (measure_round deadline v).2) /\
    (forall a, (measure_round deadline v).1 = Some a ->
       a.1 = - RZI_ERR_BUSY -> deadline <= uptime (measure_round deadline v).2)).
  { intros v. unfold measure_round. rewrite bind_eq.
    pose proof (lora_test_get_rssi_moves (fun w w' => uptime w <= uptime w') (Some 0) v) as Hp.
    destruct (rzi_lora_test_get_rssi (Some 0) v) as [[rc o] v1]. cbn [fst snd] in *.
    destruct (Z.eqb_spec rc (- RZI_ERR_BUSY)); cbn [negb].
    2:{ split_and!; [done|done|]. intros a [= <-]. done. }
    rewrite bind_eq, uptime_read. cbn [fst snd]. destruct (Z.leb_spec deadline (uptime v1)).
    - cbn. split_and!; [done|done|]. intros a [= <-]. done.
    - pose proof (sleep_lasts RSSI_POLL_MS v1 ltac:(done)). rewrite bind_eq.
      destruct (thread_sleep _ v1) as [u v2]. cbn in *. split_and!; [lia|lia|done]. }
  destruct (until_ends uptime (measure_round deadline) deadline RSSI_POLL_MS
    (fun v => proj1 (Hround v)) (fun v => proj1 (proj2 (Hround v)))
    (Z.to_nat (RSSI_TIMEOUT_MS / RSSI_POLL_MS + 1)) w) as [Hs Hm].
  { transitivity RSSI_TIMEOUT_MS; [unfold deadline; lia|by vm_compute]. }
  change (S (Z.to_nat (RSSI_TIMEOUT_MS / RSSI_POLL_MS + 1))) with measure_fuel in *.
  pose proof (until_result (measure_round deadline) (fun a v => a.1 = - RZI_ERR_BUSY -> deadline <= uptime v)
    (fun v a Ha => proj2 (proj2 (Hround v)) a Ha) measure_fuel w) as HQ.
  destruct (until measure_fuel _ w) as [[[rc rssi]|] w1]; [|done]. exists rc, rssi. split_and!; [done..|].
  apply (HQ (rc, rssi) eq_refl).
Qed.
End scan_time.

(** ** Witnesses *)
Module ScanWitness.
(** A radio that answers a sensing from a list, and a clock that a sleep moves. *)
Record sim : Type := Sim { s_lora : lora_state; s_now : Z; s_answers : list (Z * Z); s_log : list log_line }.
#[local] Instance task : ExecCtx := {| k_is_in_isr := false |}.
Definition after (t : k_timeout) : M sim unit :=
  modify (fun w => Sim (s_lora w) (s_now w + match t with K_MSEC t => Z.max 0 t | _ => 0 end) (s_answers w) (s_log w)).
#[local] Instance radio : LoraEnv sim := {|
  lora_of := s_lora; set_lora l w := Sim l (s_now w) (s_answers w) (s_log w);
  b_start := Some (fun _ => ret 0); b_stop := None; b_apply_config := None; b_send := None; b_receive := None;
  b_test_rssi := Some (ret 0);
  b_test_get_rssi := Some (fun _ w => (hd (- RZI_ERR_BUSY, 0) (s_answers w), Sim (s_lora w) (s_now w) (tl (s_answers w)) (s_log w)));
  b_test_tone := None; b_test_tx := None; b_test_rx := None; b_test_cw := None; b_test_stop := None; b_poll := None;
  run_tx_done _ _ _ := ret tt; run_rx_done _ _ _ _ _ _ := ret tt |}.
#[local] Instance thread : SampleThread sim := {|
  LOG v t args := modify (fun w => Sim (s_lora w) (s_now w) (s_answers w) (s_log w ++ [(v, t, args)]));
  k_uptime_get := gets s_now; thread_sleep := after; k_sem_give _ := ret tt; k_sem_reset _ := ret tt;
  k_sem_take _ t := after t ;;; ret (-11); k_sem_count_get _ := ret 0; sys_rand32_get := ret 4 |}.
Abbreviation later := (fun w w' : sim => s_now w <= s_now w').
#[local] Instance later_preorder : PreOrder later.
Proof. split; [intros ?; lia|intros ? ? ? ? ?; lia]. Qed.
#[local] Instance clock : ClockOk (W := sim).
Proof.
  refine {| uptime := s_now |}; [done| |..].
  - split; try apply _; intros; intros w; cbn; try lia; unfold after; cbn; case_match; lia.
  - intros t w Ht. cbn. lia.
  - intros s t w Ht _. cbn. lia.
Defined.
#[local] Instance radio_effects : RadioEffects (fun w w' => uptime w <= uptime w').
Proof.
  split; try exact later_preorder; try split; intros; cbn in *; simplify_eq; intros w; cbn; lia.
Qed.
#[local] Instance options : ScanConfig := {|
  CONFIG_APP_SCAN_START_HZ := 867100000; CONFIG_APP_SCAN_CHANNELS := 2; CONFIG_APP_SCAN_STEP_HZ := 200000;
  CONFIG_APP_SCAN_SAMPLES := 3; CONFIG_APP_SCAN_INTERVAL_S := 0 |}.
#[local] Instance options_ok : ScanConfigOk.
Proof. by split. Qed.
Definition air (answers : list (Z * Z)) : sim := Sim lora_boot 0 answers [].

Example a_bar : fill_bar (-90) = "##########..............."%string.
Proof. reflexivity. Qed.
Example a_sweep : (sweep (air [(0, -95); (-1004, 0); (0, -90); (0, -85); (0, -30); (0, -30); (0, -31)])).2.(s_log) =
  [(INF, channel_text "##########...............", [867; 100; -95; -90; -85]);
   (INF, channel_text "#########################", [867; 300; -31; -30; -30])].
Proof. vm_compute. reflexivity. Qed.
Lemma bar_scales_witness : -131 <= -90 /\ bar_fill (-131) <= bar_fill (-90).
Proof. split; [lia|]. refine (proj2 (proj1 (bar_scales (-131) (-90) _))). lia. Defined.
Lemma channel_line_witness : ScanConfigOk /\ exists l w1, measures 867100000 l (air [(0, -95)]) w1.
Proof.
  split; [exact options_ok|]. destruct (channel_line 867100000 (air [(0, -95)])) as (l & w1 & Hm & _). by exists l, w1.
Defined.
Lemma sensing_ends_witness : exists rc rssi,
  (until measure_fuel (measure_round (0 + RSSI_TIMEOUT_MS)) (air [])).1 = Some (rc, rssi).
Proof. destruct (sensing_ends (air [])) as (rc & rssi & E & _). by exists rc, rssi. Defined.
End ScanWitness.
