(* ===== verification/RfCertification.v ===== *)
(** * The RF certification sample (src/samples/lora/rf_certification/src/main.c)

    Back-to-back transmissions on the steps of a certification plan, on one
    frequency or hopping over shuffled channels. *)
From S2P Require Import Prelude Zephyr Err Power Storage LorawanSettings LorawanBackend LorawanCore LorawanCredentials LorawanChannel LorawanApi Lorawan Lora SampleKernel SampleThread.

Definition TX_TIMEOUT_MS : Z := 20000.
Definition PROGRESS_LOG_MS : Z := 10000.
(** "RF_CERT" *)
Definition HEADER : list Z := [82; 70; 95; 67; 69; 82; 84].
Abbreviation HEADER_SIZE := 7.
Abbreviation COUNTER_SIZE := 4.
Abbreviation LORA_BW_125_KHZ := 0.
Abbreviation LORA_BW_250_KHZ := 1.
Abbreviation LORA_BW_500_KHZ := 2.
Abbreviation LORA_CR_4_5 := 0.
Abbreviation PREAMBLE_LENGTH := 8.
Abbreviation FULL_PAYLOAD := RZI_LORA_MAX_PAYLOAD.
Abbreviation FCC_HOP_BASE_HZ := 902300000.
Abbreviation FCC_HOP_STEP_HZ := 200000.
Abbreviation FCC_FHSS_CHANNELS := 64.
Abbreviation FCC_HYBRID_CHANNELS := 8.
Abbreviation US915_DR0_PAYLOAD := 24.
Abbreviation US915_DR1_PAYLOAD := 66.
Abbreviation US915_DR2_PAYLOAD := 138.
Abbreviation US915_DR3_PAYLOAD := 235.
Abbreviation US915_DR4_PAYLOAD := 235.

(** ** The plan *)
Record cert_step : Type := CertStep {
  modulation : Z; hop_channels : Z; step_frequency_hz : Z; step_spreading_factor : Z; step_bandwidth : Z;
  power_dbm : Z; payload_size : Z;
}.
Definition LORA freq sf bw pwr len := CertStep RZI_LORA_MOD_LORA 0 freq sf bw pwr len.
Definition FSK freq pwr := CertStep RZI_LORA_MOD_FSK 0 freq 0 0 pwr FULL_PAYLOAD.
Definition SWEEP channels sf len := CertStep RZI_LORA_MOD_LORA channels FCC_HOP_BASE_HZ sf LORA_BW_125_KHZ 22 len.
Definition steps_fcc : list cert_step := [
  LORA 903000000 8 LORA_BW_500_KHZ 22 US915_DR4_PAYLOAD;
  LORA 909400000 8 LORA_BW_500_KHZ 22 US915_DR4_PAYLOAD;
  LORA 914200000 8 LORA_BW_500_KHZ 22 US915_DR4_PAYLOAD;
  LORA 902300000 7 LORA_BW_125_KHZ 22 US915_DR3_PAYLOAD;
  LORA 902300000 10 LORA_BW_125_KHZ 22 US915_DR0_PAYLOAD;
  LORA 908700000 7 LORA_BW_125_KHZ 22 US915_DR3_PAYLOAD;
  LORA 908700000 10 LORA_BW_125_KHZ 22 US915_DR0_PAYLOAD;
  LORA 914900000 7 LORA_BW_125_KHZ 22 US915_DR3_PAYLOAD;
  LORA 914900000 10 LORA_BW_125_KHZ 22 US915_DR0_PAYLOAD;
  SWEEP FCC_FHSS_CHANNELS 10 US915_DR0_PAYLOAD;
  SWEEP FCC_FHSS_CHANNELS 9 US915_DR1_PAYLOAD;
  SWEEP FCC_FHSS_CHANNELS 8 US915_DR2_PAYLOAD;
  SWEEP FCC_FHSS_CHANNELS 7 US915_DR3_PAYLOAD;
  SWEEP FCC_HYBRID_CHANNELS 10 US915_DR0_PAYLOAD;
  SWEEP FCC_HYBRID_CHANNELS 9 US915_DR1_PAYLOAD;
  SWEEP FCC_HYBRID_CHANNELS 8 US915_DR2_PAYLOAD;
  SWEEP FCC_HYBRID_CHANNELS 7 US915_DR3_PAYLOAD].
Definition steps_arib : list cert_step := [
  LORA 920600000 7 LORA_BW_125_KHZ 9 FULL_PAYLOAD;
  LORA 920600000 12 LORA_BW_125_KHZ 9 FULL_PAYLOAD;
  LORA 922000000 7 LORA_BW_125_KHZ 9 FULL_PAYLOAD;
  LORA 922000000 12 LORA_BW_125_KHZ 9 FULL_PAYLOAD;
  LORA 923400000 7 LORA_BW_125_KHZ 9 FULL_PAYLOAD;
  LORA 923400000 12 LORA_BW_125_KHZ 9 FULL_PAYLOAD;
  FSK 920600000 9;
  FSK 922000000 9;
  FSK 923400000 9].
Definition steps_etsi : list cert_step := [
  LORA 863100000 7 LORA_BW_125_KHZ 14 FULL_PAYLOAD;
  LORA 863100000 12 LORA_BW_125_KHZ 14 FULL_PAYLOAD;
  LORA 868300000 7 LORA_BW_125_KHZ 14 FULL_PAYLOAD;
  LORA 868300000 12 LORA_BW_125_KHZ 14 FULL_PAYLOAD;
  LORA 868500000 7 LORA_BW_125_KHZ 14 FULL_PAYLOAD;
  LORA 868500000 12 LORA_BW_125_KHZ 14 FULL_PAYLOAD;
  LORA 868300000 7 LORA_BW_250_KHZ 14 FULL_PAYLOAD;
  LORA 866500000 7 LORA_BW_125_KHZ 14 FULL_PAYLOAD;
  LORA 866500000 12 LORA_BW_125_KHZ 14 FULL_PAYLOAD;
  FSK 863100000 14;
  FSK 866500000 14;
  FSK 868100000 14;
  FSK 868300000 14;
  FSK 868500000 14;
  FSK 869900000 14].
(** The choice of its Kconfig. *)
Inductive cert_region : Type := FCC | ARIB | ETSI.
Definition REGION_NAME (r : cert_region) : string := match r with FCC => "FCC" | ARIB => "ARIB" | ETSI => "ETSI" end.
Definition steps_of (r : cert_region) : list cert_step :=
  match r with FCC => steps_fcc | ARIB => steps_arib | ETSI => steps_etsi end.
Class CertConfig : Type := {
  CONFIG_APP_RF_CERT_REGION : cert_region; CONFIG_APP_RF_CERT_ONLY_STEP : Z; CONFIG_APP_RF_CERT_STEP_S : Z;
}.
Definition steps `{CertConfig} : list cert_step := steps_of CONFIG_APP_RF_CERT_REGION.
(** The build assertion. *)
Class CertConfigOk `{CertConfig} : Prop := {
  only_step_exists : 0 <= CONFIG_APP_RF_CERT_ONLY_STEP <= zlen steps;
}.

(** ** The sample *)
(** The file-scope variables, and where they live. *)
Record cert_vars : Type := CertVars { tx_error : Z; payload : list Z; hop_order : list Z }.
Definition cert_boot : cert_vars := CertVars 0 (replicate 255 0) (replicate 64 0).
Class CertState (W : Type) : Type := { cert_of : W -> cert_vars; set_cert : cert_vars -> W -> W }.
(** The variables of [run_step]'s loop. *)
Record tx_loop : Type := TxLoop { counter : Z; next_log : Z; sent : Z; hop : Z }.
Definition put_tx_error v s := CertVars v (payload s) (hop_order s).
Definition put_payload v s := CertVars (tx_error s) v (hop_order s).
Definition put_hop_order v s := CertVars (tx_error s) (payload s) v.
(** The fields of a step in a radio configuration. *)
Definition configured (step : cert_step) (frequency : Z) (c : rzi_lora_config) : rzi_lora_config :=
  let lora := modulation step =? RZI_LORA_MOD_LORA in
  with_radio (if lora then step_spreading_factor step else spreading_factor c)
    (if lora then step_bandwidth step else bandwidth c) LORA_CR_4_5 PREAMBLE_LENGTH (power_dbm step)
    (with_frequency frequency c).
(** [hop_order\[i\] = hop_order\[j\]] and back through [tmp]. *)
Definition swap (i j : Z) (l : list Z) : list Z :=
  <[Z.to_nat j := at_ l i]> (<[Z.to_nat i := at_ l j]> l).

Section sample.
Context `{Zephyr} {ctx : ExecCtx} `{LoraEnv W} `{!SampleThread W} `{!CertState W} `{CertConfig}.
Definition cget {A} (p : cert_vars -> A) : M W A := gets (fun w => p (cert_of w)).
Definition cput (f : cert_vars -> cert_vars) : M W unit := modify (fun w => set_cert (f (cert_of w)) w).

Definition on_tx_done (error : Z) : M W unit := cput (put_tx_error error) ;;; k_sem_give tx_done_sem.

Definition log_step (index : Z) : M W unit :=
  let bw_khz := [125; 250; 500] in
  let step := nth (Z.to_nat index) steps (LORA 0 0 0 0 0) in
  let f := step_frequency_hz step in
  if modulation step =? RZI_LORA_MOD_FSK then
    LOG_INF "%2zu  FSK   %3u.%03u MHz  50 kbps     %2d dBm  %3u B"
      [index + 1; f / 1000000; f / 1000 mod 1000; power_dbm step; payload_size step]
  else if negb (hop_channels step =? 0) then
    LOG_INF "%2zu  LoRa  hop %2u ch from %3u.%03u MHz  SF%-2u BW%u  %2d dBm  %3u B"
      [index + 1; hop_channels step; f / 1000000; f / 1000 mod 1000; step_spreading_factor step;
       at_ bw_khz (step_bandwidth step); power_dbm step; payload_size step]
  else
    LOG_INF "%2zu  LoRa  %3u.%03u MHz  SF%-2u BW%u  %2d dBm  %3u B"
      [index + 1; f / 1000000; f / 1000 mod 1000; step_spreading_factor step;
       at_ bw_khz (step_bandwidth step); power_dbm step; payload_size step].

Definition configure (step : cert_step) (frequency : Z) : M W Z :=
  let* '(rc, config) := rzi_lora_get_config (Some config_default) in
  if negb (rc =? 0) then ret rc
  else rzi_lora_set_config (configured step frequency <$> config).

(** The second loop, from [i] down. *)
Fixpoint shuffle_from (i : nat) : M W unit :=
  match i with
  | O => ret tt
  | S below =>
      let* r := sys_rand32_get in
      cput (fun s => put_hop_order (swap (Z.of_nat i) (r mod (Z.of_nat i + 1)) (hop_order s)) s) ;;;
      shuffle_from below
  end.
Definition shuffle_hops (channels : Z) : M W unit :=
  for_each (seq 0 (Z.to_nat channels))
    (fun i => cput (fun s => put_hop_order (<[i := Z.of_nat i]> (hop_order s)) s)) ;;;
  shuffle_from (Z.to_nat (channels - 1)).

Definition send_packet (number size : Z) : M W Z :=
  cput (fun s => put_payload (overlay (payload s) (Z.to_nat (size - COUNTER_SIZE)) (sys_put_be32 number)) s) ;;;
  k_sem_reset tx_done_sem ;;;
  let* data := cget payload in
  let* rc := rzi_lora_send (Some data) size in
  if negb (rc =? 0) then LOG_ERR "Packet %u rejected: %s" [number; rc] ;;; ret rc else
  let* ok := wait_for tx_done_sem TX_TIMEOUT_MS in
  if negb ok then LOG_ERR "Packet %u not sent" [number] ;;; ret (- RZI_ERR_TIMEOUT) else
  let* error := cget tx_error in
  (if negb (error =? 0) then LOG_ERR "Packet %u failed: %s" [number; error] else ret tt) ;;;
  cget tx_error.

(** One round of the loop of [run_step]: [None] goes on, [Some None] leaves the
    loop, [Some (Some rc)] returns. *)
Definition next_hop (step : cert_step) (s : tx_loop) : M W (Z * tx_loop) :=
  if negb (hop_channels step =? 0) then
    let* order := cget hop_order in
    let* rc := configure step (u32 (step_frequency_hz step + at_ order (hop s) * FCC_HOP_STEP_HZ)) in
    if negb (rc =? 0) then ret (rc, s) else
    let hop := u8 (hop s + 1) in
    if hop =? hop_channels step
    then shuffle_hops (hop_channels step) ;;; ret (0, TxLoop (counter s) (next_log s) (sent s) 0)
    else ret (0, TxLoop (counter s) (next_log s) (sent s) hop)
  else ret (0, s).
Definition transmit_round (index : Z) (step : cert_step) (start duration_ms : Z) (s : tx_loop)
  : M W (option (option Z) * tx_loop) :=
  let* go := if duration_ms =? 0 then ret true
             else let* now := k_uptime_get in ret (now - start <? duration_ms) in
  if negb go then ret (Some None, s) else
  let* '(rc, s) := next_hop step s in
  if negb (rc =? 0) then ret (Some (Some rc), s) else
  let number := counter s in
  let s := TxLoop (u32 (counter s + 1)) (next_log s) (sent s) (hop s) in
  let* rc := send_packet number (payload_size step) in
  if negb (rc =? 0) then ret (Some (Some rc), s) else
  let s := TxLoop (counter s) (next_log s) (u32 (sent s + 1)) (hop s) in
  let* now := k_uptime_get in
  if next_log s <=? now
  then
    LOG_INF "Step %zu: %u packets" [index + 1; sent s] ;;;
    ret (None, TxLoop (counter s) (next_log s + PROGRESS_LOG_MS) (sent s) (hop s))
  else ret (None, s).
Fixpoint transmit (fuel : nat) index step start duration_ms (s : tx_loop) : M W (option (option Z) * tx_loop) :=
  match fuel with
  | O => ret (None, s)
  | S fuel =>
      let* '(r, s) := transmit_round index step start duration_ms s in
      match r with None => transmit fuel index step start duration_ms s | Some r => ret (Some r, s) end
  end.
(** [run_step] up to its loop. *)
Definition prepare_step (index : Z) (step : cert_step) : M W Z :=
  let* rc := configure step (step_frequency_hz step) in
  if negb (rc =? 0) then LOG_ERR "Step %zu setup failed: %s" [index + 1; rc] ;;; ret rc else
  let* rc := rzi_lora_init (modulation step) in
  if negb (rc =? 0) then LOG_ERR "Step %zu init failed: %s" [index + 1; rc] ;;; ret rc else
  (if negb (hop_channels step =? 0) then shuffle_hops (hop_channels step) else ret tt) ;;; ret 0.
(** The code and [*counter]; no code while the fuel does not reach the end of the loop. *)
Definition run_step (fuel : nat) (index duration_ms number : Z) : M W (option Z * Z) :=
  let step := nth (Z.to_nat index) steps (LORA 0 0 0 0 0) in
  let* start := k_uptime_get in
  LOG_INF "Step %zu of %zu:" [index + 1; zlen steps] ;;;
  log_step index ;;;
  let* rc := prepare_step index step in
  if negb (rc =? 0) then ret (Some rc, number) else
  let* '(r, s) := transmit fuel index step start duration_ms (TxLoop number (start + PROGRESS_LOG_MS) 0 0) in
  match r with
  | None => ret (None, counter s)
  | Some (Some rc) => ret (Some rc, counter s)
  | Some None => LOG_INF "Step %zu done: %u packets" [index + 1; sent s] ;;; ret (Some 0, counter s)
  end.
(** The loop over the steps. *)
Fixpoint run_steps (fuel : nat) (indices : list Z) (number : Z) : M W (option Z * Z) :=
  match indices with
  | [] => ret (Some 0, number)
  | i :: indices =>
      let* '(r, number) := run_step fuel i (u32 (CONFIG_APP_RF_CERT_STEP_S * 1000)) number in
      match r with Some 0 => run_steps fuel indices number | _ => ret (r, number) end
  end.
Definition fill_payload : M W unit :=
  cput (fun s => put_payload (overlay (payload s) 0 HEADER) s) ;;;
  for_each (seq 7 (255 - 7)) (fun i => cput (fun s => put_payload (<[i := u8 (Z.of_nat i)]> (payload s)) s)).
End sample.

Section cert_main.
Context `{Zephyr} `{Errno} `{Kconfig} {ctx : ExecCtx} `{LorawanBackend} `{LorawanExt} `{!LorawanHooks}
  `{!LoraEnv world} `{!SampleThread world} `{!CertState world} `{CertConfig}
  (lorawan_callbacks : rzi_lorawan_callbacks) (lora_callbacks : rzi_lora_callbacks).
Definition start_radio : M world Z :=
  let* rc := start_modem lorawan_callbacks in
  if negb (rc =? 0) then ret rc else
  let* rc := rzi_lora_register_callbacks (Some lora_callbacks) in
  (if negb (rc =? 0) then LOG_ERR "LoRa callback registration failed: %s" [rc] else ret tt) ;;; ret rc.
Definition main (fuel : nat) : M world (option Z) :=
  fill_payload ;;;
  LOG_INF ("RZI RF certification: " ++ REGION_NAME CONFIG_APP_RF_CERT_REGION ++ ", %zu steps") [zlen steps] ;;;
  for_each (seq 0 (length steps)) (fun i => log_step (Z.of_nat i)) ;;;
  let* rc := start_radio in
  if negb (rc =? 0) then ret (Some rc) else
  if negb (CONFIG_APP_RF_CERT_ONLY_STEP =? 0) then
    let* '(r, _) := run_step fuel (CONFIG_APP_RF_CERT_ONLY_STEP - 1) 0 0 in ret r
  else
    let* '(r, number) := run_steps fuel (Z.of_nat <$> seq 0 (length steps)) 0 in
    match r with
    | Some 0 => LOG_INF "Sequence complete: %u packets" [number] ;;; ret (Some 0)
    | _ => ret r
    end.
End cert_main.
