(* ===== verification/RfCertFlows.v ===== *)
(** * The RF certification sample over the LoRa service

    The plans are within what the radio and the bands take; the hops of a sweep
    are shuffled fairly; packets are numbered. *)
From S2P Require Import Prelude Zephyr Err Power Storage LorawanSettings LorawanBackend LorawanCore LorawanCredentials LorawanChannel LorawanApi Lorawan Lora SampleKernel SampleThread RfCertification.

(** ** The plans *)
(** The band of each plan: the prompts of its Kconfig. *)
Definition band (r : cert_region) : Z * Z :=
  match r with FCC => (902000000, 928000000) | ARIB => (920000000, 928000000) | ETSI => (863000000, 870000000) end.
(** Every frequency a step may use. *)
Definition step_frequencies (step : cert_step) : list Z :=
  if hop_channels step =? 0 then [step_frequency_hz step]
  else (fun i => step_frequency_hz step + i * FCC_HOP_STEP_HZ) <$> seqZ 0 (hop_channels step).
Definition step_ok (r : cert_region) (step : cert_step) : bool :=
  (0 <=? hop_channels step) && (hop_channels step <=? FCC_FHSS_CHANNELS) &&
  (HEADER_SIZE + COUNTER_SIZE <=? payload_size step) && (payload_size step <=? RZI_LORA_MAX_PAYLOAD) &&
  (0 <=? step_bandwidth step) && (step_bandwidth step <? 3) &&
  (5 <=? power_dbm step) && (power_dbm step <=? 22) &&
  ((modulation step =? RZI_LORA_MOD_FSK) && (hop_channels step =? 0) ||
   (modulation step =? RZI_LORA_MOD_LORA) && (5 <=? step_spreading_factor step) && (step_spreading_factor step <=? 12)) &&
  forallb (fun f => ((band r).1 <=? f) && (f <=? (band r).2)) (step_frequencies step).
Lemma plans_ok r : forallb (step_ok r) (steps_of r) = true.
Proof. destruct r; vm_compute; reflexivity. Qed.

(** ** Shuffling *)
Lemma insert_permutation {A} (l : list A) i x y : l !! i = Some y -> <[i := x]> l ≡ₚ x :: delete i l.
Proof.
  intros Hi. pose proof (lookup_lt_Some _ _ _ Hi).
  rewrite (delete_Permutation (<[i := x]> l) i x) by (by apply list_lookup_insert_eq).
  by rewrite !delete_take_drop, take_insert_ge, drop_insert_lt by lia.
Qed.
Lemma swap_permutation i j l : 0 <= i < zlen l -> 0 <= j < zlen l -> swap i j l ≡ₚ l.
Proof.
  unfold swap, at_, zlen. intros Hi Hj.
  destruct (lookup_lt_is_Some_2 l (Z.to_nat i)) as [x Hx]; [lia|].
  destruct (lookup_lt_is_Some_2 l (Z.to_nat j)) as [y Hy]; [lia|].
  rewrite (nth_lookup_Some _ _ 0 x Hx), (nth_lookup_Some _ _ 0 y Hy). set (l1 := <[Z.to_nat i := y]> l).
  assert (Hj1 : l1 !! Z.to_nat j = Some y).
  { unfold l1. destruct (decide (Z.to_nat i = Z.to_nat j)) as [<-|Hne]; [apply list_lookup_insert_eq; lia|].
    by rewrite list_lookup_insert_ne. }
  rewrite (insert_permutation l1 _ x y Hj1), (delete_Permutation l _ x Hx). constructor.
  apply (Permutation_cons_inv (a := y)). rewrite <- (delete_Permutation l1 _ y Hj1).
  by rewrite <- (insert_permutation l _ y x Hx).
Qed.
Lemma take_swap c i j l : 0 <= i < Z.of_nat c -> 0 <= j < Z.of_nat c -> take c (swap i j l) = swap i j (take c l).
Proof.
  intros Hi Hj. unfold swap. rewrite !take_insert_lt by lia. unfold at_. by rewrite !nth_lookup, !lookup_take_lt by lia.
Qed.

(** A value written at every index. *)
Lemma write_indices n : forall (o : list Z), (n <= length o)%nat ->
  fold_left (fun o i => <[i := Z.of_nat i]> o) (seq 0 n) o = seqZ 0 (Z.of_nat n) ++ drop n o.
Proof.
  induction n as [|n IH]; intros o Hn; [done|].
  rewrite seq_S, fold_left_app, IH by lia. cbn [fold_left]. rewrite Nat.add_0_l.
  rewrite insert_app_r_alt by (rewrite length_seqZ; lia). rewrite length_seqZ, Nat2Z.id, Nat.sub_diag.
  destruct (drop n o) as [|x r] eqn:E.
  { apply (f_equal length) in E. rewrite length_drop in E. cbn in E. lia. }
  rewrite seqZ_S, <- app_assoc, <- Nat.add_1_r, <- drop_drop, E. done.
Qed.

(** ** The sample *)
(** What the sample keeps in its memory and what it asked the radio for. *)
Definition image `{LoraEnv W} `{!CertState W} (w : W) : list Z * list Z * rzi_lora_config :=
  (payload (cert_of w), hop_order (cert_of w), l_config (lora_of w)).
Definition kept `{LoraEnv W} `{!CertState W} (w w' : W) : Prop := image w' = image w.
#[export] Instance kept_preorder `{LoraEnv W} `{!CertState W} : PreOrder kept.
Proof. split; [done|]. intros ? ? ?. unfold kept. congruence. Qed.
(** The variables are where they are put, only the sample writes its buffers,
    and nobody else configures the radio. *)
Class CertOk `{LoraEnv W} `{!SampleThread W} `{!CertState W} : Prop := {
  cert_lora :: LoraEnvOk;
  cert_of_set v w : cert_of (set_cert v w) = v;
  lora_of_set_cert v w : lora_of (set_cert v w) = lora_of w;
  cert_of_set_lora l w : cert_of (set_lora l w) = cert_of w;
  random_range w : 0 <= (sys_rand32_get w).1;
  kept_thread :: ThreadEffects kept;
  kept_radio :: RadioEffects kept;
  kept_clock : respects kept k_uptime_get;
}.

(** What went on the air: each packet the radio driver took, with the
    configuration in force when it was handed over.  Nothing else sends. *)
Class RadioLog `{LoraEnv W} `{!SampleThread W} `{!CertState W} : Type := {
  air : W -> list (rzi_lora_config * list Z);
  air_send send d n w : b_send = Some send -> (send d n w).1 = 0 ->
    air (send d n w).2 = air w ++ [(l_config (lora_of w), d)];
  air_thread :: ThreadEffects (same air);
  air_clock : keeps air k_uptime_get;
  air_set_cert v w : air (set_cert v w) = air w;
  air_set_lora l w : air (set_lora l w) = air w;
  air_apply f c : b_apply_config = Some f -> keeps air (f c);
  air_poll f : b_poll = Some f -> keeps air f;
}.

Section flows.
Context `{Zephyr} {ctx : ExecCtx} `{LoraEnv W} `{!SampleThread W} `{!CertState W} `{CertConfig} `{!CertOk} `{!RadioLog}.
Lemma image_cput f w : image (cput f w).2 =
  (payload (f (cert_of w)), hop_order (f (cert_of w)), l_config (lora_of w)).
Proof. unfold image, cput. cbn. by rewrite cert_of_set, lora_of_set_cert. Qed.
Lemma image_cputs {A} (l : list A) g (p : list Z -> A -> list Z) w :
  (forall s a, g a s = put_hop_order (p (hop_order s) a) s) ->
  image (for_each l (fun a => cput (g a)) w).2 =
  (payload (cert_of w), fold_left p l (hop_order (cert_of w)), l_config (lora_of w)).
Proof.
  intros Hg. revert w. induction l as [|a l IH]; intros w; [done|]. cbn [for_each fold_left]. rewrite bind_eq.
  rewrite IH. cbn. by rewrite cert_of_set, lora_of_set_cert, Hg.
Qed.

Lemma kept_fields (w w' : W) : kept w w' -> payload (cert_of w') = payload (cert_of w) /\
  hop_order (cert_of w') = hop_order (cert_of w) /\ l_config (lora_of w') = l_config (lora_of w).
Proof. unfold kept, image. intros [= -> -> ->]. done. Qed.

(** *** Shuffling *)
Lemma shuffle_from_permutes n : forall c w, (n < c)%nat -> (c <= length (hop_order (cert_of w)))%nat ->
  let w' := (shuffle_from n w).2 in
  take c (hop_order (cert_of w')) ≡ₚ take c (hop_order (cert_of w)) /\
  length (hop_order (cert_of w')) = length (hop_order (cert_of w)) /\
  payload (cert_of w') = payload (cert_of w) /\ l_config (lora_of w') = l_config (lora_of w).
Proof.
  induction n as [|n IH]; intros c w Hn Hc; [done|]. cbn zeta. cbn [shuffle_from]. rewrite bind_eq.
  pose proof (rand_moves (R := kept) w) as Hk. pose proof (random_range w) as Hr.
  destruct (sys_rand32_get w) as [r w1]. cbn [fst snd] in *. pose proof Hk as (Hk1 & Hk2 & Hk3)%kept_fields.
  set (i := Z.of_nat (S n)) in *. set (j := r mod (i + 1)).
  assert (Hj : 0 <= j < i + 1) by (apply Z.mod_pos_bound; lia). rewrite bind_eq. cbn [fst snd].
  set (w2 := (cput _ w1).2).
  assert (E2 : cert_of w2 = put_hop_order (swap i j (hop_order (cert_of w1))) (cert_of w1) /\ lora_of w2 = lora_of w1).
  { unfold w2, cput. cbn. by rewrite cert_of_set, lora_of_set_cert. }
  destruct E2 as [E2 L2]. destruct (IH c w2) as (Hp & Hl & Hpay & Hcfg).
  { lia. } { rewrite E2. cbn. unfold swap. rewrite !length_insert. congruence. }
  rewrite Hp, Hl, Hpay, Hcfg, E2, L2. cbn [hop_order put_hop_order payload]. unfold swap. rewrite !length_insert.
  split_and!; [|congruence..]. fold (swap i j (hop_order (cert_of w1))).
  rewrite Hk2.
  rewrite take_swap by (unfold zlen; lia). apply swap_permutation; unfold zlen; rewrite length_take; lia.
Qed.
Lemma shuffle_permutes c w : 1 <= c <= zlen (hop_order (cert_of w)) ->
  let w' := (shuffle_hops c w).2 in
  take (Z.to_nat c) (hop_order (cert_of w')) ≡ₚ seqZ 0 c /\
  length (hop_order (cert_of w')) = length (hop_order (cert_of w)) /\
  payload (cert_of w') = payload (cert_of w) /\ l_config (lora_of w') = l_config (lora_of w).
Proof.
  unfold zlen. intros Hc. cbn zeta. unfold shuffle_hops. rewrite bind_eq.
  pose proof (image_cputs (seq 0 (Z.to_nat c)) (fun i s => put_hop_order (<[i := Z.of_nat i]> (hop_order s)) s)
    (fun o i => <[i := Z.of_nat i]> o) w ltac:(done)) as Hi.
  destruct (for_each _ _ w) as [u w1]. cbn [fst snd] in *. unfold image in Hi. injection Hi as Hpay Ho Hcfg.
  rewrite write_indices in Ho by lia. rewrite Z2Nat.id in Ho by lia.
  assert (Hlen : length (hop_order (cert_of w1)) = length (hop_order (cert_of w))).
  { rewrite Ho, length_app, length_seqZ, length_drop. lia. }
  destruct (shuffle_from_permutes (Z.to_nat (c - 1)) (Z.to_nat c) w1) as (Hp & Hl & ? & ?); [lia..|].
  split_and!; [|congruence..]. rewrite Hp, Ho. by rewrite take_app_length' by (rewrite length_seqZ; lia).
Qed.

(** *** The radio *)
Lemma configure_done step f w : (configure step f w).1 = 0 ->
  let w' := (configure step f w).2 in
  payload (cert_of w') = payload (cert_of w) /\ hop_order (cert_of w') = hop_order (cert_of w) /\
  l_config (lora_of w') = configured step f (l_config (lora_of w)).
Proof.
  unfold configure, rzi_lora_get_config, rzi_lora_set_config, lget. rewrite bind_eq.
  destruct (Z.eqb_spec check_thread 0) as [_|Hne]; cbn [negb].
  2:{ cbn. by rewrite (proj2 (Z.eqb_neq _ _) Hne). }
  rewrite bind_eq. cbn -[configured config_in_range lput].
  destruct (config_in_range _); [|done]. cbn [negb]. rewrite bind_eq. cbn -[configured config_in_range lput].
  set (w1 := (lput (put_config (configured step f (l_config (lora_of w)))) w).2).
  assert (E1 : cert_of w1 = cert_of w /\ lora_of w1 = put_config (configured step f (l_config (lora_of w))) (lora_of w)).
  { unfold w1, lput. cbn. by rewrite lora_of_set, cert_of_set_lora. }
  destruct E1 as [Ec El]. clearbody w1. cbn -[configured].
  destruct b_apply_config as [apply|] eqn:Eb; [destruct (negb _)|]; cbn -[configured];
    [|by rewrite Ec, El..]. intros _.
  destruct (kept_fields _ _ (b_apply_moves (R := kept) apply (l_config (lora_of w1)) Eb w1)) as (-> & -> & ->).
  by rewrite Ec, El.
Qed.
Lemma send_packet_keeps number size w : let w' := (send_packet number size w).2 in
  payload (cert_of w') = overlay (payload (cert_of w)) (Z.to_nat (size - COUNTER_SIZE)) (sys_put_be32 number) /\
  hop_order (cert_of w') = hop_order (cert_of w) /\ l_config (lora_of w') = l_config (lora_of w).
Proof.
  cbn zeta. unfold send_packet. rewrite bind_eq. set (c := cput _). set (w1 := (c w).2).
  assert (E1 : payload (cert_of w1) = overlay (payload (cert_of w)) (Z.to_nat (size - COUNTER_SIZE)) (sys_put_be32 number)
    /\ hop_order (cert_of w1) = hop_order (cert_of w) /\ l_config (lora_of w1) = l_config (lora_of w)).
  { unfold w1, c, cput. cbn. by rewrite cert_of_set, lora_of_set_cert. }
  destruct E1 as (<- & <- & <-). apply kept_fields. clearbody w1. clear c. revert w1.
  match goal with |- forall w1, kept w1 (?m w1).2 => change (respects kept m) end.
  unfold cget. repeat first [frame_step | apply log_moves | apply reset_moves | apply lora_send_moves; apply _
    | apply wait_for_moves; [apply _..|exact kept_clock]].
Qed.
(** *** The air *)
Lemma cput_air f : keeps air (cput f).
Proof. intros w. apply air_set_cert. Qed.
Lemma configure_air step f : keeps air (configure step f).
Proof.
  assert (Hput : forall g, keeps air (lput g)) by (intros g w; apply air_set_lora).
  unfold configure, rzi_lora_get_config, rzi_lora_set_config, lget.
  repeat first [match goal with |- respects _ (match ?x with Some _ => _ | None => _ end) => destruct x eqn:? end
    | frame_step | apply Hput | by apply air_apply].
Qed.
Lemma shuffle_air c : keeps air (shuffle_hops c).
Proof.
  unfold shuffle_hops. apply respects_bind; [apply _|apply respects_for_each; [apply _|intros; apply cput_air]|]. intros _.
  induction (Z.to_nat (c - 1)) as [|n IH]; cbn [shuffle_from]; [frame|].
  repeat first [frame_step | apply rand_moves | apply cput_air | exact IH].
Qed.
Lemma lora_send_air d n w : (rzi_lora_send (Some d) n w).1 = 0 ->
  air (rzi_lora_send (Some d) n w).2 =
    air w ++ [(l_config (lora_of w), apply_cipher (take (Z.to_nat n) d) (l_config (lora_of w)))].
Proof.
  unfold rzi_lora_send. destruct (Z.eqb_spec check_thread 0) as [_|]; cbn [negb]; [|by intros ?].
  destruct (n =? 0); [done|]. destruct (_ <? n); [done|]. unfold lget. rewrite bind_eq. cbn [gets fst snd].
  destruct b_send as [send|] eqn:E; [|done]. destruct (_ =? 0); [done|]. rewrite bind_eq. by apply air_send.
Qed.
Lemma send_packet_air number size w : (send_packet number size w).1 = 0 ->
  let w' := (send_packet number size w).2 in
  air w' = air w ++ [(l_config (lora_of w), apply_cipher (take (Z.to_nat size) (payload (cert_of w'))) (l_config (lora_of w)))].
Proof.
  intros Hrc. cbn zeta. destruct (send_packet_keeps number size w) as (-> & _ & _). revert Hrc.
  unfold send_packet. rewrite bind_eq. set (c := cput _). set (w1 := (c w).2).
  assert (E1 : payload (cert_of w1) = overlay (payload (cert_of w)) (Z.to_nat (size - COUNTER_SIZE)) (sys_put_be32 number)
    /\ l_config (lora_of w1) = l_config (lora_of w) /\ air w1 = air w).
  { unfold w1, c, cput. cbn. by rewrite cert_of_set, lora_of_set_cert, air_set_cert. }
  destruct E1 as (<- & <- & <-). clearbody w1. clear c w. rewrite bind_eq.
  destruct (kept_fields _ _ (reset_moves (R := kept) tx_done_sem w1)) as (<- & _ & <-).
  rewrite <- (reset_moves (R := same air) tx_done_sem w1 : air _ = air w1). generalize (k_sem_reset tx_done_sem w1).2. clear w1.
  intros w. rewrite bind_eq. cbn [cget gets fst snd]. set (d := payload (cert_of w)). rewrite bind_eq.
  pose proof (lora_send_air d size w) as Ha. destruct (rzi_lora_send (Some d) size w) as [rc w1]. cbn [fst snd] in *.
  destruct (Z.eqb_spec rc 0) as [->|Hne]; cbn [negb].
  2:{ rewrite bind_eq. cbn. done. }
  intros _. rewrite <- (Ha eq_refl). clear Ha. revert w1. match goal with |- forall w1, air (?m w1).2 = _ => change (keeps air m) end.
  assert (Hp : keeps air rzi_lora_poll) by (unfold rzi_lora_poll; destruct b_poll eqn:E; [by apply air_poll|frame]).
  unfold cget. repeat first [frame_step | apply log_moves | apply wait_for_respects; [apply _|exact Hp|exact air_clock]].
Qed.

(** *** A round of the loop *)
(** The frequency of the next packet of a sweep. *)
Definition next_frequency (step : cert_step) (order : list Z) (hop : Z) : Z :=
  u32 (step_frequency_hz step + at_ order hop * FCC_HOP_STEP_HZ).
(** Where the loop is: on the step's frequency, or in a sweep, whose order
    starts with the channels, each once. *)
Definition on_step (step : cert_step) (w : W) (s : tx_loop) : Prop :=
  length (hop_order (cert_of w)) = Z.to_nat FCC_FHSS_CHANNELS /\
  if hop_channels step =? 0 then frequency_hz (l_config (lora_of w)) = step_frequency_hz step
  else 1 <= hop_channels step <= FCC_FHSS_CHANNELS /\ 0 <= hop s < hop_channels step /\
    take (Z.to_nat (hop_channels step)) (hop_order (cert_of w)) ≡ₚ seqZ 0 (hop_channels step).
(** One packet further: where the sweep goes on. *)
Definition hopped (step : cert_step) (w : W) (s : tx_loop) (w' : W) (s' : tx_loop) : Prop :=
  hop_channels step <> 0 ->
  if hop s + 1 =? hop_channels step then hop s' = 0
  else hop s' = hop s + 1 /\ hop_order (cert_of w') = hop_order (cert_of w).
(** The frequency of the packet of this round. *)
Definition round_frequency (step : cert_step) (w : W) (s : tx_loop) : Z :=
  if hop_channels step =? 0 then step_frequency_hz step else next_frequency step (hop_order (cert_of w)) (hop s).
Lemma on_step_kept step w w' s s' : kept w w' -> hop s' = hop s -> on_step step w s -> on_step step w' s'.
Proof. intros (_ & Ho & Hc)%kept_fields Hh. unfold on_step. by rewrite Ho, Hc, Hh. Qed.
Lemma next_hop_done step s w s' w' : on_step step w s -> next_hop step s w = ((0, s'), w') ->
  payload (cert_of w') = payload (cert_of w) /\ counter s' = counter s /\ on_step step w' s' /\ hopped step w s w' s' /\
  air w' = air w /\ frequency_hz (l_config (lora_of w')) = round_frequency step w s.
Proof.
  intros [Hlen Hon]. unfold next_hop, hopped, round_frequency. destruct (hop_channels step =? 0) eqn:E0'; cbn [negb].
  { intros [= <- <-]. apply Z.eqb_eq in E0' as E0. split_and!; try done. unfold on_step. by rewrite E0'. }
  destruct Hon as (Hc & Hh & Hp). rewrite bind_eq. cbn [cget gets fst snd]. rewrite bind_eq.
  fold (next_frequency step (hop_order (cert_of w)) (hop s)). set (f := next_frequency _ _ _).
  pose proof (configure_done step f w) as Hd. pose proof (configure_air step f w) as Ha. unfold same in Ha.
  destruct (configure step f w) as [rc w1]. cbn [fst snd] in *.
  destruct (Z.eqb_spec rc 0) as [->|]; cbn [negb]; [|by intros [= -> _ _]].
  destruct (Hd eq_refl) as (Hpay & Hord & Hcfg). clear Hd. unfold u8. rewrite Z.mod_small by lia.
  destruct (Z.eqb_spec (hop s + 1) (hop_channels step)) as [E|E].
  - rewrite bind_eq. destruct (shuffle_permutes (hop_channels step) w1) as (Hp' & Hl' & Hpay' & Hcfg').
    { rewrite Hord. unfold zlen. lia. }
    pose proof (shuffle_air (hop_channels step) w1) as Ha'. unfold same in Ha'.
    destruct (shuffle_hops _ w1) as [u w2]. cbn [fst snd] in *. intros [= <- <-]. unfold on_step. cbn.
    rewrite E0', Hcfg', Hcfg, Hpay', Ha'. split_and!; try done; try congruence; lia.
  - intros [= <- <-]. unfold on_step. cbn. rewrite E0', Hcfg, Hord. split_and!; try done; lia.
Qed.
Lemma round_done index step start duration s w s' w' : on_step step w s ->
  transmit_round index step start duration s w = ((None, s'), w') ->
  payload (cert_of w') =
    overlay (payload (cert_of w)) (Z.to_nat (payload_size step - COUNTER_SIZE)) (sys_put_be32 (counter s)) /\
  counter s' = u32 (counter s + 1) /\ on_step step w' s' /\ hopped step w s w' s' /\
  exists c, frequency_hz c = round_frequency step w s /\
    air w' = air w ++ [(c, apply_cipher (take (Z.to_nat (payload_size step)) (payload (cert_of w'))) c)].
Proof.
  intros Hs. unfold transmit_round. rewrite bind_eq.
  set (go := if duration =? 0 then _ else _).
  assert (Hgo : respects kept go).
  { unfold go. repeat first [frame_step | exact kept_clock]. }
  assert (Ha1 : keeps air go).
  { unfold go. repeat first [frame_step | exact air_clock]. }
  specialize (Hgo w). specialize (Ha1 w). unfold same in Ha1. destruct (go w) as [b w1]. clear go. cbn [fst snd] in *.
  destruct (kept_fields _ _ Hgo) as (Hp1 & Ho1 & Hc1). destruct b; cbn [negb]; [|done]. rewrite bind_eq.
  pose proof (on_step_kept step w w1 s s Hgo eq_refl Hs) as Hs1. unfold hopped, round_frequency. rewrite <- Hp1, <- Ho1, <- Ha1.
  pose proof (next_hop_done step s w1) as Hn. destruct (next_hop step s w1) as [[rc s1] w2]. cbn [fst snd].
  destruct (Z.eqb_spec rc 0) as [->|]; cbn [negb]; [|done].
  destruct (Hn s1 w2 Hs1 eq_refl) as (Hp2 & Hcnt & Hs2 & Hh2 & Ha2 & Hf2). clear Hn. rewrite bind_eq.
  destruct (send_packet_keeps (counter s1) (payload_size step) w2) as (Hp3 & Ho3 & Hc3).
  pose proof (send_packet_air (counter s1) (payload_size step) w2) as Ha3. cbn zeta in Ha3.
  destruct (send_packet _ _ w2) as [rc3 w3]. cbn [fst snd] in *.
  destruct (Z.eqb_spec rc3 0) as [->|]; cbn [negb]; [|done]. rewrite bind_eq. specialize (Ha3 eq_refl).
  pose proof (kept_clock w3) as Hk. pose proof (air_clock w3) as Ha4. unfold same in Ha4. destruct (k_uptime_get w3) as [now w4]. cbn [fst snd] in *.
  destruct (kept_fields _ _ Hk) as (Hp4 & Ho4 & Hc4).
  assert (Hend : forall w5 s5, kept w4 w5 -> air w5 = air w4 -> hop s5 = hop s1 -> counter s5 = u32 (counter s1 + 1) ->
    payload (cert_of w5) =
      overlay (payload (cert_of w1)) (Z.to_nat (payload_size step - COUNTER_SIZE)) (sys_put_be32 (counter s)) /\
    counter s5 = u32 (counter s + 1) /\ on_step step w5 s5 /\ hopped step w1 s w5 s5 /\
    exists c, frequency_hz c = round_frequency step w1 s /\
      air w5 = air w1 ++ [(c, apply_cipher (take (Z.to_nat (payload_size step)) (payload (cert_of w5))) c)]).
  { intros w5 s5 (Hp5 & Ho5 & Hc5)%kept_fields Ha5 Hh5 Hcnt5. unfold hopped, on_step in *.
    rewrite Ha5, Ha4, Ha3, Ha2, Hp5, Ho5, Hc5, Hp4, Ho4, Hc4, Hp3, Ho3, Hc3, Hp2, Hh5, Hcnt5, Hcnt.
    split_and!; try done; try apply Hs2. by eexists. }
  destruct (next_log _ <=? now).
  - rewrite bind_eq. pose proof (log_moves (R := kept) INF "Step %zu: %u packets"
      [index + 1; sent (TxLoop (u32 (counter s1 + 1)) (next_log s1) (u32 (sent s1 + 1)) (hop s1))] w4) as Hl.
    pose proof (log_moves (R := same air) INF "Step %zu: %u packets"
      [index + 1; sent (TxLoop (u32 (counter s1 + 1)) (next_log s1) (u32 (sent s1 + 1)) (hop s1))] w4) as Ha5.
    destruct (LOG_INF _ _ w4) as [u w5]. intros [= <- <-]. by apply Hend.
  - intros [= <- <-]. by apply Hend.
Qed.

(** *** A step *)
(** [n] consecutive rounds of the loop. *)
Inductive transmitted (index : Z) (step : cert_step) (start duration : Z) : nat -> W -> tx_loop -> W -> tx_loop -> Prop :=
| transmitted_none w s : transmitted index step start duration 0 w s w s
| transmitted_more n w s w1 s1 w2 s2 :
    transmit_round index step start duration s w = ((None, s1), w1) ->
    transmitted index step start duration n w1 s1 w2 s2 ->
    transmitted index step start duration (S n) w s w2 s2.
(** The same with what each round put on the air. *)
Inductive heard (index : Z) (step : cert_step) (start duration : Z)
  : list (rzi_lora_config * list Z) -> W -> tx_loop -> W -> tx_loop -> Prop :=
| heard_nil w s : heard index step start duration [] w s w s
| heard_cons x l w s w1 s1 w2 s2 :
    transmit_round index step start duration s w = ((None, s1), w1) -> air w1 = air w ++ [x] ->
    heard index step start duration l w1 s1 w2 s2 ->
    heard index step start duration (x :: l) w s w2 s2.
Lemma transmitted_heard index step start duration n w s w' s' :
  on_step step w s -> transmitted index step start duration n w s w' s' ->
  exists l, air w' = air w ++ l /\ length l = n /\ heard index step start duration l w s w' s'.
Proof.
  intros Hon Ht. induction Ht as [w s|n w s w1 s1 w2 s2 Hr Ht IH].
  { exists []. rewrite app_nil_r. by split_and!; [| |constructor]. }
  destruct (round_done _ _ _ _ _ _ _ _ Hon Hr) as (_ & _ & Hon1 & _ & c & _ & Ha).
  destruct (IH Hon1) as (l & Hl & Hn & Hh). eexists (_ :: l). split_and!; [| |by econstructor].
  - by rewrite Hl, Ha, <- app_assoc.
  - cbn. by rewrite Hn.
Qed.
Abbreviation heard_on := (fun x : rzi_lora_config * list Z => frequency_hz x.1).
Lemma init_kept m : respects kept (rzi_lora_init m).
Proof.
  unfold rzi_lora_init, lget.
  assert (Hput : forall f, (forall s, l_config (f s) = l_config s) -> respects kept (lput f)).
  { intros f Hf w. unfold kept, image, lput. cbn. by rewrite lora_of_set, cert_of_set_lora, Hf. }
  repeat first [match goal with |- respects _ (match ?x with Some _ => _ | None => _ end) => destruct x eqn:? end
    | frame_step | by apply Hput | by eapply b_start_moves | by eapply b_apply_moves].
Qed.
Lemma step_ok_bounds r step : step_ok r step = true ->
  0 <= hop_channels step <= FCC_FHSS_CHANNELS /\
  HEADER_SIZE + COUNTER_SIZE <= payload_size step <= RZI_LORA_MAX_PAYLOAD /\
  Forall (fun f => 0 <= f < 4294967296) (step_frequencies step).
Proof.
  unfold step_ok. rewrite !andb_true_iff. intros [? Hf]. destruct_and!.
  split_and!; try lia. apply Forall_forall. intros f Hin%list_elem_of_In.
  pose proof (proj1 (forallb_forall _ _) Hf f Hin) as [? ?]%andb_true_iff. destruct r; cbn in *; lia.
Qed.
Lemma prepared index r step w w' : step_ok r step = true ->
  length (hop_order (cert_of w)) = Z.to_nat FCC_FHSS_CHANNELS ->
  prepare_step index step w = (0, w') ->
  forall s, hop s = 0 -> on_step step w' s /\ payload (cert_of w') = payload (cert_of w).
Proof.
  intros Hok%step_ok_bounds Hlen. unfold prepare_step. rewrite bind_eq.
  pose proof (configure_done step (step_frequency_hz step) w) as Hd.
  destruct (configure _ _ w) as [rc w1]. cbn [fst snd] in *. destruct (Z.eqb_spec rc 0) as [->|Hne]; cbn [negb].
  2:{ rewrite bind_eq. destruct (LOG_ERR _ _ w1). by intros [= -> _]. }
  destruct (Hd eq_refl) as (Hp & Ho & Hc). clear Hd. rewrite bind_eq. pose proof (init_kept (modulation step) w1) as Hi.
  destruct (rzi_lora_init _ w1) as [rc w2]. cbn [fst snd] in *. destruct (kept_fields _ _ Hi) as (Hp2 & Ho2 & Hc2).
  destruct (Z.eqb_spec rc 0) as [->|Hne]; cbn [negb].
  2:{ rewrite bind_eq. destruct (LOG_ERR _ _ w2). by intros [= -> _]. }
  rewrite bind_eq. unfold on_step. destruct (Z.eqb_spec (hop_channels step) 0) as [E|E]; cbn [negb].
  - intros [= <-] s _. rewrite Hc2, Hc, Hp2, Ho2, Ho, Hp. done.
  - destruct (shuffle_permutes (hop_channels step) w2) as (Hs1 & Hs2 & Hs3 & Hs4).
    { unfold zlen. rewrite Ho2, Ho. lia. }
    destruct (shuffle_hops _ w2) as [u w3]. cbn [fst snd] in *. intros [= <-] s Hh.
    split_and!; try done; try congruence; lia.
Qed.

(** The frequencies left in the current pass. *)
Definition pass (step : cert_step) (w : W) (s : tx_loop) : list Z :=
  if hop_channels step =? 0 then [step_frequency_hz step]
  else next_frequency step (hop_order (cert_of w)) <$> seqZ (hop s) (hop_channels step - hop s).
Lemma pass_frequencies r step w s : step_ok r step = true -> on_step step w s -> (hop_channels step <> 0 -> hop s = 0) ->
  pass step w s ≡ₚ step_frequencies step.
Proof.
  intros Hok%step_ok_bounds [Hlen Hon] Hh. destruct Hok as (Hc & _ & Hf). unfold pass, step_frequencies in *.
  destruct (hop_channels step =? 0) eqn:E; [done|]. destruct Hon as (Hc' & _ & Hp). rewrite Hh, Z.sub_0_r by lia.
  set (o := hop_order (cert_of w)) in *.
  trans ((fun i => u32 (step_frequency_hz step + i * FCC_HOP_STEP_HZ)) <$> take (Z.to_nat (hop_channels step)) o).
  - apply reflexive_eq. apply list_eq. intros i. rewrite !list_lookup_fmap.
    destruct (decide (i < Z.to_nat (hop_channels step))%nat) as [Hi|Hi].
    + rewrite lookup_seqZ_lt by lia. rewrite lookup_take_lt by lia.
      destruct (lookup_lt_is_Some_2 o i) as [x Hx]; [lia|]. rewrite Hx. cbn. unfold next_frequency, at_.
      by rewrite Z.add_0_l, Nat2Z.id, (nth_lookup_Some _ _ 0 x Hx).
    + rewrite lookup_seqZ_ge by lia. rewrite lookup_take_ge by lia. done.
  - rewrite Hp. apply reflexive_eq. apply Forall_fmap_ext. apply Forall_fmap in Hf.
    eapply Forall_impl; [exact Hf|]. cbn. intros i Hi. unfold u32. by rewrite Z.mod_small.
Qed.
(** The packets go through the current pass; after it a new one begins. *)
Lemma passes index step start duration l w s w' s' :
  on_step step w s -> heard index step start duration l w s w' s' ->
  (length l < length (pass step w s))%nat \/
  exists l1 l2 wm sm, l = l1 ++ l2 /\ heard_on <$> l1 = pass step w s /\ on_step step wm sm /\ (hop_channels step <> 0 -> hop sm = 0) /\
    heard index step start duration l2 wm sm w' s'.
Proof.
  intros Hon Ht. induction Ht as [w s|x l w s w1 s1 w2 s2 Hr Hx Ht IH].
  { left. unfold pass. destruct Hon as [_ Hon]. destruct (hop_channels step =? 0); cbn; [lia|].
    rewrite length_fmap, length_seqZ. lia. }
  destruct (round_done _ _ _ _ _ _ _ _ Hon Hr) as (_ & _ & Hon1 & Hh & c & Hf & Ha). specialize (IH Hon1).
  rewrite Hx in Ha. apply app_inv_head in Ha. injection Ha as ->. unfold round_frequency in Hf.
  destruct (hop_channels step =? 0) eqn:E.
  - apply Z.eqb_eq in E as E0. right. eexists [_], l, w1, s1. split_and!; [done| |done|done|done].
    unfold pass. rewrite E. cbn. by rewrite Hf.
  - apply Z.eqb_neq in E as E0. pose proof (Hh E0) as Hs1. destruct Hon as [_ Hon]. rewrite E in Hon.
    assert (Hpass : pass step w s = next_frequency step (hop_order (cert_of w)) (hop s) ::
      (next_frequency step (hop_order (cert_of w)) <$> seqZ (hop s + 1) (hop_channels step - (hop s + 1)))).
    { unfold pass. rewrite E, seqZ_cons by lia. cbn. do 3 f_equal. lia. }
    rewrite Hpass. destruct (Z.eqb_spec (hop s + 1) (hop_channels step)) as [El|El].
    + right. eexists [_], l, w1, s1. split_and!; [done| |done|done|done]. cbn. rewrite Hf, El, Z.sub_diag. done.
    + destruct Hs1 as [Hh1 Ho1]. assert (Hp1 : pass step w1 s1 =
        (next_frequency step (hop_order (cert_of w)) <$> seqZ (hop s + 1) (hop_channels step - (hop s + 1)))).
      { unfold pass. by rewrite E, Hh1, Ho1. }
      rewrite Hp1 in IH. destruct IH as [IH|(l1 & l2 & wm & sm & -> & El1 & Hm & Hhm & Htm)].
      * left. cbn. lia.
      * right. eexists (_ :: l1), l2, wm, sm. split_and!; [done| |done..]. cbn. by rewrite Hf, El1.
Qed.

(** ** Properties *)
Lemma blocks index r step start duration k : step_ok r step = true -> forall l w s w' s',
  on_step step w s -> (hop_channels step <> 0 -> hop s = 0) -> heard index step start duration l w s w' s' ->
  let n := length (step_frequencies step) in (S k * n <= length l)%nat ->
  take n (drop (k * n) (heard_on <$> l)) ≡ₚ step_frequencies step.
Proof.
  intros Hok. cbn zeta. induction k as [|k IH]; intros l w s w' s' Hon Hh Ht Hlen;
    pose proof (pass_frequencies r step w s Hok Hon Hh) as Hpass;
    assert (Hn : length (pass step w s) = length (step_frequencies step)) by (by rewrite Hpass);
    (destruct (passes _ _ _ _ _ _ _ _ _ Hon Ht) as [?|(l1 & l2 & wm & sm & -> & El1 & Hm & Hhm & Htm)]; [lia|]);
    assert (Hl1 : length (heard_on <$> l1) = length (step_frequencies step)) by (by rewrite El1); rewrite fmap_app.
  - cbn [Nat.mul]. rewrite drop_0, take_app_length' by done. by rewrite El1.
  - rewrite Nat.mul_succ_l, Nat.add_comm, <- drop_drop. rewrite drop_app_length' by done.
    apply (IH l2 wm sm w' s' Hm Hhm Htm). rewrite length_app in Hlen. rewrite length_fmap in Hl1. lia.
Qed.
Lemma planned step : step ∈ steps -> step_ok CONFIG_APP_RF_CERT_REGION step = true.
Proof.
  intros Hs%list_elem_of_In. pose proof (plans_ok CONFIG_APP_RF_CERT_REGION) as Hp.
  by apply (proj1 (forallb_forall _ _) Hp).
Qed.
(** C30: A step spends its packets evenly: so many rounds put as many packets on the air, and in every
    pass each of the step's frequencies is used exactly once, whatever the random source: the
    frequency is that of the configuration in force when the packet was handed to the radio. *)
Theorem sweep_is_fair index step w0 w start duration s n w' s' :
  step ∈ steps -> length (hop_order (cert_of w0)) = Z.to_nat FCC_FHSS_CHANNELS -> hop s = 0 ->
  prepare_step index step w0 = (0, w) -> transmitted index step start duration n w s w' s' ->
  exists l, air w' = air w ++ l /\ length l = n /\
    forall k, let m := length (step_frequencies step) in (S k * m <= n)%nat ->
      take m (drop (k * m) (frequency_hz ∘ fst <$> l)) ≡ₚ step_frequencies step.
Proof.
  intros Hs%planned Hlen Hh Hp Ht. destruct (prepared _ _ _ _ _ Hs Hlen Hp s Hh) as [Hon _].
  destruct (transmitted_heard _ _ _ _ _ _ _ _ _ Hon Ht) as (l & Hl & <- & Hx). exists l. split_and!; [done..|].
  intros k. by eapply blocks; [exact Hs|exact Hon| |exact Hx].
Qed.
(** C33: Every step of every plan asks for something the radio service takes: on each
    of its frequencies the configuration is in range and the frequency in the
    region's band, the table of bandwidths has its entry, the packet has room for
    the header and counter, and the hops fit their array. *)
Theorem plan_is_admissible r step f c : step ∈ steps_of r -> f ∈ step_frequencies step -> config_in_range c = true ->
  config_in_range (configured step f c) = true /\ frequency_hz (configured step f c) = f /\
  (band r).1 <= f <= (band r).2 /\
  (modulation step = RZI_LORA_MOD_LORA -> 0 <= bandwidth (configured step f c) < 3) /\
  HEADER_SIZE + COUNTER_SIZE <= payload_size step <= RZI_LORA_MAX_PAYLOAD /\
  zlen (step_frequencies step) <= FCC_FHSS_CHANNELS.
Proof.
  intros Hs%list_elem_of_In Hf%list_elem_of_In Hc. pose proof (proj1 (forallb_forall _ _) (plans_ok r) _ Hs) as Hok.
  pose proof (step_ok_bounds _ _ Hok) as (Hch & Hsize & _). unfold step_ok in Hok. rewrite !andb_true_iff in Hok.
  destruct Hok as [Hok Hb]. destruct_and!. pose proof (proj1 (forallb_forall _ _) Hb f Hf) as [? ?]%andb_true_iff.
  unfold config_in_range, configured in *. cbn -[step_frequencies].
  apply negb_true_iff in Hc. rewrite !orb_false_iff in Hc. destruct_and!.
  assert (Hz : zlen (step_frequencies step) <= FCC_FHSS_CHANNELS).
  { unfold step_frequencies. destruct (hop_channels step =? 0); [done|]. unfold zlen. rewrite length_fmap, length_seqZ. lia. }
  split_and!; try done; try lia.
  - apply negb_true_iff. rewrite !orb_false_iff. by destruct (Z.eqb_spec (modulation step) RZI_LORA_MOD_LORA); repeat split; lia.
  - intros ->. cbn. lia.
Qed.

(** The payload carries the header. *)
Definition headed (p : list Z) : Prop := length p = Z.to_nat FULL_PAYLOAD /\ take 7 p = HEADER.
Lemma overlay_headed p off b : headed p -> (7 <= off)%nat -> (off + length b <= 255)%nat ->
  headed (overlay p off b) /\ slice (overlay p off b) off (length b) = b.
Proof.
  intros [Hl Hh] Ha Hb. unfold headed, slice. rewrite length_overlay by (rewrite Hl; lia).
  unfold overlay. split_and!; [done| |].
  - rewrite take_app_le by (rewrite length_take; lia). by rewrite take_take, Nat.min_l by lia.
  - rewrite drop_app_length' by (rewrite length_take; lia). by rewrite take_app_length.
Qed.
Lemma fill_payload_headed w : length (payload (cert_of w)) = 255%nat -> headed (payload (cert_of (fill_payload w).2)).
Proof.
  intros Hl. unfold fill_payload. rewrite bind_eq. set (c := cput _). 
  assert (Hc : headed (payload (cert_of (c w).2))).
  { unfold c, cput. cbn -[overlay]. rewrite cert_of_set. cbn -[overlay]. split; [rewrite length_overlay; cbn; lia|done]. }
  destruct (c w) as [u w1]. clear c. cbn [fst snd] in *. revert w1 Hc.
  assert (Hseq : Forall (fun i => 7 <= i)%nat (seq 7 (255 - 7))).
  { apply Forall_forall. intros i Hi%elem_of_seq. lia. }
  induction Hseq as [|i rest Hi _ IH]; intros w1 Hc; [done|]. cbn [for_each]. rewrite bind_eq. apply IH.
  cbn. rewrite cert_of_set. cbn. destruct Hc as [Hc1 Hc2]. split; [by rewrite length_insert|].
  by rewrite take_insert_ge.
Qed.
(** Every packet of a step has the step's size, starts with the header and ends
    with its number, consecutive 32-bit counters, big-endian; and it goes on the air
    under the cipher of the configuration in force. *)
Theorem packets_are_numbered `{!BigEndianOk} index step w0 w start duration s n w' s' :
  step ∈ steps -> length (hop_order (cert_of w0)) = Z.to_nat FCC_FHSS_CHANNELS -> headed (payload (cert_of w0)) ->
  hop s = 0 -> counter s = u32 (counter s) -> prepare_step index step w0 = (0, w) ->
  transmitted index step start duration n w s w' s' ->
  exists l, air w' = air w ++ l /\ length l = n /\
    forall i c d, l !! i = Some (c, d) -> exists p, d = apply_cipher p c /\
      zlen p = payload_size step /\ take 7 p = HEADER /\
      drop (Z.to_nat (payload_size step - COUNTER_SIZE)) p = sys_put_be32 (u32 (counter s + Z.of_nat i)).
Proof.
  intros Hs%planned Hlen Hhd Hh Hu Hp Ht0. destruct (prepared _ _ _ _ _ Hs Hlen Hp s Hh) as [Hon Hpay].
  rewrite <- Hpay in Hhd. clear Hpay Hp w0 Hlen. apply step_ok_bounds in Hs as (_ & Hsize & _).
  destruct (transmitted_heard _ _ _ _ _ _ _ _ _ Hon Ht0) as (l & Hl & <- & Ht). exists l. split_and!; [done..|]. clear Hl Ht0.
  set (off := Z.to_nat (payload_size step - COUNTER_SIZE)).
  clear Hh. induction Ht as [w s|x l w s w1 s1 w2 s2 Hr Hx Ht IH]; [done|]. intros n c d.
  destruct (round_done _ _ _ _ _ _ _ _ Hon Hr) as (Hpay & Hcnt & Hon1 & _ & c1 & _ & Ha).
  rewrite Hx in Ha. apply app_inv_head in Ha. injection Ha as ->.
  destruct (overlay_headed (payload (cert_of w)) off (sys_put_be32 (counter s)) Hhd) as [Hhd1 Hsl];
    [unfold off; lia|rewrite put_be32_length; unfold off; lia|].
  fold off in Hpay. rewrite <- Hpay in Hhd1, Hsl.
  destruct n as [|n]; cbn [lookup list_lookup].
  - intros [= <- <-]. eexists. split; [done|]. destruct Hhd1 as [Hl1 Ht1]. split_and!.
    + unfold zlen. rewrite length_take. lia.
    + by rewrite take_take, Nat.min_l by lia.
    + unfold slice in Hsl. rewrite put_be32_length in Hsl. rewrite skipn_firstn_comm.
      replace (Z.to_nat (payload_size step) - off)%nat with 4%nat by (unfold off; lia). rewrite Hsl.
      f_equal. by rewrite Z.add_0_r.
  - intros Hn. destruct (IH Hhd1 ltac:(rewrite Hcnt; unfold u32; by rewrite Z.mod_mod) Hon1 n c d Hn) as (p & ? & ? & ? & Hd).
    exists p. split_and!; [done..|]. rewrite Hd, Hcnt. f_equal. unfold u32. rewrite Zplus_mod_idemp_l. f_equal. lia.
Qed.
End flows.

(** ** Witnesses *)
Module CertWitness.
Import Zephyr.Instances.
(** A radio that sends at once and logs what it sends, and a random sequence. *)
Record sim : Type := Sim { s_lora : lora_state; s_cert : cert_vars; s_done : bool; s_now : Z; s_seed : Z;
  s_air : list (rzi_lora_config * list Z) }.
#[local] Instance task : ExecCtx := {| k_is_in_isr := false |}.
#[local] Instance vars : CertState sim := {|
  cert_of := s_cert; set_cert v w := Sim (s_lora w) v (s_done w) (s_now w) (s_seed w) (s_air w) |}.
Definition put_done v : M sim unit := modify (fun w => Sim (s_lora w) (s_cert w) v (s_now w) (s_seed w) (s_air w)).
Definition after t : M sim unit := modify (fun w => Sim (s_lora w) (s_cert w) (s_done w) (s_now w + t) (s_seed w) (s_air w)).
#[local] Instance thread : SampleThread sim := {|
  LOG _ _ _ := ret tt; k_uptime_get := gets s_now; thread_sleep _ := ret tt;
  k_sem_give _ := put_done true; k_sem_reset _ := put_done false;
  k_sem_take _ _ := let* d := gets s_done in put_done false ;;; after 5 ;;; ret (if d : bool then 0 else -11);
  k_sem_count_get _ := gets (fun w => b2z (s_done w));
  sys_rand32_get w := (u32 (s_seed w), Sim (s_lora w) (s_cert w) (s_done w) (s_now w) (u32 (1103515245 * s_seed w + 12345)) (s_air w)) |}.
#[local] Instance radio : LoraEnv sim := {|
  lora_of := s_lora; set_lora l w := Sim l (s_cert w) (s_done w) (s_now w) (s_seed w) (s_air w);
  b_start := Some (fun _ => ret 0); b_stop := None; b_apply_config := None;
  b_send := Some (fun d _ => modify (fun w => Sim (s_lora w) (put_tx_error 0 (s_cert w)) true (s_now w) (s_seed w)
    (s_air w ++ [(l_config (s_lora w), d)])) ;;; ret 0);
  b_receive := None; b_test_rssi := None; b_test_get_rssi := None; b_test_tone := None; b_test_tx := None;
  b_test_rx := None; b_test_cw := None; b_test_stop := None; b_poll := None;
  run_tx_done _ _ _ := ret tt; run_rx_done _ _ _ _ _ _ := ret tt |}.
#[local] Instance options : CertConfig := {|
  CONFIG_APP_RF_CERT_REGION := FCC; CONFIG_APP_RF_CERT_ONLY_STEP := 0; CONFIG_APP_RF_CERT_STEP_S := 1 |}.
#[local] Instance sim_ok : CertOk.
Proof.
  split; try done.
  - intros w. apply Z.mod_pos_bound. done.
  - split; try apply _; done.
  - split; try apply _; try split; intros; cbn in *; simplify_eq; done.
Qed.
#[local] Instance sim_log : RadioLog.
Proof.
  refine {| air := s_air |}; try done.
  - intros send d n w [= <-] _. done.
  - split; try apply _; done.
Defined.
(** Consecutive rounds, computed. *)
Fixpoint trace (n : nat) index step start duration (s : tx_loop) (w : sim) : option (sim * tx_loop) :=
  match n with
  | O => Some (w, s)
  | S n =>
      match transmit_round index step start duration s w with
      | ((None, s1), w1) => trace n index step start duration s1 w1
      | _ => None
      end
  end.
Lemma trace_transmitted n index step start duration : forall s w w' s',
  trace n index step start duration s w = Some (w', s') -> transmitted index step start duration n w s w' s'.
Proof.
  induction n as [|n IH]; intros s w w' s'; cbn [trace].
  - intros [= <- <-]. constructor.
  - destruct (transmit_round _ _ _ _ s w) as [[[r|] s1] w1] eqn:E; [done|].
    intros Ht. econstructor; [exact E|by apply IH].
Qed.
(** The hybrid sweep: step 14 of the plan, two passes over its eight channels. *)
Definition step14 : cert_step := SWEEP FCC_HYBRID_CHANNELS 10 US915_DR0_PAYLOAD.
Definition filled : sim := Eval vm_compute in (fill_payload (Sim lora_boot cert_boot false 0 7 [])).2.
Definition entered : sim := Eval vm_compute in (prepare_step 13 step14 filled).2.
Definition left_over := Eval vm_compute in trace 16 13 step14 0 0 (TxLoop 0 10000 0 0) entered.
Definition left_w : sim := Eval vm_compute in from_option fst entered left_over.
Definition left_s : tx_loop := Eval vm_compute in from_option snd (TxLoop 0 0 0 0) left_over.
Example two_passes : (fun x => frequency_hz x.1) <$> s_air left_w =
  (fun i => 902300000 + i * 200000) <$> [2; 1; 6; 4; 5; 3; 0; 7; 3; 4; 1; 2; 5; 0; 7; 6].
Proof. vm_compute. reflexivity. Qed.
Lemma step14_planned : step14 ∈ steps.
Proof. apply list_elem_of_In. cbv. intuition congruence. Qed.
Lemma they_were_sent : transmitted 13 step14 0 0 16 entered (TxLoop 0 10000 0 0) left_w left_s.
Proof. apply (trace_transmitted 16). vm_compute. reflexivity. Qed.
Lemma it_was_entered : prepare_step 13 step14 filled = (0, entered).
Proof. vm_compute. reflexivity. Qed.
Lemma filled_orders : length (hop_order (cert_of filled)) = Z.to_nat FCC_FHSS_CHANNELS.
Proof. vm_compute. reflexivity. Qed.
Lemma filled_headed : headed (payload (cert_of filled)).
Proof. by split; vm_compute. Qed.
Lemma sweep_is_fair_witness : exists l, s_air left_w = s_air entered ++ l /\ length l = 16%nat /\
  take 8 (drop (1 * 8) (frequency_hz ∘ fst <$> l)) ≡ₚ step_frequencies step14.
Proof.
  destruct (sweep_is_fair 13 step14 filled entered 0 0 (TxLoop 0 10000 0 0) 16 left_w left_s
    step14_planned filled_orders eq_refl it_was_entered they_were_sent) as (l & Hl & Hn & Hk).
  exists l. split_and!; [exact Hl|exact Hn|]. apply (Hk 1%nat). vm_compute. lia.
Defined.
Lemma packets_are_numbered_witness : exists l, s_air left_w = s_air entered ++ l /\
  forall c d, l !! 9%nat = Some (c, d) -> exists p, d = apply_cipher p c /\ take 7 p = HEADER /\ drop 20 p = [0; 0; 0; 9].
Proof.
  destruct (packets_are_numbered 13 step14 filled entered 0 0 (TxLoop 0 10000 0 0) 16 left_w left_s
    step14_planned filled_orders filled_headed eq_refl eq_refl it_was_entered they_were_sent) as (l & Hl & _ & Hi).
  exists l. split; [exact Hl|]. intros c d E. destruct (Hi 9%nat c d E) as (p & Hd & _ & Hh & Hn). by exists p.
Defined.
Lemma plan_is_admissible_witness : 868300000 ∈ step_frequencies (LORA 868300000 7 LORA_BW_250_KHZ 14 FULL_PAYLOAD) /\
  config_in_range (configured (LORA 868300000 7 LORA_BW_250_KHZ 14 FULL_PAYLOAD) 868300000 config_default) = true.
Proof.
  assert (Hf : 868300000 ∈ step_frequencies (LORA 868300000 7 LORA_BW_250_KHZ 14 FULL_PAYLOAD)) by left.
  split; [exact Hf|]. refine (proj1 (plan_is_admissible ETSI _ 868300000 config_default _ Hf eq_refl)).
  do 6 right. left.
Defined.
End CertWitness.
