(* ===== verification/PingPong.v ===== *)
(** * The ping-pong sample (src/samples/lora/ping_pong/src/main.c)

    A manager that sends numbered PING frames and counts the PONGs, and a
    subordinate that answers them. *)
From S2P Require Import Prelude Zephyr Err Power Storage LorawanSettings LorawanBackend LorawanCore LorawanCredentials LorawanChannel LorawanApi Lorawan Lora SampleKernel SampleThread.

Definition TX_TIMEOUT_MS : Z := 2000.
Definition IDLE_LOG_MS : Z := 30000.
Abbreviation RX_CONTINUOUS := 65535.
Abbreviation PREAMBLE_LENGTH := 12.
Abbreviation LORA_BW_125_KHZ := 0.
Abbreviation LORA_CR_4_5 := 0.
Abbreviation HEADER_SIZE := 4.
Abbreviation FRAME_SIZE := 6.
Abbreviation FRAME_COUNTER_INDEX := 5.
(** The two headers. *)
Inductive header : Type := PING | PONG.
#[export] Instance header_eq_dec : EqDecision header.
Proof. solve_decision. Defined.
Definition header_bytes (h : header) : list Z := match h with PING => [80; 73; 78; 71] | PONG => [80; 79; 78; 71] end.
Definition header_text (h : header) : string := match h with PING => "PING" | PONG => "PONG" end.
(** The options of its Kconfig, with their [range] lines. *)
Class PingConfig : Type := {
  CONFIG_APP_PING_PONG_MANAGER : bool;
  CONFIG_APP_PING_PONG_FREQUENCY_HZ : Z; CONFIG_APP_PING_PONG_SPREADING_FACTOR : Z;
  CONFIG_APP_PING_PONG_TX_POWER_DBM : Z; CONFIG_APP_PING_PONG_DELAY_MS : Z;
  CONFIG_APP_PING_PONG_RX_TIMEOUT_MS : Z; CONFIG_APP_PING_PONG_REPLY_DELAY_MS : Z;
}.

(** The file-scope variables, and where they live. *)
Record ping_vars : Type := PingVars {
  tx_error : Z; rx_frame : list Z; rx_size : Z; rx_rssi_dbm : Z; rx_snr_quarter_db : Z;
}.
Definition ping_boot : ping_vars := PingVars 0 (replicate 255 0) 0 0 0.
Class PingState (W : Type) : Type := { ping_of : W -> ping_vars; set_ping : ping_vars -> W -> W }.
Definition put_tx_error v s := PingVars v (rx_frame s) (rx_size s) (rx_rssi_dbm s) (rx_snr_quarter_db s).
Definition put_rx data size rssi snr s :=
  PingVars (tx_error s) (overlay (rx_frame s) 0 (take (Z.to_nat size) data)) size rssi snr.
(** [frame\[FRAME_SIZE\]] as [send_frame] fills it. *)
Definition frame_bytes (h : header) (counter : Z) : list Z := header_bytes h ++ [0; counter].
Definition frame_is (h : header) (s : ping_vars) : bool :=
  (rx_size s =? FRAME_SIZE) && bool_decide (take 4 (rx_frame s) = header_bytes h) &&
  (at_ (rx_frame s) HEADER_SIZE =? 0).

Section sample.
Context {ctx : ExecCtx} `{LoraEnv W} `{!SampleThread W} `{!PingState W} `{PingConfig}.
Definition pget {A} (p : ping_vars -> A) : M W A := gets (fun w => p (ping_of w)).
Definition pput (f : ping_vars -> ping_vars) : M W unit := modify (fun w => set_ping (f (ping_of w)) w).

Definition on_tx_done (error : Z) : M W unit := pput (put_tx_error error) ;;; k_sem_give tx_done_sem.
Definition on_rx_done (data : list Z) (size rssi_dbm snr_quarter_db : Z) : M W unit :=
  let* count := k_sem_count_get rx_done_sem in
  if negb (count =? 0) then ret tt
  else pput (put_rx data size rssi_dbm snr_quarter_db) ;;; k_sem_give rx_done_sem.

Definition configure_radio : M W Z :=
  let* '(rc, config) := rzi_lora_get_config (Some config_default) in
  if negb (rc =? 0) then ret rc
  else rzi_lora_set_config
    ((fun c => with_radio CONFIG_APP_PING_PONG_SPREADING_FACTOR LORA_BW_125_KHZ LORA_CR_4_5 PREAMBLE_LENGTH
        CONFIG_APP_PING_PONG_TX_POWER_DBM (with_frequency CONFIG_APP_PING_PONG_FREQUENCY_HZ c)) <$> config).

Definition send_frame (h : header) (counter : Z) : M W Z :=
  let frame := frame_bytes h counter in
  k_sem_reset tx_done_sem ;;;
  let* rc := rzi_lora_receive 0 in
  if negb (rc =? 0) then LOG_WRN (header_text h ++ " %u rejected: %s") [counter; rc] ;;; ret rc else
  let* rc := rzi_lora_send (Some frame) FRAME_SIZE in
  if negb (rc =? 0) then LOG_WRN (header_text h ++ " %u rejected: %s") [counter; rc] ;;; ret rc else
  let* ok := wait_for tx_done_sem TX_TIMEOUT_MS in
  if negb ok then LOG_WRN (header_text h ++ " %u not sent") [counter] ;;; ret (- RZI_ERR_TIMEOUT)
  else pget tx_error.
Definition start_receive : M W Z :=
  k_sem_reset rx_done_sem ;;;
  let* rc := rzi_lora_receive RX_CONTINUOUS in
  (if negb (rc =? 0) then LOG_WRN "Receive rejected: %s" [rc] else ret tt) ;;; ret rc.

(** The condition of the manager's round, left to right. *)
Definition exchange (counter : Z) : M W bool :=
  let* rc := send_frame PING counter in
  if negb (rc =? 0) then ret false else
  let* rc := start_receive in
  if negb (rc =? 0) then ret false else
  let* ok := wait_for rx_done_sem CONFIG_APP_PING_PONG_RX_TIMEOUT_MS in
  if negb ok then ret false else
  pget (fun s => frame_is PONG s && (at_ (rx_frame s) FRAME_COUNTER_INDEX =? counter)).
(** The variables of [run_manager]. *)
Record tally : Type := Tally { received : Z; lost : Z; counter : Z }.
(** The two branches of a round. *)
Definition note_exchange (ok : bool) (t : tally) : M W tally :=
  if ok then
    let t := Tally (u32 (received t + 1)) (lost t) (counter t) in
    let* s := pget id in
    LOG_INF "PONG %u: RSSI %d dBm, SNR %d/4 dB (%u received, %u lost)"
      [counter t; rx_rssi_dbm s; rx_snr_quarter_db s; received t; lost t] ;;; ret t
  else
    let t := Tally (received t) (u32 (lost t + 1)) (counter t) in
    LOG_WRN "No PONG for PING %u (%u received, %u lost)" [counter t; received t; lost t] ;;; ret t.
Definition manager_round (t : tally) : M W tally :=
  let* ok := exchange (counter t) in
  let* t := note_exchange ok t in
  let t := Tally (received t) (lost t) (u8 (counter t + 1)) in
  thread_sleep (K_MSEC CONFIG_APP_PING_PONG_DELAY_MS) ;;; ret t.
(** [rounds] of the endless loop. *)
Fixpoint manager_loop (rounds : nat) (t : tally) : M W tally :=
  match rounds with O => ret t | S rounds => let* t := manager_round t in manager_loop rounds t end.
Definition run_manager (rounds : nat) : M W tally :=
  LOG_INF "Manager: sending PING every %d ms" [CONFIG_APP_PING_PONG_DELAY_MS] ;;;
  manager_loop rounds (Tally 0 0 0).

(** The inner loop of the subordinate waits for a frame as long as it takes:
    [fuel] idle periods here, and [false] when none came. *)
Definition idle_round : M W (option unit) :=
  let* ok := wait_for rx_done_sem IDLE_LOG_MS in
  if ok : bool then ret (Some tt) else LOG_INF "No PING for %d s" [IDLE_LOG_MS / 1000] ;;; ret None.
Definition subordinate_round (fuel : nat) : M W bool :=
  let* rc := start_receive in
  if negb (rc =? 0) then thread_sleep (K_SECONDS 1) ;;; ret true else
  let* r := until fuel idle_round in
  match r with
  | None => ret false
  | Some _ =>
      let* s := pget id in
      if negb (frame_is PING s) then LOG_WRN "Ignored a %u-byte frame" [rx_size s] ;;; ret true else
      let counter := at_ (rx_frame s) FRAME_COUNTER_INDEX in
      LOG_INF "PING %u: RSSI %d dBm, SNR %d/4 dB" [counter; rx_rssi_dbm s; rx_snr_quarter_db s] ;;;
      thread_sleep (K_MSEC CONFIG_APP_PING_PONG_REPLY_DELAY_MS) ;;;
      let* rc := send_frame PONG counter in
      (if negb (rc =? 0) then LOG_WRN "PONG %u failed" [counter] else ret tt) ;;; ret true
  end.
Fixpoint subordinate_loop (rounds fuel : nat) : M W bool :=
  match rounds with
  | O => ret true
  | S rounds => let* on := subordinate_round fuel in if on : bool then subordinate_loop rounds fuel else ret false
  end.
Definition run_subordinate (rounds fuel : nat) : M W bool :=
  LOG_INF "Subordinate: waiting for PING" [] ;;; subordinate_loop rounds fuel.
End sample.

Section ping_main.
Context `{Zephyr} `{Errno} `{Kconfig} {ctx : ExecCtx} `{LorawanBackend} `{LorawanExt} `{!LorawanHooks}
  `{!LoraEnv world} `{!SampleThread world} `{!PingState world} `{PingConfig}
  (lorawan_callbacks : rzi_lorawan_callbacks) (lora_callbacks : rzi_lora_callbacks).
Definition start_radio : M world Z :=
  let* rc := start_modem lorawan_callbacks in
  if negb (rc =? 0) then ret rc else
  let* rc := rzi_lora_register_callbacks (Some lora_callbacks) in
  if negb (rc =? 0) then LOG_ERR "LoRa callback registration failed: %s" [rc] ;;; ret rc else
  let* rc := configure_radio in
  if negb (rc =? 0) then LOG_ERR "LoRa config failed: %s" [rc] ;;; ret rc else
  let* rc := rzi_lora_init RZI_LORA_MOD_LORA in
  if negb (rc =? 0) then LOG_ERR "LoRa init failed: %s" [rc] ;;; ret rc else ret 0.
(** [rounds] and [fuel] bound the endless loops. *)
Definition main (rounds fuel : nat) : M world Z :=
  LOG_INF "RZI LoRa ping-pong: %d Hz, SF%d, %d dBm"
    [CONFIG_APP_PING_PONG_FREQUENCY_HZ; CONFIG_APP_PING_PONG_SPREADING_FACTOR; CONFIG_APP_PING_PONG_TX_POWER_DBM] ;;;
  let* rc := start_radio in
  if negb (rc =? 0) then ret rc
  else if CONFIG_APP_PING_PONG_MANAGER then run_manager rounds ;;; ret 0 else run_subordinate rounds fuel ;;; ret 0.
End ping_main.

(** ** What the sample relies on *)
Class PingOk `{LoraEnv W} `{!SampleThread W} `{!PingState W} : Prop := {
  ping_of_set v w : ping_of (set_ping v w) = v;
  count_keeps s w : ping_of (k_sem_count_get s w).2 = ping_of w;
  give_keeps s w : ping_of (k_sem_give s w).2 = ping_of w;
}.
Section flows.
Context {ctx : ExecCtx} `{LoraEnv W} `{!SampleThread W} `{!PingState W} `{PingConfig} `{!PingOk}.

(** *** A frame through the service *)
Lemma frame_in_memory p n r q s h c : length (rx_frame s) = 255%nat -> (length p <= 255)%nat -> zlen p = n ->
  frame_is h (put_rx p n r q s) = true /\ at_ (rx_frame (put_rx p n r q s)) FRAME_COUNTER_INDEX = c <->
  p = frame_bytes h c.
Proof.
  intros Hl Hp Hn. unfold frame_is, put_rx. cbn [rx_frame rx_size]. rewrite (take_ge p) by (unfold zlen in *; lia).
  rewrite !andb_true_iff, bool_decide_eq_true, !Z.eqb_eq. split.
  - intros [[[Hs Hh] Hz] Hc]. subst n.
    assert (Hlen : length p = 6%nat) by (unfold zlen in Hs; lia).
    do 6 (destruct p as [|? p]; [done|]). destruct p as [|? p]; [|done].
    unfold overlay, at_ in *. rewrite take_0 in *. change (Z.to_nat 4) with 4%nat in *. change (Z.to_nat 5) with 5%nat in *.
    cbn in *. subst. unfold frame_bytes. by rewrite <- Hh.
  - intros ->. subst n. destruct h; done.
Qed.
Lemma published wb d r q f : rx_done (l_callbacks (lora_of wb)) <> 0 ->
  (forall data size rssi snr u, run_rx_done (rx_done (l_callbacks (lora_of wb))) data size rssi snr u = on_rx_done data size rssi snr) ->
  1 <= zlen d <= RZI_LORA_MAX_PAYLOAD -> f = apply_cipher d (l_config (lora_of wb)) ->
  ping_of (rzi_lora_publish_rx (Some d) (zlen d) r q wb).2 =
    if (k_sem_count_get rx_done_sem wb).1 =? 0 then put_rx f (zlen d) r q (ping_of wb) else ping_of wb.
Proof.
  intros Hcb Hrun Hd ->. unfold rzi_lora_publish_rx, lget.
  rewrite (proj2 (Z.ltb_ge RZI_LORA_MAX_PAYLOAD (zlen d))) by lia. rewrite (proj2 (Z.eqb_neq (zlen d) 0)) by lia.
  rewrite !bind_eq. cbn [gets fst snd]. rewrite (proj2 (Z.eqb_neq _ 0)) by done.
  cbn [negb]. rewrite Hrun. rewrite take_ge by (unfold zlen; lia). unfold on_rx_done. rewrite bind_eq.
  pose proof (count_keeps rx_done_sem wb) as Hk. destruct (k_sem_count_get _ wb) as [n w1]. cbn [fst snd] in *.
  destruct (Z.eqb_spec n 0); cbn [negb]; [|done]. rewrite bind_eq, give_keeps. unfold pput. cbn. by rewrite ping_of_set, Hk.
Qed.
(** C31: A frame crosses the air: the service hands the radio the frame under the
    sender's cipher; a node that registered the sample's callback, whatever it
    is given, recognises exactly the frames of the protocol, with their counter;
    so the sender's frame under the same cipher is one of its header, and no
    other; and while a frame is unread the next is dropped. *)
Theorem frames_cross_the_air h c send wa wb r q :
  (* the sender *)
  check_thread = 0 -> b_send = Some send -> l_started (lora_of wa) <> 0 ->
  (* the receiver *)
  rx_done (l_callbacks (lora_of wb)) <> 0 ->
  (forall data size rssi snr u, run_rx_done (rx_done (l_callbacks (lora_of wb))) data size rssi snr u = on_rx_done data size rssi snr) ->
  length (rx_frame (ping_of wb)) = 255%nat ->
  let air := apply_cipher (frame_bytes h c) (l_config (lora_of wa)) in
  let received d := ping_of (rzi_lora_publish_rx (Some d) (zlen d) r q wb).2 in
  rzi_lora_send (Some (frame_bytes h c)) FRAME_SIZE wa = send air FRAME_SIZE wa /\
  if (k_sem_count_get rx_done_sem wb).1 =? 0 then
    (forall d, 1 <= zlen d <= RZI_LORA_MAX_PAYLOAD -> forall h' c',
       frame_is h' (received d) = true /\ at_ (rx_frame (received d)) FRAME_COUNTER_INDEX = c' <->
       apply_cipher d (l_config (lora_of wb)) = frame_bytes h' c') /\
    (encrypt (l_config (lora_of wa)) = encrypt (l_config (lora_of wb)) ->
     key (l_config (lora_of wa)) = key (l_config (lora_of wb)) ->
     iv (l_config (lora_of wa)) = iv (l_config (lora_of wb)) ->
     forall h', frame_is h' (received air) = bool_decide (h' = h) /\
       at_ (rx_frame (received air)) FRAME_COUNTER_INDEX = c)
  else forall d, 1 <= zlen d <= RZI_LORA_MAX_PAYLOAD -> received d = ping_of wb.
Proof.
  intros Hth Hsend Hst Hcb Hrun Hlen air received.
  assert (Hrec : forall d, 1 <= zlen d <= RZI_LORA_MAX_PAYLOAD -> received d =
    if (k_sem_count_get rx_done_sem wb).1 =? 0
    then put_rx (apply_cipher d (l_config (lora_of wb))) (zlen d) r q (ping_of wb) else ping_of wb).
  { intros d Hd. by apply published. }
  assert (Hair : zlen air = FRAME_SIZE) by (unfold air, zlen; rewrite length_cipher; by destruct h).
  split.
  { unfold rzi_lora_send, lget. rewrite Hth, Hsend. cbn -[frame_bytes apply_cipher take Z.to_nat].
    rewrite (proj2 (Z.eqb_neq (l_started _) 0)) by done. cbn -[frame_bytes apply_cipher take].
    by rewrite take_ge by (destruct h; done). }
  destruct (_ =? 0) eqn:E; [|exact Hrec]. split.
  - intros d Hd h' c'. rewrite (Hrec d Hd). apply frame_in_memory; [done| |]; unfold zlen in *; rewrite length_cipher; lia.
  - intros He Hk Hi. rewrite (Hrec air) by lia. unfold air at 1 3. rewrite cipher_involutive by done.
    intros h'. rewrite Hair.
    destruct (proj2 (frame_in_memory (frame_bytes h c) FRAME_SIZE r q (ping_of wb) h c Hlen ltac:(destruct h; cbn; lia)
      ltac:(by destruct h)) eq_refl) as [Ht Hc].
    split; [|done]. destruct (decide (h' = h)) as [->|Hne]; [by rewrite bool_decide_true|].
    rewrite bool_decide_false by done. destruct h, h'; done.
Qed.

(** *** The manager's account *)
(** Exchanges from the [k]-th on: which succeeded, each with its number, and
    what was in memory when it did. *)
Inductive played : Z -> list bool -> W -> W -> Prop :=
| played_nil k w : played k [] w w
| played_cons k b l w w1 w2 w3 : exchange (u8 k) w = (b, w1) ->
    (b = true -> frame_is PONG (ping_of w1) = true /\ at_ (rx_frame (ping_of w1)) FRAME_COUNTER_INDEX = u8 k) ->
    played (k + 1) l w2 w3 -> played k (b :: l) w w3.
Definition count_of (b : bool) (l : list bool) : Z := zlen (filter (fun x => x = b) l).
Lemma count_cons b x l : count_of b (x :: l) = b2z (Bool.eqb x b) + count_of b l.
Proof. unfold count_of, zlen. rewrite filter_cons. destruct x, b; case_decide; try done; cbn [length b2z Bool.eqb]; lia. Qed.
Lemma exchange_true c w w1 : exchange c w = (true, w1) ->
  frame_is PONG (ping_of w1) = true /\ at_ (rx_frame (ping_of w1)) FRAME_COUNTER_INDEX = c.
Proof.
  unfold exchange, pget. rewrite bind_eq. destruct (send_frame _ _ w) as [rc w2]. cbn [fst snd].
  destruct (negb _); [done|]. rewrite bind_eq. destruct (start_receive w2) as [rc3 w3]. cbn [fst snd].
  destruct (negb _); [done|]. rewrite bind_eq. destruct (wait_for _ _ w3) as [ok w4]. cbn [fst snd].
  destruct (negb _); [done|]. cbn. intros [= [? ?%Z.eqb_eq]%andb_true_iff <-]. done.
Qed.
Lemma noted ok t w : (note_exchange ok t w).1 =
  if ok then Tally (u32 (received t + 1)) (lost t) (counter t) else Tally (received t) (u32 (lost t + 1)) (counter t).
Proof.
  unfold note_exchange, pget. by destruct ok; rewrite !bind_eq.
Qed.
Lemma manager_counts n : forall k a b w, exists l w', played k l w w' /\ length l = n /\
  manager_loop n (Tally (u32 a) (u32 b) (u8 k)) w =
    (Tally (u32 (a + count_of true l)) (u32 (b + count_of false l)) (u8 (k + Z.of_nat n)), w').
Proof.
  induction n as [|n IH]; intros k a b w.
  { exists [], w. split_and!; [constructor|done|]. cbn. unfold count_of. cbn. by rewrite !Z.add_0_r. }
  cbn [manager_loop]. rewrite bind_eq. unfold manager_round. rewrite bind_eq. cbn [counter].
  destruct (exchange (u8 k) w) as [ok w1] eqn:E. cbn [fst snd].
  assert (Hplus : forall x, u32 (u32 x + 1) = u32 (x + 1)) by (intros x; apply Zplus_mod_idemp_l).
  assert (Hk : u8 (u8 k + 1) = u8 (k + 1)) by apply Zplus_mod_idemp_l.
  assert (Hend : forall w2 w3 l, played (k + 1) l w2 w3 -> played k (ok :: l) w w3).
  { intros w2 w3 l Hp. econstructor; [exact E| |exact Hp]. intros ->. by apply exchange_true in E. }
  rewrite bind_eq. pose proof (noted ok (Tally (u32 a) (u32 b) (u8 k)) w1) as Hn.
  destruct (note_exchange _ _ w1) as [t w2]. cbn [fst snd received lost counter] in *. rewrite bind_eq.
  destruct (thread_sleep _ w2) as [v w3]. cbn [fst snd ret].
  destruct ok; rewrite Hn; cbn [received lost counter]; rewrite Hplus, Hk;
    [destruct (IH (k + 1) (a + 1) b w3) as (l & w4 & Hp & Hl & ->)
    |destruct (IH (k + 1) a (b + 1) w3) as (l & w4 & Hp & Hl & ->)];
    (eexists (_ :: l), w4; split_and!; [eapply Hend; exact Hp|by cbn; rewrite Hl|]);
    rewrite !count_cons; cbn [bool_decide decide Bool.eqb]; f_equal; f_equal; f_equal; cbn; lia.
Qed.
(** The manager's account is right: after any number of rounds every PING, the
    k-th with the number k modulo 256, is counted once, as received exactly when
    its exchange ended with the PONG of that number in memory, else as lost. *)
Theorem manager_tally n w : exists l w', played 0 l w w' /\ length l = n /\
  manager_loop n (Tally 0 0 0) w = (Tally (u32 (count_of true l)) (u32 (count_of false l)) (u8 (Z.of_nat n)), w') /\
  count_of true l + count_of false l = Z.of_nat n.
Proof.
  destruct (manager_counts n 0 0 0 w) as (l & w' & Hp & Hl & E). exists l, w'. split_and!; [done..|].
  rewrite <- Hl. clear. induction l as [|[] l IH]; [done|..]; rewrite !count_cons; cbn [length b2z Bool.eqb]; lia.
Qed.
End flows.

(** ** Witnesses *)
Module PingWitness.
(** A manager whose radio sends at once and, while it listens, hears an answer
    to what it sent; every third answer is to another PING. *)
Record sim : Type := Sim {
  s_lora : lora_state; s_ping : ping_vars; s_tx : bool; s_rx : bool; s_now : Z; s_listens : bool; s_air : list (list Z);
  s_log : list log_line;
}.
#[local] Instance task : ExecCtx := {| k_is_in_isr := false |}.
#[local] Instance vars : PingState sim := {|
  ping_of := s_ping;
  set_ping v w := Sim (s_lora w) v (s_tx w) (s_rx w) (s_now w) (s_listens w) (s_air w) (s_log w) |}.
Definition raise (s : semaphore) (v : bool) : M sim unit := modify (fun w =>
  Sim (s_lora w) (s_ping w) (if decide (s = tx_done_sem) then v else s_tx w) (if decide (s = rx_done_sem) then v else s_rx w)
    (s_now w) (s_listens w) (s_air w) (s_log w)).
Definition raised (s : semaphore) (w : sim) : bool := if decide (s = tx_done_sem) then s_tx w else s_rx w.
Definition after (t : Z) : M sim unit := modify (fun w =>
  Sim (s_lora w) (s_ping w) (s_tx w) (s_rx w) (s_now w + t) (s_listens w) (s_air w) (s_log w)).
#[local] Instance thread : SampleThread sim := {|
  LOG v t args := modify (fun w =>
    Sim (s_lora w) (s_ping w) (s_tx w) (s_rx w) (s_now w) (s_listens w) (s_air w) (s_log w ++ [(v, t, args)]));
  k_uptime_get := gets s_now; thread_sleep t := after (match t with K_MSEC t => t | K_FOREVER => 0 end);
  k_sem_give s := raise s true; k_sem_reset s := raise s false;
  k_sem_take s _ := let* d := gets (raised s) in raise s false ;;; after 5 ;;; ret (if d : bool then 0 else -11);
  k_sem_count_get s := gets (fun w => b2z (raised s w)); sys_rand32_get := ret 4 |}.
Definition answer (d : list Z) : list Z := let c := at_ d 5 in frame_bytes PONG (if c mod 3 =? 2 then c - 1 else c).
Definition listen (v : bool) : M sim unit := modify (fun w =>
  Sim (s_lora w) (s_ping w) (s_tx w) (s_rx w) (s_now w) v (s_air w) (s_log w)).
Definition hear (l : list (list Z)) : M sim unit := modify (fun w =>
  Sim (s_lora w) (s_ping w) (s_tx w) (s_rx w) (s_now w) (s_listens w) l (s_log w)).
#[local] Instance radio : LoraEnv sim := {|
  lora_of := s_lora;
  set_lora l w := Sim l (s_ping w) (s_tx w) (s_rx w) (s_now w) (s_listens w) (s_air w) (s_log w);
  b_start := Some (fun _ => ret 0); b_stop := None; b_apply_config := None;
  b_send := Some (fun d _ => hear [answer d] ;;; on_tx_done 0 ;;; ret 0);
  b_receive := Some (fun t => listen (negb (t =? 0)) ;;; ret 0);
  b_test_rssi := None; b_test_get_rssi := None; b_test_tone := None; b_test_tx := None;
  b_test_rx := None; b_test_cw := None; b_test_stop := None;
  b_poll := Some (let* w := gets id in
    match s_listens w, s_air w with
    | true, d :: l => hear l ;;; on_rx_done d (zlen d) (-60) 20
    | _, _ => ret tt
    end);
  run_tx_done _ e _ := on_tx_done e; run_rx_done _ d n r q _ := on_rx_done d n r q |}.
#[local] Instance options : PingConfig := {|
  CONFIG_APP_PING_PONG_MANAGER := true; CONFIG_APP_PING_PONG_FREQUENCY_HZ := 868100000;
  CONFIG_APP_PING_PONG_SPREADING_FACTOR := 9; CONFIG_APP_PING_PONG_TX_POWER_DBM := 14;
  CONFIG_APP_PING_PONG_DELAY_MS := 250; CONFIG_APP_PING_PONG_RX_TIMEOUT_MS := 1000;
  CONFIG_APP_PING_PONG_REPLY_DELAY_MS := 50 |}.
#[local] Instance sim_ok : PingOk.
Proof. by split. Qed.
(** Started, with a cipher. *)
Definition ciphered : rzi_lora_config :=
  LoraConfig 868100000 9 0 0 12 14 0x3444 false true (replicate 16 0xA5) (Z.of_nat <$> seq 0 16) false false 49152 5000 0.
Definition node : sim :=
  Sim (LoraState 1 RZI_LORA_MOD_LORA ciphered (LoraCallbacks 1 1 0) 0) ping_boot false false 0 false [] [].
Definition plain : sim :=
  Sim (LoraState 1 RZI_LORA_MOD_LORA config_default (LoraCallbacks 1 1 0) 0) ping_boot false false 0 false [] [].

Example five_rounds : (manager_loop 5 (Tally 0 0 0) plain).1 = Tally 4 1 5.
Proof. vm_compute. reflexivity. Qed.
Example a_reply : let w := (rzi_lora_publish_rx (Some (frame_bytes PING 7)) 6 (-70) 12 (listen true plain).2).2 in
  let w' := (subordinate_round 1 (hear [frame_bytes PING 7] (listen true plain).2).2).2 in
  rx_frame (s_ping w) = rx_frame (s_ping w') /\ lines_of "PING %u: RSSI %d dBm, SNR %d/4 dB" (s_log w') = [[7; -60; 20]] /\
  s_air w' = [frame_bytes PONG 7].
Proof. vm_compute. done. Qed.
Lemma frames_cross_the_air_witness :
  let air := apply_cipher (frame_bytes PING 3) ciphered in
  let s := ping_of (rzi_lora_publish_rx (Some air) (zlen air) (-60) 20 node).2 in
  frame_is PING s = true /\ at_ (rx_frame s) FRAME_COUNTER_INDEX = 3.
Proof.
  assert (Hs : b_send = Some (fun d _ => hear [answer d] ;;; on_tx_done 0 ;;; ret 0)) by reflexivity.
  assert (Hst : l_started (lora_of node) <> 0) by done.
  assert (Hcb : rx_done (l_callbacks (lora_of node)) <> 0) by done.
  pose proof (frames_cross_the_air PING 3 _ node node (-60) 20 eq_refl Hs Hst Hcb
    (fun data size rssi snr u => eq_refl) eq_refl) as [_ [_ Hair]].
  destruct (Hair eq_refl eq_refl eq_refl PING) as [Hf Hc]. split; [exact Hf|exact Hc].
Defined.
End PingWitness.
