(* ===== verification/LorawanSamples.v ===== *)
(** * Shared by the FUOTA and certification samples (src/samples/lorawan)

    The provisioning of the credentials of the devicetree and the start of the
    stack, and the log lines of their callbacks. *)
From S2P Require Import Prelude Zephyr Err Power Storage LorawanSettings LorawanBackend LorawanCore LorawanCredentials LorawanChannel LorawanApi Lorawan Lora SampleKernel SampleThread.

(** The zephyr,user node of the devicetree. *)
Class UserNode : Type := {
  user_lorawan_device_eui : list Z; user_lorawan_join_eui : list Z;
  user_lorawan_app_key : list Z; user_lorawan_gen_app_key : list Z;
}.
Definition LORAWAN_REGION : Z := RZI_LORAWAN_REGION_EU_868.
Definition tx_status_str (status : rzi_lorawan_tx_status) : string :=
  match status with
  | TXDONE_SENT => "TXDONE_SENT" | TXDONE_CONFIRMED => "TXDONE_CONFIRMED" | TXDONE_NOT_SENT => "TXDONE_NOT_SENT"
  end.
Section shared.
Context `{Zephyr} `{Errno} `{Kconfig} {ctx : ExecCtx} `{LorawanBackend} `{LorawanExt} `{!LorawanHooks}
  `{!SampleThread world} `{!UserNode} (callbacks : rzi_lorawan_callbacks).
Definition log_uplink_done (status : rzi_lorawan_tx_status) (error : Z) : M world unit :=
  if negb (error =? 0) then LOG_WRN (tx_status_str status ++ ": %s") [error] else LOG_INF (tx_status_str status) [].
Definition log_downlink (d : downlink_info) : M world unit :=
  LOG_INF "Downlink: port %u, %u bytes, RSSI %d dBm, SNR %d/4 dB"
    [dl_port d; u32 (dl_size d); dl_rssi_dbm d; dl_snr_quarter_db d].
(** A step of [main]: [what] is the line of its failure. *)
Definition or_fail (what : string) (m : M world Z) (k : M world Z) : M world Z :=
  let* rc := m in if negb (rc =? 0) then LOG_ERR (what ++ " failed: %s") [rc] ;;; ret rc else k.
(** The common part of the two [main]s: callbacks, credentials and start. *)
Definition provision (k : M world Z) : M world Z :=
  or_fail "Callback registration" (rzi_lorawan_register_callbacks (Some callbacks)) (
  or_fail "Credentials" (rzi_lorawan_set_dev_eui (Some user_lorawan_device_eui) (zlen user_lorawan_device_eui)) (
  or_fail "Credentials" (rzi_lorawan_set_app_eui (Some user_lorawan_join_eui) (zlen user_lorawan_join_eui)) (
  or_fail "Credentials" (rzi_lorawan_set_app_key (Some user_lorawan_app_key) (zlen user_lorawan_app_key)) (
  or_fail "Credentials" (rzi_lorawan_set_gen_app_key (Some user_lorawan_gen_app_key) (zlen user_lorawan_gen_app_key)) (
  or_fail "Credentials" (rzi_lorawan_set_activation RZI_LORAWAN_ACTIVATION_OTAA) (
  or_fail "LoRaWAN init" (rzi_lorawan_init LORAWAN_REGION) (
  k_sem_take stack_ready K_FOREVER ;;; k))))))).
End shared.
