(* ===== verification/FuotaSample.v ===== *)
(** * The FUOTA sample (src/samples/lorawan/fuota/src/main.c)

    A main thread that starts the stack, joins until it is joined and sends on;
    its callbacks log and give semaphores. *)
From S2P Require Import Prelude Zephyr Err Power Storage LorawanSettings LorawanBackend LorawanCore LorawanCredentials LorawanChannel LorawanApi Lorawan LorawanService Fuota Lora SampleKernel SampleThread LorawanSamples.

Definition RETRY_DELAY_S : Z := 5.
Definition RETRY_DELAY : k_timeout := K_SECONDS RETRY_DELAY_S.
Definition UPLINK_INTERVAL : k_timeout := K_SECONDS 5.
Definition fuota_state_str (state : rzi_fuota_state) : string :=
  match state with
  | FUOTA_IDLE => "idle" | FUOTA_READY => "ready" | FUOTA_TRANSFERRING => "transferring"
  | FUOTA_COMPLETE => "complete" | FUOTA_FAILED => "failed" | FUOTA_APPLYING => "applying"
  end.
(** [static volatile bool joined] *)
Class JoinFlag (W : Type) : Type := { joined : W -> bool; set_joined : bool -> W -> W }.
Section sample.
Context `{Zephyr} `{Errno} `{Kconfig} {ctx : ExecCtx} `{LorawanBackend} `{LorawanExt} `{!LorawanHooks}
  `{!SampleThread world} `{!UserNode} `{!JoinFlag world} `{FuotaPlatform} `{!FuotaEnv}.
Definition put_joined (v : bool) : M world unit := modify (set_joined v).
Definition on_event (event : rzi_lorawan_event) : M world unit :=
  match event with
  | EVENT_READY | EVENT_STATE_CHANGED STATE_READY => k_sem_give stack_ready
  | EVENT_JOINED => put_joined true ;;; k_sem_give join_done
  | EVENT_JOIN_FAILED _ => put_joined false ;;; k_sem_give join_done
  | EVENT_TXDONE status error => log_uplink_done status error
  | EVENT_DOWNDATA d => log_downlink d
  | EVENT_ERROR error => LOG_ERR "Error: %s" [error]
  | _ => ret tt
  end.
Definition on_fuota_state (state : rzi_fuota_state) : M world unit := LOG_INF ("FUOTA " ++ fuota_state_str state) [].
Definition on_fuota_session_started : M world unit := LOG_INF "FUOTA transfer started" [].
Definition on_fuota_complete (status : Z) : M world unit :=
  if negb (status =? 0) then LOG_ERR "FUOTA failed: %s" [status] else LOG_INF "FUOTA finished" [].

Definition request_join : M world Z :=
  put_joined false ;;;
  k_sem_reset join_done ;;;
  let* rc := rzi_lorawan_join 1 0 RZI_LORAWAN_JOIN_INTERVAL_DEFAULT 0 in
  if negb (rc =? 0) then LOG_WRN "Join rejected: %s" [rc] ;;; ret rc else
  LOG_INF "Joining" [] ;;;
  k_sem_take join_done K_FOREVER ;;;
  let* j := gets joined in
  if negb j then LOG_WRN "Join failed, retrying in %d s" [RETRY_DELAY_S] ;;; ret (- RZI_ERR_NOT_READY)
  else ret 0.
Definition join_round : M world (option unit) :=
  let* rc := request_join in
  if rc =? 0 then ret (Some tt) else rzi_lorawan_leave ;;; thread_sleep RETRY_DELAY ;;; ret None.
(** "RZI FUOTA" *)
Definition uplink_payload : list Z := [82; 90; 73; 32; 70; 85; 79; 84; 65].
Definition uplink_round : M world unit :=
  let* rc := rzi_lorawan_send 1 (Some uplink_payload) (zlen uplink_payload) RZI_LORAWAN_MSG_UNCONFIRMED in
  (if negb (rc =? 0) && negb (rc =? - RZI_ERR_BUSY) then LOG_WRN "Uplink rejected: %s" [rc] else ret tt) ;;;
  thread_sleep UPLINK_INTERVAL.
(** [main] leaves its loops only by a failure before them: [attempts] and
    [uplinks] bound them here. *)
Definition main (callbacks : rzi_lorawan_callbacks) (fuota_callbacks : rzi_fuota_callbacks) (attempts uplinks : nat)
  : M world Z :=
  LOG_INF "RZI LoRaWAN FUOTA sample" [] ;;;
  or_fail "FUOTA callback registration" (rzi_fuota_register_callbacks (Some fuota_callbacks)) (
  provision callbacks (
    let* r := until attempts join_round in
    match r with
    | None => ret 0
    | Some _ => LOG_INF "Joined" [] ;;; for_each (seq 0 uplinks) (fun _ => uplink_round) ;;; ret 0
    end)).
(** The joining loop ends only with the network joined. *)
Lemma join_round_joined w a : (join_round w).1 = Some a -> joined (join_round w).2 = true.
Proof.
  unfold join_round. rewrite bind_eq. destruct (request_join w) as [rc w1] eqn:E. cbn [fst snd].
  destruct (Z.eqb_spec rc 0) as [->|]; [|rewrite bind_eq; destruct (rzi_lorawan_leave w1) as [? w2];
    cbn [fst snd]; rewrite bind_eq; by destruct (thread_sleep _ w2)].
  intros _. cbn. revert E. unfold request_join. rewrite bind_eq. cbn [put_joined modify fst snd].
  rewrite bind_eq. destruct (k_sem_reset _ _) as [? w2]. cbn [fst snd]. rewrite bind_eq.
  destruct (rzi_lorawan_join _ _ _ _ w2) as [rc w3]. cbn [fst snd].
  destruct (Z.eqb_spec rc 0) as [->|Hne]; cbn [negb].
  2:{ rewrite bind_eq. destruct (LOG_WRN _ _ w3). by intros [= -> _]. }
  rewrite bind_eq. destruct (LOG_INF _ _ w3) as [? w4]. cbn [fst snd]. rewrite bind_eq.
  destruct (k_sem_take _ _ w4) as [? w5]. cbn [fst snd]. rewrite bind_eq. cbn [gets fst snd].
  destruct (joined w5) eqn:Ej; cbn [negb]; [by intros [= <-]|]. rewrite bind_eq. by destruct (LOG_WRN _ _ w5).
Qed.
Lemma sample_joins attempts w : (until attempts join_round w).1 = Some tt -> joined (until attempts join_round w).2 = true.
Proof. apply (until_result join_round (fun _ v => joined v = true) join_round_joined attempts w tt). Qed.
End sample.
