(* ===== verification/LcttSample.v ===== *)
(** * The certification sample (src/samples/lorawan/lctt_certif/src/main.c)

    A main thread that starts the stack and sets its certification mode. *)
From S2P Require Import Prelude Zephyr Err Power Storage LorawanSettings LorawanBackend LorawanCore LorawanCredentials LorawanChannel LorawanApi Lorawan Lora SampleKernel SampleThread LorawanSamples.

Definition class_b_str (state : Z) : string :=
  match state with
  | 0 => "IDLE" | 1 => "ACQUIRING_BEACON" | 2 => "ACQUIRING_PING_SLOT" | 3 => "SWITCHING" | 4 => "ACTIVE"
  | _ => "CLASS_B_UNKNOWN"
  end.

Class LcttConfig : Type := { CONFIG_APP_LCTT_CERTIFICATION : bool }.
Section sample.
Context `{Zephyr} `{Errno} `{Kconfig} {ctx : ExecCtx} `{LorawanBackend} `{LorawanExt} `{!LorawanHooks}
  `{!SampleThread world} `{!UserNode} `{!LcttConfig}.
Definition on_event (event : rzi_lorawan_event) : M world unit :=
  match event with
  | EVENT_READY | EVENT_STATE_CHANGED STATE_READY => k_sem_give stack_ready
  | EVENT_JOINED => LOG_INF "Joined" []
  | EVENT_JOIN_FAILED error => LOG_WRN "Join failed: %s" [error]
  | EVENT_TXDONE status error => log_uplink_done status error
  | EVENT_DOWNDATA d => log_downlink d
  | EVENT_CLASS_B state => LOG_INF ("CLASS_B: " ++ class_b_str state) []
  | EVENT_ERROR error => LOG_ERR "Error: %s" [error]
  | _ => ret tt
  end.
(** [main] once the stack is ready. *)
Definition certify : M world Z :=
  let wanted := CONFIG_APP_LCTT_CERTIFICATION in
  let* '(rc, enabled) := rzi_lorawan_get_certification_mode (Some false) in
  if negb (rc =? 0) then LOG_ERR "Certification mode failed: %s" [rc] ;;; ret rc else
  let finish :=
    LOG_INF (if wanted then "Certification mode on; the stack joins and the LCTT takes over"
             else "Certification mode off; flash another sample now") [] ;;; ret 0 in
  if negb (Bool.eqb (default false enabled) wanted)
  then or_fail "Certification mode" (rzi_lorawan_set_certification_mode wanted) finish
  else finish.
Definition main (callbacks : rzi_lorawan_callbacks) : M world Z :=
  LOG_INF "RZI LoRaWAN certification (LCTT) sample" [] ;;; provision callbacks certify.
End sample.
