(* ===== verification/AtSample.v ===== *)
(** * The AT sample (src/samples/at/src/main.c)

    It waits for the host to open the port, gives the UART to the AT service
    and announces the start. *)
From S2P Require Import Prelude Zephyr Err Storage CString At AtArgs AtParser AtSystem.

Section sample.
Context `{Zephyr} `{Errno} `{Kconfig} {ctx : ExecCtx} `{CLong} {W : Type} `{!AtEnv W} `{!StorageEnv W}
  `{!SystemEnv W} `{!AtBoard W} `{!ModeListeners W} `{!UartDriver W} `{!AtExtensions}.
(** The rzi-at-uart alias, whether it is a USB CDC port, and its driver:
    [uart_line_ctrl_get] of DTR leaves the cell as it is when it fails. *)
Context (at_uart : Z) (cdc_acm : bool) (uart_line_ctrl_get_dtr : Z -> Z -> M W Z) (k_msleep : Z -> M W unit).
(** The loop over the 100 rounds. *)
Fixpoint wait_for_host (rounds : nat) (dtr : Z) : M W unit :=
  match rounds with
  | O => ret tt
  | S rounds =>
      if dtr =? 0 then
        let* dtr := uart_line_ctrl_get_dtr at_uart dtr in
        k_msleep 100 ;;; wait_for_host rounds dtr
      else ret tt
  end.
Definition main (builtin_register : M W Z) : M W Z :=
  let* ready := device_is_ready at_uart in
  if negb ready then ret (- RZI_ERR_NO_DEVICE) else
  (if cdc_acm then wait_for_host 100 0 else ret tt) ;;;
  let* rc := rzi_at_uart_start builtin_register at_uart in
  if negb (rc =? 0) then ret rc
  else rzi_at_publish_event ("BOOT:RZI_" ++ RZI_VERSION_STRING ++ "_" ++ CONFIG_BOARD).
(** The value announced is the one of AT+VER. *)
Lemma boot_announces_version : ("BOOT:RZI_" ++ RZI_VERSION_STRING ++ "_" ++ CONFIG_BOARD = "BOOT:" ++ VERSION_STRING)%string.
Proof. reflexivity. Qed.
End sample.
